(* ===== verification/_CoqProject ===== *)
-Q . S2P
Prelude.v
Decimal.v
Errors.v
RouteModels.v
RouteStateMachine.v
BillingModels.v
FleetModels.v
SupportModels.v
Session.v
Uuid.v
NodeDisplay.v
WgAllocator.v
Tables.v
Promo.v
Ledger.v
Referral.v
Plans.v
BillingRepo.v
Billing.v
BillingInv.v
BillingProps.v
BillingDelivery.v
OrderSettlement.v
BillingRuns.v
FleetTables.v
Routing.v
Placements.v
Keys.v
Routes.v
VlessUri.v
NodeNames.v
SupportTables.v
Devices.v
Traffic.v
RouteProps.v
ProbeRepo.v
AgentDetails.v
AdminAuth.v
AdminProps.v
Support.v
Broadcasts.v
BroadcastProps.v
SupportProps.v
Scenarios.v
Entry.v
Balancer.v
Payload.v
Nodes.v
Probe.v
WgMesh.v
EntryRouting.v
ProbeDrain.v
AutoHeal.v
AgentTransport.v
PlacementProps.v
PlacementMigrate.v
PlacementCommands.v
PlacementWorld.v
DeviceProps.v
DeviceLimit.v
ExpiryProps.v
TrafficProps.v
TrafficReport.v
PayloadProps.v
PayloadServed.v
EntryProps.v
ProbeProps.v
NodeProps.v
PlacementRuns.v
TransportProps.v
HeartbeatProps.v
AutoHealProps.v
TransportResults.v
Snapshots.v
TransportRuns.v
ProbeRuns.v
DeviceRuns.v
Finance.v
BotApi.v
Artifacts.v
