(* ===== verification/Prelude.v ===== *)
(** * The control plane of a VPN service

    The program is the API behind a VPN product: it sells plans (orders, payments,
    balances, promo codes, referrals), keeps subscriptions, and drives a fleet of
    nodes (routes with a health state, keys placed on backend nodes, commands sent
    to node agents through an outbox).  Requests and background ticks run each in
    a database session; they interact through the tables and through messages.

    ** Files and the code they model

    - [Prelude]: computations over a session that may raise ([M]), their weakest
      preconditions ([wp], total correctness), relations a computation keeps
      ([keeps], with the hint database [keeps] and [keeps_tac]), list lemmas.
    - [Decimal]: Python's [decimal] (28 digits, half even), doubles (53 bits),
      [timedelta.total_seconds], amounts in kopecks, their rounding to a
      [Numeric(10, 2)] column and their text.
    - [Errors]: the exceptions as one type.  [RouteModels], [BillingModels],
      [FleetModels]: the rows of the tables (models.py of each service), the
      enumerations and value objects (schemas.py).
    - [Session]: the database, the clock, the identifier supply, effects outside
      the transaction; commit and rollback (shared/database/session.py); the
      generic repository (shared/database/base_repository.py) over an interface of
      mapped tables with laws, bulk UPDATE, frames; methods that commit or roll back in
      the middle, the session around a handler and around a tick.  [Tables], [FleetTables]: the
      tables with their unique and CHECK constraints.
    - [Promo] (services/promo), [Ledger] (the balance operations of
      services/billing/service.py), [Referral] (services/referral), [Plans]
      (services/plans).
    - [BillingRepo] (services/billing/repository.py), [Billing]
      (services/billing/service.py and reconcilers): order creation of every type,
      proration, fulfilment, webhooks, Stars, refunds, expiry and auto-renewal.
      Payment gateways are a record of functions; [SubscriptionService.activate]
      is the class [SubscriptionActivation], which says what billing relies on and
      of which [DeviceProps] shows the real one to be an instance; [DeviceProps]
      also shows that it returns, and so that a paid order is delivered.
      [BillingInv], [BillingProps], [BillingDelivery]: invariant and theorems;
      [BillingRuns]: instances on concrete databases.
    - [Uuid] (the text of UUIDs), [NodeDisplay] (shared/utils/node_display.py and
      services/nodes/naming), [WgAllocator] (services/wg/allocator.py).
    - [RouteStateMachine] (services/routes/state_machine.py): health actions, probe
      verdicts, warm-up ticks.
    - [Routing] (services/routing: selector.py, service.py and repository.py).
    - [Placements] (services/placements: repository, transport, services,
      reconcilers; the outbox of services/nodes/agent/repository.py).
      [PlacementProps]: invariant, histories, fenced reports; [PlacementMigrate];
      [PlacementCommands]: the outbox; [PlacementRuns]: instances.
    - [Routes] (services/routes: service, repository, reconcilers), [RouteProps].
    - [Entry] (services/entry/service.py, repository.py, events.py, drain_service.py and
      its reconciler), [EntryProps].
    - [ProbeRepo] (services/probe/repository.py, services/alerts/repository.py),
      [Probe] (services/probe/ingestion_service.py), [ProbeDrain]
      (services/probe/drain_service.py and reconcilers); [ProbeProps], [ProbeRuns].
    - [Tables] also holds the cache of services/vpn/subscriptions/cache.py.  [Keys] (services/vpn/keys),
      [Devices] (services/vpn/subscriptions: tokens, terms, device slots, key
      bundles), [Traffic] (services/traffic/users; the expiration and first-connection
      reconcilers of subscriptions).  [PlacementWorld]: switching the placements of
      keys; [DeviceProps], [DeviceLimit], [ExpiryProps], [TrafficProps],
      [TrafficReport]: theorems; [DeviceRuns]: a household and its
      payload.
    - [VlessUri] (shared/profiles: links, with the parts of urllib, base64, ipaddress and
      json they use; their round trip); [NodeNames] (services/nodes/naming, services/zones);
      [Balancer] (services/balancer/entry.py); [Payload] (the payload of
      services/vpn/subscriptions/service.py: routes of a transport, substitutes, merge,
      size limit, tag, cached answers); [PayloadProps], [PayloadServed]: theorems.
    - [AgentDetails] (the JSON an agent's state keeps), [Nodes]
      (services/nodes/service.py, repository.py, router.py; the token checks of
      services/auth/dependencies.py), [NodeProps].
    - [AutoHeal] (services/nodes/auto_heal_service.py and its reconciler),
      [AutoHealProps]; instances in [ProbeRuns].
    - [AgentTransport] (the outbox publisher and the consumer of placement results
      of services/nodes/agent/runtime.py; heartbeats and sync reports), [Snapshots];
      [TransportProps], [TransportResults], [HeartbeatProps]: theorems;
      [TransportRuns]: instances.
    - [SupportModels], [SupportTables]: rows and tables of the administrators, scenarios, expenses and of
      support.  [AdminAuth] (services/auth/admin; the guards of
      services/auth/dependencies.py), [AdminProps].
    - [Support] (services/support: tickets,
      messages, templates, grants and refunds, the consumers), [Broadcasts]
      (audiences, fan-out, dispatch with retries, recurring schedules and both
      reconcilers); [BroadcastProps], [SupportProps], [OrderSettlement]: theorems and
      instances.
    - [Scenarios] (services/scenarios: campaigns, enrolment, the reconciler, statistics),
      [WgMesh] (services/wg/service.py and publisher.py; the part the publishers of buckets
      share), [EntryRouting] (services/routing/entry), [Finance] (services/finance: expenses,
      recurring templates, their reconciler), [BotApi] (services/bot_api and services/users),
      [Artifacts] (services/artifacts; shared/profiles/artifact_mapper.py): definitions,
      theorems, instances.

    ** What the theorems show

    - Money: through any history of requests and ticks, failed ones included, each
      balance is the sum of its transactions (up to a kopeck for each manual credit or
      debit of a fraction of one) and an order is credited at most once;
      redelivered webhooks and repeated confirmations change nothing; orders only
      move along the allowed status steps; fee and net add up; proration stays
      within the price, in the program's own float and decimal arithmetic.
    - Delivery: fulfilling a paid order, activation included, returns and leaves an
      active subscription for at least the paid period; a trial is granted once; the expiry tick
      touches only overdue pending orders.
    - Access: a revoked device and an expired subscription lose their keys and every
      node is told, all other subscriptions keeping theirs; the active devices stay within the limit through any requests; a
      device gets one key per transport; traffic reports are booked exactly and once,
      and cut off whoever reaches a limit and nobody else; a reset belongs to one
      period of the calendar.
    - Payloads: a device is sent links of its own keys for routes that serve and that the
      plan includes, within the size limit and never cut more than needed; the balancer
      picks the least loaded entry; a link reads back as it was written, its description
      to thirty characters.
    - Promo codes, referrals, plans: counters equal recorded activations, discounts
      are within the amount, rewards are paid once, plan prices mirror periods.
    - Routes: reachable states satisfy the CHECK constraints, warm-up terminates,
      cooldowns hold; the selector returns as many distinct routes as asked for,
      starting on the preferred backend and with two transports when there are two;
      node selection returns exactly the eligible nodes by score.
    - Placements: through any operations and ticks of both reconcilers versions never
      decrease and intent changes only under a new one, so reports of nodes are fenced and the outbox may deduplicate by version
      without losing a command; migration loses no key and tells the target.
    - Agents: while the broker accepts messages the outbox drains, each command sent
      once; redelivered results change nothing; a snapshot holds exactly the current
      commands; a stream of heartbeats moves a node as a counter machine does, and an
      administrator's drain outlives it; a rotated token is accepted as long as the
      grace period says.
    - Route service and entries: a warm-up tick refines the health machine, the
      administrator sees as eligible what the resolution serves, relay pools are
      exact and every entry of a backend is told of its changes.
    - Probes: a report moves at most its route, by a step of the health machine and at
      the thresholds of the policy; a healthy path through an entry shields the route;
      a late report is only stored; automatic drains are justified by the signals.
    - Healing: the keys an unavailable node alone serves are placed on eligible nodes,
      evenly, and the nodes are sent the commands; an administrator's drain is kept.
    - Administrators: whatever requests arrive, one active administrator remains; a
      password login opens a session that lasts as long as it should, or none; the
      limiter bounds the attempts of an address.
    - Support: a due broadcast goes out once to everyone of its audience the bot can
      reach, or again after the back-off, and is settled after at most five attempts; a ticket is dated exactly while
      it is closed; no order is ever left paid and not completed, so that the refund of
      the support desk, which looks for one, finds none.
    - Scenarios: a tick moves each due state by one step of the machine its campaign's graph
      is, publishes the messages of these steps and touches nothing else; a campaign without cycles ends, with a bounded number of
      messages, however the data of the user change.
    - Buckets: mesh addresses stay distinct, peers are mutual, and what a tick leaves in the
      bucket has the current addresses and keys; the specification of an entry routes every live key where its
      override or its digest says and defines every outbound a rule or a group names, and
      the administrators are shown the same backend where the entries have the same
      candidates.
    - Expenses: a tick books one expense for each date of a due template up to now, sixty at
      most, and moves it past them; the dates follow each other by one week, month or year of the calendar.
    - The bot: a request that changes anything is made by a user who accepted the terms, and
      on what is theirs; the state and the link it shows are those of the subscriptions the
      user has; signing in twice is signing in once.
    - Artifacts: a published registry is the active one, under a new version; the bootstrap
      makes the whole matrix of routes or refuses, touches nothing else, and a second run
      finds nothing to do.
    - Behaviours that differ from what the code means to do are theorems too, most
      of them on concrete databases in the [Runs] files.

    ** Representation

    - A UUID, an id or a user number is a [Z]; a timestamp is a UTC instant in
      microseconds; money is kopecks, rational in the inputs that are [Decimal]s without
      a bound on their decimals (manual credits and debits, top-ups), and rounded as
      PostgreSQL does where a column takes it.  A table is a finite map by id, or a list
      when rows are only inserted.  The [n]-th reading of the clock is [clock n];
      ids come from a supply; where a theorem needs an id not to be taken, it says
      so.
    - A request is atomic: row locks and concurrent sessions are not modelled, an
      interleaving is a sequence of requests.  After an exception the state written
      so far is kept in the model and discarded by the request boundary.
    - The broker of support messages is a predicate of the messages it takes; the text
      functions [str.lower] and LOWER and the average of the database are parameters.
      After a rollback the attributes of loaded rows are expired: reading one outside of
      an awaited call raises [MissingGreenlet].
    - Fuel: [digits_fuel] counts decimal digits with the binary length as fuel,
      which [digits_spec] proves enough; [diversity_loop] runs with the length of
      its pool, and [diversity_loop_perm] proves that it ends at the limit or with
      the pool used up; [draw_code] of [Referral] and
      [walk] of [Scenarios] have the source's bounds on attempts and on nodes, and
      [catch_up] of [Finance] that on the dates booked at once.
    - Digests (the tie-break of the balancer, the choice of a backend, the signatures of
      published payloads) are parameters; where it matters that they do not collide, the
      theorem says so.  A bucket of NATS is a map, and a write to it may fail.
    - [random.Random] is an interface ([Random]) with one law, so the selector's
      theorems hold for every generator.

    ** Not modelled

    HTTP routers and schemas beyond their validators, metrics and logs, foreign
    keys, the width of integer and numeric columns (but for the fee percentage),
    payment gateways, Telegram, NATS, Redis and S3 clients, the admin front end and
    dashboards, the live numbers of the entries, the analytics of finance in floating point,
    the device names the bot shows, the connect
    pages (adapters over the services above), migrations. *)

From stdpp Require Import base gmap strings list pretty sorting.
From Stdlib Require Import ZArith Lia.

Local Open Scope Z_scope.

(** * Computations of a database session

    A service method runs inside one database session: it reads and writes the
    session state and may raise.  An exception does not undo the writes made
    before it; only the request boundary does (see [run_request] in
    [Session]).  Hence the state is returned on both outcomes. *)

Inductive outcome (E A : Type) : Type :=
| Ok (a : A)
| Raise (e : E).
Arguments Ok {E A} a.
Arguments Raise {E A} e.

Definition M (S E A : Type) : Type := S → outcome E A * S.

#[export] Instance M_ret {S E} : MRet (M S E) := λ A a s, (Ok a, s).

#[export] Instance M_bind {S E} : MBind (M S E) := λ A B f m s,
  match m s with
  | (Ok a, s') => f a s'
  | (Raise e, s') => (Raise e, s')
  end.

#[export] Instance M_fmap {S E} : FMap (M S E) := λ A B f m s,
  match m s with
  | (Ok a, s') => (Ok (f a), s')
  | (Raise e, s') => (Raise e, s')
  end.

Definition raise {S E A} (e : E) : M S E A := λ s, (Raise e, s).
Definition gets {S E A} (f : S → A) : M S E A := λ s, (Ok (f s), s).
Definition modify {S E} (f : S → S) : M S E unit := λ s, (Ok tt, f s).

(** [try: m except: h]. *)
Definition catch {S E A} (m : M S E A) (h : E → M S E A) : M S E A := λ s,
  match m s with
  | (Ok a, s') => (Ok a, s')
  | (Raise e, s') => h e s'
  end.

(** [if c: raise e]. *)
Definition raise_if {S E} (c : bool) (e : E) : M S E unit :=
  if c then raise e else mret tt.

(** [if c: m]. *)
Definition when {S E} (c : bool) (m : M S E unit) : M S E unit :=
  if c then m else mret tt.

(** [for x in l: f x]. *)
Fixpoint for_each {S E A} (f : A → M S E unit) (l : list A) : M S E unit :=
  match l with
  | [] => mret tt
  | x :: l => f x ;; for_each f l
  end.

(** [for x in l: acc = f acc x]. *)
Fixpoint fold_m {S E A B} (f : B → A → M S E B) (acc : B) (l : list A) : M S E B :=
  match l with
  | [] => mret acc
  | x :: l => acc' ← f acc x; fold_m f acc' l
  end.

(** ** Weakest preconditions

    [wp m Q R s]: started in [s], [m] either returns a value satisfying [Q]
    or raises an exception satisfying [R].  Computations are total, so this is
    total correctness. *)

Definition wp {S E A} (m : M S E A) (Q : A → S → Prop) (R : E → S → Prop) (s : S) : Prop :=
  match m s with
  | (Ok a, s') => Q a s'
  | (Raise e, s') => R e s'
  end.

Section Wp.
Context {S E : Type}.
Implicit Types (s : S).

Lemma wp_ret {A} (a : A) Q R s : Q a s → wp (E:=E) (mret a) Q R s.
Proof. done. Qed.

Lemma wp_raise {A} (e : E) (Q : A → S → Prop) R s : R e s → wp (raise e) Q R s.
Proof. done. Qed.

Lemma wp_bind {A B} (m : M S E A) (f : A → M S E B) Q R s :
wp m (λ a s', wp (f a) Q R s') R s → wp (m ≫= f) Q R s.
Proof. unfold wp, mbind, M_bind. by destruct (m s) as [[] ?]. Qed.

Lemma wp_gets {A} (f : S → A) Q R s : Q (f s) s → wp (E:=E) (gets f) Q R s.
Proof. done. Qed.

Lemma wp_modify f (Q : unit → S → Prop) R s : Q tt (f s) → wp (E:=E) (modify f) Q R s.
Proof. done. Qed.

Lemma wp_catch {A} (m : M S E A) h Q R s :
wp m Q (λ e s', wp (h e) Q R s') s → wp (catch m h) Q R s.
Proof. unfold wp, catch. by destruct (m s) as [[] ?]. Qed.

Lemma wp_raise_if c e (Q : unit → S → Prop) R s :
(c = true → R e s) → (c = false → Q tt s) → wp (E:=E) (raise_if c e) Q R s.
Proof. destruct c; cbn; auto. Qed.

Lemma wp_when c m (Q : unit → S → Prop) R s :
(c = true → wp m Q R s) → (c = false → Q tt s) → wp (E:=E) (when c m) Q R s.
Proof. destruct c; cbn; auto. Qed.

Lemma wp_mono {A} (m : M S E A) (Q Q' : A → S → Prop) (R R' : E → S → Prop) s :
wp m Q R s → (∀ a s', Q a s' → Q' a s') → (∀ e s', R e s' → R' e s') → wp m Q' R' s.
Proof. unfold wp. destruct (m s) as [[] ?]; auto. Qed.

Lemma wp_and {A} (m : M S E A) (Q1 Q2 : A → S → Prop) (R1 R2 : E → S → Prop) s :
wp m Q1 R1 s → wp m Q2 R2 s →
wp m (λ a s', Q1 a s' ∧ Q2 a s') (λ e s', R1 e s' ∧ R2 e s') s.
Proof. unfold wp. destruct (m s) as [[] ?]; auto. Qed.

(** From a run to its postcondition. *)
Lemma wp_ok {A} (m : M S E A) Q R s a s' : wp m Q R s → m s = (Ok a, s') → Q a s'.
Proof. unfold wp. intros H Hm. by rewrite Hm in H. Qed.

Lemma wp_exn {A} (m : M S E A) Q R s e s' : wp m Q R s → m s = (Raise e, s') → R e s'.
Proof. unfold wp. intros H Hm. by rewrite Hm in H. Qed.
End Wp.

(** ** Preservation

    [keeps P m]: whatever the outcome of [m], the relation [P] holds between
    the state before and the state after.  For a preorder [P] this composes
    along every control structure, so a frame or an invariant of a service
    method follows from those of the repository calls it makes. *)

Definition keeps {S E A} (P : S → S → Prop) (m : M S E A) : Prop :=
  ∀ s, P s (m s).2.

Section Keeps.
Context {S E : Type} (P : S → S → Prop) `{!PreOrder P}.

Lemma keeps_ret {A} (a : A) : keeps (E:=E) P (mret a).
Proof using Type*. intros s. cbn. reflexivity. Qed.

Lemma keeps_raise {A} (e : E) : keeps (A:=A) P (raise e).
Proof using Type*. intros s. cbn. reflexivity. Qed.

Lemma keeps_gets {A} (f : S → A) : keeps (E:=E) P (gets f).
Proof using Type*. intros s. cbn. reflexivity. Qed.

Lemma keeps_modify f : (∀ s, P s (f s)) → keeps (E:=E) P (modify f).
Proof using Type*. intros H s. apply H. Qed.

Lemma keeps_bind {A B} (m : M S E A) (f : A → M S E B) :
keeps P m → (∀ a, keeps P (f a)) → keeps P (m ≫= f).
Proof using Type*.
intros Hm Hf s. specialize (Hm s). unfold mbind, M_bind.
destruct (m s) as [[a|e] s1]; cbn in *; [|done].
etrans; [exact Hm|apply Hf].
Qed.

Lemma keeps_catch {A} (m : M S E A) h :
keeps P m → (∀ e, keeps P (h e)) → keeps P (catch m h).
Proof using Type*.
intros Hm Hh s. specialize (Hm s). unfold catch.
destruct (m s) as [[a|e] s1]; cbn in *; [done|].
etrans; [exact Hm|apply Hh].
Qed.

Lemma keeps_raise_if c e : keeps (E:=E) P (raise_if c e).
Proof using Type*. destruct c; [apply keeps_raise|apply keeps_ret]. Qed.

Lemma keeps_when c m : keeps (E:=E) P m → keeps P (when c m).
Proof using Type*. destruct c; [done|intros _; apply keeps_ret]. Qed.

Lemma keeps_for_each {A} (f : A → M S E unit) l :
(∀ x, keeps P (f x)) → keeps P (for_each f l).
Proof using Type*.
intros Hf. induction l as [|x l IH]; cbn; [apply keeps_ret|].
apply keeps_bind; auto.
Qed.

Lemma keeps_fold_m {A B} (f : B → A → M S E B) acc l :
(∀ b x, keeps P (f b x)) → keeps P (fold_m f acc l).
Proof using Type*.
intros Hf. revert acc. induction l as [|x l IH]; intros acc; cbn; [apply keeps_ret|].
apply keeps_bind; auto.
Qed.
End Keeps.

Lemma keeps_by_wp {S E A} (P : S → S → Prop) (m : M S E A) :
  (∀ s, wp m (λ _ s', P s s') (λ _ s', P s s') s) → keeps P m.
Proof. intros H s. specialize (H s). unfold wp in H. by destruct (m s) as [[] ?]. Qed.

Create HintDb keeps discriminated.
#[export] Hint Resolve keeps_ret keeps_raise keeps_gets keeps_raise_if : keeps.

(** Decompose the control structure of a method; leaves are closed by the
    [keeps] hint database, which the components extend. *)
Ltac keeps_step :=
  lazymatch goal with
  | |- ∀ _, keeps _ _ => intros ?
  | |- keeps _ (mbind _ _) => apply keeps_bind; [try exact _| |]
  | |- keeps _ (catch _ _) => apply keeps_catch; [try exact _| |]
  | |- keeps _ (when _ _) => apply keeps_when; [try exact _|]
  | |- keeps _ (for_each _ _) => apply keeps_for_each; [try exact _|]
  | |- keeps _ (fold_m _ _ _) => apply keeps_fold_m; [try exact _|]
  | |- keeps _ (match ?x with _ => _ end) => destruct x
  | |- keeps _ (let '_ := ?x in _) => destruct x
  end.
Ltac keeps_tac := repeat (first [solve [eauto with keeps typeclass_instances] | keeps_step]).

(** ** Computations that always return *)

Definition returns {S E A} (m : M S E A) : Prop := ∀ s, ∃ a s', m s = (Ok a, s').

Lemma returns_ret {S E A} (a : A) : returns (S:=S) (E:=E) (mret a).
Proof. intros s. by eexists _, _. Qed.

Lemma returns_gets {S E A} (f : S → A) : returns (E:=E) (gets f).
Proof. intros s. by eexists _, _. Qed.

Lemma returns_modify {S E} (f : S → S) : returns (E:=E) (modify f).
Proof. intros s. by eexists _, _. Qed.

Lemma returns_bind {S E A B} (m : M S E A) (f : A → M S E B) :
  returns m → (∀ a, returns (f a)) → returns (m ≫= f).
Proof.
  intros Hm Hf s. destruct (Hm s) as (a & s1 & E1). destruct (Hf a s1) as (b & s2 & E2).
  exists b, s2. unfold mbind, M_bind. by rewrite E1.
Qed.

Lemma returns_when {S E} c (m : M S E unit) : returns m → returns (when c m).
Proof. destruct c; [done|intros _; apply returns_ret]. Qed.

Lemma returns_catch {S E A} (m : M S E A) h : (∀ e, returns (h e)) → returns (catch m h).
Proof.
  intros Hh s. unfold catch. destruct (m s) as [[a|e] s1]; [by eexists _, _|]. apply Hh.
Qed.

(** A computation that keeps [P] and always returns. *)
Lemma wp_returns {S E A} (P : S → S → Prop) (m : M S E A) s :
  keeps P m → returns m → wp m (λ _ s', P s s') (λ _ _, False) s.
Proof.
  intros Hk Hr. specialize (Hk s). unfold wp. destruct (Hr s) as (a & s' & E1).
  by rewrite E1 in *.
Qed.

Lemma wp_returns_at {S E A} (P : S → S → Prop) (m : M S E A) s :
  keeps P m → (∃ a s', m s = (Ok a, s')) → wp m (λ _ s', P s s') (λ _ _, False) s.
Proof. intros Hk (a & s' & E1). specialize (Hk s). unfold wp. by rewrite E1 in *. Qed.

(** * Lists *)

Section Filter.
Context {A : Type} (P : A → Prop) `{!∀ x, Decision (P x)}.
Implicit Types l : list A.

Lemma filter_all l : Forall P l → filter P l = l.
Proof using Type*.
induction 1 as [|x l Hx _ IH]; [done|]. by rewrite filter_cons_True, IH.
Qed.

Lemma filter_ext_in (Q : A → Prop) `{!∀ x, Decision (Q x)} l :
(∀ x, x ∈ l → P x ↔ Q x) → filter P l = filter Q l.
Proof using Type*.
induction l as [|x l IH]; intros Hl; [done|].
assert (IH' : filter P l = filter Q l) by (apply IH; intros y Hy; apply Hl; by right).
destruct (decide (P x)) as [HP|HP].
- rewrite !filter_cons_True, IH'; [done|by apply Hl; [left|]|done].
- rewrite !filter_cons_False, IH'; [done|by rewrite <-(Hl x); [|left]|done].
Qed.

Lemma filter_none l : Forall (λ x, ¬ P x) l → filter P l = [].
Proof using Type*.
induction 1 as [|x l Hx _ IH]; [done|]. by rewrite filter_cons_False, IH.
Qed.

Lemma filter_unchanged l : (∀ x, x ∈ l → P x) → filter P l = l.
Proof using Type*. intros Hl. by apply filter_all, Forall_forall. Qed.

Lemma filter_empty l : (∀ x, x ∈ l → ¬ P x) → filter P l = [].
Proof using Type*. intros Hl. by apply filter_none, Forall_forall. Qed.
End Filter.
