(* ===== verification/Decimal.v ===== *)
(** Python's [decimal] arithmetic as the billing code uses it: quantizing to
    kopecks, the 28-digit context of [Decimal] division and multiplication, and
    the double that [timedelta.total_seconds] returns. *)

From stdpp Require Import base numbers list strings pretty.
From S2P Require Import Prelude.
Local Open Scope Z_scope.

(** * Rounding a quotient to an integer *)

(** Half away from zero. *)
Definition round_half_up (n d : Z) : Z :=
  Z.sgn n * ((2 * Z.abs n + d) / (2 * d)).

(** Half to even, for [0 <= n] and [0 < d]. *)
Definition round_half_even (n d : Z) : Z :=
  let q := n / d in
  let r := n mod d in
  if 2 * r <? d then q
  else if d <? 2 * r then q + 1
  else if Z.even q then q else q + 1.

(** * Positive rationals *)

(** A rational [num / den]. *)
Record rat := { num : Z; den : Z }.

Definition rat_div (a b : rat) : rat := {| num := num a * den b; den := den a * num b |}.
Definition rat_mul (a b : rat) : rat := {| num := num a * num b; den := den a * den b |}.
Definition rat_of_Z (z : Z) : rat := {| num := z; den := 1 |}.

(** Round to a multiple of [base ^ -k]. *)
Definition round_scale (base k : Z) (a : rat) : rat :=
  {| num := round_half_even (num a * base ^ Z.max k 0) (den a * base ^ Z.max (- k) 0)
            * base ^ Z.max (- k) 0;
     den := base ^ Z.max k 0 |}.

(** The number of decimal digits of a positive integer. *)
Fixpoint digits_fuel (fuel : nat) (n : Z) : Z :=
  match fuel with
  | O => 0
  | S fuel => if n <? 1 then 0 else 1 + digits_fuel fuel (n / 10)
  end.
Definition digits (n : Z) : Z := digits_fuel (S (Z.to_nat (Z.log2 n))) n.

(** [floor(log10(a))] of a positive rational. *)
Definition log10 (a : rat) : Z :=
  let e := digits (num a) - digits (den a) in
  if den a * 10 ^ Z.max e 0 <=? num a * 10 ^ Z.max (- e) 0 then e else e - 1.

(** [floor(log2(a))] of a positive rational. *)
Definition log2 (a : rat) : Z :=
  let e := Z.log2 (num a) - Z.log2 (den a) in
  if den a * 2 ^ Z.max e 0 <=? num a * 2 ^ Z.max (- e) 0 then e else e - 1.

(** A result of [Decimal] division or multiplication: 28 significant digits,
    half to even (the default context). *)
Definition dec28 (a : rat) : rat :=
  if num a <=? 0 then a else round_scale 10 (27 - log10 a) a.

(** The nearest double: 53 significant bits, half to even. *)
Definition float53 (a : rat) : rat :=
  if num a <=? 0 then a else round_scale 2 (52 - log2 a) a.

(** Arithmetic on nonnegative doubles. *)
Definition float_add (a b : rat) : rat :=
  float53 {| num := num a * den b + num b * den a; den := den a * den b |}.
Definition float_sub (a b : rat) : rat :=
  float53 {| num := num a * den b - num b * den a; den := den a * den b |}.
Definition float_mul (a b : rat) : rat := float53 (rat_mul a b).
Definition float_ltb (a b : rat) : bool := num a * den b <? num b * den a.
Definition float_zero : rat := {| num := 0; den := 1 |}.
Definition float_max (a b : rat) : rat := if float_ltb a b then b else a.
Definition float_min (a b : rat) : rat := if float_ltb b a then b else a.

(** An amount of kopecks that need not be whole: a [Decimal] without a bound on its decimals.
    Sums of [Decimal]s of at most 28 digits are exact. *)
Definition rat_add (a b : rat) : rat := {| num := num a * den b + num b * den a; den := den a * den b |}.
Definition rat_opp (a : rat) : rat := {| num := - num a; den := den a |}.
Definition rat_ltb (a b : rat) : bool := num a * den b <? num b * den a.

(** What a [Numeric(10, 2)] column keeps of it: PostgreSQL rounds half away from zero. *)
Definition to_column (a : rat) : Z := round_half_up (num a) (den a).

(** [quantize(Decimal("0.01"))] in hundredths. *)
Definition quantize_even (a : rat) : Z := round_half_even (num a * 100) (den a).

(** [timedelta.total_seconds] of [us] microseconds. *)
Definition total_seconds (us : Z) : rat := float53 {| num := us; den := 1000000 |}.

(** * Text *)

(** Two digits of [0 <= r < 100]. *)
Definition two_digits (r : Z) : string :=
  (if r <? 10 then "0" else "") +:+ pretty r.

(** [str(amount)] of an amount of kopecks with two decimals. *)
Definition rub_str (k : Z) : string :=
  (if k <? 0 then "-" else "") +:+ pretty (Z.abs k / 100) +:+ "." +:+ two_digits (Z.abs k mod 100).

(** * Lemmas *)

Lemma round_half_up_bounds n d :
  0 < d → 0 ≤ n → 2 * n - d < 2 * d * round_half_up n d ≤ 2 * n + d.
Proof.
  intros Hd Hn. unfold round_half_up. rewrite Z.abs_eq by done.
  destruct (Z.eq_dec n 0) as [->|Hne].
  { cbn. lia. }
  rewrite (Z.sgn_pos n), Z.mul_1_l by lia.
  pose proof (Z.div_mod (2 * n + d) (2 * d) ltac:(lia)).
  pose proof (Z.mod_pos_bound (2 * n + d) (2 * d) ltac:(lia)). lia.
Qed.

Lemma to_column_whole n d : d = 1 → to_column {| num := n; den := d |} = n.
Proof.
  intros ->. unfold to_column, round_half_up. cbn [num den]. replace (2 * 1) with 2 by done.
  replace (2 * Z.abs n + 1) with (1 + Z.abs n * 2) by lia. rewrite Z.div_add by done.
  change (1 / 2) with 0. rewrite Z.add_0_l, Z.mul_comm. apply Z.abs_sgn.
Qed.

Lemma round_half_up_error n d : 0 < d → Z.abs (2 * d * round_half_up n d - 2 * n) ≤ d.
Proof.
  intros Hd. unfold round_half_up.
  pose proof (Z.div_mod (2 * Z.abs n + d) (2 * d) ltac:(lia)).
  pose proof (Z.mod_pos_bound (2 * Z.abs n + d) (2 * d) ltac:(lia)).
  set (q := (2 * Z.abs n + d) / (2 * d)) in *. clearbody q.
  destruct (Z.sgn_spec n) as [[Hn ->]|[[Hn ->]|[Hn ->]]]; lia.
Qed.

(** Adding an amount to a column and rounding, or rounding the amount and adding it, differ by
    at most one kopeck, and not at all for whole kopecks. *)
Lemma to_column_add b a :
  0 < den a → Z.abs (to_column (rat_add (rat_of_Z b) a) - (b + to_column a)) ≤ 1.
Proof.
  intros Hd. unfold to_column, rat_add. cbn [num den rat_of_Z]. rewrite Z.mul_1_l, Z.mul_1_r.
  pose proof (round_half_up_error (num a) (den a) Hd). pose proof (round_half_up_error (b * den a + num a) (den a) Hd).
  set (y := round_half_up (num a) (den a)) in *. set (x := round_half_up (b * den a + num a) (den a)) in *.
  clearbody x y. destruct a as [n d]. cbn [num den] in *. assert (- (2 * d) ≤ 2 * d * (x - (b + y)) ≤ 2 * d) by lia. nia.
Qed.

Definition whole (a : rat) : bool := num a mod den a =? 0.

Lemma whole_opp a : 0 < den a → whole a = true → whole (rat_opp a) = true.
Proof. intros Hd E%Z.eqb_eq. apply Z.eqb_eq, Z.mod_opp_l_z; [cbn; lia|done]. Qed.

Lemma to_column_add_whole b a :
  0 < den a → whole a = true → to_column (rat_add (rat_of_Z b) a) = b + to_column a.
Proof.
  intros Hd [k Hk]%Z.eqb_eq%Z.mod_divide; [|lia]. unfold to_column, rat_add. cbn [num den rat_of_Z].
  rewrite Z.mul_1_l, Z.mul_1_r.
  assert (∀ m, round_half_up (m * den a) (den a) = m) as Hm.
  { intros m. pose proof (round_half_up_error (m * den a) (den a) Hd). set (x := round_half_up _ _) in *. clearbody x.
    assert (Z.abs (2 * den a * (x - m)) ≤ den a) by lia. nia. }
  rewrite Hk, <-Z.mul_add_distr_r, !Hm. done.
Qed.

Lemma round_half_up_nonneg n d : 0 < d → 0 ≤ n → 0 ≤ round_half_up n d.
Proof.
  intros Hd Hn. unfold round_half_up. rewrite Z.abs_eq by done.
  apply Z.mul_nonneg_nonneg; [|apply Z.div_pos; lia].
  by rewrite Z.sgn_nonneg.
Qed.

(** Rounding [a * p / d] with [p <= d] does not exceed [a]. *)
Lemma round_half_up_le a p d : 0 < d → 0 ≤ a → 0 ≤ p ≤ d → round_half_up (a * p) d ≤ a.
Proof.
  intros Hd Ha Hp.
  pose proof (round_half_up_bounds (a * p) d Hd ltac:(nia)) as [_ Hu].
  assert (2 * d * round_half_up (a * p) d ≤ 2 * d * a + d) by nia. nia.
Qed.

Lemma round_half_even_nonneg n d : 0 < d → 0 ≤ n → 0 ≤ round_half_even n d.
Proof.
  intros Hd Hn. unfold round_half_even. cbv zeta.
  pose proof (Z.div_pos n d Hn Hd).
  repeat case_match; lia.
Qed.

(** Half to even never crosses an integer bound. *)
Lemma round_half_even_le n d m : 0 < d → n ≤ m * d → round_half_even n d ≤ m.
Proof.
  intros Hd Hle. unfold round_half_even. cbv zeta.
  pose proof (Z.div_mod n d ltac:(lia)) as Hdm.
  pose proof (Z.mod_pos_bound n d ltac:(lia)) as Hr.
  destruct (Z.eq_dec (n / d) m) as [Heq|Hne].
  - assert (n mod d = 0) by nia.
    destruct (Z.ltb_spec (2 * (n mod d)) d); lia.
  - assert (n / d < m) by nia.
    repeat case_match; lia.
Qed.

Lemma round_half_even_ge n d m : 0 < d → m * d ≤ n → m ≤ round_half_even n d.
Proof.
  intros Hd Hle. pose proof (Z.div_le_lower_bound n d m Hd ltac:(lia)).
  unfold round_half_even. cbv zeta. repeat case_match; lia.
Qed.

(** Digit counts. *)
Lemma digits_fuel_spec fuel n :
  0 ≤ n < 2 ^ Z.of_nat fuel → n < 10 ^ digits_fuel fuel n ∧ (0 < n → 10 ^ (digits_fuel fuel n - 1) ≤ n)
    ∧ 0 ≤ digits_fuel fuel n.
Proof.
  revert n. induction fuel as [|fuel IH]; intros n Hn; cbn [digits_fuel].
  { cbn in *. lia. }
  destruct (Z.ltb_spec n 1); [cbn; lia|].
  assert (Hdiv : 0 ≤ n / 10 < 2 ^ Z.of_nat fuel).
  { rewrite Nat2Z.inj_succ, Z.pow_succ_r in Hn by lia.
    split; [apply Z.div_pos; lia|]. apply Z.div_lt_upper_bound; lia. }
  destruct (IH (n / 10) Hdiv) as (Hlt & Hge & Hnn).
  pose proof (Z.div_mod n 10 ltac:(lia)). pose proof (Z.mod_pos_bound n 10 ltac:(lia)).
  split_and!; [|intros _|lia].
  - rewrite Z.pow_add_r by lia. lia.
  - destruct (Z.eq_dec (n / 10) 0) as [E0|Hn0].
    + destruct (Z.eq_dec (digits_fuel fuel (n / 10)) 0) as [E|E].
      * rewrite E. cbn. lia.
      * rewrite E0 in E. exfalso. apply E. destruct fuel; reflexivity.
    + specialize (Hge ltac:(lia)). destruct (Z.eq_dec (digits_fuel fuel (n / 10)) 0) as [E|E].
      * rewrite E in Hlt. cbn in Hlt. lia.
      * replace (1 + digits_fuel fuel (n / 10) - 1) with (1 + (digits_fuel fuel (n / 10) - 1)) by lia.
        rewrite Z.pow_add_r by lia. lia.
Qed.

Lemma digits_spec n : 0 < n → 10 ^ (digits n - 1) ≤ n < 10 ^ digits n ∧ 1 ≤ digits n.
Proof.
  intros Hn. unfold digits.
  pose proof (Z.log2_spec n Hn) as [_ Hu]. pose proof (Z.log2_nonneg n).
  destruct (digits_fuel_spec (S (Z.to_nat (Z.log2 n))) n) as (Hlt & Hge & Hnn).
  { rewrite Nat2Z.inj_succ, Z2Nat.id by lia. lia. }
  specialize (Hge Hn). split; [done|].
  destruct (Z.eq_dec (digits_fuel (S (Z.to_nat (Z.log2 n))) n) 0) as [E|E]; [|lia].
  rewrite E in Hlt. cbn in Hlt. lia.
Qed.

(** A positive rational below [10 ^ m] has at most [m - 1] as its exponent. *)
Lemma log10_lt a m :
  0 < num a → 0 < den a → 0 ≤ m → num a < den a * 10 ^ m → log10 a < m.
Proof.
  intros Hn Hd Hm Hlt. unfold log10.
  pose proof (digits_spec (num a) Hn) as ([Hn1 Hn2] & Hn3).
  pose proof (digits_spec (den a) Hd) as ([Hd1 Hd2] & Hd3).
  set (e := digits (num a) - digits (den a)) in *.
  destruct (Z.leb_spec (den a * 10 ^ Z.max e 0) (num a * 10 ^ Z.max (- e) 0)) as [Hle|Hgt].
  - destruct (Z.le_gt_cases 0 e) as [He|He]; [|lia].
    rewrite (Z.max_l e 0), (Z.max_r (- e) 0), Z.mul_1_r in Hle by lia.
    apply (Z.pow_lt_mono_r_iff 10); [lia..|]. nia.
  - enough (e ≤ m) by lia.
    assert (10 ^ (digits (num a) - 1) < 10 ^ (digits (den a) + m)) as Hp.
    { rewrite Z.pow_add_r by lia. nia. }
    apply Z.pow_lt_mono_r_iff in Hp; lia.
Qed.

(** ** Rounding keeps bounds *)

(** [a <= b] for a rational and an integer number of [1/100]. *)
Definition le_cents (a : rat) (b : Z) : Prop := num a * 100 ≤ b * den a.

Lemma round_scale_den base k a : 1 < base → 0 < den (round_scale base k a).
Proof. intros. cbn. apply Z.pow_pos_nonneg; lia. Qed.

Lemma round_scale_nonneg base k a :
  1 < base → 0 < den a → 0 ≤ num a → 0 ≤ num (round_scale base k a).
Proof.
  intros Hb Hd Hn. cbn.
  assert (0 < base ^ Z.max k 0) by (apply Z.pow_pos_nonneg; lia).
  assert (0 < base ^ Z.max (- k) 0) by (apply Z.pow_pos_nonneg; lia).
  pose proof (round_half_even_nonneg (num a * base ^ Z.max k 0)
    (den a * base ^ Z.max (- k) 0) ltac:(nia) ltac:(nia)). nia.
Qed.

(** Rounding to a grid that contains [b] cents does not pass [b] cents. *)
Lemma round_scale_le_cents k a b :
  2 ≤ k → 0 < den a → le_cents a b → le_cents (round_scale 10 k a) b.
Proof.
  intros Hk Hd Hle. unfold le_cents in *. cbn.
  rewrite (Z.max_l k 0), (Z.max_r (- k) 0), Z.pow_0_r, !Z.mul_1_r by lia.
  replace (10 ^ k) with (100 * 10 ^ (k - 2)) by
    (change 100 with (10 ^ 2); rewrite <-Z.pow_add_r by lia; f_equal; lia).
  set (p := 10 ^ (k - 2)). assert (0 < p) by (apply Z.pow_pos_nonneg; lia).
  enough (round_half_even (num a * (100 * p)) (den a) ≤ b * p) by nia.
  apply round_half_even_le; nia.
Qed.

Lemma dec28_le_cents a b :
  0 < den a → 0 ≤ b < 10 ^ 25 → le_cents a b → le_cents (dec28 a) b.
Proof.
  intros Hd Hb Hle. unfold dec28. destruct (Z.leb_spec (num a) 0); [done|].
  apply round_scale_le_cents; [|done|done].
  assert (log10 a < 25); [|lia]. apply log10_lt; unfold le_cents in Hle; nia.
Qed.

Lemma dec28_den a : 0 < den a → 0 < den (dec28 a).
Proof. intros. unfold dec28. destruct (_ <=? _); [done|]. by apply round_scale_den. Qed.

Lemma dec28_nonneg a : 0 < den a → 0 ≤ num a → 0 ≤ num (dec28 a).
Proof. intros. unfold dec28. destruct (_ <=? _); [done|]. by apply round_scale_nonneg. Qed.

Lemma float53_den a : 0 < den a → 0 < den (float53 a).
Proof. intros. unfold float53. destruct (_ <=? _); [done|]. by apply round_scale_den. Qed.

Lemma float53_nonneg a : 0 < den a → 0 ≤ num a → 0 ≤ num (float53 a).
Proof. intros. unfold float53. destruct (_ <=? _); [done|]. by apply round_scale_nonneg. Qed.

Lemma log2_lt a m :
  0 < num a → 0 < den a → 0 ≤ m → num a < den a * 2 ^ m → log2 a < m.
Proof.
  intros Hn Hd Hm Hlt. unfold log2.
  pose proof (Z.log2_spec (num a) Hn) as [Hn1 Hn2].
  pose proof (Z.log2_spec (den a) Hd) as [Hd1 Hd2].
  pose proof (Z.log2_nonneg (num a)). pose proof (Z.log2_nonneg (den a)).
  set (e := Z.log2 (num a) - Z.log2 (den a)) in *.
  destruct (Z.leb_spec (den a * 2 ^ Z.max e 0) (num a * 2 ^ Z.max (- e) 0)) as [Hle|Hgt].
  - destruct (Z.le_gt_cases 0 e) as [He|He]; [|lia].
    rewrite (Z.max_l e 0), (Z.max_r (- e) 0), Z.mul_1_r in Hle by lia.
    apply (Z.pow_lt_mono_r_iff 2); [lia..|]. nia.
  - enough (e ≤ m) by lia.
    assert (2 ^ Z.log2 (num a) < 2 ^ (Z.succ (Z.log2 (den a)) + m)) as Hp.
    { rewrite Z.pow_add_r by lia. nia. }
    apply Z.pow_lt_mono_r_iff in Hp; lia.
Qed.

(** A double rounded from a value of at most [b] is at most [b], for an
    integer [b] below [2 ^ 51]. *)
Lemma float53_le a b :
  0 < den a → 0 ≤ b < 2 ^ 51 → num a ≤ b * den a → num (float53 a) ≤ b * den (float53 a).
Proof.
  intros Hd Hb Hle. unfold float53. destruct (Z.leb_spec (num a) 0); [done|].
  assert (Hl : log2 a < 52) by (apply log2_lt; nia).
  set (k := 52 - log2 a). assert (1 ≤ k) by lia. clearbody k. clear Hl. cbn.
  rewrite (Z.max_l k 0), (Z.max_r (- k) 0), Z.pow_0_r, !Z.mul_1_r by lia.
  assert (0 < 2 ^ k) by (apply Z.pow_pos_nonneg; lia).
  apply round_half_even_le; nia.
Qed.
