(* ===== verification/Errors.v ===== *)
(** The exceptions the services raise, as one sum type: a session computation
    raises a value of [exn].  The classes keep their source names; the message
    is the string the source passes.  [PromoError] and [SubscriptionBuild] are
    base classes in the source: an [except] clause on them is the boolean
    predicate below. *)

From stdpp Require Import base strings.
From S2P Require Import Prelude.

Local Open Scope Z_scope.

Inductive exn : Type :=
(* fastapi.HTTPException *)
| HTTPException (status_code : Z) (detail : string)
(* services/billing/exceptions.py *)
| OrderNotFound (msg : string)
| InsufficientBalance (msg : string)
| PlanNotPurchasable (msg : string)
| ProviderError (msg : string) (upstream_status : option Z)
| WebhookVerificationFailed (msg : string)
| OrderExpired (msg : string)
| DeviceSlotLimitExceeded (msg : string)
| TrialAlreadyUsed (msg : string)
| TrialUnavailable (msg : string)
| FulfillmentFailed (msg : string)
| RefundNotAllowed (msg : string)
(* services/promo/exceptions.py *)
| PromoNotFound (msg : string)
| PromoCodeExists (msg : string)
| PromoInvalid (msg : string)
| PromoExhausted (msg : string)
| PromoNotEligible (msg : string)
(* services/referral/exceptions.py *)
| ReferralCodeNotFound (msg : string)
| SelfReferralNotAllowed (msg : string)
| AlreadyReferred (msg : string)
| ReferralNotEnabled (msg : string)
(* services/plans/exceptions.py *)
| PlanNotFound (msg : string)
| PlanAlreadyExists (msg : string)
(* services/vpn/subscriptions/exceptions.py *)
| SubscriptionNotFound
| SubscriptionInactive
| SubscriptionExpired
| SubscriptionRateLimited
| SubscriptionBuild (msg : string)
| SubscriptionBuildUnavailable (msg : string)
| SubscriptionDeviceLimitReached
| SubscriptionHwidRequired
(* services/routes/exceptions.py *)
| RouteCooldownActiveError (msg : string)
(* services/entry/exceptions.py *)
| EntryNotFoundError (msg : string)
| BackendNotFoundError (msg : string)
| EntryRoleError (msg : string)
| EntryZoneMismatchError (msg : string)
(* services/nodes/exceptions.py *)
| NodeBootstrapConflictError (msg : string)
| AdminNodeCreateError (msg : string)
| AdminNodeNotFoundError (msg : string)
| AdminNodeAlreadyBootstrappedError (msg : string)
(* services/zones/exceptions.py *)
| ZoneNotFound (msg : string)
| ZoneAlreadyExists (msg : string)
(* shared/profiles/exceptions.py *)
| ProfileRegionMismatchError (msg : string)
(* services/support/exceptions.py *)
| TicketNotFound (msg : string)
| EmptyMessage (msg : string)
| TicketClosed (msg : string)
| SupportActionFailed (msg : string)
| TemplateNotFound (msg : string)
| TemplateAlreadyExists (msg : string)
| BroadcastNotFound (msg : string)
| InvalidStateTransition (msg : string)
(* services/users/exceptions.py *)
| UserNotFound (msg : string)
| UserAlreadyExists (msg : string)
(* services/wg/exceptions.py *)
| WgMeshAddressPoolExhaustedError
(* services/scenarios/service.py *)
| ScenarioUserNotReady (telegram_id : Z)
(* services/routing/entry/exceptions.py *)
| UnknownBackendTagError (tag : string) (available : list string)
(* services/finance/exceptions.py *)
| ExpenseNotFound (msg : string)
| ExpenseTemplateNotFound (msg : string)
(* services/artifacts/exceptions.py *)
| ArtifactStoreError (msg : string)
(* SQLAlchemy, pydantic and the language *)
| IntegrityError (constraint : string)
| MultipleResultsFound
| PendingRollbackError
| MissingGreenlet
| NatsError
| PermissionError (msg : string)
| ValidationError (msg : string)
| ValueError (msg : string)
| IndexError
| TypeError
| AttributeError (msg : string)
| OverflowError (msg : string)
| RuntimeError (msg : string).

#[export] Instance exn_eq_dec : EqDecision exn.
Proof. solve_decision. Defined.

(** [except PromoError]. *)
Definition is_PromoError (e : exn) : bool :=
  match e with
  | PromoNotFound _ | PromoCodeExists _ | PromoInvalid _
  | PromoExhausted _ | PromoNotEligible _ => true
  | _ => false
  end.

(** [except SubscriptionBuild]. *)
Definition is_SubscriptionBuild (e : exn) : bool :=
  match e with SubscriptionBuild _ | SubscriptionBuildUnavailable _ => true | _ => false end.

(** [str(exc)]. *)
Definition exn_str (e : exn) : string :=
  match e with
  | HTTPException _ m | OrderNotFound m | InsufficientBalance m | PlanNotPurchasable m
  | ProviderError m _ | WebhookVerificationFailed m | OrderExpired m
  | DeviceSlotLimitExceeded m | TrialAlreadyUsed m | TrialUnavailable m
  | FulfillmentFailed m | RefundNotAllowed m | PromoNotFound m | PromoCodeExists m
  | PromoInvalid m | PromoExhausted m | PromoNotEligible m | ReferralCodeNotFound m
  | SelfReferralNotAllowed m | AlreadyReferred m | ReferralNotEnabled m | PlanNotFound m
  | PlanAlreadyExists m | SubscriptionBuild m | SubscriptionBuildUnavailable m | RouteCooldownActiveError m
  | EntryNotFoundError m | BackendNotFoundError m | EntryRoleError m | EntryZoneMismatchError m
  | NodeBootstrapConflictError m | AdminNodeCreateError m | AdminNodeNotFoundError m
  | AdminNodeAlreadyBootstrappedError m | ZoneNotFound m | ZoneAlreadyExists m
  | ProfileRegionMismatchError m | TicketNotFound m | EmptyMessage m | TicketClosed m | SupportActionFailed m
  | TemplateNotFound m | TemplateAlreadyExists m | BroadcastNotFound m | InvalidStateTransition m
  | UserNotFound m | UserAlreadyExists m | PermissionError m | ExpenseNotFound m | ExpenseTemplateNotFound m | ArtifactStoreError m
  | IntegrityError m | ValidationError m | ValueError m | AttributeError m | OverflowError m | RuntimeError m => m
  | _ => ""
  end.

(** Pure functions that may raise return an [outcome exn]. *)
Definition res (A : Type) : Type := outcome exn A.

#[export] Instance res_ret : MRet res := λ A, Ok.
#[export] Instance res_bind : MBind res := λ A B f m,
  match m with Ok a => f a | Raise e => Raise e end.

(** Python's [l[i]] on a list or tuple: a negative index counts from the end,
    an index out of range raises [IndexError]. *)
Definition py_index {A} (l : list A) (i : Z) : res A :=
  let n := Z.of_nat (length l) in
  let j := if i <? 0 then i + n else i in
  if (0 <=? j) && (j <? n) then
    match l !! Z.to_nat j with Some x => Ok x | None => Raise IndexError end
  else Raise IndexError.

Lemma py_index_in_range {A} (l : list A) (i : nat) x :
  l !! i = Some x → py_index l (Z.of_nat i) = Ok x.
Proof.
  intros Hi. pose proof (lookup_lt_Some _ _ _ Hi) as Hlt. unfold py_index.
  rewrite (proj2 (Z.ltb_ge (Z.of_nat i) 0)), (proj2 (Z.leb_le 0 (Z.of_nat i))),
    (proj2 (Z.ltb_lt (Z.of_nat i) _)), Nat2Z.id by lia.
  cbn. by rewrite Hi.
Qed.
