(* ===== verification/RouteModels.v ===== *)
(** Data of the routing components: the [Route] and [TransportProfile] tables
    (services/routes/models.py) and the enumerations and value objects of
    services/routes/schemas.py and services/routes/policy.py.  A timestamp is
    a UTC instant in microseconds; timestamptz columns always come back aware,
    so the source's [_to_utc_or_none] is the identity on this representation. *)

From stdpp Require Import base strings list.
From S2P Require Import Prelude Errors.

Local Open Scope Z_scope.

(** ** Time *)

Definition microsecond : Z := 1.
Definition second : Z := 1000000.
Definition minute : Z := 60 * second.
Definition hour : Z := 60 * minute.
Definition day : Z := 24 * hour.

(** ** Enumerations *)

Inductive RouteHealthStatus := healthy | degraded | suspected | blocked | warming_up.
#[export] Instance RouteHealthStatus_eq_dec : EqDecision RouteHealthStatus.
Proof. solve_decision. Defined.

Inductive RouteHealthAction := block | recover | set_healthy | set_degraded | set_suspected.
#[export] Instance RouteHealthAction_eq_dec : EqDecision RouteHealthAction.
Proof. solve_decision. Defined.

Inductive RouteWarmupTickResult := advanced | finalized.
#[export] Instance RouteWarmupTickResult_eq_dec : EqDecision RouteWarmupTickResult.
Proof. solve_decision. Defined.

Record RouteWarmupStage := { target_weight : Z; hold_minutes : Z }.

(** [Field(ge=0, le=100)] and [Field(ge=1)]. *)
Definition RouteWarmupStage_valid (st : RouteWarmupStage) : bool :=
  (0 <=? target_weight st) && (target_weight st <=? 100) && (1 <=? hold_minutes st).

(** services/routes/policy.py *)
Definition DEFAULT_WARMUP_STAGES : list RouteWarmupStage :=
  [ {| target_weight := 10; hold_minutes := 30 |};
    {| target_weight := 25; hold_minutes := 60 |} ].

(** ** Tables *)

Record TransportProfile := {
  tp_id : Z;
  tp_name : string;
  tp_protocol : string;
  network : string;
  security : string;
  flow : option string;
  reality_public_key : option string;
  reality_short_id : option string;
  reality_server_name : option string;
  tls_fingerprint : string;
  grpc_service_name : option string;
  port : Z;
  tp_is_active : bool;
  tp_updated_at : Z;
}.

Record Route := {
  route_id : Z;
  route_name : string;
  route_node_id : Z;
  route_entry_node_id : option Z;
  route_transport_profile_id : Z;
  health_status : RouteHealthStatus;
  base_weight : Z;
  effective_weight : Z;
  cooldown_until : option Z;
  warmup_stage : option Z;
  warmup_started_at : option Z;
  route_is_active : bool;
  route_created_at : Z;
  route_updated_at : Z;
}.

(** The CHECK constraints of the [route] table; the name of the first one
    violated, if any. *)
Definition route_check (r : Route) : option string :=
  if negb (0 <=? base_weight r) then Some "ck_route_base_weight_ge_0"
  else if negb (0 <=? effective_weight r) then Some "ck_route_effective_weight_ge_0"
  else if negb (effective_weight r <=? base_weight r)
  then Some "ck_route_effective_weight_lte_base_weight"
  else None.

Lemma route_check_None r :
  route_check r = None ↔ 0 ≤ effective_weight r ≤ base_weight r.
Proof.
  unfold route_check.
  destruct (Z.leb_spec 0 (base_weight r)), (Z.leb_spec 0 (effective_weight r)),
    (Z.leb_spec (effective_weight r) (base_weight r)); cbn; split;
    try discriminate; try lia; auto.
Qed.

(** ** Value objects *)

Record RouteStateResolution := {
  rs_health_status : RouteHealthStatus;
  rs_effective_weight : Z;
  rs_cooldown_until : option Z;
  rs_warmup_stage : option Z;
  rs_warmup_started_at : option Z;
}.

(** The pydantic constructor: [effective_weight: int = Field(ge=0, le=100)]. *)
Definition mk_RouteStateResolution
    (status : RouteHealthStatus) (weight : Z) (cooldown stage started : option Z)
    : res RouteStateResolution :=
  if (0 <=? weight) && (weight <=? 100) then
    Ok {| rs_health_status := status; rs_effective_weight := weight;
          rs_cooldown_until := cooldown; rs_warmup_stage := stage;
          rs_warmup_started_at := started |}
  else Raise (ValidationError "effective_weight").

Lemma mk_RouteStateResolution_ok status w c st sa :
  0 ≤ w ≤ 100 →
  mk_RouteStateResolution status w c st sa =
  Ok {| rs_health_status := status; rs_effective_weight := w; rs_cooldown_until := c;
        rs_warmup_stage := st; rs_warmup_started_at := sa |}.
Proof.
  intros Hw. unfold mk_RouteStateResolution.
  by rewrite (proj2 (Z.leb_le 0 w)), (proj2 (Z.leb_le w 100)) by lia.
Qed.
