(* ===== verification/RouteStateMachine.v ===== *)
(** The route health state machine (services/routes/state_machine.py): the
    functions that resolve an administrator's action, a probe result or a
    warm-up tick into the next health state of a route, the invariant of the
    states they produce, and the machine they form as a step relation. *)

From stdpp Require Import base strings list relations.
From S2P Require Import Prelude Errors RouteModels.
Local Open Scope Z_scope.

(** * Definitions *)

Definition initial_warmup_weight (base_weight : Z) : res Z :=
  if base_weight <=? 0 then Ok 0
  else st ← py_index DEFAULT_WARMUP_STAGES 0; Ok (Z.min base_weight (target_weight st)).

Definition stage_weight (base_weight stage : Z) (warmup_stages : list RouteWarmupStage) : res Z :=
  if base_weight <=? 0 then Ok 0
  else if Z.of_nat (length warmup_stages) <=? stage then Ok base_weight
  else st ← py_index warmup_stages stage; Ok (Z.min base_weight (target_weight st)).

(** [now + timedelta(hours=cooldown_hours) if cooldown_hours > 0 else None]. *)
Definition cooldown_deadline (now cooldown_hours : Z) : option Z :=
  if 0 <? cooldown_hours then Some (now + cooldown_hours * hour) else None.

(** [d is not None and d > now]. *)
Definition after_now (d : option Z) (now : Z) : bool :=
  match d with Some t => now <? t | None => false end.

Definition resolve_route_health_action (route : Route) (action : RouteHealthAction)
    (now cooldown_hours : Z) (warmup_stages : list RouteWarmupStage) : res RouteStateResolution :=
  match action with
  | block =>
      mk_RouteStateResolution blocked 0 (cooldown_deadline now cooldown_hours) None None
  | recover =>
      if after_now (cooldown_until route) now
      then Raise (RouteCooldownActiveError "Route is still in cooldown")
      else
        w ← stage_weight (base_weight route) 0 warmup_stages;
        mk_RouteStateResolution warming_up w None (Some 0) (Some now)
  | set_healthy =>
      mk_RouteStateResolution healthy (base_weight route) None None None
  | set_degraded =>
      mk_RouteStateResolution degraded
        (Z.max 1 (Z.min (base_weight route) (base_weight route / 2))) None None None
  | set_suspected =>
      mk_RouteStateResolution suspected
        (Z.max 1 (Z.min (base_weight route) (base_weight route / 3))) None None None
  end.

Definition resolve_probe_block (checked_at cooldown_hours : Z) : res RouteStateResolution :=
  mk_RouteStateResolution blocked 0 (cooldown_deadline checked_at cooldown_hours) None None.

Definition resolve_probe_recover (route : Route) (checked_at : Z)
    : res (option RouteStateResolution) :=
  if negb (bool_decide (health_status route = blocked)) then Ok None
  else if after_now (cooldown_until route) checked_at then Ok None
  else
    w ← initial_warmup_weight (base_weight route);
    r ← mk_RouteStateResolution warming_up w None (Some 0) (Some checked_at);
    Ok (Some r).

Definition resolve_bootstrap_recovery (route_base_weight now : Z) : res RouteStateResolution :=
  w ← initial_warmup_weight route_base_weight;
  mk_RouteStateResolution warming_up w None (Some 0) (Some now).

Definition _healthy_state (route : Route) : res RouteStateResolution :=
  mk_RouteStateResolution healthy (base_weight route) None None None.

(** The elapsed time is compared in microseconds; the source compares the same
    quantity in float minutes. *)
Definition resolve_warmup_tick (route : Route) (now : Z) (warmup_stages : list RouteWarmupStage)
    : res (option (RouteStateResolution * RouteWarmupTickResult)) :=
  let finalize := r ← _healthy_state route; Ok (Some (r, finalized)) in
  match warmup_stage route, warmup_started_at route with
  | Some stage, Some started =>
      if Z.of_nat (length warmup_stages) <=? stage then finalize
      else
        st ← py_index warmup_stages stage;
        if now - started <? hold_minutes st * minute then Ok None
        else
          let next_stage := stage + 1 in
          if Z.of_nat (length warmup_stages) <=? next_stage then finalize
          else
            w ← stage_weight (base_weight route) next_stage warmup_stages;
            r ← mk_RouteStateResolution warming_up w None (Some next_stage) (Some now);
            Ok (Some (r, advanced))
  | _, _ => finalize
  end.

(** Writing a resolution into the row: the columns of [RouteStateUpdate]. *)
Definition apply_resolution (r : Route) (rs : RouteStateResolution) (now : Z) : Route :=
  {| route_id := route_id r; route_name := route_name r; route_node_id := route_node_id r;
     route_entry_node_id := route_entry_node_id r;
     route_transport_profile_id := route_transport_profile_id r;
     health_status := rs_health_status rs;
     base_weight := base_weight r;
     effective_weight := rs_effective_weight rs;
     cooldown_until := rs_cooldown_until rs;
     warmup_stage := rs_warmup_stage rs;
     warmup_started_at := rs_warmup_started_at rs;
     route_is_active := route_is_active r;
     route_created_at := route_created_at r;
     route_updated_at := now |}.

(** * Weights *)

Section Weights.
Context (stages : list RouteWarmupStage).
Context (stages_valid : Forall (λ st, RouteWarmupStage_valid st = true) stages).

Lemma stage_weight_bounds b k :
0 ≤ k → ∃ w, stage_weight b k stages = Ok w ∧ 0 ≤ w ∧ (0 ≤ b → w ≤ b).
Proof using stages_valid.
intros Hk. unfold stage_weight.
destruct (Z.leb_spec b 0); [exists 0; split; [done|lia]|].
destruct (Z.leb_spec (Z.of_nat (length stages)) k); [exists b; split; [done|lia]|].
destruct (lookup_lt_is_Some_2 stages (Z.to_nat k)) as [st Hst]; [lia|].
pose proof (py_index_in_range _ _ _ Hst) as Hpy. rewrite Z2Nat.id in Hpy by lia.
rewrite Hpy. cbn.
eexists; split; [done|].
rewrite Forall_lookup in stages_valid. specialize (stages_valid _ _ Hst).
unfold RouteWarmupStage_valid in stages_valid. lia.
Qed.
End Weights.

Lemma DEFAULT_WARMUP_STAGES_valid :
  Forall (λ st, RouteWarmupStage_valid st = true) DEFAULT_WARMUP_STAGES.
Proof. repeat constructor. Qed.

Lemma initial_warmup_weight_stage_0 b :
  initial_warmup_weight b = stage_weight b 0 DEFAULT_WARMUP_STAGES.
Proof. done. Qed.

(** The weight a default warm-up stage gives, in closed form. *)
Definition default_stage_weight (b k : Z) : Z :=
  if k =? 0 then Z.min b 10 else if k =? 1 then Z.min b 25 else b.

Lemma stage_weight_default b k :
  0 ≤ b → 0 ≤ k → stage_weight b k DEFAULT_WARMUP_STAGES = Ok (default_stage_weight b k).
Proof.
  intros Hb Hk. unfold stage_weight, default_stage_weight. cbn [length DEFAULT_WARMUP_STAGES].
  destruct (Z.leb_spec b 0).
  { assert (b = 0) as -> by lia. repeat case_match; f_equal; lia. }
  destruct (Z.leb_spec (Z.of_nat 2) k).
  { destruct (Z.eqb_spec k 0), (Z.eqb_spec k 1); try lia. done. }
  assert (k = 0 ∨ k = 1) as [-> | ->] by lia; done.
Qed.

(** * The invariant of route states *)

(** What every state written by the machine satisfies: the CHECK constraints of
    the table hold, a blocked route carries no weight, exactly the warming-up
    routes have a warm-up position, and its weight is the one of its stage. *)
Definition route_inv (r : Route) : Prop :=
  0 ≤ effective_weight r ≤ base_weight r ∧ base_weight r ≤ 100 ∧
  match health_status r with
  | blocked => effective_weight r = 0 ∧ warmup_stage r = None ∧ warmup_started_at r = None
  | warming_up => ∃ k t, warmup_stage r = Some k ∧ warmup_started_at r = Some t ∧
      0 ≤ k < 2 ∧ effective_weight r = default_stage_weight (base_weight r) k ∧
      cooldown_until r = None
  | healthy => effective_weight r = base_weight r ∧
      warmup_stage r = None ∧ warmup_started_at r = None ∧ cooldown_until r = None
  | _ => warmup_stage r = None ∧ warmup_started_at r = None ∧ cooldown_until r = None
  end.

Lemma default_stage_weight_bounds b k : 0 ≤ b → 0 ≤ default_stage_weight b k ≤ b.
Proof. unfold default_stage_weight. repeat case_match; lia. Qed.

Lemma route_inv_check r : route_inv r → route_check r = None.
Proof. intros (H & _ & _). by apply route_check_None. Qed.

Lemma action_inv r a now ch rs :
  1 ≤ base_weight r ≤ 100 →
  resolve_route_health_action r a now ch DEFAULT_WARMUP_STAGES = Ok rs →
  route_inv (apply_resolution r rs now).
Proof.
  intros Hb. unfold resolve_route_health_action.
  destruct a; [| destruct (after_now _ _); [done|];
                rewrite stage_weight_default by lia; cbn [mbind res_bind] | | | ];
    rewrite mk_RouteStateResolution_ok;
    try (intros [= <-]; unfold route_inv; cbn).
  - repeat split; lia.
  - lia.
  - pose proof (default_stage_weight_bounds (base_weight r) 0).
    repeat split; try lia. exists 0, now. repeat split; lia.
  - pose proof (default_stage_weight_bounds (base_weight r) 0). lia.
  - repeat split; lia.
  - lia.
  - repeat split; try lia; Z.div_mod_to_equations; lia.
  - Z.div_mod_to_equations; lia.
  - repeat split; try lia; Z.div_mod_to_equations; lia.
  - Z.div_mod_to_equations; lia.
Qed.

(** A warm-up tick in each of the two default stages. *)
Lemma warmup_tick_stage_0 r now t :
  0 ≤ base_weight r ≤ 100 → warmup_stage r = Some 0 → warmup_started_at r = Some t →
  resolve_warmup_tick r now DEFAULT_WARMUP_STAGES =
  if now - t <? 30 * minute then Ok None
  else Ok (Some ({| rs_health_status := warming_up;
                    rs_effective_weight := default_stage_weight (base_weight r) 1;
                    rs_cooldown_until := None; rs_warmup_stage := Some 1;
                    rs_warmup_started_at := Some now |}, advanced)).
Proof.
  intros Hb Hk Ht. unfold resolve_warmup_tick. rewrite Hk, Ht.
  change (Z.of_nat (length DEFAULT_WARMUP_STAGES)) with 2.
  change (py_index DEFAULT_WARMUP_STAGES 0) with
    (Ok (E:=exn) {| target_weight := 10; hold_minutes := 30 |}).
  cbn [mbind res_bind hold_minutes Z.leb Z.compare Pos.compare Pos.compare_cont].
  destruct (now - t <? 30 * minute); [done|].
  change (2 <=? 0 + 1) with false. cbn iota.
  rewrite stage_weight_default by lia. change (0 + 1) with 1. cbn [mbind res_bind].
  pose proof (default_stage_weight_bounds (base_weight r) 1).
  by rewrite mk_RouteStateResolution_ok by lia.
Qed.

Lemma warmup_tick_stage_1 r now t :
  0 ≤ base_weight r ≤ 100 → warmup_stage r = Some 1 → warmup_started_at r = Some t →
  resolve_warmup_tick r now DEFAULT_WARMUP_STAGES =
  if now - t <? 60 * minute then Ok None
  else Ok (Some ({| rs_health_status := healthy; rs_effective_weight := base_weight r;
                    rs_cooldown_until := None; rs_warmup_stage := None;
                    rs_warmup_started_at := None |}, finalized)).
Proof.
  intros Hb Hk Ht. unfold resolve_warmup_tick, _healthy_state. rewrite Hk, Ht.
  change (Z.of_nat (length DEFAULT_WARMUP_STAGES)) with 2.
  change (py_index DEFAULT_WARMUP_STAGES 1) with
    (Ok (E:=exn) {| target_weight := 25; hold_minutes := 60 |}).
  change (2 <=? 1) with false. change (2 <=? 1 + 1) with true.
  cbn [mbind res_bind hold_minutes].
  by rewrite mk_RouteStateResolution_ok by lia.
Qed.

Lemma warming_up_stage r :
  route_inv r → health_status r = warming_up →
  ∃ t, warmup_started_at r = Some t ∧ cooldown_until r = None ∧
    (warmup_stage r = Some 0 ∧ effective_weight r = Z.min (base_weight r) 10 ∨
     warmup_stage r = Some 1 ∧ effective_weight r = Z.min (base_weight r) 25).
Proof.
  intros (_ & _ & Hst) Hwu. rewrite Hwu in Hst.
  destruct Hst as (k & t & Hk & Ht & Hk2 & Heff & Hc).
  exists t. split; [done|]. split; [done|].
  assert (k = 0 ∨ k = 1) as [-> | ->] by lia; unfold default_stage_weight in Heff; cbn in Heff; auto.
Qed.

Lemma warmup_tick_inv r now rs tr :
  route_inv r → health_status r = warming_up →
  resolve_warmup_tick r now DEFAULT_WARMUP_STAGES = Ok (Some (rs, tr)) →
  route_inv (apply_resolution r rs now).
Proof.
  intros Hinv Hwu. pose proof Hinv as (Hw & Hb & _).
  destruct (warming_up_stage r Hinv Hwu) as (t & Ht & Hc & [[Hk Heff]|[Hk Heff]]).
  - rewrite (warmup_tick_stage_0 r now t) by (done || lia).
    case_match; [done|]. intros [= <- <-]. unfold route_inv; cbn.
    pose proof (default_stage_weight_bounds (base_weight r) 1).
    repeat split; try lia. exists 1, now. repeat split; lia.
  - rewrite (warmup_tick_stage_1 r now t) by (done || lia).
    case_match; [done|]. intros [= <- <-]. unfold route_inv; cbn. repeat split; lia.
Qed.

Lemma probe_block_inv r at_ ch rs now :
  0 ≤ base_weight r ≤ 100 → resolve_probe_block at_ ch = Ok rs →
  route_inv (apply_resolution r rs now).
Proof.
  intros Hb [= <-]. unfold route_inv; cbn. repeat split; lia.
Qed.

Lemma warmup_start_inv r now rs now' :
  0 ≤ base_weight r ≤ 100 →
  resolve_bootstrap_recovery (base_weight r) now = Ok rs →
  route_inv (apply_resolution r rs now').
Proof.
  intros Hb. unfold resolve_bootstrap_recovery.
  rewrite initial_warmup_weight_stage_0, stage_weight_default by lia. cbn [mbind res_bind].
  pose proof (default_stage_weight_bounds (base_weight r) 0).
  rewrite mk_RouteStateResolution_ok by lia. intros [= <-]. unfold route_inv; cbn.
  repeat split; try lia. exists 0, now. repeat split; lia.
Qed.

Lemma probe_recover_warmup_start r at_ rs :
  resolve_probe_recover r at_ = Ok (Some rs) →
  health_status r = blocked ∧ resolve_bootstrap_recovery (base_weight r) at_ = Ok rs.
Proof.
  unfold resolve_probe_recover, resolve_bootstrap_recovery.
  case_bool_decide; cbn [negb]; [|done].
  case_match; [done|].
  destruct (initial_warmup_weight _) as [w|]; cbn [mbind res_bind]; [|done].
  destruct (mk_RouteStateResolution _ _ _ _ _) eqn:?; cbn [mbind res_bind]; [|done].
  intros [= <-]. done.
Qed.

(** * The machine as a step relation *)

(** One write of the health columns of a route, by whichever caller resolved
    it.  Ticks are only run on routes listed as warming up. *)
Inductive route_step : Route → Route → Prop :=
| step_action r a now ch rs :
    resolve_route_health_action r a now ch DEFAULT_WARMUP_STAGES = Ok rs →
    route_step r (apply_resolution r rs now)
| step_probe_block r at_ ch rs now :
    health_status r ≠ blocked → resolve_probe_block at_ ch = Ok rs →
    route_step r (apply_resolution r rs now)
| step_probe_recover r at_ rs now :
    resolve_probe_recover r at_ = Ok (Some rs) →
    route_step r (apply_resolution r rs now)
| step_warmup_tick r now rs tr :
    health_status r = warming_up →
    resolve_warmup_tick r now DEFAULT_WARMUP_STAGES = Ok (Some (rs, tr)) →
    route_step r (apply_resolution r rs now).

Lemma route_step_inv r r' :
  route_step r r' → route_inv r ∧ 1 ≤ base_weight r →
  route_inv r' ∧ 1 ≤ base_weight r'.
Proof.
  intros Hstep [Hinv Hb1]. pose proof Hinv as (Hw & Hb & _).
  destruct Hstep as [r a now ch rs Hr|r at_ ch rs now _ Hr|r at_ rs now Hr|r now rs tr Hwu Hr];
    (split; [|exact Hb1]).
  - by apply (action_inv r a now ch).
  - apply (probe_block_inv r at_ ch); [lia|done].
  - apply probe_recover_warmup_start in Hr as [_ Hr].
    apply (warmup_start_inv r at_); [lia|done].
  - by apply (warmup_tick_inv r now rs tr).
Qed.

(** C39: the health machine keeps its invariant along any interleaving of
    administrator actions, probe verdicts and warm-up ticks: from a well-formed
    route of positive base weight, every reachable state satisfies the table's
    CHECK constraints, carries no weight while blocked, its full weight while
    healthy, and has a warm-up position exactly while warming up. *)
Theorem route_reachable_inv r r' :
  rtc route_step r r' → route_inv r → 1 ≤ base_weight r →
  route_inv r' ∧ route_check r' = None ∧ base_weight r' = base_weight r.
Proof.
  intros Hrtc Hinv Hb.
  assert (route_inv r' ∧ 1 ≤ base_weight r' ∧ base_weight r' = base_weight r) as (? & ? & ?).
  { induction Hrtc as [r|r1 r2 r3 Hstep _ IH]; [done|].
    destruct (route_step_inv _ _ Hstep (conj Hinv Hb)) as [Hinv2 Hb2].
    destruct (IH Hinv2 Hb2) as (? & ? & Heq). split_and!; [done..|].
    rewrite Heq. by destruct Hstep. }
  auto using route_inv_check.
Qed.

Definition sample_route : Route :=
  {| route_id := 1; route_name := "de-1"; route_node_id := 7; route_entry_node_id := None;
     route_transport_profile_id := 3; health_status := healthy; base_weight := 50;
     effective_weight := 50; cooldown_until := None; warmup_stage := None;
     warmup_started_at := None; route_is_active := true; route_created_at := 0;
     route_updated_at := 0 |}.

Definition blocked_route : Route :=
  apply_resolution sample_route
    {| rs_health_status := blocked; rs_effective_weight := 0;
       rs_cooldown_until := Some (6 * hour); rs_warmup_stage := None;
       rs_warmup_started_at := None |} 0.

Lemma sample_route_inv : route_inv sample_route.
Proof. unfold route_inv; cbn. repeat split; lia. Qed.

Lemma route_reachable_inv_witness :
  route_inv blocked_route ∧ route_check blocked_route = None ∧ base_weight blocked_route = 50.
Proof.
  apply (route_reachable_inv sample_route blocked_route).
  - apply rtc_once, (step_action sample_route block 0 6). reflexivity.
  - exact sample_route_inv.
  - cbn; lia.
Defined.

(** * Warm-up progress *)

(** [advance_warmup] at the successive instants [ts]: a tick is run while the
    route is listed as warming up, and its resolution is written back. *)
Fixpoint run_ticks (r : Route) (ts : list Z) : res Route :=
  match ts with
  | [] => Ok r
  | now :: ts =>
      if bool_decide (health_status r = warming_up) then
        o ← resolve_warmup_tick r now DEFAULT_WARMUP_STAGES;
        run_ticks (match o with Some (rs, _) => apply_resolution r rs now | None => r end) ts
      else run_ticks r ts
  end.

Lemma run_ticks_settled r ts : health_status r ≠ warming_up → run_ticks r ts = Ok r.
Proof.
  intros Hs. induction ts as [|now ts IH]; cbn; [done|].
  by rewrite bool_decide_false.
Qed.

Lemma run_ticks_app r ts1 ts2 :
  run_ticks r (ts1 ++ ts2) = (r' ← run_ticks r ts1; run_ticks r' ts2).
Proof.
  revert r. induction ts1 as [|now ts1 IH]; intros r; cbn; [done|].
  case_bool_decide; [|apply IH].
  destruct (resolve_warmup_tick _ _ _) as [o|]; cbn [mbind res_bind]; [apply IH|done].
Qed.

(** Ticks never raise on a well-formed route, keep the invariant and never
    lower the weight. *)
Lemma run_ticks_ok r ts :
  route_inv r → ∃ r', run_ticks r ts = Ok r' ∧ route_inv r' ∧
    base_weight r' = base_weight r ∧ effective_weight r ≤ effective_weight r' ∧
    (health_status r' = warming_up → health_status r = warming_up).
Proof.
  revert r. induction ts as [|now ts IH]; intros r Hinv; cbn [run_ticks].
  { exists r. auto with lia. }
  case_bool_decide as Hwu; [|by apply IH].
  pose proof Hinv as (Hw & Hb & _).
  destruct (warming_up_stage r Hinv Hwu) as (t & Ht & _ & [[Hk Heff]|[Hk Heff]]);
    [rewrite (warmup_tick_stage_0 r now t) by (done || lia)
    |rewrite (warmup_tick_stage_1 r now t) by (done || lia)];
    (destruct (now - t <? _) eqn:Hlt; cbn [mbind res_bind]; [by apply IH|]);
    (match goal with |- context [apply_resolution r ?x now] => set (rs := x) end);
    (destruct (IH (apply_resolution r rs now)) as (r' & Hr' & Hinv' & Hb' & Heff' & _);
      [eapply warmup_tick_inv; [done|done|]|]).
  - by rewrite (warmup_tick_stage_0 r now t), Hlt by (done || lia).
  - exists r'. subst rs; unfold default_stage_weight in *; cbn in *. split_and!; [done..|lia|done].
  - by rewrite (warmup_tick_stage_1 r now t), Hlt by (done || lia).
  - exists r'. subst rs; cbn in *. split_and!; [done..|lia|done].
Qed.

(** Where a run of ticks leaves a route that is still warming up: in the stage
    and with the start it had, or in stage 1, started by one of the ticks. *)
Lemma run_ticks_stage r ts r' t :
  route_inv r → warmup_started_at r = Some t → run_ticks r ts = Ok r' →
  health_status r' = warming_up →
  (warmup_stage r' = warmup_stage r ∧ warmup_started_at r' = Some t) ∨
  (warmup_stage r' = Some 1 ∧ warmup_stage r = Some 0 ∧
   ∃ t', t' ∈ ts ∧ warmup_started_at r' = Some t').
Proof.
  revert r t. induction ts as [|now ts IH]; intros r t Hinv Ht; cbn [run_ticks].
  { intros [= <-]. auto. }
  case_bool_decide as Hwu.
  2:{ intros Hrun Hwu'. rewrite run_ticks_settled in Hrun by done. by simplify_eq. }
  pose proof Hinv as (Hw & Hb & _).
  destruct (warming_up_stage r Hinv Hwu) as (t0 & Ht0 & _ & [[Hk _]|[Hk _]]); simplify_eq/=;
    [pose proof (warmup_tick_stage_0 r now t ltac:(lia) Hk Ht) as Htick
    |pose proof (warmup_tick_stage_1 r now t ltac:(lia) Hk Ht) as Htick];
    (destruct (now - t <? _); rewrite Htick; cbn [mbind res_bind]; intros Hrun Hwu').
  1,3: destruct (IH r t Hinv Ht Hrun Hwu') as [?|(-> & Hk0 & t' & Hin & ->)]; [by left|right];
    (split_and!; [done..|exists t'; split; [by right|done]]).
  - eapply IH in Hrun; [|by eapply warmup_tick_inv; eauto|reflexivity|done].
    right. destruct Hrun as [[-> ->]|(? & ? & _)]; [|done].
    split_and!; [done..|]. exists now. split; [by left|done].
  - rewrite run_ticks_settled in Hrun by done. by simplify_eq.
Qed.

(** A tick late enough moves the route on. *)
Lemma tick_late r now t r' :
  route_inv r → health_status r = warming_up → warmup_started_at r = Some t →
  run_ticks r [now] = Ok r' →
  (warmup_stage r = Some 0 → 30 * minute ≤ now - t → warmup_stage r' = Some 1) ∧
  (warmup_stage r = Some 1 → 60 * minute ≤ now - t → health_status r' = healthy).
Proof.
  intros Hinv Hwu Ht. pose proof Hinv as (Hw & Hb & _). cbn [run_ticks].
  rewrite bool_decide_true by done. intros Hrun. split; intros Hk Hlate.
  - rewrite (warmup_tick_stage_0 r now t), (proj2 (Z.ltb_ge _ _)) in Hrun by (done || lia).
    by simplify_eq/=.
  - rewrite (warmup_tick_stage_1 r now t), (proj2 (Z.ltb_ge _ _)) in Hrun by (done || lia).
    by simplify_eq/=.
Qed.

Lemma healthy_full_weight r : route_inv r → health_status r = healthy →
  effective_weight r = base_weight r.
Proof. intros (_ & _ & H) Hh. rewrite Hh in H. tauto. Qed.

Lemma run_ticks_inv r ts r' : route_inv r → run_ticks r ts = Ok r' →
  route_inv r' ∧ base_weight r' = base_weight r.
Proof.
  intros Hinv Hrun. destruct (run_ticks_ok r ts Hinv) as (r2 & Hr2 & Hi & Hb & _).
  rewrite Hr2 in Hrun. by simplify_eq.
Qed.

(** Ticks lead from warming up only to healthy. *)
Lemma run_ticks_warming_or_healthy r ts r' :
  route_inv r → health_status r = warming_up → run_ticks r ts = Ok r' →
  health_status r' = warming_up ∨ health_status r' = healthy.
Proof.
  revert r. induction ts as [|now ts IH]; intros r Hinv Hwu; cbn [run_ticks].
  { intros [= <-]. auto. }
  rewrite bool_decide_true by done. pose proof Hinv as (Hw & Hb & _).
  destruct (warming_up_stage r Hinv Hwu) as (t & Ht & _ & [[Hk _]|[Hk _]]);
    [pose proof (warmup_tick_stage_0 r now t ltac:(lia) Hk Ht) as Htick
    |pose proof (warmup_tick_stage_1 r now t ltac:(lia) Hk Ht) as Htick];
    (destruct (now - t <? _); rewrite Htick; cbn [mbind res_bind]; intros Hrun).
  1,3: by apply (IH r).
  - eapply IH in Hrun; eauto using warmup_tick_inv.
  - rewrite run_ticks_settled in Hrun by done. simplify_eq. auto.
Qed.

(** The state before the last of a run of ticks that ends warming up. *)
Lemma run_ticks_last r ts now r' :
  route_inv r → health_status r = warming_up → run_ticks r (ts ++ [now]) = Ok r' →
  health_status r' = warming_up →
  ∃ rm, run_ticks r ts = Ok rm ∧ route_inv rm ∧ health_status rm = warming_up ∧
    run_ticks rm [now] = Ok r'.
Proof.
  intros Hinv Hwu Hrun Hwu'. rewrite run_ticks_app in Hrun.
  destruct (run_ticks r ts) as [rm|] eqn:Hm; cbn [mbind res_bind] in Hrun; [|done].
  destruct (run_ticks_inv _ _ _ Hinv Hm) as [Him _].
  exists rm. split_and!; [done..| |done].
  destruct (run_ticks_warming_or_healthy _ _ _ Hinv Hwu Hm) as [?|Hh]; [done|].
  rewrite run_ticks_settled in Hrun by congruence. congruence.
Qed.

Lemma leaves_stage_0 r t ts t1 ra :
  route_inv r → health_status r = warming_up → warmup_started_at r = Some t →
  t + 30 * minute ≤ t1 → Forall (λ x, x ≤ t1) ts → run_ticks r (ts ++ [t1]) = Ok ra →
  health_status ra = warming_up →
  ∃ s, warmup_started_at ra = Some s ∧ s ≤ t1 ∧ warmup_stage ra = Some 1.
Proof.
  intros Hinv Hwu Ht Ht1 Hts Ha Hwa. rewrite Forall_forall in Hts. assert (0 < minute) by done.
  destruct (run_ticks_stage _ _ _ _ Hinv Ht Ha Hwa) as [[Hk Hs]|(Hk & _ & s & Hin & Hs)].
  2:{ exists s. split; [done|]. split; [|done].
      apply elem_of_app in Hin as [Hin|Hin]; [by apply Hts|].
      apply list_elem_of_singleton in Hin. lia. }
  exists t. split; [done|]. split; [lia|].
  destruct (run_ticks_inv _ _ _ Hinv Ha) as [Hia _].
  destruct (warming_up_stage _ Hia Hwa) as (? & _ & _ & [[Hk0 _]|[Hk0 _]]); [exfalso|done].
  destruct (run_ticks_last _ _ _ _ Hinv Hwu Ha Hwa) as (rm & Hm & Him & Hwm & Hlast).
  destruct (run_ticks_stage _ _ _ _ Hinv Ht Hm Hwm) as [[Hkm Hsm]|(Hkm & _ & sm & _ & Hsm)].
  - destruct (tick_late rm t1 t ra Him Hwm Hsm Hlast) as [Hl _].
    rewrite Hl in Hk0; [congruence|congruence|lia].
  - destruct (run_ticks_stage _ _ _ _ Him Hsm Hlast Hwa) as [[? _]|[? _]]; congruence.
Qed.

Lemma leaves_stage_1 r s ts t2 rb :
  route_inv r → health_status r = warming_up → warmup_started_at r = Some s →
  warmup_stage r = Some 1 → s + 60 * minute ≤ t2 → run_ticks r (ts ++ [t2]) = Ok rb →
  health_status rb = healthy.
Proof.
  intros Hinv Hwu Hs Hk Ht2 Hb.
  destruct (run_ticks_warming_or_healthy _ _ _ Hinv Hwu Hb) as [Hwb|?]; [|done].
  destruct (run_ticks_last _ _ _ _ Hinv Hwu Hb Hwb) as (rm & Hm & Him & Hwm & Hlast).
  destruct (run_ticks_stage _ _ _ _ Hinv Hs Hm Hwm) as [[Hkm Hsm]|(_ & ? & _)]; [|congruence].
  destruct (tick_late rm t2 s rb Him Hwm Hsm Hlast) as [_ Hl].
  apply Hl; [congruence|lia].
Qed.

(** Warm-up terminates. Whatever other ticks run, one tick at least 30
    minutes after the warm-up started and a later one at least 60 minutes after
    that leave the route healthy with its full base weight; no tick on the way
    raises or lowers the weight. *)
Theorem warmup_completes r t ts1 t1 ts2 t2 ts3 :
  route_inv r → health_status r = warming_up → warmup_started_at r = Some t →
  t + 30 * minute ≤ t1 → Forall (λ x, x ≤ t1) ts1 → t1 + 60 * minute ≤ t2 →
  ∃ r', run_ticks r ((ts1 ++ [t1]) ++ (ts2 ++ [t2]) ++ ts3) = Ok r' ∧
    health_status r' = healthy ∧ effective_weight r' = base_weight r ∧
    effective_weight r ≤ effective_weight r'.
Proof.
  intros Hinv Hwu Ht Ht1 Hts1 Ht2.
  destruct (run_ticks_ok r ((ts1 ++ [t1]) ++ (ts2 ++ [t2]) ++ ts3) Hinv)
    as (r' & Hr' & Hinv' & Hb' & Heff' & _).
  exists r'. split; [done|].
  enough (health_status r' = healthy) as Hh
    by (rewrite (healthy_full_weight _ Hinv' Hh) in *; auto with lia).
  rewrite (run_ticks_app r (ts1 ++ [t1])) in Hr'.
  destruct (run_ticks r (ts1 ++ [t1])) as [ra|] eqn:Ha; cbn [mbind res_bind] in Hr'; [|done].
  rewrite (run_ticks_app ra (ts2 ++ [t2])) in Hr'.
  destruct (run_ticks ra (ts2 ++ [t2])) as [rb|] eqn:Hb; cbn [mbind res_bind] in Hr'; [|done].
  destruct (run_ticks_inv _ _ _ Hinv Ha) as [Hia _].
  enough (health_status rb = healthy) as Hhb
    by (rewrite run_ticks_settled in Hr' by congruence; congruence).
  destruct (run_ticks_warming_or_healthy _ _ _ Hinv Hwu Ha) as [Hwa|Hha];
    [|rewrite run_ticks_settled in Hb by congruence; congruence].
  destruct (leaves_stage_0 _ _ _ _ _ Hinv Hwu Ht Ht1 Hts1 Ha Hwa) as (s & Hs & ? & Hk).
  by apply (leaves_stage_1 ra s ts2 t2 rb); try lia.
Qed.

Definition warming_route : Route :=
  apply_resolution sample_route
    {| rs_health_status := warming_up; rs_effective_weight := 10;
       rs_cooldown_until := None; rs_warmup_stage := Some 0;
       rs_warmup_started_at := Some 0 |} 0.

Lemma warmup_completes_witness :
  ∃ r', run_ticks warming_route (([5 * minute] ++ [31 * minute]) ++ ([40 * minute] ++ [91 * minute]) ++ []) = Ok r' ∧
    health_status r' = healthy ∧ effective_weight r' = 50 ∧ 10 ≤ effective_weight r'.
Proof.
  apply (warmup_completes warming_route 0 [5 * minute] (31 * minute) [40 * minute] (91 * minute) []).
  - unfold route_inv; cbn. repeat split; try lia. exists 0, 0. repeat split; lia.
  - reflexivity.
  - reflexivity.
  - vm_compute; discriminate.
  - repeat constructor; vm_compute; discriminate.
  - vm_compute; discriminate.
Defined.

(** * Agreement of the three ways back from a block *)

(** The automatic recovery of a blocked route by a successful probe is the
    administrator's [recover] action on the default stages: the same state when
    the cooldown has passed, and nothing where the action would be refused for
    the running cooldown; the artifact bootstrap recovers to that state too. *)
Theorem probe_recover_is_recover_action r at_ ch :
  health_status r = blocked →
  resolve_probe_recover r at_ =
  match resolve_route_health_action r recover at_ ch DEFAULT_WARMUP_STAGES with
  | Ok rs => Ok (Some rs)
  | Raise (RouteCooldownActiveError _) => Ok None
  | Raise e => Raise e
  end ∧
  (after_now (cooldown_until r) at_ = false →
   resolve_bootstrap_recovery (base_weight r) at_ =
   resolve_route_health_action r recover at_ ch DEFAULT_WARMUP_STAGES).
Proof.
  intros Hb. unfold resolve_probe_recover, resolve_route_health_action, resolve_bootstrap_recovery.
  rewrite bool_decide_true, initial_warmup_weight_stage_0 by done. cbn [negb].
  destruct (after_now _ _); [done|]. split; [|done].
  destruct (stage_weight _ _ _) as [w|e] eqn:Hw; cbn [mbind res_bind].
  - unfold mk_RouteStateResolution. by destruct (_ && _).
  - unfold stage_weight in Hw. cbn in Hw. by destruct (base_weight r <=? 0).
Qed.

Lemma probe_recover_is_recover_action_witness :
  resolve_probe_recover blocked_route (7 * hour) =
  Ok (Some {| rs_health_status := warming_up; rs_effective_weight := 10;
              rs_cooldown_until := None; rs_warmup_stage := Some 0;
              rs_warmup_started_at := Some (7 * hour) |}).
Proof.
  rewrite (proj1 (probe_recover_is_recover_action blocked_route (7 * hour) 6 eq_refl)).
  reflexivity.
Defined.

(** The block lasts. A route blocked for a cooldown of [ch] hours at [t]
    cannot be recovered before [t + ch] hours: the administrator's action
    raises, and a successful probe leaves it blocked; from then on both succeed. *)
Theorem cooldown_enforced r t ch rs now ch' :
  1 ≤ base_weight r ≤ 100 → 0 < ch →
  resolve_route_health_action r block t ch DEFAULT_WARMUP_STAGES = Ok rs →
  let r' := apply_resolution r rs t in
  (now < t + ch * hour →
     resolve_route_health_action r' recover now ch' DEFAULT_WARMUP_STAGES =
       Raise (RouteCooldownActiveError "Route is still in cooldown") ∧
     resolve_probe_recover r' now = Ok None) ∧
  (t + ch * hour ≤ now →
     ∃ rs', resolve_route_health_action r' recover now ch' DEFAULT_WARMUP_STAGES = Ok rs' ∧
       resolve_probe_recover r' now = Ok (Some rs') ∧
       rs_effective_weight rs' = Z.min (base_weight r) 10).
Proof.
  intros Hb Hch Hrs r'.
  assert (cooldown_until r' = Some (t + ch * hour) ∧ health_status r' = blocked ∧
          base_weight r' = base_weight r) as (Hc & Hs & Hbw).
  { subst r'. cbn in Hrs. unfold cooldown_deadline in Hrs.
    rewrite (proj2 (Z.ltb_lt 0 ch)) in Hrs by lia. by simplify_eq/=. }
  rewrite (proj1 (probe_recover_is_recover_action r' now ch' Hs)).
  unfold resolve_route_health_action, after_now. rewrite Hc, Hbw.
  destruct (Z.ltb_spec now (t + ch * hour)); (split; intros ?; [|try lia]); try lia; [done|].
  rewrite stage_weight_default by lia. cbn [mbind res_bind].
  pose proof (default_stage_weight_bounds (base_weight r) 0).
  rewrite mk_RouteStateResolution_ok by lia. by eexists.
Qed.

Lemma cooldown_enforced_witness :
  resolve_route_health_action blocked_route recover (5 * hour) 6 DEFAULT_WARMUP_STAGES =
    Raise (RouteCooldownActiveError "Route is still in cooldown") ∧
  resolve_probe_recover blocked_route (5 * hour) = Ok None.
Proof.
  apply (cooldown_enforced sample_route 0 6 _ (5 * hour) 6).
  - cbn; lia.
  - lia.
  - reflexivity.
  - vm_compute; reflexivity.
Defined.

(** A route of base weight zero cannot be degraded: the state machine then
    resolves weight 1, which the table's CHECK [effective_weight <= base_weight]
    rejects, although creating such a route is allowed. *)
Theorem zero_weight_degraded_violates_check r a now ch :
  base_weight r = 0 → a = set_degraded ∨ a = set_suspected →
  ∃ rs, resolve_route_health_action r a now ch DEFAULT_WARMUP_STAGES = Ok rs ∧
    route_check (apply_resolution r rs now) = Some "ck_route_effective_weight_lte_base_weight".
Proof.
  intros Hb [-> | ->]; unfold resolve_route_health_action; rewrite Hb;
    (eexists; split; [reflexivity|]); unfold route_check; cbn; by rewrite Hb.
Qed.

Definition zero_weight_route : Route :=
  {| route_id := 2; route_name := "spare"; route_node_id := 7; route_entry_node_id := None;
     route_transport_profile_id := 3; health_status := healthy; base_weight := 0;
     effective_weight := 0; cooldown_until := None; warmup_stage := None;
     warmup_started_at := None; route_is_active := true; route_created_at := 0;
     route_updated_at := 0 |}.

Lemma zero_weight_degraded_violates_check_witness :
  ∃ rs, resolve_route_health_action zero_weight_route set_degraded 0 6 DEFAULT_WARMUP_STAGES = Ok rs ∧
    route_check (apply_resolution zero_weight_route rs 0) =
      Some "ck_route_effective_weight_lte_base_weight".
Proof.
  apply (zero_weight_degraded_violates_check zero_weight_route set_degraded 0 6).
  - reflexivity.
  - by left.
Defined.
