(* ===== verification/BillingModels.v ===== *)
(** Data of the billing components: the tables of services/users/models.py,
    services/plans/models.py, services/billing/models.py,
    services/promo/models.py, services/referral/models.py and the
    [Subscription] table of services/vpn/subscriptions/models.py, with the
    enumerations and patch objects of the matching schemas.

    Money columns are [Numeric(10, 2)]: an amount is an integer number of
    kopecks.  Columns holding the values of a closed set of strings are
    inductive types with a [_value] function giving the string. *)

From stdpp Require Import base strings list.
From S2P Require Import Prelude Errors RouteModels.
Local Open Scope Z_scope.

(** ** Enumerations (services/billing/schemas.py) *)

Inductive PaymentProviderEnum := CRYPTO | FREEKASSA | STARS | PLATEGA | BALANCE | FREE.
#[export] Instance PaymentProviderEnum_eq_dec : EqDecision PaymentProviderEnum.
Proof. solve_decision. Defined.

Definition provider_value (p : PaymentProviderEnum) : string :=
  match p with
  | CRYPTO => "crypto" | FREEKASSA => "freekassa" | STARS => "stars"
  | PLATEGA => "platega" | BALANCE => "balance" | FREE => "free"
  end.

(** The values of the [status] column; ["failed"] is written by the fulfilment
    code although the source's [OrderStatus] enumeration does not list it. *)
Inductive OrderStatus := PENDING | PAID | COMPLETED | EXPIRED | REFUNDED | FAILED.
#[export] Instance OrderStatus_eq_dec : EqDecision OrderStatus.
Proof. solve_decision. Defined.

Definition status_value (s : OrderStatus) : string :=
  match s with
  | PENDING => "pending" | PAID => "paid" | COMPLETED => "completed"
  | EXPIRED => "expired" | REFUNDED => "refunded" | FAILED => "failed"
  end.

(** The values of the transaction [type] column: the [TransactionType]
    enumeration and the two types the referral service writes. *)
Inductive TransactionType :=
| PAYMENT | PURCHASE | MANUAL_CREDIT | MANUAL_DEBIT | REFUND | DEVICE_SLOT_PURCHASE
| REFERRAL_REWARD | REFERRAL_BONUS.
#[export] Instance TransactionType_eq_dec : EqDecision TransactionType.
Proof. solve_decision. Defined.

Inductive OrderTypeEnum := PLAN_PURCHASE | SUBSCRIPTION_RENEWAL | DEVICE_SLOTS | TOP_UP.
#[export] Instance OrderTypeEnum_eq_dec : EqDecision OrderTypeEnum.
Proof. solve_decision. Defined.

Definition order_type_value (t : OrderTypeEnum) : string :=
  match t with
  | PLAN_PURCHASE => "plan_purchase" | SUBSCRIPTION_RENEWAL => "subscription_renewal"
  | DEVICE_SLOTS => "device_slots" | TOP_UP => "top_up"
  end.

(** ** JSON metadata

    A [Text] column holding provider metadata, by what [json.loads] makes of
    it: a JSON value, or a text that does not parse.  [JTime t] is the string that
    writes the instant [t] in ISO 8601. *)

Inductive json :=
| JNull
| JBool (b : bool)
| JInt (z : Z)
| JStr (s : string)
| JTime (t : Z)
| JList (l : list json)
| JObj (fields : list (string * json)).

Inductive meta_text :=
| MetaJson (j : json)
| MetaRaw (raw : string).

(** ** JSON objects *)

(** [d[key] = v]: the key keeps its position, a new key goes last. *)
Fixpoint dict_set (k : string) (v : json) (d : list (string * json)) : list (string * json) :=
  match d with
  | [] => [(k, v)]
  | (k', v') :: d => if String.eqb k k' then (k, v) :: d else (k', v') :: dict_set k v d
  end.

Definition dict_update (d patch : list (string * json)) : list (string * json) :=
  foldl (λ acc kv, dict_set kv.1 kv.2 acc) d patch.

Fixpoint dict_get (k : string) (d : list (string * json)) : option json :=
  match d with
  | [] => None
  | (k', v) :: d => if String.eqb k k' then Some v else dict_get k d
  end.

(** ** Tables *)

Record User := {
  user_id : Z;
  telegram_id : Z;
  username : option string;
  balance : Z;
  user_tag : option string;
  user_description : option string;
  terms_accepted : bool;
  terms_accepted_at : option Z;
  referral_code : option string;
  suppress_marketing : bool;
  user_is_active : bool;
  user_created_at : Z;
  user_updated_at : Z;
}.

Record PlanPeriod := {
  months : Z;
  period_price_rub : Z;
  period_price_stars : option Z;
}.

(** The [periods] relationship is loaded with the plan, ordered by [months]. *)
Record Plan := {
  plan_id : Z;
  plan_name : string;
  plan_description : option string;
  traffic_limit_bytes : Z;
  reset_strategy : string;
  plan_max_devices : Z;
  duration_days : Z;
  sort_order : Z;
  whitelist_enabled : bool;
  entry_relay_enabled : bool;
  included_devices : Z;
  price_rub : Z;
  device_price_rub : Z;
  price_stars : option Z;
  device_price_stars : option Z;
  periods : list PlanPeriod;
  plan_is_active : bool;
  plan_created_at : Z;
  plan_updated_at : Z;
}.

Record Subscription := {
  sub_id : Z;
  sub_user_id : Z;
  sub_plan_id : option Z;
  sub_token : option string;
  sub_token_hash : string;
  prev_token_hash : option string;
  prev_token_expires_at : option Z;
  sub_expires_at : option Z;
  sub_profile_key : option string;
  preferred_region : option string;
  root_vpn_key_id : option Z;
  hwid_enabled : bool;
  sub_max_devices : option Z;
  paid_device_slots : Z;
  sub_period_months : Z;
  sub_used_traffic_bytes : Z;
  lifetime_used_traffic_bytes : Z;
  last_traffic_reset_at : option Z;
  first_connected_at : option Z;
  auto_renew : bool;
  traffic_warning_threshold_pct : Z;
  sub_is_active : bool;
  sub_created_at : Z;
  sub_updated_at : Z;
}.

Record PaymentOrder := {
  order_id : Z;
  order_user_id : Z;
  order_plan_id : option Z;
  order_amount_rub : Z;
  order_provider : PaymentProviderEnum;
  order_status : OrderStatus;
  external_id : string;
  payment_url : option string;
  provider_meta : option meta_text;
  paid_at : option Z;
  completed_at : option Z;
  order_expires_at : option Z;
  order_subscription_id : option Z;
  order_type : OrderTypeEnum;
  device_slots_qty : Z;
  period_months : Z;
  fee_rub : option Z;
  net_rub : option Z;
  order_promo_code_id : option Z;
  order_discount_rub : option Z;
  order_created_at : Z;
  order_updated_at : Z;
}.

Record BalanceTransaction := {
  tx_id : Z;
  tx_user_id : Z;
  tx_amount : Z;
  balance_after : Z;
  tx_type : TransactionType;
  tx_order_id : option Z;
  tx_description : option string;
  tx_created_at : Z;
}.

(** [fee_percent] is [Numeric(6, 4)]: in ten-thousandths of a percent. *)
Record PaymentProviderFee := {
  fee_id : Z;
  fee_provider : string;
  fee_payment_method : option Z;
  fee_percent : Z;
}.

Inductive DiscountType := PERCENT | FIXED.
#[export] Instance DiscountType_eq_dec : EqDecision DiscountType.
Proof. solve_decision. Defined.

Inductive PromoAudience := AUDIENCE_ALL | NO_SUBSCRIPTION | HAS_SUBSCRIPTION | BY_PLAN.
#[export] Instance PromoAudience_eq_dec : EqDecision PromoAudience.
Proof. solve_decision. Defined.

Inductive PromoAppliesTo := ANY | NEW_PURCHASE | RENEWAL.
#[export] Instance PromoAppliesTo_eq_dec : EqDecision PromoAppliesTo.
Proof. solve_decision. Defined.

(** [discount_value] is [Numeric(10, 2)]: hundredths of a percent for a
    percent discount, kopecks for a fixed one.  [plan_ids] holds the plan ids
    the source keeps as strings. *)
Record PromoCode := {
  promo_id : Z;
  promo_code : string;
  promo_description : option string;
  discount_type : DiscountType;
  discount_value : Z;
  max_discount_rub : option Z;
  audience : PromoAudience;
  plan_ids : option (list Z);
  applies_to : PromoAppliesTo;
  min_amount_rub : option Z;
  max_activations : option Z;
  max_per_user : Z;
  starts_at : option Z;
  promo_expires_at : option Z;
  activation_count : Z;
  created_by_admin_id : option Z;
  promo_is_active : bool;
  promo_created_at : Z;
  promo_updated_at : Z;
}.

Record PromoActivation := {
  pa_id : Z;
  pa_promo_code_id : Z;
  pa_user_id : Z;
  pa_order_id : option Z;
  amount_before : Z;
  discount_applied : Z;
  amount_after : Z;
  pa_created_at : Z;
}.

Inductive ReferralStatus := REFERRAL_PENDING | REFERRAL_REWARDED.
#[export] Instance ReferralStatus_eq_dec : EqDecision ReferralStatus.
Proof. solve_decision. Defined.

Record Referral := {
  ref_id : Z;
  referrer_user_id : Z;
  referred_user_id : Z;
  ref_status : ReferralStatus;
  reward_amount : Z;
  referred_reward_amount : Z;
  rewarded_at : option Z;
}.

(** ** Patches: the [Internal*Update] schemas, dumped with [exclude_none] *)

Record OrderInternalUpdate := {
  upd_status : option OrderStatus;
  upd_paid_at : option Z;
  upd_completed_at : option Z;
  upd_provider_meta : option meta_text;
  upd_subscription_id : option Z;
  upd_fee_rub : option Z;
  upd_net_rub : option Z;
}.

Definition no_order_update : OrderInternalUpdate :=
  {| upd_status := None; upd_paid_at := None; upd_completed_at := None;
     upd_provider_meta := None; upd_subscription_id := None; upd_fee_rub := None;
     upd_net_rub := None |}.

(** [p if p is not None else old], for a nullable column. *)
Definition patch_opt {A} (p old : option A) : option A :=
  match p with Some _ => p | None => old end.

Definition apply_order_update (p : OrderInternalUpdate) (o : PaymentOrder) : PaymentOrder :=
  {| order_id := order_id o; order_user_id := order_user_id o;
     order_plan_id := order_plan_id o; order_amount_rub := order_amount_rub o;
     order_provider := order_provider o;
     order_status := default (order_status o) (upd_status p);
     external_id := external_id o; payment_url := payment_url o;
     provider_meta := patch_opt (upd_provider_meta p) (provider_meta o);
     paid_at := patch_opt (upd_paid_at p) (paid_at o);
     completed_at := patch_opt (upd_completed_at p) (completed_at o);
     order_expires_at := order_expires_at o;
     order_subscription_id := patch_opt (upd_subscription_id p) (order_subscription_id o);
     order_type := order_type o; device_slots_qty := device_slots_qty o;
     period_months := period_months o;
     fee_rub := patch_opt (upd_fee_rub p) (fee_rub o);
     net_rub := patch_opt (upd_net_rub p) (net_rub o);
     order_promo_code_id := order_promo_code_id o; order_discount_rub := order_discount_rub o;
     order_created_at := order_created_at o; order_updated_at := order_updated_at o |}.

Record SubscriptionInternalUpdate := {
  supd_plan_id : option Z;
  supd_is_active : option bool;
  supd_expires_at : option Z;
  supd_profile_key : option string;
  supd_preferred_region : option string;
  supd_hwid_enabled : option bool;
  supd_max_devices : option Z;
  supd_paid_device_slots : option Z;
  supd_period_months : option Z;
  supd_updated_at : option Z;
}.

Definition no_sub_update : SubscriptionInternalUpdate :=
  {| supd_plan_id := None; supd_is_active := None; supd_expires_at := None;
     supd_profile_key := None; supd_preferred_region := None; supd_hwid_enabled := None;
     supd_max_devices := None; supd_paid_device_slots := None; supd_period_months := None;
     supd_updated_at := None |}.

Definition apply_sub_update (p : SubscriptionInternalUpdate) (b : Subscription) : Subscription :=
  {| sub_id := sub_id b; sub_user_id := sub_user_id b;
     sub_plan_id := patch_opt (supd_plan_id p) (sub_plan_id b);
     sub_token := sub_token b; sub_token_hash := sub_token_hash b;
     prev_token_hash := prev_token_hash b; prev_token_expires_at := prev_token_expires_at b;
     sub_expires_at := patch_opt (supd_expires_at p) (sub_expires_at b);
     sub_profile_key := patch_opt (supd_profile_key p) (sub_profile_key b);
     preferred_region := patch_opt (supd_preferred_region p) (preferred_region b);
     root_vpn_key_id := root_vpn_key_id b;
     hwid_enabled := default (hwid_enabled b) (supd_hwid_enabled p);
     sub_max_devices := patch_opt (supd_max_devices p) (sub_max_devices b);
     paid_device_slots := default (paid_device_slots b) (supd_paid_device_slots p);
     sub_period_months := default (sub_period_months b) (supd_period_months p);
     sub_used_traffic_bytes := sub_used_traffic_bytes b;
     lifetime_used_traffic_bytes := lifetime_used_traffic_bytes b;
     last_traffic_reset_at := last_traffic_reset_at b;
     first_connected_at := first_connected_at b;
     auto_renew := auto_renew b;
     traffic_warning_threshold_pct := traffic_warning_threshold_pct b;
     sub_is_active := default (sub_is_active b) (supd_is_active p);
     sub_created_at := sub_created_at b;
     sub_updated_at := default (sub_updated_at b) (supd_updated_at p) |}.
