(* ===== verification/FleetModels.v ===== *)
(** Data of the node fleet: the tables of services/nodes/models.py,
    services/vpn/keys/models.py, services/placements/models.py, the device
    tables of services/vpn/subscriptions/models.py, the transport tables of
    services/nodes/agent/models.py, services/nodes/policy/models.py,
    services/traffic/nodes/models.py and services/entry/models.py. *)

From stdpp Require Import base strings list.
From S2P Require Import Prelude Errors RouteModels BillingModels.
Local Open Scope Z_scope.

Record VpnNode := {
  node_id : Z;
  node_name : string;
  node_role : string;
  node_region : string;
  public_domain : string;
  reality_ip : option string;
  internal_wg_ip : string;
  node_key : option string;
  xray_api_port : Z;
  auth_token_hash : string;
  agent_port : Z;
  is_enabled : bool;
  is_draining : bool;
  is_virtual : bool;
  drain_source : option string;
  node_capacity : Z;
  node_zone : option string;
  upstream_node_id : option Z;
  bootstrap_token_expires_at : option Z;
  bootstrapped_at : option Z;
  wg_public_key : option string;
  wg_listen_port : option Z;
  node_is_active : bool;
  node_created_at : Z;
  node_updated_at : Z;
}.

Definition ROLE_BACKEND : string := "backend".

Record NodeAgentState := {
  as_id : Z;
  as_node_id : Z;
  agent_version : string;
  last_config_version : Z;
  last_sync_at : option Z;
  last_seen_at : option Z;
  is_healthy : bool;
  details : list (string * json);
}.

Record NodeAgentIdentity := {
  ai_id : Z;
  ai_node_id : Z;
  agent_instance_id : Z;
  ai_auth_token_hash : string;
  prev_auth_token_hash : option string;
  prev_auth_token_valid_until : option Z;
  full_resync_required : bool;
  last_bootstrap_at : option Z;
  ai_updated_at : Z;
}.

Record VpnKey := {
  key_id : Z;
  key_user_id : Z;
  key_protocol : string;
  key_transport : string;
  client_id : string;
  valid_until : Z;
  traffic_limit_mb : Z;
  key_used_traffic_bytes : Z;
  is_revoked : bool;
  key_subscription_id : option Z;
  entry_routing_override_backend_tag : option string;
  key_is_active : bool;
  key_created_at : Z;
  key_updated_at : Z;
}.

Inductive PlacementDesiredState := desired_active | desired_inactive.
#[export] Instance PlacementDesiredState_eq_dec : EqDecision PlacementDesiredState.
Proof. solve_decision. Defined.

Inductive PlacementAppliedState := applied_pending | applied_applied | applied_error.
#[export] Instance PlacementAppliedState_eq_dec : EqDecision PlacementAppliedState.
Proof. solve_decision. Defined.

Record UserPlacement := {
  pl_id : Z;
  pl_key_id : Z;
  backend_node_id : Z;
  desired_state : PlacementDesiredState;
  applied_state : PlacementAppliedState;
  op_version : Z;
  applied_version : Z;
  sticky_until : option Z;
  last_migration_reason : option string;
  pl_is_active : bool;
  pl_created_at : Z;
  pl_updated_at : Z;
}.

(** The CHECK constraints of [user_placement]. *)
Definition placement_check (p : UserPlacement) : option string :=
  if negb (1 <=? op_version p) then Some "ck_user_placement_op_version_ge_1"
  else if negb (0 <=? applied_version p) then Some "ck_user_placement_applied_version_ge_0"
  else if negb (applied_version p <=? op_version p)
  then Some "ck_user_placement_applied_version_lte_op"
  else None.

Lemma placement_check_None p :
  placement_check p = None ↔
  1 ≤ op_version p ∧ 0 ≤ applied_version p ≤ op_version p.
Proof.
  unfold placement_check.
  destruct (Z.leb_spec 1 (op_version p)), (Z.leb_spec 0 (applied_version p)),
    (Z.leb_spec (applied_version p) (op_version p)); cbn; split;
    try discriminate; try lia; auto.
Qed.

Record SubscriptionDevice := {
  dev_id : Z;
  dev_subscription_id : Z;
  hwid_hash : string;
  dev_last_seen_at : option Z;
  user_agent : option string;
  device_model : option string;
  platform : option string;
  os_version : option string;
  dev_is_active : bool;
  dev_created_at : Z;
  dev_updated_at : Z;
}.

Record SubscriptionDeviceKey := {
  dk_id : Z;
  dk_device_id : Z;
  dk_vpn_key_id : Z;
  dk_transport : string;
  is_primary : bool;
  dk_is_active : bool;
  dk_created_at : Z;
}.

Record EntryBackendAssignment := {
  eba_id : Z;
  eba_entry_node_id : Z;
  eba_backend_node_id : Z;
  eba_weight : Z;
  eba_enabled : bool;
  eba_rank : Z;
  eba_is_active : bool;
  eba_created_at : Z;
  eba_updated_at : Z;
}.

(** What a relay is told about its backends (services/entry/schemas.py). *)
Record RelayBackendOut := {
  rb_id : Z;
  rb_address : string;
  rb_port : Z;
  rb_weight : Z;
  rb_enabled : bool;
  rb_rank : Z;
}.

Record RelayPoolOut := {
  rp_entry_id : Z;
  rp_generation : Z;
  rp_ttl_seconds : Z;
  rp_backends : list RelayBackendOut;
}.

(** The command sent to a node agent (services/nodes/agent/schemas.py). *)
Record PlacementCommandPayload := {
  pc_placement_id : Z;
  pc_key_id : Z;
  pc_node_id : Z;
  pc_backend_node_id : Z;
  pc_op_version : Z;
  pc_desired_state : PlacementDesiredState;
  pc_protocol : string;
  pc_transport : string;
  pc_client_id : string;
  pc_is_revoked : bool;
  pc_valid_until : Z;
  pc_updated_at : Z;
  pc_override_tag : option string;
}.

(** The message id of an outbox row, kept structured: the source renders
    ["placement-command:{placement}:{version}"] for the backend's command and
    appends [":{entry}"] for an entry node's, ["upstream-changed:{entry}:{backend}:{now}"]
    for an upstream change and ["pool-changed:{entry}:{generation}:{event_id}"]
    for a pool snapshot. *)
Inductive message_id :=
| PlacementCommandId (placement op_version : Z) (entry : option Z)
| UpstreamChangedId (entry backend now : Z)
| PoolChangedId (entry generation event_id : Z).
#[export] Instance message_id_eq_dec : EqDecision message_id.
Proof. solve_decision. Defined.

Inductive outbox_payload :=
| PlacementCommand (p : PlacementCommandPayload)
| UpstreamChanged (entry backend : Z) (upstream_name upstream_public_domain : string)
    (upstream_reality_ip : option string) (upstream_internal_wg_ip : string)
    (upstream_agent_port : Z)
| EntryPoolChanged (event_id entry emitted_at : Z) (pool : RelayPoolOut).

(** What a repository call enqueues. *)
Record OutboxEnqueueItem := {
  oei_node_id : Z;
  oei_event_type : string;
  oei_aggregate_id : option Z;
  oei_op_version : option Z;
  oei_subject : string;
  oei_payload : outbox_payload;
  oei_message_id : message_id;
}.

Inductive OutboxStatus := ob_pending | ob_publishing | ob_published | ob_failed.
#[export] Instance OutboxStatus_eq_dec : EqDecision OutboxStatus.
Proof. solve_decision. Defined.

(** A row of [node_transport_outbox]. *)
Record NodeTransportOutbox := {
  ob_id : Z;
  ob_node_id : Z;
  ob_event_type : string;
  ob_aggregate_id : option Z;
  ob_op_version : option Z;
  ob_subject : string;
  ob_payload : outbox_payload;
  ob_message_id : message_id;
  ob_status : OutboxStatus;
  ob_attempts : Z;
  ob_published_at : option Z;
  ob_last_error : option string;
  ob_next_retry_at : option Z;
  ob_created_at : Z;
  ob_updated_at : Z;
}.

(** A row of [node_transport_event_log]; the payload is not read back. *)
Record NodeTransportEventLog := {
  el_id : Z;
  el_node_id : Z;
  el_event_type : string;
  el_event_id : string;
  el_processed_at : Z;
}.

(** A row of [node_transport_state]. *)
Record NodeTransportState := {
  ts_id : Z;
  ts_node_id : Z;
  current_epoch : Z;
  last_snapshot_id : option string;
  last_snapshot_request_event_id : option string;
  last_snapshot_requested_at : option Z;
  last_snapshot_generated_at : option Z;
  last_snapshot_reason : option string;
  last_command_published_at : option Z;
  last_command_message_id : option message_id;
  last_result_received_at : option Z;
  last_result_event_id : option string;
  last_heartbeat_received_at : option Z;
  last_sync_report_received_at : option Z;
  ts_updated_at : Z;
}.

(** services/nodes/policy/models.py *)
Record NodePolicy := {
  np_id : Z;
  stale_after_sec : Z;
  heartbeat_unhealthy_drain_threshold : Z;
  heartbeat_healthy_undrain_threshold : Z;
  auto_heal_enabled : bool;
  auto_heal_tick_sec : Z;
  auto_heal_max_nodes : Z;
  auto_heal_drain_cooldown_sec : Z;
  auto_undrain_enabled : bool;
  placement_error_retry_enabled : bool;
  placement_error_retry_tick_sec : Z;
  placement_error_retry_after_sec : Z;
  placement_rebalance_enabled : bool;
  placement_rebalance_tick_sec : Z;
  placement_rebalance_batch_size : Z;
  entry_apply_fail_threshold : Z;
  entry_apply_fail_unhealthy : bool;
  entry_auto_drain_enabled : bool;
  entry_auto_drain_tick_sec : Z;
  entry_auto_drain_probe_failures : Z;
  entry_auto_drain_max_nodes : Z;
  entry_auto_drain_reason : string;
  entry_auto_undrain_enabled : bool;
  entry_auto_undrain_healthy_ticks : Z;
}.

(** services/traffic/nodes/models.py *)
Record NodeTrafficUsage := {
  ntu_id : Z;
  ntu_entry_node_id : option Z;
  ntu_backend_node_id : option Z;
  ntu_bytes_in : Z;
  ntu_bytes_out : Z;
  ntu_active_sessions : Z;
  ntu_total_sessions : Z;
  ntu_created_at : Z;
}.

(** services/traffic/users/models.py *)
Record TrafficUsage := {
  tu_id : Z;
  tu_key_id : Z;
  tu_delta_bytes : Z;
  reported_total_bytes : Z;
  tu_created_at : Z;
}.

(** services/zones/models.py *)
Record Zone := {
  zone_id : Z;
  zone_code : string;
  zone_name : string;
  zone_emoji : string;
  zone_sort_order : Z;
  zone_is_active : bool;
  zone_created_at : Z;
  zone_updated_at : Z;
}.

(** services/admin/transport/models.py *)
Record NatsProcessedMsgLog := {
  npm_id : Z;
  npm_msg_id : string;
  npm_subject : string;
  npm_created_at : Z;
}.

(** services/probe/models.py; the columns [error_phase], [latency_ms], [error]
    and [details] are not read back by the services. *)
Record ProbeSignal := {
  ps_id : Z;
  ps_node_id : Z;
  ps_route_id : option Z;
  ps_transport_profile_id : option Z;
  ps_transport_kind : option string;
  ps_probe_kind : string;
  ps_target_host : option string;
  ps_target_port : option Z;
  ps_error_phase : option string;
  ps_source : string;
  is_reachable : bool;
  ps_latency_ms : option Z;
  ps_error : option string;
  ps_details : list (string * json);
  checked_at : Z;
  ps_is_active : bool;
  ps_created_at : Z;
}.

(** services/probe/policy/models.py *)
Record ProbePolicy := {
  pp_id : Z;
  auto_route_health_enabled : bool;
  route_suspected_after_failures : Z;
  route_degraded_after_failures : Z;
  route_block_after_failures : Z;
  route_block_cooldown_hours : Z;
  auto_drain_min_consecutive_failures : Z;
  auto_drain_max_probe_age_sec : Z;
  auto_drain_max_nodes : Z;
  auto_drain_source : option string;
  auto_drain_require_recent_failure : bool;
  auto_drain_include_already_draining : bool;
  auto_drain_target_backend_id : option Z;
  auto_drain_last_migration_reason : string;
  pp_auto_undrain_enabled : bool;
  auto_undrain_min_consecutive_successes : Z;
  auto_undrain_max_probe_age_sec : Z;
  auto_undrain_source : option string;
  retention_days : Z;
  synthetic_key_valid_days : Z;
  synthetic_key_traffic_limit_mb : Z;
}.

(** services/alerts/models.py *)
Record AlertEvent := {
  al_id : Z;
  al_level : string;
  al_source : string;
  al_dedup_key : option string;
  al_entity_id : option string;
  al_title : string;
  al_body : string;
  occurrences : Z;
  al_last_seen_at : Z;
  read_at : option Z;
  resolved_at : option Z;
  dismissed_at : option Z;
  telegram_sent_at : option Z;
  al_created_at : Z;
  al_updated_at : Z;
}.

(** services/vpn/subscriptions/models.py *)
Record SubscriptionRouteAssignment := {
  sra_id : Z;
  sra_subscription_id : Z;
  sra_subscription_device_id : Z;
  sra_transport : string;
  sra_entry_node_id : Z;
  sra_backend_node_id : Z;
  sra_route_id : option Z;
  last_assigned_at : Z;
  assignment_count : Z;
}.
