(* ===== verification/SupportModels.v ===== *)
(** The rows of the support desk and of the administrators (services/support/models.py,
    services/auth/admin/models.py), of scenarios, expenses and stored profiles, and the values of
    services/support/schemas.py. *)

From stdpp Require Import base strings list.
From S2P Require Import Prelude Errors BillingModels.
Local Open Scope Z_scope.

(** * Administrators *)

Inductive AdminRole := role_admin | role_operator | role_viewer.
#[export] Instance AdminRole_eq_dec : EqDecision AdminRole.
Proof. solve_decision. Defined.

Record AdminUser := {
  au_id : Z;
  au_username : string;
  password_hash : option string;
  au_telegram_id : option Z;
  telegram_username : option string;
  au_role : AdminRole;
  ui_prefs : option json;
  au_is_active : bool;
  au_created_at : Z;
  au_updated_at : Z;
}.

Record AdminSession := {
  ase_id : Z;
  ase_user_id : Z;
  session_hash : string;
  ase_ip_address : option string;
  ase_user_agent : option string;
  ase_expires_at : Z;
  ase_is_active : bool;
  ase_created_at : Z;
}.

Record AdminAuditEvent := {
  aae_id : Z;
  aae_user_id : option Z;
  aae_action : string;
  aae_detail : option string;
  aae_ip_address : option string;
  aae_created_at : Z;
}.

(** * Tickets *)

Inductive TicketStatus := NEW | IN_PROGRESS | WAITING_USER | CLOSED.
Inductive TicketPriority := LOW | NORMAL | HIGH | URGENT.
Inductive TicketCategory := PAYMENT | TECHNICAL | ACCOUNT | SPEED | CONNECTION | REFUND_REQUEST | OTHER.
Inductive MessageSenderKind := from_user | from_operator | from_system.
#[export] Instance TicketStatus_eq_dec : EqDecision TicketStatus. Proof. solve_decision. Defined.
#[export] Instance TicketPriority_eq_dec : EqDecision TicketPriority. Proof. solve_decision. Defined.
#[export] Instance TicketCategory_eq_dec : EqDecision TicketCategory. Proof. solve_decision. Defined.
#[export] Instance MessageSenderKind_eq_dec : EqDecision MessageSenderKind. Proof. solve_decision. Defined.

Record SupportTicket := {
  tk_id : Z;
  tk_user_id : Z;
  tk_subject : string;
  tk_status : TicketStatus;
  tk_priority : TicketPriority;
  tk_category : TicketCategory;
  assignee_admin_id : option Z;
  last_activity_at : Z;
  closed_at : option Z;
  first_user_msg_at : option Z;
  first_reply_at : option Z;
  tk_created_at : Z;
  tk_updated_at : Z;
}.

Record SupportMessage := {
  sm_id : Z;
  sm_ticket_id : Z;
  sender_kind : MessageSenderKind;
  sender_admin_id : option Z;
  sm_body : string;
  is_note : bool;
  sm_delivered : bool;
  sm_read_at : option Z;
  tg_message_id : option Z;
  sm_created_at : Z;
}.

(** [SupportAttachmentCreate] without the id of the message. *)
Record AttachmentIn := {
  at_kind : string;
  tg_file_id : option string;
  tg_file_unique_id : option string;
  file_name : option string;
  file_size : option Z;
  mime_type : option string;
  duration : option Z;
  storage_url : option string;
}.

Record SupportAttachment := { sa_id : Z; sa_message_id : Z; sa_file : AttachmentIn }.

Record SupportTemplate := {
  st_id : Z;
  st_tag : string;
  st_title : string;
  st_body : string;
  used_count : Z;
}.

(** * Broadcasts *)

Inductive BroadcastAudience := ALL | ACTIVE | EXPIRING | BY_PLAN | TRIAL | NO_SUB | WAS_PAYING_EXPIRED | DORMANT.
Inductive BroadcastStatus := DRAFT | SCHEDULED | SENDING | SENT | BC_FAILED | CANCELLED.
Inductive RecurringCadence := DAILY | WEEKLY.
#[export] Instance BroadcastAudience_eq_dec : EqDecision BroadcastAudience. Proof. solve_decision. Defined.
#[export] Instance BroadcastStatus_eq_dec : EqDecision BroadcastStatus. Proof. solve_decision. Defined.
#[export] Instance RecurringCadence_eq_dec : EqDecision RecurringCadence. Proof. solve_decision. Defined.

(** What is sent: the columns a broadcast and a schedule share. *)
Record Content := {
  br_audience : BroadcastAudience;
  br_plan_id : option Z;
  text_body : string;
  media_kind : option string;
  media_url : option string;
  inline_buttons : option (list json);
  br_promo_code_id : option Z;
}.

Record Broadcast := {
  br_id : Z;
  br_content : Content;
  entities : option (list json);
  custom_emoji_assets : option json;
  br_status : BroadcastStatus;
  scheduled_at : option Z;
  br_sent_at : option Z;
  br_delivered : Z;
  br_errors : Z;
  clicks : Z;
  target_count : Z;
  attempts : Z;
  created_by_admin_id : option Z;
  br_created_at : Z;
  br_updated_at : Z;
}.

Record RecurringBroadcastSchedule := {
  rb_id : Z;
  rb_name : string;
  rb_content : Content;
  cadence : RecurringCadence;
  time_of_day : string;
  weekdays : option (list Z);
  next_run_at : Z;
  last_run_at : option Z;
  rb_created_by : option Z;
  rb_is_active : bool;
  rb_created_at : Z;
  rb_updated_at : Z;
}.

Record BroadcastLog := {
  bl_id : Z;
  bl_broadcast_id : Z;
  bl_user_id : Z;
  bl_delivered : bool;
  clicked : bool;
  clicked_at : option Z;
}.

(** * Messages to the bot *)

Record SupportOutboundAttachmentMsg := {
  om_kind : string;
  om_tg_file_id : option string;
  om_url : option string;
  om_file_name : option string;
}.

Record SupportOutboundInlineButton := {
  btn_text : string;
  btn_url : string;
  btn_style : option string;
  btn_action : option string;
  btn_value : option string;
}.

Record SupportOutboundPayload := {
  so_ticket_id : string;
  so_message_id : string;
  so_telegram_id : Z;
  so_text : string;
  so_media : list SupportOutboundAttachmentMsg;
  so_buttons : list SupportOutboundInlineButton;
  so_entities : option (list json);
  so_parse_mode : option string;
  so_kind : string;
}.

(** * Scenarios *)

Inductive ScenarioCondition := always | not_connected | not_purchased | no_active_sub | connected | purchased.
Inductive ScenarioStatus := SC_ACTIVE | SC_COMPLETED | SC_ABANDONED | SC_STOPPED.
Inductive NodeType := message_node | condition_node | end_node.
#[export] Instance ScenarioCondition_eq_dec : EqDecision ScenarioCondition. Proof. solve_decision. Defined.
#[export] Instance ScenarioStatus_eq_dec : EqDecision ScenarioStatus. Proof. solve_decision. Defined.
#[export] Instance NodeType_eq_dec : EqDecision NodeType. Proof. solve_decision. Defined.

Record ScenarioCampaign := {
  sc_id : Z;
  sc_key : string;
  sc_name : string;
  trigger_event : option string;
  entry_node_key : option string;
  sc_is_active : bool;
  sc_created_at : Z;
}.

(** What the editor gives of a node. *)
Record ScenarioNodeIn := {
  scn_key : string;
  scn_type : NodeType;
  pos_cx : Z;
  pos_top : Z;
  delay_seconds : Z;
  scn_condition : ScenarioCondition;
  repeat_count : Z;
  repeat_interval_sec : Z;
  sn_text_body : option string;
  sn_inline_buttons : option (list json);
  sn_media_kind : option string;
  sn_media_url : option string;
  check_kind : option ScenarioCondition;
  conversion : bool;
  sn_label : option string;
}.

Record ScenarioNode := { sn_id : Z; sn_campaign_id : Z; sn_node : ScenarioNodeIn }.

Record ScenarioEdgeIn := { from_key : string; to_key : string; branch : option string }.
Record ScenarioEdge := { sg_id : Z; sg_campaign_id : Z; sg_edge : ScenarioEdgeIn }.

Record ScenarioState := {
  ss_id : Z;
  ss_user_id : Z;
  ss_campaign_id : Z;
  current_node_key : option string;
  node_sends : Z;
  ss_status : ScenarioStatus;
  entered_at : Z;
  next_send_at : option Z;
  last_step_sent_at : option Z;
}.

(** * Expenses *)

Inductive RecurringPeriodEnum := weekly | monthly | yearly.
#[export] Instance RecurringPeriodEnum_eq_dec : EqDecision RecurringPeriodEnum.
Proof. solve_decision. Defined.

(** Amounts in hundredths of the currency, rates in millionths of a rouble. *)
Record RecurringExpenseTemplate := {
  et_id : Z;
  et_name : string;
  et_kind : string;
  et_amount : Z;
  et_currency : string;
  et_fx_rate : option Z;
  et_period : RecurringPeriodEnum;
  et_next_run_at : Z;
  et_vendor : option string;
  et_region : option string;
  et_description : option string;
  et_is_active : bool;
  et_created_at : Z;
  et_updated_at : Z;
}.

Record Expense := {
  ex_id : Z;
  ex_kind : string;
  ex_amount : Z;
  ex_currency : string;
  ex_amount_rub : Z;
  ex_fx_rate : option Z;
  incurred_at : Z;
  ex_period_start : option Z;
  ex_period_end : option Z;
  ex_vendor : option string;
  ex_region : option string;
  ex_description : option string;
  ex_template_id : option Z;
  ex_created_at : Z;
  ex_updated_at : Z;
}.

(** * Stored profiles *)

(** The JSONB column is the object it holds. *)
Record ProfileArtifact := {
  pa_id : Z;
  pa_version : Z;
  pa_checksum : string;
  pa_artifact : list (string * json);
  pa_is_active : bool;
  pa_created_at : Z;
  pa_updated_at : Z;
}.
