(* ===== verification/Session.v ===== *)
(** The database session a service method runs in: the tables, the clock and the
    identifier supply it reads, the effects it has outside the database, the
    generic repository (shared/database/base_repository.py) and the request
    boundary (shared/database/session.py). *)

From stdpp Require Import base gmap strings list sorting.
From S2P Require Import Prelude Errors RouteModels BillingModels FleetModels SupportModels.
Local Open Scope Z_scope.


(** * State *)

(** One field per table; rows are keyed by their id.  Tables whose rows are
    only ever inserted are lists in insertion order. *)
Record database := {
  users : gmap Z User;
  plans : gmap Z Plan;
  subscriptions : gmap Z Subscription;
  orders : gmap Z PaymentOrder;
  transactions : list BalanceTransaction;
  provider_fees : gmap Z PaymentProviderFee;
  promo_codes : gmap Z PromoCode;
  promo_activations : list PromoActivation;
  referrals : gmap Z Referral;
  nodes : gmap Z VpnNode;
  agent_states : gmap Z NodeAgentState;
  agent_identities : gmap Z NodeAgentIdentity;
  node_policies : gmap Z NodePolicy;
  node_traffic : list NodeTrafficUsage;
  vpn_keys : gmap Z VpnKey;
  placements : gmap Z UserPlacement;
  devices : gmap Z SubscriptionDevice;
  device_keys : gmap Z SubscriptionDeviceKey;
  transport_profiles : gmap Z TransportProfile;
  routes : gmap Z Route;
  entry_assignments : gmap Z EntryBackendAssignment;
  probe_policies : gmap Z ProbePolicy;
  probe_signals : gmap Z ProbeSignal;
  alert_events : gmap Z AlertEvent;
  route_assignments : gmap Z SubscriptionRouteAssignment;
  zones : gmap Z Zone;
  traffic_usages : gmap Z TrafficUsage;
  processed_msgs : gmap Z NatsProcessedMsgLog;
  outbox : gmap Z NodeTransportOutbox;
  event_log : gmap Z NodeTransportEventLog;
  transport_states : gmap Z NodeTransportState;
  admin_users : gmap Z AdminUser;
  admin_sessions : gmap Z AdminSession;
  admin_events : gmap Z AdminAuditEvent;
  support_tickets : gmap Z SupportTicket;
  support_messages : gmap Z SupportMessage;
  support_attachments : gmap Z SupportAttachment;
  support_templates : gmap Z SupportTemplate;
  broadcasts : gmap Z Broadcast;
  recurring_broadcasts : gmap Z RecurringBroadcastSchedule;
  broadcast_logs : gmap Z BroadcastLog;
  scenario_campaigns : gmap Z ScenarioCampaign;
  scenario_nodes : gmap Z ScenarioNode;
  scenario_edges : gmap Z ScenarioEdge;
  scenario_states : gmap Z ScenarioState;
  expenses : gmap Z Expense;
  expense_templates : gmap Z RecurringExpenseTemplate;
  profile_artifacts : gmap Z ProfileArtifact;
}.

Definition empty_db : database :=
  {| users := ∅; plans := ∅; subscriptions := ∅; orders := ∅; transactions := [];
     provider_fees := ∅; promo_codes := ∅; promo_activations := []; referrals := ∅; nodes
     := ∅; agent_states := ∅; agent_identities := ∅; node_policies := ∅; node_traffic :=
     []; vpn_keys := ∅; placements := ∅; devices := ∅; device_keys := ∅; transport_profiles
     := ∅; routes := ∅; entry_assignments := ∅; probe_policies := ∅; probe_signals := ∅;
     alert_events := ∅; route_assignments := ∅; zones := ∅; traffic_usages := ∅;
     processed_msgs := ∅; outbox := ∅; event_log := ∅; transport_states := ∅; admin_users
     := ∅; admin_sessions := ∅; admin_events := ∅; support_tickets := ∅; support_messages
     := ∅; support_attachments := ∅; support_templates := ∅; broadcasts := ∅;
     recurring_broadcasts := ∅; broadcast_logs := ∅; scenario_campaigns := ∅;
     scenario_nodes := ∅; scenario_edges := ∅; scenario_states := ∅; expenses := ∅;
     expense_templates := ∅; profile_artifacts := ∅ |}.

Definition set_users (x : gmap Z User) (d : database) : database :=
  {| users := x; plans := plans d; subscriptions := subscriptions d; orders := orders d;
     transactions := transactions d; provider_fees := provider_fees d; promo_codes :=
     promo_codes d; promo_activations := promo_activations d; referrals := referrals d;
     nodes := nodes d; agent_states := agent_states d; agent_identities := agent_identities
     d; node_policies := node_policies d; node_traffic := node_traffic d; vpn_keys :=
     vpn_keys d; placements := placements d; devices := devices d; device_keys :=
     device_keys d; transport_profiles := transport_profiles d; routes := routes d;
     entry_assignments := entry_assignments d; probe_policies := probe_policies d;
     probe_signals := probe_signals d; alert_events := alert_events d; route_assignments :=
     route_assignments d; zones := zones d; traffic_usages := traffic_usages d;
     processed_msgs := processed_msgs d; outbox := outbox d; event_log := event_log d;
     transport_states := transport_states d; admin_users := admin_users d; admin_sessions
     := admin_sessions d; admin_events := admin_events d; support_tickets :=
     support_tickets d; support_messages := support_messages d; support_attachments :=
     support_attachments d; support_templates := support_templates d; broadcasts :=
     broadcasts d; recurring_broadcasts := recurring_broadcasts d; broadcast_logs :=
     broadcast_logs d; scenario_campaigns := scenario_campaigns d; scenario_nodes :=
     scenario_nodes d; scenario_edges := scenario_edges d; scenario_states :=
     scenario_states d; expenses := expenses d; expense_templates := expense_templates d;
     profile_artifacts := profile_artifacts d |}.
Definition set_plans (x : gmap Z Plan) (d : database) : database :=
  {| users := users d; plans := x; subscriptions := subscriptions d; orders := orders d;
     transactions := transactions d; provider_fees := provider_fees d; promo_codes :=
     promo_codes d; promo_activations := promo_activations d; referrals := referrals d;
     nodes := nodes d; agent_states := agent_states d; agent_identities := agent_identities
     d; node_policies := node_policies d; node_traffic := node_traffic d; vpn_keys :=
     vpn_keys d; placements := placements d; devices := devices d; device_keys :=
     device_keys d; transport_profiles := transport_profiles d; routes := routes d;
     entry_assignments := entry_assignments d; probe_policies := probe_policies d;
     probe_signals := probe_signals d; alert_events := alert_events d; route_assignments :=
     route_assignments d; zones := zones d; traffic_usages := traffic_usages d;
     processed_msgs := processed_msgs d; outbox := outbox d; event_log := event_log d;
     transport_states := transport_states d; admin_users := admin_users d; admin_sessions
     := admin_sessions d; admin_events := admin_events d; support_tickets :=
     support_tickets d; support_messages := support_messages d; support_attachments :=
     support_attachments d; support_templates := support_templates d; broadcasts :=
     broadcasts d; recurring_broadcasts := recurring_broadcasts d; broadcast_logs :=
     broadcast_logs d; scenario_campaigns := scenario_campaigns d; scenario_nodes :=
     scenario_nodes d; scenario_edges := scenario_edges d; scenario_states :=
     scenario_states d; expenses := expenses d; expense_templates := expense_templates d;
     profile_artifacts := profile_artifacts d |}.
Definition set_subscriptions (x : gmap Z Subscription) (d : database) : database :=
  {| users := users d; plans := plans d; subscriptions := x; orders := orders d;
     transactions := transactions d; provider_fees := provider_fees d; promo_codes :=
     promo_codes d; promo_activations := promo_activations d; referrals := referrals d;
     nodes := nodes d; agent_states := agent_states d; agent_identities := agent_identities
     d; node_policies := node_policies d; node_traffic := node_traffic d; vpn_keys :=
     vpn_keys d; placements := placements d; devices := devices d; device_keys :=
     device_keys d; transport_profiles := transport_profiles d; routes := routes d;
     entry_assignments := entry_assignments d; probe_policies := probe_policies d;
     probe_signals := probe_signals d; alert_events := alert_events d; route_assignments :=
     route_assignments d; zones := zones d; traffic_usages := traffic_usages d;
     processed_msgs := processed_msgs d; outbox := outbox d; event_log := event_log d;
     transport_states := transport_states d; admin_users := admin_users d; admin_sessions
     := admin_sessions d; admin_events := admin_events d; support_tickets :=
     support_tickets d; support_messages := support_messages d; support_attachments :=
     support_attachments d; support_templates := support_templates d; broadcasts :=
     broadcasts d; recurring_broadcasts := recurring_broadcasts d; broadcast_logs :=
     broadcast_logs d; scenario_campaigns := scenario_campaigns d; scenario_nodes :=
     scenario_nodes d; scenario_edges := scenario_edges d; scenario_states :=
     scenario_states d; expenses := expenses d; expense_templates := expense_templates d;
     profile_artifacts := profile_artifacts d |}.
Definition set_orders (x : gmap Z PaymentOrder) (d : database) : database :=
  {| users := users d; plans := plans d; subscriptions := subscriptions d; orders := x;
     transactions := transactions d; provider_fees := provider_fees d; promo_codes :=
     promo_codes d; promo_activations := promo_activations d; referrals := referrals d;
     nodes := nodes d; agent_states := agent_states d; agent_identities := agent_identities
     d; node_policies := node_policies d; node_traffic := node_traffic d; vpn_keys :=
     vpn_keys d; placements := placements d; devices := devices d; device_keys :=
     device_keys d; transport_profiles := transport_profiles d; routes := routes d;
     entry_assignments := entry_assignments d; probe_policies := probe_policies d;
     probe_signals := probe_signals d; alert_events := alert_events d; route_assignments :=
     route_assignments d; zones := zones d; traffic_usages := traffic_usages d;
     processed_msgs := processed_msgs d; outbox := outbox d; event_log := event_log d;
     transport_states := transport_states d; admin_users := admin_users d; admin_sessions
     := admin_sessions d; admin_events := admin_events d; support_tickets :=
     support_tickets d; support_messages := support_messages d; support_attachments :=
     support_attachments d; support_templates := support_templates d; broadcasts :=
     broadcasts d; recurring_broadcasts := recurring_broadcasts d; broadcast_logs :=
     broadcast_logs d; scenario_campaigns := scenario_campaigns d; scenario_nodes :=
     scenario_nodes d; scenario_edges := scenario_edges d; scenario_states :=
     scenario_states d; expenses := expenses d; expense_templates := expense_templates d;
     profile_artifacts := profile_artifacts d |}.
Definition set_transactions (x : list BalanceTransaction) (d : database) : database :=
  {| users := users d; plans := plans d; subscriptions := subscriptions d; orders := orders
     d; transactions := x; provider_fees := provider_fees d; promo_codes := promo_codes d;
     promo_activations := promo_activations d; referrals := referrals d; nodes := nodes d;
     agent_states := agent_states d; agent_identities := agent_identities d; node_policies
     := node_policies d; node_traffic := node_traffic d; vpn_keys := vpn_keys d; placements
     := placements d; devices := devices d; device_keys := device_keys d;
     transport_profiles := transport_profiles d; routes := routes d; entry_assignments :=
     entry_assignments d; probe_policies := probe_policies d; probe_signals :=
     probe_signals d; alert_events := alert_events d; route_assignments :=
     route_assignments d; zones := zones d; traffic_usages := traffic_usages d;
     processed_msgs := processed_msgs d; outbox := outbox d; event_log := event_log d;
     transport_states := transport_states d; admin_users := admin_users d; admin_sessions
     := admin_sessions d; admin_events := admin_events d; support_tickets :=
     support_tickets d; support_messages := support_messages d; support_attachments :=
     support_attachments d; support_templates := support_templates d; broadcasts :=
     broadcasts d; recurring_broadcasts := recurring_broadcasts d; broadcast_logs :=
     broadcast_logs d; scenario_campaigns := scenario_campaigns d; scenario_nodes :=
     scenario_nodes d; scenario_edges := scenario_edges d; scenario_states :=
     scenario_states d; expenses := expenses d; expense_templates := expense_templates d;
     profile_artifacts := profile_artifacts d |}.
Definition set_provider_fees (x : gmap Z PaymentProviderFee) (d : database) : database :=
  {| users := users d; plans := plans d; subscriptions := subscriptions d; orders := orders
     d; transactions := transactions d; provider_fees := x; promo_codes := promo_codes d;
     promo_activations := promo_activations d; referrals := referrals d; nodes := nodes d;
     agent_states := agent_states d; agent_identities := agent_identities d; node_policies
     := node_policies d; node_traffic := node_traffic d; vpn_keys := vpn_keys d; placements
     := placements d; devices := devices d; device_keys := device_keys d;
     transport_profiles := transport_profiles d; routes := routes d; entry_assignments :=
     entry_assignments d; probe_policies := probe_policies d; probe_signals :=
     probe_signals d; alert_events := alert_events d; route_assignments :=
     route_assignments d; zones := zones d; traffic_usages := traffic_usages d;
     processed_msgs := processed_msgs d; outbox := outbox d; event_log := event_log d;
     transport_states := transport_states d; admin_users := admin_users d; admin_sessions
     := admin_sessions d; admin_events := admin_events d; support_tickets :=
     support_tickets d; support_messages := support_messages d; support_attachments :=
     support_attachments d; support_templates := support_templates d; broadcasts :=
     broadcasts d; recurring_broadcasts := recurring_broadcasts d; broadcast_logs :=
     broadcast_logs d; scenario_campaigns := scenario_campaigns d; scenario_nodes :=
     scenario_nodes d; scenario_edges := scenario_edges d; scenario_states :=
     scenario_states d; expenses := expenses d; expense_templates := expense_templates d;
     profile_artifacts := profile_artifacts d |}.
Definition set_promo_codes (x : gmap Z PromoCode) (d : database) : database :=
  {| users := users d; plans := plans d; subscriptions := subscriptions d; orders := orders
     d; transactions := transactions d; provider_fees := provider_fees d; promo_codes := x;
     promo_activations := promo_activations d; referrals := referrals d; nodes := nodes d;
     agent_states := agent_states d; agent_identities := agent_identities d; node_policies
     := node_policies d; node_traffic := node_traffic d; vpn_keys := vpn_keys d; placements
     := placements d; devices := devices d; device_keys := device_keys d;
     transport_profiles := transport_profiles d; routes := routes d; entry_assignments :=
     entry_assignments d; probe_policies := probe_policies d; probe_signals :=
     probe_signals d; alert_events := alert_events d; route_assignments :=
     route_assignments d; zones := zones d; traffic_usages := traffic_usages d;
     processed_msgs := processed_msgs d; outbox := outbox d; event_log := event_log d;
     transport_states := transport_states d; admin_users := admin_users d; admin_sessions
     := admin_sessions d; admin_events := admin_events d; support_tickets :=
     support_tickets d; support_messages := support_messages d; support_attachments :=
     support_attachments d; support_templates := support_templates d; broadcasts :=
     broadcasts d; recurring_broadcasts := recurring_broadcasts d; broadcast_logs :=
     broadcast_logs d; scenario_campaigns := scenario_campaigns d; scenario_nodes :=
     scenario_nodes d; scenario_edges := scenario_edges d; scenario_states :=
     scenario_states d; expenses := expenses d; expense_templates := expense_templates d;
     profile_artifacts := profile_artifacts d |}.
Definition set_promo_activations (x : list PromoActivation) (d : database) : database :=
  {| users := users d; plans := plans d; subscriptions := subscriptions d; orders := orders
     d; transactions := transactions d; provider_fees := provider_fees d; promo_codes :=
     promo_codes d; promo_activations := x; referrals := referrals d; nodes := nodes d;
     agent_states := agent_states d; agent_identities := agent_identities d; node_policies
     := node_policies d; node_traffic := node_traffic d; vpn_keys := vpn_keys d; placements
     := placements d; devices := devices d; device_keys := device_keys d;
     transport_profiles := transport_profiles d; routes := routes d; entry_assignments :=
     entry_assignments d; probe_policies := probe_policies d; probe_signals :=
     probe_signals d; alert_events := alert_events d; route_assignments :=
     route_assignments d; zones := zones d; traffic_usages := traffic_usages d;
     processed_msgs := processed_msgs d; outbox := outbox d; event_log := event_log d;
     transport_states := transport_states d; admin_users := admin_users d; admin_sessions
     := admin_sessions d; admin_events := admin_events d; support_tickets :=
     support_tickets d; support_messages := support_messages d; support_attachments :=
     support_attachments d; support_templates := support_templates d; broadcasts :=
     broadcasts d; recurring_broadcasts := recurring_broadcasts d; broadcast_logs :=
     broadcast_logs d; scenario_campaigns := scenario_campaigns d; scenario_nodes :=
     scenario_nodes d; scenario_edges := scenario_edges d; scenario_states :=
     scenario_states d; expenses := expenses d; expense_templates := expense_templates d;
     profile_artifacts := profile_artifacts d |}.
Definition set_referrals (x : gmap Z Referral) (d : database) : database :=
  {| users := users d; plans := plans d; subscriptions := subscriptions d; orders := orders
     d; transactions := transactions d; provider_fees := provider_fees d; promo_codes :=
     promo_codes d; promo_activations := promo_activations d; referrals := x; nodes :=
     nodes d; agent_states := agent_states d; agent_identities := agent_identities d;
     node_policies := node_policies d; node_traffic := node_traffic d; vpn_keys := vpn_keys
     d; placements := placements d; devices := devices d; device_keys := device_keys d;
     transport_profiles := transport_profiles d; routes := routes d; entry_assignments :=
     entry_assignments d; probe_policies := probe_policies d; probe_signals :=
     probe_signals d; alert_events := alert_events d; route_assignments :=
     route_assignments d; zones := zones d; traffic_usages := traffic_usages d;
     processed_msgs := processed_msgs d; outbox := outbox d; event_log := event_log d;
     transport_states := transport_states d; admin_users := admin_users d; admin_sessions
     := admin_sessions d; admin_events := admin_events d; support_tickets :=
     support_tickets d; support_messages := support_messages d; support_attachments :=
     support_attachments d; support_templates := support_templates d; broadcasts :=
     broadcasts d; recurring_broadcasts := recurring_broadcasts d; broadcast_logs :=
     broadcast_logs d; scenario_campaigns := scenario_campaigns d; scenario_nodes :=
     scenario_nodes d; scenario_edges := scenario_edges d; scenario_states :=
     scenario_states d; expenses := expenses d; expense_templates := expense_templates d;
     profile_artifacts := profile_artifacts d |}.
Definition set_nodes (x : gmap Z VpnNode) (d : database) : database :=
  {| users := users d; plans := plans d; subscriptions := subscriptions d; orders := orders
     d; transactions := transactions d; provider_fees := provider_fees d; promo_codes :=
     promo_codes d; promo_activations := promo_activations d; referrals := referrals d;
     nodes := x; agent_states := agent_states d; agent_identities := agent_identities d;
     node_policies := node_policies d; node_traffic := node_traffic d; vpn_keys := vpn_keys
     d; placements := placements d; devices := devices d; device_keys := device_keys d;
     transport_profiles := transport_profiles d; routes := routes d; entry_assignments :=
     entry_assignments d; probe_policies := probe_policies d; probe_signals :=
     probe_signals d; alert_events := alert_events d; route_assignments :=
     route_assignments d; zones := zones d; traffic_usages := traffic_usages d;
     processed_msgs := processed_msgs d; outbox := outbox d; event_log := event_log d;
     transport_states := transport_states d; admin_users := admin_users d; admin_sessions
     := admin_sessions d; admin_events := admin_events d; support_tickets :=
     support_tickets d; support_messages := support_messages d; support_attachments :=
     support_attachments d; support_templates := support_templates d; broadcasts :=
     broadcasts d; recurring_broadcasts := recurring_broadcasts d; broadcast_logs :=
     broadcast_logs d; scenario_campaigns := scenario_campaigns d; scenario_nodes :=
     scenario_nodes d; scenario_edges := scenario_edges d; scenario_states :=
     scenario_states d; expenses := expenses d; expense_templates := expense_templates d;
     profile_artifacts := profile_artifacts d |}.
Definition set_agent_states (x : gmap Z NodeAgentState) (d : database) : database :=
  {| users := users d; plans := plans d; subscriptions := subscriptions d; orders := orders
     d; transactions := transactions d; provider_fees := provider_fees d; promo_codes :=
     promo_codes d; promo_activations := promo_activations d; referrals := referrals d;
     nodes := nodes d; agent_states := x; agent_identities := agent_identities d;
     node_policies := node_policies d; node_traffic := node_traffic d; vpn_keys := vpn_keys
     d; placements := placements d; devices := devices d; device_keys := device_keys d;
     transport_profiles := transport_profiles d; routes := routes d; entry_assignments :=
     entry_assignments d; probe_policies := probe_policies d; probe_signals :=
     probe_signals d; alert_events := alert_events d; route_assignments :=
     route_assignments d; zones := zones d; traffic_usages := traffic_usages d;
     processed_msgs := processed_msgs d; outbox := outbox d; event_log := event_log d;
     transport_states := transport_states d; admin_users := admin_users d; admin_sessions
     := admin_sessions d; admin_events := admin_events d; support_tickets :=
     support_tickets d; support_messages := support_messages d; support_attachments :=
     support_attachments d; support_templates := support_templates d; broadcasts :=
     broadcasts d; recurring_broadcasts := recurring_broadcasts d; broadcast_logs :=
     broadcast_logs d; scenario_campaigns := scenario_campaigns d; scenario_nodes :=
     scenario_nodes d; scenario_edges := scenario_edges d; scenario_states :=
     scenario_states d; expenses := expenses d; expense_templates := expense_templates d;
     profile_artifacts := profile_artifacts d |}.
Definition set_agent_identities (x : gmap Z NodeAgentIdentity) (d : database) : database :=
  {| users := users d; plans := plans d; subscriptions := subscriptions d; orders := orders
     d; transactions := transactions d; provider_fees := provider_fees d; promo_codes :=
     promo_codes d; promo_activations := promo_activations d; referrals := referrals d;
     nodes := nodes d; agent_states := agent_states d; agent_identities := x; node_policies
     := node_policies d; node_traffic := node_traffic d; vpn_keys := vpn_keys d; placements
     := placements d; devices := devices d; device_keys := device_keys d;
     transport_profiles := transport_profiles d; routes := routes d; entry_assignments :=
     entry_assignments d; probe_policies := probe_policies d; probe_signals :=
     probe_signals d; alert_events := alert_events d; route_assignments :=
     route_assignments d; zones := zones d; traffic_usages := traffic_usages d;
     processed_msgs := processed_msgs d; outbox := outbox d; event_log := event_log d;
     transport_states := transport_states d; admin_users := admin_users d; admin_sessions
     := admin_sessions d; admin_events := admin_events d; support_tickets :=
     support_tickets d; support_messages := support_messages d; support_attachments :=
     support_attachments d; support_templates := support_templates d; broadcasts :=
     broadcasts d; recurring_broadcasts := recurring_broadcasts d; broadcast_logs :=
     broadcast_logs d; scenario_campaigns := scenario_campaigns d; scenario_nodes :=
     scenario_nodes d; scenario_edges := scenario_edges d; scenario_states :=
     scenario_states d; expenses := expenses d; expense_templates := expense_templates d;
     profile_artifacts := profile_artifacts d |}.
Definition set_node_policies (x : gmap Z NodePolicy) (d : database) : database :=
  {| users := users d; plans := plans d; subscriptions := subscriptions d; orders := orders
     d; transactions := transactions d; provider_fees := provider_fees d; promo_codes :=
     promo_codes d; promo_activations := promo_activations d; referrals := referrals d;
     nodes := nodes d; agent_states := agent_states d; agent_identities := agent_identities
     d; node_policies := x; node_traffic := node_traffic d; vpn_keys := vpn_keys d;
     placements := placements d; devices := devices d; device_keys := device_keys d;
     transport_profiles := transport_profiles d; routes := routes d; entry_assignments :=
     entry_assignments d; probe_policies := probe_policies d; probe_signals :=
     probe_signals d; alert_events := alert_events d; route_assignments :=
     route_assignments d; zones := zones d; traffic_usages := traffic_usages d;
     processed_msgs := processed_msgs d; outbox := outbox d; event_log := event_log d;
     transport_states := transport_states d; admin_users := admin_users d; admin_sessions
     := admin_sessions d; admin_events := admin_events d; support_tickets :=
     support_tickets d; support_messages := support_messages d; support_attachments :=
     support_attachments d; support_templates := support_templates d; broadcasts :=
     broadcasts d; recurring_broadcasts := recurring_broadcasts d; broadcast_logs :=
     broadcast_logs d; scenario_campaigns := scenario_campaigns d; scenario_nodes :=
     scenario_nodes d; scenario_edges := scenario_edges d; scenario_states :=
     scenario_states d; expenses := expenses d; expense_templates := expense_templates d;
     profile_artifacts := profile_artifacts d |}.
Definition set_node_traffic (x : list NodeTrafficUsage) (d : database) : database :=
  {| users := users d; plans := plans d; subscriptions := subscriptions d; orders := orders
     d; transactions := transactions d; provider_fees := provider_fees d; promo_codes :=
     promo_codes d; promo_activations := promo_activations d; referrals := referrals d;
     nodes := nodes d; agent_states := agent_states d; agent_identities := agent_identities
     d; node_policies := node_policies d; node_traffic := x; vpn_keys := vpn_keys d;
     placements := placements d; devices := devices d; device_keys := device_keys d;
     transport_profiles := transport_profiles d; routes := routes d; entry_assignments :=
     entry_assignments d; probe_policies := probe_policies d; probe_signals :=
     probe_signals d; alert_events := alert_events d; route_assignments :=
     route_assignments d; zones := zones d; traffic_usages := traffic_usages d;
     processed_msgs := processed_msgs d; outbox := outbox d; event_log := event_log d;
     transport_states := transport_states d; admin_users := admin_users d; admin_sessions
     := admin_sessions d; admin_events := admin_events d; support_tickets :=
     support_tickets d; support_messages := support_messages d; support_attachments :=
     support_attachments d; support_templates := support_templates d; broadcasts :=
     broadcasts d; recurring_broadcasts := recurring_broadcasts d; broadcast_logs :=
     broadcast_logs d; scenario_campaigns := scenario_campaigns d; scenario_nodes :=
     scenario_nodes d; scenario_edges := scenario_edges d; scenario_states :=
     scenario_states d; expenses := expenses d; expense_templates := expense_templates d;
     profile_artifacts := profile_artifacts d |}.
Definition set_vpn_keys (x : gmap Z VpnKey) (d : database) : database :=
  {| users := users d; plans := plans d; subscriptions := subscriptions d; orders := orders
     d; transactions := transactions d; provider_fees := provider_fees d; promo_codes :=
     promo_codes d; promo_activations := promo_activations d; referrals := referrals d;
     nodes := nodes d; agent_states := agent_states d; agent_identities := agent_identities
     d; node_policies := node_policies d; node_traffic := node_traffic d; vpn_keys := x;
     placements := placements d; devices := devices d; device_keys := device_keys d;
     transport_profiles := transport_profiles d; routes := routes d; entry_assignments :=
     entry_assignments d; probe_policies := probe_policies d; probe_signals :=
     probe_signals d; alert_events := alert_events d; route_assignments :=
     route_assignments d; zones := zones d; traffic_usages := traffic_usages d;
     processed_msgs := processed_msgs d; outbox := outbox d; event_log := event_log d;
     transport_states := transport_states d; admin_users := admin_users d; admin_sessions
     := admin_sessions d; admin_events := admin_events d; support_tickets :=
     support_tickets d; support_messages := support_messages d; support_attachments :=
     support_attachments d; support_templates := support_templates d; broadcasts :=
     broadcasts d; recurring_broadcasts := recurring_broadcasts d; broadcast_logs :=
     broadcast_logs d; scenario_campaigns := scenario_campaigns d; scenario_nodes :=
     scenario_nodes d; scenario_edges := scenario_edges d; scenario_states :=
     scenario_states d; expenses := expenses d; expense_templates := expense_templates d;
     profile_artifacts := profile_artifacts d |}.
Definition set_placements (x : gmap Z UserPlacement) (d : database) : database :=
  {| users := users d; plans := plans d; subscriptions := subscriptions d; orders := orders
     d; transactions := transactions d; provider_fees := provider_fees d; promo_codes :=
     promo_codes d; promo_activations := promo_activations d; referrals := referrals d;
     nodes := nodes d; agent_states := agent_states d; agent_identities := agent_identities
     d; node_policies := node_policies d; node_traffic := node_traffic d; vpn_keys :=
     vpn_keys d; placements := x; devices := devices d; device_keys := device_keys d;
     transport_profiles := transport_profiles d; routes := routes d; entry_assignments :=
     entry_assignments d; probe_policies := probe_policies d; probe_signals :=
     probe_signals d; alert_events := alert_events d; route_assignments :=
     route_assignments d; zones := zones d; traffic_usages := traffic_usages d;
     processed_msgs := processed_msgs d; outbox := outbox d; event_log := event_log d;
     transport_states := transport_states d; admin_users := admin_users d; admin_sessions
     := admin_sessions d; admin_events := admin_events d; support_tickets :=
     support_tickets d; support_messages := support_messages d; support_attachments :=
     support_attachments d; support_templates := support_templates d; broadcasts :=
     broadcasts d; recurring_broadcasts := recurring_broadcasts d; broadcast_logs :=
     broadcast_logs d; scenario_campaigns := scenario_campaigns d; scenario_nodes :=
     scenario_nodes d; scenario_edges := scenario_edges d; scenario_states :=
     scenario_states d; expenses := expenses d; expense_templates := expense_templates d;
     profile_artifacts := profile_artifacts d |}.
Definition set_devices (x : gmap Z SubscriptionDevice) (d : database) : database :=
  {| users := users d; plans := plans d; subscriptions := subscriptions d; orders := orders
     d; transactions := transactions d; provider_fees := provider_fees d; promo_codes :=
     promo_codes d; promo_activations := promo_activations d; referrals := referrals d;
     nodes := nodes d; agent_states := agent_states d; agent_identities := agent_identities
     d; node_policies := node_policies d; node_traffic := node_traffic d; vpn_keys :=
     vpn_keys d; placements := placements d; devices := x; device_keys := device_keys d;
     transport_profiles := transport_profiles d; routes := routes d; entry_assignments :=
     entry_assignments d; probe_policies := probe_policies d; probe_signals :=
     probe_signals d; alert_events := alert_events d; route_assignments :=
     route_assignments d; zones := zones d; traffic_usages := traffic_usages d;
     processed_msgs := processed_msgs d; outbox := outbox d; event_log := event_log d;
     transport_states := transport_states d; admin_users := admin_users d; admin_sessions
     := admin_sessions d; admin_events := admin_events d; support_tickets :=
     support_tickets d; support_messages := support_messages d; support_attachments :=
     support_attachments d; support_templates := support_templates d; broadcasts :=
     broadcasts d; recurring_broadcasts := recurring_broadcasts d; broadcast_logs :=
     broadcast_logs d; scenario_campaigns := scenario_campaigns d; scenario_nodes :=
     scenario_nodes d; scenario_edges := scenario_edges d; scenario_states :=
     scenario_states d; expenses := expenses d; expense_templates := expense_templates d;
     profile_artifacts := profile_artifacts d |}.
Definition set_device_keys (x : gmap Z SubscriptionDeviceKey) (d : database) : database :=
  {| users := users d; plans := plans d; subscriptions := subscriptions d; orders := orders
     d; transactions := transactions d; provider_fees := provider_fees d; promo_codes :=
     promo_codes d; promo_activations := promo_activations d; referrals := referrals d;
     nodes := nodes d; agent_states := agent_states d; agent_identities := agent_identities
     d; node_policies := node_policies d; node_traffic := node_traffic d; vpn_keys :=
     vpn_keys d; placements := placements d; devices := devices d; device_keys := x;
     transport_profiles := transport_profiles d; routes := routes d; entry_assignments :=
     entry_assignments d; probe_policies := probe_policies d; probe_signals :=
     probe_signals d; alert_events := alert_events d; route_assignments :=
     route_assignments d; zones := zones d; traffic_usages := traffic_usages d;
     processed_msgs := processed_msgs d; outbox := outbox d; event_log := event_log d;
     transport_states := transport_states d; admin_users := admin_users d; admin_sessions
     := admin_sessions d; admin_events := admin_events d; support_tickets :=
     support_tickets d; support_messages := support_messages d; support_attachments :=
     support_attachments d; support_templates := support_templates d; broadcasts :=
     broadcasts d; recurring_broadcasts := recurring_broadcasts d; broadcast_logs :=
     broadcast_logs d; scenario_campaigns := scenario_campaigns d; scenario_nodes :=
     scenario_nodes d; scenario_edges := scenario_edges d; scenario_states :=
     scenario_states d; expenses := expenses d; expense_templates := expense_templates d;
     profile_artifacts := profile_artifacts d |}.
Definition set_transport_profiles (x : gmap Z TransportProfile) (d : database) : database :=
  {| users := users d; plans := plans d; subscriptions := subscriptions d; orders := orders
     d; transactions := transactions d; provider_fees := provider_fees d; promo_codes :=
     promo_codes d; promo_activations := promo_activations d; referrals := referrals d;
     nodes := nodes d; agent_states := agent_states d; agent_identities := agent_identities
     d; node_policies := node_policies d; node_traffic := node_traffic d; vpn_keys :=
     vpn_keys d; placements := placements d; devices := devices d; device_keys :=
     device_keys d; transport_profiles := x; routes := routes d; entry_assignments :=
     entry_assignments d; probe_policies := probe_policies d; probe_signals :=
     probe_signals d; alert_events := alert_events d; route_assignments :=
     route_assignments d; zones := zones d; traffic_usages := traffic_usages d;
     processed_msgs := processed_msgs d; outbox := outbox d; event_log := event_log d;
     transport_states := transport_states d; admin_users := admin_users d; admin_sessions
     := admin_sessions d; admin_events := admin_events d; support_tickets :=
     support_tickets d; support_messages := support_messages d; support_attachments :=
     support_attachments d; support_templates := support_templates d; broadcasts :=
     broadcasts d; recurring_broadcasts := recurring_broadcasts d; broadcast_logs :=
     broadcast_logs d; scenario_campaigns := scenario_campaigns d; scenario_nodes :=
     scenario_nodes d; scenario_edges := scenario_edges d; scenario_states :=
     scenario_states d; expenses := expenses d; expense_templates := expense_templates d;
     profile_artifacts := profile_artifacts d |}.
Definition set_routes (x : gmap Z Route) (d : database) : database :=
  {| users := users d; plans := plans d; subscriptions := subscriptions d; orders := orders
     d; transactions := transactions d; provider_fees := provider_fees d; promo_codes :=
     promo_codes d; promo_activations := promo_activations d; referrals := referrals d;
     nodes := nodes d; agent_states := agent_states d; agent_identities := agent_identities
     d; node_policies := node_policies d; node_traffic := node_traffic d; vpn_keys :=
     vpn_keys d; placements := placements d; devices := devices d; device_keys :=
     device_keys d; transport_profiles := transport_profiles d; routes := x;
     entry_assignments := entry_assignments d; probe_policies := probe_policies d;
     probe_signals := probe_signals d; alert_events := alert_events d; route_assignments :=
     route_assignments d; zones := zones d; traffic_usages := traffic_usages d;
     processed_msgs := processed_msgs d; outbox := outbox d; event_log := event_log d;
     transport_states := transport_states d; admin_users := admin_users d; admin_sessions
     := admin_sessions d; admin_events := admin_events d; support_tickets :=
     support_tickets d; support_messages := support_messages d; support_attachments :=
     support_attachments d; support_templates := support_templates d; broadcasts :=
     broadcasts d; recurring_broadcasts := recurring_broadcasts d; broadcast_logs :=
     broadcast_logs d; scenario_campaigns := scenario_campaigns d; scenario_nodes :=
     scenario_nodes d; scenario_edges := scenario_edges d; scenario_states :=
     scenario_states d; expenses := expenses d; expense_templates := expense_templates d;
     profile_artifacts := profile_artifacts d |}.
Definition set_entry_assignments (x : gmap Z EntryBackendAssignment) (d : database) : database :=
  {| users := users d; plans := plans d; subscriptions := subscriptions d; orders := orders
     d; transactions := transactions d; provider_fees := provider_fees d; promo_codes :=
     promo_codes d; promo_activations := promo_activations d; referrals := referrals d;
     nodes := nodes d; agent_states := agent_states d; agent_identities := agent_identities
     d; node_policies := node_policies d; node_traffic := node_traffic d; vpn_keys :=
     vpn_keys d; placements := placements d; devices := devices d; device_keys :=
     device_keys d; transport_profiles := transport_profiles d; routes := routes d;
     entry_assignments := x; probe_policies := probe_policies d; probe_signals :=
     probe_signals d; alert_events := alert_events d; route_assignments :=
     route_assignments d; zones := zones d; traffic_usages := traffic_usages d;
     processed_msgs := processed_msgs d; outbox := outbox d; event_log := event_log d;
     transport_states := transport_states d; admin_users := admin_users d; admin_sessions
     := admin_sessions d; admin_events := admin_events d; support_tickets :=
     support_tickets d; support_messages := support_messages d; support_attachments :=
     support_attachments d; support_templates := support_templates d; broadcasts :=
     broadcasts d; recurring_broadcasts := recurring_broadcasts d; broadcast_logs :=
     broadcast_logs d; scenario_campaigns := scenario_campaigns d; scenario_nodes :=
     scenario_nodes d; scenario_edges := scenario_edges d; scenario_states :=
     scenario_states d; expenses := expenses d; expense_templates := expense_templates d;
     profile_artifacts := profile_artifacts d |}.
Definition set_probe_policies (x : gmap Z ProbePolicy) (d : database) : database :=
  {| users := users d; plans := plans d; subscriptions := subscriptions d; orders := orders
     d; transactions := transactions d; provider_fees := provider_fees d; promo_codes :=
     promo_codes d; promo_activations := promo_activations d; referrals := referrals d;
     nodes := nodes d; agent_states := agent_states d; agent_identities := agent_identities
     d; node_policies := node_policies d; node_traffic := node_traffic d; vpn_keys :=
     vpn_keys d; placements := placements d; devices := devices d; device_keys :=
     device_keys d; transport_profiles := transport_profiles d; routes := routes d;
     entry_assignments := entry_assignments d; probe_policies := x; probe_signals :=
     probe_signals d; alert_events := alert_events d; route_assignments :=
     route_assignments d; zones := zones d; traffic_usages := traffic_usages d;
     processed_msgs := processed_msgs d; outbox := outbox d; event_log := event_log d;
     transport_states := transport_states d; admin_users := admin_users d; admin_sessions
     := admin_sessions d; admin_events := admin_events d; support_tickets :=
     support_tickets d; support_messages := support_messages d; support_attachments :=
     support_attachments d; support_templates := support_templates d; broadcasts :=
     broadcasts d; recurring_broadcasts := recurring_broadcasts d; broadcast_logs :=
     broadcast_logs d; scenario_campaigns := scenario_campaigns d; scenario_nodes :=
     scenario_nodes d; scenario_edges := scenario_edges d; scenario_states :=
     scenario_states d; expenses := expenses d; expense_templates := expense_templates d;
     profile_artifacts := profile_artifacts d |}.
Definition set_probe_signals (x : gmap Z ProbeSignal) (d : database) : database :=
  {| users := users d; plans := plans d; subscriptions := subscriptions d; orders := orders
     d; transactions := transactions d; provider_fees := provider_fees d; promo_codes :=
     promo_codes d; promo_activations := promo_activations d; referrals := referrals d;
     nodes := nodes d; agent_states := agent_states d; agent_identities := agent_identities
     d; node_policies := node_policies d; node_traffic := node_traffic d; vpn_keys :=
     vpn_keys d; placements := placements d; devices := devices d; device_keys :=
     device_keys d; transport_profiles := transport_profiles d; routes := routes d;
     entry_assignments := entry_assignments d; probe_policies := probe_policies d;
     probe_signals := x; alert_events := alert_events d; route_assignments :=
     route_assignments d; zones := zones d; traffic_usages := traffic_usages d;
     processed_msgs := processed_msgs d; outbox := outbox d; event_log := event_log d;
     transport_states := transport_states d; admin_users := admin_users d; admin_sessions
     := admin_sessions d; admin_events := admin_events d; support_tickets :=
     support_tickets d; support_messages := support_messages d; support_attachments :=
     support_attachments d; support_templates := support_templates d; broadcasts :=
     broadcasts d; recurring_broadcasts := recurring_broadcasts d; broadcast_logs :=
     broadcast_logs d; scenario_campaigns := scenario_campaigns d; scenario_nodes :=
     scenario_nodes d; scenario_edges := scenario_edges d; scenario_states :=
     scenario_states d; expenses := expenses d; expense_templates := expense_templates d;
     profile_artifacts := profile_artifacts d |}.
Definition set_alert_events (x : gmap Z AlertEvent) (d : database) : database :=
  {| users := users d; plans := plans d; subscriptions := subscriptions d; orders := orders
     d; transactions := transactions d; provider_fees := provider_fees d; promo_codes :=
     promo_codes d; promo_activations := promo_activations d; referrals := referrals d;
     nodes := nodes d; agent_states := agent_states d; agent_identities := agent_identities
     d; node_policies := node_policies d; node_traffic := node_traffic d; vpn_keys :=
     vpn_keys d; placements := placements d; devices := devices d; device_keys :=
     device_keys d; transport_profiles := transport_profiles d; routes := routes d;
     entry_assignments := entry_assignments d; probe_policies := probe_policies d;
     probe_signals := probe_signals d; alert_events := x; route_assignments :=
     route_assignments d; zones := zones d; traffic_usages := traffic_usages d;
     processed_msgs := processed_msgs d; outbox := outbox d; event_log := event_log d;
     transport_states := transport_states d; admin_users := admin_users d; admin_sessions
     := admin_sessions d; admin_events := admin_events d; support_tickets :=
     support_tickets d; support_messages := support_messages d; support_attachments :=
     support_attachments d; support_templates := support_templates d; broadcasts :=
     broadcasts d; recurring_broadcasts := recurring_broadcasts d; broadcast_logs :=
     broadcast_logs d; scenario_campaigns := scenario_campaigns d; scenario_nodes :=
     scenario_nodes d; scenario_edges := scenario_edges d; scenario_states :=
     scenario_states d; expenses := expenses d; expense_templates := expense_templates d;
     profile_artifacts := profile_artifacts d |}.
Definition set_route_assignments (x : gmap Z SubscriptionRouteAssignment) (d : database) : database :=
  {| users := users d; plans := plans d; subscriptions := subscriptions d; orders := orders
     d; transactions := transactions d; provider_fees := provider_fees d; promo_codes :=
     promo_codes d; promo_activations := promo_activations d; referrals := referrals d;
     nodes := nodes d; agent_states := agent_states d; agent_identities := agent_identities
     d; node_policies := node_policies d; node_traffic := node_traffic d; vpn_keys :=
     vpn_keys d; placements := placements d; devices := devices d; device_keys :=
     device_keys d; transport_profiles := transport_profiles d; routes := routes d;
     entry_assignments := entry_assignments d; probe_policies := probe_policies d;
     probe_signals := probe_signals d; alert_events := alert_events d; route_assignments :=
     x; zones := zones d; traffic_usages := traffic_usages d; processed_msgs :=
     processed_msgs d; outbox := outbox d; event_log := event_log d; transport_states :=
     transport_states d; admin_users := admin_users d; admin_sessions := admin_sessions d;
     admin_events := admin_events d; support_tickets := support_tickets d; support_messages
     := support_messages d; support_attachments := support_attachments d; support_templates
     := support_templates d; broadcasts := broadcasts d; recurring_broadcasts :=
     recurring_broadcasts d; broadcast_logs := broadcast_logs d; scenario_campaigns :=
     scenario_campaigns d; scenario_nodes := scenario_nodes d; scenario_edges :=
     scenario_edges d; scenario_states := scenario_states d; expenses := expenses d;
     expense_templates := expense_templates d; profile_artifacts := profile_artifacts d |}.
Definition set_zones (x : gmap Z Zone) (d : database) : database :=
  {| users := users d; plans := plans d; subscriptions := subscriptions d; orders := orders
     d; transactions := transactions d; provider_fees := provider_fees d; promo_codes :=
     promo_codes d; promo_activations := promo_activations d; referrals := referrals d;
     nodes := nodes d; agent_states := agent_states d; agent_identities := agent_identities
     d; node_policies := node_policies d; node_traffic := node_traffic d; vpn_keys :=
     vpn_keys d; placements := placements d; devices := devices d; device_keys :=
     device_keys d; transport_profiles := transport_profiles d; routes := routes d;
     entry_assignments := entry_assignments d; probe_policies := probe_policies d;
     probe_signals := probe_signals d; alert_events := alert_events d; route_assignments :=
     route_assignments d; zones := x; traffic_usages := traffic_usages d; processed_msgs :=
     processed_msgs d; outbox := outbox d; event_log := event_log d; transport_states :=
     transport_states d; admin_users := admin_users d; admin_sessions := admin_sessions d;
     admin_events := admin_events d; support_tickets := support_tickets d; support_messages
     := support_messages d; support_attachments := support_attachments d; support_templates
     := support_templates d; broadcasts := broadcasts d; recurring_broadcasts :=
     recurring_broadcasts d; broadcast_logs := broadcast_logs d; scenario_campaigns :=
     scenario_campaigns d; scenario_nodes := scenario_nodes d; scenario_edges :=
     scenario_edges d; scenario_states := scenario_states d; expenses := expenses d;
     expense_templates := expense_templates d; profile_artifacts := profile_artifacts d |}.
Definition set_traffic_usages (x : gmap Z TrafficUsage) (d : database) : database :=
  {| users := users d; plans := plans d; subscriptions := subscriptions d; orders := orders
     d; transactions := transactions d; provider_fees := provider_fees d; promo_codes :=
     promo_codes d; promo_activations := promo_activations d; referrals := referrals d;
     nodes := nodes d; agent_states := agent_states d; agent_identities := agent_identities
     d; node_policies := node_policies d; node_traffic := node_traffic d; vpn_keys :=
     vpn_keys d; placements := placements d; devices := devices d; device_keys :=
     device_keys d; transport_profiles := transport_profiles d; routes := routes d;
     entry_assignments := entry_assignments d; probe_policies := probe_policies d;
     probe_signals := probe_signals d; alert_events := alert_events d; route_assignments :=
     route_assignments d; zones := zones d; traffic_usages := x; processed_msgs :=
     processed_msgs d; outbox := outbox d; event_log := event_log d; transport_states :=
     transport_states d; admin_users := admin_users d; admin_sessions := admin_sessions d;
     admin_events := admin_events d; support_tickets := support_tickets d; support_messages
     := support_messages d; support_attachments := support_attachments d; support_templates
     := support_templates d; broadcasts := broadcasts d; recurring_broadcasts :=
     recurring_broadcasts d; broadcast_logs := broadcast_logs d; scenario_campaigns :=
     scenario_campaigns d; scenario_nodes := scenario_nodes d; scenario_edges :=
     scenario_edges d; scenario_states := scenario_states d; expenses := expenses d;
     expense_templates := expense_templates d; profile_artifacts := profile_artifacts d |}.
Definition set_processed_msgs (x : gmap Z NatsProcessedMsgLog) (d : database) : database :=
  {| users := users d; plans := plans d; subscriptions := subscriptions d; orders := orders
     d; transactions := transactions d; provider_fees := provider_fees d; promo_codes :=
     promo_codes d; promo_activations := promo_activations d; referrals := referrals d;
     nodes := nodes d; agent_states := agent_states d; agent_identities := agent_identities
     d; node_policies := node_policies d; node_traffic := node_traffic d; vpn_keys :=
     vpn_keys d; placements := placements d; devices := devices d; device_keys :=
     device_keys d; transport_profiles := transport_profiles d; routes := routes d;
     entry_assignments := entry_assignments d; probe_policies := probe_policies d;
     probe_signals := probe_signals d; alert_events := alert_events d; route_assignments :=
     route_assignments d; zones := zones d; traffic_usages := traffic_usages d;
     processed_msgs := x; outbox := outbox d; event_log := event_log d; transport_states :=
     transport_states d; admin_users := admin_users d; admin_sessions := admin_sessions d;
     admin_events := admin_events d; support_tickets := support_tickets d; support_messages
     := support_messages d; support_attachments := support_attachments d; support_templates
     := support_templates d; broadcasts := broadcasts d; recurring_broadcasts :=
     recurring_broadcasts d; broadcast_logs := broadcast_logs d; scenario_campaigns :=
     scenario_campaigns d; scenario_nodes := scenario_nodes d; scenario_edges :=
     scenario_edges d; scenario_states := scenario_states d; expenses := expenses d;
     expense_templates := expense_templates d; profile_artifacts := profile_artifacts d |}.
Definition set_outbox (x : gmap Z NodeTransportOutbox) (d : database) : database :=
  {| users := users d; plans := plans d; subscriptions := subscriptions d; orders := orders
     d; transactions := transactions d; provider_fees := provider_fees d; promo_codes :=
     promo_codes d; promo_activations := promo_activations d; referrals := referrals d;
     nodes := nodes d; agent_states := agent_states d; agent_identities := agent_identities
     d; node_policies := node_policies d; node_traffic := node_traffic d; vpn_keys :=
     vpn_keys d; placements := placements d; devices := devices d; device_keys :=
     device_keys d; transport_profiles := transport_profiles d; routes := routes d;
     entry_assignments := entry_assignments d; probe_policies := probe_policies d;
     probe_signals := probe_signals d; alert_events := alert_events d; route_assignments :=
     route_assignments d; zones := zones d; traffic_usages := traffic_usages d;
     processed_msgs := processed_msgs d; outbox := x; event_log := event_log d;
     transport_states := transport_states d; admin_users := admin_users d; admin_sessions
     := admin_sessions d; admin_events := admin_events d; support_tickets :=
     support_tickets d; support_messages := support_messages d; support_attachments :=
     support_attachments d; support_templates := support_templates d; broadcasts :=
     broadcasts d; recurring_broadcasts := recurring_broadcasts d; broadcast_logs :=
     broadcast_logs d; scenario_campaigns := scenario_campaigns d; scenario_nodes :=
     scenario_nodes d; scenario_edges := scenario_edges d; scenario_states :=
     scenario_states d; expenses := expenses d; expense_templates := expense_templates d;
     profile_artifacts := profile_artifacts d |}.
Definition set_event_log (x : gmap Z NodeTransportEventLog) (d : database) : database :=
  {| users := users d; plans := plans d; subscriptions := subscriptions d; orders := orders
     d; transactions := transactions d; provider_fees := provider_fees d; promo_codes :=
     promo_codes d; promo_activations := promo_activations d; referrals := referrals d;
     nodes := nodes d; agent_states := agent_states d; agent_identities := agent_identities
     d; node_policies := node_policies d; node_traffic := node_traffic d; vpn_keys :=
     vpn_keys d; placements := placements d; devices := devices d; device_keys :=
     device_keys d; transport_profiles := transport_profiles d; routes := routes d;
     entry_assignments := entry_assignments d; probe_policies := probe_policies d;
     probe_signals := probe_signals d; alert_events := alert_events d; route_assignments :=
     route_assignments d; zones := zones d; traffic_usages := traffic_usages d;
     processed_msgs := processed_msgs d; outbox := outbox d; event_log := x;
     transport_states := transport_states d; admin_users := admin_users d; admin_sessions
     := admin_sessions d; admin_events := admin_events d; support_tickets :=
     support_tickets d; support_messages := support_messages d; support_attachments :=
     support_attachments d; support_templates := support_templates d; broadcasts :=
     broadcasts d; recurring_broadcasts := recurring_broadcasts d; broadcast_logs :=
     broadcast_logs d; scenario_campaigns := scenario_campaigns d; scenario_nodes :=
     scenario_nodes d; scenario_edges := scenario_edges d; scenario_states :=
     scenario_states d; expenses := expenses d; expense_templates := expense_templates d;
     profile_artifacts := profile_artifacts d |}.
Definition set_transport_states (x : gmap Z NodeTransportState) (d : database) : database :=
  {| users := users d; plans := plans d; subscriptions := subscriptions d; orders := orders
     d; transactions := transactions d; provider_fees := provider_fees d; promo_codes :=
     promo_codes d; promo_activations := promo_activations d; referrals := referrals d;
     nodes := nodes d; agent_states := agent_states d; agent_identities := agent_identities
     d; node_policies := node_policies d; node_traffic := node_traffic d; vpn_keys :=
     vpn_keys d; placements := placements d; devices := devices d; device_keys :=
     device_keys d; transport_profiles := transport_profiles d; routes := routes d;
     entry_assignments := entry_assignments d; probe_policies := probe_policies d;
     probe_signals := probe_signals d; alert_events := alert_events d; route_assignments :=
     route_assignments d; zones := zones d; traffic_usages := traffic_usages d;
     processed_msgs := processed_msgs d; outbox := outbox d; event_log := event_log d;
     transport_states := x; admin_users := admin_users d; admin_sessions := admin_sessions
     d; admin_events := admin_events d; support_tickets := support_tickets d;
     support_messages := support_messages d; support_attachments := support_attachments d;
     support_templates := support_templates d; broadcasts := broadcasts d;
     recurring_broadcasts := recurring_broadcasts d; broadcast_logs := broadcast_logs d;
     scenario_campaigns := scenario_campaigns d; scenario_nodes := scenario_nodes d;
     scenario_edges := scenario_edges d; scenario_states := scenario_states d; expenses :=
     expenses d; expense_templates := expense_templates d; profile_artifacts :=
     profile_artifacts d |}.
Definition set_admin_users (x : gmap Z AdminUser) (d : database) : database :=
  {| users := users d; plans := plans d; subscriptions := subscriptions d; orders := orders
     d; transactions := transactions d; provider_fees := provider_fees d; promo_codes :=
     promo_codes d; promo_activations := promo_activations d; referrals := referrals d;
     nodes := nodes d; agent_states := agent_states d; agent_identities := agent_identities
     d; node_policies := node_policies d; node_traffic := node_traffic d; vpn_keys :=
     vpn_keys d; placements := placements d; devices := devices d; device_keys :=
     device_keys d; transport_profiles := transport_profiles d; routes := routes d;
     entry_assignments := entry_assignments d; probe_policies := probe_policies d;
     probe_signals := probe_signals d; alert_events := alert_events d; route_assignments :=
     route_assignments d; zones := zones d; traffic_usages := traffic_usages d;
     processed_msgs := processed_msgs d; outbox := outbox d; event_log := event_log d;
     transport_states := transport_states d; admin_users := x; admin_sessions :=
     admin_sessions d; admin_events := admin_events d; support_tickets := support_tickets
     d; support_messages := support_messages d; support_attachments := support_attachments
     d; support_templates := support_templates d; broadcasts := broadcasts d;
     recurring_broadcasts := recurring_broadcasts d; broadcast_logs := broadcast_logs d;
     scenario_campaigns := scenario_campaigns d; scenario_nodes := scenario_nodes d;
     scenario_edges := scenario_edges d; scenario_states := scenario_states d; expenses :=
     expenses d; expense_templates := expense_templates d; profile_artifacts :=
     profile_artifacts d |}.
Definition set_admin_sessions (x : gmap Z AdminSession) (d : database) : database :=
  {| users := users d; plans := plans d; subscriptions := subscriptions d; orders := orders
     d; transactions := transactions d; provider_fees := provider_fees d; promo_codes :=
     promo_codes d; promo_activations := promo_activations d; referrals := referrals d;
     nodes := nodes d; agent_states := agent_states d; agent_identities := agent_identities
     d; node_policies := node_policies d; node_traffic := node_traffic d; vpn_keys :=
     vpn_keys d; placements := placements d; devices := devices d; device_keys :=
     device_keys d; transport_profiles := transport_profiles d; routes := routes d;
     entry_assignments := entry_assignments d; probe_policies := probe_policies d;
     probe_signals := probe_signals d; alert_events := alert_events d; route_assignments :=
     route_assignments d; zones := zones d; traffic_usages := traffic_usages d;
     processed_msgs := processed_msgs d; outbox := outbox d; event_log := event_log d;
     transport_states := transport_states d; admin_users := admin_users d; admin_sessions
     := x; admin_events := admin_events d; support_tickets := support_tickets d;
     support_messages := support_messages d; support_attachments := support_attachments d;
     support_templates := support_templates d; broadcasts := broadcasts d;
     recurring_broadcasts := recurring_broadcasts d; broadcast_logs := broadcast_logs d;
     scenario_campaigns := scenario_campaigns d; scenario_nodes := scenario_nodes d;
     scenario_edges := scenario_edges d; scenario_states := scenario_states d; expenses :=
     expenses d; expense_templates := expense_templates d; profile_artifacts :=
     profile_artifacts d |}.
Definition set_admin_events (x : gmap Z AdminAuditEvent) (d : database) : database :=
  {| users := users d; plans := plans d; subscriptions := subscriptions d; orders := orders
     d; transactions := transactions d; provider_fees := provider_fees d; promo_codes :=
     promo_codes d; promo_activations := promo_activations d; referrals := referrals d;
     nodes := nodes d; agent_states := agent_states d; agent_identities := agent_identities
     d; node_policies := node_policies d; node_traffic := node_traffic d; vpn_keys :=
     vpn_keys d; placements := placements d; devices := devices d; device_keys :=
     device_keys d; transport_profiles := transport_profiles d; routes := routes d;
     entry_assignments := entry_assignments d; probe_policies := probe_policies d;
     probe_signals := probe_signals d; alert_events := alert_events d; route_assignments :=
     route_assignments d; zones := zones d; traffic_usages := traffic_usages d;
     processed_msgs := processed_msgs d; outbox := outbox d; event_log := event_log d;
     transport_states := transport_states d; admin_users := admin_users d; admin_sessions
     := admin_sessions d; admin_events := x; support_tickets := support_tickets d;
     support_messages := support_messages d; support_attachments := support_attachments d;
     support_templates := support_templates d; broadcasts := broadcasts d;
     recurring_broadcasts := recurring_broadcasts d; broadcast_logs := broadcast_logs d;
     scenario_campaigns := scenario_campaigns d; scenario_nodes := scenario_nodes d;
     scenario_edges := scenario_edges d; scenario_states := scenario_states d; expenses :=
     expenses d; expense_templates := expense_templates d; profile_artifacts :=
     profile_artifacts d |}.
Definition set_support_tickets (x : gmap Z SupportTicket) (d : database) : database :=
  {| users := users d; plans := plans d; subscriptions := subscriptions d; orders := orders
     d; transactions := transactions d; provider_fees := provider_fees d; promo_codes :=
     promo_codes d; promo_activations := promo_activations d; referrals := referrals d;
     nodes := nodes d; agent_states := agent_states d; agent_identities := agent_identities
     d; node_policies := node_policies d; node_traffic := node_traffic d; vpn_keys :=
     vpn_keys d; placements := placements d; devices := devices d; device_keys :=
     device_keys d; transport_profiles := transport_profiles d; routes := routes d;
     entry_assignments := entry_assignments d; probe_policies := probe_policies d;
     probe_signals := probe_signals d; alert_events := alert_events d; route_assignments :=
     route_assignments d; zones := zones d; traffic_usages := traffic_usages d;
     processed_msgs := processed_msgs d; outbox := outbox d; event_log := event_log d;
     transport_states := transport_states d; admin_users := admin_users d; admin_sessions
     := admin_sessions d; admin_events := admin_events d; support_tickets := x;
     support_messages := support_messages d; support_attachments := support_attachments d;
     support_templates := support_templates d; broadcasts := broadcasts d;
     recurring_broadcasts := recurring_broadcasts d; broadcast_logs := broadcast_logs d;
     scenario_campaigns := scenario_campaigns d; scenario_nodes := scenario_nodes d;
     scenario_edges := scenario_edges d; scenario_states := scenario_states d; expenses :=
     expenses d; expense_templates := expense_templates d; profile_artifacts :=
     profile_artifacts d |}.
Definition set_support_messages (x : gmap Z SupportMessage) (d : database) : database :=
  {| users := users d; plans := plans d; subscriptions := subscriptions d; orders := orders
     d; transactions := transactions d; provider_fees := provider_fees d; promo_codes :=
     promo_codes d; promo_activations := promo_activations d; referrals := referrals d;
     nodes := nodes d; agent_states := agent_states d; agent_identities := agent_identities
     d; node_policies := node_policies d; node_traffic := node_traffic d; vpn_keys :=
     vpn_keys d; placements := placements d; devices := devices d; device_keys :=
     device_keys d; transport_profiles := transport_profiles d; routes := routes d;
     entry_assignments := entry_assignments d; probe_policies := probe_policies d;
     probe_signals := probe_signals d; alert_events := alert_events d; route_assignments :=
     route_assignments d; zones := zones d; traffic_usages := traffic_usages d;
     processed_msgs := processed_msgs d; outbox := outbox d; event_log := event_log d;
     transport_states := transport_states d; admin_users := admin_users d; admin_sessions
     := admin_sessions d; admin_events := admin_events d; support_tickets :=
     support_tickets d; support_messages := x; support_attachments := support_attachments
     d; support_templates := support_templates d; broadcasts := broadcasts d;
     recurring_broadcasts := recurring_broadcasts d; broadcast_logs := broadcast_logs d;
     scenario_campaigns := scenario_campaigns d; scenario_nodes := scenario_nodes d;
     scenario_edges := scenario_edges d; scenario_states := scenario_states d; expenses :=
     expenses d; expense_templates := expense_templates d; profile_artifacts :=
     profile_artifacts d |}.
Definition set_support_attachments (x : gmap Z SupportAttachment) (d : database) : database :=
  {| users := users d; plans := plans d; subscriptions := subscriptions d; orders := orders
     d; transactions := transactions d; provider_fees := provider_fees d; promo_codes :=
     promo_codes d; promo_activations := promo_activations d; referrals := referrals d;
     nodes := nodes d; agent_states := agent_states d; agent_identities := agent_identities
     d; node_policies := node_policies d; node_traffic := node_traffic d; vpn_keys :=
     vpn_keys d; placements := placements d; devices := devices d; device_keys :=
     device_keys d; transport_profiles := transport_profiles d; routes := routes d;
     entry_assignments := entry_assignments d; probe_policies := probe_policies d;
     probe_signals := probe_signals d; alert_events := alert_events d; route_assignments :=
     route_assignments d; zones := zones d; traffic_usages := traffic_usages d;
     processed_msgs := processed_msgs d; outbox := outbox d; event_log := event_log d;
     transport_states := transport_states d; admin_users := admin_users d; admin_sessions
     := admin_sessions d; admin_events := admin_events d; support_tickets :=
     support_tickets d; support_messages := support_messages d; support_attachments := x;
     support_templates := support_templates d; broadcasts := broadcasts d;
     recurring_broadcasts := recurring_broadcasts d; broadcast_logs := broadcast_logs d;
     scenario_campaigns := scenario_campaigns d; scenario_nodes := scenario_nodes d;
     scenario_edges := scenario_edges d; scenario_states := scenario_states d; expenses :=
     expenses d; expense_templates := expense_templates d; profile_artifacts :=
     profile_artifacts d |}.
Definition set_support_templates (x : gmap Z SupportTemplate) (d : database) : database :=
  {| users := users d; plans := plans d; subscriptions := subscriptions d; orders := orders
     d; transactions := transactions d; provider_fees := provider_fees d; promo_codes :=
     promo_codes d; promo_activations := promo_activations d; referrals := referrals d;
     nodes := nodes d; agent_states := agent_states d; agent_identities := agent_identities
     d; node_policies := node_policies d; node_traffic := node_traffic d; vpn_keys :=
     vpn_keys d; placements := placements d; devices := devices d; device_keys :=
     device_keys d; transport_profiles := transport_profiles d; routes := routes d;
     entry_assignments := entry_assignments d; probe_policies := probe_policies d;
     probe_signals := probe_signals d; alert_events := alert_events d; route_assignments :=
     route_assignments d; zones := zones d; traffic_usages := traffic_usages d;
     processed_msgs := processed_msgs d; outbox := outbox d; event_log := event_log d;
     transport_states := transport_states d; admin_users := admin_users d; admin_sessions
     := admin_sessions d; admin_events := admin_events d; support_tickets :=
     support_tickets d; support_messages := support_messages d; support_attachments :=
     support_attachments d; support_templates := x; broadcasts := broadcasts d;
     recurring_broadcasts := recurring_broadcasts d; broadcast_logs := broadcast_logs d;
     scenario_campaigns := scenario_campaigns d; scenario_nodes := scenario_nodes d;
     scenario_edges := scenario_edges d; scenario_states := scenario_states d; expenses :=
     expenses d; expense_templates := expense_templates d; profile_artifacts :=
     profile_artifacts d |}.
Definition set_broadcasts (x : gmap Z Broadcast) (d : database) : database :=
  {| users := users d; plans := plans d; subscriptions := subscriptions d; orders := orders
     d; transactions := transactions d; provider_fees := provider_fees d; promo_codes :=
     promo_codes d; promo_activations := promo_activations d; referrals := referrals d;
     nodes := nodes d; agent_states := agent_states d; agent_identities := agent_identities
     d; node_policies := node_policies d; node_traffic := node_traffic d; vpn_keys :=
     vpn_keys d; placements := placements d; devices := devices d; device_keys :=
     device_keys d; transport_profiles := transport_profiles d; routes := routes d;
     entry_assignments := entry_assignments d; probe_policies := probe_policies d;
     probe_signals := probe_signals d; alert_events := alert_events d; route_assignments :=
     route_assignments d; zones := zones d; traffic_usages := traffic_usages d;
     processed_msgs := processed_msgs d; outbox := outbox d; event_log := event_log d;
     transport_states := transport_states d; admin_users := admin_users d; admin_sessions
     := admin_sessions d; admin_events := admin_events d; support_tickets :=
     support_tickets d; support_messages := support_messages d; support_attachments :=
     support_attachments d; support_templates := support_templates d; broadcasts := x;
     recurring_broadcasts := recurring_broadcasts d; broadcast_logs := broadcast_logs d;
     scenario_campaigns := scenario_campaigns d; scenario_nodes := scenario_nodes d;
     scenario_edges := scenario_edges d; scenario_states := scenario_states d; expenses :=
     expenses d; expense_templates := expense_templates d; profile_artifacts :=
     profile_artifacts d |}.
Definition set_recurring_broadcasts (x : gmap Z RecurringBroadcastSchedule) (d : database) : database :=
  {| users := users d; plans := plans d; subscriptions := subscriptions d; orders := orders
     d; transactions := transactions d; provider_fees := provider_fees d; promo_codes :=
     promo_codes d; promo_activations := promo_activations d; referrals := referrals d;
     nodes := nodes d; agent_states := agent_states d; agent_identities := agent_identities
     d; node_policies := node_policies d; node_traffic := node_traffic d; vpn_keys :=
     vpn_keys d; placements := placements d; devices := devices d; device_keys :=
     device_keys d; transport_profiles := transport_profiles d; routes := routes d;
     entry_assignments := entry_assignments d; probe_policies := probe_policies d;
     probe_signals := probe_signals d; alert_events := alert_events d; route_assignments :=
     route_assignments d; zones := zones d; traffic_usages := traffic_usages d;
     processed_msgs := processed_msgs d; outbox := outbox d; event_log := event_log d;
     transport_states := transport_states d; admin_users := admin_users d; admin_sessions
     := admin_sessions d; admin_events := admin_events d; support_tickets :=
     support_tickets d; support_messages := support_messages d; support_attachments :=
     support_attachments d; support_templates := support_templates d; broadcasts :=
     broadcasts d; recurring_broadcasts := x; broadcast_logs := broadcast_logs d;
     scenario_campaigns := scenario_campaigns d; scenario_nodes := scenario_nodes d;
     scenario_edges := scenario_edges d; scenario_states := scenario_states d; expenses :=
     expenses d; expense_templates := expense_templates d; profile_artifacts :=
     profile_artifacts d |}.
Definition set_broadcast_logs (x : gmap Z BroadcastLog) (d : database) : database :=
  {| users := users d; plans := plans d; subscriptions := subscriptions d; orders := orders
     d; transactions := transactions d; provider_fees := provider_fees d; promo_codes :=
     promo_codes d; promo_activations := promo_activations d; referrals := referrals d;
     nodes := nodes d; agent_states := agent_states d; agent_identities := agent_identities
     d; node_policies := node_policies d; node_traffic := node_traffic d; vpn_keys :=
     vpn_keys d; placements := placements d; devices := devices d; device_keys :=
     device_keys d; transport_profiles := transport_profiles d; routes := routes d;
     entry_assignments := entry_assignments d; probe_policies := probe_policies d;
     probe_signals := probe_signals d; alert_events := alert_events d; route_assignments :=
     route_assignments d; zones := zones d; traffic_usages := traffic_usages d;
     processed_msgs := processed_msgs d; outbox := outbox d; event_log := event_log d;
     transport_states := transport_states d; admin_users := admin_users d; admin_sessions
     := admin_sessions d; admin_events := admin_events d; support_tickets :=
     support_tickets d; support_messages := support_messages d; support_attachments :=
     support_attachments d; support_templates := support_templates d; broadcasts :=
     broadcasts d; recurring_broadcasts := recurring_broadcasts d; broadcast_logs := x;
     scenario_campaigns := scenario_campaigns d; scenario_nodes := scenario_nodes d;
     scenario_edges := scenario_edges d; scenario_states := scenario_states d; expenses :=
     expenses d; expense_templates := expense_templates d; profile_artifacts :=
     profile_artifacts d |}.
Definition set_scenario_campaigns (x : gmap Z ScenarioCampaign) (d : database) : database :=
  {| users := users d; plans := plans d; subscriptions := subscriptions d; orders := orders
     d; transactions := transactions d; provider_fees := provider_fees d; promo_codes :=
     promo_codes d; promo_activations := promo_activations d; referrals := referrals d;
     nodes := nodes d; agent_states := agent_states d; agent_identities := agent_identities
     d; node_policies := node_policies d; node_traffic := node_traffic d; vpn_keys :=
     vpn_keys d; placements := placements d; devices := devices d; device_keys :=
     device_keys d; transport_profiles := transport_profiles d; routes := routes d;
     entry_assignments := entry_assignments d; probe_policies := probe_policies d;
     probe_signals := probe_signals d; alert_events := alert_events d; route_assignments :=
     route_assignments d; zones := zones d; traffic_usages := traffic_usages d;
     processed_msgs := processed_msgs d; outbox := outbox d; event_log := event_log d;
     transport_states := transport_states d; admin_users := admin_users d; admin_sessions
     := admin_sessions d; admin_events := admin_events d; support_tickets :=
     support_tickets d; support_messages := support_messages d; support_attachments :=
     support_attachments d; support_templates := support_templates d; broadcasts :=
     broadcasts d; recurring_broadcasts := recurring_broadcasts d; broadcast_logs :=
     broadcast_logs d; scenario_campaigns := x; scenario_nodes := scenario_nodes d;
     scenario_edges := scenario_edges d; scenario_states := scenario_states d; expenses :=
     expenses d; expense_templates := expense_templates d; profile_artifacts :=
     profile_artifacts d |}.
Definition set_scenario_nodes (x : gmap Z ScenarioNode) (d : database) : database :=
  {| users := users d; plans := plans d; subscriptions := subscriptions d; orders := orders
     d; transactions := transactions d; provider_fees := provider_fees d; promo_codes :=
     promo_codes d; promo_activations := promo_activations d; referrals := referrals d;
     nodes := nodes d; agent_states := agent_states d; agent_identities := agent_identities
     d; node_policies := node_policies d; node_traffic := node_traffic d; vpn_keys :=
     vpn_keys d; placements := placements d; devices := devices d; device_keys :=
     device_keys d; transport_profiles := transport_profiles d; routes := routes d;
     entry_assignments := entry_assignments d; probe_policies := probe_policies d;
     probe_signals := probe_signals d; alert_events := alert_events d; route_assignments :=
     route_assignments d; zones := zones d; traffic_usages := traffic_usages d;
     processed_msgs := processed_msgs d; outbox := outbox d; event_log := event_log d;
     transport_states := transport_states d; admin_users := admin_users d; admin_sessions
     := admin_sessions d; admin_events := admin_events d; support_tickets :=
     support_tickets d; support_messages := support_messages d; support_attachments :=
     support_attachments d; support_templates := support_templates d; broadcasts :=
     broadcasts d; recurring_broadcasts := recurring_broadcasts d; broadcast_logs :=
     broadcast_logs d; scenario_campaigns := scenario_campaigns d; scenario_nodes := x;
     scenario_edges := scenario_edges d; scenario_states := scenario_states d; expenses :=
     expenses d; expense_templates := expense_templates d; profile_artifacts :=
     profile_artifacts d |}.
Definition set_scenario_edges (x : gmap Z ScenarioEdge) (d : database) : database :=
  {| users := users d; plans := plans d; subscriptions := subscriptions d; orders := orders
     d; transactions := transactions d; provider_fees := provider_fees d; promo_codes :=
     promo_codes d; promo_activations := promo_activations d; referrals := referrals d;
     nodes := nodes d; agent_states := agent_states d; agent_identities := agent_identities
     d; node_policies := node_policies d; node_traffic := node_traffic d; vpn_keys :=
     vpn_keys d; placements := placements d; devices := devices d; device_keys :=
     device_keys d; transport_profiles := transport_profiles d; routes := routes d;
     entry_assignments := entry_assignments d; probe_policies := probe_policies d;
     probe_signals := probe_signals d; alert_events := alert_events d; route_assignments :=
     route_assignments d; zones := zones d; traffic_usages := traffic_usages d;
     processed_msgs := processed_msgs d; outbox := outbox d; event_log := event_log d;
     transport_states := transport_states d; admin_users := admin_users d; admin_sessions
     := admin_sessions d; admin_events := admin_events d; support_tickets :=
     support_tickets d; support_messages := support_messages d; support_attachments :=
     support_attachments d; support_templates := support_templates d; broadcasts :=
     broadcasts d; recurring_broadcasts := recurring_broadcasts d; broadcast_logs :=
     broadcast_logs d; scenario_campaigns := scenario_campaigns d; scenario_nodes :=
     scenario_nodes d; scenario_edges := x; scenario_states := scenario_states d; expenses
     := expenses d; expense_templates := expense_templates d; profile_artifacts :=
     profile_artifacts d |}.
Definition set_scenario_states (x : gmap Z ScenarioState) (d : database) : database :=
  {| users := users d; plans := plans d; subscriptions := subscriptions d; orders := orders
     d; transactions := transactions d; provider_fees := provider_fees d; promo_codes :=
     promo_codes d; promo_activations := promo_activations d; referrals := referrals d;
     nodes := nodes d; agent_states := agent_states d; agent_identities := agent_identities
     d; node_policies := node_policies d; node_traffic := node_traffic d; vpn_keys :=
     vpn_keys d; placements := placements d; devices := devices d; device_keys :=
     device_keys d; transport_profiles := transport_profiles d; routes := routes d;
     entry_assignments := entry_assignments d; probe_policies := probe_policies d;
     probe_signals := probe_signals d; alert_events := alert_events d; route_assignments :=
     route_assignments d; zones := zones d; traffic_usages := traffic_usages d;
     processed_msgs := processed_msgs d; outbox := outbox d; event_log := event_log d;
     transport_states := transport_states d; admin_users := admin_users d; admin_sessions
     := admin_sessions d; admin_events := admin_events d; support_tickets :=
     support_tickets d; support_messages := support_messages d; support_attachments :=
     support_attachments d; support_templates := support_templates d; broadcasts :=
     broadcasts d; recurring_broadcasts := recurring_broadcasts d; broadcast_logs :=
     broadcast_logs d; scenario_campaigns := scenario_campaigns d; scenario_nodes :=
     scenario_nodes d; scenario_edges := scenario_edges d; scenario_states := x; expenses
     := expenses d; expense_templates := expense_templates d; profile_artifacts :=
     profile_artifacts d |}.
Definition set_expenses (x : gmap Z Expense) (d : database) : database :=
  {| users := users d; plans := plans d; subscriptions := subscriptions d; orders := orders
     d; transactions := transactions d; provider_fees := provider_fees d; promo_codes :=
     promo_codes d; promo_activations := promo_activations d; referrals := referrals d;
     nodes := nodes d; agent_states := agent_states d; agent_identities := agent_identities
     d; node_policies := node_policies d; node_traffic := node_traffic d; vpn_keys :=
     vpn_keys d; placements := placements d; devices := devices d; device_keys :=
     device_keys d; transport_profiles := transport_profiles d; routes := routes d;
     entry_assignments := entry_assignments d; probe_policies := probe_policies d;
     probe_signals := probe_signals d; alert_events := alert_events d; route_assignments :=
     route_assignments d; zones := zones d; traffic_usages := traffic_usages d;
     processed_msgs := processed_msgs d; outbox := outbox d; event_log := event_log d;
     transport_states := transport_states d; admin_users := admin_users d; admin_sessions
     := admin_sessions d; admin_events := admin_events d; support_tickets :=
     support_tickets d; support_messages := support_messages d; support_attachments :=
     support_attachments d; support_templates := support_templates d; broadcasts :=
     broadcasts d; recurring_broadcasts := recurring_broadcasts d; broadcast_logs :=
     broadcast_logs d; scenario_campaigns := scenario_campaigns d; scenario_nodes :=
     scenario_nodes d; scenario_edges := scenario_edges d; scenario_states :=
     scenario_states d; expenses := x; expense_templates := expense_templates d;
     profile_artifacts := profile_artifacts d |}.
Definition set_expense_templates (x : gmap Z RecurringExpenseTemplate) (d : database) : database :=
  {| users := users d; plans := plans d; subscriptions := subscriptions d; orders := orders
     d; transactions := transactions d; provider_fees := provider_fees d; promo_codes :=
     promo_codes d; promo_activations := promo_activations d; referrals := referrals d;
     nodes := nodes d; agent_states := agent_states d; agent_identities := agent_identities
     d; node_policies := node_policies d; node_traffic := node_traffic d; vpn_keys :=
     vpn_keys d; placements := placements d; devices := devices d; device_keys :=
     device_keys d; transport_profiles := transport_profiles d; routes := routes d;
     entry_assignments := entry_assignments d; probe_policies := probe_policies d;
     probe_signals := probe_signals d; alert_events := alert_events d; route_assignments :=
     route_assignments d; zones := zones d; traffic_usages := traffic_usages d;
     processed_msgs := processed_msgs d; outbox := outbox d; event_log := event_log d;
     transport_states := transport_states d; admin_users := admin_users d; admin_sessions
     := admin_sessions d; admin_events := admin_events d; support_tickets :=
     support_tickets d; support_messages := support_messages d; support_attachments :=
     support_attachments d; support_templates := support_templates d; broadcasts :=
     broadcasts d; recurring_broadcasts := recurring_broadcasts d; broadcast_logs :=
     broadcast_logs d; scenario_campaigns := scenario_campaigns d; scenario_nodes :=
     scenario_nodes d; scenario_edges := scenario_edges d; scenario_states :=
     scenario_states d; expenses := expenses d; expense_templates := x; profile_artifacts
     := profile_artifacts d |}.
Definition set_profile_artifacts (x : gmap Z ProfileArtifact) (d : database) : database :=
  {| users := users d; plans := plans d; subscriptions := subscriptions d; orders := orders
     d; transactions := transactions d; provider_fees := provider_fees d; promo_codes :=
     promo_codes d; promo_activations := promo_activations d; referrals := referrals d;
     nodes := nodes d; agent_states := agent_states d; agent_identities := agent_identities
     d; node_policies := node_policies d; node_traffic := node_traffic d; vpn_keys :=
     vpn_keys d; placements := placements d; devices := devices d; device_keys :=
     device_keys d; transport_profiles := transport_profiles d; routes := routes d;
     entry_assignments := entry_assignments d; probe_policies := probe_policies d;
     probe_signals := probe_signals d; alert_events := alert_events d; route_assignments :=
     route_assignments d; zones := zones d; traffic_usages := traffic_usages d;
     processed_msgs := processed_msgs d; outbox := outbox d; event_log := event_log d;
     transport_states := transport_states d; admin_users := admin_users d; admin_sessions
     := admin_sessions d; admin_events := admin_events d; support_tickets :=
     support_tickets d; support_messages := support_messages d; support_attachments :=
     support_attachments d; support_templates := support_templates d; broadcasts :=
     broadcasts d; recurring_broadcasts := recurring_broadcasts d; broadcast_logs :=
     broadcast_logs d; scenario_campaigns := scenario_campaigns d; scenario_nodes :=
     scenario_nodes d; scenario_edges := scenario_edges d; scenario_states :=
     scenario_states d; expenses := expenses d; expense_templates := expense_templates d;
     profile_artifacts := x |}.

(** What a method does outside the transaction: messages published to the
    notification service and the bot, cache entries dropped in Redis.  Metrics
    and log lines are left out. *)
Inductive effect :=
| PublishPurchase (telegram_id : Z) (username : option string) (plan_name : string)
    (amount_rub : Z) (provider : PaymentProviderEnum) (is_renewal : bool)
| PublishBalanceTopup (telegram_id : Z) (username : option string) (amount_rub : Z)
    (provider : PaymentProviderEnum) (balance_after_rub : Z)
| PublishTrialStarted (telegram_id : Z) (username : option string) (plan_name : string) (days : Z)
| RecordPaymentFailure (provider : PaymentProviderEnum)
| ResetPaymentFailures (provider : PaymentProviderEnum)
| NotifyOrderFulfilled (chat_id : Z) (order_type : OrderTypeEnum)
    (pending_message : option (Z * Z)) (balance_rub : string)
| NotifyReferralReward (chat_id : Z) (reward_amount : Z)
| InvalidatePayloadCache (token_hash : string)
| WritePayloadCache (token_hash payload etag : string)
| PublishCommand (subject : string) (id : message_id) (payload : outbox_payload)
    (snapshot_id : option string) (epoch : option Z)
| PublishResultAck (node_id event_id placement_id : string) (op_version : Z) (status : string)
| PublishSnapshotChunk (node : Z) (snapshot_id : string) (epoch chunk_index : Z) (is_last : bool)
    (items : list PlacementCommandPayload)
| PublishUpstream (entry backend now : Z) (payload : outbox_payload)
| PublishNodeDown (node : Z) (name region : string) (last_seen_at affected_placements event_time : Z)
| PublishNodeRecovered (node : Z) (name region : string) (downtime_seconds event_time : Z)
| PublishRouteBlocked (route : Z) (name : string) (node failures : Z)
| PublishRouteRecovered (route : Z) (name : string)
| PublishSubscriptionExpired (telegram_id : Z) (username : option string) (plan_name : string)
| PublishTrialExpired (telegram_id : Z) (username : option string) (plan_name : string)
| PublishSyncReportAck (node_id event_id status : string) (error : option string)
| PublishSupport (payload : SupportOutboundPayload)
| PublishSupportMessage (ticket telegram_id : Z) (username : option string) (text : string)
| PublishUserRegistered (telegram_id : Z) (username : option string) (source : string).

(** [clock n] is the [n]-th reading of [datetime.now(timezone.utc)]; [ticks]
    counts the readings made.  [next_uuid] is the supply of [uuid4]: the model
    keeps only that identifiers are not issued twice. *)
Record session := {
  db : database;
  clock : nat → Z;
  ticks : nat;
  next_uuid : Z;
  effects : list effect;
}.

Definition SM : Type → Type := M session exn.

(** A session on [d] whose clock advances by a microsecond per reading. *)
Definition session_on (d : database) (now uuid : Z) : session :=
  {| db := d; clock := λ n, now + Z.of_nat n; ticks := 0; next_uuid := uuid; effects := [] |}.

Definition with_db (f : database → database) (s : session) : session :=
  {| db := f (db s); clock := clock s; ticks := ticks s; next_uuid := next_uuid s;
     effects := effects s |}.

Definition utcnow : SM Z := λ s,
  (Ok (clock s (ticks s)),
   {| db := db s; clock := clock s; ticks := S (ticks s); next_uuid := next_uuid s;
      effects := effects s |}).

Definition uuid4 : SM Z := λ s,
  (Ok (next_uuid s),
   {| db := db s; clock := clock s; ticks := ticks s; next_uuid := next_uuid s + 1;
      effects := effects s |}).

(** Secret tokens: [secrets.token_urlsafe(32)] with the [n]-th use of the
    random source, and its SHA-256. *)
Record TokenSource := {
  generate : Z → string;
  hash : string → string;
}.

Definition emit (e : effect) : SM unit := modify (λ s,
  {| db := db s; clock := clock s; ticks := ticks s; next_uuid := next_uuid s;
     effects := effects s ++ [e] |}).

Definition read {A} (f : database → A) : SM A := gets (λ s, f (db s)).
Definition write (f : database → database) : SM unit := modify (with_db f).

(** A pure function that may raise, called in a session. *)
Definition lift {A} (r : res A) : SM A :=
  match r with Ok a => mret a | Raise e => raise e end.

(** [AsyncDatabaseSessions.get_session]: commit when the handler returns,
    roll the transaction back when it raises. *)
Definition run_request {A} (m : SM A) : session → outcome exn A * session := λ s,
  match m s with
  | (Ok a, s') => (Ok a, s')
  | (Raise e, s') =>
      (Raise e, {| db := db s; clock := clock s'; ticks := ticks s';
                   next_uuid := next_uuid s'; effects := effects s' |})
  end.

(** [async with session_maker() as session] with no [commit]: closing the
    session discards the transaction on every exit. *)
Definition run_uncommitted {A} (m : SM A) : session → outcome exn A * session := λ s,
  let '(o, s') := m s in
  (o, {| db := db s; clock := clock s'; ticks := ticks s';
         next_uuid := next_uuid s'; effects := effects s' |}).

(** [async with session_maker() as session] whose body decides whether to
    [commit] before it leaves: the flag of the result. *)
Definition run_committing {A} (m : SM (A * bool)) : SM A := λ s,
  let rollback s' := {| db := db s; clock := clock s'; ticks := ticks s';
                        next_uuid := next_uuid s'; effects := effects s' |} in
  match m s with
  | (Ok (a, true), s') => (Ok a, s')
  | (Ok (a, false), s') => (Ok a, rollback s')
  | (Raise e, s') => (Raise e, rollback s')
  end.

(** * The generic repository *)

(** A mapped table: its rows in the database, the id column, the [onupdate] of
    [updated_at] and the constraints a written row must satisfy given the row it
    replaces, if any (the name of a violated one). *)
Record table (R : Type) := {
  t_rows : database → gmap Z R;
  t_set : gmap Z R → database → database;
  t_id : R → Z;
  t_touch : Z → R → R;
  t_check : database → option R → R → option string;
}.
Arguments t_rows {R} !_.
Arguments t_set {R} !_.
Arguments t_id {R} !_.
Arguments t_touch {R} !_.
Arguments t_check {R} !_.

(** The rows of a table, in the order of the model's map; a query without
    ORDER BY promises none. *)
Definition rows {R} (m : gmap Z R) : list R := (map_to_list m).*2.

Definition select_where {R} (t : table R) (P : R → bool) : SM (list R) :=
  read (λ d, filter (λ r, P r = true) (rows (t_rows t d))).

(** [Result.scalar_one_or_none]. *)
Definition scalar_one_or_none {R} (l : list R) : SM (option R) :=
  match l with
  | [] => mret None
  | [r] => mret (Some r)
  | _ => raise MultipleResultsFound
  end.

Definition get_by_id {R} (t : table R) (item_id : Z) : SM (option R) :=
  read (λ d, t_rows t d !! item_id).

Definition store {R} (t : table R) (old : option R) (r : R) : SM unit :=
  c ← read (λ d, t_check t d old r);
  match c with
  | Some name => raise (IntegrityError name)
  | None => write (λ d, t_set t (<[t_id t r := r]> (t_rows t d)) d)
  end.

(** [create]: the row is built with a fresh id and creation time and flushed;
    an insert under an id in use violates the primary key. *)
Definition create {R} (t : table R) (mk : Z → Z → R) : SM R :=
  id ← uuid4;
  now ← utcnow;
  let r := mk id now in
  used ← read (λ d, bool_decide (is_Some (t_rows t d !! t_id t r)));
  raise_if used (IntegrityError "pkey") ;;
  store t None r ;; mret r.

Definition update_by_id {R} (t : table R) (item_id : Z) (f : R → R) : SM (option R) :=
  now ← utcnow;
  o ← get_by_id t item_id;
  match o with
  | None => mret None
  | Some r =>
      let r' := f (t_touch t now r) in
      store t (Some r) r' ;; get_by_id t item_id
  end.

Definition delete_by_id {R} (t : table R) (item_id : Z) : SM unit :=
  write (λ d, t_set t (delete item_id (t_rows t d)) d).

(** [UPDATE t SET ... WHERE P]: the rows and their new values are read from the
    table as the statement finds it; the ids of the rows written. *)
Definition update_where {R} (t : table R) (P : R → bool) (f : R → R) : SM (list Z) :=
  targets ← select_where t P;
  for_each (λ r, store t (Some r) (f r)) targets ;;
  mret (t_id t <$> targets).

(** [DELETE FROM t WHERE P]; the number of rows. *)
Definition delete_where {R} (t : table R) (P : R → bool) : SM Z :=
  targets ← select_where t P;
  write (λ d, t_set t (filter (λ ir, P ir.2 = false) (t_rows t d)) d) ;;
  mret (Z.of_nat (length targets)).

(** ORDER BY an integer key, ascending or descending; stable. *)
Definition key_le {R} (key : R → Z) (a b : R) : Prop := key a ≤ key b.
#[export] Instance key_le_dec {R} (key : R → Z) : RelDecision (key_le key).
Proof. intros a b. unfold key_le. apply _. Defined.
#[export] Instance key_le_total {R} (key : R → Z) : Total (key_le key).
Proof. intros a b. unfold key_le. lia. Qed.
#[export] Instance key_le_trans {R} (key : R → Z) : Transitive (key_le key).
Proof. intros a b c. unfold key_le. lia. Qed.

Definition order_by_asc {R} (key : R → Z) : list R → list R := merge_sort (key_le key).
Definition order_by_desc {R} (key : R → Z) : list R → list R :=
  merge_sort (key_le (λ r, - key r)).

(** * Specifications of the session primitives *)

(** The laws of a mapped table: reading what was set, setting what was read,
    and what [onupdate] leaves alone. *)
Class TableLaws {R} (t : table R) := {
  t_rows_set m d : t_rows t (t_set t m d) = m;
  t_set_rows d : t_set t (t_rows t d) d = d;
  t_id_touch now r : t_id t (t_touch t now r) = t_id t r;
}.

Section Laws.
Context {R : Type} (t : table R).

Lemma wp_utcnow Q (E : exn → session → Prop) s :
Q (clock s (ticks s)) {| db := db s; clock := clock s; ticks := S (ticks s);
    next_uuid := next_uuid s; effects := effects s |} →
wp utcnow Q E s.
Proof. done. Qed.

Lemma wp_select P Q (E : exn → session → Prop) s :
Q (filter (λ r, P r = true) (rows (t_rows t (db s)))) s → wp (select_where t P) Q E s.
Proof. done. Qed.

Lemma wp_get_by_id i Q (E : exn → session → Prop) s :
Q (t_rows t (db s) !! i) s → wp (get_by_id t i) Q E s.
Proof. done. Qed.

End Laws.

(** A repository call as an equation on sessions. *)

Definition tick (s : session) : session :=
  {| db := db s; clock := clock s; ticks := S (ticks s); next_uuid := next_uuid s;
     effects := effects s |}.

Definition issue (s : session) : session :=
  {| db := db s; clock := clock s; ticks := ticks s; next_uuid := next_uuid s + 1;
     effects := effects s |}.

Definition put {R} (t : table R) (r : R) (d : database) : database :=
  t_set t (<[t_id t r := r]> (t_rows t d)) d.

Lemma store_run {R} (t : table R) old r s :
  store t old r s =
  match t_check t (db s) old r with
  | Some name => (Raise (IntegrityError name), s)
  | None => (Ok tt, with_db (put t r) s)
  end.
Proof. unfold store, mbind, M_bind, read, gets. by destruct (t_check t (db s) old r). Qed.

Lemma update_run {R} (t : table R) i f s :
  update_by_id t i f s =
  match t_rows t (db s) !! i with
  | None => (Ok None, tick s)
  | Some r =>
      let r' := f (t_touch t (clock s (ticks s)) r) in
      match t_check t (db s) (Some r) r' with
      | Some name => (Raise (IntegrityError name), tick s)
      | None => let s' := with_db (put t r') (tick s) in (Ok (t_rows t (db s') !! i), s')
      end
  end.
Proof.
  unfold update_by_id, mbind at 1, M_bind at 1, utcnow. fold (tick s).
  unfold mbind at 1, M_bind at 1, get_by_id at 1, read, gets. cbn [db tick].
  destruct (t_rows t (db s) !! i) as [r|]; [|done].
  unfold mbind, M_bind. rewrite store_run. cbn [db tick].
  by destruct (t_check t (db s) _ _).
Qed.

Lemma create_run {R} (t : table R) mk s :
  create t mk s =
  let r := mk (next_uuid s) (clock s (ticks s)) in
  match t_rows t (db s) !! t_id t r, t_check t (db s) None r with
  | Some _, _ => (Raise (IntegrityError "pkey"), tick (issue s))
  | None, Some name => (Raise (IntegrityError name), tick (issue s))
  | None, None => (Ok r, with_db (put t r) (tick (issue s)))
  end.
Proof.
  unfold create, mbind at 1, M_bind at 1, uuid4. fold (issue s).
  unfold mbind at 1, M_bind at 1, utcnow. fold (tick (issue s)). cbn [clock ticks issue].
  unfold mbind, M_bind, read, gets. cbn [db tick issue].
  destruct (t_rows t (db s) !! _); [done|].
  rewrite bool_decide_false by (by intros []). cbn [raise_if].
  unfold mret, M_ret. rewrite store_run. cbn [db tick issue].
  by destruct (t_check t (db s) _ _).
Qed.

Lemma elem_of_rows {R} (m : gmap Z R) r : r ∈ rows m ↔ ∃ i, m !! i = Some r.
Proof.
  unfold rows. rewrite list_elem_of_fmap. split.
  - intros ([i r'] & -> & Hin). exists i. by apply elem_of_map_to_list in Hin.
  - intros [i Hi]. exists (i, r). split; [done|]. by apply elem_of_map_to_list.
Qed.

(** Rows are stored under their own id. *)
Definition keyed {R} (t : table R) (d : database) : Prop :=
  ∀ i r, t_rows t d !! i = Some r → t_id t r = i.

Lemma keyed_put {R} (t : table R) `{!TableLaws t} r d :
  keyed t d → keyed t (put t r d).
Proof.
  intros H i r'. unfold put. rewrite t_rows_set, lookup_insert.
  case_decide as Hi; [intros [= <-]; congruence|apply H].
Qed.

Lemma keyed_by_computation {R} (t : table R) d :
  forallb (λ ir, t_id t ir.2 =? ir.1) (map_to_list (t_rows t d)) = true → keyed t d.
Proof.
  intros H i r Hi. rewrite forallb_forall in H. apply Z.eqb_eq.
  apply (H (i, r)). by apply list_elem_of_In, elem_of_map_to_list.
Qed.

Lemma rows_distinct {R} (t : table R) d r r' : keyed t d → r ∈ rows (t_rows t d) → r' ∈ rows (t_rows t d) → t_id t r = t_id t r' → r = r'.
Proof. intros Hk [i Hi]%elem_of_rows [j Hj]%elem_of_rows E. pose proof (Hk i r Hi). pose proof (Hk j r' Hj). congruence. Qed.

Lemma rows_ids_nodup {R} (t : table R) d : keyed t d → NoDup (t_id t <$> rows (t_rows t d)).
Proof.
  intros Hk. unfold rows. rewrite <-list_fmap_compose.
  apply (NoDup_fmap_2_strong _ (map_to_list (t_rows t d))); [|apply NoDup_map_to_list].
  intros [i p] [j q] Hi%elem_of_map_to_list Hj%elem_of_map_to_list. cbn. rewrite (Hk i p Hi), (Hk j q Hj). intros ->. congruence.
Qed.

(** A query by a condition at most one row satisfies. *)
Lemma select_unique_run {R} (t : table R) (P : R → bool) s :
  keyed t (db s) →
  (∀ i j p q, t_rows t (db s) !! i = Some p → t_rows t (db s) !! j = Some q →
     P p = true → P q = true → i = j) →
  ∃ o, (l ← select_where t P; scalar_one_or_none l) s = (Ok o, s) ∧
    match o with
    | Some p => t_rows t (db s) !! t_id t p = Some p ∧ P p = true
    | None => ∀ i p, t_rows t (db s) !! i = Some p → P p = false
    end.
Proof.
  intros Hk Huniq. unfold mbind, M_bind, select_where, read, gets.
  set (l := filter _ _).
  assert (Hl : ∀ p, p ∈ l ↔ P p = true ∧ ∃ i, t_rows t (db s) !! i = Some p).
  { intros p. unfold l. by rewrite list_elem_of_filter, elem_of_rows. }
  assert (Hnd : NoDup l).
  { apply NoDup_filter. unfold rows. apply NoDup_fmap_2_strong; [|apply NoDup_map_to_list].
    intros [i p] [j q] Hi%elem_of_map_to_list Hj%elem_of_map_to_list. cbn. intros ->.
    by rewrite <-(Hk i q Hi), <-(Hk j q Hj). }
  destruct l as [|p [|q l']] eqn:El; cbn.
  - exists None. split; [done|]. intros i p Hi. apply not_true_iff_false. intros HP.
    apply (not_elem_of_nil p), Hl. eauto.
  - exists (Some p). split; [done|].
    destruct (proj1 (Hl p)) as [HP [i Hi]]; [left|]. by rewrite (Hk i p Hi).
  - exfalso. destruct (proj1 (Hl p)) as [Hp [i Hi]]; [left|].
    destruct (proj1 (Hl q)) as [Hq [j Hj]]; [right; left|].
    assert (i = j) as -> by eauto.
    rewrite Hi in Hj. injection Hj as ->.
    apply NoDup_cons in Hnd as [Hnin _]. apply Hnin. left.
Qed.

(** ** What a request leaves behind *)

Lemma run_request_ok {A} (m : SM A) s a s' :
  m s = (Ok a, s') → run_request m s = (Ok a, s').
Proof. unfold run_request. by intros ->. Qed.

Lemma run_request_raise {A} (m : SM A) s e s' :
  m s = (Raise e, s') → db (run_request m s).2 = db s.
Proof. unfold run_request. by intros ->. Qed.

(** * Frames

    A relation between databases lifted to sessions; preorders lift. *)

Definition on_db (P : database → database → Prop) (s s' : session) : Prop := P (db s) (db s').

#[export] Instance on_db_preorder P : PreOrder P → PreOrder (on_db P).
Proof.
  intros [Hr Ht]. split.
  - intros s. apply Hr.
  - intros s1 s2 s3. apply Ht.
Qed.

(** Two databases agree on [f]. *)
Definition same {A} (f : database → A) (d d' : database) : Prop := f d' = f d.

#[export] Instance same_preorder {A} (f : database → A) : PreOrder (same f).
Proof. unfold same. split; [by intros d|intros d1 d2 d3; congruence]. Qed.

Section FrameRules.
Context (P : database → database → Prop) `{!PreOrder P}.

Lemma keeps_read {A} (f : database → A) : keeps (on_db P) (read f).
Proof using Type*. apply keeps_gets, _. Qed.

Lemma keeps_write f : (∀ d, P d (f d)) → keeps (on_db P) (write f).
Proof using Type*. intros H. apply keeps_modify; [apply _|]. intros s. apply H. Qed.

Lemma keeps_utcnow : keeps (on_db P) utcnow.
Proof using Type*. intros s. unfold on_db. cbn. reflexivity. Qed.

Lemma keeps_uuid4 : keeps (on_db P) uuid4.
Proof using Type*. intros s. unfold on_db. cbn. reflexivity. Qed.

Lemma keeps_emit e : keeps (on_db P) (emit e).
Proof using Type*. intros s. unfold on_db. cbn. reflexivity. Qed.

Lemma keeps_committing {A} (m : SM (A * bool)) :
keeps (on_db P) m → keeps (on_db P) (run_committing m).
Proof using Type*.
intros H s. specialize (H s). unfold run_committing, on_db in *.
destruct (m s) as [[[a []]|e] s']; cbn in *; [done|reflexivity|reflexivity].
Qed.

Lemma keeps_select {R} (t : table R) Q : keeps (on_db P) (select_where t Q).
Proof using Type*. apply keeps_read. Qed.

Lemma keeps_get_by_id {R} (t : table R) i : keeps (on_db P) (get_by_id t i).
Proof using Type*. apply keeps_read. Qed.

Lemma keeps_scalar {R} (l : list R) : keeps (on_db P) (scalar_one_or_none l).
Proof using Type*. destruct l as [|? []]; cbn; [apply keeps_ret|apply keeps_ret|apply keeps_raise]; apply _. Qed.

Lemma keeps_update {R} (t : table R) i f :
(∀ d now r, t_rows t d !! i = Some r → t_check t d (Some r) (f (t_touch t now r)) = None →
   P d (put t (f (t_touch t now r)) d)) →
keeps (on_db P) (update_by_id t i f).
Proof using Type*.
intros H s. rewrite update_run. unfold on_db.
destruct (t_rows t (db s) !! i) as [r|] eqn:Hr; [|cbn; reflexivity]. cbv zeta.
destruct (t_check t (db s) _ _) eqn:Hc; cbn; [reflexivity|]. by apply H.
Qed.

Lemma keeps_create {R} (t : table R) mk :
(∀ d i now, t_rows t d !! t_id t (mk i now) = None → t_check t d None (mk i now) = None →
   P d (put t (mk i now) d)) →
keeps (on_db P) (create t mk).
Proof using Type*.
intros H s. rewrite create_run. unfold on_db. cbv zeta.
destruct (t_rows t (db s) !! _) eqn:Hr; [cbn; reflexivity|].
destruct (t_check t (db s) _ _) eqn:Hc; cbn; [reflexivity|]. by apply H.
Qed.
End FrameRules.

#[export] Hint Resolve keeps_read keeps_utcnow keeps_uuid4 keeps_emit keeps_select
  keeps_get_by_id keeps_scalar : keeps.

(** ** Frames of the repository calls

    [f] looks at tables a write to [t] leaves alone. *)
Class FrameOn {B R} (f : database → B) (t : table R) : Prop :=
  frame_on m d : f (t_set t m d) = f d.
#[export] Hint Extern 1 (FrameOn _ _) => (intros ? ?; reflexivity) : typeclass_instances.

Section TableFrame.
Context {B R : Type} (f : database → B) (t : table R) `{!FrameOn f t}.

Lemma keeps_update_frame i g : keeps (on_db (same f)) (update_by_id t i g).
Proof using Type*. apply keeps_update; [apply _|]. intros. apply frame_on. Qed.

Lemma keeps_create_frame mk : keeps (on_db (same f)) (create t mk).
Proof using Type*. apply keeps_create; [apply _|]. intros. apply frame_on. Qed.

Lemma keeps_store_frame old r : keeps (on_db (same f)) (store t old r).
Proof using Type*.
intros s. rewrite store_run. destruct (t_check t (db s) old r); [unfold on_db; reflexivity|].
apply frame_on.
Qed.

Lemma keeps_update_where_frame P g : keeps (on_db (same f)) (update_where t P g).
Proof using Type*.
unfold update_where. apply keeps_bind; [apply _|apply keeps_select, _|intros l].
apply keeps_bind; [apply _| |intros; apply keeps_ret, _].
apply keeps_for_each; [apply _|intros; apply keeps_store_frame].
Qed.

Lemma keeps_delete_frame i : keeps (on_db (same f)) (delete_by_id t i).
Proof using Type*. apply keeps_write; [apply _|]. intros. apply frame_on. Qed.
End TableFrame.

#[export] Hint Resolve keeps_update_frame keeps_create_frame keeps_delete_frame
  keeps_store_frame keeps_update_where_frame : keeps.
#[export] Hint Extern 2 (keeps (on_db (same _)) (write _)) =>
  (apply keeps_write; [apply _|intros; reflexivity]) : keeps.

(** ** Time

    The clock is the same, readings are only added, and identifiers issued. *)
Definition moves_on (s s' : session) : Prop :=
  clock s' = clock s ∧ (ticks s ≤ ticks s')%nat ∧ next_uuid s ≤ next_uuid s'.

#[export] Instance moves_on_preorder : PreOrder moves_on.
Proof.
  split; [by intros s|]. intros s1 s2 s3 (E1 & T1 & U1) (E2 & T2 & U2). unfold moves_on. split_and!; [congruence|lia|lia].
Qed.

Section MovesOn.
Lemma moves_read {A} (f : database → A) : keeps moves_on (read f).
Proof. apply keeps_gets, _. Qed.
Lemma moves_write f : keeps moves_on (write f).
Proof. by intros s. Qed.
Lemma moves_utcnow : keeps moves_on utcnow.
Proof. intros s. unfold moves_on. cbn. split_and!; [done|lia|lia]. Qed.
Lemma moves_uuid4 : keeps moves_on uuid4.
Proof. intros s. unfold moves_on. cbn. split_and!; [done|lia|lia]. Qed.
Lemma moves_emit e : keeps moves_on (emit e).
Proof. by intros s. Qed.
Lemma moves_store {R} (t : table R) old r : keeps moves_on (store t old r).
Proof. intros s. rewrite store_run. by destruct (t_check t (db s) old r). Qed.
Lemma moves_scalar {R} (l : list R) : keeps moves_on (scalar_one_or_none l).
Proof. destruct l as [|? []]; by intros s. Qed.
Lemma moves_update {R} (t : table R) i f : keeps moves_on (update_by_id t i f).
Proof.
  intros s. rewrite update_run. unfold moves_on. destruct (t_rows t (db s) !! i); [|cbn; split_and!; [done|lia|lia]]. cbv zeta.
  destruct (t_check t (db s) _ _); cbn; (split_and!; [done|lia|lia]).
Qed.
Lemma moves_create {R} (t : table R) mk : keeps moves_on (create t mk).
Proof.
  intros s. rewrite create_run. unfold moves_on. cbv zeta. destruct (t_rows t (db s) !! _); [cbn; split_and!; [done|lia|lia]|].
  destruct (t_check t (db s) _ _); cbn; (split_and!; [done|lia|lia]).
Qed.
Lemma moves_update_where {R} (t : table R) P g : keeps moves_on (update_where t P g).
Proof.
  unfold update_where. apply keeps_bind; [apply _|apply moves_read|intros l].
  apply keeps_bind; [apply _| |intros; apply keeps_ret, _]. apply keeps_for_each; [apply _|]. intros r. apply moves_store.
Qed.
Lemma moves_committing {A} (m : SM (A * bool)) : keeps moves_on m → keeps moves_on (run_committing m).
Proof.
  intros H s. specialize (H s). unfold run_committing, moves_on in *. by destruct (m s) as [[[a []]|e] s'].
Qed.
End MovesOn.
#[export] Hint Resolve moves_read moves_write moves_utcnow moves_uuid4 moves_emit moves_store moves_scalar moves_update
  moves_create moves_update_where : keeps.
#[export] Hint Extern 1 (keeps moves_on (select_where _ _)) => (apply moves_read) : keeps.
#[export] Hint Extern 1 (keeps moves_on (get_by_id _ _)) => (apply moves_read) : keeps.

(** ** Invariants that carry a relation

    While [I] holds, [I] is kept and [R] relates the databases. *)
Definition guarded (I : database → Prop) (R : database → database → Prop) (d d' : database) : Prop :=
  I d → I d' ∧ R d d'.

#[export] Instance guarded_preorder I R : PreOrder R → PreOrder (guarded I R).
Proof.
  intros HR. split.
  - intros d Hd. split; [done|reflexivity].
  - intros d1 d2 d3 H12 H23 H1. destruct (H12 H1) as [H2 R12]. destruct (H23 H2) as [H3 R23].
    split; [done|]. by transitivity d2.
Qed.

#[export] Instance True_preorder : PreOrder (λ _ _ : database, True).
Proof. by split. Qed.

Section UpdateWhere.
Context {R : Type} (t : table R) `{!TableLaws t}.

Lemma rows_ids_NoDup d : keyed t d → NoDup (t_id t <$> rows (t_rows t d)).
Proof using Type.
intros Hk. unfold rows. rewrite <-list_fmap_compose.
enough (t_id t ∘ snd <$> map_to_list (t_rows t d) = fst <$> map_to_list (t_rows t d)) as ->
  by apply NoDup_fst_map_to_list.
apply list_fmap_ext. intros i [k r] Hi. cbn. apply Hk.
by apply elem_of_map_to_list, list_elem_of_lookup_2 with i.
Qed.

Lemma lookup_put_ne r d i : i ≠ t_id t r → t_rows t (put t r d) !! i = t_rows t d !! i.
Proof using Type*. intros Hi. unfold put. rewrite t_rows_set. by apply lookup_insert_ne. Qed.

Lemma lookup_put r d : t_rows t (put t r d) !! t_id t r = Some r.
Proof using Type*. unfold put. rewrite t_rows_set. by apply lookup_insert_eq. Qed.

Context (I : database → Prop) (Rel : database → database → Prop) `{!PreOrder Rel}.
Context (P : R → bool) (f : R → R).
Hypothesis I_keyed : ∀ d, I d → keyed t d.
Hypothesis f_id : ∀ r, t_id t (f r) = t_id t r.
Hypothesis step : ∀ d r, I d → t_rows t d !! t_id t r = Some r → P r = true →
  t_check t d (Some r) (f r) = None → I (put t (f r) d) ∧ Rel d (put t (f r) d).

Lemma keeps_store_rows l s :
NoDup (t_id t <$> l) → I (db s) →
(∀ r, r ∈ l → t_rows t (db s) !! t_id t r = Some r ∧ P r = true) →
let s' := (for_each (λ r, store t (Some r) (f r)) l s).2 in I (db s') ∧ Rel (db s) (db s').
Proof using All.
revert s. induction l as [|r l IH]; intros s Hnd HI Hl; cbn [for_each].
{ split; [done|reflexivity]. }
cbn in Hnd. apply NoDup_cons in Hnd as [Hr Hnd].
destruct (Hl r ltac:(left)) as [Hlook HP].
unfold mbind, M_bind. rewrite store_run.
destruct (t_check t (db s) (Some r) (f r)) eqn:Hc; [split; [done|reflexivity]|].
destruct (step (db s) r HI Hlook HP Hc) as [HI' HR].
destruct (IH (with_db (put t (f r)) s)) as [HI'' HR']; [done|done| |].
- intros r' Hr'. destruct (Hl r' ltac:(by right)) as [Hlook' HP']. split; [|done]. cbn.
  rewrite lookup_put_ne; [done|]. rewrite f_id. intros Heq. apply Hr. rewrite <-Heq.
  by apply list_elem_of_fmap_2.
- split; [done|]. by transitivity (put t (f r) (db s)).
Qed.

Lemma update_where_state s :
(update_where t P f s).2 =
(for_each (λ r, store t (Some r) (f r)) (filter (λ r, P r = true) (rows (t_rows t (db s)))) s).2.
Proof using Type.
unfold update_where, mbind, M_bind, select_where, read, gets.
by destruct (for_each _ _ s) as [[] ?].
Qed.

Lemma keeps_update_where : keeps (on_db (guarded I Rel)) (update_where t P f).
Proof using All.
intros s HI. rewrite update_where_state. apply keeps_store_rows; [|done|].
- eapply sublist_NoDup; [by apply (rows_ids_NoDup (db s)), I_keyed|].
  apply fmap_sublist, sublist_filter.
- intros r [HP [i Hi]%elem_of_rows]%list_elem_of_filter. split; [|done].
  by rewrite (I_keyed _ HI i r Hi).
Qed.
End UpdateWhere.

(** ** A bulk update that succeeds *)

Section UpdateRun.
Context {R : Type} (t : table R) `{!TableLaws t} (f : R → R).
Hypothesis f_id : ∀ r, t_id t (f r) = t_id t r.

Fixpoint puts (l : list R) (d : database) : database :=
match l with
| [] => d
| r :: l => puts l (put t (f r) d)
end.

Lemma puts_frame {B} (g : database → B) `{!FrameOn g t} l d : g (puts l d) = g d.
Proof using Type.
revert d. induction l as [|r l IH]; intros d; cbn; [done|]. rewrite IH. apply frame_on.
Qed.

Lemma lookup_puts_ne l d i : i ∉ t_id t <$> l → t_rows t (puts l d) !! i = t_rows t d !! i.
Proof using Type*.
revert d. induction l as [|r l IH]; intros d; cbn; [done|].
intros [Hi Hl]%not_elem_of_cons. rewrite IH by done. apply lookup_put_ne; [done|]. by rewrite f_id.
Qed.

Lemma lookup_puts l d r :
NoDup (t_id t <$> l) → r ∈ l → t_rows t (puts l d) !! t_id t r = Some (f r).
Proof using Type*.
revert d. induction l as [|r' l IH]; intros d; cbn; [by intros _ ?%not_elem_of_nil|].
intros [Hr' Hnd]%NoDup_cons [->|Hr]%elem_of_cons; [|by apply IH].
rewrite lookup_puts_ne by done. rewrite <-(f_id r'). by apply lookup_put.
Qed.

Lemma store_rows_run l s :
(∀ done r todo, l = done ++ r :: todo → t_check t (puts done (db s)) (Some r) (f r) = None) →
for_each (λ r, store t (Some r) (f r)) l s = (Ok tt, with_db (puts l) s).
Proof using Type*.
revert s. induction l as [|r l IH]; intros s Hchk; cbn [for_each]; [by destruct s|].
pose proof (Hchk [] r l eq_refl) as H0. cbn in H0.
unfold mbind, M_bind. rewrite store_run, H0.
rewrite IH; [done|]. intros done' r' todo ->. apply (Hchk (r :: done') r' todo). done.
Qed.

Context (P : R → bool).

(** The rows an update writes. *)
Definition targets (d : database) : list R := filter (λ r, P r = true) (rows (t_rows t d)).

Lemma update_where_run s :
(∀ done r todo, targets (db s) = done ++ r :: todo →
   t_check t (puts done (db s)) (Some r) (f r) = None) →
update_where t P f s = (Ok (t_id t <$> targets (db s)), with_db (puts (targets (db s))) s).
Proof using Type*.
intros H. unfold update_where, mbind, M_bind, select_where, read, gets.
fold (targets (db s)). by rewrite store_rows_run.
Qed.

Lemma lookup_update_where d i :
keyed t d →
t_rows t (puts (targets d) d) !! i = (λ r, if P r then f r else r) <$> t_rows t d !! i.
Proof using Type*.
intros Hk. assert (Hnd : NoDup (t_id t <$> targets d)).
{ eapply sublist_NoDup; [by apply (rows_ids_NoDup t d)|]. apply fmap_sublist, sublist_filter. }
assert (Hin : ∀ r, r ∈ targets d → t_rows t d !! t_id t r = Some r ∧ P r = true).
{ intros r [HP [j Hj]%elem_of_rows]%list_elem_of_filter. by rewrite (Hk j r Hj). }
destruct (t_rows t d !! i) as [r|] eqn:Hr; cbn.
- pose proof (Hk i r Hr) as <-. destruct (P r) eqn:HP.
  + apply lookup_puts; [done|]. apply list_elem_of_filter. split; [done|]. apply elem_of_rows. eauto.
  + rewrite lookup_puts_ne; [done|]. intros (r' & Heq & Hr')%list_elem_of_fmap.
    destruct (Hin r' Hr') as [Hlook HP']. rewrite <-Heq, Hr in Hlook. congruence.
- rewrite lookup_puts_ne; [done|]. intros (r' & -> & Hr')%list_elem_of_fmap.
  destruct (Hin r' Hr') as [Hlook _]. congruence.
Qed.
End UpdateRun.

(** A bulk update that cannot violate a constraint. *)
Lemma update_where_ok {R} (t : table R) `{!TableLaws t} (P : R → bool) (f : R → R) s :
  keyed t (db s) → (∀ r, t_id t (f r) = t_id t r) → (∀ d r, t_check t d (Some r) (f r) = None) →
  ∃ s1, update_where t P f s = (Ok (t_id t <$> targets t P (db s)), s1) ∧ keyed t (db s1) ∧
    s1 = with_db (puts t f (targets t P (db s))) s ∧
    ∀ i, t_rows t (db s1) !! i = (λ r, if P r then f r else r) <$> t_rows t (db s) !! i.
Proof.
  intros Hk Hid Hchk. eexists. split; [apply (update_where_run t f); [done|]; intros; apply Hchk|].
  assert (Hrows : ∀ i, t_rows t (puts t f (targets t P (db s)) (db s)) !! i = (λ r, if P r then f r else r) <$> t_rows t (db s) !! i).
  { intros i. by apply lookup_update_where. }
  split_and!; [|done|exact Hrows]. intros i r. cbn. rewrite Hrows. intros (r0 & Hr0 & ->)%fmap_Some.
  destruct (P r0); [rewrite Hid|]; by apply Hk.
Qed.

(** Service methods that commit or roll back in the middle: the session and the database as of
    the last commit. *)


(** [ts] is the session as the method sees it, [saved] the committed database. *)
Record tsession := { ts : session; saved : database }.
Notation TM := (M tsession exn).

(** A statement, or a method that does not commit. *)
Definition sql {A} (m : SM A) : TM A := λ t,
  let '(r, s) := m (ts t) in (r, {| ts := s; saved := saved t |}).

(** [session.commit()]. *)
Definition commit : TM unit := λ t, (Ok tt, {| ts := ts t; saved := db (ts t) |}).

(** [session.rollback()]. *)
Definition rollback : TM unit := λ t, (Ok tt, {| ts := with_db (λ _, saved t) (ts t); saved := saved t |}).

Definition opened (s : session) : tsession := {| ts := s; saved := db s |}.

(** [AsyncDatabaseSessions.get_session] around a handler: what is pending is committed when
    it returns and rolled back when it raises. *)
Definition run_handler {A} (m : TM A) (s : session) : outcome exn A * session :=
  match m (opened s) with
  | (Ok a, t) => (Ok a, ts t)
  | (Raise e, t) => (Raise e, with_db (λ _, saved t) (ts t))
  end.

(** [async with session_maker() as session]: closing it discards what was not committed. *)
Definition run_scope {A} (m : TM A) (s : session) : outcome exn A * session :=
  let '(r, t) := m (opened s) in (r, with_db (λ _, saved t) (ts t)).

(** * Rules *)

Lemma wp_sql {A} (m : SM A) Q (R : exn → tsession → Prop) t :
  wp m (λ a s, Q a {| ts := s; saved := saved t |}) (λ e s, R e {| ts := s; saved := saved t |}) (ts t) → wp (sql m) Q R t.
Proof. unfold wp, sql. by destruct (m (ts t)) as [[] s]. Qed.

Lemma wp_commit Q (R : exn → tsession → Prop) t : Q tt {| ts := ts t; saved := db (ts t) |} → wp commit Q R t.
Proof. done. Qed.

Lemma wp_rollback Q (R : exn → tsession → Prop) t : Q tt {| ts := with_db (λ _, saved t) (ts t); saved := saved t |} → wp rollback Q R t.
Proof. done. Qed.

Lemma sql_run {A} (m : SM A) t r s : m (ts t) = (r, s) → sql m t = (r, {| ts := s; saved := saved t |}).
Proof. unfold sql. by intros ->. Qed.

Lemma sql_bind {A B} (m : SM A) (k : A → TM B) s d a s' :
  m s = (Ok a, s') → (sql m ≫= k) {| ts := s; saved := d |} = k a {| ts := s'; saved := d |}.
Proof. intros H. unfold mbind, M_bind, sql. cbn [ts saved]. by rewrite H. Qed.

Lemma commit_bind {B} (k : unit → TM B) s d : (commit ≫= k) {| ts := s; saved := d |} = k tt {| ts := s; saved := db s |}.
Proof. done. Qed.

(** A relation of databases kept by the session and by what is committed of it. *)
Definition tkeeps (P : database → database → Prop) (t t' : tsession) : Prop :=
  ∀ d, P d (db (ts t)) → P d (saved t) → P d (db (ts t')) ∧ P d (saved t').

#[export] Instance tkeeps_preorder P : PreOrder (tkeeps P).
Proof.
  split; [by intros t d|]. intros t1 t2 t3 H12 H23 d H1 H1'. destruct (H12 d H1 H1'). by apply H23.
Qed.

Section Rules.
Context (P : database → database → Prop) `{!PreOrder P}.

Lemma tkeeps_sql {A} (m : SM A) : keeps (on_db P) m → keeps (tkeeps P) (sql m).
Proof using Type*.
intros H t d Hd Hs. specialize (H (ts t)). unfold sql. destruct (m (ts t)) as [r s]. cbn in *.
split; [|done]. by etrans; [|exact H].
Qed.
Lemma tkeeps_commit : keeps (tkeeps P) commit.
Proof using Type. by intros t d Hd Hs. Qed.
Lemma tkeeps_rollback : keeps (tkeeps P) rollback.
Proof using Type. by intros t d Hd Hs. Qed.

Lemma run_handler_keeps {A} (m : TM A) s : keeps (tkeeps P) m → P (db s) (db (run_handler m s).2).
Proof using Type*.
intros H. destruct (H (opened s) (db s)) as [H1 H2]; [reflexivity..|]. unfold run_handler.
by destruct (m (opened s)) as [[] t].
Qed.
Lemma run_scope_keeps {A} (m : TM A) s : keeps (tkeeps P) m → P (db s) (db (run_scope m s).2).
Proof using Type*.
intros H. destruct (H (opened s) (db s)) as [H1 H2]; [reflexivity..|]. unfold run_scope.
by destruct (m (opened s)) as [r t].
Qed.
End Rules.

#[export] Hint Resolve tkeeps_sql tkeeps_commit tkeeps_rollback : keeps.
