(* ===== verification/Uuid.v ===== *)
(** [uuid.UUID] of a string, as services/nodes/agent/runtime.py applies it to the
    node and placement ids of agent messages: an id is its 128-bit integer. *)

From stdpp Require Import base strings list.
From Stdlib Require Import Ascii.
From S2P Require Import Prelude.
Local Open Scope Z_scope.

(** * Strings *)

(** [s.replace(p, "")] for a non-empty [p]: occurrences from the left, the
    characters of one skipped. *)
Fixpoint remove_from (p : string) (skip : nat) (s : string) : string :=
  match s with
  | EmptyString => EmptyString
  | String c s' =>
      match skip with
      | S k => remove_from p k s'
      | O => if String.prefix p s then remove_from p (Nat.pred (String.length p)) s'
             else String c (remove_from p 0 s')
      end
  end.
Definition remove_all (p s : string) : string := remove_from p 0 s.

(** [s.lstrip(chars)] and [s.strip(chars)], [chars] as a predicate. *)
Fixpoint lstrip (P : ascii → bool) (s : string) : string :=
  match s with
  | EmptyString => EmptyString
  | String c s' => if P c then lstrip P s' else s
  end.
Fixpoint rstrip (P : ascii → bool) (s : string) : string :=
  match s with
  | EmptyString => EmptyString
  | String c s' =>
      match rstrip P s' with
      | EmptyString => if P c then EmptyString else String c EmptyString
      | t => String c t
      end
  end.
Definition strip (P : ascii → bool) (s : string) : string := rstrip P (lstrip P s).

Definition is_brace (c : ascii) : bool := bool_decide (c = "{"%char) || bool_decide (c = "}"%char).

(** The white space [int] skips around a number. *)
Definition is_space (c : ascii) : bool :=
  let n := Z.of_nat (nat_of_ascii c) in (n =? 32) || ((9 <=? n) && (n <=? 13)).

(** * [int(s, 16)] *)

Definition hex_digit (c : ascii) : option Z :=
  let n := Z.of_nat (nat_of_ascii c) in
  if (48 <=? n) && (n <=? 57) then Some (n - 48)
  else if (97 <=? n) && (n <=? 102) then Some (n - 87)
  else if (65 <=? n) && (n <=? 70) then Some (n - 55)
  else None.

(** Digits with single underscores between them; [last_us] says that the
    character before was one. *)
Fixpoint hex_digits (acc : Z) (last_us : bool) (s : string) : option Z :=
  match s with
  | EmptyString => if last_us then None else Some acc
  | String c s' =>
      if bool_decide (c = "_"%char) then (if last_us then None else hex_digits acc true s')
      else match hex_digit c with
           | Some v => hex_digits (acc * 16 + v) false s'
           | None => None
           end
  end.

(** At least one character, the first not an underscore. *)
Definition hex_number (s : string) : option Z :=
  match s with
  | EmptyString => None
  | String c _ => if bool_decide (c = "_"%char) then None else hex_digits 0 false s
  end.

(** The optional [0x] prefix, one underscore after it allowed. *)
Definition after_prefix (s : string) : string :=
  match s with
  | String "0" (String x s') =>
      if bool_decide (x = "x"%char) || bool_decide (x = "X"%char) then
        match s' with String "_" s'' => s'' | _ => s' end
      else s
  | _ => s
  end.

Definition int16 (s : string) : option Z :=
  match strip is_space s with
  | String "-" s' => Z.opp <$> hex_number (after_prefix s')
  | String "+" s' => hex_number (after_prefix s')
  | s' => hex_number (after_prefix s')
  end.

(** * [UUID(hex)]; [None] is the [ValueError] *)

Definition UUID (hex : string) : option Z :=
  let h := remove_all "-" (strip is_brace (remove_all "uuid:" (remove_all "urn:" hex))) in
  if bool_decide (String.length h = 32%nat) then int16 h else None.

(** * [uuid.hex] and [str(uuid)] *)

Definition hex_char (v : Z) : ascii :=
  ascii_of_nat (Z.to_nat (if v <? 10 then v + 48 else v + 87)).

(** The [n] low hexadecimal digits, most significant first. *)
Fixpoint hex_string (n : nat) (v : Z) (rest : string) : string :=
  match n with
  | O => rest
  | S n => hex_string n (v / 16) (String (hex_char (v mod 16)) rest)
  end.

(** The digits of a string with a dash before each position of a list. *)
Definition dashed (h : string) : string :=
  (String.substring 0 8 h +:+ "-" +:+ String.substring 8 4 h +:+ "-" +:+
   String.substring 12 4 h +:+ "-" +:+ String.substring 16 4 h +:+ "-" +:+
   String.substring 20 12 h)%string.

(** [uuid.hex] and [str(uuid)] of a 128-bit identifier. *)
Definition uuid_hex (u : Z) : string := hex_string 32 u "".
Definition str_uuid (u : Z) : string := dashed (uuid_hex u).

(** * Properties *)

Fixpoint all_chars (P : ascii → bool) (s : string) : bool :=
  match s with
  | EmptyString => true
  | String c s' => P c && all_chars P s'
  end.

Lemma all_chars_app P s t : all_chars P (s +:+ t) = all_chars P s && all_chars P t.
Proof.
  induction s as [|c s IH]; [done|].
  change (String c s +:+ t) with (String c (s +:+ t)). cbn [all_chars]. by rewrite IH, andb_assoc.
Qed.

Lemma append_assoc s t u : ((s +:+ t) +:+ u = s +:+ t +:+ u)%string.
Proof.
  induction s as [|c s IH]; [done|].
  change (String c ((s +:+ t) +:+ u) = String c (s +:+ t +:+ u)). by rewrite IH.
Qed.

Lemma all_chars_mono (P Q : ascii → bool) s :
  (∀ c, P c = true → Q c = true) → all_chars P s = true → all_chars Q s = true.
Proof.
  intros H. induction s as [|c s IH]; cbn; [done|]. intros [Hc Hs]%andb_true_iff.
  by rewrite H, IH.
Qed.

Lemma all_chars_substring P n m s : all_chars P s = true → all_chars P (String.substring n m s) = true.
Proof.
  revert n m. induction s as [|c s IH]; intros [|n] [|m] H; cbn in *; try done;
    apply andb_true_iff in H as [Hc Hs]; rewrite ?Hc; by apply IH.
Qed.

Lemma prefix_ne c p x s : x ≠ c → String.prefix (String c p) (String x s) = false.
Proof. intros Hx. cbn. destruct (ascii_dec c x); congruence. Qed.

Lemma remove_from_absent c p s :
  all_chars (λ x, negb (bool_decide (x = c))) s = true → remove_from (String c p) 0 s = s.
Proof.
  induction s as [|x s IH]; [done|]. cbn [all_chars]. intros [Hx%negb_true_iff Hs]%andb_true_iff.
  apply bool_decide_eq_false in Hx. cbn [remove_from]. rewrite prefix_ne by done. by rewrite IH.
Qed.

Lemma remove_dash_app s t :
  all_chars (λ x, negb (bool_decide (x = "-"%char))) s = true →
  remove_all "-" (s +:+ t) = s +:+ remove_all "-" t.
Proof.
  unfold remove_all. induction s as [|x s IH]; [done|]. cbn [all_chars].
  intros [Hx%negb_true_iff Hs]%andb_true_iff. apply bool_decide_eq_false in Hx.
  change (String x s +:+ t) with (String x (s +:+ t)). cbn [remove_from].
  rewrite prefix_ne by done. by rewrite IH.
Qed.

Lemma remove_dash_cons t : remove_all "-" (String "-" t) = remove_all "-" t.
Proof. unfold remove_all. destruct t; reflexivity. Qed.

Lemma remove_dash_cons' t : remove_all "-" ("-" +:+ t) = remove_all "-" t.
Proof. exact (remove_dash_cons t). Qed.

Lemma rstrip_none P s : all_chars (λ c, negb (P c)) s = true → rstrip P s = s.
Proof.
  induction s as [|c s IH]; [done|]. cbn. intros [Hc%negb_true_iff Hs]%andb_true_iff.
  rewrite IH by done. destruct s; [by rewrite Hc|done].
Qed.

Lemma strip_none P s : all_chars (λ c, negb (P c)) s = true → strip P s = s.
Proof.
  unfold strip. intros H. destruct s as [|c s]; [done|]. cbn [lstrip].
  assert (P c = false) as ->; [|by apply rstrip_none].
  cbn in H. apply andb_true_iff in H as [?%negb_true_iff _]. done.
Qed.

Lemma substring_split (n m : nat) s :
  (String.substring 0 n s +:+ String.substring n m s)%string = String.substring 0 (n + m) s.
Proof.
  revert n. induction s as [|c s IH]; intros [|n]; try done.
  change (String c (String.substring 0 n s +:+ String.substring n m s) =
          String c (String.substring 0 (n + m) s)). by rewrite IH.
Qed.

Lemma substring_all s : String.substring 0 (String.length s) s = s.
Proof. induction s as [|c s IH]; cbn; congruence. Qed.

(** ** Hexadecimal characters *)

Definition is_hex (c : ascii) : bool := bool_decide (is_Some (hex_digit c)).

Lemma hex_not_space c : is_hex c = true → negb (is_space c) = true.
Proof. by destruct c as [[] [] [] [] [] [] [] []]. Qed.

Lemma hex_ne x c : is_hex x = false → is_hex c = true → negb (bool_decide (c = x)) = true.
Proof. intros Hx Hc. apply negb_true_iff, bool_decide_eq_false. congruence. Qed.

Lemma hex_char_digit v : 0 ≤ v < 16 → hex_digit (hex_char v) = Some v.
Proof.
  intros Hv. assert (H : Forall (λ n, hex_digit (hex_char (Z.of_nat n)) = Some (Z.of_nat n)) (seq 0 16))
    by (apply (bool_decide_unpack _); vm_compute; done).
  rewrite Forall_forall in H. specialize (H (Z.to_nat v)). rewrite Z2Nat.id in H by lia.
  apply H, elem_of_seq. lia.
Qed.

Lemma hex_char_hex v : is_hex (hex_char (v mod 16)) = true.
Proof.
  unfold is_hex. rewrite hex_char_digit by (apply Z.mod_pos_bound; lia). done.
Qed.

Lemma hex_string_hex n v rest : all_chars is_hex rest = true → all_chars is_hex (hex_string n v rest) = true.
Proof.
  revert v rest. induction n as [|n IH]; intros v rest H; cbn [hex_string]; [done|].
  apply IH. cbn [all_chars]. by rewrite hex_char_hex, H.
Qed.

Lemma hex_string_length n v rest : String.length (hex_string n v rest) = (n + String.length rest)%nat.
Proof.
  revert v rest. induction n as [|n IH]; intros v rest; cbn [hex_string]; [done|].
  rewrite IH. cbn. lia.
Qed.

Lemma hex_string_value n acc v rest :
  hex_digits acc false (hex_string n v rest) =
  hex_digits (acc * 16 ^ Z.of_nat n + v mod 16 ^ Z.of_nat n) false rest.
Proof.
  revert v rest. induction n as [|n IH]; intros v rest; cbn [hex_string].
  { rewrite Z.mod_1_r. f_equal. lia. }
  rewrite IH. cbn [hex_digits].
  pose proof (hex_ne "_" _ eq_refl (hex_char_hex v)) as Hus%negb_true_iff. rewrite Hus.
  rewrite hex_char_digit by (apply Z.mod_pos_bound; lia). f_equal.
  rewrite Nat2Z.inj_succ, Z.pow_succ_r by lia.
  rewrite Z.rem_mul_r by lia. lia.
Qed.

Lemma after_prefix_hex s : all_chars is_hex s = true → after_prefix s = s.
Proof.
  destruct s as [|c [|x s]]; [done|by destruct c as [[] [] [] [] [] [] [] []]|].
  cbn [all_chars]. intros [_ [Hx _]%andb_true_iff]%andb_true_iff.
  pose proof (hex_ne "x" x eq_refl Hx) as H1%negb_true_iff.
  pose proof (hex_ne "X" x eq_refl Hx) as H2%negb_true_iff.
  unfold after_prefix. rewrite H1, H2. by destruct c as [[] [] [] [] [] [] [] []].
Qed.

Lemma int16_hex s : s ≠ "" → all_chars is_hex s = true → int16 s = hex_digits 0 false s.
Proof.
  intros Hne H. unfold int16.
  rewrite strip_none by (eapply all_chars_mono; [apply hex_not_space|done]).
  destruct s as [|c s]; [done|].
  transitivity (hex_number (String c s)).
  - pose proof (after_prefix_hex _ H) as Hap. cbn [all_chars] in H. apply andb_true_iff in H as [Hc _].
    destruct c as [[] [] [] [] [] [] [] []]; try discriminate Hc; by rewrite ?Hap.
  - cbn [hex_number]. cbn [all_chars] in H. apply andb_true_iff in H as [Hc _].
    pose proof (hex_ne "_" c eq_refl Hc) as Hus%negb_true_iff. by rewrite Hus.
Qed.

(** ** Reading back what [str] writes *)

Lemma dashed_chars P h : all_chars P h = true → P "-"%char = true → all_chars P (dashed h) = true.
Proof.
  intros Hh Hd. unfold dashed. rewrite !all_chars_app. cbn [all_chars].
  by rewrite !all_chars_substring, Hd.
Qed.

Lemma remove_dashed h :
  all_chars is_hex h = true → String.length h = 32%nat → remove_all "-" (dashed h) = h.
Proof.
  intros Hh Hlen.
  assert (Hs : ∀ n m, all_chars (λ x, negb (bool_decide (x = "-"%char))) (String.substring n m h) = true).
  { intros n m. apply all_chars_substring. eapply all_chars_mono; [|exact Hh].
    intros c Hc. by apply hex_ne. }
  unfold dashed.
  do 4 (rewrite remove_dash_app by apply Hs; rewrite remove_dash_cons').
  unfold remove_all. rewrite remove_from_absent by apply Hs.
  rewrite <-!append_assoc, !substring_split. cbn [Nat.add]. rewrite <-Hlen at 1.
  apply substring_all.
Qed.

Lemma UUID_str u : 0 ≤ u < 2 ^ 128 → UUID (str_uuid u) = Some u.
Proof.
  intros Hu. unfold str_uuid, uuid_hex. set (h := hex_string 32 u "").
  assert (Hh : all_chars is_hex h = true) by by apply hex_string_hex.
  assert (Hlen : String.length h = 32%nat) by apply hex_string_length.
  assert (Hno : ∀ x, is_hex x = false → x ≠ "-"%char →
    all_chars (λ c, negb (bool_decide (c = x))) (dashed h) = true).
  { intros x Hx Hd. apply dashed_chars.
    - eapply all_chars_mono; [|exact Hh]. intros c. by apply hex_ne.
    - by apply negb_true_iff, bool_decide_eq_false. }
  assert (Hrm : ∀ x p, is_hex x = false → x ≠ "-"%char → remove_all (String x p) (dashed h) = dashed h)
    by (intros; apply remove_from_absent; by apply Hno).
  unfold UUID. rewrite (Hrm "u"%char "rn:"), (Hrm "u"%char "uid:") by done.
  rewrite strip_none.
  2:{ apply dashed_chars; [|done]. eapply all_chars_mono; [|exact Hh].
      by intros [[] [] [] [] [] [] [] []]. }
  rewrite remove_dashed, bool_decide_true by done. rewrite int16_hex; [|by destruct h|done].
  unfold h. rewrite hex_string_value. cbn [hex_digits]. f_equal.
  change (16 ^ Z.of_nat 32) with (2 ^ 128). rewrite Z.mod_small by done. lia.
Qed.
