(* ===== verification/NodeDisplay.v ===== *)
(** The zone of a node (shared/utils/node_display.py) and the names of routes and
    nodes (services/nodes/naming), with the string methods they use.  Strings are
    byte sequences in UTF-8; [lower], [upper] and [strip] act on the ASCII
    characters. *)

From stdpp Require Import base strings list.
From Stdlib Require Import Ascii.
From S2P Require Import Prelude Uuid.
Local Open Scope Z_scope.

(** * String methods *)

Definition code (c : ascii) : Z := Z.of_nat (nat_of_ascii c).
Definition of_code (z : Z) : ascii := ascii_of_nat (Z.to_nat z).

Definition is_lower (c : ascii) : bool := (97 <=? code c) && (code c <=? 122).
Definition is_upper (c : ascii) : bool := (65 <=? code c) && (code c <=? 90).
Definition lower_char (c : ascii) : ascii := if is_upper c then of_code (code c + 32) else c.
Definition upper_char (c : ascii) : ascii := if is_lower c then of_code (code c - 32) else c.

Fixpoint map_string (f : ascii → ascii) (s : string) : string :=
  match s with
  | EmptyString => EmptyString
  | String c s => String (f c) (map_string f s)
  end.
Definition lower : string → string := map_string lower_char.
Definition upper : string → string := map_string upper_char.

(** [s.strip()]. *)
Definition py_strip : string → string := strip is_space.

(** [s[:n]]: the first [n] characters; a byte [10xxxxxx] continues one. *)
Definition is_continuation (c : ascii) : bool := (128 <=? code c) && (code c <? 192).
Fixpoint take_chars (n : nat) (s : string) : string :=
  match s with
  | EmptyString => EmptyString
  | String c s' =>
      if is_continuation c then String c (take_chars n s')
      else match n with O => EmptyString | S n => String c (take_chars n s') end
  end.

(** [d.get(k)] of a literal dict, the last entry of a repeated key. *)
Fixpoint table_get {A} (d : list (string * A)) (k : string) : option A :=
  match d with
  | [] => None
  | (k', v) :: d => match table_get d k with
                    | Some v' => Some v'
                    | None => if String.eqb k' k then Some v else None
                    end
  end.

(** * Zones *)

Definition REGION_TO_COUNTRY_CODE : list (string * string) :=
  [("fi","FI"); ("hel","FI"); ("de","DE"); ("fra","DE"); ("nl","NL"); ("ams","NL"); ("pl","PL");
   ("waw","PL"); ("gb","GB"); ("uk","GB"); ("lon","GB"); ("fr","FR"); ("par","FR"); ("es","ES");
   ("mad","ES"); ("it","IT"); ("rom","IT"); ("mil","IT"); ("se","SE"); ("sto","SE"); ("no","NO");
   ("osl","NO"); ("dk","DK"); ("cph","DK"); ("ch","CH"); ("zrh","CH"); ("at","AT"); ("vie","AT");
   ("cz","CZ"); ("prg","CZ"); ("us","US"); ("nyc","US"); ("lax","US"); ("ca","CA"); ("tor","CA");
   ("sg","SG"); ("jp","JP"); ("tok","JP"); ("kr","KR"); ("sel","KR"); ("hk","HK"); ("au","AU");
   ("syd","AU"); ("in","IN"); ("tr","TR"); ("ua","UA"); ("ru","RU"); ("kz","KZ"); ("ae","AE");
   ("dxb","AE"); ("br","BR"); ("mx","MX"); ("il","IL"); ("lv","LV"); ("rig","LV")].

Definition ZONE_UNKNOWN : string := "unknown".

Definition COUNTRY_CODE_TO_ZONE : list (string * string) :=
  [("FI","europe"); ("DE","europe"); ("NL","europe"); ("PL","europe"); ("GB","europe");
   ("FR","europe"); ("ES","europe"); ("IT","europe"); ("SE","europe"); ("NO","europe");
   ("DK","europe"); ("CH","europe"); ("AT","europe"); ("CZ","europe"); ("UA","europe");
   ("RU","europe"); ("KZ","europe"); ("LV","europe"); ("TR","europe"); ("SG","asia");
   ("JP","asia"); ("KR","asia"); ("HK","asia"); ("IN","asia"); ("AE","asia"); ("IL","asia");
   ("US","americas"); ("CA","americas"); ("MX","americas"); ("BR","americas"); ("AU","oceania")].

Definition VALID_ZONES : list string :=
  ["europe"; "asia"; "americas"; "oceania"; "africa"; "unknown"].

Definition zone_from_country_code (country_code : option string) : option string :=
  match country_code with
  | Some cc => if String.eqb cc "" then None else table_get COUNTRY_CODE_TO_ZONE (upper (py_strip cc))
  | None => None
  end.

(** [[t for t in re.split(r"[^a-zA-Z]+", s) if t]]: the maximal runs of letters;
    [cur] is the run being read. *)
Fixpoint letter_runs (cur s : string) : list string :=
  match s with
  | EmptyString => if String.eqb cur "" then [] else [cur]
  | String c s' =>
      if is_lower c || is_upper c then letter_runs (cur +:+ String c EmptyString) s'
      else (if String.eqb cur "" then [] else [cur]) ++ letter_runs "" s'
  end.
Definition _extract_region_tokens (region : string) : list string := letter_runs "" (lower region).

Definition country_code_from_region (region : option string) : option string :=
  match region with
  | None => None
  | Some region =>
      let region_clean := lower (py_strip region) in
      if String.eqb region_clean "" then None
      else
        let tokens := _extract_region_tokens region_clean in
        match head (omap (table_get REGION_TO_COUNTRY_CODE) tokens) with
        | Some cc => Some cc
        | None => upper <$> head (filter (λ t, String.length t = 2%nat) tokens)
        end
  end.

Definition infer_zone_from_region (region : option string) : option string :=
  zone_from_country_code (country_code_from_region region).

Definition effective_zone (explicit_zone region : option string) : string :=
  let inferred := default ZONE_UNKNOWN (infer_zone_from_region region) in
  match explicit_zone with
  | Some z =>
      if String.eqb z "" then inferred
      else let candidate := lower (py_strip z) in
           if bool_decide (candidate ∈ VALID_ZONES) then candidate else inferred
  | None => inferred
  end.

(** * Names *)

Definition MAX_ROUTE_NAME_LEN : nat := 100.

Definition TRANSPORT_SHORT : list (string * string) :=
  [("reality_tcp_v1", "reality"); ("ws_tls_v1", "wstls")].
Definition transport_short_code (name : string) : string :=
  default name (table_get TRANSPORT_SHORT name).

(** The characters U+2192 and U+00B7 in UTF-8. *)
Definition arrow : string := "→".
Definition middle_dot : string := "·".

Definition canonical_route_name (entry_name : option string) (backend_name transport_profile_name : string)
    : string :=
  let short := transport_short_code transport_profile_name in
  let base := match entry_name with
              | Some e => if String.eqb e "" then backend_name +:+ middle_dot +:+ short
                          else e +:+ arrow +:+ backend_name +:+ middle_dot +:+ short
              | None => backend_name +:+ middle_dot +:+ short
              end in
  take_chars MAX_ROUTE_NAME_LEN base.

(** * Properties *)

(** Every zone is one of the six. *)
Lemma effective_zone_valid explicit_zone region :
  effective_zone explicit_zone region ∈ VALID_ZONES.
Proof.
  assert (Hd : ∀ k z, table_get COUNTRY_CODE_TO_ZONE k = Some z → z ∈ VALID_ZONES).
  { assert (Hall : Forall (λ kv, kv.2 ∈ VALID_ZONES) COUNTRY_CODE_TO_ZONE)
      by (apply (bool_decide_unpack _); by vm_compute).
    revert Hall. generalize COUNTRY_CODE_TO_ZONE. intros d Hall k z. induction Hall as [|[k' v] d Hv _ IH]; [done|].
    cbn. destruct (table_get d k); [naive_solver|]. destruct (String.eqb k' k); [|done]. by intros [= <-]. }
  assert (Hi : default ZONE_UNKNOWN (infer_zone_from_region region) ∈ VALID_ZONES).
  { unfold infer_zone_from_region, zone_from_country_code.
    destruct (country_code_from_region region) as [cc|]; [|by apply (bool_decide_unpack _)].
    destruct (String.eqb cc ""); [by apply (bool_decide_unpack _)|].
    destruct (table_get _ _) eqn:E; cbn; [by eapply Hd|by apply (bool_decide_unpack _)]. }
  unfold effective_zone. destruct explicit_zone as [z|]; [|done].
  destruct (String.eqb z ""); [done|]. case_bool_decide; done.
Qed.
