(* ===== verification/WgAllocator.v ===== *)
(** Allocation of the mesh address of a node (services/wg/allocator.py) over the
    standard library's [IPv4Network]. *)

From stdpp Require Import base strings list pretty.
From S2P Require Import Prelude Errors Uuid NodeDisplay.
Local Open Scope Z_scope.

(** [IPv4Network(cidr, strict=False)]: the 32-bit address and the prefix length of
    the configured network; the host bits of the address are dropped. *)
Record IPv4Network := { ip_address : Z; prefixlen : Z }.

Definition host_count (n : IPv4Network) : Z := 2 ^ (32 - prefixlen n).
Definition network_address (n : IPv4Network) : Z := ip_address n - ip_address n mod host_count n.
Definition broadcast_address (n : IPv4Network) : Z := network_address n + host_count n - 1.

(** [list(network.hosts())]: without the network and the broadcast address, except
    in a network of one or two addresses, where every address is a host. *)
Definition hosts (n : IPv4Network) : list Z :=
  if 31 <=? prefixlen n
  then seqZ (network_address n) (host_count n)
  else seqZ (network_address n + 1) (host_count n - 2).

(** [str(host)]: the four bytes, in decimal. *)
Definition ip_str (a : Z) : string :=
  pretty (a / 2 ^ 24 mod 256) +:+ "." +:+ pretty (a / 2 ^ 16 mod 256) +:+ "." +:+
  pretty (a / 2 ^ 8 mod 256) +:+ "." +:+ pretty (a mod 256).

(** [{addr.strip() for addr in used if addr}], as a list. *)
Definition used_set (used : list string) : list string :=
  py_strip <$> filter (λ a, negb (String.eqb a "") = true) used.

Definition allocate_next_ip (network : IPv4Network) (used : list string) (reserved : nat) : res string :=
  match find (λ a, negb (bool_decide (ip_str a ∈ used_set used))) (drop reserved (hosts network)) with
  | Some a => Ok (ip_str a)
  | None => Raise WgMeshAddressPoolExhaustedError
  end.

(** * Correctness *)

Lemma elem_of_hosts n a :
  0 ≤ prefixlen n ≤ 30 → a ∈ hosts n ↔ network_address n < a < broadcast_address n.
Proof.
  intros Hp. unfold hosts, broadcast_address. rewrite (proj2 (Z.leb_gt 31 _)) by lia.
  rewrite elem_of_seqZ. lia.
Qed.

(** What the search of [allocate_next_ip] finds. *)
Lemma allocate_next_ip_first (network : IPv4Network) (used : list string) (reserved : nat) :
  match allocate_next_ip network used reserved with
  | Ok ip => ∃ i a, hosts network !! i = Some a ∧ (reserved ≤ i)%nat ∧ ip = ip_str a ∧
      ip ∉ used_set used ∧
      ∀ j b, (reserved ≤ j < i)%nat → hosts network !! j = Some b → ip_str b ∈ used_set used
  | Raise e => e = WgMeshAddressPoolExhaustedError ∧
      ∀ j b, (reserved ≤ j)%nat → hosts network !! j = Some b → ip_str b ∈ used_set used
  end.
Proof.
  unfold allocate_next_ip. set (free a := negb (bool_decide (ip_str a ∈ used_set used))).
  assert (Hfree : ∀ a, free a = false → ip_str a ∈ used_set used).
  { intros a. unfold free. case_bool_decide; done. }
  assert (Hsplit : ∀ l a, find free l = Some a →
    ∃ i, l !! i = Some a ∧ free a = true ∧ ∀ j b, (j < i)%nat → l !! j = Some b → free b = false).
  { induction l as [|x l IH]; intros a; cbn; [done|]. destruct (free x) eqn:Hx.
    - intros [= <-]. exists 0%nat. split_and!; [done|done|]. intros j b Hj. lia.
    - intros (i & Hi & Ha & Hall)%IH. exists (S i). split_and!; [done|done|].
      intros [|j] b Hj Hb; [by injection Hb as <-|]. apply (Hall j); [lia|done]. }
  destruct (find free _) as [a|] eqn:Hf.
  - apply Hsplit in Hf as (i & Hi & Ha & Hall). rewrite lookup_drop in Hi.
    exists (reserved + i)%nat, a. split_and!; [done|lia|done| |].
    + unfold free in Ha. by case_bool_decide.
    + intros j b Hj Hb. apply Hfree. apply (Hall (j - reserved)%nat); [lia|].
      rewrite lookup_drop. by replace (reserved + (j - reserved))%nat with j by lia.
  - split; [done|]. intros j b Hj Hb. apply Hfree.
    apply (find_none free (drop reserved (hosts network)) Hf b). apply list_elem_of_In.
    apply (list_elem_of_lookup_2 _ (j - reserved)). rewrite lookup_drop.
    by replace (reserved + (j - reserved))%nat with j by lia.
Qed.

(** The allocator gives the first free host: the address returned is that of a
    host of the network past the reserved ones, is not in use, and every host before
    it is; it raises exactly when no such host is left. *)
Theorem allocate_next_ip_spec (network : IPv4Network) (used : list string) (reserved : nat) :
  match allocate_next_ip network used reserved with
  | Ok ip => ∃ i a, hosts network !! i = Some a ∧ (reserved ≤ i)%nat ∧ ip = ip_str a ∧
      ip ∉ used_set used ∧
      ∀ j b, (reserved ≤ j < i)%nat → hosts network !! j = Some b → ip_str b ∈ used_set used
  | Raise e => e = WgMeshAddressPoolExhaustedError ∧
      ∀ j b, (reserved ≤ j)%nat → hosts network !! j = Some b → ip_str b ∈ used_set used
  end.
Proof. exact (allocate_next_ip_first network used reserved). Qed.

Example allocate_small :
  let n := {| ip_address := 10 * 2 ^ 24 + 77; prefixlen := 29 |} in
  allocate_next_ip n ["10.0.0.74"; " 10.0.0.75 "; ""] 1 = Ok "10.0.0.76" ∧
  allocate_next_ip {| ip_address := 10 * 2 ^ 24; prefixlen := 30 |} ["10.0.0.2"] 1 =
    Raise WgMeshAddressPoolExhaustedError.
Proof. by vm_compute. Qed.
