(* ===== verification/Tables.v ===== *)
(** The mapped tables as instances of the generic repository: where each lives
    in the database, its id column, its [updated_at], and the unique and CHECK
    constraints PostgreSQL enforces on a written row. *)

From stdpp Require Import base gmap strings list.
From S2P Require Import Prelude Errors RouteModels BillingModels FleetModels Session.
Local Open Scope Z_scope.


(** A unique constraint: another row agrees with [r] on the constrained
    columns. *)
Definition clashes {R} (m : gmap Z R) (id : R → Z) (agree : R → R → bool) (r : R) : bool :=
  existsb (λ r', negb (id r' =? id r) && agree r' r) (rows m).

(** The check is made when a row is inserted and when an update changes the
    constrained columns ([unchanged] compares them). *)
Definition unique {R} (name : string) (m : gmap Z R) (id : R → Z)
    (agree unchanged : R → R → bool) (old : option R) (r : R) : option string :=
  if match old with Some o => unchanged o r | None => false end then None
  else if clashes m id agree r then Some name else None.

(** On non-null columns the two comparisons coincide. *)
Definition unique_on {R} (name : string) (m : gmap Z R) (id : R → Z) (agree : R → R → bool) :=
  unique name m id agree agree.

Lemma clashes_false {R} (m : gmap Z R) id agree r :
  clashes m id agree r = false ↔
  ∀ i r', m !! i = Some r' → id r' ≠ id r → agree r' r = false.
Proof.
  unfold clashes. rewrite <-not_true_iff_false, existsb_exists. split.
  - intros H i r' Hi Hne. apply not_true_iff_false. intros Ha. apply H.
    exists r'. split; [apply list_elem_of_In, elem_of_rows; eauto|].
    rewrite (proj2 (Z.eqb_neq _ _) Hne), Ha. done.
  - intros H (r' & Hin & Hr'). apply list_elem_of_In, elem_of_rows in Hin as [i Hi].
    apply andb_prop in Hr' as [Hne Ha].
    rewrite (H i r') in Ha; [done|done|]. intros Heq. by rewrite Heq, Z.eqb_refl in Hne.
Qed.

(** SQL equality of nullable columns: null equals nothing. *)
Definition sql_eqb {A} `{EqDecision A} (a b : option A) : bool :=
  match a, b with Some x, Some y => bool_decide (x = y) | _, _ => false end.

Definition touch_user (now : Z) (u : User) : User :=
  {| user_id := user_id u; telegram_id := telegram_id u; username := username u;
     balance := balance u; user_tag := user_tag u; user_description := user_description u;
     terms_accepted := terms_accepted u; terms_accepted_at := terms_accepted_at u;
     referral_code := referral_code u; suppress_marketing := suppress_marketing u;
     user_is_active := user_is_active u; user_created_at := user_created_at u;
     user_updated_at := now |}.

Definition users_tbl : table User :=
  {| t_rows := users; t_set := set_users; t_id := user_id; t_touch := touch_user;
     t_check := λ d old u,
       match unique_on "user_telegram_id_key" (users d) user_id
               (λ a b, telegram_id a =? telegram_id b) old u with
       | Some c => Some c
       | None => unique "ix_user_referral_code" (users d) user_id
                   (λ a b, sql_eqb (referral_code a) (referral_code b))
                   (λ a b, bool_decide (referral_code a = referral_code b)) old u
       end |}.

Definition touch_plan (now : Z) (p : Plan) : Plan :=
  {| plan_id := plan_id p; plan_name := plan_name p; plan_description := plan_description p;
     traffic_limit_bytes := traffic_limit_bytes p; reset_strategy := reset_strategy p;
     plan_max_devices := plan_max_devices p; duration_days := duration_days p;
     sort_order := sort_order p; whitelist_enabled := whitelist_enabled p;
     entry_relay_enabled := entry_relay_enabled p; included_devices := included_devices p;
     price_rub := price_rub p; device_price_rub := device_price_rub p;
     price_stars := price_stars p; device_price_stars := device_price_stars p;
     periods := periods p; plan_is_active := plan_is_active p;
     plan_created_at := plan_created_at p; plan_updated_at := now |}.

Definition plans_tbl : table Plan :=
  {| t_rows := plans; t_set := set_plans; t_id := plan_id; t_touch := touch_plan;
     t_check := λ d, unique_on "plan_name_key" (plans d) plan_id
                  (λ a b, String.eqb (plan_name a) (plan_name b)) |}.

Definition touch_sub (now : Z) (b : Subscription) : Subscription :=
  apply_sub_update {| supd_plan_id := None; supd_is_active := None; supd_expires_at := None;
     supd_profile_key := None; supd_preferred_region := None; supd_hwid_enabled := None;
     supd_max_devices := None; supd_paid_device_slots := None; supd_period_months := None;
     supd_updated_at := Some now |} b.

Definition subs_tbl : table Subscription :=
  {| t_rows := subscriptions; t_set := set_subscriptions; t_id := sub_id; t_touch := touch_sub;
     t_check := λ d old b,
       match unique_on "ix_subscription_token_hash" (subscriptions d) sub_id
               (λ a b, String.eqb (sub_token_hash a) (sub_token_hash b)) old b with
       | Some c => Some c
       | None => unique "subscription_prev_token_hash_key" (subscriptions d) sub_id
                   (λ a b, sql_eqb (prev_token_hash a) (prev_token_hash b))
                   (λ a b, bool_decide (prev_token_hash a = prev_token_hash b)) old b
       end |}.

Definition touch_order (now : Z) (o : PaymentOrder) : PaymentOrder :=
  {| order_id := order_id o; order_user_id := order_user_id o;
     order_plan_id := order_plan_id o; order_amount_rub := order_amount_rub o;
     order_provider := order_provider o; order_status := order_status o;
     external_id := external_id o; payment_url := payment_url o;
     provider_meta := provider_meta o; paid_at := paid_at o; completed_at := completed_at o;
     order_expires_at := order_expires_at o;
     order_subscription_id := order_subscription_id o;
     order_type := order_type o; device_slots_qty := device_slots_qty o;
     period_months := period_months o; fee_rub := fee_rub o; net_rub := net_rub o;
     order_promo_code_id := order_promo_code_id o; order_discount_rub := order_discount_rub o;
     order_created_at := order_created_at o; order_updated_at := now |}.

Definition orders_tbl : table PaymentOrder :=
  {| t_rows := orders; t_set := set_orders; t_id := order_id; t_touch := touch_order;
     t_check := λ d, unique_on "payment_order_external_id_key" (orders d) order_id
                  (λ a b, String.eqb (external_id a) (external_id b)) |}.

Definition opt_Z_eqb (a b : option Z) : bool :=
  match a, b with Some x, Some y => x =? y | None, None => true | _, _ => false end.

Definition fees_tbl : table PaymentProviderFee :=
  {| t_rows := provider_fees; t_set := set_provider_fees; t_id := fee_id;
     t_touch := λ _ f, f;
     t_check := λ d old f,
       if 1000000 <=? fee_percent f then Some "numeric field overflow"
       else unique_on "uq_payment_provider_fee" (provider_fees d) fee_id
              (λ a b, String.eqb (fee_provider a) (fee_provider b) &&
                      opt_Z_eqb (fee_payment_method a) (fee_payment_method b)) old f |}.

Definition touch_promo (now : Z) (p : PromoCode) : PromoCode :=
  {| promo_id := promo_id p; promo_code := promo_code p; promo_description := promo_description p;
     discount_type := discount_type p; discount_value := discount_value p;
     max_discount_rub := max_discount_rub p; audience := audience p; plan_ids := plan_ids p;
     applies_to := applies_to p; min_amount_rub := min_amount_rub p;
     max_activations := max_activations p; max_per_user := max_per_user p;
     starts_at := starts_at p; promo_expires_at := promo_expires_at p;
     activation_count := activation_count p; created_by_admin_id := created_by_admin_id p;
     promo_is_active := promo_is_active p; promo_created_at := promo_created_at p;
     promo_updated_at := now |}.

Definition promos_tbl : table PromoCode :=
  {| t_rows := promo_codes; t_set := set_promo_codes; t_id := promo_id; t_touch := touch_promo;
     t_check := λ d, unique_on "promo_code_code_key" (promo_codes d) promo_id
                  (λ a b, String.eqb (promo_code a) (promo_code b)) |}.

Definition referrals_tbl : table Referral :=
  {| t_rows := referrals; t_set := set_referrals; t_id := ref_id; t_touch := λ _ r, r;
     t_check := λ d, unique_on "uq_referral_referred_user" (referrals d) ref_id
                  (λ a b, referred_user_id a =? referred_user_id b) |}.

Ltac table_laws := constructor; [done|by intros []|done].
#[export] Instance users_laws : TableLaws users_tbl. Proof. table_laws. Qed.
#[export] Instance plans_laws : TableLaws plans_tbl. Proof. table_laws. Qed.
#[export] Instance subs_laws : TableLaws subs_tbl. Proof. table_laws. Qed.
#[export] Instance orders_laws : TableLaws orders_tbl. Proof. table_laws. Qed.
#[export] Instance fees_laws : TableLaws fees_tbl. Proof. table_laws. Qed.
#[export] Instance promos_laws : TableLaws promos_tbl. Proof. table_laws. Qed.
#[export] Instance referrals_laws : TableLaws referrals_tbl. Proof. table_laws. Qed.

(** * Shared queries *)

(** [SubscriptionRepository.list_by_user_id]. *)
Definition list_by_user_id (user_id : Z) (active_only : bool) : SM (list Subscription) :=
  select_where subs_tbl (λ b, (sub_user_id b =? user_id) && (negb active_only || sub_is_active b)).

(** The descending maximum on a nullable timestamp, NULLs already excluded. *)
Definition key_or_zero (o : option Z) : Z := default 0 o.

(** [SubscriptionRepository.get_latest_for_user]. *)
Definition get_latest_for_user (user_id : Z) : SM (option Subscription) :=
  l ← select_where subs_tbl (λ b, (sub_user_id b =? user_id) &&
        match sub_expires_at b with Some _ => true | None => false end);
  mret (head (order_by_desc (λ b, key_or_zero (sub_expires_at b)) l)).

(** * Strings *)

(** [str.upper] on ASCII. *)
Definition upper_ascii (c : Ascii.ascii) : Ascii.ascii :=
  let n := Ascii.nat_of_ascii c in
  if (Nat.leb 97 n && Nat.leb n 122)%bool then Ascii.ascii_of_nat (n - 32) else c.
Fixpoint upper (s : string) : string :=
  match s with
  | String.EmptyString => String.EmptyString
  | String.String c s => String.String (upper_ascii c) (upper s)
  end.

Definition nonempty (s : string) : bool := negb (String.eqb s "").

(** * A sample row *)

Definition sample_user (uid b : Z) : User :=
  {| user_id := uid; telegram_id := uid; username := None; balance := b; user_tag := None;
     user_description := None; terms_accepted := true; terms_accepted_at := None;
     referral_code := None; suppress_marketing := false; user_is_active := true;
     user_created_at := 0; user_updated_at := 0 |}.

(** Cached payloads of subscriptions (services/vpn/subscriptions/cache.py); an entry of Redis
    that is dropped is an effect. *)


Definition invalidate_by_token_hashes (hashes : list string) : SM unit :=
  for_each (λ h, when (nonempty h) (emit (InvalidatePayloadCache h))) hashes.

Definition invalidate_by_subscription_ids (sids : list Z) : SM unit :=
  match sids with
  | [] => mret tt
  | _ =>
      l ← select_where subs_tbl (λ b, bool_decide (sub_id b ∈ sids));
      invalidate_by_token_hashes (concat ((λ b,
        sub_token_hash b :: match prev_token_hash b with Some h => [h] | None => [] end) <$> l))
  end.

(** The supply of identifiers only moves on. *)
Definition uuid_le (s s' : session) : Prop := next_uuid s ≤ next_uuid s'.

#[export] Instance uuid_le_preorder : PreOrder uuid_le.
Proof. unfold uuid_le. split; [intros s; lia|intros s1 s2 s3; lia]. Qed.

Lemma uuid_le_update {R} (t : table R) i f : keeps uuid_le (update_by_id t i f).
Proof.
  intros s. rewrite update_run. unfold uuid_le. destruct (t_rows t (db s) !! i); [|cbn; lia]. cbv zeta.
  destruct (t_check t _ _ _); cbn; lia.
Qed.

Lemma uuid_le_create {R} (t : table R) mk : keeps uuid_le (create t mk).
Proof.
  intros s. rewrite create_run. unfold uuid_le. cbv zeta. destruct (t_rows t (db s) !! _); [cbn; lia|].
  destruct (t_check t _ _ _); cbn; lia.
Qed.

Lemma uuid_le_select {R} (t : table R) P : keeps uuid_le (select_where t P).
Proof. apply keeps_gets, _. Qed.

Lemma uuid_le_utcnow : keeps uuid_le utcnow.
Proof. intros s. unfold uuid_le. cbn. lia. Qed.

Lemma uuid_le_update_where {R} (t : table R) P g : keeps uuid_le (update_where t P g).
Proof.
  unfold update_where. apply keeps_bind; [apply _|apply uuid_le_select|intros l].
  apply keeps_bind; [apply _| |intros; apply keeps_ret, _]. apply keeps_for_each; [apply _|].
  intros r s. rewrite store_run. unfold uuid_le. destruct (t_check t _ _ _); cbn; lia.
Qed.

#[export] Hint Resolve uuid_le_update uuid_le_create uuid_le_select uuid_le_utcnow
  uuid_le_update_where : keeps.
Lemma emit_uuid_le e : keeps uuid_le (emit e).
Proof. intros s. unfold uuid_le. cbn. lia. Qed.
Lemma uuid4_uuid_le : keeps uuid_le uuid4.
Proof. intros s. unfold uuid_le. cbn. lia. Qed.
Lemma get_by_id_uuid_le {R} (t : table R) i : keeps uuid_le (get_by_id t i).
Proof. apply keeps_gets, _. Qed.
Lemma read_uuid_le {A} (f : database → A) : keeps uuid_le (read f).
Proof. apply keeps_gets, _. Qed.
Lemma scalar_uuid_le {R} (l : list R) : keeps uuid_le (scalar_one_or_none l).
Proof. destruct l as [|? []]; cbn; [apply keeps_ret|apply keeps_ret|apply keeps_raise]; apply _. Qed.
#[export] Hint Resolve emit_uuid_le uuid4_uuid_le get_by_id_uuid_le read_uuid_le scalar_uuid_le : keeps.
