(* ===== verification/Promo.v ===== *)
(** Promo codes (services/promo/service.py, services/promo/repository.py):
    administration, quoting a discount for an order, and the activation ledger. *)

From stdpp Require Import base gmap strings list.
From S2P Require Import Prelude Decimal Errors RouteModels BillingModels FleetModels Session Uuid Tables.
Local Open Scope Z_scope.

(** * Repository *)

Definition get_by_code (code : string) : SM (option PromoCode) :=
  l ← select_where promos_tbl (λ p, String.eqb (upper (promo_code p)) (upper code));
  scalar_one_or_none l.

(** [UPDATE promo_code SET activation_count = activation_count + 1]. *)
Definition bump_activation (p : PromoCode) : PromoCode :=
  {| promo_id := promo_id p; promo_code := promo_code p; promo_description := promo_description p;
     discount_type := discount_type p; discount_value := discount_value p;
     max_discount_rub := max_discount_rub p; audience := audience p; plan_ids := plan_ids p;
     applies_to := applies_to p; min_amount_rub := min_amount_rub p;
     max_activations := max_activations p; max_per_user := max_per_user p;
     starts_at := starts_at p; promo_expires_at := promo_expires_at p;
     activation_count := activation_count p + 1; created_by_admin_id := created_by_admin_id p;
     promo_is_active := promo_is_active p; promo_created_at := promo_created_at p;
     promo_updated_at := promo_updated_at p |}.

Definition increment_activation (promo_code_id : Z) : SM unit :=
  update_by_id promos_tbl promo_code_id bump_activation ;; mret tt.

Definition activation_of (promo user : Z) (a : PromoActivation) : bool :=
  (pa_promo_code_id a =? promo) && (pa_user_id a =? user).

Definition count_for_user (promo_code_id user_id : Z) : SM Z :=
  read (λ d, Z.of_nat (length (filter (λ a, activation_of promo_code_id user_id a = true)
                                 (promo_activations d)))).

(** Rows of one code, newest first, one page, and their number. *)
Definition list_by_promo (promo_code_id : Z) (limit offset : nat)
    : SM (list PromoActivation * Z) :=
  read (λ d,
    let l := filter (λ a, pa_promo_code_id a = promo_code_id) (promo_activations d) in
    (take limit (drop offset (order_by_desc pa_created_at l)), Z.of_nat (length l))).

(** Activations, distinct users, total discount and total revenue of a code. *)
Definition activation_stats (promo_code_id : Z) : SM (Z * Z * Z * Z) :=
  read (λ d,
    let l := filter (λ a, pa_promo_code_id a = promo_code_id) (promo_activations d) in
    (Z.of_nat (length l), Z.of_nat (length (remove_dups (pa_user_id <$> l))),
     foldr Z.add 0 (discount_applied <$> l), foldr Z.add 0 (amount_after <$> l))).

Definition list_all_promos : SM (list PromoCode) :=
  l ← select_where promos_tbl (λ _, true);
  mret (order_by_desc promo_created_at l).

(** * Service *)

Record PromoQuoteOut := {
  quote_code : string;
  quote_promo_code_id : Z;
  quote_amount_before : Z;
  quote_discount_rub : Z;
  quote_amount_after : Z;
}.

Definition _compute_discount (promo : PromoCode) (amount : Z) : Z :=
  let d :=
    match discount_type promo with
    | PERCENT =>
        let d := round_half_up (amount * discount_value promo) 10000 in
        match max_discount_rub promo with Some m => Z.min d m | None => d end
    | FIXED => Z.min (discount_value promo) amount
    end in
  Z.max 0 d.

(** [any(s.expires_at is None or s.expires_at > now() for s in subs)]: the
    clock is read for each element looked at. *)
Fixpoint any_live (subs : list Subscription) : SM bool :=
  match subs with
  | [] => mret false
  | b :: subs =>
      match sub_expires_at b with
      | None => mret true
      | Some e => now ← utcnow; if now <? e then mret true else any_live subs
      end
  end.

Definition _check_audience (promo : PromoCode) (user_id : Z) (plan_id : option Z) : SM unit :=
  match audience promo with
  | AUDIENCE_ALL => mret tt
  | BY_PLAN =>
      let allowed := default [] (plan_ids promo) in
      match plan_id with
      | Some p =>
          if existsb (Z.eqb p) allowed then mret tt
          else raise (PromoNotEligible "Promo is limited to specific plans")
      | None => raise (PromoNotEligible "Promo is limited to specific plans")
      end
  | a =>
      subs ← list_by_user_id user_id true;
      has_live ← any_live subs;
      match a with
      | NO_SUBSCRIPTION => raise_if has_live
          (PromoNotEligible "Promo is only for users without an active subscription")
      | _ => raise_if (negb has_live) (PromoNotEligible "Promo requires an active subscription")
      end
  end.

Definition validate_and_quote (code : string) (user_id : Z) (plan_id : option Z)
    (order_type : OrderTypeEnum) (amount_rub : Z) : SM PromoQuoteOut :=
  found ← get_by_code code;
  match found with
  | None => raise (PromoInvalid "Promo code not found or inactive")
  | Some promo =>
      raise_if (negb (promo_is_active promo)) (PromoInvalid "Promo code not found or inactive") ;;
      now ← utcnow;
      raise_if (match starts_at promo with Some t => now <? t | None => false end)
        (PromoInvalid "Promo is not active yet") ;;
      raise_if (match promo_expires_at promo with Some t => t <=? now | None => false end)
        (PromoInvalid "Promo has expired") ;;
      raise_if (match min_amount_rub promo with Some m => amount_rub <? m | None => false end)
        (PromoInvalid "Order amount is below the promo minimum") ;;
      raise_if (bool_decide (applies_to promo = NEW_PURCHASE) &&
                negb (bool_decide (order_type = PLAN_PURCHASE)))
        (PromoNotEligible "Promo applies to new purchases only") ;;
      raise_if (bool_decide (applies_to promo = RENEWAL) &&
                negb (bool_decide (order_type = SUBSCRIPTION_RENEWAL)))
        (PromoNotEligible "Promo applies to renewals only") ;;
      _check_audience promo user_id plan_id ;;
      raise_if (match max_activations promo with
                | Some m => m <=? activation_count promo | None => false end)
        (PromoExhausted "Promo activation limit reached") ;;
      used ← count_for_user (promo_id promo) user_id;
      raise_if (max_per_user promo <=? used) (PromoExhausted "Per-user promo limit reached") ;;
      let discount := _compute_discount promo amount_rub in
      let amount_after := Z.max 0 (amount_rub - discount) in
      mret {| quote_code := promo_code promo; quote_promo_code_id := promo_id promo;
              quote_amount_before := amount_rub; quote_discount_rub := discount;
              quote_amount_after := amount_after |}
  end.

(** The foreign keys of an activation row. *)
Definition activation_fk (d : database) (a : PromoActivation) : bool :=
  bool_decide (is_Some (promo_codes d !! pa_promo_code_id a)) &&
  bool_decide (is_Some (users d !! pa_user_id a)) &&
  match pa_order_id a with
  | Some o => bool_decide (is_Some (orders d !! o)) | None => true end.

(** The insert of [PromoActivationRepository.create]: a fresh id and time. *)
Definition insert_activation (mk : Z → Z → PromoActivation) : SM unit :=
  id ← uuid4; now ← utcnow;
  ok ← read (λ d, activation_fk d (mk id now));
  raise_if (negb ok) (IntegrityError "promo_activation_fkey") ;;
  write (λ d, set_promo_activations (promo_activations d ++ [mk id now]) d).

Definition record_activation (promo_code_id user_id : Z) (order_id : option Z)
    (before applied after : Z) : SM unit :=
  insert_activation (λ id now,
    {| pa_id := id; pa_promo_code_id := promo_code_id; pa_user_id := user_id;
       pa_order_id := order_id; amount_before := before; discount_applied := applied;
       amount_after := after; pa_created_at := now |}) ;;
  increment_activation promo_code_id.

(** ** Administration *)

Record PromoCodeCreateIn := {
  pci_code : string;
  pci_description : option string;
  pci_discount_type : DiscountType;
  pci_discount_value : Z;
  pci_max_discount_rub : option Z;
  pci_audience : PromoAudience;
  pci_plan_ids : option (list Z);
  pci_applies_to : PromoAppliesTo;
  pci_min_amount_rub : option Z;
  pci_max_activations : option Z;
  pci_max_per_user : Z;
  pci_starts_at : option Z;
  pci_expires_at : option Z;
}.

(** The field bounds and the [_check] validator of [PromoCodeCreateIn]. *)
Definition PromoCodeCreateIn_valid (data : PromoCodeCreateIn) : bool :=
  (0 <? pci_discount_value data) &&
  match pci_max_discount_rub data with Some m => 0 <? m | None => true end &&
  match pci_min_amount_rub data with Some m => 0 <=? m | None => true end &&
  match pci_max_activations data with Some m => 0 <? m | None => true end &&
  (0 <? pci_max_per_user data) &&
  negb (bool_decide (pci_discount_type data = PERCENT) && (10000 <? pci_discount_value data)) &&
  negb (bool_decide (pci_audience data = BY_PLAN) &&
        match pci_plan_ids data with Some (_ :: _) => false | _ => true end).

(** [[str(p) for p in ids] if ids else None]. *)
Definition nonempty_ids (ids : option (list Z)) : option (list Z) :=
  match ids with Some [] => None | _ => ids end.

Definition create_promo (data : PromoCodeCreateIn) (actor_admin_id : option Z) : SM PromoCode :=
  found ← get_by_code (pci_code data);
  raise_if (match found with Some _ => true | None => false end)
    (PromoCodeExists ("Promo code " +:+ pci_code data +:+ " already exists")) ;;
  create promos_tbl (λ id now,
    {| promo_id := id; promo_code := upper (pci_code data);
       promo_description := pci_description data;
       discount_type := pci_discount_type data; discount_value := pci_discount_value data;
       max_discount_rub := pci_max_discount_rub data; audience := pci_audience data;
       plan_ids := nonempty_ids (pci_plan_ids data); applies_to := pci_applies_to data;
       min_amount_rub := pci_min_amount_rub data; max_activations := pci_max_activations data;
       max_per_user := pci_max_per_user data; starts_at := pci_starts_at data;
       promo_expires_at := pci_expires_at data; activation_count := 0;
       created_by_admin_id := actor_admin_id; promo_is_active := true;
       promo_created_at := now; promo_updated_at := now |}).

(** [PromoCodeUpdateIn] dumped with [exclude_unset]: an unset field is [None],
    a field set to null is [Some None]. *)
Record PromoCodeUpdateIn := {
  pcu_description : option (option string);
  pcu_discount_type : option (option DiscountType);
  pcu_discount_value : option (option Z);
  pcu_max_discount_rub : option (option Z);
  pcu_audience : option (option PromoAudience);
  pcu_plan_ids : option (option (list Z));
  pcu_applies_to : option (option PromoAppliesTo);
  pcu_min_amount_rub : option (option Z);
  pcu_max_activations : option (option Z);
  pcu_max_per_user : option (option Z);
  pcu_starts_at : option (option Z);
  pcu_expires_at : option (option Z);
  pcu_is_active : option (option bool);
}.

(** The field bounds of [PromoCodeUpdateIn]; there is no validator. *)
Definition PromoCodeUpdateIn_valid (data : PromoCodeUpdateIn) : bool :=
  match pcu_discount_value data with Some (Some v) => 0 <? v | _ => true end &&
  match pcu_max_discount_rub data with Some (Some m) => 0 <? m | _ => true end &&
  match pcu_min_amount_rub data with Some (Some m) => 0 <=? m | _ => true end &&
  match pcu_max_activations data with Some (Some m) => 0 <? m | _ => true end &&
  match pcu_max_per_user data with Some (Some m) => 0 <? m | _ => true end.

(** A column is set explicitly to null. *)
Definition nulls {A} (p : option (option A)) : bool :=
  match p with Some None => true | _ => false end.
(** Value of a NOT NULL column after the patch (null is refused before). *)
Definition patched {A} (p : option (option A)) (old : A) : A :=
  match p with Some (Some v) => v | _ => old end.

Definition update_promo (promo_id_ : Z) (data : PromoCodeUpdateIn) : SM (option PromoCode) :=
  existing ← get_by_id promos_tbl promo_id_;
  match existing with
  | None => raise (PromoNotFound ("Promo " +:+ str_uuid promo_id_ +:+ " not found"))
  | Some _ =>
      raise_if (nulls (pcu_discount_type data) || nulls (pcu_discount_value data) ||
                nulls (pcu_audience data) || nulls (pcu_applies_to data) ||
                nulls (pcu_max_per_user data) || nulls (pcu_is_active data))
        (IntegrityError "not null") ;;
      update_by_id promos_tbl promo_id_ (λ p,
        {| promo_id := promo_id p; promo_code := promo_code p;
           promo_description := default (promo_description p) (pcu_description data);
           discount_type := patched (pcu_discount_type data) (discount_type p);
           discount_value := patched (pcu_discount_value data) (discount_value p);
           max_discount_rub := default (max_discount_rub p) (pcu_max_discount_rub data);
           audience := patched (pcu_audience data) (audience p);
           plan_ids := default (plan_ids p) (nonempty_ids <$> pcu_plan_ids data);
           applies_to := patched (pcu_applies_to data) (applies_to p);
           min_amount_rub := default (min_amount_rub p) (pcu_min_amount_rub data);
           max_activations := default (max_activations p) (pcu_max_activations data);
           max_per_user := patched (pcu_max_per_user data) (max_per_user p);
           starts_at := default (starts_at p) (pcu_starts_at data);
           promo_expires_at := default (promo_expires_at p) (pcu_expires_at data);
           activation_count := activation_count p;
           created_by_admin_id := created_by_admin_id p;
           promo_is_active := patched (pcu_is_active data) (promo_is_active p);
           promo_created_at := promo_created_at p;
           promo_updated_at := promo_updated_at p |})
  end.

(** Deleting a code cascades to its activations and clears it on orders. *)
Definition clear_order_promo (pid : Z) (o : PaymentOrder) : PaymentOrder :=
  {| order_id := order_id o; order_user_id := order_user_id o;
     order_plan_id := order_plan_id o; order_amount_rub := order_amount_rub o;
     order_provider := order_provider o; order_status := order_status o;
     external_id := external_id o; payment_url := payment_url o;
     provider_meta := provider_meta o; paid_at := paid_at o; completed_at := completed_at o;
     order_expires_at := order_expires_at o;
     order_subscription_id := order_subscription_id o;
     order_type := order_type o; device_slots_qty := device_slots_qty o;
     period_months := period_months o; fee_rub := fee_rub o; net_rub := net_rub o;
     order_promo_code_id := if opt_Z_eqb (order_promo_code_id o) (Some pid) then None
                            else order_promo_code_id o;
     order_discount_rub := order_discount_rub o;
     order_created_at := order_created_at o; order_updated_at := order_updated_at o |}.

Definition delete_promo (promo_id_ : Z) : SM unit :=
  existing ← get_by_id promos_tbl promo_id_;
  match existing with
  | None => raise (PromoNotFound ("Promo " +:+ str_uuid promo_id_ +:+ " not found"))
  | Some _ =>
      delete_by_id promos_tbl promo_id_ ;;
      write (λ d, set_promo_activations
               (filter (λ a, pa_promo_code_id a ≠ promo_id_) (promo_activations d))
               (set_orders (clear_order_promo promo_id_ <$> orders d) d))
  end.

Record PromoStatsOut := {
  stats_promo_code_id : Z;
  stats_activations : Z;
  stats_unique_users : Z;
  stats_total_discount_rub : Z;
  stats_revenue_after_rub : Z;
}.

Definition stats (promo_id_ : Z) : SM PromoStatsOut :=
  p ← get_by_id promos_tbl promo_id_;
  raise_if (bool_decide (p = None))
    (PromoNotFound ("Promo " +:+ str_uuid promo_id_ +:+ " not found")) ;;
  '(acts, us, discount, revenue) ← activation_stats promo_id_;
  mret {| stats_promo_code_id := promo_id_; stats_activations := acts;
          stats_unique_users := us; stats_total_discount_rub := discount;
          stats_revenue_after_rub := revenue |}.

(** * Invariant *)

Definition activations_of (pid : Z) (d : database) : list PromoActivation :=
  filter (λ a, pa_promo_code_id a = pid) (promo_activations d).

(** What the table and the service maintain of every code. *)
Record promo_row_ok (d : database) (p : PromoCode) : Prop := {
  pr_upper : upper (promo_code p) = promo_code p;
  pr_value : 0 < discount_value p;
  pr_per_user : 0 < max_per_user p;
  pr_count : activation_count p = Z.of_nat (length (activations_of (promo_id p) d));
}.

(** Codes are stored upper-cased and once, [activation_count] is the number of
    activations recorded, and every activation belongs to a stored code. *)
Record promos_inv (d : database) : Prop := {
  pi_keyed : keyed promos_tbl d;
  pi_rows i p : promo_codes d !! i = Some p → promo_row_ok d p;
  pi_codes i j p q : promo_codes d !! i = Some p → promo_codes d !! j = Some q →
    promo_code p = promo_code q → i = j;
  pi_fk a : a ∈ promo_activations d → is_Some (promo_codes d !! pa_promo_code_id a);
}.

(** Percentages do not exceed one hundred. *)
Definition percent_bounded (p : PromoCode) : Prop :=
  discount_type p = PERCENT → discount_value p ≤ 10000.

(** The state-changing operations of the service. *)
Inductive promo_op :=
| OpCreate (data : PromoCodeCreateIn) (admin : option Z)
| OpUpdate (pid : Z) (data : PromoCodeUpdateIn)
| OpDelete (pid : Z)
| OpRecord (pid uid : Z) (oid : option Z) (before applied after : Z).

Definition run_promo_op (op : promo_op) : SM unit :=
  match op with
  | OpCreate data admin => create_promo data admin ;; mret tt
  | OpUpdate pid data => update_promo pid data ;; mret tt
  | OpDelete pid => delete_promo pid
  | OpRecord pid uid oid b d a => record_activation pid uid oid b d a
  end.

(** Inputs have passed their schema. *)
Definition promo_op_valid (op : promo_op) : bool :=
  match op with
  | OpCreate data _ => PromoCodeCreateIn_valid data
  | OpUpdate _ data => PromoCodeUpdateIn_valid data
  | _ => true
  end.

(** * Theorems *)

Lemma upper_ascii_idem c : upper_ascii (upper_ascii c) = upper_ascii c.
Proof. destruct c as [[] [] [] [] [] [] [] []]; reflexivity. Qed.

Lemma upper_idem s : upper (upper s) = upper s.
Proof. induction s as [|c s IH]; cbn; [done|]. by rewrite upper_ascii_idem, IH. Qed.

Lemma compute_discount_bounds p amount :
  0 < discount_value p → percent_bounded p → 0 ≤ amount →
  0 ≤ _compute_discount p amount ≤ amount.
Proof.
  intros Hv Hp Ha. unfold _compute_discount.
  destruct (discount_type p) eqn:Ht; [|lia].
  specialize (Hp Ht).
  pose proof (round_half_up_le amount (discount_value p) 10000 ltac:(lia) Ha ltac:(lia)).
  destruct (max_discount_rub p); lia.
Qed.

(** ** Quotes *)

(** At most one code matches. *)
Lemma get_by_code_run code s :
  promos_inv (db s) →
  ∃ o, get_by_code code s = (Ok o, s) ∧
    match o with
    | Some p => promo_codes (db s) !! promo_id p = Some p ∧ promo_code p = upper code
    | None => ∀ i p, promo_codes (db s) !! i = Some p → promo_code p ≠ upper code
    end.
Proof.
  intros Hinv.
  destruct (select_unique_run promos_tbl
    (λ p, String.eqb (upper (promo_code p)) (upper code)) s (pi_keyed _ Hinv)) as (o & Hrun & Ho).
  { cbn. intros i j p q Hp Hq Ep%String.eqb_eq Eq%String.eqb_eq.
    rewrite (pr_upper _ _ (pi_rows _ Hinv _ _ Hp)) in Ep.
    rewrite (pr_upper _ _ (pi_rows _ Hinv _ _ Hq)) in Eq.
    eapply (pi_codes _ Hinv); eauto. congruence. }
  exists o. split; [exact Hrun|]. destruct o as [p|]; cbn in Ho.
  - destruct Ho as [Hp Ec%String.eqb_eq]. split; [done|].
    by rewrite (pr_upper _ _ (pi_rows _ Hinv _ _ Hp)) in Ec.
  - intros i p Hp Ec. specialize (Ho i p Hp).
    by rewrite (pr_upper _ _ (pi_rows _ Hinv _ _ Hp)), Ec, String.eqb_refl in Ho.
Qed.

(** Looking for a live subscription only reads. *)
Lemma any_live_run subs s :
  ∃ b s', any_live subs s = (Ok b, s') ∧ db s' = db s.
Proof.
  revert s. induction subs as [|b subs IH]; intros s; cbn; [by eexists _, _|].
  destruct (sub_expires_at b) as [e|]; [|by eexists _, _].
  unfold mbind, M_bind, utcnow. destruct (_ <? e); [by eexists _, _|].
  destruct (IH (tick s)) as (b' & s' & Hrun & Hdb). exists b', s'. split; [exact Hrun|done].
Qed.

Lemma check_audience_wp promo uid pid s :
  wp (_check_audience promo uid pid) (λ _ s', db s' = db s)
     (λ e s', is_PromoError e = true ∧ db s' = db s) s.
Proof.
  unfold _check_audience. destruct (audience promo); [done| | |].
  1,2: apply wp_bind, wp_select; cbv beta; set (l := filter _ _);
    destruct (any_live_run l s) as (b & s' & Hrun & Hdb);
    apply wp_bind; unfold wp at 1; rewrite Hrun; apply wp_raise_if; auto.
  destruct pid as [q|]; [|done]. by destruct (existsb _ _).
Qed.

(** What a quote returns: an active code within its limits, and the discount
    computed for it. *)
Lemma validate_and_quote_wp code uid pid ty amount s :
  promos_inv (db s) →
  wp (validate_and_quote code uid pid ty amount)
    (λ q s', db s' = db s ∧ ∃ p,
       promo_codes (db s) !! quote_promo_code_id q = Some p ∧
       promo_code p = upper code ∧ promo_is_active p = true ∧
       (∀ m, max_activations p = Some m →
          Z.of_nat (length (activations_of (promo_id p) (db s))) < m) ∧
       Z.of_nat (length (filter (λ a, activation_of (promo_id p) uid a = true)
                           (promo_activations (db s)))) < max_per_user p ∧
       quote_discount_rub q = _compute_discount p amount ∧
       quote_amount_after q = Z.max 0 (amount - quote_discount_rub q))
    (λ e s', is_PromoError e = true ∧ db s' = db s) s.
Proof.
  intros Hinv. unfold validate_and_quote.
  destruct (get_by_code_run code s Hinv) as (o & Hrun & Ho).
  apply wp_bind. unfold wp at 1. rewrite Hrun. clear Hrun.
  destruct o as [p|]; [|done]. destruct Ho as [Hp Hcode].
  apply wp_bind, wp_raise_if; [done|]. intros Hact. apply negb_false_iff in Hact.
  apply wp_bind, wp_utcnow.
  do 5 (apply wp_bind, wp_raise_if; [done|]; intros _).
  apply wp_bind. eapply wp_mono; [apply check_audience_wp| |by intros].
  cbn [db]. intros _ s1 Hdb.
  apply wp_bind, wp_raise_if; [done|]. intros Hmax.
  apply wp_bind. cbn. rewrite !Hdb.
  apply wp_bind, wp_raise_if; [done|]. intros Huse. apply Z.leb_gt in Huse.
  apply wp_ret. split; [done|]. exists p. cbn.
  split_and!; try done.
  intros m Hm. rewrite Hm in Hmax. rewrite <-(pr_count _ _ (pi_rows _ Hinv _ _ Hp)). lia.
Qed.

(** On a well-formed database a quote, whatever code is asked for, leaves
    the database alone and fails only with a promo error.  When it succeeds the
    quoted code is stored and active, its limits are not reached, and for a
    percentage of at most one hundred the discount lies between zero and the
    amount and is exactly what is taken off. *)
Theorem quote_sound code uid pid ty amount s :
  promos_inv (db s) → 0 ≤ amount →
  wp (validate_and_quote code uid pid ty amount)
    (λ q s', db s' = db s ∧ ∃ p,
       promo_codes (db s) !! quote_promo_code_id q = Some p ∧
       promo_code p = upper code ∧ promo_is_active p = true ∧
       (∀ m, max_activations p = Some m →
          Z.of_nat (length (activations_of (promo_id p) (db s))) < m) ∧
       Z.of_nat (length (filter (λ a, activation_of (promo_id p) uid a = true)
                           (promo_activations (db s)))) < max_per_user p ∧
       (percent_bounded p → 0 ≤ quote_discount_rub q ≤ amount ∧
          quote_amount_after q = amount - quote_discount_rub q))
    (λ e s', is_PromoError e = true ∧ db s' = db s) s.
Proof.
  intros Hinv Ha. eapply wp_mono; [by apply validate_and_quote_wp| |by intros]. cbn beta.
  intros q s' (Hdb & p & Hp & Hcode & Hact & Hmax & Huse & Hdisc & Hafter).
  split; [done|]. exists p. split_and!; [done..|]. intros Hpct.
  pose proof (compute_discount_bounds p amount
    (pr_value _ _ (pi_rows _ Hinv _ _ Hp)) Hpct Ha). lia.
Qed.

(** ** The invariant *)

Lemma unique_on_None {R} name (m : gmap Z R) id agree r :
  unique_on name m id agree None r = None → clashes m id agree r = false.
Proof. unfold unique_on, unique. by destruct (clashes _ _ _ _). Qed.

Lemma promo_check_same_code d o p :
  promo_code p = promo_code o → t_check promos_tbl d (Some o) p = None.
Proof. intros H. cbn. unfold unique_on, unique. by rewrite H, String.eqb_refl. Qed.

(** A row rewritten in place, the activations extended by [l]. *)
Lemma promos_inv_rewrite d p p' l :
  promos_inv d → promo_codes d !! promo_id p = Some p →
  promo_id p' = promo_id p → promo_code p' = promo_code p →
  0 < discount_value p' → 0 < max_per_user p' →
  Forall (λ a, pa_promo_code_id a = promo_id p) l →
  activation_count p' = activation_count p + Z.of_nat (length l) →
  promos_inv (put promos_tbl p' (set_promo_activations (promo_activations d ++ l) d)).
Proof.
  intros Hinv Hp Hid Hcode Hval Hper Hl Hcnt.
  assert (Hfl : filter (λ a, pa_promo_code_id a = promo_id p) l = l).
  { by apply filter_all. }
  assert (Hother : ∀ j, j ≠ promo_id p → filter (λ a, pa_promo_code_id a = j) l = []).
  { intros j Hj. apply filter_empty. intros a Ha.
    rewrite Forall_forall in Hl. rewrite (Hl a Ha). congruence. }
  assert (Hlook : ∀ i q, <[promo_id p' := p']> (promo_codes d) !! i = Some q →
    ∃ q0, promo_codes d !! i = Some q0 ∧ promo_code q0 = promo_code q).
  { intros i q. rewrite lookup_insert. case_decide; [|by eauto].
    intros [= <-]. exists p. split; congruence. }
  constructor.
  - apply (keyed_put promos_tbl). exact (pi_keyed _ Hinv).
  - intros i q. cbn. rewrite lookup_insert. case_decide as Hi.
    + intros [= <-]. pose proof (pi_rows _ Hinv _ _ Hp) as Hrow.
      constructor; [rewrite Hcode; apply Hrow|done|done|].
      unfold activations_of. cbn. rewrite Hid, filter_app, Hfl, length_app, Hcnt,
        (pr_count _ _ Hrow). unfold activations_of. lia.
    + intros Hq. pose proof (pi_rows _ Hinv _ _ Hq) as Hrow.
      constructor; try apply Hrow. unfold activations_of. cbn.
      rewrite filter_app, Hother, app_nil_r; [apply Hrow|].
      intros Heq. apply Hi. rewrite Hid, <-Heq. apply (pi_keyed _ Hinv _ _ Hq).
  - intros i j q r Hq Hr Heq.
    destruct (Hlook i q Hq) as (q0 & Hq0 & Eq), (Hlook j r Hr) as (r0 & Hr0 & Er).
    eapply (pi_codes _ Hinv); eauto. congruence.
  - intros a. cbn. rewrite elem_of_app, lookup_insert_is_Some'. intros [Ha|Ha].
    + right. by apply (pi_fk _ Hinv).
    + left. rewrite Forall_forall in Hl. rewrite (Hl a Ha). congruence.
Qed.

Lemma promos_inv_insert d p :
  promos_inv d → promo_codes d !! promo_id p = None →
  t_check promos_tbl d None p = None →
  upper (promo_code p) = promo_code p → 0 < discount_value p → 0 < max_per_user p →
  activation_count p = 0 →
  promos_inv (put promos_tbl p d).
Proof.
  intros Hinv Hnew Hchk Hup Hval Hper Hcnt.
  assert (Hclash : ∀ i q, promo_codes d !! i = Some q → promo_code q ≠ promo_code p).
  { intros i q Hq Heq. apply unique_on_None in Hchk.
    pose proof (proj1 (clashes_false _ _ _ _) Hchk i q Hq) as Hc.
    rewrite (pi_keyed _ Hinv i q Hq : promo_id q = i), Heq, String.eqb_refl in Hc.
    assert (i ≠ promo_id p) by congruence. by specialize (Hc H). }
  constructor.
  - apply (keyed_put promos_tbl). exact (pi_keyed _ Hinv).
  - intros i q. cbn. rewrite lookup_insert. case_decide as Hi.
    + intros [= <-]. constructor; [done..|]. rewrite Hcnt. unfold activations_of. cbn.
      enough (filter (λ a, pa_promo_code_id a = promo_id p) (promo_activations d) = []) as -> by done.
      apply filter_empty. intros a Ha%(pi_fk _ Hinv) Heq.
      rewrite Heq, Hnew in Ha. by destruct Ha.
    + intros Hq. by destruct (pi_rows _ Hinv _ _ Hq).
  - intros i j q r. cbn. rewrite !lookup_insert.
    repeat case_decide; intros Hq Hr Heq; simplify_eq; try done.
    + exfalso. by eapply Hclash.
    + exfalso. by eapply Hclash.
    + by eapply (pi_codes _ Hinv).
  - intros a. cbn. rewrite lookup_insert_is_Some'. intros Ha. right. by apply (pi_fk _ Hinv).
Qed.

Lemma promos_inv_delete d pid :
  promos_inv d →
  promos_inv (set_promo_activations (filter (λ a, pa_promo_code_id a ≠ pid) (promo_activations d))
    (set_orders (clear_order_promo pid <$> orders d)
       (set_promo_codes (delete pid (promo_codes d)) d))).
Proof.
  intros Hinv.
  assert (Hd : ∀ i q, delete pid (promo_codes d) !! i = Some q →
             promo_codes d !! i = Some q ∧ i ≠ pid).
  { intros i q [Hne Hq]%lookup_delete_Some. split; [done|congruence]. }
  constructor; cbn.
  - intros i q [Hq _]%Hd. by apply (pi_keyed _ Hinv).
  - intros i q [Hq Hne]%Hd. destruct (pi_rows _ Hinv _ _ Hq) as [? ? ? Hc].
    constructor; try done. rewrite Hc. unfold activations_of. cbn.
    rewrite list_filter_filter. f_equal. f_equal. apply list_filter_iff.
    intros a. rewrite (pi_keyed _ Hinv i q Hq : promo_id q = i). split; [|tauto].
    intros ->. done.
  - intros i j q r [Hq _]%Hd [Hr _]%Hd. by eapply (pi_codes _ Hinv).
  - intros a [Hne Ha]%list_elem_of_filter. rewrite lookup_delete_ne by congruence.
    by apply (pi_fk _ Hinv).
Qed.

(** A request keeps the invariant when the handler, run to the end, does. *)
Lemma request_keeps {A} (I : database → Prop) (m : SM A) s :
  I (db s) → wp m (λ _ s', I (db s')) (λ _ _, True) s → I (db (run_request m s).2).
Proof. unfold wp, run_request. by destruct (m s) as [[] ?]. Qed.

Lemma record_activation_run pid uid oid b d a s :
  let row := {| pa_id := next_uuid s; pa_promo_code_id := pid; pa_user_id := uid;
                pa_order_id := oid; amount_before := b; discount_applied := d;
                amount_after := a; pa_created_at := clock s (ticks s) |} in
  record_activation pid uid oid b d a s =
  if activation_fk (db s) row then
    match promo_codes (db s) !! pid with
    | Some p =>
        (Ok tt, with_db (λ x, put promos_tbl (bump_activation (touch_promo (clock s (S (ticks s))) p))
                     (set_promo_activations (promo_activations x ++ [row]) x))
                  (tick (tick (issue s))))
    | None => (Raise (IntegrityError "promo_activation_fkey"), tick (issue s))
    end
  else (Raise (IntegrityError "promo_activation_fkey"), tick (issue s)).
Proof.
  intros row. unfold record_activation, insert_activation, mbind at 1, M_bind at 1.
  unfold mbind at 1, M_bind at 1, uuid4. unfold mbind at 1, M_bind at 1, utcnow.
  unfold mbind at 1, M_bind at 1, read, gets. cbn [db clock ticks next_uuid effects].
  fold row. destruct (activation_fk (db s) row) eqn:Hfk; [|done].
  assert (is_Some (promo_codes (db s) !! pid)) as [p Hp].
  { apply andb_prop in Hfk as [[Hp _]%andb_prop _]. by apply bool_decide_eq_true in Hp. }
  rewrite Hp. cbn [negb raise_if]. unfold mbind at 1, M_bind at 1, mret, M_ret, write, modify.
  unfold increment_activation, mbind, M_bind. rewrite update_run. cbn [t_rows promos_tbl].
  cbn [with_db db promo_codes set_promo_activations]. rewrite Hp. cbv zeta.
  by rewrite promo_check_same_code.
Qed.

(** Every operation of the promo service, run as a request on inputs that
    passed their schema, keeps the invariant of the promo tables: codes
    upper-cased and unique, positive value and per-user limit, and
    [activation_count] equal to the number of activations recorded. *)
Theorem promos_inv_preserved op s :
  promo_op_valid op = true → promos_inv (db s) →
  promos_inv (db (run_request (run_promo_op op) s).2).
Proof.
  intros Hv Hinv. apply request_keeps; [done|].
  destruct op as [data admin|pid data|pid|pid uid oid b d a]; cbn [run_promo_op promo_op_valid] in *.
  - unfold create_promo.
    destruct (get_by_code_run (pci_code data) s Hinv) as (o & Hrun & Ho).
    do 2 apply wp_bind. unfold wp at 1. rewrite Hrun. clear Hrun.
    apply wp_bind, wp_raise_if; [done|]. intros _.
    unfold wp at 1. rewrite create_run. cbn [t_rows promos_tbl t_id]. cbv zeta.
    destruct (promo_codes (db s) !! _) eqn:Hnew; [done|].
    destruct (t_check promos_tbl (db s) None _) eqn:Hc; [done|]. apply wp_ret. cbn.
    unfold PromoCodeCreateIn_valid in Hv. rewrite !andb_true_iff, !Z.ltb_lt in Hv.
    apply promos_inv_insert; try exact Hc; cbn; try tauto. apply upper_idem.
  - unfold update_promo. do 2 apply wp_bind. apply wp_get_by_id. cbn [t_rows promos_tbl].
    destruct (promo_codes (db s) !! pid) as [p|] eqn:Hp; [|done].
    apply wp_bind, wp_raise_if; [done|]. intros _.
    unfold wp at 1. rewrite update_run. cbn [t_rows promos_tbl]. rewrite Hp. cbv zeta.
    rewrite promo_check_same_code by done. apply wp_ret. cbn [with_db db tick].
    pose proof (pi_rows _ Hinv _ _ Hp) as Hrow.
    assert (Hd : set_promo_activations (promo_activations (db s) ++ []) (db s) = db s)
      by (rewrite app_nil_r; by destruct (db s)).
    match goal with |- promos_inv (put _ _ ?x) => replace x with
      (set_promo_activations (promo_activations (db s) ++ []) (db s)) end.
    rewrite <-(pi_keyed _ Hinv _ _ Hp) in Hp.
    unfold PromoCodeUpdateIn_valid in Hv. rewrite !andb_true_iff in Hv.
    destruct Hv as [[[[Hval _] _] _] Hper].
    apply (promos_inv_rewrite _ p); cbn; try done; try lia.
    + destruct (pcu_discount_value data) as [[]|]; cbn; try apply Hrow. lia.
    + destruct (pcu_max_per_user data) as [[]|]; cbn; try apply Hrow. lia.
  - unfold delete_promo. apply wp_bind, wp_get_by_id. cbn [t_rows promos_tbl].
    destruct (promo_codes (db s) !! pid) as [p|]; [|done].
    exact (promos_inv_delete (db s) pid Hinv).
  - unfold wp. rewrite record_activation_run. cbv zeta.
    destruct (activation_fk _ _) eqn:Hfk; [|done].
    destruct (promo_codes (db s) !! pid) as [p|] eqn:Hp; [|done]. cbn [with_db db].
    pose proof (pi_keyed _ Hinv _ _ Hp) as Hid. cbn in Hid. subst pid.
    pose proof (pi_rows _ Hinv _ _ Hp) as Hrow.
    apply (promos_inv_rewrite _ p); cbn; try done; try apply Hrow. by repeat constructor.
Qed.

(** A quote followed by the recording of its activation in one request, as
    a purchase from the balance does, never takes a code beyond its activation
    limit. *)
Theorem quote_then_record_within_limit code uid pid ty amount oid s m p q s' :
  promos_inv (db s) →
  validate_and_quote code uid pid ty amount s = (Ok q, s') →
  promo_codes (db s) !! quote_promo_code_id q = Some p → max_activations p = Some m →
  wp (record_activation (quote_promo_code_id q) uid oid (quote_amount_before q)
        (quote_discount_rub q) (quote_amount_after q))
    (λ _ s2, Z.of_nat (length (activations_of (quote_promo_code_id q) (db s2))) ≤ m)
    (λ _ s2, db s2 = db s') s'.
Proof.
  intros Hinv Hq Hp Hm.
  pose proof (wp_ok _ _ _ _ _ _ (validate_and_quote_wp code uid pid ty amount s Hinv) Hq)
    as (Hdb & p' & Hp' & _ & _ & Hlim & _).
  rewrite Hp in Hp'. injection Hp' as <-. specialize (Hlim m Hm).
  pose proof (pi_keyed _ Hinv _ _ Hp) as Hid. cbn in Hid. rewrite Hid in Hlim.
  unfold wp. rewrite record_activation_run. cbv zeta. rewrite Hdb.
  destruct (activation_fk _ _); [|done]. rewrite Hp. cbn.
  unfold activations_of in *. cbn. rewrite Hdb, filter_app, length_app.
  rewrite filter_cons_True by done. cbn. lia.
Qed.

(** ** Concrete runs *)

Definition create_percent (v : Z) : PromoCodeCreateIn :=
  {| pci_code := "spring"; pci_description := None; pci_discount_type := PERCENT;
     pci_discount_value := v; pci_max_discount_rub := None; pci_audience := AUDIENCE_ALL;
     pci_plan_ids := None; pci_applies_to := ANY; pci_min_amount_rub := None;
     pci_max_activations := Some 1; pci_max_per_user := 1; pci_starts_at := None;
     pci_expires_at := None |}.

Definition sample_promo : PromoCode :=
  {| promo_id := 7; promo_code := "SPRING"; promo_description := None; discount_type := PERCENT;
     discount_value := 2500; max_discount_rub := None; audience := AUDIENCE_ALL;
     plan_ids := None; applies_to := ANY; min_amount_rub := None; max_activations := Some 1;
     max_per_user := 1; starts_at := None; promo_expires_at := None; activation_count := 0;
     created_by_admin_id := None; promo_is_active := true; promo_created_at := 0;
     promo_updated_at := 0 |}.

Definition promo_db : database :=
  put promos_tbl sample_promo
    (set_users (<[2 := sample_user 2 0]> {[1 := sample_user 1 0]}) empty_db).

Definition set_percent (v : Z) : PromoCodeUpdateIn :=
  {| pcu_description := None; pcu_discount_type := None; pcu_discount_value := Some (Some v);
     pcu_max_discount_rub := None; pcu_audience := None; pcu_plan_ids := None;
     pcu_applies_to := None; pcu_min_amount_rub := None; pcu_max_activations := None;
     pcu_max_per_user := None; pcu_starts_at := None; pcu_expires_at := None;
     pcu_is_active := None |}.

Lemma promos_inv_no_promos d : promo_codes d = ∅ → promo_activations d = [] → promos_inv d.
Proof.
  intros Hp Ha. constructor.
  - intros i r. cbn. by rewrite Hp.
  - intros i p. by rewrite Hp.
  - intros i j p q. by rewrite Hp.
  - intros a. rewrite Ha. by intros ?%not_elem_of_nil.
Qed.

Lemma promo_db_inv : promos_inv promo_db.
Proof. apply promos_inv_insert; try reflexivity. by apply promos_inv_no_promos. Qed.

Definition quote_of (d : database) : outcome exn PromoQuoteOut :=
  (validate_and_quote "spring" 1 None PLAN_PURCHASE 10000 (session_on d 0 100)).1.

Lemma quote_sound_witness :
  quote_of promo_db = Ok {| quote_code := "SPRING"; quote_promo_code_id := 7;
      quote_amount_before := 10000; quote_discount_rub := 2500; quote_amount_after := 7500 |} ∧
  wp (validate_and_quote "spring" 1 None PLAN_PURCHASE 10000)
    (λ q s', db s' = promo_db ∧ ∃ p, promo_codes promo_db !! quote_promo_code_id q = Some p ∧
       promo_code p = "SPRING"%string)
    (λ e s', is_PromoError e = true) (session_on promo_db 0 100).
Proof.
  split; [vm_compute; reflexivity|].
  eapply wp_mono; [apply (quote_sound "spring" 1 None PLAN_PURCHASE 10000 (session_on promo_db 0 100));
    [exact promo_db_inv|lia]| |].
  - intros q s' (Hdb & p & Hp & Hc & _). split; [exact Hdb|]. exists p. split; [exact Hp|].
    rewrite Hc. reflexivity.
  - intros e s' [H _]. exact H.
Defined.

Lemma promos_inv_preserved_witness :
  promos_inv (db (run_request (run_promo_op (OpUpdate 7 (set_percent 5000)))
                    (session_on promo_db 0 100)).2).
Proof.
  apply (promos_inv_preserved (OpUpdate 7 (set_percent 5000)) (session_on promo_db 0 100));
    [reflexivity|exact promo_db_inv].
Defined.

Lemma quote_then_record_within_limit_witness :
  let q := {| quote_code := "SPRING"; quote_promo_code_id := 7; quote_amount_before := 10000;
              quote_discount_rub := 2500; quote_amount_after := 7500 |} in
  wp (record_activation 7 1 None 10000 2500 7500)
    (λ _ s2, Z.of_nat (length (activations_of 7 (db s2))) ≤ 1)
    (λ _ s2, db s2 = promo_db)
    (validate_and_quote "spring" 1 None PLAN_PURCHASE 10000 (session_on promo_db 0 100)).2.
Proof.
  intros q.
  apply (quote_then_record_within_limit "spring" 1 None PLAN_PURCHASE 10000 None
           (session_on promo_db 0 100) 1 sample_promo q);
    [exact promo_db_inv|reflexivity|reflexivity|reflexivity].
Defined.

(** The update schema accepts a percentage above one hundred, which the
    create schema refuses: the resulting quote takes off more than the order
    costs, so that the activation recorded for it states an amount before the
    discount that nobody was asked to pay. *)
Theorem update_percent_unbounded :
  PromoCodeUpdateIn_valid (set_percent 15000) = true ∧
  PromoCodeCreateIn_valid (create_percent 15000) = false ∧
  quote_of (db (run_request (update_promo 7 (set_percent 15000)) (session_on promo_db 0 100)).2)
  = Ok {| quote_code := "SPRING"; quote_promo_code_id := 7; quote_amount_before := 10000;
          quote_discount_rub := 15000; quote_amount_after := 0 |}.
Proof. split_and!; vm_compute; reflexivity. Qed.

(** The limit is compared when an order is created and not when its payment
    is recorded: two orders quoted for a code with one activation left are both
    recorded, and the code ends above its limit. *)
Theorem pending_orders_exceed_limit :
  let r1 := run_request (record_activation 7 1 None 10000 2500 7500) (session_on promo_db 0 100) in
  let r2 := run_request (record_activation 7 2 None 10000 2500 7500) r1.2 in
  r1.1 = Ok tt ∧ r2.1 = Ok tt ∧
  activation_count <$> promo_codes (db r2.2) !! 7 = Some 2 ∧
  max_activations <$> promo_codes (db r2.2) !! 7 = Some (Some 1).
Proof. cbv zeta. split_and!; vm_compute; reflexivity. Qed.
