(* ===== verification/Ledger.v ===== *)
(** The balance ledger: reading and writing a user's balance and recording the
    transaction, the manual credit and debit of services/billing/service.py,
    and the invariant that ties balances to recorded transactions. *)

From stdpp Require Import base gmap strings list.
From S2P Require Import Prelude Decimal Errors RouteModels BillingModels FleetModels Session Tables.
Local Open Scope Z_scope.

(** * Definitions *)

Definition set_balance (b : Z) (u : User) : User :=
  {| user_id := user_id u; telegram_id := telegram_id u; username := username u;
     balance := b; user_tag := user_tag u; user_description := user_description u;
     terms_accepted := terms_accepted u; terms_accepted_at := terms_accepted_at u;
     referral_code := referral_code u; suppress_marketing := suppress_marketing u;
     user_is_active := user_is_active u; user_created_at := user_created_at u;
     user_updated_at := user_updated_at u |}.

(** [SELECT ... FOR UPDATE]; requests of the model run one after another, so
    the lock itself has no effect. *)
Definition _lock_user (uid : Z) : SM (option User) := get_by_id users_tbl uid.

Definition _update_user_balance (uid new_balance : Z) : SM unit :=
  update_by_id users_tbl uid (set_balance new_balance) ;; mret tt.

(** [TransactionRepository.create]. *)
Definition insert_transaction (mk : Z → Z → BalanceTransaction) : SM BalanceTransaction :=
  id ← uuid4; now ← utcnow;
  write (λ d, set_transactions (transactions d ++ [mk id now]) d) ;; mret (mk id now).

Definition _record_transaction (uid amount after : Z) (ty : TransactionType)
    (oid : option Z) (description : option string) : SM BalanceTransaction :=
  insert_transaction (λ id now,
    {| tx_id := id; tx_user_id := uid; tx_amount := amount; balance_after := after;
       tx_type := ty; tx_order_id := oid; tx_description := description;
       tx_created_at := now |}).

(** The amounts of these inputs are [Decimal]s without a bound on the decimals: rational numbers of
    kopecks. *)
Record BalanceOut := { bo_user_id : Z; bo_balance : rat }.
Record BalanceCreditIn := { bci_amount : rat; bci_description : option string }.
Record BalanceDebitIn := { bdi_amount : rat; bdi_reason : string }.

(** The field bounds of the two inputs. *)
Definition amount_in_range (a : rat) : bool := (0 <? num a) && (num a <=? 9999999999 * den a).

Definition get_balance (uid : Z) : SM BalanceOut :=
  u ← get_by_id users_tbl uid;
  match u with
  | None => raise (OrderNotFound "User not found")
  | Some u => mret {| bo_user_id := user_id u; bo_balance := rat_of_Z (balance u) |}
  end.

(** [s or "Manual credit"]. *)
Definition or_default (s : option string) (dflt : string) : string :=
  match s with Some s => if nonempty s then s else dflt | None => dflt end.

Definition credit_balance (uid : Z) (data : BalanceCreditIn) : SM BalanceOut :=
  u ← _lock_user uid;
  match u with
  | None => raise (OrderNotFound "User not found")
  | Some u =>
      let new_balance := rat_add (rat_of_Z (balance u)) (bci_amount data) in
      _update_user_balance (user_id u) (to_column new_balance) ;;
      _record_transaction (user_id u) (to_column (bci_amount data)) (to_column new_balance) MANUAL_CREDIT None
        (Some (or_default (bci_description data) "Manual credit")) ;;
      mret {| bo_user_id := user_id u; bo_balance := new_balance |}
  end.

Definition debit_balance (uid : Z) (data : BalanceDebitIn) : SM BalanceOut :=
  u ← _lock_user uid;
  match u with
  | None => raise (OrderNotFound "User not found")
  | Some u =>
      if rat_ltb (rat_of_Z (balance u)) (bdi_amount data)
      then raise (InsufficientBalance "Недостаточно средств на балансе")
      else
        let new_balance := rat_add (rat_of_Z (balance u)) (rat_opp (bdi_amount data)) in
        _update_user_balance (user_id u) (to_column new_balance) ;;
        _record_transaction (user_id u) (to_column (rat_opp (bdi_amount data))) (to_column new_balance) MANUAL_DEBIT None
          (Some (bdi_reason data)) ;;
        mret {| bo_user_id := user_id u; bo_balance := new_balance |}
  end.

(** * The invariant *)

Definition user_txs (uid : Z) (d : database) : list BalanceTransaction :=
  filter (λ t, tx_user_id t = uid) (transactions d).

(** The amounts of manual entries may be finer than the columns. *)
Definition manual (t : BalanceTransaction) : bool :=
  match tx_type t with MANUAL_CREDIT | MANUAL_DEBIT => true | _ => false end.

(** [balance_after] is the balance before and the amount; with amounts finer than a kopeck
    ([fine]), up to one kopeck in a manual entry. *)
Definition carries (fine : bool) (t : BalanceTransaction) (before : Z) : Prop :=
  if fine && manual t then Z.abs (balance_after t - (before + tx_amount t)) ≤ 1
  else balance_after t = before + tx_amount t.

(** The entries lead from [acc] to [total]. *)
Fixpoint running (fine : bool) (acc : Z) (l : list BalanceTransaction) (total : Z) : Prop :=
  match l with
  | [] => total = acc
  | t :: l => carries fine t acc ∧ running fine (balance_after t) l total
  end.

(** Every user's balance is what the transactions recorded for them lead to, and each
    transaction carries the balance it led to. *)
Definition ledger_upto (fine : bool) (d : database) : Prop :=
  keyed users_tbl d ∧
  ∀ uid u, users d !! uid = Some u → running fine 0 (user_txs uid d) (balance u).
Notation ledger_ok := (ledger_upto false).

Definition ledger_kept (d d' : database) : Prop := ledger_ok d → ledger_ok d'.
#[export] Instance ledger_kept_preorder : PreOrder ledger_kept.
Proof. unfold ledger_kept. split; [by intros d|intros d1 d2 d3; auto]. Qed.

Lemma carries_exact fine t b : balance_after t = b + tx_amount t → carries fine t b.
Proof. unfold carries. destruct (fine && manual t); lia. Qed.

Lemma running_app fine acc l t total :
  running fine acc l total → carries fine t total → running fine acc (l ++ [t]) (balance_after t).
Proof.
  revert acc. induction l as [|t' l IH]; intros acc; cbn.
  - intros ->. auto.
  - intros [? ?] ?. auto.
Qed.

Lemma running_fine acc l total : running false acc l total → running true acc l total.
Proof. revert acc. induction l as [|t l IH]; intros acc; cbn; [done|]. intros [H ?]. split; [by apply carries_exact|auto]. Qed.

Lemma total_from acc l :
  foldr (λ t z, tx_amount t + z) acc l = acc + foldr (λ t z, tx_amount t + z) 0 l.
Proof. induction l; cbn; lia. Qed.

(** How far a balance may be from the sum of its entries. *)
Lemma running_drift fine acc l total :
  running fine acc l total →
  Z.abs (total - foldr (λ t z, tx_amount t + z) acc l) ≤
    if fine then Z.of_nat (length (filter (λ t, manual t = true) l)) else 0.
Proof.
  revert acc. induction l as [|t l IH]; intros acc; cbn [running foldr].
  - intros ->. destruct fine; cbn; lia.
  - intros [Hc Hr]. specialize (IH _ Hr). rewrite total_from in *. rewrite filter_cons. unfold carries in Hc.
    destruct fine; cbn [andb] in Hc; [|lia].
    case_decide as Hm; [rewrite Hm in Hc; cbn [length]; lia|]. apply not_true_is_false in Hm. rewrite Hm in Hc. lia.
Qed.

Lemma running_sum acc l total :
  running false acc l total → total = foldr (λ t z, tx_amount t + z) acc l.
Proof. intros H%running_drift. lia. Qed.

(** ** The posting of an entry *)

(** Balance update followed by the transaction: the pair of statements every
    balance operation consists of. *)
Definition posted (u : User) (nb now : Z) (t : BalanceTransaction) (d : database) : database :=
  set_transactions (transactions d ++ [t])
    (set_users (<[user_id u := set_balance nb (touch_user now u)]> (users d)) d).

Lemma users_check_same_keys d o u :
  telegram_id u = telegram_id o → referral_code u = referral_code o →
  t_check users_tbl d (Some o) u = None.
Proof.
  intros Ht Hr. cbn. unfold unique_on, unique.
  rewrite Ht, Z.eqb_refl, bool_decide_true by congruence. done.
Qed.

Lemma update_user_balance_run uid u nb s :
  users (db s) !! uid = Some u →
  _update_user_balance uid nb s =
  (Ok tt, with_db (λ d, set_users (<[user_id u := set_balance nb (touch_user (clock s (ticks s)) u)]>
                                     (users d)) d) (tick s)).
Proof.
  intros Hu. unfold _update_user_balance, mbind, M_bind. rewrite update_run.
  cbn [t_rows users_tbl]. rewrite Hu. cbv zeta.
  rewrite users_check_same_keys by done. done.
Qed.

Lemma posting_run {A} uid u nb amount ty oid desc (k : SM A) s :
  users (db s) !! uid = Some u →
  let now := clock s (ticks s) in
  let t := {| tx_id := next_uuid s; tx_user_id := user_id u; tx_amount := amount;
              balance_after := nb; tx_type := ty; tx_order_id := oid;
              tx_description := desc; tx_created_at := clock s (S (ticks s)) |} in
  (_update_user_balance uid nb ;;
   _record_transaction (user_id u) amount nb ty oid desc ;; k) s =
  k (with_db (posted u nb now t) (tick (issue (tick s)))).
Proof.
  intros Hu now t. unfold mbind at 1, M_bind at 1.
  rewrite (update_user_balance_run uid u) by done. done.
Qed.

Lemma posted_carries fine u nb now t d :
  users d !! user_id u = Some u → tx_user_id t = user_id u →
  balance_after t = nb → carries fine t (balance u) →
  ledger_upto fine d → ledger_upto fine (posted u nb now t d).
Proof.
  intros Hu Ht Hafter Hnb [Hk Hl]. split.
  { intros i r. cbn. rewrite lookup_insert. case_decide; [intros [= <-]; done|apply Hk]. }
  intros uid v. cbn. unfold user_txs. cbn. rewrite filter_app, lookup_insert.
  case_decide as Huid.
  - intros [= <-]. subst uid. rewrite filter_cons_True, filter_nil by done. cbn.
    rewrite <-Hafter. apply (running_app _ _ _ _ (balance u)); [by apply Hl|done].
  - intros Hv. rewrite filter_cons_False, filter_nil, app_nil_r by congruence. by apply Hl.
Qed.

Lemma posted_ledger fine u nb now t d :
  users d !! user_id u = Some u → tx_user_id t = user_id u →
  balance_after t = nb → nb = balance u + tx_amount t →
  ledger_upto fine d → ledger_upto fine (posted u nb now t d).
Proof. intros ???->. by apply posted_carries, carries_exact. Qed.

Lemma posted_other_users u nb now t d v :
  v ≠ user_id u → users (posted u nb now t d) !! v = users d !! v.
Proof. intros. cbn. by rewrite lookup_insert_ne. Qed.

(** ** Rules for the services *)

(** The tables the ledger is about. *)
Definition money (d : database) : gmap Z User * list BalanceTransaction :=
  (users d, transactions d).

Lemma ledger_same_money fine d d' : same money d d' → ledger_upto fine d → ledger_upto fine d'.
Proof.
  unfold same, money, ledger_upto, keyed, user_txs. cbn. by intros [= -> ->].
Qed.

(** A statement that does not touch the tables [f] looks at. *)
Lemma wp_frame {A B} (f : database → B) (m : SM A) s (I : B → Prop) :
  keeps (on_db (same f)) m → I (f (db s)) →
  wp m (λ _ s', I (f (db s'))) (λ _ s', I (f (db s'))) s.
Proof.
  intros Hk HI. specialize (Hk s). unfold on_db, same in Hk. unfold wp.
  destruct (m s) as [[] ?]; cbn in *; by rewrite Hk.
Qed.

Lemma wp_posting {A} uid u nb amount ty oid desc (k : SM A) Q R s :
  users (db s) !! uid = Some u → user_id u = uid →
  (let now := clock s (ticks s) in
   let t := {| tx_id := next_uuid s; tx_user_id := uid; tx_amount := amount;
               balance_after := nb; tx_type := ty; tx_order_id := oid;
               tx_description := desc; tx_created_at := clock s (S (ticks s)) |} in
   wp k Q R (with_db (posted u nb now t) (tick (issue (tick s))))) →
  wp (_update_user_balance uid nb ;; _record_transaction uid amount nb ty oid desc ;; k) Q R s.
Proof.
  intros Hu Hid Hk. unfold wp.
  pose proof (posting_run uid u nb amount ty oid desc k s Hu) as Hrun.
  cbv zeta in Hrun. rewrite Hid in Hrun. rewrite Hrun. exact Hk.
Qed.

(** A statement keeps [P] from [s]. *)
Definition keeps_from {A} (P : database → database → Prop) (m : SM A) (s : session) : Prop :=
  P (db s) (db (m s).2).

Lemma keeps_from_wp {A} P (m : SM A) s :
  wp m (λ _ s', P (db s) (db s')) (λ _ s', P (db s) (db s')) s → keeps_from P m s.
Proof. unfold wp, keeps_from. by destruct (m s) as [[] ?]. Qed.

(** *** Frames of the balance statements *)

Section LedgerFrames.
Context {B : Type} (f : database → B).

Lemma keeps_update_balance uid nb :
FrameOn f users_tbl → keeps (on_db (same f)) (_update_user_balance uid nb).
Proof. intros. unfold _update_user_balance. keeps_tac. Qed.

Lemma keeps_record_transaction uid amount nb ty oid desc :
(∀ x d, f (set_transactions x d) = f d) →
keeps (on_db (same f)) (_record_transaction uid amount nb ty oid desc).
Proof.
intros Htx. unfold _record_transaction, insert_transaction. keeps_tac.
apply keeps_write; [apply _|]. intros d. apply Htx.
Qed.
End LedgerFrames.

#[export] Hint Extern 2 (keeps (on_db (same _)) (_update_user_balance _ _)) =>
  (apply keeps_update_balance; apply _) : keeps.
#[export] Hint Extern 2 (keeps (on_db (same _)) (_record_transaction _ _ _ _ _ _)) =>
  (apply keeps_record_transaction; first [assumption|intros; reflexivity]) : keeps.
#[export] Hint Unfold _lock_user : keeps.

(** ** Manual credit and debit *)

Lemma ledger_user fine d uid u : ledger_upto fine d → users d !! uid = Some u → user_id u = uid.
Proof. intros [Hk _] Hu. by apply Hk. Qed.

(** Amounts in whole kopecks. *)
Definition credit_of (k : Z) (description : option string) : BalanceCreditIn := {| bci_amount := rat_of_Z k; bci_description := description |}.
Definition debit_of (k : Z) (reason : string) : BalanceDebitIn := {| bdi_amount := rat_of_Z k; bdi_reason := reason |}.

Lemma column_whole k : to_column (rat_of_Z k) = k.
Proof. by apply to_column_whole. Qed.
Lemma add_whole b k : to_column (rat_add (rat_of_Z b) (rat_of_Z k)) = b + k.
Proof. unfold rat_add. cbn [num den rat_of_Z]. rewrite to_column_whole by done. lia. Qed.
Lemma sub_whole b k : to_column (rat_add (rat_of_Z b) (rat_opp (rat_of_Z k))) = b - k.
Proof. unfold rat_add, rat_opp. cbn [num den rat_of_Z]. rewrite to_column_whole by done. lia. Qed.
Lemma ltb_whole b k : rat_ltb (rat_of_Z b) (rat_of_Z k) = (b <? k).
Proof. unfold rat_ltb. cbn [num den rat_of_Z]. by rewrite !Z.mul_1_r. Qed.

(** A manual credit or debit of an existing user in whole kopecks posts exactly one
    transaction: the balance moves by the amount, the transaction carries the
    new balance, every other user is untouched, and the ledger stays
    consistent. *)
Theorem credit_balance_posts uid k desc s u :
  ledger_ok (db s) → users (db s) !! uid = Some u →
  wp (credit_balance uid (credit_of k desc))
    (λ out s', to_column (bo_balance out) = balance u + k ∧
       (∃ u', users (db s') !! uid = Some u' ∧ balance u' = balance u + k) ∧
       (∃ t, transactions (db s') = transactions (db s) ++ [t] ∧ tx_user_id t = uid ∧
          tx_amount t = k ∧ balance_after t = balance u + k) ∧
       (∀ v, v ≠ uid → users (db s') !! v = users (db s) !! v) ∧ ledger_ok (db s'))
    (λ _ _, False) s.
Proof.
  intros Hl Hu. pose proof (ledger_user _ _ _ _ Hl Hu) as Hid. unfold credit_balance, _lock_user, credit_of.
  apply wp_bind, wp_get_by_id. cbn [t_rows users_tbl bci_amount bci_description]. rewrite Hu. cbv zeta. rewrite Hid, add_whole.
  apply (wp_posting uid u); [done|done|]. cbv zeta. apply wp_ret. cbn [bo_balance].
  assert (to_column (rat_of_Z k) = k) as Hk by (by apply to_column_whole).
  split_and!; [apply add_whole| | | |].
  - eexists. split; [cbn; rewrite Hid; apply lookup_insert_eq|done].
  - eexists. split; [reflexivity|]. by split_and!.
  - intros v Hv. apply posted_other_users. by rewrite Hid.
  - apply posted_ledger; cbn [tx_user_id balance_after tx_amount]; [by rewrite Hid|done|done|by rewrite Hk|done].
Qed.

(** A manual debit in whole kopecks never drives a balance below zero: it is refused,
    leaving the database alone, when the balance is below the amount, and
    otherwise posts the amount and leaves the ledger consistent. *)
Theorem debit_balance_guarded uid k reason s u :
  ledger_ok (db s) → users (db s) !! uid = Some u →
  wp (debit_balance uid (debit_of k reason))
    (λ out s', k ≤ balance u ∧ to_column (bo_balance out) = balance u - k ∧
       (∃ u', users (db s') !! uid = Some u' ∧ balance u' = balance u - k) ∧ ledger_ok (db s'))
    (λ e s', balance u < k ∧ db s' = db s ∧
       e = InsufficientBalance "Недостаточно средств на балансе") s.
Proof.
  intros Hl Hu. pose proof (ledger_user _ _ _ _ Hl Hu) as Hid. unfold debit_balance, _lock_user, debit_of.
  apply wp_bind, wp_get_by_id. cbn [t_rows users_tbl bdi_amount bdi_reason]. rewrite Hu, ltb_whole.
  destruct (Z.ltb_spec (balance u) k); [by apply wp_raise|].
  cbv zeta. rewrite Hid, sub_whole.
  assert (to_column (rat_opp (rat_of_Z k)) = - k) as Hk by (by apply to_column_whole).
  apply (wp_posting uid u); [done|done|]. cbv zeta. apply wp_ret. cbn [bo_balance].
  split_and!; [lia|apply sub_whole| |].
  - eexists. split; [cbn; rewrite Hid; apply lookup_insert_eq|done].
  - apply posted_ledger; cbn [tx_user_id balance_after tx_amount]; [by rewrite Hid|done|done|rewrite Hk; lia|done].
Qed.
