(* ===== verification/Referral.v ===== *)
(** The referral programme (services/referral/service.py,
    services/referral/repository.py): codes, applying a code, and the reward
    credited on the referred user's first paid order. *)

From stdpp Require Import base gmap strings list.
From S2P Require Import Prelude Errors RouteModels BillingModels FleetModels Session Tables Ledger.
Local Open Scope Z_scope.

(** * Repository *)

Definition get_by_referred_user (uid : Z) : SM (option Referral) :=
  l ← select_where referrals_tbl (λ r, referred_user_id r =? uid);
  scalar_one_or_none l.

Definition is_pending (r : Referral) : bool := bool_decide (ref_status r = REFERRAL_PENDING).
Definition is_rewarded (r : Referral) : bool := bool_decide (ref_status r = REFERRAL_REWARDED).

Definition get_pending_by_referred_user (uid : Z) : SM (option Referral) :=
  l ← select_where referrals_tbl (λ r, (referred_user_id r =? uid) && is_pending r);
  scalar_one_or_none l.

Definition count_by_referrer (uid : Z) : SM Z :=
  l ← select_where referrals_tbl (λ r, referrer_user_id r =? uid);
  mret (Z.of_nat (length l)).

Definition count_rewarded_by_referrer (uid : Z) : SM Z :=
  l ← select_where referrals_tbl (λ r, (referrer_user_id r =? uid) && is_rewarded r);
  mret (Z.of_nat (length l)).

Definition sum_rewards_by_referrer (uid : Z) : SM Z :=
  l ← select_where referrals_tbl (λ r, (referrer_user_id r =? uid) && is_rewarded r);
  mret (foldr Z.add 0 (reward_amount <$> l)).

(** * Service *)

(** [ReferralConfig]; rewards are whole rubles. *)
Record ReferralConfig := {
  ref_enabled : bool;
  reward_rub : Z;
  referred_reward_rub : Z;
  bot_username : string;
}.

Record BotReferralInfoOut := {
  ri_referral_code : string;
  ri_referral_link : string;
  ri_total_invited : Z;
  ri_total_rewarded : Z;
  ri_total_earned_rub : Z;
  ri_reward_per_referral_rub : Z;
}.

Definition set_referral_code (code : string) (u : User) : User :=
  {| user_id := user_id u; telegram_id := telegram_id u; username := username u;
     balance := balance u; user_tag := user_tag u; user_description := user_description u;
     terms_accepted := terms_accepted u; terms_accepted_at := terms_accepted_at u;
     referral_code := Some code; suppress_marketing := suppress_marketing u;
     user_is_active := user_is_active u; user_created_at := user_created_at u;
     user_updated_at := user_updated_at u |}.

Definition has_code (code : string) (u : User) : bool := sql_eqb (referral_code u) (Some code).

Definition get_by_referral_code (code : string) : SM (option User) :=
  l ← select_where users_tbl (has_code code);
  scalar_one_or_none l.

Section Service.
(** [secrets.choice] over the 36 letters and digits: the eight characters drawn
  with the [n]-th use of the random source, and one more character. *)
Context (random_code random_char : Z → string) (settings : ReferralConfig).

Definition _generate_code : SM string := n ← uuid4; mret (random_code n).

(** [for _ in range(tries): ... break ... else: ...]. *)
Fixpoint draw_code (tries : nat) : SM string :=
match tries with
| O => code ← _generate_code; n ← uuid4; mret (code +:+ random_char n)
| S tries =>
    code ← _generate_code;
    existing ← get_by_referral_code code;
    match existing with None => mret code | Some _ => draw_code tries end
end.

Definition get_or_create_code (user : User) : SM string :=
let current := default "" (referral_code user) in
if nonempty current then mret current else
code ← draw_code 5;
update_by_id users_tbl (user_id user) (set_referral_code code) ;;
mret code.

Definition get_referral_info (user : User) : SM BotReferralInfoOut :=
code ← get_or_create_code user;
invited ← count_by_referrer (user_id user);
rewarded ← count_rewarded_by_referrer (user_id user);
earned ← sum_rewards_by_referrer (user_id user);
let link := if nonempty (bot_username settings)
            then "https://t.me/" +:+ bot_username settings +:+ "?start=ref_" +:+ code else "" in
mret {| ri_referral_code := code; ri_referral_link := link; ri_total_invited := invited;
        ri_total_rewarded := rewarded; ri_total_earned_rub := earned;
        ri_reward_per_referral_rub := 100 * reward_rub settings |}.

Definition apply_referral (referred_user : User) (code : string) : SM unit :=
raise_if (negb (ref_enabled settings)) (ReferralNotEnabled "Referral program is disabled") ;;
referrer ← get_by_referral_code code;
match referrer with
| None => raise (ReferralCodeNotFound ("Code " +:+ code +:+ " not found"))
| Some referrer_user =>
    raise_if (user_id referrer_user =? user_id referred_user)
      (SelfReferralNotAllowed "Cannot refer yourself") ;;
    existing ← get_by_referred_user (user_id referred_user);
    raise_if (bool_decide (is_Some existing)) (AlreadyReferred "User already has a referrer") ;;
    create referrals_tbl (λ id _,
      {| ref_id := id; referrer_user_id := user_id referrer_user;
         referred_user_id := user_id referred_user; ref_status := REFERRAL_PENDING;
         reward_amount := 0; referred_reward_amount := 0; rewarded_at := None |}) ;;
    mret tt
end.

Definition _credit_user (uid amount : Z) (ty : TransactionType) (description : string) : SM unit :=
u ← _lock_user uid;
match u with
| None => mret tt
| Some u =>
    let new_balance := balance u + amount in
    _update_user_balance uid new_balance ;;
    _record_transaction uid amount new_balance ty None (Some description) ;;
    mret tt
end.

(** A paid order that counts: not free and not a top-up. *)
Definition counts_as_paid (uid : Z) (o : PaymentOrder) : bool :=
(order_user_id o =? uid) &&
(bool_decide (order_status o = PAID) || bool_decide (order_status o = COMPLETED)) &&
negb (bool_decide (order_provider o = FREE)) && negb (bool_decide (order_type o = TOP_UP)).

Definition reward_referral (amount referred_amount now : Z) (r : Referral) : Referral :=
{| ref_id := ref_id r; referrer_user_id := referrer_user_id r;
   referred_user_id := referred_user_id r; ref_status := REFERRAL_REWARDED;
   reward_amount := amount; referred_reward_amount := referred_amount;
   rewarded_at := Some now |}.

Definition process_reward_if_eligible (uid : Z) : SM unit :=
if negb (ref_enabled settings) then mret tt else
referral ← get_pending_by_referred_user uid;
match referral with
| None => mret tt
| Some referral =>
    paid_orders ← select_where orders_tbl (counts_as_paid uid);
    if Nat.ltb 1 (length paid_orders) then mret tt else
    now ← utcnow;
    let reward := 100 * reward_rub settings in
    let referred_reward := 100 * referred_reward_rub settings in
    when (0 <? reward)
      (_credit_user (referrer_user_id referral) reward REFERRAL_REWARD
         "Referral reward for inviting user" ;;
       referrer ← get_by_id users_tbl (referrer_user_id referral);
       match referrer with
       | Some u => emit (NotifyReferralReward (telegram_id u) (reward_rub settings))
       | None => mret tt
       end) ;;
    when (0 <? referred_reward)
      (_credit_user (referred_user_id referral) referred_reward REFERRAL_BONUS
         "Bonus for joining via referral link") ;;
    update_by_id referrals_tbl (ref_id referral)
      (reward_referral reward referred_reward now) ;;
    mret tt
end.
End Service.

(** * Theorems *)

(** What the tables maintain: each user was referred at most once and not by
    themselves. *)
Record referrals_inv (d : database) : Prop := {
  ri_keyed : keyed referrals_tbl d;
  ri_unique i j r q : referrals d !! i = Some r → referrals d !! j = Some q →
    referred_user_id r = referred_user_id q → i = j;
  ri_no_self i r : referrals d !! i = Some r → referrer_user_id r ≠ referred_user_id r;
}.

Section Props.
Context (random_code random_char : Z → string) (settings : ReferralConfig).

(** ** Frames *)

Lemma keeps_credit_user {B} (f : database → B) uid amount ty desc :
FrameOn f users_tbl → (∀ x d, f (set_transactions x d) = f d) →
keeps (on_db (same f)) (_credit_user uid amount ty desc).
Proof.
intros Hu Ht. unfold _credit_user, _lock_user. keeps_tac.
Qed.

Lemma process_reward_frame {B} (f : database → B) uid :
FrameOn f users_tbl → FrameOn f referrals_tbl → (∀ x d, f (set_transactions x d) = f d) →
keeps (on_db (same f)) (process_reward_if_eligible settings uid).
Proof.
intros Hu Hr Ht. unfold process_reward_if_eligible, get_pending_by_referred_user.
keeps_tac; by apply keeps_credit_user.
Qed.

(** ** The ledger *)

Lemma credit_user_ledger uid amount ty desc :
keeps (on_db ledger_kept) (_credit_user uid amount ty desc).
Proof.
intros s. apply (keeps_from_wp ledger_kept). unfold _credit_user, _lock_user.
apply wp_bind, wp_get_by_id. cbn [t_rows users_tbl].
destruct (users (db s) !! uid) as [u|] eqn:Hu; [|apply wp_ret; done].
destruct (decide (user_id u = uid)) as [Hid|Hid].
- apply (wp_posting uid u); [done|done|]. apply wp_ret. intros Hl.
  apply posted_ledger; cbn; [by rewrite Hid|done|done|done|done].
- unfold wp, ledger_kept. assert (ledger_ok (db s) → False) as Hno.
  { intros Hl. by apply Hid, (ledger_user false (db s)). }
  case_match; case_match; tauto.
Qed.

Lemma process_reward_ledger uid :
keeps (on_db ledger_kept) (process_reward_if_eligible settings uid).
Proof.
assert (Hup : ∀ i g, keeps (on_db ledger_kept) (update_by_id referrals_tbl i g)).
{ intros i g. apply keeps_update; [apply _|]. intros. unfold ledger_kept. by apply ledger_same_money. }
unfold process_reward_if_eligible, get_pending_by_referred_user.
pose proof credit_user_ledger. keeps_tac.
Qed.

(** ** Rewards *)

Definition pending_for (uid : Z) (r : Referral) : bool :=
(referred_user_id r =? uid) && is_pending r.

Lemma get_pending_run uid s :
referrals_inv (db s) →
∃ o, get_pending_by_referred_user uid s = (Ok o, s) ∧
  match o with
  | Some r => referrals (db s) !! ref_id r = Some r ∧ pending_for uid r = true
  | None => ∀ i r, referrals (db s) !! i = Some r → pending_for uid r = false
  end.
Proof.
intros Hinv. apply (select_unique_run referrals_tbl); [apply Hinv|].
cbn. intros i j r q Hr Hq [Er%Z.eqb_eq _]%andb_prop [Eq%Z.eqb_eq _]%andb_prop.
eapply (ri_unique _ Hinv); eauto. congruence.
Qed.

(** Nothing to do: the run leaves the database alone. *)
Lemma process_reward_idle uid s :
(∀ i r, referrals (db s) !! i = Some r → pending_for uid r = false) → referrals_inv (db s) →
db (process_reward_if_eligible settings uid s).2 = db s.
Proof.
intros Hno Hinv. unfold process_reward_if_eligible. destruct (negb _); [done|].
destruct (get_pending_run uid s Hinv) as (o & Hrun & Ho).
unfold mbind at 1, M_bind at 1. rewrite Hrun.
destruct o as [r|]; [|done]. destruct Ho as [Hr Hp]. by rewrite (Hno _ _ Hr) in Hp.
Qed.

(** Crediting never fails and touches only the money tables. *)
Lemma credit_user_wp uid amount ty desc s :
wp (_credit_user uid amount ty desc)
  (λ _ s', referrals (db s') = referrals (db s) ∧ orders (db s') = orders (db s)) (λ _ _, False) s.
Proof.
unfold _credit_user, _lock_user. apply wp_bind, wp_get_by_id. cbn [t_rows users_tbl].
destruct (users (db s) !! uid) as [u|] eqn:Hu; [|done].
apply wp_bind. unfold wp at 1. by rewrite (update_user_balance_run uid u).
Qed.

(** A run that finds the pending referral and no earlier paid order marks it
  rewarded; otherwise it leaves the database alone.  It never fails. *)
Lemma process_reward_marks uid s :
referrals_inv (db s) →
wp (process_reward_if_eligible settings uid)
  (λ _ s', db s' = db s ∨
     ∃ r now, referrals (db s) !! ref_id r = Some r ∧ pending_for uid r = true ∧
       referrals (db s') = <[ref_id r := reward_referral (100 * reward_rub settings)
                               (100 * referred_reward_rub settings) now r]> (referrals (db s)))
  (λ _ _, False) s.
Proof.
intros Hinv. unfold process_reward_if_eligible. destruct (negb _); [by left|].
destruct (get_pending_run uid s Hinv) as (o & Hrun & Ho).
apply wp_bind. unfold wp at 1. rewrite Hrun.
destruct o as [r|]; [|by left]. destruct Ho as [Hr Hp].
apply wp_bind, wp_select. destruct (Nat.ltb _ _); [by left|].
apply wp_bind, wp_utcnow. cbv zeta.
set (s1 := {| db := db s |}).
assert (Hm : ∀ c (m : SM unit) s', (∀ s', wp m (λ _ s2, referrals (db s2) = referrals (db s')) (λ _ _, False) s') →
  referrals (db s') = referrals (db s) →
  wp (when c m) (λ _ s2, referrals (db s2) = referrals (db s)) (λ _ _, False) s').
{ intros c m s' Hw He. apply wp_when; [|done]. intros _.
  eapply wp_mono; [apply Hw| |done]. cbn. congruence. }
apply wp_bind. eapply wp_mono; [apply Hm; [|done]| |done].
{ intros s'. apply wp_bind. eapply wp_mono; [apply credit_user_wp| |done].
  intros _ s2 [E _]. apply wp_bind, wp_get_by_id.
  destruct (t_rows users_tbl (db s2) !! _); exact E. }
cbn beta. intros _ s2 E2. apply wp_bind. eapply wp_mono; [apply Hm; [|done]| |done].
{ intros s'. eapply wp_mono; [apply credit_user_wp| |done]. by intros ? ? []. }
cbn beta. intros _ s3 E3. apply wp_bind. unfold wp at 1. rewrite update_run.
cbn [t_rows referrals_tbl]. rewrite E3, Hr. cbv zeta. cbn [t_touch].
replace (t_check _ _ _ _) with (@None string)
  by (cbn; unfold unique_on, unique; cbn; by rewrite Z.eqb_refl).
apply wp_ret. right. exists r, (clock s (ticks s)). split_and!; [done|done|].
cbn. by rewrite E3.
Qed.

(** Rewarding in place keeps the invariant. *)
Lemma referrals_inv_reward d d' r a b now :
referrals_inv d → referrals d !! ref_id r = Some r →
referrals d' = <[ref_id r := reward_referral a b now r]> (referrals d) → referrals_inv d'.
Proof.
intros Hinv Hr E.
assert (Hlook : ∀ i q, referrals d' !! i = Some q → ∃ q0, referrals d !! i = Some q0 ∧
  referred_user_id q0 = referred_user_id q ∧ referrer_user_id q0 = referrer_user_id q ∧
  ref_id q0 = ref_id q).
{ intros i q. rewrite E, lookup_insert. case_decide as Hi; [|by eauto 10].
  intros [= <-]. exists r. by rewrite <-Hi. }
constructor.
- intros i q (q0 & Hq & _ & _ & Hid)%Hlook. cbn. rewrite <-Hid. by apply (ri_keyed _ Hinv).
- intros i j q q' (q0 & Hq & Eq & _)%Hlook (q1 & Hq' & Eq' & _)%Hlook Heq.
  eapply (ri_unique _ Hinv); eauto. congruence.
- intros i q (q0 & Hq & Eq & Er & _)%Hlook. rewrite <-Eq, <-Er. by apply (ri_no_self _ Hinv i).
Qed.

(** The referral reward is paid at most once: whatever the first run of the
  reward did, a second run for the same user changes nothing. *)
Theorem reward_paid_once uid s :
referrals_inv (db s) →
let s1 := (process_reward_if_eligible settings uid s).2 in
let s2 := (process_reward_if_eligible settings uid s1).2 in
(db s1 ≠ db s → db s2 = db s1) ∧ referrals_inv (db s1).
Proof.
intros Hinv s1 s2. pose proof (process_reward_marks uid s Hinv) as Hw. unfold wp in Hw.
subst s2 s1. destruct (process_reward_if_eligible settings uid s) as [[[]|] s1]; [|done].
cbn. destruct Hw as [Hdb|(r & now & Hr & Hp & E)].
{ rewrite Hdb. split; [done|exact Hinv]. }
assert (Hinv1 : referrals_inv (db s1)) by (by eapply referrals_inv_reward).
split; [|done]. intros _. apply process_reward_idle; [|done].
intros i q. rewrite E, lookup_insert. case_decide as Hi.
- intros [= <-]. unfold pending_for. cbn. by rewrite andb_false_r.
- intros Hq. apply not_true_iff_false. intros [Eq%Z.eqb_eq _]%andb_prop.
  apply andb_prop in Hp as [Er%Z.eqb_eq _]. apply Hi.
  eapply (ri_unique _ Hinv); eauto. congruence.
Qed.

(** Applying a code creates one pending referral, never of a user by
  themselves and never a second one for the same user, and otherwise fails
  without touching the database; the invariant of the table is kept. *)
Theorem apply_referral_sound user code s :
referrals_inv (db s) → keyed users_tbl (db s) →
wp (apply_referral settings user code)
  (λ _ s', referrals_inv (db s') ∧ (∀ i r, referrals (db s) !! i = Some r →
       referred_user_id r ≠ user_id user) ∧
     ∃ r, referrals (db s') = <[ref_id r := r]> (referrals (db s)) ∧ is_pending r = true ∧
       referred_user_id r = user_id user ∧
       ∃ u, users (db s) !! referrer_user_id r = Some u ∧ referral_code u = Some code)
  (λ _ s', db s' = db s) s.
Proof.
intros Hinv Hku. unfold apply_referral. apply wp_bind, wp_raise_if; [done|]. intros _.
unfold get_by_referral_code. apply wp_bind. apply wp_bind, wp_select. cbn [t_rows users_tbl].
set (l := filter _ _).
destruct l as [|ref [|? ?]] eqn:El; cbn; [done| |done].
assert (Href : ref ∈ l) by (rewrite El; left).
apply list_elem_of_filter in Href as [Hcode [i Hi]%elem_of_rows].
assert (user_id ref = i) as Hid by (by apply (Hku i ref)).
apply wp_bind, wp_raise_if; [done|]. intros Hself%Z.eqb_neq.
destruct (select_unique_run referrals_tbl (λ r, referred_user_id r =? user_id user) s)
  as (o & Hrun & Ho); [apply Hinv| |].
{ cbn. intros i' j r q Hr Hq E1%Z.eqb_eq E2%Z.eqb_eq.
  eapply (ri_unique _ Hinv); eauto. congruence. }
apply wp_bind. unfold wp at 1, get_by_referred_user. rewrite Hrun.
destruct o as [r|]; [by apply wp_bind|]. cbn in Ho.
apply wp_bind, wp_raise_if; [done|]. intros _.
assert (Hnone : ∀ i' r, referrals (db s) !! i' = Some r → referred_user_id r ≠ user_id user).
{ intros i' r Hr. by apply Z.eqb_neq, (Ho i' r). }
apply wp_bind. unfold wp at 1. rewrite create_run. cbn [t_rows referrals_tbl]. cbv zeta.
destruct (referrals (db s) !! _) eqn:Hnew; [done|].
destruct (t_check referrals_tbl _ _ _); [done|]. apply wp_ret. split_and!; [|done|].
- constructor.
  + apply (keyed_put referrals_tbl), Hinv.
  + intros i' j r q. cbn. rewrite !lookup_insert.
    repeat case_decide; intros Hr Hq E; simplify_eq; try done; cbn in *.
    * exfalso. by eapply Hnone.
    * exfalso. by eapply Hnone.
    * by eapply (ri_unique _ Hinv).
  + intros i' r. cbn. rewrite lookup_insert. case_decide; [|by apply (ri_no_self _ Hinv)].
    intros [= <-]. cbn. done.
- eexists. split_and!; [reflexivity|done|done|]. exists ref. cbn. rewrite Hid. split; [done|].
  unfold has_code, sql_eqb in Hcode. destruct (referral_code ref); [|done].
  apply bool_decide_eq_true in Hcode. congruence.
Qed.
End Props.

(** ** Concrete runs *)

Definition sample_settings : ReferralConfig :=
  {| ref_enabled := true; reward_rub := 50; referred_reward_rub := 10; bot_username := "bot" |}.

(** User 1, with a code, referred user 2. *)
Definition referral_db : database :=
  set_referrals {[9 := {| ref_id := 9; referrer_user_id := 1; referred_user_id := 2;
                          ref_status := REFERRAL_PENDING; reward_amount := 0;
                          referred_reward_amount := 0; rewarded_at := None |}]}
    (set_users (<[3 := sample_user 3 0]> (<[2 := sample_user 2 0]>
       {[1 := set_referral_code "abcd" (sample_user 1 0)]})) empty_db).

Lemma referral_db_inv : referrals_inv referral_db.
Proof.
  constructor.
  - apply keyed_by_computation. reflexivity.
  - intros i j r q. cbn. intros [<- _]%lookup_singleton_Some [<- _]%lookup_singleton_Some. done.
  - intros i r. cbn. intros [_ <-]%lookup_singleton_Some. done.
Qed.

Definition rewarded : session :=
  (process_reward_if_eligible sample_settings 2 (session_on referral_db 0 100)).2.

Lemma reward_paid_once_witness :
  balance <$> users (db rewarded) !! 1 = Some 5000 ∧
  db (process_reward_if_eligible sample_settings 2 rewarded).2 = db rewarded.
Proof.
  split; [vm_compute; reflexivity|].
  apply (proj1 (reward_paid_once sample_settings 2 (session_on referral_db 0 100) referral_db_inv)).
  intros E. assert (E1 : balance <$> users (db rewarded) !! 1 = Some 5000) by (vm_compute; reflexivity).
  unfold rewarded in E1. rewrite E in E1. vm_compute in E1. discriminate E1.
Defined.

Lemma apply_referral_sound_witness :
  wp (apply_referral sample_settings (sample_user 3 0) "abcd")
    (λ _ s', referrals_inv (db s')) (λ _ s', db s' = referral_db) (session_on referral_db 0 100) ∧
  (apply_referral sample_settings (sample_user 3 0) "abcd" (session_on referral_db 0 100)).1 = Ok tt.
Proof.
  split; [|vm_compute; reflexivity].
  eapply wp_mono;
    [apply (apply_referral_sound sample_settings (sample_user 3 0) "abcd" (session_on referral_db 0 100));
       [exact referral_db_inv|apply keyed_by_computation; vm_compute; reflexivity]| |].
  - intros u s' [H _]. exact H.
  - intros e s' H. exact H.
Defined.
