(* ===== verification/Plans.v ===== *)
(** Plans and their billing periods (services/plans/service.py,
    services/plans/repository.py, services/plans/schemas.py). *)

From stdpp Require Import base gmap strings list sorting.
From S2P Require Import Prelude Decimal Errors RouteModels BillingModels FleetModels Session Uuid Tables.
Local Open Scope Z_scope.

(** * Schemas *)

Inductive ResetStrategy := NO_RESET | DAY | WEEK | MONTH.
Definition reset_value (r : ResetStrategy) : string :=
  match r with NO_RESET => "NO_RESET" | DAY => "DAY" | WEEK => "WEEK" | MONTH => "MONTH" end.

Record PlanCreateIn := {
  pln_name : string;
  pln_description : option string;
  pln_traffic_limit_bytes : Z;
  pln_reset_strategy : ResetStrategy;
  pln_max_devices : Z;
  pln_included_devices : Z;
  pln_duration_days : Z;
  pln_sort_order : Z;
  pln_whitelist_enabled : bool;
  pln_entry_relay_enabled : bool;
  pln_price_rub : Z;
  pln_device_price_rub : Z;
  pln_price_stars : option Z;
  pln_device_price_stars : option Z;
  pln_periods : option (list PlanPeriod);
}.

(** [PlanPeriodIn]'s bounds. *)
Definition PlanPeriodIn_valid (p : PlanPeriod) : bool :=
  (1 <=? months p) && (months p <=? 36) && (0 <=? period_price_rub p) &&
  match period_price_stars p with Some s => 1 <=? s | None => true end.

(** The [_unique_periods] validator. *)
Definition unique_periods (ps : option (list PlanPeriod)) : bool :=
  match ps with Some l => bool_decide (NoDup (months <$> l)) | None => true end.

Definition periods_valid (ps : option (list PlanPeriod)) : bool :=
  match ps with Some l => forallb PlanPeriodIn_valid l | None => true end && unique_periods ps.

Definition PlanCreateIn_valid (d : PlanCreateIn) : bool :=
  (0 <=? pln_traffic_limit_bytes d) && (1 <=? pln_max_devices d) && (pln_max_devices d <=? 100) &&
  (1 <=? pln_included_devices d) && (pln_included_devices d <=? 100) &&
  (1 <=? pln_duration_days d) && (pln_duration_days d <=? 3650) && (0 <=? pln_sort_order d) &&
  (0 <=? pln_price_rub d) && (0 <=? pln_device_price_rub d) &&
  match pln_price_stars d with Some s => 1 <=? s | None => true end &&
  (pln_included_devices d <=? pln_max_devices d) && periods_valid (pln_periods d).

(** [PlanUpdateIn] dumped with [exclude_unset]: unset, null, or a value. *)
Record PlanUpdateIn := {
  plu_name : option (option string);
  plu_description : option (option string);
  plu_traffic_limit_bytes : option (option Z);
  plu_reset_strategy : option (option ResetStrategy);
  plu_max_devices : option (option Z);
  plu_included_devices : option (option Z);
  plu_duration_days : option (option Z);
  plu_sort_order : option (option Z);
  plu_is_active : option (option bool);
  plu_whitelist_enabled : option (option bool);
  plu_entry_relay_enabled : option (option bool);
  plu_price_rub : option (option Z);
  plu_device_price_rub : option (option Z);
  plu_price_stars : option (option Z);
  plu_device_price_stars : option (option Z);
  plu_periods : option (list PlanPeriod);
}.

Definition PlanUpdateIn_valid (d : PlanUpdateIn) : bool :=
  match plu_price_rub d with Some (Some p) => 0 <=? p | _ => true end &&
  match plu_price_stars d with Some (Some p) => 1 <=? p | _ => true end &&
  periods_valid (plu_periods d).

Record PlanPeriodOut := {
  po_months : Z;
  po_price_rub : Z;
  po_price_stars : option Z;
  savings_pct : option Z;
}.

(** ** Savings *)

(** [round((1 - price / baseline) * 100)]; the quotient and the difference are
    rounded to the 28 digits of the decimal context, the result half to even. *)
Definition savings_round (price baseline : Z) : Z :=
  let q := dec28 {| num := price; den := baseline |} in
  let diff := {| num := den q - num q; den := den q |} in
  if num diff <=? 0 then 0 else
  let r := dec28 diff in round_half_even (num r * 100) (den r).

Definition with_savings (monthly : Z) (p : PlanPeriodOut) : PlanPeriodOut :=
  if po_months p <=? 1 then p else
  let baseline := monthly * po_months p in
  if baseline <=? 0 then p else
  let pct := savings_round (po_price_rub p) baseline in
  {| po_months := po_months p; po_price_rub := po_price_rub p;
     po_price_stars := po_price_stars p; savings_pct := if 0 <? pct then Some pct else None |}.

Definition _compute_savings (ps : list PlanPeriodOut) : list PlanPeriodOut :=
  match find (λ p, po_months p =? 1) ps with
  | None => ps
  | Some m => if po_price_rub m <=? 0 then ps else with_savings (po_price_rub m) <$> ps
  end.

(** * Repository *)

Definition get_by_name (name : string) : SM (option Plan) :=
  l ← select_where plans_tbl (λ p, String.eqb (plan_name p) name);
  scalar_one_or_none l.

(** Lexicographic order on [(sort_order, name)]. *)
Definition plan_le (a b : Plan) : Prop :=
  sort_order a < sort_order b ∨
  (sort_order a = sort_order b ∧ String.leb (plan_name a) (plan_name b) = true).
#[export] Instance plan_le_dec : RelDecision plan_le.
Proof. intros a b. unfold plan_le. apply _. Defined.

Definition list_all (active_only : bool) : SM (list Plan * Z) :=
  l ← select_where plans_tbl (λ p, negb active_only || plan_is_active p);
  mret (merge_sort plan_le l, Z.of_nat (length l)).

(** * Service *)

Definition has_month (m : Z) (l : list PlanPeriod) : bool := existsb (λ p, months p =? m) l.

Definition by_months (a b : PlanPeriod) : Prop := months a ≤ months b.
#[export] Instance by_months_dec : RelDecision by_months.
Proof. intros a b. unfold by_months. apply _. Defined.

(** A [PlanPeriodIn] built by the service is validated like any other. *)
Definition _normalize_periods (ps : option (list PlanPeriod)) (price : option Z)
    (stars : option Z) : res (list PlanPeriod) :=
  let result := default [] ps in
  if has_month 1 result then Ok (merge_sort by_months result)
  else match price with
       | Some p => Ok (merge_sort by_months
                        (result ++ [{| months := 1; period_price_rub := p; period_price_stars := stars |}]))
       | None => Raise (ValidationError "PlanPeriodIn")
       end.

(** The prices the monthly period puts on the plan: [payload["price_rub"]] and
    [payload["price_stars"]], or nothing when there is no monthly period. *)
Definition _apply_monthly_mirror (l : list PlanPeriod) : option (Z * option Z) :=
  (λ p, (period_price_rub p, period_price_stars p)) <$> find (λ p, months p =? 1) l.

Definition set_periods (l : list PlanPeriod) (p : Plan) : Plan :=
  {| plan_id := plan_id p; plan_name := plan_name p; plan_description := plan_description p;
     traffic_limit_bytes := traffic_limit_bytes p; reset_strategy := reset_strategy p;
     plan_max_devices := plan_max_devices p; duration_days := duration_days p;
     sort_order := sort_order p; whitelist_enabled := whitelist_enabled p;
     entry_relay_enabled := entry_relay_enabled p; included_devices := included_devices p;
     price_rub := price_rub p; device_price_rub := device_price_rub p;
     price_stars := price_stars p; device_price_stars := device_price_stars p;
     periods := l; plan_is_active := plan_is_active p;
     plan_created_at := plan_created_at p; plan_updated_at := plan_updated_at p |}.

(** Replace the rows of [plan_period]; the plan row itself is not touched. *)
Definition _replace_periods (pid : Z) (l : list PlanPeriod) : SM unit :=
  write (λ d, set_plans (alter (set_periods l) pid (plans d)) d).

Definition create_plan (data : PlanCreateIn) : SM unit :=
  existing ← get_by_name (pln_name data);
  raise_if (bool_decide (is_Some existing))
    (PlanAlreadyExists ("Plan with name '" +:+ pln_name data +:+ "' already exists")) ;;
  ps ← lift (_normalize_periods (pln_periods data) (Some (pln_price_rub data)) (pln_price_stars data));
  let '(price, stars) := default (pln_price_rub data, pln_price_stars data) (_apply_monthly_mirror ps) in
  plan ← create plans_tbl (λ id now,
    {| plan_id := id; plan_name := pln_name data; plan_description := pln_description data;
       traffic_limit_bytes := pln_traffic_limit_bytes data;
       reset_strategy := reset_value (pln_reset_strategy data);
       plan_max_devices := pln_max_devices data; duration_days := pln_duration_days data;
       sort_order := pln_sort_order data; whitelist_enabled := pln_whitelist_enabled data;
       entry_relay_enabled := pln_entry_relay_enabled data;
       included_devices := pln_included_devices data; price_rub := price;
       device_price_rub := pln_device_price_rub data; price_stars := stars;
       device_price_stars := pln_device_price_stars data; periods := [];
       plan_is_active := true; plan_created_at := now; plan_updated_at := now |});
  _replace_periods (plan_id plan) ps.

(** The value of a NOT NULL column set by the patch; null violates it. *)
Definition sets_null {A} (p : option (option A)) : bool :=
  match p with Some None => true | _ => false end.
Definition set_or {A} (p : option (option A)) (old : A) : A :=
  match p with Some (Some v) => v | _ => old end.

Definition is_set {A} (p : option A) : bool := match p with Some _ => true | None => false end.

Definition any_set (data : PlanUpdateIn) : bool :=
  is_set (plu_name data) || is_set (plu_description data) || is_set (plu_traffic_limit_bytes data) ||
  is_set (plu_reset_strategy data) || is_set (plu_max_devices data) ||
  is_set (plu_included_devices data) || is_set (plu_duration_days data) ||
  is_set (plu_sort_order data) || is_set (plu_is_active data) ||
  is_set (plu_whitelist_enabled data) || is_set (plu_entry_relay_enabled data) ||
  is_set (plu_price_rub data) || is_set (plu_device_price_rub data) ||
  is_set (plu_price_stars data) || is_set (plu_device_price_stars data).

(** [update(Plan).values(...)] with the prices [update_data] ends up
    with. *)
Definition patch_plan (data : PlanUpdateIn) (price : option (option Z))
    (stars : option (option Z)) (p : Plan) : Plan :=
  {| plan_id := plan_id p; plan_name := set_or (plu_name data) (plan_name p);
     plan_description := default (plan_description p) (plu_description data);
     traffic_limit_bytes := set_or (plu_traffic_limit_bytes data) (traffic_limit_bytes p);
     reset_strategy := match plu_reset_strategy data with
                       | Some (Some r) => reset_value r | _ => reset_strategy p end;
     plan_max_devices := set_or (plu_max_devices data) (plan_max_devices p);
     duration_days := set_or (plu_duration_days data) (duration_days p);
     sort_order := set_or (plu_sort_order data) (sort_order p);
     whitelist_enabled := set_or (plu_whitelist_enabled data) (whitelist_enabled p);
     entry_relay_enabled := set_or (plu_entry_relay_enabled data) (entry_relay_enabled p);
     included_devices := set_or (plu_included_devices data) (included_devices p);
     price_rub := set_or price (price_rub p);
     device_price_rub := set_or (plu_device_price_rub data) (device_price_rub p);
     price_stars := default (price_stars p) stars;
     device_price_stars := default (device_price_stars p) (plu_device_price_stars data);
     periods := periods p; plan_is_active := set_or (plu_is_active data) (plan_is_active p);
     plan_created_at := plan_created_at p; plan_updated_at := plan_updated_at p |}.

Definition sets_null_column (data : PlanUpdateIn) (price : option (option Z)) : bool :=
  sets_null (plu_name data) || sets_null (plu_traffic_limit_bytes data) ||
  sets_null (plu_reset_strategy data) || sets_null (plu_max_devices data) ||
  sets_null (plu_included_devices data) || sets_null (plu_duration_days data) ||
  sets_null (plu_sort_order data) || sets_null (plu_is_active data) ||
  sets_null (plu_whitelist_enabled data) || sets_null (plu_entry_relay_enabled data) ||
  sets_null price || sets_null (plu_device_price_rub data).

(** [update_data.get(key, current)]. *)
Definition get_or {A} (p : option (option A)) (current : option A) : option A :=
  match p with Some v => v | None => current end.

Definition update_plan (pid : Z) (data : PlanUpdateIn) : SM unit :=
  found ← get_by_id plans_tbl pid;
  match found with
  | None => raise (PlanNotFound ("Plan " +:+ str_uuid pid +:+ " not found"))
  | Some plan =>
      match plu_name data with
      | Some (Some name) =>
          if String.eqb name (plan_name plan) then mret tt else
          existing ← get_by_name name;
          raise_if (bool_decide (is_Some existing))
            (PlanAlreadyExists ("Plan with name '" +:+ name +:+ "' already exists"))
      | _ => mret tt
      end ;;
      '(price, stars) ←
        match plu_periods data with
        | None => mret (plu_price_rub data, plu_price_stars data)
        | Some _ =>
            ps ← lift (_normalize_periods (plu_periods data)
                         (get_or (plu_price_rub data) (Some (price_rub plan)))
                         (get_or (plu_price_stars data) (price_stars plan)));
            _replace_periods pid ps ;;
            match _apply_monthly_mirror ps with
            | Some (p, s) => mret (Some (Some p), Some s)
            | None => mret (plu_price_rub data, plu_price_stars data)
            end
        end;
      when (any_set data || is_set (plu_periods data))
        (raise_if (sets_null_column data price) (IntegrityError "not null") ;;
         update_by_id plans_tbl pid (patch_plan data price stars) ;; mret tt)
  end.

Definition deactivate_plan (p : Plan) : Plan :=
  {| plan_id := plan_id p; plan_name := plan_name p; plan_description := plan_description p;
     traffic_limit_bytes := traffic_limit_bytes p; reset_strategy := reset_strategy p;
     plan_max_devices := plan_max_devices p; duration_days := duration_days p;
     sort_order := sort_order p; whitelist_enabled := whitelist_enabled p;
     entry_relay_enabled := entry_relay_enabled p; included_devices := included_devices p;
     price_rub := price_rub p; device_price_rub := device_price_rub p;
     price_stars := price_stars p; device_price_stars := device_price_stars p;
     periods := periods p; plan_is_active := false;
     plan_created_at := plan_created_at p; plan_updated_at := plan_updated_at p |}.

Definition delete_plan (pid : Z) : SM unit :=
  found ← get_by_id plans_tbl pid;
  match found with
  | None => raise (PlanNotFound ("Plan " +:+ str_uuid pid +:+ " not found"))
  | Some _ => update_by_id plans_tbl pid deactivate_plan ;; mret tt
  end.

(** * Theorems *)

(** The periods of a plan are strictly ordered by months, and the monthly one
    exists and carries the plan's own prices. *)
Record plan_mirror (p : Plan) : Prop := {
  pm_sorted : StronglySorted (λ a b, months a < months b) (periods p);
  pm_monthly : ∃ m, find (λ q, months q =? 1) (periods p) = Some m ∧
    period_price_rub m = price_rub p ∧ period_price_stars m = price_stars p;
}.

#[local] Instance by_months_total : Total by_months.
Proof. intros a b. unfold by_months. lia. Qed.
#[local] Instance by_months_trans : Transitive by_months.
Proof. intros a b c. unfold by_months. lia. Qed.

Lemma sorted_nodup_strict l :
  StronglySorted by_months l → NoDup (months <$> l) →
  StronglySorted (λ a b, months a < months b) l.
Proof.
  induction 1 as [|p l Hs IH Hall]; [constructor|]. cbn. intros [Hnin Hnd]%NoDup_cons.
  constructor; [auto|]. rewrite Forall_forall in *. intros q Hq. specialize (Hall q Hq).
  unfold by_months in Hall. assert (months p ≠ months q); [|lia].
  intros E. apply Hnin. rewrite E. by apply list_elem_of_fmap_2.
Qed.

Lemma find_some_existsb {A} (f : A → bool) l :
  existsb f l = true → ∃ x, find f l = Some x.
Proof.
  induction l as [|y l IH]; cbn; [done|]. destruct (f y); cbn; eauto.
Qed.

Lemma existsb_Permutation {A} (f : A → bool) l k :
  l ≡ₚ k → existsb f l = true → existsb f k = true.
Proof.
  intros Hp [x [Hx Hf]]%existsb_exists. apply existsb_exists. exists x. split; [|done].
  by rewrite <-Hp.
Qed.

(** Normalised periods: strictly sorted, with a monthly one. *)
Lemma normalize_periods_spec ps price stars l :
  periods_valid ps = true → _normalize_periods ps price stars = Ok l →
  StronglySorted (λ a b, months a < months b) l ∧
  (∃ m, find (λ q, months q =? 1) l = Some m) ∧
  (∀ p, p ∈ default [] ps → p ∈ l).
Proof.
  intros Hv. unfold _normalize_periods. cbv zeta.
  assert (Hnd : NoDup (months <$> default [] ps)).
  { destruct ps as [ps|]; cbn in *; [|constructor].
    apply andb_prop in Hv as [_ Hv]. by apply bool_decide_eq_true in Hv. }
  assert (Hgen : ∀ k, NoDup (months <$> k) → has_month 1 k = true →
    StronglySorted (λ a b, months a < months b) (merge_sort by_months k) ∧
    (∃ m, find (λ q, months q =? 1) (merge_sort by_months k) = Some m) ∧
    (∀ p, p ∈ k → p ∈ merge_sort by_months k)).
  { intros k Hk Hm. pose proof (merge_sort_Permutation by_months k) as Hp. split_and!.
    - apply sorted_nodup_strict; [apply (StronglySorted_merge_sort by_months)|].
      by rewrite Hp.
    - apply find_some_existsb. by eapply existsb_Permutation.
    - intros p. by rewrite Hp. }
  destruct (has_month 1 _) eqn:Hm.
  { intros [= <-]. by apply Hgen. }
  destruct price as [p|]; [|done]. intros [= <-].
  destruct (Hgen (default [] ps ++ [{| months := 1; period_price_rub := p; period_price_stars := stars |}]))
    as (H1 & H2 & H3).
  - rewrite fmap_app. apply NoDup_app. split_and!; [done| |by apply NoDup_singleton].
    intros x Hx Hx'. apply list_elem_of_singleton in Hx' as ->. cbn in Hx.
    apply list_elem_of_fmap in Hx as (q & E & Hq). unfold has_month in Hm.
    apply not_true_iff_false in Hm. apply Hm, existsb_exists. exists q.
    split; [by apply list_elem_of_In|]. by rewrite <-E.
  - unfold has_month. rewrite existsb_app. cbn. by rewrite orb_true_r.
  - split_and!; [done|done|]. intros q Hq. apply H3, elem_of_app. by left.
Qed.

(** Creating a plan, on input that passed its schema, stores a plan whose
    periods are strictly ordered by months and contain the monthly period, every
    requested period among them, and whose own prices are those of the monthly
    period; a failed creation stores nothing. *)
Theorem create_plan_mirrors data s :
  PlanCreateIn_valid data = true →
  wp (create_plan data)
    (λ _ s', ∃ p, plans (db s') = <[plan_id p := p]> (plans (db s)) ∧
       plans (db s) !! plan_id p = None ∧ plan_name p = pln_name data ∧ plan_mirror p ∧
       (∀ q, q ∈ default [] (pln_periods data) → q ∈ periods p))
    (λ _ s', db s' = db s) s.
Proof.
  intros Hv. unfold create_plan, get_by_name.
  do 2 apply wp_bind. apply wp_select. set (l := filter _ _).
  destruct l as [|? [|? ?]]; cbn [scalar_one_or_none]; [|by apply wp_bind|done].
  apply wp_ret, wp_bind, wp_raise_if; [done|]. intros _.
  apply wp_bind. destruct (_normalize_periods _ _ _) as [ps|] eqn:Hps; [|done]. cbn [lift].
  apply wp_ret.
  assert (Hpv : periods_valid (pln_periods data) = true)
    by (unfold PlanCreateIn_valid in Hv; rewrite !andb_true_iff in Hv; apply Hv).
  destruct (normalize_periods_spec _ _ _ _ Hpv Hps) as (Hs & (m & Hm) & Hall).
  unfold _apply_monthly_mirror. rewrite Hm. cbn [fmap option_fmap option_map default].
  apply wp_bind. unfold wp at 1. rewrite create_run. cbn [t_rows plans_tbl t_id]. cbv zeta.
  destruct (plans (db s) !! _) eqn:Hnew; [done|].
  destruct (t_check plans_tbl _ _ _); [done|]. unfold _replace_periods. cbn.
  rewrite alter_insert, decide_True by done. match goal with |- ∃ p, <[_ := ?q]> _ = _ ∧ _ => exists q end.
  split_and!; [reflexivity|done|done| |done].
  constructor; cbn; [done|]. by exists m.
Qed.

(** An update that lists periods, on input that passed its schema, leaves
    the plan with strictly ordered periods and its prices mirrored from the
    monthly one, whatever the plan looked like before. *)
Theorem update_plan_mirrors pid data s ps :
  keyed plans_tbl (db s) → PlanUpdateIn_valid data = true → plu_periods data = Some ps →
  wp (update_plan pid data)
    (λ _ s', ∃ p, plans (db s') !! pid = Some p ∧ plan_mirror p ∧
       ∀ q, q ∈ ps → q ∈ periods p)
    (λ _ _, True) s.
Proof.
  intros Hk Hv Hps. unfold update_plan.
  apply wp_bind, wp_get_by_id. cbn [t_rows plans_tbl].
  destruct (plans (db s) !! pid) as [plan|] eqn:Hp; [|done].
  apply wp_bind.
  match goal with |- wp ?m ?Q ?R s =>
    enough (∀ s', db s' = db s → Q tt s') as HQ end.
  { destruct (plu_name data) as [[name|]|]; [|by apply HQ..].
    destruct (String.eqb _ _); [by apply HQ|]. unfold get_by_name.
    do 2 apply wp_bind. apply wp_select. destruct (filter _ _) as [|? [|? ?]]; cbn [scalar_one_or_none].
    - apply wp_ret, wp_raise_if; [done|]. intros _. by apply HQ.
    - by apply wp_ret.
    - done. }
  intros s' Hdb. apply wp_bind. rewrite Hps.
  destruct (_normalize_periods _ _ _) as [l|] eqn:Hl; [|done]. cbn [lift].
  assert (Hpv : periods_valid (Some ps) = true).
  { unfold PlanUpdateIn_valid in Hv. rewrite !andb_true_iff in Hv. rewrite <-Hps. tauto. }
  destruct (normalize_periods_spec _ _ _ _ Hpv Hl) as (Hs & (m & Hm) & Hall).
  apply wp_bind, wp_ret, wp_bind. unfold _replace_periods, wp at 1, write, modify.
  unfold _apply_monthly_mirror. rewrite Hm. cbn [fmap option_fmap option_map default].
  apply wp_ret. rewrite orb_true_r. cbn [when]. apply wp_bind, wp_raise_if; [done|]. intros _.
  apply wp_bind. unfold wp at 1. rewrite update_run. cbn [t_rows plans_tbl with_db db].
  cbn [plans set_plans]. rewrite Hdb, lookup_alter_eq, Hp. cbn [fmap option_fmap option_map]. cbv zeta.
  destruct (t_check plans_tbl _ _ _); [done|]. apply wp_ret.
  pose proof (Hk pid plan Hp) as Hid. cbn in Hid.
  eexists. split_and!; [cbn; rewrite Hid; apply lookup_insert_eq| |exact Hall].
  constructor; cbn; [done|]. by exists m.
Qed.

Lemma savings_round_le price baseline :
  0 ≤ price → 0 < baseline → savings_round price baseline ≤ 100.
Proof.
  intros Hp Hb. unfold savings_round. cbv zeta.
  set (q := dec28 _).
  assert (0 < den q) by (apply dec28_den; done).
  assert (0 ≤ num q) by (apply dec28_nonneg; done).
  cbn [num den]. destruct (Z.leb_spec (den q - num q) 0); [lia|].
  apply round_half_even_le; [by apply dec28_den|].
  apply (dec28_le_cents _ 100); cbn; [done|lia|]. unfold le_cents. cbn. lia.
Qed.

(** The savings shown for a period, computed by the decimal arithmetic of
    the source, are a whole percentage between 1 and 100, and are only shown for
    periods longer than a month. *)
Theorem savings_bounds ps p k :
  Forall (λ q, 0 ≤ po_price_rub q ∧ savings_pct q = None) ps →
  p ∈ _compute_savings ps → savings_pct p = Some k → 1 ≤ k ≤ 100 ∧ 1 < po_months p.
Proof.
  intros Hall Hin Hk. rewrite Forall_forall in Hall. unfold _compute_savings in Hin.
  assert (Hno : p ∈ ps → False) by (intros Hp; destruct (Hall p Hp); congruence).
  destruct (find _ ps) as [m|]; [|tauto].
  destruct (Z.leb_spec (po_price_rub m) 0); [tauto|].
  apply list_elem_of_fmap in Hin as (q & -> & Hq). destruct (Hall q Hq) as [Hq0 Hqs].
  revert Hk. unfold with_savings. destruct (Z.leb_spec (po_months q) 1); [congruence|].
  cbv zeta. destruct (Z.leb_spec (po_price_rub m * po_months q) 0); [congruence|].
  cbn. destruct (Z.ltb_spec 0 (savings_round (po_price_rub q) (po_price_rub m * po_months q)));
    [|done]. intros [= <-].
  pose proof (savings_round_le (po_price_rub q) (po_price_rub m * po_months q)). lia.
Qed.

(** ** Concrete runs *)

Definition sample_plan_in : PlanCreateIn :=
  {| pln_name := "Pro"; pln_description := None; pln_traffic_limit_bytes := 0;
     pln_reset_strategy := NO_RESET; pln_max_devices := 5; pln_included_devices := 2;
     pln_duration_days := 30; pln_sort_order := 0; pln_whitelist_enabled := false;
     pln_entry_relay_enabled := false; pln_price_rub := 20000; pln_device_price_rub := 5000;
     pln_price_stars := None; pln_device_price_stars := None;
     pln_periods := Some [{| months := 12; period_price_rub := 180000; period_price_stars := None |};
                          {| months := 3; period_price_rub := 54000; period_price_stars := None |}] |}.

Definition plan_db : database :=
  db (create_plan sample_plan_in (session_on empty_db 0 50)).2.

Lemma create_plan_mirrors_witness :
  PlanCreateIn_valid sample_plan_in = true ∧
  wp (create_plan sample_plan_in) (λ _ s', ∃ p, plans (db s') !! plan_id p = Some p ∧ plan_mirror p)
    (λ _ s', db s' = empty_db) (session_on empty_db 0 50).
Proof.
  split; [vm_compute; reflexivity|].
  eapply wp_mono; [apply (create_plan_mirrors sample_plan_in (session_on empty_db 0 50));
                   vm_compute; reflexivity| |].
  - intros _ s' (p & E & _ & _ & Hm & _). exists p. split; [|exact Hm].
    rewrite E. apply lookup_insert_eq.
  - intros e s' E. exact E.
Defined.

Definition update_periods (ps : option (list PlanPeriod)) (price : option (option Z)) : PlanUpdateIn :=
  {| plu_name := None; plu_description := None; plu_traffic_limit_bytes := None;
     plu_reset_strategy := None; plu_max_devices := None; plu_included_devices := None;
     plu_duration_days := None; plu_sort_order := None; plu_is_active := None;
     plu_whitelist_enabled := None; plu_entry_relay_enabled := None; plu_price_rub := price;
     plu_device_price_rub := None; plu_price_stars := None; plu_device_price_stars := None;
     plu_periods := ps |}.

Lemma update_plan_mirrors_witness :
  wp (update_plan 50 (update_periods (Some []) (Some (Some 30000))))
    (λ _ s', ∃ p, plans (db s') !! 50 = Some p ∧ plan_mirror p) (λ _ _, True)
    (session_on plan_db 10 60) ∧
  price_rub <$> plans (db (update_plan 50 (update_periods (Some []) (Some (Some 30000)))
                             (session_on plan_db 10 60)).2) !! 50 = Some 30000.
Proof.
  split; [|vm_compute; reflexivity].
  eapply wp_mono;
    [apply (update_plan_mirrors 50 (update_periods (Some []) (Some (Some 30000)))
              (session_on plan_db 10 60) []);
       [apply keyed_by_computation; vm_compute; reflexivity|vm_compute; reflexivity|reflexivity]| |].
  - intros _ s' (p & Hp & Hm & _). exists p. split; [exact Hp|exact Hm].
  - intros e s' H. exact H.
Defined.

Definition sample_periods_out : list PlanPeriodOut :=
  [{| po_months := 1; po_price_rub := 20000; po_price_stars := None; savings_pct := None |};
   {| po_months := 12; po_price_rub := 180000; po_price_stars := None; savings_pct := None |}].

Lemma savings_bounds_witness :
  _compute_savings sample_periods_out =
    [{| po_months := 1; po_price_rub := 20000; po_price_stars := None; savings_pct := None |};
     {| po_months := 12; po_price_rub := 180000; po_price_stars := None; savings_pct := Some 25 |}] ∧
  1 ≤ 25 ≤ 100 ∧ 1 < 12.
Proof.
  split; [vm_compute; reflexivity|].
  apply (savings_bounds sample_periods_out
    {| po_months := 12; po_price_rub := 180000; po_price_stars := None; savings_pct := Some 25 |} 25).
  - repeat constructor; cbn; lia.
  - vm_compute. right. left.
  - reflexivity.
Defined.
