(* ===== verification/BillingRepo.v ===== *)
(** The repositories of billing (services/billing/repository.py): order lookups
    and eligibility queries, revenue reports, bulk expiry, provider fees,
    transaction pages. *)

From stdpp Require Import base gmap strings list sorting.
From S2P Require Import Prelude Decimal Errors RouteModels BillingModels FleetModels Session Tables.
Local Open Scope Z_scope.

(** * OrderRepository *)

Definition get_by_external_id (ext : string) : SM (option PaymentOrder) :=
  l ← select_where orders_tbl (λ o, String.eqb (external_id o) ext);
  scalar_one_or_none l.

(** Row locks have no effect on one request at a time. *)
Definition get_by_external_id_for_update (ext : string) : SM (option PaymentOrder) :=
  get_by_external_id ext.
Definition get_by_id_for_update (oid : Z) : SM (option PaymentOrder) := get_by_id orders_tbl oid.

(** One page, newest first, and the number of rows. *)
Definition list_by_user (uid : Z) (limit offset : nat) : SM (list PaymentOrder * Z) :=
  l ← select_where orders_tbl (λ o, order_user_id o =? uid);
  mret (take limit (drop offset (order_by_desc order_created_at l)), Z.of_nat (length l)).

(** [status.in_(("paid", "completed"))]. *)
Definition revenue_status (o : PaymentOrder) : bool :=
  bool_decide (order_status o = PAID) || bool_decide (order_status o = COMPLETED).

Definition has_completed_order_for_plan (uid pid : Z) : SM bool :=
  l ← select_where orders_tbl (λ o, (order_user_id o =? uid) &&
        opt_Z_eqb (order_plan_id o) (Some pid) && revenue_status o);
  mret (negb (bool_decide (l = []))).

Definition has_completed_paid_order (uid : Z) : SM bool :=
  l ← select_where orders_tbl (λ o, (order_user_id o =? uid) && revenue_status o &&
        (0 <? order_amount_rub o));
  mret (negb (bool_decide (l = []))).

Definition get_last_paid_for_user (uid : Z) : SM (option PaymentOrder) :=
  l ← select_where orders_tbl (λ o, (order_user_id o =? uid) && bool_decide (order_status o = PAID));
  mret (head (order_by_desc order_created_at l)).

Definition list_by_status (st : OrderStatus) : SM (list PaymentOrder) :=
  select_where orders_tbl (λ o, bool_decide (order_status o = st)).

(** ** Revenue reports *)

(** [paid_at >= date_from] and [paid_at < date_to]; null satisfies neither. *)
Definition paid_within (from to_ : option Z) (o : PaymentOrder) : bool :=
  match from with
  | Some f => match paid_at o with Some t => f <=? t | None => false end | None => true end &&
  match to_ with
  | Some u => match paid_at o with Some t => t <? u | None => false end | None => true end.

Definition gateway_order (o : PaymentOrder) : bool :=
  negb (bool_decide (order_provider o = BALANCE)) && negb (bool_decide (order_provider o = FREE)).

Definition _revenue_where (from to_ : option Z) (o : PaymentOrder) : bool :=
  revenue_status o && gateway_order o && paid_within from to_ o.

Definition sum_of {R} (f : R → Z) (l : list R) : Z := foldr (λ r z, f r + z) 0 l.

(** [coalesce(sum(fee_rub), 0)]: nulls are left out of a sum. *)
Definition revenue_totals (from to_ : option Z) : SM (Z * Z * Z) :=
  l ← select_where orders_tbl (_revenue_where from to_);
  mret (sum_of order_amount_rub l, sum_of (λ o, default 0 (fee_rub o)) l, Z.of_nat (length l)).

(** The UTC day of an instant. *)
Definition day_of (t : Z) : Z := t / day.

(** Rows of the same day, days ascending; every revenue row with a date bound
    has [paid_at], a row without falls in the null group, listed last. *)
Definition revenue_daily (from to_ : option Z) : SM (list (option Z * Z * Z)) :=
  l ← select_where orders_tbl (_revenue_where from to_);
  let days := merge_sort Z.le (remove_dups (omap (λ o, day_of <$> paid_at o) l)) in
  let row key :=
    let g := filter (λ o, day_of <$> paid_at o = key) l in
    (key, sum_of order_amount_rub g, sum_of (λ o, default 0 (fee_rub o)) g) in
  let undated := filter (λ o, paid_at o = None) l in
  mret ((row ∘ Some <$> days) ++ if bool_decide (undated = []) then [] else [row None]).

Definition topup_total (from to_ : option Z) : SM Z :=
  l ← select_where orders_tbl (λ o, revenue_status o && bool_decide (order_type o = TOP_UP) &&
        paid_within from to_ o);
  mret (sum_of order_amount_rub l).

(** Revenue, and the part of it no fee was recorded for. *)
Definition uncaptured_commission (from to_ : option Z) : SM (Z * Z) :=
  l ← select_where orders_tbl (_revenue_where from to_);
  mret (sum_of order_amount_rub l,
        sum_of (λ o, match fee_rub o with None => order_amount_rub o | Some _ => 0 end) l).

(** [min(paid_at)] of a user's non-top-up revenue orders. *)
Definition first_paid (uid : Z) (l : list PaymentOrder) : option Z :=
  foldr (λ o acc, match acc, paid_at o with
                  | Some a, Some t => Some (Z.min a t)
                  | None, t => t
                  | a, None => a
                  end) None (filter (λ o, order_user_id o = uid) l).

Definition new_paying_users (from to_ : Z) : SM Z :=
  l ← select_where orders_tbl (λ o, revenue_status o && negb (bool_decide (order_type o = TOP_UP)) &&
        bool_decide (is_Some (paid_at o)));
  let uids := remove_dups (order_user_id <$> l) in
  let within u := match first_paid u l with
                  | Some t => (from <=? t) && (t <? to_) | None => false end in
  mret (Z.of_nat (length (filter (λ u, within u = true) uids))).

(** ** Expiry *)

Definition expire_order (now : Z) (o : PaymentOrder) : PaymentOrder :=
  let e := apply_order_update {| upd_status := Some EXPIRED; upd_paid_at := None;
             upd_completed_at := None; upd_provider_meta := None; upd_subscription_id := None;
             upd_fee_rub := None; upd_net_rub := None |} o in
  touch_order now e.

Definition overdue (now : Z) (o : PaymentOrder) : bool :=
  bool_decide (order_status o = PENDING) &&
  match order_expires_at o with Some t => t <? now | None => false end.

Definition bulk_expire_pending (now : Z) (limit : nat) : SM Z :=
  l ← select_where orders_tbl (overdue now);
  let ids := order_id <$> take limit (order_by_asc (λ o, key_or_zero (order_expires_at o)) l) in
  if bool_decide (ids = []) then mret 0 else
  write (λ d, set_orders (map_imap (λ i o, Some (if decide (i ∈ ids) then expire_order now o else o))
                            (orders d)) d) ;;
  mret (Z.of_nat (length ids)).

(** * ProviderFeeRepository *)

Definition get_match (provider : string) (method : option Z) : SM (option PaymentProviderFee) :=
  l ← select_where fees_tbl (λ f, String.eqb (fee_provider f) provider &&
        opt_Z_eqb (fee_payment_method f) method);
  scalar_one_or_none l.

Definition resolve (provider : string) (method : option Z) : SM (option PaymentProviderFee) :=
  match method with
  | Some _ =>
      exact_ ← get_match provider method;
      match exact_ with Some _ => mret exact_ | None => get_match provider None end
  | None => get_match provider None
  end.

(** * TransactionRepository *)

Definition tx_list_by_user (uid : Z) (limit offset : nat) : SM (list BalanceTransaction * Z) :=
  read (λ d, let l := filter (λ t, tx_user_id t = uid) (transactions d) in
    (take limit (drop offset (order_by_desc tx_created_at l)), Z.of_nat (length l))).

(** * Theorems *)

(** Bulk expiry changes exactly the rows it counts. *)
Lemma bulk_expire_spec now limit s n s' :
  keyed orders_tbl (db s) →
  bulk_expire_pending now limit s = (Ok n, s') →
  0 ≤ n ≤ Z.of_nat limit ∧
  ∃ ids, NoDup ids ∧ n = Z.of_nat (length ids) ∧
    (∀ i, i ∈ ids → ∃ o, orders (db s) !! i = Some o ∧ overdue now o = true ∧
       orders (db s') !! i = Some (expire_order now o)) ∧
    (∀ i, i ∉ ids → orders (db s') !! i = orders (db s) !! i).
Proof.
  intros Hk. unfold bulk_expire_pending, mbind at 1, M_bind at 1, select_where, read, gets.
  cbn [t_rows orders_tbl]. set (l := filter _ _). cbv zeta. set (ids := order_id <$> _).
  assert (Hl : ∀ o, o ∈ l ↔ overdue now o = true ∧ orders (db s) !! order_id o = Some o).
  { intros o. unfold l. rewrite list_elem_of_filter, elem_of_rows. split.
    - intros [Ho [i Hi]]. by rewrite (Hk i o Hi : order_id o = i).
    - intros [Ho Hi]. eauto. }
  assert (Hids : ∀ i, i ∈ ids → ∃ o, orders (db s) !! i = Some o ∧ overdue now o = true).
  { intros i (o & -> & Ho)%list_elem_of_fmap.
    apply elem_of_take in Ho as (j & Ho & _). apply list_elem_of_lookup_2 in Ho.
    unfold order_by_asc in Ho. rewrite merge_sort_Permutation in Ho.
    apply Hl in Ho as [? ?]. eauto. }
  assert (Hlen : Z.of_nat (length ids) ≤ Z.of_nat limit).
  { unfold ids. rewrite length_fmap, length_take. lia. }
  assert (Hnd : NoDup ids).
  { assert (Hnl : NoDup (order_id <$> l)).
    { apply NoDup_fmap_2_strong.
      - intros o o' [_ Ho]%Hl [_ Ho']%Hl E. rewrite E in Ho. congruence.
      - apply NoDup_filter. unfold rows. apply NoDup_fmap_2_strong; [|apply NoDup_map_to_list].
        intros [i o] [j o'] Hi%elem_of_map_to_list Hj%elem_of_map_to_list. cbn. intros ->.
        by rewrite <-(Hk i o' Hi), <-(Hk j o' Hj). }
    unfold ids. rewrite fmap_take. eapply sublist_NoDup; [|apply sublist_take].
    unfold order_by_asc. by rewrite merge_sort_Permutation. }
  destruct (bool_decide_reflect (ids = [])) as [E|_].
  - intros [= <- <-]. split; [lia|]. exists []. cbn.
    split_and!; [constructor|done| |done]. by intros i ?%not_elem_of_nil.
  - intros [= <- <-]. split; [lia|]. exists ids. split_and!; [done|done| |].
    + intros i Hi. destruct (Hids i Hi) as (o & Ho & Hov). exists o. split_and!; [done|done|].
      cbn. rewrite map_lookup_imap, Ho. cbn. by rewrite decide_True.
    + intros i Hi. cbn. rewrite map_lookup_imap. destruct (orders (db s) !! i); [|done]. cbn.
      by rewrite decide_False.
Qed.

(** The fee rule that applies: the one of the payment method if there is one,
    the provider's default otherwise. *)
Definition fees_inv (d : database) : Prop :=
  keyed fees_tbl d ∧
  (∀ i f, provider_fees d !! i = Some f → 0 ≤ fee_percent f < 1000000) ∧
  ∀ i j f g, provider_fees d !! i = Some f → provider_fees d !! j = Some g →
    fee_provider f = fee_provider g → fee_payment_method f = fee_payment_method g → i = j.

Lemma opt_Z_eqb_true a b : opt_Z_eqb a b = true → a = b.
Proof. destruct a, b; cbn; try done. by intros ->%Z.eqb_eq. Qed.

Lemma opt_Z_eqb_refl a : opt_Z_eqb a a = true.
Proof. destruct a; cbn; [apply Z.eqb_refl|done]. Qed.

Lemma get_match_run provider method s :
  fees_inv (db s) →
  ∃ o, get_match provider method s = (Ok o, s) ∧
    match o with
    | Some f => provider_fees (db s) !! fee_id f = Some f ∧ fee_provider f = provider ∧
        fee_payment_method f = method
    | None => ∀ i f, provider_fees (db s) !! i = Some f → fee_provider f = provider →
        fee_payment_method f ≠ method
    end.
Proof.
  intros (Hk & _ & Hu).
  destruct (select_unique_run fees_tbl (λ f, String.eqb (fee_provider f) provider &&
        opt_Z_eqb (fee_payment_method f) method) s Hk) as (o & Hrun & Ho).
  { intros i j f g Hf Hg [Ef%String.eqb_eq Mf%opt_Z_eqb_true]%andb_prop
      [Eg%String.eqb_eq Mg%opt_Z_eqb_true]%andb_prop. eapply Hu; eauto; congruence. }
  exists o. split; [exact Hrun|]. destruct o as [f|]; cbn in Ho.
  - destruct Ho as [Hf [Ef%String.eqb_eq Mf%opt_Z_eqb_true]%andb_prop]. done.
  - intros i f Hf Ef Mf. specialize (Ho i f Hf).
    by rewrite Ef, Mf, String.eqb_refl, opt_Z_eqb_refl in Ho.
Qed.

(** Resolution returns a rule of the provider or nothing, and reads only. *)
Lemma resolve_run provider method s :
  fees_inv (db s) →
  ∃ o, resolve provider method s = (Ok o, s) ∧
    match o with
    | Some f => provider_fees (db s) !! fee_id f = Some f ∧ fee_provider f = provider ∧
        (fee_payment_method f = method ∨ fee_payment_method f = None)
    | None => ∀ i f, provider_fees (db s) !! i = Some f → fee_provider f = provider →
        fee_payment_method f ≠ method ∧ fee_payment_method f ≠ None
    end.
Proof.
  intros Hinv. destruct (get_match_run provider None s Hinv) as (o0 & Hrun0 & Ho0).
  unfold resolve. destruct method as [m|].
  - destruct (get_match_run provider (Some m) s Hinv) as (o & Hrun & Ho).
    unfold mbind, M_bind. rewrite Hrun. destruct o as [f|].
    + exists (Some f). naive_solver.
    + exists o0. split; [exact Hrun0|]. destruct o0; naive_solver.
  - exists o0. split; [exact Hrun0|]. destruct o0; naive_solver.
Qed.
