(* ===== verification/Billing.v ===== *)
(** The billing service (services/billing/service.py): order creation for every
    order type and provider, proration and the downgrade guard, webhook and
    Stars confirmation, fulfilment, refunds, and the billing reconcilers
    (services/billing/reconcilers). *)

From stdpp Require Import base gmap strings list sorting pretty.
From S2P Require Import Prelude Decimal Errors RouteModels BillingModels FleetModels Session Uuid Tables Ledger Promo Referral BillingRepo.
Local Open Scope Z_scope.

(** * Constants (services/billing/constants.py) *)

(** [status in ORDER_FINAL_STATUSES]. *)
Definition ORDER_FINAL_STATUSES : list OrderStatus := [PAID; COMPLETED; REFUNDED; FAILED].
Definition ORDER_REFUNDABLE_STATUSES : list OrderStatus := [PAID; COMPLETED].
Definition ALLOWED_PERIOD_MONTHS : list Z := [1; 3; 6; 12].

(** [PERIOD_DAYS.get(months, PERIOD_DAYS[1])]. *)
Definition PERIOD_DAYS (m : Z) : Z :=
  if m =? 3 then 90 else if m =? 6 then 180 else if m =? 12 then 365 else 30.

(** * Provider metadata *)

Definition TELEGRAM_PENDING_MESSAGE_META_KEY : string := "_telegram_pending_message".

Definition _meta_dict (raw : option meta_text) : list (string * json) :=
  match raw with
  | None => []
  | Some (MetaRaw r) => if nonempty r then [("_raw_provider_meta", JStr r)] else []
  | Some (MetaJson (JObj fields)) => fields
  | Some (MetaJson data) => [("_raw_provider_meta", data)]
  end.

Definition _merge_meta (existing : option meta_text) (patch : list (string * json)) : meta_text :=
  MetaJson (JObj (dict_update (_meta_dict existing) patch)).

(** [not raw]. *)
Definition meta_empty (raw : option meta_text) : bool :=
  match raw with None => true | Some (MetaRaw r) => negb (nonempty r) | Some (MetaJson _) => false end.

Definition _merge_meta_strings (existing patch : option meta_text) : option meta_text :=
  if meta_empty existing && meta_empty patch then None
  else Some (MetaJson (JObj
    (if meta_empty patch then _meta_dict existing
     else dict_update (_meta_dict existing) (_meta_dict patch)))).

(** [isinstance(v, int)]: a bool is an int. *)
Definition as_int (v : option json) : option Z :=
  match v with
  | Some (JInt z) => Some z
  | Some (JBool b) => Some (Z.b2z b)
  | _ => None
  end.

Definition _pending_message_binding (raw : option meta_text) : option (Z * Z) :=
  match dict_get TELEGRAM_PENDING_MESSAGE_META_KEY (_meta_dict raw) with
  | Some (JObj binding) =>
      match as_int (dict_get "chat_id" binding), as_int (dict_get "message_id" binding) with
      | Some c, Some m => Some (c, m)
      | _, _ => None
      end
  | _ => None
  end.

Definition _format_rub_short (amount : Z) : string :=
  if amount mod 100 =? 0 then pretty (amount / 100) +:+ " ₽" else rub_str amount +:+ " ₽".

(** * Payment providers (services/billing/providers/base.py) *)

Record ProviderCreateResult := {
  pcr_external_id : string;
  pcr_payment_url : string;
  pcr_provider_meta : option meta_text;
}.

(** Amounts are the decimals [Decimal(str(x))] reads from the floats. *)
Record WebhookResult := {
  wh_external_id : string;
  wh_amount_rub : rat;
  wh_provider_meta : option meta_text;
  should_fulfill : bool;
  provider_status : option string;
  wh_fee_rub : option rat;
  wh_payment_method : option Z;
}.

(** The [PaymentProvider] interface: the answer of the [n]-th call to the
    gateway, and the verification of a webhook request of type [Req]. *)
Record PaymentProvider (Req : Type) := {
  create_payment : Z → string → rat → string → option Z → outcome exn ProviderCreateResult;
  verify_webhook : Req → outcome exn WebhookResult;
}.
Arguments create_payment {Req} _.
Arguments verify_webhook {Req} _.

(** * Orders *)

Record OrderCreateIn := {
  oci_user_id : Z;
  oci_plan_id : option Z;
  oci_amount_rub : option rat;
  oci_provider : PaymentProviderEnum;
  oci_order_type : OrderTypeEnum;
  oci_device_slots_qty : Z;
  oci_period_months : Z;
  oci_subscription_id : option Z;
  oci_payment_method : option Z;
  oci_promo_code : option string;
}.

(** The two validators of [OrderCreateIn]. *)
Definition OrderCreateIn_valid (d : OrderCreateIn) : bool :=
  negb (bool_decide (oci_provider d = PLATEGA) && bool_decide (oci_payment_method d = None)) &&
  bool_decide (oci_period_months d ∈ ALLOWED_PERIOD_MONTHS).

Record OrderInternalCreate := {
  oic_user_id : Z;
  oic_plan_id : option Z;
  oic_amount_rub : Z;
  oic_provider : PaymentProviderEnum;
  oic_status : OrderStatus;
  oic_external_id : string;
  oic_payment_url : option string;
  oic_provider_meta : option meta_text;
  oic_expires_at : option Z;
  oic_subscription_id : option Z;
  oic_order_type : OrderTypeEnum;
  oic_device_slots_qty : Z;
  oic_period_months : Z;
  oic_promo_code_id : option Z;
  oic_discount_rub : option Z;
}.

(** [order_repo.create(OrderInternalCreate(...).model_dump())]. *)
Definition create_order_row (c : OrderInternalCreate) : SM PaymentOrder :=
  create orders_tbl (λ id now,
    {| order_id := id; order_user_id := oic_user_id c; order_plan_id := oic_plan_id c;
       order_amount_rub := oic_amount_rub c; order_provider := oic_provider c;
       order_status := oic_status c; external_id := oic_external_id c;
       payment_url := oic_payment_url c; provider_meta := oic_provider_meta c;
       paid_at := None; completed_at := None; order_expires_at := oic_expires_at c;
       order_subscription_id := oic_subscription_id c; order_type := oic_order_type c;
       device_slots_qty := oic_device_slots_qty c; period_months := oic_period_months c;
       fee_rub := None; net_rub := None; order_promo_code_id := oic_promo_code_id c;
       order_discount_rub := oic_discount_rub c; order_created_at := now;
       order_updated_at := now |}).

Definition update_order (oid : Z) (p : OrderInternalUpdate) : SM unit :=
  update_by_id orders_tbl oid (apply_order_update p) ;; mret tt.

Definition update_sub (sid : Z) (p : SubscriptionInternalUpdate) : SM unit :=
  update_by_id subs_tbl sid (apply_sub_update p) ;; mret tt.

Definition completed_update (now : Z) : OrderInternalUpdate :=
  {| upd_status := Some COMPLETED; upd_paid_at := Some now; upd_completed_at := Some now;
     upd_provider_meta := None; upd_subscription_id := None; upd_fee_rub := None;
     upd_net_rub := None |}.

Definition subscription_update (sid : Z) : OrderInternalUpdate :=
  {| upd_status := None; upd_paid_at := None; upd_completed_at := None;
     upd_provider_meta := None; upd_subscription_id := Some sid; upd_fee_rub := None;
     upd_net_rub := None |}.

(** The re-read row, [OrderOut.model_validate(refreshed)]: validating a missing
    row fails. *)
Definition order_out (o : option PaymentOrder) : SM PaymentOrder :=
  match o with Some o => mret o | None => raise (ValidationError "OrderOut") end.

(** ** Prices and proration *)

Fixpoint find_period (m : Z) (l : list PlanPeriod) : option PlanPeriod :=
  match l with
  | [] => None
  | p :: l => if months p =? m then Some p else find_period m l
  end.

Definition _resolve_period_price (plan : Plan) (m : Z) : option Z :=
  match find_period m (periods plan) with
  | Some p => Some (period_price_rub p)
  | None => if m =? 1 then Some (price_rub plan) else None
  end.

Definition _resolve_period_price_stars (plan : Plan) (m : Z) : option Z :=
  match find_period m (periods plan) with
  | Some p => period_price_stars p
  | None => if m =? 1 then price_stars plan else None
  end.

(** [n or 1]. *)
Definition or_one (n : Z) : Z := if n =? 0 then 1 else n.

Definition is_live (now : Z) (b : Subscription) : bool :=
  match sub_expires_at b with None => true | Some e => now <? e end.

(** [max(live, key=lambda s: s.expires_at or now)]: the first of the largest. *)
Fixpoint max_by (key : Subscription → Z) (best : Subscription) (l : list Subscription) : Subscription :=
  match l with
  | [] => best
  | b :: l => max_by key (if key best <? key b then b else best) l
  end.

Definition _current_active_subscription (uid : Z) : SM (option Subscription) :=
  subs ← list_by_user_id uid true;
  now ← utcnow;
  match filter (λ b, is_live now b = true) subs with
  | [] => mret None
  | b :: l => mret (Some (max_by (λ b, default now (sub_expires_at b)) b l))
  end.

Definition _proration_value (old_plan : Plan) (old_period_months : Z) (expires_at : option Z)
    (now : Z) : Z :=
  match expires_at with
  | None => 0
  | Some e =>
      if e <=? now then 0 else
      let remaining_days := dec28 (rat_div (total_seconds (e - now)) (rat_of_Z 86400)) in
      if num remaining_days <=? 0 then 0 else
      let total_days := PERIOD_DAYS old_period_months in
      match _resolve_period_price old_plan old_period_months with
      | None => 0
      | Some old_price =>
          if old_price <=? 0 then 0 else
          quantize_even (dec28 (rat_div
            (dec28 (rat_mul {| num := old_price; den := 100 |} remaining_days))
            (rat_of_Z total_days)))
      end
  end.

(** The plan the user would switch from. *)
Definition switch_from (uid new_plan_id : Z) (ty : OrderTypeEnum) : SM (option (Subscription * Plan)) :=
  if negb (bool_decide (ty = PLAN_PURCHASE)) then mret None else
  current ← _current_active_subscription uid;
  match current with
  | None => mret None
  | Some cur =>
      match sub_plan_id cur with
      | None => mret None
      | Some pid =>
          if pid =? new_plan_id then mret None else
          old ← get_by_id plans_tbl pid;
          mret ((λ p, (cur, p)) <$> old)
      end
  end.

Definition _switch_proration (uid new_plan_id : Z) (ty : OrderTypeEnum) : SM Z :=
  r ← switch_from uid new_plan_id ty;
  match r with
  | None => mret 0
  | Some (cur, old_plan) =>
      now ← utcnow;
      mret (_proration_value old_plan (or_one (sub_period_months cur)) (sub_expires_at cur) now)
  end.

Definition _guard_no_downgrade (uid : Z) (new_plan : Plan) (ty : OrderTypeEnum) : SM unit :=
  r ← switch_from uid (plan_id new_plan) ty;
  match r with
  | None => mret tt
  | Some (_, old_plan) =>
      raise_if (price_rub new_plan <? price_rub old_plan)
        (PlanNotPurchasable "Downgrade applies at the end of the current period")
  end.

Definition _has_live_subscription (uid : Z) : SM bool :=
  now ← utcnow;
  subs ← list_by_user_id uid true;
  mret (existsb (is_live now) subs).

Definition _find_active_subscription_for_plan (uid pid : Z) : SM (option Subscription) :=
  subs ← list_by_user_id uid true;
  mret (find (λ b, opt_Z_eqb (sub_plan_id b) (Some pid)) subs).

Record OrderPreviewOut := {
  opo_plan_id : Z;
  opo_period_months : Z;
  opo_period_price : Z;
  opo_proration_credit : Z;
  opo_amount_due : Z;
  opo_is_switch : bool;
}.

Definition preview_order_amount (uid pid m : Z) : SM OrderPreviewOut :=
  plan ← get_by_id plans_tbl pid;
  match plan with
  | None => raise (PlanNotPurchasable "Plan is not available")
  | Some plan =>
      match _resolve_period_price plan m with
      | None => raise (PlanNotPurchasable "Selected period is not available for this plan")
      | Some period_price =>
          proration ← _switch_proration uid pid PLAN_PURCHASE;
          let amount_due := period_price - proration in
          let amount_due := if amount_due <? 0 then 0 else amount_due in
          mret {| opo_plan_id := pid; opo_period_months := m; opo_period_price := period_price;
                  opo_proration_credit := proration; opo_amount_due := amount_due;
                  opo_is_switch := 0 <? proration |}
      end
  end.

Definition get_order (oid : Z) : SM PaymentOrder :=
  o ← get_by_id orders_tbl oid;
  match o with
  | Some o => mret o
  | None => raise (OrderNotFound ("Order " +:+ str_uuid oid +:+ " not found"))
  end.

Definition update_order_metadata (oid : Z) (chat_id message_id_ : option Z) : SM unit :=
  o ← get_by_id orders_tbl oid;
  match o with
  | None => raise (OrderNotFound ("Order " +:+ str_uuid oid +:+ " not found"))
  | Some o =>
      match chat_id, message_id_ with
      | Some c, Some m =>
          update_order (order_id o)
            {| upd_status := None; upd_paid_at := None; upd_completed_at := None;
               upd_provider_meta := Some (_merge_meta (provider_meta o)
                 [(TELEGRAM_PENDING_MESSAGE_META_KEY,
                   JObj [("chat_id", JInt c); ("message_id", JInt m)])]);
               upd_subscription_id := None; upd_fee_rub := None; upd_net_rub := None |}
      | _, _ => mret tt
      end
  end.

(** ** Provider fees *)

Record ProviderFeeUpsertIn := {
  pfu_provider : string;
  pfu_payment_method : option Z;
  pfu_fee_percent : Z;
}.
Definition ProviderFeeUpsertIn_valid (d : ProviderFeeUpsertIn) : bool :=
  nonempty (pfu_provider d) && (0 <=? pfu_fee_percent d) && (pfu_fee_percent d <=? 1000000).

Definition upsert_provider_fee (data : ProviderFeeUpsertIn) : SM unit :=
  existing ← get_match (pfu_provider data) (pfu_payment_method data);
  match existing with
  | None =>
      create fees_tbl (λ id _,
        {| fee_id := id; fee_provider := pfu_provider data;
           fee_payment_method := pfu_payment_method data;
           fee_percent := pfu_fee_percent data |}) ;; mret tt
  | Some f =>
      update_by_id fees_tbl (fee_id f) (λ f,
        {| fee_id := fee_id f; fee_provider := fee_provider f;
           fee_payment_method := fee_payment_method f;
           fee_percent := pfu_fee_percent data |}) ;; mret tt
  end.

Definition delete_provider_fee (fid : Z) : SM unit := delete_by_id fees_tbl fid.

Definition _resolve_fee_rub (provider : string) (method : option Z) (amount : Z) : SM (option Z) :=
  rule ← resolve provider method;
  mret ((λ r, round_half_up (amount * fee_percent r) 1000000) <$> rule).

(** A decimal stored in a [Numeric(10, 2)] column. *)
Definition to_kopecks (r : rat) : Z := round_half_up (100 * num r) (den r).

(** [amount - fee]. *)
Definition minus_fee (amount : Z) (fee : rat) : rat :=
  {| num := amount * den fee - 100 * num fee; den := 100 * den fee |}.

Definition _record_promo_activation (order : PaymentOrder) : SM unit :=
  match order_promo_code_id order, order_discount_rub order with
  | Some promo, Some discount =>
      let after := order_amount_rub order in
      record_activation promo (order_user_id order) (Some (order_id order))
        (after + discount) discount after
  | _, _ => mret tt
  end.

(** * Interfaces *)

(** What billing needs to know of [SubscriptionService.activate]: it works on
    the fleet tables and may set a subscription active, nothing else. *)
Definition billing_tables (d : database) :=
  (users d, plans d, orders d, transactions d, provider_fees d, promo_codes d,
   promo_activations d, referrals d).

(** Rows agree but for [is_active], which may have been set, and [updated_at]. *)
Definition reactivated (b b' : Subscription) : Prop :=
  ∃ now, b' = apply_sub_update {| supd_plan_id := None; supd_is_active := Some true;
     supd_expires_at := None; supd_profile_key := None; supd_preferred_region := None;
     supd_hwid_enabled := None; supd_max_devices := None; supd_paid_device_slots := None;
     supd_period_months := None; supd_updated_at := Some now |} b.

Definition subs_reactivated (d d' : database) : Prop :=
  ∀ j b, subscriptions d !! j = Some b →
    ∃ b', subscriptions d' !! j = Some b' ∧ (b' = b ∨ reactivated b b').

Class SubscriptionActivation (activate : Z → SM Z) : Prop := {
  activate_frame sid : keeps (on_db (same billing_tables)) (activate sid);
  activate_subs sid : keeps (on_db (guarded (keyed subs_tbl) subs_reactivated)) (activate sid);
}.

(** The tables billing does not write. *)
Definition fleet (d : database) : database :=
  set_users ∅ (set_subscriptions ∅ (set_orders ∅ (set_transactions [] (set_provider_fees ∅
    (set_promo_codes ∅ (set_promo_activations [] (set_referrals ∅ d))))))).

(** Activating a subscription that exists returns, whatever billing has done to its own
    tables since [s]. *)
Definition activates_on (activate : Z → SM Z) (s : session) : Prop :=
  ∀ sid s', fleet (db s') = fleet (db s) → next_uuid s ≤ next_uuid s' → keyed subs_tbl (db s') →
    is_Some (subscriptions (db s') !! sid) → ∃ n s'', activate sid s' = (Ok n, s'').

(** [BillingConfig], [get_settings().referral], and whether the service was
    given a notification service and a Redis client. *)
Record BillingEnv (Req : Type) := {
  order_ttl_minutes : Z;
  referral_settings : ReferralConfig;
  provider_of : PaymentProviderEnum → PaymentProvider Req;
  tokens : TokenSource;
  has_notifications : bool;
  has_redis : bool;
}.
Arguments order_ttl_minutes {Req} _.
Arguments referral_settings {Req} _.
Arguments provider_of {Req} _.
Arguments tokens {Req} _.
Arguments has_notifications {Req} _.
Arguments has_redis {Req} _.

Section Service.
Context {Req : Type} (activate : Z → SM Z) (env : BillingEnv Req).

(** [PROVIDERS.get(name)]. *)
Definition _get_provider (p : PaymentProviderEnum) : SM (PaymentProvider Req) :=
match p with
| CRYPTO | FREEKASSA | PLATEGA => mret (provider_of env p)
| _ => raise (ProviderError ("Unknown provider: " +:+ provider_value p) None)
end.

(** [try: provider.create_payment(...) except ProviderError: raise
  except Exception as exc: raise ProviderError(f"Provider error: {exc}")]. *)
Definition call_create_payment (p : PaymentProviderEnum) (uid : Z) (amount : rat) (description : string)
  (method : option Z) : SM ProviderCreateResult :=
provider ← _get_provider p;
n ← uuid4;
match create_payment provider n (str_uuid uid) amount description method with
| Ok r => mret r
| Raise (ProviderError m st) => raise (ProviderError m st)
| Raise exc => raise (ProviderError ("Provider error: " +:+ exn_str exc) None)
end.

(** The external id, payment url and metadata of an order paid through the
  gateway or with Stars. *)
Definition payment_fields (p : PaymentProviderEnum) (uid : Z) (amount : rat) (description : string)
  (method : option Z) : SM (string * option string * option meta_text) :=
if bool_decide (p = STARS) then
  n ← uuid4; mret ("stars_" +:+ uuid_hex n, None, None)
else
  r ← call_create_payment p uid amount description method;
  mret (pcr_external_id r, Some (pcr_payment_url r), pcr_provider_meta r).

(** [SubscriptionInternalCreate(...)], whose [max_devices] must be in 1..100,
  and the insert of the row. *)
Definition create_subscription (uid pid : Z) (expires_at max_devices paid_slots months_ : Z)
  : SM Subscription :=
n ← uuid4;
let raw_token := generate (tokens env) n in
raise_if (negb ((0 <? max_devices) && (max_devices <=? 100)))
  (ValidationError "SubscriptionInternalCreate.max_devices") ;;
create subs_tbl (λ id now,
  {| sub_id := id; sub_user_id := uid; sub_plan_id := Some pid; sub_token := Some raw_token;
     sub_token_hash := hash (tokens env) raw_token; prev_token_hash := None;
     prev_token_expires_at := None; sub_expires_at := Some expires_at;
     sub_profile_key := None; preferred_region := None; root_vpn_key_id := None;
     hwid_enabled := true; sub_max_devices := Some max_devices;
     paid_device_slots := paid_slots; sub_period_months := months_;
     sub_used_traffic_bytes := 0; lifetime_used_traffic_bytes := 0;
     last_traffic_reset_at := None; first_connected_at := None; auto_renew := false;
     traffic_warning_threshold_pct := 0; sub_is_active := true; sub_created_at := now;
     sub_updated_at := now |}).

(** ** Purchases *)

Definition _auto_purchase_free (user : User) (plan : Plan) (order : PaymentOrder) (now : Z) : SM unit :=
existing ← _find_active_subscription_for_plan (user_id user) (plan_id plan);
match existing with
| Some b =>
    let new_expires := default now (sub_expires_at b) + duration_days plan * day in
    update_sub (sub_id b) {| supd_plan_id := None; supd_is_active := Some true;
      supd_expires_at := Some new_expires; supd_profile_key := None;
      supd_preferred_region := None; supd_hwid_enabled := None; supd_max_devices := None;
      supd_paid_device_slots := None; supd_period_months := None; supd_updated_at := None |} ;;
    update_order (order_id order) (subscription_update (sub_id b))
| None =>
    b ← create_subscription (user_id user) (plan_id plan) (now + duration_days plan * day)
          (included_devices plan) 0 1;
    update_order (order_id order) (subscription_update (sub_id b))
end ;;
when (has_notifications env)
  (emit (PublishTrialStarted (telegram_id user) (username user) (plan_name plan)
           (duration_days plan))).

(** The subscription a purchase extends, and whether it changes its plan. *)
Definition purchase_target (uid pid : Z) (order : PaymentOrder)
  : SM (option (Subscription * bool)) :=
renewed ←
  match order_type order, order_subscription_id order with
  | SUBSCRIPTION_RENEWAL, Some sid =>
      b ← get_by_id subs_tbl sid;
      mret (match b with
            | Some b => if (sub_user_id b =? uid) && opt_Z_eqb (sub_plan_id b) (Some pid)
                        then Some b else None
            | None => None
            end)
  | _, _ => mret None
  end;
match renewed with
| Some b => mret (Some (b, false))
| None =>
    same_plan ← _find_active_subscription_for_plan uid pid;
    match same_plan with
    | Some b => mret (Some (b, false))
    | None =>
        latest ← get_latest_for_user uid;
        mret ((λ b, (b, negb (opt_Z_eqb (sub_plan_id b) (Some pid)))) <$> latest)
    end
end.

(** The patch that extends [existing]. *)
Definition extension_patch (plan : Plan) (existing : Subscription) (plan_changed : bool)
  (now extra_devices period_months_ : Z) : SubscriptionInternalUpdate :=
let base_expires :=
  if plan_changed then now else
  match sub_expires_at existing with Some e => if now <? e then e else now | None => now end in
let new_expires := base_expires + PERIOD_DAYS period_months_ * day in
let existing_paid := paid_device_slots existing in
{| supd_plan_id := if plan_changed then Some (plan_id plan) else None;
   supd_is_active := Some true; supd_expires_at := Some new_expires;
   supd_profile_key := None; supd_preferred_region := None; supd_hwid_enabled := None;
   supd_max_devices := if plan_changed
                       then Some (included_devices plan + existing_paid + extra_devices) else None;
   supd_paid_device_slots := if plan_changed || (0 <? extra_devices)
                             then Some (existing_paid + extra_devices) else None;
   supd_period_months := Some period_months_; supd_updated_at := None |}.

Definition purchase_description (plan : Plan) (extra_devices : Z) : string :=
"Purchase plan: " +:+ plan_name plan +:+
(if 0 <? extra_devices then " + " +:+ pretty extra_devices +:+ " device slot(s)" else "").

(** Create or extend the subscription that was paid for. *)
Definition deliver_subscription (uid : Z) (plan : Plan) (order : PaymentOrder) (now : Z) : SM unit :=
let extra_devices := device_slots_qty order in
let period_months_ := or_one (period_months order) in
target ← purchase_target uid (plan_id plan) order;
match target with
| Some (existing, plan_changed) =>
    update_sub (sub_id existing)
      (extension_patch plan existing plan_changed now extra_devices period_months_) ;;
    update_order (order_id order) (subscription_update (sub_id existing)) ;;
    activate (sub_id existing) ;; mret tt
| None =>
    b ← create_subscription uid (plan_id plan) (now + PERIOD_DAYS period_months_ * day)
          (included_devices plan + extra_devices) extra_devices period_months_;
    update_order (order_id order) (subscription_update (sub_id b))
end.

Definition _auto_purchase (user : User) (plan : Plan) (order : PaymentOrder) (now : Z)
  (strict_balance : bool) : SM unit :=
let total_price := order_amount_rub order in
locked ← _lock_user (user_id user);
match locked with
| None => raise_if strict_balance (InsufficientBalance "Insufficient balance")
| Some u =>
    if balance u <? total_price
    then raise_if strict_balance (InsufficientBalance "Insufficient balance")
    else
      let new_balance := balance u - total_price in
      _update_user_balance (user_id u) new_balance ;;
      _record_transaction (user_id u) (- total_price) new_balance PURCHASE
        (Some (order_id order)) (Some (purchase_description plan (device_slots_qty order))) ;;
      deliver_subscription (user_id u) plan order now
end.

(** Add the slots to the subscription of the order. *)
Definition deliver_slots (order : PaymentOrder) : SM unit :=
match order_subscription_id order with
| None => mret tt
| Some sid =>
    b ← get_by_id subs_tbl sid;
    match b with
    | None => mret tt
    | Some b =>
        update_sub (sub_id b) {| supd_plan_id := None; supd_is_active := None;
          supd_expires_at := None; supd_profile_key := None; supd_preferred_region := None;
          supd_hwid_enabled := None; supd_max_devices := None;
          supd_paid_device_slots := Some (paid_device_slots b + device_slots_qty order);
          supd_period_months := None; supd_updated_at := None |}
    end
end.

Definition _fulfill_device_slots (user : User) (order : PaymentOrder) (strict_balance : bool) : SM unit :=
locked ← _lock_user (user_id user);
match locked with
| None => raise_if strict_balance (InsufficientBalance "Insufficient balance")
| Some u =>
    if balance u <? order_amount_rub order
    then raise_if strict_balance (InsufficientBalance "Insufficient balance")
    else
      let new_balance := balance u - order_amount_rub order in
      _update_user_balance (user_id u) new_balance ;;
      _record_transaction (user_id u) (- order_amount_rub order) new_balance
        DEVICE_SLOT_PURCHASE (Some (order_id order))
        (Some ("Purchase " +:+ pretty (device_slots_qty order) +:+ " device slot(s)")) ;;
      deliver_slots order
end.

(** ** Order creation *)

Definition _create_free_order (user : User) (plan : Plan) (data : OrderCreateIn) : SM PaymentOrder :=
now ← utcnow;
n ← uuid4;
order ← create_order_row
  {| oic_user_id := oci_user_id data; oic_plan_id := Some (plan_id plan); oic_amount_rub := 0;
     oic_provider := FREE; oic_status := PAID; oic_external_id := "free_" +:+ uuid_hex n;
     oic_payment_url := None; oic_provider_meta := None; oic_expires_at := None;
     oic_subscription_id := None; oic_order_type := PLAN_PURCHASE;
     oic_device_slots_qty := 0; oic_period_months := 1; oic_promo_code_id := None;
     oic_discount_rub := None |};
_auto_purchase_free user plan order now ;;
update_order (order_id order) (completed_update now) ;;
refreshed ← get_by_id orders_tbl (order_id order);
order_out refreshed.

Definition _create_top_up_order (user : User) (data : OrderCreateIn) : SM PaymentOrder :=
match oci_amount_rub data with
| None => raise (PlanNotPurchasable "Top up amount must be greater than zero")
| Some amount =>
    raise_if (num amount <=? 0) (PlanNotPurchasable "Top up amount must be greater than zero") ;;
    now ← utcnow;
    '(ext, url, meta) ← payment_fields (oci_provider data) (oci_user_id data) amount
       ("Balance top-up for user " +:+ str_uuid (user_id user)) (oci_payment_method data);
    create_order_row
      {| oic_user_id := oci_user_id data; oic_plan_id := None; oic_amount_rub := to_column amount;
         oic_provider := oci_provider data; oic_status := PENDING; oic_external_id := ext;
         oic_payment_url := url; oic_provider_meta := meta;
         oic_expires_at := Some (now + order_ttl_minutes env * minute);
         oic_subscription_id := None; oic_order_type := TOP_UP; oic_device_slots_qty := 0;
         oic_period_months := 1; oic_promo_code_id := None; oic_discount_rub := None |}
end.

Definition _create_balance_device_slot_order (uid sid qty amount : Z) : SM PaymentOrder :=
now ← utcnow;
n ← uuid4;
order ← create_order_row
  {| oic_user_id := uid; oic_plan_id := None; oic_amount_rub := amount;
     oic_provider := BALANCE; oic_status := PAID; oic_external_id := "balance_" +:+ uuid_hex n;
     oic_payment_url := None; oic_provider_meta := None; oic_expires_at := None;
     oic_subscription_id := Some sid; oic_order_type := DEVICE_SLOTS;
     oic_device_slots_qty := qty; oic_period_months := 1; oic_promo_code_id := None;
     oic_discount_rub := None |};
(user ← get_by_id users_tbl uid;
 match user with
 | None => raise (OrderNotFound "User not found")
 | Some user => _fulfill_device_slots user order true
 end) ;;
update_order (order_id order) (completed_update now) ;;
refreshed ← get_by_id orders_tbl (order_id order);
order_out refreshed.

Definition _create_device_slot_order (data : OrderCreateIn) : SM PaymentOrder :=
match oci_subscription_id data with
| None => raise (OrderNotFound "subscription_id is required for device_slots order")
| Some sid =>
    found ← get_by_id subs_tbl sid;
    match found with
    | None => raise (OrderNotFound "Active subscription not found")
    | Some b =>
        raise_if (negb (sub_is_active b)) (OrderNotFound "Active subscription not found") ;;
        plan ← match sub_plan_id b with
               | Some pid => get_by_id plans_tbl pid | None => mret None end;
        match plan with
        | None => raise (PlanNotPurchasable "Subscription has no plan")
        | Some plan =>
            let qty := oci_device_slots_qty data in
            let max_allowed := plan_max_devices plan - included_devices plan - paid_device_slots b in
            raise_if (max_allowed <? qty)
              (DeviceSlotLimitExceeded ("Cannot add " +:+ pretty qty +:+ " slots, max purchasable: "
                                        +:+ pretty max_allowed)) ;;
            let device_price := device_price_rub plan in
            raise_if (device_price <=? 0) (PlanNotPurchasable "Plan has no device price set") ;;
            let amount := qty * device_price in
            now ← utcnow;
            if bool_decide (oci_provider data = BALANCE)
            then _create_balance_device_slot_order (oci_user_id data) sid qty amount
            else
              '(ext, url, meta) ← payment_fields (oci_provider data) (oci_user_id data) (rat_of_Z amount)
                 (pretty qty +:+ " device slot(s) for " +:+ plan_name plan)
                 (oci_payment_method data);
              order ← create_order_row
                {| oic_user_id := oci_user_id data; oic_plan_id := None;
                   oic_amount_rub := amount; oic_provider := oci_provider data;
                   oic_status := PENDING; oic_external_id := ext; oic_payment_url := url;
                   oic_provider_meta := meta;
                   oic_expires_at := Some (now + order_ttl_minutes env * minute);
                   oic_subscription_id := None; oic_order_type := DEVICE_SLOTS;
                   oic_device_slots_qty := qty; oic_period_months := 1;
                   oic_promo_code_id := None; oic_discount_rub := None |};
              update_order (order_id order) (subscription_update sid) ;;
              refreshed ← get_by_id orders_tbl (order_id order);
              order_out refreshed
        end
    end
end.

Definition _create_balance_plan_order (user : User) (plan : Plan) (data : OrderCreateIn)
  (amount extra_devices period_months_ : Z) (promo_code_id discount : option Z) : SM PaymentOrder :=
now ← utcnow;
n ← uuid4;
order ← create_order_row
  {| oic_user_id := oci_user_id data; oic_plan_id := oci_plan_id data; oic_amount_rub := amount;
     oic_provider := BALANCE; oic_status := PAID; oic_external_id := "balance_" +:+ uuid_hex n;
     oic_payment_url := None; oic_provider_meta := None; oic_expires_at := None;
     oic_subscription_id := oci_subscription_id data; oic_order_type := oci_order_type data;
     oic_device_slots_qty := extra_devices; oic_period_months := period_months_;
     oic_promo_code_id := promo_code_id; oic_discount_rub := discount |};
_auto_purchase user plan order now true ;;
update_order (order_id order) (completed_update now) ;;
_record_promo_activation order ;;
refreshed ← get_by_id orders_tbl (order_id order);
order_out refreshed.

(** The free branch of [create_order]: the trial guards. *)
Definition create_trial (user : User) (plan : Plan) (data : OrderCreateIn) : SM PaymentOrder :=
used ← has_completed_order_for_plan (oci_user_id data) (plan_id plan);
raise_if used (TrialAlreadyUsed "Free trial already used") ;;
live ← _has_live_subscription (oci_user_id data);
raise_if live
  (TrialUnavailable "Free trial is unavailable while an active subscription exists") ;;
paid ← has_completed_paid_order (oci_user_id data);
raise_if paid (TrialUnavailable "Free trial is unavailable after a paid purchase") ;;
_create_free_order user plan data.

Definition order_description (plan : Plan) (period_months_ extra_devices : Z) : string :=
"Plan: " +:+ plan_name plan +:+
(if 1 <? period_months_ then " (" +:+ pretty period_months_ +:+ " mo)" else "") +:+
(if 0 <? extra_devices then " + " +:+ pretty extra_devices +:+ " device(s)" else "").

(** The promo quote of [create_order]: amount, code and discount. *)
Definition apply_promo (data : OrderCreateIn) (plan : Plan) (amount : Z)
  : SM (Z * option Z * option Z) :=
let code := default "" (oci_promo_code data) in
if nonempty code && (0 <? amount) then
  quote ← validate_and_quote code (oci_user_id data) (Some (plan_id plan))
            (oci_order_type data) amount;
  mret (quote_amount_after quote, Some (quote_promo_code_id quote), Some (quote_discount_rub quote))
else mret (amount, None, None).

(** The paid branch of [create_order]. *)
Definition create_paid_order (user : User) (plan : Plan) (data : OrderCreateIn) : SM PaymentOrder :=
let period_months_ := or_one (oci_period_months data) in
let extra_devices := oci_device_slots_qty data in
match _resolve_period_price plan period_months_ with
| None => raise (PlanNotPurchasable "Selected period is not available for this plan")
| Some period_price =>
    _guard_no_downgrade (oci_user_id data) plan (oci_order_type data) ;;
    proration ← _switch_proration (oci_user_id data) (plan_id plan) (oci_order_type data);
    let plan_due := if period_price - proration <? 0 then 0 else period_price - proration in
    let amount := plan_due + extra_devices * device_price_rub plan in
    '(amount, promo_code_id, discount) ← apply_promo data plan amount;
    now ← utcnow;
    if bool_decide (oci_provider data = BALANCE) then
      _create_balance_plan_order user plan data amount extra_devices period_months_
        promo_code_id discount
    else
      '(ext, url, meta) ← payment_fields (oci_provider data) (oci_user_id data) (rat_of_Z amount)
         (order_description plan period_months_ extra_devices) (oci_payment_method data);
      create_order_row
        {| oic_user_id := oci_user_id data; oic_plan_id := oci_plan_id data;
           oic_amount_rub := amount; oic_provider := oci_provider data;
           oic_status := PENDING; oic_external_id := ext; oic_payment_url := url;
           oic_provider_meta := meta;
           oic_expires_at := Some (now + order_ttl_minutes env * minute);
           oic_subscription_id := oci_subscription_id data;
           oic_order_type := oci_order_type data; oic_device_slots_qty := extra_devices;
           oic_period_months := period_months_; oic_promo_code_id := promo_code_id;
           oic_discount_rub := discount |}
end.

(** [plan_repo.get_by_id(data.plan_id)]; a null id matches no row. *)
Definition get_plan_opt (pid : option Z) : SM (option Plan) :=
match pid with Some pid => get_by_id plans_tbl pid | None => mret None end.

(** The renewal target named by the request, if one is named. *)
Definition renewal_target (data : OrderCreateIn) : SM bool :=
match oci_subscription_id data with
| None => mret false
| Some sid =>
    b ← get_by_id subs_tbl sid;
    raise_if (match b with
              | Some b => negb ((sub_user_id b =? oci_user_id data) &&
                                opt_Z_eqb (sub_plan_id b) (oci_plan_id data))
              | None => true
              end) (PlanNotPurchasable "Renewal target is not available") ;;
    mret true
end.

(** The purchase and renewal branch of [create_order]. *)
Definition create_plan_order (user : User) (data : OrderCreateIn) : SM PaymentOrder :=
found ← get_plan_opt (oci_plan_id data);
match found with
| None => raise (PlanNotPurchasable "Plan is not available")
| Some plan =>
    renewal ← renewal_target data;
    raise_if (negb (plan_is_active plan) && negb renewal)
      (PlanNotPurchasable "Plan is not available") ;;
    let is_free := price_rub plan <=? 0 in
    raise_if (is_free && negb (bool_decide (oci_provider data = FREE)))
      (PlanNotPurchasable "Free plan requires provider='free'") ;;
    raise_if (negb is_free && bool_decide (oci_provider data = FREE))
      (PlanNotPurchasable "Paid plan cannot use provider='free'") ;;
    if is_free then create_trial user plan data else create_paid_order user plan data
end.

Definition create_order (data : OrderCreateIn) : SM PaymentOrder :=
found ← get_by_id users_tbl (oci_user_id data);
match found with
| None => raise (OrderNotFound "User not found")
| Some user =>
    match oci_order_type data with
    | DEVICE_SLOTS => _create_device_slot_order data
    | TOP_UP => _create_top_up_order user data
    | PLAN_PURCHASE | SUBSCRIPTION_RENEWAL => create_plan_order user data
    end
end.

(** ** Fulfilment *)

(** The user of the order is gone: the order is marked failed and the failure
  raised. *)
Definition fulfill_user_missing (order : PaymentOrder) (p : PaymentProviderEnum) : SM unit :=
update_order (order_id order)
  {| upd_status := Some FAILED; upd_paid_at := None; upd_completed_at := None;
     upd_provider_meta := _merge_meta_strings (provider_meta order)
       (Some (MetaJson (JObj [("_fulfill_failure", JStr "user_not_found")])));
     upd_subscription_id := None; upd_fee_rub := None; upd_net_rub := None |} ;;
when (has_notifications env) (emit (RecordPaymentFailure p)) ;;
raise (FulfillmentFailed ("User " +:+ str_uuid (order_user_id order) +:+ " not found for order "
                          +:+ str_uuid (order_id order))).

(** [status="paid"], with fee and net amount. *)
Definition paid_update (order : PaymentOrder) (now : Z) (meta : option meta_text)
  (fee : option rat) : OrderInternalUpdate :=
{| upd_status := Some PAID; upd_paid_at := Some now; upd_completed_at := None;
   upd_provider_meta := _merge_meta_strings (provider_meta order) meta;
   upd_subscription_id := None; upd_fee_rub := to_kopecks <$> fee;
   upd_net_rub := (λ f, to_kopecks (minus_fee (order_amount_rub order) f)) <$> fee |}.

(** The purchase the payment was made for. *)
Definition deliver_order (user : User) (order : PaymentOrder) (now : Z) : SM unit :=
match order_type order with
| DEVICE_SLOTS => _fulfill_device_slots user order false
| _ =>
    match order_plan_id order with
    | None => mret tt
    | Some pid =>
        plan ← get_by_id plans_tbl pid;
        match plan with
        | None => mret tt
        | Some plan =>
            when (plan_is_active plan && (0 <? price_rub plan))
              (_auto_purchase user plan order now false)
        end
    end
end.

Definition is_plan_order (t : OrderTypeEnum) : bool :=
bool_decide (t = PLAN_PURCHASE) || bool_decide (t = SUBSCRIPTION_RENEWAL).

(** [try: process_reward_if_eligible(...) except Exception: log]. *)
Definition reward_step (uid : Z) : SM unit :=
catch (process_reward_if_eligible (referral_settings env) uid) (λ _, mret tt).

(** What follows a completed order: referral reward and notifications. *)
Definition after_completion (user : User) (order : PaymentOrder) (p : PaymentProviderEnum)
  (new_balance : Z) : SM unit :=
when (has_notifications env) (emit (ResetPaymentFailures p)) ;;
(if is_plan_order (order_type order) && negb (bool_decide (p = FREE)) then
   reward_step (order_user_id order) ;;
   when (has_notifications env)
     (plan ← get_plan_opt (order_plan_id order);
      emit (PublishPurchase (telegram_id user) (username user)
              (match plan with Some pl => plan_name pl | None => "" end)
              (order_amount_rub order) p
              (bool_decide (order_type order = SUBSCRIPTION_RENEWAL))))
 else
   when (bool_decide (order_type order = TOP_UP) && negb (bool_decide (p = FREE)) &&
         has_notifications env)
     (emit (PublishBalanceTopup (telegram_id user) (username user)
              (order_amount_rub order) p new_balance))) ;;
when (negb (bool_decide (p = STARS)))
  (updated ← get_by_id orders_tbl (order_id order);
   let pending := _pending_message_binding
                    (match updated with Some o => provider_meta o | None => None end) in
   emit (NotifyOrderFulfilled (telegram_id user) (order_type order) pending
           (_format_rub_short new_balance))).

(** [if fee_rub is None: fee_rub = await self._resolve_fee_rub(...)]. *)
Definition fulfill_fee (fee : option rat) (p : PaymentProviderEnum) (method : option Z) (amount : Z)
  : SM (option rat) :=
match fee with
| Some f => mret (Some f)
| None =>
    r ← _resolve_fee_rub (provider_value p) method amount;
    mret ((λ k, {| num := k; den := 100 |}) <$> r)
end.

Definition _fulfill_order_locked (order : PaymentOrder) (p : PaymentProviderEnum)
  (meta : option meta_text) (fee : option rat) (method : option Z) : SM unit :=
if bool_decide (order_status order ∈ ORDER_FINAL_STATUSES) then mret tt else
raise_if (bool_decide (order_status order = EXPIRED))
  (OrderExpired ("Order " +:+ str_uuid (order_id order) +:+ " has expired")) ;;
locked ← _lock_user (order_user_id order);
match locked with
| None => fulfill_user_missing order p
| Some user =>
    now ← utcnow;
    fee ← fulfill_fee fee p method (order_amount_rub order);
    update_order (order_id order) (paid_update order now meta fee) ;;
    let new_balance := balance user + order_amount_rub order in
    _update_user_balance (user_id user) new_balance ;;
    _record_transaction (user_id user) (order_amount_rub order) new_balance PAYMENT
      (Some (order_id order)) (Some ("Payment via " +:+ provider_value p)) ;;
    _record_promo_activation order ;;
    deliver_order user order now ;;
    update_order (order_id order)
      {| upd_status := Some COMPLETED; upd_paid_at := None; upd_completed_at := Some now;
         upd_provider_meta := None; upd_subscription_id := None; upd_fee_rub := None;
         upd_net_rub := None |} ;;
    after_completion user order p new_balance
end.

(** ** Webhooks and Stars *)

(** [str(getattr(webhook, "provider_status", "") or "").upper()]. *)
Definition status_upper (w : WebhookResult) : string := upper (default "" (provider_status w)).

(** An event that does not fulfil the order: its metadata is kept, and a
  cancelled pending order expires. *)
Definition webhook_non_paid (order : PaymentOrder) (w : WebhookResult) : SM unit :=
update_order (order_id order)
  {| upd_status := if String.eqb (status_upper w) "CANCELED" &&
                      bool_decide (order_status order = PENDING) then Some EXPIRED else None;
     upd_paid_at := None; upd_completed_at := None;
     upd_provider_meta := _merge_meta_strings (provider_meta order) (wh_provider_meta w);
     upd_subscription_id := None; upd_fee_rub := None; upd_net_rub := None |}.

Definition process_webhook (p : PaymentProviderEnum) (request : Req) : SM unit :=
provider ← _get_provider p;
match verify_webhook provider request with
| Raise (WebhookVerificationFailed m) => raise (WebhookVerificationFailed m)
| Raise exc => raise (WebhookVerificationFailed ("Verification error: " +:+ exn_str exc))
| Ok w =>
    found ← get_by_external_id_for_update (wh_external_id w);
    match found with
    | None => raise (OrderNotFound ("Order not found for external_id=" +:+ wh_external_id w))
    | Some order =>
        raise_if ((0 <? num (wh_amount_rub w)) &&
                  negb (order_amount_rub order * den (wh_amount_rub w) =? 100 * num (wh_amount_rub w)))
          (WebhookVerificationFailed ("Amount mismatch for external_id=" +:+ wh_external_id w)) ;;
        if negb (should_fulfill w) then webhook_non_paid order w
        else _fulfill_order_locked order p (wh_provider_meta w) (wh_fee_rub w) (wh_payment_method w)
    end
end.

Definition confirm_stars_payment (oid : Z) (charge_id : string) (total_amount : Z) : SM unit :=
found ← get_by_id_for_update oid;
match found with
| None => raise (OrderNotFound ("Order " +:+ str_uuid oid +:+ " not found"))
| Some order =>
    raise_if (negb (bool_decide (order_provider order = STARS)))
      (ProviderError "Order is not a Stars payment" None) ;;
    _fulfill_order_locked order STARS
      (Some (MetaJson (JObj [("telegram_payment_charge_id", JStr charge_id);
                             ("total_amount_stars", JInt total_amount)]))) None None
end.

(** ** Refunds *)

Definition deactivate_sub_update : SubscriptionInternalUpdate :=
{| supd_plan_id := None; supd_is_active := Some false; supd_expires_at := None;
   supd_profile_key := None; supd_preferred_region := None; supd_hwid_enabled := None;
   supd_max_devices := None; supd_paid_device_slots := None; supd_period_months := None;
   supd_updated_at := None |}.

(** [iso] renders a time as [datetime.isoformat] does; ["..."[:256]] cuts the
  description. *)
Definition refund_order (iso : Z → string) (oid : Z) (reason : string)
  (deactivate_subscription : bool) : SM unit :=
found ← get_by_id_for_update oid;
match found with
| None => raise (OrderNotFound ("Order " +:+ str_uuid oid +:+ " not found"))
| Some order =>
    raise_if (negb (bool_decide (order_status order ∈ ORDER_REFUNDABLE_STATUSES)))
      (RefundNotAllowed ("Order " +:+ str_uuid (order_id order) +:+
         " cannot be refunded in status '" +:+ status_value (order_status order) +:+ "'")) ;;
    locked ← _lock_user (order_user_id order);
    match locked with
    | None => raise (FulfillmentFailed ("User " +:+ str_uuid (order_user_id order) +:+
                " not found for refund of order " +:+ str_uuid (order_id order)))
    | Some user =>
        let new_balance := balance user - order_amount_rub order in
        _update_user_balance (user_id user) new_balance ;;
        _record_transaction (user_id user) (- order_amount_rub order) new_balance REFUND
          (Some (order_id order)) (Some (String.substring 0 256 ("Refund: " +:+ reason))) ;;
        now ← utcnow;
        update_order (order_id order)
          {| upd_status := Some REFUNDED; upd_paid_at := None; upd_completed_at := None;
             upd_provider_meta := _merge_meta_strings (provider_meta order)
               (Some (MetaJson (JObj [("_refund_reason", JStr reason);
                                      ("_refunded_at", JStr (iso now))])));
             upd_subscription_id := None; upd_fee_rub := None; upd_net_rub := None |} ;;
        match order_subscription_id order with
        | Some sid =>
            when deactivate_subscription
              (update_sub sid deactivate_sub_update ;;
               when (has_redis env) (invalidate_by_subscription_ids [sid]))
        | None => mret tt
        end
    end
end.

(** * Reconcilers *)

(** [BillingOrderExpirationReconciler.tick]: one session, committed when an
  order was expired. *)
Definition expiration_tick (batch_size : nat) : SM Z :=
now ← utcnow;
bulk_expire_pending now (Nat.max 1 batch_size).

(** [SubscriptionRepository.list_due_auto_renew]: the plan must exist and be
  paid. *)
Definition due_auto_renew (now window_end retry_floor : Z) (d : database) (b : Subscription) : bool :=
auto_renew b &&
match sub_expires_at b with
| None => false
| Some e => (sub_is_active b && (now <? e) && (e <=? window_end)) ||
            ((e <=? now) && (retry_floor <? e))
end &&
match sub_plan_id b with
| Some pid => match plans d !! pid with Some p => 0 <? price_rub p | None => false end
| None => false
end.

Definition list_due_auto_renew (now window_end retry_floor : Z) (limit : nat) : SM (list Subscription) :=
l ← read (λ d, filter (λ b, due_auto_renew now window_end retry_floor d b = true)
                 (rows (subscriptions d)));
mret (take limit (order_by_asc (λ b, key_or_zero (sub_expires_at b)) l)).

Definition renewal_request (b : Subscription) : OrderCreateIn :=
{| oci_user_id := sub_user_id b; oci_plan_id := sub_plan_id b; oci_amount_rub := None;
   oci_provider := BALANCE; oci_order_type := PLAN_PURCHASE; oci_device_slots_qty := 0;
   oci_period_months := sub_period_months b; oci_subscription_id := Some (sub_id b);
   oci_payment_method := None; oci_promo_code := None |}.

(** The whole body is in [try: ... except Exception: return False]; building
  the request validates it. *)
Definition _renew_one (b : Subscription) : SM bool :=
catch
  (preview ← match sub_plan_id b with
             | Some pid => preview_order_amount (sub_user_id b) pid (sub_period_months b)
             | None => raise (PlanNotPurchasable "Plan is not available")
             end;
   user ← get_by_id users_tbl (sub_user_id b);
   match user with
   | None => mret false
   | Some u =>
       if balance u <? opo_amount_due preview then mret false else
       raise_if (negb (OrderCreateIn_valid (renewal_request b))) (ValidationError "OrderCreateIn") ;;
       create_order (renewal_request b) ;;
       mret true
   end)
  (λ _, mret false).

(** [AutoRenewReconciler.tick]: a session for the query and one per renewal,
  none of them committed. *)
Fixpoint renew_all (l : list Subscription) : SM Z :=
match l with
| [] => mret 0
| b :: l =>
    ok ← (λ s, run_uncommitted (_renew_one b) s);
    n ← renew_all l;
    mret (if ok : bool then n + 1 else n)
end.

Definition auto_renew_tick (window_sec retry_grace_sec : Z) (batch_size : nat) : SM Z :=
due ← (λ s, run_uncommitted
  (now ← utcnow;
   list_due_auto_renew now (now + window_sec * second) (now - retry_grace_sec * second)
     (Nat.max 1 batch_size)) s);
renew_all due.
End Service.
