(* ===== verification/BillingInv.v ===== *)
(** The invariant of the billing tables, the life of an order, and the
    preservation lemmas of the statements the billing service is made of. *)

From stdpp Require Import base gmap strings list.
From S2P Require Import Prelude Decimal Errors RouteModels BillingModels FleetModels Session Tables Ledger Promo Referral BillingRepo Billing.
Local Open Scope Z_scope.

(** * Definitions *)

(** The moves an order may make. *)
Inductive status_step : OrderStatus → OrderStatus → Prop :=
| step_pay : status_step PENDING PAID
| step_complete : status_step PAID COMPLETED
| step_expire : status_step PENDING EXPIRED
| step_fail : status_step PENDING FAILED
| step_refund_paid : status_step PAID REFUNDED
| step_refund : status_step COMPLETED REFUNDED.

(** The columns of an order no operation changes. *)
Definition order_fixed (o o' : PaymentOrder) : Prop :=
  order_id o' = order_id o ∧ order_user_id o' = order_user_id o ∧
  order_plan_id o' = order_plan_id o ∧ order_amount_rub o' = order_amount_rub o ∧
  order_provider o' = order_provider o ∧ external_id o' = external_id o ∧
  order_type o' = order_type o ∧ device_slots_qty o' = device_slots_qty o ∧
  period_months o' = period_months o ∧ order_promo_code_id o' = order_promo_code_id o ∧
  order_discount_rub o' = order_discount_rub o.

(** Rows stay, with [R] relating their statuses. *)
Definition orders_move (R : OrderStatus → OrderStatus → Prop) (d d' : database) : Prop :=
  ∀ i o, orders d !! i = Some o →
    ∃ o', orders d' !! i = Some o' ∧ order_fixed o o' ∧ R (order_status o) (order_status o').

Definition is_payment (i : Z) (t : BalanceTransaction) : Prop :=
  tx_type t = PAYMENT ∧ tx_order_id t = Some i.
#[export] Instance is_payment_dec i t : Decision (is_payment i t).
Proof. unfold is_payment. apply _. Defined.

(** The payment entries recorded for an order. *)
Definition payments_for (i : Z) (d : database) : nat := length (filter (is_payment i) (transactions d)).

Definition settled (st : OrderStatus) : Prop := st = PAID ∨ st = COMPLETED ∨ st = REFUNDED.

(** Balances agree with the ledger (up to the rounding of manual entries when amounts are
    [fine]), and a payment is recorded for an order at most once and only if the order was
    paid. *)
Record billing_upto (fine : bool) (d : database) : Prop := {
  bi_ledger : ledger_upto fine d;
  bi_keyed : keyed orders_tbl d;
  bi_once i : payments_for i d = 0%nat ∨
    (payments_for i d = 1%nat ∧ ∃ o, orders d !! i = Some o ∧ settled (order_status o));
}.
Arguments bi_ledger {fine}. Arguments bi_keyed {fine}. Arguments bi_once {fine}.
Notation billing_inv := (billing_upto false).

(** A statement that keeps the invariant and moves no status. *)
Definition quiet (fine : bool) (d d' : database) : Prop :=
  billing_upto fine d → billing_upto fine d' ∧ orders_move eq d d'.

(** A statement that keeps the invariant and moves statuses along the steps. *)
Definition evolves (fine : bool) (d d' : database) : Prop :=
  billing_upto fine d → billing_upto fine d' ∧ orders_move (rtc status_step) d d'.

(** * Lemmas *)

#[export] Instance order_fixed_preorder : PreOrder order_fixed.
Proof.
  split; [by intros o; unfold order_fixed; split_and!|].
  intros a b c H1 H2. unfold order_fixed in *. destruct_and!. split_and!; congruence.
Qed.

#[export] Instance orders_move_preorder R : PreOrder R → PreOrder (orders_move R).
Proof.
  intros [Hr Ht]. split.
  - intros d i o Ho. exists o. by split_and!.
  - intros d1 d2 d3 H12 H23 i o Ho. destruct (H12 i o Ho) as (o2 & Ho2 & F2 & R2).
    destruct (H23 i o2 Ho2) as (o3 & Ho3 & F3 & R3). exists o3.
    split_and!; [done|by etrans|by etrans].
Qed.

#[export] Instance quiet_preorder fine : PreOrder (quiet fine).
Proof.
  split; [intros d; by split|]. intros d1 d2 d3 H12 H23 Hinv.
  destruct (H12 Hinv) as [H2 M12], (H23 H2) as [H3 M23]. split; [done|by etrans].
Qed.
#[export] Instance evolves_preorder fine : PreOrder (evolves fine).
Proof.
  split; [intros d; by split|]. intros d1 d2 d3 H12 H23 Hinv.
  destruct (H12 Hinv) as [H2 M12], (H23 H2) as [H3 M23]. split; [done|by etrans].
Qed.

Lemma quiet_evolves {fine} d d' : quiet fine d d' → evolves fine d d'.
Proof.
  intros H Hinv. destruct (H Hinv) as [Hi Hm]. split; [done|]. intros i o Ho. destruct (Hm i o Ho) as (o' & ? & ? & E).
  exists o'. split_and!; [done|done|]. by rewrite E.
Qed.

Lemma billing_inv_upto d : billing_inv d → billing_upto true d.
Proof. intros [[Hu Hl] Hk H1]. split; [|done|done]. split; [done|]. intros uid u H. by apply running_fine, Hl. Qed.

(** The tables the invariant looks at. *)
Definition core (d : database) := (users d, transactions d, orders d).

Lemma same_core_quiet {fine} d d' : same core d d' → quiet fine d d'.
Proof.
  unfold same, core. intros [= Hu Ht Ho] [Hl Hk H1]. split.
  - constructor.
    + apply (ledger_same_money fine d); [|done]. unfold same, money. congruence.
    + intros i r. cbn. rewrite Ho. apply Hk.
    + intros i. unfold payments_for. rewrite Ht, Ho. apply H1.
  - intros i o Hi. exists o. by rewrite Ho.
Qed.

Lemma keeps_core_quiet {fine} {A} (m : SM A) : keeps (on_db (same core)) m → keeps (on_db (quiet fine)) m.
Proof. intros H s. apply same_core_quiet, H. Qed.

Lemma same_billing_core d d' : same billing_tables d d' → same core d d'.
Proof. unfold same, billing_tables, core. intros [= ]. congruence. Qed.

(** ** Postings *)

Lemma payments_app i d t x :
  transactions x = transactions d ++ [t] →
  payments_for i x = (payments_for i d + if decide (is_payment i t) then 1 else 0)%nat.
Proof.
  intros E. unfold payments_for. rewrite E, filter_app, length_app, filter_cons, filter_nil.
  by case_decide.
Qed.

(** A posting that is no payment. *)
Lemma posted_quiet {fine} u nb now t d :
  users d !! user_id u = Some u → tx_user_id t = user_id u → balance_after t = nb →
  carries fine t (balance u) → tx_type t ≠ PAYMENT →
  quiet fine d (posted u nb now t d).
Proof.
  intros Hu Ht Ha Hnb Hty [Hl Hk H1]. split.
  - constructor; [by apply posted_carries|done|].
    intros i. rewrite (payments_app i d t) by done.
    rewrite decide_False by (by intros []). rewrite Nat.add_0_r. apply H1.
  - intros i o Hi. exists o. by split_and!.
Qed.

(** The payment of an order that has none yet and was just marked paid. *)
Lemma posted_payment_inv {fine} u nb now t d i o :
  billing_upto fine d → users d !! user_id u = Some u → tx_user_id t = user_id u →
  balance_after t = nb → nb = balance u + tx_amount t →
  tx_order_id t = Some i → payments_for i d = 0%nat →
  orders d !! i = Some o → settled (order_status o) →
  billing_upto fine (posted u nb now t d).
Proof.
  intros [Hl Hk H1] Hu Ht Ha Hnb Hi H0 Ho Hs. constructor; [by apply posted_ledger|done|].
  intros j. rewrite (payments_app j d t) by done. case_decide as Hp.
  - destruct Hp as [_ Hj]. assert (j = i) as -> by congruence. rewrite H0. right.
    split; [done|]. by exists o.
  - rewrite Nat.add_0_r. apply H1.
Qed.

(** ** Order rows *)

Lemma order_update_fixed now p o : order_fixed o (apply_order_update p (touch_order now o)).
Proof. by unfold order_fixed. Qed.

(** Rewriting a row in place along a step that keeps settled orders settled. *)
Lemma put_order_inv {fine} d o o' :
  billing_upto fine d → orders d !! order_id o = Some o → order_id o' = order_id o →
  (settled (order_status o) → settled (order_status o')) →
  billing_upto fine (put orders_tbl o' d).
Proof.
  intros [Hl Hk H1] Ho Hid Hs. constructor.
  - by apply (ledger_same_money fine d).
  - by apply (keyed_put orders_tbl).
  - intros i. destruct (H1 i) as [H0|(H0 & x & Hx & Sx)]; [by left|]. right. split; [done|].
    cbn. rewrite Hid. destruct (decide (i = order_id o)) as [->|Hne].
    + exists o'. rewrite lookup_insert_eq. split; [done|]. apply Hs. congruence.
    + exists x. by rewrite lookup_insert_ne.
Qed.

Lemma put_order_move (R : OrderStatus → OrderStatus → Prop) d o o' :
  (∀ st, R st st) → orders d !! order_id o = Some o → order_fixed o o' →
  R (order_status o) (order_status o') → orders_move R d (put orders_tbl o' d).
Proof.
  intros Hr Ho Hf Hs i x Hx. cbn. destruct Hf as (Hid & Hf). rewrite Hid.
  destruct (decide (i = order_id o)) as [->|Hne].
  - exists o'. rewrite lookup_insert_eq. rewrite Ho in Hx. injection Hx as <-. by split_and!.
  - exists x. rewrite lookup_insert_ne by done. split_and!; [done|done|apply Hr].
Qed.

Lemma orders_check_same_ext d o p :
  external_id p = external_id o → t_check orders_tbl d (Some o) p = None.
Proof. intros H. cbn. unfold unique_on, unique. by rewrite H, String.eqb_refl. Qed.

(** The update of an order as an equation. *)
Lemma update_order_run oid p s :
  update_order oid p s =
  match orders (db s) !! oid with
  | None => (Ok tt, tick s)
  | Some o => (Ok tt, with_db (put orders_tbl (apply_order_update p (touch_order (clock s (ticks s)) o)))
                        (tick s))
  end.
Proof.
  unfold update_order, mbind, M_bind. rewrite update_run. cbn [t_rows orders_tbl].
  destruct (orders (db s) !! oid) as [o|]; [|done]. cbv zeta.
  by rewrite orders_check_same_ext.
Qed.

Lemma update_order_quiet {fine} oid p :
  upd_status p = None → keeps (on_db (quiet fine)) (update_order oid p).
Proof.
  intros Hst s. rewrite update_order_run. unfold on_db.
  destruct (orders (db s) !! oid) as [o|] eqn:Ho; [|cbn; reflexivity]. cbn [snd db with_db tick].
  intros Hinv. pose proof (bi_keyed _ Hinv _ _ Ho) as Hid. cbn in Hid. subst oid.
  set (o' := apply_order_update _ _).
  assert (Es : order_status o' = order_status o) by (unfold o'; cbn; by rewrite Hst).
  assert (Hf : order_fixed o o') by apply order_update_fixed.
  split.
  - apply (put_order_inv (db s) o); [done|done|apply Hf|by rewrite Es].
  - by apply (put_order_move eq (db s) o).
Qed.

(** The update of the status of a row whose status is known. *)
Lemma wp_update_status {fine} oid p o st (Q : unit → session → Prop) R s :
  billing_upto fine (db s) → orders (db s) !! oid = Some o → upd_status p = Some st →
  status_step (order_status o) st →
  (∀ s', evolves fine (db s) (db s') → money (db s') = money (db s) →
     (∃ o', orders (db s') !! oid = Some o' ∧ order_status o' = st ∧ order_fixed o o') →
     Q tt s') →
  wp (update_order oid p) Q R s.
Proof.
  intros Hinv Ho Hst Hstep HQ. unfold wp. rewrite update_order_run, Ho.
  pose proof (bi_keyed _ Hinv _ _ Ho) as Hid. cbn in Hid. subst oid.
  set (o' := apply_order_update _ _).
  assert (Es : order_status o' = st) by (unfold o'; cbn; by rewrite Hst).
  assert (Hf : order_fixed o o') by apply order_update_fixed.
  apply HQ; [|done|]; cbn [with_db db tick].
  - intros _. split.
    + apply (put_order_inv (db s) o); [done|done|apply Hf|]. rewrite Es.
      unfold settled. destruct Hstep; intuition congruence.
    + apply (put_order_move (rtc status_step) (db s) o); [done|done|done|].
      rewrite Es. by apply rtc_once.
  - exists o'. split_and!; [|done|done]. cbn. apply lookup_insert_eq.
Qed.

Lemma create_order_row_quiet {fine} c : keeps (on_db (quiet fine)) (create_order_row c).
Proof.
  apply keeps_create; [apply _|]. intros d i now Hnew _ [Hl Hk H1]. cbn in Hnew. split.
  - constructor; [by apply (ledger_same_money fine d)|by apply (keyed_put orders_tbl)|].
    intros j. destruct (H1 j) as [H0|(H0 & x & Hx & Sx)]; [by left|]. right. split; [done|].
    exists x. cbn. rewrite lookup_insert_ne; [done|]. intros ->. congruence.
  - intros j x Hx. exists x. cbn. rewrite lookup_insert_ne; [done|]. intros ->. congruence.
Qed.

(** ** Statements that touch none of the core tables *)

Lemma update_sub_quiet {fine} sid p : keeps (on_db (quiet fine)) (update_sub sid p).
Proof. apply keeps_core_quiet. unfold update_sub. keeps_tac. Qed.

Lemma record_activation_quiet {fine} pid uid oid b d a :
  keeps (on_db (quiet fine)) (record_activation pid uid oid b d a).
Proof.
  apply keeps_core_quiet. unfold record_activation, insert_activation, increment_activation. keeps_tac.
Qed.

Lemma record_promo_activation_quiet {fine} o : keeps (on_db (quiet fine)) (_record_promo_activation o).
Proof. unfold _record_promo_activation. pose proof (@record_activation_quiet fine). keeps_tac. Qed.

#[export] Hint Resolve update_sub_quiet create_order_row_quiet record_promo_activation_quiet : keeps.
#[export] Hint Extern 2 (keeps (on_db (quiet _)) (update_order _ _)) =>
  (apply update_order_quiet; reflexivity) : keeps.

Lemma keeps_evolves {fine} {A} (m : SM A) : keeps (on_db (quiet fine)) m → keeps (on_db (evolves fine)) m.
Proof. intros H s. apply quiet_evolves, H. Qed.

(** Running a statement that keeps [P] after a prefix that reached [s1]. *)
Lemma wp_then {A} (P : database → database → Prop) `{!PreOrder P} (m : SM A) d s1 :
  keeps (on_db P) m → P d (db s1) →
  wp m (λ _ s', P d (db s')) (λ _ s', P d (db s')) s1.
Proof.
  intros Hk Hp. specialize (Hk s1). unfold on_db in Hk. unfold wp.
  destruct (m s1) as [[] ?]; cbn in *; by etrans.
Qed.

Lemma keeps_of_wp {A} (P : database → database → Prop) (m : SM A) :
  (∀ s, wp m (λ _ s', P (db s) (db s')) (λ _ s', P (db s) (db s')) s) → keeps (on_db P) m.
Proof. intros H s. apply (keeps_from_wp P), H. Qed.

(** Reading a row first. *)
Lemma keeps_get {R A} (P : database → database → Prop) (t : table R) i (k : option R → SM A) :
  (∀ s, wp (k (t_rows t (db s) !! i)) (λ _ s', P (db s) (db s')) (λ _ s', P (db s) (db s')) s) →
  keeps (on_db P) (get_by_id t i ≫= k).
Proof. intros H. apply keeps_of_wp. intros s. apply wp_bind, wp_get_by_id, H. Qed.

(** A posting that is no payment, under the invariant. *)
Lemma wp_carried_posting {fine A} uid u nb amount ty oid desc (k : SM A) s :
  users (db s) !! uid = Some u → ty ≠ PAYMENT →
  (∀ t, tx_type t = ty → tx_amount t = amount → balance_after t = nb → carries fine t (balance u)) →
  keeps (on_db (quiet fine)) k →
  wp (_update_user_balance (user_id u) nb ;; _record_transaction (user_id u) amount nb ty oid desc ;; k)
    (λ _ s', quiet fine (db s) (db s')) (λ _ s', quiet fine (db s) (db s')) s.
Proof.
  intros Hu Hty Hnb Hk.
  destruct (decide (user_id u = uid)) as [Hid|Hid].
  - rewrite Hid. apply (wp_posting uid u); [done|done|].
    apply (wp_then (quiet fine)); [done|]. cbn [with_db db tick issue].
    apply posted_quiet; cbn; [by rewrite Hid|done|done|by apply Hnb|done].
  - unfold wp, quiet. assert (billing_upto fine (db s) → False) as Hno.
    { intros Hinv. by apply Hid, (ledger_user fine (db s)); [apply Hinv|]. }
    case_match; case_match; tauto.
Qed.

Lemma wp_quiet_posting {fine A} uid u nb amount ty oid desc (k : SM A) s :
  users (db s) !! uid = Some u → nb = balance u + amount → ty ≠ PAYMENT →
  keeps (on_db (quiet fine)) k →
  wp (_update_user_balance (user_id u) nb ;; _record_transaction (user_id u) amount nb ty oid desc ;; k)
    (λ _ s', quiet fine (db s) (db s')) (λ _ s', quiet fine (db s) (db s')) s.
Proof.
  intros Hu Hnb Hty. apply (wp_carried_posting uid); [done|done|]. intros t _ Ha Hb. apply carries_exact. lia.
Qed.
