(* ===== verification/BillingProps.v ===== *)
(** Correctness of the billing service: the ledger and the life of orders under
    every operation, idempotent confirmation, what a paid order delivers, the
    trial, refunds, and the reconcilers. *)

From stdpp Require Import base gmap strings list.
From S2P Require Import Prelude Decimal Errors RouteModels BillingModels FleetModels Session Tables Ledger Promo Referral BillingRepo Billing BillingInv.
Local Open Scope Z_scope.

(** * Preservation by the parts of the service *)

Section Parts.
Context {fine : bool}.
Context {Req : Type} (activate : Z → SM Z) (env : BillingEnv Req) `{!SubscriptionActivation activate}.

Lemma activate_quiet sid : keeps (on_db (quiet fine)) (activate sid).
Proof using Type*. intros s. apply same_core_quiet, same_billing_core, activate_frame. Qed.
Hint Resolve activate_quiet : keeps.

Lemma create_subscription_quiet uid pid e m p n :
keeps (on_db (quiet fine)) (create_subscription env uid pid e m p n).
Proof. apply keeps_core_quiet. unfold create_subscription. keeps_tac. Qed.
Hint Resolve create_subscription_quiet : keeps.

Lemma find_active_quiet uid pid : keeps (on_db (quiet fine)) (_find_active_subscription_for_plan uid pid).
Proof. unfold _find_active_subscription_for_plan, list_by_user_id. keeps_tac. Qed.
Hint Resolve find_active_quiet : keeps.

Lemma purchase_target_quiet uid pid o : keeps (on_db (quiet fine)) (purchase_target uid pid o).
Proof. unfold purchase_target, get_latest_for_user. keeps_tac. Qed.
Hint Resolve purchase_target_quiet : keeps.

Lemma deliver_subscription_quiet uid plan o now :
keeps (on_db (quiet fine)) (deliver_subscription activate env uid plan o now).
Proof using Type*. unfold deliver_subscription. keeps_tac. Qed.
Hint Resolve deliver_subscription_quiet : keeps.

Lemma auto_purchase_free_quiet u plan o now :
keeps (on_db (quiet fine)) (_auto_purchase_free env u plan o now).
Proof. unfold _auto_purchase_free. keeps_tac. Qed.

Lemma auto_purchase_quiet u plan o now strict :
keeps (on_db (quiet fine)) (_auto_purchase activate env u plan o now strict).
Proof using Type*.
unfold _auto_purchase, _lock_user. apply keeps_get. intros s. cbn [t_rows users_tbl].
destruct (users (db s) !! user_id u) as [v|] eqn:Hv; [|by destruct strict].
destruct (_ <? _); [by destruct strict|].
apply (wp_quiet_posting (user_id u)); [done|lia|done|]. auto with keeps.
Qed.

Lemma deliver_slots_quiet o : keeps (on_db (quiet fine)) (deliver_slots o).
Proof. unfold deliver_slots. keeps_tac. Qed.

Lemma fulfill_device_slots_quiet u o strict :
keeps (on_db (quiet fine)) (_fulfill_device_slots u o strict).
Proof.
unfold _fulfill_device_slots, _lock_user. apply keeps_get. intros s. cbn [t_rows users_tbl].
destruct (users (db s) !! user_id u) as [v|] eqn:Hv; [|by destruct strict].
destruct (_ <? _); [by destruct strict|].
apply (wp_quiet_posting (user_id u)); [done|lia|done|]. apply deliver_slots_quiet.
Qed.
Hint Resolve auto_purchase_free_quiet auto_purchase_quiet fulfill_device_slots_quiet : keeps.

Lemma deliver_order_quiet u o now : keeps (on_db (quiet fine)) (deliver_order activate env u o now).
Proof using Type*. unfold deliver_order. keeps_tac. Qed.

Lemma credit_user_quiet uid amount ty desc :
ty ≠ PAYMENT → keeps (on_db (quiet fine)) (_credit_user uid amount ty desc).
Proof.
intros Hty. unfold _credit_user, _lock_user. apply keeps_get. intros s. cbn [t_rows users_tbl].
destruct (users (db s) !! uid) as [v|] eqn:Hv; [|done].
destruct (decide (user_id v = uid)) as [<-|Hne].
- apply (wp_quiet_posting (user_id v)); [done|lia|done|]. keeps_tac.
- unfold wp, quiet. assert (billing_upto fine (db s) → False) as Hno.
  { intros Hinv. by apply Hne, (ledger_user fine (db s)); [apply Hinv|]. }
  case_match; case_match; tauto.
Qed.

Lemma process_reward_quiet settings uid :
keeps (on_db (quiet fine)) (process_reward_if_eligible settings uid).
Proof.
unfold process_reward_if_eligible, get_pending_by_referred_user.
assert (∀ i g, keeps (on_db (quiet fine)) (update_by_id referrals_tbl i g)).
{ intros. apply keeps_core_quiet. keeps_tac. }
keeps_tac; by apply credit_user_quiet.
Qed.

Lemma after_completion_quiet u o p nb : keeps (on_db (quiet fine)) (after_completion env u o p nb).
Proof.
unfold after_completion, reward_step, get_plan_opt. pose proof process_reward_quiet. keeps_tac.
Qed.

(** Fee resolution reads only. *)
Lemma resolve_frame {B} (f : database → B) p m : keeps (on_db (same f)) (resolve p m).
Proof. unfold resolve, get_match. keeps_tac. Qed.

Lemma fee_step_frame {B} (f : database → B) fee p m a :
keeps (on_db (same f)) (fulfill_fee fee p m a).
Proof. unfold fulfill_fee, _resolve_fee_rub. pose proof @resolve_frame. keeps_tac. Qed.

(** ** Fulfilment *)

(** No payment is recorded for an order that is not settled. *)
Lemma unsettled_unpaid d i o :
billing_upto fine d → orders d !! i = Some o → ¬ settled (order_status o) → payments_for i d = 0%nat.
Proof.
intros Hinv Ho Hs. destruct (bi_once _ Hinv i) as [H0|(_ & x & Hx & Sx)]; [done|]. congruence.
Qed.

(** Running a quiet statement in the middle of an operation begun at [d]. *)
Lemma wp_quiet_then {A} (m : SM A) d s1 :
keeps (on_db (quiet fine)) m → billing_upto fine (db s1) → evolves fine d (db s1) →
wp m (λ _ s', billing_upto fine (db s') ∧ evolves fine d (db s') ∧ orders_move eq (db s1) (db s'))
  (λ _ s', evolves fine d (db s')) s1.
Proof.
intros Hk Hinv Hev. specialize (Hk s1). unfold on_db in Hk.
assert (Hev' : evolves fine d (db (m s1).2)) by (etrans; [done|by apply quiet_evolves]).
destruct (Hk Hinv) as [Hinv' Hm]. unfold wp. destruct (m s1) as [[] ?]; cbn in *; auto.
Qed.

(** Deliver, complete and notify, for an order already marked paid. *)
Lemma finish_order_wp u o o2 p now nb upd d s :
billing_upto fine (db s) → evolves fine d (db s) → orders (db s) !! order_id o = Some o2 →
order_status o2 = PAID → upd_status upd = Some COMPLETED →
wp (_record_promo_activation o ;; deliver_order activate env u o now ;;
    update_order (order_id o) upd ;; after_completion env u o p nb)
  (λ _ s', evolves fine d (db s') ∧
     ∃ o', orders (db s') !! order_id o = Some o' ∧ order_status o' = COMPLETED)
  (λ _ s', evolves fine d (db s')) s.
Proof using Type*.
intros Hinv Hev Ho2 Hst Hupd.
apply wp_bind. eapply wp_mono; [apply (wp_quiet_then _ d); eauto with keeps| |done].
cbn beta. intros _ s1 (Hinv1 & Hev1 & Hm1).
destruct (Hm1 _ _ Ho2) as (o3 & Ho3 & _ & E3).
apply wp_bind. eapply wp_mono;
  [apply (wp_quiet_then _ d); [apply deliver_order_quiet|done|done]| |done].
cbn beta. intros _ s2 (Hinv2 & Hev2 & Hm2). destruct (Hm2 _ _ Ho3) as (o4 & Ho4 & _ & E4).
apply wp_bind. eapply (wp_update_status _ _ o4 COMPLETED); [done|done|done| |].
{ rewrite <-E4, <-E3, Hst. constructor. }
intros s3 Hev3 _ (o5 & Ho5 & Hst5 & _). destruct (Hev3 Hinv2) as [Hinv3 _].
eapply wp_mono; [apply (wp_quiet_then _ d); [apply after_completion_quiet|done|by etrans]| |done].
cbn beta. intros _ s4 (_ & Hev4 & Hm4). split; [done|].
destruct (Hm4 _ _ Ho5) as (o6 & Ho6 & _ & E6). exists o6. split; congruence.
Qed.

(** A pending order, when its fulfilment returns, ends completed; in every case
  the invariant is kept and orders move along the steps only. *)
Lemma fulfill_pending_wp o p meta fee method s :
billing_upto fine (db s) → orders (db s) !! order_id o = Some o → order_status o = PENDING →
wp (_fulfill_order_locked activate env o p meta fee method)
  (λ _ s', evolves fine (db s) (db s') ∧
     ∃ o', orders (db s') !! order_id o = Some o' ∧ order_status o' = COMPLETED)
  (λ _ s', evolves fine (db s) (db s')) s.
Proof using Type*.
intros Hinv Ho Hst. unfold _fulfill_order_locked. rewrite Hst.
rewrite bool_decide_false
  by (unfold ORDER_FINAL_STATUSES; rewrite !elem_of_cons, elem_of_nil; intuition congruence).
apply wp_bind, wp_raise_if; [done|]. intros _.
unfold _lock_user. apply wp_bind, wp_get_by_id. cbn [t_rows users_tbl].
destruct (users (db s) !! order_user_id o) as [u|] eqn:Hu.
2: { unfold fulfill_user_missing. apply wp_bind.
     eapply (wp_update_status _ _ o FAILED); [done|done|done|by rewrite Hst; constructor|].
     intros s1 Hev _ _. destruct (has_notifications env); done. }
apply wp_bind, wp_utcnow. set (s0 := {| db := db s |}).
apply wp_bind.
eapply wp_mono; [apply (wp_frame id _ s0 (eq (db s))); [apply fee_step_frame|done]| |].
2: { cbn. intros _ s1 <-. done. }
cbn [id]. intros fee' s1 Hdb1. unfold id in Hdb1.
apply wp_bind. eapply (wp_update_status _ _ o PAID);
  [by rewrite <-Hdb1|by rewrite <-Hdb1|done|by rewrite Hst; constructor|].
rewrite <-Hdb1. intros s2 Hev2 Hm2 (o2 & Ho2 & Hst2 & _). cbv zeta.
destruct (Hev2 Hinv) as [Hinv2 Hmove2].
assert (Hu2 : users (db s2) !! order_user_id o = Some u)
  by (unfold money in Hm2; by injection Hm2 as -> _).
pose proof (ledger_user _ _ _ _ (bi_ledger _ Hinv2) Hu2) as Hid. rewrite Hid.
apply (wp_posting (order_user_id o) u); [done|done|]. cbv zeta.
assert (Hp0 : payments_for (order_id o) (db s2) = 0%nat).
{ unfold payments_for. injection Hm2 as _ ->. apply (unsettled_unpaid (db s) _ o Hinv Ho).
  unfold settled. rewrite Hst. intuition congruence. }
apply finish_order_wp with (o2 := o2); [| |done|done|done].
- apply (posted_payment_inv _ _ _ _ _ (order_id o) o2); try done; [by rewrite Hid|].
  rewrite Hst2. by left.
- intros _. split; [|exact Hmove2].
  apply (posted_payment_inv _ _ _ _ _ (order_id o) o2); try done; [by rewrite Hid|].
  rewrite Hst2. by left.
Qed.

Lemma fulfill_wp o p meta fee method s :
billing_upto fine (db s) → orders (db s) !! order_id o = Some o →
wp (_fulfill_order_locked activate env o p meta fee method)
  (λ _ s', evolves fine (db s) (db s') ∧
     ∃ o', orders (db s') !! order_id o = Some o' ∧ order_status o' ∈ ORDER_FINAL_STATUSES)
  (λ _ s', evolves fine (db s) (db s')) s.
Proof using Type*.
intros Hinv Ho. destruct (decide (order_status o = PENDING)) as [Hst|Hst].
- eapply wp_mono; [by apply fulfill_pending_wp| |done]. cbn.
  intros _ s' [Hev (o' & Ho' & E)]. split; [done|]. exists o'. split; [done|].
  rewrite E. unfold ORDER_FINAL_STATUSES. set_solver.
- unfold _fulfill_order_locked. case_bool_decide as Hf.
  { apply wp_ret. split; [done|]. by exists o. }
  apply wp_bind, wp_raise_if; [done|]. intros Hexp%bool_decide_eq_false.
  exfalso. unfold ORDER_FINAL_STATUSES in Hf. rewrite !elem_of_cons in Hf.
  destruct (order_status o); tauto.
Qed.

(** An operation may assume the invariant of the state it starts in. *)
Lemma keeps_assume_inv {A} (m : SM A) :
(∀ s, billing_upto fine (db s) →
   wp m (λ _ s', evolves fine (db s) (db s')) (λ _ s', evolves fine (db s) (db s')) s) →
keeps (on_db (evolves fine)) m.
Proof.
intros H s Hinv. specialize (H s Hinv). unfold wp in H.
destruct (m s) as [[] ?]; by apply H.
Qed.

(** ** Orders paid from the balance, and trials *)

(** Complete a paid order, then a quiet statement. *)
Lemma wp_complete {A} oid upd o2 (k : SM A) d s :
billing_upto fine (db s) → evolves fine d (db s) → orders (db s) !! oid = Some o2 →
order_status o2 = PAID → upd_status upd = Some COMPLETED → keeps (on_db (quiet fine)) k →
wp (update_order oid upd ;; k) (λ _ s', evolves fine d (db s')) (λ _ s', evolves fine d (db s')) s.
Proof.
intros Hinv Hev Ho Hst Hupd Hk. apply wp_bind.
eapply (wp_update_status _ _ o2 COMPLETED); [done|done|done|by rewrite Hst; constructor|].
intros s1 Hev1 _ _. eapply wp_mono;
  [apply (wp_then (evolves fine)); [by apply keeps_evolves|etrans; [exact Hev|exact Hev1]]|done|done].
Qed.

(** The row an insert leaves. *)
Lemma create_order_row_wp c s :
billing_upto fine (db s) →
wp (create_order_row c)
  (λ o s', billing_upto fine (db s') ∧ quiet fine (db s) (db s') ∧ orders (db s') !! order_id o = Some o ∧
     order_status o = oic_status c ∧ order_user_id o = oic_user_id c ∧
     order_plan_id o = oic_plan_id c)
  (λ _ s', db s' = db s) s.
Proof.
intros Hinv. pose proof (create_order_row_quiet (fine:=fine) c s) as Hq. unfold on_db in Hq.
destruct (Hq Hinv) as [Hinv1 _]. revert Hq Hinv1. unfold wp, create_order_row. rewrite create_run.
cbv zeta. destruct (t_rows orders_tbl (db s) !! _); [done|].
destruct (t_check orders_tbl _ _ _); [done|]. intros Hq Hinv1.
split_and!; [done|done|apply lookup_insert_eq|done|done|done].
Qed.

(** Insert an order marked paid, run a quiet statement on it, complete it. *)
Lemma wp_paid_order {A B} c (body : PaymentOrder → SM B) upd (k : PaymentOrder → SM A) :
oic_status c = PAID → upd_status upd = Some COMPLETED →
(∀ o, keeps (on_db (quiet fine)) (body o)) → (∀ o, keeps (on_db (quiet fine)) (k o)) →
keeps (on_db (evolves fine))
  (order ← create_order_row c; body order ;; update_order (order_id order) upd ;; k order).
Proof.
intros Hc Hupd Hb Hk. apply keeps_assume_inv. intros s Hinv. apply wp_bind.
eapply wp_mono; [by apply create_order_row_wp| |by intros _ s' ->]. cbn beta.
intros row s1 (Hinv1 & Hq & Hrow & Hst & _).
apply wp_bind. eapply wp_mono;
  [apply (wp_quiet_then _ (db s)); [done|done|by apply quiet_evolves]| |done].
cbn beta. intros _ s2 (Hinv2 & Hev2 & Hm2).
destruct (Hm2 _ _ Hrow) as (o2 & Ho2 & _ & E2).
apply (wp_complete _ _ o2); [done|done|done|congruence|done|done].
Qed.

Lemma order_out_quiet o : keeps (on_db (quiet fine)) (order_out o).
Proof. unfold order_out. keeps_tac. Qed.
Hint Resolve order_out_quiet : keeps.

Lemma create_free_evolves u plan data : keeps (on_db (evolves fine)) (_create_free_order env u plan data).
Proof.
unfold _create_free_order. do 2 (apply keeps_bind; [apply _|auto with keeps typeclass_instances|intros ?]).
apply wp_paid_order; [done|done|auto with keeps|]. intros o. keeps_tac.
Qed.

Lemma create_balance_slots_evolves uid sid qty amount :
keeps (on_db (evolves fine)) (_create_balance_device_slot_order uid sid qty amount).
Proof.
unfold _create_balance_device_slot_order.
do 2 (apply keeps_bind; [apply _|auto with keeps typeclass_instances|intros ?]).
apply wp_paid_order; [done|done| |]; intros o; keeps_tac.
Qed.

Lemma create_balance_plan_evolves u plan data amount extra m promo disc :
keeps (on_db (evolves fine)) (_create_balance_plan_order activate env u plan data amount extra m promo disc).
Proof using Type*.
unfold _create_balance_plan_order.
do 2 (apply keeps_bind; [apply _|auto with keeps typeclass_instances|intros ?]).
apply wp_paid_order; [done|done|auto with keeps|]. intros o. keeps_tac.
Qed.

(** ** Order creation *)

Lemma payment_fields_quiet p uid a desc m : keeps (on_db (quiet fine)) (payment_fields env p uid a desc m).
Proof. unfold payment_fields, call_create_payment, _get_provider. keeps_tac. Qed.

Lemma switch_from_quiet uid pid ty : keeps (on_db (quiet fine)) (switch_from uid pid ty).
Proof. unfold switch_from, _current_active_subscription, list_by_user_id. keeps_tac. Qed.

Lemma check_audience_quiet p uid pid : keeps (on_db (quiet fine)) (_check_audience p uid pid).
Proof.
intros s. pose proof (check_audience_wp p uid pid s) as H. unfold wp in H. unfold on_db.
destruct (_check_audience p uid pid s) as [[] s']; cbn in *; [by rewrite H|].
destruct H as [_ ->]. reflexivity.
Qed.

Lemma validate_and_quote_quiet code uid pid ty a :
keeps (on_db (quiet fine)) (validate_and_quote code uid pid ty a).
Proof.
unfold validate_and_quote, get_by_code, count_for_user. pose proof check_audience_quiet. keeps_tac.
Qed.
Hint Resolve payment_fields_quiet switch_from_quiet validate_and_quote_quiet : keeps.

Lemma top_up_quiet u data : keeps (on_db (quiet fine)) (_create_top_up_order env u data).
Proof. unfold _create_top_up_order. keeps_tac. Qed.

(** A quiet prefix of an operation. *)
Ltac quiet_prefix := apply keeps_bind; [apply _|apply keeps_evolves; solve [keeps_tac]|intros ?].

Lemma device_slot_order_evolves data : keeps (on_db (evolves fine)) (_create_device_slot_order env data).
Proof.
unfold _create_device_slot_order.
destruct (oci_subscription_id data) as [sid|]; [|apply keeps_evolves; keeps_tac].
quiet_prefix. destruct a as [b|]; [|apply keeps_evolves; keeps_tac].
do 2 quiet_prefix. destruct a0 as [plan|]; [|apply keeps_evolves; keeps_tac]. cbv zeta.
do 3 quiet_prefix. case_bool_decide; [apply create_balance_slots_evolves|].
apply keeps_evolves. keeps_tac.
Qed.

Lemma create_trial_evolves user plan data : keeps (on_db (evolves fine)) (create_trial env user plan data).
Proof.
unfold create_trial, has_completed_order_for_plan, _has_live_subscription,
  list_by_user_id, has_completed_paid_order.
do 6 quiet_prefix. apply create_free_evolves.
Qed.

Lemma create_paid_evolves user plan data :
keeps (on_db (evolves fine)) (create_paid_order activate env user plan data).
Proof using Type*.
unfold create_paid_order. cbv zeta.
destruct (_resolve_period_price _ _); [|apply keeps_evolves; keeps_tac].
unfold _guard_no_downgrade, _switch_proration. do 2 quiet_prefix.
unfold apply_promo. cbv zeta. quiet_prefix.
match goal with x : (Z * option Z * option Z)%type |- _ => destruct x as [[amount promo] disc] end.
quiet_prefix. case_bool_decide; [apply create_balance_plan_evolves|].
apply keeps_evolves. keeps_tac.
Qed.

Lemma create_order_evolves data : keeps (on_db (evolves fine)) (create_order activate env data).
Proof using Type*.
unfold create_order. quiet_prefix. destruct a as [user|]; [|apply keeps_evolves; keeps_tac].
assert (H : keeps (on_db (evolves fine)) (create_plan_order activate env user data)).
{ unfold create_plan_order, get_plan_opt, renewal_target. quiet_prefix.
  destruct a as [plan|]; [|apply keeps_evolves; keeps_tac]. cbv zeta.
  do 4 quiet_prefix. destruct (price_rub plan <=? 0);
    [apply create_trial_evolves|apply create_paid_evolves]. }
destruct (oci_order_type data); [exact H|exact H|apply device_slot_order_evolves|].
apply keeps_evolves, top_up_quiet.
Qed.

(** ** Webhooks, Stars, refunds and the rest *)

(** The row a unique lookup returns. *)
Lemma external_id_lookup ext s o s' :
keyed orders_tbl (db s) →
get_by_external_id_for_update ext s = (Ok (Some o), s') →
s' = s ∧ orders (db s) !! order_id o = Some o ∧ external_id o = ext ∧
∀ i y, orders (db s) !! i = Some y → external_id y = ext → y = o.
Proof.
intros Hk. unfold get_by_external_id_for_update, get_by_external_id, mbind, M_bind,
  select_where, read, gets. cbn [t_rows orders_tbl]. set (l := filter _ _).
destruct l as [|x [|y l']] eqn:El; [done| |done]. intros [= <- <-].
assert (x ∈ l) as Hx by (rewrite El; left).
apply list_elem_of_filter in Hx as [E%String.eqb_eq [i Hi]%elem_of_rows].
rewrite (Hk i x Hi : order_id x = i). split_and!; [done|done|done|].
intros j y Hy Ey. assert (y ∈ l) as Hin.
{ apply list_elem_of_filter. split; [by apply String.eqb_eq|]. apply elem_of_rows. eauto. }
rewrite El in Hin. by apply list_elem_of_singleton in Hin.
Qed.

(** The lookup reads only. *)
Lemma external_id_readonly ext s r : (get_by_external_id_for_update ext s) = r → r.2 = s.
Proof.
intros <-. unfold get_by_external_id_for_update, get_by_external_id, mbind, M_bind,
  select_where, read, gets. by destruct (filter _ _) as [|? []].
Qed.

Lemma webhook_non_paid_evolves o w s :
billing_upto fine (db s) → orders (db s) !! order_id o = Some o →
wp (webhook_non_paid o w) (λ _ s', evolves fine (db s) (db s')) (λ _ s', evolves fine (db s) (db s')) s.
Proof.
intros Hinv Ho. unfold webhook_non_paid.
destruct (_ && bool_decide (order_status o = PENDING)) eqn:Hc.
- apply andb_prop in Hc as [_ Hst%bool_decide_eq_true].
  eapply (wp_update_status _ _ o EXPIRED); [done|done|done|by rewrite Hst; constructor|done].
- apply (wp_then (evolves fine)); [|done]. apply keeps_evolves. auto with keeps.
Qed.

Lemma process_webhook_evolves p req : keeps (on_db (evolves fine)) (process_webhook activate env p req).
Proof using Type*.
unfold process_webhook, _get_provider. quiet_prefix.
destruct (verify_webhook a req) as [w|e]; [|apply keeps_evolves; keeps_tac].
apply keeps_assume_inv. intros s Hinv. apply wp_bind. unfold wp at 1.
destruct (get_by_external_id_for_update _ s) as [[[o|]|e] s'] eqn:Hget.
- apply external_id_lookup in Hget as (-> & Ho & _ & _); [|apply Hinv].
  apply wp_bind, wp_raise_if; [done|]. intros _.
  destruct (negb _); [by apply webhook_non_paid_evolves|].
  eapply wp_mono; [by apply fulfill_wp|by intros ? ? []|done].
- apply external_id_readonly in Hget. cbn in Hget. by subst s'.
- apply external_id_readonly in Hget. cbn in Hget. by subst s'.
Qed.

Lemma confirm_stars_evolves oid c t :
keeps (on_db (evolves fine)) (confirm_stars_payment activate env oid c t).
Proof using Type*.
apply keeps_assume_inv. intros s Hinv. unfold confirm_stars_payment, get_by_id_for_update.
apply wp_bind, wp_get_by_id. cbn [t_rows orders_tbl].
destruct (orders (db s) !! oid) as [o|] eqn:Ho; [|done].
pose proof (bi_keyed _ Hinv _ _ Ho) as Hid. cbn in Hid. subst oid.
apply wp_bind, wp_raise_if; [done|]. intros _.
eapply wp_mono; [by apply fulfill_wp|by intros ? ? []|done].
Qed.

Lemma refund_evolves iso oid reason deact :
keeps (on_db (evolves fine)) (refund_order env iso oid reason deact).
Proof.
apply keeps_assume_inv. intros s Hinv. unfold refund_order, get_by_id_for_update, _lock_user.
apply wp_bind, wp_get_by_id. cbn [t_rows orders_tbl].
destruct (orders (db s) !! oid) as [o|] eqn:Ho; [|done].
pose proof (bi_keyed _ Hinv _ _ Ho) as Hid. cbn in Hid. subst oid.
apply wp_bind, wp_raise_if; [done|]. intros Hst%negb_false_iff%bool_decide_eq_true.
assert (Hstep : status_step (order_status o) REFUNDED).
{ unfold ORDER_REFUNDABLE_STATUSES in Hst. rewrite !elem_of_cons, elem_of_nil in Hst.
  destruct Hst as [->|[->|[]]]; constructor. }
apply wp_bind, wp_get_by_id. cbn [t_rows users_tbl].
destruct (users (db s) !! order_user_id o) as [u|] eqn:Hu; [|done]. cbv zeta.
pose proof (ledger_user _ _ _ _ (bi_ledger _ Hinv) Hu) as Hid. rewrite Hid.
apply (wp_posting (order_user_id o) u); [done|done|]. cbv zeta. set (s1 := with_db _ _).
assert (Hq : quiet fine (db s) (db s1)).
{ apply posted_quiet; cbn; [by rewrite Hid|done|done|apply carries_exact; cbn; lia|done]. }
destruct (Hq Hinv) as [Hinv1 _].
apply wp_bind, wp_utcnow, wp_bind.
eapply (wp_update_status _ _ o REFUNDED); [exact Hinv1|exact Ho|done|done|].
intros s2 Hev2 _ _. apply (wp_then (evolves fine)); [apply keeps_evolves|].
- unfold invalidate_by_subscription_ids, invalidate_by_token_hashes. keeps_tac.
- etrans; [by apply quiet_evolves|exact Hev2].
Qed.

(** The entry of a manual credit or debit. *)
Lemma manual_carries b a t :
0 < den a → fine = true ∨ whole a = true → manual t = true →
tx_amount t = to_column a → balance_after t = to_column (rat_add (rat_of_Z b) a) → carries fine t b.
Proof.
intros Hd Hf Hm Ha Hb. destruct (whole a) eqn:Hw.
- apply carries_exact. by rewrite Hb, Ha, to_column_add_whole.
- destruct Hf as [->|]; [|done]. unfold carries. rewrite Hm, Hb, Ha. by apply to_column_add.
Qed.

Lemma amount_positive a : amount_in_range a = true → 0 < den a.
Proof. unfold amount_in_range. intros [?%Z.ltb_lt ?%Z.leb_le]%andb_prop. nia. Qed.

Lemma credit_balance_quiet uid data :
amount_in_range (bci_amount data) = true → fine = true ∨ whole (bci_amount data) = true →
keeps (on_db (quiet fine)) (credit_balance uid data).
Proof.
intros Hd%amount_positive Hf. unfold credit_balance, _lock_user. apply keeps_get. intros s. cbn [t_rows users_tbl].
destruct (users (db s) !! uid) as [v|] eqn:Hv; [|done]. cbv zeta.
apply (wp_carried_posting uid); [done|done| |keeps_tac]. intros t Hty Ha Hb.
apply (manual_carries _ (bci_amount data)); [done|done| |done|done]. unfold manual. by rewrite Hty.
Qed.

Lemma debit_balance_quiet uid data :
amount_in_range (bdi_amount data) = true → fine = true ∨ whole (bdi_amount data) = true →
keeps (on_db (quiet fine)) (debit_balance uid data).
Proof.
intros Hd%amount_positive Hf. unfold debit_balance, _lock_user. apply keeps_get. intros s. cbn [t_rows users_tbl].
destruct (users (db s) !! uid) as [v|] eqn:Hv; [|done]. destruct (rat_ltb _ _); [done|]. cbv zeta.
apply (wp_carried_posting uid); [done|done| |keeps_tac]. intros t Hty Ha Hb.
apply (manual_carries _ (rat_opp (bdi_amount data))); [done| |unfold manual; by rewrite Hty|done|done].
destruct Hf as [->|Hw]; [by left|right]. by apply whole_opp.
Qed.

Lemma metadata_quiet oid c m : keeps (on_db (quiet fine)) (update_order_metadata oid c m).
Proof. unfold update_order_metadata. keeps_tac. Qed.

Lemma fee_ops_quiet data fid :
keeps (on_db (quiet fine)) (upsert_provider_fee data) ∧ keeps (on_db (quiet fine)) (delete_provider_fee fid).
Proof.
split; apply keeps_core_quiet; unfold upsert_provider_fee, get_match, delete_provider_fee; keeps_tac.
Qed.

(** The rows the bulk update touches. *)
Lemma expire_moves now n s k s' :
keyed orders_tbl (db s) → bulk_expire_pending now n s = (Ok k, s') →
∀ i o, orders (db s) !! i = Some o → ∃ o', orders (db s') !! i = Some o' ∧ order_fixed o o' ∧
  (o' = o ∨ (order_status o = PENDING ∧ order_status o' = EXPIRED)).
Proof.
intros Hk Hrun i o Ho. apply bulk_expire_spec in Hrun as (_ & ids & _ & _ & Hin & Hout); [|done].
destruct (decide (i ∈ ids)) as [Hi|Hi].
- destruct (Hin i Hi) as (x & Hx & Hov & Hx'). rewrite Ho in Hx. injection Hx as <-.
  eexists. split_and!; [exact Hx'|by unfold order_fixed|]. right. split; [|done].
  unfold overdue in Hov. by apply andb_prop in Hov as [?%bool_decide_eq_true _].
- exists o. rewrite (Hout i Hi). split_and!; [done|done|by left].
Qed.

Lemma expiration_evolves n : keeps (on_db (evolves fine)) (expiration_tick n).
Proof.
assert (Hmoney : keeps (on_db (same money)) (expiration_tick n))
  by (unfold expiration_tick, bulk_expire_pending; keeps_tac).
intros s Hinv. specialize (Hmoney s). revert Hmoney. unfold on_db, expiration_tick.
unfold mbind at 1 2 3, M_bind at 1 2 3, utcnow. fold (tick s). set (now := clock s (ticks s)).
destruct (bulk_expire_pending now (Nat.max 1 n) (tick s)) as [[k|e] s'] eqn:Hrun; cbn; intros Hmoney.
2: { revert Hrun. unfold bulk_expire_pending, mbind at 1, M_bind at 1, select_where, read, gets.
     cbv zeta. case_bool_decide; [done|]. unfold mbind, M_bind, write, modify. done. }
pose proof (expire_moves _ _ _ _ _ (bi_keyed _ Hinv : keyed orders_tbl (db (tick s))) Hrun) as Hmv.
cbn in Hmv. split.
- constructor.
  + apply (ledger_same_money fine (db s)); [done|apply Hinv].
  + apply bulk_expire_spec in Hrun as (_ & ids & _ & _ & Hin & Hout); [|apply Hinv].
    intros i o'. cbn. destruct (decide (i ∈ ids)) as [Hi|Hi].
    * destruct (Hin i Hi) as (x & Hx & _ & ->). intros [= <-]. apply (bi_keyed _ Hinv i x Hx).
    * rewrite (Hout i Hi). apply (bi_keyed _ Hinv).
  + intros i. assert (payments_for i (db s') = payments_for i (db s)) as ->
      by (unfold payments_for; by injection Hmoney as _ ->).
    destruct (bi_once _ Hinv i) as [H0|(H1 & o & Ho & Hs)]; [by left|]. right. split; [done|].
    destruct (Hmv i o Ho) as (o' & Ho' & _ & [->|[Hp _]]); [by exists o|].
    exfalso. unfold settled in Hs. rewrite Hp in Hs. intuition congruence.
- intros i o Ho. destruct (Hmv i o Ho) as (o' & Ho' & Hf & Hs). exists o'. split_and!; [done|done|].
  destruct Hs as [->|[-> ->]]; [done|]. by apply rtc_once; constructor.
Qed.
End Parts.

(** * Histories *)

(** The state-changing operations of billing, as requests or reconciler
    ticks. *)
Inductive billing_op (Req : Type) :=
| OpCreateOrder (data : OrderCreateIn)
| OpWebhook (p : PaymentProviderEnum) (req : Req)
| OpConfirmStars (oid : Z) (charge_id : string) (total : Z)
| OpRefund (oid : Z) (reason : string) (deactivate : bool)
| OpMetadata (oid : Z) (chat message : option Z)
| OpCredit (uid : Z) (data : BalanceCreditIn)
| OpDebit (uid : Z) (data : BalanceDebitIn)
| OpUpsertFee (data : ProviderFeeUpsertIn)
| OpDeleteFee (fid : Z)
| OpExpire (batch : nat).
Arguments OpCreateOrder {Req}. Arguments OpWebhook {Req}. Arguments OpConfirmStars {Req}.
Arguments OpRefund {Req}. Arguments OpMetadata {Req}. Arguments OpCredit {Req}.
Arguments OpDebit {Req}. Arguments OpUpsertFee {Req}. Arguments OpDeleteFee {Req}.
Arguments OpExpire {Req}.

Section Histories.
Context {Req : Type} (activate : Z → SM Z) (env : BillingEnv Req) (iso : Z → string).

Definition run_billing_op (op : billing_op Req) : SM unit :=
match op with
| OpCreateOrder data => create_order activate env data ;; mret tt
| OpWebhook p req => process_webhook activate env p req
| OpConfirmStars oid c t => confirm_stars_payment activate env oid c t
| OpRefund oid reason deact => refund_order env iso oid reason deact
| OpMetadata oid c m => update_order_metadata oid c m
| OpCredit uid data =>
    raise_if (negb (amount_in_range (bci_amount data))) (ValidationError "BalanceCreditIn") ;;
    credit_balance uid data ;; mret tt
| OpDebit uid data =>
    raise_if (negb (amount_in_range (bdi_amount data))) (ValidationError "BalanceDebitIn") ;;
    debit_balance uid data ;; mret tt
| OpUpsertFee data => upsert_provider_fee data
| OpDeleteFee fid => delete_provider_fee fid
| OpExpire n => expiration_tick n ;; mret tt
end.

(** A history: requests one after another, each committed or rolled back. *)
Fixpoint run_history (ops : list (billing_op Req)) (s : session) : session :=
match ops with
| [] => s
| op :: ops => run_history ops (run_request (run_billing_op op) s).2
end.

Context `{!SubscriptionActivation activate}.

(** A manual credit or debit is in whole kopecks. *)
Definition whole_kopecks (op : billing_op Req) : Prop :=
match op with
| OpCredit _ data => whole (bci_amount data) = true
| OpDebit _ data => whole (bdi_amount data) = true
| _ => True
end.

Lemma billing_op_evolves fine op : fine = true ∨ whole_kopecks op → keeps (on_db (evolves fine)) (run_billing_op op).
Proof using Type*.
intros Hf. destruct op; cbn [run_billing_op].
- pose proof (create_order_evolves (fine:=fine) activate env). keeps_tac.
- by apply process_webhook_evolves.
- by apply confirm_stars_evolves.
- apply refund_evolves.
- apply keeps_evolves, metadata_quiet.
- apply keeps_evolves. destruct (amount_in_range _) eqn:Ha; [|intros s; unfold on_db; cbn; reflexivity].
  pose proof (credit_balance_quiet (fine:=fine) uid data Ha Hf). keeps_tac.
- apply keeps_evolves. destruct (amount_in_range _) eqn:Ha; [|intros s; unfold on_db; cbn; reflexivity].
  pose proof (debit_balance_quiet (fine:=fine) uid data Ha Hf). keeps_tac.
- apply keeps_evolves, fee_ops_quiet. exact 0.
- apply keeps_evolves, fee_ops_quiet.
  exact {| pfu_provider := ""; pfu_payment_method := None; pfu_fee_percent := 0 |}.
- pose proof (expiration_evolves (fine:=fine)). keeps_tac.
Qed.

Lemma history_evolves fine ops s : fine = true ∨ Forall whole_kopecks ops → evolves fine (db s) (db (run_history ops s)).
Proof using Type*.
revert s. induction ops as [|op ops IH]; intros s Hf; cbn; [reflexivity|].
assert (fine = true ∨ whole_kopecks op) as H1 by (destruct Hf as [|Hf]; [by left|right; by apply Forall_cons in Hf as [? _]]).
assert (fine = true ∨ Forall whole_kopecks ops) as H2 by (destruct Hf as [|Hf]; [by left|right; by apply Forall_cons in Hf as [_ ?]]).
etrans; [|by apply IH]. pose proof (billing_op_evolves fine op H1 s) as H. unfold on_db in H. unfold run_request.
destruct (run_billing_op op s) as [[] s']; cbn in *; [done|reflexivity].
Qed.

(** C1: Whatever requests and expiry ticks billing serves, in whatever order, no order is ever
  credited twice: at most one payment entry per order, and one only for an order that was
  paid; and every balance follows its recorded transactions: it is within one kopeck per
  manual credit or debit of their sum, the columns having two decimals and the amounts of
  those requests any number of them.  When the manual amounts are in whole kopecks each
  balance is exactly the sum of its transactions, and each transaction carries the balance it
  led to. *)
Theorem billing_history_keeps_ledger ops s :
billing_inv (db s) →
let s' := run_history ops s in
let total uid := foldr (λ t z, tx_amount t + z) 0 (user_txs uid (db s')) in
billing_upto true (db s') ∧
(∀ uid u, users (db s') !! uid = Some u →
   Z.abs (balance u - total uid) ≤ Z.of_nat (length (filter (λ t, manual t = true) (user_txs uid (db s'))))) ∧
(Forall whole_kopecks ops →
   billing_inv (db s') ∧ ∀ uid u, users (db s') !! uid = Some u → balance u = total uid).
Proof using Type*.
intros Hinv s' total. destruct (history_evolves true ops s (or_introl eq_refl) (billing_inv_upto _ Hinv)) as [Hinv' _].
split_and!; [done| |].
- intros uid u Hu. apply (running_drift true), (bi_ledger _ Hinv'), Hu.
- intros Hw. destruct (history_evolves false ops s (or_intror Hw) Hinv) as [Hinv2 _]. split; [done|].
  intros uid u Hu. apply running_sum, (bi_ledger _ Hinv2), Hu.
Qed.

(** C34: The life of an order: through any history an order is never removed,
  its user, plan, amount, provider, type, slots, period and promo stay what
  they were, and its status moves only along pending to paid, completed,
  expired or failed and paid or completed to refunded; so expired, failed and
  refunded are final. *)
Theorem order_life ops s oid o :
billing_inv (db s) → orders (db s) !! oid = Some o →
∃ o', orders (db (run_history ops s)) !! oid = Some o' ∧ order_fixed o o' ∧
  rtc status_step (order_status o) (order_status o') ∧
  (order_status o ∈ [EXPIRED; FAILED; REFUNDED] → order_status o' = order_status o).
Proof using Type*.
intros Hinv Ho. destruct (history_evolves true ops s (or_introl eq_refl) (billing_inv_upto _ Hinv)) as [_ Hm].
destruct (Hm oid o Ho) as (o' & Ho' & Hf & Hr). exists o'. split_and!; [done|done|done|].
rewrite !elem_of_cons, elem_of_nil. intros Hst.
inversion Hr as [|x y z Hstep]; [done|]. subst.
destruct Hstep; intuition congruence.
Qed.

(** Confirming a Stars payment is idempotent: once a confirmation has
  returned, confirming the same order again, with any charge id and amount,
  changes nothing in the database. *)
Theorem confirm_stars_idempotent oid c t c' t' s s1 :
billing_inv (db s) →
confirm_stars_payment activate env oid c t s = (Ok tt, s1) →
confirm_stars_payment activate env oid c' t' s1 = (Ok tt, s1).
Proof using Type*.
intros Hinv Hrun.
assert (∃ o', orders (db s1) !! oid = Some o' ∧ order_status o' ∈ ORDER_FINAL_STATUSES ∧
  order_provider o' = STARS) as (o' & Ho' & Hst & Hp).
{ revert Hrun. unfold confirm_stars_payment, get_by_id_for_update, get_by_id, read, gets.
  unfold mbind at 1, M_bind at 1. cbn [t_rows orders_tbl].
  destruct (orders (db s) !! oid) as [o|] eqn:Ho; [|done].
  pose proof (bi_keyed _ Hinv _ _ Ho) as Hid. cbn in Hid. subst oid.
  unfold mbind at 1, M_bind at 1. case_bool_decide as Hp; cbn [negb raise_if]; [|done].
  unfold mret, M_ret. intros Hrun.
  pose proof (wp_ok _ _ _ _ _ _ (fulfill_wp activate env o STARS _ None None s Hinv Ho) Hrun)
    as [Hev (o' & Ho' & Hst)].
  exists o'. split_and!; [done|done|].
  destruct (Hev Hinv) as [_ Hm]. destruct (Hm _ _ Ho) as (x & Hx & Hf & _).
  rewrite Ho' in Hx. injection Hx as <-. destruct Hf as (_ & _ & _ & _ & -> & _). done. }
unfold confirm_stars_payment, get_by_id_for_update, get_by_id, read, gets.
unfold mbind at 1, M_bind at 1. cbn [t_rows orders_tbl]. rewrite Ho'.
rewrite bool_decide_true by done. cbn [negb raise_if]. unfold mbind at 1, M_bind at 1, mret, M_ret.
unfold _fulfill_order_locked. by rewrite bool_decide_true.
Qed.

(** A gateway reports the same payment as often as it likes: once a
  fulfilling webhook has been processed, any further verified webhook for the
  same order leaves balances, transactions, orders' status and subscriptions
  alone. *)
Theorem webhook_redelivery p req req' w w' s s1 :
billing_inv (db s) → p ∈ [CRYPTO; FREEKASSA; PLATEGA] →
verify_webhook (provider_of env p) req = Ok w → should_fulfill w = true →
verify_webhook (provider_of env p) req' = Ok w' → should_fulfill w' = true →
wh_external_id w' = wh_external_id w →
process_webhook activate env p req s = (Ok tt, s1) →
db (process_webhook activate env p req' s1).2 = db s1.
Proof using Type*.
intros Hinv Hp Hw Hf Hw' Hf' Hext Hrun.
assert (Hprov : ∀ s, _get_provider env p s = (Ok (provider_of env p), s)).
{ intros x. rewrite !elem_of_cons, elem_of_nil in Hp. by destruct Hp as [->|[->|[->|[]]]]. }
revert Hrun. unfold process_webhook, mbind at 1, M_bind at 1. rewrite Hprov, Hw.
unfold mbind at 1, M_bind at 1.
destruct (get_by_external_id_for_update _ s) as [[[o|]|] s0] eqn:Hget; [|done|done].
apply external_id_lookup in Hget as (-> & Ho & He & _); [|apply Hinv].
unfold mbind at 1, M_bind at 1, raise_if. destruct (_ && _); [done|]. unfold mret, M_ret.
rewrite Hf. cbn [negb]. intros Hrun.
pose proof (wp_ok _ _ _ _ _ _ (fulfill_wp activate env o p _ _ _ s Hinv Ho) Hrun)
  as [Hev (o' & Ho' & Hst)].
destruct (Hev Hinv) as [Hinv1 _].
unfold mbind at 1, M_bind at 1. rewrite Hprov, Hw'. unfold mbind at 1, M_bind at 1.
destruct (get_by_external_id_for_update _ s1) as [[[x|]|] s2] eqn:Hget.
2,3: apply external_id_readonly in Hget; cbn in *; by subst s2.
apply external_id_lookup in Hget as (-> & Hx & _ & Huniq); [|apply Hinv1].
assert (o' = x) as ->.
{ apply (Huniq (order_id o)); [done|]. destruct (Hev Hinv) as [_ Hm].
  destruct (Hm _ _ Ho) as (y & Hy & Hfix & _). rewrite Ho' in Hy. injection Hy as <-.
  rewrite Hext, <-He. apply Hfix. }
unfold mbind at 1, M_bind at 1, raise_if. destruct (_ && _); [done|]. unfold mret, M_ret.
rewrite Hf'. cbn [negb]. unfold _fulfill_order_locked. by rewrite bool_decide_true.
Qed.
End Histories.
