(* ===== verification/BillingDelivery.v ===== *)
(** What billing delivers: the amounts it computes, the subscription a paid
    order leads to, the single free trial, and the reconcilers. *)

From stdpp Require Import base gmap strings list sorting.
From S2P Require Import Prelude Decimal Errors RouteModels BillingModels FleetModels Session Tables Ledger Promo Referral BillingRepo Billing BillingInv BillingProps.
Local Open Scope Z_scope.

(** * Amounts *)

(** A subscription's remaining days, as the source computes them, do not exceed
    [days] when the remaining time does not. *)
Lemma remaining_days_bounds us days :
  0 < us ≤ days * day → days ≤ 366 →
  let r := dec28 (rat_div (total_seconds us) (rat_of_Z 86400)) in
  0 < den r ∧ 0 ≤ num r ∧ le_cents r (days * 100).
Proof.
  intros Hus Hdays r. unfold day, hour, minute, second in *.
  set (t := total_seconds us). change (total_seconds us) with t in r.
  assert (Ht : 0 < den t) by (apply float53_den; done).
  assert (Hn : 0 ≤ num t) by (apply float53_nonneg; cbn [num den]; lia).
  assert (Hle : num t ≤ (days * 86400) * den t).
  { unfold t, total_seconds. apply float53_le; cbn [num den]; lia. }
  assert (Hq : 0 < den (rat_div t (rat_of_Z 86400))) by (clear -Ht; clearbody t; cbn; lia).
  clearbody t. subst r. split_and!.
  - by apply dec28_den.
  - apply dec28_nonneg; [done|]. cbn. lia.
  - apply dec28_le_cents; [done|lia|]. unfold le_cents. cbn. nia.
Qed.

(** The proration credit for a running subscription, computed by the
    source's float and 28-digit decimal arithmetic, is never negative and never
    more than the price of the period it was bought for, as long as no more than
    that period remains. *)
Theorem proration_bounds plan m e now price :
  _resolve_period_price plan m = Some price → 0 ≤ price < 10 ^ 10 →
  e - now ≤ PERIOD_DAYS m * day →
  0 ≤ _proration_value plan m (Some e) now ≤ price.
Proof.
  intros Hp Hprice Hrem. unfold _proration_value. rewrite Hp.
  destruct (Z.leb_spec e now); [lia|]. cbv zeta.
  assert (Hd : 30 ≤ PERIOD_DAYS m ≤ 365) by (unfold PERIOD_DAYS; repeat case_match; lia).
  destruct (remaining_days_bounds (e - now) (PERIOD_DAYS m)) as (Hr1 & Hr2 & Hr3); [lia|lia|].
  set (r := dec28 (rat_div (total_seconds _) _)) in *.
  destruct (num r <=? 0); [lia|]. destruct (Z.leb_spec price 0); [lia|].
  set (x := rat_mul _ r).
  assert (Hx : 0 < den x) by (cbn; lia).
  assert (Hx1 : le_cents (dec28 x) (price * PERIOD_DAYS m)).
  { apply dec28_le_cents; [done|nia|]. unfold le_cents in *. cbn. nia. }
  assert (Hx2 : 0 < den (dec28 x)) by (by apply dec28_den).
  assert (Hx3 : 0 ≤ num (dec28 x)) by (apply dec28_nonneg; [done|cbn; nia]).
  set (y := rat_div (dec28 x) _).
  assert (Hy : 0 < den y) by (cbn; nia).
  assert (Hy1 : le_cents (dec28 y) price).
  { apply dec28_le_cents; [done|lia|]. unfold le_cents in *. cbn. nia. }
  assert (Hy2 : 0 ≤ num (dec28 y)) by (apply dec28_nonneg; [done|cbn; nia]).
  pose proof (dec28_den y Hy). unfold quantize_even. split.
  - apply round_half_even_nonneg; lia.
  - apply round_half_even_le; [done|]. unfold le_cents in Hy1. lia.
Qed.

(** The fee taken from the fee table lies between zero and the amount, and
    the fee and the net amount stored on the order add up to the amount. *)
Theorem fee_and_net_add_up provider method order now meta s :
  fees_inv (db s) → 0 ≤ order_amount_rub order →
  wp (_resolve_fee_rub provider method (order_amount_rub order))
    (λ fee s', s' = s ∧
       let p := paid_update order now meta ((λ k, {| num := k; den := 100 |}) <$> fee) in
       match fee with
       | None => upd_fee_rub p = None ∧ upd_net_rub p = None
       | Some k => 0 ≤ k ≤ order_amount_rub order ∧ upd_fee_rub p = Some k ∧
           upd_net_rub p = Some (order_amount_rub order - k)
       end)
    (λ _ _, False) s.
Proof.
  intros Hf Ha. unfold _resolve_fee_rub. apply wp_bind.
  destruct (resolve_run provider method s Hf) as (o & Hrun & Ho). unfold wp at 1. rewrite Hrun.
  apply wp_ret. split; [done|]. destruct o as [f|]; [|done]. cbn [fmap option_fmap option_map].
  destruct Ho as [Hfee _]. destruct Hf as (_ & Hrange & _). specialize (Hrange _ _ Hfee).
  set (k := round_half_up _ _).
  assert (0 ≤ k) by (apply round_half_up_nonneg; nia).
  assert (k ≤ order_amount_rub order) by (apply round_half_up_le; lia).
  assert (Hexact : ∀ z, 0 ≤ z → round_half_up (100 * z) 100 = z).
  { intros z Hz. pose proof (round_half_up_bounds (100 * z) 100). lia. }
  split; [lia|]. unfold paid_update, to_kopecks, minus_fee. cbn. split.
  - by rewrite Hexact.
  - f_equal.
    assert (Hx : ∀ z, 0 ≤ z → round_half_up (100 * (z * 100)) (100 * 100) = z).
    { intros z Hz. pose proof (round_half_up_bounds (100 * (z * 100)) (100 * 100)). lia. }
    rewrite <-(Hx (order_amount_rub order - k)) by lia. f_equal; lia.
Qed.

(** * Delivery *)

(** A subscription of the user to the plan, active until [e] at least, linked
    from the order. *)
Definition delivered (d : database) (uid pid oid e : Z) : Prop :=
  ∃ b, subscriptions d !! sub_id b = Some b ∧ sub_user_id b = uid ∧ sub_plan_id b = Some pid ∧
    sub_is_active b = true ∧ (∃ e', sub_expires_at b = Some e' ∧ e ≤ e') ∧
    ∃ o, orders d !! oid = Some o ∧ order_id o = oid ∧ order_subscription_id o = Some (sub_id b).

(** Entries are only added to the ledger. *)
Definition tx_grows (d d' : database) : Prop := ∃ l, transactions d' = transactions d ++ l.
#[export] Instance tx_grows_preorder : PreOrder tx_grows.
Proof.
  split; [intros d; exists []; by rewrite app_nil_r|].
  intros d1 d2 d3 [l1 E1] [l2 E2]. exists (l1 ++ l2). by rewrite E2, E1, app_assoc.
Qed.

Lemma same_tx_grows d d' : same transactions d d' → tx_grows d d'.
Proof. unfold same. intros E. exists []. by rewrite app_nil_r. Qed.

Lemma keeps_tx_grows {A} (m : SM A) : keeps (on_db (same transactions)) m → keeps (on_db tx_grows) m.
Proof. intros H s. apply same_tx_grows, H. Qed.

Lemma record_transaction_grows uid a nb ty oid desc :
  keeps (on_db tx_grows) (_record_transaction uid a nb ty oid desc).
Proof. intros s. by eexists. Qed.

Lemma process_reward_grows settings uid :
  keeps (on_db tx_grows) (process_reward_if_eligible settings uid).
Proof.
  unfold process_reward_if_eligible, get_pending_by_referred_user, _credit_user, _lock_user.
  assert (∀ i g, keeps (on_db tx_grows) (update_by_id referrals_tbl i g)).
  { intros. apply keeps_tx_grows. keeps_tac. }
  assert (∀ i nb, keeps (on_db tx_grows) (_update_user_balance i nb)).
  { intros. apply keeps_tx_grows. auto with keeps. }
  pose proof record_transaction_grows. keeps_tac.
Qed.

Lemma activates_later activate s s' :
  fleet (db s') = fleet (db s) → next_uuid s ≤ next_uuid s' → activates_on activate s → activates_on activate s'.
Proof. intros Hf Hn H sid s2 Hf2 Hn2. apply H; [congruence|lia]. Qed.

(** The tables delivery is about. *)
Definition subs_orders (d : database) := (subscriptions d, orders d).

Section Delivery.
Context {Req : Type} (activate : Z → SM Z) (env : BillingEnv Req) `{!SubscriptionActivation activate}.

Lemma after_completion_returns u o p nb : returns (after_completion env u o p nb).
Proof.
unfold after_completion, reward_step, get_plan_opt.
apply returns_bind; [apply returns_when, returns_modify|intros _].
apply returns_bind; [|intros _; apply returns_when, returns_bind;
  [apply returns_gets|intros ?; apply returns_modify]].
destruct (_ && _); [|apply returns_when, returns_modify].
apply returns_bind; [apply returns_catch; intros; apply returns_ret|intros _].
apply returns_when, returns_bind; [|intros; apply returns_modify].
destruct (order_plan_id o); [apply returns_gets|apply returns_ret].
Qed.

Lemma after_completion_frame u o p nb : keeps (on_db (same subs_orders)) (after_completion env u o p nb).
Proof.
unfold after_completion, reward_step, get_plan_opt.
assert (∀ uid, keeps (on_db (same subs_orders)) (process_reward_if_eligible (referral_settings env) uid)).
{ intros uid. by apply process_reward_frame. }
keeps_tac.
Qed.

Lemma after_completion_grows u o p nb : keeps (on_db tx_grows) (after_completion env u o p nb).
Proof.
unfold after_completion, reward_step, get_plan_opt. pose proof process_reward_grows. keeps_tac.
Qed.

(** ** The subscription to extend *)

Lemma in_list_by_user uid b d :
keyed subs_tbl d →
b ∈ filter (λ b, (sub_user_id b =? uid) && (negb true || sub_is_active b) = true) (rows (subscriptions d)) →
subscriptions d !! sub_id b = Some b ∧ sub_user_id b = uid.
Proof.
intros Hk [[Hu%Z.eqb_eq _]%andb_prop [i Hi]%elem_of_rows]%list_elem_of_filter.
by rewrite (Hk i b Hi : sub_id b = i).
Qed.

Definition target_ok (d : database) (uid pid : Z) (r : option (Subscription * bool)) : Prop :=
match r with
| None => True
| Some (b, changed) => subscriptions d !! sub_id b = Some b ∧ sub_user_id b = uid ∧
    (changed = false → sub_plan_id b = Some pid)
end.

Lemma find_active_run uid pid s :
keyed subs_tbl (db s) →
∃ r, _find_active_subscription_for_plan uid pid s = (Ok r, s) ∧
  ∀ b, r = Some b → target_ok (db s) uid pid (Some (b, false)).
Proof.
intros Hk. eexists. split; [reflexivity|]. cbn. intros b [Hin Hp]%find_some.
apply list_elem_of_In, in_list_by_user in Hin as [? ?]; [|done].
split_and!; [done|done|]. intros _. by apply opt_Z_eqb_true.
Qed.

Lemma latest_run uid s :
keyed subs_tbl (db s) →
∃ r, get_latest_for_user uid s = (Ok r, s) ∧
  ∀ b, r = Some b → subscriptions (db s) !! sub_id b = Some b ∧ sub_user_id b = uid.
Proof.
intros Hk. eexists. split; [reflexivity|]. cbn. intros b Hb.
apply head_Some_elem_of in Hb. unfold order_by_desc in Hb. rewrite merge_sort_Permutation in Hb.
apply list_elem_of_filter in Hb as [[Hu%Z.eqb_eq _]%andb_prop [i Hi]%elem_of_rows].
by rewrite (Hk i b Hi : sub_id b = i).
Qed.

Lemma purchase_target_run uid pid o s :
keyed subs_tbl (db s) →
∃ r, purchase_target uid pid o s = (Ok r, s) ∧ target_ok (db s) uid pid r.
Proof.
intros Hk. unfold purchase_target.
set (renewed := match order_type o with SUBSCRIPTION_RENEWAL => _ | _ => _ end).
assert (Hren : ∃ r, renewed s = (Ok r, s) ∧ ∀ b, r = Some b → target_ok (db s) uid pid (Some (b, false))).
{ unfold renewed. destruct (order_type o); try (by exists None).
  destruct (order_subscription_id o) as [sid|]; [|by exists None].
  unfold mbind, M_bind, get_by_id, read, gets. cbn.
  destruct (subscriptions (db s) !! sid) as [b|] eqn:Hb; [|by exists None].
  eexists. split; [reflexivity|]. intros b'. destruct (_ && _) eqn:Hc; [|done]. intros [= <-].
  apply andb_prop in Hc as [Hu%Z.eqb_eq Hp%opt_Z_eqb_true].
  rewrite (Hk sid b Hb : sub_id b = sid). by split_and!. }
destruct Hren as (r & Hr & Hok). unfold mbind at 1, M_bind at 1. rewrite Hr.
destruct r as [b|]; [exists (Some (b, false)); split; [done|by apply Hok]|].
destruct (find_active_run uid pid s Hk) as (r & Hf & Hok'). unfold mbind at 1, M_bind at 1. rewrite Hf.
destruct r as [b|]; [exists (Some (b, false)); split; [done|by apply Hok']|].
destruct (latest_run uid s Hk) as (r & Hl & Hok''). unfold mbind at 1, M_bind at 1. rewrite Hl.
eexists. split; [reflexivity|]. destruct r as [b|]; [|done]. cbn.
destruct (Hok'' b eq_refl). split_and!; [done|done|].
intros Hc%negb_false_iff. by apply opt_Z_eqb_true.
Qed.

(** ** Extending and creating *)

Lemma subs_check_same_tokens d o p :
sub_token_hash p = sub_token_hash o → prev_token_hash p = prev_token_hash o →
t_check subs_tbl d (Some o) p = None.
Proof.
intros H1 H2. cbn. unfold unique_on, unique. rewrite H1, String.eqb_refl.
by rewrite bool_decide_true.
Qed.

Lemma update_sub_run sid p s :
update_sub sid p s =
match subscriptions (db s) !! sid with
| None => (Ok tt, tick s)
| Some b => (Ok tt, with_db (put subs_tbl (apply_sub_update p (touch_sub (clock s (ticks s)) b))) (tick s))
end.
Proof.
unfold update_sub, mbind, M_bind. rewrite update_run. cbn [t_rows subs_tbl].
destruct (subscriptions (db s) !! sid) as [b|]; [|done]. cbv zeta.
by rewrite subs_check_same_tokens.
Qed.

(** Ids and token hashes the supply will produce are not in use. *)
Definition subs_fresh (s : session) : Prop :=
∀ i b, subscriptions (db s) !! i = Some b → i < next_uuid s ∧
  ∀ n, next_uuid s ≤ n → sub_token_hash b ≠ hash (tokens env) (generate (tokens env) n).

Lemma create_subscription_wp uid pid e m p n s :
subs_fresh s → 1 ≤ m ≤ 100 →
wp (create_subscription env uid pid e m p n)
  (λ b s', db s' = put subs_tbl b (db s) ∧ sub_user_id b = uid ∧ sub_plan_id b = Some pid ∧
     sub_is_active b = true ∧ sub_expires_at b = Some e)
  (λ _ _, False) s.
Proof.
intros Hf Hm. unfold create_subscription. apply wp_bind. unfold wp at 1, uuid4.
apply wp_bind, wp_raise_if; [|intros _].
{ rewrite (proj2 (Z.ltb_lt 0 m)), (proj2 (Z.leb_le m 100)) by lia. done. }
unfold wp. rewrite create_run. cbn [t_rows subs_tbl t_id db next_uuid clock ticks sub_id]. cbv zeta.
destruct (subscriptions (db s) !! (next_uuid s + 1)) as [b|] eqn:Hb.
{ destruct (Hf _ _ Hb). lia. }
assert (Hclash : ∀ agree r, (∀ i b, subscriptions (db s) !! i = Some b → agree b r = false) →
  clashes (subscriptions (db s)) sub_id agree r = false).
{ intros agree r H. apply clashes_false. intros i b Hi _. by apply (H i). }
cbn [t_check subs_tbl]. unfold unique_on, unique. rewrite !Hclash.
- done.
- intros i b Hi. cbn. by destruct (prev_token_hash b).
- intros i b Hi. cbn. apply String.eqb_neq. apply (Hf i b Hi). lia.
Qed.

Lemma deliver_subscription_wp uid plan o o2 now s :
keyed subs_tbl (db s) → keyed orders_tbl (db s) → subs_fresh s →
activates_on activate s →
1 ≤ included_devices plan + device_slots_qty o ≤ 100 →
orders (db s) !! order_id o = Some o2 →
wp (deliver_subscription activate env uid plan o now)
  (λ _ s', delivered (db s') uid (plan_id plan) (order_id o)
             (now + PERIOD_DAYS (or_one (period_months o)) * day) ∧
     transactions (db s') = transactions (db s))
  (λ _ _, False) s.
Proof using Type*.
intros Hks Hko Hf Hact Hdev Ho2. pose proof (Hko _ _ Ho2) as Hid. cbn in Hid.
unfold deliver_subscription. cbv zeta.
destruct (purchase_target_run uid (plan_id plan) o s Hks) as (r & Hrun & Hok).
apply wp_bind. unfold wp at 1. rewrite Hrun. destruct r as [[b changed]|].
- destruct Hok as (Hb & Hu & Hp). apply wp_bind. unfold wp at 1. rewrite update_sub_run, Hb.
  set (b' := apply_sub_update _ _). set (s1 := with_db _ _).
  apply wp_bind. unfold wp at 1. rewrite update_order_run.
  assert (orders (db s1) !! order_id o = Some o2) as -> by done.
  set (o3 := apply_order_update _ _). set (s2 := with_db _ (tick s1)).
  assert (Hs2 : subscriptions (db s2) !! sub_id b = Some b') by apply lookup_insert_eq.
  assert (Hks2 : keyed subs_tbl (db s2)) by apply (keyed_put subs_tbl b' (db s) Hks).
  assert (Hret : ∃ n s', activate (sub_id b) s2 = (Ok n, s')) by (apply Hact; [done|done|done|by exists b']).
  apply wp_bind. pose proof (wp_returns_at _ _ s2 (activate_frame (sub_id b)) Hret) as H1.
  pose proof (wp_returns_at _ _ s2 (activate_subs (sub_id b)) Hret) as H2.
  eapply wp_mono; [apply (wp_and _ _ _ _ _ _ H1 H2)| |tauto]. cbn beta.
  intros _ s3 [Hfr Hsub]. apply wp_ret. destruct (Hsub Hks2) as [_ Hsubs]. unfold on_db, same, billing_tables in Hfr.
  injection Hfr as _ _ Hord Htx _ _ _ _. split; [|by rewrite Htx].
  destruct (Hsubs _ _ Hs2) as (b3 & Hb3 & Hre).
  assert (Hsame : sub_id b3 = sub_id b ∧ sub_user_id b3 = uid ∧
    sub_plan_id b3 = sub_plan_id b' ∧ sub_is_active b3 = true ∧ sub_expires_at b3 = sub_expires_at b').
  { destruct Hre as [->|[t ->]]; by split_and!. }
  destruct Hsame as (E1 & E2 & E3 & E4 & E5). exists b3. rewrite E1, E2, E3, E4, E5.
  split_and!; [done|done| |done| |].
  + cbn. destruct changed; [done|]. by apply Hp.
  + cbn. eexists. split; [reflexivity|]. destruct changed; [lia|].
    destruct (sub_expires_at b) as [e|]; [|lia]. destruct (Z.ltb_spec now e); lia.
  + exists o3. split_and!; [|done|done]. rewrite Hord. cbn. rewrite Hid. apply lookup_insert_eq.
- apply wp_bind. eapply wp_mono; [by apply create_subscription_wp| |done]. cbn beta.
  intros b s1 (Hdb & Hu & Hp & Ha & He). unfold wp. rewrite update_order_run, Hdb.
  assert (orders (put subs_tbl b (db s)) !! order_id o = Some o2) as -> by done.
  split; [|cbn; by rewrite Hdb]. exists b. cbn. rewrite Hdb. split_and!; try done.
  + apply lookup_insert_eq.
  + eexists. split; [done|lia].
  + eexists. split_and!; [cbn; rewrite Hid; apply lookup_insert_eq|done|done].
Qed.

(** Delivery only depends on subscriptions and orders. *)
Lemma delivered_same d d' uid pid oid e :
same subs_orders d d' → delivered d uid pid oid e → delivered d' uid pid oid e.
Proof. unfold same, subs_orders, delivered. by intros [= -> ->]. Qed.

(** Completing the order keeps the link. *)
Lemma delivered_complete p uid pid oid e s :
upd_subscription_id p = None → delivered (db s) uid pid oid e →
wp (update_order oid p) (λ _ s', delivered (db s') uid pid oid e ∧
  transactions (db s') = transactions (db s)) (λ _ _, False) s.
Proof.
intros Hp (b & Hb & Hu & Hpl & Ha & He & o & Ho & Hid & Hs). unfold wp.
rewrite update_order_run, Ho. cbn. split; [|done].
exists b. cbn. split_and!; try done. rewrite Hid.
eexists. split_and!; [apply lookup_insert_eq|done|]. cbn. by rewrite Hp.
Qed.

(** The purchase of a plan the balance suffices for. *)
Lemma auto_purchase_wp u v plan o o2 now strict s :
keyed subs_tbl (db s) → keyed orders_tbl (db s) → subs_fresh s →
activates_on activate s →
1 ≤ included_devices plan + device_slots_qty o ≤ 100 →
orders (db s) !! order_id o = Some o2 →
users (db s) !! user_id u = Some v → user_id v = user_id u → order_amount_rub o ≤ balance v →
wp (_auto_purchase activate env u plan o now strict)
  (λ _ s', delivered (db s') (user_id u) (plan_id plan) (order_id o)
             (now + PERIOD_DAYS (or_one (period_months o)) * day) ∧
     ∃ t, transactions (db s') = transactions (db s) ++ [t] ∧
       tx_type t = PURCHASE ∧ tx_amount t = - order_amount_rub o)
  (λ _ _, False) s.
Proof using Type*.
intros Hks Hko Hfr Hact Hdev Ho2 Hv Hid Hbal. unfold _auto_purchase, _lock_user. cbv zeta.
apply wp_bind, wp_get_by_id. cbn [t_rows users_tbl]. rewrite Hv.
destruct (Z.ltb_spec (balance v) (order_amount_rub o)); [lia|]. rewrite Hid.
apply (wp_posting (user_id u) v); [done|done|]. cbv zeta. set (t := {| tx_type := PURCHASE |}).
set (s1 := with_db _ _).
eapply wp_mono; [apply (deliver_subscription_wp (user_id u) plan o o2 now s1);
  [exact Hks|exact Hko| |eapply activates_later; [| |exact Hact]; [done|cbn; lia]|done|exact Ho2]| |done].
- intros i b Hb. destruct (Hfr i b Hb) as [Hlt Hh]. cbn. split; [lia|].
  intros n Hn. apply Hh. lia.
- cbn beta. intros _ s2 [Hdel Htx]. split; [done|]. exists t. by split_and!.
Qed.

Lemma fulfill_fee_run fee p method amount s :
fees_inv (db s) → ∃ fee', fulfill_fee fee p method amount s = (Ok fee', s).
Proof.
intros Hf. unfold fulfill_fee. destruct fee as [f|]; [by eexists|]. unfold _resolve_fee_rub.
destruct (resolve_run (provider_value p) method s Hf) as (r & Hr & _).
unfold mbind, M_bind. rewrite Hr. by eexists.
Qed.

(** Fulfilling a pending purchase or renewal delivers it, when the activation of the
  subscription returns. *)
Lemma fulfilled_order_delivers o p meta fee method s u plan :
billing_inv (db s) → keyed subs_tbl (db s) → fees_inv (db s) → subs_fresh s →
activates_on activate s →
orders (db s) !! order_id o = Some o → order_status o = PENDING →
is_plan_order (order_type o) = true → order_promo_code_id o = None →
users (db s) !! order_user_id o = Some u → 0 ≤ balance u →
order_plan_id o = Some (plan_id plan) → plans (db s) !! plan_id plan = Some plan →
plan_is_active plan = true → 0 < price_rub plan →
1 ≤ included_devices plan + device_slots_qty o ≤ 100 →
wp (_fulfill_order_locked activate env o p meta fee method)
  (λ _ s', delivered (db s') (order_user_id o) (plan_id plan) (order_id o)
             (clock s (ticks s) + PERIOD_DAYS (or_one (period_months o)) * day) ∧
     ∃ t1 t2 l, transactions (db s') = transactions (db s) ++ [t1; t2] ++ l ∧
       tx_type t1 = PAYMENT ∧ tx_amount t1 = order_amount_rub o ∧
       tx_type t2 = PURCHASE ∧ tx_amount t2 = - order_amount_rub o)
  (λ _ _, False) s.
Proof using Type*.
intros Hinv Hks Hfees Hfr Hact Ho Hst Hty Hpromo Hu Hbal Hpid Hplan Hpa Hpp Hdev.
pose proof (ledger_user _ _ _ _ (bi_ledger _ Hinv) Hu) as Huid.
unfold _fulfill_order_locked. rewrite Hst. rewrite bool_decide_false
  by (unfold ORDER_FINAL_STATUSES; rewrite !elem_of_cons, elem_of_nil; intuition congruence).
apply wp_bind, wp_raise_if; [done|]. intros _.
unfold _lock_user. apply wp_bind, wp_get_by_id. cbn [t_rows users_tbl]. rewrite Hu.
apply wp_bind, wp_utcnow. fold (tick s). set (now := clock s (ticks s)).
apply wp_bind. destruct (fulfill_fee_run fee p method (order_amount_rub o) (tick s) Hfees) as [fee' Hfee].
unfold wp at 1. rewrite Hfee.
apply wp_bind. unfold wp at 1. rewrite update_order_run. cbn [db tick]. rewrite Ho. cbv zeta.
set (o2 := apply_order_update _ _). set (s1 := with_db _ _).
rewrite Huid. apply (wp_posting (order_user_id o) u); [exact Hu|done|]. cbv zeta.
set (t1 := {| tx_type := PAYMENT |}). set (s2 := with_db _ _).
apply wp_bind. unfold _record_promo_activation. rewrite Hpromo. apply wp_ret, wp_bind.
assert (Ho2 : orders (db s2) !! order_id o = Some o2) by apply lookup_insert_eq.
eapply wp_mono with (Q := λ _ s', delivered (db s') (order_user_id o) (plan_id plan) (order_id o)
    (now + PERIOD_DAYS (or_one (period_months o)) * day) ∧
    ∃ t2, transactions (db s') = transactions (db s) ++ [t1; t2] ∧
      tx_type t2 = PURCHASE ∧ tx_amount t2 = - order_amount_rub o) (R := λ _ _, False); [| |done].
- assert (deliver_order activate env u o now s2 =
          _auto_purchase activate env u plan o now false s2) as Hd.
  { assert (E : t_rows plans_tbl (db s2) !! plan_id plan = Some plan) by exact Hplan.
    unfold deliver_order, mbind, M_bind, get_by_id, read, gets. rewrite Hpid.
    destruct (order_type o); try done; by rewrite E, Hpa, (proj2 (Z.ltb_lt _ _) Hpp). }
  unfold wp. rewrite Hd.
  eapply (wp_mono (_auto_purchase activate env u plan o now false));
    [apply (auto_purchase_wp u (set_balance (balance u + order_amount_rub o)
        (touch_user (clock s1 (ticks s1)) u)) plan o o2); try done| |done].
  + apply (keyed_put orders_tbl), (bi_keyed _ Hinv).
  + intros i b Hb. destruct (Hfr i b Hb) as [Hlt Hh]. cbn. split; [lia|]. intros n Hn. apply Hh. lia.
  + eapply activates_later; [| |exact Hact]; [done|cbn; lia].
  + apply lookup_insert_eq.
  + cbn. lia.
  + cbn beta. rewrite Huid. intros _ s3 (Hdel & t2 & Htx & Ht2). split; [done|].
    exists t2. split; [|done]. rewrite Htx. cbn. by rewrite <-app_assoc.
- cbn beta. intros _ s3 (Hdel & t2 & Htx & Ht2 & Ha2).
  apply wp_bind. eapply wp_mono; [by eapply delivered_complete| |done]. cbn beta.
  intros _ s4 [Hdel4 Htx4].
  eapply wp_mono; [apply wp_and;
    [apply (wp_returns (on_db (same subs_orders))); [apply after_completion_frame|apply after_completion_returns]
    |apply (wp_returns (on_db tx_grows)); [apply after_completion_grows|apply after_completion_returns]]| |tauto].
  cbn beta. intros _ s5 [Hsame [l Hl]]. split; [by eapply delivered_same|].
  exists t1, t2, l. split_and!; try done. by rewrite Hl, Htx4, Htx, <-app_assoc.
Qed.

(** * The free trial *)

(** The order a successful trial leaves. *)
Lemma create_free_result u plan data s :
billing_inv (db s) →
wp (_create_free_order env u plan data)
  (λ o s', billing_inv (db s') ∧ orders (db s') !! order_id o = Some o ∧
     order_status o = COMPLETED ∧ order_user_id o = oci_user_id data ∧
     order_plan_id o = Some (plan_id plan))
  (λ _ _, True) s.
Proof.
intros Hinv. unfold _create_free_order. apply wp_bind, wp_utcnow, wp_bind. unfold wp at 1, uuid4.
cbn [db clock ticks next_uuid effects]. set (s0 := {| db := db s |}). apply wp_bind.
eapply wp_mono; [by apply (create_order_row_wp (fine:=false))| |done]. cbn beta.
intros o s1 (Hinv1 & _ & Ho & Hst & Hu & Hp). cbn in Hst, Hu, Hp.
apply wp_bind. eapply wp_mono;
  [apply (wp_quiet_then (fine:=false) _ (db s1)); [apply auto_purchase_free_quiet|done|done]| |done].
cbn beta. intros _ s2 (Hinv2 & _ & Hm2). destruct (Hm2 _ _ Ho) as (o2 & Ho2 & F2 & E2).
apply wp_bind. eapply (wp_update_status _ _ o2 COMPLETED);
  [done|done|done|rewrite <-E2, Hst; constructor|].
intros s3 Hev _ (o3 & Ho3 & Hst3 & F3). destruct (Hev Hinv2) as [Hinv3 _].
apply wp_bind, wp_get_by_id. cbn [t_rows orders_tbl]. rewrite Ho3. apply wp_ret.
destruct F2 as (_ & U2 & P2 & _), F3 as (I3 & U3 & P3 & _).
split_and!; [done| |done|congruence|congruence].
by rewrite (bi_keyed _ Hinv3 _ _ Ho3 : order_id o3 = order_id o).
Qed.

Lemma create_trial_result u plan data s :
billing_inv (db s) →
wp (create_trial env u plan data)
  (λ o s', billing_inv (db s') ∧ orders (db s') !! order_id o = Some o ∧
     order_status o = COMPLETED ∧ order_user_id o = oci_user_id data ∧
     order_plan_id o = Some (plan_id plan))
  (λ _ _, True) s.
Proof.
intros Hinv. unfold create_trial.
apply wp_bind, wp_bind, wp_select, wp_ret, wp_bind, wp_raise_if; [done|intros _].
apply wp_bind, wp_bind, wp_utcnow, wp_bind, wp_select, wp_ret, wp_bind, wp_raise_if; [done|intros _].
apply wp_bind, wp_bind, wp_select, wp_ret, wp_bind, wp_raise_if; [done|intros _].
by apply create_free_result.
Qed.

Lemma has_completed_run uid pid o i s :
orders (db s) !! i = Some o → order_user_id o = uid → order_plan_id o = Some pid →
order_status o = PAID ∨ order_status o = COMPLETED →
has_completed_order_for_plan uid pid s = (Ok true, s).
Proof.
intros Ho Hu Hp Hst. unfold has_completed_order_for_plan, mbind, M_bind, select_where, read, gets.
set (l := filter _ _). assert (o ∈ l) as Hin.
{ apply list_elem_of_filter. split; [|apply elem_of_rows; eauto]. unfold revenue_status.
  rewrite Hu, Z.eqb_refl, Hp, opt_Z_eqb_refl. by destruct Hst as [->| ->]. }
unfold mret, M_ret. rewrite bool_decide_false; [done|].
intros E. rewrite E in Hin. by apply elem_of_nil in Hin.
Qed.

(** From completed an order can only be refunded. *)
Lemma after_completed st : rtc status_step COMPLETED st → st = COMPLETED ∨ st = REFUNDED.
Proof.
intros H. inversion H as [|x y z Hstep Hrest]; [by left|]. right. subst.
inversion Hstep. subst. inversion Hrest as [|x' y' z' Hstep']; [done|]. inversion Hstep'.
Qed.

(** The free trial is given once: after a trial order for a user and a plan
  was created, through any further history, a new trial for the same user and
  plan is refused as already used and changes nothing, unless the trial order
  itself was refunded. *)
Theorem trial_once iso u u' plan plan' data data' o ops s s1 :
billing_inv (db s) →
create_trial env u plan data s = (Ok o, s1) →
plan_id plan' = plan_id plan → oci_user_id data' = oci_user_id data →
let s2 := run_history activate env iso ops s1 in
create_trial env u' plan' data' s2 = (Raise (TrialAlreadyUsed "Free trial already used"), s2) ∨
∃ o', orders (db s2) !! order_id o = Some o' ∧ order_status o' = REFUNDED.
Proof using Type*.
intros Hinv Hrun Hpid Huid s2.
pose proof (wp_ok _ _ _ _ _ _ (create_trial_result u plan data s Hinv) Hrun)
  as (Hinv1 & Ho & Hst & Hu & Hp).
destruct (history_evolves activate env iso true ops s1 (or_introl eq_refl) (billing_inv_upto _ Hinv1)) as [_ Hm].
fold s2 in Hm. destruct (Hm _ _ Ho) as (o' & Ho' & F & Hr). rewrite Hst in Hr.
apply after_completed in Hr as [Hc|Hc]; [left|right; eauto].
unfold create_trial, mbind at 1, M_bind at 1. rewrite (has_completed_run _ _ o' (order_id o)).
- done.
- done.
- destruct F as (_ & -> & _). congruence.
- destruct F as (_ & _ & -> & _). congruence.
- by right.
Qed.

(** * The auto-renewal reconciler *)

Lemma renew_all_db l s : db (renew_all activate env l s).2 = db s.
Proof.
revert s. induction l as [|b l IH]; intros s; cbn [renew_all]; [done|].
unfold mbind at 1, M_bind at 1, run_uncommitted.
destruct (_renew_one activate env b s) as [[ok|e] s'] eqn:E; [|done].
unfold mbind, M_bind. set (s1 := {| db := db s |}). specialize (IH s1).
destruct (renew_all activate env l s1) as [[n|e] s2]; exact IH.
Qed.

(** A tick of the auto-renewal reconciler never changes the database,
  whatever it reports as renewed: each renewal runs in a session that is
  closed without a commit. *)
Theorem auto_renew_persists_nothing window grace batch s :
db (auto_renew_tick activate env window grace batch s).2 = db s.
Proof.
unfold auto_renew_tick, mbind at 1, M_bind at 1, run_uncommitted.
set (m := (now ← utcnow; _) : SM (list Subscription)).
destruct (m s) as [[due|e] s']; [|done]. by rewrite renew_all_db.
Qed.
End Delivery.

(** * Expiry *)

(** A tick of the expiration reconciler expires only pending orders past
    their deadline, at most a batch of them, keeps their other columns, and
    leaves every other order and every balance alone. *)
Theorem expiration_tick_sound n s :
  keyed orders_tbl (db s) →
  wp (expiration_tick n)
    (λ k s', 0 ≤ k ≤ Z.of_nat (Nat.max 1 n) ∧ money (db s') = money (db s) ∧
       ∃ ids, NoDup ids ∧ k = Z.of_nat (length ids) ∧
         (∀ i, i ∈ ids → ∃ o e, orders (db s) !! i = Some o ∧ order_status o = PENDING ∧
            order_expires_at o = Some e ∧ e < clock s (ticks s) ∧
            orders (db s') !! i = Some (expire_order (clock s (ticks s)) o)) ∧
         (∀ i, i ∉ ids → orders (db s') !! i = orders (db s) !! i))
    (λ _ _, False) s.
Proof.
  intros Hk. unfold expiration_tick. apply wp_bind, wp_utcnow. fold (tick s).
  set (now := clock s (ticks s)).
  assert (Hm : keeps (on_db (same money)) (bulk_expire_pending now (Nat.max 1 n)))
    by (unfold bulk_expire_pending; keeps_tac).
  specialize (Hm (tick s)). unfold on_db, same in Hm. unfold wp.
  destruct (bulk_expire_pending now (Nat.max 1 n) (tick s)) as [[k|e] s'] eqn:Hrun.
  2: { revert Hrun. unfold bulk_expire_pending, mbind at 1, M_bind at 1, select_where, read, gets.
       cbv zeta. case_bool_decide; [done|]. unfold mbind, M_bind, write, modify. done. }
  apply bulk_expire_spec in Hrun as (Hn & ids & Hnd & Hlen & Hin & Hout); [|done].
  split_and!; [lia|lia|done|]. exists ids. split_and!; [done|done| |done].
  intros i Hi. destruct (Hin i Hi) as (o & Ho & Hov & Ho'). unfold overdue in Hov.
  apply andb_prop in Hov as [Hst%bool_decide_eq_true Hov].
  destruct (order_expires_at o) as [e|] eqn:He; [|done].
  exists o, e. split_and!; [done|done|done|lia|done].
Qed.
