(* ===== verification/OrderSettlement.v ===== *)
(** No order is left between payment and completion: "paid" is a status inside a request,
    never the status of a committed order. *)

From stdpp Require Import base gmap strings list.
From S2P Require Import Prelude Decimal Errors RouteModels BillingModels FleetModels Session Uuid Tables Ledger Plans Promo Referral BillingRepo Billing BillingProps.
Local Open Scope Z_scope.

(** An order paid in [d'], but for [x], was paid in [d]. *)
Definition paid_but (x : option Z) (d d' : database) : Prop :=
  ∀ i o', x ≠ Some i → orders d' !! i = Some o' → order_status o' = PAID → ∃ o, orders d !! i = Some o ∧ order_status o = PAID.

#[export] Instance paid_but_preorder x : PreOrder (paid_but x).
Proof.
  split; [intros d i o' _ Ho Hs; eauto|]. intros d1 d2 d3 H12 H23 i o' Hx Ho Hs.
  destruct (H23 i o' Hx Ho Hs) as (o & Ho2 & Hs2). by apply (H12 i o).
Qed.

Definition no_new_paid (x : option Z) : database → database → Prop := guarded (keyed orders_tbl) (paid_but x).

#[export] Instance no_new_paid_preorder x : PreOrder (no_new_paid x).
Proof. apply _. Qed.

Lemma no_new_paid_frame {A} x (m : SM A) : keeps (on_db (same orders)) m → keeps (on_db (no_new_paid x)) m.
Proof.
  intros H s Hk. specialize (H s). unfold on_db, same in H. unfold keyed in *. cbn in *. rewrite H. split; [done|].
  intros i o' _. rewrite H. eauto.
Qed.

Lemma no_new_paid_weaken {A} x (m : SM A) : keeps (on_db (no_new_paid None)) m → keeps (on_db (no_new_paid x)) m.
Proof. intros H s Hk. destruct (H s Hk) as [Hk' Hp]. split; [done|]. intros i o' _. by apply Hp. Qed.

(** Writing a row that is not paid, or that of [x]. *)
Lemma no_new_paid_put x r d :
  (order_status r = PAID → x = Some (order_id r) ∨ ∃ o, orders d !! order_id r = Some o ∧ order_status o = PAID) →
  no_new_paid x d (put orders_tbl r d).
Proof.
  intros Hr Hk. split; [by apply (keyed_put orders_tbl)|]. intros i o' Hx. cbn. rewrite lookup_insert. case_decide as Hi.
  - intros [= <-] Hs. subst i. destruct (Hr Hs) as [->|H]; [done|exact H].
  - eauto.
Qed.

Lemma update_order_no_paid x oid upd :
  x = Some oid ∨ upd_status upd ≠ Some PAID → keeps (on_db (no_new_paid x)) (update_order oid upd).
Proof.
  intros Hu. unfold update_order. apply keeps_bind; [apply _| |intros; apply keeps_ret, _]. apply keeps_update; [apply _|].
  intros d now r Hr _ Hk. pose proof (Hk oid r Hr) as Hid. cbn in Hid. apply no_new_paid_put; [|done]. cbn. rewrite Hid. intros Hs.
  destruct Hu as [->|Hu]; [by left|]. right. cbn in Hr. exists r. split; [done|]. unfold patch_opt in Hs. 
  destruct (upd_status upd) as [st|]; cbn in Hs; [congruence|done].
Qed.

Lemma create_row_no_paid c : oic_status c ≠ PAID → keeps (on_db (no_new_paid None)) (create_order_row c).
Proof.
  intros Hc. unfold create_order_row. apply keeps_create; [apply _|]. intros d i now _ _. apply no_new_paid_put. by intros H.
Qed.

#[local] Hint Extern 2 (keeps (on_db (no_new_paid _)) (update_order _ _)) => (apply update_order_no_paid; right; discriminate) : keeps.
#[local] Hint Extern 2 (keeps (on_db (no_new_paid _)) (create_order_row _)) => (apply no_new_paid_weaken, create_row_no_paid; discriminate) : keeps.
#[local] Hint Extern 3 (keeps (on_db (no_new_paid _)) _) => (apply no_new_paid_frame; solve [keeps_tac]) : keeps.

Section Settlement.
Context {Req : Type} (activate : Z → SM Z) (env : BillingEnv Req) `{!SubscriptionActivation activate}.
Notation NP := (on_db (no_new_paid None)).

Lemma activate_np sid : keeps NP (activate sid).
Proof using Type*.
apply no_new_paid_frame. intros s. pose proof (activate_frame sid s) as H. unfold on_db, same in *. unfold billing_tables in H.
by injection H.
Qed.
Hint Resolve activate_np : keeps.

Lemma update_sub_np x sid p : keeps (on_db (no_new_paid x)) (update_sub sid p).
Proof using Type. apply no_new_paid_frame. unfold update_sub. keeps_tac. Qed.
Lemma balance_np x uid b : keeps (on_db (no_new_paid x)) (_update_user_balance uid b).
Proof using Type. apply no_new_paid_frame. unfold _update_user_balance. keeps_tac. Qed.
Lemma record_np x uid a b ty o d : keeps (on_db (no_new_paid x)) (_record_transaction uid a b ty o d).
Proof using Type. apply no_new_paid_frame. unfold _record_transaction, insert_transaction. keeps_tac. Qed.
Hint Resolve update_sub_np balance_np record_np : keeps.

Lemma deliver_subscription_np uid plan o now : keeps NP (deliver_subscription activate env uid plan o now).
Proof using Type*.
unfold deliver_subscription, purchase_target, _find_active_subscription_for_plan, create_subscription, get_latest_for_user, list_by_user_id.
keeps_tac.
Qed.
Hint Resolve deliver_subscription_np : keeps.

Lemma auto_purchase_free_np u plan o now : keeps NP (_auto_purchase_free env u plan o now).
Proof using Type. unfold _auto_purchase_free, _find_active_subscription_for_plan, create_subscription, list_by_user_id. keeps_tac. Qed.
Lemma auto_purchase_np u plan o now strict : keeps NP (_auto_purchase activate env u plan o now strict).
Proof using Type*. unfold _auto_purchase, _lock_user. keeps_tac. Qed.
Lemma fulfill_slots_np u o strict : keeps NP (_fulfill_device_slots u o strict).
Proof using Type. unfold _fulfill_device_slots, _lock_user, deliver_slots. keeps_tac. Qed.
Hint Resolve auto_purchase_free_np auto_purchase_np fulfill_slots_np : keeps.

Lemma deliver_order_np u o now : keeps NP (deliver_order activate env u o now).
Proof using Type*. unfold deliver_order. keeps_tac. Qed.

Lemma promo_activation_np o : keeps NP (_record_promo_activation o).
Proof using Type. unfold _record_promo_activation, record_activation, insert_activation, increment_activation. keeps_tac. Qed.

Lemma after_completion_np u o p nb : keeps NP (after_completion env u o p nb).
Proof using Type.
unfold after_completion, reward_step, get_plan_opt, process_reward_if_eligible, get_pending_by_referred_user, _credit_user, _lock_user. keeps_tac.
Qed.
Hint Resolve deliver_order_np promo_activation_np after_completion_np : keeps.

(** When [m] returns, no order is newly paid. *)
Definition settles {A} (m : SM A) : Prop := ∀ s, wp m (λ _ s', no_new_paid None (db s) (db s')) (λ _ _, True) s.

Lemma settles_keeps {A} (m : SM A) : keeps NP m → settles m.
Proof using Type. intros H s. specialize (H s). unfold wp, on_db in *. by destruct (m s) as [[] s']. Qed.

Lemma settles_bind {A B} (m : SM A) (f : A → SM B) : settles m → (∀ a, settles (f a)) → settles (m ≫= f).
Proof using Type.
intros Hm Hf s. apply wp_bind. eapply wp_mono; [apply Hm| |done]. intros a s1 H1. eapply wp_mono; [apply Hf| |done].
intros b s2 H2. by transitivity (db s1).
Qed.

(** From the moment [x] is paid to its completion. *)
Lemma complete_settles {A B} x (body : SM B) upd (k : SM A) d s :
keeps NP body → keeps NP k → upd_status upd = Some COMPLETED → no_new_paid (Some x) d (db s) →
wp (body ;; update_order x upd ;; k) (λ _ s', no_new_paid None d (db s')) (λ _ _, True) s.
Proof using Type.
intros Hb Hk Hu Hd. apply wp_bind. pose proof (no_new_paid_weaken (Some x) body Hb s) as H1. unfold wp at 1. destruct (body s) as [[b|e] s1]; [|done].
assert (Hd1 : no_new_paid (Some x) d (db s1)) by (etrans; [exact Hd|exact H1]). clear H1.
apply wp_bind. unfold update_order. apply wp_bind. unfold wp at 1. rewrite update_run. cbn [t_rows orders_tbl].
assert (Hend : ∀ s2, no_new_paid None d (db s2) → wp k (λ _ s', no_new_paid None d (db s')) (λ _ _, True) s2).
{ intros s2 H2. specialize (Hk s2). unfold wp, on_db in *. destruct (k s2) as [[a|e] s3]; [|done]. etrans; [exact H2|exact Hk]. }
destruct (orders (db s1) !! x) as [r|] eqn:Hr.
- cbv zeta. destruct (t_check _ _ _ _); [done|]. apply wp_ret, Hend. cbn [db with_db tick]. intros Hkd. destruct (Hd1 Hkd) as [Hk1 Hp1].
  pose proof (Hk1 x r Hr) as Hid. cbn in Hid. split; [by apply (keyed_put orders_tbl)|].
  intros i o' _. cbn. rewrite Hid, lookup_insert. case_decide as Hi; [|intros Ho Hs; apply (Hp1 i o'); [congruence|done|done]].
  intros [= <-]. cbn. by rewrite Hu.
- apply wp_ret, Hend. intros Hkd. destruct (Hd1 Hkd) as [Hk1 Hp1]. split; [done|]. intros i o' _ Ho Hs.
  apply (Hp1 i o'); [|done|done]. intros [= ->]. cbn in Ho. congruence.
Qed.

(** An order inserted as paid, served and completed. *)
Lemma paid_row_settles {A B} c (body : PaymentOrder → SM B) upd (k : PaymentOrder → SM A) :
upd_status upd = Some COMPLETED → (∀ o, keeps NP (body o)) → (∀ o, keeps NP (k o)) →
settles (order ← create_order_row c; body order ;; update_order (order_id order) upd ;; k order).
Proof using Type.
intros Hu Hb Hk s. apply wp_bind. unfold wp at 1, create_order_row. rewrite create_run. cbv zeta.
destruct (t_rows orders_tbl (db s) !! _) eqn:Hf; [done|]. destruct (t_check _ _ _ _); [done|].
apply complete_settles; [done..|]. cbn. apply no_new_paid_put. by left.
Qed.

Lemma fulfill_settles o p meta fee method : settles (_fulfill_order_locked activate env o p meta fee method).
Proof using Type*.
unfold _fulfill_order_locked. destruct (bool_decide _); [apply settles_keeps, keeps_ret, _|].
apply settles_bind; [apply settles_keeps, keeps_raise_if, _|intros _].
apply settles_bind; [apply settles_keeps; unfold _lock_user; keeps_tac|intros [u|]].
2: { apply settles_keeps. unfold fulfill_user_missing. keeps_tac. }
apply settles_bind; [apply settles_keeps, keeps_utcnow, _|intros now].
apply settles_bind; [apply settles_keeps, no_new_paid_frame, (fee_step_frame orders)|intros fee'].
intros s. apply wp_bind. pose proof (update_order_no_paid (Some (order_id o)) (order_id o) (paid_update o now meta fee') (or_introl eq_refl) s) as H1.
unfold on_db in H1. unfold wp at 1. destruct (update_order _ _ s) as [[[]|e] s1]; [|done]. cbn in H1. cbv zeta.
assert (Hw : ∀ B (m : SM B) (Q : session → Prop) s0, keeps NP m → no_new_paid (Some (order_id o)) (db s) (db s0) →
  (∀ s', no_new_paid (Some (order_id o)) (db s) (db s') → Q s') → wp m (λ _ s', Q s') (λ _ _, True) s0).
{ intros B m Q s0 Hm H0 HQ. pose proof (no_new_paid_weaken (Some (order_id o)) m Hm s0) as H2. unfold wp, on_db in *.
  destruct (m s0) as [[b|e] s2]; [|done]. apply HQ. etrans; [exact H0|exact H2]. }
apply wp_bind, Hw; [auto with keeps|done|]. intros s2 H2. apply wp_bind, Hw; [auto with keeps|done|]. intros s3 H3.
apply wp_bind, Hw; [auto with keeps|done|]. intros s4 H4. apply complete_settles; [auto with keeps|auto with keeps|done|done].
Qed.

Lemma create_free_settles u plan data : settles (_create_free_order env u plan data).
Proof using Type.
unfold _create_free_order. do 2 (apply settles_bind; [apply settles_keeps; auto with keeps typeclass_instances|intros ?]).
apply paid_row_settles; [done|auto with keeps|]. intros o. unfold order_out. keeps_tac.
Qed.

Lemma balance_slots_settles uid sid qty amount : settles (_create_balance_device_slot_order uid sid qty amount).
Proof using Type.
unfold _create_balance_device_slot_order. do 2 (apply settles_bind; [apply settles_keeps; auto with keeps typeclass_instances|intros ?]).
apply paid_row_settles; [done| |]; intros o; unfold order_out; keeps_tac.
Qed.

Lemma balance_plan_settles u plan data amount extra m promo disc :
settles (_create_balance_plan_order activate env u plan data amount extra m promo disc).
Proof using Type*.
unfold _create_balance_plan_order. do 2 (apply settles_bind; [apply settles_keeps; auto with keeps typeclass_instances|intros ?]).
apply paid_row_settles; [done|auto with keeps|]. intros o. unfold order_out. keeps_tac.
Qed.

Ltac settled_prefix := apply settles_bind; [apply settles_keeps; solve [keeps_tac]|intros ?].

Lemma device_slot_order_settles data : settles (_create_device_slot_order env data).
Proof using Type.
unfold _create_device_slot_order, payment_fields, call_create_payment, _get_provider.
destruct (oci_subscription_id data) as [sid|]; [|apply settles_keeps; keeps_tac].
settled_prefix. destruct a as [b|]; [|apply settles_keeps; keeps_tac].
do 2 settled_prefix. destruct a0 as [plan|]; [|apply settles_keeps; keeps_tac]. cbv zeta.
do 3 settled_prefix. case_bool_decide; [apply balance_slots_settles|]. apply settles_keeps. unfold order_out. keeps_tac.
Qed.

Lemma quote_np code uid pid ty a : keeps NP (validate_and_quote code uid pid ty a).
Proof using Type.
apply no_new_paid_frame. unfold validate_and_quote, get_by_code, count_for_user.
assert (Hc : ∀ p u q, keeps (on_db (same orders)) (_check_audience p u q)).
{ intros p u q s. pose proof (check_audience_wp p u q s) as H. unfold wp, on_db, same in *.
  destruct (_check_audience p u q s) as [[] s']; cbn in *; [by rewrite H|by destruct H as [_ ->]]. }
keeps_tac.
Qed.
Hint Resolve quote_np : keeps.

Lemma plan_order_settles user data : settles (create_plan_order activate env user data).
Proof using Type*.
unfold create_plan_order, get_plan_opt, renewal_target. settled_prefix.
destruct a as [plan|]; [|apply settles_keeps; keeps_tac]. do 2 settled_prefix. cbv zeta. do 2 settled_prefix.
destruct (price_rub plan <=? 0).
- unfold create_trial, has_completed_order_for_plan, _has_live_subscription, list_by_user_id, has_completed_paid_order.
  do 6 settled_prefix. apply create_free_settles.
- unfold create_paid_order. cbv zeta. destruct (_resolve_period_price _ _); [|apply settles_keeps; keeps_tac].
  unfold _guard_no_downgrade, _switch_proration, switch_from, _current_active_subscription, list_by_user_id. do 2 settled_prefix.
  unfold apply_promo. cbv zeta. settled_prefix.
  match goal with x : (Z * option Z * option Z)%type |- _ => destruct x as [[amount promo] disc] end.
  settled_prefix. case_bool_decide; [apply balance_plan_settles|].
  apply settles_keeps. unfold payment_fields, call_create_payment, _get_provider. keeps_tac.
Qed.

Lemma create_order_settles data : settles (create_order activate env data).
Proof using Type*.
unfold create_order. settled_prefix. destruct a as [u|]; [|apply settles_keeps; keeps_tac].
destruct (oci_order_type data);
  [apply plan_order_settles|apply plan_order_settles|apply device_slot_order_settles|].
apply settles_keeps. unfold _create_top_up_order, payment_fields, call_create_payment, _get_provider. keeps_tac.
Qed.
End Settlement.

Section History.
Context {Req : Type} (activate : Z → SM Z) (env : BillingEnv Req) (iso : Z → string) `{!SubscriptionActivation activate}.
Notation NP := (on_db (no_new_paid None)).
Ltac settled_prefix := apply settles_bind; [apply settles_keeps; solve [keeps_tac]|intros ?].
Hint Resolve update_sub_np balance_np record_np : keeps.

Lemma webhook_settles p req : settles (process_webhook activate env p req).
Proof using Type*.
unfold process_webhook, _get_provider. settled_prefix. destruct (verify_webhook _ _) as [w|e]; [|destruct e; apply settles_keeps; keeps_tac].
unfold get_by_external_id_for_update, get_by_external_id. settled_prefix. destruct a0 as [o|]; [|apply settles_keeps; keeps_tac].
settled_prefix. destruct (negb _); [|apply fulfill_settles; apply _]. apply settles_keeps. unfold webhook_non_paid.
apply update_order_no_paid. right. cbn. by destruct (_ && _).
Qed.

Lemma expiration_np n : keeps NP (expiration_tick n).
Proof using Type.
unfold expiration_tick, bulk_expire_pending. apply keeps_bind; [apply _|apply keeps_utcnow, _|intros now].
apply keeps_bind; [apply _|apply keeps_select, _|intros l]. cbv zeta. destruct (bool_decide _); [apply keeps_ret, _|].
apply keeps_bind; [apply _|apply keeps_write; [apply _|]|intros; apply keeps_ret, _]. intros d Hk. split.
- intros i o. cbn. rewrite map_lookup_imap. destruct (orders d !! i) as [o0|] eqn:Ho; [|done]. cbn. intros [= <-].
  pose proof (Hk i o0 Ho) as E. cbn in E. by case_decide.
- intros i o' _. cbn. rewrite map_lookup_imap. destruct (orders d !! i) as [o0|] eqn:Ho; [|done]. cbn. intros [= <-].
  case_decide; [done|eauto].
Qed.

Lemma billing_op_settles op : settles (run_billing_op activate env iso op).
Proof using Type*.
destruct op; cbn [run_billing_op].
- apply settles_bind; [by apply create_order_settles|intros; apply settles_keeps, keeps_ret, _].
- apply webhook_settles.
- unfold confirm_stars_payment, get_by_id_for_update. settled_prefix. destruct a as [o|]; [|apply settles_keeps; keeps_tac].
  settled_prefix. by apply fulfill_settles.
- apply settles_keeps. unfold refund_order, get_by_id_for_update, _lock_user, invalidate_by_subscription_ids, invalidate_by_token_hashes. keeps_tac.
- apply settles_keeps. unfold update_order_metadata. keeps_tac.
- apply settles_keeps. unfold credit_balance, _lock_user. keeps_tac.
- apply settles_keeps. unfold debit_balance, _lock_user. keeps_tac.
- apply settles_keeps. unfold upsert_provider_fee, get_match. keeps_tac.
- apply settles_keeps. unfold delete_provider_fee. keeps_tac.
- apply settles_keeps. apply keeps_bind; [apply _| |intros; apply keeps_ret, _]. apply expiration_np.
Qed.

Definition none_paid (d : database) : Prop := ∀ i o, orders d !! i = Some o → order_status o ≠ PAID.

Lemma no_order_left_paid_in ops s :
keyed orders_tbl (db s) → none_paid (db s) →
keyed orders_tbl (db (run_history activate env iso ops s)) ∧ none_paid (db (run_history activate env iso ops s)).
Proof using Type*.
revert s. induction ops as [|op ops IH]; intros s Hk Hn; cbn; [done|].
pose proof (billing_op_settles op s) as H. unfold wp in H. unfold run_request. destruct (run_billing_op activate env iso op s) as [[a|e] s1].
- destruct (H Hk) as [Hk1 Hp1]. apply IH; [done|]. intros i o Ho Hs. destruct (Hp1 i o) as (o0 & Ho0 & Hs0); [done..|]. by apply (Hn i o0).
- apply IH; [done|done].
Qed.

(** C37: no request or tick of billing ever commits an order in the status "paid": an order
    that is paid is completed in the same transaction, or the transaction is rolled back. *)
Theorem no_order_left_paid ops s :
keyed orders_tbl (db s) → none_paid (db s) →
let s' := run_history activate env iso ops s in keyed orders_tbl (db s') ∧ none_paid (db s').
Proof using Type*.
exact (no_order_left_paid_in ops s).
Qed.
End History.
