(* ===== verification/BillingRuns.v ===== *)
(** Billing on concrete databases: instances of the theorems of the other
    billing files, and the behaviours of the service that the theorems' side
    conditions leave out. *)

From stdpp Require Import base gmap strings list.
From S2P Require Import Prelude Decimal Errors RouteModels BillingModels FleetModels Session Uuid Tables Ledger Promo Referral Plans BillingRepo Billing BillingInv BillingProps BillingDelivery.
Local Open Scope Z_scope.

(** * A small installation *)

(** A plan at 200 rubles a month, two devices included, from 50 rubles per
    extra device. *)
Definition plan_pro (active : bool) : Plan :=
  {| plan_id := 50; plan_name := "Pro"; plan_description := None; traffic_limit_bytes := 0;
     reset_strategy := "NO_RESET"; plan_max_devices := 5; duration_days := 30; sort_order := 0;
     whitelist_enabled := false; entry_relay_enabled := false; included_devices := 2;
     price_rub := 20000; device_price_rub := 5000; price_stars := None;
     device_price_stars := None;
     periods := [{| months := 1; period_price_rub := 20000; period_price_stars := None |};
                 {| months := 3; period_price_rub := 54000; period_price_stars := None |}];
     plan_is_active := active; plan_created_at := 0; plan_updated_at := 0 |}.

Definition plan_trial : Plan :=
  {| plan_id := 51; plan_name := "Trial"; plan_description := None; traffic_limit_bytes := 0;
     reset_strategy := "NO_RESET"; plan_max_devices := 5; duration_days := 3; sort_order := 0;
     whitelist_enabled := false; entry_relay_enabled := false; included_devices := 1;
     price_rub := 0; device_price_rub := 0; price_stars := None; device_price_stars := None;
     periods := []; plan_is_active := true; plan_created_at := 0; plan_updated_at := 0 |}.

Definition order_of (oid uid amount : Z) (p : PaymentProviderEnum) (st : OrderStatus)
    (ty : OrderTypeEnum) (plan sub : option Z) (qty : Z) : PaymentOrder :=
  {| order_id := oid; order_user_id := uid; order_plan_id := plan; order_amount_rub := amount;
     order_provider := p; order_status := st; external_id := "ext" +:+ uuid_hex oid;
     payment_url := None; provider_meta := None; paid_at := None; completed_at := None;
     order_expires_at := Some 1000; order_subscription_id := sub; order_type := ty;
     device_slots_qty := qty; period_months := 1; fee_rub := None; net_rub := None;
     order_promo_code_id := None; order_discount_rub := None; order_created_at := 0;
     order_updated_at := 0 |}.

Definition shop (us : gmap Z User) (os : gmap Z PaymentOrder) (txs : list BalanceTransaction) : database :=
  set_transactions txs (set_orders os (set_plans (<[50 := plan_pro true]> {[51 := plan_trial]})
    (set_users us empty_db))).

(** User 1 with 300 rubles, by one manual credit. *)
Definition credit_tx (uid amount : Z) : BalanceTransaction :=
  {| tx_id := 900; tx_user_id := uid; tx_amount := amount; balance_after := amount;
     tx_type := MANUAL_CREDIT; tx_order_id := None; tx_description := None; tx_created_at := 0 |}.

Definition shop_db : database :=
  shop {[1 := sample_user 1 30000]}
    {[70 := order_of 70 1 20000 STARS PENDING PLAN_PURCHASE (Some 50) None 0]} [credit_tx 1 30000].

Definition sample_env : BillingEnv unit :=
  {| order_ttl_minutes := 30;
     referral_settings := {| ref_enabled := true; reward_rub := 50; referred_reward_rub := 0;
                             bot_username := "" |};
     provider_of := λ p,
       {| create_payment := λ n _ _ _ _, Ok {| pcr_external_id := "gw" +:+ uuid_hex n;
                                               pcr_payment_url := "https://pay"; pcr_provider_meta := None |};
          verify_webhook := λ _, Ok {| wh_external_id := "ext" +:+ uuid_hex 71;
             wh_amount_rub := {| num := 200; den := 1 |}; wh_provider_meta := None;
             should_fulfill := true; provider_status := None; wh_fee_rub := None;
             wh_payment_method := None |} |};
     tokens := {| generate := λ n, uuid_hex n; hash := λ t, t +:+ t |};
     has_notifications := true; has_redis := true |}.

(** An activation with nothing to restore. *)
Definition no_keys (sid : Z) : SM Z := mret 0.
#[export] Instance no_keys_activation : SubscriptionActivation no_keys.
Proof.
  constructor; intros sid s; unfold on_db, no_keys; cbn; [done|].
  intros Hk. split; [done|]. intros j b Hb. exists b. auto.
Qed.

(** ** Establishing the invariant by computation *)

Lemma billing_inv_no_payments d :
  keyed users_tbl d → keyed orders_tbl d → (∀ i, payments_for i d = 0%nat) →
  (∀ uid u, users d !! uid = Some u → running false 0 (user_txs uid d) (balance u)) → billing_inv d.
Proof. intros Hu Ho Hp Hr. constructor; [by split|done|]. intros i. by left. Qed.

Lemma shop_inv uid b os :
  keyed orders_tbl (shop {[uid := sample_user uid b]} os [credit_tx uid b]) →
  billing_inv (shop {[uid := sample_user uid b]} os [credit_tx uid b]).
Proof.
  intros Hk. apply billing_inv_no_payments; [|done| |].
  - intros i u. cbn. intros [<- <-]%lookup_singleton_Some. done.
  - intros i. done.
  - intros v u. cbn. intros [<- <-]%lookup_singleton_Some.
    unfold user_txs. cbn. rewrite decide_True by done. cbn. lia.
Qed.

Lemma shop_db_inv : billing_inv shop_db.
Proof. apply (shop_inv 1 30000). apply keyed_by_computation. vm_compute. reflexivity. Qed.

Definition shop_session : session := session_on shop_db 0 1000.

(** * Instances *)

Lemma credit_balance_posts_witness :
  wp (credit_balance 1 (credit_of 5000 None))
    (λ out s', to_column (bo_balance out) = 35000 ∧ ledger_ok (db s')) (λ _ _, False) shop_session.
Proof.
  eapply wp_mono;
    [apply (credit_balance_posts 1 5000 None shop_session
              (sample_user 1 30000)); [exact (bi_ledger _ shop_db_inv)|reflexivity]| |].
  - intros out s' (E & _ & _ & _ & Hl). split; [exact E|exact Hl].
  - intros e s' H. exact H.
Defined.

Lemma debit_balance_guarded_witness :
  wp (debit_balance 1 (debit_of 10000 "x"))
    (λ out s', to_column (bo_balance out) = 20000 ∧ ledger_ok (db s')) (λ _ s', db s' = shop_db) shop_session.
Proof.
  eapply wp_mono;
    [apply (debit_balance_guarded 1 10000 "x" shop_session
              (sample_user 1 30000)); [exact (bi_ledger _ shop_db_inv)|reflexivity]| |].
  - intros out s' (_ & E & _ & Hl). split; [exact E|exact Hl].
  - intros e s' (_ & H & _). exact H.
Defined.

(** The amounts of manual credits and debits have no bound on their decimals, the columns have two:
    a debit of half a kopeck leaves the balance as it is and records a transaction of one
    kopeck, after which the balance is not the sum of the transactions. *)
Theorem sub_kopeck_debit_unbalances :
  let s := (run_request (debit_balance 1 {| bdi_amount := {| num := 1; den := 2 |}; bdi_reason := "x" |}) shop_session).2 in
  balance <$> users (db s) !! 1 = Some 30000 ∧ foldr (λ t z, tx_amount t + z) 0 (user_txs 1 (db s)) = 29999.
Proof. cbv zeta. split; vm_compute; reflexivity. Qed.

(** A history: the Stars payment is confirmed twice, refunded, the user
    tops up, and five roubles are taken back by hand. *)
Definition sample_history : list (billing_op unit) :=
  [OpConfirmStars 70 "charge" 100; OpConfirmStars 70 "charge" 100;
   OpRefund 70 "mistake" true;
   OpCreateOrder {| oci_user_id := 1; oci_plan_id := None; oci_amount_rub := Some (rat_of_Z 10000);
     oci_provider := STARS; oci_order_type := TOP_UP; oci_device_slots_qty := 0;
     oci_period_months := 1; oci_subscription_id := None; oci_payment_method := None;
     oci_promo_code := None |};
   OpDebit 1 (debit_of 500 "correction"); OpExpire 10].

Definition after_history : session := run_history no_keys sample_env (λ _, "") sample_history shop_session.

Lemma billing_history_keeps_ledger_witness :
  (balance <$> users (db after_history) !! 1 = Some 9500 ∧
   payments_for 70 (db after_history) = 1%nat) ∧ billing_inv (db after_history).
Proof.
  split; [split; vm_compute; reflexivity|].
  refine (proj1 (proj2 (proj2 (billing_history_keeps_ledger no_keys sample_env (λ _, ""%string) sample_history shop_session
    shop_db_inv)) _)).
  repeat constructor.
Defined.

Definition sample_order : PaymentOrder :=
  order_of 70 1 20000 STARS PENDING PLAN_PURCHASE (Some 50) None 0.

Lemma order_life_witness :
  order_status <$> orders (db after_history) !! 70 = Some REFUNDED ∧
  ∃ o', orders (db after_history) !! 70 = Some o' ∧ order_fixed sample_order o'.
Proof.
  split; [vm_compute; reflexivity|].
  destruct (order_life no_keys sample_env (λ _, ""%string) sample_history shop_session 70 sample_order
              shop_db_inv eq_refl) as (o' & Ho' & Hf & _).
  exists o'. split; [exact Ho'|exact Hf].
Defined.

Definition confirmed : session := (confirm_stars_payment no_keys sample_env 70 "charge" 100 shop_session).2.

Lemma confirm_stars_idempotent_witness :
  confirm_stars_payment no_keys sample_env 70 "again" 5 confirmed = (Ok tt, confirmed) ∧
  order_status <$> orders (db confirmed) !! 70 = Some COMPLETED.
Proof.
  split; [|vm_compute; reflexivity].
  apply (confirm_stars_idempotent no_keys sample_env 70 "charge" 100 "again" 5 shop_session confirmed);
    [exact shop_db_inv|].
  unfold confirmed. destruct (confirm_stars_payment no_keys sample_env 70 "charge" 100 shop_session)
    as [o s1] eqn:E. cbn. f_equal.
  assert (E1 : (confirm_stars_payment no_keys sample_env 70 "charge" 100 shop_session).1 = Ok tt)
    by (vm_compute; reflexivity).
  rewrite E in E1. exact E1.
Defined.

(** A pending order of a gateway. *)
Definition gateway_db : database :=
  shop {[1 := sample_user 1 30000]}
    {[71 := order_of 71 1 20000 CRYPTO PENDING PLAN_PURCHASE (Some 50) None 0]} [credit_tx 1 30000].
Definition gateway_session : session := session_on gateway_db 0 1000.

Lemma gateway_inv : billing_inv gateway_db.
Proof. apply (shop_inv 1 30000). apply keyed_by_computation. vm_compute. reflexivity. Qed.

Lemma webhook_redelivery_witness :
  let s1 := (process_webhook no_keys sample_env CRYPTO tt gateway_session).2 in
  order_status <$> orders (db s1) !! 71 = Some COMPLETED ∧
  db (process_webhook no_keys sample_env CRYPTO tt s1).2 = db s1.
Proof.
  intros s1. split; [vm_compute; reflexivity|].
  apply (webhook_redelivery no_keys sample_env CRYPTO tt tt
    {| wh_external_id := "ext" +:+ uuid_hex 71; wh_amount_rub := {| num := 200; den := 1 |};
       wh_provider_meta := None; should_fulfill := true; provider_status := None;
       wh_fee_rub := None; wh_payment_method := None |}
    {| wh_external_id := "ext" +:+ uuid_hex 71; wh_amount_rub := {| num := 200; den := 1 |};
       wh_provider_meta := None; should_fulfill := true; provider_status := None;
       wh_fee_rub := None; wh_payment_method := None |} gateway_session s1);
    [exact gateway_inv|left|reflexivity|reflexivity|reflexivity|reflexivity|reflexivity|].
  unfold s1. destruct (process_webhook no_keys sample_env CRYPTO tt gateway_session) as [o s2] eqn:E.
  cbn. f_equal.
  assert (E1 : (process_webhook no_keys sample_env CRYPTO tt gateway_session).1 = Ok tt)
    by (vm_compute; reflexivity).
  rewrite E in E1. exact E1.
Defined.

Lemma proration_bounds_witness :
  _proration_value (plan_pro true) 1 (Some (15 * day)) 0 = 10000 ∧
  0 ≤ _proration_value (plan_pro true) 1 (Some (15 * day)) 0 ≤ 20000.
Proof.
  split; [vm_compute; reflexivity|].
  apply (proration_bounds (plan_pro true) 1 (15 * day) 0 20000); [reflexivity|lia|vm_compute; discriminate].
Defined.

Definition fee_db : database :=
  set_provider_fees {[5 := {| fee_id := 5; fee_provider := "crypto"; fee_payment_method := None;
                              fee_percent := 25000 |}]} gateway_db.

Lemma fee_db_inv : fees_inv fee_db.
Proof.
  split; [apply keyed_by_computation; reflexivity|]. split.
  - intros i f. cbn. intros [<- <-]%lookup_singleton_Some. cbn. lia.
  - intros i j f g. cbn. intros [<- <-]%lookup_singleton_Some [<- <-]%lookup_singleton_Some. done.
Qed.

Lemma fee_and_net_add_up_witness :
  wp (_resolve_fee_rub "crypto" (Some 3) 20000) (λ fee _, ∃ k, fee = Some k ∧ 0 ≤ k ≤ 20000)
    (λ _ _, False) (session_on fee_db 0 1000) ∧
  (_resolve_fee_rub "crypto" (Some 3) 20000 (session_on fee_db 0 1000)).1 = Ok (Some 500).
Proof.
  split; [|vm_compute; reflexivity].
  pose proof (fee_and_net_add_up "crypto" (Some 3) sample_order 0 None (session_on fee_db 0 1000)
    fee_db_inv ltac:(cbn; lia)) as H.
  unfold wp in *. cbn in *. destruct H as (_ & H & _). eexists. split; [reflexivity|exact H].
Defined.

Definition trial_request : OrderCreateIn :=
  {| oci_user_id := 1; oci_plan_id := Some 51; oci_amount_rub := None; oci_provider := FREE;
     oci_order_type := PLAN_PURCHASE; oci_device_slots_qty := 0; oci_period_months := 1;
     oci_subscription_id := None; oci_payment_method := None; oci_promo_code := None |}.

Definition trial_run := create_trial sample_env (sample_user 1 30000) plan_trial trial_request shop_session.

Lemma trial_once_witness :
  ∃ o, trial_run.1 = Ok o ∧
  (create_trial sample_env (sample_user 1 30000) plan_trial trial_request trial_run.2
     = (Raise (TrialAlreadyUsed "Free trial already used"), trial_run.2) ∨
   ∃ o', orders (db trial_run.2) !! order_id o = Some o' ∧ order_status o' = REFUNDED).
Proof.
  destruct trial_run as [r s1] eqn:E.
  assert (E1 : ∃ o, r = Ok o).
  { assert (H : match trial_run.1 with Ok _ => true | Raise _ => false end = true)
      by (vm_compute; reflexivity).
    rewrite E in H. destruct r as [o|]; [exists o; reflexivity|discriminate]. }
  destruct E1 as [o ->]. exists o. split; [reflexivity|].
  exact (trial_once no_keys sample_env (λ _, ""%string) (sample_user 1 30000) (sample_user 1 30000)
    plan_trial plan_trial trial_request trial_request o [] shop_session s1 shop_db_inv E eq_refl eq_refl).
Defined.

Lemma expiration_tick_sound_witness :
  wp (expiration_tick 10) (λ k s', 0 ≤ k ≤ 10) (λ _ _, False) (session_on shop_db 2000 1000) ∧
  (expiration_tick 10 (session_on shop_db 2000 1000)).1 = Ok 1.
Proof.
  split; [|vm_compute; reflexivity].
  eapply wp_mono; [apply (expiration_tick_sound 10 (session_on shop_db 2000 1000) (bi_keyed _ shop_db_inv))| |].
  - intros k s' [H _]. exact H.
  - intros e s' H. exact H.
Defined.

(** * What the side conditions leave out *)

Definition outcome_of {A} (r : outcome exn A * session) : outcome exn unit :=
  match r.1 with Ok _ => Ok tt | Raise e => Raise e end.

(** An order whose user is gone is marked failed by a handler that then
    raises, so the request is rolled back: the failed status is never stored and
    the order stays pending. *)
Theorem missing_user_failure_rolled_back {Req} (activate : Z → SM Z) (env : BillingEnv Req)
    o p meta fee method s :
  orders (db s) !! order_id o = Some o → order_status o = PENDING →
  users (db s) !! order_user_id o = None →
  let handler := _fulfill_order_locked activate env o p meta fee method in
  (∃ m, outcome_of (run_request handler s) = Raise (FulfillmentFailed m)) ∧
  (∃ o', orders (db (handler s).2) !! order_id o = Some o' ∧ order_status o' = FAILED) ∧
  db (run_request handler s).2 = db s.
Proof.
  intros Ho Hst Hu handler.
  assert (Hrun : ∃ m s', handler s = (Raise (FulfillmentFailed m), s') ∧
    ∃ o', orders (db s') !! order_id o = Some o' ∧ order_status o' = FAILED).
  { unfold handler, _fulfill_order_locked. rewrite Hst. rewrite bool_decide_false
      by (unfold ORDER_FINAL_STATUSES; rewrite !elem_of_cons, elem_of_nil; intuition congruence).
    unfold mbind at 1, M_bind at 1, raise_if. rewrite bool_decide_false by done. unfold mret at 1, M_ret at 1.
    unfold mbind at 1, M_bind at 1, _lock_user, get_by_id, read, gets. cbn [t_rows users_tbl]. rewrite Hu.
    unfold fulfill_user_missing, mbind at 1, M_bind at 1. rewrite update_order_run, Ho.
    destruct (has_notifications env); (eexists _, _; split; [reflexivity|]; cbn;
      eexists; split; [apply lookup_insert_eq|done]). }
  destruct Hrun as (m & s' & Hrun & Hfailed). unfold outcome_of, run_request. rewrite Hrun.
  split; [by exists m|]. split; [exact Hfailed|done].
Qed.

Lemma missing_user_failure_rolled_back_witness :
  let s := session_on (shop ∅ {[70 := sample_order]} []) 0 1000 in
  db (run_request (_fulfill_order_locked no_keys sample_env sample_order STARS None None None) s).2
  = db s.
Proof.
  intros s. apply (missing_user_failure_rolled_back no_keys sample_env sample_order STARS None None None s);
    reflexivity.
Defined.

Definition buy (uid plan qty : Z) (p : PaymentProviderEnum) : OrderCreateIn :=
  {| oci_user_id := uid; oci_plan_id := Some plan; oci_amount_rub := None; oci_provider := p;
     oci_order_type := PLAN_PURCHASE; oci_device_slots_qty := qty; oci_period_months := 1;
     oci_subscription_id := None; oci_payment_method := None; oci_promo_code := None |}.

Definition balance_of (uid : Z) (s : session) : option Z := balance <$> users (db s) !! uid.

(** Refunding an order that was paid from the balance charges it a second
    time: the purchase took its price from the balance, and the refund takes it
    again. *)
Theorem refund_charges_balance_order_twice :
  let s1 := (run_request (create_order no_keys sample_env (buy 1 50 0 BALANCE)) shop_session).2 in
  let s2 := (run_request (refund_order sample_env (λ _, "") 1001 "mistake" true) s1).2 in
  (order_provider <$> orders (db s1) !! 1001, order_status <$> orders (db s1) !! 1001)
    = (Some BALANCE, Some COMPLETED) ∧
  balance_of 1 shop_session = Some 30000 ∧ balance_of 1 s1 = Some 10000 ∧
  order_status <$> orders (db s2) !! 1001 = Some REFUNDED ∧ balance_of 1 s2 = Some (-10000).
Proof. cbv zeta. split_and!; vm_compute; reflexivity. Qed.

(** A device quantity is not checked from below: an order for a negative
    number of devices passes its schema, and paid from the balance it costs less
    than the plan or increases the balance. *)
Theorem negative_quantity_credits_balance :
  let s1 := (run_request (create_order no_keys sample_env (buy 1 50 (-1) BALANCE)) shop_session).2 in
  let s2 := (run_request (create_order no_keys sample_env
     {| oci_user_id := 1; oci_plan_id := None; oci_amount_rub := None; oci_provider := BALANCE;
        oci_order_type := DEVICE_SLOTS; oci_device_slots_qty := -10; oci_period_months := 1;
        oci_subscription_id := head (sub_id <$> rows (subscriptions (db s1)));
        oci_payment_method := None; oci_promo_code := None |}) s1).2 in
  OrderCreateIn_valid (buy 1 50 (-1) BALANCE) = true ∧
  balance_of 1 s1 = Some 15000 ∧ balance_of 1 s2 = Some 65000.
Proof. cbv zeta. split_and!; vm_compute; reflexivity. Qed.

(** The number of extra devices is not checked from above either: an order
    for ninety-nine extra devices is accepted and can be paid, but a first
    subscription holds at most a hundred devices, so its fulfilment always
    raises, the request is rolled back, and the payment is never credited. *)
Theorem oversized_order_never_fulfilled :
  let s1 := (run_request (create_order no_keys sample_env (buy 1 50 99 STARS)) shop_session).2 in
  let r := run_request (confirm_stars_payment no_keys sample_env 1001 "charge" 1) s1 in
  order_status <$> orders (db s1) !! 1001 = Some PENDING ∧
  outcome_of r = Raise (ValidationError "SubscriptionInternalCreate.max_devices") ∧
  order_status <$> orders (db r.2) !! 1001 = Some PENDING ∧
  balance_of 1 r.2 = balance_of 1 shop_session.
Proof. cbv zeta. split_and!; vm_compute; reflexivity. Qed.

(** A subscription of user 1 to the plan, expiring at day 10, renewed
    automatically. *)
Definition running_sub (auto : bool) : Subscription :=
  {| sub_id := 80; sub_user_id := 1; sub_plan_id := Some 50; sub_token := None;
     sub_token_hash := "h80"; prev_token_hash := None; prev_token_expires_at := None;
     sub_expires_at := Some (10 * day); sub_profile_key := None; preferred_region := None;
     root_vpn_key_id := None; hwid_enabled := true; sub_max_devices := Some 2;
     paid_device_slots := 0; sub_period_months := 1; sub_used_traffic_bytes := 0;
     lifetime_used_traffic_bytes := 0; last_traffic_reset_at := None; first_connected_at := None;
     auto_renew := auto; traffic_warning_threshold_pct := 0; sub_is_active := true;
     sub_created_at := 0; sub_updated_at := 0 |}.

Definition renewal_db (active : bool) : database :=
  set_plans {[50 := plan_pro active]} (set_subscriptions {[80 := running_sub true]} shop_db).

(** A renewal of a retired plan is accepted and can be paid, but its
    fulfilment skips plans that are not active: the order completes, the money
    stays on the balance, and the subscription is not extended. *)
Theorem retired_plan_renewal_not_delivered :
  let s0 := session_on (renewal_db false) 0 1000 in
  let s1 := (run_request (create_order no_keys sample_env
     {| oci_user_id := 1; oci_plan_id := Some 50; oci_amount_rub := None; oci_provider := STARS;
        oci_order_type := SUBSCRIPTION_RENEWAL; oci_device_slots_qty := 0; oci_period_months := 1;
        oci_subscription_id := Some 80; oci_payment_method := None; oci_promo_code := None |}) s0).2 in
  let s2 := (run_request (confirm_stars_payment no_keys sample_env 1001 "charge" 1) s1).2 in
  order_status <$> orders (db s2) !! 1001 = Some COMPLETED ∧
  balance_of 1 s2 = Some 50000 ∧
  sub_expires_at <$> subscriptions (db s2) !! 80 = Some (Some (10 * day)).
Proof. cbv zeta. split_and!; vm_compute; reflexivity. Qed.

(** The reconciler reports a renewal and leaves the subscription as it was. *)
Example auto_renew_reports_one :
  let r := auto_renew_tick no_keys sample_env 86400 259200 200
             (session_on (renewal_db true) (9 * day + 1) 1000) in
  r.1 = Ok 1 ∧ sub_expires_at <$> subscriptions (db r.2) !! 80 = Some (Some (10 * day)) ∧
  balance_of 1 r.2 = Some 30000.
Proof. cbv zeta. split_and!; vm_compute; reflexivity. Qed.

(** Changing only the price of a plan does not change what is charged: the
    monthly period keeps the old price, and orders are priced by the period. *)
Theorem price_update_not_charged :
  let s1 := (run_request (update_plan 50 (update_periods None (Some (Some 99000)))) shop_session).2 in
  price_rub <$> plans (db s1) !! 50 = Some 99000 ∧
  (λ p, _resolve_period_price p 1) <$> plans (db s1) !! 50 = Some (Some 20000) ∧
  balance_of 1 (run_request (create_order no_keys sample_env (buy 1 50 0 BALANCE)) s1).2 = Some 10000.
Proof. cbv zeta. split_and!; vm_compute; reflexivity. Qed.
