(* ===== verification/FleetTables.v ===== *)
(** The tables of the node fleet as instances of the generic repository, and the
    lookups of services/nodes/repository.py and services/nodes/policy that the
    placement and transport components make. *)

From stdpp Require Import base gmap strings list.
From S2P Require Import Prelude Errors RouteModels BillingModels FleetModels SupportModels Session Tables.
Local Open Scope Z_scope.

(** * Tables *)

Definition nodes_tbl : table VpnNode :=
  {| t_rows := nodes; t_set := set_nodes; t_id := node_id;
     t_touch := λ now n,
       {| node_id := node_id n; node_name := node_name n; node_role := node_role n;
          node_region := node_region n; public_domain := public_domain n;
          reality_ip := reality_ip n; internal_wg_ip := internal_wg_ip n;
          node_key := node_key n; xray_api_port := xray_api_port n;
          auth_token_hash := auth_token_hash n; agent_port := agent_port n;
          is_enabled := is_enabled n; is_draining := is_draining n; is_virtual := is_virtual n;
          drain_source := drain_source n; node_capacity := node_capacity n;
          node_zone := node_zone n; upstream_node_id := upstream_node_id n;
          bootstrap_token_expires_at := bootstrap_token_expires_at n;
          bootstrapped_at := bootstrapped_at n; wg_public_key := wg_public_key n;
          wg_listen_port := wg_listen_port n; node_is_active := node_is_active n;
          node_created_at := node_created_at n; node_updated_at := now |};
     t_check := λ d old n,
       match unique_on "vpn_node_name_key" (nodes d) node_id
               (λ a b, String.eqb (node_name a) (node_name b)) old n with
       | Some c => Some c
       | None => unique "ix_vpn_node_node_key" (nodes d) node_id
                   (λ a b, sql_eqb (node_key a) (node_key b))
                   (λ a b, bool_decide (node_key a = node_key b)) old n
       end |}.

(** [VpnNodeUpdate], [AdminNodeUpdateIn] and [NodeUpstreamUpdate] dumped with
    [exclude_unset]: a field that is set carries the value written to its column. *)
Record VpnNodeUpdate := {
  nu_name : option string;
  nu_role : option string;
  nu_region : option string;
  nu_public_domain : option string;
  nu_reality_ip : option (option string);
  nu_internal_wg_ip : option string;
  nu_node_key : option (option string);
  nu_auth_token_hash : option string;
  nu_is_enabled : option bool;
  nu_is_draining : option bool;
  nu_drain_source : option (option string);
  nu_capacity : option Z;
  nu_zone : option (option string);
  nu_upstream_node_id : option (option Z);
  nu_bootstrap_token_expires_at : option (option Z);
  nu_bootstrapped_at : option (option Z);
  nu_updated_at : option Z;
}.

Definition node_unset : VpnNodeUpdate :=
  {| nu_name := None; nu_role := None; nu_region := None; nu_public_domain := None;
     nu_reality_ip := None; nu_internal_wg_ip := None; nu_node_key := None; nu_auth_token_hash
     := None; nu_is_enabled := None; nu_is_draining := None; nu_drain_source := None;
     nu_capacity := None; nu_zone := None; nu_upstream_node_id := None;
     nu_bootstrap_token_expires_at := None; nu_bootstrapped_at := None; nu_updated_at := None
     |}.

Definition patch_node (u : VpnNodeUpdate) (n : VpnNode) : VpnNode :=
  {| node_id := node_id n; node_name := default (node_name n) (nu_name u); node_role :=
     default (node_role n) (nu_role u); node_region := default (node_region n) (nu_region u);
     public_domain := default (public_domain n) (nu_public_domain u); reality_ip := default
     (reality_ip n) (nu_reality_ip u); internal_wg_ip := default (internal_wg_ip n)
     (nu_internal_wg_ip u); node_key := default (node_key n) (nu_node_key u); xray_api_port :=
     xray_api_port n; auth_token_hash := default (auth_token_hash n) (nu_auth_token_hash u);
     agent_port := agent_port n; is_enabled := default (is_enabled n) (nu_is_enabled u);
     is_draining := default (is_draining n) (nu_is_draining u); is_virtual := is_virtual n;
     drain_source := default (drain_source n) (nu_drain_source u); node_capacity := default
     (node_capacity n) (nu_capacity u); node_zone := default (node_zone n) (nu_zone u);
     upstream_node_id := default (upstream_node_id n) (nu_upstream_node_id u);
     bootstrap_token_expires_at := default (bootstrap_token_expires_at n)
     (nu_bootstrap_token_expires_at u); bootstrapped_at := default (bootstrapped_at n)
     (nu_bootstrapped_at u); wg_public_key := wg_public_key n; wg_listen_port :=
     wg_listen_port n; node_is_active := node_is_active n; node_created_at := node_created_at
     n; node_updated_at := default (node_updated_at n) (nu_updated_at u) |}.

(** [VpnNodeUpdate(is_draining=..., drain_source=...)]. *)
Definition drain_update (draining : bool) (source : option string) : VpnNodeUpdate :=
  {| nu_name := None; nu_role := None; nu_region := None; nu_public_domain := None;
     nu_reality_ip := None; nu_internal_wg_ip := None; nu_node_key := None; nu_auth_token_hash
     := None; nu_is_enabled := None; nu_is_draining := Some draining; nu_drain_source := Some
     source; nu_capacity := None; nu_zone := None; nu_upstream_node_id := None;
     nu_bootstrap_token_expires_at := None; nu_bootstrapped_at := None; nu_updated_at := None
     |}.

(** [{'is_draining': ...}]. *)
Definition draining_update (draining : bool) : VpnNodeUpdate :=
  {| nu_name := None; nu_role := None; nu_region := None; nu_public_domain := None;
     nu_reality_ip := None; nu_internal_wg_ip := None; nu_node_key := None; nu_auth_token_hash
     := None; nu_is_enabled := None; nu_is_draining := Some draining; nu_drain_source := None;
     nu_capacity := None; nu_zone := None; nu_upstream_node_id := None;
     nu_bootstrap_token_expires_at := None; nu_bootstrapped_at := None; nu_updated_at := None
     |}.

(** [NodeUpstreamUpdate]. *)
Definition upstream_update (backend now : Z) : VpnNodeUpdate :=
  {| nu_name := None; nu_role := None; nu_region := None; nu_public_domain := None;
     nu_reality_ip := None; nu_internal_wg_ip := None; nu_node_key := None; nu_auth_token_hash
     := None; nu_is_enabled := None; nu_is_draining := None; nu_drain_source := None;
     nu_capacity := None; nu_zone := None; nu_upstream_node_id := Some (Some backend);
     nu_bootstrap_token_expires_at := None; nu_bootstrapped_at := None; nu_updated_at := Some
     now |}.

Definition agent_states_tbl : table NodeAgentState :=
  {| t_rows := agent_states; t_set := set_agent_states; t_id := as_id; t_touch := λ _ a, a;
     t_check := λ d, unique_on "node_agent_state_node_id_key" (agent_states d) as_id
                  (λ a b, as_node_id a =? as_node_id b) |}.

Definition touch_key (now : Z) (k : VpnKey) : VpnKey :=
  {| key_id := key_id k; key_user_id := key_user_id k; key_protocol := key_protocol k;
     key_transport := key_transport k; client_id := client_id k; valid_until := valid_until k;
     traffic_limit_mb := traffic_limit_mb k; key_used_traffic_bytes := key_used_traffic_bytes k;
     is_revoked := is_revoked k; key_subscription_id := key_subscription_id k;
     entry_routing_override_backend_tag := entry_routing_override_backend_tag k;
     key_is_active := key_is_active k; key_created_at := key_created_at k; key_updated_at := now |}.

Definition keys_tbl : table VpnKey :=
  {| t_rows := vpn_keys; t_set := set_vpn_keys; t_id := key_id; t_touch := touch_key;
     t_check := λ d, unique_on "vpn_key_client_id_key" (vpn_keys d) key_id
                  (λ a b, String.eqb (client_id a) (client_id b)) |}.

(** Two placements of the same key on the same backend. *)
Definition same_slot (a b : UserPlacement) : bool :=
  (pl_key_id a =? pl_key_id b) && (backend_node_id a =? backend_node_id b).

Definition touch_placement (now : Z) (p : UserPlacement) : UserPlacement :=
  {| pl_id := pl_id p; pl_key_id := pl_key_id p; backend_node_id := backend_node_id p;
     desired_state := desired_state p; applied_state := applied_state p;
     op_version := op_version p; applied_version := applied_version p;
     sticky_until := sticky_until p; last_migration_reason := last_migration_reason p;
     pl_is_active := pl_is_active p; pl_created_at := pl_created_at p; pl_updated_at := now |}.

Definition placements_tbl : table UserPlacement :=
  {| t_rows := placements; t_set := set_placements; t_id := pl_id; t_touch := touch_placement;
     t_check := λ d old p,
       match placement_check p with
       | Some c => Some c
       | None => unique_on "uq_user_placement_key_backend" (placements d) pl_id same_slot old p
       end |}.

(** [with_outbox st att pub err retry now r]: the columns the publisher writes. *)
Definition with_outbox (st : OutboxStatus) (attempts : Z) (published : option Z)
    (err : option string) (retry : option Z) (now : Z) (r : NodeTransportOutbox)
    : NodeTransportOutbox :=
  {| ob_id := ob_id r; ob_node_id := ob_node_id r; ob_event_type := ob_event_type r;
     ob_aggregate_id := ob_aggregate_id r; ob_op_version := ob_op_version r;
     ob_subject := ob_subject r; ob_payload := ob_payload r; ob_message_id := ob_message_id r;
     ob_status := st; ob_attempts := attempts; ob_published_at := published;
     ob_last_error := err; ob_next_retry_at := retry; ob_created_at := ob_created_at r;
     ob_updated_at := now |}.

Definition outbox_tbl : table NodeTransportOutbox :=
  {| t_rows := outbox; t_set := set_outbox; t_id := ob_id;
     t_touch := λ now r, with_outbox (ob_status r) (ob_attempts r) (ob_published_at r)
                           (ob_last_error r) (ob_next_retry_at r) now r;
     t_check := λ d, unique_on "node_transport_outbox_message_id_key" (outbox d) ob_id
                  (λ a b, bool_decide (ob_message_id a = ob_message_id b)) |}.

Definition event_log_tbl : table NodeTransportEventLog :=
  {| t_rows := event_log; t_set := set_event_log; t_id := el_id; t_touch := λ _ r, r;
     t_check := λ d, unique_on "node_transport_event_log_event_id_key" (event_log d) el_id
                  (λ a b, String.eqb (el_event_id a) (el_event_id b)) |}.

Definition touch_transport_state (now : Z) (r : NodeTransportState) : NodeTransportState :=
  {| ts_id := ts_id r; ts_node_id := ts_node_id r; current_epoch := current_epoch r;
     last_snapshot_id := last_snapshot_id r;
     last_snapshot_request_event_id := last_snapshot_request_event_id r;
     last_snapshot_requested_at := last_snapshot_requested_at r;
     last_snapshot_generated_at := last_snapshot_generated_at r;
     last_snapshot_reason := last_snapshot_reason r;
     last_command_published_at := last_command_published_at r;
     last_command_message_id := last_command_message_id r;
     last_result_received_at := last_result_received_at r;
     last_result_event_id := last_result_event_id r;
     last_heartbeat_received_at := last_heartbeat_received_at r;
     last_sync_report_received_at := last_sync_report_received_at r; ts_updated_at := now |}.

Definition transport_states_tbl : table NodeTransportState :=
  {| t_rows := transport_states; t_set := set_transport_states; t_id := ts_id;
     t_touch := touch_transport_state;
     t_check := λ d, unique_on "uq_node_transport_state_node" (transport_states d) ts_id
                  (λ a b, ts_node_id a =? ts_node_id b) |}.

Definition policies_tbl : table NodePolicy :=
  {| t_rows := node_policies; t_set := set_node_policies; t_id := np_id; t_touch := λ _ p, p;
     t_check := λ _ _ _, None |}.

Definition touch_assignment (now : Z) (e : EntryBackendAssignment) : EntryBackendAssignment :=
  {| eba_id := eba_id e; eba_entry_node_id := eba_entry_node_id e;
     eba_backend_node_id := eba_backend_node_id e; eba_weight := eba_weight e;
     eba_enabled := eba_enabled e; eba_rank := eba_rank e; eba_is_active := eba_is_active e;
     eba_created_at := eba_created_at e; eba_updated_at := now |}.

Definition same_pair (a b : EntryBackendAssignment) : bool :=
  (eba_entry_node_id a =? eba_entry_node_id b) && (eba_backend_node_id a =? eba_backend_node_id b).

Definition assignments_tbl : table EntryBackendAssignment :=
  {| t_rows := entry_assignments; t_set := set_entry_assignments; t_id := eba_id;
     t_touch := touch_assignment;
     t_check := λ d, unique_on "uq_entry_backend_assignment_entry_backend" (entry_assignments d)
                  eba_id same_pair |}.

Definition identities_tbl : table NodeAgentIdentity :=
  {| t_rows := agent_identities; t_set := set_agent_identities; t_id := ai_id;
     t_touch := λ now a,
       {| ai_id := ai_id a; ai_node_id := ai_node_id a; agent_instance_id := agent_instance_id a;
          ai_auth_token_hash := ai_auth_token_hash a; prev_auth_token_hash := prev_auth_token_hash a;
          prev_auth_token_valid_until := prev_auth_token_valid_until a;
          full_resync_required := full_resync_required a; last_bootstrap_at := last_bootstrap_at a;
          ai_updated_at := now |};
     t_check := λ d, unique_on "uq_node_agent_identity_node_agent" (agent_identities d) ai_id
                  (λ a b, (ai_node_id a =? ai_node_id b) && (agent_instance_id a =? agent_instance_id b)) |}.

Definition probe_signals_tbl : table ProbeSignal :=
  {| t_rows := probe_signals; t_set := set_probe_signals; t_id := ps_id; t_touch := λ _ p, p;
     t_check := λ _ _ p,
       match ps_target_port p with
       | Some port => if (1 <=? port) && (port <=? 65535) then None
                      else Some "ck_probe_signal_target_port_range"
       | None => None
       end |}.

Definition probe_policies_tbl : table ProbePolicy :=
  {| t_rows := probe_policies; t_set := set_probe_policies; t_id := pp_id; t_touch := λ _ p, p;
     t_check := λ _ _ _, None |}.

Definition alerts_tbl : table AlertEvent :=
  {| t_rows := alert_events; t_set := set_alert_events; t_id := al_id;
     t_touch := λ now a,
       {| al_id := al_id a; al_level := al_level a; al_source := al_source a;
          al_dedup_key := al_dedup_key a; al_entity_id := al_entity_id a; al_title := al_title a;
          al_body := al_body a; occurrences := occurrences a; al_last_seen_at := al_last_seen_at a;
          read_at := read_at a; resolved_at := resolved_at a; dismissed_at := dismissed_at a;
          telegram_sent_at := telegram_sent_at a; al_created_at := al_created_at a;
          al_updated_at := now |};
     t_check := λ _ _ _, None |}.

Definition touch_device (now : Z) (v : SubscriptionDevice) : SubscriptionDevice :=
  {| dev_id := dev_id v; dev_subscription_id := dev_subscription_id v; hwid_hash := hwid_hash v;
     dev_last_seen_at := dev_last_seen_at v; user_agent := user_agent v; device_model := device_model v;
     platform := platform v; os_version := os_version v; dev_is_active := dev_is_active v;
     dev_created_at := dev_created_at v; dev_updated_at := now |}.

Definition devices_tbl : table SubscriptionDevice :=
  {| t_rows := devices; t_set := set_devices; t_id := dev_id; t_touch := touch_device;
     t_check := λ d, unique_on "uq_subscription_device_hwid" (devices d) dev_id
       (λ a b, (dev_subscription_id a =? dev_subscription_id b) && String.eqb (hwid_hash a) (hwid_hash b)) |}.

Definition device_keys_tbl : table SubscriptionDeviceKey :=
  {| t_rows := device_keys; t_set := set_device_keys; t_id := dk_id; t_touch := λ _ k, k;
     t_check := λ d old r,
       match unique_on "uq_subscription_device_key_device_key" (device_keys d) dk_id
               (λ a b, (dk_device_id a =? dk_device_id b) && (dk_vpn_key_id a =? dk_vpn_key_id b)) old r with
       | Some c => Some c
       | None => unique_on "uq_subscription_device_key_device_transport" (device_keys d) dk_id
                   (λ a b, (dk_device_id a =? dk_device_id b) && String.eqb (dk_transport a) (dk_transport b)) old r
       end |}.

Definition traffic_usages_tbl : table TrafficUsage :=
  {| t_rows := traffic_usages; t_set := set_traffic_usages; t_id := tu_id; t_touch := λ _ u, u;
     t_check := λ _ _ _, None |}.

Definition processed_msgs_tbl : table NatsProcessedMsgLog :=
  {| t_rows := processed_msgs; t_set := set_processed_msgs; t_id := npm_id; t_touch := λ _ m, m;
     t_check := λ d, unique_on "uq_nats_processed_msg_subject_msg_id" (processed_msgs d) npm_id
       (λ a b, String.eqb (npm_subject a) (npm_subject b) && String.eqb (npm_msg_id a) (npm_msg_id b)) |}.

Definition touch_zone (now : Z) (z : Zone) : Zone :=
  {| zone_id := zone_id z; zone_code := zone_code z; zone_name := zone_name z; zone_emoji := zone_emoji z;
     zone_sort_order := zone_sort_order z; zone_is_active := zone_is_active z; zone_created_at := zone_created_at z;
     zone_updated_at := now |}.

Definition zones_tbl : table Zone :=
  {| t_rows := zones; t_set := set_zones; t_id := zone_id; t_touch := touch_zone;
     t_check := λ d, unique_on "ix_zone_code" (zones d) zone_id (λ a b, String.eqb (zone_code a) (zone_code b)) |}.

Definition route_assignments_tbl : table SubscriptionRouteAssignment :=
  {| t_rows := route_assignments; t_set := set_route_assignments; t_id := sra_id;
     t_touch := λ _ r, r;
     t_check := λ d, unique_on "uq_route_assignment_sub_device_transport" (route_assignments d) sra_id
                  (λ a b, (sra_subscription_id a =? sra_subscription_id b) &&
                          (sra_subscription_device_id a =? sra_subscription_device_id b) &&
                          String.eqb (sra_transport a) (sra_transport b)) |}.

#[export] Instance assignments_laws : TableLaws assignments_tbl. Proof. table_laws. Qed.
#[export] Instance identities_laws : TableLaws identities_tbl. Proof. table_laws. Qed.
#[export] Instance probe_signals_laws : TableLaws probe_signals_tbl. Proof. table_laws. Qed.
#[export] Instance alerts_laws : TableLaws alerts_tbl. Proof. table_laws. Qed.
#[export] Instance devices_laws : TableLaws devices_tbl. Proof. table_laws. Qed.
#[export] Instance device_keys_laws : TableLaws device_keys_tbl. Proof. table_laws. Qed.
#[export] Instance traffic_usages_laws : TableLaws traffic_usages_tbl. Proof. table_laws. Qed.
#[export] Instance processed_msgs_laws : TableLaws processed_msgs_tbl. Proof. table_laws. Qed.
#[export] Instance zones_laws : TableLaws zones_tbl. Proof. table_laws. Qed.
#[export] Instance route_assignments_laws : TableLaws route_assignments_tbl. Proof. table_laws. Qed.
#[export] Instance nodes_laws : TableLaws nodes_tbl. Proof. table_laws. Qed.
#[export] Instance agent_states_laws : TableLaws agent_states_tbl. Proof. table_laws. Qed.
#[export] Instance keys_laws : TableLaws keys_tbl. Proof. table_laws. Qed.
#[export] Instance placements_laws : TableLaws placements_tbl. Proof. table_laws. Qed.
#[export] Instance outbox_laws : TableLaws outbox_tbl. Proof. table_laws. Qed.
#[export] Instance event_log_laws : TableLaws event_log_tbl. Proof. table_laws. Qed.
#[export] Instance transport_states_laws : TableLaws transport_states_tbl. Proof. table_laws. Qed.

(** [role in ("entry", "whitelist_entry")]. *)
Definition is_entry_role (role : string) : bool :=
  String.eqb role "entry" || String.eqb role "whitelist_entry".

(** * Policy *)

(** [(await NodePolicyRepository(session).list(limit=1))[0]]: the row of the
    largest id, [IndexError] when there is none. *)
Definition node_policy : SM NodePolicy :=
  l ← select_where policies_tbl (λ _, true);
  match order_by_desc np_id l with
  | p :: _ => mret p
  | [] => raise IndexError
  end.

(** * ProfileArtifactRepository *)

Definition touch_artifact (now : Z) (a : ProfileArtifact) : ProfileArtifact :=
  {| pa_id := pa_id a; pa_version := pa_version a; pa_checksum := pa_checksum a; pa_artifact := pa_artifact a;
     pa_is_active := pa_is_active a; pa_created_at := pa_created_at a; pa_updated_at := now |}.

Definition artifacts_tbl : table ProfileArtifact :=
  {| t_rows := profile_artifacts; t_set := set_profile_artifacts; t_id := pa_id; t_touch := touch_artifact; t_check := λ _ _ _, None |}.
#[export] Instance artifacts_laws : TableLaws artifacts_tbl. Proof. table_laws. Qed.

Definition get_active_artifact : SM (option ProfileArtifact) :=
  l ← select_where artifacts_tbl pa_is_active; scalar_one_or_none l.
