(* ===== verification/Routing.v ===== *)
(** Choosing backend nodes (services/routing/service.py and services/routing/repository.py): the
    eligible nodes, scored by load, health and region, best first; and the route selector
    (services/routing/selector.py): which of the candidate routes a client gets, spread over
    entries, backends and transports. *)

From stdpp Require Import base numbers gmap strings list sorting.
From S2P Require Import Prelude Decimal Errors RouteModels BillingModels FleetModels Session Tables FleetTables.
Local Open Scope Z_scope.


Definition ROUTING_TRAFFIC_WINDOW_SEC : Z := 3600.

(** * Repository *)

(** Bytes per backend since the cutoff, as the dict the query returns: a backend
    without traffic rows has no entry. *)
Definition recent_traffic_bytes_per_backend (window_sec : Z) : SM (gmap Z Z) :=
  now ← utcnow;
  let cutoff := now - Z.max 60 window_sec * second in
  read (λ d, foldr (λ u m,
    match ntu_backend_node_id u with
    | Some b => if cutoff <=? ntu_created_at u
                then <[b := default 0 (m !! b) + (ntu_bytes_in u + ntu_bytes_out u)]> m else m
    | None => m
    end) ∅ (node_traffic d)).

(** [count(UserPlacement.id) where is_active and desired_state = 'active'] of a
    backend, [0] when there is none. *)
Definition active_count (d : database) (nid : Z) : Z :=
  Z.of_nat (length (filter (λ p, (pl_is_active p && bool_decide (desired_state p = desired_active) &&
    (backend_node_id p =? nid)) = true) (rows (placements d)))).

(** The agent state joined to a node; [node_id] is unique in that table. *)
Definition agent_state_of (d : database) (nid : Z) : option NodeAgentState :=
  find (λ a, as_node_id a =? nid) (rows (agent_states d)).

(** The WHERE clause of [list_available_nodes]. *)
Definition available (d : database) (exclude_node_ids : list Z) (n : VpnNode) (a : NodeAgentState) : bool :=
  node_is_active n && is_enabled n && negb (is_draining n) &&
  String.eqb (node_role n) ROLE_BACKEND && is_healthy a && (0 <? node_capacity n) &&
  (active_count d (node_id n) <? node_capacity n) &&
  negb (bool_decide (node_id n ∈ exclude_node_ids)).

(** [preferred_region and node.region == preferred_region]. *)
Definition in_region (preferred_region : option string) (n : VpnNode) : bool :=
  match preferred_region with
  | Some r => nonempty r && String.eqb (node_region n) r
  | None => false
  end.

Definition list_available_nodes (preferred_region : option string) (exclude_node_ids : list Z)
    : SM (list (VpnNode * NodeAgentState * Z)) :=
  read (λ d,
    let found := omap (λ n,
      match agent_state_of d (node_id n) with
      | Some a => if available d exclude_node_ids n a
                  then Some (n, a, active_count d (node_id n)) else None
      | None => None
      end) (rows (nodes d)) in
    order_by_desc (λ r, Z.b2z (in_region preferred_region r.1.1)) found).

(** * Service *)

(** [self.node_state_stale_after_sec]. *)
Definition _load_policy : SM Z :=
  p ← node_policy;
  mret (Z.max 30 (stale_after_sec p)).

Definition _is_healthy (stale : Z) (a : NodeAgentState) (now : Z) : bool :=
  is_healthy a &&
  match last_seen_at a with
  | None => false
  | Some seen => let age := total_seconds (now - seen) in num age <=? stale * den age
  end.

Definition _calc_score (n : VpnNode) (a : NodeAgentState) (count recent_bytes max_recent_bytes : Z)
    (preferred_region : option string) : rat :=
  let one := rat_of_Z 1 in
  let count_ratio := if 0 <? node_capacity n
                     then float53 {| num := count; den := node_capacity n |} else one in
  let traffic_ratio := if 0 <? max_recent_bytes
                       then float53 {| num := recent_bytes; den := max_recent_bytes |} else float_zero in
  let load_ratio := float_min one (float_max count_ratio traffic_ratio) in
  let load_weight := float_sub one load_ratio in
  let health_weight := if is_healthy a then one else float_zero in
  let region_weight := if in_region preferred_region n then {| num := 1; den := 2 |} else float_zero in
  float_add (float_add health_weight load_weight) region_weight.

(** [sort(key=score, reverse=True)]: descending, equal scores keep their order. *)
Definition score_ge (a b : rat * VpnNode) : Prop := num b.1 * den a.1 ≤ num a.1 * den b.1.
#[export] Instance score_ge_dec : RelDecision score_ge.
Proof. intros a b. unfold score_ge. apply _. Defined.
#[export] Instance score_ge_total : Total score_ge.
Proof. intros a b. unfold score_ge. lia. Qed.

(** [max(traffic_by_node.values(), default=0)]. *)
Definition max_value (m : gmap Z Z) : Z :=
  match (map_to_list m).*2 with [] => 0 | v :: l => foldl Z.max v l end.

Definition select_nodes (preferred_region : option string) (exclude_node_ids : list Z)
    : SM (list VpnNode) :=
  stale ← _load_policy;
  found ← list_available_nodes preferred_region exclude_node_ids;
  traffic ← recent_traffic_bytes_per_backend ROUTING_TRAFFIC_WINDOW_SEC;
  now ← utcnow;
  let scored := omap (λ '(n, a, count),
    if negb (_is_healthy stale a now) then None
    else if node_capacity n <=? count then None
    else Some (_calc_score n a count (default 0 (traffic !! node_id n)) (max_value traffic)
                 preferred_region, n)) found in
  mret ((merge_sort score_ge scored).*2).

(** * Correctness *)

(** The score of a node in database [d] given the traffic dict. *)
Definition score_in (d : database) (traffic : gmap Z Z) (preferred_region : option string)
    (n : VpnNode) : rat :=
  match agent_state_of d (node_id n) with
  | Some a => _calc_score n a (active_count d (node_id n)) (default 0 (traffic !! node_id n))
                (max_value traffic) preferred_region
  | None => float_zero
  end.

(** A node the service may return. *)
Definition eligible (d : database) (exclude_node_ids : list Z) (stale now : Z) (n : VpnNode) : Prop :=
  ∃ i a, nodes d !! i = Some n ∧ agent_state_of d (node_id n) = Some a ∧
    available d exclude_node_ids n a = true ∧ _is_healthy stale a now = true.

Lemma elem_of_order_by_desc {R} (key : R → Z) l r : r ∈ order_by_desc key l ↔ r ∈ l.
Proof. unfold order_by_desc. by rewrite merge_sort_Permutation. Qed.

(** What [list_available_nodes] returns. *)
Definition found_nodes (d : database) (preferred_region : option string) (exclude : list Z)
    : list (VpnNode * NodeAgentState * Z) :=
  order_by_desc (λ r, Z.b2z (in_region preferred_region r.1.1))
    (omap (λ n,
      match agent_state_of d (node_id n) with
      | Some a => if available d exclude n a
                  then Some (n, a, active_count d (node_id n)) else None
      | None => None
      end) (rows (nodes d))).

Lemma elem_of_found d region exclude n a c :
  (n, a, c) ∈ found_nodes d region exclude ↔
  c = active_count d (node_id n) ∧ agent_state_of d (node_id n) = Some a ∧
  available d exclude n a = true ∧ ∃ i, nodes d !! i = Some n.
Proof.
  unfold found_nodes. rewrite elem_of_order_by_desc, list_elem_of_omap. split.
  - intros (n' & Hin & Hsome).
    destruct (agent_state_of d (node_id n')) as [a'|] eqn:Ha; [|done].
    destruct (available d exclude n' a') eqn:Hav; [|done].
    injection Hsome as -> -> ->. split_and!; [done..|]. by apply elem_of_rows.
  - intros (-> & Ha & Hav & Hi). exists n. split; [by apply elem_of_rows|].
    by rewrite Ha, Hav.
Qed.

Lemma available_capacity d exclude n a :
  available d exclude n a = true → active_count d (node_id n) < node_capacity n.
Proof. unfold available. rewrite !andb_true_iff. intros [[_ H] _]. by apply Z.ltb_lt. Qed.

(** A sorted list of scored nodes whose scores are the nodes' own. *)
Lemma Sorted_scored (score : VpnNode → rat) (l : list (rat * VpnNode)) :
  (∀ p, p ∈ l → p.1 = score p.2) → Sorted score_ge l →
  Sorted (λ n m, score_ge (score n, n) (score m, m)) l.*2.
Proof.
  intros Hl Hs. induction Hs as [|[q n] l Hs IH Hhd]; cbn; constructor.
  - apply IH. intros p Hp. apply Hl. by right.
  - destruct Hhd as [|[q' m] l Hge]; cbn; constructor.
    pose proof (Hl (q, n) ltac:(left)) as E1. pose proof (Hl (q', m) ltac:(right; left)) as E2.
    cbn in E1, E2. subst. exact Hge.
Qed.

(** With a policy row, [select_nodes] returns exactly the eligible nodes
    (active, enabled, not draining backends with a fresh healthy agent and spare
    capacity, not excluded), in descending order of score, and changes nothing. *)
Theorem select_nodes_exact (region : option string) (exclude : list Z) (s : session) (p : NodePolicy) :
  head (order_by_desc np_id (rows (node_policies (db s)))) = Some p →
  ∃ l s' traffic, select_nodes region exclude s = (Ok l, s') ∧ db s' = db s ∧
    (∀ n, n ∈ l ↔ eligible (db s) exclude (Z.max 30 (stale_after_sec p)) (clock s (S (ticks s))) n) ∧
    (recent_traffic_bytes_per_backend ROUTING_TRAFFIC_WINDOW_SEC s).1 = Ok traffic ∧
    Sorted (λ n m, score_ge (score_in (db s) traffic region n, n)
                            (score_in (db s) traffic region m, m)) l.
Proof.
  intros Hp. unfold select_nodes, _load_policy, node_policy.
  assert (Hsel : filter (λ r : NodePolicy, true = true) (rows (node_policies (db s))) =
    rows (node_policies (db s))) by (by apply filter_unchanged).
  unfold mbind, M_bind, select_where, read, gets. cbn [t_rows policies_tbl]. rewrite Hsel.
  destruct (order_by_desc np_id _) as [|p' ps]; [done|]. injection Hp as ->.
  unfold mret, M_ret, list_available_nodes, recent_traffic_bytes_per_backend, read, gets,
    mbind, M_bind, utcnow. cbn [clock ticks db].
  fold (found_nodes (db s) region exclude).
  set (now := clock s (S (ticks s))). set (stale := Z.max 30 _).
  set (traffic := foldr _ ∅ _). set (scored := omap _ _).
  assert (Hscored : ∀ q n, (q, n) ∈ scored ↔
    (q = score_in (db s) traffic region n ∧ eligible (db s) exclude stale now n)).
  { intros q n. unfold scored, eligible, score_in. rewrite list_elem_of_omap. split.
    - intros ([[n' a] c] & (-> & Ha & Hav & i & Hi)%elem_of_found & Hsome).
      destruct (_is_healthy stale a now) eqn:Hh; [|done]. cbn in Hsome.
      destruct (Z.leb_spec (node_capacity n') (active_count (db s) (node_id n'))); [done|].
      injection Hsome as <- <-. rewrite Ha. split; [done|]. by exists i, a.
    - intros (-> & i & a & Hi & Ha & Hav & Hh).
      exists (n, a, active_count (db s) (node_id n)). split; [by apply elem_of_found; eauto 6|].
      rewrite Hh, Ha. cbn. pose proof (available_capacity _ _ _ _ Hav).
      by rewrite (proj2 (Z.leb_gt _ _)). }
  eexists _, _, traffic. split_and!; [done|done| |done|].
  - intros n. rewrite list_elem_of_fmap. setoid_rewrite merge_sort_Permutation. split.
    + intros ([q n'] & -> & Hin). by apply Hscored in Hin as [_ ?].
    + intros He. exists (score_in (db s) traffic region n, n). split; [done|]. by apply Hscored.
  - apply Sorted_scored; [|apply Sorted_merge_sort, _].
    intros [q n] Hin. rewrite merge_sort_Permutation in Hin. by apply Hscored in Hin as [? _].
Qed.

(** The route selector (services/routing/selector.py): which of the candidate routes a client
    gets, spread over entries, backends and transports. *)


(** * [random.Random]

    A generator of type [G]: [seeded z] is [random.Random(z)], [random] draws
    the numerator of [k / 2^53], [randbelow n] is the index [choice] draws. *)
Class Random (G : Type) := {
  seeded : Z → G;
  random : G → Z * G;
  randbelow : nat → G → nat * G;
}.
Class RandomLaws (G : Type) `{Random G} :=
  randbelow_lt n (g : G) : (0 < n)%nat → ((randbelow n g).1 < n)%nat.

(** The [seed] argument: a UUID, an int, or any other object with the hash of
    its text. *)
Inductive Seed := SeedUUID (int : Z) | SeedInt (z : Z) | SeedObject (hash_str : Z).

(** * Weighted choice *)

(** [itertools.accumulate]. *)
Fixpoint accumulate (acc : rat) (l : list rat) : list rat :=
  match l with
  | [] => []
  | w :: l => let acc := float_add acc w in acc :: accumulate acc l
  end.

(** [bisect(cum, x, 0, hi)] on a sorted list. *)
Fixpoint bisect_right (cum : list rat) (x : rat) (hi : nat) : nat :=
  match hi, cum with
  | S hi, c :: cum => if float_ltb x c then 0%nat else S (bisect_right cum x hi)
  | _, _ => 0%nat
  end.

Section Selector.
Context {Item G : Type} `{Random G}.
Context (get_backend_id : Item → Z) (get_transport_key : Item → string * string)
  (get_route_id : Item → Z) (get_weight : Item → rat) (get_entry_key : Item → option Z).

(** * Operations *)

Definition _make_rng (seed : Seed) : G :=
match seed with SeedUUID z => seeded z | SeedInt z => seeded z | SeedObject h => seeded h end.

(** [rng.choices(candidates, weights=weights, k=1)[0]]. *)
Definition choices_1 (candidates : list Item) (weights : list rat) (g : G) : option Item * G :=
let cum := accumulate float_zero weights in
let total := default float_zero (last cum) in
let '(k, g) := random g in
let x := float_mul {| num := k; den := 2 ^ 53 |} total in
(candidates !! bisect_right cum x (length candidates - 1), g).

(** [rng.choice(candidates)]. *)
Definition choice (candidates : list Item) (g : G) : option Item * G :=
let '(i, g) := randbelow (length candidates) g in (candidates !! i, g).

Definition _weighted_pick (candidates : list Item) (rng : option G) : option Item * option G :=
match candidates with
| [] => (None, rng)
| c :: _ =>
    match rng with
    | None => (Some c, None)
    | Some g =>
        let weights := (λ c, if float_ltb float_zero (get_weight c) then get_weight c
                             else float_zero) <$> candidates in
        let total := foldl float_add float_zero weights in
        let '(pick, g) := if num total <=? 0 then choice candidates g
                          else choices_1 candidates weights g in
        (pick, Some g)
    end
end.

(** The loop [while pool and len(selected) < limit] of both diversity picks:
  prefer items whose key is unused, drop the picked route from the pool.  The
  result is the selection, what is left of the pool and the generator.  Every
  iteration shortens the pool, so its length is enough fuel. *)
Fixpoint diversity_loop {K} `{EqDecision K} (key : Item → K) (limit : nat) (fuel : nat)
  (pool selected : list Item) (used : list K) (rng : option G)
  : list Item * list Item * option G :=
match fuel with
| O => (selected, pool, rng)
| S fuel =>
    match pool with
    | [] => (selected, pool, rng)
    | _ :: _ =>
        if (limit <=? length selected)%nat then (selected, pool, rng) else
        let preferred := filter (λ r, key r ∉ used) pool in
        let bucket := match preferred with [] => pool | _ => preferred end in
        let '(pick, rng) := _weighted_pick bucket rng in
        match pick with
        | None => (selected, pool, rng)
        | Some pick =>
            diversity_loop key limit fuel
              (filter (λ r, get_route_id r ≠ get_route_id pick) pool)
              (selected ++ [pick]) (key pick :: used) rng
        end
    end
end.

Definition _weighted_entry_diversity_pick (candidates : list Item) (limit : nat) (rng : option G)
  : list Item * option G :=
let '(selected, _, rng) :=
  diversity_loop get_entry_key limit (length candidates) candidates [] [] rng in
(selected, rng).

Definition _select_fallback_with_backend_diversity (fallback : list Item) (limit : nat)
  (rng : option G) : list Item * list Item * option G :=
diversity_loop get_backend_id limit (length fallback) fallback [] [] rng.

(** [for idx in range(len(selected) - 1, 0, -1)]. *)
Fixpoint replace_index (primary : string * string) (selected : list Item) (idx : nat) : option nat :=
match idx with
| O => None
| S j =>
    match selected !! idx with
    | Some r => if decide (get_transport_key r = primary) then Some idx
                else replace_index primary selected j
    | None => None
    end
end.

Definition _ensure_transport_insurance (selected all_routes : list Item)
  (preferred_backend_id : Z) (max_routes : nat) : list Item :=
match selected with
| first :: (_ :: _) as rest =>
    let primary_transport := get_transport_key first in
    if existsb (λ r, bool_decide (get_transport_key r ≠ primary_transport)) rest then selected else
    let selected_ids := get_route_id <$> selected in
    let candidates := filter (λ r, get_route_id r ∉ selected_ids) all_routes in
    let candidates := filter (λ r, get_transport_key r ≠ primary_transport) candidates in
    match candidates with
    | [] => selected
    | c :: _ =>
        let insurance := default c
          (head (filter (λ r, get_backend_id r ≠ preferred_backend_id) candidates)) in
        if (length selected <? max_routes)%nat then selected ++ [insurance] else
        let replace_idx := default (length selected - 1)%nat
          (replace_index primary_transport selected (length selected - 1)) in
        <[replace_idx := insurance]> selected
    end
| _ => selected
end.

(** Filling up with what the diversity picks left over. *)
Definition fill_up (selected primary fallback_remainder : list Item) (max_routes : nat) : list Item :=
if (length selected <? max_routes)%nat then
  let selected_ids := get_route_id <$> selected in
  let primary_remainder := filter (λ r, get_route_id r ∉ selected_ids) primary in
  let selected := selected ++ take (max_routes - length selected) primary_remainder in
  if (length selected <? max_routes)%nat
  then selected ++ take (max_routes - length selected) fallback_remainder
  else selected
else selected.

(** [select] up to the insurance step, for [max_routes >= 2]. *)
Definition preselect (routes : list Item) (preferred_backend_id : Z) (n : nat) (rng : option G)
  : list Item :=
let primary := filter (λ r, get_backend_id r = preferred_backend_id) routes in
let fallback := filter (λ r, get_backend_id r ≠ preferred_backend_id) routes in
let primary_target := (2 `min` ((n - 1) `min` length primary))%nat in
let fallback_target := ((n - primary_target) `min` length fallback)%nat in
let '(selected, rng) := _weighted_entry_diversity_pick primary primary_target rng in
let '(selected_fallback, fallback_remainder, _) :=
  _select_fallback_with_backend_diversity fallback fallback_target rng in
take n (fill_up (selected ++ selected_fallback) primary fallback_remainder n).

Definition select (routes : list Item) (preferred_backend_id : Z) (max_routes : Z)
  (seed : option Seed) : list Item :=
if max_routes <=? 0 then [] else
if max_routes =? 1 then take 1 routes else
let n := Z.to_nat max_routes in
let selected := preselect routes preferred_backend_id n (_make_rng <$> seed) in
_ensure_transport_insurance selected routes preferred_backend_id n.

(** * The diversity loop *)

Section Correct.
Context `{!RandomLaws G}.

Notation ids l := (get_route_id <$> l).

Lemma bisect_right_le cum x hi : (bisect_right cum x hi ≤ hi)%nat.
Proof.
revert cum. induction hi as [|hi IH]; intros [|c cum]; cbn; try lia.
destruct (float_ltb x c); [lia|]. specialize (IH cum). lia.
Qed.

(** A pick is one of the candidates, and there is one unless there is none. *)
Lemma weighted_pick_spec candidates rng :
match (_weighted_pick candidates rng).1 with
| Some p => p ∈ candidates
| None => candidates = []
end.
Proof using Type*.
destruct candidates as [|c l]; [done|]. cbn [_weighted_pick].
destruct rng as [g|]; [|apply list_elem_of_here].
set (ws := _ <$> _). set (t := foldl _ _ _).
assert (Hin : ∀ i, (i < length (c :: l))%nat → ∃ p, (c :: l) !! i = Some p ∧ p ∈ c :: l).
{ intros i [p Hp]%lookup_lt_is_Some_2. exists p. eauto using list_elem_of_lookup_2. }
destruct (num t <=? 0).
- unfold choice. pose proof (randbelow_lt (length (c :: l)) g ltac:(cbn; lia)) as Hlt.
  destruct (randbelow _ g) as [i g']. destruct (Hin i Hlt) as (p & -> & Hp). done.
- unfold choices_1. destruct (random g) as [k g'].
  destruct (Hin (bisect_right (accumulate float_zero ws)
    (float_mul {| num := k; den := 2 ^ 53 |} (default float_zero (last (accumulate float_zero ws))))
    (length (c :: l) - 1))) as (p & -> & Hp); [|done].
  eapply Nat.le_lt_trans; [apply bisect_right_le|cbn; lia].
Qed.

(** Dropping the picked route drops just it when route ids are distinct. *)
Lemma pool_split p pool :
p ∈ pool → NoDup (ids pool) →
pool ≡ₚ p :: filter (λ r, get_route_id r ≠ get_route_id p) pool.
Proof using Type.
intros Hin. apply list_elem_of_split in Hin as (l1 & l2 & ->).
rewrite fmap_app, fmap_cons. intros Hnd.
apply NoDup_app in Hnd as (_ & Hd & [Hp _]%NoDup_cons).
rewrite filter_app, filter_cons_False by (intros Hn; by apply Hn).
rewrite !filter_unchanged; [by rewrite Permutation_middle| |].
- intros r Hr Heq. apply Hp. rewrite <-Heq. by apply list_elem_of_fmap_2.
- intros r Hr Heq. apply (Hd (get_route_id p)); [|left].
  rewrite <-Heq. by apply list_elem_of_fmap_2.
Qed.

Lemma NoDup_rest p pool :
NoDup (ids pool) → NoDup (ids (filter (λ r, get_route_id r ≠ get_route_id p) pool)).
Proof using Type.
intros Hnd. eapply sublist_NoDup; [exact Hnd|]. apply fmap_sublist, sublist_filter.
Qed.

Context {K : Type} `{EqDecision K} (key : Item → K).

(** What the loop returns from a pool with distinct ids: the selection grows by
  picks of the pool, nothing is lost, and the loop ends because the limit is
  reached or the pool is used up. *)
Lemma diversity_loop_perm limit fuel pool selected used rng sel rest rng' :
(length pool ≤ fuel)%nat → NoDup (ids pool) →
diversity_loop key limit fuel pool selected used rng = (sel, rest, rng') →
∃ picks, sel = selected ++ picks ∧ picks ++ rest ≡ₚ pool ∧
  length picks = ((limit - length selected) `min` length pool)%nat.
Proof using Type*.
revert pool selected used rng. induction fuel as [|fuel IH];
  intros pool selected used rng Hf Hnd; cbn [diversity_loop].
{ intros [= <- <- <-]. destruct pool; [|cbn in Hf; lia].
  exists []. rewrite app_nil_r. cbn. split_and!; [done|done|lia]. }
destruct pool as [|r0 pool0] eqn:Hpool.
{ intros [= <- <- <-]. exists []. rewrite app_nil_r. cbn. split_and!; [done|done|lia]. }
rewrite <-Hpool in *.
destruct (Nat.leb_spec limit (length selected)) as [Hle|Hgt].
{ intros [= <- <- <-]. exists []. rewrite app_nil_r. cbn. split_and!; [done|done|lia]. }
set (bucket := match filter _ pool with [] => pool | _ => filter _ pool end).
assert (Hsub : ∀ p, p ∈ bucket → p ∈ pool).
{ intros p. subst bucket. destruct (filter _ pool) eqn:Ef; [done|].
  rewrite <-Ef, list_elem_of_filter. tauto. }
assert (Hne : bucket ≠ []).
{ subst bucket. destruct (filter _ pool); [by rewrite Hpool|done]. }
pose proof (weighted_pick_spec bucket rng) as Hpick.
destruct (_weighted_pick bucket rng) as [[p|] g]; cbn in Hpick; [|done].
pose proof (pool_split p pool (Hsub p Hpick) Hnd) as Hperm.
set (pool' := filter (λ r, get_route_id r ≠ get_route_id p) pool) in *. intros Hrun.
assert (Hlen : length pool = S (length pool')) by exact (Permutation_length Hperm).
destruct (IH pool' (selected ++ [p]) (key p :: used) g) as (picks & -> & Hp & Hl);
  [lia| |exact Hrun|].
{ by apply (NoDup_rest p pool). }
exists (p :: picks). rewrite <-app_assoc. cbn [app length]. split_and!.
- done.
- by rewrite Hp.
- rewrite Hl, length_app, Hlen. cbn. lia.
Qed.

(** A key is used twice only once every key of the pool has been used. *)
Lemma diversity_loop_diverse limit fuel pool selected used rng all sel rest rng' :
NoDup (ids pool) → all ≡ₚ selected ++ pool → used ≡ₚ key <$> selected →
NoDup (key <$> selected) ∨ (∀ r, r ∈ all → key r ∈ key <$> selected) →
diversity_loop key limit fuel pool selected used rng = (sel, rest, rng') →
NoDup (key <$> sel) ∨ (∀ r, r ∈ all → key r ∈ key <$> sel).
Proof using Type*.
revert pool selected used rng. induction fuel as [|fuel IH];
  intros pool selected used rng Hnd Hall Hused Hinv; cbn [diversity_loop].
{ by intros [= <- <- <-]. }
destruct pool as [|r0 pool0] eqn:Hpool; [by intros [= <- <- <-]|]. rewrite <-Hpool in *.
destruct (limit <=? length selected)%nat; [by intros [= <- <- <-]|].
set (bucket := match filter _ pool with [] => pool | _ => filter _ pool end).
assert (Hb : ∀ p, p ∈ bucket → p ∈ pool ∧
  (key p ∉ used ∨ (∀ r, r ∈ pool → key r ∈ used))).
{ intros p. subst bucket. destruct (filter _ pool) eqn:Ef.
  - intros Hp. split; [done|]. right. intros r Hr. destruct (decide (key r ∈ used)); [done|].
    exfalso. apply (not_elem_of_nil r). rewrite <-Ef. by apply list_elem_of_filter.
  - rewrite <-Ef, list_elem_of_filter. tauto. }
pose proof (weighted_pick_spec bucket rng) as Hpick.
destruct (_weighted_pick bucket rng) as [[p|] g]; cbn in Hpick; [|by intros [= <- <- <-]].
destruct (Hb p Hpick) as [Hin Hfresh].
pose proof (pool_split p pool Hin Hnd) as Hperm. apply IH.
- by apply (NoDup_rest p pool).
- rewrite <-app_assoc. cbn. by rewrite <-Hperm.
- rewrite fmap_app, Hused. cbn. by rewrite <-Permutation_cons_append.
- rewrite fmap_app. cbn. destruct Hinv as [Hinv|Hinv].
  + destruct Hfresh as [Hfresh|Hfull].
    * left. rewrite <-Permutation_cons_append. apply NoDup_cons. split; [by rewrite <-Hused|done].
    * right. intros r Hr. apply elem_of_app. rewrite Hall in Hr.
      left. apply elem_of_app in Hr as [Hr|Hr]; [by apply list_elem_of_fmap_2|].
      rewrite <-Hused. auto.
  + right. intros r Hr. apply elem_of_app. auto.
Qed.
End Correct.

(** * The selection before transport insurance *)

Section Select.
Context `{!RandomLaws G}.
Notation ids l := (get_route_id <$> l).

(** The primary routes the diversity pick left over, as the source finds them
  again by id. *)
Lemma primary_remainder_perm primary A A' B :
NoDup (ids (primary ++ B)) → A ++ A' ≡ₚ primary →
filter (λ r, get_route_id r ∉ ids (A ++ B)) primary ≡ₚ A'.
Proof using Type.
intros Hnd Hp. rewrite fmap_app, <-Hp, <-fmap_app in Hnd. rewrite <-Hp at 1.
rewrite !fmap_app in Hnd. apply NoDup_app in Hnd as ((HA & HAA & HA')%NoDup_app & HB & _).
rewrite filter_app, filter_empty, filter_unchanged; [done| |].
- intros r Hr. rewrite fmap_app, not_elem_of_app.
  assert (Hid : get_route_id r ∈ ids A') by by apply list_elem_of_fmap_2.
  split; [intros H1; by apply (HAA _ H1)|]. apply HB, elem_of_app. by right.
- intros r Hr Hn. apply Hn. rewrite fmap_app. apply elem_of_app. left.
  by apply list_elem_of_fmap_2.
Qed.

(** Filling up reaches [n] routes or uses every route up. *)
Lemma fill_up_spec A A' B B' primary n :
NoDup (ids (primary ++ B)) → A ++ A' ≡ₚ primary →
(length A + length B ≤ n)%nat → (length A + length B < n → B' = [])%nat →
∃ picks rest, fill_up (A ++ B) primary B' n = (A ++ B) ++ picks ∧
  picks ++ rest ≡ₚ A' ++ B' ∧
  length picks = ((n - (length A + length B)) `min` length (A' ++ B'))%nat.
Proof using Type.
intros Hnd Hp Hle HB'. unfold fill_up. rewrite length_app.
destruct (Nat.ltb_spec (length A + length B) n) as [Hlt|Hge].
2:{ exists [], (A' ++ B'). rewrite app_nil_r. cbn. split_and!; [done|done|lia]. }
rewrite (HB' Hlt), app_nil_r, take_nil.
pose proof (primary_remainder_perm primary A A' B Hnd Hp) as Hrem.
set (rem := filter _ primary) in *. set (k := (n - (length A + length B))%nat).
exists (take k rem), (drop k rem). rewrite take_drop. split_and!; [|done|].
- destruct (_ <? n)%nat; [by rewrite app_nil_r|done].
- rewrite length_take. by rewrite (Permutation_length Hrem).
Qed.

Lemma filter_inhabited (P : Item → Prop) `{!∀ x, Decision (P x)} (l : list Item) :
(∃ r, r ∈ l ∧ P r) → (0 < length (filter P l))%nat.
Proof using Type.
intros (r & Hr & HP). assert (Hin : r ∈ filter P l) by by apply list_elem_of_filter.
destruct (filter P l); [by apply not_elem_of_nil in Hin|cbn; lia].
Qed.

(** The preselection: as many routes as asked for or available, none twice,
  starting on the preferred backend when it has a route, with a route of
  another backend when there is one. *)
Lemma preselect_spec routes preferred n rng :
(2 ≤ n)%nat → NoDup (ids routes) →
∃ rest, preselect routes preferred n rng ++ rest ≡ₚ routes ∧
  length (preselect routes preferred n rng) = (n `min` length routes)%nat ∧
  ((∃ r, r ∈ routes ∧ get_backend_id r = preferred) →
   ∃ r0, head (preselect routes preferred n rng) = Some r0 ∧ get_backend_id r0 = preferred) ∧
  ((∃ r, r ∈ routes ∧ get_backend_id r ≠ preferred) →
   ∃ r, r ∈ preselect routes preferred n rng ∧ get_backend_id r ≠ preferred).
Proof using Type*.
intros Hn Hnd. unfold preselect, _weighted_entry_diversity_pick.
set (primary := filter (λ r, get_backend_id r = preferred) routes).
set (fallback := filter (λ r, get_backend_id r ≠ preferred) routes).
assert (Hpart : primary ++ fallback ≡ₚ routes) by apply filter_app_complement.
set (pt := (2 `min` ((n - 1) `min` length primary))%nat).
set (ft := ((n - pt) `min` length fallback)%nat).
assert (HndPF : NoDup (ids (primary ++ fallback))) by by rewrite Hpart.
assert (NoDup (ids primary) ∧ NoDup (ids fallback)) as [HndP HndF].
{ rewrite fmap_app in HndPF. apply NoDup_app in HndPF. tauto. }
destruct (diversity_loop get_entry_key pt (length primary) primary [] [] rng)
  as [[A A'] g] eqn:EA.
destruct (diversity_loop_perm _ _ _ _ _ _ _ _ _ _ (le_n _) HndP EA) as (? & -> & HpA & HlA).
unfold _select_fallback_with_backend_diversity.
destruct (diversity_loop get_backend_id ft (length fallback) fallback [] [] g)
  as [[B B'] g'] eqn:EB.
destruct (diversity_loop_perm _ _ _ _ _ _ _ _ _ _ (le_n _) HndF EB) as (? & -> & HpB & HlB).
cbn [app length] in *. rename x into A, x0 into B.
assert (length A = pt) as HA by lia. assert (length B = ft) as HB by lia.
assert (length B + length B' = length fallback)%nat as HBB' by (by rewrite <-HpB, length_app).
destruct (fill_up_spec A A' B B' primary n) as (picks & rest & -> & Hpk & Hlen).
{ rewrite fmap_app. rewrite <-HpB, fmap_app, fmap_app, app_assoc in HndPF.
  by apply NoDup_app in HndPF as [? _]. }
{ done. }
{ lia. }
{ intros Hlt. apply length_zero_iff_nil. lia. }
assert (HlA' : (length A + length A' = length primary)%nat) by (by rewrite <-HpA, length_app).
assert (Hlr : (length primary + length fallback = length routes)%nat) by
  (by rewrite <-Hpart, length_app).
rewrite length_app in Hlen. rewrite take_ge by (rewrite !length_app; lia).
exists rest. split_and!.
- rewrite <-Hpart, <-HpA, <-HpB, <-!app_assoc, Hpk. f_equiv. rewrite !app_assoc. f_equiv.
  apply Permutation_app_comm.
- rewrite !length_app. lia.
- intros Hex. apply (filter_inhabited (λ r, get_backend_id r = preferred)) in Hex.
  fold primary in Hex. destruct A as [|a A]; [cbn [length] in HA; lia|]. exists a. split; [done|].
  assert (Ha : a ∈ primary) by (rewrite <-HpA; left). by apply list_elem_of_filter in Ha as [? _].
- intros Hex. apply (filter_inhabited (λ r, get_backend_id r ≠ preferred)) in Hex.
  fold fallback in Hex. destruct B as [|b B]; [cbn [length] in HB; lia|]. exists b.
  assert (Hb' : b ∈ fallback) by (rewrite <-HpB; left).
  apply list_elem_of_filter in Hb' as [Hb' _]. split; [|done].
  rewrite !elem_of_app. left. right. left.
Qed.

(** * Transport insurance *)

Lemma replace_index_last primary selected idx r :
(0 < idx)%nat → selected !! idx = Some r → get_transport_key r = primary →
replace_index primary selected idx = Some idx.
Proof using Type.
intros Hidx Hr Hp. destruct idx as [|j]; [lia|]. cbn [replace_index]. rewrite Hr.
by rewrite decide_True.
Qed.

(** [insured sel all max out]: [out] is [sel] because its transports differ or
  no route could make them differ, or [sel] with a route of another transport
  added at the end or put in place of its last one. *)
Definition insured (selected all_routes : list Item) (max_routes : nat) (out : list Item) : Prop :=
(out = selected ∧
 (length selected < 2 ∨
  (∃ a b, a ∈ selected ∧ b ∈ selected ∧ get_transport_key a ≠ get_transport_key b) ∨
  (∃ t, ∀ r, r ∈ selected ∨ (r ∈ all_routes ∧ get_route_id r ∉ ids selected) →
     get_transport_key r = t))%nat) ∨
(∃ init x ins, selected = init ++ [x] ∧ init ≠ [] ∧ ins ∈ all_routes ∧
   (get_route_id ins ∉ ids selected) ∧
   (∀ a, a ∈ init → get_transport_key ins ≠ get_transport_key a) ∧
   ((out = selected ++ [ins] ∧ (length selected < max_routes)%nat) ∨ out = init ++ [ins])).

Lemma transport_insurance_spec selected all_routes preferred max_routes :
insured selected all_routes max_routes
  (_ensure_transport_insurance selected all_routes preferred max_routes).
Proof using Type*.
destruct selected as [|first [|second rest]]; [left; split; [done|left; cbn; lia]..|].
unfold _ensure_transport_insurance. set (sel := first :: second :: rest).
set (t := get_transport_key first).
destruct (existsb _ _) eqn:Ex.
{ left. split; [done|]. right. left.
  apply existsb_exists in Ex as (r & Hr & Ht%bool_decide_eq_true).
  exists r, first. split_and!; [right; by apply list_elem_of_In|left|done]. }
assert (Hsame : ∀ r, r ∈ sel → get_transport_key r = t).
{ intros r [->|Hr]%elem_of_cons; [done|].
  destruct (decide (get_transport_key r = t)) as [|Hne]; [done|].
  assert (existsb (λ r, bool_decide (get_transport_key r ≠ t)) (second :: rest) = true); [|congruence].
  apply existsb_exists. exists r. split; [by apply list_elem_of_In|by apply bool_decide_eq_true]. }
set (cands := filter _ (filter _ all_routes)).
assert (Hc : ∀ r, r ∈ cands ↔ (get_transport_key r ≠ t ∧ (get_route_id r ∉ ids sel) ∧ r ∈ all_routes)).
{ intros r. unfold cands. by rewrite !list_elem_of_filter. }
destruct cands as [|c cs] eqn:Ec.
{ left. split; [done|]. right. right. exists t. intros r [Hr|[Hr Hid]]; [by apply Hsame|].
  destruct (decide (get_transport_key r = t)) as [|Hne]; [done|].
  exfalso. apply (not_elem_of_nil r), Hc. done. }
set (ins := default c _).
assert (Hins : ins ∈ c :: cs).
{ unfold ins. destruct (head _) as [h|] eqn:Eh; [|left]. cbn.
  apply head_Some_elem_of, list_elem_of_filter in Eh. tauto. }
apply Hc in Hins as (Hti & Hidi & Hina).
destruct (@exists_last _ sel) as (init & x & Hsel); [done|].
assert (Hinit : init ≠ []). { intros ->. by apply (f_equal length) in Hsel. }
right. exists init, x, ins. split_and!; [done..| |].
{ intros a Ha. rewrite (Hsame a); [done|]. rewrite Hsel. apply elem_of_app. by left. }
destruct (Nat.ltb_spec (length sel) max_routes); [by left|right].
assert (Hlen : (length sel - 1)%nat = length init) by (rewrite Hsel, length_app; cbn; lia).
assert (Hx : sel !! length init = Some x) by (rewrite Hsel; by apply list_lookup_middle).
rewrite Hlen, (replace_index_last t sel (length init) x); [|destruct init; cbn; [done|lia]|done|].
- cbn. rewrite Hsel, insert_app_r_alt by done. by rewrite Nat.sub_diag.
- apply Hsame. by eapply list_elem_of_lookup_2.
Qed.

(** * Properties *)

(** For candidates with distinct ids, whatever the random generator draws,
    [select] returns exactly [min(max_routes, len(routes))] of the candidates
    (none when [max_routes] is not positive) and none of them twice. *)
Theorem select_spec routes preferred max_routes seed :
NoDup (ids routes) →
select routes preferred max_routes seed ⊆+ routes ∧
Z.of_nat (length (select routes preferred max_routes seed)) =
  Z.min (Z.max 0 max_routes) (Z.of_nat (length routes)) ∧
NoDup (ids (select routes preferred max_routes seed)).
Proof using Type*.
intros Hnd.
assert (Hsub : select routes preferred max_routes seed ⊆+ routes ∧
  Z.of_nat (length (select routes preferred max_routes seed)) =
    Z.min (Z.max 0 max_routes) (Z.of_nat (length routes))).
2:{ destruct Hsub as [Hsub Hlen]. split_and!; [done..|].
    destruct (submseteq_Permutation _ _ Hsub) as (k & Hk).
    rewrite Hk, fmap_app in Hnd. by apply NoDup_app in Hnd as [? _]. }
unfold select. destruct (Z.leb_spec max_routes 0); [split; [apply submseteq_nil_l|cbn; lia]|].
destruct (Z.eqb_spec max_routes 1) as [->|Hne].
{ split; [apply sublist_submseteq, sublist_take|rewrite length_take; lia]. }
set (n := Z.to_nat max_routes). set (rng := _make_rng <$> seed).
destruct (preselect_spec routes preferred n rng) as (rest & Hp & Hlen & _); [lia|done|].
set (sel := preselect _ _ _ _) in *.
assert (Hsel : sel ⊆+ routes) by (rewrite <-Hp; apply submseteq_inserts_r; done).
destruct (transport_insurance_spec sel routes preferred n) as
  [[-> _]|(init & x & ins & Hs & _ & Hin & Hid & _ & Hout)]; [split; [done|lia]|].
assert (Hins : ins ∈ rest).
{ rewrite <-Hp in Hin. apply elem_of_app in Hin as [Hin|]; [|done].
  exfalso. apply Hid. by apply list_elem_of_fmap_2. }
apply list_elem_of_split in Hins as (r1 & r2 & ->).
destruct Hout as [[_ Hlt]| ->].
- apply Permutation_length in Hp. rewrite length_app in Hp. cbn in Hp. rewrite length_app in Hp.
  cbn in Hp. lia.
- rewrite Hs in Hp, Hlen. split; [|rewrite length_app in *; cbn in *; lia].
  rewrite <-Hp, <-!app_assoc. apply submseteq_app; [done|]. cbn.
  rewrite <-Permutation_middle. apply submseteq_cons, submseteq_skip, submseteq_nil_l.
Qed.

(** For candidates with distinct ids and [max_routes >= 2]: when the
    preferred backend has a candidate the first selected route is on it; when
    two candidates use different transports so do two selected routes; and when
    a candidate is on another backend, some selected route is on another backend
    than the preferred one or uses another transport than the first route. *)
Theorem select_resilient routes preferred max_routes seed :
NoDup (ids routes) → 2 ≤ max_routes →
let out := select routes preferred max_routes seed in
((∃ r, r ∈ routes ∧ get_backend_id r = preferred) →
   ∃ r0, head out = Some r0 ∧ get_backend_id r0 = preferred) ∧
((∃ r r', r ∈ routes ∧ r' ∈ routes ∧ get_transport_key r ≠ get_transport_key r') →
   ∃ a b, a ∈ out ∧ b ∈ out ∧ get_transport_key a ≠ get_transport_key b) ∧
((∃ r, r ∈ routes ∧ get_backend_id r ≠ preferred) →
   (∃ r, r ∈ out ∧ get_backend_id r ≠ preferred) ∨
   (∃ a b, a ∈ out ∧ b ∈ out ∧ get_transport_key a ≠ get_transport_key b)).
Proof using Type*.
intros Hnd Hmax. unfold select.
rewrite (proj2 (Z.leb_gt max_routes 0)), (proj2 (Z.eqb_neq max_routes 1)) by lia. cbv zeta.
set (n := Z.to_nat max_routes). set (rng := _make_rng <$> seed).
destruct (preselect_spec routes preferred n rng) as (rest & Hp & Hlen & Hhead & Hfall); [lia|done|].
set (sel := preselect _ _ _ _) in *.
destruct (transport_insurance_spec sel routes preferred n) as
  [[-> Hwhy]|(init & x & ins & Hs & Hi & Hin & Hid & Ht & Hout)].
- split_and!; [done| |auto]. intros (r & r' & Hr & Hr' & Hne).
  assert (Hor : ∀ r, r ∈ routes → r ∈ sel ∨ (r ∈ routes ∧ get_route_id r ∉ ids sel)).
  { intros q Hq. rewrite <-Hp in Hnd, Hq. rewrite fmap_app in Hnd.
    apply NoDup_app in Hnd as (_ & Hd & _). apply elem_of_app in Hq as [Hq|Hq]; [by left|].
    right. split; [rewrite <-Hp; apply elem_of_app; by right|].
    intros Hq'. apply (Hd _ Hq'). by apply list_elem_of_fmap_2. }
  destruct Hwhy as [Hshort|[Hex|[t Ht]]]; [|done|].
  + exfalso. assert (Hr2 : (length routes < 2)%nat) by lia.
    destruct routes as [|r1 [|r2 l]]; [by apply not_elem_of_nil in Hr| |cbn in Hr2; lia].
    apply list_elem_of_singleton in Hr as ->, Hr' as ->. done.
  + exfalso. apply Hne. by rewrite !Ht by auto.
- destruct init as [|a init]; [done|].
  set (out := _ensure_transport_insurance sel routes preferred n) in *.
  assert (head out = Some a ∧ head sel = Some a ∧ a ∈ out ∧ ins ∈ out) as (Ho & Hh & Ha & Hio).
  { rewrite Hs in Hout |- *. destruct Hout as [[-> _]| ->]; cbn; split_and!; try done; try by left.
    - right. apply elem_of_app. right. left.
    - right. apply elem_of_app. right. left. }
  assert (∃ a b, a ∈ out ∧ b ∈ out ∧ get_transport_key a ≠ get_transport_key b).
  { exists ins, a. split_and!; [done..|]. apply Ht. left. }
  split_and!; [|done|auto]. rewrite Ho, <-Hh. done.
Qed.

(** The fallback pick returns [min(limit, len(fallback))] of the fallback
    routes and the remaining ones, and uses a backend twice only when every
    backend of the fallback is represented. *)
Theorem fallback_pick_diverse fallback limit rng :
NoDup (ids fallback) →
let '(selected, remainder, _) := _select_fallback_with_backend_diversity fallback limit rng in
selected ++ remainder ≡ₚ fallback ∧ length selected = (limit `min` length fallback)%nat ∧
(NoDup (get_backend_id <$> selected) ∨
 (∀ r, r ∈ fallback → get_backend_id r ∈ get_backend_id <$> selected)).
Proof using Type*.
intros Hnd. unfold _select_fallback_with_backend_diversity.
destruct (diversity_loop _ _ _ _ _ _ _) as [[sel rest] g] eqn:E.
destruct (diversity_loop_perm _ _ _ _ _ _ _ _ _ _ (le_n _) Hnd E) as (picks & -> & Hp & Hl).
cbn [app length] in *. rewrite Nat.sub_0_r in Hl. split_and!; [done..|].
eapply diversity_loop_diverse; [exact Hnd| | | |exact E]; [done..|]. left. apply NoDup_nil_2.
Qed.
End Select.
End Selector.

(** * Runs *)

(** A linear congruential generator. *)
Definition lcg_next (g : Z) : Z := (g * 6364136223846793005 + 1442695040888963407) mod 2 ^ 64.
#[export] Instance lcg : Random Z := {|
  seeded z := z;
  random g := (lcg_next g / 2 ^ 11, lcg_next g);
  randbelow n g := (Z.to_nat (lcg_next g mod Z.of_nat n), lcg_next g);
|}.
#[export] Instance lcg_laws : RandomLaws Z.
Proof.
  intros n g Hn. cbn [randbelow lcg fst].
  pose proof (Z.mod_pos_bound (lcg_next g) (Z.of_nat n)). lia.
Qed.

(** A candidate: route id, backend, transport, entry and weight. *)
Record demo_route := { dr_id : Z; dr_backend : Z; dr_transport : string; dr_entry : Z; dr_weight : Z }.

Definition demo_candidates : list demo_route :=
  (λ '(i, b, t, e, w), {| dr_id := i; dr_backend := b; dr_transport := t; dr_entry := e;
                          dr_weight := w |}) <$>
  [(1, 10, "reality", 100, 50); (2, 10, "reality", 100, 50); (3, 10, "reality", 101, 10);
   (4, 11, "reality", 100, 80); (5, 11, "reality", 101, 20); (6, 12, "reality", 100, 0);
   (7, 12, "xhttp", 101, 5)].

Definition demo_select (preferred max_routes : Z) (seed : option Seed) : list demo_route :=
  select (G:=Z) dr_backend (λ r, ("vless", dr_transport r)) dr_id (λ r, rat_of_Z (dr_weight r))
    (λ r, Some (dr_entry r)) demo_candidates preferred max_routes seed.

(** Without a seed the picks are the first ones; the last fallback gives way
    to the only route of another transport. *)
Example demo_select_unseeded :
  (dr_id <$> demo_select 10 3 None) = [1; 3; 7] ∧ (dr_id <$> demo_select 10 1 None) = [1] ∧
  (dr_id <$> demo_select 10 0 None) = [].
Proof. vm_compute. auto. Qed.

Lemma demo_ids : NoDup (dr_id <$> demo_candidates).
Proof. apply (bool_decide_eq_true_1 _). vm_compute. reflexivity. Qed.

Lemma select_spec_witness :
  Z.of_nat (length (demo_select 10 4 (Some (SeedInt 7)))) = 4 ∧
  NoDup (dr_id <$> demo_select 10 4 (Some (SeedInt 7))).
Proof.
  destruct (select_spec (G:=Z) dr_backend (λ r, ("vless", dr_transport r)) dr_id
    (λ r, rat_of_Z (dr_weight r)) (λ r, Some (dr_entry r)) demo_candidates 10 4
    (Some (SeedInt 7)) demo_ids) as (_ & Hlen & Hnd).
  split; [rewrite <-Hlen at 1; unfold demo_select; exact Hlen|exact Hnd].
Defined.

Lemma select_resilient_witness :
  ∃ a b, a ∈ demo_select 10 2 (Some (SeedUUID 99)) ∧ b ∈ demo_select 10 2 (Some (SeedUUID 99)) ∧
    dr_transport a ≠ dr_transport b.
Proof.
  destruct (select_resilient (G:=Z) dr_backend (λ r, ("vless", dr_transport r)) dr_id
    (λ r, rat_of_Z (dr_weight r)) (λ r, Some (dr_entry r)) demo_candidates 10 2
    (Some (SeedUUID 99)) demo_ids ltac:(lia)) as (_ & Ht & _).
  destruct Ht as (a & b & Ha & Hb & Hne).
  - exists {| dr_id := 1; dr_backend := 10; dr_transport := "reality"; dr_entry := 100; dr_weight := 50 |},
      {| dr_id := 7; dr_backend := 12; dr_transport := "xhttp"; dr_entry := 101; dr_weight := 5 |}.
    split_and!; [apply list_elem_of_In; cbn; tauto..|done].
  - exists a, b. split_and!; [exact Ha|exact Hb|]. intros Heq. apply Hne. by rewrite Heq.
Defined.

Lemma fallback_pick_diverse_witness :
  let '(selected, remainder, _) :=
    _select_fallback_with_backend_diversity dr_backend dr_id (λ r, rat_of_Z (dr_weight r))
      demo_candidates 3 (Some (seeded 5)) in
  length selected = 3%nat ∧ length remainder = 4%nat ∧ NoDup (dr_backend <$> selected).
Proof.
  pose proof (fallback_pick_diverse (G:=Z) dr_backend (λ r, ("vless", dr_transport r)) dr_id
    (λ r, rat_of_Z (dr_weight r)) (λ r, Some (dr_entry r)) demo_candidates 3
    (Some (seeded 5)) demo_ids) as H.
  destruct (_select_fallback_with_backend_diversity _ _ _ _ _ _) as [[sel rem] g] eqn:E.
  destruct H as (Hp & Hl & _). split_and!.
  - exact Hl.
  - apply Permutation_length in Hp. rewrite length_app in Hp. cbn in Hp, Hl. lia.
  - vm_compute in E. injection E as <- <- <-. apply (bool_decide_eq_true_1 _). vm_compute. reflexivity.
Defined.
