(* ===== verification/Placements.v ===== *)
(** Placements of keys on backend nodes (services/placements): the repository,
    the command transport and the service.  A placement carries the state the
    control plane wants ([desired_state] on [backend_node_id], numbered by
    [op_version]) and the state the node reported ([applied_state] for
    [applied_version]). *)

From stdpp Require Import base gmap strings list sorting.
From S2P Require Import Prelude Decimal Errors RouteModels BillingModels FleetModels Session Uuid Tables FleetTables Routing.
Local Open Scope Z_scope.

(** * UserPlacementRepository *)

(** The writes of the repository, as functions on a row.  [bump] is
    [op_version = op_version + 1, applied_state = 'pending']. *)
Definition bump (ds : PlacementDesiredState) (reason : option string) (now : Z) (p : UserPlacement)
    : UserPlacement :=
  {| pl_id := pl_id p; pl_key_id := pl_key_id p; backend_node_id := backend_node_id p;
     desired_state := ds; applied_state := applied_pending; op_version := op_version p + 1;
     applied_version := applied_version p; sticky_until := sticky_until p;
     last_migration_reason := reason; pl_is_active := pl_is_active p;
     pl_created_at := pl_created_at p; pl_updated_at := now |}.

(** [ON CONFLICT DO UPDATE]. *)
Definition revive (ds : PlacementDesiredState) (sticky : option Z) (reason : option string) (now : Z)
    (p : UserPlacement) : UserPlacement :=
  {| pl_id := pl_id p; pl_key_id := pl_key_id p; backend_node_id := backend_node_id p;
     desired_state := ds; applied_state := applied_pending; op_version := op_version p + 1;
     applied_version := applied_version p; sticky_until := sticky;
     last_migration_reason := reason; pl_is_active := true;
     pl_created_at := pl_created_at p; pl_updated_at := now |}.

Definition move_to (target : Z) (reason : option string) (now : Z) (p : UserPlacement) : UserPlacement :=
  {| pl_id := pl_id p; pl_key_id := pl_key_id p; backend_node_id := target;
     desired_state := desired_state p; applied_state := applied_pending;
     op_version := op_version p + 1; applied_version := applied_version p;
     sticky_until := sticky_until p; last_migration_reason := reason;
     pl_is_active := pl_is_active p; pl_created_at := pl_created_at p; pl_updated_at := now |}.

Definition retire (now : Z) (p : UserPlacement) : UserPlacement :=
  {| pl_id := pl_id p; pl_key_id := pl_key_id p; backend_node_id := backend_node_id p;
     desired_state := desired_state p; applied_state := applied_state p;
     op_version := op_version p; applied_version := applied_version p;
     sticky_until := sticky_until p; last_migration_reason := last_migration_reason p;
     pl_is_active := false; pl_created_at := pl_created_at p; pl_updated_at := now |}.

Definition reported (st : PlacementAppliedState) (version now : Z) (p : UserPlacement) : UserPlacement :=
  {| pl_id := pl_id p; pl_key_id := pl_key_id p; backend_node_id := backend_node_id p;
     desired_state := desired_state p; applied_state := st;
     op_version := op_version p; applied_version := version;
     sticky_until := sticky_until p; last_migration_reason := last_migration_reason p;
     pl_is_active := pl_is_active p; pl_created_at := pl_created_at p; pl_updated_at := now |}.

(** ** Queries *)

Definition get_by_key_and_backend (kid bid : Z) (active_only : bool) : SM (option UserPlacement) :=
  l ← select_where placements_tbl (λ p, (pl_key_id p =? kid) && (backend_node_id p =? bid) &&
        (negb active_only || pl_is_active p));
  scalar_one_or_none l.

(** [order_by(updated_at.desc(), id.asc())]. *)
Definition newest_first (l : list UserPlacement) : list UserPlacement :=
  order_by_desc pl_updated_at (order_by_asc pl_id l).

(** [order_by(updated_at.asc(), id.asc())], by the placement of each row. *)
Definition oldest_first (l : list (UserPlacement * VpnKey)) : list (UserPlacement * VpnKey) :=
  order_by_asc (λ r, pl_updated_at r.1) (order_by_asc (λ r, pl_id r.1) l).

Definition matches_state (ds : option PlacementDesiredState) (p : UserPlacement) : bool :=
  match ds with Some ds => bool_decide (desired_state p = ds) | None => true end.

Definition list_by_key_id (kid : Z) (active_only : bool) (ds : option PlacementDesiredState)
    : SM (list UserPlacement) :=
  l ← select_where placements_tbl (λ p, (pl_key_id p =? kid) &&
        (negb active_only || pl_is_active p) && matches_state ds p);
  mret (newest_first l).

Definition get_by_key_id (kid : Z) : SM (option UserPlacement) :=
  l ← list_by_key_id kid true None;
  mret (head l).

Definition on_backend (bid : option Z) (p : UserPlacement) : bool :=
  match bid with Some b => backend_node_id p =? b | None => true end.

Definition list_active (bid : option Z) (limit : option nat) : SM (list UserPlacement) :=
  l ← select_where placements_tbl (λ p, pl_is_active p && on_backend bid p);
  let l := order_by_desc pl_updated_at l in
  mret (match limit with Some n => take n l | None => l end).

(** [group_by(backend_node_id)] with [count]. *)
Definition count_by_backend (l : list UserPlacement) : gmap Z Z :=
  foldr (λ p m, <[backend_node_id p := default 0 (m !! backend_node_id p) + 1]> m) ∅ l.

Definition count_active_by_backend_node : SM (gmap Z Z) :=
  l ← select_where placements_tbl pl_is_active;
  mret (count_by_backend l).

Definition count_desired_active_by_backend_node : SM (gmap Z Z) :=
  l ← select_where placements_tbl (λ p, pl_is_active p && bool_decide (desired_state p = desired_active));
  mret (count_by_backend l).

(** The join with [vpn_key], both sides active. *)
Definition with_key (d : database) (p : UserPlacement) : option (UserPlacement * VpnKey) :=
  match vpn_keys d !! pl_key_id p with
  | Some k => if pl_is_active p && key_is_active k then Some (p, k) else None
  | None => None
  end.

Definition list_transport_rows_by_placement_ids (ids : list Z) : SM (list (UserPlacement * VpnKey)) :=
  match ids with
  | [] => mret []
  | _ => read (λ d, omap (with_key d)
           (filter (λ p, pl_id p ∈ ids) (rows (placements d))))
  end.

Definition list_transport_rows_for_backend (bid : Z) : SM (list (UserPlacement * VpnKey)) :=
  read (λ d, oldest_first (omap (with_key d)
    (filter (λ p, backend_node_id p = bid) (rows (placements d))))).

(** One row per matching assignment; the pair entry/backend is unique. *)
Definition list_transport_rows_for_entry (entry : Z) : SM (list (UserPlacement * VpnKey)) :=
  read (λ d, oldest_first (omap (with_key d)
    (p ← rows (placements d);
     (λ _, p) <$> filter (λ e, (eba_entry_node_id e =? entry) && eba_enabled e &&
                               (eba_backend_node_id e =? backend_node_id p) = true)
                    (rows (entry_assignments d))))).

Definition list_active_ids_for_key (kid : Z) (ds : PlacementDesiredState)
    (backend_node_ids : option (list Z)) : SM (list Z) :=
  l ← select_where placements_tbl (λ p, (pl_key_id p =? kid) && pl_is_active p &&
        bool_decide (desired_state p = ds) &&
        match backend_node_ids with
        | Some ids => bool_decide (backend_node_id p ∈ ids)
        | None => true
        end);
  mret (pl_id <$> l).

Definition list_active_ids_for_keys (kids : list Z) (bid : option Z) : SM (list Z) :=
  match kids with
  | [] => mret []
  | _ =>
      l ← select_where placements_tbl (λ p, bool_decide (pl_key_id p ∈ kids) && pl_is_active p &&
            on_backend bid p);
      mret (pl_id <$> l)
  end.

Definition map_active_backend_nodes_by_key (kids : list Z) : SM (gmap Z (list Z)) :=
  match kids with
  | [] => mret ∅
  | _ =>
      l ← select_where placements_tbl (λ p, bool_decide (pl_key_id p ∈ kids) && pl_is_active p);
      mret (foldr (λ p m, <[pl_key_id p := backend_node_id p :: default [] (m !! pl_key_id p)]> m) ∅ l)
  end.

(** [DISTINCT ON (key_id) ... ORDER BY key_id, op_version DESC, updated_at DESC,
    backend_node_id DESC]: the first row of each key. *)
Definition selection_order (l : list UserPlacement) : list UserPlacement :=
  order_by_desc op_version (order_by_desc pl_updated_at (order_by_desc backend_node_id l)).

Definition map_selected_backend_by_key (kids : list Z) : SM (gmap Z Z) :=
  match kids with
  | [] => mret ∅
  | _ =>
      l ← select_where placements_tbl (λ p, bool_decide (pl_key_id p ∈ kids) && pl_is_active p &&
            bool_decide (desired_state p = desired_active));
      mret (foldr (λ p m, <[pl_key_id p := backend_node_id p]> m) ∅ (selection_order l))
  end.

(** The pairs of an active key and a healthy node without an active placement,
    at most [batch_size] of them. *)
Definition find_missing_placements (healthy_node_ids : list Z) (batch_size : nat)
    : SM (list (Z * Z)) :=
  match healthy_node_ids with
  | [] => mret []
  | _ =>
      read (λ d,
        let live := filter (λ p, (pl_is_active p && bool_decide (desired_state p = desired_active)) = true)
                      (rows (placements d)) in
        let expected := k ← remove_dups (pl_key_id <$> live); (λ n, (k, n)) <$> healthy_node_ids in
        take batch_size (filter (λ kn, kn ∉ (λ p, (pl_key_id p, backend_node_id p)) <$> live) expected))
  end.

(** ** Writes *)

(** [INSERT ... ON CONFLICT ON CONSTRAINT uq_user_placement_key_backend DO
    UPDATE]; the id of the row.  [func.now()] is a reading of the clock. *)
Definition upsert_row (kid bid : Z) (ds : PlacementDesiredState) (sticky : option Z)
    (reason : option string) : SM Z :=
  l ← select_where placements_tbl (λ p, (pl_key_id p =? kid) && (backend_node_id p =? bid));
  match l with
  | p :: _ =>
      now ← utcnow;
      store placements_tbl (Some p) (revive ds sticky reason now p) ;; mret (pl_id p)
  | [] =>
      p ← create placements_tbl (λ id now,
        {| pl_id := id; pl_key_id := kid; backend_node_id := bid; desired_state := ds;
           applied_state := applied_pending; op_version := 1; applied_version := 0;
           sticky_until := sticky; last_migration_reason := reason; pl_is_active := true;
           pl_created_at := now; pl_updated_at := now |});
      mret (pl_id p)
  end.

Definition upsert_set_pending (kid bid : Z) (ds : PlacementDesiredState) (sticky : option Z)
    (reason : option string) : SM UserPlacement :=
  upsert_row kid bid ds sticky reason ;;
  row ← get_by_key_and_backend kid bid true;
  match row with
  | Some p => mret p
  | None => raise (RuntimeError "placement upsert failed to load placement row")
  end.

Fixpoint upsert_rows (pairs : list (Z * Z)) (ds : PlacementDesiredState) (reason : option string)
    : SM (list Z) :=
  match pairs with
  | [] => mret []
  | (kid, bid) :: pairs =>
      i ← upsert_row kid bid ds None reason;
      l ← upsert_rows pairs ds reason;
      mret (i :: l)
  end.

(** PostgreSQL refuses a multi-row upsert that meets a row twice. *)
Definition bulk_upsert_set_pending (pairs : list (Z * Z)) (ds : PlacementDesiredState)
    (reason : option string) : SM (list Z) :=
  raise_if (negb (bool_decide (NoDup pairs)))
    (RuntimeError "ON CONFLICT DO UPDATE command cannot affect row a second time") ;;
  upsert_rows pairs ds reason.

Definition deactivate_placements_on_node (bid : Z) (reason : string) : SM (list Z) :=
  l ← select_where placements_tbl (λ p, pl_is_active p &&
        negb (bool_decide (desired_state p = desired_inactive)) && (backend_node_id p =? bid));
  let ids := pl_id <$> l in
  match ids with
  | [] => mret []
  | _ =>
      now ← utcnow;
      update_where placements_tbl (λ p, bool_decide (pl_id p ∈ ids))
        (bump desired_inactive (Some reason) now) ;;
      mret ids
  end.

(** [or_(desired_state != ds, applied_state != 'pending')]. *)
Definition needs_state (ds : PlacementDesiredState) (p : UserPlacement) : bool :=
  negb (bool_decide (desired_state p = ds)) || negb (bool_decide (applied_state p = applied_pending)).

Definition set_desired_state_for_key (kid : Z) (ds : PlacementDesiredState) (reason : option string)
    (now : Z) (backend_node_ids : option (list Z)) : SM Z :=
  backends ← read (λ d, node_id <$> filter (λ n, node_role n = ROLE_BACKEND) (rows (nodes d)));
  match backend_node_ids with
  | Some [] => mret 0
  | _ =>
      ids ← update_where placements_tbl (λ p, (pl_key_id p =? kid) && pl_is_active p &&
        bool_decide (backend_node_id p ∈ backends) && needs_state ds p &&
        match backend_node_ids with
        | Some ids => bool_decide (backend_node_id p ∈ ids)
        | None => true
        end) (bump ds reason now);
      mret (Z.of_nat (length ids))
  end.

Definition set_pending_for_backend (bid : Z) (reason : option string) (now : Z) : SM (list Z) :=
  update_where placements_tbl (λ p, (backend_node_id p =? bid) && pl_is_active p)
    (λ p, bump (desired_state p) reason now p).

Definition bulk_set_desired_state_for_keys (kids : list Z) (ds : PlacementDesiredState)
    (reason : option string) (now : Z) : SM (list Z) :=
  match kids with
  | [] => mret []
  | _ => update_where placements_tbl (λ p, bool_decide (pl_key_id p ∈ kids) && pl_is_active p &&
           needs_state ds p) (bump ds reason now)
  end.

Definition apply_backend_report (pid expected_op_version : Z) (st : PlacementAppliedState)
    (version now reporter : Z) : SM Z :=
  ids ← update_where placements_tbl (λ p, (pl_id p =? pid) &&
          (op_version p =? expected_op_version) && (backend_node_id p =? reporter))
          (reported st version now);
  mret (Z.of_nat (length ids)).

(** One reported result: [PlacementResultApply]. *)
Record PlacementResultApply := {
  pra_id : Z;
  pra_op_version : Z;
  pra_backend_node_id : Z;
  pra_applied_state : PlacementAppliedState;
  pra_updated_at : Z;
}.

(** [by_state]: groups in the order of their first item. *)
Definition by_state (items : list PlacementResultApply)
    : list (PlacementAppliedState * list PlacementResultApply) :=
  (λ st, (st, filter (λ it, pra_applied_state it = st) items)) <$>
  rev (remove_dups (rev (pra_applied_state <$> items))).

Definition report_matches (group : list PlacementResultApply) (p : UserPlacement) : bool :=
  existsb (λ it, (pra_id it =? pl_id p) && (pra_op_version it =? op_version p) &&
                 (pra_backend_node_id it =? backend_node_id p)) group.

(** [applied_version=op_version, updated_at=group[0]["updated_at"]]. *)
Definition report_group (acc : list Z) (g : PlacementAppliedState * list PlacementResultApply)
    : SM (list Z) :=
  match g.2 with
  | [] => mret acc
  | first :: _ =>
      ids ← update_where placements_tbl (report_matches g.2)
        (λ p, reported g.1 (op_version p) (pra_updated_at first) p);
      mret (acc ++ ids)
  end.

Definition bulk_apply_backend_report (items : list PlacementResultApply) : SM (list Z) :=
  match items with
  | [] => mret []
  | _ => fold_m report_group [] (by_state items)
  end.

(** The row of the same key already on the target, among the rows read first. *)
Definition target_by_key (targets : list UserPlacement) (kid : Z) : option UserPlacement :=
  find (λ t, pl_key_id t =? kid) targets.

Definition bulk_migrate_backend (ids : list Z) (target : Z) (reason : option string) (now : Z)
    : SM (Z * list Z) :=
  match ids with
  | [] => mret (0, [])
  | _ =>
      source_rows ← select_where placements_tbl (λ p, bool_decide (pl_id p ∈ ids) && pl_is_active p);
      match source_rows with
      | [] => mret (0, [])
      | _ =>
          let key_ids := pl_key_id <$> source_rows in
          targets ← select_where placements_tbl (λ p, bool_decide (pl_key_id p ∈ key_ids) &&
                      (backend_node_id p =? target));
          let simple := filter (λ p, target_by_key targets (pl_key_id p) = None) source_rows in
          let merge := filter (λ p, match target_by_key targets (pl_key_id p) with
                                    | Some t => negb (pl_id t =? pl_id p) | None => false
                                    end = true) source_rows in
          let simple_move_ids := pl_id <$> simple in
          let merge_source_ids := pl_id <$> merge in
          moved ← match simple_move_ids with
                  | [] => mret []
                  | _ => update_where placements_tbl (λ p, bool_decide (pl_id p ∈ simple_move_ids))
                           (move_to target reason now)
                  end;
          merged ← match merge_source_ids with
                   | [] => mret []
                   | _ =>
                       (* UPDATE ... FROM src: the values come from the source row of the key *)
                       srcs ← select_where placements_tbl (λ p, bool_decide (pl_id p ∈ merge_source_ids));
                       ids ← update_where placements_tbl
                         (λ p, (backend_node_id p =? target) &&
                               existsb (λ q, pl_key_id q =? pl_key_id p) srcs)
                         (λ p, match find (λ q, pl_key_id q =? pl_key_id p) srcs with
                               | Some q => revive (desired_state q) (sticky_until q) reason now p
                               | None => p
                               end);
                       update_where placements_tbl (λ p, bool_decide (pl_id p ∈ merge_source_ids)) (retire now) ;;
                       mret ids
                   end;
          mret (Z.of_nat (length moved) + Z.of_nat (length merged), moved ++ merged)
      end
  end.

(** * NodeTransportOutboxRepository.enqueue_many

    [INSERT ... ON CONFLICT (message_id) DO NOTHING], row by row. *)
Definition enqueue_one (it : OutboxEnqueueItem) : SM unit :=
  known ← read (λ d, existsb (λ r, bool_decide (ob_message_id r = oei_message_id it))
                       (rows (outbox d)));
  if known : bool then mret tt else
  create outbox_tbl (λ id now,
    {| ob_id := id; ob_node_id := oei_node_id it; ob_event_type := oei_event_type it;
       ob_aggregate_id := oei_aggregate_id it; ob_op_version := oei_op_version it;
       ob_subject := oei_subject it; ob_payload := oei_payload it;
       ob_message_id := oei_message_id it; ob_status := ob_pending; ob_attempts := 0;
       ob_published_at := None; ob_last_error := None; ob_next_retry_at := None;
       ob_created_at := now; ob_updated_at := now |}) ;;
  mret tt.

Definition enqueue_many (items : list OutboxEnqueueItem) : SM unit := for_each enqueue_one items.

(** * NodeAgentPlacementTransport *)

(** [TransportProtocol(...)] and [TransportVpnTransport(...)]. *)
Definition transport_protocols : list string := ["vless"].
Definition transport_transports : list string := ["ws"; "xhttp"; "tcp"; "reality"].

Definition _build_command_payload (p : UserPlacement) (k : VpnKey) (override_node_id : option Z)
    : SM PlacementCommandPayload :=
  raise_if (negb (bool_decide (key_protocol k ∈ transport_protocols)))
    (ValueError (key_protocol k +:+ " is not a valid TransportProtocol")) ;;
  raise_if (negb (bool_decide (key_transport k ∈ transport_transports)))
    (ValueError (key_transport k +:+ " is not a valid TransportVpnTransport")) ;;
  mret {| pc_placement_id := pl_id p; pc_key_id := pl_key_id p;
          pc_node_id := default (backend_node_id p) override_node_id;
          pc_backend_node_id := backend_node_id p; pc_op_version := op_version p;
          pc_desired_state := desired_state p; pc_protocol := key_protocol k;
          pc_transport := key_transport k; pc_client_id := client_id k;
          pc_is_revoked := is_revoked k; pc_valid_until := valid_until k;
          pc_updated_at := pl_updated_at p;
          pc_override_tag := entry_routing_override_backend_tag k |}.

Section Transport.
(** [settings.js_command_subject_prefix], without trailing dots. *)
Context (command_prefix : string).

(** [AgentSubjects.placement_command]. *)
Definition placement_command (nid : Z) : string :=
command_prefix +:+ "." +:+ str_uuid nid +:+ ".commands".

(** The item of a command; the message id of an entry's copy names the entry. *)
Definition command_item (c : PlacementCommandPayload) (entry : option Z) : OutboxEnqueueItem :=
{| oei_node_id := pc_node_id c; oei_event_type := "placement_command";
   oei_aggregate_id := Some (pc_placement_id c); oei_op_version := Some (pc_op_version c);
   oei_subject := placement_command (pc_node_id c); oei_payload := PlacementCommand c;
   oei_message_id := PlacementCommandId (pc_placement_id c) (pc_op_version c) entry |}.

Fixpoint entry_items (p : UserPlacement) (k : VpnKey) (entries : list Z) : SM (list OutboxEnqueueItem) :=
match entries with
| [] => mret []
| e :: entries =>
    c ← _build_command_payload p k (Some e);
    l ← entry_items p k entries;
    mret (command_item c (Some e) :: l)
end.

(** [_load_entries_for_backends], for one backend. *)
Definition _load_entries_for_backends (d : database) (bid : Z) : list Z :=
eba_entry_node_id <$> filter (λ e, (eba_backend_node_id e =? bid) && eba_enabled e = true)
  (rows (entry_assignments d)).

Fixpoint command_items (rows : list (UserPlacement * VpnKey)) (entries : Z → list Z)
  : SM (list OutboxEnqueueItem) :=
match rows with
| [] => mret []
| (p, k) :: rows =>
    c ← _build_command_payload p k None;
    es ← entry_items p k (entries (backend_node_id p));
    l ← command_items rows entries;
    mret (command_item c None :: es ++ l)
end.

Definition enqueue_for_placement_ids (ids : list Z) : SM unit :=
rows ← list_transport_rows_by_placement_ids ids;
match rows with
| [] => mret tt
| _ =>
    entries ← read _load_entries_for_backends;
    items ← command_items rows entries;
    enqueue_many items
end.

Definition enqueue_for_key_state (kid : Z) (ds : PlacementDesiredState)
  (backend_node_ids : option (list Z)) : SM unit :=
ids ← list_active_ids_for_key kid ds backend_node_ids;
enqueue_for_placement_ids ids.

Fixpoint build_payloads (rows : list (UserPlacement * VpnKey)) (override_node_id : option Z)
  : SM (list PlacementCommandPayload) :=
match rows with
| [] => mret []
| (p, k) :: rows =>
    c ← _build_command_payload p k override_node_id;
    l ← build_payloads rows override_node_id;
    mret (c :: l)
end.

Definition list_command_payloads_for_backend (bid : Z) : SM (list PlacementCommandPayload) :=
rows ← list_transport_rows_for_backend bid;
build_payloads rows None.

Definition list_command_payloads_for_entry (entry : Z) : SM (list PlacementCommandPayload) :=
rows ← list_transport_rows_for_entry entry;
build_payloads rows (Some entry).

(** * UserPlacementService *)

Record UserPlacementUpsertIn := {
  upu_key_id : Z;
  upu_backend_node_id : Z;
  upu_desired_state : PlacementDesiredState;
  upu_sticky_until : option Z;
  upu_last_migration_reason : option string;
}.

Definition upsert (payload : UserPlacementUpsertIn) : SM UserPlacement :=
key ← get_by_id keys_tbl (upu_key_id payload);
raise_if (bool_decide (key = None)) (HTTPException 404 "Key not found") ;;
backend ← get_by_id nodes_tbl (upu_backend_node_id payload);
raise_if (bool_decide (backend = None)) (HTTPException 404 "Backend node not found") ;;
p ← upsert_set_pending (upu_key_id payload) (upu_backend_node_id payload)
      (upu_desired_state payload) (upu_sticky_until payload) (upu_last_migration_reason payload);
enqueue_for_placement_ids [pl_id p] ;;
mret p.

Record PlacementMigrateBackendIn := {
  pmi_source_backend_id : Z;
  pmi_target_backend_id : option Z;
  pmi_last_migration_reason : string;
}.

Record PlacementMigrateBackendOut := {
  pmo_source_backend_id : Z;
  pmo_target_backend_id : Z;
  migrated_count : Z;
}.

(** The target: the one named, or the best one the routing service selects. *)
Definition migration_target (payload : PlacementMigrateBackendIn) (source : VpnNode) : SM VpnNode :=
match pmi_target_backend_id payload with
| Some tid =>
    target ← get_by_id nodes_tbl tid;
    match target with
    | Some t => mret t
    | None => raise (HTTPException 404 "Target node not found")
    end
| None =>
    candidates ← select_nodes (Some (node_region source)) [node_id source];
    match candidates with
    | t :: _ => mret t
    | [] => raise (HTTPException 503 "No eligible target node available")
    end
end.

Definition migrate_backend (payload : PlacementMigrateBackendIn) : SM PlacementMigrateBackendOut :=
raise_if (bool_decide (pmi_target_backend_id payload = Some (pmi_source_backend_id payload)))
  (HTTPException 400 "source_backend_id and target_backend_id must differ") ;;
source ← get_by_id nodes_tbl (pmi_source_backend_id payload);
match source with
| None => raise (HTTPException 404 "Source node not found")
| Some source =>
    target ← migration_target payload source;
    raise_if (negb (node_is_active target) || negb (is_enabled target) || is_draining target)
      (HTTPException 409 "Target node is not eligible") ;;
    placements ← list_active (Some (pmi_source_backend_id payload)) None;
    let active := filter (λ p, desired_state p = desired_active) placements in
    now ← utcnow;
    match active with
    | [] => mret tt
    | _ =>
        r ← bulk_migrate_backend (pl_id <$> active) (node_id target)
              (Some (pmi_last_migration_reason payload)) now;
        match r.2 with
        | [] => mret tt
        | target_ids => enqueue_for_placement_ids target_ids
        end
    end ;;
    mret {| pmo_source_backend_id := pmi_source_backend_id payload;
            pmo_target_backend_id := node_id target;
            migrated_count := Z.of_nat (length active) |}
end.

Definition list_placements (bid : option Z) (limit : nat) : SM (list UserPlacement) :=
list_active bid (Some limit).

Definition list_by_key (kid : Z) : SM (list UserPlacement) :=
l ← list_by_key_id kid true None;
match l with
| [] => raise (HTTPException 404 "Placement not found")
| _ => mret l
end.
End Transport.

(** * PlacementApplyService *)

Inductive PlacementApplyStatus :=
| st_applied | st_pending | st_error | st_skipped_stale | st_skipped_idempotent.
#[export] Instance PlacementApplyStatus_eq_dec : EqDecision PlacementApplyStatus.
Proof. solve_decision. Defined.

Record PlacementApplyResultIn := {
  pri_op_version : Z;
  pri_applied_state : PlacementAppliedState;
}.

(** [op_version: int = Field(ge=1)]. *)
Definition PlacementApplyResultIn_valid (r : PlacementApplyResultIn) : bool := 1 <=? pri_op_version r.

Definition apply_result (node pid : Z) (payload : PlacementApplyResultIn) : SM PlacementApplyStatus :=
  now ← utcnow;
  updated ← apply_backend_report pid (pri_op_version payload) (pri_applied_state payload)
              (pri_op_version payload) now node;
  if updated =? 0 then mret st_skipped_stale
  else mret match pri_applied_state payload with
            | applied_applied => st_applied
            | applied_error => st_error
            | applied_pending => st_pending
            end.

(** * Reconcilers (services/placements/reconcilers) *)

(** [applied_state='pending', op_version=op_version + 1, updated_at=now]. *)
Definition retry (now : Z) (p : UserPlacement) : UserPlacement :=
  bump (desired_state p) (last_migration_reason p) now p.

(** Active placements in the given state not updated since the cutoff. *)
Definition stale_in (st : PlacementAppliedState) (cutoff : Z) (p : UserPlacement) : bool :=
  bool_decide (applied_state p = st) && pl_is_active p && (pl_updated_at p <? cutoff).

Section Reconcilers.
Context (command_prefix : string).

(** [PlacementErrorRetryReconciler.tick]. *)
Definition error_retry_body (policy : NodePolicy) : SM (Z * bool) :=
let retry_after_sec := Z.max 30 (placement_error_retry_after_sec policy) in
now ← utcnow;
let cutoff := now - retry_after_sec * second in
errors ← select_where placements_tbl (stale_in applied_error cutoff);
let error_ids := pl_id <$> errors in
match error_ids with
| [] => mret tt
| _ =>
    now ← utcnow;
    update_where placements_tbl (λ p, bool_decide (pl_id p ∈ error_ids)) (retry now) ;;
    enqueue_for_placement_ids command_prefix error_ids
end ;;
pending ← select_where placements_tbl (stale_in applied_pending cutoff);
let pending_ids := pl_id <$> pending in
match pending_ids with
| [] => mret tt
| _ => enqueue_for_placement_ids command_prefix pending_ids
end ;;
let total := Z.of_nat (length error_ids) + Z.of_nat (length pending_ids) in
mret (total, 0 <? total).

Definition error_retry_tick : SM Z :=
policy ← node_policy;
run_committing (error_retry_body policy).

(** [_deactivate_placements_on_draining_backends]: the reported state is not
  reset. *)
Definition drain (now : Z) (p : UserPlacement) : UserPlacement :=
{| pl_id := pl_id p; pl_key_id := pl_key_id p; backend_node_id := backend_node_id p;
   desired_state := desired_inactive; applied_state := applied_state p;
   op_version := op_version p + 1; applied_version := applied_version p;
   sticky_until := sticky_until p; last_migration_reason := Some "backend_draining";
   pl_is_active := pl_is_active p; pl_created_at := pl_created_at p; pl_updated_at := now |}.

Definition _deactivate_placements_on_draining_backends : SM (list Z) :=
now ← utcnow;
draining ← read (λ d, node_id <$> filter (λ n, is_draining n = true) (rows (nodes d)));
update_where placements_tbl (λ p, bool_decide (backend_node_id p ∈ draining) &&
  bool_decide (desired_state p = desired_active) && pl_is_active p) (drain now).

(** [exists().where(Route.node_id == VpnNode.id, Route.entry_node_id.is_not(None))]. *)
Definition has_entry_route (d : database) (nid : Z) : bool :=
existsb (λ r, (route_node_id r =? nid) && bool_decide (is_Some (route_entry_node_id r)))
  (rows (routes d)).

Definition _find_healthy_backend_node_ids (stale : Z) : SM (list Z) :=
now ← utcnow;
let cutoff := now - stale * second in
read (λ d, node_id <$> filter (λ n,
  (node_is_active n && is_enabled n && negb (is_draining n) &&
   String.eqb (node_role n) ROLE_BACKEND &&
   match agent_state_of d (node_id n) with
   | Some a => is_healthy a && match last_seen_at a with Some t => cutoff <=? t | None => false end
   | None => false
   end && has_entry_route d (node_id n)) = true) (rows (nodes d))).

(** [PlacementRebalanceReconciler.tick]. *)
Definition rebalance_body (policy : NodePolicy) : SM (Z * bool) :=
let batch_size := Z.to_nat (Z.max 1 (placement_rebalance_batch_size policy)) in
let stale := Z.max 30 (stale_after_sec policy) in
drained_ids ← _deactivate_placements_on_draining_backends;
match drained_ids with
| [] => mret tt
| _ => enqueue_for_placement_ids command_prefix drained_ids
end ;;
healthy ← _find_healthy_backend_node_ids stale;
if (length healthy <? 2)%nat then mret (0, negb (bool_decide (drained_ids = []))) else
missing_pairs ← find_missing_placements healthy batch_size;
match missing_pairs with
| [] => mret (0, false)
| _ =>
    created ← bulk_upsert_set_pending missing_pairs desired_active (Some "rebalance");
    match created with
    | [] => mret tt
    | _ => enqueue_for_placement_ids command_prefix created
    end ;;
    mret (Z.of_nat (length created), true)
end.

Definition rebalance_tick : SM Z :=
policy ← node_policy;
run_committing (rebalance_body policy).
End Reconcilers.
