(* ===== verification/Keys.v ===== *)
(** VPN keys (services/vpn/keys: repository, service, expiration reconciler) and the
    invalidation of cached payloads (services/vpn/subscriptions/cache.py). *)

From stdpp Require Import base gmap strings list sorting.
From S2P Require Import Prelude Decimal Errors RouteModels BillingModels FleetModels Session Uuid Tables FleetTables Routing Placements.
Local Open Scope Z_scope.

(** * Schemas *)

Inductive VpnTransport := VpnTransport_ws | VpnTransport_xhttp | VpnTransport_tcp | VpnTransport_reality.
#[export] Instance VpnTransport_eq_dec : EqDecision VpnTransport.
Proof. solve_decision. Defined.

(** The value of the enumeration. *)
Definition transport_value (t : VpnTransport) : string :=
  match t with
  | VpnTransport_ws => "ws"
  | VpnTransport_xhttp => "xhttp"
  | VpnTransport_tcp => "tcp"
  | VpnTransport_reality => "reality"
  end.

Record VpnKeyCreate := {
  vkc_user_id : Z;
  vkc_transport : VpnTransport;
  vkc_valid_until : Z;
  vkc_traffic_limit_mb : Z;
}.

(** The columns the methods below write. *)
Definition write_key (used : Z) (revoked : bool) (until updated : Z) (k : VpnKey) : VpnKey :=
  {| key_id := key_id k; key_user_id := key_user_id k; key_protocol := key_protocol k;
     key_transport := key_transport k; client_id := client_id k; valid_until := until;
     traffic_limit_mb := traffic_limit_mb k; key_used_traffic_bytes := used; is_revoked := revoked;
     key_subscription_id := key_subscription_id k;
     entry_routing_override_backend_tag := entry_routing_override_backend_tag k;
     key_is_active := key_is_active k; key_created_at := key_created_at k; key_updated_at := updated |}.

Definition set_revoked (b : bool) (k : VpnKey) : VpnKey :=
  write_key (key_used_traffic_bytes k) b (valid_until k) (key_updated_at k) k.

(** [key.is_revoked = b], flushed: an assignment of the same value writes nothing. *)
Definition assign_revoked (b : bool) (k : VpnKey) : SM unit :=
  if Bool.eqb (is_revoked k) b then mret tt
  else update_by_id keys_tbl (key_id k) (set_revoked b) ;; mret tt.

(** * Repository *)

Definition list_keys_by_ids (ids : list Z) : SM (list VpnKey) :=
  match ids with
  | [] => mret []
  | _ => select_where keys_tbl (λ k, bool_decide (key_id k ∈ ids))
  end.

(** Active, not revoked, not expired. *)
Definition key_live (now : Z) (k : VpnKey) : bool := key_is_active k && negb (is_revoked k) && (now <? valid_until k).

Definition get_latest_active_for_user (uid : Z) (transport : option string) : SM (option VpnKey) :=
  now ← utcnow;
  l ← select_where keys_tbl (λ k, (key_user_id k =? uid) && key_live now k &&
        match transport with Some t => String.eqb (key_transport k) t | None => true end);
  mret (head (order_by_desc valid_until (order_by_desc key_created_at l))).

Definition list_active_by_override_tag (tag : string) (updated_before : Z) (limit : nat) (by_traffic : bool)
    : SM (list VpnKey) :=
  now ← utcnow;
  l ← select_where keys_tbl (λ k, sql_eqb (entry_routing_override_backend_tag k) (Some tag) && key_live now k &&
        (key_updated_at k <? updated_before));
  let l := order_by_asc key_updated_at l in
  mret (take limit (if by_traffic then order_by_desc key_used_traffic_bytes l else l)).

Definition list_all_active : SM (list VpnKey) :=
  now ← utcnow; select_where keys_tbl (key_live now).

Definition list_active_with_user (limit : nat) : SM (list VpnKey) :=
  l ← select_where keys_tbl (λ k, negb (is_revoked k));
  mret (take limit (order_by_desc key_created_at l)).

Definition of_subscription (sid : Z) (k : VpnKey) : bool := bool_decide (key_subscription_id k = Some sid).

Definition list_active_by_subscription_id (sid : Z) : SM (list VpnKey) :=
  now ← utcnow; select_where keys_tbl (λ k, of_subscription sid k && key_live now k).

(** [UPDATE ... SET is_revoked = true, updated_at = now WHERE id IN ...]. *)
Definition revoke_by_ids (ids : list Z) (now : Z) : SM unit :=
  update_where keys_tbl (λ k, bool_decide (key_id k ∈ ids))
    (λ k, write_key (key_used_traffic_bytes k) true (valid_until k) now k) ;;
  mret tt.

Definition bulk_revoke_by_subscription_ids (sids : list Z) : SM (list Z) :=
  match sids with
  | [] => mret []
  | _ =>
      now ← utcnow;
      l ← select_where keys_tbl (λ k, match key_subscription_id k with
                                      | Some sid => bool_decide (sid ∈ sids)
                                      | None => false
                                      end && key_is_active k && negb (is_revoked k));
      match key_id <$> l with
      | [] => mret []
      | ids => revoke_by_ids ids now ;; mret ids
      end
  end.

Definition bulk_revoke_expired (limit : nat) : SM (list Z) :=
  now ← utcnow;
  l ← select_where keys_tbl (λ k, key_is_active k && negb (is_revoked k) && (valid_until k <=? now));
  match key_id <$> take limit (order_by_asc valid_until l) with
  | [] => mret []
  | ids => revoke_by_ids ids now ;; mret ids
  end.

Definition list_by_client_ids (client_ids : list string) (active_only : bool) : SM (list VpnKey) :=
  match filter (λ c, nonempty c = true) client_ids with
  | [] => mret []
  | normalized =>
      if active_only then
        now ← utcnow;
        select_where keys_tbl (λ k, bool_decide (client_id k ∈ normalized) && key_is_active k &&
          (now <? valid_until k) && negb (is_revoked k))
      else select_where keys_tbl (λ k, bool_decide (client_id k ∈ normalized))
  end.

(** The ids of the keys that were revoked. *)
Definition bulk_reset_traffic_by_subscription (sid : Z) : SM (list Z) :=
  revoked ← select_where keys_tbl (λ k, of_subscription sid k && key_is_active k && is_revoked k);
  now ← utcnow;
  update_where keys_tbl (λ k, of_subscription sid k && key_is_active k)
    (λ k, write_key 0 false (valid_until k) now k) ;;
  mret (key_id <$> revoked).

(** * Cached payloads *)

Definition invalidate_by_key_ids (kids : list Z) : SM unit :=
  match kids with
  | [] => mret tt
  | _ =>
      l ← select_where keys_tbl (λ k, bool_decide (key_id k ∈ kids));
      invalidate_by_subscription_ids (remove_dups (omap key_subscription_id l))
  end.

(** * Service *)

Section KeyService.
(** [settings.nats.js_command_subject_prefix]; whether Redis is there. *)
Context (command_prefix : string) (redis : bool).

Definition create_key (payload : VpnKeyCreate) : SM VpnKey :=
user ← get_by_id users_tbl (vkc_user_id payload);
match user with
| None => raise (HTTPException 404 "User not found")
| Some _ =>
    n ← uuid4;
    create keys_tbl (λ id now,
      {| key_id := id; key_user_id := vkc_user_id payload; key_protocol := "vless";
         key_transport := transport_value (vkc_transport payload); client_id := str_uuid n;
         valid_until := vkc_valid_until payload; traffic_limit_mb := vkc_traffic_limit_mb payload;
         key_used_traffic_bytes := 0; is_revoked := false; key_subscription_id := None;
         entry_routing_override_backend_tag := None; key_is_active := true; key_created_at := now;
         key_updated_at := now |})
end.

Definition assign_key (_ : Z) : SM unit :=
raise (HTTPException 410
  "Legacy key assignment API is disabled. Use /api/v1/placements for backend placement management.").

(** [_set_placement_inactive], [_set_placement_desired_state]. *)
Definition _set_placement_desired_state (kid : Z) (ds : PlacementDesiredState) (reason : string) : SM unit :=
now ← utcnow;
set_desired_state_for_key kid ds (Some reason) now None ;;
enqueue_for_key_state command_prefix kid ds None.

Definition revoke_key (kid : Z) : SM unit :=
key ← get_by_id keys_tbl kid;
match key with
| None => raise (HTTPException 404 "Key not found")
| Some k =>
    if is_revoked k then mret tt
    else
      assign_revoked true k ;;
      _set_placement_desired_state kid desired_inactive "key_revoke" ;;
      when redis (invalidate_by_key_ids [kid])
end.

(** Placements of the keys go to the desired state and their nodes are told. *)
Definition switch_placements (kids : list Z) (ds : PlacementDesiredState) (reason : string) (now : Z) : SM (list Z) :=
ids ← bulk_set_desired_state_for_keys kids ds (Some reason) now;
match ids with
| [] => mret tt
| _ => enqueue_for_placement_ids command_prefix ids
end ;;
mret ids.

(** [VpnKeyExpirationReconciler.tick]. *)
Definition key_expiration_tick (batch_size : Z) : SM Z :=
run_committing
  (kids ← bulk_revoke_expired (Z.to_nat (Z.max 1 batch_size));
   match kids with
   | [] => mret (0, false)
   | _ =>
       now ← utcnow;
       switch_placements kids desired_inactive "key_expired" now ;;
       invalidate_by_key_ids kids ;;
       mret (Z.of_nat (length kids), true)
   end).
End KeyService.
