(* ===== verification/Routes.v ===== *)
(** Routes and transport profiles: the repository (services/routes/repository.py),
    the service (services/routes/service.py) with its helpers
    (services/routes/utils.py, services/routes/types.py) and the reconcilers that
    advance warm-ups and follow the entry assignments (services/routes/reconcilers). *)

From stdpp Require Import base gmap strings list sorting.
From S2P Require Import Prelude Errors RouteModels RouteStateMachine BillingModels FleetModels Session Uuid NodeDisplay Tables FleetTables Routing Placements.
Local Open Scope Z_scope.

(** * Tables *)

Definition touch_route (now : Z) (r : Route) : Route :=
  {| route_id := route_id r; route_name := route_name r; route_node_id := route_node_id r;
     route_entry_node_id := route_entry_node_id r;
     route_transport_profile_id := route_transport_profile_id r;
     health_status := health_status r; base_weight := base_weight r;
     effective_weight := effective_weight r; cooldown_until := cooldown_until r;
     warmup_stage := warmup_stage r; warmup_started_at := warmup_started_at r;
     route_is_active := route_is_active r; route_created_at := route_created_at r;
     route_updated_at := now |}.

Definition routes_tbl : table Route :=
  {| t_rows := routes; t_set := set_routes; t_id := route_id; t_touch := touch_route;
     t_check := λ d old r,
       match route_check r with
       | Some c => Some c
       | None => unique_on "route_name_key" (routes d) route_id
                   (λ a b, String.eqb (route_name a) (route_name b)) old r
       end |}.

Definition touch_profile (now : Z) (p : TransportProfile) : TransportProfile :=
  {| tp_id := tp_id p; tp_name := tp_name p; tp_protocol := tp_protocol p; network := network p; security := security p;
     flow := flow p; reality_public_key := reality_public_key p; reality_short_id := reality_short_id p;
     reality_server_name := reality_server_name p; tls_fingerprint := tls_fingerprint p;
     grpc_service_name := grpc_service_name p; port := port p; tp_is_active := tp_is_active p; tp_updated_at := now |}.

Definition profiles_tbl : table TransportProfile :=
  {| t_rows := transport_profiles; t_set := set_transport_profiles; t_id := tp_id;
     t_touch := touch_profile;
     t_check := λ d old p,
       if (1 <=? port p) && (port p <=? 65535)
       then unique_on "transport_profile_name_key" (transport_profiles d) tp_id
              (λ a b, String.eqb (tp_name a) (tp_name b)) old p
       else Some "ck_transport_profile_port_range" |}.

#[export] Instance routes_laws : TableLaws routes_tbl. Proof. table_laws. Qed.
#[export] Instance profiles_laws : TableLaws profiles_tbl. Proof. table_laws. Qed.

(** [bool(s)] of a nullable string. *)
Definition truthy (s : option string) : bool :=
  match s with Some s => nonempty s | None => false end.

(** ORDER BY a string column, ascending; stable. *)
Definition name_le {R} (key : R → string) (a b : R) : Prop := String.leb (key a) (key b) = true.
#[export] Instance name_le_dec {R} (key : R → string) : RelDecision (name_le key).
Proof. intros a b. unfold name_le. apply _. Defined.
Definition order_by_name {R} (key : R → string) : list R → list R := merge_sort (name_le key).

Definition limited {A} (limit : option nat) (l : list A) : list A :=
  match limit with Some n => take n l | None => l end.

(** * Repository *)

Definition list_active_profiles (limit : option nat) : SM (list TransportProfile) :=
  l ← select_where profiles_tbl tp_is_active;
  mret (limited limit (order_by_name tp_name l)).

Definition get_profile_by_name (name : string) : SM (option TransportProfile) :=
  l ← select_where profiles_tbl (λ p, String.eqb (tp_name p) name);
  scalar_one_or_none l.

Definition get_route_by_name (name : string) : SM (option Route) :=
  l ← select_where routes_tbl (λ r, String.eqb (route_name r) name);
  scalar_one_or_none l.

Definition get_by_triple (backend : Z) (entry : option Z) (profile : Z) : SM (option Route) :=
  l ← select_where routes_tbl (λ r, (route_node_id r =? backend) &&
        (route_transport_profile_id r =? profile) && bool_decide (route_entry_node_id r = entry));
  scalar_one_or_none l.

(** [order_by(effective_weight.desc(), name.asc())], by the route of each row. *)
Definition heaviest_first {A} (route : A → Route) (l : list A) : list A :=
  order_by_desc (λ x, effective_weight (route x)) (order_by_name (λ x, route_name (route x)) l).

Definition of_node (nid : option Z) (r : Route) : bool :=
  match nid with Some n => route_node_id r =? n | None => true end.

Definition list_active_routes (nid : option Z) (limit : option nat) : SM (list Route) :=
  l ← select_where routes_tbl (λ r, route_is_active r && of_node nid r);
  mret (limited limit (heaviest_first id l)).

(** A route with its node, its profile and the node's agent state. *)
Record DetailedRoute := {
  dr_route : Route;
  dr_node : VpnNode;
  dr_profile : TransportProfile;
  dr_agent_state : option NodeAgentState;
}.

Definition detailed (d : database) (r : Route) : option DetailedRoute :=
  n ← nodes d !! route_node_id r;
  p ← transport_profiles d !! route_transport_profile_id r;
  Some {| dr_route := r; dr_node := n; dr_profile := p; dr_agent_state := agent_state_of d (node_id n) |}.

Definition list_active_detailed (nid : option Z) (limit : option nat) : SM (list DetailedRoute) :=
  read (λ d, limited limit (heaviest_first dr_route (omap (detailed d)
    (filter (λ r, (route_is_active r && of_node nid r) = true) (rows (routes d)))))).

Definition get_active_detailed_by_id (rid : Z) : SM (option DetailedRoute) :=
  read (λ d, r ← routes d !! rid; if route_is_active r : bool then detailed d r else None).

Definition list_warming_up : SM (list Route) :=
  l ← select_where routes_tbl (λ r, route_is_active r && bool_decide (health_status r = warming_up));
  mret (order_by_asc route_updated_at l).

(** [Route.entry_node_id, count] grouped by the entry. *)
Definition count_active_by_entry : SM (gmap Z Z) :=
  l ← select_where routes_tbl route_is_active;
  mret (foldr (λ r m, match route_entry_node_id r with
                      | Some e => <[e := default 0 (m !! e) + 1]> m
                      | None => m
                      end) ∅ l).

Definition profile_is_active (d : database) (r : Route) (P : TransportProfile → bool) : bool :=
  match transport_profiles d !! route_transport_profile_id r with
  | Some p => tp_is_active p && P p
  | None => false
  end.

Definition list_backend_ids_for_entry (entry : Z) : SM (list Z) :=
  read (λ d, remove_dups (route_node_id <$> filter (λ r, (route_is_active r &&
    bool_decide (route_entry_node_id r = Some entry) && profile_is_active d r (λ _, true)) = true)
    (rows (routes d)))).

(** The profiles a key's transport can use. *)
Definition carries (key_transport : option string) (p : TransportProfile) : bool :=
  match key_transport with
  | Some t =>
      if String.eqb t "reality" then String.eqb (security p) "reality" && String.eqb (network p) "tcp"
      else if String.eqb t "ws" then String.eqb (security p) "tls" && String.eqb (network p) "ws"
      else if String.eqb t "xhttp" then String.eqb (security p) "tls" && String.eqb (network p) "xhttp"
      else true
  | None => true
  end.

Definition list_backend_ids_with_entry_routes (key_transport : option string) : SM (list Z) :=
  if bool_decide (key_transport = Some "tcp") then mret []
  else read (λ d, remove_dups (route_node_id <$> filter (λ r, (route_is_active r &&
    bool_decide (is_Some (route_entry_node_id r)) &&
    profile_is_active d r (carries key_transport)) = true) (rows (routes d)))).

(** The rank of a health status in the order of a resolution. *)
Definition status_order (h : RouteHealthStatus) : Z :=
  match h with healthy => 0 | warming_up => 1 | degraded => 2 | suspected => 3 | blocked => 4 end.

(** [health_status in ("healthy", "warming_up", "degraded", "suspected")]. *)
Definition servable_status (h : RouteHealthStatus) : bool :=
  match h with blocked => false | _ => true end.

(** The entry of a route, joined: [None] when the route has none. *)
Definition entry_alive (d : database) (entry : option Z) : bool :=
  match entry with
  | None => true
  | Some e =>
      match nodes d !! e with
      | None => false
      | Some n =>
          node_is_active n && is_enabled n && negb (is_draining n) &&
          match agent_state_of d (node_id n) with Some a => is_healthy a | None => true end
      end
  end.

(** The WHERE clauses on the route, its profile, its node and its agent. *)
Definition backend_serves (x : DetailedRoute) : bool :=
  route_is_active (dr_route x) && (0 <? effective_weight (dr_route x)) &&
  servable_status (health_status (dr_route x)) && tp_is_active (dr_profile x) &&
  node_is_active (dr_node x) && is_enabled (dr_node x) && negb (is_draining (dr_node x)) &&
  match dr_agent_state x with Some a => is_healthy a | None => false end.

(** [NodeAgentState.last_seen_at >= node_seen_after]. *)
Definition seen_after (cutoff : option Z) (x : DetailedRoute) : bool :=
  match cutoff with
  | None => true
  | Some t => match dr_agent_state x with
              | Some a => match last_seen_at a with Some s => t <=? s | None => false end
              | None => false
              end
  end.

Definition resolution_order (preferred_node : option Z) (preferred_region : option string)
    (l : list DetailedRoute) : list DetailedRoute :=
  let base := order_by_asc (λ x, status_order (health_status (dr_route x)))
                (order_by_desc (λ x, effective_weight (dr_route x)) l) in
  match preferred_node with
  | Some n => order_by_desc (λ x, Z.b2z (route_node_id (dr_route x) =? n)) base
  | None => if truthy preferred_region
            then order_by_desc (λ x, Z.b2z (in_region preferred_region (dr_node x))) base
            else base
  end.

Definition list_resolved_active (preferred_node : option Z) (preferred_region : option string)
    (limit : nat) (backend_node_ids : option (list Z)) (node_seen_after : option Z)
    (allow_dead_entry : bool) : SM (list DetailedRoute) :=
  match backend_node_ids with
  | Some [] => mret []
  | _ =>
      read (λ d, take limit (resolution_order preferred_node preferred_region
        (filter (λ x, (backend_serves x &&
             (allow_dead_entry || entry_alive d (route_entry_node_id (dr_route x))) &&
             match backend_node_ids with
             | Some ids => bool_decide (route_node_id (dr_route x) ∈ ids)
             | None => true
             end && seen_after node_seen_after x) = true)
           (omap (detailed d) (rows (routes d))))))
  end.

Definition count_resolved_active (node_seen_after : option Z) : SM Z :=
  read (λ d, Z.of_nat (length (filter (λ x, (backend_serves x && seen_after node_seen_after x) = true)
    (omap (detailed d) (rows (routes d)))))).

Definition count_resolved_active_by_region (node_seen_after : option Z) : SM (gmap string Z) :=
  read (λ d, foldr (λ x m, <[node_region (dr_node x) := default 0 (m !! node_region (dr_node x)) + 1]> m) ∅
    (filter (λ x, (backend_serves x && seen_after node_seen_after x) = true) (omap (detailed d) (rows (routes d))))).

(** * Service *)

Inductive RouteNodeRole := role_backend | role_entry | role_whitelist_entry.
#[export] Instance RouteNodeRole_eq_dec : EqDecision RouteNodeRole.
Proof. solve_decision. Defined.

Definition normalized_node_role (n : VpnNode) : option RouteNodeRole :=
  let normalized := lower (py_strip (node_role n)) in
  if String.eqb normalized "backend" then Some role_backend
  else if String.eqb normalized "entry" then Some role_entry
  else if String.eqb normalized "whitelist_entry" then Some role_whitelist_entry
  else None.

Definition ENTRY_NODE_ROLES : list RouteNodeRole := [role_entry; role_whitelist_entry].

Definition is_entry_node (n : VpnNode) : bool :=
  match normalized_node_role n with Some r => bool_decide (r ∈ ENTRY_NODE_ROLES) | None => false end.

Definition entry_role_detail : string :=
  "Route entry node must have role in ['entry', 'whitelist_entry']".

(** ** Transport profiles *)

Inductive TransportNetwork := net_tcp | net_ws | net_grpc.
#[export] Instance TransportNetwork_eq_dec : EqDecision TransportNetwork.
Proof. solve_decision. Defined.
Inductive TransportSecurity := sec_reality | sec_tls.
#[export] Instance TransportSecurity_eq_dec : EqDecision TransportSecurity.
Proof. solve_decision. Defined.

Definition network_value (n : TransportNetwork) : string :=
  match n with net_tcp => "tcp" | net_ws => "ws" | net_grpc => "grpc" end.
Definition security_value (x : TransportSecurity) : string :=
  match x with sec_reality => "reality" | sec_tls => "tls" end.

(** The protocol is always [vless]. *)
Record TransportProfileCreateIn := {
  tpi_name : string;
  tpi_network : TransportNetwork;
  tpi_security : TransportSecurity;
  tpi_flow : option string;
  tpi_reality_public_key : option string;
  tpi_reality_short_id : option string;
  tpi_reality_server_name : option string;
  tpi_tls_fingerprint : string;
  tpi_grpc_service_name : option string;
  tpi_port : Z;
}.

Definition _normalize_transport_profile_payload (p : TransportProfileCreateIn)
    : res TransportProfileCreateIn :=
  let any_reality := truthy (tpi_reality_public_key p) || truthy (tpi_reality_short_id p) ||
                     truthy (tpi_reality_server_name p) in
  let all_reality := truthy (tpi_reality_public_key p) && truthy (tpi_reality_short_id p) &&
                     truthy (tpi_reality_server_name p) in
  let with_grpc g :=
    {| tpi_name := tpi_name p; tpi_network := tpi_network p; tpi_security := tpi_security p;
       tpi_flow := tpi_flow p; tpi_reality_public_key := tpi_reality_public_key p;
       tpi_reality_short_id := tpi_reality_short_id p;
       tpi_reality_server_name := tpi_reality_server_name p;
       tpi_tls_fingerprint := tpi_tls_fingerprint p; tpi_grpc_service_name := g;
       tpi_port := tpi_port p |} in
  let reject detail := Raise (HTTPException 422 detail) in
  match tpi_security p with
  | sec_reality =>
      if negb (bool_decide (tpi_network p = net_tcp)) then reject "reality transport requires network=tcp"
      else if negb all_reality
      then reject "reality transport requires reality_public_key, reality_short_id and reality_server_name"
      else if truthy (tpi_grpc_service_name p)
      then reject "reality transport does not support grpc_service_name"
      else Ok (with_grpc (tpi_grpc_service_name p))
  | sec_tls =>
      match tpi_network p with
      | net_tcp => reject "tls transport supports only network=grpc or network=ws"
      | net =>
          if any_reality then reject "tls transport does not support reality_* fields"
          else if truthy (tpi_flow p) then reject "tls transport does not support flow"
          else match net with
               | net_grpc => Ok (with_grpc (if truthy (tpi_grpc_service_name p)
                                            then tpi_grpc_service_name p else Some "vl"))
               | _ => if truthy (tpi_grpc_service_name p)
                      then reject "ws transport does not support grpc_service_name"
                      else Ok (with_grpc (tpi_grpc_service_name p))
               end
      end
  end.

Definition profile_row (id now : Z) (p : TransportProfileCreateIn) : TransportProfile :=
  {| tp_id := id; tp_name := tpi_name p; tp_protocol := "vless";
     network := network_value (tpi_network p); security := security_value (tpi_security p);
     flow := tpi_flow p; reality_public_key := tpi_reality_public_key p;
     reality_short_id := tpi_reality_short_id p; reality_server_name := tpi_reality_server_name p;
     tls_fingerprint := tpi_tls_fingerprint p; grpc_service_name := tpi_grpc_service_name p;
     port := tpi_port p; tp_is_active := true; tp_updated_at := now |}.

Definition create_transport_profile (payload : TransportProfileCreateIn) : SM TransportProfile :=
  existing ← get_profile_by_name (tpi_name payload);
  raise_if (match existing with Some e => tp_is_active e | None => false end)
    (HTTPException 409 "Transport profile already exists") ;;
  payload ← lift (_normalize_transport_profile_payload payload);
  match existing with
  | Some e =>
      updated ← update_by_id profiles_tbl (tp_id e) (λ r, profile_row (tp_id r) (tp_updated_at r) payload);
      match updated with
      | None => raise (HTTPException 500 "Failed to create transport profile")
      | Some u => mret u
      end
  | None => create profiles_tbl (λ id now, profile_row id now payload)
  end.

Definition list_transport_profiles (limit : nat) : SM (list TransportProfile) :=
  list_active_profiles (Some limit).

(** ** The upstream of an entry *)

Section RouteService.
(** [settings.nats.js_command_subject_prefix], without trailing dots. *)
Context (command_prefix : string).

(** [AgentSubjects.upstream_changed]. *)
Definition upstream_changed (nid : Z) : string :=
command_prefix +:+ "." +:+ str_uuid nid +:+ ".upstream".

Definition upstream_item (entry : Z) (b : VpnNode) (backend now : Z) : OutboxEnqueueItem :=
{| oei_node_id := entry; oei_event_type := "upstream_changed"; oei_aggregate_id := Some backend;
   oei_op_version := None; oei_subject := upstream_changed entry;
   oei_payload := UpstreamChanged entry backend (node_name b) (public_domain b) (reality_ip b)
                    (internal_wg_ip b) (agent_port b);
   oei_message_id := UpstreamChangedId entry backend now |}.

Definition sync_entry_upstream (entry_node_id backend_node_id : Z) (backend_node : option VpnNode)
  : SM unit :=
entry_node ← get_by_id nodes_tbl entry_node_id;
match entry_node with
| None => mret tt
| Some n =>
    if bool_decide (upstream_node_id n = Some backend_node_id) then mret tt
    else
      now ← utcnow;
      update_by_id nodes_tbl entry_node_id (patch_node (upstream_update backend_node_id now)) ;;
      backend ← match backend_node with
                | Some b => mret (Some b)
                | None => get_by_id nodes_tbl backend_node_id
                end;
      match backend with
      | None => mret tt
      | Some b => uuid4 ;; enqueue_many [upstream_item entry_node_id b backend_node_id now]
      end
end.

(** ** Routes *)

Record RouteCreateIn := {
  rci_name : string;
  rci_node_id : Z;
  rci_entry_node_id : option Z;
  rci_transport_profile_id : Z;
  rci_base_weight : Z;
  rci_effective_weight : option Z;
  rci_health_status : RouteHealthStatus;
}.

(** [base_weight: ge=0, le=100] and [effective_weight: ge=0, le=100]. *)
Definition RouteCreateIn_valid (p : RouteCreateIn) : bool :=
(0 <=? rci_base_weight p) && (rci_base_weight p <=? 100) &&
match rci_effective_weight p with Some w => (0 <=? w) && (w <=? 100) | None => true end.

Definition backend_role_detail : string := "Route backend node must have role=backend".

(** The checks on the entry node of a payload. *)
Definition check_entry_node (entry_node_id : Z) : SM unit :=
entry_node ← get_by_id nodes_tbl entry_node_id;
match entry_node with
| None => raise (HTTPException 404 "Entry node not found")
| Some e => raise_if (negb (is_entry_node e)) (HTTPException 422 entry_role_detail)
end.

(** What [RouteCreateData] and [RouteReactivationUpdate] write. *)
Definition created_route (id : Z) (p : RouteCreateIn) (weight : Z)
  (cooldown stage started : option Z) (created updated : Z) : Route :=
{| route_id := id; route_name := rci_name p; route_node_id := rci_node_id p;
   route_entry_node_id := rci_entry_node_id p;
   route_transport_profile_id := rci_transport_profile_id p;
   health_status := rci_health_status p; base_weight := rci_base_weight p;
   effective_weight := weight; cooldown_until := cooldown; warmup_stage := stage;
   warmup_started_at := started; route_is_active := true; route_created_at := created;
   route_updated_at := updated |}.

Definition create_route (payload : RouteCreateIn) : SM Route :=
node ← get_by_id nodes_tbl (rci_node_id payload);
match node with
| None => raise (HTTPException 404 "Node not found")
| Some n =>
    raise_if (negb (bool_decide (normalized_node_role n = Some role_backend)))
      (HTTPException 422 backend_role_detail) ;;
    match rci_entry_node_id payload with
    | Some e => check_entry_node e
    | None => mret tt
    end ;;
    tp ← get_by_id profiles_tbl (rci_transport_profile_id payload);
    raise_if (match tp with Some t => negb (tp_is_active t) | None => true end)
      (HTTPException 404 "Transport profile not found") ;;
    existing ← get_route_by_name (rci_name payload);
    raise_if (match existing with Some r => route_is_active r | None => false end)
      (HTTPException 409 "Route already exists") ;;
    let effective_weight := default (rci_base_weight payload) (rci_effective_weight payload) in
    raise_if (rci_base_weight payload <? effective_weight)
      (HTTPException 422 "effective_weight must be <= base_weight") ;;
    now ← utcnow;
    '(weight, cooldown, stage, started) ←
      match rci_health_status payload with
      | blocked => mret (0, Some (now + 6 * hour), None, None)
      | warming_up =>
          w ← lift (initial_warmup_weight (rci_base_weight payload));
          mret (w, None, Some 0, Some now)
      | _ => mret (effective_weight, None, None, None)
      end;
    result ← match existing with
             | Some r =>
                 updated ← update_by_id routes_tbl (route_id r) (λ r', created_route (route_id r')
                   payload weight cooldown stage started (route_created_at r') (route_updated_at r'));
                 match updated with
                 | None => raise (HTTPException 500 "Failed to create route")
                 | Some u => mret u
                 end
             | None => create routes_tbl (λ id t, created_route id payload weight cooldown stage
                         started t t)
             end;
    match rci_entry_node_id payload with
    | Some e => sync_entry_upstream e (rci_node_id payload) (Some n)
    | None => mret tt
    end ;;
    mret result
end.

(** A field of [RouteUpdateIn]: [None] when it is not in [model_fields_set]. *)
Record RouteUpdateIn := {
  rui_name : option (option string);
  rui_node_id : option (option Z);
  rui_entry_node_id : option (option Z);
  rui_base_weight : option (option Z);
}.

(** [not payload.model_fields_set]. *)
Definition no_fields (p : RouteUpdateIn) : bool :=
match rui_name p, rui_node_id p, rui_entry_node_id p, rui_base_weight p with
| None, None, None, None => true
| _, _, _, _ => false
end.

Definition RouteUpdateIn_valid (p : RouteUpdateIn) : bool :=
match rui_base_weight p with Some (Some w) => (0 <=? w) && (w <=? 100) | _ => true end.

(** The columns [RouteFieldsUpdate] carries after the checks; a null written to
    a non-null column violates the column. *)
Record RouteFieldsUpdate := {
  rfu_name : option (option string);
  rfu_node_id : option Z;
  rfu_entry_node_id : option (option Z);
  rfu_base_weight : option (option Z);
  rfu_effective_weight : option (option Z);
}.

Definition writes_null (u : RouteFieldsUpdate) : bool :=
match rfu_name u, rfu_base_weight u with Some None, _ | _, Some None => true | _, _ => false end.

Definition apply_fields (u : RouteFieldsUpdate) (now : Z) (r : Route) : Route :=
{| route_id := route_id r;
   route_name := default (route_name r) (default None (rfu_name u));
   route_node_id := default (route_node_id r) (rfu_node_id u);
   route_entry_node_id := default (route_entry_node_id r) (rfu_entry_node_id u);
   route_transport_profile_id := route_transport_profile_id r;
   health_status := health_status r;
   base_weight := default (base_weight r) (default None (rfu_base_weight u));
   effective_weight := default (effective_weight r) (default None (rfu_effective_weight u));
   cooldown_until := cooldown_until r; warmup_stage := warmup_stage r;
   warmup_started_at := warmup_started_at r; route_is_active := route_is_active r;
   route_created_at := route_created_at r; route_updated_at := now |}.

Definition update_route (rid : Z) (payload : RouteUpdateIn) : SM Route :=
found ← get_by_id routes_tbl rid;
match found with
| None => raise (HTTPException 404 "Route not found")
| Some route =>
    raise_if (negb (route_is_active route)) (HTTPException 404 "Route not found") ;;
    if no_fields payload then mret route
    else
        match rui_name payload with
        | Some (Some name) =>
            existing ← get_route_by_name name;
            raise_if (match existing with
                      | Some e => route_is_active e && negb (route_id e =? route_id route)
                      | None => false
                      end) (HTTPException 409 "Route name already exists")
        | _ => mret tt
        end ;;
        backend ← match rui_node_id payload with
                  | None => mret None
                  | Some None => raise (HTTPException 404 "Node not found")
                  | Some (Some nid) =>
                      n ← get_by_id nodes_tbl nid;
                      match n with
                      | None => raise (HTTPException 404 "Node not found")
                      | Some n =>
                          raise_if (negb (bool_decide (normalized_node_role n = Some role_backend)))
                            (HTTPException 422 backend_role_detail) ;;
                          mret (Some n)
                      end
                  end;
        match rui_entry_node_id payload with
        | Some (Some e) => check_entry_node e
        | _ => mret tt
        end ;;
        let update :=
          {| rfu_name := rui_name payload; rfu_node_id := default None (rui_node_id payload);
             rfu_entry_node_id := rui_entry_node_id payload;
             rfu_base_weight := rui_base_weight payload;
             rfu_effective_weight :=
               match rui_base_weight payload with
               | Some w => if effective_weight route =? base_weight route then Some w else None
               | None => None
               end |} in
        now ← utcnow;
        raise_if (writes_null update) (IntegrityError "not null") ;;
        updated ← update_by_id routes_tbl (route_id route) (apply_fields update now);
        match updated with
        | None => raise (HTTPException 500 "Failed to update route")
        | Some u =>
            let resolved_entry := default (route_entry_node_id route) (rui_entry_node_id payload) in
            let resolved_backend := default (route_node_id route) (rfu_node_id update) in
            match resolved_entry with
            | Some e => sync_entry_upstream e resolved_backend backend
            | None => mret tt
            end ;;
            mret u
        end
end.

Definition with_active (b : bool) (r : Route) : Route :=
{| route_id := route_id r; route_name := route_name r; route_node_id := route_node_id r;
   route_entry_node_id := route_entry_node_id r;
   route_transport_profile_id := route_transport_profile_id r;
   health_status := health_status r; base_weight := base_weight r;
   effective_weight := effective_weight r; cooldown_until := cooldown_until r;
   warmup_stage := warmup_stage r; warmup_started_at := warmup_started_at r;
   route_is_active := b; route_created_at := route_created_at r;
   route_updated_at := route_updated_at r |}.

Definition set_route_active (rid : Z) (is_active : bool) : SM Route :=
found ← get_by_id routes_tbl rid;
match found with
| None => raise (HTTPException 404 "Route not found")
| Some route =>
    if eqb (route_is_active route) is_active then mret route
    else
      now ← utcnow;
      updated ← update_by_id routes_tbl rid (λ r, touch_route now (with_active is_active r));
      match updated with
      | None => raise (HTTPException 500 "Failed to update route")
      | Some u => mret u
      end
end.

(** ** Health *)

Record RouteHealthUpdateIn := { rhu_action : RouteHealthAction; rhu_cooldown_hours : Z }.

Definition write_state (rid : Z) (next_state : RouteStateResolution) (now : Z) : SM (option Route) :=
update_by_id routes_tbl rid (λ r, apply_resolution r next_state now).

Definition update_route_health (rid : Z) (payload : RouteHealthUpdateIn) : SM Route :=
found ← get_by_id routes_tbl rid;
match found with
| None => raise (HTTPException 404 "Route not found")
| Some route =>
    raise_if (negb (route_is_active route)) (HTTPException 404 "Route not found") ;;
    now ← utcnow;
    next_state ← match resolve_route_health_action route (rhu_action payload) now
                         (rhu_cooldown_hours payload) DEFAULT_WARMUP_STAGES with
                 | Raise (RouteCooldownActiveError m) => raise (HTTPException 409 m)
                 | Raise e => raise e
                 | Ok x => mret x
                 end;
    updated ← write_state (route_id route) next_state now;
    match updated with
    | None => raise (HTTPException 500 "Failed to update route health")
    | Some u => mret u
    end
end.

Record RouteWarmupTickOut := { processed : Z; advanced_count : Z; finalized_count : Z }.

Definition warmup_step (now : Z) (acc : RouteWarmupTickOut) (route : Route) : SM RouteWarmupTickOut :=
let acc := {| processed := processed acc + 1; advanced_count := advanced_count acc;
              finalized_count := finalized_count acc |} in
next ← lift (resolve_warmup_tick route now DEFAULT_WARMUP_STAGES);
match next with
| None => mret acc
| Some (next_state, tick_result) =>
    updated ← write_state (route_id route) next_state now;
    mret (match updated, tick_result with
          | None, _ => acc
          | Some _, advanced => {| processed := processed acc; advanced_count := advanced_count acc + 1;
                                   finalized_count := finalized_count acc |}
          | Some _, finalized => {| processed := processed acc; advanced_count := advanced_count acc;
                                    finalized_count := finalized_count acc + 1 |}
          end)
end.

Definition advance_warmup : SM RouteWarmupTickOut :=
now ← utcnow;
routes ← list_warming_up;
fold_m (warmup_step now) {| processed := 0; advanced_count := 0; finalized_count := 0 |} routes.

(** [RouteWarmupReconciler.tick]: the session is committed. *)
Definition warmup_tick : SM RouteWarmupTickOut :=
run_committing (out ← advance_warmup; mret (out, true)).

(** ** Listing *)

(** [RouteService._stale_after_sec]. *)
Definition _stale_after_sec : SM Z :=
p ← node_policy; mret (Z.max 30 (stale_after_sec p)).

Definition _route_routing_reason (x : DetailedRoute) (now : Z) : SM (option string) :=
if negb (route_is_active (dr_route x)) then mret (Some "route_inactive")
else if effective_weight (dr_route x) <=? 0 then mret (Some "route_zero_weight")
else if negb (servable_status (health_status (dr_route x))) then mret (Some "route_health_excluded")
else if negb (tp_is_active (dr_profile x)) then mret (Some "transport_inactive")
else if negb (node_is_active (dr_node x)) then mret (Some "node_inactive")
else if negb (is_enabled (dr_node x)) then mret (Some "node_disabled")
else if is_draining (dr_node x) then mret (Some "node_draining")
else if is_virtual (dr_node x) then mret None
else match dr_agent_state x with
     | None => mret (Some "agent_state_missing")
     | Some a =>
         if negb (is_healthy a) then mret (Some "agent_unhealthy")
         else match last_seen_at a with
              | None => mret (Some "heartbeat_missing")
              | Some seen =>
                  stale ← _stale_after_sec;
                  mret (if seen <? now - stale * second then Some "heartbeat_stale" else None)
              end
     end.

(** The columns of the route with its eligibility. *)
Record RouteOut := { ro_route : Route; routing_eligible : bool; routing_reason : option string }.

Definition _build_route_out (now : Z) (x : DetailedRoute) : SM RouteOut :=
reason ← _route_routing_reason x now;
mret {| ro_route := dr_route x; routing_eligible := match reason with None => true | _ => false end;
        routing_reason := reason |}.

Definition list_routes (nid : option Z) (limit : nat) : SM (list RouteOut) :=
rows ← list_active_detailed nid (Some limit);
now ← utcnow;
fold_m (λ acc x, out ← _build_route_out now x; mret (acc ++ [out])) [] rows.

(** ** Following the entry assignments *)

Record AutoCreateOut := { ac_created : Z; ac_deactivated : Z }.

(** The pairs of an entry and a backend with an active and enabled assignment. *)
Definition wanted (d : database) : list (Z * Z) :=
remove_dups (omap (λ e,
  if eba_is_active e && eba_enabled e
  then match nodes d !! eba_entry_node_id e with
       | Some n => Some (node_id n, eba_backend_node_id e)
       | None => None
       end
  else None) (rows (entry_assignments d))).

Definition auto_route (id : Z) (name : string) (backend entry profile now : Z) : Route :=
{| route_id := id; route_name := name; route_node_id := backend;
   route_entry_node_id := Some entry; route_transport_profile_id := profile;
   health_status := healthy; base_weight := 50; effective_weight := 50;
   cooldown_until := None; warmup_stage := None; warmup_started_at := None;
   route_is_active := true; route_created_at := now; route_updated_at := now |}.

(** One wanted pair: whether a route was created for it. *)
Definition ensure_auto_route (profile : Z) (pair : Z * Z) : SM bool :=
let '(entry_id, backend_id) := pair in
route ← get_by_triple backend_id (Some entry_id) profile;
match route with
| Some _ => mret false
| None =>
    backend ← get_by_id nodes_tbl backend_id;
    entry ← get_by_id nodes_tbl entry_id;
    match entry, backend with
    | Some e, Some b =>
        create routes_tbl (λ id now, auto_route id
          (node_name e +:+ arrow +:+ node_name b +:+ middle_dot +:+ "reality")
          backend_id entry_id profile now) ;;
        mret true
    | _, _ => raise (AttributeError "name")
    end
end.

Definition ensure_auto_routes (profile : Z) (want : list (Z * Z)) : SM (list (Z * Z)) :=
fold_m (λ announce pair, new ← ensure_auto_route profile pair;
          mret (if new : bool then announce ++ [pair] else announce)) [] want.

(** The active reality routes whose pair is not wanted. *)
Definition unwanted (profile : Z) (want : list (Z * Z)) (r : Route) : bool :=
route_is_active r && (route_transport_profile_id r =? profile) &&
match route_entry_node_id r with
| Some e => negb (bool_decide ((e, route_node_id r) ∈ want))
| None => false
end.

Definition is_reality (p : TransportProfile) : bool :=
String.eqb (security p) "reality" && String.eqb (network p) "tcp".

Definition auto_create_body : SM (option AutoCreateOut * bool) :=
profiles ← list_active_profiles (Some 10%nat);
match find is_reality profiles with
| None => mret (None, false)
| Some profile =>
    want ← read wanted;
    announce ← ensure_auto_routes (tp_id profile) want;
    now ← utcnow;
    gone ← update_where routes_tbl (unwanted (tp_id profile) want)
             (λ r, touch_route now (with_active false r));
    let out := {| ac_created := Z.of_nat (length announce);
                  ac_deactivated := Z.of_nat (length gone) |} in
    match announce, gone with
    | [], [] => mret (Some out, false)
    | _, _ =>
        for_each (λ p, sync_entry_upstream p.1 p.2 None) announce ;;
        mret (Some out, true)
    end
end.

Definition auto_create_tick : SM (option AutoCreateOut) := run_committing auto_create_body.
End RouteService.
