(* ===== verification/VlessUri.v ===== *)
(** Client configuration links (shared/profiles: transport.py, builder.py, schemas.py,
    constants.py): the percent and base64 encodings, the validators of the profiles and the
    VLESS links, and that a link can be taken apart again. *)

From stdpp Require Import base strings list pretty.
From Stdlib Require Import Ascii.
From S2P Require Import Prelude Decimal Errors BillingModels FleetModels Session Uuid NodeDisplay Tables Routes.
Local Open Scope Z_scope.


(** * Encodings of the standard library *)

Fixpoint concat_map (f : ascii → string) (s : string) : string :=
  match s with
  | EmptyString => EmptyString
  | String c s => f c +:+ concat_map f s
  end.

Definition mem_char (c : ascii) (s : string) : bool := existsb (Ascii.eqb c) (String.list_ascii_of_string s).

(** [urllib.parse.quote]: the bytes that are never quoted. *)
Definition is_alpha (c : ascii) : bool := is_lower c || is_upper c.
Definition is_digit_char (c : ascii) : bool := (48 <=? code c) && (code c <=? 57).
Definition always_safe (c : ascii) : bool := is_alpha c || is_digit_char c || mem_char c "_.-~".

Definition hex_upper (z : Z) : ascii := of_code (if z <? 10 then 48 + z else 55 + z).
Definition quote_char (safe : string) (c : ascii) : string :=
  if always_safe c || mem_char c safe then String c ""
  else String "%" (String (hex_upper (code c / 16)) (String (hex_upper (code c mod 16)) "")).

Definition quote (safe s : string) : string := concat_map (quote_char safe) s.

(** [quote_plus]: spaces become plus signs. *)
Definition quote_plus (safe s : string) : string :=
  concat_map (λ c, if Ascii.eqb c " " then "+" else quote_char safe c) s.

(** [sep.join(l)]. *)
Fixpoint join (sep : string) (l : list string) : string :=
  match l with
  | [] => ""
  | [x] => x
  | x :: l => x +:+ sep +:+ join sep l
  end.

(** [urlencode(query, safe=safe)]. *)
Definition urlencode (safe : string) (query : list (string * string)) : string :=
  join "&" ((λ kv : string * string, quote_plus safe kv.1 +:+ "=" +:+ quote_plus safe kv.2) <$> query).

(** [base64.b64encode]. *)
Definition b64_digit (z : Z) : ascii :=
  of_code (if z <? 26 then 65 + z else if z <? 52 then 71 + z else if z <? 62 then z - 4
           else if z =? 62 then 43 else 47).

Fixpoint b64encode (s : string) : string :=
  match s with
  | EmptyString => EmptyString
  | String a EmptyString =>
      let n := code a * 16 in
      String (b64_digit (n / 64)) (String (b64_digit (n mod 64)) "==")
  | String a (String b EmptyString) =>
      let n := (code a * 256 + code b) * 4 in
      String (b64_digit (n / 4096)) (String (b64_digit (n / 64 mod 64)) (String (b64_digit (n mod 64)) "="))
  | String a (String b (String c s)) =>
      let n := (code a * 256 + code b) * 256 + code c in
      String (b64_digit (n / 262144)) (String (b64_digit (n / 4096 mod 64))
        (String (b64_digit (n / 64 mod 64)) (String (b64_digit (n mod 64)) (b64encode s))))
  end.

(** [len(s)]. *)
Fixpoint char_len (s : string) : Z :=
  match s with
  | EmptyString => 0
  | String c s => (if is_continuation c then 0 else 1) + char_len s
  end.

(** [s.split(sep)] of one character. *)
Fixpoint split_on (sep : ascii) (s : string) : list string :=
  match s with
  | EmptyString => [""]
  | String c s =>
      if Ascii.eqb c sep then "" :: split_on sep s
      else match split_on sep s with
           | [] => [String c ""]
           | w :: ws => String c w :: ws
           end
  end.

(** [s.partition(sep)[0]]. *)
Fixpoint before (sep : ascii) (s : string) : string :=
  match s with
  | EmptyString => EmptyString
  | String c s => if Ascii.eqb c sep then EmptyString else String c (before sep s)
  end.

(** * ipaddress *)

(** [IPv4Address(s)]: four decimal octets without leading zeros. *)
Definition octet_ok (s : string) : bool :=
  nonempty s && forallb is_digit_char (String.list_ascii_of_string s) && (String.length s <=? 3)%nat &&
  (String.eqb s "0" || match s with String "0" _ => false | _ => true end) &&
  (foldl (λ n c, n * 10 + (code c - 48)) 0 (String.list_ascii_of_string s) <=? 255).
Definition is_ipv4 (s : string) : bool :=
  let octets := split_on "." s in (length octets =? 4)%nat && forallb octet_ok octets.

Definition is_hex (c : ascii) : bool :=
  is_digit_char c || ((97 <=? code c) && (code c <=? 102)) || ((65 <=? code c) && (code c <=? 70)).
Definition hextet_ok (s : string) : bool :=
  nonempty s && forallb is_hex (String.list_ascii_of_string s) && (String.length s <=? 4)%nat.

(** The positions of the empty parts strictly inside. *)
Definition inner_empty (parts : list string) : list nat :=
  filter (λ i, parts !! i = Some "" ∧ (0 < i)%nat ∧ (i < length parts - 1)%nat) (seq 0 (length parts)).

Definition hextets_ok (parts : list string) : bool :=
  match inner_empty parts with
  | _ :: _ :: _ => false
  | [skip] =>
      let first_empty := match parts with "" :: _ => true | _ => false end in
      let last_empty := match last parts with Some "" => true | _ => false end in
      let hi := if first_empty then (skip - 1)%nat else skip in
      let lo := if last_empty then (length parts - skip - 2)%nat else (length parts - skip - 1)%nat in
      (negb first_empty || (hi =? 0)%nat) && (negb last_empty || (lo =? 0)%nat) && (hi + lo <? 8)%nat &&
      forallb hextet_ok (take hi parts) && forallb hextet_ok (drop (length parts - lo) parts)
  | [] => (length parts =? 8)%nat && forallb hextet_ok parts
  end.

Definition is_ipv6 (s : string) : bool :=
  negb (mem_char "/" s) &&
  (match split_on "%" s with
   | [_] => true
   | [_; scope] => nonempty scope
   | _ => false
   end) &&
  let parts := split_on ":" (before "%" s) in
  (3 <=? length parts)%nat &&
  let dotted := match last parts with Some p => mem_char "." p | None => false end in
  let parts' := if dotted then removelast parts ++ ["0"; "0"] else parts in
  (negb dotted || match last parts with Some p => is_ipv4 p | None => false end) &&
  (length parts' <=? 9)%nat && hextets_ok parts'.

(** * Profiles *)

(** [Field(min_length=lo, max_length=hi)]. *)
Definition check_len (lo hi : Z) (s : string) : res unit :=
  if (lo <=? char_len s) && (char_len s <=? hi) then Ok tt else Raise (ValidationError "string length").

Record ProfileMetadata := { pm_display_name : string; region_support : list string }.

Definition normalize_region_support (l : list string) : list string :=
  remove_dups (filter (λ r, nonempty r = true) ((λ r, lower (py_strip r)) <$> l)).

Definition mk_ProfileMetadata (display_name : string) (regions : list string) : res ProfileMetadata :=
  let name := py_strip display_name in
  check_len 1 128 name ;;
  if (length (normalize_region_support regions) <=? 64)%nat
  then Ok {| pm_display_name := name; region_support := normalize_region_support regions |}
  else Raise (ValidationError "region_support").

Record WsTlsClientConfig := { ws_path : string; ws_host : string; ws_sni : string }.
Record RealityTcpClientConfig :=
  { rt_sni : string; rt_flow : option string; rt_fingerprint : string; rt_public_key : string; rt_short_id : string;
    spider_x : option string }.
Record XHttpClientConfig :=
  { xh_path : string; xh_host : string; xh_sni : string; xh_mode : string; xh_fingerprint : string; xh_alpn : string;
    xh_extra : list (string * json) }.

Definition normalize_path (v : string) : string :=
  match v with String "/" _ => v | _ => String "/" v end.

Definition mk_WsTlsClientConfig (path host sni : string) : res WsTlsClientConfig :=
  check_len 1 256 path ;; check_len 1 255 host ;; check_len 1 255 sni ;;
  Ok {| ws_path := normalize_path path; ws_host := host; ws_sni := sni |}.

Definition normalize_flow (v : option string) : option string :=
  match v with
  | Some f => if nonempty (py_strip f) then Some f else None
  | None => None
  end.

Definition mk_RealityTcpClientConfig (sni : string) (flow_ : option string) (fingerprint public_key short_id : string)
    : res RealityTcpClientConfig :=
  check_len 1 255 sni ;;
  match normalize_flow flow_ with Some f => check_len 1 64 f | None => Ok tt end ;;
  check_len 1 64 fingerprint ;; check_len 16 128 public_key ;; check_len 1 32 short_id ;;
  Ok {| rt_sni := sni; rt_flow := normalize_flow flow_; rt_fingerprint := fingerprint; rt_public_key := public_key;
        rt_short_id := short_id; spider_x := None |}.

Definition resolve_flow (c : RealityTcpClientConfig) : string := default "xtls-rprx-vision" (rt_flow c).

Definition mk_XHttpClientConfig (path host sni mode alpn : string) (extra : list (string * json)) : res XHttpClientConfig :=
  check_len 1 256 path ;; check_len 1 255 host ;; check_len 1 255 sni ;; check_len 1 32 mode ;; check_len 1 64 alpn ;;
  Ok {| xh_path := normalize_path path; xh_host := host; xh_sni := sni; xh_mode := mode; xh_fingerprint := "chrome";
        xh_alpn := alpn; xh_extra := extra |}.

Inductive Profile :=
| WsTlsProfile (metadata : ProfileMetadata) (client : WsTlsClientConfig)
| RealityTcpProfile (metadata : ProfileMetadata) (client : RealityTcpClientConfig)
| XHttpProfile (metadata : ProfileMetadata) (client : XHttpClientConfig).

Definition profile_metadata (p : Profile) : ProfileMetadata :=
  match p with WsTlsProfile m _ | RealityTcpProfile m _ | XHttpProfile m _ => m end.

Record NodePublic :=
  { np_domain : string; np_port : Z; np_remark : string; np_region : option string; np_description : option string }.

Definition mk_NodePublic (domain : string) (port_ : Z) (remark : string) (region : option string)
    (server_description : option string) : res NodePublic :=
  let domain := py_strip domain in
  let remark := py_strip remark in
  let region := match region with
                | Some r => let r := lower (py_strip r) in if nonempty r then Some r else None
                | None => None
                end in
  check_len 1 255 domain ;;
  (if (1 <=? port_) && (port_ <=? 65535) then Ok tt else Raise (ValidationError "port")) ;;
  check_len 0 128 remark ;;
  match region with Some r => check_len 2 16 r | None => Ok tt end ;;
  match server_description with Some d => check_len 0 30 d | None => Ok tt end ;;
  Ok {| np_domain := domain; np_port := port_; np_remark := remark; np_region := region;
        np_description := server_description |}.

(** constants.py *)
Definition WS_TLS_DEFAULT_PATH : string := "/api/v1/stream".
Definition XHTTP_DEFAULT_PATH : string := "/".
Definition XHTTP_DEFAULT_MODE : string := "packet-up".
Definition XHTTP_DEFAULT_ALPN : string := "h2,http/1.1".
Definition XHTTP_DEFAULT_EXTRA : list (string * json) :=
  [("uplinkHTTPMethod", JStr "GET"); ("xPaddingKey", JStr "_dc"); ("xPaddingHeader", JStr "X-Client-Version");
   ("xPaddingMethod", JStr "tokenish"); ("xPaddingObfsMode", JBool true); ("xPaddingPlacement", JStr "queryInHeader")].

(** * Links *)

Record VlessUri := {
  vu_client_id : string;
  vu_host : string;
  vu_port : Z;
  vu_query : list (string * string);
  vu_remark : string;
  vu_description : option string;
}.

Definition SERVER_DESCRIPTION_MAX_CHARS : nat := 30.

(** The fragment: the remark and the encoded description. *)
Definition fragment (u : VlessUri) : string :=
  let remark_part := if nonempty (vu_remark u) then quote "" (vu_remark u) else "" in
  let description := default "" (vu_description u) in
  if nonempty remark_part || nonempty description then
    let desc := take_chars SERVER_DESCRIPTION_MAX_CHARS description in
    "#" +:+ remark_part +:+ (if nonempty desc then "?serverDescription=" +:+ b64encode desc else "")
  else "".

Definition render (u : VlessUri) : string :=
  "vless://" +:+ vu_client_id u +:+ "@" +:+ vu_host u +:+ ":" +:+ pretty (vu_port u) +:+ "?" +:+
  urlencode "/" (vu_query u) +:+ fragment u.

(** [json.dumps(v, separators=(",", ":"))] of ASCII text without control characters. *)
Definition json_string (s : string) : string :=
  String "034" (concat_map (λ c, if Ascii.eqb c "034" || Ascii.eqb c "\" then String "\" (String c "") else String c "") s) +:+ String "034" "".
Fixpoint dumps (j : json) : string :=
  match j with
  | JNull => "null"
  | JBool b => if b then "true" else "false"
  | JInt z => pretty z
  | JStr s => json_string s
  | JTime _ => ""
  | JList l => "[" +:+ join "," (dumps <$> l) +:+ "]"
  | JObj fields => "{" +:+ join "," ((λ kv : string * json, json_string kv.1 +:+ ":" +:+ dumps kv.2) <$> fields) +:+ "}"
  end.

Definition WsTlsQuery (c : WsTlsClientConfig) : list (string * string) :=
  [("type", "ws"); ("security", "tls"); ("encryption", "none"); ("sni", ws_sni c); ("host", ws_host c); ("path", ws_path c)].

Definition RealityTcpQuery (c : RealityTcpClientConfig) : list (string * string) :=
  [("type", "tcp"); ("security", "reality"); ("encryption", "none"); ("sni", rt_sni c); ("fp", rt_fingerprint c);
   ("pbk", rt_public_key c); ("sid", rt_short_id c); ("flow", resolve_flow c)] ++
  match spider_x c with Some x => if nonempty x then [("spx", x)] else [] | None => [] end.

Definition XHttpQuery (c : XHttpClientConfig) : list (string * string) :=
  [("type", "xhttp"); ("security", "tls"); ("encryption", "none"); ("sni", xh_sni c); ("host", xh_host c);
   ("path", xh_path c); ("mode", xh_mode c); ("fp", xh_fingerprint c); ("alpn", xh_alpn c)] ++
  match xh_extra c with [] => [] | extra => [("extra", dumps (JObj extra))] end.

Definition _format_host (host : string) : string :=
  let bracketed := match host with String "[" _ => true | _ => false end &&
                   match String.get (String.length host - 1) host with Some "]"%char => true | _ => false end in
  if bracketed then host else if is_ipv6 host then "[" +:+ host +:+ "]" else host.

Definition profile_query (p : Profile) : list (string * string) :=
  match p with
  | WsTlsProfile _ c => WsTlsQuery c
  | RealityTcpProfile _ c => RealityTcpQuery c
  | XHttpProfile _ c => XHttpQuery c
  end.

(** [VlessUriBuilder.build]. *)
Definition build (client_id : string) (node : NodePublic) (p : Profile) : res string :=
  let m := profile_metadata p in
  match region_support m, np_region node with
  | _ :: _, Some r =>
      if bool_decide (r ∈ region_support m) then Ok tt else Raise (ProfileRegionMismatchError "region")
  | _, _ => Ok tt
  end ;;
  Ok (render {| vu_client_id := client_id; vu_host := _format_host (np_domain node); vu_port := np_port node;
                vu_query := profile_query p;
                vu_remark := if nonempty (np_remark node) then np_remark node else pm_display_name m;
                vu_description := np_description node |}).

(** Links can be read back: what a client takes apart is what was put in, and links put one per
    line stay apart. *)


(** * Strings *)

Definition lacks (c : ascii) (s : string) : Prop := mem_char c s = false.

Lemma lacks_nil c : lacks c "".
Proof. done. Qed.

Lemma lacks_cons c x s : lacks c (String x s) ↔ c ≠ x ∧ lacks c s.
Proof.
  unfold lacks, mem_char. cbn. rewrite orb_false_iff. destruct (Ascii.eqb_spec c x); naive_solver.
Qed.

Lemma lacks_app c a b : lacks c (a +:+ b) ↔ lacks c a ∧ lacks c b.
Proof.
  induction a as [|x a IH]; [split; [by intros|by intros [_ ?]]|]. change (String x a +:+ b) with (String x (a +:+ b)).
  rewrite !lacks_cons, IH. tauto.
Qed.

Lemma append_nil_l (b : string) : "" +:+ b = b.
Proof. done. Qed.

Lemma append_cons x (a b : string) : String x a +:+ b = String x (a +:+ b).
Proof. done. Qed.

Lemma append_nil_r (a : string) : a +:+ "" = a.
Proof. induction a as [|x a IH]; [done|]. change (String x (a +:+ "") = String x a). by rewrite IH. Qed.

(** [s.partition(c)], when there is a [c]. *)
Fixpoint cut (c : ascii) (s : string) : option (string * string) :=
  match s with
  | EmptyString => None
  | String x s => if Ascii.eqb x c then Some ("", s) else (λ p : string * string, (String x p.1, p.2)) <$> cut c s
  end.

(** [s.rpartition(c)]. *)
Fixpoint cut_last (c : ascii) (s : string) : option (string * string) :=
  match s with
  | EmptyString => None
  | String x s =>
      match cut_last c s with
      | Some p => Some (String x p.1, p.2)
      | None => if Ascii.eqb x c then Some ("", s) else None
      end
  end.

Lemma cut_app c a b : lacks c a → cut c (a +:+ String c b) = Some (a, b).
Proof.
  induction a as [|x a IH]; intros Ha; rewrite ?append_nil_l, ?append_cons; cbn [cut].
  - by rewrite Ascii.eqb_refl.
  - apply lacks_cons in Ha as [Hne Ha]. destruct (Ascii.eqb_spec x c); [congruence|]. by rewrite IH.
Qed.

Lemma cut_past c a b : lacks c a → cut c (a +:+ b) = (λ p : string * string, (a +:+ p.1, p.2)) <$> cut c b.
Proof.
  induction a as [|x a IH]; intros Ha; [rewrite append_nil_l; by destruct (cut c b) as [[]|]|].
  apply lacks_cons in Ha as [Hne Ha]. rewrite append_cons. cbn [cut]. destruct (Ascii.eqb_spec x c); [congruence|].
  rewrite IH by done. by destruct (cut c b) as [[]|].
Qed.

Lemma cut_none c s : lacks c s → cut c s = None.
Proof.
  induction s as [|x s IH]; intros Hs; cbn [cut]; [done|]. apply lacks_cons in Hs as [Hne Hs].
  destruct (Ascii.eqb_spec x c); [congruence|]. by rewrite IH.
Qed.

Lemma cut_last_none c s : lacks c s → cut_last c s = None.
Proof.
  induction s as [|x s IH]; intros Hs; cbn [cut_last]; [done|]. apply lacks_cons in Hs as [Hne Hs]. rewrite IH by done.
  destruct (Ascii.eqb_spec x c); congruence.
Qed.

Lemma cut_last_app c a b : lacks c b → cut_last c (a +:+ String c b) = Some (a, b).
Proof.
  intros Hb. induction a as [|x a IH]; rewrite ?append_nil_l, ?append_cons; cbn [cut_last]; [by rewrite cut_last_none, Ascii.eqb_refl|]. by rewrite IH.
Qed.

Lemma split_on_lacks c s : lacks c s → split_on c s = [s].
Proof.
  induction s as [|x s IH]; intros Hs; cbn [split_on]; [done|]. apply lacks_cons in Hs as [Hne Hs].
  destruct (Ascii.eqb_spec x c); [congruence|]. by rewrite IH.
Qed.

Lemma split_on_app c a b : lacks c a → split_on c (a +:+ String c b) = a :: split_on c b.
Proof.
  induction a as [|x a IH]; intros Ha; rewrite ?append_nil_l, ?append_cons; cbn [split_on]; [by rewrite Ascii.eqb_refl|]. apply lacks_cons in Ha as [Hne Ha].
  destruct (Ascii.eqb_spec x c); [congruence|]. by rewrite IH.
Qed.

(** Parts joined by a character they lack can be split again. *)
Lemma split_join c l : l ≠ [] → Forall (lacks c) l → split_on c (join (String c "") l) = l.
Proof.
  induction l as [|x l IH]; intros Hne Hl; [done|]. apply Forall_cons in Hl as [Hx Hl]. destruct l as [|y l]; [by apply split_on_lacks|].
  change (join (String c "") (x :: y :: l)) with (x +:+ String c (join (String c "") (y :: l))).
  rewrite split_on_app by done. by rewrite IH.
Qed.

Lemma lacks_join c sep l : lacks c sep → Forall (lacks c) l → lacks c (join sep l).
Proof.
  intros Hs Hl. induction Hl as [|x l Hx Hl IH]; [done|]. destruct l as [|y l]; [done|].
  change (join sep (x :: y :: l)) with (x +:+ sep +:+ join sep (y :: l)). rewrite !lacks_app. done.
Qed.

(** * Quoting *)

Definition unhex (c : ascii) : Z := if code c <? 58 then code c - 48 else code c - 55.

(** [urllib.parse.unquote], and [unquote_plus]. *)
Fixpoint unquote (plus : bool) (s : string) : string :=
  match s with
  | String "%" (String h (String l s)) => String (of_code (unhex h * 16 + unhex l)) (unquote plus s)
  | String c s => String (if plus && Ascii.eqb c "+" then " "%char else c) (unquote plus s)
  | EmptyString => EmptyString
  end.

(** The characters a quoted text may have. *)
Definition quoted_char (c : ascii) : bool := always_safe c || mem_char c "/%+".

Definition all_ascii (P : ascii → bool) : bool := forallb (λ n, P (ascii_of_nat n)) (seq 0 256).

Lemma all_ascii_spec P : all_ascii P = true → ∀ c, P c = true.
Proof.
  intros H c. unfold all_ascii in H. rewrite forallb_forall in H. specialize (H (nat_of_ascii c)).
  rewrite ascii_nat_embedding in H. apply H, in_seq. pose proof (nat_ascii_bounded c). lia.
Qed.

Definition plus_char (safe : string) (c : ascii) : string := if Ascii.eqb c " " then "+" else quote_char safe c.

Definition made_of (P : ascii → bool) (s : string) : Prop := ∀ c, mem_char c s = true → P c = true.

Lemma made_of_lacks P c s : made_of P s → P c = false → lacks c s.
Proof. intros H Hc. unfold lacks. destruct (mem_char c s) eqn:E; [|done]. apply H in E. congruence. Qed.

Lemma made_of_app P a b : made_of P a → made_of P b → made_of P (a +:+ b).
Proof.
  intros Ha Hb c Hc. destruct (mem_char c a) eqn:E; [by apply Ha|]. apply Hb. destruct (mem_char c b) eqn:E2; [done|].
  assert (lacks c (a +:+ b)) as H by (by apply lacks_app). unfold lacks in H. congruence.
Qed.

Lemma made_of_concat P f s : (∀ c, made_of P (f c)) → made_of P (concat_map f s).
Proof. intros H. induction s as [|c s IH]; [done|]. cbn [concat_map]. by apply made_of_app. Qed.

Lemma made_of_decided P s : forallb P (String.list_ascii_of_string s) = true → made_of P s.
Proof.
  rewrite forallb_forall. intros H c Hc. unfold mem_char in Hc. apply existsb_exists in Hc as (x & Hx & E%Ascii.eqb_eq). subst x. by apply H.
Qed.

Lemma plus_char_chars c : made_of quoted_char (plus_char "/" c) ∧ made_of quoted_char (quote_char "/" c) ∧ made_of quoted_char (quote_char "" c).
Proof.
  assert (H : ∀ f, all_ascii (λ c, forallb quoted_char (String.list_ascii_of_string (f c))) = true → made_of quoted_char (f c)).
  { intros f Hf. apply made_of_decided. exact (all_ascii_spec (λ c, forallb quoted_char (String.list_ascii_of_string (f c))) Hf c). }
  split_and!; apply H; vm_compute; reflexivity.
Qed.

Lemma quote_chars s : made_of quoted_char (quote "" s) ∧ made_of quoted_char (quote_plus "/" s).
Proof. split; apply made_of_concat; intros c; apply plus_char_chars. Qed.

(** What is quoted is read back. *)
Lemma unquote_char c s :
  unquote false (quote_char "" c +:+ s) = String c (unquote false s) ∧
  unquote true (plus_char "/" c +:+ s) = String c (unquote true s).
Proof. destruct c as [[] [] [] [] [] [] [] []]; split; reflexivity. Qed.

Lemma unquote_quote s : unquote false (quote "" s) = s ∧ unquote true (quote_plus "/" s) = s.
Proof.
  induction s as [|c s [IH1 IH2]]; [done|]. split.
  - change (quote "" (String c s)) with (quote_char "" c +:+ quote "" s). rewrite (proj1 (unquote_char c _)). by rewrite IH1.
  - change (quote_plus "/" (String c s)) with (plus_char "/" c +:+ quote_plus "/" s). rewrite (proj2 (unquote_char c _)). by rewrite IH2.
Qed.

(** * Links *)

(** The number of the port in digits. *)
Lemma pretty_digits z : 0 ≤ z → made_of is_digit_char (pretty z).
Proof.
  intros Hz. assert (Hgo : ∀ x s, made_of is_digit_char s → made_of is_digit_char (pretty_N_go x s)).
  { intros x. induction (N.lt_wf_0 x) as [x _ IH]. intros s Hs. destruct (decide (0 < x)%N) as [Hx|Hx].
    - rewrite pretty_N_go_step by done. apply IH; [apply N.div_lt; lia|]. intros c Hc.
      unfold mem_char in Hc. cbn in Hc. apply orb_true_iff in Hc as [E%Ascii.eqb_eq|Hc]; [|by apply Hs].
      subst c. unfold pretty_N_char. assert (Hb : (x `mod` 10 < 10)%N) by (by apply N.mod_lt).
      destruct (x `mod` 10)%N as [|[p|p|]]; try done; destruct p as [p|p|]; try done; try (destruct p as [p|p|]; try done); try lia;
      destruct p; try done; lia.
    - assert (x = 0%N) as -> by lia. by rewrite pretty_N_go_0. }
  destruct z as [|p|p]; [|exact (Hgo (N.pos p) "" (λ _ H, ltac:(discriminate)))|lia].
  apply made_of_decided. reflexivity.
Qed.

(** What a client reads of a link; the port as text, the description as it is encoded. *)
Record LinkParts := {
  lp_client_id : string;
  lp_host : string;
  lp_port : string;
  lp_query : list (string * string);
  lp_remark : string;
  lp_description : option string;
}.

(** ** Decoding base64 *)

(** The six bits of a letter. *)
Definition b64_value (c : ascii) : option Z :=
  let z := code c in
  if (65 <=? z) && (z <=? 90) then Some (z - 65)
  else if (97 <=? z) && (z <=? 122) then Some (z - 71)
  else if (48 <=? z) && (z <=? 57) then Some (z + 4)
  else if z =? 43 then Some 62
  else if z =? 47 then Some 63
  else None.

(** Groups of four letters, the last one padded. *)
Fixpoint b64decode (s : string) : option string :=
  match s with
  | EmptyString => Some EmptyString
  | String a (String b (String c (String d s))) =>
      x ← b64_value a;
      y ← b64_value b;
      match b64_value c, b64_value d with
      | Some z, Some w =>
          rest ← b64decode s;
          let n := ((x * 64 + y) * 64 + z) * 64 + w in
          Some (String (of_code (n / 65536)) (String (of_code (n / 256 mod 256)) (String (of_code (n mod 256)) rest)))
      | Some z, None =>
          let n := (x * 64 + y) * 64 + z in
          if String.eqb (String d s) "=" then Some (String (of_code (n / 1024)) (String (of_code (n / 4 mod 256)) "")) else None
      | None, _ =>
          if String.eqb (String c (String d s)) "==" then Some (String (of_code ((x * 64 + y) / 16)) "") else None
      end
  | _ => None
  end.

Lemma b64_value_digit z : 0 ≤ z < 64 → b64_value (b64_digit z) = Some z.
Proof.
  intros Hz. assert (H : forallb (λ z, bool_decide (b64_value (b64_digit z) = Some z)) (seqZ 0 64) = true) by (vm_compute; reflexivity).
  rewrite forallb_forall in H. specialize (H z). rewrite bool_decide_eq_true in H. apply H, list_elem_of_In, elem_of_seqZ. lia.
Qed.

Lemma code_bound c : 0 ≤ code c < 256.
Proof. unfold code. pose proof (nat_ascii_bounded c). lia. Qed.

Lemma of_code_is c z : z = code c → of_code z = c.
Proof. intros ->. unfold of_code, code. rewrite Nat2Z.id. apply ascii_nat_embedding. Qed.

Ltac digit_bounds := Z.to_euclidean_division_equations; lia.

(** What was encoded is read back. *)
Lemma b64_roundtrip s : b64decode (b64encode s) = Some s.
Proof.
  enough (H : ∀ n s, (String.length s ≤ n)%nat → b64decode (b64encode s) = Some s) by eauto.
  clear s. induction n as [|n IH]; intros s Hn; [by destruct s; [|cbn in Hn; lia]|].
  destruct s as [|a [|b [|c s]]]; [done| | |]; pose proof (code_bound a); cbn [b64encode].
  - cbn [b64decode]. rewrite !b64_value_digit by digit_bounds. cbn [mbind option_bind].
    change (b64_value "=") with (@None Z). cbv iota. cbn [String.eqb]. rewrite !Ascii.eqb_refl.
    repeat f_equal. apply of_code_is. digit_bounds.
  - pose proof (code_bound b). cbn [b64decode]. rewrite !b64_value_digit by digit_bounds. cbn [mbind option_bind].
    change (b64_value "=") with (@None Z). cbv iota. cbn [String.eqb]. rewrite !Ascii.eqb_refl.
    repeat f_equal; apply of_code_is; digit_bounds.
  - pose proof (code_bound b). pose proof (code_bound c). cbn [b64decode]. rewrite !b64_value_digit by digit_bounds.
    cbn [mbind option_bind]. rewrite IH by (cbn in Hn; lia). cbn [mbind option_bind].
    repeat f_equal; apply of_code_is; digit_bounds.
Qed.

(** ** The first characters *)

(** [p] is the first [n] characters of [s], all if there are fewer: [s] goes on after [p] at
    the start of a character, and only when [p] has [n]. *)
Definition first_chars (n : nat) (s p : string) : Prop :=
  ∃ tail, s = p +:+ tail ∧ char_len p ≤ Z.of_nat n ∧
    match tail with
    | EmptyString => True
    | String c _ => is_continuation c = false ∧ char_len p = Z.of_nat n
    end.

Lemma take_chars_first s : ∀ n, first_chars n s (take_chars n s).
Proof.
  induction s as [|c s IH]; intros n; cbn [take_chars].
  { exists "". split_and!; [done|cbn; lia|done]. }
  destruct (is_continuation c) eqn:Ec; [|destruct n as [|n]].
  - destruct (IH n) as (tail & E & Hle & Ht). exists tail. split; [by rewrite E at 1|]. cbn [char_len]. rewrite Ec.
    split; [lia|]. destruct tail; [done|]. by rewrite Z.add_0_l.
  - exists (String c s). split_and!; [done|cbn; lia|done..].
  - destruct (IH n) as (tail & E & Hle & Ht). exists tail. split; [by rewrite E at 1|]. cbn [char_len]. rewrite Ec.
    split; [lia|]. destruct tail; [done|]. destruct Ht. split; [done|lia].
Qed.

Definition read_pair (s : string) : option (string * string) :=
  (λ p : string * string, (unquote true p.1, unquote true p.2)) <$> cut "=" s.

(** The description is base64 text. *)
Definition read_description (s : string) : option string :=
  p ← cut "=" s;
  if String.eqb p.1 "serverDescription" then b64decode p.2 else None.

Definition read_fragment (s : string) : string * option string :=
  match cut "?" s with
  | Some (remark, rest) => (unquote false remark, read_description rest)
  | None => (unquote false s, None)
  end.

Fixpoint strip_prefix (p s : string) : option string :=
  match p, s with
  | EmptyString, s => Some s
  | String a p, String b s => if Ascii.eqb a b then strip_prefix p s else None
  | _, _ => None
  end.

Definition read_link (s : string) : option LinkParts :=
  rest ← strip_prefix "vless://" s;
  '(client, rest) ← cut "@" rest;
  '(authority, rest) ← cut "?" rest;
  '(host, port_) ← cut_last ":" authority;
  let '(query, frag) := match cut "#" rest with Some (q, f) => (q, read_fragment f) | None => (rest, ("", None)) end in
  pairs ← mapM read_pair (split_on "&" query);
  Some {| lp_client_id := client; lp_host := host; lp_port := port_; lp_query := pairs; lp_remark := frag.1;
          lp_description := frag.2 |}.

Definition pair_text (kv : string * string) : string := quote_plus "/" kv.1 +:+ "=" +:+ quote_plus "/" kv.2.

Lemma quoted_lacks s c : quoted_char c = false → lacks c (quote "" s) ∧ lacks c (quote_plus "/" s).
Proof. intros Hc. split; apply (made_of_lacks quoted_char); [apply quote_chars|done|apply quote_chars|done]. Qed.

Lemma pair_text_lacks c kv : quoted_char c = false → c ≠ "="%char → lacks c (pair_text kv).
Proof.
  intros Hc Hne. unfold pair_text. rewrite !lacks_app. split_and!; [by apply quoted_lacks| |by apply quoted_lacks].
  by apply lacks_cons.
Qed.

Lemma read_pair_text kv : read_pair (pair_text kv) = Some kv.
Proof.
  unfold read_pair, pair_text. change ("=" +:+ quote_plus "/" kv.2) with (String "=" (quote_plus "/" kv.2)).
  rewrite cut_app by (by apply quoted_lacks). cbn. rewrite !(proj2 (unquote_quote _)). by destruct kv.
Qed.

Lemma read_query (q : list (string * string)) :
  q ≠ [] → mapM read_pair (split_on "&" (urlencode "/" q)) = Some q ∧ lacks "#" (urlencode "/" q).
Proof.
  intros Hq. unfold urlencode. change (λ kv : string * string, _) with pair_text. split.
  - rewrite split_join; [|by destruct q|].
    + clear Hq. induction q as [|kv q IH]; [done|]. rewrite fmap_cons. cbn [mapM]. by rewrite read_pair_text, IH.
    + apply Forall_fmap, Forall_true. intros kv. by apply pair_text_lacks.
  - apply lacks_join; [done|]. apply Forall_fmap, Forall_true. intros kv. by apply pair_text_lacks.
Qed.

(** A text that is there. *)
Definition if_any (s : string) : option string := if nonempty s then Some s else None.

Lemma quote_empty s : nonempty s = false → quote "" s = "".
Proof. unfold nonempty. rewrite negb_false_iff. by intros ->%String.eqb_eq. Qed.

Lemma take_chars_nonempty n s : nonempty (take_chars n s) = true → nonempty s = true.
Proof. by destruct s. Qed.

Lemma read_fragment_text u :
  match cut "#" (fragment u) with
  | Some (q, f) => q = "" ∧ read_fragment f = (vu_remark u, if_any (take_chars SERVER_DESCRIPTION_MAX_CHARS (default "" (vu_description u))))
  | None => fragment u = "" ∧ vu_remark u = "" ∧ if_any (take_chars SERVER_DESCRIPTION_MAX_CHARS (default "" (vu_description u))) = None
  end.
Proof.
  unfold fragment, if_any. set (desc := take_chars _ _). set (d := default "" (vu_description u)).
  assert (Hq : (if nonempty (vu_remark u) then quote "" (vu_remark u) else "") = quote "" (vu_remark u)).
  { destruct (nonempty (vu_remark u)) eqn:E; [done|]. by rewrite quote_empty. }
  rewrite Hq. destruct (nonempty (quote "" (vu_remark u)) || nonempty d) eqn:E.
  - match goal with |- context [cut "#" ("#" +:+ ?x)] => change (cut "#" ("#" +:+ x)) with (Some ("", x)) end. split; [done|].
    unfold read_fragment. destruct (nonempty desc) eqn:Ed.
    + change ("?serverDescription=" +:+ b64encode desc) with (String "?" ("serverDescription=" +:+ b64encode desc)).
      rewrite cut_app by (by apply quoted_lacks). rewrite (proj1 (unquote_quote _)). f_equal. unfold read_description.
      change ("serverDescription=" +:+ b64encode desc) with ("serverDescription" +:+ String "=" (b64encode desc)).
      rewrite cut_app by done. cbn [mbind option_bind fst snd]. by rewrite String.eqb_refl, b64_roundtrip.
    + rewrite append_nil_r, cut_none by (by apply quoted_lacks). by rewrite (proj1 (unquote_quote _)).
  - apply orb_false_iff in E as [E1 E2]. cbn. split_and!; [done| |].
    + unfold nonempty in E1. apply negb_false_iff, String.eqb_eq in E1. rewrite <-(proj1 (unquote_quote (vu_remark u))), E1. done.
    + destruct (nonempty desc) eqn:Ed; [|done]. apply take_chars_nonempty in Ed. fold d in Ed. congruence.
Qed.

(** C40: a rendered link can be taken apart again: reading it as a client does (percent
    decoding the query and the remark, base64 decoding the description) gives back the client
    id, the host, the port, every pair of the query in order, the remark, and of the
    description its first thirty characters, for any texts in query, remark and description,
    provided the client id has no at sign, the host no question mark, the port is not
    negative and the query not empty. *)
Theorem link_roundtrip u :
  lacks "@" (vu_client_id u) → lacks "?" (vu_host u) → 0 ≤ vu_port u → vu_query u ≠ [] →
  ∃ desc, first_chars 30 (default "" (vu_description u)) desc ∧
    read_link (render u) =
    Some {| lp_client_id := vu_client_id u; lp_host := vu_host u; lp_port := pretty (vu_port u); lp_query := vu_query u;
            lp_remark := vu_remark u; lp_description := if_any desc |}.
Proof.
  intros Hc Hh Hp Hq. exists (take_chars SERVER_DESCRIPTION_MAX_CHARS (default "" (vu_description u))).
  split; [exact (take_chars_first _ 30)|]. destruct (read_query (vu_query u) Hq) as [Hpairs Hhash].
  pose proof (pretty_digits (vu_port u) Hp) as Hport. unfold read_link, render.
  change (strip_prefix "vless://" ("vless://" +:+ ?x)) with (Some x).
  set (q := urlencode "/" (vu_query u)) in *. set (rest := q +:+ fragment u).
  change (vu_client_id u +:+ "@" +:+ ?x) with (vu_client_id u +:+ String "@" x).
  cbn [mbind option_bind strip_prefix]. rewrite cut_app by done. cbn [mbind option_bind].
  assert (vu_host u +:+ ":" +:+ pretty (vu_port u) +:+ "?" +:+ rest = (vu_host u +:+ String ":" (pretty (vu_port u))) +:+ String "?" rest) as ->
    by (by rewrite append_assoc).
  rewrite cut_app. 2:{ rewrite lacks_app, lacks_cons. split_and!; [done|done|]. by apply (made_of_lacks is_digit_char). }
  cbn [mbind option_bind]. rewrite cut_last_app by (by apply (made_of_lacks is_digit_char)). cbn [mbind option_bind].
  unfold rest. rewrite cut_past by done. pose proof (read_fragment_text u) as Hf.
  destruct (cut "#" (fragment u)) as [[x f]|]; cbn [fmap option_fmap option_map fst snd].
  - destruct Hf as [-> Hf]. rewrite append_nil_r, Hpairs, Hf. done.
  - destruct Hf as (-> & -> & ->). rewrite append_nil_r, Hpairs. done.
Qed.

(** ** Lines *)

Definition b64_char (c : ascii) : bool := is_alpha c || is_digit_char c || mem_char c "+/=".

Lemma b64_digit_char z : 0 ≤ z → b64_char (b64_digit z) = true.
Proof.
  intros Hz. destruct (decide (z < 64)) as [Hlt|Hge].
  - assert (H : forallb (λ z, b64_char (b64_digit z)) (seqZ 0 64) = true) by (vm_compute; reflexivity).
    rewrite forallb_forall in H. apply H, list_elem_of_In, elem_of_seqZ. lia.
  - unfold b64_digit. rewrite !(proj2 (Z.ltb_ge z _)) by lia. by rewrite (proj2 (Z.eqb_neq z 62)) by lia.
Qed.

Lemma made_of_cons P c s : P c = true → made_of P s → made_of P (String c s).
Proof.
  intros Hc Hs x Hx. unfold mem_char in Hx. cbn in Hx. apply orb_true_iff in Hx as [E%Ascii.eqb_eq|Hx]; [by subst|by apply Hs].
Qed.

Lemma b64encode_chars n : ∀ s, (String.length s ≤ n)%nat → made_of b64_char (b64encode s).
Proof.
  induction n as [|n IH]; intros s Hn; [by destruct s; [|cbn in Hn; lia]|].
  destruct s as [|a [|b [|c s]]]; [done| | |]; cbn [b64encode];
    pose proof (code_bound a); try pose proof (code_bound b); try pose proof (code_bound c);
    repeat (apply made_of_cons; [apply b64_digit_char; try apply Z.mod_pos_bound; try apply Z.div_pos; lia|]).
  - by apply made_of_decided.
  - by apply made_of_decided.
  - apply IH. cbn in Hn. lia.
Qed.

Definition line_feed : ascii := of_code 10.

Lemma render_one_line u :
  lacks line_feed (vu_client_id u) → lacks line_feed (vu_host u) → 0 ≤ vu_port u → lacks line_feed (render u).
Proof.
  intros Hc Hh Hp. unfold render. rewrite !lacks_app. split_and!; try done.
  - apply (made_of_lacks is_digit_char); [by apply pretty_digits|done].
  - unfold urlencode. apply lacks_join; [done|]. apply Forall_fmap, Forall_true. intros kv. by apply (pair_text_lacks line_feed kv).
  - unfold fragment. destruct (_ || _); [|done]. rewrite !lacks_app. split_and!; [done| |].
    + destruct (nonempty (vu_remark u)); [by apply quoted_lacks|done].
    + destruct (nonempty _); [|done]. rewrite lacks_app. split; [done|]. eapply made_of_lacks; [by eapply b64encode_chars|done].
Qed.
