(* ===== verification/NodeNames.v ===== *)
(** What clients read of a node: flags, countries and the names of routes
    (services/nodes/naming, shared/utils/node_display.py), and the zones an administrator
    keeps (services/zones). *)

From stdpp Require Import base gmap strings list sorting.
From Stdlib Require Import Ascii.
From S2P Require Import Prelude Errors BillingModels FleetModels Session NodeDisplay Tables FleetTables Routing Placements Routes VlessUri.
Local Open Scope Z_scope.

(** * The catalogue of cities *)

Inductive GeoZone :=
  EU_CENTRAL | EU_WEST | EU_NORTH | EU_SOUTH | EU_EAST | NA_EAST | NA_WEST | AP_EAST | AP_SOUTH | ME | OC | UNKNOWN.

Definition HIGH_LEVEL_ZONE_EUROPE : string := "europe".
Definition HIGH_LEVEL_ZONE_AMERICAS : string := "americas".
Definition HIGH_LEVEL_ZONE_ASIA : string := "asia".
Definition HIGH_LEVEL_ZONE_OCEANIA : string := "oceania".

Record CityInfo := city {
  iata : string;
  city_name : string;
  country : string;
  country_name : string;
  city_zone : GeoZone;
  high_level_zone : string;
}.

Definition CITIES : list CityInfo :=
  [city "fra" "Frankfurt" "DE" "Germany" EU_CENTRAL HIGH_LEVEL_ZONE_EUROPE; city "ber" "Berlin" "DE" "Germany"
  EU_CENTRAL HIGH_LEVEL_ZONE_EUROPE; city "muc" "Munich" "DE" "Germany" EU_CENTRAL HIGH_LEVEL_ZONE_EUROPE;
  city "waw" "Warsaw" "PL" "Poland" EU_CENTRAL HIGH_LEVEL_ZONE_EUROPE; city "prg" "Prague" "CZ" "Czechia"
  EU_CENTRAL HIGH_LEVEL_ZONE_EUROPE; city "vie" "Vienna" "AT" "Austria" EU_CENTRAL HIGH_LEVEL_ZONE_EUROPE;
  city "zrh" "Zurich" "CH" "Switzerland" EU_CENTRAL HIGH_LEVEL_ZONE_EUROPE; city "par" "Paris" "FR" "France"
  EU_WEST HIGH_LEVEL_ZONE_EUROPE; city "ams" "Amsterdam" "NL" "Netherlands" EU_WEST HIGH_LEVEL_ZONE_EUROPE;
  city "lon" "London" "GB" "United Kingdom" EU_WEST HIGH_LEVEL_ZONE_EUROPE; city "dub" "Dublin" "IE" "Ireland"
  EU_WEST HIGH_LEVEL_ZONE_EUROPE; city "hel" "Helsinki" "FI" "Finland" EU_NORTH HIGH_LEVEL_ZONE_EUROPE; city
  "sto" "Stockholm" "SE" "Sweden" EU_NORTH HIGH_LEVEL_ZONE_EUROPE; city "osl" "Oslo" "NO" "Norway" EU_NORTH
  HIGH_LEVEL_ZONE_EUROPE; city "cph" "Copenhagen" "DK" "Denmark" EU_NORTH HIGH_LEVEL_ZONE_EUROPE; city "rix"
  "Riga" "LV" "Latvia" EU_NORTH HIGH_LEVEL_ZONE_EUROPE; city "tll" "Tallinn" "EE" "Estonia" EU_NORTH
  HIGH_LEVEL_ZONE_EUROPE; city "vno" "Vilnius" "LT" "Lithuania" EU_NORTH HIGH_LEVEL_ZONE_EUROPE; city "mad"
  "Madrid" "ES" "Spain" EU_SOUTH HIGH_LEVEL_ZONE_EUROPE; city "rom" "Rome" "IT" "Italy" EU_SOUTH
  HIGH_LEVEL_ZONE_EUROPE; city "mil" "Milan" "IT" "Italy" EU_SOUTH HIGH_LEVEL_ZONE_EUROPE; city "lis" "Lisbon"
  "PT" "Portugal" EU_SOUTH HIGH_LEVEL_ZONE_EUROPE; city "mow" "Moscow" "RU" "Russia" EU_EAST
  HIGH_LEVEL_ZONE_EUROPE; city "spb" "Saint Petersburg" "RU" "Russia" EU_EAST HIGH_LEVEL_ZONE_EUROPE; city
  "kiv" "Kyiv" "UA" "Ukraine" EU_EAST HIGH_LEVEL_ZONE_EUROPE; city "ist" "Istanbul" "TR" "Turkey" EU_EAST
  HIGH_LEVEL_ZONE_EUROPE; city "nyc" "New York" "US" "United States" NA_EAST HIGH_LEVEL_ZONE_AMERICAS; city
  "mia" "Miami" "US" "United States" NA_EAST HIGH_LEVEL_ZONE_AMERICAS; city "chi" "Chicago" "US" "United
  States" NA_EAST HIGH_LEVEL_ZONE_AMERICAS; city "lax" "Los Angeles" "US" "United States" NA_WEST
  HIGH_LEVEL_ZONE_AMERICAS; city "sfo" "San Francisco" "US" "United States" NA_WEST HIGH_LEVEL_ZONE_AMERICAS;
  city "sea" "Seattle" "US" "United States" NA_WEST HIGH_LEVEL_ZONE_AMERICAS; city "tor" "Toronto" "CA"
  "Canada" NA_EAST HIGH_LEVEL_ZONE_AMERICAS; city "sgp" "Singapore" "SG" "Singapore" AP_EAST
  HIGH_LEVEL_ZONE_ASIA; city "tok" "Tokyo" "JP" "Japan" AP_EAST HIGH_LEVEL_ZONE_ASIA; city "hkg" "Hong Kong"
  "HK" "Hong Kong" AP_EAST HIGH_LEVEL_ZONE_ASIA; city "sel" "Seoul" "KR" "South Korea" AP_EAST
  HIGH_LEVEL_ZONE_ASIA; city "bom" "Mumbai" "IN" "India" AP_SOUTH HIGH_LEVEL_ZONE_ASIA; city "dxb" "Dubai"
  "AE" "United Arab Emirates" ME HIGH_LEVEL_ZONE_ASIA; city "tlv" "Tel Aviv" "IL" "Israel" ME
  HIGH_LEVEL_ZONE_ASIA; city "syd" "Sydney" "AU" "Australia" OC HIGH_LEVEL_ZONE_OCEANIA].

(** * NamingRegistry *)

Definition SHORT_TO_ROLE : list (string * string) :=
  [("entry", "entry"); ("whitelist", "whitelist_entry"); ("backend", "backend")].

Record ParsedNodeName := { pn_city : CityInfo; pn_role : string; pn_index : Z }.

Definition city_by_iata (i : string) : option CityInfo :=
  if nonempty i then table_get ((λ c, (iata c, c)) <$> CITIES) (lower (py_strip i)) else None.

Definition all_chars (P : ascii → bool) (s : string) : bool := forallb P (String.list_ascii_of_string s).

(** [NAME_RE = ^([a-z]{3})-([a-z]{1,10})-(\d{2,3})$]. *)
Definition NAME_RE (s : string) : option (string * string * string) :=
  match split_on "-" s with
  | [a; r; i] =>
      if all_chars is_lower a && (String.length a =? 3)%nat && all_chars is_lower r && (1 <=? String.length r)%nat &&
         (String.length r <=? 10)%nat && all_chars is_digit_char i && (2 <=? String.length i)%nat && (String.length i <=? 3)%nat
      then Some (a, r, i) else None
  | _ => None
  end.

Definition parse_node_name (name : string) : option ParsedNodeName :=
  '(a, r, i) ← NAME_RE (lower (py_strip name));
  c ← city_by_iata a;
  role ← table_get SHORT_TO_ROLE r;
  Some {| pn_city := c; pn_role := role;
          pn_index := foldl (λ n c, n * 10 + (code c - 48)) 0 (String.list_ascii_of_string i) |}.

Definition UNKNOWN_FLAG : string := "🌐".

(** [chr(0x1F1E6 + ord(c) - ord("A"))] in UTF-8. *)
Definition indicator (c : ascii) : string :=
  String (of_code 240) (String (of_code 159) (String (of_code 135) (String (of_code (166 + (code c - 65))) ""))).

(** [len(code) == 2 and code.isalpha()], for ASCII. *)
Definition two_letters (s : string) : bool := (String.length s =? 2)%nat && all_chars is_alpha s.

Definition flag_of (s : string) : string :=
  concat_map indicator (upper s).

Definition flag_emoji (country_code : string) : string :=
  if two_letters country_code then flag_of country_code else UNKNOWN_FLAG.

Definition happ_display_for_name (name : string) : option string :=
  (λ p, flag_emoji (country (pn_city p)) +:+ " " +:+ country_name (pn_city p)) <$> parse_node_name name.

(** * shared/utils/node_display.py *)

Definition COUNTRY_CODE_TO_NAME : list (string * string) :=
  [("FI","Finland"); ("DE","Germany"); ("NL","Netherlands"); ("PL","Poland"); ("GB","United Kingdom");
  ("FR","France"); ("ES","Spain"); ("IT","Italy"); ("SE","Sweden"); ("NO","Norway"); ("DK","Denmark");
  ("CH","Switzerland"); ("AT","Austria"); ("CZ","Czechia"); ("US","United States"); ("CA","Canada");
  ("SG","Singapore"); ("JP","Japan"); ("KR","South Korea"); ("HK","Hong Kong"); ("AU","Australia");
  ("IN","India"); ("TR","Turkey"); ("UA","Ukraine"); ("RU","Russia"); ("KZ","Kazakhstan"); ("AE","United Arab
  Emirates"); ("BR","Brazil"); ("MX","Mexico"); ("IL","Israel"); ("LV","Latvia")].

Definition flag_emoji_from_country_code (country_code : option string) : string :=
  match country_code with
  | None => UNKNOWN_FLAG
  | Some cc => if negb (nonempty cc) then UNKNOWN_FLAG
               else let c := upper (py_strip cc) in if two_letters c then flag_of c else UNKNOWN_FLAG
  end.

Definition format_node_display_name (node_name_ : string) (region : option string) : string :=
  let safe_name := py_strip node_name_ in
  match happ_display_for_name safe_name with
  | Some canonical => canonical
  | None =>
      let cc := match country_code_from_region region with
                | Some c => Some c
                | None => if nonempty safe_name then country_code_from_region (Some safe_name) else None
                end in
      match cc with
      | None => if nonempty safe_name then safe_name else "Node"
      | Some c => flag_emoji_from_country_code (Some c) +:+ " " +:+ default c (table_get COUNTRY_CODE_TO_NAME c)
      end
  end.

(** * Zones *)

Record ZoneUpdateIn := {
  zu_name : option string;
  zu_emoji : option string;
  zu_sort_order : option Z;
  zu_is_active : option bool;
}.

Definition patch_zone (u : ZoneUpdateIn) (z : Zone) : Zone :=
  {| zone_id := zone_id z; zone_code := zone_code z; zone_name := default (zone_name z) (zu_name u);
     zone_emoji := default (zone_emoji z) (zu_emoji u); zone_sort_order := default (zone_sort_order z) (zu_sort_order u);
     zone_is_active := default (zone_is_active z) (zu_is_active u); zone_created_at := zone_created_at z;
     zone_updated_at := zone_updated_at z |}.

Definition zone_by_code (c : string) : SM (option Zone) :=
  l ← select_where zones_tbl (λ z, String.eqb (zone_code z) c);
  scalar_one_or_none l.

Definition list_zones (active_only : bool) : SM (list Zone) :=
  l ← select_where zones_tbl (λ z, negb active_only || zone_is_active z);
  mret (order_by_asc zone_sort_order (order_by_name zone_code l)).

Definition zone_or_404 (c : string) : SM Zone :=
  z ← zone_by_code c;
  match z with Some z => mret z | None => raise (ZoneNotFound ("Zone '" +:+ c +:+ "' not found")) end.

Definition create_zone (code_ name emoji : string) (sort_order_ : Z) : SM Zone :=
  existing ← zone_by_code code_;
  match existing with
  | Some _ => raise (ZoneAlreadyExists ("Zone '" +:+ code_ +:+ "' already exists"))
  | None =>
      create zones_tbl (λ id now,
        {| zone_id := id; zone_code := code_; zone_name := name; zone_emoji := emoji; zone_sort_order := sort_order_;
           zone_is_active := true; zone_created_at := now; zone_updated_at := now |})
  end.

Definition zone_update_empty (u : ZoneUpdateIn) : bool :=
  match zu_name u, zu_emoji u, zu_sort_order u, zu_is_active u with None, None, None, None => true | _, _, _, _ => false end.

(** [ZoneOut.model_validate(updated)]. *)
Definition zone_out (o : option Zone) : SM Zone :=
  match o with Some z => mret z | None => raise (ValidationError "ZoneOut") end.

Definition update_zone (c : string) (u : ZoneUpdateIn) : SM Zone :=
  z ← zone_or_404 c;
  if zone_update_empty u then mret z
  else o ← update_by_id zones_tbl (zone_id z) (patch_zone u); zone_out o.

Definition delete_zone (c : string) : SM Zone :=
  z ← zone_or_404 c;
  o ← update_by_id zones_tbl (zone_id z)
        (patch_zone {| zu_name := None; zu_emoji := None; zu_sort_order := None; zu_is_active := Some false |});
  zone_out o.

(** [whens = {code: (i + 1) * 10}]: the last position of a repeated code counts. *)
Definition whens (codes : list string) : list (string * Z) := imap (λ i c, (c, (Z.of_nat i + 1) * 10)) codes.

Definition reorder (codes : list string) : SM Z :=
  match codes with
  | [] => mret 0
  | _ =>
      now ← utcnow;
      ids ← update_where zones_tbl (λ z, bool_decide (zone_code z ∈ codes))
        (λ z, patch_zone {| zu_name := None; zu_emoji := None; zu_sort_order := table_get (whens codes) (zone_code z);
                            zu_is_active := None |} (touch_zone now z));
      mret (Z.of_nat (length ids))
  end.
