(* ===== verification/SupportTables.v ===== *)
(** The tables of administrators and of the support desk. *)

From stdpp Require Import base gmap strings list.
From S2P Require Import Prelude Errors BillingModels FleetModels SupportModels Session Tables.
Local Open Scope Z_scope.

Definition touch_admin (now : Z) (u : AdminUser) : AdminUser :=
  {| au_id := au_id u; au_username := au_username u; password_hash := password_hash u; au_telegram_id := au_telegram_id u;
     telegram_username := telegram_username u; au_role := au_role u; ui_prefs := ui_prefs u; au_is_active := au_is_active u;
     au_created_at := au_created_at u; au_updated_at := now |}.

Definition admin_users_tbl : table AdminUser :=
  {| t_rows := admin_users; t_set := set_admin_users; t_id := au_id; t_touch := touch_admin;
     t_check := λ d old u,
       match unique_on "admin_user_username_key" (admin_users d) au_id
               (λ a b, String.eqb (au_username a) (au_username b)) old u with
       | Some c => Some c
       | None => unique "admin_user_telegram_id_key" (admin_users d) au_id
                   (λ a b, sql_eqb (au_telegram_id a) (au_telegram_id b))
                   (λ a b, bool_decide (au_telegram_id a = au_telegram_id b)) old u
       end |}.

Definition admin_sessions_tbl : table AdminSession :=
  {| t_rows := admin_sessions; t_set := set_admin_sessions; t_id := ase_id; t_touch := λ _ r, r;
     t_check := λ d, unique_on "admin_session_session_hash_key" (admin_sessions d) ase_id
                  (λ a b, String.eqb (session_hash a) (session_hash b)) |}.

Definition admin_events_tbl : table AdminAuditEvent :=
  {| t_rows := admin_events; t_set := set_admin_events; t_id := aae_id; t_touch := λ _ r, r; t_check := λ _ _ _, None |}.

Definition touch_ticket (now : Z) (t : SupportTicket) : SupportTicket :=
  {| tk_id := tk_id t; tk_user_id := tk_user_id t; tk_subject := tk_subject t; tk_status := tk_status t;
     tk_priority := tk_priority t; tk_category := tk_category t; assignee_admin_id := assignee_admin_id t;
     last_activity_at := last_activity_at t; closed_at := closed_at t; first_user_msg_at := first_user_msg_at t;
     first_reply_at := first_reply_at t; tk_created_at := tk_created_at t; tk_updated_at := now |}.

Definition tickets_tbl : table SupportTicket :=
  {| t_rows := support_tickets; t_set := set_support_tickets; t_id := tk_id; t_touch := touch_ticket; t_check := λ _ _ _, None |}.
Definition support_messages_tbl : table SupportMessage :=
  {| t_rows := support_messages; t_set := set_support_messages; t_id := sm_id; t_touch := λ _ r, r; t_check := λ _ _ _, None |}.
Definition attachments_tbl : table SupportAttachment :=
  {| t_rows := support_attachments; t_set := set_support_attachments; t_id := sa_id; t_touch := λ _ r, r; t_check := λ _ _ _, None |}.
Definition templates_tbl : table SupportTemplate :=
  {| t_rows := support_templates; t_set := set_support_templates; t_id := st_id; t_touch := λ _ r, r; t_check := λ _ _ _, None |}.

Definition touch_broadcast (now : Z) (b : Broadcast) : Broadcast :=
  {| br_id := br_id b; br_content := br_content b; entities := entities b; custom_emoji_assets := custom_emoji_assets b;
     br_status := br_status b; scheduled_at := scheduled_at b; br_sent_at := br_sent_at b; br_delivered := br_delivered b;
     br_errors := br_errors b; clicks := clicks b; target_count := target_count b; attempts := attempts b;
     created_by_admin_id := created_by_admin_id b; br_created_at := br_created_at b; br_updated_at := now |}.

Definition broadcasts_tbl : table Broadcast :=
  {| t_rows := broadcasts; t_set := set_broadcasts; t_id := br_id; t_touch := touch_broadcast; t_check := λ _ _ _, None |}.

Definition touch_schedule (now : Z) (r : RecurringBroadcastSchedule) : RecurringBroadcastSchedule :=
  {| rb_id := rb_id r; rb_name := rb_name r; rb_content := rb_content r; cadence := cadence r; time_of_day := time_of_day r;
     weekdays := weekdays r; next_run_at := next_run_at r; last_run_at := last_run_at r; rb_created_by := rb_created_by r;
     rb_is_active := rb_is_active r; rb_created_at := rb_created_at r; rb_updated_at := now |}.

Definition recurring_tbl : table RecurringBroadcastSchedule :=
  {| t_rows := recurring_broadcasts; t_set := set_recurring_broadcasts; t_id := rb_id; t_touch := touch_schedule;
     t_check := λ _ _ _, None |}.
Definition broadcast_logs_tbl : table BroadcastLog :=
  {| t_rows := broadcast_logs; t_set := set_broadcast_logs; t_id := bl_id; t_touch := λ _ r, r; t_check := λ _ _ _, None |}.

#[export] Instance admin_users_laws : TableLaws admin_users_tbl. Proof. table_laws. Qed.
#[export] Instance admin_sessions_laws : TableLaws admin_sessions_tbl. Proof. table_laws. Qed.
#[export] Instance admin_events_laws : TableLaws admin_events_tbl. Proof. table_laws. Qed.
#[export] Instance tickets_laws : TableLaws tickets_tbl. Proof. table_laws. Qed.
#[export] Instance support_messages_laws : TableLaws support_messages_tbl. Proof. table_laws. Qed.
#[export] Instance attachments_laws : TableLaws attachments_tbl. Proof. table_laws. Qed.
#[export] Instance templates_laws : TableLaws templates_tbl. Proof. table_laws. Qed.
#[export] Instance broadcasts_laws : TableLaws broadcasts_tbl. Proof. table_laws. Qed.
#[export] Instance recurring_laws : TableLaws recurring_tbl. Proof. table_laws. Qed.
#[export] Instance broadcast_logs_laws : TableLaws broadcast_logs_tbl. Proof. table_laws. Qed.

(** * Scenarios *)

Definition campaigns_tbl : table ScenarioCampaign :=
  {| t_rows := scenario_campaigns; t_set := set_scenario_campaigns; t_id := sc_id; t_touch := λ _ r, r;
     t_check := λ d, unique_on "scenario_campaign_key_key" (scenario_campaigns d) sc_id (λ a b, String.eqb (sc_key a) (sc_key b)) |}.
Definition scenario_nodes_tbl : table ScenarioNode :=
  {| t_rows := scenario_nodes; t_set := set_scenario_nodes; t_id := sn_id; t_touch := λ _ r, r;
     t_check := λ d, unique_on "uq_scenario_node_campaign_key" (scenario_nodes d) sn_id
       (λ a b, (sn_campaign_id a =? sn_campaign_id b) && String.eqb (scn_key (sn_node a)) (scn_key (sn_node b))) |}.
Definition scenario_edges_tbl : table ScenarioEdge :=
  {| t_rows := scenario_edges; t_set := set_scenario_edges; t_id := sg_id; t_touch := λ _ r, r; t_check := λ _ _ _, None |}.
Definition scenario_states_tbl : table ScenarioState :=
  {| t_rows := scenario_states; t_set := set_scenario_states; t_id := ss_id; t_touch := λ _ r, r;
     t_check := λ d, unique_on "uq_scenario_state_user_campaign" (scenario_states d) ss_id
       (λ a b, (ss_user_id a =? ss_user_id b) && (ss_campaign_id a =? ss_campaign_id b)) |}.

#[export] Instance campaigns_laws : TableLaws campaigns_tbl. Proof. table_laws. Qed.
#[export] Instance scenario_nodes_laws : TableLaws scenario_nodes_tbl. Proof. table_laws. Qed.
#[export] Instance scenario_edges_laws : TableLaws scenario_edges_tbl. Proof. table_laws. Qed.
#[export] Instance scenario_states_laws : TableLaws scenario_states_tbl. Proof. table_laws. Qed.

(** * Expenses *)

Definition touch_expense (now : Z) (e : Expense) : Expense :=
  {| ex_id := ex_id e; ex_kind := ex_kind e; ex_amount := ex_amount e; ex_currency := ex_currency e; ex_amount_rub := ex_amount_rub e;
     ex_fx_rate := ex_fx_rate e; incurred_at := incurred_at e; ex_period_start := ex_period_start e; ex_period_end := ex_period_end e;
     ex_vendor := ex_vendor e; ex_region := ex_region e; ex_description := ex_description e; ex_template_id := ex_template_id e;
     ex_created_at := ex_created_at e; ex_updated_at := now |}.
Definition expenses_tbl : table Expense :=
  {| t_rows := expenses; t_set := set_expenses; t_id := ex_id; t_touch := touch_expense; t_check := λ _ _ _, None |}.

Definition touch_expense_template (now : Z) (t : RecurringExpenseTemplate) : RecurringExpenseTemplate :=
  {| et_id := et_id t; et_name := et_name t; et_kind := et_kind t; et_amount := et_amount t; et_currency := et_currency t;
     et_fx_rate := et_fx_rate t; et_period := et_period t; et_next_run_at := et_next_run_at t; et_vendor := et_vendor t;
     et_region := et_region t; et_description := et_description t; et_is_active := et_is_active t;
     et_created_at := et_created_at t; et_updated_at := now |}.
Definition expense_templates_tbl : table RecurringExpenseTemplate :=
  {| t_rows := expense_templates; t_set := set_expense_templates; t_id := et_id; t_touch := touch_expense_template;
     t_check := λ _ _ _, None |}.

#[export] Instance expenses_laws : TableLaws expenses_tbl. Proof. table_laws. Qed.
#[export] Instance expense_templates_laws : TableLaws expense_templates_tbl. Proof. table_laws. Qed.
