(* ===== verification/Devices.v ===== *)
(** Subscriptions and their devices (services/vpn/subscriptions/service.py and
    repository.py): tokens, terms, device slots, the keys of a device, and where the keys
    of a subscription are placed. *)

From stdpp Require Import base gmap strings list sorting.
From Stdlib Require Import Ascii.
From S2P Require Import Prelude Decimal Errors RouteModels BillingModels FleetModels Session Uuid NodeDisplay Tables FleetTables Routing Placements Keys Routes.
Local Open Scope Z_scope.

(** * Configuration *)

Inductive ProfileType := ws_tls | reality_tcp | xhttp.

(** [settings.subscriptions], [settings.edge], the registered profiles, the source of
    tokens and the digest of hardware ids. *)
Record SubscriptionConfig := {
  max_devices_default : Z;
  smart_route_max_count : Z;
  public_base_url : string;
  edge_public_domain : string;
  profile_registry : list (string * ProfileType);
  sub_tokens : TokenSource;
  sha256 : string → string;
  sc_command_prefix : string;
}.

(** constants.py *)
Definition TRANSPORT_PRIORITY : list (string * Z) := [("reality", 0); ("ws", 1); ("xhttp", 2); ("tcp", 3)].
Definition DEFAULT_SUBSCRIPTION_TRANSPORT_BUNDLE : list VpnTransport :=
  [VpnTransport_reality; VpnTransport_ws; VpnTransport_xhttp].

Definition assoc {A} (k : string) (l : list (string * A)) : option A :=
  snd <$> find (λ p : string * A, String.eqb p.1 k) l.

(** * Schemas *)

Record SubscriptionCreateIn := {
  sci_user_id : Z;
  sci_plan_id : option Z;
  sci_profile_key : option string;
  sci_preferred_region : option string;
  sci_expires_at : option Z;
  sci_max_devices : option Z;
}.

Record SubscriptionCreatedOut := {
  sco_id : Z;
  sco_token : string;
  subscription_url : string;
  sco_expires_at : option Z;
  sco_is_active : bool;
}.

Record SubscriptionDeviceInternalUpdate := {
  dpu_is_active : option bool;
  dpu_last_seen_at : option Z;
  dpu_updated_at : option Z;
}.

Definition patch_device (u : SubscriptionDeviceInternalUpdate) (v : SubscriptionDevice) : SubscriptionDevice :=
  {| dev_id := dev_id v; dev_subscription_id := dev_subscription_id v; hwid_hash := hwid_hash v;
     dev_last_seen_at := match dpu_last_seen_at u with Some t => Some t | None => dev_last_seen_at v end;
     user_agent := user_agent v; device_model := device_model v; platform := platform v;
     os_version := os_version v; dev_is_active := default (dev_is_active v) (dpu_is_active u);
     dev_created_at := dev_created_at v; dev_updated_at := default (dev_updated_at v) (dpu_updated_at u) |}.

(** What a client says about its device. *)
Record DeviceClientHeaders := {
  dh_hwid : option string;
  dh_user_agent : option string;
  dh_device_model : option string;
  dh_platform : option string;
  dh_os_version : option string;
}.

Record ResolvedDeviceKey := {
  rdk_vpn_key_id : Z;
  rdk_transport : string;
  rdk_client_id : string;
  rdk_is_primary : bool;
  rdk_key : VpnKey;
}.

Record ResolvedDeviceBundle := {
  rdb_device : SubscriptionDevice;
  rdb_keys : list ResolvedDeviceKey;
}.

(** * Repositories *)

Definition get_by_token_hash (h : string) : SM (option Subscription) :=
  l ← select_where subs_tbl (λ b, String.eqb (sub_token_hash b) h);
  scalar_one_or_none l.

Definition get_by_any_token_hash (h : string) : SM (option Subscription) :=
  l ← select_where subs_tbl (λ b, String.eqb (sub_token_hash b) h || sql_eqb (prev_token_hash b) (Some h));
  scalar_one_or_none l.

Definition same_hwid (sid : Z) (h : string) (v : SubscriptionDevice) : bool :=
  (dev_subscription_id v =? sid) && String.eqb (hwid_hash v) h.

Definition get_active_by_sub_and_hwid_hash (sid : Z) (h : string) : SM (option SubscriptionDevice) :=
  l ← select_where devices_tbl (λ v, same_hwid sid h v && dev_is_active v);
  scalar_one_or_none l.

Definition get_by_sub_and_hwid_hash (sid : Z) (h : string) : SM (option SubscriptionDevice) :=
  l ← select_where devices_tbl (same_hwid sid h);
  scalar_one_or_none l.

Definition count_active_for_subscription (sid : Z) : SM Z :=
  l ← select_where devices_tbl (λ v, (dev_subscription_id v =? sid) && dev_is_active v);
  mret (Z.of_nat (length l)).

Definition list_devices_by_subscription (sid : Z) (active_only : bool) : SM (list SubscriptionDevice) :=
  l ← select_where devices_tbl (λ v, (dev_subscription_id v =? sid) && (negb active_only || dev_is_active v));
  mret (order_by_desc dev_created_at l).

Definition get_by_id_for_subscription (sid did : Z) : SM (option SubscriptionDevice) :=
  l ← select_where devices_tbl (λ v, (dev_id v =? did) && (dev_subscription_id v =? sid));
  scalar_one_or_none l.

(** The join of the bindings with the devices of the subscription. *)
Definition list_key_ids_for_subscription (sid : Z) (active_only : bool) : SM (list Z) :=
  read (λ d, remove_dups (dk_vpn_key_id <$> filter (λ k,
    match devices d !! dk_device_id k with
    | Some v => (dev_subscription_id v =? sid) && (negb active_only || (dev_is_active v && dk_is_active k))
    | None => false
    end = true) (rows (device_keys d)))).

Definition touched (now : Z) (h : DeviceClientHeaders) (v : SubscriptionDevice) : SubscriptionDevice :=
  {| dev_id := dev_id v; dev_subscription_id := dev_subscription_id v; hwid_hash := hwid_hash v;
     dev_last_seen_at := Some now; user_agent := dh_user_agent h;
     device_model := match dh_device_model h with Some x => Some x | None => device_model v end;
     platform := match dh_platform h with Some x => Some x | None => platform v end;
     os_version := match dh_os_version h with Some x => Some x | None => os_version v end;
     dev_is_active := dev_is_active v; dev_created_at := dev_created_at v; dev_updated_at := dev_updated_at v |}.

Definition touch_device_seen (did now : Z) (h : DeviceClientHeaders) : SM unit :=
  at_ ← utcnow;
  update_where devices_tbl (λ v, dev_id v =? did) (λ v, touched now h (touch_device at_ v)) ;;
  mret tt.

(** [order_by(subscription_device_id, is_primary.desc(), created_at)]. *)
Definition binding_order (l : list SubscriptionDeviceKey) : list SubscriptionDeviceKey :=
  order_by_asc dk_device_id (order_by_desc (λ k, Z.b2z (is_primary k)) (order_by_asc dk_created_at l)).

Definition list_by_device_ids (ids : list Z) (active_only : bool) : SM (list SubscriptionDeviceKey) :=
  match ids with
  | [] => mret []
  | _ =>
      l ← select_where device_keys_tbl (λ k, bool_decide (dk_device_id k ∈ ids) && (negb active_only || dk_is_active k));
      mret (binding_order l)
  end.

Section Subscriptions.
Context (cfg : SubscriptionConfig).

(** * Transports *)

(** [value.rsplit(".", 1)[-1]]. *)
Fixpoint after_last_dot (s : string) : option string :=
match s with
| EmptyString => None
| String c s' =>
    match after_last_dot s' with
    | Some t => Some t
    | None => if Ascii.eqb c "."%char then Some s' else None
    end
end.

Definition _normalize_transport_value (transport : string) : string :=
let value := py_strip transport in
if negb (nonempty value) then ""
else lower (default value (after_last_dot value)).

Definition _transport_priority (transport : string) : Z :=
default 99 (assoc (_normalize_transport_value transport) TRANSPORT_PRIORITY).

Definition _infer_transport (t : ProfileType) : VpnTransport :=
match t with
| ws_tls => VpnTransport_ws
| reality_tcp => VpnTransport_reality
| xhttp => VpnTransport_xhttp
end.

Definition _infer_transport_from_profile_key (profile_key : option string) : option VpnTransport :=
match profile_key with
| None => None
| Some k => if nonempty k then _infer_transport <$> assoc k (profile_registry cfg) else None
end.

Definition _subscription_bundle_transports (b : Subscription) : list VpnTransport :=
let preferred := match _infer_transport_from_profile_key (sub_profile_key b) with Some t => [t] | None => [] end in
preferred ++ filter (λ t, t ∉ preferred) DEFAULT_SUBSCRIPTION_TRANSPORT_BUNDLE.

(** * The bundle of a device *)

(** [transport = str(binding.transport or key.transport)]. *)
Definition binding_transport (r : SubscriptionDeviceKey) (k : VpnKey) : string :=
if nonempty (dk_transport r) then dk_transport r else key_transport k.

(** The keys of the bindings, one per transport, the first binding's. *)
Fixpoint resolve_bindings (keys : list VpnKey) (seen : list string) (l : list SubscriptionDeviceKey)
  : list ResolvedDeviceKey :=
match l with
| [] => []
| r :: l =>
    match find (λ k, key_id k =? dk_vpn_key_id r) keys with
    | None => resolve_bindings keys seen l
    | Some k =>
        let t := binding_transport r k in
        if negb (nonempty t) || bool_decide (t ∈ seen) then resolve_bindings keys seen l
        else {| rdk_vpn_key_id := key_id k; rdk_transport := t; rdk_client_id := client_id k;
                rdk_is_primary := is_primary r; rdk_key := k |} :: resolve_bindings keys (t :: seen) l
    end
end.

(** [resolved.sort(key=lambda item: (0 if is_primary else 1, priority, str(id)))]. *)
Definition bundle_order (l : list ResolvedDeviceKey) : list ResolvedDeviceKey :=
order_by_asc (λ k, if rdk_is_primary k then 0 else 1)
  (order_by_asc (λ k, _transport_priority (rdk_transport k))
    (order_by_name (λ k, str_uuid (rdk_vpn_key_id k)) l)).

Definition _load_device_bundle (v : SubscriptionDevice) : SM ResolvedDeviceBundle :=
bindings ← list_by_device_ids [dev_id v] true;
keys ← list_keys_by_ids (remove_dups (dk_vpn_key_id <$> bindings));
mret {| rdb_device := v; rdb_keys := bundle_order (resolve_bindings keys [] bindings) |}.

(** [subscription.plan]: the joined row. *)
Definition plan_of (b : Subscription) : SM (option Plan) :=
match sub_plan_id b with
| None => mret None
| Some pid => get_by_id plans_tbl pid
end.

Definition _effective_device_limit (b : Subscription) : SM Z :=
plan ← plan_of b;
let plan_based := match plan with Some p => included_devices p + paid_device_slots b | None => 0 end in
let best := Z.max (default 0 (sub_max_devices b)) plan_based in
mret (if best =? 0 then max_devices_default cfg else best).

Definition _create_vpn_key_for_transport (b : Subscription) (t : VpnTransport) (until : Z) : SM VpnKey :=
plan ← plan_of b;
let limit := match plan with
             | Some p => if 0 <? traffic_limit_bytes p then Z.max 1 (traffic_limit_bytes p / (1024 * 1024)) else 0
             | None => 0
             end in
n ← uuid4;
create keys_tbl (λ id now,
  {| key_id := id; key_user_id := sub_user_id b; key_protocol := "vless"; key_transport := transport_value t;
     client_id := str_uuid n; valid_until := until; traffic_limit_mb := limit; key_used_traffic_bytes := 0;
     is_revoked := false; key_subscription_id := Some (sub_id b); entry_routing_override_backend_tag := None;
     key_is_active := true; key_created_at := now; key_updated_at := now |}).

(** [device_key_repository.create]. *)
Definition bind_key (did kid : Z) (transport : string) (primary : bool) : SM unit :=
create device_keys_tbl (λ id now,
  {| dk_id := id; dk_device_id := did; dk_vpn_key_id := kid; dk_transport := transport;
     is_primary := primary; dk_is_active := true; dk_created_at := now |}) ;;
mret tt.

(** [except IntegrityError], [suppress(IntegrityError)]: the flush failed, so the next
    statement of the session raises. *)
Definition after_failed_flush {A} (m : SM A) : SM A :=
catch m (λ e, match e with IntegrityError _ => raise PendingRollbackError | _ => raise e end).

Fixpoint add_missing_keys (b : Subscription) (did until : Z) (existing : list string) (no_keys : bool) (idx : nat)
  (l : list VpnTransport) : SM unit :=
match l with
| [] => mret tt
| t :: l =>
    (if bool_decide (transport_value t ∈ existing) then mret tt
     else
       k ← _create_vpn_key_for_transport b t until;
       after_failed_flush (bind_key did (key_id k) (transport_value t) ((idx =? 0)%nat && no_keys))) ;;
    add_missing_keys b did until existing no_keys (S idx) l
end.

(** [subscription.expires_at or (now + timedelta(days=365))]. *)
Definition key_term (b : Subscription) (now : Z) : Z := default (now + 365 * day) (sub_expires_at b).

Definition bundle_complete (b : Subscription) (bundle : ResolvedDeviceBundle) : bool :=
forallb (λ t, bool_decide (transport_value t ∈ rdk_transport <$> rdb_keys bundle)) (_subscription_bundle_transports b).

Definition _ensure_device_key_bundle (b : Subscription) (v : SubscriptionDevice) (now : Z) : SM ResolvedDeviceBundle :=
bundle ← _load_device_bundle v;
if bundle_complete b bundle then mret bundle
else
  add_missing_keys b (dev_id v) (key_term b now) (rdk_transport <$> rdb_keys bundle)
    (match rdb_keys bundle with [] => true | _ => false end) 0 (_subscription_bundle_transports b) ;;
  _load_device_bundle v.

Definition _hash_hwid (hwid : string) : SM string :=
let normalized := py_strip hwid in
if nonempty normalized then mret (sha256 cfg normalized) else raise SubscriptionHwidRequired.

Definition reactivate_device (v : SubscriptionDevice) (now : Z) : SM unit :=
update_by_id devices_tbl (dev_id v)
  (patch_device {| dpu_is_active := Some true; dpu_last_seen_at := Some now; dpu_updated_at := None |}) ;;
bundle ← _load_device_bundle v;
for_each (λ k,
  assign_revoked false (rdk_key k) ;;
  _set_placement_desired_state (sc_command_prefix cfg) (rdk_vpn_key_id k) desired_active "device_refetch_restore")
  (rdb_keys bundle).

(** A slot is free. *)
Definition check_slot (b : Subscription) : SM unit :=
limit ← _effective_device_limit b;
current ← count_active_for_subscription (sub_id b);
raise_if (limit <=? current) SubscriptionDeviceLimitReached.

Definition new_device (b : Subscription) (h : string) (hd : DeviceClientHeaders) (now id at_ : Z) : SubscriptionDevice :=
{| dev_id := id; dev_subscription_id := sub_id b; hwid_hash := h; dev_last_seen_at := Some now;
   user_agent := dh_user_agent hd; device_model := dh_device_model hd; platform := dh_platform hd;
   os_version := dh_os_version hd; dev_is_active := true; dev_created_at := at_; dev_updated_at := at_ |}.

Definition register_device (b : Subscription) (h : string) (hd : DeviceClientHeaders) (now : Z) : SM SubscriptionDevice :=
match _subscription_bundle_transports b with
| [] => raise (SubscriptionBuildUnavailable "No available key")
| primary :: _ =>
    key ← _create_vpn_key_for_transport b primary (key_term b now);
    v ← after_failed_flush (create devices_tbl (new_device b h hd now));
    bind_key (dev_id v) (key_id key) (transport_value primary) true ;;
    mret v
end.

(** [revoked is not None and not revoked.is_active]. *)
Definition only_revoked (v : option SubscriptionDevice) : option SubscriptionDevice :=
match v with
| Some v => if dev_is_active v then None else Some v
| None => None
end.

Definition _resolve_device_bundle_for_request (b : Subscription) (hd : DeviceClientHeaders) (now : Z)
  : SM ResolvedDeviceBundle :=
match dh_hwid hd with
| None => raise SubscriptionHwidRequired
| Some hwid =>
    raise_if (negb (nonempty hwid)) SubscriptionHwidRequired ;;
    h ← _hash_hwid hwid;
    known ← get_active_by_sub_and_hwid_hash (sub_id b) h;
    match known with
    | Some v => touch_device_seen (dev_id v) now hd ;; _ensure_device_key_bundle b v now
    | None =>
        revoked ← get_by_sub_and_hwid_hash (sub_id b) h;
        match only_revoked revoked with
        | Some v =>
            check_slot b ;;
            reactivate_device v now ;;
            _ensure_device_key_bundle b v now
        | None =>
            check_slot b ;;
            v ← register_device b h hd now;
            _ensure_device_key_bundle b v now
        end
    end
end.

(** * Placements of a key *)

Definition _resolve_ws_public_host (n : VpnNode) (prefer_node_domain : bool) : string :=
let node_domain := py_strip (public_domain n) in
if prefer_node_domain && nonempty node_domain then node_domain
else if nonempty (edge_public_domain cfg) then edge_public_domain cfg else public_domain n.

Definition _node_has_required_public_host (n : VpnNode) : bool :=
truthy (reality_ip n) || nonempty (_resolve_ws_public_host n false).

Definition _is_placement_synced (p : UserPlacement) : bool :=
bool_decide (applied_state p = applied_applied) && (applied_version p =? op_version p).

(** [dict[backend] = placement]: the last one wins, in its first place. *)
Fixpoint by_backend_set (p : UserPlacement) (l : list UserPlacement) : list UserPlacement :=
match l with
| [] => [p]
| q :: l => if backend_node_id q =? backend_node_id p then p :: l else q :: by_backend_set p l
end.
Definition by_backend (l : list UserPlacement) : list UserPlacement := foldl (λ m p, by_backend_set p m) [] l.
Definition on_node (b : Z) (l : list UserPlacement) : option UserPlacement := find (λ p, backend_node_id p =? b) l.

(** The placements of the targets that have none; the dict and the new ids. *)
Fixpoint place_on_targets (kid : Z) (targets : list VpnNode) (m : list UserPlacement)
  : SM (list UserPlacement * list Z) :=
match targets with
| [] => mret (m, [])
| n :: targets =>
    match on_node (node_id n) m with
    | Some _ => place_on_targets kid targets m
    | None =>
        p ← upsert_set_pending kid (node_id n) desired_active None (Some "subscription_replica");
        r ← place_on_targets kid targets (by_backend_set p m);
        mret (r.1, pl_id p :: r.2)
    end
end.

(** The placement to prefer: the first target that has one, synced ones first. *)
Fixpoint preferred_of (targets : list Z) (synced m : list UserPlacement) : option UserPlacement :=
match targets with
| [] => None
| t :: targets =>
    match on_node t synced with
    | Some p => Some p
    | None => match on_node t m with Some p => Some p | None => preferred_of targets synced m end
    end
end.

Definition clamp_replicas (n : Z) : Z := Z.max 1 (Z.min 10 n).

Definition _ensure_backend_placements_for_key (kid : Z) (region : option string) (desired_replicas : Z)
  : SM (Z * UserPlacement * list Z) :=
all ← list_by_key_id kid true (Some desired_active);
let synced_all := filter (λ p, _is_placement_synced p = true) all in
let synced := by_backend synced_all in
candidates ← catch (select_nodes region []) (λ _, mret []);
let candidates := filter (λ n, _node_has_required_public_host n = true) candidates in
raise_if (match candidates, all with [], [] => true | _, _ => false end)
  (SubscriptionBuildUnavailable "No available nodes") ;;
let targets := take (Z.to_nat (clamp_replicas desired_replicas)) candidates in
r ← place_on_targets kid targets (by_backend all);
match r.2 with
| [] => mret tt
| ids => enqueue_for_placement_ids (sc_command_prefix cfg) ids
end ;;
let target_ids := node_id <$> targets in
let preferred :=
  match preferred_of target_ids synced r.1 with
  | Some p => Some p
  | None =>
      match synced_all, target_ids with
      | p :: _, [] => Some p
      | _, _ => head r.1
      end
  end in
match preferred with
| None => raise (SubscriptionBuildUnavailable "Node placement sync pending")
| Some p => mret (backend_node_id p, p, match target_ids with [] => backend_node_id <$> r.1 | _ => target_ids end)
end.

(** [except SubscriptionBuild]: the switch of the rows that are there. *)
Definition provision_key (kid : Z) (region : option string) (reason : string) : SM unit :=
catch (_ensure_backend_placements_for_key kid region (clamp_replicas (smart_route_max_count cfg)) ;; mret tt)
  (λ e, match e with
        | SubscriptionBuild _ | SubscriptionBuildUnavailable _ => _set_placement_desired_state (sc_command_prefix cfg) kid desired_active reason
        | _ => raise e
        end).

(** * Subscriptions *)

Definition _invalidate_payload_cache_by_token_hash (h : string) : SM unit := emit (InvalidatePayloadCache h).

Definition known_profile (key : option string) : bool :=
match key with
| Some k => if nonempty k then match assoc k (profile_registry cfg) with Some _ => true | None => false end else true
| None => true
end.

Definition create_sub (data : SubscriptionCreateIn) : SM SubscriptionCreatedOut :=
user ← get_by_id users_tbl (sci_user_id data);
match user with
| None => raise (HTTPException 404 "User not found")
| Some _ =>
    n ← uuid4;
    let raw_token := generate (sub_tokens cfg) n in
    uuid4 ;;
    raise_if (negb (known_profile (sci_profile_key data)))
      (HTTPException 422 ("Profile not found: " +:+ default "" (sci_profile_key data))) ;;
    match sci_plan_id data with
    | None => mret tt
    | Some pid =>
        plan ← get_by_id plans_tbl pid;
        match plan with
        | None => raise (HTTPException 404 "Plan not found")
        | Some p => raise_if (negb (plan_is_active p)) (HTTPException 422 "Plan is not active")
        end
    end ;;
    b ← create subs_tbl (λ id now,
      {| sub_id := id; sub_user_id := sci_user_id data; sub_plan_id := sci_plan_id data;
         sub_token := Some raw_token; sub_token_hash := hash (sub_tokens cfg) raw_token;
         prev_token_hash := None; prev_token_expires_at := None; sub_expires_at := sci_expires_at data;
         sub_profile_key := sci_profile_key data; preferred_region := sci_preferred_region data;
         root_vpn_key_id := None; hwid_enabled := true; sub_max_devices := sci_max_devices data;
         paid_device_slots := 0; sub_period_months := 1; sub_used_traffic_bytes := 0;
         lifetime_used_traffic_bytes := 0; last_traffic_reset_at := None; first_connected_at := None;
         auto_renew := false; traffic_warning_threshold_pct := 0; sub_is_active := true;
         sub_created_at := now; sub_updated_at := now |});
    mret {| sco_id := sub_id b; sco_token := raw_token;
            subscription_url := public_base_url cfg +:+ raw_token; sco_expires_at := sub_expires_at b;
            sco_is_active := sub_is_active b |}
end.

Definition get_sub (sid : Z) : SM Subscription :=
b ← get_by_id subs_tbl sid;
match b with Some b => mret b | None => raise SubscriptionNotFound end.

(** [SubscriptionInternalUpdate] of one or two fields. *)
Definition sub_patch (active : option bool) (expires devices_ updated : option Z) : SubscriptionInternalUpdate :=
{| supd_plan_id := None; supd_is_active := active; supd_expires_at := expires; supd_profile_key := None;
   supd_preferred_region := None; supd_hwid_enabled := None; supd_max_devices := devices_;
   supd_paid_device_slots := None; supd_period_months := None; supd_updated_at := updated |}.

Definition set_max_devices (sid n : Z) : SM (option Subscription) :=
get_sub sid ;;
update_by_id subs_tbl sid (apply_sub_update (sub_patch None None (Some n) None)).

Definition extend_subscription (sid days_ : Z) : SM (option Subscription) :=
b ← get_sub sid;
now ← utcnow;
let base := match sub_expires_at b with Some e => if now <? e then e else now | None => now end in
updated ← update_by_id subs_tbl sid (apply_sub_update (sub_patch (Some true) (Some (base + days_ * day)) None None));
when (nonempty (sub_token_hash b)) (_invalidate_payload_cache_by_token_hash (sub_token_hash b)) ;;
mret updated.

(** [SubscriptionInternalRotate.model_dump(exclude_none=True)]. *)
Definition rotated_sub (token hash_ : string) (old : string) (grace_end now : Z) (b : Subscription) : Subscription :=
{| sub_id := sub_id b; sub_user_id := sub_user_id b; sub_plan_id := sub_plan_id b; sub_token := Some token;
   sub_token_hash := hash_; prev_token_hash := Some old; prev_token_expires_at := Some grace_end;
   sub_expires_at := sub_expires_at b; sub_profile_key := sub_profile_key b;
   preferred_region := preferred_region b; root_vpn_key_id := root_vpn_key_id b;
   hwid_enabled := hwid_enabled b; sub_max_devices := sub_max_devices b;
   paid_device_slots := paid_device_slots b; sub_period_months := sub_period_months b;
   sub_used_traffic_bytes := sub_used_traffic_bytes b;
   lifetime_used_traffic_bytes := lifetime_used_traffic_bytes b;
   last_traffic_reset_at := last_traffic_reset_at b; first_connected_at := first_connected_at b;
   auto_renew := auto_renew b; traffic_warning_threshold_pct := traffic_warning_threshold_pct b;
   sub_is_active := sub_is_active b; sub_created_at := sub_created_at b; sub_updated_at := now |}.

Definition rotate_token (sid grace_seconds : Z) : SM (string * string) :=
b ← get_sub sid;
n ← uuid4;
let new_raw := generate (sub_tokens cfg) n in
let new_hash := hash (sub_tokens cfg) new_raw in
now ← utcnow;
updated ← update_by_id subs_tbl sid
  (rotated_sub new_raw new_hash (sub_token_hash b) (now + grace_seconds * second) now);
match updated with
| None => raise SubscriptionNotFound
| Some _ =>
    _invalidate_payload_cache_by_token_hash (sub_token_hash b) ;;
    _invalidate_payload_cache_by_token_hash new_hash ;;
    mret (new_raw, public_base_url cfg +:+ new_raw)
end.

Fixpoint deactivate_keys (keys : list VpnKey) (ids : list Z) : SM Z :=
match ids with
| [] => mret 0
| i :: ids =>
    match find (λ k, key_id k =? i) keys with
    | None => deactivate_keys keys ids
    | Some k =>
        assign_revoked true k ;;
        _set_placement_desired_state (sc_command_prefix cfg) i desired_inactive "subscription_deactivate" ;;
        n ← deactivate_keys keys ids;
        mret (n + 1)
    end
end.

Definition deactivate (sid : Z) : SM Z :=
b ← get_sub sid;
now ← utcnow;
update_by_id subs_tbl (sub_id b) (apply_sub_update (sub_patch (Some false) None None (Some now))) ;;
_invalidate_payload_cache_by_token_hash (sub_token_hash b) ;;
ids ← list_key_ids_for_subscription (sub_id b) false;
keys ← list_keys_by_ids ids;
deactivate_keys keys ids.

(** The key of a subscription that is active again: not revoked, valid to the end of the
    term. *)
Definition renew_key (b : Subscription) (k : VpnKey) : SM bool :=
let until := match sub_expires_at b with Some e => Z.max (valid_until k) e | None => valid_until k end in
(if is_revoked k || negb (until =? valid_until k)
 then update_by_id keys_tbl (key_id k) (λ r, write_key (key_used_traffic_bytes r) false until (key_updated_at r) r) ;; mret tt
 else mret tt) ;;
mret (is_revoked k).

Fixpoint activate_keys (b : Subscription) (keys : list VpnKey) (ids : list Z) : SM Z :=
match ids with
| [] => mret 0
| i :: ids =>
    match find (λ k, key_id k =? i) keys with
    | None => activate_keys b keys ids
    | Some k =>
        restored ← renew_key b k;
        provision_key i (preferred_region b) "subscription_activate" ;;
        n ← activate_keys b keys ids;
        mret (n + Z.b2z restored)
    end
end.

Definition activate (sid : Z) : SM Z :=
b ← get_sub sid;
now ← utcnow;
update_by_id subs_tbl (sub_id b) (apply_sub_update (sub_patch (Some true) None None (Some now))) ;;
_invalidate_payload_cache_by_token_hash (sub_token_hash b) ;;
ids ← list_key_ids_for_subscription (sub_id b) false;
keys ← list_keys_by_ids ids;
activate_keys b keys ids.

(** * Devices *)

(** Revokes a key of a device; whether it was not yet. *)
Definition revoke_resolved (k : ResolvedDeviceKey) : SM bool :=
assign_revoked true (rdk_key k) ;;
_set_placement_desired_state (sc_command_prefix cfg) (rdk_vpn_key_id k) desired_inactive "subscription_device_revoke" ;;
mret (negb (is_revoked (rdk_key k))).

Definition restore_resolved (b : Subscription) (k : ResolvedDeviceKey) : SM bool :=
assign_revoked false (rdk_key k) ;;
provision_key (rdk_vpn_key_id k) (preferred_region b) "subscription_device_restore" ;;
mret (is_revoked (rdk_key k)).

Fixpoint any_changed (f : ResolvedDeviceKey → SM bool) (l : list ResolvedDeviceKey) : SM bool :=
match l with
| [] => mret false
| k :: l => c ← f k; r ← any_changed f l; mret (c || r)
end.

Definition get_device (sid did : Z) : SM SubscriptionDevice :=
v ← get_by_id_for_subscription sid did;
match v with Some v => mret v | None => raise (HTTPException 404 "Device not found") end.

Definition set_device_active (v : SubscriptionDevice) (active : bool) (now : Z) : SM unit :=
update_by_id devices_tbl (dev_id v)
  (patch_device {| dpu_is_active := Some active; dpu_last_seen_at := None; dpu_updated_at := Some now |}) ;;
mret tt.

Definition revoke_device (sid did : Z) : SM bool :=
b ← get_sub sid;
v ← get_device sid did;
now ← utcnow;
when (dev_is_active v) (set_device_active v false now) ;;
bundle ← _load_device_bundle v;
changed ← any_changed revoke_resolved (rdb_keys bundle);
_invalidate_payload_cache_by_token_hash (sub_token_hash b) ;;
mret changed.

Definition restore_device (sid did : Z) : SM bool :=
b ← get_sub sid;
v ← get_device sid did;
now ← utcnow;
when (negb (dev_is_active v)) (check_slot b ;; set_device_active v true now) ;;
bundle ← _load_device_bundle v;
changed ← any_changed (restore_resolved b) (rdb_keys bundle);
_invalidate_payload_cache_by_token_hash (sub_token_hash b) ;;
mret changed.
End Subscriptions.
