(* ===== verification/Traffic.v ===== *)
(** Traffic accounting of VPN keys (services/traffic/users: service, repository, reset
    policy, consumer, reset and cleanup reconcilers) and the end of subscriptions
    (services/vpn/subscriptions/reconcilers). *)

From stdpp Require Import base gmap strings list sorting.
From S2P Require Import Prelude Decimal Errors RouteModels BillingModels FleetModels Session Uuid NodeDisplay Tables Plans FleetTables Routing Placements Keys Routes Devices.
Local Open Scope Z_scope.

(** * Schemas *)

Record UserTrafficIn := { identifier : string; delta_bytes : Z }.
Record IngestOut := { in_processed : Z; in_revoked : Z }.
Record TickResult := { subscriptions_expired : Z; keys_revoked : Z; placements_affected : Z }.

Definition _MIB : Z := 1024 * 1024.
Definition _MIGRATION_REASON : string := "traffic_limit_exceeded".
Definition _RESET_REASON : string := "traffic_reset".

(** [Field(min_length=1)], [Field(ge=0)]. *)
Definition UserTrafficIn_valid (t : UserTrafficIn) : bool := nonempty (identifier t) && (0 <=? delta_bytes t).

(** The traffic columns of a subscription. *)
Definition write_traffic (used lifetime : Z) (reset_at : option Z) (threshold updated : Z) (b : Subscription) : Subscription :=
  {| sub_id := sub_id b; sub_user_id := sub_user_id b; sub_plan_id := sub_plan_id b; sub_token := sub_token b;
     sub_token_hash := sub_token_hash b; prev_token_hash := prev_token_hash b;
     prev_token_expires_at := prev_token_expires_at b; sub_expires_at := sub_expires_at b;
     sub_profile_key := sub_profile_key b; preferred_region := preferred_region b;
     root_vpn_key_id := root_vpn_key_id b; hwid_enabled := hwid_enabled b;
     sub_max_devices := sub_max_devices b; paid_device_slots := paid_device_slots b;
     sub_period_months := sub_period_months b; sub_used_traffic_bytes := used;
     lifetime_used_traffic_bytes := lifetime; last_traffic_reset_at := reset_at;
     first_connected_at := first_connected_at b; auto_renew := auto_renew b;
     traffic_warning_threshold_pct := threshold; sub_is_active := sub_is_active b;
     sub_created_at := sub_created_at b; sub_updated_at := updated |}.

Definition with_first_connection (now : Z) (b : Subscription) : Subscription :=
  {| sub_id := sub_id b; sub_user_id := sub_user_id b; sub_plan_id := sub_plan_id b; sub_token := sub_token b;
     sub_token_hash := sub_token_hash b; prev_token_hash := prev_token_hash b;
     prev_token_expires_at := prev_token_expires_at b; sub_expires_at := sub_expires_at b;
     sub_profile_key := sub_profile_key b; preferred_region := preferred_region b;
     root_vpn_key_id := root_vpn_key_id b; hwid_enabled := hwid_enabled b;
     sub_max_devices := sub_max_devices b; paid_device_slots := paid_device_slots b;
     sub_period_months := sub_period_months b; sub_used_traffic_bytes := sub_used_traffic_bytes b;
     lifetime_used_traffic_bytes := lifetime_used_traffic_bytes b;
     last_traffic_reset_at := last_traffic_reset_at b; first_connected_at := Some now;
     auto_renew := auto_renew b; traffic_warning_threshold_pct := traffic_warning_threshold_pct b;
     sub_is_active := sub_is_active b; sub_created_at := sub_created_at b; sub_updated_at := sub_updated_at b |}.

(** * Repositories *)

Definition list_by_ids_with_plan (ids : list Z) : SM (list Subscription) :=
  match ids with
  | [] => mret []
  | _ => select_where subs_tbl (λ b, bool_decide (sub_id b ∈ ids))
  end.

Definition history_row (r : Z * Z) (id now : Z) : TrafficUsage :=
  {| tu_id := id; tu_key_id := r.1; tu_delta_bytes := r.2; reported_total_bytes := 0; tu_created_at := now |}.

Definition bulk_create_usage (rows : list (Z * Z)) : SM unit :=
  for_each (λ r, create traffic_usages_tbl (history_row r) ;; mret tt) rows.

Definition delete_usage_older_than (cutoff : Z) : SM Z :=
  delete_where traffic_usages_tbl (λ u, tu_created_at u <? cutoff).

(** [claim]: the unique constraint answers; a taken message rolls the session back. *)
Definition claim (subject msg_id : string) : SM bool :=
  if negb (nonempty msg_id) then mret true
  else
    catch (create processed_msgs_tbl (λ id now,
             {| npm_id := id; npm_msg_id := msg_id; npm_subject := subject; npm_created_at := now |}) ;; mret true)
      (λ e, match e with IntegrityError _ => mret false | _ => raise e end).

(** The join with the plans. *)
Definition needs_reset (d : database) (strategy : string) (reset_before : Z) (b : Subscription) : bool :=
  sub_is_active b &&
  match sub_plan_id b ≫= (plans d !!.) with
  | Some p => plan_is_active p && String.eqb (reset_strategy p) strategy && (0 <? traffic_limit_bytes p)
  | None => false
  end &&
  match last_traffic_reset_at b with Some t => t <? reset_before | None => true end.

Definition list_needing_traffic_reset (strategy : string) (reset_before : Z) : SM (list Subscription) :=
  read (λ d, filter (λ b, needs_reset d strategy reset_before b = true) (rows (subscriptions d))).

Definition expired_active (now : Z) (b : Subscription) : bool :=
  sub_is_active b && match sub_expires_at b with Some e => e <? now | None => false end.

Definition list_expired_active (now : Z) (limit : nat) : SM (list Subscription) :=
  l ← select_where subs_tbl (expired_active now);
  mret (take limit (order_by_asc (λ b, default 0 (sub_expires_at b)) l)).

Definition bulk_deactivate (ids : list Z) : SM Z :=
  match ids with
  | [] => mret 0
  | _ =>
      now ← utcnow;
      update_where subs_tbl (λ b, bool_decide (sub_id b ∈ ids))
        (λ b, apply_sub_update (sub_patch (Some false) None None None) (touch_sub now b)) ;;
      mret (Z.of_nat (length ids))
  end.

Definition bulk_deactivate_by_subscription_ids (sids : list Z) : SM Z :=
  match sids with
  | [] => mret 0
  | _ =>
      now ← utcnow;
      ids ← update_where devices_tbl (λ v, bool_decide (dev_subscription_id v ∈ sids) && dev_is_active v)
        (λ v, patch_device {| dpu_is_active := Some false; dpu_last_seen_at := None; dpu_updated_at := None |}
                (touch_device now v));
      mret (Z.of_nat (length ids))
  end.

Definition stamp_first_connection (now : Z) (limit : nat) : SM (list Z) :=
  due ← select_where subs_tbl (λ b, match first_connected_at b with None => true | _ => false end &&
                                    (0 <? lifetime_used_traffic_bytes b));
  let ids := sub_id <$> take limit due in
  at_ ← utcnow;
  update_where subs_tbl (λ b, bool_decide (sub_id b ∈ ids)) (λ b, with_first_connection now (touch_sub at_ b)).

(** * Reset policy *)

Definition RESETTABLE_STRATEGIES : list ResetStrategy := [DAY; WEEK; MONTH].

(** Days since the epoch, a Thursday. *)
Definition epoch_day (t : Z) : Z := t / day.
(** [datetime.weekday]: Monday is 0. *)
Definition weekday (t : Z) : Z := (epoch_day t + 3) mod 7.
(** [.replace(hour=0, minute=0, second=0, microsecond=0)]. *)
Definition midnight (t : Z) : Z := epoch_day t * day.

(** [datetime.day]: how [date.fromordinal] counts (January 1 of year 1 is day 1). *)
Definition epoch_ordinal : Z := 719163.
Definition _DAYS_BEFORE_MONTH (month : Z) : Z :=
  nth (Z.to_nat month) [-1; 0; 31; 59; 90; 120; 151; 181; 212; 243; 273; 304; 334] 0.

(** Days of the year before the month. *)
Definition days_before (leap : bool) (month : Z) : Z := _DAYS_BEFORE_MONTH month + Z.b2z ((2 <? month) && leap).

(** The day of the month of day [n] of a year, from 0. *)
Definition day_in_year (leap : bool) (n : Z) : Z :=
  let month := Z.shiftr (n + 50) 5 in
  let month := if n <? days_before leap month then month - 1 else month in
  n - days_before leap month + 1.

Definition day_of_ordinal (ordinal : Z) : Z :=
  let n := ordinal - 1 in
  let n := n mod 146097 in
  let n100 := n / 36524 in
  let n := n mod 36524 in
  let n4 := n / 1461 in
  let n := n mod 1461 in
  let n1 := n / 365 in
  let n := n mod 365 in
  if (n1 =? 4) || (n100 =? 4) then 31
  else day_in_year ((n1 =? 3) && (negb (n4 =? 24) || (n100 =? 3))) n.

Definition day_of_month (t : Z) : Z := day_of_ordinal (epoch_day t + epoch_ordinal).

Definition reset_cutoff (strategy : ResetStrategy) (now : Z) : res Z :=
  match strategy with
  | DAY => Ok (midnight now)
  | WEEK => Ok (midnight (now - weekday now * day))
  | MONTH => Ok (midnight (now - (day_of_month now - 1) * day))
  | NO_RESET => Raise (ValueError "Non-resettable strategy: ResetStrategy.NO_RESET")
  end.

Section Traffic.
(** [settings.nats.js_command_subject_prefix]. *)
Context (command_prefix : string).

(** * UserTrafficService *)

(** The first loop of [ingest_users_traffic]: the loaded keys, [subscription_deltas],
    [history_rows]. *)
Record ingest_state := {
  is_keys : list VpnKey;
  is_deltas : gmap Z Z;
  is_history : list (Z * Z);
}.

Definition charge_key (now delta : Z) (k : VpnKey) : VpnKey :=
write_key (key_used_traffic_bytes k + delta) (is_revoked k) (valid_until k) now k.

Definition ingest_item (now : Z) (st : ingest_state) (t : UserTrafficIn) : ingest_state :=
match find (λ k, String.eqb (client_id k) (identifier t)) (is_keys st) with
| None => st
| Some k =>
    if delta_bytes t <=? 0 then st
    else
      {| is_keys := (λ k', if key_id k' =? key_id k then charge_key now (delta_bytes t) k' else k') <$> is_keys st;
         is_deltas := match key_subscription_id k with
                      | Some sid => <[sid := default 0 (is_deltas st !! sid) + delta_bytes t]> (is_deltas st)
                      | None => is_deltas st
                      end;
         is_history := is_history st ++ [(key_id k, delta_bytes t)] |}
end.

(** The flush of the loaded keys that were charged. *)
Definition flush_charged (now : Z) (st : ingest_state) : SM unit :=
for_each (λ k, update_by_id keys_tbl (key_id k)
                 (λ r, write_key (key_used_traffic_bytes k) (is_revoked r) (valid_until r) now r) ;; mret tt)
  (filter (λ k, key_id k ∈ (is_history st).*1) (is_keys st)).

Definition charge_sub (now delta : Z) (b : Subscription) : Subscription :=
write_traffic (sub_used_traffic_bytes b + delta) (lifetime_used_traffic_bytes b + delta)
  (last_traffic_reset_at b) (traffic_warning_threshold_pct b) now b.

(** [not (not sub.plan or limit <= 0) and used >= limit]. *)
Definition over_limit (plan : option Plan) (used : Z) : bool :=
match plan with
| Some p => (0 <? traffic_limit_bytes p) && (traffic_limit_bytes p <=? used)
| None => false
end.

(** The subscriptions whose limit is reached. *)
Fixpoint charge_subs (now : Z) (deltas : gmap Z Z) (subs : list Subscription) : SM (list Z) :=
match subs with
| [] => mret []
| b :: subs =>
    let delta := default 0 (deltas !! sub_id b) in
    if delta <=? 0 then charge_subs now deltas subs
    else
      update_by_id subs_tbl (sub_id b) (charge_sub now delta) ;;
      plan ← plan_of b;
      rest ← charge_subs now deltas subs;
      mret (if over_limit plan (sub_used_traffic_bytes b + delta) then sub_id b :: rest else rest)
end.

Definition cut_off (kid now : Z) : SM unit :=
set_desired_state_for_key kid desired_inactive (Some _MIGRATION_REASON) now None ;;
enqueue_for_key_state command_prefix kid desired_inactive None.

Fixpoint revoke_keys (now : Z) (keys : list VpnKey) : SM Z :=
match keys with
| [] => mret 0
| k :: keys =>
    if is_revoked k then revoke_keys now keys
    else
      update_by_id keys_tbl (key_id k) (λ r, write_key (key_used_traffic_bytes r) true (valid_until r) now r) ;;
      cut_off (key_id k) now ;;
      n ← revoke_keys now keys;
      mret (n + 1)
end.

Definition _revoke_subscription_keys (sid now : Z) : SM Z :=
active_keys ← list_active_by_subscription_id sid;
revoke_keys now active_keys.

Fixpoint revoke_subscriptions (now : Z) (sids : list Z) : SM Z :=
match sids with
| [] => mret 0
| i :: sids => n ← _revoke_subscription_keys i now; m ← revoke_subscriptions now sids; mret (n + m)
end.

(** The limit of a key that has no subscription. *)
Definition key_over_limit (k : VpnKey) : bool :=
let limit_bytes := Z.max 0 (traffic_limit_mb k) * _MIB in
match key_subscription_id k with Some _ => false | None => true end && negb (is_revoked k) &&
(0 <? limit_bytes) && (limit_bytes <=? key_used_traffic_bytes k).

Fixpoint revoke_over_limit (now : Z) (keys : list VpnKey) : SM Z :=
match keys with
| [] => mret 0
| k :: keys =>
    if key_over_limit k then
      assign_revoked true k ;;
      cut_off (key_id k) now ;;
      n ← revoke_over_limit now keys;
      mret (n + 1)
    else revoke_over_limit now keys
end.

(** Phase 2. *)
Definition charge_subscriptions (now : Z) (deltas : gmap Z Z) : SM Z :=
if decide (deltas = ∅) then mret 0
else
  subs ← list_by_ids_with_plan ((map_to_list deltas).*1);
  exceeded ← charge_subs now deltas subs;
  match exceeded with [] => mret tt | _ => invalidate_by_subscription_ids exceeded end ;;
  revoke_subscriptions now exceeded.

Definition ingest_users_traffic (items : list UserTrafficIn) : SM IngestOut :=
match items with
| [] => mret {| in_processed := 0; in_revoked := 0 |}
| _ =>
    keys ← list_by_client_ids (identifier <$> items) true;
    match keys with
    | [] => mret {| in_processed := 0; in_revoked := 0 |}
    | _ =>
        now ← utcnow;
        let st := foldl (ingest_item now) {| is_keys := keys; is_deltas := ∅; is_history := [] |} items in
        flush_charged now st ;;
        by_plan ← charge_subscriptions now (is_deltas st);
        by_key ← revoke_over_limit now (is_keys st);
        bulk_create_usage (is_history st) ;;
        mret {| in_processed := Z.of_nat (length (is_history st)); in_revoked := by_plan + by_key |}
    end
end.

Definition cleanup_history (retention_days : Z) : SM Z :=
now ← utcnow;
delete_usage_older_than (now - Z.max 1 retention_days * day).

(** [TrafficHistoryCleanupReconciler._execute_tick]. *)
Definition traffic_cleanup_tick (retention_days : Z) : SM Z :=
run_committing (n ← cleanup_history retention_days; mret (n, true)).

(** * UserTrafficNatsConsumer *)

(** [json.loads] of the decoded payload, none when it raises; [UserTrafficIn.model_validate]. *)
Context (loads : string → option json) (model_validate : json → option UserTrafficIn).

Definition _parse_payload (raw : string) : list UserTrafficIn :=
match loads raw with
| Some (JList l) => omap (λ j, match j with JObj _ => model_validate j | _ => None end) l
| _ => []
end.

(** Returns when the message is acknowledged.  A session that wrote nothing is rolled
    back, which is a commit of nothing. *)
Definition traffic_handle_message (subject : string) (msg_id : option string) (raw : string) : SM unit :=
match _parse_payload raw with
| [] => mret tt
| items =>
    run_committing
      (claimed ← match msg_id with
                 | Some m => if nonempty m then claim subject m else mret true
                 | None => mret true
                 end;
       if negb claimed then mret (tt, false)
       else ingest_users_traffic items ;; mret (tt, true))
end.

(** * TrafficResetReconciler *)

Definition restore_key (now kid : Z) : SM unit :=
set_desired_state_for_key kid desired_active (Some _RESET_REASON) now None ;;
enqueue_for_key_state command_prefix kid desired_active None.

Definition reset_sub (now : Z) (b : Subscription) : SM unit :=
unrevoked ← bulk_reset_traffic_by_subscription (sub_id b);
update_by_id subs_tbl (sub_id b)
  (λ r, write_traffic 0 (lifetime_used_traffic_bytes r) (Some now) 0 now r) ;;
for_each (restore_key now) unrevoked.

Definition reset_strategy_tick (now : Z) (strategy : ResetStrategy) : SM unit :=
cutoff ← lift (reset_cutoff strategy now);
run_committing
  (subs ← list_needing_traffic_reset (reset_value strategy) cutoff;
   match subs with
   | [] => mret (tt, false)
   | _ => for_each (reset_sub now) subs ;; mret (tt, true)
   end).

Definition traffic_reset_tick : SM unit :=
now ← utcnow;
for_each (reset_strategy_tick now) RESETTABLE_STRATEGIES.

(** * SubscriptionExpirationReconciler *)

Definition tell_expired (users_ : list User) (b : Subscription) (plan : Plan) (paid : bool) : SM unit :=
match find (λ u, user_id u =? sub_user_id b) users_ with
| None => mret tt
| Some u =>
    when (negb (telegram_id u =? 0))
      (emit (if paid then PublishSubscriptionExpired (telegram_id u) (username u) (plan_name plan)
             else PublishTrialExpired (telegram_id u) (username u) (plan_name plan)))
end.

(** The subscriptions with their plans. *)
Fixpoint with_plans (l : list Subscription) : SM (list (Subscription * Plan)) :=
match l with
| [] => mret []
| b :: l => p ← plan_of b; r ← with_plans l; mret (match p with Some p => (b, p) :: r | None => r end)
end.

Definition _emit_expired_events (notifications : bool) (expired : list Subscription) : SM unit :=
if negb notifications then mret tt
else
  rel ← with_plans expired;
  let paid := filter (λ bp : Subscription * Plan, 0 < price_rub bp.2) rel in
  let trial := filter (λ bp : Subscription * Plan, ¬ 0 < price_rub bp.2) rel in
  match rel with
  | [] => mret tt
  | _ =>
      us ← select_where users_tbl (λ u, bool_decide (user_id u ∈ (λ bp : Subscription * Plan, sub_user_id bp.1) <$> rel));
      for_each (λ bp, tell_expired us bp.1 bp.2 true) paid ;;
      for_each (λ bp, tell_expired us bp.1 bp.2 false) trial
  end.

(** The transaction of a tick. *)
Definition expire_batch (batch_size : Z) : SM (TickResult * list Subscription) :=
run_committing
  (now ← utcnow;
   expired ← list_expired_active now (Z.to_nat (Z.max 1 batch_size));
   match expired with
   | [] => mret (({| subscriptions_expired := 0; keys_revoked := 0; placements_affected := 0 |}, []), false)
   | _ =>
       let sub_ids := sub_id <$> expired in
       revoked ← bulk_revoke_by_subscription_ids sub_ids;
       affected ← match revoked with
                  | [] => mret []
                  | _ => switch_placements command_prefix revoked desired_inactive "subscription_expired" now
                  end;
       bulk_deactivate sub_ids ;;
       bulk_deactivate_by_subscription_ids sub_ids ;;
       invalidate_by_subscription_ids sub_ids ;;
       mret (({| subscriptions_expired := Z.of_nat (length sub_ids);
                 keys_revoked := Z.of_nat (length revoked);
                 placements_affected := Z.of_nat (length affected) |}, expired), true)
   end).

Definition subscription_expiration_tick (notifications : bool) (batch_size : Z) : SM TickResult :=
r ← expire_batch batch_size;
_emit_expired_events notifications r.2 ;;
mret r.1.

(** * FirstConnectionReconciler *)

Definition first_connection_tick (batch_size : Z) : SM Z :=
run_committing
  (now ← utcnow;
   stamped ← stamp_first_connection now (Z.to_nat (Z.max 1 batch_size));
   match stamped with
   | [] => mret (0, false)
   | _ => mret (Z.of_nat (length stamped), true)
   end).
End Traffic.
