(* ===== verification/RouteProps.v ===== *)
(** Properties of the route service: the warm-up tick as a refinement of the health
    machine, what lowering a weight does, the eligibility shown to the administrator
    against the query that serves routes, and the upstream of an entry. *)

From stdpp Require Import base gmap strings list sorting.
From S2P Require Import Prelude Errors RouteModels RouteStateMachine BillingModels FleetModels Session Uuid NodeDisplay Tables FleetTables Routing Placements Routes.
Local Open Scope Z_scope.

(** * Well-formed rows *)

(** The CHECK constraints of the table, the bound of the schemas on weights and a
    warm-up position that is an index. *)
Definition route_wf (r : Route) : Prop :=
  0 ≤ effective_weight r ≤ base_weight r ∧ base_weight r ≤ 100 ∧
  (∀ k, warmup_stage r = Some k → 0 ≤ k).

Definition routes_wf (d : database) : Prop :=
  keyed routes_tbl d ∧ ∀ i r, routes d !! i = Some r → route_wf r.

Lemma route_inv_wf r : route_inv r → route_wf r.
Proof.
  intros (Hw & Hb & Hst). split_and!; [lia..|]. intros k Hk. rewrite Hk in Hst.
  destruct (health_status r); try (by destruct Hst as (? & ? & ?)).
  destruct Hst as (k' & t & Hk' & _ & ? & _). injection Hk' as <-. lia.
Qed.

Lemma apply_resolution_touch n r rs now :
  apply_resolution (touch_route n r) rs now = apply_resolution r rs now.
Proof. done. Qed.

(** Writing a resolution keeps the id and the name, so the only constraint is the
    CHECK. *)
Lemma resolution_check d r rs now :
  t_check routes_tbl d (Some r) (apply_resolution r rs now) =
  route_check (apply_resolution r rs now).
Proof.
  cbn [t_check routes_tbl]. destruct (route_check _); [done|].
  unfold unique_on, unique. cbn. by rewrite String.eqb_refl.
Qed.

Lemma write_state_run rid rs now s r :
  routes (db s) !! rid = Some r → route_id r = rid →
  write_state rid rs now s =
  match route_check (apply_resolution r rs now) with
  | Some c => (Raise (IntegrityError c), tick s)
  | None => (Ok (Some (apply_resolution r rs now)),
             with_db (put routes_tbl (apply_resolution r rs now)) (tick s))
  end.
Proof.
  intros Hr Hid. unfold write_state. rewrite update_run. cbn [t_rows routes_tbl t_touch]. rewrite Hr.
  cbv zeta. rewrite apply_resolution_touch, resolution_check.
  destruct (route_check _); [done|]. cbn. unfold put. cbn. rewrite Hid.
  by rewrite lookup_insert_eq.
Qed.

(** * Ticks *)

Definition is_warming (r : Route) : bool :=
  route_is_active r && bool_decide (health_status r = warming_up).

(** A row after a tick, by the machine. *)
Definition tick_row (now : Z) (r : Route) : Route :=
  if is_warming r then match run_ticks r [now] with Ok r' => r' | Raise _ => r end else r.

Lemma tick_resolves r now :
  route_wf r →
  ∃ o, resolve_warmup_tick r now DEFAULT_WARMUP_STAGES = Ok o ∧
    match o with
    | Some (rs, _) => route_wf (apply_resolution r rs now)
    | None => True
    end.
Proof.
  intros (Hw & Hb & Hk). assert (Hb' : 0 ≤ base_weight r ≤ 100) by lia.
  assert (Hfin : ∃ o, (h ← _healthy_state r; Ok (Some (h, finalized)) : res _) = Ok o ∧
    match o with Some (rs, _) => route_wf (apply_resolution r rs now) | None => True end).
  { unfold _healthy_state. rewrite mk_RouteStateResolution_ok by lia. eexists. split; [done|].
    cbn. split_and!; cbn; [lia..|done]. }
  destruct (warmup_stage r) as [k|] eqn:Hs;
    [|unfold resolve_warmup_tick; rewrite Hs; exact Hfin].
  specialize (Hk k eq_refl).
  destruct (warmup_started_at r) as [t|] eqn:Ht;
    [|unfold resolve_warmup_tick; rewrite Hs, Ht; exact Hfin].
  assert (k = 0 ∨ k = 1 ∨ 2 ≤ k) as [->|[->|Hge]] by lia.
  - rewrite (warmup_tick_stage_0 r now t) by done. destruct (now - t <? 30 * minute); [by exists None|].
    eexists. split; [done|]. cbn. pose proof (default_stage_weight_bounds (base_weight r) 1).
    split_and!; cbn; [lia..|]. intros ? [= <-]. lia.
  - rewrite (warmup_tick_stage_1 r now t) by done. destruct (now - t <? 60 * minute); [by exists None|].
    eexists. split; [done|]. cbn. split_and!; cbn; [lia..|done].
  - unfold resolve_warmup_tick. rewrite Hs, Ht.
    change (Z.of_nat (length DEFAULT_WARMUP_STAGES)) with 2.
    rewrite (proj2 (Z.leb_le 2 k)) by done. exact Hfin.
Qed.

Lemma tick_row_resolve r now o :
  is_warming r = true → resolve_warmup_tick r now DEFAULT_WARMUP_STAGES = Ok o →
  tick_row now r = match o with Some (rs, _) => apply_resolution r rs now | None => r end.
Proof.
  intros Hw Hr. unfold tick_row. rewrite Hw. cbn [run_ticks].
  apply andb_prop in Hw as [_ Hw]. rewrite Hw, Hr. cbn [mbind res_bind]. by destruct o as [[]|].
Qed.

Lemma tick_row_wf now r : route_wf r → route_wf (tick_row now r) ∧ route_id (tick_row now r) = route_id r.
Proof.
  intros Hwf. destruct (is_warming r) eqn:Hw; [|unfold tick_row; by rewrite Hw].
  destruct (tick_resolves r now Hwf) as (o & Hr & Ho).
  rewrite (tick_row_resolve r now o) by done. by destruct o as [[]|].
Qed.

(** How a tick counts. *)
Definition count_tick (now : Z) (acc : RouteWarmupTickOut) (r : Route) : RouteWarmupTickOut :=
  {| processed := processed acc + 1;
     advanced_count := advanced_count acc + match resolve_warmup_tick r now DEFAULT_WARMUP_STAGES with
                                            | Ok (Some (_, advanced)) => 1 | _ => 0 end;
     finalized_count := finalized_count acc + match resolve_warmup_tick r now DEFAULT_WARMUP_STAGES with
                                              | Ok (Some (_, finalized)) => 1 | _ => 0 end |}.

(** The sessions agree but for the routes and the readings of the clock. *)
Definition only_routes (s s' : session) : Prop :=
  db s' = set_routes (routes (db s')) (db s) ∧ clock s' = clock s ∧ next_uuid s' = next_uuid s ∧
  effects s' = effects s.

Lemma only_routes_refl s : only_routes s s.
Proof. split_and!; [|done..]. by destruct (db s). Qed.

Lemma only_routes_trans s1 s2 s3 : only_routes s1 s2 → only_routes s2 s3 → only_routes s1 s3.
Proof.
  intros (D1 & C1 & U1 & E1) (D2 & C2 & U2 & E2). split_and!; [|congruence..].
  rewrite D2 at 1. rewrite D1. by destruct (db s1).
Qed.

Lemma only_routes_put s r : only_routes s (with_db (put routes_tbl r) (Session.tick s)).
Proof. split_and!; [|done..]. unfold put. cbn. by destruct (db s). Qed.

Lemma only_routes_tick s : only_routes s (Session.tick s).
Proof. split_and!; [|done..]. cbn. by destruct (db s). Qed.

Lemma warmup_step_run now acc r s :
  keyed routes_tbl (db s) → routes (db s) !! route_id r = Some r → route_wf r → is_warming r = true →
  ∃ s', warmup_step now acc r s = (Ok (count_tick now acc r), s') ∧
    routes (db s') = <[route_id r := tick_row now r]> (routes (db s)) ∧ only_routes s s'.
Proof.
  intros Hk Hr Hwf Hw. destruct (tick_resolves r now Hwf) as (o & Ho & Hwf').
  unfold warmup_step, count_tick. rewrite Ho, (tick_row_resolve r now o) by done.
  unfold mbind at 1, M_bind at 1. cbn [lift]. unfold mret at 1, M_ret at 1.
  destruct o as [[rs tr]|].
  - unfold mbind, M_bind. rewrite (write_state_run _ _ _ _ r) by done.
    destruct Hwf' as (Hc & _). rewrite (proj2 (route_check_None _)) by done.
    eexists. split; [|split; [|apply only_routes_put]].
    + unfold mret, M_ret. f_equal. f_equal. destruct tr; f_equal; cbn; lia.
    + reflexivity.
  - exists s. split_and!; [|by rewrite insert_id|apply only_routes_refl].
    unfold mret, M_ret. do 2 f_equal. f_equal; cbn; lia.
Qed.

Lemma warmup_fold_run now l acc s :
  NoDup (route_id <$> l) → keyed routes_tbl (db s) →
  (∀ r, r ∈ l → routes (db s) !! route_id r = Some r ∧ route_wf r ∧ is_warming r = true) →
  ∃ s', fold_m (warmup_step now) acc l s = (Ok (foldl (count_tick now) acc l), s') ∧
    (∀ i, routes (db s') !! i =
       (λ r, if bool_decide (i ∈ route_id <$> l) then tick_row now r else r) <$> routes (db s) !! i) ∧
    only_routes s s'.
Proof.
  revert acc s. induction l as [|r l IH]; intros acc s Hnd Hk Hl.
  { exists s. split_and!; [done| |apply only_routes_refl]. intros i. cbn. by destruct (routes (db s) !! i). }
  cbn in Hnd. apply NoDup_cons in Hnd as [Hnin Hnd].
  destruct (Hl r) as (Hr & Hwf & Hw); [left|].
  destruct (warmup_step_run now acc r s Hk Hr Hwf Hw) as (s1 & Hrun & Hroutes & Honly).
  pose proof (tick_row_wf now r Hwf) as [_ Hid].
  destruct (IH (count_tick now acc r) s1) as (s2 & Hrun2 & Hroutes2 & Honly2); [done| | |].
  - intros i r'. cbn. rewrite Hroutes, lookup_insert. case_decide; [intros [= <-]; congruence|apply Hk].
  - intros r' Hr'. destruct (Hl r') as (Hlook & ? & ?); [by right|]. split; [|done].
    rewrite Hroutes, lookup_insert_ne; [done|]. intros Heq. apply Hnin. rewrite Heq.
    by apply list_elem_of_fmap_2.
  - exists s2. cbn [fold_m foldl]. unfold mbind, M_bind. rewrite Hrun.
    split_and!; [done| |by eapply only_routes_trans].
    intros i. rewrite Hroutes2, Hroutes. destruct (decide (i = route_id r)) as [->|Hne].
    + rewrite lookup_insert_eq, Hr. cbn. rewrite bool_decide_false by done.
      by rewrite bool_decide_true by (left; done).
    + rewrite lookup_insert_ne by done. destruct (routes (db s) !! i); [|done]. cbn.
      f_equal. rewrite (bool_decide_ext _ (i ∈ route_id r :: (route_id <$> l))); [done|].
      rewrite elem_of_cons. naive_solver.
Qed.

(** The routes a tick lists. *)
Definition warming_rows (d : database) : list Route :=
  order_by_asc route_updated_at (filter (λ r, is_warming r = true) (rows (routes d))).

Lemma elem_of_warming d r :
  keyed routes_tbl d →
  r ∈ warming_rows d ↔ routes d !! route_id r = Some r ∧ is_warming r = true.
Proof.
  intros Hk. unfold warming_rows, order_by_asc.
  rewrite merge_sort_Permutation, list_elem_of_filter, elem_of_rows. split.
  - intros [Hw [i Hi]]. split; [|done]. pose proof (Hk i r Hi) as E. cbn in E. by rewrite E.
  - intros [Hr Hw]. eauto.
Qed.

Lemma warming_NoDup d : keyed routes_tbl d → NoDup (route_id <$> warming_rows d).
Proof.
  intros Hk. unfold warming_rows, order_by_asc.
  rewrite (fmap_Permutation route_id _ _ (merge_sort_Permutation _ _)).
  eapply sublist_NoDup; [by apply (rows_ids_NoDup routes_tbl d)|]. apply fmap_sublist, sublist_filter.
Qed.

(** C22: a warm-up tick refines the health machine: on well-formed routes it never
    raises, processes exactly the active warming-up routes, writes to each the state
    the machine's tick gives at that instant and leaves every other route and every
    other table alone. *)
Theorem advance_warmup_refines (s : session) :
  routes_wf (db s) →
  let now := clock s (ticks s) in
  ∃ out s', advance_warmup s = (Ok out, s') ∧
    routes (db s') = tick_row now <$> routes (db s) ∧ only_routes s s' ∧ routes_wf (db s') ∧
    out = foldl (count_tick now) {| processed := 0; advanced_count := 0; finalized_count := 0 |}
            (warming_rows (db s)).
Proof.
  intros [Hk Hwf] now. unfold advance_warmup, mbind at 1, M_bind at 1, utcnow. fold (Session.tick s). fold now.
  unfold list_warming_up, mbind at 1 2, M_bind at 1 2, select_where, read, gets, mret at 1, M_ret at 1.
  cbn [t_rows routes_tbl]. change (db (Session.tick s)) with (db s). fold (warming_rows (db s)).
  destruct (warmup_fold_run now (warming_rows (db s))
    {| processed := 0; advanced_count := 0; finalized_count := 0 |} (Session.tick s))
    as (s' & Hrun & Hroutes & Honly); [by apply warming_NoDup|done| |].
  { intros r [Hr Hw]%elem_of_warming; [|done]. split_and!; [done| |done]. by eapply Hwf. }
  assert (Hall : routes (db s') = tick_row now <$> routes (db s)).
  { apply map_eq. intros i. rewrite Hroutes, lookup_fmap. change (db (Session.tick s)) with (db s).
    destruct (routes (db s) !! i) as [r|] eqn:Hr; [|done]. cbn. f_equal.
    case_bool_decide as Hin; [done|]. unfold tick_row. destruct (is_warming r) eqn:Hw; [|done].
    exfalso. apply Hin. rewrite <-(Hk i r Hr). apply list_elem_of_fmap_2, elem_of_warming; [done|].
    split; [|done]. pose proof (Hk i r Hr) as E. cbn in E. by rewrite E. }
  eexists _, s'. split_and!; [exact Hrun|done| | |done].
  - eapply only_routes_trans; [apply only_routes_tick|done].
  - split.
    + intros i r. cbn. rewrite Hall, lookup_fmap. destruct (routes (db s) !! i) as [r0|] eqn:Hr; [|done].
      intros [= <-]. rewrite (proj2 (tick_row_wf now r0 (Hwf i r0 Hr))). by apply (Hk i).
    + intros i r. rewrite Hall, lookup_fmap. destruct (routes (db s) !! i) as [r0|] eqn:Hr; [|done].
      intros [= <-]. apply tick_row_wf. by eapply Hwf.
Qed.

Lemma keeps_lift {A} (P : session → session → Prop) `{!PreOrder P} (r : res A) : keeps P (lift r).
Proof. destruct r; [apply keeps_ret|apply keeps_raise]; apply _. Qed.
#[export] Hint Resolve keeps_lift : keeps.

(** * Lowering a weight *)

(** The payload that changes the base weight only. *)
Definition set_base_weight (w : Z) : RouteUpdateIn :=
  {| rui_name := None; rui_node_id := None; rui_entry_node_id := None; rui_base_weight := Some (Some w) |}.

Lemma route_check_over r :
  0 ≤ base_weight r < effective_weight r →
  route_check r = Some "ck_route_effective_weight_lte_base_weight".
Proof.
  intros H. unfold route_check.
  by rewrite (proj2 (Z.leb_le 0 (base_weight r))), (proj2 (Z.leb_le 0 (effective_weight r))),
    (proj2 (Z.leb_gt (effective_weight r) (base_weight r))) by lia.
Qed.

(** A base weight below the current effective weight of a route that does not
    carry its full weight is accepted by the request schema and then rejected by
    the CHECK constraint: the update raises [IntegrityError] and leaves the database
    as it was. *)
Theorem base_weight_cannot_drop_below_effective (command_prefix : string) (rid w : Z) (r : Route)
    (s : session) :
  routes_wf (db s) → routes (db s) !! rid = Some r → route_is_active r = true →
  0 ≤ w < effective_weight r → effective_weight r ≠ base_weight r →
  RouteUpdateIn_valid (set_base_weight w) = true ∧
  ∃ s', update_route command_prefix rid (set_base_weight w) s =
        (Raise (IntegrityError "ck_route_effective_weight_lte_base_weight"), s') ∧ db s' = db s.
Proof.
  intros [Hk Hwf] Hr Ha Hw Hne. pose proof (Hwf rid r Hr) as (Heff & Hb & _). split.
  { cbn. rewrite andb_true_iff, !Z.leb_le. lia. }
  pose proof (Hk rid r Hr) as Hid. cbn in Hid.
  unfold update_route, mbind at 1, M_bind at 1, get_by_id at 1, read at 1, gets at 1.
  cbn [t_rows routes_tbl]. rewrite Hr, Ha. cbn [negb raise_if no_fields set_base_weight rui_name
    rui_node_id rui_entry_node_id rui_base_weight].
  unfold mbind at 1 2 3 4 5 6, M_bind at 1 2 3 4 5 6, mret, M_ret, utcnow. fold (Session.tick s).
  rewrite (proj2 (Z.eqb_neq _ _)) by done. cbn [writes_null rfu_name rfu_base_weight raise_if].
  unfold mret at 1, M_ret at 1, mbind at 1, M_bind at 1. rewrite update_run, Hid. cbn [t_rows routes_tbl db Session.tick]. rewrite Hr.
  cbv zeta. cbn [t_check t_touch routes_tbl]. rewrite route_check_over by (cbn; lia).
  eexists. split; reflexivity.
Qed.

(** * Eligibility *)

Lemma routing_reason_spec x now s p :
  head (order_by_desc np_id (rows (node_policies (db s)))) = Some p →
  is_virtual (dr_node x) = false →
  ∃ reason, _route_routing_reason x now s = (Ok reason, s) ∧
    (reason = None ↔
     backend_serves x && seen_after (Some (now - Z.max 30 (stale_after_sec p) * second)) x = true).
Proof.
  intros Hp Hv. unfold _route_routing_reason, backend_serves. rewrite Hv.
  destruct (route_is_active (dr_route x)); cbn; [|by eexists].
  destruct (Z.leb_spec (effective_weight (dr_route x)) 0) as [Hw|Hw].
  { rewrite (proj2 (Z.ltb_ge 0 _)) by done. by eexists. }
  rewrite (proj2 (Z.ltb_lt 0 _)) by done. cbn.
  destruct (servable_status _); cbn; [|by eexists].
  destruct (tp_is_active _); cbn; [|by eexists].
  destruct (node_is_active _); cbn; [|by eexists].
  destruct (is_enabled _); cbn; [|by eexists].
  destruct (is_draining _); cbn; [by eexists|].
  destruct (dr_agent_state x) as [a|]; [|by eexists].
  destruct (is_healthy a); cbn; [|by eexists].
  destruct (last_seen_at a) as [seen|]; [|by eexists].
  unfold _stale_after_sec, node_policy, mbind, M_bind, select_where, read, gets. cbn [t_rows policies_tbl].
  rewrite (filter_unchanged (λ r : NodePolicy, true = true)) by done.
  destruct (order_by_desc np_id _) as [|p' ps]; [done|]. injection Hp as ->.
  unfold mret, M_ret. eexists. split; [done|].
  destruct (Z.ltb_spec seen (now - Z.max 30 (stale_after_sec p) * second)) as [H|H];
    [rewrite (proj2 (Z.leb_gt _ _)) by done|rewrite (proj2 (Z.leb_le _ _)) by done]; done.
Qed.

Lemma fold_append_run {A B} (f : A → SM B) (g : A → B) l acc s :
  (∀ x, x ∈ l → f x s = (Ok (g x), s)) →
  fold_m (λ acc x, out ← f x; mret (acc ++ [out])) acc l s = (Ok (acc ++ (g <$> l)), s).
Proof.
  revert acc. induction l as [|x l IH]; intros acc Hl; cbn; [by rewrite app_nil_r|].
  unfold mbind, M_bind. rewrite Hl by left. unfold mret, M_ret.
  rewrite IH by (intros y Hy; apply Hl; by right). by rewrite <-(assoc_L (++)).
Qed.

Lemma heaviest_first_perm {A} (f : A → Route) l : heaviest_first f l ≡ₚ l.
Proof. unfold heaviest_first, order_by_desc, order_by_name. by rewrite !merge_sort_Permutation. Qed.

Lemma resolution_order_perm n r l : resolution_order n r l ≡ₚ l.
Proof.
  unfold resolution_order, order_by_asc, order_by_desc.
  destruct n; [|destruct (truthy r)]; by rewrite !merge_sort_Permutation.
Qed.

Lemma rows_length {R} (m : gmap Z R) : length (rows m) = size m.
Proof. unfold rows. by rewrite length_fmap, length_map_to_list. Qed.

Lemma omap_length_le {A B} (f : A → option B) l : (length (omap f l) ≤ length l)%nat.
Proof. induction l as [|x l IH]; cbn; [done|]. destruct (f x); cbn; lia. Qed.

Lemma detailed_route d r x : detailed d r = Some x → dr_route x = r.
Proof.
  unfold detailed. destruct (nodes d !! _); [|done]. cbn.
  destruct (transport_profiles d !! _); [|done]. by intros [= <-].
Qed.

(** The rows of [list_active_detailed] for every node. *)
Definition listed (d : database) (limit : nat) : list DetailedRoute :=
  take limit (heaviest_first dr_route (omap (detailed d)
    (filter (λ r, (route_is_active r && true) = true) (rows (routes d))))).

Lemma elem_of_listed d limit :
  (size (routes d) ≤ limit)%nat →
  ∀ x, x ∈ listed d limit ↔ ∃ i, routes d !! i = Some (dr_route x) ∧
    route_is_active (dr_route x) = true ∧ detailed d (dr_route x) = Some x.
Proof.
  intros Hlim x. unfold listed. rewrite take_ge.
  - rewrite heaviest_first_perm, list_elem_of_omap. split.
    + intros (r' & [Ha [i Hi]%elem_of_rows]%list_elem_of_filter & Hd).
      assert (dr_route x = r') as <- by (by eapply detailed_route).
      rewrite andb_true_r in Ha. eauto.
    + intros (i & Hi & Ha & Hd). exists (dr_route x). split; [|done].
      apply list_elem_of_filter. rewrite Ha. split; [done|]. apply elem_of_rows. eauto.
  - rewrite heaviest_first_perm. etrans; [apply omap_length_le|].
    etrans; [apply length_filter|]. by rewrite rows_length.
Qed.

(** The list shown to the administrator marks as eligible exactly the routes
    the resolution query serves: with a policy row and no virtual node behind a
    route, a route is listed with [routing_eligible] if and only if
    [list_resolved_active] returns it, entries aside, for the policy's staleness. *)
Theorem eligible_iff_resolved (limit : nat) (p : NodePolicy) (s : session) (r : Route) :
  head (order_by_desc np_id (rows (node_policies (db s)))) = Some p →
  (∀ i n, nodes (db s) !! i = Some n → is_virtual n = false) →
  (size (routes (db s)) ≤ limit)%nat →
  let cutoff := clock s (ticks s) - Z.max 30 (stale_after_sec p) * second in
  ∃ outs s' l,
    list_routes None limit s = (Ok outs, s') ∧ db s' = db s ∧
    list_resolved_active None None limit None (Some cutoff) true s = (Ok l, s) ∧
    ((∃ out, out ∈ outs ∧ ro_route out = r ∧ routing_eligible out = true) ↔
     (∃ x, x ∈ l ∧ dr_route x = r)).
Proof.
  intros Hp Hv Hlim cutoff. unfold list_routes, list_active_detailed, list_resolved_active.
  unfold mbind at 1 2, M_bind at 1 2, read, gets, utcnow. fold (Session.tick s).
  set (now := clock s (ticks s)) in *. cbn [limited of_node].
  fold (listed (db s) limit). set (dl := listed (db s) limit).
  pose proof (elem_of_listed (db s) limit Hlim) as Hdl. fold dl in Hdl.
  assert (Hnode : ∀ x, x ∈ dl → is_virtual (dr_node x) = false).
  { intros x (i & _ & _ & Hd)%Hdl. unfold detailed in Hd.
    destruct (nodes (db s) !! _) as [n|] eqn:Hn; [|done]. cbn in Hd.
    destruct (transport_profiles (db s) !! _); [|done]. injection Hd as <-. cbn. eauto. }
  set (reason x := match (_route_routing_reason x now (Session.tick s)).1 with Ok o => o | Raise _ => None end).
  set (g x := {| ro_route := dr_route x; routing_eligible := match reason x with None => true | _ => false end;
                 routing_reason := reason x |}).
  assert (Hreason : ∀ x, x ∈ dl → _build_route_out now x (Session.tick s) = (Ok (g x), Session.tick s) ∧
    (routing_eligible (g x) = true ↔ backend_serves x && seen_after (Some cutoff) x = true)).
  { intros x Hx. destruct (routing_reason_spec x now (Session.tick s) p) as (o & Ho & Hiff); [done|by apply Hnode|].
    unfold _build_route_out, mbind, M_bind, g, reason. rewrite Ho. split; [done|]. cbn.
    fold cutoff in Hiff. destruct o; naive_solver. }
  rewrite (fold_append_run (_build_route_out now) g) by (intros x Hx; by apply Hreason).
  eexists _, _, _. split_and!; [reflexivity|done|reflexivity|].
  rewrite take_ge; last first.
  { rewrite resolution_order_perm. etrans; [apply length_filter|].
    etrans; [apply omap_length_le|]. by rewrite rows_length. }
  cbn [app]. split.
  - intros (out & (x & -> & Hx)%list_elem_of_fmap & <- & He).
    apply (Hreason x Hx) in He. exists x. split; [|done]. rewrite resolution_order_perm.
    apply list_elem_of_filter. apply Hdl in Hx as (i & Hi & Ha & Hd). split.
    + by apply andb_prop in He as [-> ->].
    + apply list_elem_of_omap. exists (dr_route x). split; [|done]. apply elem_of_rows. eauto.
  - intros (x & Hx & <-). rewrite resolution_order_perm in Hx.
    apply list_elem_of_filter in Hx as [Hf (r' & [i Hi]%elem_of_rows & Hd)%list_elem_of_omap].
    rewrite !andb_true_iff in Hf. destruct Hf as [[[Hbs _] _] Hseen].
    assert (dr_route x = r') as <- by (by eapply detailed_route).
    assert (Hx : x ∈ dl).
    { apply Hdl. exists i. split_and!; [done| |done]. unfold backend_serves in Hbs.
      by destruct (route_is_active (dr_route x)). }
    exists (g x). split; [by apply list_elem_of_fmap_2|]. split; [done|].
    apply (Hreason x Hx). by rewrite Hbs, Hseen.
Qed.
