(* ===== verification/ProbeRepo.v ===== *)
(** The probe signals (services/probe/repository.py) and the alert events
    (services/alerts/repository.py). *)

From stdpp Require Import base gmap strings list sorting.
From S2P Require Import Prelude Decimal Errors RouteModels BillingModels FleetModels Session Tables FleetTables.
Local Open Scope Z_scope.

(** * Probe signals *)

(** [order_by(checked_at.desc(), created_at.desc())]. *)
Definition latest_first (l : list ProbeSignal) : list ProbeSignal :=
  order_by_desc checked_at (order_by_desc ps_created_at l).

(** [if source: stmt.where(source == source)]. *)
Definition from_source (source : option string) (p : ProbeSignal) : bool :=
  match source with
  | Some src => negb (nonempty src) || String.eqb (ps_source p) src
  | None => true
  end.

Definition node_scope (nid : Z) (p : ProbeSignal) : bool :=
  ps_is_active p && (ps_node_id p =? nid) && bool_decide (ps_route_id p = None).

Definition route_scope (rid : Z) (p : ProbeSignal) : bool :=
  ps_is_active p && bool_decide (ps_route_id p = Some rid).

(** A backend is judged by its own signals and by the synthetic ones of its routes. *)
Definition backend_scope (nid : Z) (p : ProbeSignal) : bool :=
  ps_is_active p && (ps_node_id p =? nid) &&
  (bool_decide (ps_route_id p = None) || String.eqb (ps_probe_kind p) "synthetic_vpn").

Definition list_signals (P : ProbeSignal → bool) (limit : nat) : SM (list ProbeSignal) :=
  l ← select_where probe_signals_tbl P;
  mret (take limit (latest_first l)).

Definition get_latest_for_node (nid : Z) (source : option string) : SM (option ProbeSignal) :=
  l ← list_signals (λ p, node_scope nid p && from_source source p) 1; mret (head l).

Definition get_latest_for_route (rid : Z) (source : option string) : SM (option ProbeSignal) :=
  l ← list_signals (λ p, route_scope rid p && from_source source p) 1; mret (head l).

Definition list_recent (limit : nat) (nid rid : option Z) (source : option string)
    : SM (list ProbeSignal) :=
  list_signals (λ p, ps_is_active p &&
    match nid with Some n => ps_node_id p =? n | None => true end &&
    match rid with Some r => bool_decide (ps_route_id p = Some r) | None => true end &&
    from_source source p) limit.

Definition list_recent_for_node (limit : nat) (nid : Z) (source : option string)
    : SM (list ProbeSignal) :=
  list_signals (λ p, node_scope nid p && from_source source p) limit.

Definition get_latest_for_backend_node (nid : Z) (source : option string) : SM (option ProbeSignal) :=
  l ← list_signals (λ p, backend_scope nid p && from_source source p) 1; mret (head l).

Definition list_recent_for_backend_node (limit : nat) (nid : Z) (source : option string)
    : SM (list ProbeSignal) :=
  list_signals (λ p, backend_scope nid p && from_source source p) limit.

(** A synthetic signal an entry reports about a route of the backend. *)
Definition mesh_scope (d : database) (backend : Z) (p : ProbeSignal) : bool :=
  ps_is_active p && String.eqb (ps_probe_kind p) "synthetic_vpn" &&
  match ps_route_id p ≫= λ rid, routes d !! rid with
  | Some r => (route_node_id r =? backend) && bool_decide (route_entry_node_id r = Some (ps_node_id p))
  | None => false
  end.

Definition get_latest_mesh_for_backend (backend : Z) : SM (option ProbeSignal) :=
  read (λ d, head (latest_first (filter (λ p, mesh_scope d backend p = true) (rows (probe_signals d))))).

(** [for (is_reachable,) in rows: if is_reachable: break; count += 1]. *)
Fixpoint leading_failures (l : list ProbeSignal) : Z :=
  match l with
  | [] => 0
  | p :: l => if is_reachable p then 0 else leading_failures l + 1
  end.

Definition count_consecutive_route_failures (rid : Z) (limit : nat) (probe_kind : option string) : SM Z :=
  l ← list_signals (λ p, route_scope rid p &&
        match probe_kind with Some k => String.eqb (ps_probe_kind p) k | None => true end) limit;
  mret (leading_failures l).

Definition count_consecutive_node_failures (nid : Z) (limit : nat) : SM Z :=
  l ← list_signals (node_scope nid) limit;
  mret (leading_failures l).

Definition delete_older_than (cutoff : Z) : SM Z :=
  delete_where probe_signals_tbl (λ p, checked_at p <? cutoff).

(** [(await policy_repository.list(limit=1))[0]]. *)
Definition probe_policy : SM ProbePolicy :=
  l ← select_where probe_policies_tbl (λ _, true);
  match order_by_desc pp_id l with
  | p :: _ => mret p
  | [] => raise IndexError
  end.

(** ** Counting failures *)

Lemma leading_failures_bounds l : 0 ≤ leading_failures l ≤ Z.of_nat (length l).
Proof. induction l as [|p l IH]; cbn [leading_failures length]; [lia|]. destruct (is_reachable p); lia. Qed.

(** At least [k] failures lead exactly when the first [k] signals are failures. *)
Lemma leading_failures_ge l (k : nat) :
  Z.of_nat k ≤ leading_failures l ↔
  (k ≤ length l)%nat ∧ Forall (λ p, is_reachable p = false) (take k l).
Proof.
  revert k. induction l as [|p l IH]; intros [|k]; cbn [leading_failures length take].
  - split; [intros _; split; [lia|done]|lia].
  - split; [lia|intros [? _]; lia].
  - pose proof (leading_failures_bounds (p :: l)) as Hb. cbn [leading_failures] in Hb.
    split; [intros _; split; [lia|done]|lia].
  - destruct (is_reachable p) eqn:Hp.
    + split; [lia|]. intros [_ [H _]%Forall_cons]. congruence.
    + rewrite Forall_cons, Hp. specialize (IH k). split.
      * intros H. destruct (proj1 IH ltac:(lia)) as [? ?]. split; [lia|done].
      * intros (Hlen & _ & Hall). assert (Z.of_nat k ≤ leading_failures l) by (apply IH; split; [lia|done]). lia.
Qed.

(** * Alert events *)

Definition DEDUP_WINDOW_SEC : Z := 300.

Definition find_active_by_dedup (source dedup_key : string) (within_seconds : Z)
    : SM (option AlertEvent) :=
  now ← utcnow;
  let cutoff := now - within_seconds * second in
  l ← select_where alerts_tbl (λ a, String.eqb (al_source a) source &&
        sql_eqb (al_dedup_key a) (Some dedup_key) && bool_decide (resolved_at a = None) &&
        bool_decide (dismissed_at a = None) && (cutoff <=? al_last_seen_at a));
  mret (head (order_by_desc al_last_seen_at l)).

Definition insert_alert (level source title body : string) (dedup_key entity_id : option string)
    (telegram_sent : bool) : SM AlertEvent :=
  now ← utcnow;
  create alerts_tbl (λ id created,
    {| al_id := id; al_level := level; al_source := source; al_dedup_key := dedup_key;
       al_entity_id := entity_id; al_title := title; al_body := body; occurrences := 1;
       al_last_seen_at := now; read_at := None; resolved_at := None; dismissed_at := None;
       telegram_sent_at := (if telegram_sent then Some now else None);
       al_created_at := created; al_updated_at := created |}).

Definition bump_existing (alert : AlertEvent) (telegram_sent : bool) : SM (option AlertEvent) :=
  now ← utcnow;
  update_by_id alerts_tbl (al_id alert) (λ a,
    {| al_id := al_id a; al_level := al_level a; al_source := al_source a;
       al_dedup_key := al_dedup_key a; al_entity_id := al_entity_id a; al_title := al_title a;
       al_body := al_body a; occurrences := occurrences a + 1; al_last_seen_at := now;
       read_at := read_at a; resolved_at := resolved_at a; dismissed_at := dismissed_at a;
       telegram_sent_at := (if telegram_sent then Some now else telegram_sent_at a);
       al_created_at := al_created_at a; al_updated_at := al_updated_at a |}).

Definition resolved (now : Z) (a : AlertEvent) : AlertEvent :=
  {| al_id := al_id a; al_level := al_level a; al_source := al_source a;
     al_dedup_key := al_dedup_key a; al_entity_id := al_entity_id a; al_title := al_title a;
     al_body := al_body a; occurrences := occurrences a; al_last_seen_at := al_last_seen_at a;
     read_at := read_at a; resolved_at := Some now; dismissed_at := dismissed_at a;
     telegram_sent_at := telegram_sent_at a; al_created_at := al_created_at a; al_updated_at := now |}.

Definition resolve_active (source dedup_key : string) : SM Z :=
  now ← utcnow;
  ids ← update_where alerts_tbl (λ a, String.eqb (al_source a) source &&
          sql_eqb (al_dedup_key a) (Some dedup_key) && bool_decide (resolved_at a = None) &&
          bool_decide (dismissed_at a = None)) (resolved now);
  mret (Z.of_nat (length ids)).

(** ** The inbox *)

(** [marked read dismissed now a]: the columns the inbox writes. *)
Definition inbox_mark (read dismissed : option Z) (now : Z) (a : AlertEvent) : AlertEvent :=
  {| al_id := al_id a; al_level := al_level a; al_source := al_source a;
     al_dedup_key := al_dedup_key a; al_entity_id := al_entity_id a; al_title := al_title a;
     al_body := al_body a; occurrences := occurrences a; al_last_seen_at := al_last_seen_at a;
     read_at := read; resolved_at := resolved_at a; dismissed_at := dismissed;
     telegram_sent_at := telegram_sent_at a; al_created_at := al_created_at a; al_updated_at := now |}.

Definition is_unread (a : AlertEvent) : bool := bool_decide (read_at a = None).
Definition is_undismissed (a : AlertEvent) : bool := bool_decide (dismissed_at a = None).

Definition count_unread : SM Z :=
  l ← select_where alerts_tbl (λ a, is_unread a && is_undismissed a);
  mret (Z.of_nat (length l)).

Definition mark_read (alert_id : Z) : SM bool :=
  now ← utcnow;
  ids ← update_where alerts_tbl (λ a, (al_id a =? alert_id) && is_unread a)
          (λ a, inbox_mark (Some now) (dismissed_at a) now a);
  mret (0 <? Z.of_nat (length ids)).

Definition mark_all_read : SM Z :=
  now ← utcnow;
  ids ← update_where alerts_tbl (λ a, is_unread a && is_undismissed a)
          (λ a, inbox_mark (Some now) (dismissed_at a) now a);
  mret (Z.of_nat (length ids)).

Definition dismiss (alert_id : Z) : SM bool :=
  now ← utcnow;
  ids ← update_where alerts_tbl (λ a, (al_id a =? alert_id) && is_undismissed a)
          (λ a, inbox_mark (read_at a) (Some now) now a);
  mret (0 <? Z.of_nat (length ids)).

(** [if level: where(level == level)]. *)
Definition matches_text (wanted : option string) (actual : string) : bool :=
  match wanted with Some w => negb (nonempty w) || String.eqb actual w | None => true end.

Definition list_paginated (unread_only active_only : bool) (level source : option string)
    (limit offset : nat) : SM (list AlertEvent * Z) :=
  l ← select_where alerts_tbl (λ a, (negb unread_only || is_unread a) &&
        (negb active_only || is_undismissed a) && matches_text level (al_level a) &&
        matches_text source (al_source a));
  mret (take limit (drop offset (order_by_desc al_last_seen_at l)), Z.of_nat (length l)).

Definition delete_alerts_older_than (cutoff : Z) : SM Z :=
  delete_where alerts_tbl (λ a, al_created_at a <? cutoff).
