(* ===== verification/AgentDetails.v ===== *)
(** The [details] of an agent state: a JSON object whose ["heartbeat"] entry keeps
    the counters and the drain reason of a node (services/nodes/schemas.py,
    [NodeHeartbeatMeta]). *)

From stdpp Require Import base strings list.
From Stdlib Require Import Ascii.
From S2P Require Import Prelude Errors Uuid NodeDisplay RouteModels BillingModels.
Local Open Scope Z_scope.

Definition HEARTBEAT_DETAILS_KEY : string := "heartbeat".
Definition DRAIN_REASON_UNHEALTHY_HEARTBEAT : string := "unhealthy_heartbeat".
Definition DRAIN_REASON_ENTRY_AUTO_DRAIN : string := "entry_auto_drain".

(** [d.pop(key, None)]. *)
Fixpoint dict_pop (k : string) (d : list (string * json)) : list (string * json) :=
  match d with
  | [] => []
  | (k', v) :: d => if String.eqb k k' then dict_pop k d else (k', v) :: dict_pop k d
  end.

(** [d[key] if isinstance(d.get(key), dict) else {}]. *)
Definition sub_dict (key : string) (d : list (string * json)) : list (string * json) :=
  match dict_get key d with Some (JObj fields) => fields | _ => [] end.

(** * [int(s)] *)

Definition dec_digit (c : ascii) : option Z :=
  let n := code c in if (48 <=? n) && (n <=? 57) then Some (n - 48) else None.

(** Digits with single underscores between them. *)
Fixpoint dec_digits (acc : Z) (last_us : bool) (s : string) : option Z :=
  match s with
  | EmptyString => if last_us then None else Some acc
  | String c s' =>
      if bool_decide (c = "_"%char) then (if last_us then None else dec_digits acc true s')
      else match dec_digit c with
           | Some v => dec_digits (acc * 10 + v) false s'
           | None => None
           end
  end.

Definition dec_number (s : string) : option Z :=
  match s with
  | EmptyString => None
  | String c _ => if bool_decide (c = "_"%char) then None else dec_digits 0 false s
  end.

(** The number in a string, [None] when [int] raises [ValueError]. *)
Definition int_of_string (s : string) : option Z :=
  match py_strip s with
  | String c t => if bool_decide (c = "-"%char) then Z.opp <$> dec_number t
                  else if bool_decide (c = "+"%char) then dec_number t
                  else dec_number (String c t)
  | EmptyString => None
  end.

(** [try: max(0, int(raw)) except (TypeError, ValueError): 0]. *)
Definition _safe_int (raw : option json) : Z :=
  match raw with
  | Some (JInt z) => Z.max 0 z
  | Some (JBool b) => Z.b2z b
  | Some (JStr s) => Z.max 0 (default 0 (int_of_string s))
  | _ => 0
  end.

(** * The heartbeat entry *)

Record NodeHeartbeatMeta := {
  consecutive_unhealthy : Z;
  consecutive_healthy : Z;
  drain_reason : option string;
  drained_at : option Z;
}.

(** [model_dump(mode="json", exclude_none=True)]. *)
Definition dump_meta (m : NodeHeartbeatMeta) : list (string * json) :=
  [("consecutive_unhealthy", JInt (consecutive_unhealthy m));
   ("consecutive_healthy", JInt (consecutive_healthy m))] ++
  match drain_reason m with Some r => [("drain_reason", JStr r)] | None => [] end ++
  match drained_at m with Some t => [("drained_at", JTime t)] | None => [] end.

(** A counter and a nullable field, as the schema validates them; values of a
    type no writer of the entry produces are rejected. *)
Definition valid_counter (v : option json) : res Z :=
  match v with
  | None => Ok 0
  | Some (JInt z) => if 0 <=? z then Ok z else Raise (ValidationError "ge")
  | Some (JBool b) => Ok (Z.b2z b)
  | Some _ => Raise (ValidationError "int")
  end.
Definition valid_reason (v : option json) : res (option string) :=
  match v with
  | None | Some JNull => Ok None
  | Some (JStr s) => Ok (Some s)
  | Some _ => Raise (ValidationError "str")
  end.
Definition valid_time (v : option json) : res (option Z) :=
  match v with
  | None | Some JNull => Ok None
  | Some (JTime t) => Ok (Some t)
  | Some _ => Raise (ValidationError "datetime")
  end.

(** [NodeHeartbeatMeta.model_validate]. *)
Definition validate_meta (d : list (string * json)) : res NodeHeartbeatMeta :=
  u ← valid_counter (dict_get "consecutive_unhealthy" d);
  h ← valid_counter (dict_get "consecutive_healthy" d);
  r ← valid_reason (dict_get "drain_reason" d);
  t ← valid_time (dict_get "drained_at" d);
  Ok {| consecutive_unhealthy := u; consecutive_healthy := h; drain_reason := r; drained_at := t |}.

Definition _load_heartbeat_meta (details : list (string * json)) : res NodeHeartbeatMeta :=
  validate_meta (sub_dict HEARTBEAT_DETAILS_KEY details).

(** [VpnNodeService._next_heartbeat_meta]: the counters and the reason carry over,
    the time of the drain does not. *)
Definition _next_heartbeat_meta (base_details : list (string * json)) (is_healthy : bool)
    : NodeHeartbeatMeta :=
  let heartbeat_data := sub_dict HEARTBEAT_DETAILS_KEY base_details in
  let u := _safe_int (dict_get "consecutive_unhealthy" heartbeat_data) in
  let h := _safe_int (dict_get "consecutive_healthy" heartbeat_data) in
  {| consecutive_unhealthy := (if is_healthy then 0 else u + 1);
     consecutive_healthy := (if is_healthy then h + 1 else 0);
     drain_reason := match dict_get "drain_reason" heartbeat_data with
                     | Some (JStr r) => if negb (String.eqb (py_strip r) "") then Some r else None
                     | _ => None
                     end;
     drained_at := None |}.

(** * Lookups *)

Lemma dict_get_set k v d : dict_get k (dict_set k v d) = Some v.
Proof.
  induction d as [|[k' v'] d IH]; cbn; [by rewrite String.eqb_refl|].
  destruct (String.eqb k k') eqn:E; cbn; [by rewrite String.eqb_refl|]. by rewrite E.
Qed.

Lemma dict_get_set_ne k k' v d : k ≠ k' → dict_get k (dict_set k' v d) = dict_get k d.
Proof.
  intros Hne. apply String.eqb_neq in Hne as Hb. induction d as [|[k1 v1] d IH]; cbn; [by rewrite Hb|].
  destruct (String.eqb k' k1) eqn:E; cbn.
  - apply String.eqb_eq in E as <-. by rewrite Hb.
  - by rewrite IH.
Qed.

Lemma dict_get_pop k d : dict_get k (dict_pop k d) = None.
Proof.
  induction d as [|[k' v] d IH]; cbn; [done|]. destruct (String.eqb k k') eqn:E; [done|]. cbn. by rewrite E.
Qed.

Lemma dict_get_pop_ne k k' d : k ≠ k' → dict_get k (dict_pop k' d) = dict_get k d.
Proof.
  intros Hne. apply String.eqb_neq in Hne as Hb. induction d as [|[k1 v1] d IH]; cbn; [done|].
  destruct (String.eqb k' k1) eqn:E; cbn.
  - apply String.eqb_eq in E as <-. by rewrite Hb.
  - by rewrite IH.
Qed.

(** What is dumped is read back. *)
Lemma validate_dump m :
  0 ≤ consecutive_unhealthy m → 0 ≤ consecutive_healthy m → validate_meta (dump_meta m) = Ok m.
Proof.
  intros Hu Hh. destruct m as [u h [r|] [t|]]; unfold validate_meta, dump_meta; cbn in *;
    by rewrite (proj2 (Z.leb_le 0 u) Hu), (proj2 (Z.leb_le 0 h) Hh).
Qed.
