(* ===== verification/AdminAuth.v ===== *)
(** The administrators of the panel (services/auth/admin): logins, sessions, roles, the
    users themselves, the rate limit of logins, and the checks of
    services/auth/dependencies.py that guard the other routers. *)

From stdpp Require Import base gmap strings list sorting pretty.
From Stdlib Require Import Ascii.
From S2P Require Import Prelude Decimal Errors RouteModels BillingModels FleetModels SupportModels Session Uuid NodeDisplay Tables Routes VlessUri SupportTables AgentDetails.
Local Open Scope Z_scope.

(** * Roles *)

Definition role_value (r : AdminRole) : string :=
  match r with role_admin => "admin" | role_operator => "operator" | role_viewer => "viewer" end.

Definition ROLE_HIERARCHY (r : AdminRole) : Z :=
  match r with role_viewer => 0 | role_operator => 1 | role_admin => 2 end.

(** * Secrets *)

(** [hashlib.pbkdf2_hmac] in hexadecimal, [hashlib.sha256(...).hexdigest], the bytes of the
    [n]-th draw of [os.urandom] and the text of the [n]-th draw of [secrets.token_hex]. *)
Record Crypto := {
  pbkdf2 : string → list Z → string;
  sha256_hex : string → string;
  urandom : Z → list Z;
  token_hex : Z → string;
}.

(** [bytes.hex]. *)
Fixpoint bytes_hex (l : list Z) : string :=
  match l with
  | [] => ""
  | b :: l => String (hex_char (b / 16)) (String (hex_char (b mod 16)) (bytes_hex l))
  end.

(** [bytes.fromhex]: white space between the bytes is skipped. *)
Fixpoint fromhex (s : string) : res (list Z) :=
  match s with
  | "" => Ok []
  | String c s =>
      if is_space c then fromhex s
      else match s with
           | "" => Raise (ValueError "non-hexadecimal number found in fromhex()")
           | String d s =>
               match hex_digit c, hex_digit d with
               | Some hi, Some lo => l ← fromhex s; Ok (hi * 16 + lo :: l)
               | _, _ => Raise (ValueError "non-hexadecimal number found in fromhex()")
               end
           end
  end.

(** [s.split(sep, 1)] with two parts; [None] is the [ValueError] of the unpacking. *)
Fixpoint split_once (c : ascii) (s : string) : option (string * string) :=
  match s with
  | "" => None
  | String x s => if Ascii.eqb x c then Some ("", s)
                  else (λ p : string * string, (String x p.1, p.2)) <$> split_once c s
  end.

(** * Configuration *)

Record AdminAuthConfig := {
  ac_enabled : bool;
  session_ttl_sec : Z;
  telegram_login_enabled : bool;
  telegram_client_id : string;
  telegram_client_secret : string;
  telegram_allowed_ids : list Z;
  ac_crypto : Crypto;
}.

(** The Telegram side of a login: the answer to the code exchange, or its error, and the
    claims of an id token whose signature, audience, issuer and dates hold. *)
Record TelegramOidc := {
  exchange : list (string * json) + option string;
  decode : string → option (list (string * json));
}.

Record LoginOut := { lo_username : string; lo_role : AdminRole; lo_csrf_token : string }.

Section AdminAuth.
Context (cfg : AdminAuthConfig).

Definition draw_token : SM string := n ← uuid4; mret (token_hex (ac_crypto cfg) n).

Definition hash_password (password : string) : SM string :=
n ← uuid4;
let salt := urandom (ac_crypto cfg) n in
mret (bytes_hex salt +:+ ":" +:+ pbkdf2 (ac_crypto cfg) password salt).

Definition verify_password (password stored : string) : res bool :=
match split_once ":" stored with
| None => Ok false
| Some (salt_hex, dk_hex) => salt ← fromhex salt_hex; Ok (String.eqb (pbkdf2 (ac_crypto cfg) password salt) dk_hex)
end.

Definition hash_session_id (sid : string) : string := sha256_hex (ac_crypto cfg) sid.

(** * Repositories *)

Definition get_by_username (name : string) : SM (option AdminUser) :=
l ← select_where admin_users_tbl (λ u, String.eqb (au_username u) name); scalar_one_or_none l.

Definition get_admin_by_telegram_id (tg : Z) : SM (option AdminUser) :=
l ← select_where admin_users_tbl (λ u, bool_decide (au_telegram_id u = Some tg)); scalar_one_or_none l.

Definition active_admin (u : AdminUser) : bool := bool_decide (au_role u = role_admin) && au_is_active u.

Definition count_active_admins : SM Z :=
l ← select_where admin_users_tbl active_admin; mret (Z.of_nat (length l)).

Definition session_valid (now : Z) (r : AdminSession) : bool := (now <? ase_expires_at r) && ase_is_active r.

Definition get_valid_by_hash (h : string) : SM (option AdminSession) :=
now ← utcnow;
l ← select_where admin_sessions_tbl (λ r, String.eqb (session_hash r) h && session_valid now r);
scalar_one_or_none l.

Definition delete_by_hash (h : string) : SM unit :=
delete_where admin_sessions_tbl (λ r, String.eqb (session_hash r) h) ;; mret tt.

Definition delete_expired : SM Z := now ← utcnow; delete_where admin_sessions_tbl (λ r, ase_expires_at r <=? now).
Definition delete_by_user_id (uid : Z) : SM Z := delete_where admin_sessions_tbl (λ r, ase_user_id r =? uid).

Definition list_sessions_by_user_id (uid : Z) : SM (list AdminSession) :=
now ← utcnow;
l ← select_where admin_sessions_tbl (λ r, (ase_user_id r =? uid) && session_valid now r);
mret (order_by_desc ase_created_at l).

Definition log_event (action : string) (uid : option Z) (detail ip : option string) : SM unit :=
create admin_events_tbl (λ id now,
  {| aae_id := id; aae_user_id := uid; aae_action := action; aae_detail := detail; aae_ip_address := ip; aae_created_at := now |}) ;;
mret tt.

(** * Logins *)

Definition _create_session (u : AdminUser) (ip agent : option string) (auth_method : string) : SM (LoginOut * string) :=
sid ← draw_token;
csrf ← draw_token;
now ← utcnow;
create admin_sessions_tbl (λ id at_,
  {| ase_id := id; ase_user_id := au_id u; session_hash := hash_session_id sid; ase_ip_address := ip; ase_user_agent := agent;
     ase_expires_at := now + session_ttl_sec cfg * second; ase_is_active := true; ase_created_at := at_ |}) ;;
log_event "login_success" (Some (au_id u)) (Some ("method=" +:+ auth_method)) ip ;;
mret ({| lo_username := au_username u; lo_role := au_role u; lo_csrf_token := csrf |}, sid).

(** The login failed: the audit record. *)
Definition login_failure {A} (uid : option Z) (detail : string) (ip : option string) : SM (option A) :=
log_event "login_failure" uid (Some detail) ip ;; mret None.

Definition login_password (name password : string) (ip agent : option string) : SM (option (LoginOut * string)) :=
o ← get_by_username name;
match o with
| None => login_failure None ("username=" +:+ name +:+ " reason=user_not_found") ip
| Some u =>
    if negb (au_is_active u) then login_failure None ("username=" +:+ name +:+ " reason=user_not_found") ip
    else if negb (truthy (password_hash u)) then login_failure (Some (au_id u)) "reason=no_password_set" ip
    else
      ok ← lift (verify_password password (default "" (password_hash u)));
      if negb ok then login_failure (Some (au_id u)) "reason=bad_password" ip
      else r ← _create_session u ip agent "password"; mret (Some r)
end.

(** [str(x)] of a JSON value that a nonce can be equal to: the text of a list or an object
    starts with a bracket, which [token_urlsafe] does not produce. *)
Definition json_str (j : json) : option string :=
match j with
| JStr s => Some s
| JInt z => Some (pretty z)
| JBool b => Some (if b then "True" else "False")
| JNull => Some "None"
| _ => None
end.

(** [if x] for a JSON value. *)
Definition json_truthy (j : json) : bool :=
match j with
| JNull => false
| JBool b => b
| JInt z => negb (z =? 0)
| JStr s => nonempty s
| JTime _ => true
| JList l => match l with [] => false | _ => true end
| JObj l => match l with [] => false | _ => true end
end.

(** [int(x)]; [None]: it raises. *)
Definition json_int (j : json) : option Z :=
match j with
| JInt z => Some z
| JBool b => Some (Z.b2z b)
| JStr s => int_of_string s
| _ => None
end.

(** [_verify_id_token]. *)
Definition _verify_id_token (oidc : TelegramOidc) (id_token expected_nonce : string) : option (list (string * json)) :=
payload ← decode oidc id_token;
if negb (nonempty expected_nonce) then Some payload
else match dict_get "nonce" payload with
     | Some n => if json_truthy n && bool_decide (json_str n = Some expected_nonce) then Some payload else None
     | None => None
     end.

(** [str(token_data.get("id_token") or "")]. *)
Definition id_token_of (d : list (string * json)) : string :=
match dict_get "id_token" d with
| Some j => if json_truthy j then default "[" (json_str j) else ""
| None => ""
end.

Definition set_telegram_username (name : string) (u : AdminUser) : AdminUser :=
{| au_id := au_id u; au_username := au_username u; password_hash := password_hash u; au_telegram_id := au_telegram_id u;
   telegram_username := Some name; au_role := au_role u; ui_prefs := ui_prefs u; au_is_active := au_is_active u;
   au_created_at := au_created_at u; au_updated_at := au_updated_at u |}.

(** [claims.get("preferred_username") or claims.get("username")], when it is a text. *)
Definition claimed_username (claims : list (string * json)) : option string :=
let pick := match dict_get "preferred_username" claims with
            | Some j => if json_truthy j then Some j else dict_get "username" claims
            | None => dict_get "username" claims
            end in
match pick with Some (JStr s) => if nonempty s then Some s else None | _ => None end.

Definition login_telegram_oidc (oidc : TelegramOidc) (expected_nonce : string) (ip agent : option string)
  : SM (option (LoginOut * string)) :=
let fail detail := login_failure None detail ip in
if negb (telegram_login_enabled cfg) then fail "reason=telegram_login_disabled"
else if negb (nonempty (telegram_client_id cfg)) || negb (nonempty (telegram_client_secret cfg))
then fail "reason=telegram_oidc_client_not_configured"
else match exchange oidc with
| inr err =>
    fail (match err with
          | Some e => if nonempty e then "reason=telegram_token_exchange_failed error=" +:+ e else "reason=telegram_token_exchange_failed"
          | None => "reason=telegram_token_exchange_failed"
          end)
| inl token_data =>
    let id_token := id_token_of token_data in
    if negb (nonempty id_token) then fail "reason=telegram_missing_id_token"
    else match _verify_id_token oidc id_token expected_nonce with
    | None => fail "reason=telegram_oidc_invalid_id_token"
    | Some claims =>
        match (match dict_get "id" claims with Some j => Some j | None => dict_get "sub" claims end) ≫= json_int with
        | None => fail "reason=telegram_sub_invalid"
        | Some tg =>
            if match telegram_allowed_ids cfg with [] => false | ids => negb (bool_decide (tg ∈ ids)) end
            then fail ("reason=telegram_id_not_allowed telegram_id=" +:+ pretty tg)
            else
              o ← get_admin_by_telegram_id tg;
              match o with
              | None => fail ("reason=telegram_user_not_found telegram_id=" +:+ pretty tg)
              | Some u =>
                  if negb (au_is_active u) then fail ("reason=telegram_user_not_found telegram_id=" +:+ pretty tg)
                  else
                    match claimed_username claims with
                    | Some name =>
                        when (negb (bool_decide (telegram_username u = Some name)))
                          (update_by_id admin_users_tbl (au_id u) (set_telegram_username name) ;; mret tt)
                    | None => mret tt
                    end ;;
                    r ← _create_session u ip agent "telegram_oidc";
                    mret (Some r)
              end
        end
    end
end.

(** * Sessions *)

Definition validate_session (h : string) : SM (option (AdminUser * AdminSession)) :=
o ← get_valid_by_hash h;
match o with
| None => mret None
| Some r =>
    u ← get_by_id admin_users_tbl (ase_user_id r);
    mret (match u with Some u => if au_is_active u then Some (u, r) else None | None => None end)
end.

Definition logout (h : string) (uid : option Z) (ip : option string) : SM unit :=
delete_by_hash h ;; log_event "logout" uid None ip.

Record SessionCheckOut := { sc_authenticated : bool; sc_user : option (string * AdminRole); sc_csrf_token : option string }.

Definition anonymous : SessionCheckOut := {| sc_authenticated := false; sc_user := None; sc_csrf_token := None |}.

Definition check_session (h : option string) : SM SessionCheckOut :=
match h with
| None => mret anonymous
| Some h =>
    if negb (nonempty h) then mret anonymous
    else
      o ← validate_session h;
      match o with
      | None => mret anonymous
      | Some (u, _) =>
          csrf ← draw_token;
          mret {| sc_authenticated := true; sc_user := Some (au_username u, au_role u); sc_csrf_token := Some csrf |}
      end
end.

Definition get_ui_prefs (uid : Z) : SM json :=
u ← get_by_id admin_users_tbl uid;
mret (match u ≫= ui_prefs with Some j => if json_truthy j then j else JObj [] | None => JObj [] end).

Definition set_prefs (prefs : json) (u : AdminUser) : AdminUser :=
{| au_id := au_id u; au_username := au_username u; password_hash := password_hash u; au_telegram_id := au_telegram_id u;
   telegram_username := telegram_username u; au_role := au_role u; ui_prefs := Some prefs; au_is_active := au_is_active u;
   au_created_at := au_created_at u; au_updated_at := au_updated_at u |}.

Definition set_ui_prefs (uid : Z) (prefs : json) : SM json :=
update_by_id admin_users_tbl uid (set_prefs prefs) ;; mret prefs.

(** * Users *)

Definition create_admin (name : string) (password : option string) (tg : option Z) (role : AdminRole)
  (creator : option Z) (ip : option string) : SM AdminUser :=
hashed ← match password with
         | Some p => if nonempty p then h ← hash_password p; mret (Some h) else mret None
         | None => mret None
         end;
u ← create admin_users_tbl (λ id now,
  {| au_id := id; au_username := name; password_hash := hashed; au_telegram_id := tg; telegram_username := None;
     au_role := role; ui_prefs := None; au_is_active := true; au_created_at := now; au_updated_at := now |});
log_event "user_created" creator (Some ("new_user=" +:+ name +:+ " role=" +:+ role_value role)) ip ;;
mret u.

(** [changes], a field that is set carries the value written. *)
Record AdminUserUpdateData := {
  ud_role : option AdminRole;
  ud_is_active : option bool;
  ud_telegram_id : option (option Z);
  ud_telegram_username : option (option string);
}.

Definition patch_admin (c : AdminUserUpdateData) (u : AdminUser) : AdminUser :=
{| au_id := au_id u; au_username := au_username u; password_hash := password_hash u;
   au_telegram_id := default (au_telegram_id u) (ud_telegram_id c);
   telegram_username := default (telegram_username u) (ud_telegram_username c);
   au_role := default (au_role u) (ud_role c); ui_prefs := ui_prefs u;
   au_is_active := default (au_is_active u) (ud_is_active c); au_created_at := au_created_at u; au_updated_at := au_updated_at u |}.

Definition changed_keys (c : AdminUserUpdateData) : list string :=
(if ud_role c then ["'role'"] else []) ++ (if ud_is_active c then ["'is_active'"] else []) ++
(if ud_telegram_id c then ["'telegram_id'"] else []) ++ (if ud_telegram_username c then ["'telegram_username'"] else []).

Definition _guard_last_admin (uid : Z) : SM unit :=
target ← get_by_id admin_users_tbl uid;
match target with
| None => mret tt
| Some u =>
    if negb (active_admin u) then mret tt
    else
      n ← count_active_admins;
      raise_if (n <=? 1) (PermissionError "Cannot deactivate or delete the last active admin")
end.

Definition user_or_error (uid : Z) : SM AdminUser :=
o ← get_by_id admin_users_tbl uid;
match o with Some u => mret u | None => raise (ValueError "User not found") end.

(** The role to write: the one asked for, when it is another one. *)
Definition role_change (u : AdminUser) (role : option AdminRole) : option AdminRole :=
match role with Some r => if bool_decide (r = au_role u) then None else Some r | None => None end.
Definition active_change (u : AdminUser) (is_active : option bool) : option bool :=
match is_active with Some a => if Bool.eqb a (au_is_active u) then None else Some a | None => None end.

Definition long_username (o : option (option string)) : bool :=
match o with Some (Some s) => 128 <? char_len s | _ => false end.

Definition update_admin (target : Z) (role : option AdminRole) (is_active : option bool) (tg : option (option Z))
  (tg_name : option (option string)) (actor : Z) (ip : option string) : SM (option AdminUser) :=
u ← user_or_error target;
let changes := {| ud_role := role_change u role; ud_is_active := active_change u is_active; ud_telegram_id := tg;
                  ud_telegram_username := tg_name |} in
raise_if (match ud_role changes with Some r => (target =? actor) && negb (bool_decide (r = role_admin)) | None => false end)
  (PermissionError "Cannot demote your own role") ;;
when (match ud_is_active changes with Some a => negb a | None => false end) (_guard_last_admin target) ;;
match changed_keys changes with
| [] => mret (Some u)
| keys =>
    raise_if (long_username tg_name) (ValidationError "telegram_username") ;;
    updated ← update_by_id admin_users_tbl target (patch_admin changes);
    log_event "user_updated" (Some actor)
      (Some ("target=" +:+ au_username u +:+ " changes=[" +:+ join ", " keys +:+ "]")) ip ;;
    mret updated
end.

Definition set_password (h : string) (u : AdminUser) : AdminUser :=
{| au_id := au_id u; au_username := au_username u; password_hash := Some h; au_telegram_id := au_telegram_id u;
   telegram_username := telegram_username u; au_role := au_role u; ui_prefs := ui_prefs u; au_is_active := au_is_active u;
   au_created_at := au_created_at u; au_updated_at := au_updated_at u |}.

Definition reset_password (target : Z) (new_password : string) (actor : Z) (ip : option string) : SM unit :=
u ← user_or_error target;
h ← hash_password new_password;
update_by_id admin_users_tbl target (set_password h) ;;
log_event "password_reset" (Some actor) (Some ("target=" +:+ au_username u)) ip.

(** The foreign keys to [admin_user]: the sessions cascade, the others are set to NULL. *)
Definition forget (uid : Z) (o : option Z) : option Z := if bool_decide (o = Some uid) then None else o.

Definition on_delete_admin (uid : Z) (d : database) : database :=
set_admin_sessions (filter (λ ir, ase_user_id ir.2 ≠ uid) (admin_sessions d))
(set_admin_events ((λ e, {| aae_id := aae_id e; aae_user_id := forget uid (aae_user_id e); aae_action := aae_action e;
     aae_detail := aae_detail e; aae_ip_address := aae_ip_address e; aae_created_at := aae_created_at e |}) <$> admin_events d)
(set_support_tickets ((λ t, {| tk_id := tk_id t; tk_user_id := tk_user_id t; tk_subject := tk_subject t; tk_status := tk_status t;
     tk_priority := tk_priority t; tk_category := tk_category t; assignee_admin_id := forget uid (assignee_admin_id t);
     last_activity_at := last_activity_at t; closed_at := closed_at t; first_user_msg_at := first_user_msg_at t;
     first_reply_at := first_reply_at t; tk_created_at := tk_created_at t; tk_updated_at := tk_updated_at t |}) <$> support_tickets d)
(set_support_messages ((λ m, {| sm_id := sm_id m; sm_ticket_id := sm_ticket_id m; sender_kind := sender_kind m;
     sender_admin_id := forget uid (sender_admin_id m); sm_body := sm_body m; is_note := is_note m; sm_delivered := sm_delivered m;
     sm_read_at := sm_read_at m; tg_message_id := tg_message_id m; sm_created_at := sm_created_at m |}) <$> support_messages d)
(set_broadcasts ((λ b, {| br_id := br_id b; br_content := br_content b; entities := entities b;
     custom_emoji_assets := custom_emoji_assets b; br_status := br_status b; scheduled_at := scheduled_at b; br_sent_at := br_sent_at b;
     br_delivered := br_delivered b; br_errors := br_errors b; clicks := clicks b; target_count := target_count b;
     attempts := attempts b; created_by_admin_id := forget uid (created_by_admin_id b); br_created_at := br_created_at b;
     br_updated_at := br_updated_at b |}) <$> broadcasts d)
(set_recurring_broadcasts ((λ r, {| rb_id := rb_id r; rb_name := rb_name r; rb_content := rb_content r; cadence := cadence r;
     time_of_day := time_of_day r; weekdays := weekdays r; next_run_at := next_run_at r; last_run_at := last_run_at r;
     rb_created_by := forget uid (rb_created_by r); rb_is_active := rb_is_active r; rb_created_at := rb_created_at r;
     rb_updated_at := rb_updated_at r |}) <$> recurring_broadcasts d) d))))).

Definition delete_admin (target actor : Z) (ip : option string) : SM unit :=
u ← user_or_error target;
raise_if (target =? actor) (PermissionError "Cannot delete yourself") ;;
_guard_last_admin target ;;
delete_by_user_id target ;;
delete_by_id admin_users_tbl target ;;
write (on_delete_admin target) ;;
log_event "user_deleted" (Some actor) (Some ("deleted_user=" +:+ au_username u)) ip.

Definition revoke_user_sessions (target actor : Z) (ip : option string) : SM Z :=
u ← user_or_error target;
n ← delete_by_user_id target;
log_event "sessions_revoked" (Some actor) (Some ("target=" +:+ au_username u +:+ " count=" +:+ pretty n)) ip ;;
mret n.

(** * Who asks (dependencies.py) *)

Record Request := {
  rq_session_cookie : option string;
  rq_safe_method : bool;
  rq_csrf_header : option string;
  rq_csrf_cookie : option string;
}.

Definition get_current_admin (rq : Request) : SM AdminUser :=
raise_if (negb (ac_enabled cfg)) (HTTPException 501 "Admin auth is not enabled") ;;
match rq_session_cookie rq with
| Some sid =>
    if negb (nonempty sid) then raise (HTTPException 401 "Not authenticated")
    else
      o ← validate_session (hash_session_id sid);
      match o with Some (u, _) => mret u | None => raise (HTTPException 401 "Session expired or invalid") end
| None => raise (HTTPException 401 "Not authenticated")
end.

Definition require_role (min_role : AdminRole) (rq : Request) : SM AdminUser :=
u ← get_current_admin rq;
raise_if (ROLE_HIERARCHY (au_role u) <? ROLE_HIERARCHY min_role) (HTTPException 403 "Insufficient permissions") ;;
mret u.

Definition verify_csrf (rq : Request) : SM unit :=
get_current_admin rq ;;
if rq_safe_method rq then mret tt
else match rq_csrf_header rq, rq_csrf_cookie rq with
     | Some h, Some c =>
         raise_if (negb (nonempty h) || negb (nonempty c)) (HTTPException 403 "CSRF token missing") ;;
         raise_if (negb (String.eqb h c)) (HTTPException 403 "CSRF token mismatch")
     | _, _ => raise (HTTPException 403 "CSRF token missing")
     end.

(** * The router *)

(** [except ValueError] (and its subclass of pydantic) and [except PermissionError]. *)
Definition as_http {A} (m : SM A) : SM A :=
catch m (λ e, match e with
              | ValueError d | ValidationError d => raise (HTTPException 404 d)
              | PermissionError d => raise (HTTPException 409 d)
              | e => raise e
              end).

Inductive admin_op :=
| OpCreate (name : string) (password : option string) (tg : option Z) (role : AdminRole)
| OpUpdate (target : Z) (role : option AdminRole) (is_active : option bool) (tg : option Z) (tg_name : option string)
| OpResetPassword (target : Z) (new_password : string)
| OpDelete (target : Z)
| OpRevokeSessions (target : Z).

(** The endpoints under [/users]: an administrator's session and a CSRF token. *)
Definition admin_endpoint (rq : Request) (ip : option string) (op : admin_op) : SM unit :=
user ← require_role role_admin rq;
verify_csrf rq ;;
match op with
| OpCreate name password tg role => create_admin name password tg role (Some (au_id user)) ip ;; mret tt
| OpUpdate target role is_active tg tg_name =>
    as_http (update_admin target role is_active (Some <$> tg) (Some <$> tg_name) (au_id user) ip) ;; mret tt
| OpResetPassword target p => as_http (reset_password target p (au_id user) ip)
| OpDelete target => as_http (delete_admin target (au_id user) ip)
| OpRevokeSessions target => as_http (revoke_user_sessions target (au_id user) ip) ;; mret tt
end.

Definition logout_endpoint (rq : Request) (ip : option string) : SM unit :=
verify_csrf rq ;;
match rq_session_cookie rq with
| Some sid =>
    when (nonempty sid)
      (o ← validate_session (hash_session_id sid);
       logout (hash_session_id sid) (match o with Some (u, _) => Some (au_id u) | None => None end) ip)
| None => mret tt
end.
End AdminAuth.

(** * The rate limit of logins (rate_limit.py)

    The times are those of [time.monotonic], in any unit. *)

Record InMemoryRateLimiter := { lim_max : nat; lim_window : Z }.
Definition login_rate_limiter (sec : Z) : InMemoryRateLimiter := {| lim_max := 5; lim_window := 60 * sec |}.

(** [self._attempts], a defaultdict. *)
Definition Attempts := gmap string (list Z).
Definition attempts_of (key : string) (a : Attempts) : list Z := default [] (a !! key).

Definition is_allowed (lim : InMemoryRateLimiter) (key : string) (now : Z) (a : Attempts) : bool * Attempts :=
  let window := filter (λ t, now - t < lim_window lim) (attempts_of key a) in
  if (lim_max lim <=? length window)%nat then (false, <[key := window]> a) else (true, <[key := window ++ [now]]> a).

Definition record (key : string) (now : Z) (a : Attempts) : Attempts := <[key := attempts_of key a ++ [now]]> a.

(** A failed login is recorded and committed before the exception; a login that raises is
    rolled back. *)
Definition conclude (detail ip : string) (later : Z) (m : SM (option (LoginOut * string))) (a : Attempts) (s : session)
    : res (LoginOut * string) * Attempts * session :=
  match m s with
  | (Ok None, s') => (Raise (HTTPException 401 detail), record ip later a, s')
  | (Ok (Some r), s') => (Ok r, a, s')
  | (Raise e, _) => (Raise e, a, (run_request m s).2)
  end.

Definition too_many : exn := HTTPException 429 "Too many login attempts. Try again later.".

(** [POST /login/password]: [now] and [later] are the readings of the monotonic clock. *)
Definition login_endpoint (cfg : AdminAuthConfig) (lim : InMemoryRateLimiter) (ip : string) (agent : option string)
    (name password : string) (now later : Z) (a : Attempts) (s : session) : res (LoginOut * string) * Attempts * session :=
  let '(ok, a) := is_allowed lim ip now a in
  if negb ok then (Raise too_many, a, s)
  else conclude "Invalid credentials" ip later (login_password cfg name password (Some ip) agent) a s.

Record Callback := {
  cb_code : option string;
  cb_state : option string;
  cb_error : option string;
  cb_error_description : option string;
  cookie_state : option string;
  cookie_nonce : option string;
  cookie_verifier : option string;
}.

(** The audit record of a callback that is refused, committed. *)
Definition refuse (detail ip : string) (e : exn) (s : session) : res (LoginOut * string) * session :=
  let m := log_event "login_failure" None (Some detail) (Some ip) in
  match m s with
  | (Ok _, s') => (Raise e, s')
  | (Raise e', _) => (Raise e', (run_request m s).2)
  end.

Definition state_holds (cb : Callback) : bool :=
  truthy (cookie_state cb) && bool_decide (cb_state cb = cookie_state cb) && truthy (cookie_nonce cb) && truthy (cookie_verifier cb).

(** [GET /login/telegram/callback]. *)
Definition callback_endpoint (cfg : AdminAuthConfig) (lim : InMemoryRateLimiter) (oidc : TelegramOidc) (ip : string)
    (agent : option string) (cb : Callback) (now later : Z) (a : Attempts) (s : session)
    : res (LoginOut * string) * Attempts * session :=
  if truthy (cb_error cb) then
    let error := default "" (cb_error cb) in
    let shown := if truthy (cb_error_description cb) then default "" (cb_error_description cb) else error in
    let '(r, s) := refuse ("reason=telegram_callback_error error=" +:+ error) ip
                     (HTTPException 401 ("Telegram login error: " +:+ shown)) s in (r, a, s)
  else if negb (truthy (cb_code cb)) || negb (truthy (cb_state cb)) then
    let '(r, s) := refuse "reason=telegram_callback_missing_params" ip (HTTPException 400 "Missing OIDC callback parameters") s in
    (r, a, s)
  else
    let '(ok, a) := is_allowed lim ip now a in
    if negb ok then (Raise too_many, a, s)
    else if negb (state_holds cb) then
      let '(r, s) := refuse "reason=telegram_invalid_oidc_state" ip (HTTPException 401 "Invalid OIDC state") s in
      (r, record ip later a, s)
    else
      conclude "Telegram login failed" ip later
        (login_telegram_oidc cfg oidc (default "" (cookie_nonce cb)) (Some ip) agent) a s.

(** * The guards of the other routers (services/auth/dependencies.py) *)

Record GuardConfig := {
  gc_admin : AdminAuthConfig;
  gc_api_key_hash : string;
  connect_api_key_hash : string;
  probe_token_hash : string;
  relay_token_hash : string;
  relay_token : string;
  bot_api_key_hash : string;
}.

(** [HTTPAuthorizationCredentials]. *)
Record Credentials := { scheme : string; credentials : string }.

Section Guards.
Context (cfg : GuardConfig).

Definition hash_admin_api_key (k : string) : string := sha256_hex (ac_crypto (gc_admin cfg)) k.

(** A session of its own: nothing of it is kept. *)
Definition with_session {A} (sid : option string) (f : option (AdminUser * AdminSession) → A) : SM A :=
if negb (ac_enabled (gc_admin cfg)) then mret (f None)
else match sid with
     | Some sid =>
         if negb (nonempty sid) then mret (f None)
         else o ← validate_session (hash_session_id (gc_admin cfg) sid); mret (f o)
     | None => mret (f None)
     end.

Definition _admin_auth_session (rq : Request) : SM bool :=
with_session (rq_session_cookie rq) (λ o, match o with Some _ => true | None => false end).

Definition _admin_auth_api_key (c : option Credentials) : bool :=
match c with
| None => false
| Some c =>
    let raw := py_strip (credentials c) in
    String.eqb (lower (scheme c)) "bearer" && nonempty raw && nonempty (gc_api_key_hash cfg) &&
    String.eqb (hash_admin_api_key raw) (gc_api_key_hash cfg)
end.

Definition admin_auth (rq : Request) (c : option Credentials) : SM unit :=
session_ok ← _admin_auth_session rq;
raise_if (negb (session_ok || _admin_auth_api_key c)) (HTTPException 401 "Invalid admin credentials").

Definition current_admin_actor (rq : Request) (c : option Credentials) : SM string :=
name ← with_session (rq_session_cookie rq) (λ o, (λ us : AdminUser * AdminSession, au_username us.1) <$> o);
mret (match name with Some n => n | None => if _admin_auth_api_key c then "api-key" else "system" end).

Definition current_admin_user_id (rq : Request) : SM (option Z) :=
with_session (rq_session_cookie rq) (λ o, (λ us : AdminUser * AdminSession, au_id us.1) <$> o).

(** A bearer token checked against one hash. *)
Definition missing {A} : res A := Raise (HTTPException 401 "Missing Authorization header").
Definition bad_scheme (c : Credentials) : bool := negb (String.eqb (lower (scheme c)) "bearer").

Definition connect_auth (c : option Credentials) : res unit :=
match c with
| None => missing
| Some c =>
    if bad_scheme c then Raise (HTTPException 401 "Invalid authorization scheme")
    else if String.eqb (hash_admin_api_key (credentials c)) (connect_api_key_hash cfg) then Ok tt
    else Raise (HTTPException 401 "Invalid connect token")
end.

Definition probe_auth (c : option Credentials) : res unit :=
match c with
| None => missing
| Some c => if String.eqb (hash_admin_api_key (credentials c)) (probe_token_hash cfg) then Ok tt
            else Raise (HTTPException 401 "Invalid probe token")
end.

Definition relay_auth (c : option Credentials) : res unit :=
match c with
| None => missing
| Some c =>
    if bad_scheme c then Raise (HTTPException 401 "Invalid authorization scheme")
    else if nonempty (relay_token_hash cfg) then
      if String.eqb (hash_admin_api_key (credentials c)) (relay_token_hash cfg) then Ok tt
      else Raise (HTTPException 401 "Invalid relay token")
    else if nonempty (relay_token cfg) then
      if String.eqb (credentials c) (relay_token cfg) then Ok tt else Raise (HTTPException 401 "Invalid relay token")
    else Raise (HTTPException 401 "Relay auth not configured")
end.

Definition bot_auth (c : option Credentials) : res unit :=
match c with
| None => missing
| Some c =>
    if bad_scheme c then Raise (HTTPException 401 "Invalid authorization scheme")
    else if nonempty (bot_api_key_hash cfg) && String.eqb (hash_admin_api_key (credentials c)) (bot_api_key_hash cfg) then Ok tt
    else Raise (HTTPException 401 "Invalid bot token")
end.
End Guards.

(** [PUT /ui-prefs]. *)
Definition put_ui_prefs (cfg : GuardConfig) (rq : Request) (body : json) : SM json :=
  verify_csrf (gc_admin cfg) rq ;;
  uid ← current_admin_user_id cfg rq;
  match uid with None => mret body | Some uid => set_ui_prefs uid body end.

(** * The panel: one request after another *)

Inductive panel_request :=
| PLogin (ip : string) (agent : option string) (name password : string) (now later : Z)
| PCallback (oidc : TelegramOidc) (ip : string) (agent : option string) (cb : Callback) (now later : Z)
| PLogout (rq : Request) (ip : option string)
| PUsers (rq : Request) (ip : option string) (op : admin_op)
| PPrefs (rq : Request) (body : json).

Definition handle (cfg : GuardConfig) (lim : InMemoryRateLimiter) (p : panel_request) (st : Attempts * session) : Attempts * session :=
  let '(a, s) := st in
  match p with
  | PLogin ip agent name password now later =>
      let '(_, a, s) := login_endpoint (gc_admin cfg) lim ip agent name password now later a s in (a, s)
  | PCallback oidc ip agent cb now later =>
      let '(_, a, s) := callback_endpoint (gc_admin cfg) lim oidc ip agent cb now later a s in (a, s)
  | PLogout rq ip => (a, (run_request (logout_endpoint (gc_admin cfg) rq ip) s).2)
  | PUsers rq ip op => (a, (run_request (admin_endpoint (gc_admin cfg) rq ip op) s).2)
  | PPrefs rq body => (a, (run_request (put_ui_prefs cfg rq body) s).2)
  end.
