(* ===== verification/AdminProps.v ===== *)
(** What the administrators' authentication guarantees: an active administrator remains,
    only administrators change the users, and a login is tied to its user. *)

From stdpp Require Import base gmap strings list sorting.
From Stdlib Require Import Ascii.
From S2P Require Import Prelude Errors RouteModels BillingModels FleetModels SupportModels Session Uuid NodeDisplay Tables Routes VlessUri SupportTables AgentDetails AdminAuth.
Local Open Scope Z_scope.


(** * The administrators stay *)

(** The accounts of [d] are in [d'] with their role and their state. *)
Definition accounts_stay (d d' : database) : Prop :=
  ∀ i u, admin_users d !! i = Some u → ∃ u', admin_users d' !! i = Some u' ∧ active_admin u' = active_admin u.

#[export] Instance accounts_stay_preorder : PreOrder accounts_stay.
Proof.
  split; [intros d i u; eauto|]. intros d1 d2 d3 H12 H23 i u Hu.
  destruct (H12 i u Hu) as (u2 & H2 & E2). destruct (H23 i u2 H2) as (u3 & H3 & E3).
  exists u3. split; [done|congruence].
Qed.

(** The relation kept by every operation but [update_admin] and [delete_admin]. *)
Definition users_stay : database → database → Prop := guarded (keyed admin_users_tbl) accounts_stay.
#[export] Instance users_stay_preorder : PreOrder users_stay. Proof. apply _. Qed.

Lemma users_stay_same d d' : admin_users d' = admin_users d → users_stay d d'.
Proof. intros E Hk. split; [by intros i u; cbn; rewrite E; apply Hk|]. intros i u Hu. rewrite E. eauto. Qed.

Lemma users_stay_frame {A} (m : SM A) : keeps (on_db (same admin_users)) m → keeps (on_db users_stay) m.
Proof. intros H s. apply users_stay_same, H. Qed.

Lemma users_stay_update uid f :
  (∀ u, au_id (f u) = au_id u ∧ active_admin (f u) = active_admin u) →
  keeps (on_db users_stay) (update_by_id admin_users_tbl uid f).
Proof.
  intros Hf. apply keeps_update; [apply _|]. intros d now u Hu _ Hk.
  split; [by apply (keyed_put admin_users_tbl)|]. intros i v Hv. cbn.
  destruct (Hf (touch_admin now u)) as [Eid Ea]. rewrite Eid. cbn in Hu |- *.
  pose proof (Hk uid u Hu) as Huid. cbn in Huid. rewrite Huid, lookup_insert. case_decide as Hi.
  - subst i. eexists. split; [done|]. rewrite Ea. assert (v = u) as -> by congruence. done.
  - eauto.
Qed.

Lemma users_stay_create mk : keeps (on_db users_stay) (create admin_users_tbl mk).
Proof.
  apply keeps_create; [apply _|]. intros d i now Hn _ Hk. split; [by apply (keyed_put admin_users_tbl)|].
  intros j u Hu. cbn in Hn |- *. exists u. rewrite lookup_insert_ne; [done|congruence].
Qed.

Lemma log_event_frame action uid detail ip : keeps (on_db (same admin_users)) (log_event action uid detail ip).
Proof. unfold log_event. keeps_tac. Qed.
Lemma delete_sessions_frame P : keeps (on_db (same admin_users)) (delete_where admin_sessions_tbl P).
Proof. unfold delete_where. keeps_tac. Qed.
#[export] Hint Resolve log_event_frame delete_sessions_frame : keeps.

Section Panel.
Context (cfg : AdminAuthConfig).

Lemma create_session_frame u ip agent m : keeps (on_db (same admin_users)) (_create_session cfg u ip agent m).
Proof using Type. unfold _create_session, draw_token. keeps_tac. Qed.
Lemma login_failure_frame {A} uid detail ip : keeps (on_db (same admin_users)) (login_failure (A:=A) uid detail ip).
Proof using Type. unfold login_failure. keeps_tac. Qed.
Hint Resolve create_session_frame login_failure_frame : keeps.

Lemma login_password_frame name password ip agent : keeps (on_db (same admin_users)) (login_password cfg name password ip agent).
Proof using Type. unfold login_password, get_by_username, lift. keeps_tac. Qed.

Lemma validate_session_frame h : keeps (on_db (same admin_users)) (validate_session h).
Proof using Type. unfold validate_session, get_valid_by_hash. keeps_tac. Qed.
Hint Resolve validate_session_frame : keeps.

#[local] Hint Resolve users_stay_create : keeps.
#[local] Hint Extern 3 (keeps (on_db users_stay) _) => (apply users_stay_frame; solve [keeps_tac]) : keeps.

Lemma login_telegram_stays oidc nonce ip agent : keeps (on_db users_stay) (login_telegram_oidc cfg oidc nonce ip agent).
Proof using Type.
unfold login_telegram_oidc, get_admin_by_telegram_id. keeps_tac.
apply users_stay_update. by intros [].
Qed.

Lemma prefs_stays uid prefs : keeps (on_db users_stay) (set_ui_prefs uid prefs).
Proof using Type. unfold set_ui_prefs. keeps_tac. apply users_stay_update. by intros []. Qed.

Lemma create_admin_stays name password tg role creator ip :
keeps (on_db users_stay) (create_admin cfg name password tg role creator ip).
Proof using Type. unfold create_admin, hash_password. keeps_tac. Qed.

Lemma reset_password_stays target p actor ip : keeps (on_db users_stay) (reset_password cfg target p actor ip).
Proof using Type.
unfold reset_password, user_or_error, hash_password. keeps_tac. apply users_stay_update. by intros [].
Qed.

Lemma revoke_stays target actor ip : keeps (on_db users_stay) (revoke_user_sessions target actor ip).
Proof using Type. unfold revoke_user_sessions, user_or_error, delete_by_user_id. keeps_tac. Qed.

(** * Who asks *)

(** The account an authenticated request acts for. *)
Definition acts_for (d : database) (u : AdminUser) : Prop := admin_users d !! au_id u = Some u ∧ au_is_active u = true.

Lemma current_admin_wp rq s :
keyed admin_users_tbl (db s) →
wp (get_current_admin cfg rq) (λ u s', db s' = db s ∧ acts_for (db s) u) (λ _ s', db s' = db s) s.
Proof using Type.
intros Hk. unfold get_current_admin. apply wp_bind, wp_raise_if; intros _; [done|].
destruct (rq_session_cookie rq) as [sid|]; [|done]. destruct (nonempty sid); [|done]. cbn [negb].
apply wp_bind. unfold validate_session, get_valid_by_hash. apply wp_bind, wp_bind, wp_utcnow, wp_bind, wp_select.
destruct (filter _ _) as [|r [|]]; cbn; [done| |done].
apply wp_bind, wp_get_by_id. cbn. destruct (admin_users (db s) !! _) as [u|] eqn:Hu; cbn; [|done].
destruct (au_is_active u) eqn:Ea; cbn; [|done]. split; [done|]. split; [|done]. pose proof (Hk _ _ Hu) as E. cbn in E. by rewrite E.
Qed.

Lemma csrf_wp rq s :
keyed admin_users_tbl (db s) → wp (verify_csrf cfg rq) (λ _ s', db s' = db s) (λ _ s', db s' = db s) s.
Proof using Type.
intros Hk. unfold verify_csrf. apply wp_bind. eapply wp_mono; [by apply current_admin_wp| |done].
intros u s' [E _]. destruct (rq_safe_method rq); [done|]. destruct (rq_csrf_header rq), (rq_csrf_cookie rq); try done.
apply wp_bind, wp_raise_if; intros _; [done|]. by apply wp_raise_if.
Qed.

(** An endpoint of the administrators: past its guards the request acts for an active administrator. *)
Lemma guards_wp rq s {A} (k : AdminUser → SM A) Q R :
keyed admin_users_tbl (db s) →
(∀ e s', db s' = db s → R e s') →
(∀ u s', db s' = db s → admin_users (db s) !! au_id u = Some u → active_admin u = true → wp (k u) Q R s') →
wp (user ← require_role cfg role_admin rq; verify_csrf cfg rq ;; k user) Q R s.
Proof using Type.
intros Hk HR HQ. apply wp_bind. unfold require_role. apply wp_bind.
eapply wp_mono; [by apply current_admin_wp| |auto]. intros u s' [E [Hu Ha]].
apply wp_bind, wp_raise_if; intros Hr; [auto|]. apply wp_ret, wp_bind.
eapply wp_mono; [apply csrf_wp; by rewrite E| |].
- intros ? s2 E2. cbn beta in E2. apply HQ; [congruence|done|]. unfold active_admin. rewrite Ha.
  destruct (au_role u); [done|by cbn in Hr|by cbn in Hr].
- intros e s2 E2. apply HR. congruence.
Qed.
End Panel.

(** * An active administrator remains *)

Definition some_admin (d : database) : Prop := ∃ i u, admin_users d !! i = Some u ∧ active_admin u = true.
Definition admins_ok (d : database) : Prop := keyed admin_users_tbl d ∧ some_admin d.

Lemma stays_ok d d' : users_stay d d' → admins_ok d → admins_ok d'.
Proof.
  intros H [Hk (i & u & Hu & Ha)]. destruct (H Hk) as [Hk' Hs]. split; [done|].
  destruct (Hs i u Hu) as (u' & Hu' & E). exists i, u'. split; [done|congruence].
Qed.

Lemma filter_map_rows {R} (P : R → bool) (m : gmap Z R) :
  filter (λ r, P r = true) (rows m) = (filter (λ ir : Z * R, P ir.2 = true) (map_to_list m)).*2.
Proof.
  unfold rows. induction (map_to_list m) as [|[i r] l IH]; [done|]. rewrite fmap_cons, !filter_cons. cbn.
  rewrite IH. by destruct (P r).
Qed.

(** Two rows that satisfy a condition: one of them is not at [i]. *)
Lemma another_row {R} (P : R → bool) (m : gmap Z R) i :
  1 < Z.of_nat (length (filter (λ r, P r = true) (rows m))) → ∃ j r, j ≠ i ∧ m !! j = Some r ∧ P r = true.
Proof.
  rewrite filter_map_rows, length_fmap. set (l := filter _ _). intros Hl.
  assert (Hin : ∀ j r, (j, r) ∈ l → m !! j = Some r ∧ P r = true).
  { intros j r [HP Hj]%list_elem_of_filter. by apply elem_of_map_to_list in Hj. }
  assert (Hnd : NoDup l.*1) by (apply NoDup_fmap_fst; [|apply NoDup_filter, NoDup_map_to_list];
    intros j r1 r2 H1%Hin H2%Hin; destruct H1, H2; congruence).
  destruct l as [|[j r] [|[j' r'] l']]; cbn in Hl; [lia|lia|].
  apply NoDup_cons in Hnd as [Hne _]. destruct (decide (j = i)) as [->|Hj].
  - exists j', r'. destruct (Hin j' r'); [set_solver|]. split; [set_solver|done].
  - exists j, r. destruct (Hin j r); [set_solver|]. done.
Qed.

Lemma guard_wp uid s :
  wp (_guard_last_admin uid)
    (λ _ s', s' = s ∧ (∀ u, admin_users (db s) !! uid = Some u → active_admin u = true →
       ∃ j v, j ≠ uid ∧ admin_users (db s) !! j = Some v ∧ active_admin v = true))
    (λ _ s', s' = s) s.
Proof.
  unfold _guard_last_admin. apply wp_bind, wp_get_by_id. cbn. destruct (admin_users (db s) !! uid) as [u|] eqn:Hu; [|done].
  destruct (active_admin u) eqn:Ha; cbn [negb]; [|split; [done|]; intros ? [= ->]; congruence].
  apply wp_bind. unfold count_active_admins. apply wp_bind, wp_select, wp_ret, wp_raise_if; [done|].
  intros Hn%Z.leb_gt. split; [done|]. intros ? _ _. by apply another_row.
Qed.

Section Operations.
Context (cfg : AdminAuthConfig).
Notation kept s := (λ _ s', admins_ok (db s) → admins_ok (db s')) (only parsing).

Lemma keeps_wp {A} (m : SM A) s0 s :
keeps (on_db users_stay) m → (admins_ok (db s0) → admins_ok (db s)) →
wp m (kept s0) (kept s0) s.
Proof using Type.
intros H H0. specialize (H s). unfold wp. destruct (m s) as [[a|e] s']; intros Hok; eapply stays_ok; eauto.
Qed.

(** Another active administrator is there after the row at [target] is written. *)
Lemma put_keeps_other d r j v :
keyed admin_users_tbl d → j ≠ au_id r → admin_users d !! j = Some v → active_admin v = true →
admins_ok (put admin_users_tbl r d).
Proof using Type.
intros Hk Hj Hv Ha. split; [by apply (keyed_put admin_users_tbl)|]. exists j, v. cbn. by rewrite lookup_insert_ne.
Qed.

(** The row [update_admin] writes, past its two checks. *)
Lemma patch_ok d t u c now :
admins_ok d → admin_users d !! au_id u = Some u → active_admin u = true → admin_users d !! au_id t = Some t →
(au_id t = au_id u → ud_role c = None) →
(ud_is_active c = Some false → active_admin t = true → ∃ j v, j ≠ au_id t ∧ admin_users d !! j = Some v ∧ active_admin v = true) →
admins_ok (put admin_users_tbl (patch_admin c (touch_admin now t)) d).
Proof using Type.
intros [Hk Hs] Hu Ha Ht Hrole Hact. destruct (decide (au_id t = au_id u)) as [E|Hne].
- assert (t = u) as -> by congruence. destruct (ud_is_active c) as [[]|] eqn:Ec.
  1,3: (split; [by apply (keyed_put admin_users_tbl)|]; exists (au_id u); eexists; cbn; rewrite lookup_insert_eq;
    (split; [done|]); unfold active_admin in *; cbn; rewrite Ec, Hrole by done; cbn; apply andb_true_iff in Ha as [-> Hb]; by rewrite ?Hb).
  destruct Hact as (j & v & Hj & Hv & Hav); [done|done|]. by eapply put_keeps_other.
- eapply put_keeps_other; [done| |exact Hu|done]. cbn. congruence.
Qed.

Lemma update_admin_wp target role act tg tg_name u ip s :
admins_ok (db s) → admin_users (db s) !! au_id u = Some u → active_admin u = true →
wp (update_admin target role act tg tg_name (au_id u) ip) (λ _ s', admins_ok (db s')) (λ _ _, True) s.
Proof using Type.
intros Hok Hu Ha. unfold update_admin, user_or_error. apply wp_bind, wp_bind, wp_get_by_id. cbn [t_rows admin_users_tbl].
destruct (admin_users (db s) !! target) as [t|] eqn:Ht; [|done]. apply wp_ret. cbv zeta. cbn [ud_role ud_is_active].
pose proof (proj1 Hok _ _ Ht) as Et. cbn in Et.
apply wp_bind, wp_raise_if; [done|]. intros Hown. apply wp_bind.
set (c := {| ud_role := _ |}).
assert (Hrole : au_id t = au_id u → ud_role c = None).
{ intros E. assert (t = u) as -> by congruence. cbn. unfold role_change in *. destruct role as [r|]; [|done].
  destruct (bool_decide (r = au_role u)) eqn:Hr; [done|]. apply bool_decide_eq_false in Hr.
  rewrite <-Et, Z.eqb_refl in Hown. cbn in Hown.
  unfold active_admin in Ha. apply andb_true_iff in Ha as [Ha _]. apply bool_decide_eq_true in Ha.
  rewrite bool_decide_false in Hown; [done|congruence]. }
eapply (wp_mono _ (λ _ s', s' = s ∧ (ud_is_active c = Some false → active_admin t = true →
  ∃ j v, j ≠ au_id t ∧ admin_users (db s) !! j = Some v ∧ active_admin v = true)) _ (λ _ _, True)); [| |done].
- apply wp_when; cbn.
  + intros _. eapply wp_mono; [apply guard_wp| |done]. intros _ s' [-> H]. split; [done|]. intros _ Hat. rewrite Et. eauto.
  + intros Hn. split; [done|]. intros E. by rewrite E in Hn.
- intros _ s' [-> Hact]. destruct (changed_keys c) as [|k ks]; [done|].
  apply wp_bind, wp_raise_if; [done|]. intros _. apply wp_bind. unfold wp at 1. rewrite update_run. cbn [t_rows admin_users_tbl].
  rewrite Ht. cbv zeta. destruct (t_check _ _ _ _); [done|]. apply wp_bind.
  eapply wp_mono; [apply (keeps_wp _ s (with_db _ (tick s)))| |done].
  + apply users_stay_frame. keeps_tac.
  + intros _. cbn. apply patch_ok with u; try done. by rewrite Et.
  + intros ? s' H. apply wp_ret, H, Hok.
Qed.

Lemma delete_admin_wp target u ip s :
admins_ok (db s) → admin_users (db s) !! au_id u = Some u → active_admin u = true →
wp (delete_admin target (au_id u) ip) (λ _ s', admins_ok (db s')) (λ _ _, True) s.
Proof using Type.
intros Hok Hu Ha. unfold delete_admin, user_or_error. apply wp_bind, wp_bind, wp_get_by_id. cbn [t_rows admin_users_tbl].
destruct (admin_users (db s) !! target) as [t|] eqn:Ht; [|done]. apply wp_ret, wp_bind, wp_raise_if; [done|]. intros Hne%Z.eqb_neq.
apply wp_bind. eapply wp_mono; [apply guard_wp| |done]. intros _ s' [-> _].
apply wp_bind, wp_bind, wp_select, wp_bind, wp_modify, wp_ret, wp_bind, wp_modify, wp_bind, wp_modify.
eapply wp_mono; [apply (keeps_wp _ s)| |done].
- apply users_stay_frame. keeps_tac.
- intros _. split.
  + intros i v. cbn. intros [_ Hv]%lookup_delete_Some. apply (proj1 Hok), Hv.
  + exists (au_id u), u. cbn. split; [by rewrite lookup_delete_ne|done].
- intros ? s' H. apply H, Hok.
Qed.

Lemma as_http_wp {A} (m : SM A) (Q : A → session → Prop) s : wp m Q (λ _ _, True) s → wp (as_http m) Q (λ _ _, True) s.
Proof using Type. intros H. unfold as_http. apply wp_catch. eapply wp_mono; [exact H|done|]. by intros []. Qed.

Lemma admin_endpoint_wp rq ip op s :
admins_ok (db s) → wp (admin_endpoint cfg rq ip op) (λ _ s', admins_ok (db s')) (λ _ _, True) s.
Proof using Type.
intros Hok. unfold admin_endpoint. apply guards_wp; [apply Hok|done|]. intros u s' E Hu Ha.
assert (Hok' : admins_ok (db s')) by (by rewrite E). rewrite <-E in Hu.
assert (Hst : ∀ A (m : SM A), keeps (on_db users_stay) m → wp m (λ _ s', admins_ok (db s')) (λ _ _, True) s').
{ intros A m Hm. eapply wp_mono; [by apply (keeps_wp _ s')| |done]. cbn. auto. }
destruct op.
- apply Hst. apply keeps_bind; [apply _|apply create_admin_stays|intros; apply keeps_ret, _].
- apply wp_bind, as_http_wp. by apply update_admin_wp.
- apply as_http_wp, Hst, reset_password_stays.
- apply as_http_wp. by apply delete_admin_wp.
- apply wp_bind, as_http_wp, Hst, revoke_stays.
Qed.

Lemma run_request_wp {A} (m : SM A) s :
admins_ok (db s) → wp m (λ _ s', admins_ok (db s')) (λ _ _, True) s → admins_ok (db (run_request m s).2).
Proof using Type. unfold wp, run_request. destruct (m s) as [[]]; auto. Qed.

Lemma run_request_stays {A} (m : SM A) s :
keeps (on_db users_stay) m → admins_ok (db s) → admins_ok (db (run_request m s).2).
Proof using Type. intros Hm Hok. apply run_request_wp; [done|]. eapply wp_mono; [by apply (keeps_wp _ s)| |done]. cbn. auto. Qed.

Lemma conclude_ok detail ip later m a s :
keeps (on_db users_stay) m → admins_ok (db s) → admins_ok (db (conclude detail ip later m a s).2).
Proof using Type.
intros Hm Hok. pose proof (Hm s) as H. unfold conclude. destruct (m s) as [[[r|]|e] s'] eqn:E; cbn; [by eapply stays_ok..|].
by rewrite (run_request_raise _ _ _ _ E).
Qed.

Lemma refuse_ok detail ip e s : admins_ok (db s) → admins_ok (db (refuse detail ip e s).2).
Proof using Type.
intros Hok. unfold refuse. set (m := log_event _ _ _ _). assert (Hm : keeps (on_db users_stay) m).
{ apply users_stay_frame. unfold m. keeps_tac. }
pose proof (Hm s) as H. destruct (m s) as [[]] eqn:E; cbn; [by eapply stays_ok|]. by rewrite (run_request_raise _ _ _ _ E).
Qed.
End Operations.

#[export] Hint Resolve validate_session_frame : keeps.

Lemma get_current_frame cfg rq : keeps (on_db (same admin_users)) (get_current_admin cfg rq).
Proof. unfold get_current_admin. keeps_tac. Qed.
#[export] Hint Resolve get_current_frame : keeps.
Lemma verify_csrf_frame cfg rq : keeps (on_db (same admin_users)) (verify_csrf cfg rq).
Proof. unfold verify_csrf. keeps_tac. Qed.
#[export] Hint Resolve verify_csrf_frame : keeps.

Ltac by_refusal s Hok :=
  match goal with |- context [refuse ?x ?y ?z s] => pose proof (refuse_ok x y z s Hok); by destruct (refuse x y z s) end.

Lemma handle_ok cfg lim p st : admins_ok (db st.2) → admins_ok (db (handle cfg lim p st).2).
Proof.
  destruct st as [a s]. cbn. intros Hok. destruct p; cbn.
  - unfold login_endpoint. destruct (is_allowed _ _ _ _) as [[] a']; cbn; [|done].
    pose proof (conclude_ok "Invalid credentials" ip later _ a' s (users_stay_frame _ (login_password_frame (gc_admin cfg) name password (Some ip) agent)) Hok).
    by destruct (conclude _ _ _ _ _ _) as [[]].
  - unfold callback_endpoint. destruct (truthy (cb_error cb)).
    { by_refusal s Hok. }
    destruct (_ || _).
    { by_refusal s Hok. }
    destruct (is_allowed _ _ _ _) as [[] a']; cbn [negb]; [|done]. destruct (state_holds cb); cbn [negb].
    + match goal with |- context [conclude ?x ?y ?z ?m ?b s] =>
        pose proof (conclude_ok x y z m b s (login_telegram_stays _ _ _ _ _) Hok); by destruct (conclude x y z m b s) as [[]] end.
    + by_refusal s Hok.
  - apply run_request_stays; [|done]. apply users_stay_frame. unfold logout_endpoint, logout, delete_by_hash. keeps_tac.
  - apply run_request_wp; [done|]. by apply admin_endpoint_wp.
  - apply run_request_stays; [|done]. unfold put_ui_prefs, current_admin_user_id, with_session.
    apply keeps_bind; [apply _|apply users_stay_frame; keeps_tac|intros _].
    apply keeps_bind; [apply _|apply users_stay_frame; keeps_tac|intros [uid|]]; [apply prefs_stays|apply keeps_ret, _].
Qed.

(** C27: whatever requests reach the administrators' panel, in any order - logins by password
    or Telegram, logouts, the creation, change, deactivation, demotion and deletion of users
    by any session - a panel with an active administrator still has one. *)
Theorem last_admin_remains cfg lim ps st :
  admins_ok (db st.2) → admins_ok (db (foldl (λ st p, handle cfg lim p st) st ps).2).
Proof. revert st. induction ps as [|p ps IH]; intros st Hok; cbn; [done|]. by apply IH, handle_ok. Qed.

(** Logins of the administrators: passwords, the session a login opens, and the rate limit. *)


(** * Passwords *)

Definition is_byte (b : Z) : Prop := 0 ≤ b < 256.

Lemma hex_char_not_space v : 0 ≤ v < 16 → is_space (hex_char v) = false.
Proof.
  intros Hv. assert (v ∈ seqZ 0 16) as Hin by (apply elem_of_seqZ; lia). revert v Hv Hin. 
  enough (H : Forall (λ v, is_space (hex_char v) = false) (seqZ 0 16)).
  { intros v _ Hin. rewrite Forall_forall in H. by apply H. }
  vm_compute. repeat constructor.
Qed.

Lemma fromhex_hex l : Forall is_byte l → fromhex (bytes_hex l) = Ok l.
Proof.
  induction 1 as [|b l Hb Hl IH]; [done|]. unfold is_byte in Hb.
  assert (0 ≤ b / 16 < 16) by (split; [apply Z.div_pos|apply Z.div_lt_upper_bound]; lia).
  assert (0 ≤ b mod 16 < 16) by (apply Z.mod_pos_bound; lia). cbn [bytes_hex fromhex].
  rewrite hex_char_not_space, !hex_char_digit, IH by done. cbn. by rewrite Z.mul_comm, <-Z.div_mod by done.
Qed.

Lemma hex_not_colon v : 0 ≤ v < 16 → Ascii.eqb (hex_char v) ":" = false.
Proof.
  intros Hv. pose proof (hex_char_digit v Hv) as Hd. destruct (Ascii.eqb_spec (hex_char v) ":"); [|done].
  rewrite e in Hd. discriminate.
Qed.

Lemma split_hex l rest : Forall is_byte l → split_once ":" (bytes_hex l +:+ ":" +:+ rest) = Some (bytes_hex l, rest).
Proof.
  induction 1 as [|b l Hb Hl IH]; [done|]. unfold is_byte in Hb.
  assert (0 ≤ b / 16 < 16) by (split; [apply Z.div_pos|apply Z.div_lt_upper_bound]; lia).
  assert (0 ≤ b mod 16 < 16) by (apply Z.mod_pos_bound; lia). cbn [bytes_hex]. rewrite 2!append_cons. cbn [split_once].
  rewrite !hex_not_colon by done. by rewrite IH.
Qed.

Lemma verify_stored cfg q salt dk :
  Forall is_byte salt → verify_password cfg q (bytes_hex salt +:+ ":" +:+ dk) = Ok (String.eqb (pbkdf2 (ac_crypto cfg) q salt) dk).
Proof. intros Hs. unfold verify_password. rewrite split_hex by done. by rewrite fromhex_hex. Qed.

(** * The session a login opens *)

(** The identifiers to come are free in the two tables a login writes. *)
Definition fresh_ids (s : session) : Prop :=
  ∀ i, next_uuid s ≤ i → admin_sessions (db s) !! i = None ∧ admin_events (db s) !! i = None.

Definition event_row (action : string) (uid : option Z) (detail ip : option string) (s : session) : AdminAuditEvent :=
  {| aae_id := next_uuid s; aae_user_id := uid; aae_action := action; aae_detail := detail; aae_ip_address := ip;
     aae_created_at := clock s (ticks s) |}.

Lemma log_event_run action uid detail ip s :
  admin_events (db s) !! next_uuid s = None →
  log_event action uid detail ip s = (Ok tt, with_db (put admin_events_tbl (event_row action uid detail ip s)) (tick (issue s))).
Proof. intros H. unfold log_event, mbind, M_bind. rewrite create_run. cbn. by rewrite H. Qed.

Section Login.
Context (cfg : AdminAuthConfig).

Definition session_row (u : AdminUser) (ip agent : option string) (s : session) : AdminSession :=
{| ase_id := next_uuid s + 1 + 1; ase_user_id := au_id u; session_hash := hash_session_id cfg (token_hex (ac_crypto cfg) (next_uuid s));
   ase_ip_address := ip; ase_user_agent := agent; ase_expires_at := clock s (ticks s) + session_ttl_sec cfg * second;
   ase_is_active := true; ase_created_at := clock s (S (ticks s)) |}.

(** No session has the hash of the next token. *)
Definition unused_token (s : session) : Prop :=
∀ i r, admin_sessions (db s) !! i = Some r → session_hash r ≠ hash_session_id cfg (token_hex (ac_crypto cfg) (next_uuid s)).

Lemma create_session_run u ip agent method s :
fresh_ids s → unused_token s →
∃ s' e, _create_session cfg u ip agent method s =
  (Ok ({| lo_username := au_username u; lo_role := au_role u; lo_csrf_token := token_hex (ac_crypto cfg) (next_uuid s + 1) |},
       token_hex (ac_crypto cfg) (next_uuid s)), s') ∧
  db s' = put admin_events_tbl e (put admin_sessions_tbl (session_row u ip agent s) (db s)) ∧ clock s' = clock s ∧
  ticks s' = (ticks s + 3)%nat.
Proof using Type.
intros Hf Ht. unfold _create_session, draw_token, mbind, M_bind, uuid4, utcnow, mret, M_ret.
rewrite create_run. cbn [t_id t_rows t_check admin_sessions_tbl next_uuid db clock ticks ase_id].
destruct (Hf (next_uuid s + 1 + 1)) as [-> He]; [lia|].
unfold unique_on, unique. rewrite (proj2 (clashes_false _ _ _ _)).
- rewrite log_event_run by (cbn; apply Hf; lia). do 2 eexists. split; [done|]. split_and!; [reflexivity|done|cbn; lia].
- intros i r Hr _. cbn. apply String.eqb_neq. by apply (Ht i).
Qed.

Definition usernames_unique (d : database) : Prop :=
∀ i j p q, admin_users d !! i = Some p → admin_users d !! j = Some q → au_username p = au_username q → i = j.

Lemma get_by_username_run u s :
keyed admin_users_tbl (db s) → usernames_unique (db s) → admin_users (db s) !! au_id u = Some u →
get_by_username (au_username u) s = (Ok (Some u), s).
Proof using Type.
intros Hk Hu Hin. unfold get_by_username.
destruct (select_unique_run admin_users_tbl (λ v, String.eqb (au_username v) (au_username u)) s Hk) as (o & -> & Ho).
{ intros i j p q Hp Hq Ep%String.eqb_eq Eq%String.eqb_eq. apply (Hu i j p q); [done..|congruence]. }
destruct o as [p|].
- destruct Ho as [Hp Ep%String.eqb_eq]. assert (au_id p = au_id u) as E by by eapply Hu. cbn in Hp. rewrite E in Hp. congruence.
- specialize (Ho _ _ Hin). cbn in Ho. by rewrite String.eqb_refl in Ho.
Qed.

(** The session authenticates its user until it expires. *)
Lemma opened_session_authenticates u ip agent s s' e rq :
ac_enabled cfg = true → token_hex (ac_crypto cfg) (next_uuid s) ≠ "" →
keyed admin_users_tbl (db s) → keyed admin_sessions_tbl (db s) → unused_token s →
admin_users (db s) !! au_id u = Some u → au_is_active u = true →
db s' = put admin_events_tbl e (put admin_sessions_tbl (session_row u ip agent s) (db s)) →
rq_session_cookie rq = Some (token_hex (ac_crypto cfg) (next_uuid s)) →
(get_current_admin cfg rq s').1 =
if clock s' (ticks s') <? clock s (ticks s) + session_ttl_sec cfg * second then Ok u
else Raise (HTTPException 401 "Session expired or invalid").
Proof using Type.
intros Hen Htok Hku Hks Ht Hu Ha Hdb Hrq. unfold get_current_admin. rewrite Hen. cbn [negb raise_if].
unfold mbind at 1, M_bind at 1, mret at 1, M_ret at 1. rewrite Hrq. set (sid := token_hex _ _) in *.
assert (nonempty sid = true) as -> by (by destruct sid). cbn [negb].
set (h := hash_session_id cfg sid) in *. set (row := session_row u ip agent s) in *.
assert (Hrows : admin_sessions (db s') = <[ase_id row := row]> (admin_sessions (db s))) by (by rewrite Hdb).
assert (Husers : admin_users (db s') = admin_users (db s)) by (by rewrite Hdb).
unfold mbind at 1, M_bind at 1, validate_session, mbind at 1, M_bind at 1, get_valid_by_hash.
unfold mbind at 1, M_bind at 1, utcnow. fold (tick s'). set (now := clock s' (ticks s')).
assert (Hone : ∀ i r, admin_sessions (db s') !! i = Some r → String.eqb (session_hash r) h = true → i = ase_id row ∧ r = row).
{ intros i r. rewrite Hrows, lookup_insert. case_decide; [by intros [= <-]|]. intros Hi Eh%String.eqb_eq. by destruct (Ht i r). }
destruct (select_unique_run admin_sessions_tbl (λ r, String.eqb (session_hash r) h && session_valid now r) (tick s')) as (o & -> & Ho).
{ intros i r. cbn. rewrite Hrows, lookup_insert. case_decide; [by intros [= <-]|apply Hks]. }
{ cbn. intros i j r r' Hi Hj [H1 _]%andb_true_iff [H2 _]%andb_true_iff.
  destruct (Hone i r) as [-> _], (Hone j r') as [-> _]; done. }
assert (Hv : session_valid now row = (now <? clock s (ticks s) + session_ttl_sec cfg * second)) by apply andb_true_r.
destruct o as [r|].
- destruct Ho as [Hr [Eh Hval]%andb_true_iff]. destruct (Hone _ _ Hr Eh) as [_ ->]. rewrite <-Hv, Hval.
  unfold get_by_id, read, gets, mbind, M_bind. cbn. by rewrite Husers, Hu, Ha.
- specialize (Ho (ase_id row) row). rewrite <-Hv. cbn in Ho. rewrite Hrows, lookup_insert_eq in Ho. specialize (Ho eq_refl).
  unfold h, sid in Ho. rewrite String.eqb_refl in Ho. cbn [andb] in Ho. by rewrite Ho.
Qed.

(** C28: a login by password.  For an account that is active and with the password it was
    given, the login opens a session of that user and role which, while the authentication of
    administrators is enabled, authenticates requests until its lifetime is over and no
    longer, and none when it is not; for a deactivated account, or with a password of another
    PBKDF2 value, no session is opened and no account changes, and the failure is on record. *)
Theorem password_login_spec u p salt q ip agent s :
(∀ n, token_hex (ac_crypto cfg) n ≠ "") →
keyed admin_users_tbl (db s) → keyed admin_sessions_tbl (db s) → usernames_unique (db s) →
fresh_ids s → unused_token s →
admin_users (db s) !! au_id u = Some u → Forall is_byte salt →
password_hash u = Some (bytes_hex salt +:+ ":" +:+ pbkdf2 (ac_crypto cfg) p salt) →
match login_password cfg (au_username u) q ip agent s with
| (Ok (Some (out, sid)), s') =>
    au_is_active u = true ∧ pbkdf2 (ac_crypto cfg) q salt = pbkdf2 (ac_crypto cfg) p salt ∧ lo_username out = au_username u ∧ lo_role out = au_role u ∧
    ∀ rq, rq_session_cookie rq = Some sid →
      (get_current_admin cfg rq s').1 =
      if negb (ac_enabled cfg) then Raise (HTTPException 501 "Admin auth is not enabled")
      else if clock s' (ticks s') <? clock s (ticks s) + session_ttl_sec cfg * second then Ok u
      else Raise (HTTPException 401 "Session expired or invalid")
| (Ok None, s') =>
    (au_is_active u = false ∨ pbkdf2 (ac_crypto cfg) q salt ≠ pbkdf2 (ac_crypto cfg) p salt) ∧
    admin_users (db s') = admin_users (db s) ∧ admin_sessions (db s') = admin_sessions (db s) ∧
    ∃ e, admin_events (db s') = <[aae_id e := e]> (admin_events (db s)) ∧ aae_action e = "login_failure" ∧
      aae_user_id e = if au_is_active u then Some (au_id u) else None
| (Raise _, _) => False
end.
Proof using Type.
intros Htok Hku Hks Huniq Hf Ht Hu Hsalt Hpw. unfold login_password.
unfold mbind at 1, M_bind at 1. rewrite get_by_username_run by done. destruct (au_is_active u) eqn:Ha; cbn [negb].
2:{ unfold login_failure, mbind at 1, M_bind at 1. rewrite log_event_run by (apply Hf; lia). cbn. split_and!; [by left|done..|].
    eexists (event_row _ _ _ _ _). done. }
rewrite Hpw.
assert (truthy (Some (bytes_hex salt +:+ ":" +:+ pbkdf2 (ac_crypto cfg) p salt)) = true) as -> by (by destruct salt).
cbn [negb from_option id]. rewrite verify_stored by done. unfold lift, mbind at 1, M_bind at 1.
unfold mret at 1, M_ret at 1. destruct (String.eqb_spec (pbkdf2 (ac_crypto cfg) q salt) (pbkdf2 (ac_crypto cfg) p salt)) as [E|E]; cbn [negb].
- destruct (create_session_run u ip agent "password" s Hf Ht) as (s' & e & Hrun & Hdb & Hclock & _).
  unfold mbind at 1, M_bind at 1. rewrite Hrun. cbn. split_and!; [done..|]. intros rq Hrq.
  destruct (ac_enabled cfg) eqn:Hen; [by eapply opened_session_authenticates|].
  unfold get_current_admin. by rewrite Hen.
- unfold login_failure, mbind at 1, M_bind at 1. rewrite log_event_run by (apply Hf; lia). cbn. split_and!; [by right|done..|].
  eexists (event_row _ _ _ _ _). done.
Qed.
End Login.

(** * The rate limit *)

(** The calls of the limiter, in the order of their clock readings. *)
Inductive limiter_call := Ask (key : string) (now : Z) | Note (key : string) (now : Z).
Definition call_time (c : limiter_call) : Z := match c with Ask _ t | Note _ t => t end.

(** The readings at which [key] was let through. *)
Fixpoint admissions (lim : InMemoryRateLimiter) (key : string) (cs : list limiter_call) (a : Attempts) : list Z :=
  match cs with
  | [] => []
  | Ask k now :: cs =>
      let '(ok, a) := is_allowed lim k now a in
      (if ok && String.eqb k key then [now] else []) ++ admissions lim key cs a
  | Note k now :: cs => admissions lim key cs (record k now a)
  end.

Lemma filter_count_mono {A} (P Q : A → Prop) `{!∀ x, Decision (P x), !∀ x, Decision (Q x)} l :
  (∀ x, x ∈ l → P x → Q x) → (length (filter P l) ≤ length (filter Q l))%nat.
Proof.
  induction l as [|x l IH]; intros Hi; [done|]. rewrite !filter_cons.
  specialize (IH (λ y Hy, Hi y (list_elem_of_further _ _ _ Hy))). specialize (Hi x (list_elem_of_here _ _)).
  repeat case_decide; cbn; [lia|tauto|lia|lia].
Qed.

Section RateLimit.
Context (lim : InMemoryRateLimiter) (key : string).
Notation W := (lim_window lim).
Notation recent t l := (length (filter (λ x, (t - x < W)%Z) l)).

(** [hist] are the admissions so far, the last call was at [now]. *)
Definition within_limit (now : Z) (hist : list Z) (a : Attempts) : Prop :=
(∀ x, x ∈ hist → x ≤ now) ∧
(∀ t, now ≤ t → (recent t hist ≤ recent t (attempts_of key a))%nat) ∧
(∀ t, (length (filter (λ x, (t - W < x ≤ t)%Z) hist) ≤ lim_max lim)%nat).

Lemma attempts_insert k l a : attempts_of key (<[k := l]> a) = if decide (k = key) then l else attempts_of key a.
Proof using Type.
unfold attempts_of, Attempts in *. rewrite lookup_insert. by case_decide.
Qed.

Lemma within_limit_later now now' hist a : now ≤ now' → within_limit now hist a → within_limit now' hist a.
Proof using Type. intros Hle (H1 & H2 & H3). split_and!; [|intros; apply H2; lia|done]. intros x Hx. specialize (H1 x Hx). lia. Qed.

Lemma recent_window t now l : now ≤ t → recent t (filter (λ x, now - x < W) l) = recent t l.
Proof using Type.
intros Hle. rewrite list_filter_filter_l; [done|]. intros x. lia.
Qed.

Lemma within_limit_note now hist a k : within_limit now hist a → within_limit now hist (record k now a).
Proof using Type.
intros (H1 & H2 & H3). split_and!; [done| |done]. intros t Ht. unfold record. rewrite attempts_insert. case_decide as E; [|auto].
subst k. rewrite filter_app, length_app. specialize (H2 t Ht). lia.
Qed.

Lemma within_limit_ask now hist a k : within_limit now hist a →
let '(ok, a') := is_allowed lim k now a in within_limit now (hist ++ if ok && String.eqb k key then [now] else []) a'.
Proof using Type.
intros (H1 & H2 & H3). unfold is_allowed. set (win := filter _ _). 
destruct (String.eqb_spec k key) as [->|Hne].
- assert (Hw : ∀ t, now ≤ t → recent t win = recent t (attempts_of key a)) by (intros; by apply recent_window).
  destruct (Nat.leb_spec (lim_max lim) (length win)) as [Hm|Hm]; cbn [andb].
  + rewrite app_nil_r. split_and!; [done| |done]. intros t Ht. rewrite attempts_insert, decide_True, Hw by done. auto.
  + split_and!.
    * intros x [Hx|Hx]%elem_of_app; [auto|]. apply list_elem_of_singleton in Hx. lia.
    * intros t Ht. rewrite attempts_insert, decide_True, !filter_app, !length_app, Hw by done. specialize (H2 t Ht). lia.
    * intros t. rewrite filter_app, length_app, filter_cons. case_decide as Ht; cbn; [|by rewrite Nat.add_0_r].
      enough (length (filter (λ x, (t - W < x ≤ t)%Z) hist) ≤ length win)%nat by lia.
      transitivity (recent now hist).
      { apply filter_count_mono. intros x Hx. lia. }
      exact (H2 now (Z.le_refl _)).
- destruct (lim_max lim <=? length win)%nat; cbn [andb]; rewrite app_nil_r; (split_and!; [done| |done]); intros t Ht;
    rewrite attempts_insert, decide_False by done; auto.
Qed.

Lemma within_limit_admissions cs : ∀ now hist a,
StronglySorted Z.le (now :: (call_time <$> cs)) → within_limit now hist a →
∀ t, (length (filter (λ x, (t - W < x ≤ t)%Z) (hist ++ admissions lim key cs a)) ≤ lim_max lim)%nat.
Proof using Type.
induction cs as [|c cs IH]; intros now hist a Hs Hl t; [rewrite app_nil_r; by apply Hl|].
apply StronglySorted_inv in Hs as [Hs Hle]. inversion Hle as [|? ? Hnow _]; subst. apply (within_limit_later _ _ _ _ Hnow) in Hl.
destruct c as [k now'|k now']; cbn [admissions call_time] in *.
- pose proof (within_limit_ask now' hist a k Hl) as Hk. destruct (is_allowed lim k now' a) as [ok a'].
  rewrite app_assoc. by apply IH with now'.
- apply IH with now'; [done|]. by apply within_limit_note.
Qed.
End RateLimit.

(** C29: of the attempts of one address, at most [max_attempts] are let through in any window
    of the limiter's length, whatever calls for other addresses are in between. *)
Theorem rate_limit_bound lim key cs t :
  StronglySorted Z.le (call_time <$> cs) →
  (length (filter (λ x, (t - lim_window lim < x ≤ t)%Z) (admissions lim key cs ∅)) ≤ lim_max lim)%nat.
Proof.
  intros Hs. destruct cs as [|c cs]; [cbn; lia|]. change (admissions lim key (c :: cs) ∅) with ([] ++ admissions lim key (c :: cs) ∅).
  eapply (within_limit_admissions lim key _ (call_time c)).
  - constructor; [done|]. apply StronglySorted_inv in Hs as [_ Hs]. constructor; [cbn; lia|done].
  - split_and!; [set_solver|cbn; lia|cbn; lia].
Qed.

(** * What a failed login costs *)

Lemma filter_everything {A} (P : A → Prop) `{!∀ x, Decision (P x)} l : Forall P l → filter P l = l.
Proof. induction 1 as [|x l Hx _ IH]; [done|]. by rewrite filter_cons, decide_True, IH. Qed.

Lemma failed_login_attempts cfg lim ip agent name pw now later a s s' l :
  attempts_of ip a = l → Forall (λ x, now - x < lim_window lim) l → (length l < lim_max lim)%nat →
  login_password cfg name pw (Some ip) agent s = (Ok None, s') →
  ∃ a', login_endpoint cfg lim ip agent name pw now later a s = (Raise (HTTPException 401 "Invalid credentials"), a', s') ∧
        attempts_of ip a' = l ++ [now; later].
Proof.
  intros Hl Hw Hn Hlogin. unfold login_endpoint, is_allowed. rewrite Hl, filter_everything by done.
  rewrite (proj2 (Nat.leb_gt _ _)) by done. cbn [negb]. unfold conclude. rewrite Hlogin. eexists. split; [done|].
  unfold record. rewrite !attempts_insert, !decide_True by done. by rewrite <-app_assoc.
Qed.

(** A failed login is counted twice: after three failed logins of an address within a
    minute the limiter of five attempts refuses the fourth. *)
Theorem failed_login_counts_twice cfg sec ip agent n1 n2 n3 n4 p1 p2 p3 p4 t1 u1 t2 u2 t3 u3 t4 u4 a s s1 s2 s3 :
  attempts_of ip a = [] → t1 ≤ u1 ≤ t2 → t2 ≤ u2 ≤ t3 → t3 ≤ u3 ≤ t4 → t4 - t1 < 60 * sec →
  login_password cfg n1 p1 (Some ip) agent s = (Ok None, s1) →
  login_password cfg n2 p2 (Some ip) agent s1 = (Ok None, s2) →
  login_password cfg n3 p3 (Some ip) agent s2 = (Ok None, s3) →
  let lim := login_rate_limiter sec in
  let '(_, a1, s1') := login_endpoint cfg lim ip agent n1 p1 t1 u1 a s in
  let '(_, a2, s2') := login_endpoint cfg lim ip agent n2 p2 t2 u2 a1 s1' in
  let '(_, a3, s3') := login_endpoint cfg lim ip agent n3 p3 t3 u3 a2 s2' in
  (login_endpoint cfg lim ip agent n4 p4 t4 u4 a3 s3').1.1 = Raise too_many.
Proof.
  intros Ha T1 T2 T3 T4 L1 L2 L3 lim.
  destruct (failed_login_attempts cfg lim ip agent n1 p1 t1 u1 a s s1 [] Ha) as (a1 & -> & A1); [constructor|cbn; lia|done|].
  destruct (failed_login_attempts cfg lim ip agent n2 p2 t2 u2 a1 s1 s2 _ A1) as (a2 & -> & A2);
    [repeat constructor; cbn; lia|cbn; lia|done|].
  destruct (failed_login_attempts cfg lim ip agent n3 p3 t3 u3 a2 s2 s3 _ A2) as (a3 & -> & A3);
    [repeat constructor; cbn; lia|cbn; lia|done|].
  unfold login_endpoint, is_allowed. rewrite A3, filter_everything; [done|].
  repeat constructor; cbn; lia.
Qed.

(** * The role of a session *)

(** The guard of the other routers asks for a valid session only: it lets a viewer
    through, whom [require_role] refuses. *)
Theorem viewer_passes_admin_auth cfg rq c sid u r s s' :
  ac_enabled (gc_admin cfg) = true → rq_session_cookie rq = Some sid → sid ≠ "" →
  validate_session (hash_session_id (gc_admin cfg) sid) s = (Ok (Some (u, r)), s') → au_role u = role_viewer →
  admin_auth cfg rq c s = (Ok tt, s') ∧
  ∀ role, role ≠ role_viewer → (require_role (gc_admin cfg) role rq s).1 = Raise (HTTPException 403 "Insufficient permissions").
Proof.
  intros Hen Hc Hsid Hv Hr. assert (Hne : nonempty sid = true) by (by destruct sid).
  split.
  - unfold admin_auth, _admin_auth_session, with_session. rewrite Hen, Hc. cbn [negb]. rewrite Hne. cbn [negb].
    unfold mbind, M_bind. by rewrite Hv.
  - intros role Hrole. unfold require_role, get_current_admin. rewrite Hen, Hc. unfold mbind, M_bind. cbn [negb raise_if].
    unfold mret, M_ret. rewrite Hne. cbn [negb]. rewrite Hv. rewrite Hr. by destruct role.
Qed.

(** * A panel with two accounts *)

(** Digests that show what they were made of. *)
Definition plain_crypto : Crypto :=
  {| pbkdf2 := λ p salt, p +:+ "/" +:+ bytes_hex salt; sha256_hex := λ x, "#" +:+ x; urandom := λ n, [n mod 256; 7];
     token_hex := λ n, "t" +:+ bytes_hex [n mod 256] |}.
Definition panel_cfg : AdminAuthConfig :=
  {| ac_enabled := true; session_ttl_sec := 3600; telegram_login_enabled := false; telegram_client_id := "";
     telegram_client_secret := ""; telegram_allowed_ids := []; ac_crypto := plain_crypto |}.
Definition guard_cfg : GuardConfig :=
  {| gc_admin := panel_cfg; gc_api_key_hash := ""; connect_api_key_hash := ""; probe_token_hash := ""; relay_token_hash := "";
     relay_token := ""; bot_api_key_hash := "" |}.
Definition account (id : Z) (name : string) (role : AdminRole) : AdminUser :=
  {| au_id := id; au_username := name; password_hash := Some "0102:secret/0102"; au_telegram_id := None; telegram_username := None;
     au_role := role; ui_prefs := None; au_is_active := true; au_created_at := 0; au_updated_at := 0 |}.
Definition panel_db : database :=
  set_admin_users (<[1 := account 1 "root" role_admin]> {[2 := account 2 "guest" role_viewer]}) empty_db.
Definition panel_session : session := session_on panel_db 1000 50.

Lemma panel_ok : admins_ok panel_db.
Proof.
  split; [by apply keyed_by_computation; vm_compute|]. exists 1, (account 1 "root" role_admin). split; [by vm_compute|done].
Qed.

Definition cookie (sid : string) : Request :=
  {| rq_session_cookie := Some sid; rq_safe_method := false; rq_csrf_header := Some "x"; rq_csrf_cookie := Some "x" |}.

(** The administrator logs in and tries to delete, demote and deactivate the own account. *)
Definition visits : list panel_request :=
  [PLogin "1.2.3.4" None "root" "secret" 0 1; PUsers (cookie "t32") None (OpDelete 1);
   PUsers (cookie "t32") None (OpUpdate 1 (Some role_viewer) None None None);
   PUsers (cookie "t32") None (OpUpdate 1 None (Some false) None None);
   PUsers (cookie "t32") None (OpDelete 2)].

Lemma last_admin_remains_witness :
  admins_ok (db (foldl (λ st p, handle guard_cfg (login_rate_limiter 1) p st) (∅, panel_session) visits).2).
Proof. apply last_admin_remains. exact panel_ok. Defined.

Example visits_result :
  au_role <$> admin_users (db (foldl (λ st p, handle guard_cfg (login_rate_limiter 1) p st) (∅, panel_session) visits).2)
  = {[1 := role_admin]}.
Proof. vm_compute. reflexivity. Qed.

Lemma password_login_spec_witness :
  let u := account 1 "root" role_admin in
  match login_password panel_cfg "root" "secret" None None panel_session with
  | (Ok (Some (out, sid)), s') =>
      au_is_active u = true ∧ pbkdf2 plain_crypto "secret" [1; 2] = pbkdf2 plain_crypto "secret" [1; 2] ∧ lo_username out = "root" ∧ lo_role out = role_admin ∧
      ∀ rq, rq_session_cookie rq = Some sid →
        (get_current_admin panel_cfg rq s').1 =
        if negb (ac_enabled panel_cfg) then Raise (HTTPException 501 "Admin auth is not enabled")
        else if clock s' (ticks s') <? clock panel_session (ticks panel_session) + 3600 * second then Ok u
        else Raise (HTTPException 401 "Session expired or invalid")
  | (Ok None, s') =>
      (au_is_active u = false ∨ pbkdf2 plain_crypto "secret" [1; 2] ≠ pbkdf2 plain_crypto "secret" [1; 2]) ∧
      admin_users (db s') = admin_users panel_db ∧ admin_sessions (db s') = admin_sessions panel_db ∧
      ∃ e, admin_events (db s') = <[aae_id e := e]> (admin_events panel_db) ∧ aae_action e = "login_failure" ∧ aae_user_id e = if au_is_active u then Some 1 else None
  | (Raise _, _) => False
  end.
Proof.
  apply (password_login_spec panel_cfg (account 1 "root" role_admin) "secret" [1; 2] "secret" None None panel_session).
  - intros n. discriminate.
  - exact (proj1 panel_ok).
  - by apply keyed_by_computation; vm_compute.
  - intros i j p q Hp%elem_of_map_to_list Hq%elem_of_map_to_list. revert Hp Hq.
    vm_compute (map_to_list _). set_solver.
  - intros i Hi. split; apply lookup_empty.
  - intros i r Hr. change (admin_sessions (db panel_session)) with (∅ : gmap Z AdminSession) in Hr. by rewrite lookup_empty in Hr.
  - by vm_compute.
  - repeat constructor; vm_compute; congruence.
  - by vm_compute.
Defined.

Lemma rate_limit_bound_witness :
  let cs := [Ask "a" 0; Note "a" 1; Ask "a" 2; Ask "b" 3; Ask "a" 70; Ask "a" 71; Ask "a" 72; Ask "a" 73; Ask "a" 74; Ask "a" 75] in
  (length (filter (λ x, (75 - 60 < x ≤ 75)%Z) (admissions (login_rate_limiter 1) "a" cs ∅)) ≤ 5)%nat.
Proof. apply (rate_limit_bound (login_rate_limiter 1)). cbn. repeat constructor; lia. Defined.
