(* ===== verification/Support.v ===== *)
(** The support desk (services/support/service.py, repository.py): tickets, messages,
    templates, the actions an operator takes for a user, and the two consumers. *)

From stdpp Require Import base gmap strings list sorting pretty.
From Stdlib Require Import Ascii.
From S2P Require Import Prelude Decimal Errors RouteModels BillingModels FleetModels SupportModels Session Uuid NodeDisplay Tables Ledger BillingRepo Billing Traffic Routes VlessUri SupportTables AgentDetails AdminAuth.
Local Open Scope Z_scope.

(** * Texts *)

Definition SUBJECT_PREVIEW_LEN : nat := 80.

Definition GRANT_DAY_SYSTEM : string := "Подписка продлена на 1 день оператором".
Definition REFUND_SYSTEM (amount : string) : string := "Возврат " +:+ amount +:+ " ₽ зачислен на баланс пользователя".
Definition REFUND_DESCRIPTION (oid tid : Z) : string :=
  "Возврат по заказу " +:+ str_uuid oid +:+ " (тикет " +:+ str_uuid tid +:+ ")".
Definition TICKET_CLOSED_SYSTEM : string := "Тикет закрыт оператором".
Definition TICKET_CLOSED_USER_NOTIFY : string :=
  "Тикет закрыт оператором. Если у вас остались вопросы — просто напишите ещё раз, мы создадим новый запрос.".
Definition TICKET_REOPENED_SYSTEM : string := "Тикет переоткрыт оператором".
Definition TICKET_REOPENED_USER_NOTIFY : string := "Оператор переоткрыл ваш запрос. Можете продолжать диалог в этом чате.".

(** [s[:n]], by characters. *)
Fixpoint char_take (n : nat) (s : string) : string :=
  match s with
  | "" => ""
  | String c s =>
      if is_continuation c then String c (char_take n s)
      else match n with O => "" | S n => String c (char_take n s) end
  end.

(** [str] of a NUMERIC(10, 2) that is not negative, in hundredths. *)
Definition str_amount (k : Z) : string :=
  pretty (k / 100) +:+ "." +:+ pretty (k mod 100 / 10) +:+ pretty (k mod 10).

(** [s LIKE pattern]. *)
Fixpoint sql_like_chars (pattern s : list ascii) : bool :=
  match pattern with
  | [] => match s with [] => true | _ => false end
  | p :: pattern =>
      if Ascii.eqb p "%" then
        (fix any (s : list ascii) : bool :=
           sql_like_chars pattern s || match s with [] => false | _ :: s => any s end) s
      else match s with
           | [] => false
           | c :: s => (Ascii.eqb p "_" || Ascii.eqb p c) && sql_like_chars pattern s
           end
  end.
Definition sql_like (pattern s : string) : bool :=
  sql_like_chars (String.list_ascii_of_string pattern) (String.list_ascii_of_string s).

(** * Records of the interface *)

Record TicketUserRef := {
  ur_id : Z;
  ur_username : option string;
  ur_telegram_id : Z;
  ur_balance : Z;
  ur_plan_name : option string;
  ur_expires_at : option Z;
  lifetime_spend : Z;
}.

Record TicketOut := {
  to_id : Z;
  to_subject : string;
  to_status : TicketStatus;
  to_priority : TicketPriority;
  to_category : TicketCategory;
  to_assignee : option string;
  has_media : bool;
  attachments_count : Z;
  to_created_at : Z;
  to_updated_at : Z;
  to_last_activity_at : Z;
  to_user : TicketUserRef;
}.

Record AttachmentOut := {
  ao_kind : string;
  ao_url : string;
  ao_file_name : option string;
  ao_file_size : option Z;
  ao_duration : option Z;
}.

Record MessageOut := {
  mo_id : Z;
  mo_from : MessageSenderKind;
  mo_text : string;
  mo_media : list AttachmentOut;
  mo_created_at : Z;
  mo_delivered : bool;
  mo_read : bool;
  mo_is_note : bool;
  mo_author : option string;
}.

Record TicketCreateIn := { tci_user_id : Z; tci_subject : string; tci_category : TicketCategory; tci_priority : TicketPriority }.

Record TicketPatchIn := {
  tp_status : option TicketStatus;
  tp_priority : option TicketPriority;
  tp_category : option TicketCategory;
  tp_assignee : option string;
}.

Record TicketBulkUpdateIn := {
  tb_ids : list Z;
  tb_status : option TicketStatus;
  tb_priority : option TicketPriority;
  tb_assignee : option string;
}.

(** * Repositories *)

Section Repositories.
(** [str.lower] and LOWER on any text. *)
Context (lower_text : string → string).

Definition unanswered (cutoff : Z) (t : SupportTicket) : bool :=
  (bool_decide (tk_status t = NEW) || bool_decide (tk_status t = IN_PROGRESS)) && (last_activity_at t <=? cutoff).

Record TicketFilter := {
  f_search : option string;
  f_status : option TicketStatus;
  f_category : option TicketCategory;
  f_priority : option TicketPriority;
  f_assignee : option Z;
  f_unanswered_minutes : option Z;
  f_exclude_closed : bool;
}.

Definition passes {A} `{!EqDecision A} (o : option A) (x : A) : bool :=
  match o with Some y => bool_decide (x = y) | None => true end.

(** The conditions of [list_filtered]; [now] is the reading of its clock. *)
Definition ticket_matches (f : TicketFilter) (now : Z) (t : SupportTicket) : bool :=
  passes (f_status f) (tk_status t) && negb (f_exclude_closed f && bool_decide (tk_status t = CLOSED)) &&
  passes (f_category f) (tk_category t) && passes (f_priority f) (tk_priority t) &&
  match f_assignee f with Some a => bool_decide (assignee_admin_id t = Some a) | None => true end &&
  match f_unanswered_minutes f with Some m => unanswered (now - m * minute) t | None => true end &&
  match f_search f with
  | Some q => negb (nonempty q) || sql_like ("%" +:+ lower_text q +:+ "%") (lower_text (tk_subject t))
  | None => true
  end.

Definition list_filtered (f : TicketFilter) (limit offset : nat) : SM (list SupportTicket * Z) :=
  now ← match f_unanswered_minutes f with Some _ => utcnow | None => mret 0 end;
  l ← select_where tickets_tbl (ticket_matches f now);
  mret (take limit (drop offset (order_by_desc last_activity_at l)), Z.of_nat (length l)).

Record TicketStatsRaw := { tsr_open : Z; tsr_unanswered : Z; closed_today : Z; avg_reply_minutes : option Z }.

(** How long users waited for the first answer, of the tickets of the last day. *)
Definition reply_time (since : Z) (t : SupportTicket) : option Z :=
  match first_user_msg_at t, first_reply_at t with
  | Some a, Some b => if (a <=? b) && (since <=? a) then Some (b - a) else None
  | _, _ => None
  end.

Definition count_tickets (P : SupportTicket → bool) : SM Z :=
  l ← select_where tickets_tbl P; mret (Z.of_nat (length l)).

(** [stats]; [avg_minutes] is the database's average of the waiting times in minutes, cut
    to an integer. *)
Definition ticket_stats (avg_minutes : list Z → Z) : SM TicketStatsRaw :=
  open_ ← count_tickets (λ t, negb (bool_decide (tk_status t = CLOSED)));
  n1 ← utcnow;
  un ← count_tickets (unanswered (n1 - hour));
  n2 ← utcnow;
  closed ← count_tickets (λ t, bool_decide (tk_status t = CLOSED) &&
             match closed_at t with Some c => midnight n2 <=? c | None => false end);
  n3 ← utcnow;
  l ← select_where tickets_tbl (λ _, true);
  let times := omap (reply_time (n3 - day)) l in
  mret {| tsr_open := open_; tsr_unanswered := un; closed_today := closed;
          avg_reply_minutes := match times with [] => None | _ => Some (avg_minutes times) end |}.

Definition find_open_by_user (uid : Z) : SM (option SupportTicket) :=
  l ← select_where tickets_tbl (λ t, (tk_user_id t =? uid) && negb (bool_decide (tk_status t = CLOSED)));
  mret (head (order_by_desc last_activity_at l)).

(** ORDER BY ... DESC puts NULLs first. *)
Definition desc_nulls_first {R} (key : R → option Z) (l : list R) : list R :=
  filter (λ r, key r = None) l ++ order_by_desc (λ r, key_or_zero (key r)) (filter (λ r, key r ≠ None) l).

(** [aggregate_subscription_meta], for one user. *)
Definition subscription_meta (d : database) (uid : Z) : option (option Z * option string) :=
  b ← head (desc_nulls_first sub_expires_at (filter (λ b, sub_user_id b = uid) (rows (subscriptions d))));
  Some (sub_expires_at b, plan_name <$> (sub_plan_id b ≫= (plans d !!.))).

(** [aggregate_lifetime_spend], for one user. *)
Definition lifetime_spend_of (d : database) (uid : Z) : Z :=
  foldr (λ o z, order_amount_rub o + z) 0
    (filter (λ o, order_user_id o = uid ∧ order_status o = PAID) (rows (orders d))).

Definition list_for_ticket (tid : Z) : SM (list SupportMessage) :=
  l ← select_where support_messages_tbl (λ m, sm_ticket_id m =? tid); mret (order_by_asc sm_created_at l).

Definition attachments_of (d : database) (mid : Z) : list SupportAttachment :=
  filter (λ a, sa_message_id a = mid) (rows (support_attachments d)).

(** [has_media_flags], for one ticket: the number of attachments of its messages. *)
Definition attachments_of_ticket (d : database) (tid : Z) : Z :=
  Z.of_nat (length (filter (λ a, sm_ticket_id <$> (support_messages d !! sa_message_id a) = Some tid) (rows (support_attachments d)))).

Definition patch_message (f : SupportMessage → SupportMessage) (mid : Z) : SM (option SupportMessage) :=
  update_by_id support_messages_tbl mid f.

Definition delivered_message (tg : option Z) (m : SupportMessage) : SupportMessage :=
  {| sm_id := sm_id m; sm_ticket_id := sm_ticket_id m; sender_kind := sender_kind m; sender_admin_id := sender_admin_id m;
     sm_body := sm_body m; is_note := is_note m; sm_delivered := true; sm_read_at := sm_read_at m;
     tg_message_id := match tg with Some _ => tg | None => tg_message_id m end; sm_created_at := sm_created_at m |}.

Definition mark_delivered (mid : Z) (tg : option Z) : SM (option SupportMessage) := patch_message (delivered_message tg) mid.

Definition list_templates : SM (list SupportTemplate) := select_where templates_tbl (λ _, true).

Definition get_by_tag_title (tag title : string) : SM (option SupportTemplate) :=
  l ← select_where templates_tbl (λ t, String.eqb (lower_text (st_tag t)) (lower_text tag) && String.eqb (lower_text (st_title t)) (lower_text title));
  scalar_one_or_none l.
End Repositories.

(** * The service *)

(** The broker: whether there is a client, and which messages it takes. *)
Record SupportEnv := { nats_present : bool; accepts : SupportOutboundPayload → bool; text_lower : string → string }.

Section Service.
Context (env : SupportEnv).

(** [publish_jetstream], with the exception caught: whether the broker took the message. *)
Definition publish_support (p : SupportOutboundPayload) : SM bool :=
if accepts env p : bool then emit (PublishSupport p) ;; mret true else mret false.

Definition outbound_media (a : AttachmentIn) : SupportOutboundAttachmentMsg :=
{| om_kind := at_kind a; om_tg_file_id := tg_file_id a; om_url := storage_url a; om_file_name := file_name a |}.

Definition _publish_outbound (ticket : SupportTicket) (msg : SupportMessage) (text kind : string) (atts : list AttachmentIn) : SM unit :=
if negb (nats_present env) then mret tt
else
  u ← get_by_id users_tbl (tk_user_id ticket);
  match u with
  | None => mret tt
  | Some u =>
      publish_support {| so_ticket_id := str_uuid (tk_id ticket); so_message_id := str_uuid (sm_id msg); so_telegram_id := telegram_id u; so_text := text;
                 so_media := outbound_media <$> atts; so_buttons := []; so_entities := None; so_parse_mode := None; so_kind := kind |} ;;
      mret tt
  end.

(** [_fetch_users_with_meta], for one user. *)
Definition user_ref (d : database) (uid : Z) : TicketUserRef :=
match users d !! uid with
| Some u =>
    let meta := subscription_meta d uid in
    {| ur_id := user_id u; ur_username := username u; ur_telegram_id := telegram_id u; ur_balance := balance u;
       ur_plan_name := meta ≫= snd; ur_expires_at := meta ≫= fst; lifetime_spend := lifetime_spend_of d uid |}
| None => {| ur_id := uid; ur_username := None; ur_telegram_id := 0; ur_balance := 0; ur_plan_name := None;
             ur_expires_at := None; lifetime_spend := 0 |}
end.

Definition admin_name (d : database) (aid : Z) : option string := au_username <$> (admin_users d !! aid).

Definition ticket_out (d : database) (t : SupportTicket) : TicketOut :=
let n := attachments_of_ticket d (tk_id t) in
{| to_id := tk_id t; to_subject := tk_subject t; to_status := tk_status t; to_priority := tk_priority t;
   to_category := tk_category t; to_assignee := assignee_admin_id t ≫= admin_name d; has_media := 0 <? n; attachments_count := n;
   to_created_at := tk_created_at t; to_updated_at := tk_updated_at t; to_last_activity_at := last_activity_at t;
   to_user := user_ref d (tk_user_id t) |}.

Definition list_tickets (f : TicketFilter) (limit offset : nat) : SM (list TicketOut * Z) :=
'(l, total) ← list_filtered (text_lower env) f limit offset;
read (λ d, (ticket_out d <$> l, total)).

Definition ticket_or_error (tid : Z) : SM SupportTicket :=
t ← get_by_id tickets_tbl tid;
match t with Some t => mret t | None => raise (TicketNotFound (str_uuid tid)) end.

Definition get_ticket (tid : Z) : SM TicketOut := t ← ticket_or_error tid; read (λ d, ticket_out d t).

(** [UUID(value)], or the administrator of that name. *)
Definition _resolve_admin_id (value : string) (me : option Z) : SM (option Z) :=
if negb (nonempty value) then mret None
else match (if String.eqb value "me" then me else None) with
     | Some a => mret (Some a)
     | None =>
         if String.eqb value "unassigned" then mret None
         else match UUID value with
              | Some u => mret (Some u)
              | None => a ← get_by_username value; mret (au_id <$> a)
              end
     end.

Definition _add_system_message (tid : Z) (body : string) (actor : option Z) : SM SupportMessage :=
create support_messages_tbl (λ id now,
  {| sm_id := id; sm_ticket_id := tid; sender_kind := from_system; sender_admin_id := actor; sm_body := body; is_note := false;
     sm_delivered := true; sm_read_at := None; tg_message_id := None; sm_created_at := now |}).

Definition new_ticket (uid : Z) (subject : string) (cat : TicketCategory) (pri : TicketPriority) (activity : Z) (first : option Z)
  : SM SupportTicket :=
create tickets_tbl (λ id now,
  {| tk_id := id; tk_user_id := uid; tk_subject := char_take SUBJECT_PREVIEW_LEN subject; tk_status := NEW; tk_priority := pri;
     tk_category := cat; assignee_admin_id := None; last_activity_at := activity; closed_at := None; first_user_msg_at := first;
     first_reply_at := None; tk_created_at := now; tk_updated_at := now |}).

Definition create_ticket (data : TicketCreateIn) : TM TicketOut :=
t ← sql (now ← utcnow; new_ticket (tci_user_id data) (tci_subject data) (tci_category data) (tci_priority data) now None);
commit ;;
sql (get_ticket (tk_id t)).

(** The columns [patch_ticket], [bulk_update] and the messages assign. *)
Record TicketChange := {
  ch_subject : string;
  ch_status : TicketStatus;
  ch_priority : TicketPriority;
  ch_category : TicketCategory;
  ch_assignee : option Z;
  ch_activity : Z;
  ch_closed_at : option Z;
  ch_first_user_msg_at : option Z;
  ch_first_reply_at : option Z;
}.

Definition columns (t : SupportTicket) : TicketChange :=
{| ch_subject := tk_subject t; ch_status := tk_status t; ch_priority := tk_priority t; ch_category := tk_category t;
   ch_assignee := assignee_admin_id t; ch_activity := last_activity_at t; ch_closed_at := closed_at t;
   ch_first_user_msg_at := first_user_msg_at t; ch_first_reply_at := first_reply_at t |}.

Definition assigned (c : TicketChange) (t : SupportTicket) : SupportTicket :=
{| tk_id := tk_id t; tk_user_id := tk_user_id t; tk_subject := ch_subject c; tk_status := ch_status c; tk_priority := ch_priority c;
   tk_category := ch_category c; assignee_admin_id := ch_assignee c; last_activity_at := ch_activity c; closed_at := ch_closed_at c;
   first_user_msg_at := ch_first_user_msg_at c; first_reply_at := ch_first_reply_at c; tk_created_at := tk_created_at t;
   tk_updated_at := tk_updated_at t |}.

(** The flush of an assigned ticket. *)
Definition flush_ticket (tid : Z) (c : TicketChange) : SM unit := update_by_id tickets_tbl tid (assigned c) ;; mret tt.

(** [if data.status is not None and data.status.value != ticket.status]. *)
Definition status_change (t : SupportTicket) (data : TicketPatchIn) : option TicketStatus :=
match tp_status data with Some st => if bool_decide (st = tk_status t) then None else Some st | None => None end.

Inductive transition := just_closed | just_reopened | other_change.
Definition transition_of (t : SupportTicket) (st : TicketStatus) : transition :=
if bool_decide (st = CLOSED) then just_closed else if bool_decide (tk_status t = CLOSED) then just_reopened else other_change.

Definition patch_assignee (t : SupportTicket) (data : TicketPatchIn) (actor : option Z) : SM (option Z) :=
match tp_assignee data with
| Some a => _resolve_admin_id a actor
| None => mret (assignee_admin_id t)
end.

Definition patch_changed (t : SupportTicket) (data : TicketPatchIn) (assignee : option Z) : bool :=
match status_change t data with Some _ => true | None => false end ||
match tp_priority data with Some p => negb (bool_decide (p = tk_priority t)) | None => false end ||
match tp_category data with Some c => negb (bool_decide (c = tk_category t)) | None => false end ||
negb (bool_decide (assignee = assignee_admin_id t)).

Definition patch_ticket (tid : Z) (data : TicketPatchIn) (actor : option Z) : TM TicketOut :=
t ← sql (ticket_or_error tid);
let st := status_change t data in
closed ← sql (match st with
              | Some st => match transition_of t st with
                           | just_closed => now ← utcnow; mret (Some now)
                           | just_reopened => mret None
                           | other_change => mret (closed_at t)
                           end
              | None => mret (closed_at t)
              end);
assignee ← sql (patch_assignee t data actor);
when (patch_changed t data assignee)
  (sql (now ← utcnow;
        flush_ticket tid
          {| ch_subject := tk_subject t; ch_status := default (tk_status t) st; ch_priority := default (tk_priority t) (tp_priority data);
             ch_category := default (tk_category t) (tp_category data); ch_assignee := assignee; ch_activity := now;
             ch_closed_at := closed; ch_first_user_msg_at := first_user_msg_at t; ch_first_reply_at := first_reply_at t |}) ;;
   commit) ;;
match st with
| Some st =>
    match transition_of t st with
    | just_closed =>
        m ← sql (_add_system_message tid TICKET_CLOSED_SYSTEM actor);
        commit ;;
        sql (_publish_outbound t m TICKET_CLOSED_USER_NOTIFY "close" [])
    | just_reopened =>
        m ← sql (_add_system_message tid TICKET_REOPENED_SYSTEM actor);
        commit ;;
        sql (_publish_outbound t m TICKET_REOPENED_USER_NOTIFY "reopen" [])
    | other_change => mret tt
    end
| None => mret tt
end ;;
sql (get_ticket tid).

(** One ticket of [bulk_update]; whether it was found. *)
Definition bulk_one (data : TicketBulkUpdateIn) (assignee : option Z) (tid : Z) : SM bool :=
t ← get_by_id tickets_tbl tid;
match t with
| None => mret false
| Some t =>
    closed ← match tb_status data with
             | Some CLOSED => now ← utcnow; mret (Some now)
             | _ => mret (closed_at t)
             end;
    now ← utcnow;
    flush_ticket tid
      {| ch_subject := tk_subject t; ch_status := default (tk_status t) (tb_status data);
         ch_priority := default (tk_priority t) (tb_priority data); ch_category := tk_category t;
         ch_assignee := match tb_assignee data with Some _ => assignee | None => assignee_admin_id t end; ch_activity := now;
         ch_closed_at := closed; ch_first_user_msg_at := first_user_msg_at t; ch_first_reply_at := first_reply_at t |} ;;
    mret true
end.

Definition bulk_update (data : TicketBulkUpdateIn) (actor : option Z) : TM Z :=
match tb_ids data with
| [] => mret 0
| ids =>
    assignee ← sql (match tb_assignee data with Some a => _resolve_admin_id a actor | None => mret None end);
    n ← sql (fold_m (λ n tid, b ← bulk_one data assignee tid; mret (if b : bool then n + 1 else n)) 0 ids);
    when (negb (n =? 0)) commit ;;
    mret n
end.

(** * Messages *)

Definition attachment_url (a : AttachmentIn) : string :=
match storage_url a with
| Some u => if nonempty u then u else match tg_file_id a with
              | Some f => if nonempty f then "/api/v1/support/media/" +:+ f else "" | None => "" end
| None => match tg_file_id a with
          | Some f => if nonempty f then "/api/v1/support/media/" +:+ f else "" | None => "" end
end.

Definition attachment_out (a : SupportAttachment) : AttachmentOut :=
let f := sa_file a in
{| ao_kind := at_kind f; ao_url := attachment_url f; ao_file_name := file_name f; ao_file_size := file_size f;
   ao_duration := duration f |}.

(** [admin_names.get(...) or "admin"]. *)
Definition author_label (d : database) (aid : Z) : string :=
match admin_name d aid with Some n => if nonempty n then n else "admin" | None => "admin" end.

Definition message_out (d : database) (m : SupportMessage) : MessageOut :=
{| mo_id := sm_id m; mo_from := sender_kind m; mo_text := sm_body m; mo_media := attachment_out <$> attachments_of d (sm_id m);
   mo_created_at := sm_created_at m; mo_delivered := sm_delivered m;
   mo_read := match sm_read_at m with Some _ => true | None => false end; mo_is_note := is_note m;
   mo_author := author_label d <$> sender_admin_id m |}.

Definition list_messages (tid : Z) : SM (list MessageOut) :=
ticket_or_error tid ;;
l ← list_for_ticket tid;
read (λ d, message_out d <$> l).

Definition add_attachment (mid : Z) (a : AttachmentIn) : SM unit :=
create attachments_tbl (λ id _, {| sa_id := id; sa_message_id := mid; sa_file := a |}) ;; mret tt.

(** What an answer changes of the ticket. *)
Definition after_reply (t : SupportTicket) (note : bool) (replied activity : Z) : TicketChange :=
{| ch_subject := tk_subject t;
   ch_status := if note then tk_status t else if bool_decide (tk_status t = CLOSED) then tk_status t else WAITING_USER;
   ch_priority := tk_priority t; ch_category := tk_category t; ch_assignee := assignee_admin_id t; ch_activity := activity;
   ch_closed_at := closed_at t; ch_first_user_msg_at := first_user_msg_at t;
   ch_first_reply_at := if note then first_reply_at t
                        else match first_user_msg_at t, first_reply_at t with
                             | Some _, None => Some replied
                             | _, o => o
                             end |}.

(** [datetime.now()] for the first reply, when it is one. *)
Definition reply_reading (t : SupportTicket) (note : bool) : SM Z :=
match first_user_msg_at t, first_reply_at t with
| Some _, None => if note then mret 0 else utcnow
| _, _ => mret 0
end.

(** [next((m for m in items if m.id == mid), items[-1])]. *)
Definition pick_message (mid : Z) (items : list MessageOut) : res MessageOut :=
match last items with
| None => Raise IndexError
| Some dflt => Ok (default dflt (head (filter (λ m, mo_id m = mid) items)))
end.

Definition post_operator_message (tid : Z) (text : string) (note : bool) (actor : option Z) (atts : list AttachmentIn)
  : TM MessageOut :=
t ← sql (ticket_or_error tid);
let clean := py_strip text in
raise_if (negb (nonempty clean) && match atts with [] => true | _ => false end)
  (EmptyMessage "Message must contain text or attachment") ;;
raise_if (bool_decide (tk_status t = CLOSED) && negb note) (TicketClosed (str_uuid tid)) ;;
msg ← sql (create support_messages_tbl (λ id now,
  {| sm_id := id; sm_ticket_id := tid; sender_kind := from_operator; sender_admin_id := actor; sm_body := clean; is_note := note;
     sm_delivered := false; sm_read_at := None; tg_message_id := None; sm_created_at := now |}));
sql (for_each (add_attachment (sm_id msg)) atts) ;;
sql (replied ← reply_reading t note; now ← utcnow; flush_ticket tid (after_reply t note replied now)) ;;
commit ;;
when (negb note) (sql (_publish_outbound t msg clean "reply" atts)) ;;
items ← sql (list_messages tid);
sql (lift (pick_message (sm_id msg) items)).

(** * Actions for the user *)

Definition expires_update (at_ : Z) : SubscriptionInternalUpdate :=
{| supd_plan_id := None; supd_is_active := None; supd_expires_at := Some at_; supd_profile_key := None;
   supd_preferred_region := None; supd_hwid_enabled := None; supd_max_devices := None; supd_paid_device_slots := None;
   supd_period_months := None; supd_updated_at := None |}.

(** [ticket.last_activity_at = now]. *)
Definition touch_ticket_activity (t : SupportTicket) (now : Z) : SM unit :=
flush_ticket (tk_id t)
  {| ch_subject := tk_subject t; ch_status := tk_status t; ch_priority := tk_priority t; ch_category := tk_category t;
     ch_assignee := assignee_admin_id t; ch_activity := now; ch_closed_at := closed_at t;
     ch_first_user_msg_at := first_user_msg_at t; ch_first_reply_at := first_reply_at t |}.

Definition grant_day (tid : Z) (actor : option Z) : TM SupportTicket :=
t ← sql (ticket_or_error tid);
o ← sql (get_latest_for_user (tk_user_id t));
match o with
| Some b =>
    match sub_expires_at b with
    | Some e =>
        sql (now ← utcnow;
             update_sub (sub_id b) (expires_update ((if now <? e then e else now) + day)) ;;
             _add_system_message tid GRANT_DAY_SYSTEM actor ;;
             touch_ticket_activity t now) ;;
        commit ;;
        mret t
    | None => raise (SupportActionFailed "У пользователя нет активной подписки")
    end
| None => raise (SupportActionFailed "У пользователя нет активной подписки")
end.

Definition refunded_update : OrderInternalUpdate :=
{| upd_status := Some REFUNDED; upd_paid_at := None; upd_completed_at := None; upd_provider_meta := None;
   upd_subscription_id := None; upd_fee_rub := None; upd_net_rub := None |}.

Definition refund_last_order (tid : Z) (actor : option Z) : TM SupportTicket :=
t ← sql (ticket_or_error tid);
o ← sql (get_last_paid_for_user (tk_user_id t));
match o with
| None => raise (SupportActionFailed "У пользователя нет оплаченных заказов")
| Some order =>
    u ← sql (get_by_id users_tbl (tk_user_id t));
    match u with
    | None => raise (SupportActionFailed "Пользователь не найден")
    | Some u =>
        let amount := order_amount_rub order in
        sql (_update_user_balance (user_id u) (balance u + amount) ;;
             update_order (order_id order) refunded_update ;;
             _record_transaction (user_id u) amount (balance u + amount) REFUND (Some (order_id order))
               (Some (REFUND_DESCRIPTION (order_id order) tid)) ;;
             _add_system_message tid (REFUND_SYSTEM (str_amount amount)) actor ;;
             now ← utcnow;
             touch_ticket_activity t now) ;;
        commit ;;
        mret t
    end
end.

(** * Messages of the users *)

(** What a message of the user changes of the ticket. *)
Definition after_user_message (t : SupportTicket) (text : string) (now : Z) : TicketChange :=
{| ch_subject := if nonempty (tk_subject t) then tk_subject t else char_take SUBJECT_PREVIEW_LEN text;
   ch_status := if bool_decide (tk_status t = WAITING_USER) then IN_PROGRESS else tk_status t;
   ch_priority := tk_priority t; ch_category := tk_category t; ch_assignee := assignee_admin_id t; ch_activity := now;
   ch_closed_at := closed_at t;
   ch_first_user_msg_at := match first_user_msg_at t with Some x => Some x | None => Some now end;
   ch_first_reply_at := first_reply_at t |}.

Definition ingest_user_message (uid : Z) (text : string) (atts : list AttachmentIn) : TM (SupportTicket * SupportMessage * bool) :=
now ← sql utcnow;
o ← sql (find_open_by_user uid);
let is_new := match o with Some _ => false | None => true end in
t ← sql (match o with Some t => mret t | None => new_ticket uid text OTHER NORMAL now (Some now) end);
sql (flush_ticket (tk_id t) (after_user_message t text now)) ;;
msg ← sql (create support_messages_tbl (λ id at_,
  {| sm_id := id; sm_ticket_id := tk_id t; sender_kind := from_user; sender_admin_id := None; sm_body := text; is_note := false;
     sm_delivered := true; sm_read_at := None; tg_message_id := None; sm_created_at := at_ |}));
sql (for_each (add_attachment (sm_id msg)) atts) ;;
commit ;;
mret (t, msg, is_new).

(** * Templates *)

Record TemplateIn := { ti_tag : string; ti_title : string; ti_body : string }.

Definition create_template (data : TemplateIn) : TM SupportTemplate :=
existing ← sql (get_by_tag_title (text_lower env) (ti_tag data) (ti_title data));
raise_if (match existing with Some _ => true | None => false end) (TemplateAlreadyExists (ti_tag data +:+ "/" +:+ ti_title data)) ;;
t ← sql (create templates_tbl (λ id _,
  {| st_id := id; st_tag := ti_tag data; st_title := ti_title data; st_body := ti_body data; used_count := 0 |}));
commit ;;
mret t.

Definition template_or_error (tid : Z) : SM SupportTemplate :=
o ← get_by_id templates_tbl tid;
match o with Some t => mret t | None => raise (TemplateNotFound (str_uuid tid)) end.

(** The columns are not null: an explicit null violates the constraint. *)
Record TemplateUpdateIn := { tu_tag : option (option string); tu_title : option (option string); tu_body : option (option string) }.
Definition null_in (o : option (option string)) : bool := match o with Some None => true | _ => false end.
Definition patched_text (o : option (option string)) (x : string) : string := match o with Some (Some y) => y | _ => x end.

Definition update_template (tid : Z) (data : TemplateUpdateIn) : TM (option SupportTemplate) :=
sql (template_or_error tid) ;;
raise_if (null_in (tu_tag data) || null_in (tu_title data) || null_in (tu_body data)) (IntegrityError "not_null") ;;
r ← sql (update_by_id templates_tbl tid (λ t,
  {| st_id := st_id t; st_tag := patched_text (tu_tag data) (st_tag t); st_title := patched_text (tu_title data) (st_title t);
     st_body := patched_text (tu_body data) (st_body t); used_count := used_count t |}));
commit ;;
mret r.

Definition delete_template (tid : Z) : TM unit :=
sql (template_or_error tid) ;; sql (delete_by_id templates_tbl tid) ;; commit.

(** * The consumers *)

(** [SupportInboundMessage] without what the drafts of broadcasts use. *)
Record SupportInboundMessage := {
  in_telegram_id : Z;
  in_text : string;
  in_attachments : list AttachmentIn;
  in_tg_message_id : option Z;
}.

Definition get_user_by_telegram_id (tg : Z) : SM (option User) :=
l ← select_where users_tbl (λ u, telegram_id u =? tg); scalar_one_or_none l.

Definition set_tg_message_id (tg : Z) (m : SupportMessage) : SupportMessage :=
{| sm_id := sm_id m; sm_ticket_id := sm_ticket_id m; sender_kind := sender_kind m; sender_admin_id := sender_admin_id m;
   sm_body := sm_body m; is_note := is_note m; sm_delivered := sm_delivered m; sm_read_at := sm_read_at m; tg_message_id := Some tg;
   sm_created_at := sm_created_at m |}.

(** [claim] of the message id, when there is one; a taken one ends the handler. *)
Definition claimed_message (subject : string) (msg_id : option string) : TM bool :=
match msg_id with
| Some m => if nonempty m then sql (claim subject m) else mret true
| None => mret true
end.

(** The message of a user, past the parsing; returning acknowledges it. *)
Definition handle_inbound (subject : string) (msg_id : option string) (p : SupportInboundMessage) : TM unit :=
ok ← claimed_message subject msg_id;
if negb ok then mret tt
else
  u ← sql (get_user_by_telegram_id (in_telegram_id p));
  match u with
  | None => commit
  | Some u =>
      r ← ingest_user_message (user_id u) (in_text p) (in_attachments p);
      match in_tg_message_id p with
      | Some tg => sql (patch_message (set_tg_message_id tg) (sm_id r.1.2)) ;; commit
      | None => mret tt
      end ;;
      when r.2 (sql (emit (PublishSupportMessage (tk_id r.1.1) (in_telegram_id p) (username u) (in_text p))))
  end.

Record SupportSentAck := { ack_message_id : Z; ack_tg_message_id : option Z; ack_ok : bool }.

Definition handle_sent (subject : string) (msg_id : option string) (p : SupportSentAck) : TM unit :=
ok ← claimed_message subject msg_id;
if negb ok then mret tt
else if negb (ack_ok p) then commit
else
  sql (mark_delivered (ack_message_id p) (ack_tg_message_id p)) ;;
  commit.
End Service.
