(* ===== verification/Broadcasts.v ===== *)
(** Broadcasts of the support desk (services/support/service.py, repository.py and the two
    reconcilers): who is addressed, the messages that go out, the dispatch of scheduled
    broadcasts with its retries, and the recurring schedules. *)

From stdpp Require Import base gmap strings list sorting pretty.
From Stdlib Require Import Ascii.
From S2P Require Import Prelude Decimal Errors RouteModels BillingModels FleetModels SupportModels Session Uuid NodeDisplay Tables Traffic Routes VlessUri SupportTables AgentDetails AdminAuth Support.
Local Open Scope Z_scope.

Definition MAX_BROADCAST_DISPATCH_ATTEMPTS : Z := 5.
Definition BROADCAST_RETRY_BACKOFF_SEC : Z := 120.
Definition BROADCAST_SENDING_STALE_SEC : Z := 300.
Definition BROADCAST_BUTTON_STYLES : list string := ["primary"; "success"; "danger"].
Definition BROADCAST_BUTTON_ACTIONS : list string := ["renew"; "plans"; "connect"; "help"].

Definition broadcast_status_value (st : BroadcastStatus) : string :=
  match st with
  | DRAFT => "draft" | SCHEDULED => "scheduled" | SENDING => "sending" | SENT => "sent" | BC_FAILED => "failed"
  | CANCELLED => "cancelled"
  end.

(** * Text *)

(** [pat in s]. *)
Fixpoint str_in (pat s : string) : bool :=
  String.prefix pat s || match s with "" => false | String _ s => str_in pat s end.

(** [s.replace(pat, rep)]; [skip] characters of a match are left. *)
Fixpoint replace_from (pat rep : string) (skip : nat) (s : string) : string :=
  match s with
  | "" => ""
  | String c s' =>
      match skip with
      | S k => replace_from pat rep k s'
      | O => if String.prefix pat s then rep +:+ replace_from pat rep (String.length pat - 1) s'
             else String c (replace_from pat rep O s')
      end
  end.
Definition str_replace (pat rep s : string) : string := replace_from pat rep O s.

(** What follows the first [>] of [s]. *)
Fixpoint after_gt (s : string) : option string :=
  match s with
  | "" => None
  | String c s => if Ascii.eqb c ">" then Some s else after_gt s
  end.

(** [re.sub(r"<[^>]+>", "", s)]: the characters of a tag are at least one. *)
Fixpoint strip_tags (fuel : nat) (s : string) : string :=
  match fuel with
  | O => s
  | S fuel =>
      match s with
      | "" => ""
      | String c s' =>
          if Ascii.eqb c "<" then
            match s' with
            | String d _ => if Ascii.eqb d ">" then String c (strip_tags fuel s')
                            else match after_gt s' with
                                 | Some rest => strip_tags fuel rest
                                 | None => String c (strip_tags fuel s')
                                 end
            | "" => String c ""
            end
          else String c (strip_tags fuel s')
      end
  end.

(** [re.sub(r"\s+", " ", s)]; [gap]: the last character was white space. *)
Fixpoint squeeze (gap : bool) (s : string) : string :=
  match s with
  | "" => ""
  | String c s =>
      if is_space c then (if gap then squeeze true s else String " " (squeeze true s)) else String c (squeeze false s)
  end.

Definition _strip_html_text (s : string) : string := py_strip (squeeze false (strip_tags (String.length s) s)).

(** * Buttons *)

(** [urlsplit]: the leading controls and blanks dropped, tabs and line ends removed. *)
Fixpoint drop_controls (s : string) : string :=
  match s with
  | "" => ""
  | String c s' => if (nat_of_ascii c <=? 32)%nat then drop_controls s' else s
  end.
Fixpoint drop_breaks (s : string) : string :=
  match s with
  | "" => ""
  | String c s => if (nat_of_ascii c =? 9)%nat || (nat_of_ascii c =? 10)%nat || (nat_of_ascii c =? 13)%nat
                  then drop_breaks s else String c (drop_breaks s)
  end.

Definition scheme_char (c : ascii) : bool :=
  is_alpha c || is_digit_char c || Ascii.eqb c "+" || Ascii.eqb c "-" || Ascii.eqb c ".".

Definition split_scheme (url : string) : string * string :=
  match split_once ":" url with
  | Some (String c sch, rest) =>
      if is_alpha c && forallb scheme_char (String.list_ascii_of_string sch) then (lower (String c sch), rest) else ("", url)
  | _ => ("", url)
  end.

(** The characters up to a delimiter, and the rest from it. *)
Fixpoint span_until (stop : ascii → bool) (s : string) : string * string :=
  match s with
  | "" => ("", "")
  | String c s' => if stop c then ("", s) else let '(a, b) := span_until stop s' in (String c a, b)
  end.

Definition netloc_stop (c : ascii) : bool := Ascii.eqb c "/" || Ascii.eqb c "?" || Ascii.eqb c "#".
Definition path_stop (c : ascii) : bool := Ascii.eqb c "?" || Ascii.eqb c "#".

Record SplitUrl := { url_scheme : string; url_netloc : string; url_path : string }.

Definition urlparse (url : string) : SplitUrl :=
  let '(scheme, rest) := split_scheme (drop_breaks (drop_controls url)) in
  let '(netloc, rest) :=
    match rest with
    | String a (String b r) => if Ascii.eqb a "/" && Ascii.eqb b "/" then span_until netloc_stop r else ("", rest)
    | _ => ("", rest)
    end in
  {| url_scheme := scheme; url_netloc := netloc; url_path := (span_until path_stop rest).1 |}.

(** What a broadcast depends on besides the database: the broker, the name of the bot, the
    hosts [urlparse] refuses (brackets, characters that normalise to delimiters) and the
    entities the message schema accepts. *)
Record BroadcastEnv := {
  be_support : SupportEnv;
  bot_username : string;
  netloc_refused : string → bool;
  entity_valid : json → bool;
}.

Section Broadcasts.
Context (env : BroadcastEnv).

Definition _is_valid_button_url (url : string) : bool :=
if negb (nonempty url) then false
else
  let p := urlparse url in
  if netloc_refused env (url_netloc p) then false
  else if String.eqb (url_scheme p) "http" || String.eqb (url_scheme p) "https" then nonempty (url_netloc p)
  else if String.eqb (url_scheme p) "tg" then nonempty (url_netloc p) || nonempty (url_path p)
  else false.

(** [(b.get(key) or "").strip()]. *)
Definition stripped_field (key : string) (b : list (string * json)) : res string :=
match dict_get key b with
| Some (JStr s) => Ok (py_strip s)
| Some j => if json_truthy j then Raise (AttributeError "strip") else Ok ""
| None => Ok ""
end.

Definition one_of (allowed : list string) (j : option json) : option string :=
match j with Some (JStr s) => if bool_decide (s ∈ allowed) then Some s else None | _ => None end.

Definition _build_outbound_button (b : json) : res (option SupportOutboundInlineButton) :=
match b with
| JObj b =>
    text ← stripped_field "text" b;
    if negb (nonempty text) then Ok None
    else
      let style := one_of BROADCAST_BUTTON_STYLES (dict_get "style" b) in
      match one_of BROADCAST_BUTTON_ACTIONS (dict_get "action" b) with
      | Some a => Ok (Some {| btn_text := text; btn_url := ""; btn_style := style; btn_action := Some a; btn_value := None |})
      | None =>
          url ← stripped_field "url" b;
          if _is_valid_button_url url
          then Ok (Some {| btn_text := text; btn_url := url; btn_style := style; btn_action := None; btn_value := None |})
          else Ok None
      end
| _ => Raise (AttributeError "get")
end.

Fixpoint build_buttons (l : list json) : res (list SupportOutboundInlineButton) :=
match l with
| [] => Ok []
| b :: l => o ← _build_outbound_button b; r ← build_buttons l; Ok (match o with Some x => x :: r | None => r end)
end.

(** * Audience *)

Definition subs_of (d : database) (uid : Z) : list Subscription := filter (λ b, sub_user_id b = uid) (rows (subscriptions d)).

(** [expires_at] is not null and between the bounds. *)
Definition expires_in (from_ : Z) (to_ : option Z) (b : Subscription) : bool :=
match sub_expires_at b with
| Some e => (from_ <=? e) && match to_ with Some t => e <=? t | None => true end
| None => false
end.

Definition plan_of_sub (d : database) (b : Subscription) : option Plan := sub_plan_id b ≫= (plans d !!.).
Definition sub_price (d : database) (P : Z → bool) (b : Subscription) : bool :=
match plan_of_sub d b with Some p => P (price_rub p) | None => false end.

Definition in_audience (d : database) (a : BroadcastAudience) (plan : option Z) (now : Z) (u : User) : bool :=
let subs := subs_of d (user_id u) in
match a with
| ALL => true
| ACTIVE => existsb (expires_in now None) subs
| EXPIRING => existsb (expires_in now (Some (now + 7 * day))) subs
| BY_PLAN => match plan with Some p => existsb (λ b, bool_decide (sub_plan_id b = Some p)) subs | None => false end
| NO_SUB => match subs with [] => true | _ => false end
| TRIAL => existsb (sub_price d (λ p, p =? 0)) subs
| WAS_PAYING_EXPIRED =>
    existsb (λ b, sub_price d (λ p, 0 <? p) b && match sub_expires_at b with Some e => e <? now | None => false end) subs
| DORMANT => negb (existsb (expires_in now None) subs) && (user_created_at u <? now - 30 * day)
end && negb (suppress_marketing u).

Definition resolve_audience_user_ids (a : BroadcastAudience) (plan : option Z) (now : Z) : SM (list Z) :=
read (λ d, user_id <$> filter (λ u, in_audience d a plan now u = true) (rows (users d))).

Definition _resolve_audience (a : BroadcastAudience) (plan : option Z) : SM (list Z) :=
now ← utcnow; resolve_audience_user_ids a plan now.

Definition audience_size (a : BroadcastAudience) (plan : option Z) : SM Z :=
ids ← _resolve_audience a plan; mret (Z.of_nat (length ids)).

(** * What goes out *)

(** [UserRepository.list_by_ids] and [if u.telegram_id]. *)
Definition reachable (d : database) (ids : list Z) : list Z :=
telegram_id <$> filter (λ u, user_id u ∈ ids ∧ telegram_id u ≠ 0) (rows (users d)).

Definition promo_url (bid : Z) : string := "https://t.me/" +:+ py_strip (bot_username env) +:+ "?start=pm_" +:+ str_uuid bid.

Definition with_promo_button (bid : Z) (b : option Broadcast) (l : list SupportOutboundInlineButton) : list SupportOutboundInlineButton :=
match b ≫= (λ b, br_promo_code_id (br_content b)) with
| Some _ =>
    if nonempty (py_strip (bot_username env)) && negb (existsb (λ x, String.eqb (btn_url x) (promo_url bid)) l)
    then l ++ [{| btn_text := "🎟 Ввести промокод"; btn_url := promo_url bid; btn_style := None; btn_action := None; btn_value := None |}]
    else l
| None => l
end.

Definition entities_of (b : option Broadcast) : option (list json) :=
match b ≫= entities with Some [] => None | o => o end.

Definition broadcast_media (kind url : option string) : list SupportOutboundAttachmentMsg :=
match url, kind with
| Some u, Some k => if nonempty u && nonempty k
                    then [{| om_kind := k; om_tg_file_id := None; om_url := Some u; om_file_name := None |}] else []
| _, _ => []
end.

Definition broadcast_payload (bid mid tg : Z) (text : string) (media : list SupportOutboundAttachmentMsg)
  (buttons : list SupportOutboundInlineButton) (ents : option (list json)) : SupportOutboundPayload :=
{| so_ticket_id := str_uuid bid; so_message_id := str_uuid mid; so_telegram_id := tg; so_text := text; so_media := media; so_buttons := buttons;
   so_entities := ents; so_parse_mode := match ents with Some _ => None | None => Some "HTML" end; so_kind := "broadcast" |}.

(** The messages one after another; how many the broker took. *)
Fixpoint send_each (bid : Z) (text : string) (media : list SupportOutboundAttachmentMsg)
  (buttons : list SupportOutboundInlineButton) (ents : option (list json)) (targets : list Z) : SM Z :=
match targets with
| [] => mret 0
| tg :: targets =>
    mid ← uuid4;
    ok ← publish_support (be_support env) (broadcast_payload bid mid tg text media buttons ents);
    n ← send_each bid text media buttons ents targets;
    mret (if ok : bool then n + 1 else n)
end.

Definition _fan_out_broadcast (bid : Z) (user_ids : list Z) (text : string) (kind url : option string) (buttons : option (list json))
  : SM Z :=
if negb (nats_present (be_support env)) || match user_ids with [] => true | _ => false end then mret 0
else
  targets ← read (λ d, reachable d user_ids);
  match targets with
  | [] => mret 0
  | _ =>
      built ← lift (build_buttons (default [] buttons));
      b ← get_by_id broadcasts_tbl bid;
      let ents := entities_of b in
      raise_if (negb (forallb (entity_valid env) (default [] ents))) (ValidationError "entities") ;;
      send_each bid text (broadcast_media kind url) (with_promo_button bid b built) ents targets
  end.

(** * The rows of broadcasts *)

Record BroadcastChange := {
  bx_content : Content;
  bx_status : BroadcastStatus;
  bx_scheduled_at : option Z;
  bx_sent_at : option Z;
  bx_delivered : Z;
  bx_errors : Z;
  bx_target_count : Z;
  bx_attempts : Z;
  bx_clicks : Z;
}.

Definition bcolumns (b : Broadcast) : BroadcastChange :=
{| bx_content := br_content b; bx_status := br_status b; bx_scheduled_at := scheduled_at b; bx_sent_at := br_sent_at b;
   bx_delivered := br_delivered b; bx_errors := br_errors b; bx_target_count := target_count b; bx_attempts := attempts b;
   bx_clicks := clicks b |}.

Definition bassigned (c : BroadcastChange) (b : Broadcast) : Broadcast :=
{| br_id := br_id b; br_content := bx_content c; entities := entities b; custom_emoji_assets := custom_emoji_assets b;
   br_status := bx_status c; scheduled_at := bx_scheduled_at c; br_sent_at := bx_sent_at c; br_delivered := bx_delivered c;
   br_errors := bx_errors c; clicks := bx_clicks c; target_count := bx_target_count c; attempts := bx_attempts c;
   created_by_admin_id := created_by_admin_id b; br_created_at := br_created_at b; br_updated_at := br_updated_at b |}.

Definition with_status (st : BroadcastStatus) (c : BroadcastChange) : BroadcastChange :=
{| bx_content := bx_content c; bx_status := st; bx_scheduled_at := bx_scheduled_at c; bx_sent_at := bx_sent_at c;
   bx_delivered := bx_delivered c; bx_errors := bx_errors c; bx_target_count := bx_target_count c; bx_attempts := bx_attempts c;
   bx_clicks := bx_clicks c |}.

(** [UPDATE broadcast SET ... WHERE id = bid]. *)
Definition set_broadcast (bid : Z) (f : BroadcastChange → BroadcastChange) : SM (option Broadcast) :=
update_by_id broadcasts_tbl bid (λ b, bassigned (f (bcolumns b)) b).

Definition cancel_scheduled (bid : Z) : SM (option Broadcast) :=
o ← get_by_id broadcasts_tbl bid;
match o with
| Some b => if bool_decide (br_status b = SCHEDULED) then set_broadcast bid (with_status CANCELLED) else mret None
| None => mret None
end.

Definition stale (stale_before : Z) (b : Broadcast) : bool := bool_decide (br_status b = SENDING) && (br_updated_at b <? stale_before).

Definition due (now stale_before : Z) (b : Broadcast) : bool :=
bool_decide (br_status b = SCHEDULED) && match scheduled_at b with Some t => t <=? now | None => false end || stale stale_before b.

Definition pick_due_scheduled (now stale_before : Z) (limit : nat) : SM (list Broadcast) :=
l ← select_where broadcasts_tbl (due now stale_before);
mret (take limit (filter (λ b, scheduled_at b = None) l ++
                  order_by_asc (λ b, key_or_zero (scheduled_at b)) (filter (λ b, scheduled_at b ≠ None) l))).

(** The condition of the claim; [updated_at] is set to [now]. *)
Definition claimable_broadcast (now stale_before : Z) (b : Broadcast) : bool :=
bool_decide (br_status b = SCHEDULED) && match scheduled_at b with Some t => t <=? now | None => true end || stale stale_before b.

Definition claimed_at (now : Z) (b : Broadcast) : Broadcast :=
touch_broadcast now (bassigned (with_status SENDING (bcolumns b)) b).

Definition claim_for_send (bid now stale_before : Z) : SM (option Broadcast) :=
o ← get_by_id broadcasts_tbl bid;
match o with
| Some b => if claimable_broadcast now stale_before b then store broadcasts_tbl (Some b) (claimed_at now b) ;; mret (Some (claimed_at now b))
            else mret None
| None => mret None
end.

Definition reschedule_for_retry (bid next_at attempts_ : Z) : SM unit :=
set_broadcast bid (λ c,
  {| bx_content := bx_content c; bx_status := SCHEDULED; bx_scheduled_at := Some next_at; bx_sent_at := bx_sent_at c;
     bx_delivered := bx_delivered c; bx_errors := bx_errors c; bx_target_count := bx_target_count c; bx_attempts := attempts_;
     bx_clicks := bx_clicks c |}) ;; mret tt.

Definition mark_sent (bid delivered errors_ sent_at : Z) : SM unit :=
set_broadcast bid (λ c,
  {| bx_content := bx_content c; bx_status := SENT; bx_scheduled_at := bx_scheduled_at c; bx_sent_at := Some sent_at;
     bx_delivered := delivered; bx_errors := errors_; bx_target_count := bx_target_count c; bx_attempts := bx_attempts c;
     bx_clicks := bx_clicks c |}) ;; mret tt.

Definition mark_broadcast_failed (bid : Z) : SM unit := set_broadcast bid (with_status BC_FAILED) ;; mret tt.

Definition increment_clicks (bid : Z) : SM unit :=
set_broadcast bid (λ c,
  {| bx_content := bx_content c; bx_status := bx_status c; bx_scheduled_at := bx_scheduled_at c; bx_sent_at := bx_sent_at c;
     bx_delivered := bx_delivered c; bx_errors := bx_errors c; bx_target_count := bx_target_count c; bx_attempts := bx_attempts c;
     bx_clicks := bx_clicks c + 1 |}) ;; mret tt.

Definition register_click (bid uid now : Z) : SM bool :=
l ← select_where broadcast_logs_tbl (λ r, (bl_broadcast_id r =? bid) && (bl_user_id r =? uid));
match l with
| [] =>
    create broadcast_logs_tbl (λ id _,
      {| bl_id := id; bl_broadcast_id := bid; bl_user_id := uid; bl_delivered := false; clicked := true; clicked_at := Some now |}) ;;
    mret true
| r :: _ =>
    if clicked r then mret false
    else
      update_by_id broadcast_logs_tbl (bl_id r) (λ r,
        {| bl_id := bl_id r; bl_broadcast_id := bl_broadcast_id r; bl_user_id := bl_user_id r; bl_delivered := bl_delivered r;
           clicked := true; clicked_at := Some now |}) ;;
      mret true
end.

(** * The dispatch of scheduled broadcasts *)

(** [read_attempts] is the access to [claimed.attempts]. *)
Definition _retry_or_fail (bid : Z) (read_attempts : TM Z) : TM bool :=
k ← read_attempts;
let attempts_ := k + 1 in
now ← sql utcnow;
if attempts_ <? MAX_BROADCAST_DISPATCH_ATTEMPTS then
  sql (reschedule_for_retry bid (now + BROADCAST_RETRY_BACKOFF_SEC * attempts_ * second) attempts_) ;;
  commit ;;
  mret false
else
  sql (mark_broadcast_failed bid) ;;
  commit ;;
  mret false.

(** The body of the [try]. *)
Definition dispatch (b : Broadcast) : TM bool :=
ids ← sql (_resolve_audience (br_audience (br_content b)) (br_plan_id (br_content b)));
delivered ← sql (_fan_out_broadcast (br_id b) ids (text_body (br_content b)) (media_kind (br_content b)) (media_url (br_content b))
                   (inline_buttons (br_content b)));
if match ids with [] => false | _ => true end && (delivered =? 0) then _retry_or_fail (br_id b) (mret (attempts b))
else
  sql (now ← utcnow; mark_sent (br_id b) delivered (Z.max 0 (Z.of_nat (length ids) - delivered)) now) ;;
  commit ;;
  mret true.

(** After [rollback] the attributes of [claimed] are expired: reading one outside of an
    awaited call raises [MissingGreenlet]. *)
Definition send_scheduled_broadcast (bid : Z) : TM bool :=
now ← sql utcnow;
claimed ← sql (claim_for_send bid now (now - BROADCAST_SENDING_STALE_SEC * second));
match claimed with
| None => mret false
| Some b => commit ;; catch (dispatch b) (λ _, rollback ;; _retry_or_fail bid (raise MissingGreenlet))
end.

(** [BroadcastSchedulerReconciler.tick]. *)
Definition broadcast_scheduler_body (batch : nat) : TM Z :=
now ← sql utcnow;
l ← sql (pick_due_scheduled now (now - BROADCAST_SENDING_STALE_SEC * second) batch);
fold_m (λ n b, ok ← send_scheduled_broadcast (br_id b); mret (if ok : bool then n + 1 else n)) 0 l.

Definition broadcast_scheduler_tick (batch : nat) : session → outcome exn Z * session := run_scope (broadcast_scheduler_body batch).

(** * Requests of the panel *)

Record BroadcastOut := {
  bro_id : Z;
  bro_content : Content;
  preview : string;
  bro_entities : option (list json);
  bro_emoji : option json;
  bro_status : BroadcastStatus;
  bro_delivered : Z;
  bro_errors : Z;
  bro_clicks : Z;
  bro_target_count : Z;
  bro_sent_at : option Z;
  bro_scheduled_at : option Z;
  bro_created_at : Z;
}.

(** The row as [list_broadcasts] shows it. *)
Definition broadcast_out (b : Broadcast) : BroadcastOut :=
{| bro_id := br_id b; bro_content := br_content b; preview := char_take 160 (text_body (br_content b)); bro_entities := entities b;
   bro_emoji := custom_emoji_assets b; bro_status := br_status b; bro_delivered := br_delivered b; bro_errors := br_errors b;
   bro_clicks := clicks b; bro_target_count := target_count b; bro_sent_at := br_sent_at b; bro_scheduled_at := scheduled_at b;
   bro_created_at := br_created_at b |}.

Definition list_broadcasts : SM (list BroadcastOut) :=
l ← select_where broadcasts_tbl (λ _, true); mret (broadcast_out <$> take 100 (order_by_desc br_created_at l)).

(** The code of the promotion in the text. *)
Definition fill_promo (promo : option Z) (text : string) : SM string :=
match promo with
| Some pid =>
    if str_in "{promo}" text then
      p ← get_by_id promos_tbl pid;
      mret (match p with Some p => str_replace "{promo}" (promo_code p) text | None => text end)
    else mret text
| None => mret text
end.

Definition with_text (text : string) (c : Content) : Content :=
{| br_audience := br_audience c; br_plan_id := br_plan_id c; text_body := text; media_kind := media_kind c; media_url := media_url c;
   inline_buttons := inline_buttons c; br_promo_code_id := br_promo_code_id c |}.

(** [BroadcastCreate]: the buttons are a list of objects. *)
Definition is_object (j : json) : bool := match j with JObj _ => true | _ => false end.

Definition sent_columns (delivered sent_at : Z) (c : BroadcastChange) : BroadcastChange :=
{| bx_content := bx_content c; bx_status := SENT; bx_scheduled_at := bx_scheduled_at c; bx_sent_at := Some sent_at;
   bx_delivered := delivered; bx_errors := bx_errors c; bx_target_count := bx_target_count c; bx_attempts := bx_attempts c;
   bx_clicks := bx_clicks c |}.

Definition create_broadcast (c : Content) (status : BroadcastStatus) (at_ actor : option Z) (ents : option (list json))
  (emoji : option json) : TM BroadcastOut :=
text ← sql (fill_promo (br_promo_code_id c) (text_body c));
let c := with_text text c in
ids ← sql (_resolve_audience (br_audience c) (br_plan_id c));
let n := Z.of_nat (length ids) in
raise_if (negb (forallb is_object (default [] (inline_buttons c)) && forallb is_object (default [] ents)))
  (ValidationError "BroadcastCreate") ;;
b ← sql (create broadcasts_tbl (λ id now,
  {| br_id := id; br_content := c; entities := ents; custom_emoji_assets := emoji; br_status := status; scheduled_at := at_;
     br_sent_at := None; br_delivered := 0; br_errors := 0; clicks := 0; target_count := n; attempts := 0;
     created_by_admin_id := actor; br_created_at := now; br_updated_at := now |}));
commit ;;
let answer st delivered sent :=
  {| bro_id := br_id b; bro_content := c; preview := char_take 160 text; bro_entities := ents; bro_emoji := emoji; bro_status := st;
     bro_delivered := delivered;
     bro_errors := if bool_decide (status = SENDING) then Z.max 0 (n - delivered) else 0;
     bro_clicks := 0; bro_target_count := n; bro_sent_at := sent; bro_scheduled_at := at_; bro_created_at := br_created_at b |} in
if bool_decide (status = SENDING) && match ids with [] => false | _ => true end then
  delivered ← sql (_fan_out_broadcast (br_id b) ids text (media_kind c) (media_url c) (inline_buttons c));
  sent_at ← sql utcnow;
  sql (set_broadcast (br_id b) (sent_columns delivered sent_at)) ;;
  commit ;;
  mret (answer SENT delivered (Some sent_at))
else mret (answer status 0 None).

Definition broadcast_or_error (bid : Z) (detail : string) : SM Broadcast :=
o ← get_by_id broadcasts_tbl bid;
match o with Some b => mret b | None => raise (BroadcastNotFound detail) end.

Definition not_allowed (st : BroadcastStatus) (what : string) : exn :=
InvalidStateTransition ("Broadcast in status '" +:+ broadcast_status_value st +:+ "' cannot be " +:+ what).

Definition cancel_broadcast (bid : Z) : TM BroadcastOut :=
b ← sql (broadcast_or_error bid (str_uuid bid));
raise_if (negb (bool_decide (br_status b = SCHEDULED))) (not_allowed (br_status b) "cancelled") ;;
updated ← sql (cancel_scheduled bid);
commit ;;
let out := broadcast_out (default b updated) in
mret {| bro_id := bro_id out; bro_content := bro_content out; preview := preview out; bro_entities := None; bro_emoji := None;
        bro_status := CANCELLED; bro_delivered := bro_delivered out; bro_errors := bro_errors out; bro_clicks := bro_clicks out;
        bro_target_count := bro_target_count out; bro_sent_at := bro_sent_at out; bro_scheduled_at := bro_scheduled_at out;
        bro_created_at := bro_created_at out |}.

(** An editor that cannot keep the custom emoji does not lose them: the stored text is kept
    when only they differ. *)
Definition keep_emoji (old text : string) : string :=
if nonempty old && str_in "<tg-emoji" old && nonempty text && negb (str_in "<tg-emoji" text) &&
   String.eqb (_strip_html_text text) (_strip_html_text old)
then old else text.

(** [b.delivered] is not reset by an edit that does not send. *)
Definition update_broadcast (bid : Z) (c : Content) (status : BroadcastStatus) (at_ : option Z) : TM BroadcastOut :=
b ← sql (broadcast_or_error bid (str_uuid bid));
raise_if (negb (bool_decide (br_status b = DRAFT))) (not_allowed (br_status b) "edited") ;;
text ← sql (fill_promo (br_promo_code_id c) (keep_emoji (text_body (br_content b)) (text_body c)));
let c := with_text text c in
ids ← sql (_resolve_audience (br_audience c) (br_plan_id c));
let n := Z.of_nat (length ids) in
let edited st := {| bx_content := c; bx_status := st; bx_scheduled_at := scheduled_at b; bx_sent_at := br_sent_at b;
                    bx_delivered := br_delivered b; bx_errors := br_errors b; bx_target_count := n; bx_attempts := attempts b;
                    bx_clicks := clicks b |} in
let answer st delivered sent at_ :=
  {| bro_id := br_id b; bro_content := c; preview := char_take 160 text; bro_entities := entities b;
     bro_emoji := custom_emoji_assets b; bro_status := st; bro_delivered := delivered;
     bro_errors := if bool_decide (st = SENT) then Z.max 0 (n - delivered) else 0; bro_clicks := clicks b; bro_target_count := n;
     bro_sent_at := sent; bro_scheduled_at := at_; bro_created_at := br_created_at b |} in
match status with
| SENDING =>
    sql (set_broadcast bid (λ _, edited SENDING)) ;;
    delivered ← sql (_fan_out_broadcast bid ids text (media_kind c) (media_url c) (inline_buttons c));
    sent_at ← sql utcnow;
    sql (set_broadcast bid (sent_columns delivered sent_at)) ;;
    commit ;;
    mret (answer SENT delivered (Some sent_at) (scheduled_at b))
| SCHEDULED =>
    sql (set_broadcast bid (λ _,
      {| bx_content := c; bx_status := SCHEDULED; bx_scheduled_at := at_; bx_sent_at := br_sent_at b; bx_delivered := br_delivered b;
         bx_errors := br_errors b; bx_target_count := n; bx_attempts := attempts b; bx_clicks := clicks b |})) ;;
    commit ;;
    mret (answer SCHEDULED 0 None at_)
| _ =>
    sql (set_broadcast bid (λ _, edited DRAFT)) ;;
    commit ;;
    mret (answer DRAFT 0 None (scheduled_at b))
end.

Definition delete_broadcast (bid : Z) : TM unit :=
b ← sql (broadcast_or_error bid (str_uuid bid));
raise_if (bool_decide (br_status b = SENDING) || bool_decide (br_status b = SENT)) (not_allowed (br_status b) "deleted") ;;
sql (delete_by_id broadcasts_tbl bid ;;
     write (λ d, set_broadcast_logs (filter (λ ir, bl_broadcast_id ir.2 ≠ bid) (broadcast_logs d)) d)) ;;
commit.

Definition repeat_broadcast (bid : Z) (actor : option Z) : TM BroadcastOut :=
b ← sql (broadcast_or_error bid "Broadcast not found");
create_broadcast (br_content b) SENDING None actor None None.

(** * Recurring schedules *)

(** [int(x) for x in time_of_day.split(":")]. *)
Definition parse_time (s : string) : res (Z * Z) :=
match split_on ":" s with
| [a; b] =>
    match int_of_string a, int_of_string b with
    | Some hh, Some mm => Ok (hh, mm)
    | _, _ => Raise (ValueError "invalid literal for int()")
    end
| _ => Raise (ValueError "unpack")
end.

(** [after.replace(hour=hh, minute=mm, second=0, microsecond=0)]. *)
Definition at_time (after hh mm : Z) : res Z :=
if (0 <=? hh) && (hh <=? 23) && (0 <=? mm) && (mm <=? 59) then Ok (midnight after + hh * hour + mm * minute)
else Raise (ValueError "hour must be in 0..23").

Definition next_weekly (base after : Z) (wd : list Z) : Z :=
match filter (λ c, after < c ∧ weekday c ∈ wd) ((λ i, base + i * day) <$> seqZ 0 8) with
| c :: _ => c
| [] => base + 7 * day
end.

Definition _compute_next_run (cad : RecurringCadence) (tod : string) (wds : option (list Z)) (after : Z) : res Z :=
'(hh, mm) ← parse_time tod;
base ← at_time after hh mm;
Ok (match cad with
    | WEEKLY => next_weekly base after (match wds with Some [] | None => [0] | Some l => l end)
    | DAILY => if after <? base then base else base + day
    end).

Record RecurringIn := {
  ri_name : string;
  ri_content : Content;
  ri_cadence : RecurringCadence;
  ri_time_of_day : string;
  ri_weekdays : option (list Z);
}.

Definition create_recurring (data : RecurringIn) (actor : option Z) : TM RecurringBroadcastSchedule :=
next ← sql (now ← utcnow; lift (_compute_next_run (ri_cadence data) (ri_time_of_day data) (ri_weekdays data) now));
r ← sql (create recurring_tbl (λ id now,
  {| rb_id := id; rb_name := ri_name data; rb_content := ri_content data; cadence := ri_cadence data;
     time_of_day := ri_time_of_day data; weekdays := ri_weekdays data; next_run_at := next; last_run_at := None;
     rb_created_by := actor; rb_is_active := true; rb_created_at := now; rb_updated_at := now |}));
commit ;;
mret r.

Definition list_recurring : SM (list RecurringBroadcastSchedule) :=
l ← select_where recurring_tbl (λ _, true); mret (order_by_desc rb_created_at l).

Definition schedule_or_error (rid : Z) : SM RecurringBroadcastSchedule :=
o ← get_by_id recurring_tbl rid;
match o with Some r => mret r | None => raise (BroadcastNotFound "Recurring schedule not found") end.

(** The fields that are set; the content is given as a whole. *)
Record RecurringUpdateIn := {
  ru_name : option string;
  ru_content : option Content;
  ru_cadence : option RecurringCadence;
  ru_time_of_day : option string;
  ru_weekdays : option (option (list Z));
  ru_is_active : option bool;
}.

Definition timing_changes (data : RecurringUpdateIn) : bool :=
match ru_cadence data with Some _ => true | None => false end || match ru_time_of_day data with Some _ => true | None => false end ||
match ru_weekdays data with Some _ => true | None => false end.

Definition update_recurring (rid : Z) (data : RecurringUpdateIn) : TM (option RecurringBroadcastSchedule) :=
r ← sql (schedule_or_error rid);
let cad := default (cadence r) (ru_cadence data) in
let tod := default (time_of_day r) (ru_time_of_day data) in
let wds := default (weekdays r) (ru_weekdays data) in
next ← sql (if timing_changes data then now ← utcnow; lift (_compute_next_run cad tod wds now) else mret (next_run_at r));
o ← sql (update_by_id recurring_tbl rid (λ r,
  {| rb_id := rb_id r; rb_name := default (rb_name r) (ru_name data); rb_content := default (rb_content r) (ru_content data);
     cadence := cad; time_of_day := tod; weekdays := wds; next_run_at := next; last_run_at := last_run_at r;
     rb_created_by := rb_created_by r; rb_is_active := default (rb_is_active r) (ru_is_active data); rb_created_at := rb_created_at r;
     rb_updated_at := rb_updated_at r |}));
commit ;;
mret o.

Definition delete_recurring (rid : Z) : TM unit :=
sql (schedule_or_error rid) ;; sql (delete_by_id recurring_tbl rid) ;; commit.

Definition list_due (now : Z) : SM (list RecurringBroadcastSchedule) :=
select_where recurring_tbl (λ r, rb_is_active r && (next_run_at r <=? now)).

Definition ran (next now : Z) (r : RecurringBroadcastSchedule) : RecurringBroadcastSchedule :=
{| rb_id := rb_id r; rb_name := rb_name r; rb_content := rb_content r; cadence := cadence r; time_of_day := time_of_day r;
   weekdays := weekdays r; next_run_at := next; last_run_at := Some now; rb_created_by := rb_created_by r;
   rb_is_active := rb_is_active r; rb_created_at := rb_created_at r; rb_updated_at := rb_updated_at r |}.

(** One due schedule; a broadcast that raises is logged, a failed flush leaves the session
    unusable. *)
Definition materialize_one (now : Z) (r : RecurringBroadcastSchedule) : TM bool :=
ok ← catch (create_broadcast (rb_content r) SENDING None (rb_created_by r) None None ;; mret true)
       (λ e, match e with IntegrityError _ => raise PendingRollbackError | _ => mret false end);
next ← sql (lift (_compute_next_run (cadence r) (time_of_day r) (weekdays r) now));
sql (update_by_id recurring_tbl (rb_id r) (ran next now)) ;;
mret ok.

Definition materialize_due_recurring (now : Z) : TM Z :=
l ← sql (list_due now);
n ← fold_m (λ n r, ok ← materialize_one now r; mret (if ok : bool then n + 1 else n)) 0 l;
commit ;;
mret n.

(** [RecurringBroadcastReconciler.tick]. *)
Definition recurring_tick : session → outcome exn Z * session :=
run_scope (now ← sql utcnow; materialize_due_recurring now).
End Broadcasts.
