(* ===== verification/BroadcastProps.v ===== *)
(** What broadcasts guarantee: the messages that go out and to whom, the retries of the
    dispatch, and the times of recurring schedules. *)

From stdpp Require Import base gmap strings list sorting.
From Stdlib Require Import Ascii.
From S2P Require Import Prelude Decimal Errors RouteModels BillingModels FleetModels SupportModels Session Uuid NodeDisplay Tables Traffic Routes VlessUri SupportTables AgentDetails AdminAuth Support Broadcasts.
Local Open Scope Z_scope.

(** * The times of recurring schedules *)

(** The time of day of a moment. *)
Definition time_in_day (t : Z) : Z := t - midnight t.

Lemma midnight_range t : midnight t ≤ t < midnight t + day.
Proof.
  unfold midnight, epoch_day. pose proof (Z.div_mod t day). pose proof (Z.mod_pos_bound t day).
  assert (day > 0) by done. lia.
Qed.

Lemma midnight_shift t k r : midnight t = t → 0 ≤ r < day → midnight (t + k * day + r) = t + k * day.
Proof.
  intros Ht Hr. unfold midnight, epoch_day in *. assert (day > 0) by done.
  replace (t + k * day + r) with (r + (t `div` day + k) * day) by lia.
  rewrite Z.div_add by lia. rewrite Z.div_small by lia. lia.
Qed.

Lemma midnight_idem t : midnight (midnight t) = midnight t.
Proof. unfold midnight, epoch_day. rewrite Z.div_mul; [done|]. done. Qed.

Lemma weekday_shift t k r : midnight t = t → 0 ≤ r < day → weekday (t + k * day + r) = (weekday t + k) mod 7.
Proof.
  intros Ht Hr. unfold weekday. pose proof (midnight_shift t k r Ht Hr) as Hm. unfold midnight in Hm, Ht.
  assert (day > 0) by done. assert (epoch_day (t + k * day + r) = epoch_day t + k) as -> by nia.
  rewrite Zplus_mod_idemp_l. f_equal. lia.
Qed.

(** [t] is a moment of the schedule. *)
Definition due_moment (cad : RecurringCadence) (wd : list Z) (hh mm t : Z) : Prop :=
  time_in_day t = hh * hour + mm * minute ∧ (cad = WEEKLY → weekday t ∈ wd).

Definition effective_weekdays (wds : option (list Z)) : list Z := match wds with Some [] | None => [0] | Some l => l end.

Section NextRun.
Context (after tod : Z) (Htod : 0 ≤ tod < day).
Notation base := (midnight after + tod).
Notation cand i := (base + i * day).

(** Every moment with the time of day is a number of days from the first candidate. *)
Lemma moment_is_candidate t : time_in_day t = tod → after < t → ∃ k, 0 ≤ k ∧ t = cand k.
Proof using Htod.
intros Ht Hlt. unfold time_in_day in Ht. pose proof (midnight_range after). pose proof (midnight_range t).
exists (epoch_day t - epoch_day after). unfold midnight in *. assert (day > 0) by done. split; [|lia].
enough (epoch_day after ≤ epoch_day t) by lia. unfold epoch_day. apply Z.div_le_mono; lia.
Qed.

Lemma candidate_time k : time_in_day (cand k) = tod.
Proof using Htod.
unfold time_in_day. replace (cand k) with (midnight after + k * day + tod) by lia.
rewrite midnight_shift by (try apply midnight_idem; lia). lia.
Qed.

Lemma candidate_weekday k : weekday (cand k) = (weekday (midnight after) + k) mod 7.
Proof using Htod. replace (cand k) with (midnight after + k * day + tod) by lia. apply weekday_shift; [apply midnight_idem|done]. Qed.

Lemma candidate_after k : 1 ≤ k → after < cand k.
Proof using Htod. intros Hk. pose proof (midnight_range after). assert (day > 0) by done. nia. Qed.

(** Some candidate of the week to come is on a given weekday. *)
Lemma weekday_reached w : 0 ≤ w < 7 → ∃ i, 1 ≤ i ≤ 7 ∧ weekday (cand i) = w.
Proof using Htod.
intros Hw. set (w0 := weekday (midnight after)). assert (0 ≤ w0 < 7) by (apply Z.mod_pos_bound; lia).
exists (if w0 <? w then w - w0 else w - w0 + 7). rewrite candidate_weekday. fold w0.
destruct (Z.ltb_spec w0 w); (split; [lia|]).
- replace (w0 + (w - w0)) with w by lia. apply Z.mod_small. lia.
- replace (w0 + (w - w0 + 7)) with (w + 1 * 7) by lia. rewrite Z.mod_add by lia. apply Z.mod_small. lia.
Qed.

(** The first element of an increasing list that satisfies a condition. *)
Lemma first_of_filter (P : Z → Prop) `{!∀ x, Decision (P x)} (f : Z → Z) n m c l :
(∀ i j, i ≤ j → f i ≤ f j) →
filter P (f <$> seqZ m n) = c :: l → (P c ∧ ∃ k, c = f k) ∧ ∀ k, m ≤ k < m + n → P (f k) → c ≤ f k.
Proof using Type.
intros Hf E. split.
- assert (c ∈ filter P (f <$> seqZ m n)) as [Hc (k & -> & _)%list_elem_of_fmap]%list_elem_of_filter by (rewrite E; left). eauto.
- intros k Hk HP. destruct (Z.le_gt_cases n 0) as [Hn|Hn]; [lia|]. revert m n c l Hk E Hn.
  intros m n c l Hk E Hn. remember (Z.to_nat n) as N eqn:HN. revert m n c l Hk E Hn HN.
  induction N as [|N IH]; intros m n c l Hk E Hn HN; [lia|].
  rewrite seqZ_cons in E by lia. rewrite fmap_cons, filter_cons in E. case_decide as Hm.
  + injection E as <- _. apply Hf. lia.
  + destruct (decide (k = m)) as [->|Hne]; [done|]. eapply (IH (Z.succ m) (Z.pred n)); eauto; lia.
Qed.

Lemma next_weekly_least wd w :
w ∈ wd → 0 ≤ w < 7 →
let r := next_weekly base after wd in
after < r ∧ (∃ k, r = cand k) ∧ weekday r ∈ wd ∧
∀ k, 0 ≤ k → after < cand k → weekday (cand k) ∈ wd → r ≤ cand k.
Proof using Htod.
intros Hw Hr. cbv zeta. unfold next_weekly. destruct (weekday_reached w Hr) as (i & Hi & Ewd).
assert (Hmono : ∀ i j, i ≤ j → cand i ≤ cand j) by (intros; assert (day > 0) by done; nia).
destruct (filter _ _) as [|c l] eqn:E.
- exfalso. apply (not_elem_of_nil (cand i)). rewrite <-E. apply list_elem_of_filter. split.
  + split; [apply candidate_after; lia|by rewrite Ewd].
  + apply list_elem_of_fmap. exists i. split; [done|]. apply elem_of_seqZ. lia.
- destruct (first_of_filter _ _ 8 0 c l Hmono E) as [[[Hc Hcw] Hk] Hfirst].
  split_and!; [done|done|done|]. intros k' Hk' Hlt Hwd. destruct (Z.lt_ge_cases k' 8) as [H8|H8].
  + by apply Hfirst.
  + etrans; [apply (Hfirst i); [lia|]|apply Hmono; lia]. split; [apply candidate_after; lia|by rewrite Ewd].
Qed.
End NextRun.

(** The next run of a schedule is the first moment after the given one with the time of
    day and, for a weekly schedule, one of its weekdays. *)
Theorem next_run_least cad s wds after hh mm :
  parse_time s = Ok (hh, mm) → 0 ≤ hh ≤ 23 → 0 ≤ mm ≤ 59 →
  (cad = WEEKLY → ∃ w, w ∈ effective_weekdays wds ∧ 0 ≤ w < 7) →
  ∃ r, _compute_next_run cad s wds after = Ok r ∧ after < r ∧ due_moment cad (effective_weekdays wds) hh mm r ∧
       ∀ t, after < t → due_moment cad (effective_weekdays wds) hh mm t → r ≤ t.
Proof.
  intros Hp Hh Hm Hw. unfold _compute_next_run. rewrite Hp. cbn [mbind res_bind]. unfold at_time.
  set (tod := hh * hour + mm * minute). assert (Htod : 0 ≤ tod < day).
  { unfold tod. assert (hour = 60 * minute) by done. assert (day = 24 * hour) by done. assert (0 < minute) by done. nia. }
  replace ((0 <=? hh) && (hh <=? 23) && (0 <=? mm) && (mm <=? 59)) with true by lia.
  cbn [mbind res_bind]. eexists. split; [done|]. rewrite <-Z.add_assoc. fold tod. destruct cad.
  - assert (Hday : day > 0) by done. pose proof (midnight_range after).
    assert (Hfit : ∀ k, due_moment DAILY (effective_weekdays wds) hh mm (midnight after + tod + k * day))
      by (intros k; split; [by apply candidate_time|done]).
    assert (Hleast : ∀ t, after < t → due_moment DAILY (effective_weekdays wds) hh mm t →
      ∃ k, 0 ≤ k ∧ t = midnight after + tod + k * day) by (intros t Hlt [Ht _]; by apply moment_is_candidate).
    destruct (Z.ltb_spec after (midnight after + tod)) as [Hlt|Hge].
    + split_and!; [done|rewrite <-(Z.add_0_r (_ + _)); apply (Hfit 0)|].
      intros t Ht (k & Hk & ->)%Hleast; [nia|done].
    + split_and!; [lia|specialize (Hfit 1); by rewrite Z.mul_1_l in Hfit|].
      intros t Ht Hd. destruct (Hleast t Ht Hd) as (k & Hk & ->). destruct (decide (k = 0)) as [->|]; nia.
  - destruct Hw as (w & Hw & Hwr); [done|]. fold (effective_weekdays wds).
    destruct (next_weekly_least after tod Htod _ w Hw Hwr) as (Hlt & [k Hk] & Hwd & Hleast).
    split_and!; [done|split; [rewrite Hk; by apply candidate_time|done]|].
    intros t Ht [Htime Htw]. destruct (moment_is_candidate after tod Htod t Htime Ht) as (k' & Hk' & ->). apply Hleast; auto.
Qed.

(** * What goes out *)

Section Sending.
Context (env : BroadcastEnv).

(** The messages of a broadcast, with the identifiers from [mid] on. *)
Fixpoint payloads (bid mid : Z) (text : string) (media : list SupportOutboundAttachmentMsg)
  (buttons : list SupportOutboundInlineButton) (ents : option (list json)) (targets : list Z) : list SupportOutboundPayload :=
match targets with
| [] => []
| tg :: targets =>
    broadcast_payload bid mid tg text media buttons ents :: payloads bid (mid + 1) text media buttons ents targets
end.

Definition taken (l : list SupportOutboundPayload) : list SupportOutboundPayload := filter (λ p, accepts (be_support env) p = true) l.

(** A session that has only issued identifiers and published. *)
Definition published (s s' : session) (n : nat) (l : list SupportOutboundPayload) : Prop :=
db s' = db s ∧ clock s' = clock s ∧ ticks s' = ticks s ∧ next_uuid s' = next_uuid s + Z.of_nat n ∧
effects s' = effects s ++ (PublishSupport <$> l).

Lemma send_each_run bid text media buttons ents targets : ∀ s,
let l := taken (payloads bid (next_uuid s) text media buttons ents targets) in
∃ s', send_each env bid text media buttons ents targets s = (Ok (Z.of_nat (length l)), s') ∧ published s s' (length targets) l.
Proof using Type.
induction targets as [|tg targets IH]; intros s.
{ exists s. split; [done|]. unfold published. cbn. rewrite app_nil_r, Z.add_0_r. done. }
cbn [send_each payloads]. cbv zeta. unfold taken. rewrite filter_cons. set (p := broadcast_payload _ _ _ _ _ _ _).
unfold mbind at 1, M_bind at 1, uuid4. fold (issue s). change (next_uuid s + 1) with (next_uuid (issue s)).
unfold mbind at 1, M_bind at 1, publish_support. fold p. destruct (accepts (be_support env) p) eqn:Ha.
- unfold mbind at 1, M_bind at 1, emit, modify. cbn [mret M_ret].
  set (s1 := {| db := db (issue s); clock := _; ticks := _; next_uuid := _; effects := _ |}).
  unfold mbind at 1, M_bind at 1. destruct (IH s1) as (s2 & Hrun & D & C & T & U & E). rewrite Hrun.
  eexists. split.
  { rewrite decide_True by done. rewrite length_cons, Nat2Z.inj_succ, <-Z.add_1_r. reflexivity. }
  unfold published in *. rewrite decide_True by done. rewrite fmap_cons. cbn in D, C, T, U, E |- *.
  split_and!; [done|done|done|rewrite U; lia|]. rewrite E, <-app_assoc. done.
- cbn [mret M_ret]. unfold mbind at 1, M_bind at 1. destruct (IH (issue s)) as (s2 & Hrun & D & C & T & U & E). rewrite Hrun.
  rewrite decide_False by congruence. eexists. split; [done|]. cbn in *. split_and!; [done..|rewrite U; lia|done].
Qed.

(** The messages of a broadcast to the users [ids]. *)
Definition outgoing (d : database) (bid mid : Z) (ids : list Z) (text : string) (kind url : option string)
  (built : list SupportOutboundInlineButton) : list SupportOutboundPayload :=
if nats_present (be_support env) then
  let b := broadcasts d !! bid in
  payloads bid mid text (broadcast_media kind url) (with_promo_button env bid b built) (entities_of b) (reachable d ids)
else [].

Lemma reachable_nil d : reachable d [] = [].
Proof using Type.
unfold reachable. enough (filter (λ u, user_id u ∈ [] ∧ telegram_id u ≠ 0) (rows (users d)) = []) as -> by done.
induction (rows (users d)) as [|u l IH]; [done|]. rewrite filter_cons, decide_False; [done|]. intros [H _]. by apply not_elem_of_nil in H.
Qed.

Lemma broadcast_fan_out_run bid ids text kind url buttons built s :
build_buttons env (default [] buttons) = Ok built →
forallb (entity_valid env) (default [] (entities_of (broadcasts (db s) !! bid))) = true →
let l := taken (outgoing (db s) bid (next_uuid s) ids text kind url built) in
∃ s' n, _fan_out_broadcast env bid ids text kind url buttons s = (Ok (Z.of_nat (length l)), s') ∧ published s s' n l.
Proof using Type.
intros Hb He. cbv zeta. unfold _fan_out_broadcast, outgoing. destruct (nats_present (be_support env)); cbn [negb orb].
- assert (Hnil : reachable (db s) ids = [] → ∃ s' n, ((Ok 0, s) : res Z * session) =
    (Ok (Z.of_nat (length (taken (payloads bid (next_uuid s) text (broadcast_media kind url)
       (with_promo_button env bid (broadcasts (db s) !! bid) built) (entities_of (broadcasts (db s) !! bid)) (reachable (db s) ids))))), s') ∧
    published s s' n (taken (payloads bid (next_uuid s) text (broadcast_media kind url)
       (with_promo_button env bid (broadcasts (db s) !! bid) built) (entities_of (broadcasts (db s) !! bid)) (reachable (db s) ids)))).
  { intros ->. exists s, 0%nat. split; [done|]. unfold published. cbn. rewrite app_nil_r, Z.add_0_r. done. }
  destruct ids as [|i ids]; [apply Hnil, reachable_nil|].
  unfold mbind at 1, M_bind at 1, read, gets. destruct (reachable (db s) (i :: ids)) as [|tg targets] eqn:Et.
  { by apply Hnil. }
  unfold mbind at 1, M_bind at 1, lift. rewrite Hb. cbn [mret M_ret].
  unfold mbind at 1, M_bind at 1, get_by_id, read, gets. cbn [t_rows broadcasts_tbl]. cbv zeta. rewrite He. cbn [negb raise_if].
  unfold mbind at 1, M_bind at 1. cbn [mret M_ret].
  destruct (send_each_run bid text (broadcast_media kind url) (with_promo_button env bid (broadcasts (db s) !! bid) built)
    (entities_of (broadcasts (db s) !! bid)) (tg :: targets) s) as (s' & -> & Hp). eauto.
- exists s, 0%nat. split; [done|]. unfold published. cbn. rewrite app_nil_r, Z.add_0_r. done.
Qed.
End Sending.

(** * The dispatch of a scheduled broadcast *)

Lemma set_broadcast_run bid f s b :
  broadcasts (db s) !! bid = Some b → br_id b = bid →
  let b' := bassigned (f (bcolumns b)) (touch_broadcast (clock s (ticks s)) b) in
  set_broadcast bid f s = (Ok (Some b'), with_db (put broadcasts_tbl b') (tick s)).
Proof.
  intros Hb Hid. unfold set_broadcast. rewrite update_run. cbn [t_rows broadcasts_tbl t_check t_touch]. rewrite Hb. cbv zeta.
  cbn. by rewrite Hid, lookup_insert_eq.
Qed.

Section Dispatch.
Context (env : BroadcastEnv).

(** The buttons and the entities of [b] are well formed. *)
Definition sendable (b : Broadcast) (built : list SupportOutboundInlineButton) : Prop :=
build_buttons env (default [] (inline_buttons (br_content b))) = Ok built ∧
forallb (entity_valid env) (default [] (entities_of (Some b))) = true.

Definition audience_of (d : database) (now : Z) (b : Broadcast) : list Z :=
user_id <$> filter (λ u, in_audience d (br_audience (br_content b)) (br_plan_id (br_content b)) now u = true) (rows (users d)).

(** The messages of [b] that the broker takes. *)
Definition sent_of (d : database) (mid : Z) (ids : list Z) (b : Broadcast) (built : list SupportOutboundInlineButton) : list SupportOutboundPayload :=
taken env (outgoing env d (br_id b) mid ids (text_body (br_content b)) (media_kind (br_content b)) (media_url (br_content b)) built).

(** What a dispatch makes of [b] at the instant [finished]: [n] of the messages to [ids]
    were taken. *)
Definition dispatched (ids : list Z) (n finished : Z) (b b' : Broadcast) (r : bool) : Prop :=
if match ids with [] => false | _ => true end && (n =? 0) then
  r = false ∧
  if attempts b + 1 <? MAX_BROADCAST_DISPATCH_ATTEMPTS
  then br_status b' = SCHEDULED ∧ attempts b' = attempts b + 1 ∧
       scheduled_at b' = Some (finished + BROADCAST_RETRY_BACKOFF_SEC * (attempts b + 1) * second)
  else br_status b' = BC_FAILED ∧ attempts b' = attempts b
else r = true ∧ br_status b' = SENT ∧ br_delivered b' = n ∧ br_errors b' = Z.max 0 (Z.of_nat (length ids) - n) ∧ attempts b' = attempts b ∧
     br_sent_at b' = Some finished.

(** [t'] has committed [b'] in place of the row of the same id. *)
Definition committed (t : tsession) (b' : Broadcast) (l : list SupportOutboundPayload) (t' : tsession) : Prop :=
saved t' = db (ts t') ∧ db (ts t') = put broadcasts_tbl b' (db (ts t)) ∧ clock (ts t') = clock (ts t) ∧
effects (ts t') = effects (ts t) ++ (PublishSupport <$> l).

Lemma retry_run bid k s saved0 b :
broadcasts (db s) !! bid = Some b → br_id b = bid →
∃ t' b', _retry_or_fail bid (mret k) {| ts := s; saved := saved0 |} = (Ok false, t') ∧
  committed {| ts := s; saved := saved0 |} b' [] t' ∧ br_id b' = bid ∧ br_content b' = br_content b ∧ entities b' = entities b ∧
  if k + 1 <? MAX_BROADCAST_DISPATCH_ATTEMPTS
  then br_status b' = SCHEDULED ∧ attempts b' = k + 1 ∧
       scheduled_at b' = Some (clock s (ticks s) + BROADCAST_RETRY_BACKOFF_SEC * (k + 1) * second)
  else br_status b' = BC_FAILED ∧ attempts b' = attempts b.
Proof using Type.
intros Hb Hid. unfold _retry_or_fail. unfold mbind at 1, M_bind at 1, mret at 1, M_ret at 1.
unfold mbind at 1, M_bind at 1, sql at 1, utcnow. fold (tick s). cbn [ts saved]. cbv zeta.
destruct (k + 1 <? MAX_BROADCAST_DISPATCH_ATTEMPTS) eqn:Hk.
- unfold mbind at 1, M_bind at 1, sql, reschedule_for_retry. unfold mbind at 1, M_bind at 1.
  rewrite (set_broadcast_run bid _ (tick s) b) by done. cbn [ts saved]. do 2 eexists. split; [reflexivity|].
  split; [split_and!; [reflexivity|reflexivity|reflexivity|cbn; by rewrite app_nil_r]|split_and!; (exact Hid || done)].
- unfold mbind at 1, M_bind at 1, sql, mark_broadcast_failed. unfold mbind at 1, M_bind at 1.
  rewrite (set_broadcast_run bid _ (tick s) b) by done. cbn [ts saved]. do 2 eexists. split; [reflexivity|].
  split; [split_and!; [reflexivity|reflexivity|reflexivity|cbn; by rewrite app_nil_r]|split_and!; (exact Hid || done)].
Qed.

Lemma audience_resolve_run a p s :
_resolve_audience a p s =
(Ok (user_id <$> filter (λ u, in_audience (db s) a p (clock s (ticks s)) u = true) (rows (users (db s)))), tick s).
Proof using Type. done. Qed.

Lemma dispatch_run s saved0 b built :
broadcasts (db s) !! br_id b = Some b → sendable b built →
let ids := audience_of (db s) (clock s (ticks s)) b in
let l := sent_of (db s) (next_uuid s) ids b built in
∃ r t' b', dispatch env b {| ts := s; saved := saved0 |} = (Ok r, t') ∧ committed {| ts := s; saved := saved0 |} b' l t' ∧
  br_id b' = br_id b ∧ br_content b' = br_content b ∧ entities b' = entities b ∧
  dispatched ids (Z.of_nat (length l)) (clock s (S (ticks s))) b b' r.
Proof using Type.
intros Hb [Hbuilt Hents]. cbv zeta. unfold dispatch.
erewrite sql_bind by apply audience_resolve_run. fold (audience_of (db s) (clock s (ticks s)) b). set (ids := audience_of _ _ b).
destruct (broadcast_fan_out_run env (br_id b) ids (text_body (br_content b)) (media_kind (br_content b)) (media_url (br_content b))
  (inline_buttons (br_content b)) built (tick s) Hbuilt) as (s2 & n & Hrun & Hpub); [cbn; by rewrite Hb|].
erewrite sql_bind by exact Hrun. clear Hrun. cbn [db tick next_uuid] in Hpub |- *. fold (sent_of (db s) (next_uuid s) ids b built) in Hpub |- *.
set (l := sent_of _ _ _ _ _) in *. destruct Hpub as (D & C & T & _ & E). cbn in D, C, T, E.
unfold dispatched. destruct (match ids with [] => false | _ => true end && (Z.of_nat (length l) =? 0)) eqn:Hz.
- destruct (retry_run (br_id b) (attempts b) s2 saved0 b) as (t' & b' & -> & (H1 & H2 & H3 & H4) & Hid & Hc & He & Hk); [by rewrite D|done|].
  exists false, t', b'. split; [done|]. split.
  { unfold committed. cbn [ts saved] in *. rewrite D in H2. rewrite C in H3. rewrite H4, E, app_nil_r. done. }
  split_and!; [done..|]. rewrite C, T in Hk. done.
- erewrite sql_bind by (unfold mbind, M_bind, utcnow, mark_sent; fold (tick s2);
    unfold mbind, M_bind; rewrite (set_broadcast_run (br_id b) _ (tick s2) b) by (cbn; by rewrite ?D); reflexivity).
  rewrite commit_bind. do 3 eexists. split; [reflexivity|].
  split; [split_and!; [reflexivity|cbn [ts]; rewrite <-D; reflexivity|exact C|exact E]|].
  split_and!; try done. cbn. by rewrite C, T.
Qed.

(** The claim of a due broadcast. *)
Lemma claim_run bid now stale_ s b :
broadcasts (db s) !! bid = Some b → br_id b = bid →
claim_for_send bid now stale_ s =
if claimable_broadcast now stale_ b then (Ok (Some (claimed_at now b)), with_db (put broadcasts_tbl (claimed_at now b)) s) else (Ok None, s).
Proof using Type.
intros Hb Hid. unfold claim_for_send, mbind, M_bind, get_by_id, read, gets. cbn [t_rows broadcasts_tbl]. rewrite Hb.
destruct (claimable_broadcast now stale_ b); [|done]. by rewrite store_run.
Qed.

Lemma audience_put b' d now b : audience_of (put broadcasts_tbl b' d) now b = audience_of d now b.
Proof using Type. done. Qed.

(** The claimed row sends the same messages. *)
Lemma sent_claimed now b d mid ids built :
broadcasts d !! br_id b = Some b →
sent_of (put broadcasts_tbl (claimed_at now b) d) mid ids (claimed_at now b) built = sent_of d mid ids b built.
Proof using Type.
intros Hb. unfold sent_of, outgoing. cbn [claimed_at touch_broadcast bassigned br_content br_id with_status bcolumns bx_content].
unfold put. cbn. rewrite lookup_insert_eq, Hb. done.
Qed.
End Dispatch.

(** What one dispatch of a broadcast does. *)
Lemma dispatch_outcome env bid s b built :
  broadcasts (db s) !! bid = Some b → br_id b = bid → sendable env b built →
  let now := clock s (ticks s) in
  let ids := audience_of (db s) (clock s (S (ticks s))) b in
  let l := sent_of env (db s) (next_uuid s) ids b built in
  ∃ r s', run_scope (send_scheduled_broadcast env bid) s = (Ok r, s') ∧ clock s' = clock s ∧
    if claimable_broadcast now (now - BROADCAST_SENDING_STALE_SEC * second) b then
      ∃ b', db s' = put broadcasts_tbl b' (db s) ∧ br_id b' = bid ∧ br_content b' = br_content b ∧
        entities b' = entities b ∧ effects s' = effects s ++ (PublishSupport <$> l) ∧
        dispatched ids (Z.of_nat (length l)) (clock s (S (S (ticks s)))) b b' r
    else r = false ∧ db s' = db s ∧ effects s' = effects s.
Proof.
  intros Hb Hid Hs now ids l. unfold run_scope, send_scheduled_broadcast, opened.
  erewrite sql_bind by (unfold utcnow; fold (tick s); reflexivity). fold now.
  pose proof (claim_run bid now (now - BROADCAST_SENDING_STALE_SEC * second) (tick s) b Hb Hid) as Hcl.
  destruct (claimable_broadcast now _ b) eqn:Hc; erewrite sql_bind by exact Hcl.
  - cbv beta iota. rewrite commit_bind. unfold catch. set (b1 := claimed_at now b). set (s1 := with_db (put broadcasts_tbl b1) (tick s)).
    destruct (dispatch_run env s1 (db s1) b1 built) as (r & t' & b' & -> & (H1 & H2 & H3 & H4) & Hi & Hco & He & Hd).
    { cbn. apply lookup_insert_eq. }
    { exact Hs. }
    unfold s1 in H2, H4, Hd. cbn [db with_db tick clock ticks next_uuid ts] in H2, H4, Hd.
    rewrite audience_put in H4, Hd. rewrite (sent_claimed env now b) in H4, Hd by (by rewrite Hid).
    exists r, (with_db (λ _, saved t') (ts t')). split; [done|]. split; [exact H3|].
    exists b'. cbn [db with_db]. rewrite H1, H2. split_and!.
    + unfold put. cbn [t_rows t_set t_id broadcasts_tbl]. rewrite Hi. cbn [b1 claimed_at touch_broadcast bassigned br_id]. 
      destruct (db s). cbn. by rewrite insert_insert_eq.
    + rewrite Hi. exact Hid.
    + exact Hco.
    + exact He.
    + exact H4.
    + exact Hd.
  - exists false. eexists. split; [reflexivity|]. by destruct s.
Qed.

(** C30: the dispatch of a broadcast whose buttons and entities are well formed returns.  One
    that is not due is left alone.  A due one goes out once to every user of its audience the
    bot can reach, and is committed as sent now with the numbers of messages the broker took
    and refused; when the audience is not empty and the broker took nothing it is put back
    with one attempt more, due in two minutes times the attempts made from now, or failed
    after the fifth; no other broadcast changes. *)
Theorem scheduled_dispatch env bid s b built :
  broadcasts (db s) !! bid = Some b → br_id b = bid → sendable env b built →
  let now := clock s (ticks s) in
  let ids := audience_of (db s) (clock s (S (ticks s))) b in
  let l := sent_of env (db s) (next_uuid s) ids b built in
  ∃ r s', run_scope (send_scheduled_broadcast env bid) s = (Ok r, s') ∧ clock s' = clock s ∧
    if claimable_broadcast now (now - BROADCAST_SENDING_STALE_SEC * second) b then
      ∃ b', db s' = put broadcasts_tbl b' (db s) ∧ br_id b' = bid ∧ br_content b' = br_content b ∧
        entities b' = entities b ∧ effects s' = effects s ++ (PublishSupport <$> l) ∧
        dispatched ids (Z.of_nat (length l)) (clock s (S (S (ticks s)))) b b' r
    else r = false ∧ db s' = db s ∧ effects s' = effects s.
Proof. exact (dispatch_outcome env bid s b built). Qed.

(** ** The retries end *)

(** When the broadcast is scheduled, its date has come. *)
Definition due_now (bid : Z) (s : session) : Prop :=
  ∀ b, broadcasts (db s) !! bid = Some b → br_status b = SCHEDULED → ∀ t, scheduled_at b = Some t → t ≤ clock s (ticks s).

(** Dispatches of [bid], with any broker each; in between time passes. *)
Inductive dispatches (bid : Z) : list BroadcastEnv → session → session → Prop :=
| dispatches_nil s : dispatches bid [] s s
| dispatches_cons env es s s0 s' :
    db s0 = db s → due_now bid s0 →
    dispatches bid es (run_scope (send_scheduled_broadcast env bid) s0).2 s' → dispatches bid (env :: es) s s'.

Definition settled_broadcast (b : Broadcast) : Prop := br_status b = SENT ∨ br_status b = BC_FAILED.

Lemma settled_not_claimable now st b : settled_broadcast b → claimable_broadcast now st b = false.
Proof. intros Hb. unfold claimable_broadcast, stale. by destruct Hb as [-> | ->]. Qed.

(** Well formed content stays so. *)
Lemma sendable_same env b b' built : br_content b' = br_content b → entities b' = entities b → sendable env b built → sendable env b' built.
Proof. intros Hc He [H1 H2]. split; [by rewrite Hc|]. unfold entities_of in *. cbn in *. by rewrite He. Qed.

Lemma dispatches_settled bid es : ∀ s s' b,
  dispatches bid es s s' → broadcasts (db s) !! bid = Some b → br_id b = bid → settled_broadcast b →
  (∀ env, env ∈ es → ∃ built, sendable env b built) → broadcasts (db s') !! bid = Some b.
Proof.
  induction es as [|env es IH]; intros s s' b Hd Hb Hid Hset Hs; inversion Hd as [|? ? ? s0 ? E Hdue Hd']; subst; [done|].
  destruct (Hs env) as [built Hbuilt]; [left|]. rewrite <-E in Hb.
  destruct (dispatch_outcome env (br_id b) s0 b built Hb eq_refl Hbuilt) as (r & s1 & Hrun & _ & H). rewrite Hrun in Hd'. cbn in Hd'.
  rewrite settled_not_claimable in H by done. destruct H as (_ & Hdb & _).
  apply (IH _ _ b Hd'); [by rewrite Hdb|done|done|]. intros env' Hin. apply Hs. by right.
Qed.

(** C31: a scheduled broadcast with well formed buttons that is dispatched when it is due is
    settled after at most five dispatches, sent or failed, whatever the broker does. *)
Theorem dispatches_settle bid es s s' b :
  dispatches bid es s s' → broadcasts (db s) !! bid = Some b → br_id b = bid → br_status b = SCHEDULED →
  0 ≤ attempts b < MAX_BROADCAST_DISPATCH_ATTEMPTS → (∀ env, env ∈ es → ∃ built, sendable env b built) →
  MAX_BROADCAST_DISPATCH_ATTEMPTS ≤ attempts b + Z.of_nat (length es) →
  ∃ b', broadcasts (db s') !! bid = Some b' ∧ settled_broadcast b'.
Proof.
  revert s s' b. induction es as [|env es IH]; intros s s' b Hd Hb Hid Hst Hk Hs Hn; [cbn in Hn; lia|].
  inversion Hd as [|? ? ? s0 ? E Hdue Hd']; subst. destruct (Hs env) as [built Hbuilt]; [left|]. rewrite <-E in Hb.
  destruct (dispatch_outcome env (br_id b) s0 b built Hb eq_refl Hbuilt) as (r & s1 & Hrun & _ & H). rewrite Hrun in Hd'. cbn in Hd'.
  assert (Hs' : ∀ b', br_content b' = br_content b → entities b' = entities b → ∀ env, env ∈ es → ∃ built, sendable env b' built).
  { intros b' Hc He env' Hin. destruct (Hs env') as [bl Hbl]; [by right|]. exists bl. by eapply sendable_same. }
  assert (claimable_broadcast (clock s0 (ticks s0)) (clock s0 (ticks s0) - BROADCAST_SENDING_STALE_SEC * second) b = true) as Hcl.
  { unfold claimable_broadcast. rewrite bool_decide_true by done. destruct (scheduled_at b) as [t|] eqn:Ht; [|done].
    apply orb_true_iff. left. apply Z.leb_le. by apply (Hdue b). }
  rewrite Hcl in H. destruct H as (b' & Hdb & Hid' & Hc & He & _ & Hdis). unfold dispatched in Hdis.
  assert (Hb' : broadcasts (db s1) !! br_id b = Some b') by (rewrite Hdb, <-Hid'; cbn; apply lookup_insert_eq).
  destruct (_ && _).
  - destruct Hdis as [_ Hdis]. destruct (Z.ltb_spec (attempts b + 1) MAX_BROADCAST_DISPATCH_ATTEMPTS) as [Hlt|Hge].
    + destruct Hdis as (Hst' & Ha & _). apply (IH s1 s' b'); [done..|lia|by apply Hs'|cbn in Hn; lia].
    + destruct Hdis as [Hst' _]. exists b'. assert (settled_broadcast b') by (by right). split; [|done].
      eapply dispatches_settled; [done..|by apply Hs'].
  - destruct Hdis as (_ & Hst' & _). exists b'. assert (settled_broadcast b') by (by left). split; [|done].
    eapply dispatches_settled; [done..|by apply Hs'].
Qed.

(** ** A broadcast whose buttons raise *)

(** A broadcast with a button that raises, once due, is claimed again and again: every
    dispatch raises [MissingGreenlet] instead of counting the attempt, so that the broadcast
    is neither sent nor failed. *)
Theorem poison_broadcast_never_fails env bid s b e :
  broadcasts (db s) !! bid = Some b → br_id b = bid →
  build_buttons env (default [] (inline_buttons (br_content b))) = Raise e → nats_present (be_support env) = true →
  let now := clock s (ticks s) in
  claimable_broadcast now (now - BROADCAST_SENDING_STALE_SEC * second) b = true →
  reachable (db s) (audience_of (db s) (clock s (S (ticks s))) b) ≠ [] →
  ∃ s' b', run_scope (send_scheduled_broadcast env bid) s = (Raise MissingGreenlet, s') ∧ effects s' = effects s ∧
    broadcasts (db s') !! bid = Some b' ∧ br_status b' = SENDING ∧ attempts b' = attempts b ∧ br_content b' = br_content b.
Proof.
  intros Hb Hid Hbad Hn now Hc Hr. unfold run_scope, send_scheduled_broadcast, opened.
  erewrite sql_bind by (unfold utcnow; fold (tick s); reflexivity). fold now.
  pose proof (claim_run bid now (now - BROADCAST_SENDING_STALE_SEC * second) (tick s) b Hb Hid) as Hcl. rewrite Hc in Hcl.
  erewrite sql_bind by exact Hcl. cbv beta iota. rewrite commit_bind. set (b1 := claimed_at now b).
  set (s1 := with_db (put broadcasts_tbl b1) (tick s)). unfold catch at 1.
  assert (Hdis : dispatch env b1 {| ts := s1; saved := db s1 |} = (Raise e, {| ts := tick s1; saved := db s1 |})).
  { unfold dispatch. erewrite sql_bind by apply audience_resolve_run. fold (audience_of (db s1) (clock s1 (ticks s1)) b1).
    change (audience_of (db s1) (clock s1 (ticks s1)) b1) with (audience_of (db s) (clock s (S (ticks s))) b).
    set (ids := audience_of _ _ b) in *. unfold mbind at 1, M_bind at 1, sql at 1, _fan_out_broadcast. rewrite Hn. cbn [negb orb].
    clearbody ids. destruct ids as [|i rest]; [by rewrite reachable_nil in Hr|]. unfold mbind at 1, M_bind at 1, read, gets. cbn [ts].
    change (reachable (db (tick s1)) (i :: rest)) with (reachable (db s) (i :: rest)).
    destruct (reachable (db s) (i :: rest)) as [|tg tgs]; [done|]. unfold mbind at 1, M_bind at 1, lift.
    change (inline_buttons (br_content b1)) with (inline_buttons (br_content b)). by rewrite Hbad. }
  rewrite Hdis. eexists _, b1. split; [reflexivity|]. split; [done|]. split; [|done].
  cbn. rewrite Hid. apply lookup_insert_eq.
Qed.

(** ** Who is addressed *)

Lemma payloads_targets bid mid text media buttons ents targets :
  so_telegram_id <$> payloads bid mid text media buttons ents targets = targets.
Proof. revert mid. induction targets as [|tg l IH]; intros mid; [done|]. cbn [payloads]. rewrite fmap_cons. by rewrite IH. Qed.

Lemma elem_of_reachable d now b tg :
  keyed users_tbl d →
  tg ∈ reachable d (audience_of d now b) ↔
  ∃ i u, users d !! i = Some u ∧ telegram_id u = tg ∧ tg ≠ 0 ∧ in_audience d (br_audience (br_content b)) (br_plan_id (br_content b)) now u = true.
Proof.
  intros Hk. unfold reachable, audience_of. rewrite list_elem_of_fmap. setoid_rewrite list_elem_of_filter. setoid_rewrite elem_of_rows.
  setoid_rewrite list_elem_of_fmap. setoid_rewrite list_elem_of_filter. setoid_rewrite elem_of_rows. split.
  - intros (u & -> & [(v & Ev & Hv & j & Hj) Htg] & i & Hi). exists i, u.
    pose proof (Hk _ _ Hi) as Ei. pose proof (Hk _ _ Hj) as Ej. cbn in Ei, Ej. assert (v = u) as -> by congruence. done.
  - intros (i & u & Hu & <- & Hn & Ha). exists u. split; [done|]. split; [|by exists i]. split; [|done]. exists u. eauto.
Qed.

(** With a broker that takes everything, a broadcast goes to exactly the users of its
    audience that have a Telegram id; nobody who opted out of marketing is in any audience. *)
Theorem broadcast_addressees env d mid now b built tg :
  keyed users_tbl d → nats_present (be_support env) = true → (∀ p, accepts (be_support env) p = true) →
  (tg ∈ so_telegram_id <$> sent_of env d mid (audience_of d now b) b built ↔
   ∃ i u, users d !! i = Some u ∧ telegram_id u = tg ∧ tg ≠ 0 ∧
          in_audience d (br_audience (br_content b)) (br_plan_id (br_content b)) now u = true) ∧
  (∀ a plan u, suppress_marketing u = true → in_audience d a plan now u = false).
Proof.
  intros Hk Hn Hacc. split.
  - rewrite <-elem_of_reachable by done. unfold sent_of, taken, outgoing. rewrite Hn.
    set (l := payloads _ _ _ _ _ _ _). assert (filter (λ p, accepts (be_support env) p = true) l = l) as ->.
    { clear -Hacc. induction l as [|p l IH]; [done|]. by rewrite filter_cons, decide_True, IH. }
    unfold l. by rewrite payloads_targets.
  - intros a plan u Hu. unfold in_audience. rewrite Hu. by rewrite andb_false_r.
Qed.
