(* ===== verification/SupportProps.v ===== *)
(** What the support desk guarantees about its tickets. *)

From stdpp Require Import base gmap strings list sorting.
From S2P Require Import Prelude Decimal Errors RouteModels BillingModels FleetModels SupportModels Session Uuid NodeDisplay Tables Ledger BillingRepo Billing BillingProps OrderSettlement BillingRuns Routes VlessUri SupportTables Traffic AgentDetails AdminAuth Support Broadcasts BroadcastProps.
Local Open Scope Z_scope.


(** * An invariant of what is committed *)

(** [m] keeps an invariant of the database and of what is committed of it, and a result
    satisfies [Φ]. *)
Section Safe.
Context (I : database → Prop).

Definition holds (t : tsession) : Prop := I (db (ts t)) ∧ I (saved t).

Definition safe {A} (m : TM A) (Φ : A → Prop) : Prop :=
∀ t, holds t → wp m (λ a t', holds t' ∧ Φ a) (λ _ t', holds t') t.

Lemma safe_ret {A} (a : A) (Φ : A → Prop) : Φ a → safe (mret a) Φ.
Proof using Type. intros Ha t Ht. by split. Qed.
Lemma safe_raise {A} e (Φ : A → Prop) : safe (raise e) Φ.
Proof using Type. by intros t Ht. Qed.
Lemma safe_bind {A B} (m : TM A) (f : A → TM B) Φ Ψ : safe m Φ → (∀ a, Φ a → safe (f a) Ψ) → safe (m ≫= f) Ψ.
Proof using Type.
intros Hm Hf t Ht. apply wp_bind. eapply wp_mono; [by apply Hm| |done]. intros a t' [Ht' Ha]. by apply Hf.
Qed.
Lemma safe_weaken {A} (m : TM A) (Φ Ψ : A → Prop) : (∀ a, Φ a → Ψ a) → safe m Φ → safe m Ψ.
Proof using Type. intros H Hm t Ht. eapply wp_mono; [by apply Hm| |done]. intros a t' [? ?]. eauto. Qed.
Lemma safe_commit (Φ : unit → Prop) : Φ tt → safe commit Φ.
Proof using Type. intros HΦ t [H1 H2]. by repeat split. Qed.
Lemma safe_raise_if c e : safe (raise_if c e) (λ _, c = false).
Proof using Type. destruct c; [apply safe_raise|by apply safe_ret]. Qed.
Lemma safe_when c (m : TM unit) : (c = true → safe m (λ _, True)) → safe (when c m) (λ _, True).
Proof using Type. destruct c; [auto|intros _; by apply safe_ret]. Qed.

Lemma safe_sql {A} (m : SM A) (Φ : A → Prop) :
(∀ s, I (db s) → wp m (λ a s', I (db s') ∧ Φ a) (λ _ s', I (db s')) s) → safe (sql m) Φ.
Proof using Type.
intros Hm t [H1 H2]. apply wp_sql. eapply wp_mono; [by apply Hm| |].
- intros a s' [Hs Ha]. by repeat split.
- intros e s' Hs. by split.
Qed.

Lemma safe_keeps {A} (m : SM A) : keeps (on_db (λ d d', I d → I d')) m → safe (sql m) (λ _, True).
Proof using Type.
intros Hm. apply safe_sql. intros s Hs. specialize (Hm s). unfold wp, on_db in *. destruct (m s) as [[] s']; cbn in *; auto.
Qed.

Lemma run_handler_safe {A} (m : TM A) (Φ : A → Prop) s : safe m Φ → I (db s) → I (db (run_handler m s).2).
Proof using Type.
intros Hm Hs. specialize (Hm (opened s)). unfold run_handler, wp in *. destruct (m (opened s)) as [[a|e] t'].
- apply Hm. by split.
- apply Hm. by split.
Qed.

Lemma run_scope_safe {A} (m : TM A) (Φ : A → Prop) s : safe m Φ → I (db s) → I (db (run_scope m s).2).
Proof using Type.
intros Hm Hs. specialize (Hm (opened s)). unfold run_scope, wp in *. destruct (m (opened s)) as [[a|e] t']; apply Hm; by split.
Qed.
End Safe.

#[export] Instance implies_preorder (I : database → Prop) : PreOrder (λ d d', I d → I d').
Proof. split; [by intros d|intros d1 d2 d3; auto]. Qed.

(** * Closed tickets *)

Definition ticket_ok (t : SupportTicket) : Prop := tk_status t = CLOSED ↔ is_Some (closed_at t).
Definition tickets_ok (d : database) : Prop :=
  keyed tickets_tbl d ∧ ∀ i t, support_tickets d !! i = Some t → ticket_ok t.

Notation tstep := (λ d d', tickets_ok d → tickets_ok d').
Notation tsafe := (safe tickets_ok).

Lemma tickets_put r d : ticket_ok r → tickets_ok d → tickets_ok (put tickets_tbl r d).
Proof.
  intros Hr [Hk Hall]. split; [by apply (keyed_put tickets_tbl)|]. intros i t. cbn. rewrite lookup_insert.
  case_decide; [by intros [= <-]|apply Hall].
Qed.

Lemma tstep_frame {A} (m : SM A) : keeps (on_db (same support_tickets)) m → keeps (on_db tstep) m.
Proof. intros H s Hs. specialize (H s). unfold on_db, same in H. unfold tickets_ok, keyed in *. cbn in *. by rewrite H. Qed.

(** Assigned columns with a date of closing exactly when closed. *)
Definition change_ok (c : TicketChange) : Prop := ch_status c = CLOSED ↔ is_Some (ch_closed_at c).

Lemma flush_step tid c : change_ok c → keeps (on_db tstep) (flush_ticket tid c).
Proof.
  intros Hc. unfold flush_ticket. apply keeps_bind; [apply _| |intros; apply keeps_ret, _].
  apply keeps_update; [apply _|]. intros d now r _ _. by apply tickets_put.
Qed.

Lemma new_ticket_step uid subj c p a f : keeps (on_db tstep) (new_ticket uid subj c p a f).
Proof.
  unfold new_ticket. apply keeps_create; [apply _|]. intros d i now _ _. apply tickets_put. split; [done|by intros []].
Qed.

Lemma ticket_safe tid : tsafe (sql (ticket_or_error tid)) ticket_ok.
Proof.
  apply safe_sql. intros s Hs. unfold ticket_or_error. apply wp_bind, wp_get_by_id. cbn.
  destruct (support_tickets (db s) !! tid) as [t|] eqn:Ht; [|done]. split; [done|]. by apply (proj2 Hs tid).
Qed.

Lemma open_ticket_safe uid : tsafe (sql (find_open_by_user uid)) (λ o, ∀ t, o = Some t → ticket_ok t).
Proof.
  apply safe_sql. intros s Hs. unfold find_open_by_user. apply wp_bind, wp_select, wp_ret. split; [done|]. intros t Ht.
  assert (t ∈ order_by_desc last_activity_at (filter (λ r, (tk_user_id r =? uid) && negb (bool_decide (tk_status r = CLOSED)) = true)
    (rows (support_tickets (db s))))) as Hin by (by apply list_elem_of_In, head_In || (destruct (order_by_desc _ _); [done|]; injection Ht as ->; left)).
  unfold order_by_desc in Hin. rewrite merge_sort_Permutation in Hin. apply list_elem_of_filter in Hin as [_ (i & Hi)%elem_of_rows].
  by apply (proj2 Hs i).
Qed.

Section Desk.
Context (env : SupportEnv).

Lemma get_ticket_frame tid : keeps (on_db (same support_tickets)) (get_ticket tid).
Proof using Type. unfold get_ticket, ticket_or_error. keeps_tac. Qed.
Lemma publish_frame t m text kind atts : keeps (on_db (same support_tickets)) (_publish_outbound env t m text kind atts).
Proof using Type. unfold _publish_outbound, publish_support. keeps_tac. Qed.
Lemma system_message_frame tid body actor : keeps (on_db (same support_tickets)) (_add_system_message tid body actor).
Proof using Type. unfold _add_system_message. keeps_tac. Qed.
Lemma resolve_admin_frame v me : keeps (on_db (same support_tickets)) (_resolve_admin_id v me).
Proof using Type. unfold _resolve_admin_id, get_by_username. keeps_tac. Qed.
Lemma list_messages_frame tid : keeps (on_db (same support_tickets)) (list_messages tid).
Proof using Type. unfold list_messages, ticket_or_error, list_for_ticket. keeps_tac. Qed.
Lemma attachments_frame mid l : keeps (on_db (same support_tickets)) (for_each (add_attachment mid) l).
Proof using Type. unfold add_attachment. keeps_tac. Qed.
Hint Resolve get_ticket_frame publish_frame system_message_frame resolve_admin_frame list_messages_frame attachments_frame : keeps.

(** A statement that leaves the tickets alone. *)
Lemma quiet_safe {A} (m : SM A) : keeps (on_db (same support_tickets)) m → tsafe (sql m) (λ _, True).
Proof using Type. intros H. apply safe_keeps, tstep_frame, H. Qed.

Lemma create_ticket_safe data : tsafe (create_ticket data) (λ _, True).
Proof using Type.
unfold create_ticket. eapply safe_bind.
{ apply safe_keeps. apply keeps_bind; [apply _|apply keeps_utcnow, _|intros; apply new_ticket_step]. }
intros t _. eapply safe_bind; [by apply (safe_commit _ (λ _, True))|]. intros _ _. apply quiet_safe. keeps_tac.
Qed.

(** The status and the date of closing that [patch_ticket] writes. *)
Lemma patch_change_ok t st closed p c a now f r :
ticket_ok t → st ≠ Some (tk_status t) →
match st with
| Some st => match transition_of t st with
             | just_closed => is_Some closed
             | just_reopened => closed = None
             | other_change => closed = closed_at t
             end
| None => closed = closed_at t
end →
change_ok {| ch_subject := tk_subject t; ch_status := default (tk_status t) st; ch_priority := p; ch_category := c; ch_assignee := a;
             ch_activity := now; ch_closed_at := closed; ch_first_user_msg_at := f; ch_first_reply_at := r |}.
Proof using Type.
unfold ticket_ok, change_ok. intros Ht Hne Hc. cbn. destruct st as [st|]; [|by rewrite Hc]. cbn. unfold transition_of in Hc.
destruct (decide (st = CLOSED)) as [->|Hcl]; [by rewrite bool_decide_true in Hc|]. rewrite bool_decide_false in Hc by done.
destruct (decide (tk_status t = CLOSED)) as [E|E].
- rewrite bool_decide_true in Hc by done. subst closed. split; [done|by intros []].
- rewrite bool_decide_false in Hc by done. rewrite Hc. tauto.
Qed.

Lemma patch_ticket_safe tid data actor : tsafe (patch_ticket env tid data actor) (λ _, True).
Proof using Type.
unfold patch_ticket. eapply safe_bind; [apply ticket_safe|]. intros t Ht. set (st := status_change t data).
assert (Hst : st ≠ Some (tk_status t)).
{ unfold st, status_change. destruct (tp_status data) as [x|]; [|done]. destruct (bool_decide (x = tk_status t)) eqn:E; [done|].
  apply bool_decide_eq_false in E. congruence. }
eapply (safe_bind _ _ _ (λ closed, match st with
  | Some st => match transition_of t st with
               | just_closed => is_Some closed | just_reopened => closed = None | other_change => closed = closed_at t end
  | None => closed = closed_at t end)).
{ apply safe_sql. intros s Hs. destruct st as [x|]; [destruct (transition_of t x)|]; by split. }
intros closed Hclosed. eapply safe_bind; [apply quiet_safe; unfold patch_assignee; keeps_tac|]. intros a _.
eapply safe_bind.
{ apply safe_when. intros _. eapply safe_bind; [apply safe_keeps|intros _ _; by apply safe_commit].
  apply keeps_bind; [apply _|apply keeps_utcnow, _|]. intros now. apply flush_step. by apply patch_change_ok. }
intros _ _. eapply (safe_bind _ _ _ (λ _, True)); [|intros _ _; apply quiet_safe; keeps_tac].
destruct st as [x|]; [destruct (transition_of t x)|]; try (by apply safe_ret);
  (eapply safe_bind; [apply quiet_safe; keeps_tac|intros m _]; eapply safe_bind; [by apply (safe_commit _ (λ _, True))|intros _ _];
   apply quiet_safe; keeps_tac).
Qed.

Lemma reply_change_ok t note a b : ticket_ok t → bool_decide (tk_status t = CLOSED) && negb note = false → change_ok (after_reply t note a b).
Proof using Type.
unfold ticket_ok, change_ok, after_reply. cbn. intros Ht Hn. destruct note; [done|]. rewrite andb_true_r in Hn. rewrite Hn.
apply bool_decide_eq_false in Hn. split; [done|]. tauto.
Qed.

Lemma post_message_safe tid text note actor atts : tsafe (post_operator_message env tid text note actor atts) (λ _, True).
Proof using Type.
unfold post_operator_message. eapply safe_bind; [apply ticket_safe|]. intros t Ht. cbv zeta.
eapply safe_bind; [apply safe_raise_if|]. intros _ _. eapply safe_bind; [apply safe_raise_if|]. intros ? Hopen. cbn beta in Hopen.
eapply safe_bind; [apply quiet_safe; keeps_tac|]. intros msg _. eapply safe_bind; [apply quiet_safe; keeps_tac|]. intros _ _.
eapply safe_bind.
{ apply safe_keeps. apply keeps_bind; [apply _| |intros replied].
  { unfold reply_reading. destruct (first_user_msg_at t), (first_reply_at t), note; (apply keeps_ret, _) || (apply keeps_utcnow, _). }
  apply keeps_bind; [apply _|apply keeps_utcnow, _|intros now]. by apply flush_step, reply_change_ok. }
intros _ _. eapply safe_bind; [by apply (safe_commit _ (λ _, True))|]. intros _ _.
eapply safe_bind; [apply safe_when; intros _; apply quiet_safe; keeps_tac|]. intros _ _.
eapply safe_bind; [apply quiet_safe; keeps_tac|]. intros items _. apply quiet_safe. unfold lift. keeps_tac.
Qed.

Lemma activity_step t now : ticket_ok t → keeps (on_db tstep) (touch_ticket_activity t now).
Proof using Type. intros Ht. unfold touch_ticket_activity. apply flush_step. exact Ht. Qed.

Lemma grant_day_safe tid actor : tsafe (grant_day tid actor) (λ _, True).
Proof using Type.
unfold grant_day. eapply safe_bind; [apply ticket_safe|]. intros t Ht.
eapply safe_bind; [apply quiet_safe; unfold get_latest_for_user; keeps_tac|]. intros o _.
destruct o as [b|]; [|apply safe_raise]. destruct (sub_expires_at b) as [e|]; [|apply safe_raise].
eapply safe_bind; [apply safe_keeps|intros _ _; eapply safe_bind; [by apply (safe_commit _ (λ _, True))|intros _ _; by apply safe_ret]].
apply keeps_bind; [apply _|apply keeps_utcnow, _|intros now].
apply keeps_bind; [apply _|apply tstep_frame; unfold update_sub; keeps_tac|intros _].
apply keeps_bind; [apply _|apply tstep_frame; keeps_tac|intros _]. by apply activity_step.
Qed.

Lemma refund_safe tid actor : tsafe (refund_last_order tid actor) (λ _, True).
Proof using Type.
unfold refund_last_order. eapply safe_bind; [apply ticket_safe|]. intros t Ht.
eapply safe_bind; [apply quiet_safe; unfold get_last_paid_for_user; keeps_tac|]. intros o _. destruct o as [order|]; [|apply safe_raise].
eapply safe_bind; [apply quiet_safe; keeps_tac|]. intros u _. destruct u as [u|]; [|apply safe_raise]. cbv zeta.
eapply safe_bind; [apply safe_keeps|intros _ _; eapply safe_bind; [by apply (safe_commit _ (λ _, True))|intros _ _; by apply safe_ret]].
apply keeps_bind; [apply _|apply tstep_frame; unfold _update_user_balance; keeps_tac|intros _].
apply keeps_bind; [apply _|apply tstep_frame; unfold update_order; keeps_tac|intros _].
apply keeps_bind; [apply _|apply tstep_frame; unfold _record_transaction, insert_transaction; keeps_tac|intros _].
apply keeps_bind; [apply _|apply tstep_frame; keeps_tac|intros _].
apply keeps_bind; [apply _|apply keeps_utcnow, _|intros now]. by apply activity_step.
Qed.

Lemma user_message_change_ok t text now : ticket_ok t → change_ok (after_user_message t text now).
Proof using Type.
unfold ticket_ok, change_ok, after_user_message. cbn. intros Ht. case_bool_decide as E; [|done].
rewrite E in Ht. split; [done|]. intros H. by apply Ht in H.
Qed.

Lemma ingest_safe uid text atts : tsafe (ingest_user_message uid text atts) (λ _, True).
Proof using Type.
unfold ingest_user_message. eapply safe_bind; [apply quiet_safe, keeps_utcnow, _|]. intros now _.
eapply safe_bind; [apply open_ticket_safe|]. intros o Ho. cbv zeta.
eapply (safe_bind _ _ _ ticket_ok).
{ destruct o as [t|]; [apply safe_sql; intros s Hs; split; [done|by apply Ho]|].
  apply safe_sql. intros s Hs. unfold new_ticket, wp. pose proof (new_ticket_step uid text OTHER NORMAL now (Some now) s Hs) as Hst.
  unfold new_ticket in Hst. rewrite create_run in *. cbv zeta in *. destruct (t_rows _ _ !! _); [done|]. destruct (t_check _ _ _ _); [done|].
  split; [exact Hst|]. split; [done|by intros []]. }
intros t Ht. eapply safe_bind; [apply safe_keeps, flush_step; by apply user_message_change_ok|]. intros _ _.
eapply safe_bind; [apply quiet_safe; keeps_tac|]. intros msg _. eapply safe_bind; [apply quiet_safe; keeps_tac|]. intros _ _.
eapply safe_bind; [by apply (safe_commit _ (λ _, True))|]. intros _ _. by apply safe_ret.
Qed.

Lemma claimed_safe subject msg_id : tsafe (claimed_message subject msg_id) (λ _, True).
Proof using Type.
unfold claimed_message. destruct msg_id as [m|]; [|by apply safe_ret]. destruct (nonempty m); [|by apply safe_ret].
apply quiet_safe. unfold claim. keeps_tac.
Qed.

Lemma handle_inbound_safe subject msg_id p : tsafe (handle_inbound subject msg_id p) (λ _, True).
Proof using Type.
unfold handle_inbound. eapply safe_bind; [apply claimed_safe|]. intros ok _. destruct ok; [|by apply safe_ret]. cbn [negb].
eapply safe_bind; [apply quiet_safe; unfold get_user_by_telegram_id; keeps_tac|]. intros u _. destruct u as [u|]; [|by apply safe_commit].
eapply safe_bind; [apply ingest_safe|]. intros r _. eapply (safe_bind _ _ _ (λ _, True)).
{ destruct (in_tg_message_id p) as [tg|]; [|by apply safe_ret].
  eapply safe_bind; [apply quiet_safe; unfold patch_message; keeps_tac|intros _ _; by apply safe_commit]. }
intros _ _. apply safe_when. intros _. apply quiet_safe, keeps_emit, _.
Qed.

Lemma handle_sent_safe subject msg_id p : tsafe (handle_sent subject msg_id p) (λ _, True).
Proof using Type.
unfold handle_sent. eapply safe_bind; [apply claimed_safe|]. intros ok _. destruct ok; [|by apply safe_ret]. cbn [negb].
destruct (ack_ok p); [|by apply safe_commit]. cbn [negb].
eapply safe_bind; [apply quiet_safe; unfold mark_delivered, patch_message; keeps_tac|intros _ _; by apply safe_commit].
Qed.

(** A bulk update that closes tickets or leaves their status alone. *)
Definition bulk_closes (data : TicketBulkUpdateIn) : Prop := tb_status data = None ∨ tb_status data = Some CLOSED.

Lemma bulk_one_step data a tid s : bulk_closes data → tickets_ok (db s) →
wp (bulk_one data a tid) (λ _ s', tickets_ok (db s')) (λ _ s', tickets_ok (db s')) s.
Proof using Type.
intros Hb Hs. unfold bulk_one. apply wp_bind, wp_get_by_id. cbn [t_rows tickets_tbl].
destruct (support_tickets (db s) !! tid) as [t|] eqn:Ht; [|done]. pose proof (proj2 Hs tid t Ht) as Hok.
assert (Hfl : ∀ closed c s', (tb_status data = None ∧ closed = closed_at t ∨ tb_status data = Some CLOSED ∧ is_Some closed) →
  ch_status c = default (tk_status t) (tb_status data) → ch_closed_at c = closed → tickets_ok (db s') →
  wp (flush_ticket tid c ;; mret true) (λ _ s', tickets_ok (db s')) (λ _ s', tickets_ok (db s')) s').
{ intros closed c s' Hcase Hst Hcl Hs'. apply wp_bind. assert (Hc : change_ok c).
  { unfold change_ok. rewrite Hst, Hcl. destruct Hcase as [[-> ->]|[-> Hsome]]; [exact Hok|]. cbn. tauto. }
  pose proof (flush_step tid c Hc s' Hs') as H. unfold wp. destruct (flush_ticket tid c s') as [[]]; exact H. }
apply wp_bind. destruct Hb as [E|E]; rewrite E.
- apply wp_ret, wp_bind, wp_utcnow. eapply (Hfl (closed_at t)); [by left|by rewrite E|done|done].
- apply wp_bind, wp_utcnow, wp_ret, wp_bind, wp_utcnow. eapply (Hfl (Some _)); [right; split; [done|by eexists]|by rewrite E|done|done].
Qed.

Lemma bulk_update_safe data actor : bulk_closes data → tsafe (bulk_update data actor) (λ _, True).
Proof using Type.
intros Hb. unfold bulk_update. destruct (tb_ids data) as [|i ids]; [by apply safe_ret|].
eapply safe_bind; [apply quiet_safe; keeps_tac|]. intros a _.
eapply safe_bind.
{ apply safe_keeps. apply keeps_fold_m; [apply _|]. intros n tid. apply keeps_bind; [apply _| |intros; apply keeps_ret, _].
  intros s Hs. pose proof (bulk_one_step data a tid s Hb Hs) as H. unfold wp in H. by destruct (bulk_one data a tid s) as [[]]. }
intros n _. eapply safe_bind; [apply safe_when; intros _; by apply safe_commit|]. intros _ _. by apply safe_ret.
Qed.
End Desk.

(** * The desk: requests and messages, one after another *)

Inductive desk_op :=
| DeskCreate (data : TicketCreateIn)
| DeskPatch (tid : Z) (data : TicketPatchIn) (actor : option Z)
| DeskBulk (data : TicketBulkUpdateIn) (actor : option Z)
| DeskReply (tid : Z) (text : string) (note : bool) (actor : option Z) (atts : list AttachmentIn)
| DeskGrantDay (tid : Z) (actor : option Z)
| DeskRefund (tid : Z) (actor : option Z)
| DeskInbound (subject : string) (msg_id : option string) (p : SupportInboundMessage)
| DeskSent (subject : string) (msg_id : option string) (p : SupportSentAck).

Definition run_desk (env : SupportEnv) (op : desk_op) (s : session) : session :=
  match op with
  | DeskCreate data => (run_handler (create_ticket data) s).2
  | DeskPatch tid data actor => (run_handler (patch_ticket env tid data actor) s).2
  | DeskBulk data actor => (run_handler (bulk_update data actor) s).2
  | DeskReply tid text note actor atts => (run_handler (post_operator_message env tid text note actor atts) s).2
  | DeskGrantDay tid actor => (run_handler (grant_day tid actor) s).2
  | DeskRefund tid actor => (run_handler (refund_last_order tid actor) s).2
  | DeskInbound subject msg_id p => (run_scope (handle_inbound subject msg_id p) s).2
  | DeskSent subject msg_id p => (run_scope (handle_sent subject msg_id p) s).2
  end.

(** Through any sequence of requests of the operators and messages of the users, in
    which bulk updates only close tickets, a ticket has a date of closing exactly while it
    is closed. *)
Theorem closed_tickets_dated env ops s :
  (∀ data actor, DeskBulk data actor ∈ ops → bulk_closes data) →
  tickets_ok (db s) → tickets_ok (db (foldl (λ s op, run_desk env op s) s ops)).
Proof.
  revert s. induction ops as [|op ops IH]; intros s Hb Hs; cbn; [done|].
  apply IH; [intros data actor Hin; apply (Hb data actor); by right|].
  destruct op; cbn [run_desk];
    [eapply run_handler_safe, Hs..|eapply run_scope_safe, Hs|eapply run_scope_safe, Hs];
    eauto using create_ticket_safe, patch_ticket_safe, post_message_safe, grant_day_safe, refund_safe, handle_inbound_safe, handle_sent_safe.
  apply bulk_update_safe, (Hb data actor). left.
Qed.

(** A bulk update that reopens a closed ticket leaves its date of closing, which
    [patch_ticket] drops. *)
Theorem bulk_reopen_keeps_closed_at data actor tid t c st s :
  tb_ids data = [tid] → tb_status data = Some st → st ≠ CLOSED → tb_assignee data = None →
  support_tickets (db s) !! tid = Some t → tk_id t = tid → tk_status t = CLOSED → closed_at t = Some c →
  ∃ t', support_tickets (db (run_handler (bulk_update data actor) s).2) !! tid = Some t' ∧ tk_status t' = st ∧ closed_at t' = Some c.
Proof.
  intros Hids Hst Hne Has Ht Hid Hcl Hc. unfold bulk_update, run_handler, opened. rewrite Hids, Has.
  erewrite sql_bind by reflexivity. cbn [fold_m].
  assert (Hone : ∃ t' s', bulk_one data None tid s = (Ok true, s') ∧ support_tickets (db s') !! tid = Some t' ∧ tk_status t' = st ∧ closed_at t' = Some c).
  { unfold bulk_one, mbind, M_bind, get_by_id, read, gets. cbn [t_rows tickets_tbl]. rewrite Ht, Hst.
    destruct st; [| | |done]; cbn; unfold flush_ticket, mbind, M_bind; rewrite update_run; cbn [t_rows tickets_tbl db]; rewrite Ht; cbn;
      (eexists _, _; split; [reflexivity|]; cbn; rewrite Hid, lookup_insert_eq; done). }
  destruct Hone as (t' & s' & Hrun & Ht' & H1 & H2).
  erewrite sql_bind by (unfold mbind, M_bind; rewrite Hrun; reflexivity). cbn. exists t'. done.
Qed.

(** * Refunds by support *)

Lemma filter_nothing {A} (P : A → Prop) `{!∀ x, Decision (P x)} l : (∀ x, x ∈ l → ¬ P x) → filter P l = [].
Proof.
  induction l as [|x l IH]; intros Hl; [done|]. rewrite filter_cons, decide_False by (apply Hl; left). apply IH. intros y Hy. apply Hl. by right.
Qed.

Lemma last_paid_none uid s : none_paid (db s) → get_last_paid_for_user uid s = (Ok None, s).
Proof.
  intros Hn. unfold get_last_paid_for_user, mbind, M_bind, select_where, read, gets. cbn [t_rows orders_tbl].
  rewrite filter_nothing; [done|]. intros o [i Ho]%elem_of_rows [_ Hp]%andb_true_iff. apply bool_decide_eq_true in Hp. by apply (Hn i o).
Qed.

(** After any history of billing that began without orders left paid, the refund of the last
    paid order is refused for every ticket, and the lifetime spend shown is zero: both look
    for the status "paid", which no committed order has. *)
Theorem support_refund_always_fails {Req} activate (env : BillingEnv Req) iso `{!SubscriptionActivation activate} ops s tid t actor :
  keyed orders_tbl (db s) → none_paid (db s) →
  let s' := run_history activate env iso ops s in
  support_tickets (db s') !! tid = Some t →
  (run_handler (refund_last_order tid actor) s').1 = Raise (SupportActionFailed "У пользователя нет оплаченных заказов") ∧
  db (run_handler (refund_last_order tid actor) s').2 = db s' ∧
  ∀ uid, lifetime_spend_of (db s') uid = 0.
Proof.
  intros Hk Hn s' Ht. destruct (no_order_left_paid_in activate env iso ops s Hk Hn) as [_ Hn']. fold s' in Hn'.
  split; [|split].
  - unfold run_handler, refund_last_order, opened.
    erewrite sql_bind by (unfold ticket_or_error, mbind, M_bind, get_by_id, read, gets; cbn [t_rows tickets_tbl]; by rewrite Ht).
    by erewrite sql_bind by by apply last_paid_none.
  - unfold run_handler, refund_last_order, opened.
    erewrite sql_bind by (unfold ticket_or_error, mbind, M_bind, get_by_id, read, gets; cbn [t_rows tickets_tbl]; by rewrite Ht).
    by erewrite sql_bind by by apply last_paid_none.
  - intros uid. unfold lifetime_spend_of. rewrite filter_nothing; [done|].
    intros o [i Ho]%elem_of_rows [_ Hp]. by apply (Hn' i o).
Qed.

(** The support desk on concrete databases: instances of the theorems of SupportProps,
    BroadcastProps and OrderSettlement, and runs of the dispatch. *)


(** * Orders *)

Lemma shop_none_paid : none_paid shop_db.
Proof. intros i o. cbn. intros [<- <-]%lookup_singleton_Some. discriminate. Qed.

Lemma no_order_left_paid_witness :
  let s' := run_history no_keys sample_env (λ _, ""%string) sample_history shop_session in
  keyed orders_tbl (db s') ∧ none_paid (db s').
Proof.
  apply (no_order_left_paid no_keys sample_env (λ _, ""%string) sample_history shop_session).
  - apply keyed_by_computation. vm_compute. reflexivity.
  - exact shop_none_paid.
Defined.

(** * Recurring schedules *)

(** Every Monday and Thursday at 09:30, asked for on a Thursday at noon: the next Monday. *)
Lemma next_run_least_witness :
  ∃ r, _compute_next_run WEEKLY "09:30" (Some [0; 3]) (12 * hour) = Ok r ∧ 12 * hour < r ∧
       due_moment WEEKLY [0; 3] 9 30 r ∧ ∀ t, 12 * hour < t → due_moment WEEKLY [0; 3] 9 30 t → r ≤ t.
Proof.
  apply (next_run_least WEEKLY "09:30" (Some [0; 3]) (12 * hour) 9 30).
  - vm_compute. reflexivity.
  - lia.
  - lia.
  - intros _. exists 0. split; [left|lia].
Defined.

Example next_run_monday : _compute_next_run WEEKLY "09:30" (Some [0; 3]) (12 * hour) = Ok (4 * day + 9 * hour + 30 * minute).
Proof. vm_compute. reflexivity. Qed.

(** * Broadcasts *)

Definition broker (up : bool) : BroadcastEnv :=
  {| be_support := {| nats_present := true; accepts := λ _, up; text_lower := lower |}; Broadcasts.bot_username := "bot";
     netloc_refused := λ _, false; entity_valid := λ _, true |}.

Definition news (buttons : list json) : Content :=
  {| br_audience := ALL; br_plan_id := None; text_body := "News"; media_kind := None; media_url := None;
     inline_buttons := Some buttons; br_promo_code_id := None |}.

Definition good_button : json := JObj [("text", JStr "Open"); ("url", JStr "https://example.org")].
Definition bad_button : json := JObj [("text", JInt 5)].

Definition scheduled_news (buttons : list json) : Broadcast :=
  {| br_id := 300; br_content := news buttons; entities := None; custom_emoji_assets := None; br_status := SCHEDULED;
     scheduled_at := Some 0; br_sent_at := None; br_delivered := 0; br_errors := 0; clicks := 0; target_count := 1; attempts := 0;
     created_by_admin_id := None; br_created_at := 0; br_updated_at := 0 |}.

Definition desk_db (buttons : list json) : database :=
  set_broadcasts {[300 := scheduled_news buttons]} (set_users {[1 := sample_user 1 0]} empty_db).

Definition desk_session (buttons : list json) : session := session_on (desk_db buttons) 1000 500.
Definition built_button : SupportOutboundInlineButton :=
  {| btn_text := "Open"; btn_url := "https://example.org"; btn_style := None; btn_action := None; btn_value := None |}.

Lemma news_sendable up : sendable (broker up) (scheduled_news [good_button]) [built_button].
Proof. split; vm_compute; reflexivity. Qed.

Lemma scheduled_dispatch_witness :
  let b := scheduled_news [good_button] in
  let s := desk_session [good_button] in
  let now := clock s (ticks s) in
  let ids := audience_of (db s) (clock s (S (ticks s))) b in
  let l := sent_of (broker true) (db s) (next_uuid s) ids b [built_button] in
  ∃ r s', run_scope (send_scheduled_broadcast (broker true) 300) s = (Ok r, s') ∧ clock s' = clock s ∧
    if claimable_broadcast now (now - BROADCAST_SENDING_STALE_SEC * second) b then
      ∃ b', db s' = put broadcasts_tbl b' (db s) ∧ br_id b' = 300 ∧ br_content b' = br_content b ∧
        entities b' = entities b ∧ effects s' = effects s ++ (PublishSupport <$> l) ∧
        dispatched ids (Z.of_nat (length l)) (clock s (S (S (ticks s)))) b b' r
    else r = false ∧ db s' = db s ∧ effects s' = effects s.
Proof.
  apply (scheduled_dispatch (broker true) 300 (desk_session [good_button]) (scheduled_news [good_button]) [built_button]).
  - vm_compute. reflexivity.
  - reflexivity.
  - exact (news_sendable true).
Defined.

(** The broadcast as the dispatch leaves it. *)
Definition dispatch_result (env : BroadcastEnv) (s : session) : option (BroadcastStatus * Z) * nat :=
  let s' := (run_scope (send_scheduled_broadcast env 300) s).2 in
  ((λ b, (br_status b, attempts b)) <$> broadcasts (db s') !! 300, length (effects s')).

Example news_sent : dispatch_result (broker true) (desk_session [good_button]) = (Some (SENT, 0), 1%nat).
Proof. vm_compute. reflexivity. Qed.
Example news_retried : dispatch_result (broker false) (desk_session [good_button]) = (Some (SCHEDULED, 1), 0%nat).
Proof. vm_compute. reflexivity. Qed.
Example news_poisoned : dispatch_result (broker true) (desk_session [bad_button]) = (Some (SENDING, 0), 0%nat).
Proof. vm_compute. reflexivity. Qed.

(** Five dispatches with a broker that is down, each when it is due. *)
Definition late (n : nat) (s : session) : session :=
  {| db := db s; clock := λ _, Z.of_nat n * hour; ticks := ticks s; next_uuid := next_uuid s; effects := effects s |}.

Fixpoint down_for (n k : nat) (s : session) : session :=
  match n with
  | O => s
  | S n => down_for n (S k) (run_scope (send_scheduled_broadcast (broker false) 300) (late k s)).2
  end.

Definition due_nowb (bid : Z) (s : session) : bool :=
  match broadcasts (db s) !! bid with
  | Some b => match scheduled_at b with Some t => t <=? clock s (ticks s) | None => true end
  | None => true
  end.

Lemma due_nowb_spec bid s : due_nowb bid s = true → due_now bid s.
Proof. unfold due_nowb, due_now. intros H b Hb _ t Ht. rewrite Hb, Ht in H. lia. Qed.

Lemma down_dispatches n : ∀ k s,
  (∀ j, (j < n)%nat → due_nowb 300 (late (k + j) (down_for j k s)) = true) →
  dispatches 300 (replicate n (broker false)) s (down_for n k s).
Proof.
  induction n as [|n IH]; intros k s Hd; [constructor|]. cbn [down_for replicate]. apply (dispatches_cons _ _ _ _ (late k s)); [done| |].
  - apply due_nowb_spec. specialize (Hd 0%nat ltac:(lia)). by rewrite Nat.add_0_r in Hd.
  - apply IH. intros j Hj. specialize (Hd (S j) ltac:(lia)). by rewrite Nat.add_succ_r in Hd.
Qed.

Lemma dispatches_settle_witness :
  ∃ b', broadcasts (db (down_for 5 1 (desk_session [good_button]))) !! 300 = Some b' ∧ settled_broadcast b'.
Proof.
  apply (dispatches_settle 300 (replicate 5 (broker false)) (desk_session [good_button]) _ (scheduled_news [good_button])).
  - apply down_dispatches. intros j Hj. destruct j as [|[|[|[|[|j]]]]]; [vm_compute; reflexivity..|lia].
  - vm_compute. reflexivity.
  - reflexivity.
  - reflexivity.
  - cbn. unfold MAX_BROADCAST_DISPATCH_ATTEMPTS. lia.
  - intros env Henv. apply elem_of_replicate_inv in Henv as ->. exists [built_button]. exact (news_sendable false).
  - cbn. unfold MAX_BROADCAST_DISPATCH_ATTEMPTS. lia.
Defined.

Example down_fails :
  (λ b, (br_status b, attempts b)) <$> broadcasts (db (down_for 5 1 (desk_session [good_button]))) !! 300 = Some (BC_FAILED, 4).
Proof. vm_compute. reflexivity. Qed.

Lemma broadcast_addressees_witness :
  let d := desk_db [good_button] in
  let b := scheduled_news [good_button] in
  (1 ∈ so_telegram_id <$> sent_of (broker true) d 500 (audience_of d 1000 b) b [built_button] ↔
   ∃ i u, users d !! i = Some u ∧ telegram_id u = 1 ∧ 1 ≠ 0 ∧ in_audience d ALL None 1000 u = true) ∧
  (∀ a plan u, suppress_marketing u = true → in_audience d a plan 1000 u = false).
Proof.
  apply (broadcast_addressees (broker true) (desk_db [good_button]) 500 1000 (scheduled_news [good_button]) [built_button] 1).
  - apply keyed_by_computation. vm_compute. reflexivity.
  - reflexivity.
  - reflexivity.
Defined.

(** * Tickets *)

Definition desk_env : SupportEnv := {| nats_present := true; accepts := λ _, true; text_lower := lower |}.

(** A user writes, the operator answers, closes and reopens the ticket. *)
Definition desk_day : list desk_op :=
  [DeskInbound "support" (Some "m1") {| in_telegram_id := telegram_id (sample_user 1 0); in_text := "Help"; in_attachments := []; in_tg_message_id := Some 7 |};
   DeskReply 501 "Hello" false None [];
   DeskPatch 501 {| tp_status := Some CLOSED; tp_priority := None; tp_category := None; tp_assignee := None |} None;
   DeskReply 501 "Too late" false None [];
   DeskPatch 501 {| tp_status := Some IN_PROGRESS; tp_priority := None; tp_category := None; tp_assignee := None |} None].

Lemma closed_tickets_dated_witness :
  tickets_ok (db (foldl (λ s op, run_desk desk_env op s) (desk_session []) desk_day)).
Proof.
  apply closed_tickets_dated.
  - intros data actor Hin. unfold desk_day in Hin. rewrite !elem_of_cons, elem_of_nil in Hin. intuition discriminate.
  - split; [apply keyed_by_computation; vm_compute; reflexivity|]. intros i t Ht.
    change (support_tickets (db (desk_session []))) with (∅ : gmap Z SupportTicket) in Ht. by apply lookup_empty_Some in Ht.
Defined.

Example desk_day_result :
  let s := foldl (λ s op, run_desk desk_env op s) (desk_session []) desk_day in
  ((λ t, (tk_status t, closed_at t)) <$> rows (support_tickets (db s)), length (effects s)) = ([(IN_PROGRESS, None)], 4%nat).
Proof. vm_compute. reflexivity. Qed.
