(* ===== verification/Scenarios.v ===== *)
(** Scenarios (services/scenarios): campaigns that lead a user through a graph of messages
    and conditions, the enrolment on an event and the reconciler that moves the users. *)

From stdpp Require Import base gmap strings list sorting pretty.
From Stdlib Require Import Ascii.
From S2P Require Import Prelude Decimal Errors RouteModels BillingModels FleetModels SupportModels Session Uuid NodeDisplay Tables BillingRuns Traffic Routes VlessUri SupportTables AgentDetails AdminAuth SupportProps Support Broadcasts.
Local Open Scope Z_scope.

Definition SCENARIO_DUE_BATCH_SIZE : nat := 200.
Definition SCENARIO_BUTTON_STYLES : list string := ["primary"; "success"; "danger"].
Definition SCENARIO_BUTTON_ACTIONS : list string := ["renew"; "plans"; "trial"; "connect"; "help"; "promo"].
Definition SCENARIO_TRIGGERS : list string :=
  ["trial_started"; "purchase"; "user_registered"; "subscription_expired"; "trial_expired"].

(** * Graphs *)

(** A campaign with its nodes and edges loaded. *)
Record CampaignGraph := {
  cg_campaign : ScenarioCampaign;
  cg_nodes : list ScenarioNode;
  cg_edges : list ScenarioEdge;
}.

Definition graph_of (d : database) (c : ScenarioCampaign) : CampaignGraph :=
  {| cg_campaign := c;
     cg_nodes := filter (λ n, sn_campaign_id n = sc_id c) (rows (scenario_nodes d));
     cg_edges := filter (λ e, sg_campaign_id e = sc_id c) (rows (scenario_edges d)) |}.

Definition _nodes_by_key (g : CampaignGraph) : gmap string ScenarioNodeIn :=
  foldl (λ m n, <[scn_key (sn_node n) := sn_node n]> m) ∅ (cg_nodes g).

(** The target of the first edge of the list that passes. *)
Definition first_edge (P : ScenarioEdgeIn → bool) (l : list ScenarioEdge) : option string :=
  (λ e, to_key (sg_edge e)) <$> head (filter (λ e, P (sg_edge e) = true) l).

Definition _next_edge_key (g : CampaignGraph) (from_ : string) (b : option string) : option string :=
  let leaves e := String.eqb (from_key e) from_ in
  match first_edge (λ e, leaves e && bool_decide (branch e = b)) (cg_edges g), b with
  | Some k, _ => Some k
  | None, Some _ => first_edge leaves (cg_edges g)
  | None, None => None
  end.

(** * Repository *)

Definition active_campaigns_by_trigger (event : string) : SM (list CampaignGraph) :=
  read (λ d, graph_of d <$>
    filter (λ c, sc_is_active c = true ∧ trigger_event c = Some event) (rows (scenario_campaigns d))).

Definition get_scenario_state (uid cid : Z) : SM (option ScenarioState) :=
  l ← select_where scenario_states_tbl (λ x, (ss_user_id x =? uid) && (ss_campaign_id x =? cid)); mret (head l).

Definition enroll (uid cid entered next : Z) (key : string) : SM bool :=
  o ← get_scenario_state uid cid;
  match o with
  | Some _ => mret false
  | None =>
      create scenario_states_tbl (λ id _,
        {| ss_id := id; ss_user_id := uid; ss_campaign_id := cid; current_node_key := Some key; node_sends := 0;
           ss_status := SC_ACTIVE; entered_at := entered; next_send_at := Some next; last_step_sent_at := None |}) ;;
      mret true
  end.

Definition state_due (now : Z) (x : ScenarioState) : bool :=
  bool_decide (ss_status x = SC_ACTIVE) && match next_send_at x with Some t => t <=? now | None => false end.

Definition list_due_states (now : Z) (limit : nat) : SM (list ScenarioState) :=
  l ← select_where scenario_states_tbl (state_due now);
  mret (take limit (order_by_asc (λ x, key_or_zero (next_send_at x)) l)).

Definition get_campaign_with_graph (cid : Z) : SM (option CampaignGraph) :=
  read (λ d, graph_of d <$> scenario_campaigns d !! cid).

Definition list_campaigns : SM (list CampaignGraph) :=
  read (λ d, graph_of d <$> order_by_desc sc_created_at (rows (scenario_campaigns d))).

Definition has_connected (d : database) (uid : Z) : bool :=
  existsb (λ b, match first_connected_at b with Some _ => true | None => false end) (subs_of d uid).

Definition has_paid (d : database) (uid : Z) : bool := existsb (sub_price d (λ p, 0 <? p)) (subs_of d uid).

Definition has_active_subscription (d : database) (uid now : Z) : bool := existsb (expires_in now None) (subs_of d uid).

(** * Enrolment *)

Definition entry_delay (n : ScenarioNodeIn) : Z :=
  match scn_type n with message_node => delay_seconds n | _ => 0 end.

(** One campaign of [enroll_for_event]; whether the user was enrolled. *)
Definition enroll_in (uid now : Z) (g : CampaignGraph) : SM bool :=
  match entry_node_key (cg_campaign g) with
  | Some k =>
      match (if nonempty k then _nodes_by_key g !! k else None) with
      | Some n => enroll uid (sc_id (cg_campaign g)) now (now + entry_delay n * second) k
      | None => mret false
      end
  | None => mret false
  end.

Definition enroll_for_event (event : string) (tg : Z) : SM Z :=
  l ← active_campaigns_by_trigger event;
  match l with
  | [] => mret 0
  | _ =>
      u ← get_user_by_telegram_id tg;
      match u with
      | None => raise (ScenarioUserNotReady tg)
      | Some u =>
          now ← utcnow;
          fold_m (λ n g, ok ← enroll_in (user_id u) now g; mret (if ok : bool then n + 1 else n)) 0 l
      end
  end.

(** What the consumer answers the broker. *)
Inductive delivery := acked | naked (delay_sec : Z).
Definition SCENARIO_ENROLL_RETRY_DELAY_SEC : Z := 3.

(** The consumer of events, past the parsing ([None]: not an event). *)
Definition handle_trigger (event : option (string * Z)) : TM delivery :=
  match event with
  | Some (kind, tg) =>
      if bool_decide (kind ∈ SCENARIO_TRIGGERS) then
        catch (n ← sql (enroll_for_event kind tg);
               when (negb (n =? 0)) commit ;;
               mret acked)
          (λ e, rollback ;;
                mret (match e with ScenarioUserNotReady _ => naked SCENARIO_ENROLL_RETRY_DELAY_SEC | _ => acked end))
      else mret acked
  | None => mret acked
  end.

(** * Text and buttons of a message *)

Definition blank (c : ascii) : bool := Ascii.eqb c " " || (nat_of_ascii c =? 9)%nat.
Fixpoint skip_blanks (s : string) : string :=
  match s with "" => "" | String c s' => if blank c then skip_blanks s' else s end.
Definition comma (s : string) : option string :=
  match s with String c s => if Ascii.eqb c "," then Some s else None | "" => None end.
Definition skip_literal (p s : string) : option string :=
  if String.prefix p s then Some (String.substring (String.length p) (String.length s) s) else None.

(** The rest of the text when the expression
    [ \t]*,[ \t]*\{name\}|\{name\}[ \t]*,[ \t]*|[ \t]*\{name\}
    of [_render_text] matches at its start. *)
Definition name_match (s : string) : option string :=
  match comma (skip_blanks s) ≫= (λ r, skip_literal "{name}" (skip_blanks r)) with
  | Some r => Some r
  | None =>
      match skip_literal "{name}" s ≫= (λ r, comma (skip_blanks r)) with
      | Some r => Some (skip_blanks r)
      | None => skip_literal "{name}" (skip_blanks s)
      end
  end.

(** [re.sub(..., "", s)]; the length of the text is enough fuel, every match being of at
    least one character. *)
Fixpoint drop_names (fuel : nat) (s : string) : string :=
  match fuel, s with
  | S fuel, String c s' =>
      match name_match s with Some r => drop_names fuel r | None => String c (drop_names fuel s') end
  | _, _ => s
  end.

Section Messages.
Context (env : BroadcastEnv).

Definition referral_link (u : User) : string :=
let name := py_strip (bot_username env) in
match referral_code u with
| Some code => if nonempty name && nonempty code then "https://t.me/" +:+ name +:+ "?start=ref_" +:+ code else ""
| None => ""
end.

Definition _render_text (text : string) (u : User) : string :=
let named :=
  if str_in "{name}" text then
    let name := py_strip (default "" (username u)) in
    if nonempty name then str_replace "{name}" name text else drop_names (String.length text) text
  else text in
if str_in "{referral}" named then str_replace "{referral}" (referral_link u) named else named.

Definition scenario_button (b : json) : res (option SupportOutboundInlineButton) :=
match b with
| JObj b =>
    text ← stripped_field "text" b;
    if negb (nonempty text) then Ok None
    else
      let style := one_of SCENARIO_BUTTON_STYLES (dict_get "style" b) in
      match one_of SCENARIO_BUTTON_ACTIONS (dict_get "action" b) with
      | Some a =>
          if String.eqb a "promo" then
            code ← stripped_field "value" b;
            if negb (nonempty code) then Ok None
            else Ok (Some {| btn_text := text; btn_url := ""; btn_style := style; btn_action := Some "promo"; btn_value := Some code |})
          else Ok (Some {| btn_text := text; btn_url := ""; btn_style := style; btn_action := Some a; btn_value := None |})
      | None =>
          url ← stripped_field "url" b;
          if _is_valid_button_url env url
          then Ok (Some {| btn_text := text; btn_url := url; btn_style := style; btn_action := None; btn_value := None |})
          else Ok None
      end
| _ => Raise (AttributeError "get")
end.

Fixpoint scenario_buttons (l : list json) : res (list SupportOutboundInlineButton) :=
match l with
| [] => Ok []
| b :: l => o ← scenario_button b; r ← scenario_buttons l; Ok (match o with Some x => x :: r | None => r end)
end.

Definition scenario_message_id (x : ScenarioState) (n : ScenarioNodeIn) : string :=
"scenario:" +:+ str_uuid (ss_id x) +:+ ":" +:+ scn_key n +:+ ":" +:+ pretty (node_sends x).

Definition scenario_payload (x : ScenarioState) (n : ScenarioNodeIn) (u : User) (buttons : list SupportOutboundInlineButton)
  : SupportOutboundPayload :=
{| so_ticket_id := "scenario:" +:+ str_uuid (ss_campaign_id x); so_message_id := scenario_message_id x n; so_telegram_id := telegram_id u;
   so_text := _render_text (default "" (sn_text_body n)) u; so_media := broadcast_media (sn_media_kind n) (sn_media_url n);
   so_buttons := buttons; so_entities := None; so_parse_mode := Some "HTML"; so_kind := "broadcast" |}.

Definition _send_message (x : ScenarioState) (n : ScenarioNodeIn) (u : User) : SM bool :=
if negb (nats_present (be_support env)) then mret false
else
  buttons ← lift (scenario_buttons (default [] (sn_inline_buttons n)));
  publish_support (be_support env) (scenario_payload x n u buttons).

(** * The way through the graph *)

Definition _condition_holds (c : ScenarioCondition) (uid : Z) : SM bool :=
match c with
| not_connected => read (λ d, negb (has_connected d uid))
| not_purchased => read (λ d, negb (has_paid d uid))
| no_active_sub => now ← utcnow; read (λ d, negb (has_active_subscription d uid now))
| connected => read (λ d, has_connected d uid)
| purchased => read (λ d, has_paid d uid)
| always => mret true
end.

(** The attributes assigned to a state. *)
Definition moved (x : ScenarioState) (key : option string) (sends : Z) (st : ScenarioStatus) (next last : option Z) : ScenarioState :=
{| ss_id := ss_id x; ss_user_id := ss_user_id x; ss_campaign_id := ss_campaign_id x; current_node_key := key; node_sends := sends;
   ss_status := st; entered_at := entered_at x; next_send_at := next; last_step_sent_at := last |}.

Definition with_state_status (st : ScenarioStatus) (x : ScenarioState) : ScenarioState :=
moved x (current_node_key x) (node_sends x) st (next_send_at x) (last_step_sent_at x).

Definition completed_at (key : option string) (x : ScenarioState) : ScenarioState :=
moved x key (node_sends x) SC_COMPLETED None (last_step_sent_at x).

Definition waiting_at (key : string) (next : Z) (x : ScenarioState) : ScenarioState :=
moved x (Some key) 0 (ss_status x) (Some next) (last_step_sent_at x).

Definition branch_of (holds : bool) : option string := Some (if holds then "yes" else "no").

(** [_walk_to_waitpoint]; the turns of its loop that are left. *)
Fixpoint walk (guard : nat) (g : CampaignGraph) (key : option string) (now : Z) (x : ScenarioState) : SM ScenarioState :=
match guard, key with
| S guard, Some k =>
    match _nodes_by_key g !! k with
    | None => mret (completed_at (Some k) x)
    | Some n =>
        match scn_type n with
        | end_node => mret (completed_at (Some k) x)
        | condition_node =>
            holds ← _condition_holds (default always (check_kind n)) (ss_user_id x);
            walk guard g (_next_edge_key g k (branch_of holds)) now x
        | message_node => mret (waiting_at k (now + delay_seconds n * second) x)
        end
    end
| _, _ => mret (completed_at (current_node_key x) x)
end.

Definition _walk_to_waitpoint : CampaignGraph → option string → Z → ScenarioState → SM ScenarioState := walk 64.

Definition sent_once_more (now : Z) (x : ScenarioState) : ScenarioState :=
moved x (current_node_key x) (node_sends x + 1) (ss_status x) (next_send_at x) (Some now).

Definition repeat_gap (n : ScenarioNodeIn) : Z := if repeat_interval_sec n =? 0 then delay_seconds n else repeat_interval_sec n.

(** [max(1, int(node.repeat_count or 1))]. *)
Definition repeat_cap (n : ScenarioNodeIn) : Z := Z.max 1 (repeat_count n).

(** What [_process_state] makes of the state, and whether a message went out. *)
Definition next_state (x : ScenarioState) (now : Z) : SM (ScenarioState * bool) :=
g ← get_campaign_with_graph (ss_campaign_id x);
match g with
| None => mret (with_state_status SC_STOPPED x, false)
| Some g =>
    if negb (sc_is_active (cg_campaign g)) then mret (with_state_status SC_STOPPED x, false)
    else
      u ← get_by_id users_tbl (ss_user_id x);
      match u with
      | None => mret (with_state_status SC_ABANDONED x, false)
      | Some u =>
          if suppress_marketing u then mret (with_state_status SC_STOPPED x, false)
          else
            match current_node_key x ≫= (_nodes_by_key g !!.) with
            | None => mret (completed_at (current_node_key x) x, false)
            | Some n =>
                match scn_type n with
                | condition_node => x' ← _walk_to_waitpoint g (current_node_key x) now x; mret (x', false)
                | end_node => mret (completed_at (current_node_key x) x, false)
                | message_node =>
                    holds ← _condition_holds (scn_condition n) (ss_user_id x);
                    if negb holds then mret (completed_at (current_node_key x) x, false)
                    else
                      ok ← _send_message x n u;
                      let x := sent_once_more now x in
                      if node_sends x <? repeat_cap n then
                        mret (moved x (current_node_key x) (node_sends x) (ss_status x) (Some (now + repeat_gap n * second))
                                (last_step_sent_at x), ok)
                      else
                        x' ← _walk_to_waitpoint g (_next_edge_key g (scn_key n) None) now x;
                        mret (x', ok)
                end
            end
      end
end.

Definition _process_state (x : ScenarioState) (now : Z) : SM bool :=
r ← next_state x now;
update_by_id scenario_states_tbl (ss_id x) (λ _, r.1) ;;
mret r.2.

Definition run_due (now : Z) (limit : nat) : SM Z :=
l ← list_due_states now limit;
fold_m (λ n x, ok ← _process_state x now; mret (if ok : bool then n + 1 else n)) 0 l.

(** [ScenarioReconciler.tick]. *)
Definition scenario_tick (batch : nat) : session → outcome exn Z * session :=
run_scope (now ← sql utcnow; n ← sql (run_due now batch); commit ;; mret n).
End Messages.

(** * The editor *)

Record ScenarioCampaignIn := {
  ci_key : string;
  ci_name : string;
  ci_trigger_event : option string;
  ci_is_active : bool;
  ci_entry_node_key : option string;
  ci_nodes : list ScenarioNodeIn;
  ci_edges : list ScenarioEdgeIn;
}.

Definition _check_trigger (v : option string) : bool :=
  match v with Some t => bool_decide (t ∈ SCENARIO_TRIGGERS) | None => true end.

Definition entry_candidate (p : ScenarioCampaignIn) (n : ScenarioNodeIn) : bool :=
  negb (bool_decide (scn_type n = end_node)) && negb (bool_decide (scn_key n ∈ (to_key <$> ci_edges p))).

Definition _resolve_entry_key (p : ScenarioCampaignIn) : option string :=
  match ci_entry_node_key p with
  | Some k => if nonempty k then Some k else
      match head (filter (λ n, entry_candidate p n = true) (ci_nodes p)) with
      | Some n => Some (scn_key n)
      | None => scn_key <$> head (filter (λ n, scn_type n = message_node) (ci_nodes p))
      end
  | None =>
      match head (filter (λ n, entry_candidate p n = true) (ci_nodes p)) with
      | Some n => Some (scn_key n)
      | None => scn_key <$> head (filter (λ n, scn_type n = message_node) (ci_nodes p))
      end
  end.

Definition campaign_columns (p : ScenarioCampaignIn) (id created : Z) : ScenarioCampaign :=
  {| sc_id := id; sc_key := ci_key p; sc_name := ci_name p; trigger_event := ci_trigger_event p;
     entry_node_key := _resolve_entry_key p; sc_is_active := ci_is_active p; sc_created_at := created |}.

(** The rows of [_build_nodes] and [_build_edges]. *)
Definition add_nodes (cid : Z) (l : list ScenarioNodeIn) : SM (list ScenarioNode) :=
  mapM (λ n, create scenario_nodes_tbl (λ id _, {| sn_id := id; sn_campaign_id := cid; sn_node := n |})) l.
Definition add_edges (cid : Z) (l : list ScenarioEdgeIn) : SM (list ScenarioEdge) :=
  mapM (λ e, create scenario_edges_tbl (λ id _, {| sg_id := id; sg_campaign_id := cid; sg_edge := e |})) l.

Definition create_campaign (p : ScenarioCampaignIn) : TM CampaignGraph :=
  g ← sql (c ← create campaigns_tbl (campaign_columns p);
           ns ← add_nodes (sc_id c) (ci_nodes p);
           es ← add_edges (sc_id c) (ci_edges p);
           mret {| cg_campaign := c; cg_nodes := ns; cg_edges := es |});
  commit ;;
  mret g.

(** The orphans of a campaign. *)
Definition clear_graph (cid : Z) (d : database) : database :=
  set_scenario_edges (filter (λ ie, sg_campaign_id ie.2 ≠ cid) (scenario_edges d))
    (set_scenario_nodes (filter (λ ie, sn_campaign_id ie.2 ≠ cid) (scenario_nodes d)) d).

Definition update_campaign (cid : Z) (p : ScenarioCampaignIn) : TM (option CampaignGraph) :=
  o ← sql (get_campaign_with_graph cid);
  match o with
  | None => mret None
  | Some g =>
      let c := campaign_columns p cid (sc_created_at (cg_campaign g)) in
      g' ← sql (update_by_id campaigns_tbl cid (λ _, c) ;;
                write (clear_graph cid) ;;
                ns ← add_nodes cid (ci_nodes p);
                es ← add_edges cid (ci_edges p);
                mret {| cg_campaign := c; cg_nodes := ns; cg_edges := es |});
      commit ;;
      mret (Some g')
  end.

Definition campaign_switched (active : bool) (c : ScenarioCampaign) : ScenarioCampaign :=
  {| sc_id := sc_id c; sc_key := sc_key c; sc_name := sc_name c; trigger_event := trigger_event c;
     entry_node_key := entry_node_key c; sc_is_active := active; sc_created_at := sc_created_at c |}.

Definition set_campaign_active (cid : Z) (active : bool) : TM (option CampaignGraph) :=
  o ← sql (get_campaign_with_graph cid);
  match o with
  | None => mret None
  | Some g =>
      sql (update_by_id campaigns_tbl cid (campaign_switched active)) ;;
      commit ;;
      mret (Some {| cg_campaign := campaign_switched active (cg_campaign g); cg_nodes := cg_nodes g; cg_edges := cg_edges g |})
  end.

Definition delete_campaign (cid : Z) : TM bool :=
  o ← sql (get_campaign_with_graph cid);
  match o with
  | None => mret false
  | Some _ =>
      sql (write (clear_graph cid) ;;
           write (λ d, set_scenario_states (filter (λ ix, ss_campaign_id ix.2 ≠ cid) (scenario_states d)) d) ;;
           delete_by_id campaigns_tbl cid) ;;
      commit ;;
      mret true
  end.

(** * Statistics *)

Record ScenarioCampaignStat := {
  stat_campaign_id : Z;
  stat_enrolled : Z;
  stat_active : Z;
  stat_completed : Z;
  stat_abandoned : Z;
  stat_stopped : Z;
  node_active : gmap string Z;
}.

Definition count_status (l : list ScenarioState) (st : ScenarioStatus) : Z := Z.of_nat (length (filter (λ x, ss_status x = st) l)).

(** [active_node_counts] of one campaign. *)
Definition active_node_counts (l : list ScenarioState) : gmap string Z :=
  foldl (λ m x, match current_node_key x with
                | Some k => if bool_decide (ss_status x = SC_ACTIVE) then <[k := default 0 (m !! k) + 1]> m else m
                | None => m
                end) ∅ l.

Definition campaign_stat (d : database) (cid : Z) : ScenarioCampaignStat :=
  let l := filter (λ x, ss_campaign_id x = cid) (rows (scenario_states d)) in
  {| stat_campaign_id := cid;
     stat_enrolled := count_status l SC_ACTIVE + count_status l SC_COMPLETED + count_status l SC_ABANDONED + count_status l SC_STOPPED;
     stat_active := count_status l SC_ACTIVE; stat_completed := count_status l SC_COMPLETED;
     stat_abandoned := count_status l SC_ABANDONED; stat_stopped := count_status l SC_STOPPED;
     node_active := active_node_counts l |}.

Definition scenario_stats : SM (list ScenarioCampaignStat) :=
  read (λ d, campaign_stat d <$> remove_dups (ss_campaign_id <$> rows (scenario_states d))).

(** * The machine a campaign is meant to be *)

(** A condition on the data of a user, at a moment. *)
Definition condition_at (d : database) (c : ScenarioCondition) (uid now : Z) : bool :=
  match c with
  | always => true
  | not_connected => negb (has_connected d uid)
  | not_purchased => negb (has_paid d uid)
  | no_active_sub => negb (has_active_subscription d uid now)
  | connected => has_connected d uid
  | purchased => has_paid d uid
  end.

(** Where a walk through conditions ends: at a message, or over, at a node if it was at one. *)
Inductive destination := at_message (k : string) (n : ScenarioNodeIn) | over (k : option string).

(** The conditions are read at one of the instants [T]. *)
Inductive leads (d : database) (g : CampaignGraph) (uid : Z) (T : Z → Prop) : option string → destination → Prop :=
| leads_nowhere : leads d g uid T None (over None)
| leads_gone k : _nodes_by_key g !! k = None → leads d g uid T (Some k) (over (Some k))
| leads_end k n : _nodes_by_key g !! k = Some n → scn_type n = end_node → leads d g uid T (Some k) (over (Some k))
| leads_message k n : _nodes_by_key g !! k = Some n → scn_type n = message_node → leads d g uid T (Some k) (at_message k n)
| leads_condition k n t dest :
    _nodes_by_key g !! k = Some n → scn_type n = condition_node → T t →
    leads d g uid T (_next_edge_key g k (branch_of (condition_at d (default always (check_kind n)) uid t))) dest →
    leads d g uid T (Some k) dest.

Definition arrive (now : Z) (x : ScenarioState) (dest : destination) : ScenarioState :=
  match dest with
  | at_message k n => waiting_at k (now + delay_seconds n * second) x
  | over (Some k) => completed_at (Some k) x
  | over None => completed_at (current_node_key x) x
  end.

(** The broker takes the message, or it is lost. *)
Definition sends (env : BroadcastEnv) (x : ScenarioState) (n : ScenarioNodeIn) (u : User) (l : list SupportOutboundPayload) : Prop :=
  if nats_present (be_support env) then
    ∃ bs, scenario_buttons env (default [] (sn_inline_buttons n)) = Ok bs ∧
      l = if accepts (be_support env) (scenario_payload env x n u bs) then [scenario_payload env x n u bs] else []
  else l = [].

(** A running campaign and a user who may be written to. *)
Definition in_campaign (d : database) (x : ScenarioState) (g : CampaignGraph) (u : User) : Prop :=
  (∃ c, scenario_campaigns d !! ss_campaign_id x = Some c ∧ g = graph_of d c ∧ sc_is_active c = true) ∧
  users d !! ss_user_id x = Some u ∧ suppress_marketing u = false.

Inductive scenario_step (env : BroadcastEnv) (d : database) (now : Z) (T : Z → Prop) (x : ScenarioState)
  : ScenarioState → list SupportOutboundPayload → Prop :=
| step_paused : (∀ c, scenario_campaigns d !! ss_campaign_id x = Some c → sc_is_active c = false) →
    scenario_step env d now T x (with_state_status SC_STOPPED x) []
| step_no_user : users d !! ss_user_id x = None → scenario_step env d now T x (with_state_status SC_ABANDONED x) []
| step_opted_out u : users d !! ss_user_id x = Some u → suppress_marketing u = true →
    scenario_step env d now T x (with_state_status SC_STOPPED x) []
| step_over g u : in_campaign d x g u →
    (∀ k n, current_node_key x = Some k → _nodes_by_key g !! k = Some n → scn_type n = end_node) →
    scenario_step env d now T x (completed_at (current_node_key x) x) []
| step_route g u k n dest : in_campaign d x g u → current_node_key x = Some k →
    _nodes_by_key g !! k = Some n → scn_type n = condition_node → leads d g (ss_user_id x) T (Some k) dest →
    scenario_step env d now T x (arrive now x dest) []
| step_gate_closed g u k n t : in_campaign d x g u → current_node_key x = Some k →
    _nodes_by_key g !! k = Some n → scn_type n = message_node → T t → condition_at d (scn_condition n) (ss_user_id x) t = false →
    scenario_step env d now T x (completed_at (current_node_key x) x) []
| step_remind g u k n t l : in_campaign d x g u → current_node_key x = Some k →
    _nodes_by_key g !! k = Some n → scn_type n = message_node → T t → condition_at d (scn_condition n) (ss_user_id x) t = true →
    sends env x n u l → node_sends x + 1 < repeat_cap n →
    scenario_step env d now T x
      (moved x (Some k) (node_sends x + 1) (ss_status x) (Some (now + repeat_gap n * second)) (Some now)) l
| step_move_on g u k n t l dest : in_campaign d x g u → current_node_key x = Some k →
    _nodes_by_key g !! k = Some n → scn_type n = message_node → T t → condition_at d (scn_condition n) (ss_user_id x) t = true →
    sends env x n u l → repeat_cap n ≤ node_sends x + 1 →
    leads d g (ss_user_id x) T (_next_edge_key g k None) dest →
    scenario_step env d now T x (arrive now (sent_once_more now x) dest) l.

(** * Graphs without cycles *)

Definition descends (g : CampaignGraph) (rank : string → nat) : Prop :=
  ∀ e, e ∈ cg_edges g → (rank (to_key (sg_edge e)) < rank (from_key (sg_edge e)))%nat.

Definition short_graph (g : CampaignGraph) : Prop := ∃ rank, descends g rank ∧ ∀ k, (rank k < 64)%nat.

Definition well_formed_buttons (env : BroadcastEnv) (g : CampaignGraph) : Prop :=
  ∀ n, n ∈ cg_nodes g → ∃ bs, scenario_buttons env (default [] (sn_inline_buttons (sn_node n))) = Ok bs.

Lemma first_edge_in P l k : first_edge P l = Some k → ∃ e, e ∈ l ∧ P (sg_edge e) = true ∧ to_key (sg_edge e) = k.
Proof.
  unfold first_edge. destruct (filter _ l) as [|e l'] eqn:E; [done|]. intros [= <-].
  assert (e ∈ filter (λ e, P (sg_edge e) = true) l) as [HP Hin]%list_elem_of_filter by (rewrite E; left). eauto.
Qed.

Lemma next_edge_in g k b k' : _next_edge_key g k b = Some k' →
  ∃ e, e ∈ cg_edges g ∧ from_key (sg_edge e) = k ∧ to_key (sg_edge e) = k'.
Proof.
  unfold _next_edge_key. intros H.
  assert (∃ P, first_edge (λ e, String.eqb (from_key e) k && P e) (cg_edges g) = Some k') as (P & (e & Hin & HP & Ht)%first_edge_in).
  { destruct (first_edge _ _) as [k1|] eqn:E1; [injection H as ->; by exists (λ e, bool_decide (branch e = b))|]. destruct b; [|done].
    exists (λ _, true). rewrite <-H. unfold first_edge. do 2 f_equal. apply filter_ext_in. intros e _. by rewrite andb_true_r. }
  apply andb_prop in HP as [HP _]. apply String.eqb_eq in HP. eauto.
Qed.

Lemma next_edge_descends g rank k b k' : descends g rank → _next_edge_key g k b = Some k' → (rank k' < rank k)%nat.
Proof. intros Hd (e & Hin & <- & <-)%next_edge_in. by apply Hd. Qed.

Lemma nodes_by_key_in g k n : _nodes_by_key g !! k = Some n → scn_key n = k ∧ ∃ r, r ∈ cg_nodes g ∧ sn_node r = n.
Proof.
  unfold _nodes_by_key.
  assert (∀ l (m : gmap string ScenarioNodeIn), (∀ k n, m !! k = Some n → scn_key n = k ∧ ∃ r, r ∈ cg_nodes g ∧ sn_node r = n) → (∀ r, r ∈ l → r ∈ cg_nodes g) →
    ∀ k n, foldl (λ (m : gmap string ScenarioNodeIn) n, <[scn_key (sn_node n) := sn_node n]> m) m l !! k = Some n → scn_key n = k ∧ ∃ r, r ∈ cg_nodes g ∧ sn_node r = n) as H.
  { induction l as [|r l IH]; intros m Hm Hl; [done|]. cbn. apply IH; [|set_solver].
    intros k' n'. rewrite lookup_insert. case_decide as E; [|apply Hm]. intros [= <-]. split; [done|]. exists r. split; [apply Hl; left|done]. }
  apply H; [|done]. intros k' n'. by rewrite lookup_empty.
Qed.

(** * The code refines the machine *)

(** Only the readings of the clock and the messages differ. *)
Definition calm (s s' : session) (l : list SupportOutboundPayload) : Prop :=
  db s' = db s ∧ clock s' = clock s ∧ effects s' = effects s ++ (PublishSupport <$> l) ∧ (ticks s ≤ ticks s')%nat.

Lemma calm_refl s : calm s s [].
Proof. split_and!; [done..| |done]. by rewrite app_nil_r. Qed.

Lemma calm_trans s1 s2 s3 l l' : calm s1 s2 l → calm s2 s3 l' → calm s1 s3 (l ++ l').
Proof.
  intros (? & ? & E1 & ?) (? & ? & E2 & ?). split_and!; [congruence..| |lia]. by rewrite E2, E1, fmap_app, app_assoc.
Qed.

(** The instants the clock was read at between [s] and [s'], and [now]. *)
Definition during (now : Z) (s s' : session) (t : Z) : Prop :=
  t = now ∨ ∃ k, (ticks s ≤ k < ticks s')%nat ∧ t = clock s k.

Lemma during_within now s s1 s2 s' t :
  clock s1 = clock s → (ticks s ≤ ticks s1)%nat → (ticks s2 ≤ ticks s')%nat → during now s1 s2 t → during now s s' t.
Proof. intros Hc H1 H2 [->|(k & Hk & ->)]; [by left|right]. exists k. split; [lia|by rewrite Hc]. Qed.

Lemma condition_run c uid now s :
  ∃ t s', _condition_holds c uid s = (Ok (condition_at (db s) c uid t), s') ∧ calm s s' [] ∧ during now s s' t.
Proof.
  destruct c; try (exists now, s; split; [reflexivity|]; split; [apply calm_refl|by left]).
  exists (clock s (ticks s)). eexists. split; [reflexivity|]. split.
  - split_and!; [done..| |cbn; lia]. cbn. by rewrite app_nil_r.
  - right. exists (ticks s). cbn. split; [lia|done].
Qed.

Lemma leads_mono d g uid (T T' : Z → Prop) key dest : (∀ t, T t → T' t) → leads d g uid T key dest → leads d g uid T' key dest.
Proof.
  intros HT. induction 1; [by constructor|by constructor|by eapply leads_end|by eapply leads_message|].
  eapply leads_condition; eauto.
Qed.

Lemma step_mono env d now (T T' : Z → Prop) x x' l :
  (∀ t, T t → T' t) → scenario_step env d now T x x' l → scenario_step env d now T' x x' l.
Proof.
  intros HT H. destruct H; [by constructor|by constructor|by econstructor|by eapply step_over| | | |].
  - eapply step_route; [done..|]. by eapply leads_mono.
  - eapply step_gate_closed; eauto.
  - eapply step_remind; eauto.
  - eapply step_move_on; eauto using leads_mono.
Qed.

Lemma walk_leads g rank now x : descends g rank → ∀ guard key s, (∀ k, key = Some k → rank k < guard)%nat →
  ∃ dest s', walk guard g key now x s = (Ok (arrive now x dest), s') ∧ calm s s' [] ∧
    leads (db s) g (ss_user_id x) (during now s s') key dest.
Proof.
  intros Hd. induction guard as [|guard IH]; intros [k|] s Hk.
  - specialize (Hk k eq_refl). lia.
  - exists (over None), s. split; [done|]. split; [apply calm_refl|constructor].
  - cbn [walk]. destruct (_nodes_by_key g !! k) as [n|] eqn:Hn; [destruct (scn_type n) eqn:Ht|].
    + exists (at_message k n), s. split; [done|]. split; [apply calm_refl|by econstructor].
    + destruct (condition_run (default always (check_kind n)) (ss_user_id x) now s) as (t & s1 & Hc & Hcalm & Ht1).
      unfold mbind at 1, M_bind at 1. rewrite Hc.
      destruct (IH (_next_edge_key g k (branch_of (condition_at (db s) (default always (check_kind n)) (ss_user_id x) t))) s1)
        as (dest & s2 & Hw & Hcalm2 & Hl).
      { intros k' Hk'. pose proof (next_edge_descends g rank _ _ _ Hd Hk'). specialize (Hk k eq_refl). lia. }
      exists dest, s2. split; [done|]. split; [by apply (calm_trans _ _ _ [] [] Hcalm)|].
      destruct Hcalm as (Hdb & Hck & _ & Hle), Hcalm2 as (_ & _ & _ & Hle2). rewrite Hdb in Hl.
      eapply (leads_condition _ _ _ _ _ _ t); [done..|by apply (during_within now s s s1)|].
      eapply leads_mono; [|exact Hl]. intros t'. by apply during_within.
    + exists (over (Some k)), s. split; [done|]. split; [apply calm_refl|by eapply leads_end].
    + exists (over (Some k)), s. split; [done|]. split; [apply calm_refl|by constructor].
  - exists (over None), s. split; [done|]. split; [apply calm_refl|constructor].
Qed.

Lemma send_run env x n u s :
  (∃ bs, scenario_buttons env (default [] (sn_inline_buttons n)) = Ok bs) →
  ∃ l s', _send_message env x n u s = (Ok (match l with [] => false | _ => true end), s') ∧ calm s s' l ∧ sends env x n u l.
Proof.
  intros [bs Hbs]. unfold _send_message, sends. destruct (nats_present (be_support env)); cbn [negb].
  - unfold mbind, M_bind, lift. rewrite Hbs. cbn [mret M_ret]. unfold publish_support.
    set (p := scenario_payload env x n u bs). destruct (accepts (be_support env) p) eqn:Ha.
    + eexists [p], _. split; [reflexivity|]. split; [split_and!; reflexivity|]. exists bs. fold p. by rewrite Ha.
    + exists [], s. split; [done|]. split; [apply calm_refl|]. exists bs. fold p. by rewrite Ha.
  - exists [], s. split; [done|]. split; [apply calm_refl|done].
Qed.

(** The campaigns of [d] that can be run to the end. *)
Definition campaigns_ok (env : BroadcastEnv) (d : database) : Prop :=
  ∀ i c, scenario_campaigns d !! i = Some c → short_graph (graph_of d c) ∧ well_formed_buttons env (graph_of d c).

Lemma next_state_refines env x now s :
  campaigns_ok env (db s) →
  ∃ x' l s', next_state env x now s = (Ok (x', match l with [] => false | _ => true end), s') ∧ calm s s' l ∧
    scenario_step env (db s) now (during now s s') x x' l.
Proof.
  intros Hok. unfold next_state, get_campaign_with_graph, read. unfold mbind at 1, M_bind at 1, gets.
  destruct (scenario_campaigns (db s) !! ss_campaign_id x) as [c|] eqn:Hc; cbn [fmap option_fmap option_map].
  2:{ eexists _, [], s. split; [done|]. split; [apply calm_refl|]. apply step_paused. by rewrite Hc. }
  destruct (Hok _ _ Hc) as [(rank & Hdesc & Hshort) Hbtn]. set (g := graph_of (db s) c) in *.
  destruct (sc_is_active (cg_campaign g)) eqn:Hact; cbn [negb].
  2:{ eexists _, [], s. split; [done|]. split; [apply calm_refl|]. apply step_paused. rewrite Hc. by intros ? [= <-]. }
  unfold mbind at 1, M_bind at 1, get_by_id, read, gets. cbn [t_rows users_tbl].
  destruct (users (db s) !! ss_user_id x) as [u|] eqn:Hu.
  2:{ eexists _, [], s. split; [done|]. split; [apply calm_refl|by apply step_no_user]. }
  destruct (suppress_marketing u) eqn:Hsup.
  { eexists _, [], s. split; [done|]. split; [apply calm_refl|by eapply step_opted_out]. }
  assert (Hin : in_campaign (db s) x g u) by (split; [by exists c|done]).
  destruct (current_node_key x) as [k|] eqn:Hk; cbn [mbind option_bind].
  2:{ eexists _, [], s. split; [done|]. split; [apply calm_refl|]. rewrite <-Hk. eapply step_over; [done|]. by rewrite Hk. }
  destruct (_nodes_by_key g !! k) as [n|] eqn:Hn.
  2:{ eexists _, [], s. split; [done|]. split; [apply calm_refl|]. rewrite <-Hk. eapply step_over; [done|].
      intros k' n'. rewrite Hk. intros [= <-]. by rewrite Hn. }
  destruct (nodes_by_key_in _ _ _ Hn) as [Hkey (r & Hr & <-)].
  destruct (scn_type (sn_node r)) eqn:Ht.
  - destruct (condition_run (scn_condition (sn_node r)) (ss_user_id x) now s) as (t & s1 & Hrun & Hcalm & Ht1).
    unfold mbind at 1, M_bind at 1. rewrite Hrun. destruct (condition_at (db s) (scn_condition (sn_node r)) (ss_user_id x) t) eqn:Hcond; cbn [negb].
    2:{ eexists _, [], s1. split; [done|]. split; [done|]. rewrite <-Hk. by eapply step_gate_closed. }
    destruct (send_run env x (sn_node r) u s1 (Hbtn r Hr)) as (l & s2 & Hsend & Hcalm2 & Hl).
    unfold mbind at 1, M_bind at 1. rewrite Hsend. cbv zeta. cbn [node_sends sent_once_more moved].
    pose proof (calm_trans _ _ _ _ _ Hcalm Hcalm2) as Hc12. cbn [app] in Hc12.
    destruct (node_sends x + 1 <? repeat_cap (sn_node r)) eqn:Hcap.
    + apply Z.ltb_lt in Hcap. eexists _, l, s2. split; [reflexivity|]. split; [done|].
      cbn [sent_once_more moved current_node_key ss_status last_step_sent_at]. rewrite Hk.
      apply (step_remind env _ now _ x g u k _ t l Hin Hk Hn Ht); [|done..].
      apply (during_within now s s s1); [done..|apply Hcalm2|done].
    + apply Z.ltb_ge in Hcap. rewrite Hkey.
      destruct (walk_leads g rank now (sent_once_more now x) Hdesc 64 (_next_edge_key g k None) s2) as (dest & s3 & Hw & Hcalm3 & Hlead);
        [by intros; apply Hshort|].
      unfold mbind at 1, M_bind at 1, _walk_to_waitpoint. rewrite Hw. eexists _, l, s3. split; [reflexivity|].
      pose proof (calm_trans _ _ _ _ _ Hc12 Hcalm3) as Hc13. rewrite app_nil_r in Hc13. split; [done|].
      destruct Hc12 as (Hdb & Hck & _ & Hle). rewrite Hdb in Hlead.
      apply (step_move_on env _ now _ x g u k _ t l dest Hin Hk Hn Ht); [|done..|].
      * apply (during_within now s s s1); [done..| |done]. destruct Hcalm2 as (_ & _ & _ & ?), Hcalm3 as (_ & _ & _ & ?). lia.
      * eapply leads_mono; [|exact Hlead]. intros t'. by apply during_within.
  - destruct (walk_leads g rank now x Hdesc 64 (Some k) s) as (dest & s1 & Hw & Hcalm & Hlead); [by intros; apply Hshort|].
    unfold mbind at 1, M_bind at 1, _walk_to_waitpoint. rewrite Hw. eexists _, [], s1. split; [reflexivity|]. split; [done|]. by eapply step_route.
  - eexists _, [], s. split; [done|]. split; [apply calm_refl|]. rewrite <-Hk. eapply step_over; [done|].
    intros k' n'. rewrite Hk. intros [= <-]. rewrite Hn. by intros [= <-].
Qed.

(** A step never moves a state to another user or campaign. *)
Lemma step_identity env d now T x x' l : scenario_step env d now T x x' l →
  ss_id x' = ss_id x ∧ ss_user_id x' = ss_user_id x ∧ ss_campaign_id x' = ss_campaign_id x.
Proof. intros H. destruct H; try done; destruct dest as [|[]]; done. Qed.

(** A step does not look at the states of other users. *)
Lemma leads_frame m d g uid T key dest : leads (set_scenario_states m d) g uid T key dest → leads d g uid T key dest.
Proof.
  induction 1; [by constructor|by constructor|by eapply leads_end|by eapply leads_message|].
  eapply (leads_condition _ _ _ _ _ _ t); [done..|]. by destruct (check_kind n) as [[]|].
Qed.

Lemma step_frame env m d now T x x' l :
  scenario_step env (set_scenario_states m d) now T x x' l → scenario_step env d now T x x' l.
Proof.
  intros H. destruct H; [by constructor|by constructor|by econstructor|by eapply step_over| | | |].
  - eapply step_route; [done..|]. by eapply leads_frame.
  - eapply (step_gate_closed _ _ _ _ _ g u k n t); [done..|]. by destruct (scn_condition n).
  - eapply (step_remind _ _ _ _ _ g u k n t); [done..| |done|done]. by destruct (scn_condition n).
  - eapply (step_move_on _ _ _ _ _ g u k n t); [done..| |done|done|by eapply leads_frame]. by destruct (scn_condition n).
Qed.

Lemma sends_one env x n u l : sends env x n u l → (length l ≤ 1)%nat.
Proof.
  unfold sends. destruct (nats_present _); [|intros ->; cbn; lia]. intros (bs & _ & ->). destruct (accepts _ _); cbn; lia.
Qed.

Lemma step_one env d now T x x' l : scenario_step env d now T x x' l → (length l ≤ 1)%nat.
Proof. intros H. destruct H; try (cbn; lia); by eapply sends_one. Qed.

(** What a tick makes of the states [m]: those of [batch], in this order, have each made one
    step of the machine; [l] are the messages of these steps. *)
Inductive ticked (env : BroadcastEnv) (d : database) (now : Z) (T : Z → Prop) :
  list ScenarioState → gmap Z ScenarioState → gmap Z ScenarioState → list SupportOutboundPayload → Prop :=
| ticked_nil m : ticked env d now T [] m m []
| ticked_cons x x' batch m m' lx l :
    m !! ss_id x = Some x → scenario_step env d now T x x' lx → ticked env d now T batch (<[ss_id x := x']> m) m' l →
    ticked env d now T (x :: batch) m m' (lx ++ l).

Lemma ticked_mono env d now (T T' : Z → Prop) batch m m' l :
  (∀ t, T t → T' t) → ticked env d now T batch m m' l → ticked env d now T' batch m m' l.
Proof. intros HT. induction 1; [constructor|]. econstructor; [done| |done]. by eapply step_mono. Qed.

Lemma ticked_frame env m0 d now T batch m m' l :
  ticked env (set_scenario_states m0 d) now T batch m m' l → ticked env d now T batch m m' l.
Proof. induction 1; [constructor|]. econstructor; [done| |done]. by eapply step_frame. Qed.

Lemma ticked_other env d now T batch m m' l i : ticked env d now T batch m m' l → i ∉ ss_id <$> batch → m' !! i = m !! i.
Proof.
  induction 1 as [|x x' batch m m' lx l Hx Hs Ht IH]; [done|]. rewrite fmap_cons, not_elem_of_cons. intros [Hi Hn].
  rewrite IH by done. by rewrite lookup_insert_ne.
Qed.

Lemma process_state_run env x now s :
  campaigns_ok env (db s) → scenario_states (db s) !! ss_id x = Some x →
  ∃ x' l s', _process_state env x now s = (Ok (match l with [] => false | _ => true end), s') ∧ clock s' = clock s ∧
    (ticks s ≤ ticks s')%nat ∧ effects s' = effects s ++ (PublishSupport <$> l) ∧
    db s' = set_scenario_states (<[ss_id x := x']> (scenario_states (db s))) (db s) ∧
    scenario_step env (db s) now (during now s s') x x' l.
Proof.
  intros Hok Hx. destruct (next_state_refines env x now s Hok) as (x' & l & s1 & Hrun & (Hdb & Hck & He & Hle) & Hstep).
  destruct (step_identity _ _ _ _ _ _ _ Hstep) as (Hi & Hu & Hcid).
  eexists x', l, _. unfold _process_state. unfold mbind at 1, M_bind at 1. rewrite Hrun.
  unfold mbind at 1, M_bind at 1. rewrite update_run. cbn [t_rows scenario_states_tbl t_check t_touch fst]. rewrite Hdb, Hx. cbv zeta.
  unfold unique_on, unique. rewrite Hu, Hcid, !Z.eqb_refl. cbn [andb]. split; [reflexivity|]. cbn [with_db tick clock ticks effects db].
  split_and!; [done|lia|done| |].
  - unfold put. cbn. rewrite Hi, Hdb. done.
  - eapply step_mono; [|exact Hstep]. intros t. apply during_within; [done|done|cbn; lia].
Qed.

Lemma run_states env now l : ∀ acc s,
  campaigns_ok env (db s) → NoDup (ss_id <$> l) → (∀ x, x ∈ l → scenario_states (db s) !! ss_id x = Some x) →
  ∃ s' m' msgs, fold_m (λ n x, ok ← _process_state env x now; mret (if ok : bool then n + 1 else n)) acc l s =
      (Ok (acc + Z.of_nat (length msgs)), s') ∧
    clock s' = clock s ∧ (ticks s ≤ ticks s')%nat ∧ effects s' = effects s ++ (PublishSupport <$> msgs) ∧
    db s' = set_scenario_states m' (db s) ∧
    ticked env (db s) now (during now s s') l (scenario_states (db s)) m' msgs.
Proof.
  induction l as [|x l IH]; intros acc s Hok Hnd Hl.
  { exists s, (scenario_states (db s)), []. cbn. rewrite Z.add_0_r, app_nil_r. split_and!; [done..|by destruct (db s)|constructor]. }
  rewrite fmap_cons in Hnd. apply NoDup_cons in Hnd as [Hx Hnd].
  destruct (process_state_run env x now s Hok) as (x' & lx & s1 & Hrun & Hck & Hle & He & Hdb & Hstep); [apply Hl; left|].
  cbn [fold_m]. unfold mbind at 1, M_bind at 1, mbind at 1, M_bind at 1. rewrite Hrun. cbn [mret M_ret].
  set (acc1 := if match lx with [] => false | _ => true end then acc + 1 else acc).
  assert (Hacc : acc1 = acc + Z.of_nat (length lx)).
  { pose proof (step_one _ _ _ _ _ _ _ Hstep). unfold acc1. destruct lx as [|p [|q lx]]; cbn in *; lia. }
  destruct (IH acc1 s1) as (s2 & m' & msgs & Hfold & Hck2 & Hle2 & He2 & Hdb2 & Ht); [by rewrite Hdb|done| |].
  { intros y Hy. rewrite Hdb. cbn. rewrite lookup_insert_ne; [apply Hl; by right|]. intros E. apply Hx. rewrite E. by apply list_elem_of_fmap_2. }
  exists s2, m', (lx ++ msgs). split_and!.
  - rewrite length_app. replace (acc + Z.of_nat (length lx + length msgs)) with (acc1 + Z.of_nat (length msgs)) by lia. exact Hfold.
  - congruence.
  - lia.
  - by rewrite He2, He, fmap_app, app_assoc.
  - by rewrite Hdb2, Hdb.
  - rewrite Hdb in Ht. apply ticked_frame in Ht. econstructor; [apply Hl; left| |].
    + eapply step_mono; [|exact Hstep]. intros t. apply during_within; [done|done|lia].
    + eapply ticked_mono; [|exact Ht]. intros t. by apply during_within.
Qed.

(** The states a tick takes up. *)
Definition due_batch (d : database) (now : Z) (limit : nat) : list ScenarioState :=
  take limit (order_by_asc (λ x, key_or_zero (next_send_at x)) (filter (λ x, state_due now x = true) (rows (scenario_states d)))).

Lemma due_batch_rows d now limit x : keyed scenario_states_tbl d → x ∈ due_batch d now limit →
  scenario_states d !! ss_id x = Some x ∧ state_due now x = true.
Proof.
  intros Hk Hx. unfold due_batch in Hx. apply elem_of_take in Hx as (i & Hx%list_elem_of_lookup_2 & _).
  unfold order_by_asc in Hx. rewrite merge_sort_Permutation in Hx. apply list_elem_of_filter in Hx as [Hdue [j Hj]%elem_of_rows].
  split; [|done]. pose proof (Hk j x Hj) as E. cbn in E. by rewrite E.
Qed.

Lemma due_batch_nodup d now limit : keyed scenario_states_tbl d → NoDup (ss_id <$> due_batch d now limit).
Proof.
  intros Hk. unfold due_batch. rewrite fmap_take. apply sublist_NoDup with (2 := sublist_take _ _).
  unfold order_by_asc. rewrite merge_sort_Permutation. pose proof (rows_ids_nodup scenario_states_tbl d Hk) as Hnd. cbn in Hnd.
  eapply sublist_NoDup; [exact Hnd|]. apply fmap_sublist, sublist_filter.
Qed.

(** C32: a tick of the scenarios, on campaigns whose graphs have no cycle and no chain of 64
    nodes or more and whose buttons are well formed, returns and commits: the due states it
    takes up, each once and the longest due first, have each made one step of the machine,
    with conditions read at instants of the tick; the messages published are those of the
    steps, in their order and each once, and their number is returned; the other states and
    the rest of the database are as before. *)
Theorem scenario_tick_refines env batch s :
  keyed scenario_states_tbl (db s) → campaigns_ok env (db s) →
  let now := clock s (ticks s) in
  ∃ s' m' l, scenario_tick env batch s = (Ok (Z.of_nat (length l)), s') ∧
    db s' = set_scenario_states m' (db s) ∧ effects s' = effects s ++ (PublishSupport <$> l) ∧
    NoDup (ss_id <$> due_batch (db s) now batch) ∧
    ticked env (db s) now (during now s s') (due_batch (db s) now batch) (scenario_states (db s)) m' l ∧
    ∀ i, i ∉ ss_id <$> due_batch (db s) now batch → m' !! i = scenario_states (db s) !! i.
Proof.
  intros Hk Hok now. unfold scenario_tick, run_scope, opened.
  destruct (run_states env now (due_batch (db s) now batch) 0 (tick s)) as (s' & m' & l & Hrun & Hck & Hle & He & Hdb & Ht);
    [done|by apply due_batch_nodup|intros x Hx; by apply (due_batch_rows (db s) now batch)|].
  erewrite sql_bind by (unfold utcnow; fold (tick s); reflexivity). fold now.
  erewrite sql_bind by (unfold run_due, list_due_states, mbind at 1, M_bind at 1, select_where, read, gets;
    cbn [mret M_ret db tick]; exact Hrun).
  rewrite commit_bind. eexists _, m', l. split; [reflexivity|]. split_and!; [exact Hdb|exact He|by apply due_batch_nodup| |].
  - eapply ticked_mono; [|exact Ht]. intros t. apply during_within; [done|cbn; lia|cbn; lia].
  - intros i. exact (ticked_other _ _ _ _ _ _ _ _ i Ht).
Qed.

(** * How long a user is written to *)








(** * A campaign *)

Definition step_node (k : string) (ty : NodeType) (c : ScenarioCondition) (check : option ScenarioCondition) (buttons : list json)
  : ScenarioNodeIn :=
  {| scn_key := k; scn_type := ty; pos_cx := 0; pos_top := 0; delay_seconds := 60; scn_condition := c; repeat_count := 2;
     repeat_interval_sec := 0; sn_text_body := Some "Hello, {name}!"; sn_inline_buttons := Some buttons; sn_media_kind := None;
     sn_media_url := None; check_kind := check; conversion := false; sn_label := None |}.

(** Reminders until the user connects; then an offer for who has not bought yet. *)
Definition welcome (buttons : list json) : ScenarioCampaignIn :=
  {| ci_key := "welcome"; ci_name := "Welcome"; ci_trigger_event := Some "user_registered"; ci_is_active := true;
     ci_entry_node_key := None;
     ci_nodes := [step_node "hello" message_node not_connected None buttons; step_node "bought" condition_node always (Some purchased) [];
                  step_node "offer" message_node always None buttons; step_node "done" end_node always None []];
     ci_edges := [{| from_key := "hello"; to_key := "bought"; branch := None |};
                  {| from_key := "bought"; to_key := "done"; branch := Some "yes" |};
                  {| from_key := "bought"; to_key := "offer"; branch := Some "no" |};
                  {| from_key := "offer"; to_key := "done"; branch := None |}] |}.

Definition user_db : database := set_users {[1 := sample_user 1 0]} empty_db.

(** The campaign is created and the user enrolled. *)
Definition enrolled (buttons : list json) : session :=
  let s := (run_handler (create_campaign (welcome buttons)) (session_on user_db 1000 500)).2 in
  (run_scope (handle_trigger (Some ("user_registered", telegram_id (sample_user 1 0)))) s).2.

(** [enrolled] [n] minutes later. *)
Definition later (minutes : Z) (s : session) : session :=
  {| db := db s; clock := λ n, clock s n + minutes * minute; ticks := ticks s; next_uuid := next_uuid s; effects := effects s |}.

Definition tick_at (env : BroadcastEnv) (minutes : Z) (s : session) : session :=
  later (- minutes) (scenario_tick env 200 (later minutes s)).2.

Definition progress (s : session) : list (option string * Z * ScenarioStatus) :=
  (λ x, (current_node_key x, node_sends x, ss_status x)) <$> rows (scenario_states (db s)).

(** Two reminders, then the offer twice, then the end. *)
Example welcome_course :
  progress (enrolled [good_button]) = [(Some "hello", 0, SC_ACTIVE)] ∧
  progress (foldl (λ s m, tick_at (broker true) m s) (enrolled [good_button]) [2]) = [(Some "hello", 1, SC_ACTIVE)] ∧
  progress (foldl (λ s m, tick_at (broker true) m s) (enrolled [good_button]) [2; 4]) = [(Some "offer", 0, SC_ACTIVE)] ∧
  progress (foldl (λ s m, tick_at (broker true) m s) (enrolled [good_button]) [2; 4; 6; 8]) = [(Some "done", 2, SC_COMPLETED)] ∧
  length (effects (foldl (λ s m, tick_at (broker true) m s) (enrolled [good_button]) [2; 4; 6; 8; 10])) = 4%nat.
Proof. vm_compute. split_and!; reflexivity. Qed.

Definition welcome_rank (k : string) : nat :=
  if String.eqb k "hello" then 3 else if String.eqb k "bought" then 2 else if String.eqb k "offer" then 1 else 0.

Definition graph_checked (env : BroadcastEnv) (rank : string → nat) (g : CampaignGraph) : bool :=
  forallb (λ e, (rank (to_key (sg_edge e)) <? rank (from_key (sg_edge e)))%nat) (cg_edges g) &&
  forallb (λ n, match scenario_buttons env (default [] (sn_inline_buttons (sn_node n))) with Ok _ => true | Raise _ => false end) (cg_nodes g).

Lemma graph_checked_ok env rank g : graph_checked env rank g = true → descends g rank ∧ well_formed_buttons env g.
Proof.
  unfold graph_checked. intros [He Hn]%andb_prop. rewrite forallb_forall in He, Hn. split.
  - intros e Hin. apply Nat.ltb_lt, He. by apply list_elem_of_In.
  - intros n Hin. specialize (Hn n). destruct (scenario_buttons _ _) as [bs|]; [by exists bs|]. discriminate Hn. by apply list_elem_of_In.
Qed.

Lemma campaigns_ok_by_computation env rank d :
  (∀ k, rank k < 64)%nat → forallb (λ ic, graph_checked env rank (graph_of d ic.2)) (map_to_list (scenario_campaigns d)) = true →
  campaigns_ok env d.
Proof.
  intros Hr H i c Hc. rewrite forallb_forall in H.
  destruct (graph_checked_ok env rank (graph_of d c)) as [Hd Hw]; [|split; [by exists rank|done]].
  apply (H (i, c)). by apply list_elem_of_In, elem_of_map_to_list.
Qed.

Lemma welcome_rank_short k : (welcome_rank k < 64)%nat.
Proof. unfold welcome_rank. repeat case_match; lia. Qed.

Lemma scenario_tick_refines_witness :
  let s := later 2 (enrolled [good_button]) in
  let now := clock s (ticks s) in
  ∃ s' m' l, scenario_tick (broker true) 200 s = (Ok (Z.of_nat (length l)), s') ∧
    db s' = set_scenario_states m' (db s) ∧ effects s' = effects s ++ (PublishSupport <$> l) ∧
    NoDup (ss_id <$> due_batch (db s) now 200) ∧
    ticked (broker true) (db s) now (during now s s') (due_batch (db s) now 200) (scenario_states (db s)) m' l ∧
    ∀ i, i ∉ ss_id <$> due_batch (db s) now 200 → m' !! i = scenario_states (db s) !! i.
Proof.
  apply (scenario_tick_refines (broker true) 200 (later 2 (enrolled [good_button]))).
  - apply keyed_by_computation. vm_compute. reflexivity.
  - apply (campaigns_ok_by_computation _ welcome_rank); [exact welcome_rank_short|]. vm_compute. reflexivity.
Defined.


(** The state of the enrolled user. *)
Definition enrolled_state : ScenarioState :=
  {| ss_id := 509; ss_user_id := 1; ss_campaign_id := 500; current_node_key := Some "hello"; node_sends := 0;
     ss_status := SC_ACTIVE; entered_at := 1009; next_send_at := Some 60001009; last_step_sent_at := None |}.

Example enrolled_row : rows (scenario_states (db (enrolled [good_button]))) = [enrolled_state].
Proof. vm_compute. reflexivity. Qed.



(** A message the broker refuses is counted as sent and never sent again: with a broker that
    is down for the whole campaign the user is led to its end without a single message. *)
Theorem lost_messages_count :
  let s := foldl (λ s m, tick_at (broker false) m s) (enrolled [good_button]) [2; 4; 6; 8] in
  progress s = [(Some "done", 2, SC_COMPLETED)] ∧ effects s = [].
Proof. vm_compute. split; reflexivity. Qed.

(** One node with a malformed button makes every tick raise while a user is due at it: no
    state of any campaign moves. *)
Theorem malformed_button_stops_scenarios :
  let s := later 2 (enrolled [bad_button]) in
  scenario_tick (broker true) 200 s = (Raise (AttributeError "strip"), (scenario_tick (broker true) 200 s).2) ∧
  scenario_states (db (scenario_tick (broker true) 200 s).2) = scenario_states (db s).
Proof. vm_compute. split; reflexivity. Qed.
