(* ===== verification/Entry.v ===== *)
(** Entry nodes and their backends: the assignments
    (services/entry/repository.py), the relay pool and its changes
    (services/entry/service.py) and the fan-out of a backend's health
    (services/entry/events.py). *)

From stdpp Require Import base gmap strings list sorting.
From S2P Require Import Prelude Errors RouteModels BillingModels FleetModels Session Uuid NodeDisplay Tables FleetTables Routing Placements Routes ProbeRepo AgentDetails.
Local Open Scope Z_scope.


(** * Repository *)

(** [order_by(created_at.asc())]. *)
Definition list_by_entry (entry : Z) : SM (list EntryBackendAssignment) :=
  l ← select_where assignments_tbl (λ e, (eba_entry_node_id e =? entry) && eba_is_active e);
  mret (order_by_asc eba_created_at l).

Definition get_by_entry_and_backend (entry backend : Z) : SM (option EntryBackendAssignment) :=
  l ← select_where assignments_tbl (λ e, (eba_entry_node_id e =? entry) && (eba_backend_node_id e =? backend));
  scalar_one_or_none l.

Definition list_entry_ids_for_backend (backend : Z) : SM (list Z) :=
  l ← select_where assignments_tbl (λ e, (eba_backend_node_id e =? backend) && eba_is_active e);
  mret (remove_dups (eba_entry_node_id <$> l)).

Definition list_active_for_backends (backends : list Z) : SM (list EntryBackendAssignment) :=
  match backends with
  | [] => mret []
  | _ =>
      l ← select_where assignments_tbl (λ e, bool_decide (eba_backend_node_id e ∈ backends) &&
            eba_is_active e && eba_enabled e);
      mret (order_by_asc eba_rank (order_by_desc eba_weight l))
  end.

(** [VpnNodeRepository.list_by_ids]. *)
Definition list_nodes_by_ids (ids : list Z) : SM (list VpnNode) :=
  match ids with
  | [] => mret []
  | _ => select_where nodes_tbl (λ n, bool_decide (node_id n ∈ ids))
  end.

(** * Service *)

Definition RELAY_POOL_TTL_SEC : Z := 300.

Section EntryService.
(** [settings.nats.js_command_subject_prefix] and [settings.probe.target_port]. *)
Context (command_prefix : string) (reality_port : Z).

Definition _resolve_backend_address (b : VpnNode) : option string :=
let raw := if truthy (reality_ip b) then default "" (reality_ip b) else internal_wg_ip b in
let candidate := py_strip raw in
if nonempty candidate then Some candidate else None.

(** [int(max(a.updated_at for a in assignments).timestamp())]. *)
Definition _generation (l : list EntryBackendAssignment) : Z :=
match eba_updated_at <$> l with
| [] => 0
| t :: ts => Z.quot (foldl Z.max t ts) second
end.

Definition entry_not_found (entry : Z) : exn :=
EntryNotFoundError ("entry node " +:+ str_uuid entry +:+ " not found").

Definition wrong_role (n : Z) (role expected : string) : exn :=
EntryRoleError ("node " +:+ str_uuid n +:+ " has role '" +:+ role +:+ "', expected " +:+ expected).

Definition backend_not_found (backend : Z) : exn :=
BackendNotFoundError ("backend node " +:+ str_uuid backend +:+ " not found").

Definition _require_entry (entry : Z) : SM VpnNode :=
n ← get_by_id nodes_tbl entry;
match n with
| None => raise (entry_not_found entry)
| Some n =>
    raise_if (negb (node_is_active n)) (entry_not_found entry) ;;
    raise_if (negb (is_entry_role (node_role n)))
      (wrong_role entry (node_role n) "one of ['entry', 'whitelist_entry']") ;;
    mret n
end.

Definition _require_backend (backend : Z) : SM VpnNode :=
n ← get_by_id nodes_tbl backend;
match n with
| None => raise (backend_not_found backend)
| Some n =>
    raise_if (negb (node_is_active n)) (backend_not_found backend) ;;
    raise_if (negb (String.eqb (node_role n) ROLE_BACKEND))
      (wrong_role backend (node_role n) "'backend'") ;;
    mret n
end.

(** The row of an assignment in the pool; [None] when it is skipped. *)
Definition relay_backend (backends : list VpnNode) (a : EntryBackendAssignment) : option RelayBackendOut :=
b ← find (λ b, node_id b =? eba_backend_node_id a) backends;
if negb (node_is_active b) then None
else
  address ← _resolve_backend_address b;
  Some {| rb_id := node_id b; rb_address := address; rb_port := reality_port;
          rb_weight := eba_weight a;
          rb_enabled := eba_enabled a && is_enabled b && negb (is_draining b);
          rb_rank := eba_rank a |}.

(** [items.sort(key=lambda b: (b.rank, str(b.id)))]. *)
Definition pool_order (l : list RelayBackendOut) : list RelayBackendOut :=
order_by_asc rb_rank (order_by_name (λ b, str_uuid (rb_id b)) l).

Definition get_relay_pool (entry : Z) : SM RelayPoolOut :=
_require_entry entry ;;
assignments ← list_by_entry entry;
backends ← list_nodes_by_ids (eba_backend_node_id <$> assignments);
mret {| rp_entry_id := entry; rp_generation := _generation assignments;
        rp_ttl_seconds := RELAY_POOL_TTL_SEC;
        rp_backends := pool_order (omap (relay_backend backends) assignments) |}.

(** [AgentSubjects.pool_changed]. *)
Definition pool_changed (nid : Z) : string := command_prefix +:+ "." +:+ str_uuid nid +:+ ".pool".

Definition _enqueue_pool_snapshot (entry : Z) : SM unit :=
pool ← get_relay_pool entry;
event_id ← uuid4;
emitted_at ← utcnow;
enqueue_many [{| oei_node_id := entry; oei_event_type := "pool_changed"; oei_aggregate_id := None;
                 oei_op_version := None; oei_subject := pool_changed entry;
                 oei_payload := EntryPoolChanged event_id entry emitted_at pool;
                 oei_message_id := PoolChangedId entry (rp_generation pool) event_id |}].

(** [notify_backend_health_changed], which [enqueue_pool_snapshots_for_backend] calls. *)
Definition notify_backend_health_changed (backend : Z) : SM Z :=
entry_ids ← list_entry_ids_for_backend backend;
for_each _enqueue_pool_snapshot entry_ids ;;
mret (Z.of_nat (length entry_ids)).

Definition enqueue_pool_snapshots_for_backend : Z → SM Z := notify_backend_health_changed.

Definition list_assignments (entry : Z) : SM (list EntryBackendAssignment) :=
_require_entry entry ;; list_by_entry entry.

Definition zone_of (n : VpnNode) : string := effective_zone (node_zone n) (Some (node_region n)).

Definition _require_zone_match (entry backend : VpnNode) : SM unit :=
if String.eqb (zone_of entry) ZONE_UNKNOWN || String.eqb (zone_of backend) ZONE_UNKNOWN then mret tt
else raise_if (negb (String.eqb (zone_of entry) (zone_of backend)))
       (EntryZoneMismatchError ("entry zone '" +:+ zone_of entry +:+
          "' does not match backend zone '" +:+ zone_of backend +:+ "'")).

Record EntryBackendAssignIn := {
  eai_backend_node_id : Z;
  eai_weight : Z;
  eai_enabled : bool;
  eai_rank : Z;
}.

Definition EntryBackendAssignIn_valid (p : EntryBackendAssignIn) : bool :=
(1 <=? eai_weight p) && (eai_weight p <=? 100000) && (0 <=? eai_rank p) && (eai_rank p <=? 15).

Definition new_assignment (entry : Z) (p : EntryBackendAssignIn) (id now : Z) : EntryBackendAssignment :=
{| eba_id := id; eba_entry_node_id := entry; eba_backend_node_id := eai_backend_node_id p;
   eba_weight := eai_weight p; eba_enabled := eai_enabled p; eba_rank := eai_rank p;
   eba_is_active := true; eba_created_at := now; eba_updated_at := now |}.

(** [EntryBackendAssignmentUpdate] dumped: the columns that are set. *)
Definition patch_assignment (weight : option Z) (enabled : option bool) (rank : option Z)
  (is_active : option bool) (e : EntryBackendAssignment) : EntryBackendAssignment :=
{| eba_id := eba_id e; eba_entry_node_id := eba_entry_node_id e;
   eba_backend_node_id := eba_backend_node_id e; eba_weight := default (eba_weight e) weight;
   eba_enabled := default (eba_enabled e) enabled; eba_rank := default (eba_rank e) rank;
   eba_is_active := default (eba_is_active e) is_active; eba_created_at := eba_created_at e;
   eba_updated_at := eba_updated_at e |}.

(** The route an assignment gets per transport profile. *)
Definition warming_route (name : string) (backend entry profile id now : Z) : Route :=
{| route_id := id; route_name := name; route_node_id := backend; route_entry_node_id := Some entry;
   route_transport_profile_id := profile; health_status := warming_up; base_weight := 50;
   effective_weight := Z.max 1 (50 / 2); cooldown_until := None; warmup_stage := Some 1;
   warmup_started_at := None; route_is_active := true; route_created_at := now;
   route_updated_at := now |}.

(** A flush that fails leaves the session unusable: the exception is logged, and
    the next statement of the request raises [PendingRollbackError]. *)
Definition ensure_route (entry backend : VpnNode) (p : TransportProfile) : SM Z :=
existing ← get_by_triple (node_id backend) (Some (node_id entry)) (tp_id p);
match existing with
| Some r =>
    (if route_is_active r then mret tt
     else update_by_id routes_tbl (route_id r) (with_active true) ;; mret tt) ;;
    mret 0
| None =>
    catch
      (create routes_tbl (warming_route
         (canonical_route_name (Some (node_name entry)) (node_name backend) (tp_name p))
         (node_id backend) (node_id entry) (tp_id p)) ;; mret 1)
      (λ _, raise PendingRollbackError)
end.

Definition _ensure_routes_for_assignment (entry_id backend_id : Z) : SM Z :=
profiles ← list_active_profiles None;
match profiles with
| [] => mret 0
| _ =>
    backend ← get_by_id nodes_tbl backend_id;
    entry ← get_by_id nodes_tbl entry_id;
    match backend, entry with
    | Some b, Some e => fold_m (λ created p, n ← ensure_route e b p; mret (created + n)) 0 profiles
    | _, _ => mret 0
    end
end.

Definition assign_backend (entry_id : Z) (payload : EntryBackendAssignIn)
  : SM (option EntryBackendAssignment) :=
entry ← _require_entry entry_id;
backend ← _require_backend (eai_backend_node_id payload);
_require_zone_match entry backend ;;
existing ← get_by_entry_and_backend entry_id (eai_backend_node_id payload);
result ← match existing with
         | Some e => update_by_id assignments_tbl (eba_id e)
                       (patch_assignment (Some (eai_weight payload)) (Some (eai_enabled payload))
                          (Some (eai_rank payload)) (Some true))
         | None => a ← create assignments_tbl (new_assignment entry_id payload); mret (Some a)
         end;
_ensure_routes_for_assignment entry_id (eai_backend_node_id payload) ;;
_enqueue_pool_snapshot entry_id ;;
mret result.

(** A field of [EntryBackendUpdateIn]: [None] when it is not set. *)
Record EntryBackendUpdateIn := {
  eui_weight : option (option Z);
  eui_enabled : option (option bool);
  eui_rank : option (option Z);
}.

Definition sets_nothing (p : EntryBackendUpdateIn) : bool :=
match eui_weight p, eui_enabled p, eui_rank p with None, None, None => true | _, _, _ => false end.

Definition sets_null (p : EntryBackendUpdateIn) : bool :=
match eui_weight p, eui_enabled p, eui_rank p with
| Some None, _, _ | _, Some None, _ | _, _, Some None => true
| _, _, _ => false
end.

Definition update_assignment (entry_id backend_id : Z) (payload : EntryBackendUpdateIn)
  : SM (option EntryBackendAssignment) :=
existing ← get_by_entry_and_backend entry_id backend_id;
match existing with
| None => mret None
| Some e =>
    if negb (eba_is_active e) then mret None
    else if sets_nothing payload then mret (Some e)
    else
      raise_if (sets_null payload) (IntegrityError "not null") ;;
      result ← update_by_id assignments_tbl (eba_id e)
                 (patch_assignment (default None (eui_weight payload)) (default None (eui_enabled payload))
                    (default None (eui_rank payload)) None);
      _enqueue_pool_snapshot entry_id ;;
      mret result
end.

Definition remove_assignment (entry_id backend_id : Z) : SM bool :=
existing ← get_by_entry_and_backend entry_id backend_id;
match existing with
| None => mret false
| Some e =>
    if negb (eba_is_active e) then mret false
    else
      update_by_id assignments_tbl (eba_id e) (patch_assignment None None None (Some false)) ;;
      _enqueue_pool_snapshot entry_id ;;
      mret true
end.
End EntryService.

(** Draining entries by the health of their agents and the results of probes
    (services/entry/drain_service.py) and its reconciler
    (services/entry/reconcilers/auto_drain.py). *)


Record EntryAutoDrainResult := {
  edr_processed : Z;
  edr_drained : Z;
  edr_routes_blocked : Z;
  edr_snapshots_enqueued : Z;
  edr_skipped : Z;
  edr_undrained : Z;
  edr_routes_unblocked : Z;
}.

(** The options of [EntryAutoDrainService]. *)
Record DrainOptions := {
  probe_failure_threshold : Z;
  max_nodes : Z;
  auto_undrain : bool;
  healthy_ticks_for_recovery : Z;
}.

(** [EntryAutoDrainReconciler._default_service_factory]. *)
Definition drain_options (p : NodePolicy) : DrainOptions :=
  {| probe_failure_threshold := Z.max 1 (entry_auto_drain_probe_failures p);
     max_nodes := Z.max 1 (entry_auto_drain_max_nodes p);
     auto_undrain := entry_auto_undrain_enabled p;
     healthy_ticks_for_recovery := Z.max 1 (entry_auto_undrain_healthy_ticks p) |}.

Section EntryDrain.
Context (command_prefix : string) (reality_port : Z) (opts : DrainOptions).

Definition _list_entry_candidates : SM (list (VpnNode * option NodeAgentState)) :=
read (λ d, (λ n, (n, agent_state_of d (node_id n))) <$> order_by_name node_name
  (filter (λ n, (node_is_active n && is_enabled n && negb (is_virtual n) &&
                 is_entry_role (node_role n)) = true) (rows (nodes d)))).

(** Why an entry is unhealthy: the agent, or the number of failed probes. *)
Inductive unhealthy := agent_unhealthy | probe_failures (consecutive : Z).

Definition _unhealthy_reason (entry : VpnNode) (state : option NodeAgentState) : SM (option unhealthy) :=
if match state with Some a => negb (is_healthy a) | None => false end
then mret (Some agent_unhealthy)
else if 0 <? probe_failure_threshold opts then
  consecutive ← count_consecutive_node_failures (node_id entry)
                  (Z.to_nat (Z.max (probe_failure_threshold opts * 3) 10));
  mret (if probe_failure_threshold opts <=? consecutive then Some (probe_failures consecutive) else None)
else mret None.

(** [meta.get("drain_reason") != ...] and [int(meta.get(...) or 0)]: a counter
    that is no number raises. *)
Definition meta_int (v : option json) : res Z :=
match v with
| None | Some JNull => Ok 0
| Some (JInt z) => Ok z
| Some (JBool b) => Ok (Z.b2z b)
| Some (JStr s) => if nonempty s then match int_of_string s with
                                      | Some z => Ok z
                                      | None => Raise (ValueError "invalid literal for int()")
                                      end else Ok 0
| Some (JTime _) => Raise (ValueError "invalid literal for int()")
| Some (JList []) | Some (JObj []) => Ok 0
| Some _ => Raise TypeError
end.

Definition with_details (l : list (string * json)) (a : NodeAgentState) : NodeAgentState :=
{| as_id := as_id a; as_node_id := as_node_id a; agent_version := agent_version a;
   last_config_version := last_config_version a; last_sync_at := last_sync_at a;
   last_seen_at := last_seen_at a; is_healthy := is_healthy a; details := l |}.

(** [dict(details.get(HEARTBEAT_DETAILS_KEY) or {})]: an entry that is neither
    empty nor an object is no dict. *)
Definition meta_copy (l : list (string * json)) : res (list (string * json)) :=
match dict_get HEARTBEAT_DETAILS_KEY l with
| Some (JObj fields) => Ok fields
| None | Some JNull | Some (JBool false) | Some (JInt 0) | Some (JStr "") | Some (JList []) => Ok []
| Some _ => Raise TypeError
end.

(** The entry as [_mark_drain_meta] leaves it. *)
Definition marked_meta (reason : option string) (at_ : option Z) (meta : list (string * json))
  : list (string * json) :=
match reason with
| None => dict_pop "drained_at" (dict_pop "drain_reason" meta)
| Some r =>
    let meta := dict_set "drain_reason" (JStr r) meta in
    match at_ with Some t => dict_set "drained_at" (JTime t) meta | None => meta end
end.

Definition _mark_drain_meta (state : option NodeAgentState) (reason : option string) (at_ : option Z)
  : SM unit :=
match state with
| None => mret tt
| Some a =>
    meta ← lift (meta_copy (details a));
    update_by_id agent_states_tbl (as_id a)
      (with_details (dict_set HEARTBEAT_DETAILS_KEY (JObj (marked_meta reason at_ meta)) (details a))) ;;
    mret tt
end.

Definition _drain_entry (entry : VpnNode) (state : option NodeAgentState) : SM bool :=
if is_draining entry then mret false
else
  update_by_id nodes_tbl (node_id entry) (patch_node (draining_update true)) ;;
  now ← utcnow;
  _mark_drain_meta state (Some DRAIN_REASON_ENTRY_AUTO_DRAIN) (Some now) ;;
  mret true.

Definition _try_undrain_entry (entry : VpnNode) (state : option NodeAgentState) : SM bool :=
match state with
| None => mret false
| Some a =>
    let meta := sub_dict HEARTBEAT_DETAILS_KEY (details a) in
    match dict_get "drain_reason" meta with
    | Some (JStr r) =>
        if negb (String.eqb r DRAIN_REASON_ENTRY_AUTO_DRAIN) then mret false
        else
          consecutive ← lift (meta_int (dict_get "consecutive_healthy" meta));
          if consecutive <? healthy_ticks_for_recovery opts then mret false
          else
            update_by_id nodes_tbl (node_id entry) (patch_node (draining_update false)) ;;
            _mark_drain_meta state None None ;;
            mret true
    | _ => mret false
    end
end.

(** The columns [_block_routes_for_entry] and [_unblock_routes_for_entry] write. *)
Definition blocked_by_entry (r : Route) : Route :=
{| route_id := route_id r; route_name := route_name r; route_node_id := route_node_id r;
   route_entry_node_id := route_entry_node_id r;
   route_transport_profile_id := route_transport_profile_id r; health_status := blocked;
   base_weight := base_weight r; effective_weight := 0; cooldown_until := cooldown_until r;
   warmup_stage := warmup_stage r; warmup_started_at := warmup_started_at r;
   route_is_active := route_is_active r; route_created_at := route_created_at r;
   route_updated_at := route_updated_at r |}.

Definition unblocked_by_entry (now : Z) (r : Route) : Route :=
{| route_id := route_id r; route_name := route_name r; route_node_id := route_node_id r;
   route_entry_node_id := route_entry_node_id r;
   route_transport_profile_id := route_transport_profile_id r; health_status := warming_up;
   base_weight := base_weight r; effective_weight := Z.max 1 (base_weight r / 2);
   cooldown_until := cooldown_until r; warmup_stage := Some 1; warmup_started_at := Some now;
   route_is_active := route_is_active r; route_created_at := route_created_at r;
   route_updated_at := route_updated_at r |}.

Definition entry_route (entry : Z) (want_blocked : bool) (r : Route) : bool :=
bool_decide (route_entry_node_id r = Some entry) && route_is_active r &&
eqb (bool_decide (health_status r = blocked)) want_blocked.

Definition _unblock_routes_for_entry (entry : Z) : SM Z :=
l ← select_where routes_tbl (entry_route entry true);
for_each (λ r, now ← utcnow; update_by_id routes_tbl (route_id r) (unblocked_by_entry now) ;; mret tt) l ;;
mret (Z.of_nat (length l)).

Definition _block_routes_for_entry (entry : Z) : SM Z :=
l ← select_where routes_tbl (entry_route entry false);
for_each (λ r, update_by_id routes_tbl (route_id r) blocked_by_entry ;; mret tt) l ;;
mret (Z.of_nat (length l)).

(** The exceptions of the fan-out are logged and dropped, after what it wrote. *)
Definition _notify_alternative_entries (entry : Z) : SM Z :=
assignments ← list_by_entry entry;
fold_m (λ snapshots b,
  n ← catch (enqueue_pool_snapshots_for_backend command_prefix reality_port b) (λ _, mret 0);
  mret (snapshots + n)) 0 (remove_dups (eba_backend_node_id <$> assignments)).

Definition add_result (r : EntryAutoDrainResult) (drained blocked snapshots skipped undrained unblocked : Z)
  : EntryAutoDrainResult :=
{| edr_processed := edr_processed r + 1; edr_drained := edr_drained r + drained;
   edr_routes_blocked := edr_routes_blocked r + blocked;
   edr_snapshots_enqueued := edr_snapshots_enqueued r + snapshots;
   edr_skipped := edr_skipped r + skipped; edr_undrained := edr_undrained r + undrained;
   edr_routes_unblocked := edr_routes_unblocked r + unblocked |}.

(** One candidate of the loop of [run]. *)
Definition drain_candidate (result : EntryAutoDrainResult) (c : VpnNode * option NodeAgentState)
  : SM EntryAutoDrainResult :=
let '(entry, state) := c in
reason ← _unhealthy_reason entry state;
match reason with
| None =>
    undrained ← (if auto_undrain opts && is_draining entry then _try_undrain_entry entry state
                 else mret false);
    if undrained : bool then
      unblocked ← _unblock_routes_for_entry (node_id entry);
      snapshots ← _notify_alternative_entries (node_id entry);
      mret (add_result result 0 0 snapshots 0 1 unblocked)
    else mret (add_result result 0 0 0 1 0 0)
| Some _ =>
    drained ← _drain_entry entry state;
    blocked ← _block_routes_for_entry (node_id entry);
    snapshots ← _notify_alternative_entries (node_id entry);
    mret (add_result result (Z.b2z drained) blocked snapshots 0 0 0)
end.

Definition run_drain : SM EntryAutoDrainResult :=
candidates ← _list_entry_candidates;
fold_m drain_candidate
  {| edr_processed := 0; edr_drained := 0; edr_routes_blocked := 0; edr_snapshots_enqueued := 0;
     edr_skipped := 0; edr_undrained := 0; edr_routes_unblocked := 0 |}
  (take (Z.to_nat (max_nodes opts)) candidates).
End EntryDrain.

(** [EntryAutoDrainReconciler.run_once]: [tick] when the policy enables it. *)
Definition entry_drain_tick (command_prefix : string) (reality_port : Z) : SM (option EntryAutoDrainResult) :=
  policy ← node_policy;
  if entry_auto_drain_enabled policy then
    run_committing (r ← run_drain command_prefix reality_port (drain_options policy); mret (Some r, true))
  else mret None.
