(* ===== verification/Balancer.v ===== *)
(** The entry balancer (services/balancer/entry.py): which entry node a client of a backend
    is sent through. *)

From stdpp Require Import base gmap strings list sorting pretty.
From S2P Require Import Prelude Errors RouteModels BillingModels FleetModels Session Uuid NodeDisplay Tables FleetTables Routing Placements Routes Entry.
Local Open Scope Z_scope.

(** [settings.entry_relay.user_entry_bucket_seconds] and the first eight bytes of the
    SHA-256 digest of a text, as a number. *)
Record BalancerConfig := { user_entry_bucket_seconds : Z; digest8 : string → Z }.

(** An entry's live statistics. *)
Record EntryRoutingStatsKv := { sk_node_id : option Z; sk_total : Z }.

Definition ENTRY_HEARTBEAT_STALE_SEC : Z := 90.

(** [VpnNodeRepository.list_healthy_entries_by_zone]: the dict of zones, in the order of the
    nodes. *)
Definition fresh_agent (fresh_after : Z) (a : NodeAgentState) : bool :=
  is_healthy a && match last_seen_at a with Some t => fresh_after <=? t | None => false end.

Definition healthy_entry (d : database) (fresh_after : Z) (n : VpnNode) : bool :=
  is_entry_role (node_role n) && node_is_active n && is_enabled n && negb (is_draining n) &&
  match agent_state_of d (node_id n) with Some a => fresh_agent fresh_after a | None => true end.

Definition by_zone := list (string * list VpnNode).

Fixpoint add_to_zone (z : string) (n : VpnNode) (g : by_zone) : by_zone :=
  match g with
  | [] => [(z, [n])]
  | (z', l) :: g => if String.eqb z' z then (z', l ++ [n]) :: g else (z', l) :: add_to_zone z n g
  end.

Definition list_healthy_entries_by_zone : SM by_zone :=
  now ← utcnow;
  read (λ d, foldl (λ g n, add_to_zone (zone_of n) n g) []
    (order_by_asc node_id (filter (λ n, healthy_entry d (now - ENTRY_HEARTBEAT_STALE_SEC * second) n = true) (rows (nodes d))))).

Definition entries_of (g : by_zone) (z : string) : list VpnNode :=
  default [] (snd <$> find (λ p : string * list VpnNode, String.eqb p.1 z) g).

Section Balancer.
Context (cfg : BalancerConfig).

Definition bucket : SM (option Z) :=
if user_entry_bucket_seconds cfg <=? 0 then mret None
else now ← utcnow; mret (Some ((now / second) / user_entry_bucket_seconds cfg)).

(** The values of the bucket of statistics; an invalid one is skipped. *)
Definition live_entry_loads (entries : list (option EntryRoutingStatsKv)) : gmap Z Z :=
foldl (λ loads e,
  match e with
  | Some {| sk_node_id := Some n; sk_total := t |} => <[n := default 0 (loads !! n) + t]> loads
  | _ => loads
  end) ∅ entries.

Definition _is_entry_usable (entry : option VpnNode) : SM bool :=
match entry with
| None => mret false
| Some n =>
    if negb (node_is_active n && is_enabled n) || is_draining n then mret false
    else if is_virtual n then mret true
    else
      a ← read (λ d, agent_state_of d (node_id n));
      match a with
      | None => mret true
      | Some a =>
          if negb (is_healthy a) then mret false
          else match last_seen_at a with
               | None => mret false
               | Some t => now ← utcnow; mret (now - ENTRY_HEARTBEAT_STALE_SEC * second <=? t)
               end
      end
end.

Definition _entry_tiebreak (user_id_ entry_id : Z) (b : option Z) : Z :=
digest8 cfg (match b with
             | Some b => str_uuid user_id_ +:+ ":" +:+ pretty b +:+ ":" +:+ str_uuid entry_id
             | None => str_uuid user_id_ +:+ ":" +:+ str_uuid entry_id
             end).

Fixpoint usable_of (l : list VpnNode) : SM (list VpnNode) :=
match l with
| [] => mret []
| n :: l => u ← _is_entry_usable (Some n); r ← usable_of l; mret (if u : bool then n :: r else r)
end.

(** [min(l, key=...)] by two numbers: the first least one. *)
Definition key_lt (a b : Z * Z) : bool := (a.1 <? b.1) || ((a.1 =? b.1) && (a.2 <? b.2)).
Fixpoint min_by {A} (key : A → Z * Z) (best : A) (l : list A) : A :=
match l with
| [] => best
| x :: l => min_by key (if key_lt (key x) (key best) then x else best) l
end.

Definition select_entry_for_backend (backend : VpnNode) (current : option VpnNode) (user_id_ : Z) (g : by_zone)
  (loads : gmap Z Z) : SM (option VpnNode) :=
let in_zone := entries_of g (zone_of backend) in
u ← _is_entry_usable current;
let candidates :=
  match current with
  | Some c => if u && negb (bool_decide (node_id c ∈ node_id <$> in_zone)) then in_zone ++ [c] else in_zone
  | None => in_zone
  end in
let candidates :=
  match current with
  | Some c => if nonempty (node_role c) then filter (λ e, node_role e = node_role c) candidates else candidates
  | None => candidates
  end in
candidates ← usable_of candidates;
match candidates with
| [] => u ← _is_entry_usable current; mret (if u : bool then current else None)
| c :: l =>
    b ← bucket;
    mret (Some (min_by (λ e, (default 0 (loads !! node_id e), _entry_tiebreak user_id_ (node_id e) b)) c l))
end.
End Balancer.
