(* ===== verification/Payload.v ===== *)
(** The payload of a subscription (services/vpn/subscriptions/service.py): the routes a
    device is offered, their links, their order, the size limit and the cached answer. *)

From stdpp Require Import base gmap strings list sorting pretty.
From Stdlib Require Import Ascii.
From S2P Require Import Prelude Decimal Errors Routing RouteModels BillingModels FleetModels Session Uuid NodeDisplay Tables FleetTables Placements Keys Routes VlessUri NodeNames Devices Entry Balancer Traffic.
Local Open Scope Z_scope.

(** * Configuration and what comes from outside *)

Record PayloadConfig := {
  pc_subs : SubscriptionConfig;
  pc_balancer : BalancerConfig;
  response_max_payload_bytes : Z;
  response_cache_ttl_sec : Z;
  pc_stale_after_sec : Z;
}.

(** What a request reads of Redis and NATS: the cached answer, the answers while another
    build is waited for, whether the lock is taken, the counter of the rate limit, the
    statistics of the entries. *)
Inductive CacheRead := cache_hit (payload : option string) (etag : string) | cache_miss | read_error | corrupt.
Record Outside := {
  cached : CacheRead;
  lock_free : bool;
  awaited : list CacheRead;
  request_count : Z;
  entry_stats : list (option EntryRoutingStatsKv);
}.

(** constants.py *)
Definition WHITELIST_SUFFIX : string := " | WL".
Definition WHITELIST_SERVER_DESCRIPTION : string := "🔓 глушилки".
Definition RATE_LIMIT_REQUESTS : Z := 300.
Definition PAYLOAD_BUILD_WAIT_ATTEMPTS : nat := 2.
Definition ROLE_ENTRY : string := "entry".
Definition ROLE_WHITELIST_ENTRY : string := "whitelist_entry".

(** * Schemas *)

Record ResolvedSubscriptionRoute := {
  rs_route_id : Z;
  rs_backend : Z;
  rs_entry : option Z;
  rs_key_id : Z;
  rs_transport : string;
  rs_client_id : string;
  rs_security : string;
  rs_network : string;
  rs_country_code : option string;
  rs_country_name : option string;
  rs_display : string;
  rs_is_entry : bool;
  rs_is_whitelist : bool;
  rs_preferred : bool;
  rs_rank : Z;
  rs_weight : Z;
  rs_score : rat;
  rs_uri : string;
  rs_row : DetailedRoute;
}.

Record TransportBuildResult := {
  tb_key : ResolvedDeviceKey;
  tb_routes : list ResolvedSubscriptionRoute;
  tb_placement_signature : option string;
  tb_reason : option string;
}.

Record SubscriptionUserInfo := { ui_upload : Z; ui_download : Z; ui_total : Z; ui_expire : Z }.

(** * Pure helpers *)

Definition _map_transport_build_reason (message : string) : string :=
  if String.eqb message "Node placement sync pending" || String.eqb message "Backend placement sync pending"
  then "transport_pending"
  else if String.eqb message "No available nodes" then "transport_backend_unhealthy"
  else if String.prefix "No available " message then "transport_no_routes"
  else "transport_unavailable".

(** [0.05] as a double. *)
Definition five_percent : rat := float53 {| num := 5; den := 100 |}.
Definition _capacity_factor (load capacity : Z) : rat :=
  if capacity <=? 0 then rat_of_Z 1
  else if load <=? 0 then rat_of_Z 1
  else if capacity <=? load then five_percent
  else float_max five_percent (float53 {| num := capacity - load; den := capacity |}).

Definition _country_info_for_region (region : string) : option string * option string :=
  match country_code_from_region (Some region) with
  | Some cc => if nonempty cc then (Some cc, Some (default cc (table_get COUNTRY_CODE_TO_NAME cc))) else (None, None)
  | None => (None, None)
  end.

(** The key of [_route_country_transport_key]: one link per zone for relayed routes, one per
    backend for direct ones. *)
Inductive LogicalKey :=
| EntryKey (zone transport : string) (whitelist : bool)
| DirectKey (location : option string) (transport : string) (backend : Z).
#[export] Instance LogicalKey_eq_dec : EqDecision LogicalKey.
Proof. solve_decision. Defined.

Definition _route_country_transport_key (country_code : option string) (region transport : string) (is_entry : bool)
    (backend : Z) (zone : string) (is_whitelist : bool) : LogicalKey :=
  let t := _normalize_transport_value transport in
  if is_entry then
    let z := lower (py_strip (if nonempty zone then zone else "unknown")) in
    EntryKey (if nonempty z then z else "unknown") t is_whitelist
  else
    DirectKey (match country_code with
               | Some cc => if nonempty cc then Some cc else let r := lower (py_strip region) in if nonempty r then Some r else None
               | None => let r := lower (py_strip region) in if nonempty r then Some r else None
               end) t backend.

Definition _is_route_compatible_with_key_transport (key_transport_ security_ network_ : string) : bool :=
  if String.eqb key_transport_ "reality" then String.eqb security_ "reality" && String.eqb network_ "tcp"
  else if String.eqb key_transport_ "tcp" then false
  else if String.eqb key_transport_ "ws" then String.eqb security_ "tls" && String.eqb network_ "ws"
  else if String.eqb key_transport_ "xhttp" then String.eqb security_ "tls" && String.eqb network_ "xhttp"
  else true.

(** [(s or "").strip() or d]. *)
Definition strip_or (s : option string) (d : string) : string :=
  let t := py_strip (default "" s) in if nonempty t then t else d.

(** [uri.partition("#")[0] + "#" + quote(remark)]. *)
Definition _update_uri_remark (uri new_remark : string) : string :=
  before "#" uri +:+ "#" +:+ quote "/" new_remark.

(** * isoformat *)

Definition pad (width : nat) (z : Z) : string :=
  let s := pretty z in String.concat "" (repeat "0" (width - String.length s)) +:+ s.

(** [date.fromordinal]. *)
Definition ymd_of_ordinal (ordinal : Z) : Z * Z * Z :=
  let n := ordinal - 1 in
  let n400 := n / 146097 in
  let n := n mod 146097 in
  let n100 := n / 36524 in
  let n := n mod 36524 in
  let n4 := n / 1461 in
  let n := n mod 1461 in
  let n1 := n / 365 in
  let n := n mod 365 in
  let year := n400 * 400 + 1 + n100 * 100 + n4 * 4 + n1 in
  if (n1 =? 4) || (n100 =? 4) then (year - 1, 12, 31)
  else
    let leap := (n1 =? 3) && (negb (n4 =? 24) || (n100 =? 3)) in
    let month := Z.shiftr (n + 50) 5 in
    let month := if n <? days_before leap month then month - 1 else month in
    (year, month, n - days_before leap month + 1).

(** [datetime.isoformat] of a UTC instant. *)
Definition isoformat (t : Z) : string :=
  let '(y, m, d) := ymd_of_ordinal (epoch_day t + epoch_ordinal) in
  let us := t mod day in
  let frac := us mod second in
  pad 4 y +:+ "-" +:+ pad 2 m +:+ "-" +:+ pad 2 d +:+ "T" +:+ pad 2 (us / hour) +:+ ":" +:+ pad 2 (us / minute mod 60) +:+
  ":" +:+ pad 2 (us / second mod 60) +:+ (if frac =? 0 then "" else "." +:+ pad 6 frac) +:+ "+00:00".

Section Payload.
Context (cfg : PayloadConfig).

(** * Hosts and links *)

(** [None]: the backend has no [reality_ip]. *)
Definition _resolve_route_host_for_transport (backend : VpnNode) (public : option VpnNode) (tp : TransportProfile) : option string :=
if String.eqb (security tp) "reality" && String.eqb (network tp) "tcp" then
  match public with
  | Some n => Some (if nonempty (public_domain n) then public_domain n else default "" (reality_ip n))
  | None => reality_ip backend
  end
else
  Some (_resolve_ws_public_host (pc_subs cfg) (default backend public) (match public with Some _ => true | None => false end)).

(** [node.zone_ref]. *)
Definition zone_ref (d : database) (n : VpnNode) : option Zone :=
z ← node_zone n; find (λ r, String.eqb (zone_code r) z) (rows (zones d)).

Definition zone_title (d : database) (backend entry : VpnNode) : string :=
match match zone_ref d backend with Some z => Some z | None => zone_ref d entry end with
| Some z =>
    if zone_is_active z then
      let emoji := py_strip (zone_emoji z) in
      let name := py_strip (zone_name z) in
      if nonempty emoji then py_strip (emoji +:+ " " +:+ name) else name
    else ""
| None => ""
end.

Definition _subscription_display_for_route (d : database) (backend : VpnNode) (entry : option VpnNode) : string * option string :=
let plain := format_node_display_name (node_name backend) (Some (node_region backend)) in
match entry with
| None => (plain, None)
| Some e =>
    if negb (String.eqb (node_role e) ROLE_ENTRY || String.eqb (node_role e) ROLE_WHITELIST_ENTRY) then (plain, None)
    else
      let title := zone_title d backend e in
      let base := if nonempty title then title else plain in
      if String.eqb (node_role e) ROLE_WHITELIST_ENTRY
      then (base +:+ WHITELIST_SUFFIX, Some WHITELIST_SERVER_DESCRIPTION) else (base, None)
end.

Definition _resolve_profile_from_transport (tp : TransportProfile) (fallback_domain region : string) : res (option Profile) :=
metadata ← mk_ProfileMetadata (if nonempty (tp_name tp) then tp_name tp else "route-profile")
             (if nonempty region then [region] else []);
let is_ s n := String.eqb (security tp) s && String.eqb (network tp) n in
if is_ "reality" "tcp" then
  let sni := strip_or (reality_server_name tp) "" in
  let public_key := strip_or (reality_public_key tp) "" in
  let short_id := strip_or (reality_short_id tp) "" in
  if negb (nonempty sni) || negb (nonempty public_key) || negb (nonempty short_id) then Ok None
  else
    c ← mk_RealityTcpClientConfig sni (flow tp) (strip_or (Some (tls_fingerprint tp)) "chrome") public_key short_id;
    Ok (Some (RealityTcpProfile metadata c))
else if is_ "tls" "ws" then
  c ← mk_WsTlsClientConfig WS_TLS_DEFAULT_PATH fallback_domain fallback_domain;
  Ok (Some (WsTlsProfile metadata c))
else if is_ "tls" "xhttp" then
  c ← mk_XHttpClientConfig XHTTP_DEFAULT_PATH fallback_domain fallback_domain XHTTP_DEFAULT_MODE XHTTP_DEFAULT_ALPN XHTTP_DEFAULT_EXTRA;
  Ok (Some (XHttpProfile metadata c))
else Ok None.

Definition grpc_query (tp : TransportProfile) (domain : string) : list (string * string) :=
[("type", "grpc"); ("security", "tls"); ("encryption", "none"); ("serviceName", strip_or (grpc_service_name tp) "vl");
 ("sni", domain); ("fp", strip_or (Some (tls_fingerprint tp)) "chrome")].

(** [None] when there is no link; the validators raise. *)
Definition _build_route_uri (client_id_ : string) (backend : VpnNode) (public : option VpnNode) (tp : TransportProfile)
  (remark : string) (description : option string) : res (option string) :=
let domain := default "" (_resolve_route_host_for_transport backend public tp) in
if negb (nonempty domain) then Ok None
else
  let name := if nonempty remark then remark
              else format_node_display_name (node_name (default backend public)) (Some (node_region backend)) in
  if String.eqb (security tp) "tls" && String.eqb (network tp) "grpc" then
    Ok (Some (render {| vu_client_id := client_id_; vu_host := domain; vu_port := port tp; vu_query := grpc_query tp domain;
                        vu_remark := name; vu_description := description |}))
  else
    profile ← _resolve_profile_from_transport tp domain (node_region backend);
    match profile with
    | None => Ok None
    | Some p =>
        node ← mk_NodePublic domain (port tp) name (Some (node_region backend)) description;
        match build client_id_ node p with Ok uri => Ok (Some uri) | Raise _ => Ok None end
    end.

(** * The routes of a transport *)

(** [RouteRepository.list_substitutes_for_backend]. *)
Definition substitute_serves (d : database) (backend : Z) (entries : list Z) (x : DetailedRoute) : bool :=
route_is_active (dr_route x) && (route_node_id (dr_route x) =? backend) && servable_status (health_status (dr_route x)) &&
tp_is_active (dr_profile x) && node_is_active (dr_node x) && is_enabled (dr_node x) && negb (is_draining (dr_node x)) &&
match dr_agent_state x with Some a => is_healthy a | None => false end &&
match route_entry_node_id (dr_route x) with
| Some e => bool_decide (e ∈ entries) && entry_alive d (Some e)
| None => false
end.

Definition list_substitutes_for_backend (backend : Z) (entries : list Z) : SM (list DetailedRoute) :=
match entries with
| [] => mret []
| _ => read (λ d, order_by_desc (λ x, effective_weight (dr_route x)) (order_by_name (λ x, route_name (dr_route x))
         (filter (λ x, substitute_serves d backend entries x = true) (omap (detailed d) (rows (routes d))))))
end.

(** What a build of a transport has fixed. *)
Record BuildContext := {
  bc_sub : Subscription;
  bc_key : ResolvedDeviceKey;
  bc_selected : Z;
  bc_allowed : list Z;
  bc_whitelist : bool;
  bc_relay : bool;
  bc_backend_loads : gmap Z Z;
  bc_entry_loads : gmap Z Z;
  bc_zones : by_zone;
}.

(** The loop's state: [entry_nodes_by_id] and the routes found so far. *)
Record BuildState := { bs_entries : gmap Z VpnNode; bs_routes : list ResolvedSubscriptionRoute }.

Definition allowed_role (c : BuildContext) (e : VpnNode) : bool :=
negb (String.eqb (node_role e) ROLE_WHITELIST_ENTRY && negb (bc_whitelist c)) &&
negb (String.eqb (node_role e) ROLE_ENTRY && negb (bc_relay c)).

Definition logical_key_of (r : ResolvedSubscriptionRoute) : LogicalKey :=
let n := dr_node (rs_row r) in
_route_country_transport_key (rs_country_code r) (node_region n) (rs_transport r) (rs_is_entry r) (rs_backend r)
  (zone_of n) (rs_is_whitelist r).

Definition resolved_route (c : BuildContext) (x : DetailedRoute) (backend : Z) (entry : option VpnNode) (display uri : string)
  (rank : Z) (penalty : bool) : ResolvedSubscriptionRoute :=
let n := dr_node x in
let '(cc, cn) := _country_info_for_region (node_region n) in
let weight := effective_weight (dr_route x) in
let backend_factor := _capacity_factor (default 0 (bc_backend_loads c !! backend)) (node_capacity n) in
let entry_factor := match entry with
                    | Some e => _capacity_factor (default 0 (bc_entry_loads c !! node_id e)) (node_capacity e)
                    | None => rat_of_Z 1
                    end in
let score := float_mul (float_mul (float_max float_zero (rat_of_Z weight)) backend_factor) entry_factor in
{| rs_route_id := route_id (dr_route x); rs_backend := backend; rs_entry := node_id <$> entry;
   rs_key_id := rdk_vpn_key_id (bc_key c); rs_transport := rdk_transport (bc_key c);
   rs_client_id := rdk_client_id (bc_key c); rs_security := security (dr_profile x); rs_network := network (dr_profile x);
   rs_country_code := cc; rs_country_name := cn; rs_display := display;
   rs_is_entry := match entry with Some _ => true | None => false end;
   rs_is_whitelist := match entry with Some e => String.eqb (node_role e) ROLE_WHITELIST_ENTRY | None => false end;
   rs_preferred := backend =? bc_selected c; rs_rank := rank; rs_weight := weight;
   rs_score := if penalty then float_mul score (float53 {| num := 1; den := 2 |}) else score;
   rs_uri := uri; rs_row := x |}.

(** The checks and the link of a row whose entry has been chosen; the routes with it when it
    is new. *)
Definition offer (c : BuildContext) (x : DetailedRoute) (backend : Z) (entry : option VpnNode) (penalty : bool)
  (routes_ : list ResolvedSubscriptionRoute) : SM (list ResolvedSubscriptionRoute) :=
if negb (_is_route_compatible_with_key_transport (rdk_transport (bc_key c)) (security (dr_profile x)) (network (dr_profile x)))
then mret routes_
else
  let '(cc, _) := _country_info_for_region (node_region (dr_node x)) in
  let key := _route_country_transport_key cc (node_region (dr_node x)) (rdk_transport (bc_key c))
               (match entry with Some _ => true | None => false end) backend (zone_of (dr_node x))
               (match entry with Some e => String.eqb (node_role e) ROLE_WHITELIST_ENTRY | None => false end) in
  if bool_decide (key ∈ logical_key_of <$> routes_) then mret routes_
  else
    shown ← read (λ d, _subscription_display_for_route d (dr_node x) entry);
    uri ← lift (_build_route_uri (rdk_client_id (bc_key c)) (dr_node x) entry (dr_profile x) shown.1 shown.2);
    match uri with
    | None => mret routes_
    | Some uri =>
        if bool_decide (uri ∈ rs_uri <$> routes_) then mret routes_
        else mret (routes_ ++ [resolved_route c x backend entry shown.1 uri (Z.of_nat (length routes_)) penalty])
    end.

(** The entry a row of the resolution is relayed through: none for a direct route; [None]
    when the row is to be skipped. *)
Definition entry_of_row (c : BuildContext) (x : DetailedRoute) (entries : gmap Z VpnNode)
  : SM (option (option VpnNode)) :=
match route_entry_node_id (dr_route x) with
| None => mret (Some None)
| Some e =>
    o ← select_entry_for_backend (pc_balancer cfg) (dr_node x) (entries !! e) (sub_user_id (bc_sub c)) (bc_zones c) (bc_entry_loads c);
    mret (match o with Some n => Some (Some n) | None => None end)
end.

Definition is_whitelist_row (x : DetailedRoute) (entries : gmap Z VpnNode) : bool :=
match route_entry_node_id (dr_route x) ≫= (entries !!.) with
| Some n => String.eqb (node_role n) ROLE_WHITELIST_ENTRY
| None => false
end.

Definition remember (entry : option VpnNode) (entries : gmap Z VpnNode) : gmap Z VpnNode :=
match entry with Some n => <[node_id n := n]> entries | None => entries end.

Definition build_row (c : BuildContext) (st : BuildState) (x : DetailedRoute) : SM BuildState :=
let backend := node_id (dr_node x) in
if negb (is_whitelist_row x (bs_entries st)) && negb (bool_decide (backend ∈ bc_allowed c)) then mret st
else
  e ← entry_of_row c x (bs_entries st);
  match e with
  | None => mret st
  | Some entry =>
      let entries := remember entry (bs_entries st) in
      if negb (match entry with Some n => allowed_role c n | None => true end)
      then mret {| bs_entries := entries; bs_routes := bs_routes st |}
      else
        routes_ ← offer c x backend entry false (bs_routes st);
        mret {| bs_entries := entries; bs_routes := routes_ |}
  end.

Fixpoint build_rows (c : BuildContext) (st : BuildState) (l : list DetailedRoute) : SM BuildState :=
match l with
| [] => mret st
| x :: l => st ← build_row c st x; build_rows c st l
end.

(** ** Substitutes for backends without a route *)

Definition zones_agree (backend entry : VpnNode) : bool :=
String.eqb (zone_of backend) "unknown" || String.eqb (zone_of entry) "unknown" || String.eqb (zone_of backend) (zone_of entry).

Definition substitute_row (c : BuildContext) (backend : Z) (st : BuildState) (x : DetailedRoute) : SM BuildState :=
if bool_decide (route_id (dr_route x) ∈ rs_route_id <$> bs_routes st) then mret st
else
  raw ← match route_entry_node_id (dr_route x) with
        | None => mret None
        | Some e => match bs_entries st !! e with
                    | Some n => mret (Some n)
                    | None => l ← list_nodes_by_ids [e]; mret (head l)
                    end
        end;
  let entries := match route_entry_node_id (dr_route x), raw with
                 | Some e, Some n => <[e := n]> (bs_entries st)
                 | _, _ => bs_entries st
                 end in
  o ← select_entry_for_backend (pc_balancer cfg) (dr_node x) raw (sub_user_id (bc_sub c)) (bc_zones c) (bc_entry_loads c);
  match o with
  | None => mret {| bs_entries := entries; bs_routes := bs_routes st |}
  | Some e =>
      let entries := <[node_id e := e]> entries in
      if negb (allowed_role c e && zones_agree (dr_node x) e)
      then mret {| bs_entries := entries; bs_routes := bs_routes st |}
      else
        routes_ ← offer c x backend (Some e) true (bs_routes st);
        mret {| bs_entries := entries; bs_routes := routes_ |}
  end.

Fixpoint substitute_rows (c : BuildContext) (backend : Z) (st : BuildState) (l : list DetailedRoute) : SM BuildState :=
match l with
| [] => mret st
| x :: l => st ← substitute_row c backend st x; substitute_rows c backend st l
end.

Fixpoint substitute_backends (c : BuildContext) (assignments : list EntryBackendAssignment) (st : BuildState)
  (backends : list Z) : SM BuildState :=
match backends with
| [] => mret st
| b :: backends =>
    l ← list_substitutes_for_backend b (eba_entry_node_id <$> filter (λ a, eba_backend_node_id a = b) assignments);
    st ← substitute_rows c b st l;
    substitute_backends c assignments st backends
end.

(** The keys of a dict, in the order they were first set. *)
Definition first_seen (l : list Z) : list Z := reverse (remove_dups (reverse l)).

Definition _fill_entry_failover_substitutes (c : BuildContext) (st : BuildState) : SM (list ResolvedSubscriptionRoute) :=
match filter (λ b, b ∉ rs_backend <$> bs_routes st) (bc_allowed c) with
| [] => mret (bs_routes st)
| missing =>
    assignments ← list_active_for_backends missing;
    st ← substitute_backends c assignments st (first_seen (eba_backend_node_id <$> assignments));
    mret (bs_routes st)
end.

(** ** A transport *)

Definition _entry_nodes_by_id (l : list DetailedRoute) : SM (gmap Z VpnNode) :=
match omap (λ x, route_entry_node_id (dr_route x)) l with
| [] => mret ∅
| ids => ns ← list_nodes_by_ids ids; mret (list_to_map ((λ n, (node_id n, n)) <$> ns))
end.

(** The rows of the key's backends, and those relayed through whitelist entries. *)
Definition rows_of_key (selected : Z) (allowed : list Z) (region : option string) (max_fetch : nat) : SM (list DetailedRoute) :=
now ← utcnow;
l ← list_resolved_active (Some selected) region max_fetch (Some allowed)
      (Some (now - Z.max 30 (pc_stale_after_sec cfg) * 3 * second)) true;
if existsb (λ x, bool_decide (node_id (dr_node x) ∈ allowed)) l then mret l
else match allowed with
     | [] => mret l
     | _ => list_resolved_active (Some selected) region max_fetch (Some allowed) None true
     end.

Definition whitelist_rows (max_fetch : nat) (known : list DetailedRoute) : SM (list DetailedRoute) :=
l ← list_resolved_active None None max_fetch None None true;
entries ← _entry_nodes_by_id l;
mret (filter (λ x, (is_whitelist_row x entries &&
  negb (bool_decide (route_id (dr_route x) ∈ (λ y, route_id (dr_route y)) <$> known))) = true) l).

(** The selector draws no random numbers: the seed is [None]. *)
#[local] Instance no_random : Random unit :=
{| seeded _ := tt; random _ := (0, tt); randbelow _ _ := (0%nat, tt) |}.

Definition select_routes (l : list ResolvedSubscriptionRoute) (preferred max_routes : Z) : list ResolvedSubscriptionRoute :=
select (G := unit) rs_backend (λ r, (rs_security r, rs_network r)) rs_route_id rs_score rs_entry l preferred max_routes None.

Definition _build_transport_routes (outside : Outside) (b : Subscription) (k : ResolvedDeviceKey) (max_routes : Z)
  : SM TransportBuildResult :=
placed ← catch (r ← _ensure_backend_placements_for_key (pc_subs cfg) (rdk_vpn_key_id k) (preferred_region b) max_routes; mret (inr r))
  (λ e, if is_SubscriptionBuild e then mret (inl (exn_str e)) else raise e);
match placed with
| inl message =>
    mret {| tb_key := k; tb_routes := []; tb_placement_signature := None;
            tb_reason := Some (_map_transport_build_reason message) |}
| inr (selected, placement, allowed) =>
    let max_fetch := Z.to_nat (Z.max (max_routes * 4) 12) in
    known ← rows_of_key selected allowed (preferred_region b) max_fetch;
    zones_ ← list_healthy_entries_by_zone;
    extra ← whitelist_rows max_fetch known;
    let rows_ := known ++ extra in
    entries ← _entry_nodes_by_id rows_;
    plan ← plan_of b;
    loads ← count_desired_active_by_backend_node;
    let c := {| bc_sub := b; bc_key := k; bc_selected := selected; bc_allowed := allowed;
                bc_whitelist := match plan with Some p => whitelist_enabled p | None => false end;
                bc_relay := match plan with Some p => entry_relay_enabled p | None => false end;
                bc_backend_loads := loads; bc_entry_loads := live_entry_loads (entry_stats outside); bc_zones := zones_ |} in
    st ← build_rows c {| bs_entries := entries; bs_routes := [] |} rows_;
    resolved ← _fill_entry_failover_substitutes c st;
    match select_routes resolved selected max_routes with
    | [] =>
        mret {| tb_key := k; tb_routes := []; tb_placement_signature := Some (rdk_transport k +:+ ":pending=no-routes");
                tb_reason := Some "transport_no_routes" |}
    | routes_ =>
        mret {| tb_key := k; tb_routes := routes_;
                tb_placement_signature := Some (rdk_transport k +:+ ":" +:+ pretty (op_version placement));
                tb_reason := None |}
    end
end.

(** * Merging and presenting *)

Definition is_new (r : ResolvedSubscriptionRoute) (l : list ResolvedSubscriptionRoute) : bool :=
negb (bool_decide (rs_uri r ∈ rs_uri <$> l) || bool_decide (logical_key_of r ∈ logical_key_of <$> l)).

Definition merged (l : list ResolvedSubscriptionRoute) : list ResolvedSubscriptionRoute :=
foldl (λ acc r, if is_new r acc then acc ++ [r] else acc) [] l.

(** [sorted] by the tuple of [_presentation_sort_key]: by its components from the last to the
    first, each sort being stable. *)
Definition _presentation_sort (preferred : option string) (l : list ResolvedSubscriptionRoute) : list ResolvedSubscriptionRoute :=
let wanted := lower (py_strip (default "" preferred)) in
let or_ o d := match o with Some x => if nonempty x then x else d | None => d end in
let country r := or_ (rs_country_name r) (or_ (rs_country_code r) "Unknown") in
order_by_asc (λ r, Z.b2z (rs_is_entry r))
(order_by_asc (λ r, if nonempty wanted && String.eqb (lower (py_strip (node_region (dr_node (rs_row r))))) wanted then 0 else 1)
(order_by_name country
(order_by_asc (λ r, _transport_priority (rs_transport r))
(order_by_asc (λ r, if rs_preferred r then 0 else 1)
(order_by_asc (λ r, - effective_weight (dr_route (rs_row r)))
(order_by_asc rs_rank
(order_by_name rs_uri l))))))).

Definition same_country (r r' : ResolvedSubscriptionRoute) : bool := bool_decide (rs_country_code r = rs_country_code r').

(** The direct routes of a country are numbered when there are several or relayed ones too. *)
Definition needs_number (l : list ResolvedSubscriptionRoute) (r : ResolvedSubscriptionRoute) : bool :=
let direct := filter (λ x, same_country r x && negb (rs_is_entry x) = true) l in
let relayed := filter (λ x, same_country r x && rs_is_entry x = true) l in
(1 <? length direct)%nat || ((0 <? length direct)%nat && (0 <? length relayed)%nat).

Definition renamed (name : string) (r : ResolvedSubscriptionRoute) : ResolvedSubscriptionRoute :=
{| rs_route_id := rs_route_id r; rs_backend := rs_backend r; rs_entry := rs_entry r; rs_key_id := rs_key_id r;
   rs_transport := rs_transport r; rs_client_id := rs_client_id r; rs_security := rs_security r; rs_network := rs_network r;
   rs_country_code := rs_country_code r; rs_country_name := rs_country_name r; rs_display := name;
   rs_is_entry := rs_is_entry r; rs_is_whitelist := rs_is_whitelist r; rs_preferred := rs_preferred r; rs_rank := rs_rank r;
   rs_weight := rs_weight r; rs_score := rs_score r; rs_uri := _update_uri_remark (rs_uri r) name; rs_row := rs_row r |}.

(** [seen]: the routes before. *)
Fixpoint number_from (all seen l : list ResolvedSubscriptionRoute) : list ResolvedSubscriptionRoute :=
match l with
| [] => []
| r :: l =>
    (if negb (rs_is_entry r) && needs_number all r then
       let seq := Z.of_nat (length (filter (λ x, same_country r x && negb (rs_is_entry x) = true) seen)) + 1 in
       let n := dr_node (rs_row r) in
       renamed (format_node_display_name (node_name n) (Some (node_region n)) +:+ " " +:+ pretty seq) r
     else r) :: number_from all (seen ++ [r]) l
end.

Definition _number_routes_display (l : list ResolvedSubscriptionRoute) : list ResolvedSubscriptionRoute := number_from l [] l.

Definition _merge_transport_routes (b : Subscription) (results : list TransportBuildResult) : list ResolvedSubscriptionRoute :=
_number_routes_display (_presentation_sort (preferred_region b) (merged (concat (tb_routes <$> results)))).

(** * The size limit *)

Inductive Fit := fit_ok | fit_trimmed | fit_rejected.

Fixpoint fit_from (limit size : Z) (selected l : list ResolvedSubscriptionRoute) : list ResolvedSubscriptionRoute * Fit :=
match l with
| [] => (selected, fit_ok)
| r :: l =>
    let delimiter := match selected with [] => 0 | _ => 1 end in
    let size' := size + delimiter + Z.of_nat (String.length (rs_uri r)) in
    if limit <? size' then match selected with [] => ([], fit_rejected) | _ => (selected, fit_trimmed) end
    else fit_from limit size' (selected ++ [r]) l
end.

Definition _fit_routes_to_payload_limit (l : list ResolvedSubscriptionRoute) (limit : Z) : list ResolvedSubscriptionRoute * Fit :=
if limit <=? 0 then ([], fit_rejected) else fit_from limit 0 [] l.

Definition newline : ascii := of_code 10.
Definition _render_subscription_payload (l : list ResolvedSubscriptionRoute) : string := join (String newline "") (rs_uri <$> l).

(** * Assignments, for analytics *)

(** The first relayed route of each transport. *)
Definition first_assignments (l : list ResolvedSubscriptionRoute) : list ResolvedSubscriptionRoute :=
foldl (λ acc r,
  if nonempty (rs_transport r) && negb (bool_decide (rs_transport r ∈ rs_transport <$> acc)) &&
     match rs_entry r with Some _ => true | None => false end
  then acc ++ [r] else acc) [] l.

Definition reassigned (now entry backend route : Z) (a : SubscriptionRouteAssignment) : SubscriptionRouteAssignment :=
{| sra_id := sra_id a; sra_subscription_id := sra_subscription_id a; sra_subscription_device_id := sra_subscription_device_id a;
   sra_transport := sra_transport a; sra_entry_node_id := entry; sra_backend_node_id := backend; sra_route_id := Some route;
   last_assigned_at := now; assignment_count := assignment_count a + 1 |}.

Definition upsert_route_assignment (sid did now : Z) (r : ResolvedSubscriptionRoute) : SM unit :=
match rs_entry r with
| None => mret tt
| Some entry =>
    let mine a := (sra_subscription_id a =? sid) && (sra_subscription_device_id a =? did) && String.eqb (sra_transport a) (rs_transport r) in
    hit ← select_where route_assignments_tbl mine;
    match hit with
    | [] =>
        create route_assignments_tbl (λ id _,
          {| sra_id := id; sra_subscription_id := sid; sra_subscription_device_id := did; sra_transport := rs_transport r;
             sra_entry_node_id := entry; sra_backend_node_id := rs_backend r; sra_route_id := Some (rs_route_id r);
             last_assigned_at := now; assignment_count := 1 |}) ;; mret tt
    | _ => update_where route_assignments_tbl mine (reassigned now entry (rs_backend r) (rs_route_id r)) ;; mret tt
    end
end.

(** An exception is logged. *)
Definition _persist_route_assignments (sid did : Z) (l : list ResolvedSubscriptionRoute) (now : Z) : SM unit :=
catch (for_each (upsert_route_assignment sid did now) (first_assignments l)) (λ _, mret tt).

(** * The tag of an answer *)

Definition health_value (h : RouteHealthStatus) : string :=
match h with
| healthy => "healthy" | degraded => "degraded" | suspected => "suspected" | blocked => "blocked" | warming_up => "warming_up"
end.

Definition _route_signature (x : DetailedRoute) : res string :=
match _resolve_route_host_for_transport (dr_node x) None (dr_profile x) with
| None => Raise TypeError
| Some host =>
    Ok (join "|" [str_uuid (route_id (dr_route x)); health_value (health_status (dr_route x));
                  pretty (effective_weight (dr_route x)); str_uuid (node_id (dr_node x)); host;
                  str_uuid (tp_id (dr_profile x)); pretty (port (dr_profile x)); isoformat (route_updated_at (dr_route x));
                  isoformat (tp_updated_at (dr_profile x))])
end.

Fixpoint route_signatures (l : list ResolvedSubscriptionRoute) : res (list string) :=
match l with
| [] => Ok []
| r :: l => x ← _route_signature (rs_row r); xs ← route_signatures l; Ok (x :: xs)
end.

Definition _bundle_client_signature (bundle : ResolvedDeviceBundle) : string :=
join "," ((λ k, rdk_transport k +:+ ":" +:+ rdk_client_id k) <$>
  order_by_asc (λ k, _transport_priority (rdk_transport k)) (rdb_keys bundle)).

Definition _bundle_placement_signature (results : list TransportBuildResult) : string :=
join "," (omap (λ r, match tb_placement_signature r with Some x => if nonempty x then Some x else None | None => None end) results).

Definition _calc_etag (b : Subscription) (signatures : list string) (client placements_ extra : string) : string :=
sha256 (pc_subs cfg) (join "|" [str_uuid (sub_id b); isoformat (sub_updated_at b); default "" (sub_profile_key b);
  default "" (preferred_region b); client; placements_; join "," signatures; extra]).

(** * The answer *)

Definition _build_user_info (b : Subscription) : SM SubscriptionUserInfo :=
plan ← plan_of b;
mret {| ui_upload := 0; ui_download := sub_used_traffic_bytes b;
        ui_total := match plan with Some p => traffic_limit_bytes p | None => 0 end;
        ui_expire := match sub_expires_at b with Some e => e / second | None => 0 end |}.

Definition ends_by (now : Z) (b : Subscription) : bool :=
match sub_expires_at b with Some e => e <=? now | None => false end.

Definition _is_subscription_closed (b : Subscription) : SM bool :=
if negb (sub_is_active b) then mret true
else match sub_expires_at b with
     | Some _ => now ← utcnow; mret (ends_by now b)
     | None => mret false
     end.

(** The token is not looked at. *)
Definition _validate_subscription (b : Subscription) : SM unit :=
now ← utcnow;
raise_if (negb (sub_is_active b)) SubscriptionInactive ;;
raise_if (ends_by now b) SubscriptionExpired.

Definition _build_no_routes_message (diagnostics : list (string * string)) : string :=
match diagnostics with
| [] => "No available routes"
| _ => "No available routes [" +:+
       join ", " ((λ kv : string * string, kv.1 +:+ "=" +:+ kv.2) <$>
         order_by_asc (λ kv : string * string, _transport_priority kv.1) diagnostics) +:+ "]"
end.

Fixpoint build_transports (outside : Outside) (b : Subscription) (max_routes : Z) (l : list ResolvedDeviceKey)
  : SM (list TransportBuildResult * list (string * string)) :=
match l with
| [] => mret ([], [])
| k :: l =>
    r ← _build_transport_routes outside b k max_routes;
    rest ← build_transports outside b max_routes l;
    match tb_routes r, tb_reason r with
    | _ :: _, _ => mret (r :: rest.1, rest.2)
    | [], Some reason => mret (rest.1, (rdk_transport k, reason) :: rest.2)
    | [], None => mret rest
    end
end.

Record PayloadOut := {
  po_payload : string;
  po_etag : string;
  po_not_modified : bool;
  po_user_info : option SubscriptionUserInfo;
}.

(** [if if_none_match and if_none_match == etag]. *)
Definition matches (if_none_match : option string) (etag : string) : bool :=
match if_none_match with Some t => nonempty t && String.eqb t etag | None => false end.

(** The build of a payload for a device of an open subscription. *)
Definition build_for_device (outside : Outside) (b : Subscription) (headers : DeviceClientHeaders) (extra : string)
  : SM (string * string) :=
now ← utcnow;
bundle ← _resolve_device_bundle_for_request (pc_subs cfg) b headers now;
results ← build_transports outside b (clamp_replicas (smart_route_max_count (pc_subs cfg))) (rdb_keys bundle);
let unavailable := SubscriptionBuildUnavailable (_build_no_routes_message results.2) in
raise_if (match results.1 with [] => true | _ => false end) unavailable ;;
let selected := _merge_transport_routes b results.1 in
raise_if (match selected with [] => true | _ => false end) unavailable ;;
let limit := Z.max 512 (response_max_payload_bytes cfg) in
let selected := (_fit_routes_to_payload_limit selected limit).1 in
raise_if (match selected with [] => true | _ => false end) (SubscriptionBuild "Subscription payload exceeds size limit") ;;
signatures ← lift (route_signatures selected);
let payload := _render_subscription_payload selected in
raise_if (limit <? Z.of_nat (String.length payload)) (SubscriptionBuild "Subscription payload exceeds size limit") ;;
_persist_route_assignments (sub_id b) (dev_id (rdb_device bundle)) selected now ;;
mret (payload, _calc_etag b signatures (_bundle_client_signature bundle) (_bundle_placement_signature results.1) extra).

(** What is answered from the cache. *)
Definition cached_answer (token_hash : string) (if_none_match : option string) (c : CacheRead) : SM (option PayloadOut) :=
match c with
| cache_hit payload etag =>
    o ← get_by_any_token_hash token_hash;
    info ← match o with Some b => i ← _build_user_info b; mret (Some i) | None => mret None end;
    mret (if matches if_none_match etag
          then Some {| po_payload := ""; po_etag := etag; po_not_modified := true; po_user_info := info |}
          else (λ p, {| po_payload := p; po_etag := etag; po_not_modified := false; po_user_info := info |}) <$> payload)
| _ => mret None
end.

(** [_wait_for_cached_payload]: a miss is waited for, an error is not. *)
Definition _wait_for_cached_payload (reads : list CacheRead) : CacheRead :=
(fix go l := match l with
             | [] => cache_miss
             | cache_miss :: l => go l
             | c :: _ => c
             end) (take PAYLOAD_BUILD_WAIT_ATTEMPTS reads).

Definition _enforce_rate_limit (current : Z) : SM unit := raise_if (RATE_LIMIT_REQUESTS <? current) SubscriptionRateLimited.

(** The part after the cache. *)
Definition build_fresh (outside : Outside) (token_hash : string) (headers : DeviceClientHeaders) (if_none_match : option string)
  (extra : string) : SM PayloadOut :=
_enforce_rate_limit (request_count outside) ;;
o ← get_by_any_token_hash token_hash;
match o with
| None => raise SubscriptionNotFound
| Some b =>
    closed ← _is_subscription_closed b;
    if closed : bool then
      info ← _build_user_info b;
      mret {| po_payload := ""; po_etag := ""; po_not_modified := false; po_user_info := Some info |}
    else
      _validate_subscription b ;;
      built ← build_for_device outside b headers extra;
      when (0 <? response_cache_ttl_sec cfg) (emit (WritePayloadCache token_hash built.1 built.2)) ;;
      info ← _build_user_info b;
      mret (if matches if_none_match built.2
            then {| po_payload := ""; po_etag := built.2; po_not_modified := true; po_user_info := Some info |}
            else {| po_payload := built.1; po_etag := built.2; po_not_modified := false; po_user_info := Some info |})
end.

Definition build_payload (outside : Outside) (raw_token : string) (headers : DeviceClientHeaders) (if_none_match : option string)
  (extra : string) : SM PayloadOut :=
let token_hash := hash (sub_tokens (pc_subs cfg)) raw_token in
if response_cache_ttl_sec cfg <=? 0 then build_fresh outside token_hash headers if_none_match extra
else
  hit ← cached_answer token_hash if_none_match (cached outside);
  match hit with
  | Some out => mret out
  | None =>
      waited ← (if lock_free outside then mret None
                else cached_answer token_hash if_none_match (_wait_for_cached_payload (awaited outside)));
      match waited with
      | Some out => mret out
      | None => build_fresh outside token_hash headers if_none_match extra
      end
  end.
End Payload.
