(* ===== verification/Nodes.v ===== *)
(** The node service (services/nodes/service.py), the agent states and identities
    it keeps (services/nodes/repository.py), the token check of an agent
    (services/nodes/auth_utils.py, services/auth/dependencies.py) and the drain
    endpoints (services/nodes/router.py). *)

From stdpp Require Import base gmap strings list sorting pretty.
From Stdlib Require Import Ascii.
From S2P Require Import Prelude Decimal Errors RouteModels BillingModels FleetModels Session Uuid NodeDisplay WgAllocator Tables FleetTables Routing Placements Routes ProbeRepo AgentDetails Entry.
Local Open Scope Z_scope.

(** * Repositories *)

Definition get_by_node_key (key : string) : SM (option VpnNode) :=
  l ← select_where nodes_tbl (λ n, sql_eqb (node_key n) (Some key));
  scalar_one_or_none l.

Definition get_node_by_name (name : string) : SM (option VpnNode) :=
  l ← select_where nodes_tbl (λ n, String.eqb (node_name n) name);
  scalar_one_or_none l.

Definition list_by_internal_ip (source_ip : string) : SM (list VpnNode) :=
  l ← select_where nodes_tbl (λ n, String.eqb (internal_wg_ip n) source_ip);
  mret (order_by_desc node_updated_at l).

Definition list_used_wg_ips : SM (list string) :=
  l ← select_where nodes_tbl (λ n, nonempty (internal_wg_ip n));
  mret (filter (λ a, nonempty a = true) (py_strip ∘ internal_wg_ip <$> l)).

Definition get_by_auth_token_hash (token_hash : string) : SM (option VpnNode) :=
  l ← select_where nodes_tbl (λ n, String.eqb (auth_token_hash n) token_hash);
  scalar_one_or_none l.

(** [get_one_by(node_id=...)]; the column is unique. *)
Definition get_agent_state (nid : Z) : SM (option NodeAgentState) :=
  l ← select_where agent_states_tbl (λ a, as_node_id a =? nid);
  scalar_one_or_none l.

(** [NodeAgentStateRepository.upsert]: on a conflict the version, the health, the
    time and the details are replaced, the sync columns stay. *)
Definition upsert_agent_state (nid : Z) (version : string) (healthy_ : bool) (seen : Z)
    (sync : option Z) (config : option Z) (details_ : list (string * json)) : SM unit :=
  existing ← get_agent_state nid;
  match existing with
  | Some a =>
      update_by_id agent_states_tbl (as_id a) (λ a,
        {| as_id := as_id a; as_node_id := as_node_id a; agent_version := version;
           last_config_version := last_config_version a; last_sync_at := last_sync_at a;
           last_seen_at := Some seen; is_healthy := healthy_; details := details_ |}) ;;
      mret tt
  | None =>
      create agent_states_tbl (λ id _,
        {| as_id := id; as_node_id := nid; agent_version := version;
           last_config_version := default 0 config; last_sync_at := sync;
           last_seen_at := Some seen; is_healthy := healthy_; details := details_ |}) ;;
      mret tt
  end.

Definition get_by_node_and_instance (nid instance : Z) : SM (option NodeAgentIdentity) :=
  l ← select_where identities_tbl (λ i, (ai_node_id i =? nid) && (agent_instance_id i =? instance));
  scalar_one_or_none l.

Definition rotated (token_hash : string) (previous_valid_until : option Z) (resync : bool) (now : Z)
    (i : NodeAgentIdentity) : NodeAgentIdentity :=
  {| ai_id := ai_id i; ai_node_id := ai_node_id i; agent_instance_id := agent_instance_id i;
     ai_auth_token_hash := token_hash; prev_auth_token_hash := Some (ai_auth_token_hash i);
     prev_auth_token_valid_until := previous_valid_until; full_resync_required := resync;
     last_bootstrap_at := Some now; ai_updated_at := ai_updated_at i |}.

(** [upsert_token]: the pair of a node and an instance is unique. *)
Definition upsert_token (nid instance : Z) (token_hash : string) (previous_valid_until : option Z)
    (resync : bool) : SM unit :=
  now ← utcnow;
  existing ← get_by_node_and_instance nid instance;
  match existing with
  | Some i =>
      update_by_id identities_tbl (ai_id i) (rotated token_hash previous_valid_until resync now) ;; mret tt
  | None =>
      create identities_tbl (λ id created,
        {| ai_id := id; ai_node_id := nid; agent_instance_id := instance;
           ai_auth_token_hash := token_hash; prev_auth_token_hash := None;
           prev_auth_token_valid_until := None; full_resync_required := resync;
           last_bootstrap_at := Some now; ai_updated_at := created |}) ;; mret tt
  end.

(** [... .limit(2)]: the identity, when exactly one matches. *)
Definition get_by_instance_and_token_hash (instance : Z) (token_hash : string)
    : SM (option NodeAgentIdentity) :=
  l ← select_where identities_tbl (λ i, (agent_instance_id i =? instance) &&
        (String.eqb (ai_auth_token_hash i) token_hash ||
         sql_eqb (prev_auth_token_hash i) (Some token_hash)));
  mret (match l with [i] => Some i | _ => None end).

Definition clear_full_resync_required_for_node (nid : Z) : SM unit :=
  now ← utcnow;
  update_where identities_tbl (λ i, ai_node_id i =? nid) (λ i,
    {| ai_id := ai_id i; ai_node_id := ai_node_id i; agent_instance_id := agent_instance_id i;
       ai_auth_token_hash := ai_auth_token_hash i; prev_auth_token_hash := prev_auth_token_hash i;
       prev_auth_token_valid_until := prev_auth_token_valid_until i; full_resync_required := false;
       last_bootstrap_at := last_bootstrap_at i; ai_updated_at := now |}) ;;
  mret tt.

(** * Authentication of an agent *)

Definition identity_accepts_token (i : NodeAgentIdentity) (token_hash : string) (now : Z) : bool :=
  if String.eqb (ai_auth_token_hash i) token_hash then true
  else match prev_auth_token_hash i with
       | None => false
       | Some prev =>
           if nonempty prev && String.eqb prev token_hash
           then match prev_auth_token_valid_until i with Some t => now <=? t | None => false end
           else false
       end.

Definition invalid_token {A} : SM A := raise (HTTPException 401 "Invalid node token").

(** [node_auth], given the headers and the hash of the bearer token. *)
Definition node_auth (x_node_id x_agent_instance_id : option Z) (token_hash : option string) : SM VpnNode :=
  now ← utcnow;
  match token_hash, x_agent_instance_id with
  | None, _ => raise (HTTPException 401 "Authorization header required")
  | _, None => raise (HTTPException 401 "X-Agent-Instance-ID header required")
  | Some token_hash, Some instance =>
      direct ← match x_node_id with
               | None => mret None
               | Some nid =>
                   node ← get_by_id nodes_tbl nid;
                   match node with
                   | None => mret None
                   | Some n =>
                       identity ← get_by_node_and_instance (node_id n) instance;
                       mret (match identity with
                             | Some i => if identity_accepts_token i token_hash now then Some n else None
                             | None => None
                             end)
                   end
               end;
      match direct with
      | Some n => mret n
      | None =>
          identity ← get_by_instance_and_token_hash instance token_hash;
          match identity with
          | None => invalid_token
          | Some i =>
              if identity_accepts_token i token_hash now then
                node ← get_by_id nodes_tbl (ai_node_id i);
                match node with Some n => mret n | None => invalid_token end
              else invalid_token
          end
      end
  end.

(** [node_install_auth], given the hash of the bootstrap token. *)
Definition node_install_auth (token_hash : option string) : SM VpnNode :=
  match token_hash with
  | None => raise (HTTPException 401 "Bootstrap token required")
  | Some h =>
      node ← get_by_auth_token_hash h;
      match node with
      | None => raise (HTTPException 401 "Invalid bootstrap token")
      | Some n =>
          raise_if (negb (node_is_active n)) (HTTPException 401 "Invalid bootstrap token") ;;
          raise_if (match bootstrapped_at n with Some _ => true | None => false end)
            (HTTPException 409 "Node already bootstrapped; rotate token via admin API") ;;
          match bootstrap_token_expires_at n with
          | None => mret n
          | Some t =>
              now ← utcnow;
              raise_if (t <=? now) (HTTPException 401 "Bootstrap token expired") ;;
              mret n
          end
      end
  end.

(** * The service *)

(** The settings the service reads; the debounce and the grace are clamped at 0. *)
Record NodeConfig := {
  sync_report_debounce_sec : Z;
  auth_token_rotation_grace_sec : Z;
  bootstrap_allow_create : bool;
  mesh_network : IPv4Network;
  bootstrap_token_ttl_sec : Z;
  public_base_url : string;
  has_notifications : bool;
  cfg_command_prefix : string;
  cfg_reality_port : Z;
  node_tokens : TokenSource;
}.

Section NodeService.
Context (cfg : NodeConfig).

(** [secrets.token_urlsafe(32)] and its hash. *)
Definition _mint_bootstrap_token : SM (string * string) :=
n ← uuid4;
let raw := generate (node_tokens cfg) n in
mret (raw, hash (node_tokens cfg) raw).

(** ** Bootstrap *)

Definition ALLOWED_NODE_ROLES : list string := ["backend"; "entry"; "whitelist_entry"].

Definition _normalize_bootstrap_node_role (node_role : option string) : string :=
match node_role with
| Some r => if bool_decide (r ∈ ALLOWED_NODE_ROLES) then r else ROLE_BACKEND
| None => ROLE_BACKEND
end.

Definition _allocate_wg_ip : SM string :=
used ← list_used_wg_ips;
match allocate_next_ip (mesh_network cfg) used 1 with
| Ok ip => mret ip
| Raise WgMeshAddressPoolExhaustedError => raise (NodeBootstrapConflictError "no free addresses left")
| Raise e => raise e
end.

(** [s.replace(".", "-")]. *)
Definition dashed (s : string) : string :=
map_string (λ c, if bool_decide (c = "."%char) then "-"%char else c) s.

Definition _build_node_name (source_ip node_key : string) : string :=
take_chars 64 ("node-" +:+ dashed source_ip +:+ "-" +:+ take_chars 8 node_key).

Record NodeAgentInitialOut := {
  nio_node_id : Z;
  nio_node_auth_token : string;
  nio_agent_instance_id : Z;
  nio_full_resync_required : bool;
}.

Definition key_update (key : string) (wg_ip : option string) : VpnNodeUpdate :=
{| nu_name := None; nu_role := None; nu_region := None; nu_public_domain := None;
   nu_reality_ip := None; nu_internal_wg_ip := wg_ip; nu_node_key := Some (Some key);
   nu_auth_token_hash := None; nu_is_enabled := None; nu_is_draining := None;
   nu_drain_source := None; nu_capacity := None; nu_zone := None; nu_upstream_node_id := None;
   nu_bootstrap_token_expires_at := None; nu_bootstrapped_at := None; nu_updated_at := None |}.

(** [VpnNodeCreate] with the defaults of the model. *)
Definition new_node (name role region public_domain_ wg_ip : string) (reality : option string)
  (key : option string) (token_hash : string) (capacity : Z) (zone : option string)
  (token_expires : option Z) (id now : Z) : VpnNode :=
{| node_id := id; node_name := name; node_role := role; node_region := region;
   public_domain := public_domain_; reality_ip := reality; internal_wg_ip := wg_ip;
   node_key := key; xray_api_port := 10085; auth_token_hash := token_hash; agent_port := 9000;
   is_enabled := true; is_draining := false; is_virtual := false; drain_source := None;
   node_capacity := capacity; node_zone := zone; upstream_node_id := None;
   bootstrap_token_expires_at := token_expires; bootstrapped_at := None; wg_public_key := None;
   wg_listen_port := None; node_is_active := true; node_created_at := now; node_updated_at := now |}.

(** The node an agent is: by its key, else an unclaimed node of that name, else the
    only node with its address. *)
Definition claim_by_name (key : string) : SM (option Z) :=
candidate ← get_node_by_name key;
match candidate with
| Some n =>
    match node_key n with
    | Some _ => mret None
    | None =>
        ip ← (if nonempty (py_strip (internal_wg_ip n)) then mret None
              else ip ← _allocate_wg_ip; mret (Some ip));
        update_by_id nodes_tbl (node_id n) (patch_node (key_update key ip)) ;;
        mret (Some (node_id n))
    end
| None => mret None
end.

Definition claim_by_address (source_ip key : string) : SM (option Z) :=
same_ip ← list_by_internal_ip source_ip;
match same_ip with
| [] => mret None
| [n] => update_by_id nodes_tbl (node_id n) (patch_node (key_update key None)) ;; mret (Some (node_id n))
| _ => raise (NodeBootstrapConflictError "Ambiguous node recovery: multiple nodes share source IP.")
end.

Definition find_claimed (source_ip key : string) : SM (option Z) :=
by_key ← get_by_node_key key;
match by_key with
| Some n => mret (Some (node_id n))
| None =>
    by_name ← claim_by_name key;
    match by_name with
    | Some i => mret (Some i)
    | None => claim_by_address source_ip key
    end
end.

Definition initial (source_ip node_key : string) (node_role : option string) (agent_instance_id : Z)
  : SM NodeAgentInitialOut :=
let key := py_strip node_key in
raise_if (negb (nonempty key)) (ValueError "node_key cannot be empty") ;;
let role := _normalize_bootstrap_node_role node_role in
claimed ← find_claimed source_ip key;
'(raw_token, token_hash) ← _mint_bootstrap_token;
now ← utcnow;
let previous_token_valid_until := now + Z.max 0 (auth_token_rotation_grace_sec cfg) * second in
nid ← match claimed with
      | Some i => mret i
      | None =>
          raise_if (negb (bootstrap_allow_create cfg))
            (NodeBootstrapConflictError "Unknown node identity and auto-create is disabled.") ;;
          ip ← _allocate_wg_ip;
          n ← create nodes_tbl (new_node (_build_node_name source_ip key) role "unknown" "" ip None
                                  (Some key) token_hash 100 None None);
          mret (node_id n)
      end;
upsert_token nid agent_instance_id token_hash (Some previous_token_valid_until) true ;;
mret {| nio_node_id := nid; nio_node_auth_token := raw_token;
        nio_agent_instance_id := agent_instance_id; nio_full_resync_required := true |}.

(** ** Heartbeats *)

Record HeartbeatMesh := { peers_total : Z; peers_healthy : Z; oldest_handshake_age_sec : Z }.
Record HeartbeatUpstream := { configured : bool; upstream_apply_failures : Z }.

(** [NodeHeartbeatIn]: what the service reads of it, and the sections of the details
    as they are dumped into the state. *)
Record NodeHeartbeatIn := {
  hb_agent_version : string;
  hb_is_healthy : bool;
  runtime_ready : bool;
  pool_apply_failures : option Z;
  hb_upstream : option HeartbeatUpstream;
  hb_mesh : option HeartbeatMesh;
  hb_runtime_dump : json;
  hb_stats_dump : json;
  hb_pool_dump : option json;
  hb_upstream_dump : option json;
  hb_mesh_dump : option json;
}.

(** [NodeAgentDetails(...).model_dump(mode="json", exclude_none=True)]: the [sync]
    section is not among those of a heartbeat. *)
Definition heartbeat_details (p : NodeHeartbeatIn) : list (string * json) :=
let opt key (v : option json) := match v with Some j => [(key, j)] | None => [] end in
[("runtime", hb_runtime_dump p); ("stats", hb_stats_dump p)] ++
opt "pool" (hb_pool_dump p) ++ opt "upstream" (hb_upstream_dump p) ++ opt "mesh" (hb_mesh_dump p).

Definition _effective_heartbeat_health (p : NodeHeartbeatIn) : SM bool :=
if negb (hb_is_healthy p && runtime_ready p) then mret false
else
  policy ← node_policy;
  if negb (entry_apply_fail_unhealthy policy) then mret true
  else
    let threshold := Z.max 1 (entry_apply_fail_threshold policy) in
    if match pool_apply_failures p with Some n => threshold <=? n | None => false end then mret false
    else mret (negb (match hb_upstream p with
                     | Some u => configured u && (threshold <=? upstream_apply_failures u)
                     | None => false
                     end)).

(** [repo.find_active_by_dedup(source=..., dedup_key=...)]: the keyword-only
    argument [within_seconds] is missing from the call. *)
Definition find_active_without_window (source dedup_key : string) : SM (option AlertEvent) :=
raise TypeError.

(** The body of [_emit_node_down_alert] and of [_emit_route_blocked_alert], whose
    exceptions are logged and dropped; the time at the end of the alert's text is left
    out. *)
Definition emit_alert (level source title body dedup_key entity_id : string) : SM unit :=
catch
  (existing ← find_active_without_window source dedup_key;
   match existing with
   | Some a => bump_existing a false ;; mret tt
   | None => insert_alert level source title body (Some dedup_key) (Some entity_id) false ;; mret tt
   end)
  (λ _, mret tt).

Definition _emit_node_down_alert (n : VpnNode) : SM unit :=
emit_alert "critical" "generic" "Сервер упал" (node_name n +:+ " (" +:+ node_region n +:+ ")")
  ("node-down:" +:+ str_uuid (node_id n)) (str_uuid (node_id n)).

Definition _emit_mesh_alert (n : VpnNode) (mesh : option HeartbeatMesh) : SM unit :=
match mesh with
| None => mret tt
| Some m =>
    if peers_total m =? 0 then mret tt
    else
      let dedup_key := "mesh-degraded:" +:+ str_uuid (node_id n) in
      catch
        (if peers_total m <=? peers_healthy m then resolve_active "mesh" dedup_key ;; mret tt
         else
           existing ← find_active_by_dedup "mesh" dedup_key DEDUP_WINDOW_SEC;
           match existing with
           | Some a => bump_existing a false ;; mret tt
           | None =>
               insert_alert "warning" "mesh" "WG-меш деградировал"
                 (node_name n +:+ " (" +:+ node_region n +:+ "): " +:+
                  pretty (peers_total m - peers_healthy m) +:+ "/" +:+ pretty (peers_total m) +:+
                  " пиров без хендшейка (старейший " +:+ pretty (oldest_handshake_age_sec m) +:+ "с)")
                 (Some dedup_key) (Some (str_uuid (node_id n))) false ;; mret tt
           end)
        (λ _, mret tt)
end.

Definition with_drain (m : NodeHeartbeatMeta) (reason : option string) (at_ : option Z) : NodeHeartbeatMeta :=
{| consecutive_unhealthy := consecutive_unhealthy m; consecutive_healthy := consecutive_healthy m;
   drain_reason := reason; drained_at := at_ |}.

Definition fan_out (n : VpnNode) : SM unit :=
when (String.eqb (node_role n) ROLE_BACKEND)
  (enqueue_pool_snapshots_for_backend (cfg_command_prefix cfg) (cfg_reality_port cfg) (node_id n) ;; mret tt).

Definition should_drain (n : VpnNode) (healthy_ : bool) (m : NodeHeartbeatMeta) (threshold : Z) : bool :=
negb healthy_ && negb (is_draining n) && (threshold <=? consecutive_unhealthy m).

Definition should_undrain (n : VpnNode) (healthy_ : bool) (m : NodeHeartbeatMeta) (threshold : Z) : bool :=
healthy_ && is_draining n && node_is_active n && is_enabled n &&
negb (sql_eqb (drain_source n) (Some "admin")) &&
match drain_reason m with
| None => true
| Some r => String.eqb r DRAIN_REASON_UNHEALTHY_HEARTBEAT
end && (threshold <=? consecutive_healthy m).

Definition drain_by_heartbeat (n : VpnNode) (state : option NodeAgentState) (m : NodeHeartbeatMeta) (now : Z)
  : SM NodeHeartbeatMeta :=
update_by_id nodes_tbl (node_id n) (patch_node (drain_update true (Some "auto_heal"))) ;;
fan_out n ;;
_emit_node_down_alert n ;;
match state ≫= last_seen_at with
| Some seen => when (has_notifications cfg)
    (emit (PublishNodeDown (node_id n) (node_name n) (node_region n) seen 0 (Z.quot now second)))
| None => mret tt
end ;;
mret (with_drain m (Some DRAIN_REASON_UNHEALTHY_HEARTBEAT) (Some now)).

(** [int((now - drained_at).total_seconds())], clamped; [drained_at] is the one of
    the new meta. *)
Definition undrain_by_heartbeat (n : VpnNode) (m : NodeHeartbeatMeta) (now : Z) : SM NodeHeartbeatMeta :=
update_by_id nodes_tbl (node_id n) (patch_node (drain_update false None)) ;;
fan_out n ;;
when (has_notifications cfg)
  (emit (PublishNodeRecovered (node_id n) (node_name n) (node_region n)
     (match drained_at m with Some t => Z.max 0 (Z.quot (now - t) second) | None => 0 end)
     (Z.quot (default now (drained_at m)) second))) ;;
mret (with_drain m None None).

Definition handle_heartbeat (n : VpnNode) (payload : NodeHeartbeatIn) : SM unit :=
now ← utcnow;
healthy_ ← _effective_heartbeat_health payload;
state ← get_agent_state (node_id n);
let base := match state with Some a => details a | None => [] end in
let m := _next_heartbeat_meta base healthy_ in
policy ← node_policy;
m ← (if should_drain n healthy_ m (Z.max 1 (heartbeat_unhealthy_drain_threshold policy))
     then drain_by_heartbeat n state m now else mret m);
m ← (if should_undrain n healthy_ m (Z.max 1 (heartbeat_healthy_undrain_threshold policy))
     then undrain_by_heartbeat n m now else mret m);
upsert_agent_state (node_id n) (hb_agent_version payload) healthy_ now None None
  (dict_set HEARTBEAT_DETAILS_KEY (JObj (dump_meta m)) (heartbeat_details payload)) ;;
_emit_mesh_alert n (hb_mesh payload).

(** ** Sync reports *)

Record NodeSyncReportIn := {
  sr_synced_count : Z;
  sr_config_version : option Z;
  sr_inventory_hash : option string;
  sr_inventory_count : option Z;
  sr_full_resync_completed : option bool;
}.

(** The [sync] section: [NodeSyncDetails] dumped with [exclude_none]. *)
Definition dump_sync (p : NodeSyncReportIn) (now : Z) : json :=
JObj ([("synced_count", JInt (sr_synced_count p)); ("reported_at", JTime now)] ++
  match sr_inventory_hash p with Some h => [("inventory_hash", JStr h)] | None => [] end ++
  match sr_inventory_count p with Some c => [("inventory_count", JInt c)] | None => [] end ++
  match sr_full_resync_completed p with Some b => [("full_resync_completed", JBool b)] | None => [] end).

(** The section that details hold, as the fields of [NodeSyncDetails]; [None] when
    there is none. *)
Definition sync_section (l : list (string * json)) : option (list (string * json)) :=
match dict_get "sync" l with Some (JObj fields) => Some fields | _ => None end.

Definition opt_eqb {A} `{EqDecision A} (a b : option A) : bool := bool_decide (a = b).

Definition get_int (key : string) (f : list (string * json)) : option Z :=
match dict_get key f with Some (JInt z) => Some z | _ => None end.
Definition get_str (key : string) (f : list (string * json)) : option string :=
match dict_get key f with Some (JStr x) => Some x | _ => None end.
Definition get_bool (key : string) (f : list (string * json)) : option bool :=
match dict_get key f with Some (JBool x) => Some x | _ => None end.

Definition _is_debounced_sync_report (state : option NodeAgentState) (p : NodeSyncReportIn) (now : Z) : bool :=
let debounce := Z.max 0 (sync_report_debounce_sec cfg) in
match state with
| None => false
| Some a =>
    if debounce <=? 0 then false
    else match sr_config_version p, last_sync_at a with
         | Some v, Some last =>
             if negb (last_config_version a =? v) then false
             else if debounce * second <=? now - last then false
             else
               let sync := default [] (sync_section (details a)) in
               if negb (opt_eqb (get_int "synced_count" sync) (Some (sr_synced_count p))) then false
               else if negb (opt_eqb (get_str "inventory_hash" sync) (sr_inventory_hash p)) then false
               else if negb (opt_eqb (get_int "inventory_count" sync) (sr_inventory_count p)) then false
               else opt_eqb (get_bool "full_resync_completed" sync) (sr_full_resync_completed p)
         | _, _ => false
         end
end.

Definition synced (now : Z) (config : option Z) (l : list (string * json)) (a : NodeAgentState) : NodeAgentState :=
{| as_id := as_id a; as_node_id := as_node_id a; agent_version := agent_version a;
   last_config_version := default (last_config_version a) config; last_sync_at := Some now;
   last_seen_at := last_seen_at a; is_healthy := is_healthy a; details := l |}.

(** Whether the report was accepted; the other sections of the details are dumped as
    they were. *)
Definition handle_sync_report (n : VpnNode) (payload : NodeSyncReportIn) : SM bool :=
now ← utcnow;
state ← get_agent_state (node_id n);
if _is_debounced_sync_report state payload now then mret false
else
  match state with
  | None =>
      upsert_agent_state (node_id n) "unknown" true now (Some now) (sr_config_version payload)
        [("sync", dump_sync payload now)] ;;
      clear_full_resync_required_for_node (node_id n) ;;
      mret true
  | Some a =>
      update_where agent_states_tbl (λ x, as_node_id x =? node_id n)
        (synced now (sr_config_version payload) (dict_set "sync" (dump_sync payload now) (details a))) ;;
      clear_full_resync_required_for_node (node_id n) ;;
      mret true
  end.

(** ** Administration *)

Definition _validated_zone (raw : option string) : res (option string) :=
match raw with
| None => Ok None
| Some raw =>
    let candidate := lower (py_strip raw) in
    if negb (nonempty candidate) then Ok None
    else if bool_decide (candidate ∈ VALID_ZONES) then Ok (Some candidate)
    else Raise (AdminNodeCreateError "zone must be one of: africa, americas, asia, europe, oceania, unknown")
end.

Definition admin_not_found (nid : Z) : exn := AdminNodeNotFoundError ("node " +:+ str_uuid nid +:+ " not found").

Definition admin_update_node (nid : Z) (data : VpnNodeUpdate) : SM (option VpnNode) :=
node ← get_by_id nodes_tbl nid;
match node with
| None => raise (admin_not_found nid)
| Some n =>
    let prev_role := node_role n in
    let new_role := default prev_role (nu_role data) in
    updated ← update_by_id nodes_tbl nid (patch_node data);
    when (String.eqb prev_role ROLE_BACKEND && negb (String.eqb new_role ROLE_BACKEND))
      (affected ← deactivate_placements_on_node nid ("role_swap:" +:+ prev_role +:+ "->" +:+ new_role);
       delete_where route_assignments_tbl (λ r, sra_entry_node_id r =? nid) ;;
       match affected with
       | [] => mret tt
       | _ => enqueue_for_placement_ids (cfg_command_prefix cfg) affected
       end) ;;
    mret updated
end.

Record AdminNodeCreateIn := {
  anc_name : string;
  anc_role : string;
  anc_region : string;
  anc_public_domain : string;
  anc_reality_ip : option string;
  anc_internal_wg_ip : string;
  anc_capacity : Z;
  anc_zone : option string;
}.

Definition _bootstrap_token_expires_at : SM Z :=
now ← utcnow; mret (now + bootstrap_token_ttl_sec cfg * second).

Definition _render_install_command (raw_token : string) : string :=
if nonempty (public_base_url cfg)
then "curl -fsSL '" +:+ public_base_url cfg +:+ "/api/v1/agent/install.sh?token=" +:+ raw_token +:+
     "' | sudo bash"
else "# Set CONTROL_API_PUBLIC_URL in control-api env to render a real one-liner." +:+
     String "010"%char ("# token=" +:+ raw_token).

Record AdminNodeCreateOut := {
  aco_node : VpnNode;
  aco_bootstrap_token : string;
  aco_expires_at : Z;
  aco_install_command : string;
}.

(** [(x or "").strip() or None]. *)
Definition stripped_or_none (x : option string) : option string :=
let t := py_strip (default "" x) in if nonempty t then Some t else None.

Definition admin_create_node (payload : AdminNodeCreateIn) : SM AdminNodeCreateOut :=
let role := py_strip (anc_role payload) in
raise_if (negb (bool_decide (role ∈ ALLOWED_NODE_ROLES)))
  (AdminNodeCreateError "role must be one of: backend, entry, whitelist_entry") ;;
let name := py_strip (anc_name payload) in
raise_if (negb (nonempty name)) (AdminNodeCreateError "name is required") ;;
existing ← get_node_by_name name;
raise_if (match existing with Some _ => true | None => false end)
  (AdminNodeCreateError ("node with name '" +:+ name +:+ "' already exists")) ;;
'(raw_token, token_hash) ← _mint_bootstrap_token;
expires_at ← _bootstrap_token_expires_at;
zone ← lift (_validated_zone (anc_zone payload));
let region := py_strip (anc_region payload) in
node ← create nodes_tbl (new_node name role (if nonempty region then region else "unknown")
         (py_strip (anc_public_domain payload)) (py_strip (anc_internal_wg_ip payload))
         (stripped_or_none (anc_reality_ip payload)) None token_hash (anc_capacity payload) zone
         (Some expires_at));
mret {| aco_node := node; aco_bootstrap_token := raw_token; aco_expires_at := expires_at;
        aco_install_command := _render_install_command raw_token |}.

Definition bootstrap_update (token_hash : option string) (expires bootstrapped : option (option Z))
  : VpnNodeUpdate :=
{| nu_name := None; nu_role := None; nu_region := None; nu_public_domain := None;
   nu_reality_ip := None; nu_internal_wg_ip := None; nu_node_key := None;
   nu_auth_token_hash := token_hash; nu_is_enabled := None; nu_is_draining := None;
   nu_drain_source := None; nu_capacity := None; nu_zone := None; nu_upstream_node_id := None;
   nu_bootstrap_token_expires_at := expires; nu_bootstrapped_at := bootstrapped;
   nu_updated_at := None |}.

Definition admin_rotate_bootstrap_token (nid : Z) : SM (string * Z) :=
node ← get_by_id nodes_tbl nid;
match node with
| None => raise (admin_not_found nid)
| Some n =>
    raise_if (negb (node_is_active n)) (admin_not_found nid) ;;
    raise_if (match bootstrapped_at n with Some _ => true | None => false end)
      (AdminNodeAlreadyBootstrappedError ("node " +:+ str_uuid nid +:+ " already bootstrapped")) ;;
    '(raw_token, token_hash) ← _mint_bootstrap_token;
    expires_at ← _bootstrap_token_expires_at;
    update_by_id nodes_tbl (node_id n)
      (patch_node (bootstrap_update (Some token_hash) (Some (Some expires_at)) None)) ;;
    mret (raw_token, expires_at)
end.

Definition mark_bootstrapped (n : VpnNode) : SM Z :=
now ← utcnow;
update_by_id nodes_tbl (node_id n) (patch_node (bootstrap_update None (Some None) (Some (Some now)))) ;;
mret now.

(** ** The endpoints *)

Definition node_missing {A} : SM A := raise (HTTPException 404 "Node not found").

Definition drain_node (nid : Z) : SM unit :=
node ← get_by_id nodes_tbl nid;
match node with
| None => node_missing
| Some n =>
    update_by_id nodes_tbl nid (patch_node (drain_update true (Some "admin"))) ;;
    fan_out n
end.

Definition enable_update : VpnNodeUpdate :=
{| nu_name := None; nu_role := None; nu_region := None; nu_public_domain := None;
   nu_reality_ip := None; nu_internal_wg_ip := None; nu_node_key := None;
   nu_auth_token_hash := None; nu_is_enabled := Some true; nu_is_draining := Some false;
   nu_drain_source := Some None; nu_capacity := None; nu_zone := None; nu_upstream_node_id := None;
   nu_bootstrap_token_expires_at := None; nu_bootstrapped_at := None; nu_updated_at := None |}.

Definition enable_node (nid : Z) : SM unit :=
node ← get_by_id nodes_tbl nid;
match node with
| None => node_missing
| Some n =>
    update_by_id nodes_tbl nid (patch_node enable_update) ;;
    fan_out n
end.
End NodeService.
