(* ===== verification/Probe.v ===== *)
(** Ingestion of probe reports (services/probe/ingestion_service.py): the stored
    signal, what it makes of a route, the repair of a backend, and the targets the
    probes are given. *)

From stdpp Require Import base gmap strings list sorting pretty.
From S2P Require Import Prelude Decimal Errors RouteModels RouteStateMachine BillingModels FleetModels Session Uuid NodeDisplay WgAllocator Tables FleetTables Routing Placements Keys Routes ProbeRepo AgentDetails Entry Nodes.
Local Open Scope Z_scope.

(** * Constants and schemas *)

Definition SYNTHETIC_REPAIR_REASON : string := "probe_synthetic_self_heal".
Definition SYNTHETIC_REPAIR_COOLDOWN_SEC : Z := 300.
Definition MESH_HEALTHY_MAX_AGE_SEC : Z := 600.

Record ProbeReportIn := {
  pri_node_id : Z;
  pri_route_id : option Z;
  pri_transport_profile_id : option Z;
  pri_transport_kind : option string;
  pri_probe_kind : string;
  pri_target_host : option string;
  pri_target_port : option Z;
  pri_error_phase : option string;
  pri_source : string;
  pri_is_reachable : bool;
  pri_latency_ms : option Z;
  pri_error : option string;
  pri_checked_at : option Z;
  pri_details : list (string * json);
}.

Record ProbeSyntheticClientIds := {
  psc_reality : option string;
  psc_ws : option string;
  psc_xhttp : option string;
}.

(** [normalize_optional_client_id]. *)
Definition normalize_optional_client_id (value : option string) : option string :=
  match value with
  | None => None
  | Some v => let t := py_strip v in if nonempty t then Some t else None
  end.

Definition configured_transports (c : ProbeSyntheticClientIds) : list (string * string) :=
  omap (λ p, (λ v, (p.1, v)) <$> normalize_optional_client_id p.2)
    [("reality", psc_reality c); ("ws", psc_ws c); ("xhttp", psc_xhttp c)].

Record ProbeTargetOut := {
  pt_node_id : Z;
  pt_route_id : option Z;
  pt_route_name : option string;
  pt_transport_profile_id : option Z;
  pt_transport_profile_name : option string;
  pt_transport_kind : option string;
  pt_probe_kind : string;
  pt_node_name : string;
  pt_region : string;
  pt_probe_client_id : option string;
  pt_target_host : string;
  pt_target_port : Z;
  pt_tls_sni : option string;
  pt_tls_fingerprint : option string;
  pt_ws_host : option string;
  pt_ws_path : option string;
  pt_xhttp_host : option string;
  pt_xhttp_path : option string;
  pt_xhttp_mode : option string;
  pt_xhttp_alpn : option string;
  pt_xhttp_extra : option (list (string * json));
  pt_reality_public_key : option string;
  pt_reality_short_id : option string;
  pt_reality_server_name : option string;
  pt_flow : option string;
}.

(** shared/profiles/constants.py *)
Definition WS_TLS_DEFAULT_PATH : string := "/api/v1/stream".
Definition XHTTP_DEFAULT_PATH : string := "/".
Definition XHTTP_DEFAULT_MODE : string := "packet-up".
Definition XHTTP_DEFAULT_ALPN : string := "h2,http/1.1".
Definition XHTTP_DEFAULT_EXTRA : list (string * json) :=
  [("uplinkHTTPMethod", JStr "GET"); ("xPaddingKey", JStr "_dc"); ("xPaddingHeader", JStr "X-Client-Version");
   ("xPaddingMethod", JStr "tokenish"); ("xPaddingObfsMode", JBool true);
   ("xPaddingPlacement", JStr "queryInHeader")].

(** * Nodes *)

(** [VpnNodeRepository.list_public()] and [list()]. *)
Definition list_public : SM (list VpnNode) := select_where nodes_tbl node_is_active.
Definition list_all_nodes : SM (list VpnNode) :=
  l ← select_where nodes_tbl (λ _, true); mret (order_by_desc node_id l).

(** * Targets *)

Definition _transport_kind_for_profile (p : TransportProfile) : option string :=
  if String.eqb (security p) "reality" && String.eqb (network p) "tcp" then Some "reality"
  else if String.eqb (security p) "tls" && String.eqb (network p) "ws" then Some "ws"
  else if String.eqb (security p) "tls" && String.eqb (network p) "xhttp" then Some "xhttp"
  else None.

Definition _matches_target_role (n : VpnNode) (role : string) : bool :=
  String.eqb role "all" || String.eqb (node_role n) role.

Record ProbeConfig := {
  pc_target_port : Z;
  pc_edge_public_domain : string;
  pc_synthetic_client_ids : ProbeSyntheticClientIds;
  pc_has_notifications : bool;
  pc_command_prefix : string;
  pc_reality_port : Z;
}.

(** [x or y] on optional text. *)
Definition or_text (x y : option string) : option string := if truthy x then x else y.

(** A node the flags leave out. *)
Definition left_out (n : VpnNode) (include_disabled include_draining : bool) : bool :=
  (negb include_disabled && negb (is_enabled n)) || (negb include_draining && is_draining n).

Section Ingestion.
Context (cfg : ProbeConfig).

Definition _build_probe_target (route : Route) (node : VpnNode) (tp : TransportProfile)
  (include_disabled include_draining : bool) (probe_client_id : option string) : option ProbeTargetOut :=
if left_out node include_disabled include_draining then None
else if String.eqb (security tp) "reality" && String.eqb (network tp) "tcp" then
  if truthy (reality_ip node) && truthy (reality_server_name tp) && truthy (reality_public_key tp) &&
     truthy (reality_short_id tp)
  then Some
    {| pt_node_id := node_id node; pt_route_id := Some (route_id route);
       pt_route_name := Some (route_name route); pt_transport_profile_id := Some (tp_id tp);
       pt_transport_profile_name := Some (tp_name tp); pt_transport_kind := Some "reality";
       pt_probe_kind := "synthetic_vpn"; pt_node_name := node_name node; pt_region := node_region node;
       pt_probe_client_id := probe_client_id; pt_target_host := default "" (reality_ip node);
       pt_target_port := port tp; pt_tls_sni := reality_server_name tp;
       pt_tls_fingerprint := or_text (Some (tls_fingerprint tp)) (Some "chrome");
       pt_ws_host := None; pt_ws_path := None; pt_xhttp_host := None; pt_xhttp_path := None;
       pt_xhttp_mode := None; pt_xhttp_alpn := None; pt_xhttp_extra := None;
       pt_reality_public_key := reality_public_key tp; pt_reality_short_id := reality_short_id tp;
       pt_reality_server_name := reality_server_name tp; pt_flow := flow tp |}
  else None
else if String.eqb (security tp) "tls" && String.eqb (network tp) "ws" then
  if nonempty (pc_edge_public_domain cfg) then None
  else if negb (nonempty (public_domain node)) then None
  else Some
    {| pt_node_id := node_id node; pt_route_id := Some (route_id route);
       pt_route_name := Some (route_name route); pt_transport_profile_id := Some (tp_id tp);
       pt_transport_profile_name := Some (tp_name tp); pt_transport_kind := Some "ws";
       pt_probe_kind := "synthetic_vpn"; pt_node_name := node_name node; pt_region := node_region node;
       pt_probe_client_id := probe_client_id; pt_target_host := public_domain node;
       pt_target_port := (if port tp =? 0 then pc_target_port cfg else port tp);
       pt_tls_sni := Some (public_domain node);
       pt_tls_fingerprint := or_text (Some (tls_fingerprint tp)) (Some "chrome");
       pt_ws_host := Some (public_domain node); pt_ws_path := Some WS_TLS_DEFAULT_PATH;
       pt_xhttp_host := None; pt_xhttp_path := None; pt_xhttp_mode := None; pt_xhttp_alpn := None;
       pt_xhttp_extra := None; pt_reality_public_key := None; pt_reality_short_id := None;
       pt_reality_server_name := None; pt_flow := None |}
else None.

(** The part of a target an entry and a backend behind it make. *)
Definition pool_target (entry backend : VpnNode) (route : Route) (tp : TransportProfile) (kind host client : string)
  : ProbeTargetOut :=
let reality := String.eqb kind "reality" in
let xhttp {A} (v : A) := if reality then None else Some v in
{| pt_node_id := node_id entry; pt_route_id := Some (route_id route);
   pt_route_name := Some (node_name entry +:+ "→" +:+ node_name backend +:+ "·pool");
   pt_transport_profile_id := None; pt_transport_profile_name := Some (tp_name tp);
   pt_transport_kind := Some kind; pt_probe_kind := "synthetic_vpn"; pt_node_name := node_name entry;
   pt_region := node_region entry; pt_probe_client_id := Some client; pt_target_host := host;
   pt_target_port := pc_target_port cfg;
   pt_tls_sni := (if reality then reality_server_name tp else Some host);
   pt_tls_fingerprint := (if reality then or_text (Some (tls_fingerprint tp)) (Some "chrome") else Some "chrome");
   pt_ws_host := None; pt_ws_path := None; pt_xhttp_host := xhttp host;
   pt_xhttp_path := xhttp XHTTP_DEFAULT_PATH; pt_xhttp_mode := xhttp XHTTP_DEFAULT_MODE;
   pt_xhttp_alpn := xhttp XHTTP_DEFAULT_ALPN; pt_xhttp_extra := xhttp XHTTP_DEFAULT_EXTRA;
   pt_reality_public_key := (if reality then reality_public_key tp else None);
   pt_reality_short_id := (if reality then reality_short_id tp else None);
   pt_reality_server_name := (if reality then reality_server_name tp else None);
   pt_flow := (if reality then flow tp else None) |}.

(** The client of a backend and a transport. *)
Definition client_for (clients : list (Z * string * string)) (backend : Z) (kind : string) : option string :=
snd <$> find (λ c, (c.1.1 =? backend) && String.eqb c.1.2 kind) clients.

(** The target one route of the entry adds, given the pairs already there. *)
Definition entry_synthetic_target (entry : VpnNode) (host : string) (clients : list (Z * string * string))
  (include_draining : bool) (seen : list (Z * string)) (x : DetailedRoute) : option ProbeTargetOut :=
match _transport_kind_for_profile (dr_profile x) with
| None => None
| Some kind =>
    let backend := dr_node x in let tp := dr_profile x in
    if negb (String.eqb kind "reality" || String.eqb kind "xhttp") then None
    else if negb (node_is_active backend) || negb (is_enabled backend) then None
    else if negb include_draining && is_draining backend then None
    else if bool_decide ((node_id backend, kind) ∈ seen) then None
    else match client_for clients (node_id backend) kind with
         | None => None
         | Some client =>
             if negb (nonempty client) then None
             else if String.eqb kind "reality" &&
                     negb (truthy (reality_public_key tp) && truthy (reality_short_id tp) &&
                           truthy (reality_server_name tp)) then None
             else Some (pool_target entry backend (dr_route x) tp kind host client)
         end
end.

Fixpoint entry_synthetic_targets (entry : VpnNode) (host : string) (clients : list (Z * string * string))
  (include_draining : bool) (seen : list (Z * string)) (l : list DetailedRoute) : list ProbeTargetOut :=
match l with
| [] => []
| x :: l =>
    match entry_synthetic_target entry host clients include_draining seen x with
    | None => entry_synthetic_targets entry host clients include_draining seen l
    | Some t => t :: entry_synthetic_targets entry host clients include_draining
                       ((node_id (dr_node x), default "" (pt_transport_kind t)) :: seen) l
    end
end.

(** [node.public_domain or node.reality_ip], when not empty. *)
Definition entry_host (n : VpnNode) : option string :=
let h := or_text (Some (public_domain n)) (reality_ip n) in if truthy h then h else None.

Definition _build_entry_synthetic_targets (entry : VpnNode) (entry_routes : list DetailedRoute)
  (clients : list (Z * string * string)) (include_disabled include_draining : bool) : list ProbeTargetOut :=
if left_out entry include_disabled include_draining then []
else match entry_host entry with
     | None => []
     | Some host => entry_synthetic_targets entry host clients include_draining [] entry_routes
     end.

Definition _build_node_probe_target (n : VpnNode) (include_disabled include_draining : bool)
  : option ProbeTargetOut :=
if left_out n include_disabled include_draining then None
else match entry_host n with
     | None => None
     | Some host => Some
         {| pt_node_id := node_id n; pt_route_id := None; pt_route_name := None;
            pt_transport_profile_id := None; pt_transport_profile_name := None;
            pt_transport_kind := Some "reality"; pt_probe_kind := "tcp_connect"; pt_node_name := node_name n;
            pt_region := node_region n; pt_probe_client_id := None; pt_target_host := host;
            pt_target_port := pc_target_port cfg; pt_tls_sni := None; pt_tls_fingerprint := None;
            pt_ws_host := None; pt_ws_path := None; pt_xhttp_host := None; pt_xhttp_path := None;
            pt_xhttp_mode := None; pt_xhttp_alpn := None; pt_xhttp_extra := None;
            pt_reality_public_key := None; pt_reality_short_id := None; pt_reality_server_name := None;
            pt_flow := None |}
     end.

Definition _list_node_probe_targets (include_draining include_disabled : bool) (role : option string)
  (route_rows : list DetailedRoute) (clients : list (Z * string * string)) : SM (list ProbeTargetOut) :=
if negb (match role with None => true | Some r => bool_decide (r ∈ ["all"; "whitelist_entry"; "entry"]) end)
then mret []
else
  nodes ← list_public;
  mret (concat ((λ n,
    if negb (is_entry_role (node_role n)) then []
    else if match role with Some r => negb (_matches_target_role n r) | None => false end then []
    else
      match _build_node_probe_target n include_disabled include_draining with Some t => [t] | None => [] end ++
      _build_entry_synthetic_targets n
        (filter (λ x, route_entry_node_id (dr_route x) = Some (node_id n)) route_rows)
        clients include_disabled include_draining) <$> nodes)).

(** The backends a synthetic client is placed on, by transport. *)
Fixpoint resolve_clients (rows : list DetailedRoute) (keys : list VpnKey) (configured : list (string * string))
  : SM (list (Z * string * string)) :=
match configured with
| [] => mret []
| (kind, client) :: rest =>
    let expected := node_id <$> (dr_node <$> filter (λ x, _transport_kind_for_profile (dr_profile x) = Some kind) rows) in
    mine ← match find (λ k, String.eqb (client_id k) client) (rev keys) with
           | None => mret []
           | Some key =>
               if negb (String.eqb (key_transport key) kind) then mret []
               else match expected with
                    | [] => mret []
                    | _ =>
                        placements ← list_by_key_id (key_id key) true (Some desired_active);
                        mret ((λ p, (backend_node_id p, kind, client)) <$>
                              filter (λ p, backend_node_id p ∈ expected) placements)
                    end
           end;
    others ← resolve_clients rows keys rest;
    mret (mine ++ others)
end.

Definition _resolve_probe_client_ids_by_target (rows : list DetailedRoute) : SM (list (Z * string * string)) :=
let configured := configured_transports (pc_synthetic_client_ids cfg) in
match filter (λ x, match _transport_kind_for_profile (dr_profile x) with
                   | Some k => existsb (λ c : string * string, String.eqb c.1 k) configured
                   | None => false
                   end = true) rows with
| [] => mret []
| _ =>
    keys ← list_by_client_ids (snd <$> configured) true;
    resolve_clients rows keys configured
end.

(** [targets.sort(key=lambda item: (item.region, item.node_name, item.route_name or ""))]. *)
Definition target_order (l : list ProbeTargetOut) : list ProbeTargetOut :=
order_by_name pt_region (order_by_name pt_node_name (order_by_name (λ t, default "" (pt_route_name t)) l)).

Definition list_targets (include_draining include_disabled : bool) (role : option string)
  : SM (list ProbeTargetOut) :=
rows ← list_active_detailed None (Some 5000%nat);
clients ← _resolve_probe_client_ids_by_target rows;
let route_targets := omap (λ x : DetailedRoute,
  let n := dr_node x in
  if is_entry_role (node_role n) then None
  else if match role with Some r => negb (_matches_target_role n r) | None => false end then None
  else _build_probe_target (dr_route x) n (dr_profile x) include_disabled include_draining
         (match _transport_kind_for_profile (dr_profile x) with
          | Some k => client_for clients (node_id n) k
          | None => None
          end)) rows in
node_targets ← _list_node_probe_targets include_draining include_disabled role rows clients;
mret (target_order (route_targets ++ node_targets)).

(** * Reports *)

Definition mesh_fresh (mesh : option ProbeSignal) (now : Z) : bool :=
match mesh with
| Some m => is_reachable m && (now - checked_at m <=? MESH_HEALTHY_MAX_AGE_SEC * second)
| None => false
end.

Definition _mesh_path_healthy_for_backend (backend : Z) : SM bool :=
mesh ← get_latest_mesh_for_backend backend;
match mesh with
| None => mret false
| Some m => if negb (is_reachable m) then mret false else (now ← utcnow; mret (mesh_fresh mesh now))
end.

Definition _mesh_path_healthy_for_route (r : Route) : SM bool :=
match route_entry_node_id r with
| None => mret false
| Some _ => _mesh_path_healthy_for_backend (route_node_id r)
end.

Definition _route_entry_is_unhealthy (r : Route) : SM bool :=
match route_entry_node_id r with
| None => mret false
| Some e =>
    entry ← get_by_id nodes_tbl e;
    mret (match entry with
          | None => false
          | Some n => is_draining n || negb (is_enabled n) || negb (node_is_active n)
          end)
end.

Definition failure_limit (policy : ProbePolicy) : nat := Z.to_nat (route_block_after_failures policy + 2).

Definition display_name (r : Route) : string :=
if nonempty (route_name r) then route_name r else str_uuid (route_id r).

Definition _emit_route_blocked_alert (r : Route) : SM unit :=
emit_alert "critical" "generic" "Маршрут заблокирован" (display_name r +:+ " переведён в blocked")
  ("route-blocked:" +:+ str_uuid (route_id r)) (str_uuid (route_id r)).

(** The state a number of consecutive failures gives a route, [None] when it keeps
    the one it has. *)
Definition probe_verdict (policy : ProbePolicy) (r : Route) (consecutive checked : Z)
  : res (option RouteStateResolution) :=
if route_block_after_failures policy <=? consecutive then
  match resolve_probe_block checked (route_block_cooldown_hours policy) with
  | Ok x => Ok (Some x) | Raise e => Raise e
  end
else if route_degraded_after_failures policy <=? consecutive then
  if bool_decide (health_status r = degraded) then Ok None
  else match mk_RouteStateResolution degraded (Z.max 1 (base_weight r / 2)) None None None with
       | Ok x => Ok (Some x) | Raise e => Raise e
       end
else if route_suspected_after_failures policy <=? consecutive then
  if bool_decide (health_status r = suspected) then Ok None
  else match mk_RouteStateResolution suspected (Z.max 1 (base_weight r / 3)) None None None with
       | Ok x => Ok (Some x) | Raise e => Raise e
       end
else Ok None.

Definition _degrade_route_after_probe (policy : ProbePolicy) (r : Route) (checked : Z) : SM unit :=
if bool_decide (health_status r = blocked) then mret tt
else
  mesh ← _mesh_path_healthy_for_route r;
  if mesh : bool then mret tt
  else
    consecutive ← count_consecutive_route_failures (route_id r) (failure_limit policy) (Some "synthetic_vpn");
    next ← lift (probe_verdict policy r consecutive checked);
    match next with
    | None => mret tt
    | Some next_state =>
        now ← utcnow;
        write_state (route_id r) next_state now ;;
        when (bool_decide (rs_health_status next_state = blocked))
          (_emit_route_blocked_alert r ;;
           when (pc_has_notifications cfg)
             (emit (PublishRouteBlocked (route_id r) (display_name r) (route_node_id r) consecutive)))
    end.

Definition _recover_route_after_probe (r : Route) (checked : Z) : SM unit :=
match health_status r with
| suspected | degraded =>
    now ← utcnow;
    next_state ← lift (mk_RouteStateResolution healthy (base_weight r) None None None);
    write_state (route_id r) next_state now ;; mret tt
| blocked =>
    bad ← _route_entry_is_unhealthy r;
    if bad : bool then mret tt
    else
      next ← lift (resolve_probe_recover r checked);
      match next with
      | None => mret tt
      | Some next_state =>
          now ← utcnow;
          write_state (route_id r) next_state now ;;
          when (pc_has_notifications cfg) (emit (PublishRouteRecovered (route_id r) (display_name r)))
      end
| _ => mret tt
end.

Definition _apply_route_health_policy (signal : ProbeSignal) : SM unit :=
policy ← probe_policy;
if negb (auto_route_health_enabled policy) then mret tt
else if negb (String.eqb (ps_probe_kind signal) "synthetic_vpn") then mret tt
else match ps_route_id signal with
     | None => mret tt
     | Some rid =>
         route ← get_by_id routes_tbl rid;
         match route with
         | None => mret tt
         | Some r =>
             if negb (route_is_active r) then mret tt
             else if is_reachable signal then _recover_route_after_probe r (checked_at signal)
             else _degrade_route_after_probe policy r (checked_at signal)
         end
     end.

(** The placement of the synthetic client was repaired a moment ago. *)
Definition recently_repaired (p : UserPlacement) : SM bool :=
if negb (sql_eqb (last_migration_reason p) (Some SYNTHETIC_REPAIR_REASON)) then mret false
else (now ← utcnow; mret (now - pl_updated_at p <? SYNTHETIC_REPAIR_COOLDOWN_SEC * second)).

Definition requeue_backend (nid : Z) : SM unit :=
now ← utcnow;
ids ← set_pending_for_backend nid (Some SYNTHETIC_REPAIR_REASON) now;
match ids with
| [] => mret tt
| _ => enqueue_for_placement_ids (pc_command_prefix cfg) ids
end.

Definition _maybe_trigger_synthetic_self_heal (n : VpnNode) (signal : ProbeSignal) : SM unit :=
match ps_route_id signal with
| None => mret tt
| Some rid =>
    if is_reachable signal || negb (String.eqb (ps_probe_kind signal) "synthetic_vpn") then mret tt
    else
      match ps_transport_kind signal ≫= λ k,
              find (λ c : string * string, String.eqb c.1 k) (configured_transports (pc_synthetic_client_ids cfg)) with
      | None => mret tt
      | Some (_, client) =>
          policy ← probe_policy;
          consecutive ← count_consecutive_route_failures rid (failure_limit policy) (Some "synthetic_vpn");
          if consecutive <? route_suspected_after_failures policy then mret tt
          else
            mesh ← _mesh_path_healthy_for_backend (node_id n);
            if mesh : bool then mret tt
            else
              keys ← list_by_client_ids [client] true;
              match find (λ k, String.eqb (client_id k) client) keys with
              | None => mret tt
              | Some key =>
                  placements ← list_by_key_id (key_id key) true (Some desired_active);
                  match find (λ p, backend_node_id p =? node_id n) placements with
                  | None => mret tt
                  | Some p =>
                      recent ← recently_repaired p;
                      if recent : bool then mret tt else requeue_backend (node_id n)
                  end
              end
      end
end.

Definition _get_previous_signal (payload : ProbeReportIn) : SM (option ProbeSignal) :=
match pri_route_id payload with
| Some rid => get_latest_for_route rid (Some (pri_source payload))
| None => get_latest_for_node (pri_node_id payload) (Some (pri_source payload))
end.

(** The profile and the target of the route a report names. *)
Definition report_target (payload : ProbeReportIn)
  : SM (option TransportProfile * option ProbeTargetOut) :=
match pri_route_id payload with
| None => mret (None, None)
| Some rid =>
    detailed ← get_active_detailed_by_id rid;
    match detailed with
    | None => raise (HTTPException 404 "Route not found")
    | Some x =>
        let backend_scope := route_node_id (dr_route x) =? pri_node_id payload in
        let entry_scope := bool_decide (route_entry_node_id (dr_route x) = Some (pri_node_id payload)) in
        raise_if (negb (backend_scope || entry_scope)) (HTTPException 409 "Route does not belong to node") ;;
        if entry_scope && negb backend_scope then
          match _transport_kind_for_profile (dr_profile x) with
          | None => raise (HTTPException 409 "Route is not probeable")
          | Some _ => mret (Some (dr_profile x), None)
          end
        else
          match _build_probe_target (dr_route x) (dr_node x) (dr_profile x) true true None with
          | None => raise (HTTPException 409 "Route is not probeable")
          | Some t => mret (Some (dr_profile x), Some t)
          end
    end
end.

Definition new_signal (payload : ProbeReportIn) (checked : Z) (tp : option TransportProfile)
  (target : option ProbeTargetOut) (id now : Z) : ProbeSignal :=
let or_else {A} (x y : option A) := match x with Some _ => x | None => y end in
{| ps_id := id; ps_node_id := pri_node_id payload; ps_route_id := pri_route_id payload;
   ps_transport_profile_id := or_else (pri_transport_profile_id payload) (tp_id <$> tp);
   ps_transport_kind := or_else (pri_transport_kind payload) (target ≫= pt_transport_kind);
   ps_probe_kind := pri_probe_kind payload;
   ps_target_host := or_else (pri_target_host payload) (pt_target_host <$> target);
   ps_target_port := or_else (pri_target_port payload) (pt_target_port <$> target);
   ps_error_phase := pri_error_phase payload; ps_source := pri_source payload;
   is_reachable := pri_is_reachable payload; ps_latency_ms := pri_latency_ms payload;
   ps_error := pri_error payload; ps_details := pri_details payload; checked_at := checked;
   ps_is_active := true; ps_created_at := now |}.

(** The effects of a report that is the latest of its source. *)
Definition react (n : VpnNode) (row : ProbeSignal) : SM unit :=
_maybe_trigger_synthetic_self_heal n row ;;
_apply_route_health_policy row.

Definition report (payload : ProbeReportIn) : SM ProbeSignal :=
node ← get_by_id nodes_tbl (pri_node_id payload);
match node with
| None => raise (HTTPException 404 "Node not found")
| Some n =>
    checked ← match pri_checked_at payload with Some t => mret t | None => utcnow end;
    '(tp, target) ← report_target payload;
    _get_previous_signal payload ;;
    row ← create probe_signals_tbl (new_signal payload checked tp target);
    latest ← _get_previous_signal payload;
    when (match latest with Some x => ps_id x =? ps_id row | None => false end) (react n row) ;;
    mret row
end.

Definition cleanup_old_signals : SM Z :=
policy ← probe_policy;
now ← utcnow;
delete_older_than (now - Z.max 1 (retention_days policy) * day).
End Ingestion.
