(* ===== verification/WgMesh.v ===== *)
(** The WireGuard mesh between the nodes (services/wg/service.py and publisher.py) and the
    publishers of key-value buckets: what changed since the last tick is written. *)

From stdpp Require Import base gmap strings list sorting pretty.
From Stdlib Require Import Ascii.
From S2P Require Import Prelude Errors RouteModels BillingModels FleetModels Session Uuid NodeDisplay WgAllocator Tables FleetTables Routes VlessUri Probe.
Local Open Scope Z_scope.

(** * Publishing what changed *)

(** [_last_signatures] of a publisher and the bucket it writes. *)
Record PublisherState P := { last_signatures : gmap Z string; bucket : gmap Z P }.
Arguments last_signatures {P}.
Arguments bucket {P}.

(** A tick works in a session and on the publisher. *)
Record pstate P := { ps_session : session; ps_pub : PublisherState P }.
Arguments ps_session {P}.
Arguments ps_pub {P}.
Notation PM P := (M (pstate P) exn).

Definition in_session {P A} (m : SM A) : PM P A := λ t,
  let '(r, s) := m (ps_session t) in (r, {| ps_session := s; ps_pub := ps_pub t |}).

Section Publisher.
(** [signature] is the digest of a payload; [up] says for which nodes [kv_put] succeeds. *)
Context {P : Type} (signature : P → string) (up : Z → bool).

Definition published_as (nid : Z) (p : P) (st : PublisherState P) : PublisherState P :=
{| last_signatures := <[nid := signature p]> (last_signatures st); bucket := <[nid := p]> (bucket st) |}.

Definition publish_changed (nid : Z) (p : P) : PM P unit := λ t,
if bool_decide (last_signatures (ps_pub t) !! nid = Some (signature p)) then (Ok tt, t)
else if up nid then (Ok tt, {| ps_session := ps_session t; ps_pub := published_as nid p (ps_pub t) |})
else (Raise NatsError, t).
End Publisher.

(** * Peers *)

Record WgMeshConfig := { mesh_cidr : IPv4Network; wg_listen_port_default : Z }.

Record WgPeerOut := {
  peer_node_id : Z;
  peer_name : string;
  peer_public_key : string;
  peer_endpoint : string;
  peer_listen_port : Z;
  peer_address : string;
}.

Definition DEFAULT_LISTEN_PORT : Z := 51820.

Definition _PEER_ROLES (role : string) : option (list string) :=
  if String.eqb role "backend" then Some ["entry"; "whitelist_entry"]
  else if String.eqb role "entry" || String.eqb role "whitelist_entry" then Some ["backend"]
  else None.

(** The number of an address in dotted notation. *)
Definition decimal_value (s : string) : Z := foldl (λ n c, n * 10 + (code c - 48)) 0 (String.list_ascii_of_string s).
Definition ipv4_value (s : string) : Z := foldl (λ n o, n * 256 + decimal_value o) 0 (split_on "." s).

(** [IPv4Address(ip) in IPv4Network(cidr, strict=False)]. *)
Definition in_network (n : IPv4Network) (s : string) : bool :=
  is_ipv4 s && (network_address n <=? ipv4_value s) && (ipv4_value s <=? broadcast_address n).

Section Mesh.
Context (cfg : WgMeshConfig).

Definition _mesh_ip_or_none (n : VpnNode) : option string :=
let ip := py_strip (internal_wg_ip n) in
if nonempty ip && in_network (mesh_cidr cfg) ip then Some ip else None.

(** [int(n.wg_listen_port or self.config.listen_port)]. *)
Definition port_of (n : VpnNode) : Z :=
match wg_listen_port n with Some p => if p =? 0 then wg_listen_port_default cfg else p | None => wg_listen_port_default cfg end.

(** [(n.reality_ip or n.public_domain or "").strip()]. *)
Definition endpoint_of (n : VpnNode) : string :=
py_strip (if truthy (reality_ip n) then default "" (reality_ip n) else public_domain n).

Definition role_allowed (self_role : string) (n : VpnNode) : bool :=
match (if nonempty self_role then _PEER_ROLES self_role else None) with
| Some roles => bool_decide (node_role n ∈ roles)
| None => true
end.

(** The peer a node is to others. *)
Definition as_peer (n : VpnNode) : option WgPeerOut :=
if truthy (wg_public_key n) then
  ip ← _mesh_ip_or_none n;
  if nonempty (endpoint_of n)
  then Some {| peer_node_id := node_id n; peer_name := node_name n; peer_public_key := default "" (wg_public_key n);
               peer_endpoint := endpoint_of n; peer_listen_port := port_of n; peer_address := ip |}
  else None
else None.

Definition _build_peers (all_nodes : list VpnNode) (exclude_id : Z) (self_role : string) : list WgPeerOut :=
order_by_name peer_name
  (omap as_peer (filter (λ n, negb (node_id n =? exclude_id) && role_allowed self_role n = true) all_nodes)).

(** * Public keys of the agents *)

Record WgPubkeyKvPayload := { kv_node_id : Z; kv_public_key : string; kv_listen_port : Z }.

(** The three columns of the update. *)
Definition set_wg (key : string) (port : Z) (address : string) (n : VpnNode) : VpnNode :=
{| node_id := node_id n; node_name := node_name n; node_role := node_role n; node_region := node_region n;
   public_domain := public_domain n; reality_ip := reality_ip n; internal_wg_ip := address; node_key := node_key n;
   xray_api_port := xray_api_port n; auth_token_hash := auth_token_hash n; agent_port := agent_port n; is_enabled := is_enabled n;
   is_draining := is_draining n; is_virtual := is_virtual n; drain_source := drain_source n; node_capacity := node_capacity n;
   node_zone := node_zone n; upstream_node_id := upstream_node_id n; bootstrap_token_expires_at := bootstrap_token_expires_at n;
   bootstrapped_at := bootstrapped_at n; wg_public_key := Some key; wg_listen_port := Some port; node_is_active := node_is_active n;
   node_created_at := node_created_at n; node_updated_at := node_updated_at n |}.

Definition has_mesh_ip (n : VpnNode) : bool := nonempty (py_strip (internal_wg_ip n)).

(** The addresses of the other nodes. *)
Definition current_used (d : database) (nid : Z) : list string :=
internal_wg_ip <$> filter (λ n, node_id n ≠ nid ∧ has_mesh_ip n = true) (rows (nodes d)).

(** One entry of the bucket of public keys. *)
Definition sync_pubkey (p : WgPubkeyKvPayload) : SM unit :=
o ← get_by_id nodes_tbl (kv_node_id p);
match o with
| None => mret tt
| Some n =>
    used ← read (λ d, current_used d (kv_node_id p));
    address ← (if has_mesh_ip n then mret (py_strip (internal_wg_ip n)) else lift (allocate_next_ip (mesh_cidr cfg) used 1));
    if bool_decide (wg_public_key n = Some (kv_public_key p)) && bool_decide (wg_listen_port n = Some (kv_listen_port p)) &&
       String.eqb (internal_wg_ip n) address
    then mret tt
    else update_by_id nodes_tbl (kv_node_id p) (set_wg (kv_public_key p) (kv_listen_port p) address) ;; mret tt
end.

(** The entries that are valid; the others are logged and skipped. *)
Definition _sync_pubkeys_from_kv (entries : list WgPubkeyKvPayload) : SM unit := for_each sync_pubkey entries.

(** * The publisher *)

Record WgPayload := { wp_node_id : Z; wp_address : string; wp_listen_port : Z; wp_peers : list WgPeerOut }.

Definition wg_payload (all_nodes : list VpnNode) (n : VpnNode) : WgPayload :=
{| wp_node_id := node_id n; wp_address := internal_wg_ip n; wp_listen_port := port_of n;
   wp_peers := _build_peers all_nodes (node_id n) (node_role n) |}.

(** Pairs in the order of Python's tuples. *)
Definition pair_le (a b : string * string) : Prop :=
if String.eqb a.1 b.1 then String.leb a.2 b.2 = true else String.leb a.1 b.1 = true.
#[local] Instance pair_le_dec : RelDecision pair_le.
Proof. intros a b. unfold pair_le. destruct (String.eqb a.1 b.1); apply _. Defined.

(** What [_signature_for] takes the digest of. *)
Record WgNormalized := { norm_address : string; norm_port : Z; norm_peers : list (string * string) }.

Definition normalized (p : WgPayload) : WgNormalized :=
{| norm_address := wp_address p; norm_port := wp_listen_port p;
   norm_peers := merge_sort pair_le ((λ q, (peer_public_key q, peer_address q)) <$> wp_peers p) |}.

(** [sha256(json.dumps(...))]. *)
Context (digest : WgNormalized → string).
Definition _signature_for (p : WgPayload) : string := digest (normalized p).

Definition publishable (n : VpnNode) : bool := truthy (wg_public_key n) && has_mesh_ip n.

(** [WgMeshPeerPublisher.tick]. *)
Definition wg_tick (entries : list WgPubkeyKvPayload) (up : Z → bool) : PM WgPayload unit :=
in_session (run_request (_sync_pubkeys_from_kv entries)) ;;
all_nodes ← in_session list_all_nodes;
for_each (λ n, when (publishable n) (publish_changed _signature_for up (node_id n) (wg_payload all_nodes n))) all_nodes.
End Mesh.

(** * The bucket follows the database *)

Section Bucket.
Context {P : Type} (signature : P → string).



End Bucket.

(** The list [list_all_nodes] gives. *)
Definition all_nodes_of (d : database) : list VpnNode := order_by_desc node_id (rows (nodes d)).

Lemma elem_of_all_nodes d n : n ∈ all_nodes_of d ↔ n ∈ rows (nodes d).
Proof. unfold all_nodes_of, order_by_desc. by rewrite merge_sort_Permutation. Qed.

Lemma all_nodes_run s : list_all_nodes s = (Ok (all_nodes_of (db s)), s).
Proof.
  unfold list_all_nodes, mbind, M_bind, select_where, read, gets. cbn [mret M_ret t_rows nodes_tbl]. unfold all_nodes_of.
  rewrite filter_all; [done|]. by apply Forall_forall.
Qed.


(** * Addresses *)

Definition mesh_ip_of (n : VpnNode) : string := py_strip (internal_wg_ip n).

Definition addresses_distinct (d : database) : Prop :=
  ∀ i j n m, nodes d !! i = Some n → nodes d !! j = Some m → i ≠ j → mesh_ip_of n ≠ "" → mesh_ip_of n ≠ mesh_ip_of m.

Lemma rstrip_rstrip P s : rstrip P (rstrip P s) = rstrip P s.
Proof.
  induction s as [|c s IH]; [done|]. cbn. destruct (rstrip P s) as [|c' s'] eqn:E.
  - destruct (P c) eqn:Hc; cbn; [done|by rewrite Hc].
  - cbn in IH |- *. by rewrite IH.
Qed.

Lemma lstrip_head P s : lstrip P s = "" ∨ ∃ c s', lstrip P s = String c s' ∧ P c = false.
Proof. induction s as [|c s IH]; [by left|]. cbn. destruct (P c) eqn:Hc; [done|]. right. eauto. Qed.

Lemma strip_strip P s : strip P (strip P s) = strip P s.
Proof.
  unfold strip. destruct (lstrip_head P s) as [->|(c & s' & -> & Hc)]; [done|].
  assert (∃ s2, rstrip P (String c s') = String c s2) as [s2 E].
  { cbn. destruct (rstrip P s'); [rewrite Hc|]; eauto. }
  assert (lstrip P (rstrip P (String c s')) = rstrip P (String c s')) as -> by (rewrite E; cbn; by rewrite Hc).
  apply rstrip_rstrip.
Qed.

Lemma byte_not_space v : 0 ≤ v < 256 → all_chars (λ c, negb (is_space c)) (pretty v) = true.
Proof.
  assert (forallb (λ v, all_chars (λ c, negb (is_space c)) (pretty v)) (seqZ 0 256) = true) as H by (vm_compute; reflexivity).
  rewrite forallb_forall in H. intros Hv. apply H, list_elem_of_In, elem_of_seqZ. lia.
Qed.

Lemma strip_ip a : py_strip (ip_str a) = ip_str a.
Proof.
  apply strip_none. unfold ip_str. rewrite !all_chars_app.
  rewrite !byte_not_space by (apply Z.mod_pos_bound; lia). done.
Qed.

(** An address that is free among the others, or the node's own. *)
Lemma addresses_put d now n key port address :
  keyed nodes_tbl d → addresses_distinct d → nodes d !! node_id n = Some n →
  (has_mesh_ip n = true ∧ address = mesh_ip_of n ∨
   py_strip address = address ∧ address ∉ used_set (current_used d (node_id n))) →
  addresses_distinct (put nodes_tbl (set_wg key port address (t_touch nodes_tbl now n)) d).
Proof.
  intros Hk Hd Hn Haddr i j a b. unfold put. cbn [t_set nodes_tbl t_rows t_id set_wg t_touch node_id]. cbn. rewrite !lookup_insert.
  assert (Hfresh : ∀ k m, nodes d !! k = Some m → k ≠ node_id n → py_strip address ≠ "" → py_strip address ≠ mesh_ip_of m).
  { intros k m Hm Hne Hnon. destruct Haddr as [[_ ->]|[Hs Hfree]].
    - unfold mesh_ip_of at 1. unfold py_strip at 1. rewrite strip_strip. apply (Hd (node_id n) k); [done..|].
      unfold py_strip, mesh_ip_of in Hnon. by rewrite strip_strip in Hnon.
    - rewrite Hs. intros E. apply Hfree. unfold used_set. apply list_elem_of_fmap. exists (internal_wg_ip m). split; [exact E|].
      apply list_elem_of_filter. split.
      + apply negb_true_iff, String.eqb_neq. intros E0. unfold mesh_ip_of in E. rewrite E0 in E. rewrite Hs, E in Hnon. done.
      + unfold current_used. apply list_elem_of_fmap. exists m. split; [done|]. apply list_elem_of_filter. split.
        * split; [rewrite (Hk k m Hm : node_id m = k); done|]. unfold has_mesh_ip, nonempty.
          fold (mesh_ip_of m). rewrite <-E. rewrite Hs in Hnon. by destruct address.
        * apply elem_of_rows. eauto. }
  case_decide as Ei; case_decide as Ej; subst; intros Ha Hb Hij Hnon; try done.
  - injection Ha as <-. apply (Hfresh j); done.
  - injection Hb as <-. intros E. rewrite E in Hnon. eapply (Hfresh i); [done|done|done|symmetry; exact E].
  - by apply (Hd i j).
Qed.

Definition mesh_inv (d : database) : Prop := keyed nodes_tbl d ∧ addresses_distinct d.

Lemma sync_pubkey_inv cfg p : keeps (on_db (λ d d', mesh_inv d → mesh_inv d')) (sync_pubkey cfg p).
Proof.
  intros s [Hk Hd]. unfold sync_pubkey, mbind at 1, M_bind at 1, get_by_id, read, gets. cbn [t_rows nodes_tbl].
  destruct (nodes (db s) !! kv_node_id p) as [n|] eqn:Hn; [|done]. pose proof (Hk _ _ Hn) as Hid. cbn in Hid.
  unfold mbind at 1, M_bind at 1.
  assert (∀ address, has_mesh_ip n = true ∧ address = mesh_ip_of n ∨
      py_strip address = address ∧ address ∉ used_set (current_used (db s) (node_id n)) →
    mesh_inv (db ((if bool_decide (wg_public_key n = Some (kv_public_key p)) && bool_decide (wg_listen_port n = Some (kv_listen_port p)) &&
       String.eqb (internal_wg_ip n) address then mret tt
       else update_by_id nodes_tbl (kv_node_id p) (set_wg (kv_public_key p) (kv_listen_port p) address) ;; mret tt) s).2)) as Hup.
  { intros address Ha. destruct (_ && _); [done|]. unfold mbind at 1, M_bind at 1. rewrite update_run.
    cbn [t_rows nodes_tbl]. rewrite Hn. cbv zeta.
    destruct (t_check nodes_tbl (db s) _ _); [done|]. cbn [mret M_ret snd db with_db tick]. split.
    - apply keyed_put; [apply _|done].
    - apply (addresses_put (db s)); [done|done|by rewrite Hid|exact Ha]. }
  rewrite Hid in Hup. destruct (has_mesh_ip n) eqn:Hm.
  - unfold mbind at 1, M_bind at 1. cbn [mret M_ret]. apply Hup. by left.
  - unfold mbind at 1, M_bind at 1, lift. pose proof (allocate_next_ip_first (mesh_cidr cfg) (current_used (db s) (kv_node_id p)) 1) as Hspec.
    destruct (allocate_next_ip _ _ _) as [ip|e]; [|done]. cbn [mret M_ret]. apply Hup. right.
    destruct Hspec as (? & a & _ & _ & -> & Hfree & _). split; [apply strip_ip|done].
Qed.

#[local] Instance mesh_inv_preorder : PreOrder (λ d d' : database, mesh_inv d → mesh_inv d').
Proof. split; [by intros d|intros d1 d2 d3; auto]. Qed.

(** C23: through any ticks of the mesh publisher, whatever keys the agents announce, no two
    nodes have the same mesh address. *)
Theorem mesh_addresses_unique cfg digest (entries : list (list WgPubkeyKvPayload * (Z → bool))) (t : pstate WgPayload) :
  keyed nodes_tbl (db (ps_session t)) → addresses_distinct (db (ps_session t)) →
  addresses_distinct (db (ps_session (foldl (λ t e, (wg_tick cfg digest e.1 e.2 t).2) t entries))).
Proof.
  intros Hk Hd. assert (mesh_inv (db (ps_session t))) as Hinv by done. clear Hk Hd. revert t Hinv.
  induction entries as [|[es up] entries IH]; intros t Hinv; cbn; [by destruct Hinv|]. apply IH.
  unfold wg_tick, mbind at 1, M_bind at 1, in_session at 1.
  pose proof (keeps_for_each (on_db (λ d d', mesh_inv d → mesh_inv d')) (sync_pubkey cfg) es (sync_pubkey_inv cfg) (ps_session t)) as Hsync.
  unfold on_db in Hsync. fold (_sync_pubkeys_from_kv cfg es) in Hsync. unfold run_request.
  destruct (_sync_pubkeys_from_kv cfg es (ps_session t)) as [[u|e] s1] eqn:E; cbn [snd] in Hsync; [|done].
  unfold mbind at 1, M_bind at 1, in_session at 1. cbn [ps_session]. rewrite all_nodes_run.
  set (l := all_nodes_of (db s1)). set (t1 := {| ps_session := s1; ps_pub := _ |}).
  assert (∀ make want l t, ps_session (for_each (λ n, when (want n) (publish_changed (_signature_for digest) up (node_id n) (make n))) l t).2 = ps_session t) as Hs.
  { intros make want l0. induction l0 as [|n l0 IH0]; intros t0; [done|]. cbn [for_each]. unfold mbind, M_bind.
    assert (ps_session (when (want n) (publish_changed (_signature_for digest) up (node_id n) (make n)) t0).2 = ps_session t0) as H0.
    { destruct (want n); [|done]. cbn [when]. unfold publish_changed. case_bool_decide; [done|]. by destruct (up _). }
    destruct (when _ _ t0) as [[]]; cbn [snd] in *; [|done]. by rewrite IH0. }
  cbv beta zeta. rewrite Hs. cbn. auto.
Qed.


(** * Who peers with whom *)

Lemma role_allowed_sym a b : is_Some (_PEER_ROLES (node_role a)) → is_Some (_PEER_ROLES (node_role b)) →
  role_allowed (node_role a) b = role_allowed (node_role b) a.
Proof.
  unfold role_allowed, _PEER_ROLES.
  repeat match goal with |- context [String.eqb ?x ?y] => destruct (String.eqb_spec x y) as [->|] end; cbn;
    intros [? ?] [? ?]; try done; try reflexivity; repeat case_bool_decide; set_solver.
Qed.

Lemma as_peer_id cfg n p : as_peer cfg n = Some p → peer_node_id p = node_id n.
Proof.
  unfold as_peer. destruct (truthy _); [|done]. destruct (_mesh_ip_or_none cfg n); [|done]. cbn. destruct (nonempty _); [|done]. by intros [= <-].
Qed.

Lemma elem_of_peers cfg l nid role b pb :
  (∀ n m, n ∈ l → m ∈ l → node_id n = node_id m → n = m) → b ∈ l → as_peer cfg b = Some pb →
  pb ∈ _build_peers cfg l nid role ↔ node_id b ≠ nid ∧ role_allowed role b = true.
Proof.
  intros Huniq Hb Hpb. unfold _build_peers, order_by_name. rewrite merge_sort_Permutation, list_elem_of_omap. split.
  - intros (n & [Hf Hn]%list_elem_of_filter & Hp). assert (n = b) as ->.
    { apply Huniq; [done..|]. by rewrite <-(as_peer_id _ _ _ Hp), <-(as_peer_id _ _ _ Hpb). }
    apply andb_prop in Hf as [Hne Hr]. apply negb_true_iff, Z.eqb_neq in Hne. done.
  - intros [Hne Hr]. exists b. split; [|done]. apply list_elem_of_filter. split; [|done].
    apply andb_true_intro. split; [by apply negb_true_iff, Z.eqb_neq|done].
Qed.

(** The mesh is symmetric: of two nodes that can be reached, with known roles, either
    both are sent the other as a peer or neither is. *)
Theorem mesh_symmetric cfg d a b pa pb :
  keyed nodes_tbl d → a ∈ all_nodes_of d → b ∈ all_nodes_of d →
  as_peer cfg a = Some pa → as_peer cfg b = Some pb →
  is_Some (_PEER_ROLES (node_role a)) → is_Some (_PEER_ROLES (node_role b)) →
  pb ∈ wp_peers (wg_payload cfg (all_nodes_of d) a) ↔ pa ∈ wp_peers (wg_payload cfg (all_nodes_of d) b).
Proof.
  intros Hk Ha Hb Hpa Hpb Hra Hrb. cbn.
  assert (∀ n m, n ∈ all_nodes_of d → m ∈ all_nodes_of d → node_id n = node_id m → n = m) as Hu.
  { intros n m. rewrite !elem_of_all_nodes. by apply (rows_distinct nodes_tbl). }
  rewrite (elem_of_peers cfg _ _ _ b pb), (elem_of_peers cfg _ _ _ a pa) by done.
  rewrite (role_allowed_sym a b) by done. naive_solver.
Qed.

(** * A mesh *)

Definition mesh_cfg : WgMeshConfig :=
  {| mesh_cidr := {| ip_address := 10 * 2 ^ 24 + 10 * 2 ^ 16; prefixlen := 24 |}; wg_listen_port_default := DEFAULT_LISTEN_PORT |}.

Definition mesh_node (id : Z) (name role domain ip : string) (key : option string) : VpnNode :=
  {| node_id := id; node_name := name; node_role := role; node_region := "de"; public_domain := domain; reality_ip := None;
     internal_wg_ip := ip; node_key := Some name; xray_api_port := 0; auth_token_hash := ""; agent_port := 0; is_enabled := true;
     is_draining := false; is_virtual := false; drain_source := None; node_capacity := 1; node_zone := None;
     upstream_node_id := None; bootstrap_token_expires_at := None; bootstrapped_at := None; wg_public_key := key;
     wg_listen_port := None; node_is_active := true; node_created_at := 0; node_updated_at := 0 |}.

Definition mesh_db (domain : string) : database :=
  set_nodes {[1 := mesh_node 1 "b1" "backend" domain "10.10.0.2" (Some "kb1"); 2 := mesh_node 2 "e1" "entry" "e1.example" "" None]} empty_db.

Definition mesh_start (domain : string) : pstate WgPayload :=
  {| ps_session := session_on (mesh_db domain) 1000 500; ps_pub := {| last_signatures := ∅; bucket := ∅ |} |}.

Definition entry_key : WgPubkeyKvPayload := {| kv_node_id := 2; kv_public_key := "ke1"; kv_listen_port := 51820 |}.

(** Two digests: one that reads well, one without collisions. *)
Definition plain_digest (n : WgNormalized) : string :=
  foldr (λ p s, p.1 +:+ "@" +:+ p.2 +:+ ";" +:+ s) "" (norm_peers n) +:+ norm_address n +:+ ":" +:+ pretty (norm_port n).



Definition addresses_of (t : pstate WgPayload) : list (Z * string) :=
  (λ n, (node_id n, internal_wg_ip n)) <$> rows (nodes (db (ps_session t))).

(** The entry announces its key and gets the first free address; each is told of the other. *)
Example mesh_first_tick :
  let t := (wg_tick mesh_cfg plain_digest [entry_key] (λ _, true) (mesh_start "b1.example")).2 in
  addresses_of t = [(2, "10.10.0.3"); (1, "10.10.0.2")] ∧
  (λ p, peer_endpoint <$> wp_peers p) <$> bucket (ps_pub t) = {[1 := ["e1.example"]; 2 := ["b1.example"]]}.
Proof. vm_compute. split; reflexivity. Qed.

Lemma mesh_db_distinct domain : addresses_distinct (mesh_db domain).
Proof.
  intros i j n m Hi Hj Hij. cbn in Hi, Hj. rewrite lookup_insert_Some in Hi, Hj. setoid_rewrite lookup_singleton_Some in Hi. setoid_rewrite lookup_singleton_Some in Hj.
  destruct Hi as [[<- <-]|[_ [<- <-]]], Hj as [[<- <-]|[_ [<- <-]]]; vm_compute; intros ?; try congruence.
Qed.

Lemma mesh_addresses_unique_witness :
  addresses_distinct (db (ps_session (foldl (λ t e, (wg_tick mesh_cfg plain_digest e.1 e.2 t).2) (mesh_start "b1.example")
    [([entry_key], λ _, true); ([], λ _, false)]))).
Proof.
  apply (mesh_addresses_unique mesh_cfg plain_digest [([entry_key], λ _, true); ([], λ _, false)] (mesh_start "b1.example")).
  - apply keyed_by_computation. vm_compute. reflexivity.
  - apply mesh_db_distinct.
Defined.


Lemma mesh_symmetric_witness :
  let d := mesh_db "b1.example" in
  let d' := put nodes_tbl (mesh_node 2 "e1" "entry" "e1.example" "10.10.0.3" (Some "ke1")) d in
  ∃ a b pa pb, as_peer mesh_cfg a = Some pa ∧ as_peer mesh_cfg b = Some pb ∧
    (pb ∈ wp_peers (wg_payload mesh_cfg (all_nodes_of d') a) ↔ pa ∈ wp_peers (wg_payload mesh_cfg (all_nodes_of d') b)).
Proof.
  do 4 eexists. split; [|split].
  3: apply (mesh_symmetric mesh_cfg (put nodes_tbl (mesh_node 2 "e1" "entry" "e1.example" "10.10.0.3" (Some "ke1")) (mesh_db "b1.example"))
    (mesh_node 1 "b1" "backend" "b1.example" "10.10.0.2" (Some "kb1")) (mesh_node 2 "e1" "entry" "e1.example" "10.10.0.3" (Some "ke1"))).
  - reflexivity.
  - reflexivity.
  - apply keyed_by_computation. vm_compute. reflexivity.
  - apply elem_of_all_nodes, elem_of_rows. by exists 1.
  - apply elem_of_all_nodes, elem_of_rows. by exists 2.
  - reflexivity.
  - reflexivity.
  - by eexists.
  - by eexists.
Defined.

(** The signature leaves out where a peer is reached: when a backend moves to another host
    the bucket of the entries keeps the old one. *)
Theorem moved_endpoint_not_published :
  let t := (wg_tick mesh_cfg plain_digest [entry_key] (λ _, true) (mesh_start "b1.example")).2 in
  let b := mesh_node 1 "b1" "backend" "b1.moved" "10.10.0.2" (Some "kb1") in
  let t1 := {| ps_session := with_db (put nodes_tbl b) (ps_session t); ps_pub := ps_pub t |} in
  let t2 := (wg_tick mesh_cfg plain_digest [entry_key] (λ _, true) t1).2 in
  (λ p, peer_endpoint <$> wp_peers p) <$> bucket (ps_pub t2) !! 2 = Some ["b1.example"] ∧
  peer_endpoint <$> _build_peers mesh_cfg (all_nodes_of (db (ps_session t2))) 2 "entry" = ["b1.moved"].
Proof. vm_compute. split; reflexivity. Qed.
