(* ===== verification/EntryRouting.v ===== *)
(** The routing of entry nodes (services/routing/entry): the specification an entry is sent,
    its publisher, and the view and override of the administrators. *)

From stdpp Require Import base gmap strings list sorting pretty.
From Stdlib Require Import Ascii.
From S2P Require Import Prelude Errors RouteModels BillingModels FleetModels Session Uuid NodeDisplay WgAllocator Tables FleetTables Routes VlessUri Keys Entry Payload Probe WgMesh.
Local Open Scope Z_scope.

Record EntryRoutingConfig := {
  rc_listen_port : Z;
  rc_reality_private_key : string;
  rc_reality_short_id : string;
  rc_reality_server_name : string;
  rc_reality_handshake_server : string;
  rc_reality_handshake_port : Z;
  backend_service_uuid : string;
  backend_reality_public_key : string;
  backend_reality_fingerprint : string;
  backend_port : Z;
  backend_flow : string;
  backend_use_wg : bool;
  backend_wg_port : Z;
  per_user_outbound_uuid : bool;
}.

(** * The specification *)

Record EntryRoutingBackend := {
  rb_tag : string;
  rb_node_name : string;
  rb_backend_node_id : Z;
  rb_server : string;
  rb_server_port : Z;
  rb_uuid : string;
  rb_flow : string;
  rb_reality_public_key : string;
  rb_reality_short_id : string;
  rb_reality_server_name : string;
  rb_reality_fingerprint : string;
}.

Record EntryRoutingRule := { user_uuid : string; outbound_tag : string }.
Record EntryRoutingUrltestGroup := { group_tag : string; group_outbounds : list string }.
Record EntryRoutingReality := {
  er_private_key : string;
  er_short_id : string;
  er_server_name : string;
  er_handshake_server : string;
  er_handshake_port : Z;
}.

(** The users all have the same flow. *)
Record EntryRoutingSpec := {
  spec_node_id : Z;
  spec_listen_port : Z;
  spec_reality : EntryRoutingReality;
  spec_users : list string;
  spec_backends : list EntryRoutingBackend;
  spec_rules : list EntryRoutingRule;
  spec_groups : list EntryRoutingUrltestGroup;
  final_outbound : string;
}.

(** [Field(ge=1, le=65535)]. *)
Definition valid_port (p : Z) : bool := (1 <=? p) && (p <=? 65535).

(** * EntryRoutingService *)

Definition list_target_nodes : SM (list VpnNode) :=
  l ← list_all_nodes; mret (filter (λ n, is_entry_role (node_role n) = true) l).

Definition _has_wg_addr (n : VpnNode) : bool :=
  let ip := py_strip (internal_wg_ip n) in nonempty ip && negb (String.prefix "0." ip).

Definition _backend_node_tag (n : VpnNode) : string := "backend-" +:+ node_name n.
Definition _user_outbound_tag (name client : string) : string := "b-" +:+ client +:+ "-" +:+ name.
Definition _user_urltest_tag (client : string) : string := "auto-" +:+ client.

Section Routing.
(** [digest8] is the number of the first eight bytes of the SHA-256 of a client id. *)
Context (cfg : EntryRoutingConfig) (digest8 : string → Z).

(** [node.reality_ip or node.public_domain]. *)
Definition server_of (n : VpnNode) : string := if truthy (reality_ip n) then default "" (reality_ip n) else public_domain n.

Definition _has_reachable_addr (n : VpnNode) : bool := if backend_use_wg cfg then _has_wg_addr n else nonempty (server_of n).

Definition usable_backend (n : VpnNode) : bool :=
String.eqb (node_role n) ROLE_BACKEND && is_enabled n && negb (is_draining n) && _has_reachable_addr n.

Definition _candidate_backend_nodes_for_zone (entry : VpnNode) : SM (list VpnNode) :=
if (if backend_use_wg cfg then negb (_has_wg_addr entry)
    else negb (nonempty (backend_service_uuid cfg)) || negb (nonempty (backend_reality_public_key cfg)))
then mret []
else
  ids ← list_backend_ids_for_entry (node_id entry);
  match ids with
  | _ :: _ => l ← list_nodes_by_ids ids; mret (filter (λ n, usable_backend n = true) l)
  | [] =>
      l ← list_all_nodes;
      mret (filter (λ n, usable_backend n && String.eqb (zone_of n) (zone_of entry) = true) l)
  end.

Definition _make_outbound (n : VpnNode) (tag uuid : string) : res EntryRoutingBackend :=
let p := if backend_use_wg cfg then backend_wg_port cfg else backend_port cfg in
if negb (valid_port p) then Raise (ValidationError "server_port")
else Ok (if backend_use_wg cfg then
  {| rb_tag := tag; rb_node_name := node_name n; rb_backend_node_id := node_id n; rb_server := internal_wg_ip n; rb_server_port := p;
     rb_uuid := uuid; rb_flow := ""; rb_reality_public_key := ""; rb_reality_short_id := ""; rb_reality_server_name := "";
     rb_reality_fingerprint := "chrome" |}
else
  {| rb_tag := tag; rb_node_name := node_name n; rb_backend_node_id := node_id n; rb_server := server_of n; rb_server_port := p;
     rb_uuid := uuid; rb_flow := backend_flow cfg; rb_reality_public_key := backend_reality_public_key cfg;
     rb_reality_short_id := rc_reality_short_id cfg; rb_reality_server_name := rc_reality_server_name cfg;
     rb_reality_fingerprint := backend_reality_fingerprint cfg |}).

(** What [_materialize_outbounds_and_rules] accumulates. *)
Record Materialized := {
  m_outbounds : list EntryRoutingBackend;
  m_rules : list EntryRoutingRule;
  m_groups : list EntryRoutingUrltestGroup;
}.

(** [if ob_tag not in seen_outbound_tags: outbounds.append(...)]. *)
Definition add_outbound (n : VpnNode) (tag uuid : string) (m : Materialized) : res Materialized :=
if bool_decide (tag ∈ rb_tag <$> m_outbounds m) then Ok m
else ob ← _make_outbound n tag uuid;
     Ok {| m_outbounds := m_outbounds m ++ [ob]; m_rules := m_rules m; m_groups := m_groups m |}.

Definition add_rule (user tag : string) (m : Materialized) : Materialized :=
{| m_outbounds := m_outbounds m; m_rules := m_rules m ++ [{| user_uuid := user; outbound_tag := tag |}]; m_groups := m_groups m |}.

Definition add_group (tag : string) (tags : list string) (m : Materialized) : Materialized :=
{| m_outbounds := m_outbounds m; m_rules := m_rules m; m_groups := m_groups m ++ [{| group_tag := tag; group_outbounds := tags |}] |}.

(** [node_by_backend_tag.get(forced)] for a tag that is set: the last of equal names. *)
Definition forced_node (sorted_nodes : list VpnNode) (overrides : gmap string string) (user : string) : option VpnNode :=
match overrides !! user with
| Some tag => if nonempty tag then last (filter (λ n, _backend_node_tag n = tag) sorted_nodes) else None
| None => None
end.

Definition hashed {A} (client : string) (l : list A) : option A := l !! Z.to_nat (digest8 client mod Z.of_nat (length l)).

(** One user, all sharing the outbounds. *)
Definition route_shared (sorted_nodes : list VpnNode) (overrides : gmap string string) (m : Materialized) (user : string)
  : res Materialized :=
match (match forced_node sorted_nodes overrides user with Some n => Some n | None => hashed user sorted_nodes end) with
| Some n =>
    m ← add_outbound n (_backend_node_tag n) (backend_service_uuid cfg) m;
    Ok (add_rule user (_backend_node_tag n) m)
| None => Raise IndexError
end.

Fixpoint add_outbounds (user : string) (l : list VpnNode) (m : Materialized) : res Materialized :=
match l with
| [] => Ok m
| n :: l => m ← add_outbound n (_user_outbound_tag (node_name n) user) user m; add_outbounds user l m
end.

(** One user, with outbounds of its own. *)
Definition route_per_user (sorted_nodes : list VpnNode) (overrides : gmap string string) (m : Materialized) (user : string)
  : res Materialized :=
match forced_node sorted_nodes overrides user with
| Some n =>
    let tag := _user_outbound_tag (node_name n) user in
    m ← add_outbound n tag user m;
    Ok (add_rule user tag m)
| None =>
    m ← add_outbounds user sorted_nodes m;
    match (λ n, _user_outbound_tag (node_name n) user) <$> sorted_nodes with
    | [tag] => Ok (add_rule user tag m)
    | tags => Ok (add_rule user (_user_urltest_tag user) (add_group (_user_urltest_tag user) tags m))
    end
end.

Fixpoint route_users (f : Materialized → string → res Materialized) (m : Materialized) (users : list string) : res Materialized :=
match users with
| [] => Ok m
| u :: users => m ← f m u; route_users f m users
end.

Definition no_outbounds : Materialized := {| m_outbounds := []; m_rules := []; m_groups := [] |}.

Definition per_user_mode : bool := backend_use_wg cfg && per_user_outbound_uuid cfg.

Definition _materialize_outbounds_and_rules (users : list string) (backend_nodes : list VpnNode) (overrides : gmap string string)
  : res (Materialized * string) :=
match order_by_name node_name backend_nodes with
| [] => Ok (no_outbounds, "direct")
| (first :: _) as sorted_nodes =>
    if per_user_mode
    then m ← route_users (route_per_user sorted_nodes overrides) no_outbounds users; Ok (m, "block")
    else m ← route_users (route_shared sorted_nodes overrides) no_outbounds users; Ok (m, _backend_node_tag first)
end.

Definition routed_keys (keys : list VpnKey) : list VpnKey := filter (λ k, nonempty (client_id k) = true) keys.

Definition overrides_of (keys : list VpnKey) : gmap string string :=
foldl (λ m k, match entry_routing_override_backend_tag k with
              | Some tag => if nonempty tag then <[client_id k := tag]> m else m
              | None => m
              end) ∅ (routed_keys keys).

Definition reality_of : EntryRoutingReality :=
{| er_private_key := rc_reality_private_key cfg; er_short_id := rc_reality_short_id cfg; er_server_name := rc_reality_server_name cfg;
   er_handshake_server := rc_reality_handshake_server cfg; er_handshake_port := rc_reality_handshake_port cfg |}.

Definition build_spec_for_node (nid : Z) : SM (option EntryRoutingSpec) :=
o ← get_by_id nodes_tbl nid;
match o with
| None => mret None
| Some n =>
    if negb (is_entry_role (node_role n)) then mret None
    else
      keys ← list_all_active;
      let users := client_id <$> routed_keys keys in
      backends ← _candidate_backend_nodes_for_zone n;
      r ← lift (_materialize_outbounds_and_rules users backends (overrides_of keys));
      raise_if (negb (valid_port (rc_listen_port cfg)) || negb (valid_port (rc_reality_handshake_port cfg))) (ValidationError "port") ;;
      mret (Some {| spec_node_id := node_id n; spec_listen_port := rc_listen_port cfg; spec_reality := reality_of; spec_users := users;
                    spec_backends := m_outbounds r.1; spec_rules := m_rules r.1; spec_groups := m_groups r.1; final_outbound := r.2 |})
end.

(** * The publisher *)

Definition rule_le (a b : EntryRoutingRule) : Prop := pair_le (user_uuid a, outbound_tag a) (user_uuid b, outbound_tag b).
#[local] Instance rule_le_dec : RelDecision rule_le.
Proof. intros a b. unfold rule_le, pair_le. destruct (String.eqb _ _); apply _. Defined.

(** What [signature] takes the digest of. *)
Definition normalized_spec (x : EntryRoutingSpec) : EntryRoutingSpec :=
{| spec_node_id := spec_node_id x; spec_listen_port := spec_listen_port x; spec_reality := spec_reality x;
   spec_users := order_by_name id (spec_users x); spec_backends := order_by_name rb_tag (spec_backends x);
   spec_rules := merge_sort rule_le (spec_rules x); spec_groups := order_by_name group_tag (spec_groups x);
   final_outbound := final_outbound x |}.

Context (digest : EntryRoutingSpec → string).
Definition spec_signature (x : EntryRoutingSpec) : string := digest (normalized_spec x).

(** One entry of [EntryRoutingPublisher.tick]. *)
Definition publish_entry (up : Z → bool) (n : VpnNode) : PM EntryRoutingSpec unit :=
o ← in_session (build_spec_for_node (node_id n));
match o with
| None => mret tt
| Some x => publish_changed spec_signature up (node_id n) x
end.

Definition entry_routing_tick (up : Z → bool) : PM EntryRoutingSpec unit :=
targets ← in_session list_target_nodes;
for_each (publish_entry up) targets.

(** * EntryRoutingAdminService *)

Definition _build_backends_for_zone (entry : VpnNode) : SM (list EntryRoutingBackend) :=
l ← _candidate_backend_nodes_for_zone entry;
mapM (λ n, lift (_make_outbound n (_backend_node_tag n) (backend_service_uuid cfg))) l.

(** The backends of all entries, the first of each tag. *)
Definition pool_backends : SM (gmap string EntryRoutingBackend) :=
targets ← list_target_nodes;
fold_m (λ m entry, l ← _build_backends_for_zone entry;
          mret (foldl (λ (m : gmap string EntryRoutingBackend) b, match m !! rb_tag b with Some _ => m | None => <[rb_tag b := b]> m end) m l))
  ∅ targets.

Definition _effective_backend (client : string) (override : option string) (tags_sorted : list string) : option string :=
if match tags_sorted with [] => true | _ => false end || negb (nonempty client) then None
else match override with
     | Some t => if nonempty t && bool_decide (t ∈ tags_sorted) then Some t else hashed client tags_sorted
     | None => hashed client tags_sorted
     end.

Record RoutingKeyRowOut := {
  row_key_id : Z;
  row_client_id : string;
  row_user_id : Z;
  row_username : option string;
  row_telegram_id : option Z;
  row_subscription_id : option Z;
  row_transport : string;
  row_is_revoked : bool;
  row_override : option string;
  effective_backend : option string;
}.

Definition key_row (tags_sorted : list string) (ku : VpnKey * option User) : RoutingKeyRowOut :=
let '(k, u) := ku in
{| row_key_id := key_id k; row_client_id := client_id k; row_user_id := key_user_id k; row_username := u ≫= username;
   row_telegram_id := telegram_id <$> u; row_subscription_id := key_subscription_id k; row_transport := key_transport k;
   row_is_revoked := is_revoked k; row_override := entry_routing_override_backend_tag k;
   effective_backend := _effective_backend (client_id k) (entry_routing_override_backend_tag k) tags_sorted |}.

Definition sorted_tags (m : gmap string EntryRoutingBackend) : list string := order_by_name id (map_to_list m).*1.

(** The backends and the keys of [get_state]; the live numbers come from the broker. *)
Definition get_routing_state (key_limit : nat) : SM (list EntryRoutingBackend * list RoutingKeyRowOut) :=
m ← pool_backends;
l ← list_active_with_user key_limit;
read (λ d, (order_by_name rb_tag (map_to_list m).*2, (λ k, key_row (sorted_tags m) (k, users d !! key_user_id k)) <$> l)).

Definition _collect_valid_backend_tags : SM (list string) := m ← pool_backends; mret (map_to_list m).*1.

Record OverrideChange := {
  oc_changed : bool;
  oc_previous : option string;
  oc_current : option string;
  oc_key_id : Z;
  oc_client_id : string;
}.

Definition set_override_tag (tag : option string) (k : VpnKey) : VpnKey :=
{| key_id := key_id k; key_user_id := key_user_id k; key_protocol := key_protocol k; key_transport := key_transport k;
   client_id := client_id k; valid_until := valid_until k; traffic_limit_mb := traffic_limit_mb k;
   key_used_traffic_bytes := key_used_traffic_bytes k; is_revoked := is_revoked k; key_subscription_id := key_subscription_id k;
   entry_routing_override_backend_tag := tag; key_is_active := key_is_active k; key_created_at := key_created_at k;
   key_updated_at := key_updated_at k |}.

Definition set_key_override (kid : Z) (backend_tag : option string) : SM (option OverrideChange) :=
o ← get_by_id keys_tbl kid;
match o with
| None => mret None
| Some k =>
    let t := py_strip (default "" backend_tag) in
    let tag := if nonempty t then Some t else None in
    match tag with
    | Some t => tags ← _collect_valid_backend_tags;
                raise_if (negb (bool_decide (t ∈ tags))) (UnknownBackendTagError t (order_by_name id tags))
    | None => mret tt
    end ;;
    let changed := negb (bool_decide (tag = entry_routing_override_backend_tag k)) in
    when changed (update_by_id keys_tbl kid (set_override_tag tag) ;; mret tt) ;;
    mret (Some {| oc_changed := changed; oc_previous := entry_routing_override_backend_tag k; oc_current := tag; oc_key_id := key_id k;
                  oc_client_id := client_id k |})
end.
End Routing.

(** * What a specification says of a user *)

(** The outbounds a user's connections may take: that of its rule, or those of its group. *)
Definition resolve_backends (x : EntryRoutingSpec) (user : string) : list EntryRoutingBackend :=
  let by_tag t := find (λ b, String.eqb (rb_tag b) t) (spec_backends x) in
  match find (λ r, String.eqb (user_uuid r) user) (spec_rules x) with
  | None => []
  | Some r => match find (λ g, String.eqb (group_tag g) (outbound_tag r)) (spec_groups x) with
              | Some g => omap by_tag (group_outbounds g)
              | None => option_list (by_tag (outbound_tag r))
              end
  end.

Lemma append_inj_length s1 s2 t1 t2 : String.length s1 = String.length s2 → s1 +:+ t1 = s2 +:+ t2 → s1 = s2 ∧ t1 = t2.
Proof.
  revert s2. induction s1 as [|c s1 IH]; intros [|c2 s2]; cbn; try done. intros [= Hl] [= -> Ht].
  by destruct (IH s2 Hl Ht) as [-> ->].
Qed.

Lemma fmap_distinct {A B} (f : A → B) l x y : NoDup (f <$> l) → x ∈ l → y ∈ l → f x = f y → x = y.
Proof.
  intros Hnd Hx Hy E. apply list_elem_of_lookup in Hx as [i Hi], Hy as [j Hj]. assert (i = j) as ->; [|congruence].
  apply (NoDup_lookup (f <$> l) i j (f x) Hnd); [by rewrite list_lookup_fmap, Hi|by rewrite list_lookup_fmap, Hj, E].
Qed.

Lemma find_rule tag us u : u ∈ us →
  find (λ r, String.eqb (user_uuid r) u) ((λ u, {| user_uuid := u; outbound_tag := tag u |}) <$> us) =
  Some {| user_uuid := u; outbound_tag := tag u |}.
Proof.
  intros Hu. induction us as [|v us IH]; [by apply not_elem_of_nil in Hu|]. cbn. destruct (String.eqb_spec v u) as [->|]; [done|].
  apply IH. set_solver.
Qed.

Section Assignment.
Context (cfg : EntryRoutingConfig) (digest8 : string → Z) (l : list VpnNode) (overrides : gmap string string).

(** The backends a user is meant to reach, of the sorted candidates [l]. *)
Definition intended_backends (user : string) : list VpnNode :=
match forced_node l overrides user with
| Some n => [n]
| None => if per_user_mode cfg then l else option_list (hashed digest8 user l)
end.

Definition tag_for (user : string) (n : VpnNode) : string :=
if per_user_mode cfg then _user_outbound_tag (node_name n) user else _backend_node_tag n.
Definition uuid_for (user : string) : string := if per_user_mode cfg then user else backend_service_uuid cfg.
Definition rule_tag (user : string) : string :=
match intended_backends user with [n] => tag_for user n | _ => _user_urltest_tag user end.

Definition out_port_ok : bool := valid_port (if backend_use_wg cfg then backend_wg_port cfg else backend_port cfg).

Lemma make_outbound_ok n tag uuid : out_port_ok = true →
∃ b, _make_outbound cfg n tag uuid = Ok b ∧ rb_tag b = tag ∧ rb_uuid b = uuid ∧ rb_backend_node_id b = node_id n ∧
  rb_server b = (if backend_use_wg cfg then internal_wg_ip n else server_of n).
Proof using Type.
unfold _make_outbound, out_port_ok. intros ->. cbn. destruct (backend_use_wg cfg); eexists; by split_and!.
Qed.

(** The outbounds of [xs], triples of a node, a tag and an id, were added. *)
Definition grows (xs : list (VpnNode * string * string)) (m m' : Materialized) : Prop :=
m_rules m' = m_rules m ∧ m_groups m' = m_groups m ∧
(NoDup (rb_tag <$> m_outbounds m) → NoDup (rb_tag <$> m_outbounds m')) ∧
(∀ b, b ∈ m_outbounds m → b ∈ m_outbounds m') ∧
(∀ b, b ∈ m_outbounds m' → b ∈ m_outbounds m ∨ ∃ x, x ∈ xs ∧ _make_outbound cfg x.1.1 x.1.2 x.2 = Ok b) ∧
∀ x, x ∈ xs → x.1.2 ∈ rb_tag <$> m_outbounds m'.

Lemma add_outbound_grows n tag uuid m : out_port_ok = true → ∃ m', add_outbound cfg n tag uuid m = Ok m' ∧ grows [(n, tag, uuid)] m m'.
Proof using Type.
intros Hp. unfold add_outbound. case_bool_decide as Ht.
- exists m. split; [done|]. split_and!; auto. by intros x ->%list_elem_of_singleton.
- destruct (make_outbound_ok n tag uuid Hp) as (b & Hmk & Hb & _). rewrite Hmk. cbn. eexists. split; [reflexivity|].
  split_and!; cbn; [done|done|..].
  + intros Hnd. rewrite fmap_app. apply NoDup_app. split_and!; [done| |apply NoDup_singleton].
    intros t Hin ->%list_elem_of_singleton. by rewrite Hb in Hin.
  + intros b' Hb'. apply elem_of_app. by left.
  + intros b' [Hb'|Hb']%elem_of_app; [by left|]. apply list_elem_of_singleton in Hb' as ->. right.
    exists (n, tag, uuid). split; [by apply list_elem_of_singleton|]. exact Hmk.
  + intros x ->%list_elem_of_singleton. cbn. rewrite fmap_app. apply elem_of_app. right. cbn. rewrite Hb. by apply list_elem_of_singleton.
Qed.

Lemma grows_app xs ys m m1 m2 : grows xs m m1 → grows ys m1 m2 → grows (xs ++ ys) m m2.
Proof using Type.
intros (Hr1 & Hg1 & Hn1 & Hi1 & Ho1 & Ht1) (Hr2 & Hg2 & Hn2 & Hi2 & Ho2 & Ht2). split_and!; [congruence|congruence|auto|auto|..].
- intros b Hb. destruct (Ho2 b Hb) as [H|(x & Hx & E)]; [|right; exists x; set_solver].
  destruct (Ho1 b H) as [?|(x & Hx & E)]; [by left|right; exists x; set_solver].
- intros x [Hx|Hx]%elem_of_app; [|by apply Ht2]. apply list_elem_of_fmap. destruct (proj1 (list_elem_of_fmap _ _ _) (Ht1 x Hx)) as (b & ? & ?). eauto.
Qed.

Lemma add_outbounds_grows user k m : out_port_ok = true →
∃ m', add_outbounds cfg user k m = Ok m' ∧ grows ((λ n, (n, _user_outbound_tag (node_name n) user, user)) <$> k) m m'.
Proof using Type.
intros Hp. revert m. induction k as [|n k IH]; intros m; cbn.
{ exists m. split; [done|]. split_and!; auto. by intros x ?%not_elem_of_nil. }
destruct (add_outbound_grows n (_user_outbound_tag (node_name n) user) user m Hp) as (m1 & -> & H1). cbn.
destruct (IH m1) as (m2 & -> & H2). exists m2. split; [done|]. exact (grows_app _ _ _ _ _ H1 H2).
Qed.

(** What is accumulated for the users [us]. *)
Definition routed (us : list string) (m : Materialized) : Prop :=
m_rules m = (λ u, {| user_uuid := u; outbound_tag := rule_tag u |}) <$> us ∧
m_groups m = (λ u, {| group_tag := _user_urltest_tag u; group_outbounds := tag_for u <$> intended_backends u |}) <$>
  filter (λ u, length (intended_backends u) ≠ 1%nat) us ∧
NoDup (rb_tag <$> m_outbounds m) ∧
(∀ b, b ∈ m_outbounds m → ∃ u n, u ∈ us ∧ n ∈ intended_backends u ∧ _make_outbound cfg n (tag_for u n) (uuid_for u) = Ok b) ∧
∀ u n, u ∈ us → n ∈ intended_backends u → tag_for u n ∈ rb_tag <$> m_outbounds m.

Definition user_outbounds (u : string) : list (VpnNode * string * string) := (λ n, (n, tag_for u n, uuid_for u)) <$> intended_backends u.

Lemma routed_step us u m m' m2 :
routed us m → grows (user_outbounds u) m m' → m_outbounds m2 = m_outbounds m' →
m_rules m2 = m_rules m' ++ [{| user_uuid := u; outbound_tag := rule_tag u |}] →
m_groups m2 = m_groups m' ++
  (if decide (length (intended_backends u) = 1%nat) then [] else [{| group_tag := _user_urltest_tag u; group_outbounds := tag_for u <$> intended_backends u |}]) →
routed (us ++ [u]) m2.
Proof using Type.
intros (Hr & Hg & Hn & Ho & Ht) (Hr1 & Hg1 & Hn1 & Hi1 & Ho1 & Ht1) Eo Er Eg. rewrite <-Eo in *. split_and!.
- by rewrite Er, Hr1, Hr, fmap_app.
- rewrite Eg, Hg1, Hg, filter_app, fmap_app. f_equal. cbn. repeat case_decide; by try done.
- auto.
- intros b Hb. destruct (Ho1 b Hb) as [H|(x & Hx & E)].
  + destruct (Ho b H) as (v & n & ? & ? & ?). exists v, n. set_solver.
  + apply list_elem_of_fmap in Hx as (n & -> & Hn'). exists u, n. set_solver.
- intros v n [Hv|Hv]%elem_of_app Hin.
  + apply list_elem_of_fmap. destruct (proj1 (list_elem_of_fmap _ _ _) (Ht v n Hv Hin)) as (b & ? & ?). eauto.
  + apply list_elem_of_singleton in Hv as ->. apply (Ht1 (n, tag_for u n, uuid_for u)). apply list_elem_of_fmap. eauto.
Qed.

Lemma hashed_some {A} user (k : list A) : k ≠ [] → ∃ x, hashed digest8 user k = Some x ∧ x ∈ k.
Proof using Type.
intros Hk. unfold hashed. destruct (lookup_lt_is_Some_2 k (Z.to_nat (digest8 user mod Z.of_nat (length k)))) as [x Hx].
{ destruct k as [|a k]; [done|]. cbn [length]. pose proof (Z.mod_pos_bound (digest8 user) (Z.of_nat (S (length k)))). lia. }
rewrite Hx. exists x. split; [done|]. by eapply list_elem_of_lookup_2.
Qed.

Lemma forced_in user n : forced_node l overrides user = Some n → n ∈ l ∧ overrides !! user = Some (_backend_node_tag n).
Proof using Type.
unfold forced_node. destruct (overrides !! user) as [tag|]; [|done]. destruct (nonempty tag); [|done]. intros Hn.
apply last_Some_elem_of, list_elem_of_filter in Hn as [<- ?]. done.
Qed.

Lemma intended_in user n : n ∈ intended_backends user → n ∈ l.
Proof using Type.
unfold intended_backends. destruct (forced_node _ _ _) as [f|] eqn:Hf.
- intros ->%list_elem_of_singleton. by apply forced_in in Hf as [? _].
- destruct (per_user_mode cfg); [done|]. destruct (hashed _ _ _) as [h|] eqn:Hh; [|by intros ?%not_elem_of_nil].
  intros ->%list_elem_of_singleton. by eapply list_elem_of_lookup_2.
Qed.

Lemma route_shared_step us u m : per_user_mode cfg = false → l ≠ [] → out_port_ok = true → routed us m →
∃ m2, route_shared cfg digest8 l overrides m u = Ok m2 ∧ routed (us ++ [u]) m2.
Proof using Type.
intros Hmode Hl Hp Hm. unfold route_shared.
assert (∃ n, (match forced_node l overrides u with Some n => Some n | None => hashed digest8 u l end) = Some n ∧ intended_backends u = [n])
  as (n & -> & Ha).
{ unfold intended_backends. rewrite Hmode. destruct (forced_node l overrides u) as [n|]; [eauto|].
  destruct (hashed_some u l Hl) as (n & -> & _). eauto. }
destruct (add_outbound_grows n (_backend_node_tag n) (backend_service_uuid cfg) m Hp) as (m1 & -> & Hg). cbn.
eexists. split; [reflexivity|]. eapply (routed_step us u m m1); [done| |done|..].
- unfold user_outbounds. rewrite Ha. unfold tag_for, uuid_for. by rewrite Hmode.
- cbn. unfold rule_tag. rewrite Ha. unfold tag_for. by rewrite Hmode.
- rewrite Ha. cbn. by rewrite app_nil_r.
Qed.

Lemma route_per_user_step us u m : per_user_mode cfg = true → l ≠ [] → out_port_ok = true → routed us m →
∃ m2, route_per_user cfg l overrides m u = Ok m2 ∧ routed (us ++ [u]) m2.
Proof using Type.
intros Hmode Hl Hp Hm. unfold route_per_user. destruct (forced_node l overrides u) as [n|] eqn:Hf.
- assert (intended_backends u = [n]) as Ha by (unfold intended_backends; by rewrite Hf).
  destruct (add_outbound_grows n (_user_outbound_tag (node_name n) u) u m Hp) as (m1 & -> & Hg). cbn.
  eexists. split; [reflexivity|]. eapply (routed_step us u m m1); [done| |done|..].
  + unfold user_outbounds. rewrite Ha. unfold tag_for, uuid_for. by rewrite Hmode.
  + cbn. unfold rule_tag. rewrite Ha. unfold tag_for. by rewrite Hmode.
  + rewrite Ha. cbn. by rewrite app_nil_r.
- assert (intended_backends u = l) as Ha by (unfold intended_backends; by rewrite Hf, Hmode).
  destruct (add_outbounds_grows u l m Hp) as (m1 & -> & Hg). cbn [mbind res_bind].
  assert (grows (user_outbounds u) m m1) as Hg'.
  { unfold user_outbounds. rewrite Ha. unfold tag_for, uuid_for. by rewrite Hmode. }
  assert (∀ m2, m_outbounds m2 = m_outbounds m1 → m_rules m2 = m_rules m1 ++ [{| user_uuid := u; outbound_tag := rule_tag u |}] →
    m_groups m2 = m_groups m1 ++ (if decide (length l = 1%nat) then [] else
      [{| group_tag := _user_urltest_tag u; group_outbounds := tag_for u <$> l |}]) → routed (us ++ [u]) m2) as Hstep.
  { intros m2 Eo Er Eg. eapply (routed_step us u m m1); try done. by rewrite Ha. }
  unfold rule_tag, tag_for in Hstep. rewrite Ha, Hmode in Hstep.
  destruct l as [|n [|n2 k]]; [done| |]; cbn; eexists; (split; [reflexivity|]); apply Hstep; cbn; try done.
  by rewrite app_nil_r.
Qed.

Definition route_user : Materialized → string → res Materialized :=
if per_user_mode cfg then route_per_user cfg l overrides else route_shared cfg digest8 l overrides.

Lemma route_users_routed us : l ≠ [] → out_port_ok = true → ∃ m, route_users route_user no_outbounds us = Ok m ∧ routed us m.
Proof using Type.
intros Hl Hp.
assert (∀ us vs m, routed vs m → ∃ m2, route_users route_user m us = Ok m2 ∧ routed (vs ++ us) m2) as H.
{ clear us. intros us. induction us as [|u us IH]; intros vs m Hm; [exists m; by rewrite app_nil_r|]. cbn [route_users].
  assert (∃ m1, route_user m u = Ok m1 ∧ routed (vs ++ [u]) m1) as (m1 & -> & Hm1).
  { unfold route_user. destruct (per_user_mode cfg) eqn:Hmode; [by apply route_per_user_step|by apply route_shared_step]. }
  destruct (IH _ _ Hm1) as (m2 & Hr & Hm2). exists m2. split; [done|]. by rewrite <-app_assoc in Hm2. }
apply (H us []). split_and!; [done|done|constructor|..].
- by intros b ?%not_elem_of_nil.
- by intros u n ?%not_elem_of_nil.
Qed.

(** Two users' tags are equal only for the same outbound. *)
Lemma tag_for_inj u v n m :
NoDup (node_name <$> l) → String.length u = String.length v → n ∈ l → m ∈ l → tag_for u n = tag_for v m → n = m ∧ uuid_for u = uuid_for v.
Proof using Type.
intros Hnd Hlen Hn Hm. assert (node_name n = node_name m → n = m) as Hname.
{ by apply (fmap_distinct node_name l). }
unfold tag_for, uuid_for. destruct (per_user_mode cfg).
- unfold _user_outbound_tag. cbn. intros [= E]. destruct (append_inj_length _ _ _ _ Hlen E) as [-> [= E2]]. auto.
- unfold _backend_node_tag. cbn. intros [= E]. auto.
Qed.

Lemma find_tag u n m us :
routed us m → NoDup (node_name <$> l) → (∀ v w, v ∈ us → w ∈ us → String.length v = String.length w) → u ∈ us → n ∈ intended_backends u →
∃ b, find (λ b, String.eqb (rb_tag b) (tag_for u n)) (m_outbounds m) = Some b ∧ _make_outbound cfg n (tag_for u n) (uuid_for u) = Ok b.
Proof using Type.
intros (_ & _ & _ & Ho & Ht) Hnd Hlen Hu Hn. destruct (find _ _) as [b|] eqn:Hf.
- exists b. split; [done|]. apply find_some in Hf as [Hb%list_elem_of_In Htag%String.eqb_eq].
  destruct (Ho b Hb) as (v & k & Hv & Hk & Hmk).
  assert (rb_tag b = tag_for v k) as Etag.
  { unfold _make_outbound in Hmk. destruct (negb _); [done|]. destruct (backend_use_wg cfg); by injection Hmk as <-. }
  destruct (tag_for_inj u v n k Hnd (Hlen u v Hu Hv)) as [-> ->]; [by eapply intended_in|by eapply intended_in|congruence|].
  by rewrite <-Htag, Etag.
- exfalso. destruct (proj1 (list_elem_of_fmap _ _ _) (Ht u n Hu Hn)) as (b & E & Hb).
  pose proof (find_none _ _ Hf b (proj1 (list_elem_of_In _ _) Hb)) as Hne. cbn in Hne. apply String.eqb_neq in Hne. congruence.
Qed.

(** The outbounds the users are sent to. *)
Lemma resolve_routed us m x u :
routed us m → spec_backends x = m_outbounds m → spec_rules x = m_rules m → spec_groups x = m_groups m →
NoDup (node_name <$> l) → (∀ v w, v ∈ us → w ∈ us → String.length v = String.length w) → u ∈ us →
∃ bs, resolve_backends x u = bs ∧ Forall2 (λ n b, _make_outbound cfg n (tag_for u n) (uuid_for u) = Ok b) (intended_backends u) bs.
Proof using Type.
intros Hm Eb Er Eg Hnd Hlen Hu. eexists. split; [reflexivity|]. pose proof Hm as (Hr & Hg & _).
unfold resolve_backends. rewrite Eb, Er, Eg, Hr.
rewrite find_rule by done. cbn [outbound_tag].
destruct (decide (length (intended_backends u) = 1%nat)) as [H1|H1].
- destruct (intended_backends u) as [|n [|]] eqn:Ha; try done.
  assert (rule_tag u = tag_for u n) as Et by (unfold rule_tag; by rewrite Ha). rewrite Et.
  assert (find (λ g, String.eqb (group_tag g) (tag_for u n)) (m_groups m) = None) as ->.
  { rewrite Hg. destruct (find _ _) as [g|] eqn:Hf; [|done]. apply find_some in Hf as [Hin%list_elem_of_In E%String.eqb_eq].
    apply list_elem_of_fmap in Hin as (v & -> & _). exfalso. revert E. unfold tag_for. destruct (per_user_mode cfg); done. }
  destruct (find_tag u n m us Hm Hnd Hlen Hu) as (b & -> & Hb); [rewrite Ha; by apply list_elem_of_singleton|].
  constructor; [done|constructor].
- assert (rule_tag u = _user_urltest_tag u) as -> by (unfold rule_tag; destruct (intended_backends u) as [|? [|]]; done).
  assert (find (λ g, String.eqb (group_tag g) (_user_urltest_tag u)) (m_groups m) =
    Some {| group_tag := _user_urltest_tag u; group_outbounds := tag_for u <$> intended_backends u |}) as ->.
  { rewrite Hg. clear -Hu H1. induction us as [|v us IH]; [by apply not_elem_of_nil in Hu|]. rewrite filter_cons.
    destruct (decide (v = u)) as [->|Hv]; [rewrite decide_True by done; cbn; by rewrite String.eqb_refl|].
    assert (u ∈ us) as Hus by set_solver. case_decide; [|by apply IH]. cbn.
    destruct (String.eqb_spec (_user_urltest_tag v) (_user_urltest_tag u)) as [[= E]|_]; [done|]. by apply IH. }
  cbn [group_outbounds].
  assert (∀ n, n ∈ intended_backends u → ∃ b, find (λ b, String.eqb (rb_tag b) (tag_for u n)) (m_outbounds m) = Some b ∧
    _make_outbound cfg n (tag_for u n) (uuid_for u) = Ok b) as Hall by (intros n Hn; by eapply find_tag).
  clear -Hall. induction (intended_backends u) as [|n k IH]; [constructor|]. cbn.
  destruct (Hall n) as (b & -> & Hb); [by left|]. constructor; [done|]. apply IH. intros n' Hn'. apply Hall. by right.
Qed.
End Assignment.

(** * The specification of an entry *)

Definition ids_for_entry (d : database) (entry : Z) : list Z :=
  remove_dups (route_node_id <$> filter (λ r, (route_is_active r && bool_decide (route_entry_node_id r = Some entry) &&
    profile_is_active d r (λ _, true)) = true) (rows (routes d))).

(** The candidates of an entry, as a function of the tables. *)
Definition candidates_of (cfg : EntryRoutingConfig) (d : database) (entry : VpnNode) : list VpnNode :=
  if (if backend_use_wg cfg then negb (_has_wg_addr entry)
      else negb (nonempty (backend_service_uuid cfg)) || negb (nonempty (backend_reality_public_key cfg)))
  then []
  else match ids_for_entry d (node_id entry) with
       | [] => filter (λ n, usable_backend cfg n && String.eqb (zone_of n) (zone_of entry) = true) (all_nodes_of d)
       | ids => filter (λ n, usable_backend cfg n = true) (filter (λ n, bool_decide (node_id n ∈ ids) = true) (rows (nodes d)))
       end.

Lemma candidates_run cfg entry s : _candidate_backend_nodes_for_zone cfg entry s = (Ok (candidates_of cfg (db s) entry), s).
Proof.
  unfold _candidate_backend_nodes_for_zone, candidates_of. destruct (if backend_use_wg cfg then _ else _); [done|].
  unfold list_backend_ids_for_entry, mbind at 1, M_bind at 1, read, gets. fold (ids_for_entry (db s) (node_id entry)).
  destruct (ids_for_entry (db s) (node_id entry)) as [|i ids]; [|done].
  unfold mbind, M_bind. by rewrite all_nodes_run.
Qed.

Lemma candidate_in cfg d entry n : n ∈ candidates_of cfg d entry → n ∈ rows (nodes d) ∧ usable_backend cfg n = true.
Proof.
  unfold candidates_of. destruct (if backend_use_wg cfg then _ else _); [by intros ?%not_elem_of_nil|].
  destruct (ids_for_entry d (node_id entry)) as [|i ids].
  - intros [[? _]%andb_prop Hin]%list_elem_of_filter. by rewrite elem_of_all_nodes in Hin.
  - by intros [? [_ ?]%list_elem_of_filter]%list_elem_of_filter.
Qed.

Lemma candidates_names cfg d entry : NoDup (node_name <$> rows (nodes d)) → NoDup (node_name <$> candidates_of cfg d entry).
Proof.
  intros Hnd. unfold candidates_of. destruct (if backend_use_wg cfg then _ else _); [constructor|].
  destruct (ids_for_entry d (node_id entry)) as [|i ids].
  - eapply sublist_NoDup; [|apply fmap_sublist, sublist_filter]. unfold all_nodes_of, order_by_desc. by rewrite merge_sort_Permutation.
  - eapply sublist_NoDup; [|apply fmap_sublist, sublist_filter]. eapply sublist_NoDup; [exact Hnd|apply fmap_sublist, sublist_filter].
Qed.

Definition live_keys (now : Z) (d : database) : list VpnKey := filter (λ k, key_live now k = true) (rows (vpn_keys d)).

(** The candidates in the order the hash indexes. *)
Definition by_name (l : list VpnNode) : list VpnNode := order_by_name node_name l.

Lemma elem_of_by_name l n : n ∈ by_name l ↔ n ∈ l.
Proof. unfold by_name, order_by_name. by rewrite merge_sort_Permutation. Qed.

Lemma by_name_nil l : by_name l = [] ↔ l = [].
Proof.
  unfold by_name, order_by_name. pose proof (merge_sort_Permutation (name_le node_name) l) as Hp. split; [|by intros ->].
  intros E. rewrite E in Hp. by apply Permutation_nil in Hp.
Qed.

Definition ports_ok (cfg : EntryRoutingConfig) : bool :=
  out_port_ok cfg && valid_port (rc_listen_port cfg) && valid_port (rc_reality_handshake_port cfg).

(** The run of [build_spec_for_node] on an entry, with what it accumulated. *)
Lemma build_spec_run cfg digest8 nid s n :
  nodes (db s) !! nid = Some n → is_entry_role (node_role n) = true → ports_ok cfg = true →
  let keys := live_keys (clock s (ticks s)) (db s) in
  let users := client_id <$> routed_keys keys in
  let l := by_name (candidates_of cfg (db s) n) in
  ∃ m final, build_spec_for_node cfg digest8 nid s =
    (Ok (Some {| spec_node_id := node_id n; spec_listen_port := rc_listen_port cfg; spec_reality := reality_of cfg; spec_users := users;
                 spec_backends := m_outbounds m; spec_rules := m_rules m; spec_groups := m_groups m; final_outbound := final |}), tick s) ∧
    if decide (l = []) then m = no_outbounds ∧ final = "direct"
    else routed cfg digest8 l (overrides_of keys) users m ∧
         final = if per_user_mode cfg then "block" else from_option _backend_node_tag "" (head l).
Proof.
  intros Hn Hrole [[Hout Hlisten]%andb_prop Hhand]%andb_prop keys users l.
  unfold build_spec_for_node, mbind at 1, M_bind at 1, get_by_id, read, gets. cbn [t_rows nodes_tbl]. rewrite Hn, Hrole. cbn [negb].
  unfold mbind at 1, M_bind at 1, list_all_active. unfold mbind at 1, M_bind at 1, utcnow, select_where, read, gets. cbn [db t_rows keys_tbl].
  fold (tick s). fold (live_keys (clock s (ticks s)) (db s)). fold keys. fold users.
  unfold mbind at 1, M_bind at 1. rewrite candidates_run. cbn [db tick].
  assert (∃ m final, _materialize_outbounds_and_rules cfg digest8 users (candidates_of cfg (db s) n) (overrides_of keys) = Ok (m, final) ∧
    if decide (l = []) then m = no_outbounds ∧ final = "direct"
    else routed cfg digest8 l (overrides_of keys) users m ∧
         final = if per_user_mode cfg then "block" else from_option _backend_node_tag "" (head l)) as (m & final & Hm & Hspec).
  { unfold _materialize_outbounds_and_rules. fold (by_name (candidates_of cfg (db s) n)). fold l.
    destruct (decide (l = [])) as [E|Hne]; [rewrite E; eauto|].
    destruct (route_users_routed cfg digest8 l (overrides_of keys) users Hne Hout) as (m & Hr & Hm). unfold route_user in Hr.
    clearbody l. destruct l as [|c l]; [done|]. destruct (per_user_mode cfg); rewrite Hr; cbn; eauto. }
  rewrite Hm. exists m, final. split; [|done]. unfold mbind, M_bind. cbn [lift mret M_ret fst snd]. rewrite Hlisten, Hhand. done.
Qed.

(** The ids of the keys are UUIDs, written with as many characters. *)
Definition uuid_clients (d : database) : Prop :=
  ∀ k, k ∈ rows (vpn_keys d) → nonempty (client_id k) = true → String.length (client_id k) = 36%nat.

Lemma routed_user_length now d u :
  uuid_clients d → u ∈ client_id <$> routed_keys (live_keys now d) → String.length u = 36%nat.
Proof.
  intros Huuid (k & -> & [Hne [_ Hk]%list_elem_of_filter]%list_elem_of_filter)%list_elem_of_fmap. by apply Huuid.
Qed.

Lemma make_outbound_fields cfg n tag uuid b : _make_outbound cfg n tag uuid = Ok b →
  rb_backend_node_id b = node_id n ∧ rb_uuid b = uuid ∧ rb_tag b = tag ∧
  rb_server b = if backend_use_wg cfg then internal_wg_ip n else server_of n.
Proof. unfold _make_outbound. destruct (negb _); [done|]. destruct (backend_use_wg cfg); by intros [= <-]. Qed.

(** C17: the specification of an entry is built for every live key, with distinct outbounds to
    usable backends only, and the rule of a key leads exactly where it should: to the backend
    its override names when that is a candidate, else to the one its digest selects, or, when
    each user has outbounds of its own, to all the candidates, with the user's own id. *)
Theorem entry_spec_routes cfg digest8 nid s n :
  nodes (db s) !! nid = Some n → is_entry_role (node_role n) = true → ports_ok cfg = true →
  NoDup (node_name <$> rows (nodes (db s))) → uuid_clients (db s) →
  let keys := live_keys (clock s (ticks s)) (db s) in
  let l := by_name (candidates_of cfg (db s) n) in
  ∃ x s', build_spec_for_node cfg digest8 nid s = (Ok (Some x), s') ∧ db s' = db s ∧
    spec_users x = client_id <$> routed_keys keys ∧
    NoDup (rb_tag <$> spec_backends x) ∧
    (∀ b, b ∈ spec_backends x → ∃ c, c ∈ l ∧ usable_backend cfg c = true ∧ rb_backend_node_id b = node_id c) ∧
    if decide (l = []) then spec_rules x = [] ∧ final_outbound x = "direct"
    else user_uuid <$> spec_rules x = spec_users x ∧
         ∀ u, u ∈ spec_users x →
           Forall2 (λ c b, rb_backend_node_id b = node_id c ∧ rb_uuid b = uuid_for cfg u ∧
                           rb_server b = if backend_use_wg cfg then internal_wg_ip c else server_of c)
             (intended_backends cfg digest8 l (overrides_of keys) u) (resolve_backends x u).
Proof.
  intros Hn Hrole Hports Hnames Huuid keys l.
  destruct (build_spec_run cfg digest8 nid s n Hn Hrole Hports) as (m & final & Hrun & Hm). fold keys l in Hm.
  eexists _, _. split; [exact Hrun|]. split; [done|]. split; [done|]. cbn [spec_backends spec_rules final_outbound spec_users].
  destruct (decide (l = [])) as [E|Hne].
  - destruct Hm as [-> ->]. split; [constructor|]. split; [by intros b ?%not_elem_of_nil|done].
  - destruct Hm as [Hm _]. pose proof Hm as (Hr & _ & Hnd & Ho & _). split; [done|]. split.
    { intros b Hb. destruct (Ho b Hb) as (u & c & _ & Hc%intended_in & [Hid _]%make_outbound_fields). exists c. split; [done|].
      split; [|done]. by apply elem_of_by_name, candidate_in in Hc as [_ ?]. }
    split; [rewrite Hr, <-list_fmap_compose; apply list_fmap_id|]. intros u Hu.
    match goal with |- Forall2 _ _ (resolve_backends ?x u) =>
      destruct (resolve_routed cfg digest8 l (overrides_of keys) _ m x u Hm eq_refl eq_refl eq_refl) as (bs & -> & HF) end.
    + unfold l, by_name, order_by_name. rewrite merge_sort_Permutation. by apply candidates_names.
    + intros v w Hv Hw. by rewrite (routed_user_length _ _ _ Huuid Hv), (routed_user_length _ _ _ Huuid Hw).
    + done.
    + eapply Forall2_impl; [exact HF|]. intros c b (? & ? & _ & ?)%make_outbound_fields. done.
Qed.

(** * The view of the administrators *)

Lemma build_backends_run cfg entry s : out_port_ok cfg = true →
  ∃ bs, _build_backends_for_zone cfg entry s = (Ok bs, s) ∧ rb_tag <$> bs = _backend_node_tag <$> candidates_of cfg (db s) entry.
Proof.
  intros Hp. unfold _build_backends_for_zone, mbind at 1, M_bind at 1. rewrite candidates_run.
  induction (candidates_of cfg (db s) entry) as [|n l IH]; [by exists []|]. destruct IH as (bs & Hrun & Htags).
  destruct (make_outbound_ok cfg n (_backend_node_tag n) (backend_service_uuid cfg) Hp) as (b & Hb & Ht & _).
  exists (b :: bs). cbn [mapM]. unfold mbind, M_bind in *. rewrite Hb. cbn [lift mret M_ret]. rewrite Hrun. cbn. by rewrite Ht, Htags.
Qed.

Definition add_backends (m : gmap string EntryRoutingBackend) (l : list EntryRoutingBackend) : gmap string EntryRoutingBackend :=
  foldl (λ (m : gmap string EntryRoutingBackend) b, match m !! rb_tag b with Some _ => m | None => <[rb_tag b := b]> m end) m l.

Lemma elem_of_add_backends l : ∀ m t, is_Some (add_backends m l !! t) ↔ is_Some (m !! t) ∨ t ∈ rb_tag <$> l.
Proof.
  induction l as [|b l IH]; intros m t; cbn.
  { split; [by left|]. by intros [?|?%not_elem_of_nil]. }
  rewrite IH, elem_of_cons. destruct (m !! rb_tag b) as [b'|] eqn:E.
  - split; [naive_solver|]. intros [?|[->|?]]; eauto.
  - rewrite lookup_insert. case_decide; naive_solver.
Qed.

Lemma pool_run cfg s : out_port_ok cfg = true →
  ∃ m, pool_backends cfg s = (Ok m, s) ∧
    ∀ t, is_Some (m !! t) ↔ ∃ e n, e ∈ rows (nodes (db s)) ∧ is_entry_role (node_role e) = true ∧
      n ∈ candidates_of cfg (db s) e ∧ t = _backend_node_tag n.
Proof.
  intros Hp. unfold pool_backends, mbind at 1, M_bind at 1, list_target_nodes. unfold mbind at 1, M_bind at 1. rewrite all_nodes_run.
  cbn [mret M_ret].
  assert (∀ targets m0, ∃ m, fold_m (λ m entry, l ← _build_backends_for_zone cfg entry; mret (add_backends m l)) m0 targets s = (Ok m, s) ∧
    ∀ t, is_Some (m !! t) ↔ is_Some (m0 !! t) ∨ ∃ e n, e ∈ targets ∧ n ∈ candidates_of cfg (db s) e ∧ t = _backend_node_tag n) as H.
  { induction targets as [|e targets IH]; intros m0.
    - exists m0. split; [done|]. intros t. split; [by left|]. intros [?|(e & n & He & _)]; [done|]. by apply not_elem_of_nil in He.
    - destruct (build_backends_run cfg e s Hp) as (bs & Hb & Htags). destruct (IH (add_backends m0 bs)) as (m & Hm & Hdom).
      exists m. cbn [fold_m]. unfold mbind at 1, M_bind at 1. unfold mbind at 1, M_bind at 1. rewrite Hb. cbn [mret M_ret].
      split; [done|]. intros t. rewrite Hdom, elem_of_add_backends, Htags, list_elem_of_fmap. split.
      + intros [[?|(n & -> & ?)]|(e' & n & ? & ? & ->)]; [by left|right; exists e, n; set_solver|right; exists e', n; set_solver].
      + intros [?|(e' & n & [->|?]%elem_of_cons & ? & ->)]; [by do 2 left|left; right; eauto|right; eauto 10]. }
  destruct (H (filter (λ n, is_entry_role (node_role n) = true) (all_nodes_of (db s))) ∅) as (m & Hm & Hdom).
  exists m. split; [exact Hm|]. intros t. rewrite Hdom, lookup_empty. split.
  - intros [[? ?]|(e & n & [? He]%list_elem_of_filter & ? & ->)]; [done|]. rewrite elem_of_all_nodes in He. eauto 10.
  - intros (e & n & He & ? & ? & ->). right. exists e, n. split_and!; [|done|done]. apply list_elem_of_filter. by rewrite elem_of_all_nodes.
Qed.

Lemma backend_tag_leb a b : String.leb (_backend_node_tag a) (_backend_node_tag b) = String.leb (node_name a) (node_name b).
Proof. done. Qed.

#[local] Instance name_le_total {R} (key : R → string) : Total (name_le key).
Proof. intros a b. unfold name_le. destruct (String.leb_total (key a) (key b)); auto. Qed.

#[local] Instance name_le_trans {R} (key : R → string) : Transitive (name_le key).
Proof.
  intros a b c Hab Hbc. unfold name_le in *. apply Is_true_true. apply Is_true_true in Hab, Hbc.
  exact (transitivity (R := String.le) Hab Hbc).
Qed.

#[local] Instance name_le_antisymm : AntiSymm (=) (name_le (@id string)).
Proof. intros a b. unfold name_le. apply String.leb_antisym. Qed.

(** Sorting the tags is sorting the nodes by name. *)
Lemma sorted_tags_by_name (m : gmap string EntryRoutingBackend) l :
  NoDup (node_name <$> l) → (∀ t, is_Some (m !! t) ↔ t ∈ _backend_node_tag <$> l) → sorted_tags m = _backend_node_tag <$> by_name l.
Proof.
  intros Hnd Hdom. unfold sorted_tags, order_by_name. eapply (Sorted_unique (name_le (@id string))).
  - apply Sorted_merge_sort, _.
  - unfold by_name, order_by_name. pose proof (Sorted_merge_sort (name_le node_name) l) as Hs.
    induction Hs as [|n k Hs IH Hhd]; [constructor|]. cbn. constructor; [exact IH|].
    destruct Hhd as [|n' k Hle]; constructor. unfold name_le in *. by rewrite <-Hle.
  - rewrite merge_sort_Permutation. apply NoDup_Permutation.
    + apply NoDup_fst_map_to_list.
    + unfold by_name, order_by_name. rewrite merge_sort_Permutation.
      assert (_backend_node_tag <$> l = String.append "backend-" <$> (node_name <$> l)) as -> by (by rewrite <-list_fmap_compose).
      by apply (NoDup_fmap_2 _).
    + intros t. unfold by_name, order_by_name. rewrite merge_sort_Permutation, <-Hdom, list_elem_of_fmap. split.
      * intros ([t' b] & -> & Hin%elem_of_map_to_list). eauto.
      * intros [b Hb]. exists (t, b). split; [done|]. by apply elem_of_map_to_list.
Qed.

Lemma hashed_fmap {A B} digest8 (f : A → B) u l : hashed digest8 u (f <$> l) = f <$> hashed digest8 u l.
Proof. unfold hashed. by rewrite length_fmap, list_lookup_fmap. Qed.

(** The override of a key, when set. *)
Definition override_of (k : VpnKey) : option string :=
  match entry_routing_override_backend_tag k with Some t => if nonempty t then Some t else None | None => None end.

Lemma overrides_lookup l k :
  NoDup (client_id <$> l) → k ∈ routed_keys l → overrides_of l !! client_id k = override_of k.
Proof.
  intros Hnd Hk. unfold overrides_of.
  assert (NoDup (client_id <$> routed_keys l)) as Hnd' by (eapply sublist_NoDup; [exact Hnd|apply fmap_sublist, sublist_filter]).
  clear Hnd. revert Hnd' Hk. generalize (routed_keys l) as r. clear l.
  assert (∀ r (m : gmap string string), client_id k ∉ client_id <$> r →
    foldl (λ m k, match entry_routing_override_backend_tag k with
                  | Some tag => if nonempty tag then <[client_id k := tag]> m else m
                  | None => m
                  end) m r !! client_id k = m !! client_id k) as Hnot.
  { induction r as [|k' r IH]; intros m Hin; [done|]. cbn in Hin. apply not_elem_of_cons in Hin as [Hne Hin]. cbn. rewrite IH by done.
    destruct (entry_routing_override_backend_tag k') as [t|]; [|done]. destruct (nonempty t); [|done]. by rewrite lookup_insert_ne. }
  intros r. assert (∀ (m : gmap string string), m !! client_id k = None → NoDup (client_id <$> r) → k ∈ r →
    foldl (λ m k, match entry_routing_override_backend_tag k with
                  | Some tag => if nonempty tag then <[client_id k := tag]> m else m
                  | None => m
                  end) m r !! client_id k = override_of k) as H; [|by apply H].
  induction r as [|k' r IH]; intros m Hm Hnd Hk; [by apply not_elem_of_nil in Hk|].
  cbn in Hnd. apply NoDup_cons in Hnd as [Hn Hnd]. cbn. apply elem_of_cons in Hk as [<-|Hk].
  - rewrite Hnot by done. unfold override_of. destruct (entry_routing_override_backend_tag k) as [t|]; [|done].
    destruct (nonempty t); [by rewrite lookup_insert_eq|done].
  - apply IH; [|done|done]. destruct (entry_routing_override_backend_tag k') as [t|]; [|done]. destruct (nonempty t); [|done].
    rewrite lookup_insert_ne; [done|]. intros E. apply Hn. rewrite E. apply list_elem_of_fmap. eauto.
Qed.

(** The backend shown for a key is the one its rule names. *)
Lemma effective_is_rule cfg digest8 l overrides k :
  per_user_mode cfg = false → l ≠ [] → nonempty (client_id k) = true → overrides !! client_id k = override_of k →
  _effective_backend digest8 (client_id k) (entry_routing_override_backend_tag k) (_backend_node_tag <$> l) =
    Some (rule_tag cfg digest8 l overrides (client_id k)).
Proof.
  intros Hmode Hl Hne Hov. unfold _effective_backend. rewrite Hne. destruct l as [|n0 l0] eqn:El; [done|]. rewrite <-El in *.
  replace (match _backend_node_tag <$> l with [] => true | _ => false end) with false by (by rewrite El). cbn [orb negb].
  unfold rule_tag, intended_backends, forced_node. rewrite Hov, Hmode. unfold tag_for. rewrite Hmode.
  destruct (hashed_some digest8 (client_id k) l Hl) as (h & Hh & _). rewrite hashed_fmap, Hh. cbn.
  unfold override_of. destruct (entry_routing_override_backend_tag k) as [t|]; [|done]. destruct (nonempty t) eqn:Ht; [|done]. rewrite ?Ht. cbn [andb].
  case_bool_decide as Hin.
  - apply list_elem_of_fmap in Hin as (n & -> & Hn).
    destruct (last (filter (λ n', _backend_node_tag n' = _backend_node_tag n) l)) as [n'|] eqn:Hlast.
    + apply last_Some_elem_of, list_elem_of_filter in Hlast as [<- _]. done.
    + apply last_None in Hlast. exfalso. assert (n ∈ filter (λ n', _backend_node_tag n' = _backend_node_tag n) l) as Hf
        by (by apply list_elem_of_filter). rewrite Hlast in Hf. by apply not_elem_of_nil in Hf.
  - replace (filter (λ n, _backend_node_tag n = t) l) with (@nil VpnNode); [done|]. symmetry. apply filter_empty.
    intros n Hn <-. apply Hin, list_elem_of_fmap. eauto.
Qed.

(** C18: where all entries have the same candidates and users share the outbounds, the backend
    the administrators are shown for a live key is the one the rule in the specification of
    an entry names for it. *)
Theorem routing_view_agrees cfg digest8 nid s n limit :
  nodes (db s) !! nid = Some n → is_entry_role (node_role n) = true → ports_ok cfg = true → per_user_mode cfg = false →
  NoDup (node_name <$> rows (nodes (db s))) → NoDup (client_id <$> rows (vpn_keys (db s))) →
  (∀ e, e ∈ rows (nodes (db s)) → is_entry_role (node_role e) = true →
    candidates_of cfg (db s) e ≡ₚ candidates_of cfg (db s) n) →
  ∃ x s1 backends keys s2, build_spec_for_node cfg digest8 nid s = (Ok (Some x), s1) ∧
    get_routing_state cfg digest8 limit s = (Ok (backends, keys), s2) ∧
    ∀ row, row ∈ keys → row_client_id row ∈ spec_users x →
      effective_backend row = outbound_tag <$> find (λ r, String.eqb (user_uuid r) (row_client_id row)) (spec_rules x).
Proof.
  intros Hn Hrole Hports Hmode Hnames Hclients Hsame.
  destruct (build_spec_run cfg digest8 nid s n Hn Hrole Hports) as (m & final & Hrun & Hm).
  set (keys := live_keys (clock s (ticks s)) (db s)) in *. set (l := by_name (candidates_of cfg (db s) n)) in *.
  assert (out_port_ok cfg = true) as Hout by (by apply andb_prop in Hports as [[? _]%andb_prop _]).
  destruct (pool_run cfg s Hout) as (pool & Hpool & Hdom).
  assert (sorted_tags pool = _backend_node_tag <$> l) as Htags.
  { apply sorted_tags_by_name; [by apply candidates_names|]. intros t. rewrite Hdom, list_elem_of_fmap. split.
    - intros (e & c & He & Hr & Hc & ->). exists c. split; [done|]. by rewrite <-(Hsame e).
    - intros (c & -> & Hc). exists n, c. split_and!; try done. apply elem_of_rows. eauto. }
  eexists _, _, _, _, _. split; [exact Hrun|]. split.
  { unfold get_routing_state, mbind at 1, M_bind at 1. rewrite Hpool. unfold list_active_with_user, mbind, M_bind, select_where, read, gets.
    cbn [mret M_ret t_rows keys_tbl]. reflexivity. }
  intros row (k' & -> & Hk)%list_elem_of_fmap.
  apply elem_of_take in Hk as (i & Hk & _). apply list_elem_of_lookup_2 in Hk. unfold order_by_desc in Hk.
  rewrite merge_sort_Permutation in Hk. apply list_elem_of_filter in Hk as [_ Hk].
  cbn [key_row row_client_id effective_backend spec_users spec_rules].
  intros (k2 & E & Hk2)%list_elem_of_fmap. pose proof Hk2 as [Hne [Hlive Hk2']%list_elem_of_filter]%list_elem_of_filter.
  assert (k' = k2) as -> by (by apply (fmap_distinct client_id (rows (vpn_keys (db s))))). rewrite Htags.
  destruct (decide (l = [])) as [El|Hl]; [destruct Hm as [-> _]; by rewrite El|]. destruct Hm as [(Hr & _) _].
  rewrite (effective_is_rule cfg digest8 l (overrides_of keys)); [|done..|].
  - rewrite Hr, find_rule; [done|]. apply list_elem_of_fmap. eauto.
  - apply overrides_lookup; [|done]. eapply sublist_NoDup; [exact Hclients|apply fmap_sublist, sublist_filter].
Qed.

(** * A small fleet *)

Definition routing_cfg (use_wg : bool) : EntryRoutingConfig :=
  {| rc_listen_port := 443; rc_reality_private_key := "priv"; rc_reality_short_id := "ab"; rc_reality_server_name := "sni.example";
     rc_reality_handshake_server := "sni.example"; rc_reality_handshake_port := 443; backend_service_uuid := "service";
     backend_reality_public_key := "pub"; backend_reality_fingerprint := "chrome"; backend_port := 443; backend_flow := "xtls-rprx-vision";
     backend_use_wg := use_wg; backend_wg_port := 8443; per_user_outbound_uuid := true |}.

(** A digest for the examples: the code of the first character. *)
Definition first_code (c : string) : Z := match c with String a _ => Z.of_nat (nat_of_ascii a) | EmptyString => 0 end.

Definition routing_key (id : Z) (client : string) (override : option string) : VpnKey :=
  {| key_id := id; key_user_id := 1; key_protocol := "vless"; key_transport := "tcp"; client_id := client; valid_until := 5000;
     traffic_limit_mb := 0; key_used_traffic_bytes := 0; is_revoked := false; key_subscription_id := Some 1;
     entry_routing_override_backend_tag := override; key_is_active := true; key_created_at := id; key_updated_at := id |}.

Definition uuid_a : string := "a0000000-0000-4000-8000-000000000000".
Definition uuid_b : string := "b0000000-0000-4000-8000-000000000000".
Definition uuid_c : string := "c0000000-0000-4000-8000-000000000000".

Definition routing_db : database :=
  set_nodes {[1 := mesh_node 1 "b1" "backend" "b1.example" "10.10.0.2" (Some "kb1");
              2 := mesh_node 2 "e1" "entry" "e1.example" "10.10.0.3" (Some "ke1");
              3 := mesh_node 3 "b2" "backend" "b2.example" "10.10.0.4" (Some "kb2")]}
  (set_vpn_keys {[1 := routing_key 1 uuid_a None; 2 := routing_key 2 uuid_b None; 3 := routing_key 3 uuid_c (Some "backend-b1")]} empty_db).

Definition routing_session : session := session_on routing_db 1000 500.

Definition routing_of (use_wg : bool) (client : string) : list (string * string * string) :=
  match (build_spec_for_node (routing_cfg use_wg) first_code 2 routing_session).1 with
  | Ok (Some x) => (λ b, (rb_node_name b, rb_server b, rb_uuid b)) <$> resolve_backends x client
  | _ => []
  end.

(** Shared outbounds: by digest, and by override. *)
Example shared_routing :
  routing_of false uuid_a = [("b2", "b2.example", "service")] ∧ routing_of false uuid_b = [("b1", "b1.example", "service")] ∧
  routing_of false uuid_c = [("b1", "b1.example", "service")].
Proof. vm_compute. split_and!; reflexivity. Qed.

(** Outbounds per user: all the candidates, or the override only. *)
Example per_user_routing :
  routing_of true uuid_a = [("b1", "10.10.0.2", uuid_a); ("b2", "10.10.0.4", uuid_a)] ∧ routing_of true uuid_c = [("b1", "10.10.0.2", uuid_c)].
Proof. vm_compute. split; reflexivity. Qed.

Lemma routing_names : NoDup (node_name <$> rows (nodes routing_db)).
Proof. apply (bool_decide_unpack _). vm_compute. exact I. Qed.

Lemma routing_clients : NoDup (client_id <$> rows (vpn_keys routing_db)).
Proof. apply (bool_decide_unpack _). vm_compute. exact I. Qed.

Lemma routing_uuids : uuid_clients routing_db.
Proof.
  intros k Hk _. assert (Forall (λ k, String.length (client_id k) = 36%nat) (rows (vpn_keys routing_db))) as H.
  { apply (bool_decide_unpack _). vm_compute. exact I. }
  rewrite Forall_forall in H. by apply H.
Qed.

Lemma resolved_uuids {A} (P Q : A → EntryRoutingBackend → Prop) u (cs : list A) bs :
  Forall2 (λ c b, P c b ∧ rb_uuid b = u ∧ Q c b) cs bs → rb_uuid <$> bs = (λ _, u) <$> cs.
Proof. induction 1 as [|c b cs bs (_ & Hb & _) _ IH]; [done|]. cbn. by rewrite IH, Hb. Qed.

Lemma entry_spec_routes_witness :
  ∃ x s', build_spec_for_node (routing_cfg true) first_code 2 routing_session = (Ok (Some x), s') ∧ uuid_a ∈ spec_users x ∧
    rb_uuid <$> resolve_backends x uuid_a = [uuid_a; uuid_a].
Proof.
  destruct (entry_spec_routes (routing_cfg true) first_code 2 routing_session (mesh_node 2 "e1" "entry" "e1.example" "10.10.0.3" (Some "ke1")))
    as (x & s' & Hrun & _ & Husers & _ & _ & Hrest).
  - reflexivity.
  - reflexivity.
  - reflexivity.
  - exact routing_names.
  - exact routing_uuids.
  - exists x, s'. split; [exact Hrun|]. assert (uuid_a ∈ spec_users x) as Hu.
    { rewrite Husers. apply (bool_decide_unpack _). vm_compute. exact I. }
    split; [exact Hu|]. rewrite decide_False in Hrest by (vm_compute; discriminate). destruct Hrest as [_ Hres].
    rewrite (resolved_uuids _ _ _ _ _ (Hres uuid_a Hu)). vm_compute. reflexivity.
Defined.

Lemma routing_view_agrees_witness :
  ∃ x s1 backends keys s2, build_spec_for_node (routing_cfg false) first_code 2 routing_session = (Ok (Some x), s1) ∧
    get_routing_state (routing_cfg false) first_code 10 routing_session = (Ok (backends, keys), s2) ∧
    ∀ row, row ∈ keys → row_client_id row ∈ spec_users x →
      effective_backend row = outbound_tag <$> find (λ r, String.eqb (user_uuid r) (row_client_id row)) (spec_rules x).
Proof.
  apply (routing_view_agrees (routing_cfg false) first_code 2 routing_session (mesh_node 2 "e1" "entry" "e1.example" "10.10.0.3" (Some "ke1"))).
  - reflexivity.
  - reflexivity.
  - reflexivity.
  - reflexivity.
  - exact routing_names.
  - exact routing_clients.
  - intros e He. assert (Forall (λ e, is_entry_role (node_role e) = true → e = mesh_node 2 "e1" "entry" "e1.example" "10.10.0.3" (Some "ke1"))
      (rows (nodes routing_db))) as H by (vm_compute; repeat constructor; discriminate).
    rewrite Forall_forall in H. intros Hr. by rewrite (H e He Hr).
Defined.

(** The default outbound is the first candidate, whether or not it is among the outbounds: an
    outbound is defined only when some user is sent to it. *)
Theorem final_outbound_undefined :
  let d := set_vpn_keys {[1 := routing_key 1 uuid_a None]} routing_db in
  ∃ x s', build_spec_for_node (routing_cfg false) first_code 2 (session_on d 1000 500) = (Ok (Some x), s') ∧
    rb_tag <$> spec_backends x = ["backend-b2"] ∧ final_outbound x = "backend-b1".
Proof. vm_compute. eauto. Qed.

Definition moved_to_region (region : string) (n : VpnNode) : VpnNode :=
  {| node_id := node_id n; node_name := node_name n; node_role := node_role n; node_region := region; public_domain := public_domain n;
     reality_ip := reality_ip n; internal_wg_ip := internal_wg_ip n; node_key := node_key n; xray_api_port := xray_api_port n;
     auth_token_hash := auth_token_hash n; agent_port := agent_port n; is_enabled := is_enabled n; is_draining := is_draining n;
     is_virtual := is_virtual n; drain_source := drain_source n; node_capacity := node_capacity n; node_zone := node_zone n;
     upstream_node_id := upstream_node_id n; bootstrap_token_expires_at := bootstrap_token_expires_at n;
     bootstrapped_at := bootstrapped_at n; wg_public_key := wg_public_key n; wg_listen_port := wg_listen_port n;
     node_is_active := node_is_active n; node_created_at := node_created_at n; node_updated_at := node_updated_at n |}.

(** With entries of two zones the view hashes over the backends of both: for the key it shows
    a backend of the other zone, which the entry does not use. *)
Theorem routing_view_differs :
  let d := set_nodes (<[4 := moved_to_region "us" (mesh_node 4 "e2" "entry" "e2.example" "10.10.0.5" None)]>
                     (<[5 := moved_to_region "us" (mesh_node 5 "a1" "backend" "a1.example" "10.10.0.6" None)]> (nodes routing_db))) routing_db in
  let s := session_on d 1000 500 in
  ∃ x s1 backends keys s2, build_spec_for_node (routing_cfg false) first_code 2 s = (Ok (Some x), s1) ∧
    get_routing_state (routing_cfg false) first_code 10 s = (Ok (backends, keys), s2) ∧
    outbound_tag <$> filter (λ r, user_uuid r = uuid_a) (spec_rules x) = ["backend-b2"] ∧
    effective_backend <$> filter (λ r, row_client_id r = uuid_a) keys = [Some "backend-b1"].
Proof. vm_compute. eauto 10. Qed.
