(* ===== verification/ProbeDrain.v ===== *)
(** Draining backends on probe failures (services/probe/drain_service.py) and the
    reconcilers of probes (services/probe/reconcilers/auto_drain.py, cleanup.py). *)

From stdpp Require Import base gmap strings list sorting pretty.
From S2P Require Import Prelude Decimal Errors RouteModels BillingModels FleetModels Session Uuid NodeDisplay WgAllocator Tables FleetTables Routing Placements Routes ProbeRepo AgentDetails Entry Nodes Probe.
Local Open Scope Z_scope.

Definition PROBE_DRAIN_REASON_PREFIX : string := "probe_".

Record ProbeDrainMigrateIn := {
  pdi_source_backend_id : Z;
  pdi_target_backend_id : option Z;
  pdi_require_recent_failure : bool;
  pdi_max_probe_age_sec : Z;
  pdi_min_consecutive_failures : Z;
  pdi_source : option string;
  pdi_last_migration_reason : string;
}.

Record ProbeDrainMigrateOut := {
  pdo_source_backend_id : Z;
  pdo_target_backend_id : Z;
  pdo_migrated_count : Z;
  pdo_drained : bool;
  pdo_probe_report_id : option Z;
}.

Record ProbeAutoDrainMigrateIn := {
  pai_backend_node_ids : option (list Z);
  pai_target_backend_id : option Z;
  pai_source : option string;
  pai_require_recent_failure : bool;
  pai_max_probe_age_sec : Z;
  pai_min_consecutive_failures : Z;
  pai_include_already_draining : bool;
  pai_dry_run : bool;
  pai_max_nodes : Z;
  pai_last_migration_reason : string;
}.

(** The bounds of the schema. *)
Definition text_at_most (n : nat) (s : string) : bool := (String.length s <=? n)%nat.
Definition ProbeAutoDrainMigrateIn_valid (p : ProbeAutoDrainMigrateIn) : bool :=
  match pai_source p with Some x => text_at_most 64 x | None => true end &&
  (30 <=? pai_max_probe_age_sec p) && (pai_max_probe_age_sec p <=? 86400) &&
  (1 <=? pai_min_consecutive_failures p) && (pai_min_consecutive_failures p <=? 10) &&
  (1 <=? pai_max_nodes p) && (pai_max_nodes p <=? 200) && text_at_most 64 (pai_last_migration_reason p).

Inductive AutoDrainAction := migrated | would_migrate | skipped.

Record ProbeAutoDrainMigrateItemOut := {
  pao_source_backend_id : Z;
  pao_action : AutoDrainAction;
  pao_detail : option string;
  pao_target_backend_id : option Z;
  pao_migrated_count : Z;
  pao_probe_report_id : option Z;
}.

Record ProbeAutoDrainMigrateOut := {
  pad_processed : Z;
  pad_migrated : Z;
  pad_skipped : Z;
  pad_dry_run : bool;
  pad_items : list ProbeAutoDrainMigrateItemOut;
}.

(** [except HTTPException]: other exceptions pass. *)
Definition catch_http {A} (m : SM A) (h : Z → string → SM A) : SM A :=
  catch m (λ e, match e with HTTPException code detail => h code detail | _ => raise e end).

Section ProbeDrain.
(** [settings.nats.js_command_subject_prefix] and [settings.probe.target_port]. *)
Context (command_prefix : string) (reality_port : Z).

Definition conflict {A} (detail : string) : SM A := raise (HTTPException 409 detail).

Definition check_consecutive (nid : Z) (source : option string) (min_consecutive_failures : Z) : SM unit :=
when (1 <? min_consecutive_failures)
  (recent ← list_recent_for_backend_node (Z.to_nat (Z.max 20 (min_consecutive_failures * 3))) nid source;
   raise_if (leading_failures recent <? min_consecutive_failures)
     (HTTPException 409 ("Insufficient consecutive probe failures: " +:+
        pretty (leading_failures recent) +:+ "/" +:+ pretty min_consecutive_failures))).

Definition _validate_probe_failure_for_node (nid : Z) (source : option string) (require_recent_failure : bool)
  (max_probe_age_sec min_consecutive_failures : Z) : SM (option ProbeSignal) :=
latest ← get_latest_for_backend_node nid source;
if negb require_recent_failure then mret latest
else match latest with
     | None => conflict "No probe report for source backend"
     | Some p =>
         raise_if (is_reachable p) (HTTPException 409 "Latest probe is healthy") ;;
         now ← utcnow;
         raise_if (max_probe_age_sec * second <? now - checked_at p)
           (HTTPException 409 "Latest probe failure is stale") ;;
         check_consecutive nid source min_consecutive_failures ;;
         mesh ← get_latest_mesh_for_backend nid;
         match mesh with
         | Some m =>
             if is_reachable m then
               now ← utcnow;
               raise_if (now - checked_at m <=? MESH_HEALTHY_MAX_AGE_SEC * second)
                 (HTTPException 409 "User-path (entry→mesh→backend) probe healthy; skipping drain") ;;
               mret latest
             else mret latest
         | None => mret latest
         end
     end.

(** [value.startswith(prefix)]. *)
Definition starts_with (prefix_ s : string) : bool := String.prefix prefix_ s.

Definition _normalize_probe_drain_reason (value : string) : string :=
let normalized := py_strip value in
if starts_with PROBE_DRAIN_REASON_PREFIX normalized then normalized
else if nonempty normalized then PROBE_DRAIN_REASON_PREFIX +:+ normalized
else "probe_failure".

(** [node_state_repository.update_by_node_id(node_id, {"details": details})]. *)
Definition store_details (nid : Z) (l : list (string * json)) : SM unit :=
now ← utcnow;
update_where agent_states_tbl (λ a, as_node_id a =? nid) (λ a,
  {| as_id := as_id a; as_node_id := as_node_id a; agent_version := agent_version a;
     last_config_version := last_config_version a; last_sync_at := last_sync_at a;
     last_seen_at := last_seen_at a; is_healthy := is_healthy a; details := l |}) ;;
mret tt.

Definition _set_probe_drain_reason (nid : Z) (reason : string) (drained : Z) : SM unit :=
state ← get_agent_state nid;
match state with
| None => mret tt
| Some a =>
    m ← lift (_load_heartbeat_meta (details a));
    store_details nid (dict_set HEARTBEAT_DETAILS_KEY
      (JObj (dump_meta (with_drain m (Some reason) (Some drained)))) (details a))
end.

Definition _clear_probe_drain_reason (nid : Z) : SM unit :=
state ← get_agent_state nid;
match state with
| None => mret tt
| Some a =>
    m ← lift (_load_heartbeat_meta (details a));
    match drain_reason m, drained_at m with
    | None, None => mret tt
    | _, _ => store_details nid (dict_set HEARTBEAT_DETAILS_KEY
                (JObj (dump_meta (with_drain m None None))) (details a))
    end
end.

Definition announce (nid : Z) : SM unit :=
enqueue_pool_snapshots_for_backend command_prefix reality_port nid ;; mret tt.

Definition drain_source_node (nid : Z) (reason : string) : SM unit :=
drained ← utcnow;
update_by_id nodes_tbl nid (patch_node (drain_update true (Some "auto_heal"))) ;;
_set_probe_drain_reason nid (_normalize_probe_drain_reason reason) drained ;;
announce nid.

Definition restore_source_node (nid : Z) : SM unit :=
update_by_id nodes_tbl nid (patch_node (drain_update false None)) ;;
_clear_probe_drain_reason nid ;;
announce nid.

Definition drain_and_migrate_backend (payload : ProbeDrainMigrateIn) : SM ProbeDrainMigrateOut :=
let nid := pdi_source_backend_id payload in
source ← get_by_id nodes_tbl nid;
match source with
| None => raise (HTTPException 404 "Source node not found")
| Some n =>
    latest ← _validate_probe_failure_for_node nid (pdi_source payload) (pdi_require_recent_failure payload)
               (pdi_max_probe_age_sec payload) (pdi_min_consecutive_failures payload);
    let was_draining := is_draining n in
    when (negb was_draining) (drain_source_node nid (pdi_last_migration_reason payload)) ;;
    migration ← catch_http
      (migrate_backend command_prefix
         {| pmi_source_backend_id := nid; pmi_target_backend_id := pdi_target_backend_id payload;
            pmi_last_migration_reason := pdi_last_migration_reason payload |})
      (λ code detail,
         when (negb was_draining) (restore_source_node nid) ;;
         raise (HTTPException code detail));
    mret {| pdo_source_backend_id := pmo_source_backend_id migration;
            pdo_target_backend_id := pmo_target_backend_id migration;
            pdo_migrated_count := migrated_count migration; pdo_drained := true;
            pdo_probe_report_id := ps_id <$> latest |}
end.

Definition _resolve_auto_nodes (payload : ProbeAutoDrainMigrateIn) : SM (list VpnNode) :=
match pai_backend_node_ids payload with
| None => list_all_nodes
| Some ids =>
    rows ← list_nodes_by_ids ids;
    mret (omap (λ i, find (λ n, node_id n =? i) rows) ids)
end.

Definition item (nid : Z) (action : AutoDrainAction) (detail : option string) (target : option Z) (count : Z)
  (report_id : option Z) : ProbeAutoDrainMigrateItemOut :=
{| pao_source_backend_id := nid; pao_action := action; pao_detail := detail;
   pao_target_backend_id := target; pao_migrated_count := count; pao_probe_report_id := report_id |}.
Definition skip (nid : Z) (detail : string) : ProbeAutoDrainMigrateItemOut :=
item nid skipped (Some detail) None 0 None.

(** One node of the loop. *)
Definition auto_drain_node (payload : ProbeAutoDrainMigrateIn) (n : VpnNode) : SM ProbeAutoDrainMigrateItemOut :=
let nid := node_id n in
if negb (node_is_active n) || negb (is_enabled n) then mret (skip nid "Node is not active/enabled")
else if is_draining n && negb (pai_include_already_draining payload) then mret (skip nid "Node already draining")
else
  verdict ← catch_http
    (latest ← _validate_probe_failure_for_node nid (pai_source payload) (pai_require_recent_failure payload)
                (pai_max_probe_age_sec payload) (pai_min_consecutive_failures payload);
     mret (inl latest))
    (λ _ detail, mret (inr detail));
  match verdict with
  | inr detail => mret (skip nid detail)
  | inl latest =>
      if pai_dry_run payload
      then mret (item nid would_migrate (Some "Eligible by probe policy") None 0 (ps_id <$> latest))
      else catch_http
        (result ← drain_and_migrate_backend
           {| pdi_source_backend_id := nid; pdi_target_backend_id := pai_target_backend_id payload;
              pdi_require_recent_failure := false; pdi_max_probe_age_sec := pai_max_probe_age_sec payload;
              pdi_min_consecutive_failures := pai_min_consecutive_failures payload;
              pdi_source := pai_source payload;
              pdi_last_migration_reason := pai_last_migration_reason payload |};
         mret (item (pdo_source_backend_id result) migrated None (Some (pdo_target_backend_id result))
                 (pdo_migrated_count result) (pdo_probe_report_id result)))
        (λ _ detail, mret (skip nid detail))
  end.

Fixpoint auto_drain_nodes (payload : ProbeAutoDrainMigrateIn) (l : list VpnNode)
  : SM (list ProbeAutoDrainMigrateItemOut) :=
match l with
| [] => mret []
| n :: l =>
    it ← auto_drain_node payload n;
    its ← auto_drain_nodes payload l;
    mret (it :: its)
end.

Definition is_migrated (it : ProbeAutoDrainMigrateItemOut) : bool :=
match pao_action it with migrated => true | _ => false end.

Definition auto_drain_and_migrate_backends (payload : ProbeAutoDrainMigrateIn) : SM ProbeAutoDrainMigrateOut :=
nodes ← _resolve_auto_nodes payload;
items ← auto_drain_nodes payload (take (Z.to_nat (pai_max_nodes payload)) nodes);
let done_ := Z.of_nat (length (filter (λ it, is_migrated it = true) items)) in
mret {| pad_processed := Z.of_nat (length items); pad_migrated := done_;
        pad_skipped := Z.of_nat (length items) - done_; pad_dry_run := pai_dry_run payload;
        pad_items := items |}.

(** ** Reconcilers *)

(** [value or None]. *)
Definition some_text (x : option string) : option string := if truthy x then x else None.

Definition _build_payload (policy : ProbePolicy) : res ProbeAutoDrainMigrateIn :=
let p :=
  {| pai_backend_node_ids := None; pai_target_backend_id := auto_drain_target_backend_id policy;
     pai_source := some_text (auto_drain_source policy);
     pai_require_recent_failure := auto_drain_require_recent_failure policy;
     pai_max_probe_age_sec := Z.max 30 (auto_drain_max_probe_age_sec policy);
     pai_min_consecutive_failures := Z.max 1 (auto_drain_min_consecutive_failures policy);
     pai_include_already_draining := auto_drain_include_already_draining policy; pai_dry_run := false;
     pai_max_nodes := Z.min 500 (Z.max 1 (auto_drain_max_nodes policy));
     pai_last_migration_reason := (if nonempty (auto_drain_last_migration_reason policy)
                                   then auto_drain_last_migration_reason policy
                                   else "probe_auto_failure") |} in
if ProbeAutoDrainMigrateIn_valid p then Ok p else Raise (ValidationError "ProbeAutoDrainMigrateIn").

Definition auto_drain_tick : SM ProbeAutoDrainMigrateOut :=
policy ← probe_policy;
payload ← lift (_build_payload policy);
run_committing (out ← auto_drain_and_migrate_backends payload; mret (out, true)).

Definition probe_cleanup_tick : SM Z :=
policy ← probe_policy;
run_committing
  (now ← utcnow;
   deleted ← delete_older_than (now - Z.max 1 (retention_days policy) * day);
   mret (deleted, true)).
End ProbeDrain.
