(* ===== verification/AutoHeal.v ===== *)
(** Healing of placements on unavailable nodes (services/nodes/auto_heal_service.py and
    services/nodes/reconcilers/placement.py): nodes whose agent is silent or sick are
    drained, the keys only they serve are moved, drained nodes that recovered return. *)

From stdpp Require Import base gmap strings list sorting pretty.
From S2P Require Import Prelude Decimal Errors RouteModels BillingModels FleetModels Session Uuid NodeDisplay WgAllocator Tables FleetTables Routing Placements Routes ProbeRepo AgentDetails Entry Nodes Probe ProbeDrain.
Local Open Scope Z_scope.

Record NodeAutoHealTickOut := {
  processed_nodes : Z;
  drained_nodes : Z;
  migrated_nodes : Z;
  migrated_placements : Z;
  skipped_nodes : Z;
  undrained_nodes : Z;
  orphan_active_placements : Z;
}.

(** What the service is made with. *)
Record HealConfig := {
  hc_stale_after_sec : Z;
  hc_max_nodes : Z;
  hc_auto_undrain_enabled : bool;
  hc_drain_cooldown_sec : Z;
  hc_has_notifications : bool;
  hc_command_prefix : string;
  hc_reality_port : Z;
}.

(** [NodePlacementAutoHealService.__init__]. *)
Definition mk_HealConfig (stale max_nodes : Z) (undrain : bool) (cooldown : Z) (notifications : bool)
    (prefix_ : string) (port_ : Z) : HealConfig :=
  {| hc_stale_after_sec := Z.max 30 stale; hc_max_nodes := Z.min 500 (Z.max 1 max_nodes);
     hc_auto_undrain_enabled := undrain; hc_drain_cooldown_sec := Z.max 0 cooldown;
     hc_has_notifications := notifications; hc_command_prefix := prefix_; hc_reality_port := port_ |}.

(** * Repository *)

(** [VpnNodeRepository.list_active_with_agent_state]: an outer join. *)
Definition list_active_with_agent_state : SM (list (VpnNode * option NodeAgentState)) :=
  l ← select_where nodes_tbl node_is_active;
  states ← select_where agent_states_tbl (λ _, true);
  mret ((λ n, (n, find (λ a, as_node_id a =? node_id n) states)) <$> order_by_name node_name l).

(** [NodeAgentStateRepository.list_by_node_ids]. *)
Definition list_states_by_node_ids (ids : list Z) : SM (list NodeAgentState) :=
  match ids with
  | [] => mret []
  | _ => select_where agent_states_tbl (λ a, bool_decide (as_node_id a ∈ ids))
  end.

(** [update_by_node_id(node_id, {"is_healthy": False})]. *)
Definition mark_unhealthy (nid : Z) : SM unit :=
  update_where agent_states_tbl (λ a, as_node_id a =? nid) (λ a,
    {| as_id := as_id a; as_node_id := as_node_id a; agent_version := agent_version a;
       last_config_version := last_config_version a; last_sync_at := last_sync_at a;
       last_seen_at := last_seen_at a; is_healthy := false; details := details a |}) ;;
  mret tt.

(** * What an agent's state says *)

Definition _extract_heartbeat_meta (state : option NodeAgentState) : res (option NodeHeartbeatMeta) :=
  match state with
  | None => Ok None
  | Some a => match _load_heartbeat_meta (details a) with Ok m => Ok (Some m) | Raise e => Raise e end
  end.

Definition _extract_drain_reason (m : option NodeHeartbeatMeta) : option string :=
  match m ≫= drain_reason with
  | None => None
  | Some r => let t := py_strip r in if nonempty t then Some t else None
  end.

Definition _is_probe_drain_reason (reason : option string) : bool :=
  match reason with
  | Some r => nonempty r && starts_with PROBE_DRAIN_REASON_PREFIX r
  | None => false
  end.

(** [max(0.0, (now - last_seen).total_seconds())]. *)
Definition _freshness_seconds (state : option NodeAgentState) (now : Z) : option rat :=
  match state ≫= last_seen_at with
  | None => None
  | Some seen => Some (total_seconds (Z.max 0 (now - seen)))
  end.

(** [x > n] for a float and an integer. *)
Definition exceeds (x : rat) (n : Z) : bool := n * den x <? num x.

Section AutoHeal.
Context (hc : HealConfig).

Definition _is_within_drain_cooldown (state : option NodeAgentState) (now : Z) : res bool :=
if hc_drain_cooldown_sec hc <=? 0 then Ok false
else
  match _extract_heartbeat_meta state with
  | Raise e => Raise e
  | Ok None => Ok false
  | Ok (Some m) =>
      if negb (sql_eqb (drain_reason m) (Some DRAIN_REASON_UNHEALTHY_HEARTBEAT)) then Ok false
      else match drained_at m with
           | None => Ok false
           | Some t => Ok (negb (hc_drain_cooldown_sec hc * den (total_seconds (now - t))
                                 <=? num (total_seconds (now - t))))
           end
  end.

Definition _unavailability_reason (node : option VpnNode) (state : option NodeAgentState) (now : Z)
  : res (option string) :=
match node with
| None => Ok (Some "missing_node")
| Some n =>
    if negb (node_is_active n) then Ok (Some "node_inactive")
    else if negb (is_enabled n) then Ok (Some "node_disabled")
    else if is_draining n then
      match _is_within_drain_cooldown state now with
      | Raise e => Raise e
      | Ok true => Ok None
      | Ok false => Ok (Some "node_draining")
      end
    else match state with
         | None => Ok (Some "state_missing")
         | Some a =>
             if negb (is_healthy a) then Ok (Some "state_unhealthy")
             else match _freshness_seconds state now with
                  | None => Ok (Some "state_missing_last_seen")
                  | Some f => Ok (if exceeds f (hc_stale_after_sec hc) then Some "state_stale" else None)
                  end
         end
end.

Definition _record_drain_reason (nid : Z) (state : option NodeAgentState) (reason : string) (now : Z) : SM unit :=
m ← lift (_extract_heartbeat_meta state);
let m := default {| consecutive_unhealthy := 0; consecutive_healthy := 0; drain_reason := None;
                    drained_at := None |} m in
match state with
| None => mret tt
| Some a => store_details nid (dict_set HEARTBEAT_DETAILS_KEY
              (JObj (dump_meta (with_drain m (Some reason) (Some now)))) (details a))
end.

Definition _clear_drain_reason (nid : Z) (state : option NodeAgentState) : SM unit :=
m ← lift (_extract_heartbeat_meta state);
match m, state with
| Some m, Some a =>
    match drain_reason m, drained_at m with
    | None, None => mret tt
    | _, _ => store_details nid (dict_set HEARTBEAT_DETAILS_KEY
                (JObj (dump_meta (with_drain m None None))) (details a))
    end
| _, _ => mret tt
end.

Definition announce_pool (n : VpnNode) : SM unit :=
when (String.eqb (node_role n) ROLE_BACKEND)
  (enqueue_pool_snapshots_for_backend (hc_command_prefix hc) (hc_reality_port hc) (node_id n) ;; mret tt).

(** [publish_node_down], when there is someone to tell and a time to tell. *)
Definition tell_down (n : VpnNode) (state : option NodeAgentState) (affected : Z) : SM unit :=
when (hc_has_notifications hc)
  (match state ≫= last_seen_at with
   | None => mret tt
   | Some seen => emit (PublishNodeDown (node_id n) (node_name n) (node_region n) seen affected
                          (Z.quot seen second))
   end).

(** ** Silent agents *)

Definition observe_node (now : Z) (row : VpnNode * option NodeAgentState) : SM unit :=
match row.2 with
| None => mret tt
| Some a =>
    if is_healthy a && match _freshness_seconds (Some a) now with
                       | Some f => exceeds f (hc_stale_after_sec hc)
                       | None => false
                       end
    then mark_unhealthy (node_id row.1) ;; tell_down row.1 (Some a) 0
    else mret tt
end.

Definition _observe_node_freshness (now : Z) : SM unit :=
rows ← list_active_with_agent_state;
for_each (observe_node now) rows.

(** ** Moving orphans *)

(** Another healthy node serves the key of the placement. *)
Definition covered (key_nodes : gmap Z (list Z)) (source : Z) (candidates : list VpnNode)
  (p : UserPlacement) : bool :=
existsb (λ c, bool_decide (node_id c ≠ source ∧ node_id c ∈ default [] (key_nodes !! pl_key_id p))) candidates.

Definition load_of (target_load : gmap Z Z) (c : VpnNode) : Z := default 0 (target_load !! node_id c).

(** [min(available, key=...)]: the first of the least. *)
Fixpoint least_loaded (target_load : gmap Z Z) (best : VpnNode) (l : list VpnNode) : VpnNode :=
match l with
| [] => best
| c :: l => least_loaded target_load (if load_of target_load c <? load_of target_load best then c else best) l
end.

Definition pick_target (key_nodes : gmap Z (list Z)) (target_load : gmap Z Z) (candidates : list VpnNode)
  (p : UserPlacement) : option VpnNode :=
let available := filter (λ c, node_id c ∉ default [] (key_nodes !! pl_key_id p)) candidates in
match (match available with [] => candidates | _ => available end) with
| [] => None
| c :: l => Some (least_loaded target_load c l)
end.

(** [groups[target].append(placement)] on a dict in insertion order. *)
Fixpoint add_to_group (target pid : Z) (groups : list (Z * list Z)) : list (Z * list Z) :=
match groups with
| [] => [(target, [pid])]
| (t, l) :: groups => if t =? target then (t, l ++ [pid]) :: groups else (t, l) :: add_to_group target pid groups
end.

Fixpoint distribute (key_nodes : gmap Z (list Z)) (candidates : list VpnNode) (target_load : gmap Z Z)
  (groups : list (Z * list Z)) (orphans : list UserPlacement) : list (Z * list Z) :=
match orphans with
| [] => groups
| p :: orphans =>
    match pick_target key_nodes target_load candidates p with
    | None => groups
    | Some best =>
        distribute key_nodes candidates
          (<[node_id best := load_of target_load best + 1]> target_load)
          (add_to_group (node_id best) (pl_id p) groups) orphans
    end
end.

Fixpoint migrate_groups (groups : list (Z * list Z)) (now : Z) : SM Z :=
match groups with
| [] => mret 0
| (target, ids) :: groups =>
    r ← bulk_migrate_backend ids target (Some "node_auto_heal") now;
    match r.2 with
    | [] => mret tt
    | target_ids => enqueue_for_placement_ids (hc_command_prefix hc) target_ids
    end ;;
    more ← migrate_groups groups now;
    mret (r.1 + more)
end.

Definition _smart_migrate_placements (node : option VpnNode) (source : Z) (now : Z) : SM Z :=
placements ← list_active (Some source) None;
let active := filter (λ p, desired_state p = desired_active) placements in
match active with
| [] => mret 0
| _ =>
    key_nodes ← map_active_backend_nodes_by_key (pl_key_id <$> active);
    candidates ← select_nodes (node_region <$> node) [source];
    match candidates with
    | [] => mret 0
    | _ =>
        match filter (λ p, covered key_nodes source candidates p = false) active with
        | [] => mret 0
        | orphans => migrate_groups (distribute key_nodes candidates ∅ [] orphans) now
        end
    end
end.

(** ** Nodes that recovered *)

Fixpoint leading_successes (l : list ProbeSignal) : Z :=
match l with
| [] => 0
| p :: l => if is_reachable p then 1 + leading_successes l else 0
end.

Definition _has_recent_probe_recovery (nid : Z) (now : Z) : SM bool :=
policy ← probe_policy;
if negb (pp_auto_undrain_enabled policy) then mret false
else
  let max_age := Z.max 30 (auto_undrain_max_probe_age_sec policy) in
  let min_successes := Z.max 1 (auto_undrain_min_consecutive_successes policy) in
  let source := some_text (or_text (auto_undrain_source policy) (auto_drain_source policy)) in
  latest ← get_latest_for_backend_node nid source;
  match latest with
  | None => mret false
  | Some p =>
      if negb (is_reachable p) then mret false
      else if max_age * second <? now - checked_at p then mret false
      else
        recent ← list_recent_for_backend_node (Z.to_nat (Z.max 10 (min_successes * 3))) nid source;
        mret (min_successes <=? leading_successes recent)
  end.

(** The drained node may return, as far as what drained it goes. *)
Definition reason_allows (nid : Z) (has_placements : bool) (reason : option string) (now : Z) : SM bool :=
if negb has_placements then mret true
else match reason with
     | None => mret true
     | Some r =>
         if String.eqb r DRAIN_REASON_UNHEALTHY_HEARTBEAT then mret true
         else if _is_probe_drain_reason reason then _has_recent_probe_recovery nid now
         else mret false
     end.

(** A drained node whose agent is healthy and fresh, not drained by an administrator. *)
Definition may_recover (n : VpnNode) (state : option NodeAgentState) (now : Z) : bool :=
node_is_active n && is_enabled n && is_draining n && negb (sql_eqb (drain_source n) (Some "admin")) &&
match state with
| Some a => is_healthy a && match _freshness_seconds state now with
                            | Some f => negb (exceeds f (hc_stale_after_sec hc))
                            | None => false
                            end
| None => false
end.

Definition tell_recovered (n : VpnNode) (m : option NodeHeartbeatMeta) (now : Z) : SM unit :=
when (hc_has_notifications hc && sql_eqb (_extract_drain_reason m) (Some DRAIN_REASON_UNHEALTHY_HEARTBEAT))
  (let drained := m ≫= drained_at in
   emit (PublishNodeRecovered (node_id n) (node_name n) (node_region n)
     (match drained with Some t => Z.max 0 (Z.quot (now - t) second) | None => 0 end)
     (match drained with Some t => Z.quot t second | None => 0 end))).

(** One node of the loop: whether it is undrained. *)
Definition recover_node (now : Z) (counts : gmap Z Z) (row : VpnNode * option NodeAgentState) : SM bool :=
let n := row.1 in let state := row.2 in
if negb (may_recover n state now) then mret false
else
  m ← lift (_extract_heartbeat_meta state);
  ok ← reason_allows (node_id n) (0 <? default 0 (counts !! node_id n)) (_extract_drain_reason m) now;
  if negb ok then mret false
  else
    update_by_id nodes_tbl (node_id n) (patch_node (drain_update false None)) ;;
    _clear_drain_reason (node_id n) state ;;
    announce_pool n ;;
    tell_recovered n m now ;;
    mret true.

Fixpoint recover_nodes (now : Z) (counts : gmap Z Z) (rows : list (VpnNode * option NodeAgentState)) : SM Z :=
match rows with
| [] => mret 0
| row :: rows =>
    b ← recover_node now counts row;
    k ← recover_nodes now counts rows;
    mret (Z.b2z b + k)
end.

Definition _recover_draining_nodes (now : Z) (counts : gmap Z Z) : SM Z :=
rows ← list_active_with_agent_state;
recover_nodes now counts rows.

(** ** The tick *)

Definition drain_unavailable (n : VpnNode) (state : option NodeAgentState) (active_count now : Z) : SM unit :=
update_by_id nodes_tbl (node_id n) (patch_node (drain_update true (Some "auto_heal"))) ;;
_record_drain_reason (node_id n) state DRAIN_REASON_UNHEALTHY_HEARTBEAT now ;;
announce_pool n ;;
tell_down n state active_count.

Definition tick_start : NodeAutoHealTickOut :=
{| processed_nodes := 0; drained_nodes := 0; migrated_nodes := 0; migrated_placements := 0;
   skipped_nodes := 0; undrained_nodes := 0; orphan_active_placements := 0 |}.

Definition add_undrained (k : Z) (o : NodeAutoHealTickOut) : NodeAutoHealTickOut :=
{| processed_nodes := processed_nodes o; drained_nodes := drained_nodes o; migrated_nodes := migrated_nodes o;
   migrated_placements := migrated_placements o; skipped_nodes := skipped_nodes o;
   undrained_nodes := undrained_nodes o + k; orphan_active_placements := orphan_active_placements o |}.

(** One source of the loop: an unavailable node is drained and its orphans moved. *)
Definition heal_source (now : Z) (node : option VpnNode) (state : option NodeAgentState) (source count : Z)
  (o : NodeAutoHealTickOut) : SM NodeAutoHealTickOut :=
if count <=? 0 then mret o
else
  reason ← lift (_unavailability_reason node state now);
  match reason with
  | None => mret o
  | Some _ =>
      drained ← match node with
                | Some n => if is_draining n then mret 0
                            else (drain_unavailable n state count now ;; mret 1)
                | None => mret 0
                end;
      moved ← _smart_migrate_placements node source now;
      mret {| processed_nodes := processed_nodes o + 1; drained_nodes := drained_nodes o + drained;
              migrated_nodes := migrated_nodes o + (if moved <=? 0 then 0 else 1);
              migrated_placements := migrated_placements o + (if moved <=? 0 then 0 else moved);
              skipped_nodes := skipped_nodes o + (if moved <=? 0 then 1 else 0);
              undrained_nodes := undrained_nodes o;
              orphan_active_placements := orphan_active_placements o + count |}
  end.

Fixpoint heal_sources (now : Z) (nodes : list VpnNode) (states : list NodeAgentState) (sources : list (Z * Z))
  (o : NodeAutoHealTickOut) : SM NodeAutoHealTickOut :=
match sources with
| [] => mret o
| (source, count) :: sources =>
    if hc_max_nodes hc <=? processed_nodes o then mret o
    else
      o ← heal_source now (find (λ n, node_id n =? source) nodes)
            (find (λ a, as_node_id a =? source) states) source count o;
      heal_sources now nodes states sources o
end.

(** [sorted(node_ids, key=count, reverse=True)]. *)
Definition source_order (counts : gmap Z Z) : list (Z * Z) := order_by_desc snd (map_to_list counts).

Definition run_once : SM NodeAutoHealTickOut :=
now ← utcnow;
_observe_node_freshness now ;;
counts ← count_desired_active_by_backend_node;
if decide (counts = ∅) then
  k ← (if hc_auto_undrain_enabled hc then _recover_draining_nodes now ∅ else mret 0);
  mret (add_undrained k tick_start)
else
  let ids := fst <$> map_to_list counts in
  nodes ← list_nodes_by_ids ids;
  states ← list_states_by_node_ids ids;
  o ← heal_sources now nodes states (source_order counts) tick_start;
  k ← (if hc_auto_undrain_enabled hc then _recover_draining_nodes now counts else mret 0);
  mret (add_undrained k o).
End AutoHeal.

(** [NodePlacementReconciler._execute_tick]. *)
Definition auto_heal_tick (notifications : bool) (prefix_ : string) (port_ : Z) : SM NodeAutoHealTickOut :=
  policy ← node_policy;
  run_committing
    (out ← run_once (mk_HealConfig (Z.max 30 (stale_after_sec policy))
                       (Z.min 500 (Z.max 1 (auto_heal_max_nodes policy))) (auto_undrain_enabled policy)
                       (Z.max 0 (auto_heal_drain_cooldown_sec policy)) notifications prefix_ port_);
     mret (out, true)).
