(* ===== verification/AgentTransport.v ===== *)
(** The agent transport (services/nodes/agent/repository.py and runtime.py): the
    outbox publisher, the consumer of placement results, and the snapshot epochs. *)

From stdpp Require Import base gmap strings list sorting.
From S2P Require Import Prelude Decimal Errors RouteModels BillingModels FleetModels Session Uuid NodeDisplay WgAllocator Tables FleetTables Routing Placements Routes ProbeRepo AgentDetails Entry Nodes.
Local Open Scope Z_scope.


(** * NodeTransportOutboxRepository *)

(** [status.in_(("pending", "failed"))] and [next_retry_at] null or passed. *)
Definition claimable (now : Z) (r : NodeTransportOutbox) : bool :=
  (bool_decide (ob_status r = ob_pending) || bool_decide (ob_status r = ob_failed)) &&
  match ob_next_retry_at r with None => true | Some t => t <=? now end.

(** [order_by(created_at.asc(), id.asc())]. *)
Definition outbox_order (l : list NodeTransportOutbox) : list NodeTransportOutbox :=
  order_by_asc ob_created_at (order_by_asc ob_id l).

Definition claim_batch (now : Z) (limit : nat) : SM (list NodeTransportOutbox) :=
  l ← select_where outbox_tbl (claimable now);
  let batch := take limit (outbox_order l) in
  match batch with
  | [] => mret []
  | _ =>
      t ← utcnow;
      update_where outbox_tbl (λ r, bool_decide (ob_id r ∈ ob_id <$> batch))
        (λ r, with_outbox ob_publishing (ob_attempts r + 1) (ob_published_at r) (ob_last_error r)
                (ob_next_retry_at r) t r) ;;
      mret batch
  end.

Definition mark_published (oid published_at : Z) : SM unit :=
  t ← utcnow;
  update_where outbox_tbl (λ r, ob_id r =? oid)
    (λ r, with_outbox ob_published (ob_attempts r) (Some published_at) None None t r) ;;
  mret tt.

Definition mark_failed (oid : Z) (error : string) (next_retry_at : Z) : SM unit :=
  t ← utcnow;
  update_where outbox_tbl (λ r, ob_id r =? oid)
    (λ r, with_outbox ob_failed (ob_attempts r) (ob_published_at r)
            (Some (String.substring 0 4000 error)) (Some next_retry_at) t r) ;;
  mret tt.

(** * NodeTransportEventLogRepository *)

(** [INSERT ... ON CONFLICT (event_id) DO NOTHING]: whether the event is new. *)
Definition record_if_new (nid : Z) (event_type event_id : string) (processed_at : Z) : SM bool :=
  seen ← read (λ d, existsb (λ e, String.eqb (el_event_id e) event_id) (rows (event_log d)));
  if seen : bool then mret false else
  create event_log_tbl (λ id _,
    {| el_id := id; el_node_id := nid; el_event_type := event_type; el_event_id := event_id;
       el_processed_at := processed_at |}) ;;
  mret true.

(** The ids that were new, in order. *)
Fixpoint bulk_record_if_new (items : list (Z * string)) (event_type : string) (processed_at : Z)
    : SM (list string) :=
  match items with
  | [] => mret []
  | (nid, eid) :: items =>
      fresh ← record_if_new nid event_type eid processed_at;
      l ← bulk_record_if_new items event_type processed_at;
      mret (if fresh : bool then eid :: l else l)
  end.

(** * NodeTransportStateRepository *)

Definition get_state (nid : Z) : SM (option NodeTransportState) :=
  l ← select_where transport_states_tbl (λ r, ts_node_id r =? nid);
  scalar_one_or_none l.

Definition get_or_create (nid : Z) : SM NodeTransportState :=
  existing ← get_state nid;
  match existing with
  | Some r => mret r
  | None =>
      create transport_states_tbl (λ id now,
        {| ts_id := id; ts_node_id := nid; current_epoch := 0; last_snapshot_id := None;
           last_snapshot_request_event_id := None; last_snapshot_requested_at := None;
           last_snapshot_generated_at := None; last_snapshot_reason := None;
           last_command_published_at := None; last_command_message_id := None;
           last_result_received_at := None; last_result_event_id := None;
           last_heartbeat_received_at := None; last_sync_report_received_at := None;
           ts_updated_at := now |}) ;;
      created ← get_state nid;
      match created with
      | Some r => mret r
      | None => raise (RuntimeError "failed to create node transport state")
      end
  end.

(** [UPDATE node_transport_state ... WHERE node_id = nid], by the new row. *)
Definition update_state (nid : Z) (f : NodeTransportState → NodeTransportState) : SM unit :=
  t ← utcnow;
  update_where transport_states_tbl (λ r, ts_node_id r =? nid)
    (λ r, f (touch_transport_state t r)) ;;
  mret tt.

Definition touch_command (nid : Z) (m : message_id) (at_ : Z) : SM unit :=
  get_or_create nid ;;
  update_state nid (λ r,
    {| ts_id := ts_id r; ts_node_id := ts_node_id r; current_epoch := current_epoch r;
       last_snapshot_id := last_snapshot_id r;
       last_snapshot_request_event_id := last_snapshot_request_event_id r;
       last_snapshot_requested_at := last_snapshot_requested_at r;
       last_snapshot_generated_at := last_snapshot_generated_at r;
       last_snapshot_reason := last_snapshot_reason r;
       last_command_published_at := Some at_; last_command_message_id := Some m;
       last_result_received_at := last_result_received_at r;
       last_result_event_id := last_result_event_id r;
       last_heartbeat_received_at := last_heartbeat_received_at r;
       last_sync_report_received_at := last_sync_report_received_at r;
       ts_updated_at := ts_updated_at r |}).

Definition touch_result (nid : Z) (event_id : string) (at_ : Z) : SM unit :=
  get_or_create nid ;;
  update_state nid (λ r,
    {| ts_id := ts_id r; ts_node_id := ts_node_id r; current_epoch := current_epoch r;
       last_snapshot_id := last_snapshot_id r;
       last_snapshot_request_event_id := last_snapshot_request_event_id r;
       last_snapshot_requested_at := last_snapshot_requested_at r;
       last_snapshot_generated_at := last_snapshot_generated_at r;
       last_snapshot_reason := last_snapshot_reason r;
       last_command_published_at := last_command_published_at r;
       last_command_message_id := last_command_message_id r;
       last_result_received_at := Some at_; last_result_event_id := Some event_id;
       last_heartbeat_received_at := last_heartbeat_received_at r;
       last_sync_report_received_at := last_sync_report_received_at r;
       ts_updated_at := ts_updated_at r |}).

(** The same request asked again: its snapshot is already reserved. *)
Definition already_reserved (request_event_id : string) (st : NodeTransportState) : option string :=
  match last_snapshot_id st with
  | Some sid =>
      if bool_decide (last_snapshot_request_event_id st = Some request_event_id) && nonempty sid
      then Some sid else None
  | None => None
  end.

Definition reserve_snapshot_epoch (nid : Z) (request_event_id snapshot_id reason : string)
    (requested_at generated_at : Z) : SM (Z * string) :=
  get_or_create nid ;;
  found ← get_state nid;
  match found with
  | None => raise (RuntimeError "No row was found when one was required")
  | Some st =>
      match already_reserved request_event_id st with
      | Some sid => mret (current_epoch st, sid)
      | None =>
          let new_epoch := current_epoch st + 1 in
          update_state nid (λ r,
            {| ts_id := ts_id r; ts_node_id := ts_node_id r; current_epoch := new_epoch;
               last_snapshot_id := Some snapshot_id;
               last_snapshot_request_event_id := Some request_event_id;
               last_snapshot_requested_at := Some requested_at;
               last_snapshot_generated_at := Some generated_at;
               last_snapshot_reason := Some reason;
               last_command_published_at := last_command_published_at r;
               last_command_message_id := last_command_message_id r;
               last_result_received_at := last_result_received_at r;
               last_result_event_id := last_result_event_id r;
               last_heartbeat_received_at := last_heartbeat_received_at r;
               last_sync_report_received_at := last_sync_report_received_at r;
               ts_updated_at := ts_updated_at r |}) ;;
          mret (new_epoch, snapshot_id)
      end
  end.

(** * The outbox publisher *)

Section Publisher.
(** What the broker answers when a message is published at a time. *)
Context (broker : message_id → Z → outcome exn unit).

(** One row of the claimed batch: whether it was published. *)
Definition publish_row (r : NodeTransportOutbox) : SM bool :=
emitted_at ← utcnow;
st ← match ob_payload r with
     | PlacementCommand c => st ← get_or_create (pc_node_id c); mret (Some st)
     | UpstreamChanged _ _ _ _ _ _ _ | EntryPoolChanged _ _ _ _ => mret None
     end;
match broker (ob_message_id r) emitted_at with
| Raise exc =>
    mark_failed (ob_id r) (exn_str exc) (emitted_at + 5 * second) ;;
    mret false
| Ok _ =>
    emit (PublishCommand (ob_subject r) (ob_message_id r) (ob_payload r)
            (st ≫= last_snapshot_id) (current_epoch <$> st)) ;;
    mark_published (ob_id r) emitted_at ;;
    match ob_payload r with
    | PlacementCommand c => touch_command (pc_node_id c) (ob_message_id r) emitted_at
    | UpstreamChanged _ _ _ _ _ _ _ | EntryPoolChanged _ _ _ _ => mret tt
    end ;;
    mret true
end.

Fixpoint publish_rows (l : list NodeTransportOutbox) : SM Z :=
match l with
| [] => mret 0
| r :: l =>
    ok ← publish_row r;
    n ← publish_rows l;
    mret (if ok : bool then n + 1 else n)
end.

(** [_publish_outbox_batch]: a claimed batch has written, so it is committed. *)
Definition publish_outbox_body (limit : nat) : SM (Z * bool) :=
now ← utcnow;
batch ← claim_batch now limit;
match batch with
| [] => mret (0, false)
| _ => n ← publish_rows batch; mret (n, true)
end.

Definition _publish_outbox_batch (limit : nat) : SM Z := run_committing (publish_outbox_body limit).

(** [_run_outbox_publisher]: [n] rounds of its loop; the sleeps are not modelled. *)
Fixpoint _run_outbox_publisher (limit n : nat) : SM unit :=
match n with
| O => mret tt
| S n => catch (_publish_outbox_batch limit) (λ _, mret 0) ;; _run_outbox_publisher limit n
end.
End Publisher.

(** * The consumer of placement results *)

Record PlacementApplyResultEvent := {
  are_node_id : string;
  are_emitted_at : Z;
  are_event_id : string;
  are_placement_id : string;
  are_op_version : Z;
  are_applied_state : PlacementAppliedState;
}.

Inductive TransportReportStatus :=
| status_applied | status_pending | status_error | skipped_stale | skipped_idempotent.
#[export] Instance TransportReportStatus_eq_dec : EqDecision TransportReportStatus.
Proof. solve_decision. Defined.

Definition status_value (st : TransportReportStatus) : string :=
  match st with
  | status_applied => "applied" | status_pending => "pending" | status_error => "error"
  | skipped_stale => "skipped_stale" | skipped_idempotent => "skipped_idempotent"
  end.

(** [except (TypeError, ValueError): return None]. *)
Definition _parse_node_id (raw : string) : option Z := UUID raw.

(** A message of the batch that was understood: its index, event and node. *)
Definition result_item : Type := nat * PlacementApplyResultEvent * Z.
Definition ri_index (x : result_item) : nat := x.1.1.
Definition ri_event (x : result_item) : PlacementApplyResultEvent := x.1.2.
Definition ri_node (x : result_item) : Z := x.2.

(** [ack_flags[i] = True] and [ack_statuses[i] = status] for the items of a list. *)
Definition ack_all (l : list result_item) (flags : list bool) : list bool :=
  foldl (λ fl x, <[ri_index x := true]> fl) flags l.
Definition statuses : Type := list (option TransportReportStatus).
Definition set_statuses (f : result_item → TransportReportStatus) (l : list result_item)
    (sts : statuses) : statuses :=
  foldl (λ sts x, <[ri_index x := Some (f x)]> sts) sts l.

(** The last event of each node, nodes in the order they first appear. *)
Fixpoint set_last (nid : Z) (v : string * Z) (l : list (Z * (string * Z))) : list (Z * (string * Z)) :=
  match l with
  | [] => [(nid, v)]
  | (n, w) :: l => if n =? nid then (n, v) :: l else (n, w) :: set_last nid v l
  end.
Definition last_events (valid : list result_item) : list (Z * (string * Z)) :=
  foldl (λ acc x, set_last (ri_node x)
                    (are_event_id (ri_event x), are_emitted_at (ri_event x)) acc) [] valid.

Section Results.
(** [PlacementApplyResultEvent.model_validate_json(msg.data.decode())]; [None]
    when it raises. *)
Context {message : Type} (parse_result : message → option PlacementApplyResultEvent).
(** What the broker answers when the acknowledgement of an event is published. *)
Context (ack_broker : string → Z → outcome exn unit).

(** The first loop: messages that cannot be understood are acknowledged. *)
Fixpoint parse_messages (i : nat) (messages : list message) (flags : list bool)
    : list result_item * list bool :=
match messages with
| [] => ([], flags)
| m :: messages =>
    match parse_result m with
    | None => parse_messages (S i) messages (<[i := true]> flags)
    | Some event =>
        match _parse_node_id (are_node_id event) with
        | None => parse_messages (S i) messages (<[i := true]> flags)
        | Some nid =>
            let '(l, fl) := parse_messages (S i) messages flags in ((i, event, nid) :: l, fl)
        end
    end
end.

(** [UUID(event.placement_id)]: a [ValueError] leaves the handler. *)
Definition result_apply (now : Z) (x : result_item) : SM PlacementResultApply :=
match UUID (are_placement_id (ri_event x)) with
| None => raise (ValueError "badly formed hexadecimal UUID string")
| Some pid =>
    mret {| pra_id := pid; pra_op_version := are_op_version (ri_event x);
            pra_backend_node_id := ri_node x;
            pra_applied_state := are_applied_state (ri_event x); pra_updated_at := now |}
end.

Fixpoint result_applies (now : Z) (l : list result_item) : SM (list PlacementResultApply) :=
match l with
| [] => mret []
| x :: l => it ← result_apply now x; r ← result_applies now l; mret (it :: r)
end.

(** The status of a new item, given the placements the report updated. *)
Definition new_status (updated : list Z) (x : result_item) : TransportReportStatus :=
match UUID (are_placement_id (ri_event x)) with
| Some pid =>
    if bool_decide (pid ∈ updated) then
      match are_applied_state (ri_event x) with
      | applied_applied => status_applied
      | applied_error => status_error
      | applied_pending => status_pending
      end
    else skipped_stale
| None => skipped_stale
end.

(** The transaction: the flags and statuses, and whether it commits. *)
Definition result_body (parsed : list result_item) (flags : list bool) (sts : statuses)
    : SM (list bool * statuses * bool) :=
known ← read (λ d, filter (λ x : result_item, is_Some (nodes d !! ri_node x)) parsed);
unknown ← read (λ d, filter (λ x : result_item, ¬ is_Some (nodes d !! ri_node x)) parsed);
let flags := ack_all unknown flags in
match known with
| [] => mret (flags, sts, false)
| _ =>
    now ← utcnow;
    new_event_ids ← bulk_record_if_new ((λ x, (ri_node x, are_event_id (ri_event x))) <$> known)
                      "placement_result" now;
    let dups := filter (λ x : result_item, are_event_id (ri_event x) ∉ new_event_ids) known in
    let new_items := filter (λ x : result_item, are_event_id (ri_event x) ∈ new_event_ids) known in
    let flags := ack_all dups flags in
    let sts := set_statuses (λ _, skipped_idempotent) dups sts in
    '(flags, sts) ←
      match new_items with
      | [] => mret (flags, sts)
      | _ =>
          bulk_items ← result_applies now new_items;
          updated ← bulk_apply_backend_report bulk_items;
          mret (ack_all new_items flags, set_statuses (new_status updated) new_items sts)
      end;
    for_each (λ e : Z * (string * Z), touch_result e.1 e.2.1 e.2.2) (last_events known) ;;
    mret (flags, sts, true)
end.

(** [_publish_result_ack]. *)
Definition _publish_result_ack (event : PlacementApplyResultEvent) (st : TransportReportStatus) : SM unit :=
emitted_at ← utcnow;
match ack_broker (are_event_id event) emitted_at with
| Raise e => raise e
| Ok _ => emit (PublishResultAck (are_node_id event) (are_event_id event) (are_placement_id event)
                  (are_op_version event) (status_value st))
end.

Definition _handle_result_batch (messages : list message) : SM (list bool) :=
let flags0 := replicate (length messages) false in
let sts0 := replicate (length messages) None in
let '(parsed, flags) := parse_messages 0 messages flags0 in
match parsed with
| [] => mret flags
| _ =>
    '(flags, sts) ← run_committing (result_body parsed flags sts0);
    for_each (λ x, match sts !! ri_index x with
                   | Some (Some st) => _publish_result_ack (ri_event x) st
                   | _ => mret tt
                   end) parsed ;;
    mret flags
end.
End Results.

(** The consumers of heartbeats and sync reports of the node agent runtime
    (services/nodes/agent/runtime.py) over the node service. *)


(** * Transport state *)

Definition heard_heartbeat (at_ : Z) (r : NodeTransportState) : NodeTransportState :=
  {| ts_id := ts_id r; ts_node_id := ts_node_id r; current_epoch := current_epoch r;
     last_snapshot_id := last_snapshot_id r;
     last_snapshot_request_event_id := last_snapshot_request_event_id r;
     last_snapshot_requested_at := last_snapshot_requested_at r;
     last_snapshot_generated_at := last_snapshot_generated_at r;
     last_snapshot_reason := last_snapshot_reason r;
     last_command_published_at := last_command_published_at r;
     last_command_message_id := last_command_message_id r;
     last_result_received_at := last_result_received_at r;
     last_result_event_id := last_result_event_id r;
     last_heartbeat_received_at := Some at_;
     last_sync_report_received_at := last_sync_report_received_at r;
     ts_updated_at := ts_updated_at r |}.

Definition touch_heartbeat (nid at_ : Z) : SM unit := get_or_create nid ;; update_state nid (heard_heartbeat at_).

Definition heard_sync_report (at_ : Z) (r : NodeTransportState) : NodeTransportState :=
  {| ts_id := ts_id r; ts_node_id := ts_node_id r; current_epoch := current_epoch r;
     last_snapshot_id := last_snapshot_id r;
     last_snapshot_request_event_id := last_snapshot_request_event_id r;
     last_snapshot_requested_at := last_snapshot_requested_at r;
     last_snapshot_generated_at := last_snapshot_generated_at r;
     last_snapshot_reason := last_snapshot_reason r;
     last_command_published_at := last_command_published_at r;
     last_command_message_id := last_command_message_id r;
     last_result_received_at := last_result_received_at r;
     last_result_event_id := last_result_event_id r;
     last_heartbeat_received_at := last_heartbeat_received_at r;
     last_sync_report_received_at := Some at_;
     ts_updated_at := ts_updated_at r |}.

Definition touch_sync_report (nid at_ : Z) : SM unit := get_or_create nid ;; update_state nid (heard_sync_report at_).

(** * Events *)

(** The fields of the event that the consumer copies one by one into
    [NodeHeartbeatIn] are kept as that value. *)
Record HeartbeatEvent := {
  he_event_id : string;
  he_node_id : string;
  he_emitted_at : Z;
  he_payload : NodeHeartbeatIn;
}.

Record SyncReportEvent := {
  se_event_id : string;
  se_node_id : string;
  se_emitted_at : Z;
  se_synced_count : Z;
  se_config_version : option Z;
  se_inventory_hash : option string;
  se_inventory_count : option Z;
  se_full_resync_completed : bool;
}.

Inductive SyncReportAckStatus := ack_accepted | ack_skipped.
Definition ack_value (st : SyncReportAckStatus) : string :=
  match st with ack_accepted => "accepted" | ack_skipped => "skipped" end.

Section Consumers.
Context (cfg : NodeConfig).
(** [model_validate_json]; [None] when it raises. *)
Context {message : Type} (parse_heartbeat : message → option HeartbeatEvent)
  (parse_sync_report : message → option SyncReportEvent).
(** What the broker answers to an acknowledgement, by its event and time. *)
Context (ack_broker : string → Z → outcome exn unit).

Definition heartbeat_body (event : HeartbeatEvent) (nid : Z) : SM (bool * bool) :=
node ← get_by_id nodes_tbl nid;
match node with
| None => mret (true, false)
| Some n =>
    handle_heartbeat cfg n (he_payload event) ;;
    touch_heartbeat nid (he_emitted_at event) ;;
    mret (true, true)
end.

Definition _handle_heartbeat_message (msg : message) : SM bool :=
match parse_heartbeat msg with
| None => raise (ValidationError "HeartbeatEvent")
| Some event =>
    match _parse_node_id (he_node_id event) with
    | None => mret true
    | Some nid => run_committing (heartbeat_body event nid)
    end
end.

Definition _publish_sync_report_ack (event : SyncReportEvent) (status : SyncReportAckStatus)
  (error : option string) : SM bool :=
emitted_at ← utcnow;
match ack_broker (se_event_id event) emitted_at with
| Raise e => raise e
| Ok _ => emit (PublishSyncReportAck (se_node_id event) (se_event_id event) (ack_value status) error) ;;
          mret true
end.

Definition sync_report_in (event : SyncReportEvent) : NodeSyncReportIn :=
{| sr_synced_count := se_synced_count event; sr_config_version := se_config_version event;
   sr_inventory_hash := se_inventory_hash event; sr_inventory_count := se_inventory_count event;
   sr_full_resync_completed := Some (se_full_resync_completed event) |}.

(** Whether the report was accepted, [None] for a node that is gone. *)
Definition sync_report_body (event : SyncReportEvent) (nid : Z) : SM (option bool * bool) :=
node ← get_by_id nodes_tbl nid;
match node with
| None => mret (None, false)
| Some n =>
    accepted ← handle_sync_report cfg n (sync_report_in event);
    touch_sync_report nid (se_emitted_at event) ;;
    mret (Some accepted, true)
end.

Definition _handle_sync_report_message (msg : message) : SM bool :=
match parse_sync_report msg with
| None => raise (ValidationError "SyncReportEvent")
| Some event =>
    match _parse_node_id (se_node_id event) with
    | None => mret true
    | Some nid =>
        answer ← run_committing (sync_report_body event nid);
        match answer with
        | None => _publish_sync_report_ack event ack_skipped (Some "unknown_node")
        | Some accepted =>
            _publish_sync_report_ack event (if accepted : bool then ack_accepted else ack_skipped) None
        end
    end
end.
End Consumers.
