(* ===== verification/PlacementProps.v ===== *)
(** What every placement operation keeps: the table's constraints, the order of
    versions, and that a state a node reported is one it reported for the current
    version. *)

From stdpp Require Import base gmap strings list sorting.
From S2P Require Import Prelude Decimal Errors RouteModels BillingModels FleetModels Session Tables FleetTables Routing Placements.
Local Open Scope Z_scope.

(** * Invariant and evolution *)

(** The constraints of [user_placement] hold. *)
Definition placements_inv (d : database) : Prop :=
  keyed placements_tbl d ∧
  (∀ i p, placements d !! i = Some p → placement_check p = None) ∧
  (∀ i j p q, placements d !! i = Some p → placements d !! j = Some q →
     same_slot p q = true → i = j).

(** [p'] comes after [p]: the same placement of the same key, versions do not
    decrease, and what the node should do changes only under a new version. *)
Definition placement_evolves (p p' : UserPlacement) : Prop :=
  pl_id p' = pl_id p ∧ pl_key_id p' = pl_key_id p ∧
  op_version p ≤ op_version p' ∧ applied_version p ≤ applied_version p' ∧
  (op_version p = op_version p' →
     backend_node_id p' = backend_node_id p ∧ desired_state p' = desired_state p).

#[export] Instance placement_evolves_preorder : PreOrder placement_evolves.
Proof.
  split.
  - intros p. unfold placement_evolves. split_and!; auto; lia.
  - intros p q r (?&?&?&?&Hpq) (?&?&?&?&Hqr). unfold placement_evolves. split_and!; try congruence; try lia.
    intros Heq. destruct (Hpq ltac:(lia)), (Hqr ltac:(lia)). split; congruence.
Qed.

Definition placements_evolve (d d' : database) : Prop :=
  ∀ i p, placements d !! i = Some p → ∃ p', placements d' !! i = Some p' ∧ placement_evolves p p'.

#[export] Instance placements_evolve_preorder : PreOrder placements_evolve.
Proof.
  split.
  - intros d i p Hp. exists p. split; [done|reflexivity].
  - intros d1 d2 d3 H12 H23 i p Hp. destruct (H12 i p Hp) as (q & Hq & Hpq).
    destruct (H23 i q Hq) as (r & Hr & Hqr). exists r. split; [done|]. by transitivity q.
Qed.

(** A placement the rebalancer drained: it gave it a new version without resetting the
    reported state. *)
Definition awaits_drain (p : UserPlacement) : Prop :=
  desired_state p = desired_inactive ∧ last_migration_reason p = Some "backend_draining" ∧
  applied_version p < op_version p.

(** A reported state belongs to the current version, except while a drain is waiting. *)
Definition applied_ok (p : UserPlacement) : Prop :=
  applied_state p ≠ applied_pending → applied_version p = op_version p ∨ awaits_drain p.

Definition applied_current (d : database) : Prop :=
  ∀ i p, placements d !! i = Some p → applied_ok p.

Definition placement_rel (d d' : database) : Prop :=
  placements_evolve d d' ∧ (applied_current d → applied_current d').

#[export] Instance placement_rel_preorder : PreOrder placement_rel.
Proof.
  split.
  - intros d. split; [reflexivity|done].
  - intros d1 d2 d3 [H12 A12] [H23 A23]. split; [by transitivity d2|auto].
Qed.

Notation keeps_placements m := (keeps (on_db (guarded placements_inv placement_rel)) m).

(** * Writing a row *)

Lemma same_slot_eq a b :
  same_slot a b = true ↔ pl_key_id a = pl_key_id b ∧ backend_node_id a = backend_node_id b.
Proof. unfold same_slot. by rewrite andb_true_iff, !Z.eqb_eq. Qed.

(** The constraint check of a written row. *)
Lemma placements_check_ok d old p :
  t_check placements_tbl d old p = None ↔
  placement_check p = None ∧
  ((∃ o, old = Some o ∧ same_slot o p = true) ∨
   ∀ j q, placements d !! j = Some q → pl_id q ≠ pl_id p → same_slot q p = false).
Proof.
  cbn [t_check placements_tbl]. destruct (placement_check p) as [c|] eqn:Ec; [split; [done|by intros []]|].
  unfold unique_on, unique. split.
  - intros H. split; [done|].
    destruct old as [o|]; [destruct (same_slot o p) eqn:Eo; [left; by exists o|]|];
      right; apply (clashes_false (placements d) pl_id same_slot);
      by destruct (clashes _ _ _ _).
  - intros [_ [(o & -> & ->)|Hc]]; [done|].
    rewrite (proj2 (clashes_false (placements d) pl_id same_slot p) Hc).
    by destruct old as [o|]; [destruct (same_slot o p)|].
Qed.

Lemma put_placement_inv d p p' :
  placements_inv d → placements d !! pl_id p = Some p → pl_id p' = pl_id p →
  t_check placements_tbl d (Some p) p' = None → placements_inv (put placements_tbl p' d).
Proof.
  intros (Hk & Hc & Hu) Hp Hid [Hcp Hslot]%placements_check_ok. split_and!.
  - apply (keyed_put placements_tbl p' d Hk).
  - intros i q. unfold put. cbn. rewrite lookup_insert. case_decide; [by intros [= <-]|apply Hc].
  - assert (Hfree : ∀ j q, placements d !! j = Some q → j ≠ pl_id p' → same_slot q p' = false).
    { intros j q Hq Hj. pose proof (Hk j q Hq) as Hjq. cbn in Hjq. subst j.
      destruct Hslot as [(o & [= <-] & Ho)|Hfree]; [|by eapply Hfree].
      apply not_true_iff_false. intros Hs. apply Hj. rewrite Hid. symmetry.
      apply (Hu _ _ p q Hp Hq). apply same_slot_eq in Ho as [? ?], Hs as [? ?].
      apply same_slot_eq. split; congruence. }
    assert (Hsym : ∀ q, same_slot p' q = same_slot q p').
    { intros q. unfold same_slot. by rewrite (Z.eqb_sym (pl_key_id p')), (Z.eqb_sym (backend_node_id p')). }
    intros i j q r. unfold put. cbn. rewrite !lookup_insert.
    do 2 case_decide; subst; try congruence.
    + intros [= <-] Hr. rewrite Hsym, (Hfree j r Hr) by done. done.
    + intros Hq [= <-]. rewrite (Hfree i q Hq) by done. done.
    + apply Hu.
Qed.

Lemma put_placement_rel d p p' :
  placements d !! pl_id p = Some p → placement_evolves p p' → (applied_ok p → applied_ok p') →
  placement_rel d (put placements_tbl p' d).
Proof.
  intros Hp Hev Hok. pose proof Hev as (Hid & _). split.
  - intros i q Hq. unfold put. cbn. rewrite lookup_insert, Hid. case_decide as Hi.
    + subst i. rewrite Hp in Hq. injection Hq as <-. by exists p'.
    + exists q. split; [done|reflexivity].
  - intros Hcur i q. unfold put. cbn. rewrite lookup_insert. case_decide; [|apply Hcur].
    intros [= <-]. eauto.
Qed.

(** A bulk update whose row function is an evolution. *)
Lemma keeps_placement_update P f :
  (∀ p, pl_id (f p) = pl_id p) →
  (∀ p, P p = true → placement_check p = None → placement_evolves p (f p) ∧ (applied_ok p → applied_ok (f p))) →
  keeps_placements (update_where placements_tbl P f).
Proof.
  intros Hid Hf. apply keeps_update_where; [apply _|apply _| |done|].
  - by intros d [? _].
  - intros d p HI Hp HP Hc. destruct (Hf p HP) as [Hev Hok].
    { destruct HI as (_ & Hchk & _). eauto. }
    split; [by eapply put_placement_inv|by eapply put_placement_rel].
Qed.

(** ** The row functions *)

Ltac row_evolves :=
  intros; unfold placement_evolves, applied_ok, awaits_drain; cbn; rewrite ?placement_check_None in *;
  split_and!; auto; try lia; try congruence.

Lemma bump_evolves ds reason now p :
  placement_evolves p (bump ds reason now p) ∧ (applied_ok p → applied_ok (bump ds reason now p)).
Proof. row_evolves. Qed.

Lemma revive_evolves ds sticky reason now p :
  placement_evolves p (revive ds sticky reason now p) ∧
  (applied_ok p → applied_ok (revive ds sticky reason now p)).
Proof. row_evolves. Qed.

Lemma move_evolves target reason now p :
  placement_evolves p (move_to target reason now p) ∧
  (applied_ok p → applied_ok (move_to target reason now p)).
Proof. row_evolves. Qed.

Lemma retire_evolves now p :
  placement_evolves p (retire now p) ∧ (applied_ok p → applied_ok (retire now p)).
Proof. row_evolves. Qed.

Lemma report_evolves st now p :
  placement_check p = None →
  placement_evolves p (reported st (op_version p) now p) ∧
  (applied_ok p → applied_ok (reported st (op_version p) now p)).
Proof. row_evolves. Qed.

(** ** Operations that leave the table alone *)

Lemma keeps_same_placements {A} (m : SM A) :
  keeps (on_db (same placements)) m → keeps_placements m.
Proof.
  intros H s Hinv. specialize (H s). unfold on_db, same in H. unfold on_db.
  unfold placements_inv, keyed in *. cbn in *. rewrite H. split; [done|].
  unfold placement_rel, placements_evolve, applied_current. rewrite H.
  split; [|done]. intros i p Hp. exists p. split; [done|reflexivity].
Qed.

(** The transport writes the outbox only. *)
Section TransportFrame.
Context (pfx : string) {B : Type} (f : database → B) `{!FrameOn f outbox_tbl}.

Lemma build_command_payload_same p k o : keeps (on_db (same f)) (_build_command_payload p k o).
Proof using Type. unfold _build_command_payload. keeps_tac. Qed.

Lemma enqueue_one_same it : keeps (on_db (same f)) (enqueue_one it).
Proof using Type*. unfold enqueue_one. keeps_tac. Qed.

Lemma entry_items_same p k l : keeps (on_db (same f)) (entry_items pfx p k l).
Proof using Type.
induction l; cbn [entry_items]; [keeps_tac|].
keeps_step; [apply build_command_payload_same|]. keeps_tac.
Qed.

Lemma command_items_same l e : keeps (on_db (same f)) (command_items pfx l e).
Proof using Type.
induction l as [|[p k] l IH]; cbn [command_items]; [keeps_tac|].
keeps_step; [apply build_command_payload_same|intros c].
keeps_step; [apply entry_items_same|intros es]. keeps_tac.
Qed.

Lemma enqueue_for_placement_ids_same ids :
keeps (on_db (same f)) (enqueue_for_placement_ids pfx ids).
Proof using Type*.
unfold enqueue_for_placement_ids, list_transport_rows_by_placement_ids, enqueue_many.
keeps_step; [destruct ids; keeps_tac|]. intros [|r rows]; [keeps_tac|].
keeps_step; [keeps_tac|intros e]. keeps_step; [apply command_items_same|intros l].
keeps_step. apply enqueue_one_same.
Qed.
End TransportFrame.

Lemma enqueue_keeps pfx ids : keeps_placements (enqueue_for_placement_ids pfx ids).
Proof. apply keeps_same_placements, enqueue_for_placement_ids_same, _. Qed.
#[export] Hint Resolve enqueue_keeps : keeps.

(** ** Repository writes *)

(** A new row in a free slot. *)
Lemma new_placement d p :
  placements_inv d → placements d !! pl_id p = None → applied_ok p →
  t_check placements_tbl d None p = None →
  placements_inv (put placements_tbl p d) ∧ placement_rel d (put placements_tbl p d).
Proof.
  intros (Hk & Hc & Hu) Hnew Hok [Hcp [(o & Ho & _)|Hfree]]%placements_check_ok; [done|].
  assert (Hfree' : ∀ j q, placements d !! j = Some q → same_slot q p = false).
  { intros j q Hq. apply (Hfree j q Hq). pose proof (Hk j q Hq) as Hj. cbn in Hj. subst j.
    intros Heq. by rewrite Heq, Hnew in Hq. }
  assert (Hsym : ∀ q, same_slot p q = same_slot q p).
  { intros q. unfold same_slot. by rewrite (Z.eqb_sym (pl_key_id p)), (Z.eqb_sym (backend_node_id p)). }
  split; [split_and!|split].
  - apply (keyed_put placements_tbl p d Hk).
  - intros i q. unfold put. cbn. rewrite lookup_insert. case_decide; [by intros [= <-]|apply Hc].
  - intros i j q r. unfold put. cbn. rewrite !lookup_insert.
    do 2 case_decide; subst; try congruence.
    + intros [= <-] Hr. by rewrite Hsym, (Hfree' j r Hr).
    + intros Hq [= <-]. by rewrite (Hfree' i q Hq).
    + apply Hu.
  - intros i q Hq. unfold put. cbn. rewrite lookup_insert_ne; [|intros <-; congruence].
    exists q. split; [done|reflexivity].
  - intros Hcur i q. unfold put. cbn. rewrite lookup_insert. case_decide; [by intros [= <-]|apply Hcur].
Qed.

Lemma upsert_row_keeps kid bid ds sticky reason : keeps_placements (upsert_row kid bid ds sticky reason).
Proof.
  apply keeps_by_wp. intros s. unfold upsert_row. apply wp_bind, wp_select.
  destruct (filter _ _) as [|p l] eqn:El.
  - apply wp_bind. unfold wp. rewrite create_run. cbv zeta.
    destruct (t_rows placements_tbl (db s) !! _) eqn:Hr; [done|].
    destruct (t_check placements_tbl (db s) None _) eqn:Hc; [done|].
    intros HI. apply new_placement; [done|done|by intros []|done].
  - assert (Hp : p ∈ rows (placements (db s))).
    { assert (Hin : p ∈ p :: l) by left. rewrite <-El in Hin.
      by apply list_elem_of_filter in Hin as [_ ?]. }
    apply elem_of_rows in Hp as [i Hi].
    apply wp_bind, wp_utcnow, wp_bind. unfold wp. rewrite store_run. cbn [db].
    destruct (t_check _ _ _ _) eqn:Hc; [done|].
    intros HI. pose proof (proj1 HI i p Hi) as Hid. cbn in Hid. subst i.
    destruct (revive_evolves ds sticky reason (clock s (ticks s)) p).
    split; [by eapply put_placement_inv|by eapply put_placement_rel].
Qed.

Lemma bump_keeps P ds reason now : keeps_placements (update_where placements_tbl P (bump ds reason now)).
Proof. apply keeps_placement_update; [done|]. intros. apply bump_evolves. Qed.
#[export] Hint Resolve upsert_row_keeps bump_keeps : keeps.

Lemma get_by_key_and_backend_keeps kid bid b : keeps_placements (get_by_key_and_backend kid bid b).
Proof. unfold get_by_key_and_backend. keeps_tac. Qed.
#[export] Hint Resolve get_by_key_and_backend_keeps : keeps.

Lemma upsert_set_pending_keeps kid bid ds sticky reason :
  keeps_placements (upsert_set_pending kid bid ds sticky reason).
Proof. unfold upsert_set_pending. keeps_tac. Qed.

Lemma upsert_rows_keeps pairs ds reason : keeps_placements (upsert_rows pairs ds reason).
Proof. induction pairs as [|[k b] l IH]; cbn [upsert_rows]; keeps_tac. Qed.
#[export] Hint Resolve upsert_set_pending_keeps upsert_rows_keeps : keeps.

Lemma bulk_upsert_keeps pairs ds reason : keeps_placements (bulk_upsert_set_pending pairs ds reason).
Proof. unfold bulk_upsert_set_pending. keeps_tac. Qed.

Lemma deactivate_keeps bid reason : keeps_placements (deactivate_placements_on_node bid reason).
Proof.
  unfold deactivate_placements_on_node. keeps_step; [keeps_tac|intros l].
  destruct (pl_id <$> l); keeps_tac.
Qed.

Lemma set_desired_keeps kid ds reason now bids :
  keeps_placements (set_desired_state_for_key kid ds reason now bids).
Proof.
  unfold set_desired_state_for_key. keeps_step; [keeps_tac|intros backends].
  destruct bids as [[]|]; keeps_tac.
Qed.

Lemma set_pending_keeps bid reason now : keeps_placements (set_pending_for_backend bid reason now).
Proof. apply keeps_placement_update; [done|]. intros. apply bump_evolves. Qed.

Lemma bulk_set_desired_keeps kids ds reason now :
  keeps_placements (bulk_set_desired_state_for_keys kids ds reason now).
Proof. unfold bulk_set_desired_state_for_keys. destruct kids; keeps_tac. Qed.

Lemma apply_report_keeps pid v st now reporter :
  keeps_placements (apply_backend_report pid v st v now reporter).
Proof.
  unfold apply_backend_report. keeps_step; [|keeps_tac].
  apply keeps_placement_update; [done|]. intros p HP Hc.
  rewrite !andb_true_iff in HP. destruct HP as [[_ Hv%Z.eqb_eq] _]. subst v.
  by apply report_evolves.
Qed.

Lemma bulk_report_keeps items : keeps_placements (bulk_apply_backend_report items).
Proof.
  unfold bulk_apply_backend_report. destruct items as [|it items]; [keeps_tac|].
  apply keeps_fold_m; [apply _|]. intros acc [st g]. unfold report_group. cbn [snd fst].
  destruct g as [|first g]; [keeps_tac|]. keeps_step; [|keeps_tac].
  apply keeps_placement_update; [done|]. intros p _ Hc. by apply report_evolves.
Qed.

Lemma retire_keeps P now : keeps_placements (update_where placements_tbl P (retire now)).
Proof. apply keeps_placement_update; [done|]. intros. apply retire_evolves. Qed.

Lemma move_keeps P target reason now :
  keeps_placements (update_where placements_tbl P (move_to target reason now)).
Proof. apply keeps_placement_update; [done|]. intros. apply move_evolves. Qed.
#[export] Hint Resolve retire_keeps move_keeps : keeps.

Lemma merge_keeps P (src : UserPlacement → option UserPlacement) reason now :
  keeps_placements (update_where placements_tbl P (λ p,
    match src p with
    | Some q => revive (desired_state q) (sticky_until q) reason now p
    | None => p
    end)).
Proof.
  apply keeps_placement_update.
  - intros q. by destruct (src q).
  - intros q _ _. destruct (src q); [apply revive_evolves|]. split; [reflexivity|done].
Qed.

Lemma bulk_migrate_keeps ids target reason now :
  keeps_placements (bulk_migrate_backend ids target reason now).
Proof.
  unfold bulk_migrate_backend. destruct ids as [|i ids]; [keeps_tac|].
  keeps_step; [keeps_tac|]. intros [|p srcs]; [keeps_tac|].
  keeps_step; [keeps_tac|]. intros targets.
  keeps_step; [destruct (pl_id <$> _); keeps_tac|]. intros moved.
  keeps_step; [|keeps_tac]. destruct (pl_id <$> _); [keeps_tac|].
  keeps_step; [keeps_tac|intros qs]. keeps_step; [|keeps_tac].
  apply (merge_keeps _ (λ p, find (λ q, pl_key_id q =? pl_key_id p) qs)).
Qed.
#[export] Hint Resolve bulk_upsert_keeps deactivate_keeps set_desired_keeps set_pending_keeps
  bulk_set_desired_keeps apply_report_keeps bulk_report_keeps bulk_migrate_keeps : keeps.

(** ** Services and reconcilers *)

Lemma select_nodes_keeps region excl : keeps_placements (select_nodes region excl).
Proof.
  unfold select_nodes, _load_policy, node_policy, list_available_nodes,
    recent_traffic_bytes_per_backend. keeps_tac.
Qed.
#[export] Hint Resolve select_nodes_keeps : keeps.

Section Services.
Context (pfx : string).

Lemma upsert_keeps payload : keeps_placements (upsert pfx payload).
Proof. unfold upsert. keeps_tac. Qed.

Lemma migrate_backend_keeps payload : keeps_placements (migrate_backend pfx payload).
Proof.
unfold migrate_backend, migration_target, list_active.
keeps_step; [keeps_tac|intros _]. keeps_step; [keeps_tac|]. intros [source|]; [|keeps_tac].
keeps_step; [keeps_tac|intros target]. keeps_step; [keeps_tac|intros _].
keeps_step; [keeps_tac|intros ps]. keeps_step; [keeps_tac|intros now].
keeps_step; [|keeps_tac]. destruct (filter _ ps); [keeps_tac|].
keeps_step; [keeps_tac|]. intros [n [|i ids]]; cbn [snd]; keeps_tac.
Qed.

Lemma apply_result_keeps node pid payload : keeps_placements (apply_result node pid payload).
Proof. unfold apply_result. keeps_tac. Qed.

Lemma retry_keeps P now : keeps_placements (update_where placements_tbl P (retry now)).
Proof. apply keeps_placement_update; [done|]. intros. apply bump_evolves. Qed.

Lemma error_retry_keeps : keeps_placements (error_retry_tick pfx).
Proof.
unfold error_retry_tick, node_policy. keeps_step; [keeps_tac|intros policy].
apply keeps_committing; [apply _|]. unfold error_retry_body.
keeps_step; [keeps_tac|intros now]. keeps_step; [keeps_tac|intros errors].
keeps_step.
- destruct (pl_id <$> errors); [keeps_tac|]. keeps_step; [keeps_tac|intros now'].
  keeps_step; [apply retry_keeps|keeps_tac].
- intros _. keeps_step; [keeps_tac|intros pending]. keeps_step; [|keeps_tac].
  destruct (pl_id <$> pending); keeps_tac.
Qed.

Lemma drain_evolves now p :
placement_check p = None →
placement_evolves p (drain now p) ∧ (applied_ok p → applied_ok (drain now p)).
Proof. row_evolves. right. split_and!; [done..|lia]. Qed.

Lemma drain_keeps : keeps_placements _deactivate_placements_on_draining_backends.
Proof.
unfold _deactivate_placements_on_draining_backends.
keeps_step; [keeps_tac|intros now]. keeps_step; [keeps_tac|intros draining].
apply keeps_placement_update; [done|]. intros p _. apply drain_evolves.
Qed.

Lemma rebalance_keeps : keeps_placements (rebalance_tick pfx).
Proof.
unfold rebalance_tick, node_policy. keeps_step; [keeps_tac|intros policy].
apply keeps_committing; [apply _|]. unfold rebalance_body, _find_healthy_backend_node_ids, find_missing_placements.
keeps_step; [apply drain_keeps|intros drained]. keeps_step; [destruct drained; keeps_tac|intros _].
keeps_step; [keeps_tac|intros healthy]. destruct (_ <? 2)%nat; [keeps_tac|].
keeps_step; [keeps_tac|]. intros [|m missing]; [keeps_tac|].
keeps_step; [keeps_tac|intros created]. keeps_step; [destruct created; keeps_tac|keeps_tac].
Qed.
End Services.
#[export] Hint Resolve upsert_keeps migrate_backend_keeps apply_result_keeps error_retry_keeps : keeps.

(** * Histories *)

(** The operations on placements: the admin requests, the calls the other
    services make, node reports, and the ticks of the error-retry and rebalance
    reconcilers. *)
Inductive placement_op :=
| OpUpsert (payload : UserPlacementUpsertIn)
| OpMigrate (payload : PlacementMigrateBackendIn)
| OpReport (node placement : Z) (payload : PlacementApplyResultIn)
| OpBulkReport (items : list PlacementResultApply)
| OpDeactivateOnNode (backend : Z) (reason : string)
| OpSetDesired (key : Z) (ds : PlacementDesiredState) (reason : option string) (now : Z)
    (backends : option (list Z))
| OpBulkSetDesired (keys : list Z) (ds : PlacementDesiredState) (reason : option string) (now : Z)
| OpSetPending (backend : Z) (reason : option string) (now : Z)
| OpBulkMigrate (ids : list Z) (target : Z) (reason : option string) (now : Z)
| OpBulkUpsert (pairs : list (Z * Z)) (ds : PlacementDesiredState) (reason : option string)
| OpErrorRetry
| OpRebalance.

(** Each in a request of its own. *)
Definition run_placement_op (pfx : string) (op : placement_op) (s : session) : session :=
  match op with
  | OpUpsert p => (run_request (upsert pfx p) s).2
  | OpMigrate p => (run_request (migrate_backend pfx p) s).2
  | OpReport n i p => (run_request (apply_result n i p) s).2
  | OpBulkReport l => (run_request (bulk_apply_backend_report l) s).2
  | OpDeactivateOnNode b r => (run_request (deactivate_placements_on_node b r) s).2
  | OpSetDesired k ds r now bs => (run_request (set_desired_state_for_key k ds r now bs) s).2
  | OpBulkSetDesired ks ds r now => (run_request (bulk_set_desired_state_for_keys ks ds r now) s).2
  | OpSetPending b r now => (run_request (set_pending_for_backend b r now) s).2
  | OpBulkMigrate ids t r now => (run_request (bulk_migrate_backend ids t r now) s).2
  | OpBulkUpsert ps ds r => (run_request (bulk_upsert_set_pending ps ds r) s).2
  | OpErrorRetry => (error_retry_tick pfx s).2
  | OpRebalance => (rebalance_tick pfx s).2
  end.

Definition run_placement_ops (pfx : string) (ops : list placement_op) (s : session) : session :=
  foldl (λ s op, run_placement_op pfx op s) s ops.

Lemma request_rel {A} (P : database → database → Prop) `{!PreOrder P} (m : SM A) s :
  keeps (on_db P) m → P (db s) (db (run_request m s).2).
Proof.
  intros H. specialize (H s). unfold run_request, on_db in *.
  destruct (m s) as [[a|e] s']; cbn in *; [done|reflexivity].
Qed.

Lemma placement_op_rel pfx op s :
  guarded placements_inv placement_rel (db s) (db (run_placement_op pfx op s)).
Proof.
  destruct op; cbn [run_placement_op]; try (apply request_rel; [apply _|]; eauto with keeps).
  - exact (error_retry_keeps pfx s).
  - exact (rebalance_keeps pfx s).
Qed.

Lemma placement_ops_rel pfx ops s :
  guarded placements_inv placement_rel (db s) (db (run_placement_ops pfx ops s)).
Proof.
  revert s. induction ops as [|op ops IH]; intros s; cbn [run_placement_ops foldl]; [reflexivity|].
  etrans; [apply placement_op_rel|apply IH].
Qed.

(** C3: through any sequence of placement operations, failed ones and the ticks of
    both reconcilers included, the table keeps its constraints (positive versions,
    [0 <= applied_version <= op_version], one placement per key and backend), a
    reported state belongs to the current version unless the rebalancer drained
    the placement and its node has not yet reported (then it is to be inactive, for
    the reason [backend_draining], with an older reported version), and every placement keeps its id and key, its
    versions never decrease, and its backend and desired state change only under
    a larger [op_version]. *)
Theorem placement_history pfx ops s :
  placements_inv (db s) → applied_current (db s) →
  let d' := db (run_placement_ops pfx ops s) in
  placements_inv d' ∧ applied_current d' ∧ placements_evolve (db s) d'.
Proof.
  intros HI Hcur. destruct (placement_ops_rel pfx ops s HI) as (HI' & Hev & Hcur').
  split_and!; auto.
Qed.

(** * Node reports *)

(** [updated_where] when the new rows keep their slot and pass the CHECKs. *)
Lemma placement_update_run P f s :
  placements_inv (db s) → (∀ p, pl_id (f p) = pl_id p) →
  (∀ p, P p = true → placement_check p = None → same_slot p (f p) = true ∧ placement_check (f p) = None) →
  update_where placements_tbl P f s =
  (Ok (pl_id <$> targets placements_tbl P (db s)),
   with_db (puts placements_tbl f (targets placements_tbl P (db s))) s).
Proof.
  intros (_ & Hchk & _) Hid Hf. apply (update_where_run placements_tbl f); [done|].
  intros done r todo Hl. apply placements_check_ok.
  assert (Hr : r ∈ targets placements_tbl P (db s)) by (rewrite Hl; apply elem_of_app; right; left).
  apply list_elem_of_filter in Hr as [HP [i Hi]%elem_of_rows].
  destruct (Hf r HP (Hchk i r Hi)) as [Hs Hc]. split; [done|]. left. by exists r.
Qed.

(** The placement a report names, if its version and backend are current. *)
Definition report_target (node pid : Z) (r : PlacementApplyResultIn) (d : database)
    : option UserPlacement :=
  match placements d !! pid with
  | Some p => if (op_version p =? pri_op_version r) && (backend_node_id p =? node) then Some p else None
  | None => None
  end.

Definition report_status (st : PlacementAppliedState) : PlacementApplyStatus :=
  match st with
  | applied_applied => st_applied | applied_error => st_error | applied_pending => st_pending
  end.

(** The rows a report matches. *)
Lemma report_targets node pid r d :
  placements_inv d →
  targets placements_tbl (λ p, (pl_id p =? pid) && (op_version p =? pri_op_version r) &&
    (backend_node_id p =? node)) d =
  match report_target node pid r d with Some p => [p] | None => [] end.
Proof.
  intros (Hk & _ & _). set (l := targets _ _ d). unfold report_target.
  assert (Hl : ∀ p, p ∈ l ↔ placements d !! pid = Some p ∧ op_version p = pri_op_version r ∧
    backend_node_id p = node).
  { intros p. unfold l, targets. rewrite list_elem_of_filter, elem_of_rows, !andb_true_iff, !Z.eqb_eq.
    split.
    - intros [[[Hid ?] ?] [i Hi]]. pose proof (Hk i p Hi) as Hi'. cbn in Hi'. subst. done.
    - intros (Hi & ? & ?). pose proof (Hk pid p Hi) as Hi'. cbn in Hi'. eauto 10. }
  assert (Hnd : NoDup (pl_id <$> l)).
  { eapply sublist_NoDup; [by apply (rows_ids_NoDup placements_tbl d)|].
    apply fmap_sublist, sublist_filter. }
  destruct (placements d !! pid) as [p|] eqn:Hp.
  - destruct ((op_version p =? pri_op_version r) && (backend_node_id p =? node)) eqn:Hm.
    + rewrite andb_true_iff, !Z.eqb_eq in Hm. destruct l as [|q [|q' l']] eqn:El.
      * exfalso. by apply (not_elem_of_nil p), Hl.
      * f_equal. destruct (proj1 (Hl q) ltac:(left)) as [[= ->] _]. done.
      * exfalso. destruct (proj1 (Hl q) ltac:(left)) as [[= ->] _].
        destruct (proj1 (Hl q') ltac:(right; left)) as [[= ->] _].
        apply NoDup_cons in Hnd as [Hn _]. apply Hn. left.
    + destruct l as [|q l']; [done|]. exfalso.
      destruct (proj1 (Hl q) ltac:(left)) as ([= ->] & Ho & Hb).
      by rewrite Ho, Hb, !Z.eqb_refl in Hm.
  - destruct l as [|q l']; [done|]. exfalso. by destruct (proj1 (Hl q) ltac:(left)) as [? _].
Qed.

Lemma apply_result_run node pid r s :
  placements_inv (db s) →
  apply_result node pid r s =
  match report_target node pid r (db s) with
  | Some p => (Ok (report_status (pri_applied_state r)),
      with_db (put placements_tbl
        (reported (pri_applied_state r) (pri_op_version r) (clock s (ticks s)) p)) (tick s))
  | None => (Ok st_skipped_stale, tick s)
  end.
Proof.
  intros HI. unfold apply_result, mbind at 1, M_bind at 1, utcnow. fold (tick s).
  unfold apply_backend_report, mbind, M_bind.
  rewrite placement_update_run; [|done|done|].
  - cbn [db tick]. rewrite report_targets by done.
    destruct (report_target node pid r (db s)) as [p|]; cbn; [|by destruct s].
    by destruct (pri_applied_state r).
  - intros p HP Hc. rewrite !andb_true_iff, !Z.eqb_eq in HP. destruct HP as [[_ Hv] _].
    rewrite placement_check_None in Hc |- *. cbn. split; [by apply same_slot_eq|]. lia.
Qed.

(** A node's report is fenced by versions.  Whatever happened to the
    placement since it had version [v], a report for an older version, or from a
    node that is not its backend, is answered [skipped_stale] and changes
    nothing; a report for its current version from its backend is stored: the
    reported state, [applied_version = op_version], every other row unchanged. *)
Theorem report_fenced pfx ops s pid p node r :
  placements_inv (db s) → placements (db s) !! pid = Some p →
  let s1 := run_placement_ops pfx ops s in
  ∃ p1 st s2, placements (db s1) !! pid = Some p1 ∧ op_version p ≤ op_version p1 ∧
    apply_result node pid r s1 = (Ok st, s2) ∧
    if bool_decide (pri_op_version r = op_version p1 ∧ backend_node_id p1 = node) then
      st = report_status (pri_applied_state r) ∧
      placements (db s2) !! pid =
        Some (reported (pri_applied_state r) (op_version p1) (clock s1 (ticks s1)) p1) ∧
      ∀ j, j ≠ pid → placements (db s2) !! j = placements (db s1) !! j
    else st = st_skipped_stale ∧ db s2 = db s1.
Proof.
  intros HI Hp s1. destruct (placement_ops_rel pfx ops s HI) as (HI1 & Hev & _).
  fold s1 in HI1, Hev. destruct (Hev pid p Hp) as (p1 & Hp1 & _ & _ & Hver & _).
  pose proof (apply_result_run node pid r s1 HI1) as Hrun. unfold report_target in Hrun.
  rewrite Hp1 in Hrun. pose proof (proj1 HI1 pid p1 Hp1) as Hid. cbn in Hid.
  destruct ((op_version p1 =? pri_op_version r) && (backend_node_id p1 =? node)) eqn:Hm.
  - rewrite andb_true_iff, !Z.eqb_eq in Hm. destruct Hm as [Hv Hb].
    exists p1. eexists _, _. split_and!; [done|done|exact Hrun|].
    rewrite bool_decide_true by done. rewrite Hv. subst pid. split_and!; [done| |].
    + cbn. by rewrite lookup_insert_eq.
    + intros j Hj. cbn. by rewrite lookup_insert_ne.
  - exists p1. eexists _, _. split_and!; [done|done|exact Hrun|].
    rewrite bool_decide_false; [done|]. intros [Hv Hb].
    by rewrite Hv, Hb, !Z.eqb_refl in Hm.
Qed.
