(* ===== verification/PlacementMigrate.v ===== *)
(** Migrating the placements of a backend (services/placements: migrate_backend
    and bulk_migrate_backend): every active placement arrives on the target. *)

From stdpp Require Import base gmap strings list sorting.
From S2P Require Import Prelude Decimal Errors RouteModels BillingModels FleetModels Session Tables FleetTables Routing Placements PlacementProps.
Local Open Scope Z_scope.

(** An update of the rows with the given ids, skipped when there are none. *)
Lemma ids_update_run sids f s :
  (∀ p, pl_id (f p) = pl_id p) →
  let T := targets placements_tbl (λ p, bool_decide (pl_id p ∈ sids)) (db s) in
  (∀ done r todo, T = done ++ r :: todo →
     t_check placements_tbl (puts placements_tbl f done (db s)) (Some r) (f r) = None) →
  match sids with
  | [] => mret []
  | _ => update_where placements_tbl (λ p, bool_decide (pl_id p ∈ sids)) f
  end s = (Ok (pl_id <$> T), with_db (puts placements_tbl f T) s).
Proof.
  intros Hid T Hchk. destruct sids as [|i sids]; [|by apply (update_where_run placements_tbl f)].
  assert (T = []) as ->; [|by destruct s].
  unfold T, targets. apply filter_empty. intros p _.
  rewrite bool_decide_eq_true. apply not_elem_of_nil.
Qed.

Section Migrate.
Context (d : database) (HI : placements_inv d) (source target : Z) (Hne : source ≠ target)
  (chosen : Z → bool).

(** The placements a migration moves away: the chosen ones that are active, wanted
    active, on [source]. *)
Definition to_migrate (p : UserPlacement) : bool :=
pl_is_active p && (backend_node_id p =? source) && bool_decide (desired_state p = desired_active) &&
chosen (pl_id p).

(** The key of [p] already has a row on the target. *)
Definition has_target (p : UserPlacement) : bool :=
existsb (λ t, (pl_key_id t =? pl_key_id p) && (backend_node_id t =? target)) (rows (placements d)).

Definition source_rows : list UserPlacement :=
filter (λ p, to_migrate p = true) (rows (placements d)).

Lemma to_migrate_spec p : to_migrate p = true ↔
pl_is_active p = true ∧ backend_node_id p = source ∧ desired_state p = desired_active ∧ chosen (pl_id p) = true.
Proof using Type.
unfold to_migrate. rewrite !andb_true_iff, Z.eqb_eq, bool_decide_eq_true. tauto.
Qed.

Lemma has_target_spec p : has_target p = true ↔
∃ j t, placements d !! j = Some t ∧ pl_key_id t = pl_key_id p ∧ backend_node_id t = target.
Proof using Type.
unfold has_target. rewrite existsb_exists. split.
- intros (t & [j Hj]%list_elem_of_In%elem_of_rows & Ht). exists j, t.
  by rewrite andb_true_iff, !Z.eqb_eq in Ht.
- intros (j & t & Hj & Hk & Hb). exists t.
  split; [apply list_elem_of_In, elem_of_rows; eauto|]. by rewrite Hk, Hb, !Z.eqb_refl.
Qed.

Lemma row_by_id i p : placements d !! i = Some p → pl_id p = i.
Proof using HI. intros Hi. apply (proj1 HI i p Hi). Qed.

Lemma row_self p : p ∈ rows (placements d) → placements d !! pl_id p = Some p.
Proof using HI. intros [i Hi]%elem_of_rows. by rewrite (row_by_id i p Hi). Qed.

(** Among the rows of the table, membership by id is membership. *)
Lemma id_in_rows P p :
p ∈ rows (placements d) →
pl_id p ∈ pl_id <$> filter (λ q, P q = true) (rows (placements d)) ↔ P p = true.
Proof using HI.
intros Hp. rewrite list_elem_of_fmap. split.
- intros (q & Hid & [HP Hq]%list_elem_of_filter).
  pose proof (row_self p Hp) as E1. rewrite Hid, (row_self q Hq) in E1. by injection E1 as <-.
- intros HP. exists p. split; [done|]. by apply list_elem_of_filter.
Qed.

(** Two placements of one key on [source] are the same. *)
Lemma source_key_inj p q :
p ∈ rows (placements d) → q ∈ rows (placements d) →
backend_node_id p = backend_node_id q → pl_key_id p = pl_key_id q → p = q.
Proof using HI.
intros Hp Hq Hb Hk. destruct HI as (_ & _ & Hu).
assert (pl_id p = pl_id q) as Hid.
{ eapply (Hu _ _ p q); [by apply row_self..|]. by apply same_slot_eq. }
pose proof (row_self p Hp) as E1. rewrite Hid, (row_self q Hq) in E1. by injection E1.
Qed.

(** The rows of the moving keys found on the target, and the dict lookup. *)
Definition target_rows : list UserPlacement :=
filter (λ p, bool_decide (pl_key_id p ∈ pl_key_id <$> source_rows) &&
  (backend_node_id p =? target) = true) (rows (placements d)).

Lemma target_by_key_spec p :
p ∈ source_rows →
match target_by_key target_rows (pl_key_id p) with
| Some t => has_target p = true ∧ pl_id t ≠ pl_id p
| None => has_target p = false
end.
Proof using HI Hne.
intros [Hm Hp]%list_elem_of_filter. unfold target_by_key.
destruct (find _ target_rows) as [t|] eqn:Ef.
- apply find_some in Ef as [Ht%list_elem_of_In Hk%Z.eqb_eq].
  apply list_elem_of_filter in Ht as [Hb Ht]. rewrite andb_true_iff, Z.eqb_eq in Hb.
  split.
  + apply has_target_spec. exists (pl_id t), t. split_and!; [by apply row_self|done|apply Hb].
  + intros Hid. pose proof (row_self p Hp) as E1. rewrite <-Hid, (row_self t Ht) in E1.
    injection E1 as ->. apply to_migrate_spec in Hm. destruct Hb. destruct Hm as (_ & ? & _). congruence.
- apply not_true_iff_false. intros (j & t & Hj & Hk & Hb)%has_target_spec.
  assert (Ht : t ∈ target_rows).
  { apply list_elem_of_filter. split; [|apply elem_of_rows; eauto].
    rewrite andb_true_iff, bool_decide_eq_true, Z.eqb_eq. split; [|done].
    rewrite Hk. apply list_elem_of_fmap_2. by apply list_elem_of_filter. }
  apply list_elem_of_In in Ht. pose proof (find_none _ _ Ef t Ht) as Hf. cbn in Hf.
  by rewrite Hk, Z.eqb_refl in Hf.
Qed.

(** The two parts of the rows that move, as filters of the table. *)
Lemma simple_rows :
filter (λ p, target_by_key target_rows (pl_key_id p) = None) source_rows =
filter (λ p, to_migrate p && negb (has_target p) = true) (rows (placements d)).
Proof using HI Hne.
unfold source_rows. rewrite list_filter_filter. apply filter_ext_in. intros p Hp.
rewrite andb_true_iff, negb_true_iff. split.
- intros [Ht Hm]. split; [done|].
  pose proof (target_by_key_spec p) as Hs. rewrite Ht in Hs. apply Hs. by apply list_elem_of_filter.
- intros [Hm Hn]. split; [|done].
  pose proof (target_by_key_spec p ltac:(by apply list_elem_of_filter)) as Hs.
  destruct (target_by_key _ _); [|done]. destruct Hs. congruence.
Qed.

Lemma merge_rows :
filter (λ p, match target_by_key target_rows (pl_key_id p) with
             | Some t => negb (pl_id t =? pl_id p) | None => false end = true) source_rows =
filter (λ p, to_migrate p && has_target p = true) (rows (placements d)).
Proof using HI Hne.
unfold source_rows. rewrite list_filter_filter. apply filter_ext_in. intros p Hp.
rewrite andb_true_iff. split.
- intros [Ht Hm]. split; [done|].
  pose proof (target_by_key_spec p ltac:(by apply list_elem_of_filter)) as Hs.
  by destruct (target_by_key _ _); [destruct Hs|].
- intros [Hm Hn]. split; [|done].
  pose proof (target_by_key_spec p ltac:(by apply list_elem_of_filter)) as Hs.
  destruct (target_by_key _ _) as [t|]; [|congruence]. destruct Hs as [_ Hid].
  by rewrite negb_true_iff, Z.eqb_neq.
Qed.

(** Moving a row never meets a taken slot. *)
Lemma move_checks reason now done r todo :
filter (λ p, to_migrate p && negb (has_target p) = true) (rows (placements d)) = done ++ r :: todo →
t_check placements_tbl (puts placements_tbl (move_to target reason now) done d) (Some r)
  (move_to target reason now r) = None.
Proof using HI Hne.
intros Hl. set (f := move_to target reason now).
assert (Hin : ∀ q, q ∈ done ++ r :: todo → q ∈ rows (placements d) ∧ backend_node_id q = source ∧
  has_target q = false).
{ intros q. rewrite <-Hl, list_elem_of_filter, andb_true_iff, negb_true_iff.
  intros [[Hm Hn] Hq]. apply to_migrate_spec in Hm. tauto. }
assert (Hnd : NoDup (pl_id <$> done ++ r :: todo)).
{ rewrite <-Hl. eapply sublist_NoDup; [by apply (rows_ids_NoDup placements_tbl d), HI|].
  apply fmap_sublist, sublist_filter. }
rewrite fmap_app in Hnd. apply NoDup_app in Hnd as (Hnd & Hdis & _).
destruct (Hin r ltac:(apply elem_of_app; right; left)) as (Hr & Hrs & Hrn).
apply placements_check_ok. split.
{ destruct HI as (_ & Hc & _). pose proof (Hc _ _ (row_self r Hr)) as Hcr.
  rewrite placement_check_None in *. cbn. lia. }
right. intros j q Hq Hjq. apply not_true_iff_false. intros [Hk Hb]%same_slot_eq. cbn in Hk, Hb.
destruct (decide (j ∈ pl_id <$> done)) as [(q0 & -> & Hq0)%list_elem_of_fmap|Hj].
- pose proof (lookup_puts placements_tbl f (λ _, eq_refl) done d q0 Hnd Hq0) as Hlook.
  cbn [t_rows placements_tbl t_id] in Hlook. rewrite Hlook in Hq. injection Hq as <-. cbn in Hk.
  destruct (Hin q0 ltac:(apply elem_of_app; by left)) as (Hq0r & Hq0s & _).
  assert (q0 = r) as -> by (apply source_key_inj; [done|done|congruence|done]).
  apply (Hdis (pl_id r)); [by apply list_elem_of_fmap_2|left].
- pose proof (lookup_puts_ne placements_tbl f (λ _, eq_refl) done d j Hj) as Hlook.
  cbn [t_rows placements_tbl] in Hlook. rewrite Hlook in Hq.
  assert (has_target r = true); [|congruence]. apply has_target_spec. by exists j, q.
Qed.

(** ** The whole run *)

Context (reason : option string) (now : Z).

(** What becomes of a row. *)
Definition migrated (p p' : UserPlacement) : Prop :=
(to_migrate p = true ∧ has_target p = false ∧ p' = move_to target reason now p) ∨
(to_migrate p = true ∧ has_target p = true ∧ p' = retire now p) ∨
(to_migrate p = false ∧ backend_node_id p = target ∧
 (∃ q, q ∈ rows (placements d) ∧ to_migrate q = true ∧ pl_key_id q = pl_key_id p ∧
   p' = revive (desired_state q) (sticky_until q) reason now p)) ∨
(to_migrate p = false ∧ p' = p ∧
 ¬ (backend_node_id p = target ∧
    ∃ q, q ∈ rows (placements d) ∧ to_migrate q = true ∧ pl_key_id q = pl_key_id p)).

(** After the move of the rows without a row on the target. *)
Definition moved_db : database :=
puts placements_tbl (move_to target reason now)
  (filter (λ p, to_migrate p && negb (has_target p) = true) (rows (placements d))) d.

Lemma moved_lookup i :
placements moved_db !! i =
(λ p, if to_migrate p && negb (has_target p) then move_to target reason now p else p)
  <$> placements d !! i.
Proof using HI.
exact (lookup_update_where placements_tbl (move_to target reason now) (λ _, eq_refl)
  (λ p, to_migrate p && negb (has_target p)) d i (proj1 HI)).
Qed.

Lemma move_run s :
db s = d →
let sids := pl_id <$> filter (λ p, to_migrate p && negb (has_target p) = true) (rows (placements d)) in
match sids with
| [] => mret []
| _ => update_where placements_tbl (λ p, bool_decide (pl_id p ∈ sids)) (move_to target reason now)
end s =
(Ok sids, with_db (λ _, moved_db) s) ∧ placements_inv moved_db.
Proof using HI Hne.
intros Hd sids. set (simple := filter _ (rows (placements d))) in sids. subst sids.
assert (HT : targets placements_tbl (λ p, bool_decide (pl_id p ∈ pl_id <$> simple)) (db s) = simple).
{ rewrite Hd. unfold targets, simple. apply filter_ext_in. intros p Hp.
  rewrite bool_decide_eq_true. apply (id_in_rows (λ p, to_migrate p && negb (has_target p)) p Hp). }
pose proof (ids_update_run (pl_id <$> simple) (move_to target reason now) s (λ _, eq_refl)) as Hrun.
cbv zeta in Hrun. rewrite HT, Hd in Hrun.
specialize (Hrun (λ done r todo Hl, move_checks reason now done r todo Hl)).
assert (Heq : with_db (puts placements_tbl (move_to target reason now) simple) s =
  with_db (λ _, moved_db) s) by (unfold with_db, moved_db; by rewrite Hd).
rewrite Heq in Hrun. split; [exact Hrun|].
assert (Hk : keeps (on_db (guarded placements_inv placement_rel))
  (match pl_id <$> simple with
   | [] => mret []
   | _ => update_where placements_tbl (λ p, bool_decide (pl_id p ∈ pl_id <$> simple))
            (move_to target reason now)
   end)).
{ destruct (pl_id <$> simple); eauto with keeps typeclass_instances. }
lazymatch type of Hrun with ?m = _ =>
  assert (Hk' : guarded placements_inv placement_rel (db s) (db m.2)) by exact (Hk s) end.
rewrite Hrun in Hk'. apply Hk'. by rewrite Hd.
Qed.

(** The rows merged into their key's row on the target, and the merge itself. *)
Definition merge_sources : list UserPlacement :=
filter (λ p, to_migrate p && has_target p = true) (rows (placements d)).

Definition merge_into (srcs : list UserPlacement) (p : UserPlacement) : UserPlacement :=
match find (λ q, pl_key_id q =? pl_key_id p) srcs with
| Some q => revive (desired_state q) (sticky_until q) reason now p
| None => p
end.

Definition takes_merge (srcs : list UserPlacement) (p : UserPlacement) : bool :=
(backend_node_id p =? target) && existsb (λ q, pl_key_id q =? pl_key_id p) srcs.

(** The three updates in sequence, on one row. *)
Definition final_row (srcs : list UserPlacement) (p : UserPlacement) : UserPlacement :=
let p1 := if to_migrate p && negb (has_target p) then move_to target reason now p else p in
let p2 := if takes_merge srcs p1 then merge_into srcs p1 else p1 in
if bool_decide (pl_id p2 ∈ pl_id <$> merge_sources) then retire now p2 else p2.

Definition merge_srcs_ok (srcs : list UserPlacement) : Prop :=
∀ q, q ∈ srcs ↔ q ∈ rows (placements d) ∧ to_migrate q = true ∧ has_target q = true.

Lemma takes_merge_spec srcs p :
merge_srcs_ok srcs →
takes_merge srcs p = true ↔ backend_node_id p = target ∧
  ∃ q, q ∈ rows (placements d) ∧ to_migrate q = true ∧ has_target q = true ∧ pl_key_id q = pl_key_id p.
Proof using Type.
intros Hs. unfold takes_merge. rewrite andb_true_iff, Z.eqb_eq, existsb_exists. split.
- intros [Hb (q & Hq%list_elem_of_In & Hk%Z.eqb_eq)]. split; [done|].
  apply Hs in Hq. exists q. tauto.
- intros [Hb (q & Hq & Hm & Ht & Hk)]. split; [done|]. exists q.
  split; [apply list_elem_of_In, Hs; done|by apply Z.eqb_eq].
Qed.

Lemma final_row_migrated srcs p :
merge_srcs_ok srcs → p ∈ rows (placements d) → migrated p (final_row srcs p).
Proof using HI Hne.
intros Hs Hp. unfold final_row, migrated. destruct (to_migrate p) eqn:Hm; cbn [andb].
- destruct (has_target p) eqn:Ht; cbn [negb].
  + right. left. assert (takes_merge srcs p = false) as ->.
    { apply not_true_iff_false. intros [Hb _]%takes_merge_spec; [|done].
      apply to_migrate_spec in Hm as (_ & Hb' & _). congruence. }
    split_and!; [done..|]. rewrite bool_decide_true; [done|].
    apply (id_in_rows (λ p, to_migrate p && has_target p) p Hp). by rewrite Hm, Ht.
  + left. assert (takes_merge srcs (move_to target reason now p) = false) as ->.
    { apply not_true_iff_false. intros [_ (q & Hq & Hmq & Htq & Hk)]%takes_merge_spec; [|done].
      cbn in Hk. pose proof (proj1 (to_migrate_spec p) Hm) as (_ & Hb & _).
      apply to_migrate_spec in Hmq as (_ & Hb' & _).
      rewrite (source_key_inj q p) in Htq by congruence. congruence. }
    split_and!; [done..|]. rewrite bool_decide_false; [done|].
    cbn [move_to pl_id]. intros Hin.
    apply (id_in_rows (λ p, to_migrate p && has_target p) p Hp) in Hin. by rewrite Hm, Ht in Hin.
- right. right. assert (Hid : pl_id p ∉ pl_id <$> merge_sources).
  { intros Hin. apply (id_in_rows (λ p, to_migrate p && has_target p) p Hp) in Hin.
    by rewrite Hm in Hin. }
  destruct (takes_merge srcs p) eqn:Htm.
  + left. unfold merge_into. destruct (find _ srcs) as [q|] eqn:Ef.
    * apply find_some in Ef as [Hq%list_elem_of_In Hk%Z.eqb_eq]. apply Hs in Hq as (Hq & Hmq & _).
      rewrite bool_decide_false by done. split_and!; [done| |].
      -- apply takes_merge_spec in Htm as [? _]; done.
      -- exists q. done.
    * exfalso. unfold takes_merge in Htm. apply andb_true_iff in Htm as [_ Hex].
      apply existsb_exists in Hex as (q & Hq & Hk). pose proof (find_none _ _ Ef q Hq). congruence.
  + right. rewrite bool_decide_false by done. split_and!; [done..|].
    intros [Hb (q & Hq & Hmq & Hk)]. apply not_true_iff_false in Htm. apply Htm.
    apply takes_merge_spec; [done|]. split; [done|]. exists q. split_and!; [done..| |done].
    apply has_target_spec. exists (pl_id p), p. split_and!; [by apply row_self|done|done].
Qed.

(** The source rows the merge reads after the move. *)
Definition merge_srcs : list UserPlacement :=
filter (λ p, bool_decide (pl_id p ∈ pl_id <$> merge_sources) = true) (rows (placements moved_db)).

Lemma merge_srcs_spec : merge_srcs_ok merge_srcs.
Proof using HI.
intros q. unfold merge_srcs. rewrite list_elem_of_filter, bool_decide_eq_true, elem_of_rows. split.
- intros [Hin [i Hi]]. rewrite moved_lookup in Hi. apply fmap_Some in Hi as (p & Hp & ->).
  assert (Hpr : p ∈ rows (placements d)) by (apply elem_of_rows; eauto).
  assert (pl_id p ∈ pl_id <$> merge_sources) as Hid by by destruct (to_migrate p && _).
  apply (id_in_rows (λ p, to_migrate p && has_target p) p Hpr), andb_true_iff in Hid as [Hm Ht].
  by rewrite Hm, Ht.
- intros (Hq & Hm & Ht). split.
  + apply (id_in_rows (λ p, to_migrate p && has_target p) q Hq). by rewrite Hm, Ht.
  + exists (pl_id q). rewrite moved_lookup, (row_self q Hq). cbn. by rewrite Hm, Ht.
Qed.

Lemma merge_run s :
db s = moved_db →
let mids := pl_id <$> merge_sources in
∃ tids d3,
match mids with
| [] => mret []
| _ =>
    srcs ← select_where placements_tbl (λ p, bool_decide (pl_id p ∈ mids));
    ids ← update_where placements_tbl
      (λ p, (backend_node_id p =? target) && existsb (λ q, pl_key_id q =? pl_key_id p) srcs)
      (λ p, match find (λ q, pl_key_id q =? pl_key_id p) srcs with
            | Some q => revive (desired_state q) (sticky_until q) reason now p
            | None => p
            end);
    update_where placements_tbl (λ p, bool_decide (pl_id p ∈ mids)) (retire now) ;;
    mret ids
end s = (Ok tids, with_db (λ _, d3) s) ∧
(∀ i, placements d3 !! i = final_row merge_srcs <$> placements d !! i) ∧
(∀ p, p ∈ rows (placements d) → takes_merge merge_srcs p = true → pl_id p ∈ tids).
Proof using HI Hne.
intros Hd mids. destruct (move_run (with_db (λ _, d) s) eq_refl) as [_ HI1].
destruct mids as [|m0 ml] eqn:Hmids.
- assert (Hsrcs : merge_srcs = []).
  { unfold merge_srcs. apply filter_empty. intros p _. fold mids. rewrite Hmids.
    rewrite bool_decide_eq_true. apply not_elem_of_nil. }
  exists [], moved_db. split_and!.
  + rewrite <-Hd. by destruct s.
  + intros i. rewrite moved_lookup. destruct (placements d !! i) as [p|]; [|done]. cbn. f_equal.
    unfold final_row, takes_merge. fold mids. rewrite Hsrcs, Hmids. cbn. rewrite andb_false_r.
    rewrite bool_decide_false by apply not_elem_of_nil. done.
  + intros p _ Htm. unfold takes_merge in Htm. rewrite Hsrcs in Htm. cbn in Htm.
    by rewrite andb_false_r in Htm.
- rewrite <-Hmids. clear Hmids m0 ml.
  unfold mbind at 1, M_bind at 1, select_where, read, gets. rewrite Hd.
  change (filter _ (rows (t_rows placements_tbl moved_db))) with merge_srcs.
  pose proof (placement_update_run (takes_merge merge_srcs) (merge_into merge_srcs) s) as Hrun.
  rewrite Hd in Hrun. specialize (Hrun HI1).
  set (T := targets placements_tbl (takes_merge merge_srcs) moved_db) in Hrun.
  set (d2 := puts placements_tbl (merge_into merge_srcs) T moved_db).
  assert (Hmi : ∀ p, pl_id (merge_into merge_srcs p) = pl_id p).
  { intros p. unfold merge_into. by destruct (find _ _). }
  assert (Hrun' : update_where placements_tbl (takes_merge merge_srcs) (merge_into merge_srcs) s =
    (Ok (pl_id <$> T), with_db (λ _, d2) s)).
  { rewrite Hrun; [unfold with_db; by rewrite Hd|done|]. intros p _ Hc. unfold merge_into.
    rewrite placement_check_None in Hc. rewrite placement_check_None.
    destruct (find _ _); split; try (by apply same_slot_eq); cbn; lia. }
  clear Hrun.
  assert (HI2 : placements_inv d2).
  { pose proof (merge_keeps (takes_merge merge_srcs)
      (λ p, find (λ q, pl_key_id q =? pl_key_id p) merge_srcs) reason now s) as Hk.
    assert (Hk' : guarded placements_inv placement_rel (db s)
      (db (update_where placements_tbl (takes_merge merge_srcs) (merge_into merge_srcs) s).2))
      by exact Hk.
    rewrite Hrun' in Hk'. apply Hk'. by rewrite Hd. }
  pose proof (placement_update_run (λ p, bool_decide (pl_id p ∈ mids)) (retire now)
    (with_db (λ _, d2) s) HI2 (λ _, eq_refl)) as Hret.
  set (T3 := targets placements_tbl (λ p, bool_decide (pl_id p ∈ mids)) d2) in Hret.
  exists (pl_id <$> T), (puts placements_tbl (retire now) T3 d2). split_and!.
  + unfold mbind, M_bind. unfold takes_merge, merge_into in Hrun'. rewrite Hrun', Hret; [done|].
    intros p _ Hc. rewrite placement_check_None in *. split; [by apply same_slot_eq|]. cbn. lia.
  + intros i.
    pose proof (lookup_update_where placements_tbl (retire now) (λ _, eq_refl)
      (λ p, bool_decide (pl_id p ∈ mids)) d2 i (proj1 HI2)) as E3.
    pose proof (lookup_update_where placements_tbl (merge_into merge_srcs) Hmi
      (takes_merge merge_srcs) moved_db i (proj1 HI1)) as E2.
    fold T3 in E3. fold T in E2. fold d2 in E2. cbn [t_rows placements_tbl] in E2, E3.
    rewrite E3, E2, moved_lookup.
    by destruct (placements d !! i).
  + intros p Hp Htm. apply list_elem_of_fmap_2. unfold T, targets. apply list_elem_of_filter.
    split; [done|]. apply elem_of_rows. exists (pl_id p). cbn. rewrite moved_lookup, (row_self p Hp).
    cbn. assert (to_migrate p = false) as ->; [|done]. apply not_true_iff_false.
    intros (_ & Hb & _)%to_migrate_spec. apply takes_merge_spec in Htm; [|apply merge_srcs_spec].
    destruct Htm as [Hb' _]. congruence.
Qed.


(** ** The run of [bulk_migrate_backend] on the rows to migrate *)

Context (s : session) (ids : list Z) (Hd : db s = d)
  (Hids : ∀ p, p ∈ rows (placements d) → pl_id p ∈ ids ↔ to_migrate p = true).

Lemma source_select :
filter (λ p, bool_decide (pl_id p ∈ ids) && pl_is_active p = true) (rows (placements d)) = source_rows.
Proof using Hids.
apply filter_ext_in. intros p Hp. rewrite andb_true_iff, bool_decide_eq_true, (Hids p Hp).
split; [by intros [? _]|]. intros Hm. split; [done|]. by apply to_migrate_spec in Hm as [? _].
Qed.

Lemma source_row p : p ∈ source_rows ↔ p ∈ rows (placements d) ∧ to_migrate p = true.
Proof using Type. unfold source_rows. rewrite list_elem_of_filter. tauto. Qed.

(** The result: what became of the rows and which ids need commands. *)
Definition migration_result (tids : list Z) (d3 : database) : Prop :=
(∀ i p, placements d !! i = Some p → ∃ p', placements d3 !! i = Some p' ∧ migrated p p') ∧
(∀ i, placements d !! i = None → placements d3 !! i = None) ∧
(∀ p, p ∈ rows (placements d) → to_migrate p = true → has_target p = false → pl_id p ∈ tids) ∧
(∀ p, p ∈ rows (placements d) → takes_merge merge_srcs p = true → pl_id p ∈ tids).

Lemma nothing_to_migrate :
source_rows = [] →
bulk_migrate_backend ids target reason now s = (Ok (0, []), s) ∧ migration_result [] d.
Proof using HI Hd Hids.
intros Hnil. assert (Hno : ∀ p, p ∈ rows (placements d) → to_migrate p = false).
{ intros p Hp. apply not_true_iff_false. intros Hm. apply (not_elem_of_nil p).
  rewrite <-Hnil. by apply source_row. }
split.
- unfold bulk_migrate_backend. pose proof source_select as Hsel. destruct ids; [done|].
  unfold mbind at 1, M_bind at 1, select_where, read, gets. cbn [t_rows placements_tbl].
  by rewrite Hd, Hsel, Hnil.
- split_and!; [|done| |].
  + intros i p Hp. exists p. split; [done|].
    assert (Hin : p ∈ rows (placements d)) by (apply elem_of_rows; eauto).
    right. right. right. split_and!; [by apply Hno|done|].
    intros (_ & q & Hq & Hm & _). by rewrite (Hno q Hq) in Hm.
  + intros p Hp Hm. by rewrite (Hno p Hp) in Hm.
  + intros p Hp Htm. apply takes_merge_spec in Htm as (_ & q & Hq & Hm & _); [|apply merge_srcs_spec].
    by rewrite (Hno q Hq) in Hm.
Qed.

Lemma bulk_migrate_run :
∃ n tids d3, bulk_migrate_backend ids target reason now s = (Ok (n, tids), with_db (λ _, d3) s) ∧
  migration_result tids d3.
Proof using HI Hne Hd Hids.
destruct (decide (source_rows = [])) as [Hnil|Hsome].
{ destruct (nothing_to_migrate Hnil) as [Hrun Hres]. exists 0, [], d. split; [|done].
  rewrite Hrun, <-Hd. by destruct s. }
destruct (move_run s Hd) as [Hmove _].
destruct (merge_run (with_db (λ _, moved_db) s) eq_refl) as (tids & d3 & Hmerge & Hlook & Htids).
cbv zeta in Hmove, Hmerge. unfold merge_sources in Hmerge.
pose proof source_select as Hsel. pose proof simple_rows as Hsimple. pose proof merge_rows as Hmrg.
assert (Hcase : ∀ A (x y : A), match source_rows with [] => x | _ :: _ => y end = y) by (by destruct source_rows).
set (simple := filter (λ p, to_migrate p && negb (has_target p) = true) (rows (placements d))) in *.
exists (Z.of_nat (length (pl_id <$> simple)) + Z.of_nat (length tids)), ((pl_id <$> simple) ++ tids), d3.
split.
- unfold bulk_migrate_backend. destruct ids as [|i0 l0] eqn:Eids.
  { exfalso. destruct source_rows as [|p0 ps] eqn:Es; [done|].
    destruct (proj1 (source_row p0)) as [Hp0 Hm0]; [rewrite Es; left|].
    apply (not_elem_of_nil (pl_id p0)). by apply Hids. }
  unfold mbind at 1, M_bind at 1, select_where at 1, read at 1, gets at 1. cbn [t_rows placements_tbl].
  rewrite Hd, Hsel, Hcase.
  unfold mbind at 1, M_bind at 1, select_where at 1, read at 1, gets at 1. cbn [t_rows placements_tbl].
  rewrite Hd. fold target_rows. rewrite Hsimple, Hmrg.
  unfold mbind at 1, M_bind at 1. rewrite Hmove.
  unfold mbind at 1, M_bind at 1. rewrite Hmerge. done.
- split_and!.
  + intros i p Hp. exists (final_row merge_srcs p). rewrite Hlook, Hp. split; [done|].
    apply final_row_migrated; [apply merge_srcs_spec|apply elem_of_rows; eauto].
  + intros i Hi. by rewrite Hlook, Hi.
  + intros p Hp Hm Ht. apply elem_of_app. left. apply list_elem_of_fmap_2. unfold simple.
    apply list_elem_of_filter. by rewrite Hm, Ht.
  + intros p Hp Htm. apply elem_of_app. right. auto.
Qed.
End Migrate.

(** * What a migration of chosen placements leaves *)

(** [bulk_migrate_backend] on placements of one backend returns, leaves none of them
    wanted there, gives each of their keys a wanted placement on the target, waiting for
    its node and among the ids to enqueue, and leaves the other keys' rows alone. *)
Lemma chosen_migrated source target reason now s ids :
  placements_inv (db s) → source ≠ target →
  (∀ p, p ∈ rows (placements (db s)) → pl_id p ∈ ids →
     pl_is_active p = true ∧ backend_node_id p = source ∧ desired_state p = desired_active) →
  ∃ n tids s', bulk_migrate_backend ids target reason now s = (Ok (n, tids), s') ∧
    (∃ d', s' = with_db (λ _, d') s) ∧
    (∀ i p, placements (db s) !! i = Some p → i ∈ ids →
       ∃ p', placements (db s') !! i = Some p' ∧ ¬ (backend_node_id p' = source ∧ pl_is_active p' = true)) ∧
    (∀ i p, placements (db s) !! i = Some p → i ∈ ids →
       ∃ j p', placements (db s') !! j = Some p' ∧ pl_key_id p' = pl_key_id p ∧
         backend_node_id p' = target ∧ pl_is_active p' = true ∧ desired_state p' = desired_active ∧
         applied_state p' = applied_pending ∧ j ∈ tids) ∧
    (∀ i p, placements (db s) !! i = Some p → i ∉ ids →
       (backend_node_id p = target →
          ∀ j q, placements (db s) !! j = Some q → j ∈ ids → pl_key_id q ≠ pl_key_id p) →
       placements (db s') !! i = Some p) ∧
    (∀ i p p', placements (db s) !! i = Some p → i ∉ ids → placements (db s') !! i = Some p' →
       backend_node_id p' = backend_node_id p) ∧
    (∀ i, placements (db s) !! i = None → placements (db s') !! i = None).
Proof.
  intros HI Hne Hch. set (chosen := λ i, bool_decide (i ∈ ids)).
  assert (Hids : ∀ p, p ∈ rows (placements (db s)) → pl_id p ∈ ids ↔ to_migrate source chosen p = true).
  { intros p Hp. rewrite to_migrate_spec. unfold chosen. rewrite bool_decide_eq_true. split; [|tauto].
    intros Hi. destruct (Hch p Hp Hi) as (? & ? & ?). done. }
  destruct (bulk_migrate_run (db s) HI source target Hne chosen reason now s ids eq_refl Hids)
    as (n & tids & d3 & Hrun & Hrow & Hnone & Htm & Hmg).
  assert (Hin : ∀ i p, placements (db s) !! i = Some p → p ∈ rows (placements (db s)) ∧ pl_id p = i).
  { intros i p Hp. split; [apply elem_of_rows; eauto|]. by apply (row_by_id (db s) HI). }
  assert (Hmig : ∀ i p, placements (db s) !! i = Some p → i ∈ ids → to_migrate source chosen p = true).
  { intros i p Hp Hi. destruct (Hin i p Hp) as [Hr <-]. by apply Hids. }
  exists n, tids. eexists. split; [exact Hrun|]. cbn [db with_db]. split_and!; [by exists d3| | | | |done].
  - intros i p Hp Hi. destruct (Hrow i p Hp) as (p' & Hp' & Hm). exists p'. split; [done|].
    pose proof (Hmig i p Hp Hi) as Ht. destruct Hm as [(_&_& ->)|[(_&_& ->)|[(?&_)|(?&_)]]]; cbn; try congruence;
      intros [? ?]; congruence.
  - intros i p Hp Hi. pose proof (Hmig i p Hp Hi) as Hm. destruct (Hin i p Hp) as [Hr Hid].
    destruct (has_target (db s) target p) eqn:Ht.
    + apply has_target_spec in Ht as (j & t & Hj & Hk & Hbt).
      destruct (Hrow j t Hj) as (t' & Ht' & Hmt). destruct (Hin j t Hj) as [Hrj Hjt].
      assert (Htak : takes_merge target (merge_srcs (db s) source target chosen reason now) t = true).
      { apply (takes_merge_spec (db s) source target chosen); [by apply merge_srcs_spec|]. split; [done|]. exists p.
        split_and!; [done|done| |done]. apply has_target_spec. exists j, t. done. }
      destruct Hmt as [(Ht1&_)|[(Ht1&_)|[(_&_&q&Hq&Hmq&Hkq& ->)|(_&_&Hno)]]].
      * apply to_migrate_spec in Ht1 as (_ & ? & _). congruence.
      * apply to_migrate_spec in Ht1 as (_ & ? & _). congruence.
      * apply to_migrate_spec in Hmq as (_ & _ & Hdq & _). exists j. eexists. split; [exact Ht'|].
        cbn. split_and!; [congruence..|]. rewrite <-Hjt. eauto.
      * exfalso. apply Hno. split; [done|]. exists p. eauto.
    + destruct (Hrow i p Hp) as (p' & Hp' & Hmt).
      destruct Hmt as [(_&_& ->)|[(_&?&_)|[(?&_)|(?&_)]]]; try congruence.
      pose proof Hm as Hm1. apply to_migrate_spec in Hm1 as (Hact & _ & Hds & _).
      exists i. eexists. split; [exact Hp'|]. cbn. split_and!; try done. rewrite <-Hid. by apply Htm.
  - intros i p Hp Hi Hk. destruct (Hin i p Hp) as [Hr Hid]. destruct (Hrow i p Hp) as (p' & Hp' & Hmt).
    assert (Hn : to_migrate source chosen p = true → False).
    { intros Hm. apply Hi. rewrite <-Hid. by apply Hids. }
    destruct Hmt as [(Hm&_)|[(Hm&_)|[(_&Hb&q&Hq&Hmq&Hkq&_)|(_& -> &_)]]]; [by destruct (Hn Hm)..| |done].
    exfalso. apply (Hk Hb (pl_id q) q); [by apply (row_self (db s) HI)|by apply Hids|done].
  - intros i p p' Hp Hi Hp'. destruct (Hin i p Hp) as [Hr Hid]. destruct (Hrow i p Hp) as (q & Hq & Hmt).
    rewrite Hp' in Hq. injection Hq as <-.
    destruct Hmt as [(Hm&_)|[(Hm&_)|[(_&_&q&_&_&_& ->)|(_& -> &_)]]]; try done;
      exfalso; apply Hi; rewrite <-Hid; by apply Hids.
Qed.

(** * Properties *)

(** The ids [migrate_backend] passes on are those of the rows wanted on the source. *)
Lemma listed_to_migrate source s l p :
  placements_inv (db s) → list_active (Some source) None s = (Ok l, s) →
  p ∈ rows (placements (db s)) →
  pl_id p ∈ pl_id <$> filter (λ p, desired_state p = desired_active) l ↔
  pl_is_active p = true ∧ backend_node_id p = source ∧ desired_state p = desired_active.
Proof.
  intros HI Hl Hp. unfold list_active, mbind, M_bind, select_where, read, gets in Hl.
  cbn [t_rows placements_tbl on_backend mret M_ret] in Hl. injection Hl as <-.
  rewrite list_elem_of_fmap. split.
  - intros (q & Hid & [Hds Hq]%list_elem_of_filter).
    unfold order_by_desc in Hq. rewrite merge_sort_Permutation, list_elem_of_filter in Hq.
    destruct Hq as [Hb Hq]. rewrite andb_true_iff, Z.eqb_eq in Hb.
    pose proof (row_self (db s) HI p Hp) as E1. rewrite Hid, (row_self (db s) HI q Hq) in E1.
    injection E1 as ->. tauto.
  - intros (Ha & Hb & Hds). exists p. split; [done|]. apply list_elem_of_filter. split; [done|].
    unfold order_by_desc. rewrite merge_sort_Permutation. apply list_elem_of_filter.
    split; [|done]. by rewrite andb_true_iff, Z.eqb_eq.
Qed.

(** Migrating the placements wanted on a backend returns: none is wanted there any more,
    every key that had one has an active, wanted placement on the target waiting for its
    node and among the ids to enqueue, and the placements on other backends stay. *)
Lemma wanted_migrated source target reason now s l :
  placements_inv (db s) → source ≠ target → list_active (Some source) None s = (Ok l, s) →
  ∃ n tids s', bulk_migrate_backend
      (pl_id <$> filter (λ p, desired_state p = desired_active) l) target reason now s
      = (Ok (n, tids), s') ∧ (∃ d', s' = with_db (λ _, d') s) ∧
    (∀ i p, placements (db s') !! i = Some p → backend_node_id p = source → pl_is_active p = true →
       desired_state p ≠ desired_active) ∧
    (∀ i p, placements (db s) !! i = Some p → backend_node_id p = source → pl_is_active p = true →
       desired_state p = desired_active →
       ∃ j p', placements (db s') !! j = Some p' ∧ pl_key_id p' = pl_key_id p ∧
         backend_node_id p' = target ∧ pl_is_active p' = true ∧ desired_state p' = desired_active ∧
         applied_state p' = applied_pending ∧ j ∈ tids) ∧
    (∀ i p, placements (db s) !! i = Some p → backend_node_id p ≠ source → backend_node_id p ≠ target →
       placements (db s') !! i = Some p).
Proof.
  intros HI Hne Hl.
  assert (Hlist : ∀ i p, placements (db s) !! i = Some p →
    i ∈ pl_id <$> filter (λ p, desired_state p = desired_active) l ↔
    pl_is_active p = true ∧ backend_node_id p = source ∧ desired_state p = desired_active).
  { intros i p Hp. pose proof (row_by_id (db s) HI i p Hp) as Hid. subst i.
    apply (listed_to_migrate source s l p HI Hl). apply elem_of_rows. eauto. }
  destruct (chosen_migrated source target reason now s
    (pl_id <$> filter (λ p, desired_state p = desired_active) l) HI Hne)
    as (n & tids & s' & Hrun & Hs' & Hgone & Hthere & Hrest & Hother & Hnone).
  { intros p Hp. by apply (listed_to_migrate source s l p HI Hl). }
  exists n, tids, s'. split_and!; [done|done| | |].
  - intros i p' Hp' Hb Ha Hds. destruct (placements (db s) !! i) as [p|] eqn:Hp; [|by rewrite Hnone in Hp'].
    destruct (decide (i ∈ pl_id <$> filter (λ p, desired_state p = desired_active) l)) as [Hi|Hi].
    + destruct (Hgone i p Hp Hi) as (q & Hq & Hno). rewrite Hp' in Hq. injection Hq as <-. tauto.
    + pose proof (Hother i p p' Hp Hi Hp') as Hbb.
      rewrite (Hrest i p Hp Hi) in Hp' by congruence. injection Hp' as <-. apply Hi, (Hlist i p Hp). done.
  - intros i p Hp Hb Ha Hds. apply (Hthere i p Hp). by apply (Hlist i p Hp).
  - intros i p Hp Hs Ht. apply (Hrest i p Hp); [|done]. rewrite (Hlist i p Hp). tauto.
Qed.
