(* ===== verification/PlacementCommands.v ===== *)
(** The commands of placements in the outbox: deduplicating them by placement
    and version never drops a command a node still needs. *)

From stdpp Require Import base gmap strings list sorting.
From S2P Require Import Prelude Decimal Errors RouteModels BillingModels FleetModels Session Tables FleetTables Routing Placements PlacementProps.
Local Open Scope Z_scope.

(** * The invariant of the outbox *)

(** The command [c] says what placement [p] says, if it is for its current
    version, and is not for a later one. *)
Definition command_of (c : PlacementCommandPayload) (p : UserPlacement) : Prop :=
  pc_op_version c ≤ op_version p ∧
  (pc_op_version c = op_version p →
     pc_backend_node_id c = backend_node_id p ∧ pc_desired_state c = desired_state p ∧
     pc_key_id c = pl_key_id p).

(** A row of the outbox whose message id is a placement command's. *)
Definition outbox_row_ok (d : database) (r : NodeTransportOutbox) : Prop :=
  match ob_message_id r with
  | PlacementCommandId pid v entry =>
      ∃ c p, ob_payload r = PlacementCommand c ∧ pc_placement_id c = pid ∧ pc_op_version c = v ∧
        pc_node_id c = default (pc_backend_node_id c) entry ∧ ob_node_id r = pc_node_id c ∧
        placements d !! pid = Some p ∧ command_of c p
  | _ => True
  end.

Definition commands_inv (d : database) : Prop :=
  ∀ j r, outbox d !! j = Some r → outbox_row_ok d r.

Definition commands_rel : database → database → Prop :=
  guarded (λ d, placements_inv d ∧ commands_inv d) (λ _ _, True).

Lemma command_evolves c p p' : placement_evolves p p' → command_of c p → command_of c p'.
Proof.
  intros (_ & Hk & Hv & _ & Heq) [Hle Hc]. split; [lia|]. intros E.
  assert (op_version p = op_version p') as E' by lia. destruct (Heq E') as [Hb Hd].
  destruct (Hc ltac:(lia)) as (? & ? & ?). split_and!; congruence.
Qed.

(** Operations on placements that leave the outbox alone. *)
Lemma keeps_commands {A} (m : SM A) :
  keeps (on_db (guarded placements_inv placement_rel)) m → keeps (on_db (same outbox)) m →
  keeps (on_db commands_rel) m.
Proof.
  intros Hp Ho s [HI HC]. specialize (Hp s HI) as [HI' [Hev _]]. specialize (Ho s).
  unfold on_db, same in Ho. split; [split; [done|]|done].
  intros j r Hr. rewrite Ho in Hr. specialize (HC j r Hr). unfold outbox_row_ok in *.
  destruct (ob_message_id r) as [pid v entry| |]; [|done|done].
  destruct HC as (c & p & Hpl & Hpid & Hv & Hn & Hnode & Hlook & Hc).
  destruct (Hev pid p Hlook) as (p' & Hp' & Hpp').
  exists c, p'. split_and!; [done..|]. by eapply command_evolves.
Qed.

(** * Enqueueing *)

(** The payload of a placement for a node. *)
Definition payload_of (p : UserPlacement) (k : VpnKey) (override : option Z) : PlacementCommandPayload :=
  {| pc_placement_id := pl_id p; pc_key_id := pl_key_id p;
     pc_node_id := default (backend_node_id p) override;
     pc_backend_node_id := backend_node_id p; pc_op_version := op_version p;
     pc_desired_state := desired_state p; pc_protocol := key_protocol k;
     pc_transport := key_transport k; pc_client_id := client_id k;
     pc_is_revoked := is_revoked k; pc_valid_until := valid_until k;
     pc_updated_at := pl_updated_at p;
     pc_override_tag := entry_routing_override_backend_tag k |}.

Definition key_sendable (k : VpnKey) : bool :=
  bool_decide (key_protocol k ∈ transport_protocols) && bool_decide (key_transport k ∈ transport_transports).

Lemma build_payload_run p k o s :
  if key_sendable k then _build_command_payload p k o s = (Ok (payload_of p k o), s)
  else ∃ e, _build_command_payload p k o s = (Raise e, s).
Proof.
  unfold _build_command_payload, key_sendable, mbind, M_bind, raise_if, raise, mret, M_ret.
  destruct (bool_decide (key_protocol k ∈ _)); cbn; [|eauto].
  destruct (bool_decide (key_transport k ∈ _)); cbn; eauto.
Qed.

Section Enqueue.
Context (pfx : string).

(** The items of a placement: one for its backend, one per entry. *)
Definition items_of (p : UserPlacement) (k : VpnKey) (entries : list Z) : list OutboxEnqueueItem :=
(λ o, command_item pfx (payload_of p k o) o) <$> None :: (Some <$> entries).

Lemma entry_items_run p k entries s :
if key_sendable k
then entry_items pfx p k entries s = (Ok ((λ e, command_item pfx (payload_of p k (Some e)) (Some e)) <$> entries), s)
else entries = [] ∨ ∃ e, entry_items pfx p k entries s = (Raise e, s).
Proof.
destruct (key_sendable k) eqn:Hk; [|destruct entries as [|e l]; [by left|right]].
- induction entries as [|e l IH]; [done|]. cbn [entry_items]. unfold mbind, M_bind.
  pose proof (build_payload_run p k (Some e) s) as Hb. rewrite Hk in Hb. by rewrite Hb, IH.
- cbn [entry_items]. unfold mbind, M_bind.
  pose proof (build_payload_run p k (Some e) s) as Hb. rewrite Hk in Hb. destruct Hb as [x ->]. eauto.
Qed.

Lemma command_items_run rows entries s :
if forallb (λ r, key_sendable r.2) rows
then command_items pfx rows entries s =
  (Ok (r ← rows; items_of r.1 r.2 (entries (backend_node_id r.1))), s)
else ∃ e, command_items pfx rows entries s = (Raise e, s).
Proof.
induction rows as [|[p k] rows IH]; [done|]. cbn [forallb command_items snd].
unfold mbind, M_bind.
pose proof (build_payload_run p k None s) as Hb. pose proof (entry_items_run p k (entries (backend_node_id p)) s) as He.
destruct (key_sendable k); cbn [andb].
- rewrite Hb, He. destruct (forallb _ rows).
  + rewrite IH. cbn. unfold items_of. cbn. rewrite <-list_fmap_compose. done.
  + destruct IH as [e ->]. eauto.
- destruct Hb as [e ->]. eauto.
Qed.

(** An item made from a row of the table. *)
Definition item_ok (d : database) (it : OutboxEnqueueItem) : Prop :=
∃ p k o, placements d !! pl_id p = Some p ∧ it = command_item pfx (payload_of p k o) o.

(** The row an item becomes. *)
Definition outbox_row (it : OutboxEnqueueItem) (id now : Z) : NodeTransportOutbox :=
{| ob_id := id; ob_node_id := oei_node_id it; ob_event_type := oei_event_type it;
   ob_aggregate_id := oei_aggregate_id it; ob_op_version := oei_op_version it;
   ob_subject := oei_subject it; ob_payload := oei_payload it;
   ob_message_id := oei_message_id it; ob_status := ob_pending; ob_attempts := 0;
   ob_published_at := None; ob_last_error := None; ob_next_retry_at := None;
   ob_created_at := now; ob_updated_at := now |}.

Definition known (d : database) (m : message_id) : Prop :=
∃ j r, outbox d !! j = Some r ∧ ob_message_id r = m.

Lemma enqueue_one_run it s :
(known (db s) (oei_message_id it) ∧ enqueue_one it s = (Ok tt, s)) ∨
(¬ known (db s) (oei_message_id it) ∧
 match outbox (db s) !! next_uuid s with
 | Some _ => enqueue_one it s = (Raise (IntegrityError "pkey"), tick (issue s))
 | None => enqueue_one it s =
     (Ok tt, with_db (put outbox_tbl (outbox_row it (next_uuid s) (clock s (ticks s)))) (tick (issue s)))
 end).
Proof.
set (isknown := existsb (λ r, bool_decide (ob_message_id r = oei_message_id it)) (rows (outbox (db s)))).
assert (Hrun : enqueue_one it s = if isknown then (Ok tt, s) else
  match create outbox_tbl (outbox_row it) s with
  | (Ok _, s') => (Ok tt, s')
  | (Raise e, s') => (Raise e, s')
  end).
{ unfold enqueue_one, mbind at 1, M_bind at 1, read, gets. fold isknown. by destruct isknown. }
assert (Hknown : existsb (λ r, bool_decide (ob_message_id r = oei_message_id it)) (rows (outbox (db s))) = true
  ↔ known (db s) (oei_message_id it)).
{ rewrite existsb_exists. split.
  - intros (r & [j Hj]%list_elem_of_In%elem_of_rows & Hr%bool_decide_eq_true). by exists j, r.
  - intros (j & r & Hj & Hr). exists r. rewrite bool_decide_eq_true. split; [|done].
    apply list_elem_of_In, elem_of_rows. eauto. }
fold isknown in Hknown. rewrite Hrun.
destruct isknown eqn:Ex; [left; split; [by apply Hknown|done]|right].
assert (Hnk : ¬ known (db s) (oei_message_id it)) by (intros Hk%Hknown; congruence).
split; [done|]. rewrite create_run. cbv zeta. cbn [t_rows outbox_tbl t_id outbox_row ob_id]. destruct (outbox (db s) !! next_uuid s) eqn:Hn; [done|].
cbn [t_check outbox_tbl]. unfold unique_on, unique. rewrite (proj2 (clashes_false _ _ _ _)); [done|].
intros j r Hj _. rewrite bool_decide_eq_false. intros Heq. apply Hnk. by exists j, r.
Qed.

Lemma new_row_ok d it id now : item_ok d it → outbox_row_ok d (outbox_row it id now).
Proof.
intros (p & k & o & Hp & ->). unfold outbox_row_ok. cbn.
exists (payload_of p k o), p. cbn. split_and!; try done.
Qed.

Lemma enqueue_one_keeps it s :
item_ok (db s) it → commands_inv (db s) →
let s' := (enqueue_one it s).2 in
commands_inv (db s') ∧ placements (db s') = placements (db s) ∧ outbox (db s) ⊆ outbox (db s').
Proof.
intros Hit HC. destruct (enqueue_one_run it s) as [[_ ->]|[_ Hrun]]; [done|].
destruct (outbox (db s) !! next_uuid s) eqn:Hn; rewrite Hrun; [done|].
cbn [snd db with_db tick issue put t_set t_rows t_id outbox_tbl outbox_row]. split_and!.
- intros j r. cbn [outbox set_outbox]. rewrite lookup_insert. case_decide.
  + intros [= <-]. exact (new_row_ok (db s) it _ _ Hit).
  + intros Hr. exact (HC j r Hr).
- done.
- by apply insert_subseteq.
Qed.

Lemma item_ok_same d d' it : placements d' = placements d → item_ok d it → item_ok d' it.
Proof. intros E (p & k & o & Hp & Hit). exists p, k, o. by rewrite E. Qed.

Lemma enqueue_many_keeps items s :
(∀ it, it ∈ items → item_ok (db s) it) → commands_inv (db s) →
let s' := (enqueue_many items s).2 in
commands_inv (db s') ∧ placements (db s') = placements (db s) ∧ outbox (db s) ⊆ outbox (db s').
Proof.
revert s. induction items as [|it items IH]; intros s Hall HC; [done|].
cbn [enqueue_many for_each]. destruct (enqueue_one_keeps it s (Hall it ltac:(left)) HC) as (HC1 & Hp1 & Ho1).
unfold mbind, M_bind. destruct (enqueue_one it s) as [[[]|e] s1]; [|done]. cbn [snd] in *.
destruct (IH s1) as (HC2 & Hp2 & Ho2); [|done|].
- intros it' Hit'. apply (item_ok_same (db s)); [done|]. apply Hall. by right.
- fold (enqueue_many items). split_and!; [done|congruence|by etrans].
Qed.

(** The items an enqueue by ids builds. *)
Lemma transport_row p k d (ids : list Z) :
(p, k) ∈ omap (with_key d) (filter (λ p, pl_id p ∈ ids) (rows (placements d))) ↔
pl_id p ∈ ids ∧ p ∈ rows (placements d) ∧ vpn_keys d !! pl_key_id p = Some k ∧
pl_is_active p = true ∧ key_is_active k = true.
Proof.
rewrite list_elem_of_omap. unfold with_key. split.
- intros (q & [Hid Hq]%list_elem_of_filter & Hk).
  destruct (vpn_keys d !! pl_key_id q) as [k'|] eqn:Ek; [|done].
  destruct (pl_is_active q && key_is_active k') eqn:Ha; [|done]. injection Hk as -> ->.
  apply andb_true_iff in Ha. tauto.
- intros (Hid & Hp & Hk & Ha & Hka). exists p. rewrite Hk, Ha, Hka.
  split; [by apply list_elem_of_filter|done].
Qed.

Lemma enqueue_keeps_commands ids : keeps (on_db commands_rel) (enqueue_for_placement_ids pfx ids).
Proof.
apply keeps_by_wp. intros s. unfold enqueue_for_placement_ids. apply wp_bind.
assert (Hrows : wp (list_transport_rows_by_placement_ids ids) (λ l s', s' = s ∧
  ∀ p k, (p, k) ∈ l → p ∈ rows (placements (db s))) (λ _ _, False) s).
{ unfold list_transport_rows_by_placement_ids, wp. destruct ids as [|i ids']; cbn.
  - split; [done|]. by intros p k ?%not_elem_of_nil.
  - split; [done|]. intros p k (_ & ? & _)%transport_row. done. }
eapply wp_mono; [exact Hrows| |done]. intros l s' [-> Hl].
destruct l as [|r0 l0] eqn:El; [apply wp_ret; unfold on_db; reflexivity|]. rewrite <-El in *.
apply wp_bind, wp_gets, wp_bind. unfold wp at 1.
pose proof (command_items_run l (_load_entries_for_backends (db s)) s) as Hci.
destruct (forallb _ l); [|destruct Hci as [e ->]; unfold on_db; reflexivity]. rewrite Hci.
set (items := _ ≫= _).
enough (on_db commands_rel s (enqueue_many items s).2) as H by
  (unfold wp; by destruct (enqueue_many items s) as [[] ?]).
intros [HI HC]. destruct (enqueue_many_keeps items s) as (HC' & Hp' & _); [|done|].
- intros it ([p k] & Hit & Hpk)%list_elem_of_bind. cbn [fst snd] in Hit.
  apply list_elem_of_fmap in Hit as (o & -> & _). exists p, k, o. split; [|done].
  specialize (Hl p k Hpk). apply elem_of_rows in Hl as [i Hi].
  pose proof (proj1 HI i p Hi) as Hid. cbn in Hid. by subst i.
- split; [|done]. split; [|done]. unfold placements_inv, keyed in *. cbn in *. by rewrite Hp'.
Qed.
End Enqueue.

(** * Histories *)

#[export] Hint Resolve enqueue_keeps_commands : keeps.

(** Repository calls: the placement side is known, the outbox is not written. *)
Ltac repo_commands := apply keeps_commands; [eauto with keeps|].

Lemma get_by_key_and_backend_outbox kid bid b : keeps (on_db (same outbox)) (get_by_key_and_backend kid bid b).
Proof. unfold get_by_key_and_backend. keeps_tac. Qed.

Lemma upsert_row_outbox kid bid ds sticky reason :
  keeps (on_db (same outbox)) (upsert_row kid bid ds sticky reason).
Proof. unfold upsert_row. keeps_tac. Qed.
#[export] Hint Resolve get_by_key_and_backend_outbox upsert_row_outbox : keeps.

Lemma upsert_set_pending_commands kid bid ds sticky reason :
  keeps (on_db commands_rel) (upsert_set_pending kid bid ds sticky reason).
Proof. repo_commands. unfold upsert_set_pending. keeps_tac. Qed.

Lemma upsert_rows_outbox pairs ds reason : keeps (on_db (same outbox)) (upsert_rows pairs ds reason).
Proof. induction pairs as [|[k b] l IH]; cbn [upsert_rows]; keeps_tac. Qed.
#[export] Hint Resolve upsert_rows_outbox : keeps.

Lemma bulk_upsert_commands pairs ds reason :
  keeps (on_db commands_rel) (bulk_upsert_set_pending pairs ds reason).
Proof. repo_commands. unfold bulk_upsert_set_pending. keeps_tac. Qed.

Lemma deactivate_commands bid reason : keeps (on_db commands_rel) (deactivate_placements_on_node bid reason).
Proof.
  repo_commands. unfold deactivate_placements_on_node. keeps_step; [keeps_tac|intros l].
  destruct (pl_id <$> l); keeps_tac.
Qed.

Lemma set_desired_commands kid ds reason now bids :
  keeps (on_db commands_rel) (set_desired_state_for_key kid ds reason now bids).
Proof.
  repo_commands. unfold set_desired_state_for_key. keeps_step; [keeps_tac|intros backends].
  destruct bids as [[]|]; keeps_tac.
Qed.

Lemma set_pending_commands bid reason now : keeps (on_db commands_rel) (set_pending_for_backend bid reason now).
Proof. repo_commands. unfold set_pending_for_backend. keeps_tac. Qed.

Lemma bulk_set_desired_commands kids ds reason now :
  keeps (on_db commands_rel) (bulk_set_desired_state_for_keys kids ds reason now).
Proof. repo_commands. unfold bulk_set_desired_state_for_keys. destruct kids; keeps_tac. Qed.

Lemma apply_result_commands node pid r : keeps (on_db commands_rel) (apply_result node pid r).
Proof. repo_commands. unfold apply_result, apply_backend_report. keeps_tac. Qed.

Lemma bulk_report_commands items : keeps (on_db commands_rel) (bulk_apply_backend_report items).
Proof.
  repo_commands. unfold bulk_apply_backend_report. destruct items as [|it items]; [keeps_tac|].
  apply keeps_fold_m; [apply _|]. intros acc [st g]. unfold report_group. keeps_tac.
Qed.

Lemma bulk_migrate_commands ids target reason now :
  keeps (on_db commands_rel) (bulk_migrate_backend ids target reason now).
Proof.
  repo_commands. unfold bulk_migrate_backend. destruct ids as [|i ids]; [keeps_tac|].
  keeps_step; [keeps_tac|]. intros [|p srcs]; [keeps_tac|]. keeps_step; [keeps_tac|]. intros targets.
  keeps_step; [destruct (pl_id <$> _); keeps_tac|]. intros moved.
  keeps_step; [|keeps_tac]. destruct (pl_id <$> _); keeps_tac.
Qed.

Lemma retry_commands P now : keeps (on_db commands_rel) (update_where placements_tbl P (retry now)).
Proof. apply keeps_commands; [apply retry_keeps|keeps_tac]. Qed.

Lemma select_nodes_commands region excl : keeps (on_db commands_rel) (select_nodes region excl).
Proof.
  repo_commands. unfold select_nodes, _load_policy, node_policy, list_available_nodes,
    recent_traffic_bytes_per_backend. keeps_tac.
Qed.
#[export] Hint Resolve upsert_set_pending_commands bulk_upsert_commands deactivate_commands
  set_desired_commands set_pending_commands bulk_set_desired_commands apply_result_commands
  bulk_report_commands bulk_migrate_commands retry_commands select_nodes_commands : keeps.

Lemma upsert_commands pfx payload : keeps (on_db commands_rel) (upsert pfx payload).
Proof. unfold upsert. keeps_tac. Qed.

Lemma migrate_backend_commands pfx payload : keeps (on_db commands_rel) (migrate_backend pfx payload).
Proof.
  unfold migrate_backend, migration_target, list_active.
  keeps_step; [keeps_tac|intros _]. keeps_step; [keeps_tac|]. intros [source|]; [|keeps_tac].
  keeps_step; [keeps_tac|intros target]. keeps_step; [keeps_tac|intros _].
  keeps_step; [keeps_tac|intros ps]. keeps_step; [keeps_tac|intros now].
  keeps_step; [|keeps_tac]. destruct (filter _ ps); [keeps_tac|].
  keeps_step; [keeps_tac|]. intros [n [|i ids]]; cbn [snd]; keeps_tac.
Qed.

Lemma error_retry_commands pfx : keeps (on_db commands_rel) (error_retry_tick pfx).
Proof.
  unfold error_retry_tick, node_policy. keeps_step; [keeps_tac|intros policy].
  apply keeps_committing; [apply _|]. unfold error_retry_body.
  keeps_step; [keeps_tac|intros now]. keeps_step; [keeps_tac|intros errors]. keeps_step.
  - destruct (pl_id <$> errors); [keeps_tac|]. keeps_step; [keeps_tac|intros now'].
    keeps_step; [apply retry_commands|keeps_tac].
  - intros _. keeps_step; [keeps_tac|intros pending]. keeps_step; [|keeps_tac].
    destruct (pl_id <$> pending); keeps_tac.
Qed.

Lemma drain_commands : keeps (on_db commands_rel) _deactivate_placements_on_draining_backends.
Proof.
  apply keeps_commands; [apply drain_keeps|]. unfold _deactivate_placements_on_draining_backends. keeps_tac.
Qed.

Lemma rebalance_commands pfx : keeps (on_db commands_rel) (rebalance_tick pfx).
Proof.
  unfold rebalance_tick, node_policy. keeps_step; [keeps_tac|intros policy].
  apply keeps_committing; [apply _|]. unfold rebalance_body, _find_healthy_backend_node_ids, find_missing_placements.
  keeps_step; [apply drain_commands|intros drained]. keeps_step; [destruct drained; keeps_tac|intros _].
  keeps_step; [keeps_tac|intros healthy]. destruct (_ <? 2)%nat; [keeps_tac|].
  keeps_step; [keeps_tac|]. intros [|m missing]; [keeps_tac|].
  keeps_step; [keeps_tac|intros created]. keeps_step; [destruct created; keeps_tac|keeps_tac].
Qed.
#[export] Hint Resolve upsert_commands migrate_backend_commands error_retry_commands : keeps.

Lemma placement_ops_commands pfx ops s :
  placements_inv (db s) → commands_inv (db s) →
  placements_inv (db (run_placement_ops pfx ops s)) ∧ commands_inv (db (run_placement_ops pfx ops s)).
Proof.
  revert s. induction ops as [|op ops IH]; intros s HI HC; cbn [run_placement_ops foldl]; [done|].
  assert (H : commands_rel (db s) (db (run_placement_op pfx op s))).
  { destruct op; cbn [run_placement_op]; try (apply request_rel; [apply _|]; eauto with keeps).
    - exact (error_retry_commands pfx s).
    - exact (rebalance_commands pfx s). }
  destruct (H (conj HI HC)) as [[HI' HC'] _]. by apply IH.
Qed.

(** * Completeness *)

(** Ids the supply has not issued are free in the outbox. *)
Definition outbox_fresh (s : session) : Prop := ∀ i, next_uuid s ≤ i → outbox (db s) !! i = None.

Lemma enqueue_one_returns it s :
  outbox_fresh s →
  ∃ s1, enqueue_one it s = (Ok tt, s1) ∧ outbox_fresh s1 ∧ outbox (db s) ⊆ outbox (db s1) ∧
    known (db s1) (oei_message_id it).
Proof.
  intros Hf. destruct (enqueue_one_run it s) as [[Hk Hrun]|[_ Hrun]]; [by exists s|].
  rewrite (Hf (next_uuid s)) in Hrun by lia. eexists. split; [exact Hrun|].
  cbn [db with_db tick issue put t_set t_rows t_id outbox_tbl outbox_row]. split_and!.
  - intros i Hi. cbn in *. rewrite lookup_insert_ne by lia. apply Hf. lia.
  - cbn. apply insert_subseteq, Hf. lia.
  - eexists (next_uuid s), _. cbn. split; [apply lookup_insert_eq|done].
Qed.

Lemma enqueue_many_returns items s :
  outbox_fresh s →
  ∃ s', enqueue_many items s = (Ok tt, s') ∧ outbox (db s) ⊆ outbox (db s') ∧
    ∀ it, it ∈ items → known (db s') (oei_message_id it).
Proof.
  revert s. induction items as [|it items IH]; intros s Hf.
  { exists s. split_and!; [done..|]. by intros it ?%not_elem_of_nil. }
  destruct (enqueue_one_returns it s Hf) as (s1 & Hrun & Hf1 & Hsub1 & j & r & Hj & Hr).
  destruct (IH s1 Hf1) as (s2 & Hrun2 & Hsub2 & Hk2). exists s2. cbn [enqueue_many for_each].
  unfold mbind, M_bind. rewrite Hrun. split_and!; [exact Hrun2|by etrans|].
  intros it' [->|Hin]%elem_of_cons; [|by apply Hk2].
  exists j, r. split; [|done]. by eapply lookup_weaken.
Qed.

(** The rows an enqueue by ids reads. *)
Definition transport_rows (d : database) (ids : list Z) : list (UserPlacement * VpnKey) :=
  omap (with_key d) (filter (λ p, pl_id p ∈ ids) (rows (placements d))).

(** With sendable keys, an enqueue by ids is the enqueue of the items. *)
Lemma enqueue_run pfx ids s :
  (∀ i k, vpn_keys (db s) !! i = Some k → key_sendable k = true) →
  enqueue_for_placement_ids pfx ids s =
  enqueue_many (r ← transport_rows (db s) ids;
    items_of pfx r.1 r.2 (_load_entries_for_backends (db s) (backend_node_id r.1))) s.
Proof.
  intros Hsend. set (l := transport_rows (db s) ids).
  assert (Hrows : list_transport_rows_by_placement_ids ids s = (Ok l, s)).
  { unfold list_transport_rows_by_placement_ids. destruct ids; [|done].
    assert (l = []) as ->; [|done]. unfold l, transport_rows.
    rewrite filter_empty; [done|]. intros p _. apply not_elem_of_nil. }
  unfold enqueue_for_placement_ids, mbind at 1, M_bind at 1. rewrite Hrows.
  destruct l as [|r0 l0] eqn:El; [done|]. rewrite <-El. unfold mbind at 1, M_bind at 1, read, gets.
  pose proof (command_items_run pfx l (_load_entries_for_backends (db s)) s) as Hci.
  assert (forallb (λ r, key_sendable r.2) l = true) as Hall.
  { apply forallb_forall. intros [p k] Hin%list_elem_of_In. cbn.
    apply transport_row in Hin as (_ & _ & Hk & _). by eapply Hsend. }
  rewrite Hall in Hci. unfold mbind at 1, M_bind at 1. by rewrite Hci.
Qed.

Lemma enqueue_returns pfx ids s :
  outbox_fresh s → (∀ i k, vpn_keys (db s) !! i = Some k → key_sendable k = true) →
  ∃ s', enqueue_for_placement_ids pfx ids s = (Ok tt, s') ∧ outbox (db s) ⊆ outbox (db s') ∧
    ∀ p k o, (p, k) ∈ transport_rows (db s) ids →
      o ∈ None :: (Some <$> _load_entries_for_backends (db s) (backend_node_id p)) →
      known (db s') (PlacementCommandId (pl_id p) (op_version p) o).
Proof.
  intros Hf Hsend. rewrite enqueue_run by done.
  destruct (enqueue_many_returns (r ← transport_rows (db s) ids; items_of pfx r.1 r.2
    (_load_entries_for_backends (db s) (backend_node_id r.1))) s Hf) as (s' & Hrun & Hsub & Hk).
  exists s'. split_and!; [exact Hrun|done|]. intros p k o Hpk Ho.
  apply (Hk (command_item pfx (payload_of p k o) o)). apply list_elem_of_bind.
  exists (p, k). split; [|done]. cbn [fst snd]. unfold items_of. apply list_elem_of_fmap. by exists o.
Qed.

(** C4: commands are deduplicated by placement and version, and that never drops
    one a node still needs: after any sequence of placement operations, enqueueing
    the commands of a set of placements succeeds, keeps the rows already in the
    outbox, and leaves for every active placement of the set with an active key a
    row addressed to its backend, and one to each enabled entry of the backend,
    that carries its current version, backend and desired state. *)
Theorem commands_complete pfx ops s0 ids :
  placements_inv (db s0) → commands_inv (db s0) →
  let s := run_placement_ops pfx ops s0 in
  outbox_fresh s → (∀ i k, vpn_keys (db s) !! i = Some k → key_sendable k = true) →
  ∃ s', enqueue_for_placement_ids pfx ids s = (Ok tt, s') ∧ outbox (db s) ⊆ outbox (db s') ∧
    ∀ p k o, p ∈ rows (placements (db s)) → pl_id p ∈ ids → pl_is_active p = true →
      vpn_keys (db s) !! pl_key_id p = Some k → key_is_active k = true →
      o ∈ None :: (Some <$> _load_entries_for_backends (db s) (backend_node_id p)) →
      ∃ j r c, outbox (db s') !! j = Some r ∧ ob_node_id r = default (backend_node_id p) o ∧
        ob_payload r = PlacementCommand c ∧ pc_placement_id c = pl_id p ∧
        pc_op_version c = op_version p ∧ pc_backend_node_id c = backend_node_id p ∧
        pc_desired_state c = desired_state p.
Proof.
  intros HI0 HC0 s Hf Hsend. destruct (placement_ops_commands pfx ops s0 HI0 HC0) as [HI HC].
  fold s in HI, HC. destruct (enqueue_returns pfx ids s Hf Hsend) as (s' & Hrun & Hsub & Hk).
  exists s'. split_and!; [done..|]. intros p k o Hp Hid Ha Hkey Hka Ho.
  destruct (Hk p k o) as (j & r & Hj & Hm); [by apply transport_row|done|].
  pose proof (enqueue_keeps_commands pfx ids s (conj HI HC)) as [[HI' HC'] _].
  pose proof (enqueue_for_placement_ids_same pfx placements ids s) as Hsame. unfold on_db, same in Hsame.
  rewrite Hrun in HI', HC', Hsame. cbn [snd] in HI', HC', Hsame.
  specialize (HC' j r Hj). unfold outbox_row_ok in HC'. rewrite Hm in HC'.
  destruct HC' as (c & p' & Hpl & Hpid & Hv & Hn & Hnode & Hlook & _ & Hc).
  rewrite Hsame in Hlook. apply elem_of_rows in Hp as [i Hi].
  pose proof (proj1 HI i p Hi) as Hpi. cbn in Hpi. subst i. rewrite Hlook in Hi. injection Hi as ->.
  destruct (Hc ltac:(lia)) as (Hb & Hd & _).
  exists j, r, c. split_and!; [done| |done..]. rewrite Hnode, Hn, Hb. done.
Qed.
