(* ===== verification/PlacementWorld.v ===== *)
(** The world placement operations run in: what they rely on to return and keep, the
    commands an enqueue leaves, and the switch of a key's placements on or off. *)

From stdpp Require Import base gmap strings list sorting.
From S2P Require Import Prelude Decimal Errors RouteModels BillingModels FleetModels Session Uuid Tables FleetTables Routing Placements Keys PlacementProps PlacementMigrate PlacementCommands.
Local Open Scope Z_scope.


Section World.
(** [settings.nats.js_command_subject_prefix]. *)
Context (pfx : string).

(** What enqueueing relies on. *)
Record placement_world (s : session) : Prop := {
  hw_placements : placements_inv (db s);
  hw_commands : commands_inv (db s);
  hw_fresh : outbox_fresh s;
  hw_keys : ∀ i k, vpn_keys (db s) !! i = Some k → key_sendable k = true;
}.

Lemma enqueue_fresh ids s :
outbox_fresh s → (∀ i k, vpn_keys (db s) !! i = Some k → key_sendable k = true) →
outbox_fresh (enqueue_for_placement_ids pfx ids s).2.
Proof using Type.
intros Hf Hsend. rewrite enqueue_run by done. generalize (r ← transport_rows (db s) ids;
  items_of pfx r.1 r.2 (_load_entries_for_backends (db s) (backend_node_id r.1))) as items.
clear Hsend. intros items. revert s Hf. induction items as [|it items IH]; intros s Hf; [done|].
cbn [enqueue_many for_each]. unfold mbind, M_bind.
destruct (enqueue_one_returns it s Hf) as (s1 & -> & Hf1 & _). by apply IH.
Qed.

Lemma enqueue_found tids s1 :
placement_world s1 →
∃ s2, match tids with [] => mret tt | y :: l => enqueue_for_placement_ids pfx (y :: l) end s1 = (Ok tt, s2) ∧
  placement_world s2 ∧ placements (db s2) = placements (db s1) ∧ vpn_keys (db s2) = vpn_keys (db s1) ∧
  outbox (db s1) ⊆ outbox (db s2) ∧
  ∀ j p k, placements (db s1) !! j = Some p → j ∈ tids → pl_is_active p = true →
    vpn_keys (db s1) !! pl_key_id p = Some k → key_is_active k = true →
    known (db s2) (PlacementCommandId j (op_version p) None).
Proof using Type.
intros [HI HC Hf Hk]. destruct tids as [|i tids].
{ exists s1. split_and!; [done..|]. by intros j p k _ ?%not_elem_of_nil. }
destruct (enqueue_returns pfx (i :: tids) s1 Hf Hk) as (s2 & Hrun & Hsub & Hkn). exists s2. split; [done|].
pose proof (enqueue_fresh (i :: tids) s1 Hf Hk) as Hf2.
pose proof (enqueue_keeps_commands pfx (i :: tids) s1 (conj HI HC)) as [[HI2 HC2] _].
pose proof (enqueue_for_placement_ids_same pfx placements (i :: tids) s1) as Hp2. unfold on_db, same in Hp2.
pose proof (enqueue_for_placement_ids_same pfx vpn_keys (i :: tids) s1) as Hv2. unfold on_db, same in Hv2.
rewrite Hrun in Hf2, HI2, HC2, Hp2, Hv2. cbn [snd] in *.
split_and!; [split; [done..|by rewrite Hv2]|done|done|done|].
intros j p k Hj Hin Ha Hkey Hka. pose proof (proj1 HI j p Hj) as Hid. cbn in Hid. subst j.
apply (Hkn p k None); [|left]. unfold transport_rows. apply transport_row.
split_and!; [done|apply elem_of_rows; eauto|done..].
Qed.

(** * Switching the placements of keys *)

(** Nodes whose placements a switch by key writes. *)
Definition backend_ids (d : database) : list Z :=
node_id <$> filter (λ n, node_role n = ROLE_BACKEND) (rows (nodes d)).

(** Every active placement of the key on a backend is to be [ds], and its node has been
    sent that command. *)
Definition switched (ds : PlacementDesiredState) (d : database) (kid : Z) : Prop :=
∀ i p, placements d !! i = Some p → pl_key_id p = kid → pl_is_active p = true →
  backend_node_id p ∈ backend_ids d →
  desired_state p = ds ∧
  ∀ k, vpn_keys d !! kid = Some k → key_is_active k = true →
    known d (PlacementCommandId i (op_version p) None).

(** What a switch of other keys leaves of a key. *)
Definition persists (kid : Z) (d d' : database) : Prop :=
nodes d' = nodes d ∧ outbox d ⊆ outbox d' ∧
(∀ i p, pl_key_id p = kid → placements d' !! i = Some p → placements d !! i = Some p) ∧
(∀ k', vpn_keys d' !! kid = Some k' →
   ∃ k, vpn_keys d !! kid = Some k ∧ key_is_active k' = key_is_active k).

#[export] Instance persists_preorder kid : PreOrder (persists kid).
Proof using Type.
split.
- intros d. split_and!; [done|done|done|eauto].
- intros d1 d2 d3 (N1 & O1 & P1 & K1) (N2 & O2 & P2 & K2). split_and!; [congruence|by etrans|eauto|].
  intros k' (k & Hk & E)%K2. destruct (K1 k Hk) as (k0 & Hk0 & E0). exists k0. split; [done|congruence].
Qed.

Lemma switched_persists ds kid d d' : persists kid d d' → switched ds d kid → switched ds d' kid.
Proof using Type.
intros (HN & HO & HP & HK) Hs i p Hp Hkid Ha Hb.
destruct (Hs i p (HP i p Hkid Hp) Hkid Ha) as [Hd Hc]; [unfold backend_ids in *; by rewrite <-HN|].
split; [done|]. intros k' Hk' Ha'. destruct (HK k' Hk') as (k & Hk & E). rewrite E in Ha'.
destruct (Hc k Hk Ha') as (j & r & Hj & Hm). exists j, r. split; [|done]. by eapply lookup_weaken.
Qed.

(** The tables a switch does not write. *)
Definition away (d : database) : database := set_placements ∅ (set_outbox ∅ d).

Lemma away_field {A} (f : database → A) d d' :
(∀ d, f (away d) = f d) → away d' = away d → f d' = f d.
Proof using Type. intros Hf E. by rewrite <-(Hf d'), E, Hf. Qed.

Record switches (kids : list Z) (ds : PlacementDesiredState) (s s' : session) : Prop := {
  sw_world : placement_world s';
  sw_away : away (db s') = away (db s);
  sw_outbox : outbox (db s) ⊆ outbox (db s');
  sw_on : ∀ kid, kid ∈ kids → switched ds (db s') kid;
  sw_others : ∀ kid, kid ∉ kids → persists kid (db s) (db s');
  sw_slots : ∀ i p', placements (db s') !! i = Some p' → ∃ p, placements (db s) !! i = Some p ∧
    pl_key_id p' = pl_key_id p ∧ backend_node_id p' = backend_node_id p ∧ pl_is_active p' = pl_is_active p;
}.

Lemma bump_slot ds reason now p :
placement_check p = None →
same_slot p (bump ds reason now p) = true ∧ placement_check (bump ds reason now p) = None.
Proof using Type.
intros Hc. split; [by apply same_slot_eq|]. rewrite placement_check_None in *. cbn. lia.
Qed.

(** A bulk switch of the placements that do not have the state yet. *)
Lemma bump_world P ds reason now s :
placement_world s →
let s1 := with_db (puts placements_tbl (bump ds reason now) (targets placements_tbl P (db s))) s in
update_where placements_tbl P (bump ds reason now) s = (Ok (pl_id <$> targets placements_tbl P (db s)), s1) ∧
placement_world s1 ∧ away (db s1) = away (db s) ∧ outbox (db s1) = outbox (db s) ∧
∀ i, placements (db s1) !! i = (λ p, if P p then bump ds reason now p else p) <$> placements (db s) !! i.
Proof using Type.
intros [HI HC Hf Hk] s1.
assert (Hrun : update_where placements_tbl P (bump ds reason now) s =
  (Ok (pl_id <$> targets placements_tbl P (db s)), s1)).
{ apply placement_update_run; [done|done|]. intros p _. apply bump_slot. }
pose proof (bump_keeps P ds reason now s HI) as [HI1 _]. rewrite Hrun in HI1.
assert (Ho : outbox (db s1) = outbox (db s)) by (cbn; by rewrite (puts_frame _ _ outbox)).
pose proof (keeps_commands (update_where placements_tbl P (bump ds reason now)) (bump_keeps P ds reason now)
  ltac:(auto with keeps typeclass_instances) s (conj HI HC)) as [[_ HC1] _]. rewrite Hrun in HC1.
split_and!; [done|split; [done|done| |]| |done|].
- intros i Hi. rewrite Ho. by apply Hf.
- intros i k. cbn. rewrite (puts_frame _ _ vpn_keys). apply Hk.
- apply (puts_frame _ _ away).
- intros i. apply (lookup_update_where placements_tbl (bump ds reason now)); [done|apply HI].
Qed.

(** ** One key *)

Definition key_target (d : database) (kid : Z) (ds : PlacementDesiredState) (p : UserPlacement) : bool :=
(pl_key_id p =? kid) && pl_is_active p && bool_decide (backend_node_id p ∈ backend_ids d) && needs_state ds p && true.

Lemma key_switch kid ds reason now s :
placement_world s →
∃ s2, (set_desired_state_for_key kid ds reason now None ;; enqueue_for_key_state pfx kid ds None) s = (Ok tt, s2) ∧
  switches [kid] ds s s2.
Proof using Type.
intros Hw. set (P := key_target (db s) kid ds).
destruct (bump_world P ds reason now s Hw) as (Hrun & Hw1 & Haw1 & Ho1 & Hp1). set (s1 := with_db _ s) in *.
set (ids := pl_id <$> filter (λ p, (pl_key_id p =? kid) && pl_is_active p &&
  bool_decide (desired_state p = ds) && true = true) (rows (placements (db s1)))).
destruct (enqueue_found ids s1 Hw1) as (s2 & Hen & Hw2 & Hp2 & Hv2 & Hsub & Hkn). exists s2.
assert (Hset : set_desired_state_for_key kid ds reason now None s = (Ok (Z.of_nat (length (pl_id <$> targets placements_tbl P (db s)))), s1)).
{ unfold set_desired_state_for_key, mbind at 1, M_bind at 1, read, gets.
  unfold mbind, M_bind. fold (backend_ids (db s)). change (λ p, (pl_key_id p =? kid) && pl_is_active p &&
    bool_decide (backend_node_id p ∈ backend_ids (db s)) && needs_state ds p && true) with P. by rewrite Hrun. }
assert (Haw2 : away (db s2) = away (db s1)).
{ pose proof (enqueue_for_placement_ids_same pfx away ids s1) as E. unfold on_db, same in E.
  destruct ids as [|i l]; [by injection Hen as <-|]. by rewrite Hen in E. }
split.
{ unfold mbind at 1, M_bind at 1. rewrite Hset. unfold enqueue_for_key_state, mbind, M_bind.
  change (list_active_ids_for_key kid ds None s1) with (Ok (E:=exn) ids, s1). cbn.
  destruct ids as [|i l] eqn:El; [|exact Hen]. injection Hen as <-. done. }
assert (Hnodes : nodes (db s2) = nodes (db s)) by (apply (away_field nodes); [done|congruence]).
assert (Hkeys : vpn_keys (db s2) = vpn_keys (db s)) by (apply (away_field vpn_keys); [done|congruence]).
assert (Hrow : ∀ i p', placements (db s2) !! i = Some p' → ∃ p, placements (db s) !! i = Some p ∧
  p' = if P p then bump ds reason now p else p).
{ intros i p'. rewrite Hp2, Hp1. intros (p & -> & Hp)%fmap_Some. by exists p. }
split; [done|congruence|by rewrite <-Ho1| | |].
- intros kid' ->%list_elem_of_singleton i p' Hp' Hkid Ha Hb.
  assert (Hd : desired_state p' = ds).
  { destruct (Hrow i p' Hp') as (p & Hp & E). destruct (P p) eqn:HP; [by subst|]. subst p'.
    unfold P, key_target in HP. unfold backend_ids in *. rewrite Hnodes in Hb.
    rewrite Hkid, Z.eqb_refl, Ha, bool_decide_true in HP by done. cbn in HP.
    rewrite andb_true_r in HP. apply orb_false_elim in HP as [HP _].
    apply negb_false_iff, bool_decide_eq_true in HP. done. }
  split; [done|]. intros k Hk Hka. rewrite Hp2 in Hp'. apply (Hkn i p' k).
  + done.
  + unfold ids. pose proof (proj1 (hw_placements _ Hw1) i p') as Hid. cbn in Hid.
    rewrite <-(Hid Hp'). apply list_elem_of_fmap_2, list_elem_of_filter.
    split; [|apply elem_of_rows; by exists i].
    by rewrite Hkid, Z.eqb_refl, Ha, bool_decide_true.
  + done.
  + rewrite <-Hv2. by rewrite Hkid.
  + done.
- intros kid' Hne%not_elem_of_cons. destruct Hne as [Hne _]. split_and!; [done|by rewrite <-Ho1| |].
  + intros i p' Hkid (p & Hp & E)%Hrow. destruct (P p) eqn:HP; [|by subst].
    unfold P, key_target in HP. rewrite !andb_true_iff, Z.eqb_eq in HP. exfalso. apply Hne.
    subst p'. cbn in Hkid. destruct HP as [[[[HP _] _] _] _]. congruence.
  + intros k'. rewrite Hkeys. eauto.
- intros i p' (p & Hp & ->)%Hrow. exists p. split; [done|]. by destruct (P p).
Qed.
End World.

(** The access of a key: revoking or restoring it and switching its placements, key after key.
    Shared by the revocation of devices, the end of subscriptions and the traffic limits. *)


Definition access_world (s : session) : Prop := placement_world s ∧ keyed keys_tbl (db s).

Lemma access_world_tick s : access_world s → access_world (tick s).
Proof. by intros [[HI HC Hf Hs] Hk]. Qed.

Lemma access_world_same s s' :
  placements (db s') = placements (db s) → outbox (db s') = outbox (db s) → vpn_keys (db s') = vpn_keys (db s) →
  next_uuid s ≤ next_uuid s' → access_world s → access_world s'.
Proof.
  intros Hp Ho Hv Hn [[HI HC Hf Hs] Hk]. destruct HI as (H1 & H2 & H3). split; [split|].
  - split_and!; [intros i p; cbn; rewrite Hp; apply H1|rewrite Hp; apply H2|rewrite Hp; apply H3].
  - intros j r. rewrite Ho. intros Hr. specialize (HC j r Hr). unfold outbox_row_ok in *. by rewrite Hp.
  - intros i Hi. rewrite Ho. apply Hf. lia.
  - rewrite Hv. apply Hs.
  - intros i k. cbn. rewrite Hv. apply Hk.
Qed.

(** The tables the access of a key is not in. *)
Definition rest (d : database) : database := set_vpn_keys ∅ (away d).

Lemma rest_field {A} (f : database → A) d d' :
  (∀ d, f (rest d) = f d) → rest d' = rest d → f d' = f d.
Proof. intros Hf E. by rewrite <-(Hf d'), E, Hf. Qed.

(** ** Writing a key *)

(** The columns of a key the commands and constraints look at. *)
Definition same_client (k k' : VpnKey) : Prop :=
  key_id k' = key_id k ∧ client_id k' = client_id k ∧ key_is_active k' = key_is_active k ∧
  key_protocol k' = key_protocol k ∧ key_transport k' = key_transport k ∧
  key_subscription_id k' = key_subscription_id k.

(** The term of a key and what it has used. *)
Definition same_terms (k k' : VpnKey) : Prop :=
  valid_until k' = valid_until k ∧ key_used_traffic_bytes k' = key_used_traffic_bytes k.

Lemma key_check_same d k k' : same_client k k' → t_check keys_tbl d (Some k) k' = None.
Proof.
  intros (_ & Hc & _). cbn [t_check keys_tbl]. unfold unique_on, unique. by rewrite Hc, String.eqb_refl.
Qed.

Lemma put_key_world k k' s :
  access_world s → vpn_keys (db s) !! key_id k = Some k → same_client k k' →
  access_world (with_db (put keys_tbl k') s).
Proof.
  intros [[HI HC Hf Hs] Hk] Hrow (_ & _ & _ & Hp & Ht & _). split; [split; [exact HI|exact HC|exact Hf|]|].
  - intros i k2. cbn. rewrite lookup_insert. case_decide; [|apply Hs]. intros [= <-].
    pose proof (Hs _ _ Hrow) as Hsend. unfold key_sendable in *. by rewrite Hp, Ht.
  - by apply (keyed_put keys_tbl).
Qed.

Lemma update_key_run kid g k s :
  access_world s → vpn_keys (db s) !! kid = Some k → (∀ k, same_client k (g k)) →
  let k' := g (touch_key (clock s (ticks s)) k) in
  update_by_id keys_tbl kid g s = (Ok (Some k'), with_db (put keys_tbl k') (tick s)) ∧
  access_world (with_db (put keys_tbl k') (tick s)).
Proof.
  intros Hw Hrow Hg k'. pose proof (proj2 Hw _ _ Hrow) as Hid. cbn in Hid.
  assert (Hsame : same_client k k') by (apply (Hg (touch_key _ k))).
  split; [|apply (put_key_world k); [by apply access_world_tick|by cbn; rewrite Hid|done]].
  rewrite update_run. cbn [t_rows keys_tbl t_touch]. rewrite Hrow. cbv zeta. fold k'.
  rewrite key_check_same by done. do 2 f_equal. cbn. rewrite (proj1 Hsame), Hid. apply lookup_insert_eq.
Qed.

(** ** One key *)

(** The key is revoked or not, its placements are switched, nothing of other keys changes. *)
Record recut (flag : bool) (ds : PlacementDesiredState) (kid : Z) (s s' : session) : Prop := {
  rc_world : access_world s';
  rc_rest : rest (db s') = rest (db s);
  rc_outbox : outbox (db s) ⊆ outbox (db s');
  rc_on : switched ds (db s') kid;
  rc_key : ∀ k, vpn_keys (db s) !! kid = Some k →
    ∃ k', vpn_keys (db s') !! kid = Some k' ∧ is_revoked k' = flag ∧ same_client k k' ∧ same_terms k k';
  rc_others : ∀ kid', kid' ≠ kid → persists kid' (db s) (db s') ∧ vpn_keys (db s') !! kid' = vpn_keys (db s) !! kid';
}.

(** The key row has been written, its placements not yet. *)
Definition key_written (flag : bool) (k : VpnKey) (s s1 : session) : Prop :=
  access_world s1 ∧ rest (db s1) = rest (db s) ∧ outbox (db s1) = outbox (db s) ∧
  placements (db s1) = placements (db s) ∧
  ∃ k', vpn_keys (db s1) = <[key_id k := k']> (vpn_keys (db s)) ∧ is_revoked k' = flag ∧ same_client k k' ∧
    same_terms k k'.

Lemma key_written_tick flag k s s1 : key_written flag k s s1 → key_written flag k s (tick s1).
Proof. intros (Hw & H). split; [by apply access_world_tick|done]. Qed.

(** A key written by id. *)
Lemma update_key_written flag kid g k s :
  access_world s → vpn_keys (db s) !! kid = Some k → (∀ k, same_client k (g k)) →
  (∀ k, is_revoked (g k) = flag ∧ same_terms k (g k)) →
  ∃ o s1, update_by_id keys_tbl kid g s = (Ok o, s1) ∧ key_written flag k s s1.
Proof.
  intros Hw Hrow Hg Hf. destruct (update_key_run kid g k s Hw Hrow Hg) as [Hrun Hw1].
  eexists _, _. split; [exact Hrun|]. set (k' := g _) in *. split_and!; [done..|]. exists k'.
  assert (key_id k' = key_id k) as Hid by apply (proj1 (Hg (touch_key _ k))).
  split_and!; [by cbn; rewrite Hid|apply Hf|apply (Hg (touch_key _ k))|apply (Hf (touch_key _ k))].
Qed.

(** [key.is_revoked = flag] on a loaded row. *)
Lemma assign_written flag k s :
  access_world s → vpn_keys (db s) !! key_id k = Some k →
  ∃ s1, assign_revoked flag k s = (Ok tt, s1) ∧ key_written flag k s s1.
Proof.
  intros Hw Hrow. unfold assign_revoked. destruct (Bool.eqb (is_revoked k) flag) eqn:E.
  - apply eqb_prop in E. exists s. split; [done|]. split_and!; try done. exists k. split_and!; try done.
    symmetry. by apply insert_id.
  - destruct (update_key_written flag (key_id k) (set_revoked flag) k s Hw Hrow) as (o & s1 & Hup & Hwr); [done..|].
    exists s1. split; [|done]. unfold mbind, M_bind. by rewrite Hup.
Qed.

(** The switch after the key has been written. *)
Lemma recut_switch pfx flag ds reason now k s s1 :
  vpn_keys (db s) !! key_id k = Some k → key_written flag k s s1 →
  ∃ s2, (set_desired_state_for_key (key_id k) ds reason now None ;; enqueue_for_key_state pfx (key_id k) ds None) s1 = (Ok tt, s2) ∧
    recut flag ds (key_id k) s s2.
Proof.
  intros Hrow ([Hw Hkeyed] & Hrest & Ho & Hpl & k' & Hkeys & Hflag & Hsame & Hv).
  destruct (key_switch pfx (key_id k) ds reason now s1 Hw) as (s2 & Hrun & [Hw2 Haw Hout Hon Hoth _]).
  exists s2. split; [done|].
  assert (Hk2 : vpn_keys (db s2) = vpn_keys (db s1)) by (apply (away_field vpn_keys); [done|exact Haw]).
  split.
  - split; [done|]. intros i r. cbn. rewrite Hk2. apply Hkeyed.
  - rewrite <-Hrest. unfold rest. by rewrite Haw.
  - by rewrite <-Ho.
  - apply Hon. left.
  - intros k0. rewrite Hrow. intros [= <-]. exists k'. rewrite Hk2, Hkeys. split; [apply lookup_insert_eq|done].
  - intros kid' Hne. split; [|by rewrite Hk2, Hkeys, lookup_insert_ne].
    destruct (Hoth kid') as (HN & HO & HP & HK); [by rewrite list_elem_of_singleton|].
    split_and!.
    + rewrite HN. apply (rest_field nodes); [done|exact Hrest].
    + by rewrite <-Ho.
    + intros i p Hp Hi. rewrite <-Hpl. by apply HP.
    + intros k2. rewrite Hk2, Hkeys, lookup_insert_ne by done. eauto.
Qed.

(** [key.is_revoked = flag] on a loaded row, then [_set_placement_desired_state]. *)
Lemma recut_assign pfx flag ds reason k s :
  access_world s → vpn_keys (db s) !! key_id k = Some k →
  ∃ s1 s2, assign_revoked flag k s = (Ok tt, s1) ∧
    _set_placement_desired_state pfx (key_id k) ds reason s1 = (Ok tt, s2) ∧ recut flag ds (key_id k) s s2.
Proof.
  intros Hw Hk. destruct (assign_written flag k s Hw Hk) as (s1 & Ha & Hwr).
  destruct (recut_switch pfx flag ds (Some reason) (clock s1 (ticks s1)) k s (tick s1) Hk (key_written_tick _ _ _ _ Hwr))
    as (s2 & Hsw & Hrc).
  by exists s1, s2.
Qed.

(** ** Key after key *)

Inductive recuts (flag : bool) (ds : PlacementDesiredState) : list Z → session → session → Prop :=
| recuts_nil s : recuts flag ds [] s s
| recuts_cons kid l s s1 s2 : recut flag ds kid s s1 → recuts flag ds l s1 s2 → recuts flag ds (kid :: l) s s2.

(** What a sequence of switches amounts to. *)
Record access_switched (flag : bool) (ds : PlacementDesiredState) (kids : list Z) (s s' : session) : Prop := {
  as_world : access_world s';
  as_rest : rest (db s') = rest (db s);
  as_outbox : outbox (db s) ⊆ outbox (db s');
  as_on : ∀ kid, kid ∈ kids → switched ds (db s') kid;
  as_keys : ∀ kid k, vpn_keys (db s) !! kid = Some k →
    ∃ k', vpn_keys (db s') !! kid = Some k' ∧ same_client k k' ∧ same_terms k k' ∧
      (kid ∈ kids → is_revoked k' = flag);
  as_others : ∀ kid, kid ∉ kids → persists kid (db s) (db s') ∧ vpn_keys (db s') !! kid = vpn_keys (db s) !! kid;
}.

Lemma same_client_trans k1 k2 k3 : same_client k1 k2 → same_client k2 k3 → same_client k1 k3.
Proof. unfold same_client. intuition congruence. Qed.

Lemma same_terms_trans k1 k2 k3 : same_terms k1 k2 → same_terms k2 k3 → same_terms k1 k3.
Proof. unfold same_terms. intuition congruence. Qed.

Lemma recuts_switched flag ds l s s' :
  access_world s → recuts flag ds l s s' → access_switched flag ds l s s'.
Proof.
  intros Hw H. induction H as [s|kid l s s1 s2 H1 H2 IH].
  { split; [done|done|done|by intros kid ?%not_elem_of_nil| |done].
    intros kid k Hk. exists k. split_and!; try done. by intros ?%not_elem_of_nil. }
  destruct H1 as [Hw1 Hr1 Ho1 Hon1 Hk1 Hoth1]. destruct (IH Hw1) as [Hw2 Hr2 Ho2 Hon2 Hk2 Hoth2]. split.
  - done.
  - congruence.
  - by etrans.
  - intros kid' [->|Hin]%elem_of_cons; [|by apply Hon2]. destruct (decide (kid ∈ l)) as [Hin|Hin]; [by apply Hon2|].
    eapply switched_persists; [by apply Hoth2|done].
  - intros kid' k Hk. destruct (decide (kid' = kid)) as [->|Hne].
    + destruct (Hk1 k Hk) as (k1 & Hrow1 & Hf1 & Hs1 & Hv1). destruct (Hk2 kid k1 Hrow1) as (k2 & Hrow2 & Hs2 & Hv2 & Hf2).
      exists k2. split_and!; [done|by eapply same_client_trans|by eapply same_terms_trans|]. intros _.
      destruct (decide (kid ∈ l)) as [Hin|Hin]; [by apply Hf2|].
      rewrite (proj2 (Hoth2 kid Hin)) in Hrow2. congruence.
    + rewrite <-(proj2 (Hoth1 kid' Hne)) in Hk. destruct (Hk2 kid' k Hk) as (k2 & Hrow2 & Hs2 & Hv2 & Hf2).
      exists k2. split_and!; try done. intros [?|Hin]%elem_of_cons; [done|by apply Hf2].
  - intros kid' [Hne Hin]%not_elem_of_cons. destruct (Hoth1 kid' Hne) as [P1 E1], (Hoth2 kid' Hin) as [P2 E2].
    split; [by etrans|congruence].
Qed.

(** ** Many keys at once *)

(** [UPDATE vpn_key ... WHERE]. *)
Lemma update_keys_run (P : VpnKey → bool) f s :
  access_world s → (∀ k, same_client k (f k)) →
  ∃ s1, update_where keys_tbl P f s = (Ok (key_id <$> targets keys_tbl P (db s)), s1) ∧ access_world s1 ∧
    rest (db s1) = rest (db s) ∧ placements (db s1) = placements (db s) ∧ outbox (db s1) = outbox (db s) ∧
    clock s1 = clock s ∧ ticks s1 = ticks s ∧
    ∀ i, vpn_keys (db s1) !! i = (λ k, if P k then f k else k) <$> vpn_keys (db s) !! i.
Proof.
  intros [Hw Hk] Hf.
  destruct (update_where_ok keys_tbl P f s Hk) as (s1 & Hrun & Hk1 & Hs1 & Hrows).
  { intros k. apply Hf. } { intros d k. by apply key_check_same. }
  assert (Hpl : placements (db s1) = placements (db s)) by (subst s1; cbn; by rewrite (puts_frame _ _ placements)).
  assert (Hout : outbox (db s1) = outbox (db s)) by (subst s1; cbn; by rewrite (puts_frame _ _ outbox)).
  exists s1. split_and!; try done; try (by subst s1).
  - destruct Hw as [HI HC Hfr Hs]. split; [split|done].
    + destruct HI as (H1 & H2 & H3). split_and!; [intros i p; cbn; rewrite Hpl; apply H1|rewrite Hpl; apply H2|rewrite Hpl; apply H3].
    + intros j r. rewrite Hout. intros Hr. specialize (HC j r Hr). unfold outbox_row_ok in *. by rewrite Hpl.
    + intros i Hi. rewrite Hout. apply Hfr. by subst s1.
    + intros i k. cbn in Hrows. rewrite Hrows. intros (k0 & Hk0 & ->)%fmap_Some. pose proof (Hs i k0 Hk0) as Hsend.
      destruct (P k0); [|done]. destruct (Hf k0) as (_ & _ & _ & E1 & E2 & _). unfold key_sendable in *. by rewrite E1, E2.
  - subst s1. cbn. apply (puts_frame _ _ rest).
Qed.

(** Placements of the keys that are to be switched. *)
Definition to_switch (kids : list Z) (ds : PlacementDesiredState) (p : UserPlacement) : bool :=
  bool_decide (pl_key_id p ∈ kids) && pl_is_active p && needs_state ds p.

(** Every active placement of the keys gets the state, the ones that change are told. *)
Lemma switch_placements_run pfx kids ds reason now s :
  access_world s →
  ∃ ids s2, switch_placements pfx kids ds reason now s = (Ok ids, s2) ∧ access_world s2 ∧
    away (db s2) = away (db s) ∧ outbox (db s) ⊆ outbox (db s2) ∧
    (∀ i p, placements (db s) !! i = Some p → pl_key_id p ∉ kids → placements (db s2) !! i = Some p) ∧
    ∀ i p', placements (db s2) !! i = Some p' →
      ∃ p, placements (db s) !! i = Some p ∧ pl_key_id p' = pl_key_id p ∧ pl_is_active p' = pl_is_active p ∧
        (pl_key_id p ∉ kids → p' = p) ∧
        (pl_key_id p ∈ kids → pl_is_active p = true → desired_state p' = ds ∧
           ∀ k, vpn_keys (db s) !! pl_key_id p = Some k → key_is_active k = true →
             desired_state p = ds ∨ known (db s2) (PlacementCommandId i (op_version p') None)).
Proof.
  intros [Hw Hk]. destruct (bump_world (to_switch kids ds) ds (Some reason) now s Hw) as (Hrun & Hw1 & Haw & Ho & Hrows).
  set (ids := pl_id <$> targets placements_tbl (to_switch kids ds) (db s)) in *. set (s1 := with_db _ s) in *.
  destruct (enqueue_found pfx ids s1 Hw1) as (s2 & Hen & Hw2 & Hp2 & Hv2 & Hsub & Hkn).
  assert (Hbulk : bulk_set_desired_state_for_keys kids ds (Some reason) now s = (Ok ids, s1)).
  { unfold bulk_set_desired_state_for_keys. destruct kids as [|i l]; [|exact Hrun].
    assert (targets placements_tbl (to_switch [] ds) (db s) = []) as Hnil.
    { apply filter_empty. intros p _. unfold to_switch. by rewrite bool_decide_false by apply not_elem_of_nil. }
    unfold ids, s1. rewrite Hnil. by destruct s. }
  assert (Haw2 : away (db s2) = away (db s)).
  { pose proof (enqueue_for_placement_ids_same pfx away ids s1) as E. unfold on_db, same in E.
    destruct ids as [|i l]; [by injection Hen as <-|]. rewrite Hen in E. exact (eq_trans E Haw). }
  assert (Hen' : (match ids with [] => mret tt | _ => enqueue_for_placement_ids pfx ids end) s1 = (Ok tt, s2)).
  { destruct ids; exact Hen. }
  exists ids, s2. split_and!.
  - unfold switch_placements, mbind at 1, M_bind at 1. rewrite Hbulk. unfold mbind, M_bind. by rewrite Hen'.
  - split; [done|]. intros i k. cbn. rewrite (away_field vpn_keys (db s) (db s2)) by done. apply Hk.
  - done.
  - by rewrite <-Ho.
  - intros i p Hp Hn. rewrite Hp2, Hrows, Hp. cbn. unfold to_switch. by rewrite bool_decide_false.
  - intros i p'. rewrite Hp2, Hrows. intros (p & Hp & E)%fmap_Some. exists p. split; [done|].
    assert (Hid : pl_id p = i) by (apply (proj1 (hw_placements _ Hw) i p Hp)).
    destruct (to_switch kids ds p) eqn:HP; subst p'; split_and!; try done.
    + intros Hn. unfold to_switch in HP. by rewrite bool_decide_false in HP.
    + intros Hin Ha. split; [done|]. intros k Hkey Hka. right.
      apply (Hkn i (bump ds (Some reason) now p) k); [by rewrite Hrows, Hp; cbn; rewrite HP| |done| |done].
      * unfold ids. rewrite <-Hid. apply list_elem_of_fmap_2, list_elem_of_filter. split; [done|]. apply elem_of_rows. by exists i.
      * rewrite <-Hv2, (away_field vpn_keys (db s) (db s2)); done.
    + intros Hin Ha. unfold to_switch, needs_state in HP. rewrite bool_decide_true, Ha in HP by done. cbn in HP.
      apply orb_false_elim in HP as [HP%negb_false_iff%bool_decide_eq_true _]. auto.
Qed.

(** * Migrating a backend *)

Ltac bulk_migrate_frame :=
  unfold bulk_migrate_backend; match goal with |- context [match ?l with [] => _ | _ => _ end] => destruct l end;
  [keeps_tac|]; keeps_step; [keeps_tac|]; intros [|? ?]; [keeps_tac|]; keeps_step; [keeps_tac|]; intros ?;
  keeps_step; [destruct (pl_id <$> _); keeps_tac|]; intros ?;
  keeps_step; [destruct (pl_id <$> _); keeps_tac|keeps_tac].

(** The key is placed on the target, and the target has been sent the command. *)
Definition rescued (d : database) (kid t : Z) : Prop :=
∃ j p, placements d !! j = Some p ∧ pl_key_id p = kid ∧ backend_node_id p = t ∧
  pl_is_active p = true ∧ desired_state p = desired_active ∧ applied_state p = applied_pending ∧
  ∀ k, vpn_keys d !! kid = Some k → key_is_active k = true →
    known d (PlacementCommandId j (op_version p) None).

Lemma bulk_migrate_keys now ids target reason :
keeps (on_db (same vpn_keys)) (bulk_migrate_backend ids target reason now).
Proof. bulk_migrate_frame. Qed.

Lemma bulk_migrate_outbox now ids target reason :
keeps (on_db (same outbox)) (bulk_migrate_backend ids target reason now).
Proof. bulk_migrate_frame. Qed.
(** The key is placed on the target, which has been sent a command that says so. *)
Definition commanded (d : database) (kid t : Z) : Prop :=
∃ j p, placements d !! j = Some p ∧ pl_key_id p = kid ∧ backend_node_id p = t ∧
  pl_is_active p = true ∧ desired_state p = desired_active ∧ applied_state p = applied_pending ∧
  ∀ k, vpn_keys d !! kid = Some k → key_is_active k = true →
    ∃ o r c, outbox d !! o = Some r ∧ ob_node_id r = t ∧ ob_payload r = PlacementCommand c ∧
      pc_placement_id c = j ∧ pc_op_version c = op_version p ∧ pc_desired_state c = desired_active.

Lemma rescued_commanded d kid t : commands_inv d → rescued d kid t → commanded d kid t.
Proof.
intros HC (j & p & Hj & Hk & Hb & Ha & Hds & Hpend & Hc). exists j, p. split_and!; [done..|].
intros k Hkk Hka. destruct (Hc k Hkk Hka) as (o & r & Hor & Hm). specialize (HC o r Hor).
unfold outbox_row_ok in HC. rewrite Hm in HC.
destruct HC as (c & p' & Hpl & Hpid & Hv & Hn & Hnode & Hlook & _ & Heq). rewrite Hj in Hlook. injection Hlook as <-.
destruct (Heq Hv) as (Hbb & Hdd & _). exists o, r, c. cbn in Hn. split_and!; [done|congruence|done..|congruence].
Qed.

Lemma select_nodes_uuid region excl : keeps uuid_le (select_nodes region excl).
Proof.
  unfold select_nodes, _load_policy, node_policy, list_available_nodes, recent_traffic_bytes_per_backend. keeps_tac.
Qed.


(** The nodes a selection returns are not the excluded ones. *)
Lemma select_nodes_result region excl s l s1 :
  select_nodes region excl s = (Ok l, s1) → db s1 = db s ∧ Forall (λ n, node_id n ∉ excl) l.
Proof.
  intros Hrun. destruct (head (order_by_desc np_id (rows (node_policies (db s))))) as [p|] eqn:Hp.
  - destruct (select_nodes_exact region excl s p Hp) as (l' & s' & traffic & Hrun' & Hdb & Hl & _).
    rewrite Hrun in Hrun'. injection Hrun' as <- <-. split; [done|]. apply Forall_forall.
    intros n (i & a & _ & _ & Hav & _)%Hl. unfold available in Hav.
    by apply andb_true_iff in Hav as [_ Hav%negb_true_iff%bool_decide_eq_false].
  - exfalso. revert Hrun. unfold select_nodes, _load_policy, node_policy, mbind, M_bind, select_where, read, gets.
    cbn [t_rows policies_tbl]. rewrite filter_unchanged by done. by destruct (order_by_desc _ _).
Qed.

Lemma migration_target_result payload source s t s1 :
  keyed nodes_tbl (db s) → node_id source = pmi_source_backend_id payload →
  pmi_target_backend_id payload ≠ Some (pmi_source_backend_id payload) →
  migration_target payload source s = (Ok t, s1) →
  db s1 = db s ∧ next_uuid s ≤ next_uuid s1 ∧ node_id t ≠ pmi_source_backend_id payload.
Proof.
  intros Hk Hid Hne. unfold migration_target. destruct (pmi_target_backend_id payload) as [tid|].
  - unfold mbind, M_bind, get_by_id, read, gets. cbn [t_rows nodes_tbl].
    destruct (nodes (db s) !! tid) as [n|] eqn:Hn; [|done]. intros [= <- <-].
    pose proof (Hk tid n Hn) as E. cbn in E. split_and!; [done|lia|congruence].
  - unfold mbind, M_bind. destruct (select_nodes _ _ s) as [[l|e] s2] eqn:Hsel; [|done].
    pose proof (select_nodes_uuid (Some (node_region source)) [node_id source] s) as Hu.
    rewrite Hsel in Hu. unfold uuid_le in Hu. cbn in Hu.
    apply select_nodes_result in Hsel as [Hdb Hall]. destruct l as [|n l]; [done|]. intros [= <- <-].
    apply Forall_cons in Hall as [Hn _]. rewrite Hid, list_elem_of_singleton in Hn. done.
Qed.

(** [list_active] of a backend reads and returns. *)
Lemma list_active_run bid s :
  list_active (Some bid) None s =
  (Ok (order_by_desc pl_updated_at (filter (λ p, pl_is_active p && on_backend (Some bid) p = true)
     (rows (placements (db s))))), s).
Proof. reflexivity. Qed.

(** The placements wanted on a backend. *)
Definition wanted_rows (d : database) (bid : Z) : list UserPlacement :=
  filter (λ p, desired_state p = desired_active)
    (order_by_desc pl_updated_at (filter (λ p, pl_is_active p && on_backend (Some bid) p = true)
      (rows (placements d)))).

(** Moving the wanted placements of a backend and sending their commands. *)
Lemma migrate_wanted_run pfx source t reason now s :
  placement_world s → source ≠ t →
  ∃ s2, match wanted_rows (db s) source with
        | [] => mret tt
        | _ =>
            r ← bulk_migrate_backend (pl_id <$> wanted_rows (db s) source) t reason now;
            match r.2 with [] => mret tt | y :: l => enqueue_for_placement_ids pfx (y :: l) end
        end s = (Ok tt, s2) ∧
    placement_world s2 ∧
    (∀ i p, placements (db s2) !! i = Some p → backend_node_id p = source → pl_is_active p = true →
       desired_state p ≠ desired_active) ∧
    (∀ i p, placements (db s) !! i = Some p → backend_node_id p = source → pl_is_active p = true →
       desired_state p = desired_active → commanded (db s2) (pl_key_id p) t) ∧
    (∀ i p, placements (db s) !! i = Some p → backend_node_id p ≠ source → backend_node_id p ≠ t →
       placements (db s2) !! i = Some p).
Proof.
  intros Hw Hne. pose proof Hw as [HI HC Hf Hk]. set (W := wanted_rows (db s) source).
  destruct (wanted_migrated source t reason now s _ HI Hne (list_active_run source s))
    as (n & tids & s1 & Hrun & (d' & Hs1) & Hgone & Hthere & Hrest).
  fold (wanted_rows (db s) source) in Hrun. fold W in Hrun.
  pose proof (bulk_migrate_commands (pl_id <$> W) t reason now s (conj HI HC)) as [[HI1 HC1] _].
  pose proof (bulk_migrate_keys now (pl_id <$> W) t reason s) as Hk1. unfold on_db, same in Hk1.
  pose proof (bulk_migrate_outbox now (pl_id <$> W) t reason s) as Ho1. unfold on_db, same in Ho1.
  rewrite Hrun in HI1, HC1, Hk1, Ho1. cbn [snd] in *.
  assert (Hw1 : placement_world s1).
  { split; [done|done| |by rewrite Hk1]. intros i Hi. rewrite Ho1. apply Hf. by rewrite Hs1 in Hi. }
  destruct (enqueue_found pfx tids s1 Hw1) as (s2 & Hrun2 & Hw2 & Hp2 & Hv2 & Hsub & Hkn).
  assert (Hgoal : ∀ s0 : session, placement_world s0 → placements (db s0) = placements (db s1) →
    (∀ i p, placements (db s) !! i = Some p → backend_node_id p = source → pl_is_active p = true →
       desired_state p = desired_active → commanded (db s0) (pl_key_id p) t) →
    placement_world s0 ∧
    (∀ i p, placements (db s0) !! i = Some p → backend_node_id p = source → pl_is_active p = true →
       desired_state p ≠ desired_active) ∧
    (∀ i p, placements (db s) !! i = Some p → backend_node_id p = source → pl_is_active p = true →
       desired_state p = desired_active → commanded (db s0) (pl_key_id p) t) ∧
    (∀ i p, placements (db s) !! i = Some p → backend_node_id p ≠ source → backend_node_id p ≠ t →
       placements (db s0) !! i = Some p)).
  { intros s0 Hw0 -> Hc. split_and!; [done|exact Hgone|done|exact Hrest]. }
  destruct W as [|w W'] eqn:EW.
  - exists s. split; [done|]. cbn in Hrun. injection Hrun as _ _ <-. apply Hgoal; [done|done|].
    intros i p Hp Hb Ha Hd. exfalso. apply (not_elem_of_nil p). rewrite <-EW. unfold W, wanted_rows.
    rewrite list_elem_of_filter, elem_of_order_by_desc, list_elem_of_filter, elem_of_rows. cbn [on_backend].
    rewrite andb_true_iff, Z.eqb_eq. eauto.
  - exists s2. unfold mbind, M_bind. rewrite Hrun. cbn [snd]. split; [exact Hrun2|].
    apply Hgoal; [done|done|]. intros i p Hp Hb Ha Hd. apply rescued_commanded; [apply Hw2|].
    destruct (Hthere i p Hp Hb Ha Hd) as (j & p' & Hj & Hkey & Hbt & Hat & Hdt & Hpend & Hin).
    exists j, p'. rewrite Hp2. split_and!; [done..|]. intros k Hkk Hka. apply (Hkn j p' k); [done..| |done].
    by rewrite Hkey, <-Hv2.
Qed.

(** C5: migrating a backend to an eligible target, named in the request or selected, returns
    and loses no client: afterwards no active placement wanted on the source is left there,
    every key that had one has an active, wanted placement on the target, waiting for its
    node, and for an active key the outbox holds the command to the target that carries the
    placement's version and desired state; the placements on other backends are untouched,
    and the count returned is the number of placements moved. *)
Theorem migration_complete pfx payload s source target s1 :
  placement_world s → keyed nodes_tbl (db s) →
  nodes (db s) !! pmi_source_backend_id payload = Some source →
  pmi_target_backend_id payload ≠ Some (pmi_source_backend_id payload) →
  migration_target payload source s = (Ok target, s1) →
  node_is_active target = true → is_enabled target = true → is_draining target = false →
  let src := pmi_source_backend_id payload in
  ∃ s', migrate_backend pfx payload s =
      (Ok {| pmo_source_backend_id := src; pmo_target_backend_id := node_id target;
             migrated_count := Z.of_nat (length (wanted_rows (db s) src)) |}, s') ∧
    (∀ i p, placements (db s') !! i = Some p → backend_node_id p = src → pl_is_active p = true →
       desired_state p ≠ desired_active) ∧
    (∀ i p, placements (db s) !! i = Some p → backend_node_id p = src → pl_is_active p = true →
       desired_state p = desired_active → commanded (db s') (pl_key_id p) (node_id target)) ∧
    (∀ i p, placements (db s) !! i = Some p → backend_node_id p ≠ src →
       backend_node_id p ≠ node_id target → placements (db s') !! i = Some p).
Proof.
  intros [HI HC Hf Hk] Hkn Hsrc Hne Htgt Ha He Hdr src.
  destruct (migration_target_result payload source s target s1) as (Hdb & Hu & Hdiff);
    [done|exact (Hkn _ _ Hsrc)|done..|].
  assert (Hw1 : placement_world (tick s1)).
  { split; cbn [db tick]; rewrite ?Hdb; [done..| |done]. intros i Hi. cbn in *. rewrite Hdb. apply Hf. lia. }
  destruct (migrate_wanted_run pfx src (node_id target) (Some (pmi_last_migration_reason payload))
    (clock s1 (ticks s1)) (tick s1) Hw1 (not_eq_sym Hdiff)) as (s2 & Hrun & _ & Hgone & Hthere & Hrest).
  cbn [db tick] in Hrun, Hgone, Hthere, Hrest. rewrite Hdb in Hrun, Hthere, Hrest.
  exists s2. split_and!; [|done..].
  unfold migrate_backend. rewrite bool_decide_false by done.
  unfold mbind at 1, M_bind at 1, raise_if. cbn [mret M_ret].
  unfold mbind at 1, M_bind at 1, get_by_id, read, gets. cbn [t_rows nodes_tbl]. rewrite Hsrc.
  unfold mbind at 1, M_bind at 1. rewrite Htgt, Ha, He, Hdr. cbn [negb orb].
  unfold mbind at 1, M_bind at 1. cbn [mret M_ret].
  unfold mbind at 1, M_bind at 1. rewrite list_active_run, Hdb.
  unfold mbind at 1, M_bind at 1. cbn [utcnow]. unfold src, wanted_rows, tick in *.
  unfold mbind at 1, M_bind at 1. rewrite Hrun. reflexivity.
Qed.
