(* ===== verification/DeviceProps.v ===== *)
(** Properties of subscriptions and their devices. *)

From stdpp Require Import base gmap strings list sorting.
From S2P Require Import Prelude Decimal Errors RouteModels BillingModels FleetModels Session Uuid NodeDisplay Tables BillingRepo Billing BillingInv BillingProps BillingDelivery FleetTables Routing Placements Keys Routes Devices PlacementProps PlacementCommands PlacementWorld.
Local Open Scope Z_scope.


(** * What the operations leave alone *)

(** [f] looks at none of the tables of the access of keys. *)
Class AccessFrame {B} (f : database → B) : Prop := {
  af_keys :: FrameOn f keys_tbl;
  af_placements :: FrameOn f placements_tbl;
  af_outbox :: FrameOn f outbox_tbl;
}.
#[export] Hint Extern 1 (AccessFrame _) => (constructor; intros ? ?; reflexivity) : typeclass_instances.

Section Frames.
Context {B : Type} (f : database → B) `{!AccessFrame f} (cfg : SubscriptionConfig).

Lemma set_placement_same pfx kid ds reason : keeps (on_db (same f)) (_set_placement_desired_state pfx kid ds reason).
Proof using Type*.
unfold _set_placement_desired_state, set_desired_state_for_key, enqueue_for_key_state, list_active_ids_for_key.
pose proof (enqueue_for_placement_ids_same pfx f). keeps_tac.
Qed.

Lemma place_on_targets_same kid targets m : keeps (on_db (same f)) (place_on_targets kid targets m).
Proof using Type*.
revert m. induction targets as [|n targets IH]; intros m; cbn [place_on_targets]; [keeps_tac|].
unfold upsert_set_pending, upsert_row, get_by_key_and_backend. keeps_tac.
Qed.

Lemma provision_key_same kid region reason : keeps (on_db (same f)) (provision_key cfg kid region reason).
Proof using Type*.
pose proof place_on_targets_same. pose proof (enqueue_for_placement_ids_same (sc_command_prefix cfg) f).
pose proof (set_placement_same (sc_command_prefix cfg)).
unfold provision_key, _ensure_backend_placements_for_key, list_by_key_id,
  select_nodes, _load_policy, node_policy, list_available_nodes, recent_traffic_bytes_per_backend. keeps_tac.
Qed.

Lemma activate_keys_same b keys ids : keeps (on_db (same f)) (activate_keys cfg b keys ids).
Proof using Type*.
pose proof provision_key_same. induction ids as [|i ids IH]; cbn [activate_keys]; [keeps_tac|].
unfold renew_key. keeps_tac.
Qed.
End Frames.

(** * The activation billing relies on *)

#[export] Instance subs_reactivated_preorder : PreOrder subs_reactivated.
Proof.
  split.
  - intros d j b Hb. exists b. auto.
  - intros d1 d2 d3 H12 H23 j b Hb. destruct (H12 j b Hb) as (b2 & Hb2 & R2).
    destruct (H23 j b2 Hb2) as (b3 & Hb3 & R3). exists b3. split; [done|].
    destruct R2 as [->|[t2 ->]], R3 as [->|[t3 ->]]; auto; right; [by exists t3|by exists t2|].
    exists t3. done.
Qed.

Notation keeps_subs m := (keeps (on_db (guarded (keyed subs_tbl) subs_reactivated)) m).

Lemma keeps_subs_same {A} (m : SM A) : keeps (on_db (same subscriptions)) m → keeps_subs m.
Proof.
  intros H s Hk. specialize (H s). unfold on_db, same in H. split.
  - intros i b. cbn. rewrite H. apply Hk.
  - intros j b Hb. exists b. rewrite H. auto.
Qed.

(** Setting a subscription active. *)
Lemma keeps_subs_activate sid now :
  keeps_subs (update_by_id subs_tbl sid (apply_sub_update (sub_patch (Some true) None None (Some now)))).
Proof.
  apply keeps_update; [apply _|]. intros d t r Hr _ Hk. split; [by apply keyed_put; [apply _|]|].
  intros j b Hb. cbn. rewrite lookup_insert. case_decide as Hj; [|exists b; auto].
  pose proof (Hk _ _ Hr) as Hid. cbn in Hid. subst j. cbn in Hb. rewrite Hid in Hb. cbn in Hr. rewrite Hr in Hb. injection Hb as <-.
  eexists. split; [done|]. right. by exists now.
Qed.

(** The modelled [SubscriptionService.activate] keeps the contract the billing theorems
    are proved against. *)
#[export] Instance devices_activation cfg : SubscriptionActivation (activate cfg).
Proof.
  constructor; intros sid; unfold activate, get_sub, list_key_ids_for_subscription, list_keys_by_ids,
    _invalidate_payload_cache_by_token_hash.
  - pose proof (activate_keys_same billing_tables cfg). keeps_tac.
  - assert (∀ b keys ids, keeps_subs (activate_keys cfg b keys ids)).
    { intros. apply keeps_subs_same, activate_keys_same, _. }
    pose proof keeps_subs_activate. keeps_tac.
Qed.

(** ** The activation returns *)

(** What placing a key relies on: the world of placements, and ids of placements that are not
    in use yet. *)
Definition provision_world (s : session) : Prop :=
  access_world s ∧ ∀ i, next_uuid s ≤ i → placements (db s) !! i = None.

Lemma provision_world_same s s' :
  placements (db s') = placements (db s) → outbox (db s') = outbox (db s) → vpn_keys (db s') = vpn_keys (db s) →
  next_uuid s ≤ next_uuid s' → provision_world s → provision_world s'.
Proof.
  intros Hp Ho Hv Hn [Hw Hf]. split; [by eapply access_world_same|]. intros i Hi. rewrite Hp. apply Hf. lia.
Qed.

(** After an operation that leaves the placements, the outbox and the keys alone. *)
Lemma provision_world_keeps {A} (m : SM A) s :
  keeps (on_db (same (λ d, (placements d, outbox d, vpn_keys d)))) m → keeps uuid_le m →
  provision_world s → provision_world (m s).2.
Proof.
  intros Hf Hu Hw. specialize (Hf s). specialize (Hu s). unfold on_db, same in Hf. injection Hf as H1 H2 H3.
  by eapply provision_world_same.
Qed.

(** An enqueue uses identifiers. *)
Lemma enqueue_uuid pfx ids : keeps uuid_le (enqueue_for_placement_ids pfx ids).
Proof.
  assert (∀ p k o, keeps uuid_le (_build_command_payload p k o)) as Hb by (intros; unfold _build_command_payload; keeps_tac).
  assert (∀ p k l, keeps uuid_le (entry_items pfx p k l)) as He.
  { intros p k l. induction l; cbn [entry_items]; [keeps_tac|]. keeps_step; [apply Hb|]. keeps_tac. }
  assert (∀ l e, keeps uuid_le (command_items pfx l e)) as Hc.
  { intros l e. induction l as [|[p k] l IH]; cbn [command_items]; [keeps_tac|].
    keeps_step; [apply Hb|intros c]. keeps_step; [apply He|intros es]. keeps_tac. }
  unfold enqueue_for_placement_ids, list_transport_rows_by_placement_ids, enqueue_many, enqueue_one.
  keeps_step; [destruct ids; keeps_tac|]. intros [|r rows]; [keeps_tac|].
  keeps_step; [keeps_tac|intros e]. keeps_step; [apply Hc|intros l]. keeps_tac.
Qed.

Lemma upsert_row_world kid bid ds sticky reason s :
  provision_world s →
  ∃ i s1 p, upsert_row kid bid ds sticky reason s = (Ok i, s1) ∧ provision_world s1 ∧
    placements (db s1) !! pl_id p = Some p ∧ pl_key_id p = kid ∧ backend_node_id p = bid ∧ pl_is_active p = true.
Proof.
  intros [[[HI HC Hf Hs] Hk] Hfree].
  pose proof (keeps_commands _ (upsert_row_keeps kid bid ds sticky reason) (upsert_row_outbox kid bid ds sticky reason) s (conj HI HC)) as [[HI1 HC1] _].
  pose proof (upsert_row_outbox kid bid ds sticky reason s) as Ho. unfold on_db, same in Ho.
  assert (keeps (on_db (same vpn_keys)) (upsert_row kid bid ds sticky reason)) as Hv by (unfold upsert_row; keeps_tac).
  specialize (Hv s). unfold on_db, same in Hv.
  assert (∃ i s1 p, upsert_row kid bid ds sticky reason s = (Ok i, s1) ∧ placements (db s1) !! pl_id p = Some p ∧
    pl_key_id p = kid ∧ backend_node_id p = bid ∧ pl_is_active p = true ∧ next_uuid s ≤ next_uuid s1 ∧
    ∀ i, next_uuid s1 ≤ i → placements (db s1) !! i = None) as (i & s1 & p & Hrun & Hp & H1 & H2 & H3 & Hn & Hfr).
  { unfold upsert_row, mbind at 1, M_bind at 1, select_where, read, gets. cbn [t_rows placements_tbl].
    destruct (filter _ _) as [|p l] eqn:El.
    - unfold mbind, M_bind. rewrite create_run. cbv zeta. set (p := {| pl_id := next_uuid s |}).
      cbn [t_rows t_id placements_tbl pl_id p]. rewrite Hfree by lia.
      assert (t_check placements_tbl (db s) None p = None) as ->.
      { apply placements_check_ok. split; [done|right]. intros j q Hq _. apply not_true_iff_false. intros [E1 E2]%same_slot_eq.
        apply (not_elem_of_nil q). rewrite <-El. apply list_elem_of_filter. split; [|apply elem_of_rows; eauto].
        by rewrite E1, E2, !Z.eqb_refl. }
      eexists _, _, p. split; [reflexivity|]. cbn. split_and!; [apply lookup_insert_eq|done..|lia|].
      intros j Hj. rewrite lookup_insert_ne by lia. apply Hfree. lia.
    - assert (Hin : p ∈ p :: l) by left. rewrite <-El in Hin. apply list_elem_of_filter in Hin as [Hm [j Hj]%elem_of_rows].
      apply andb_prop in Hm as [E1%Z.eqb_eq E2%Z.eqb_eq]. pose proof (proj1 HI j p Hj) as Hid. cbn in Hid. subst j.
      unfold mbind at 1, M_bind at 1, utcnow. fold (tick s). unfold mbind, M_bind. rewrite store_run. cbn [db tick].
      set (p' := revive ds sticky reason (clock s (ticks s)) p).
      assert (t_check placements_tbl (db s) (Some p) p' = None) as ->.
      { apply placements_check_ok. split.
        - pose proof (proj1 (proj2 HI) _ _ Hj) as Hc. rewrite placement_check_None in *. cbn. lia.
        - left. exists p. split; [done|]. by apply same_slot_eq. }
      eexists _, _, p'. split; [reflexivity|]. cbn. split_and!; [apply lookup_insert_eq|done..|lia|].
      intros j' Hj'. rewrite lookup_insert_ne; [by apply Hfree|]. intros E. rewrite E, Hfree in Hj by done. done. }
  rewrite Hrun in HI1, HC1, Ho, Hv. cbn [snd] in *. exists i, s1, p. split; [done|]. split; [|done].
  split; [|done]. split; [split; [done|done| |by rewrite Hv]|].
  - intros j Hj. rewrite Ho. apply Hf. lia.
  - intros j k. cbn. rewrite Hv. apply Hk.
Qed.

Lemma upsert_pending_world kid bid ds sticky reason s :
  provision_world s → ∃ p s1, upsert_set_pending kid bid ds sticky reason s = (Ok p, s1) ∧ provision_world s1.
Proof.
  intros Hw. destruct (upsert_row_world kid bid ds sticky reason s Hw) as (i & s1 & p & Hrun & Hw1 & Hp & Hkey & Hb & Ha).
  unfold upsert_set_pending, mbind at 1, M_bind at 1. rewrite Hrun. unfold get_by_key_and_backend.
  pose proof (hw_placements _ (proj1 (proj1 Hw1))) as HI.
  destruct (select_unique_run placements_tbl (λ p, (pl_key_id p =? kid) && (backend_node_id p =? bid) && (negb true || pl_is_active p)) s1)
    as (o & Ho & Hsome).
  { apply HI. }
  { intros j j' x y Hx Hy Ex Ey. rewrite !andb_true_iff, !Z.eqb_eq in Ex, Ey. apply (proj2 (proj2 HI) j j' x y Hx Hy).
    apply same_slot_eq. destruct Ex as [[? ?] _], Ey as [[? ?] _]. split; congruence. }
  unfold mbind at 1, M_bind at 1. rewrite Ho. destruct o as [q|]; [by exists q, s1|].
  specialize (Hsome (pl_id p) p Hp). cbn in Hsome. by rewrite Hkey, Hb, Ha, !Z.eqb_refl in Hsome.
Qed.

Lemma place_on_targets_world kid targets : ∀ m s,
  provision_world s → ∃ r s1, place_on_targets kid targets m s = (Ok r, s1) ∧ provision_world s1.
Proof.
  induction targets as [|n targets IH]; intros m s Hw; cbn [place_on_targets]; [by eexists _, s|].
  destruct (on_node (node_id n) m) as [q|]; [by apply IH|].
  destruct (upsert_pending_world kid (node_id n) desired_active None (Some "subscription_replica") s Hw) as (p & s1 & Hrun & Hw1).
  destruct (IH (by_backend_set p m) s1 Hw1) as (r & s2 & Hrun2 & Hw2).
  unfold mbind, M_bind. rewrite Hrun, Hrun2. by eexists _, s2.
Qed.

Lemma enqueue_world pfx ids s :
  provision_world s →
  ∃ s1, match ids with [] => mret tt | _ => enqueue_for_placement_ids pfx ids end s = (Ok tt, s1) ∧ provision_world s1.
Proof.
  intros [[Hw Hk] Hfree]. destruct (enqueue_found pfx ids s Hw) as (s1 & Hrun & Hw1 & Hp & Hv & _). exists s1.
  split; [by destruct ids|].
  assert (uuid_le s s1) as Hu.
  { destruct ids as [|i ids]; [by injection Hrun as <-|]. pose proof (enqueue_uuid pfx (i :: ids) s) as H. by rewrite Hrun in H. }
  unfold uuid_le in Hu. split; [split; [done|]|].
  - intros i k. cbn. rewrite Hv. apply Hk.
  - intros i Hi. rewrite Hp. apply Hfree. lia.
Qed.

Lemma set_state_uuid pfx kid ds reason : keeps uuid_le (_set_placement_desired_state pfx kid ds reason).
Proof.
  unfold _set_placement_desired_state, set_desired_state_for_key, enqueue_for_key_state, list_active_ids_for_key.
  pose proof (enqueue_uuid pfx). keeps_tac.
Qed.

Lemma set_state_world pfx kid ds reason s :
  provision_world s → ∃ s1, _set_placement_desired_state pfx kid ds reason s = (Ok tt, s1) ∧ provision_world s1.
Proof.
  intros Hw. pose proof (set_state_uuid pfx kid ds reason s) as Hu. revert Hu.
  assert (provision_world (tick s)) as [[Hw1 Hk1] Hf1] by (by apply (provision_world_same s)).
  unfold _set_placement_desired_state, mbind at 1, M_bind at 1, utcnow. fold (tick s).
  destruct (key_switch pfx kid ds (Some reason) (clock s (ticks s)) (tick s) Hw1) as (s1 & Hrun & [Hsw Haw _ _ _ Hslots]).
  rewrite Hrun. unfold uuid_le. cbn [snd]. intros Hu. exists s1. split; [done|]. split; [split; [done|]|].
  - intros i k. cbn. rewrite (away_field vpn_keys (db (tick s)) (db s1)) by done. apply Hk1.
  - intros i Hi. destruct (placements (db s1) !! i) as [p'|] eqn:E; [|done]. destruct (Hslots i p' E) as (p & Hp & _).
    rewrite Hf1 in Hp; [done|]. cbn. lia.
Qed.

(** The errors provisioning recovers from. *)
Definition build_error (e : exn) : Prop :=
  match e with SubscriptionBuild _ | SubscriptionBuildUnavailable _ => True | _ => False end.

Lemma select_nodes_world region excl s : provision_world s → provision_world (select_nodes region excl s).2.
Proof.
  apply provision_world_keeps; [|apply select_nodes_uuid].
  unfold select_nodes, _load_policy, node_policy, list_available_nodes, recent_traffic_bytes_per_backend. keeps_tac.
Qed.

Lemma wp_step {A} (m : SM A) Q (R : exn → session → Prop) s a s1 : m s = (Ok a, s1) → Q a s1 → wp m Q R s.
Proof. unfold wp. by intros ->. Qed.

Lemma ensure_backend_world cfg kid region n s :
  provision_world s →
  wp (_ensure_backend_placements_for_key cfg kid region n) (λ _ s', provision_world s') (λ e s', build_error e ∧ provision_world s') s.
Proof.
  intros Hw. unfold _ensure_backend_placements_for_key, list_by_key_id. apply wp_bind, wp_bind, wp_select, wp_ret, wp_bind, wp_catch.
  pose proof (select_nodes_world region [] s Hw) as Hw1. unfold wp at 1.
  destruct (select_nodes region [] s) as [[l|e] s1]; cbn [snd] in Hw1.
  all: try (apply wp_ret). all: apply wp_bind, wp_raise_if; [done|intros _]; apply wp_bind.
  all: lazymatch goal with |- wp (place_on_targets ?k ?t ?m) _ _ ?x =>
    destruct (place_on_targets_world k t m x Hw1) as ([m' ids] & s2 & Hrun & Hw2) end.
  all: unfold wp at 1; rewrite Hrun; apply wp_bind.
  all: destruct (enqueue_world (sc_command_prefix cfg) ids s2 Hw2) as (s3 & Hrun3 & Hw3).
  all: apply (wp_step _ _ _ _ tt s3); [destruct ids; exact Hrun3|]; cbn [fst].
  all: lazymatch goal with |- wp (match ?x with _ => _ end) _ _ _ => destruct x end; [by apply wp_ret|by apply wp_raise].
Qed.

Lemma provision_key_world cfg kid region reason s :
  provision_world s → ∃ s1, provision_key cfg kid region reason s = (Ok tt, s1) ∧ provision_world s1.
Proof.
  intros Hw. cut (wp (provision_key cfg kid region reason) (λ _ s', provision_world s') (λ _ _, False) s).
  { unfold wp. destruct (provision_key _ _ _ _ s) as [[[]|e] s1]; [eauto|done]. }
  unfold provision_key. apply wp_catch, wp_bind. eapply wp_mono; [by apply ensure_backend_world| |].
  - intros r s1 Hw1. by apply wp_ret.
  - intros e s1 [He Hw1].
    assert (wp (_set_placement_desired_state (sc_command_prefix cfg) kid desired_active reason)
      (λ _ s', provision_world s') (λ _ _, False) s1) as H.
    { destruct (set_state_world (sc_command_prefix cfg) kid desired_active reason s1 Hw1) as (s2 & Hrun & Hw2). unfold wp. by rewrite Hrun. }
    by destruct e.
Qed.

Lemma renew_key_world b k s : provision_world s → ∃ r s1, renew_key b k s = (Ok r, s1) ∧ provision_world s1.
Proof.
  intros Hw. unfold renew_key. cbv zeta. destruct (is_revoked k || _); [|by eexists _, s].
  unfold mbind, M_bind. set (g := λ r, write_key _ false _ _ r).
  destruct (vpn_keys (db s) !! key_id k) as [k0|] eqn:Hk0.
  - destruct (update_key_run (key_id k) g k0 s (proj1 Hw) Hk0) as [Hrun Hw1]; [done|]. rewrite Hrun. cbn.
    eexists _, _. split; [reflexivity|]. split; [exact Hw1|]. intros i Hi. cbn in *. apply (proj2 Hw). lia.
  - rewrite update_run. cbn [t_rows keys_tbl]. rewrite Hk0. cbn. eexists _, _. split; [reflexivity|]. by apply (provision_world_same s).
Qed.

Lemma activate_keys_world cfg b keys ids : ∀ s,
  provision_world s → ∃ n s1, activate_keys cfg b keys ids s = (Ok n, s1) ∧ provision_world s1.
Proof.
  induction ids as [|i ids IH]; intros s Hw; cbn [activate_keys]; [by eexists _, s|].
  destruct (find _ keys) as [k|]; [|by apply IH].
  destruct (renew_key_world b k s Hw) as (r & s1 & H1 & Hw1).
  destruct (provision_key_world cfg i (preferred_region b) "subscription_activate" s1 Hw1) as (s2 & H2 & Hw2).
  destruct (IH s2 Hw2) as (n & s3 & H3 & Hw3). unfold mbind, M_bind. rewrite H1, H2, H3. by eexists _, s3.
Qed.

(** The modelled activation of a subscription returns, whatever its devices, keys and the
    nodes are. *)
Lemma activate_returns cfg s : provision_world s → activates_on (activate cfg) s.
Proof.
  intros Hw sid s' Hfl Hn Hks [b Hb].
  assert (provision_world s') as Hw'.
  { apply (provision_world_same s); [..|done|done].
    - change (placements (fleet (db s')) = placements (fleet (db s))). by rewrite Hfl.
    - change (outbox (fleet (db s')) = outbox (fleet (db s))). by rewrite Hfl.
    - change (vpn_keys (fleet (db s')) = vpn_keys (fleet (db s))). by rewrite Hfl. }
  unfold activate, get_sub. unfold mbind at 1, M_bind at 1, mbind at 1, M_bind at 1, get_by_id, read, gets. cbn [t_rows subs_tbl].
  rewrite Hb. cbn [mret M_ret]. unfold mbind at 1, M_bind at 1, utcnow. fold (tick s'). unfold mbind at 1, M_bind at 1.
  rewrite update_run. cbn [t_rows subs_tbl db tick]. pose proof (Hks sid b Hb) as Hid. cbn in Hid. rewrite Hid, Hb. cbv zeta.
  lazymatch goal with |- context [t_check subs_tbl ?d (Some b) ?x] => assert (t_check subs_tbl d (Some b) x = None) as -> by (by apply subs_check_same_tokens) end.
  unfold mbind at 1, M_bind at 1, _invalidate_payload_cache_by_token_hash, emit, modify. cbn [mret M_ret].
  unfold mbind at 1, M_bind at 1, list_key_ids_for_subscription, read, gets.
  match goal with |- context [list_keys_by_ids ?l] => generalize l as ids end. intros ids.
  match goal with |- context [mbind _ _ ?x] => assert (provision_world x) as Hx by (by apply (provision_world_same s')); revert Hx; generalize x end.
  intros x Hx. unfold mbind, M_bind. assert (∃ keys, list_keys_by_ids ids x = (Ok keys, x)) as [keys ->] by (unfold list_keys_by_ids; destruct ids; by eexists).
  destruct (activate_keys_world cfg b keys ids x Hx) as (n & s1 & Hrun & _). eauto.
Qed.

(** C2: A confirmed payment delivers what was bought.  Take a pending purchase or renewal
    order without a promo code, of a user whose balance is not negative, for an active plan
    with a positive price and between 1 and 100 devices in all, on a consistent database.
    Then fulfilling it, with the activation of [SubscriptionService], returns, and leaves the
    user an active subscription to that plan, linked from the order and running for at least
    the paid period from the moment of payment; the ledger shows the payment credited and the
    purchase debited, in that order and for the order's amount. *)
Theorem paid_order_delivers {Req} cfg (env : BillingEnv Req) o p meta fee method s u plan :
  billing_inv (db s) → keyed subs_tbl (db s) → fees_inv (db s) → subs_fresh env s → provision_world s →
  orders (db s) !! order_id o = Some o → order_status o = PENDING →
  is_plan_order (order_type o) = true → order_promo_code_id o = None →
  users (db s) !! order_user_id o = Some u → 0 ≤ balance u →
  order_plan_id o = Some (plan_id plan) → plans (db s) !! plan_id plan = Some plan →
  plan_is_active plan = true → 0 < price_rub plan →
  1 ≤ included_devices plan + device_slots_qty o ≤ 100 →
  wp (_fulfill_order_locked (activate cfg) env o p meta fee method)
    (λ _ s', delivered (db s') (order_user_id o) (plan_id plan) (order_id o)
               (clock s (ticks s) + PERIOD_DAYS (or_one (period_months o)) * day) ∧
       ∃ t1 t2 l, transactions (db s') = transactions (db s) ++ [t1; t2] ++ l ∧
         tx_type t1 = PAYMENT ∧ tx_amount t1 = order_amount_rub o ∧
         tx_type t2 = PURCHASE ∧ tx_amount t2 = - order_amount_rub o)
    (λ _ _, False) s.
Proof.
  intros Hinv Hks Hfees Hfr Hw%(activate_returns cfg). intros. by apply (fulfilled_order_delivers (activate cfg) env o p meta fee method s u plan).
Qed.

(** * The bundle of a device *)

(** The constraints of the bindings, and that their transports are not empty. *)
Definition bindings_ok (d : database) : Prop :=
  keyed device_keys_tbl d ∧
  (∀ i j a b, device_keys d !! i = Some a → device_keys d !! j = Some b →
     dk_device_id a = dk_device_id b →
     dk_transport a = dk_transport b ∨ dk_vpn_key_id a = dk_vpn_key_id b → i = j) ∧
  (∀ i a, device_keys d !! i = Some a → nonempty (dk_transport a) = true).

(** The key is bound to the device. *)
Definition bound (d : database) (did kid : Z) : Prop :=
  ∃ i r, device_keys d !! i = Some r ∧ dk_device_id r = did ∧ dk_is_active r = true ∧ dk_vpn_key_id r = kid.

Lemma find_key_spec keys kid k :
  find (λ k, key_id k =? kid) keys = Some k → k ∈ keys ∧ key_id k = kid.
Proof. intros [Hin%list_elem_of_In Hid%Z.eqb_eq]%find_some. done. Qed.

(** Every resolved key is the key of a binding. *)
Lemma resolve_bindings_sound keys seen l rk :
  rk ∈ resolve_bindings keys seen l →
  rdk_key rk ∈ keys ∧ key_id (rdk_key rk) = rdk_vpn_key_id rk ∧
  ∃ r, r ∈ l ∧ dk_vpn_key_id r = rdk_vpn_key_id rk ∧ rdk_transport rk = binding_transport r (rdk_key rk).
Proof.
  revert seen. induction l as [|r l IH]; intros seen; cbn; [by intros ?%not_elem_of_nil|].
  assert (Hrec : ∀ seen', rk ∈ resolve_bindings keys seen' l → rdk_key rk ∈ keys ∧
    key_id (rdk_key rk) = rdk_vpn_key_id rk ∧
    ∃ r0, r0 ∈ r :: l ∧ dk_vpn_key_id r0 = rdk_vpn_key_id rk ∧ rdk_transport rk = binding_transport r0 (rdk_key rk)).
  { intros seen' (H1 & H2 & r0 & H3 & H4)%IH. split_and!; try done. exists r0. split; [by right|done]. }
  destruct (find _ keys) as [k|] eqn:Hk; [|apply Hrec]. apply find_key_spec in Hk as [Hk1 Hk2].
  destruct (_ || _); [apply Hrec|]. intros [->|H]%elem_of_cons; [|by eapply Hrec]. cbn.
  split_and!; [done|done|]. exists r. split; [left|done].
Qed.

(** With the constraints, every binding whose key exists is resolved. *)
Lemma resolve_bindings_complete keys seen l r k :
  NoDup (dk_transport <$> l) → Forall (λ r, nonempty (dk_transport r) = true) l →
  (∀ t, t ∈ seen → t ∉ dk_transport <$> l) →
  r ∈ l → find (λ k, key_id k =? dk_vpn_key_id r) keys = Some k →
  ∃ rk, rk ∈ resolve_bindings keys seen l ∧ rdk_vpn_key_id rk = dk_vpn_key_id r ∧ rdk_transport rk = dk_transport r.
Proof.
  revert seen. induction l as [|r' l IH]; intros seen; cbn; [by intros _ _ _ ?%not_elem_of_nil|].
  intros [Hn Hnd]%NoDup_cons [Hne Hall]%Forall_cons Hseen Hin Hk.
  assert (Ht : ∀ k, binding_transport r' k = dk_transport r') by (intros k'; unfold binding_transport; by rewrite Hne).
  apply elem_of_cons in Hin as [->|Hin].
  - rewrite Hk, Ht, Hne. cbn. rewrite bool_decide_false; [|intros Hs; apply (Hseen _ Hs); left].
    eexists. split; [left|]. cbn. split; [by destruct (find_key_spec _ _ _ Hk)|done].
  - destruct (find (λ k, key_id k =? dk_vpn_key_id r') keys) as [k'|] eqn:Hk'.
    + rewrite Ht, Hne. cbn. rewrite bool_decide_false; [|intros Hs; apply (Hseen _ Hs); left].
      destruct (IH (dk_transport r' :: seen) Hnd Hall) as (rk & Hrk & E); [|done|done|].
      { intros t [->|Hs]%elem_of_cons; [done|]. intros Hl. apply (Hseen t Hs). by right. }
      exists rk. split; [by right|done].
    + apply IH; [done|done| |done|done]. intros t Hs Hl. apply (Hseen t Hs). by right.
Qed.

Lemma binding_order_perm l : binding_order l ≡ₚ l.
Proof. unfold binding_order, order_by_asc, order_by_desc. by rewrite !merge_sort_Permutation. Qed.

Lemma bundle_order_perm l : bundle_order l ≡ₚ l.
Proof. unfold bundle_order, order_by_asc, order_by_name. by rewrite !merge_sort_Permutation. Qed.

(** The rows of the device, and the keys they name. *)
Definition bindings_of (d : database) (did : Z) : list SubscriptionDeviceKey :=
  binding_order (filter (λ k, bool_decide (dk_device_id k ∈ [did]) && (negb true || dk_is_active k) = true) (rows (device_keys d))).

Definition keys_of_bindings (d : database) (l : list SubscriptionDeviceKey) : list VpnKey :=
  match remove_dups (dk_vpn_key_id <$> l) with
  | [] => []
  | ids => filter (λ k, bool_decide (key_id k ∈ ids) = true) (rows (vpn_keys d))
  end.

Definition bundle_keys (d : database) (did : Z) : list ResolvedDeviceKey :=
  bundle_order (resolve_bindings (keys_of_bindings d (bindings_of d did)) [] (bindings_of d did)).

Lemma load_bundle_run v s :
  _load_device_bundle v s = (Ok {| rdb_device := v; rdb_keys := bundle_keys (db s) (dev_id v) |}, s).
Proof.
  unfold _load_device_bundle, list_by_device_ids, mbind, M_bind, select_where, read, gets, mret, M_ret.
  cbn [t_rows device_keys_tbl]. fold (bindings_of (db s) (dev_id v)). unfold list_keys_by_ids, bundle_keys, keys_of_bindings.
  by destruct (remove_dups _).
Qed.

Lemma elem_of_bindings d did r :
  r ∈ bindings_of d did ↔ (∃ i, device_keys d !! i = Some r) ∧ dk_device_id r = did ∧ dk_is_active r = true.
Proof.
  unfold bindings_of. rewrite binding_order_perm, list_elem_of_filter, elem_of_rows, andb_true_iff, bool_decide_eq_true,
    list_elem_of_singleton. cbn. tauto.
Qed.

Lemma elem_of_keys_of d l k :
  k ∈ keys_of_bindings d l ↔ (∃ i, vpn_keys d !! i = Some k) ∧ key_id k ∈ dk_vpn_key_id <$> l.
Proof.
  unfold keys_of_bindings. rewrite <-(elem_of_remove_dups (dk_vpn_key_id <$> l)). destruct (remove_dups _) as [|i ids].
  - split; [by intros ?%not_elem_of_nil|by intros [_ ?%not_elem_of_nil]].
  - rewrite list_elem_of_filter, elem_of_rows, bool_decide_eq_true. tauto.
Qed.

Lemma bindings_NoDup {A} (f : SubscriptionDeviceKey → A) d did :
  bindings_ok d → (∀ a b, f a = f b → dk_transport a = dk_transport b ∨ dk_vpn_key_id a = dk_vpn_key_id b) →
  NoDup (f <$> bindings_of d did).
Proof.
  intros (Hk & Hu & _) Hf. unfold bindings_of. rewrite binding_order_perm.
  assert (Hnd : NoDup (filter (λ k, bool_decide (dk_device_id k ∈ [did]) && (negb true || dk_is_active k) = true) (rows (device_keys d)))).
  { apply NoDup_filter. eapply NoDup_fmap_1, (rows_ids_NoDup device_keys_tbl d Hk). }
  apply NoDup_fmap_2_strong; [|done].
  intros a b [Ha [i Hi]%elem_of_rows]%list_elem_of_filter [Hb [j Hj]%elem_of_rows]%list_elem_of_filter E.
  apply andb_prop in Ha as [Ha%bool_decide_eq_true _], Hb as [Hb%bool_decide_eq_true _].
  rewrite list_elem_of_singleton in Ha, Hb. assert (i = j) as -> by (apply (Hu i j a b); [done|done|congruence|by apply Hf]). congruence.
Qed.

(** The keys of the bundle are the bound keys that exist, with their current rows. *)
Lemma bundle_keys_row d did rk :
  keyed keys_tbl d → rk ∈ bundle_keys d did →
  vpn_keys d !! rdk_vpn_key_id rk = Some (rdk_key rk) ∧ key_id (rdk_key rk) = rdk_vpn_key_id rk ∧
  bound d did (rdk_vpn_key_id rk).
Proof.
  intros Hk. unfold bundle_keys. rewrite bundle_order_perm.
  intros (Hin & Hid & r & Hr & Hrk & _)%resolve_bindings_sound. apply elem_of_keys_of in Hin as [[i Hi] _].
  pose proof (Hk i _ Hi) as Hi'. cbn in Hi'. subst i. rewrite <-Hid. split_and!; [done|done|].
  apply elem_of_bindings in Hr as ([i Hi'] & Hd & Ha). exists i, r. split_and!; congruence.
Qed.

Lemma bundle_keys_bound d did kid k :
  keyed keys_tbl d → bindings_ok d → bound d did kid → vpn_keys d !! kid = Some k →
  kid ∈ rdk_vpn_key_id <$> bundle_keys d did.
Proof.
  intros Hkk Hb (i & r & Hi & Hd & Ha & Hr) Hk.
  assert (Hin : r ∈ bindings_of d did) by (apply elem_of_bindings; eauto).
  assert (Hfind : ∃ k', find (λ k, key_id k =? dk_vpn_key_id r) (keys_of_bindings d (bindings_of d did)) = Some k').
  { destruct (find _ _) as [k'|] eqn:E; [by exists k'|]. exfalso.
    assert (Hke : k ∈ keys_of_bindings d (bindings_of d did)).
    { apply elem_of_keys_of. split; [by exists kid|]. rewrite (Hkk kid k Hk : key_id k = kid), <-Hr. by apply list_elem_of_fmap_2. }
    apply list_elem_of_In in Hke. pose proof (find_none _ _ E k Hke) as E'.
    cbn in E'. rewrite (Hkk kid k Hk : key_id k = kid), Hr, Z.eqb_refl in E'. done. }
  destruct Hfind as [k' Hk']. apply list_elem_of_fmap.
  destruct (resolve_bindings_complete (keys_of_bindings d (bindings_of d did)) [] (bindings_of d did) r k')
    as (rk & Hrk & E & _).
  - apply bindings_NoDup; [done|by left].
  - apply Forall_forall. intros r' [[j Hj] _]%elem_of_bindings. by eapply Hb.
  - by intros t ?%not_elem_of_nil.
  - done.
  - done.
  - exists rk. split; [congruence|]. unfold bundle_keys. by rewrite bundle_order_perm.
Qed.

Lemma resolve_bindings_sublist keys seen l :
  (rdk_vpn_key_id <$> resolve_bindings keys seen l) `sublist_of` (dk_vpn_key_id <$> l).
Proof.
  revert seen. induction l as [|r l IH]; intros seen; cbn; [done|].
  destruct (find _ keys) as [k|] eqn:Hk; [|by apply sublist_cons]. destruct (_ || _); [by apply sublist_cons|].
  cbn. rewrite (proj2 (find_key_spec _ _ _ Hk)). by apply sublist_skip.
Qed.

Lemma bundle_keys_NoDup d did : bindings_ok d → NoDup (rdk_vpn_key_id <$> bundle_keys d did).
Proof.
  intros Hb. unfold bundle_keys. rewrite bundle_order_perm.
  eapply sublist_NoDup; [|apply resolve_bindings_sublist]. apply bindings_NoDup; [done|by right].
Qed.

(** * Cutting the keys of a device *)

(** The loaded rows are current. *)
Definition loaded (d : database) (l : list ResolvedDeviceKey) : Prop :=
  ∀ rk, rk ∈ l → vpn_keys d !! rdk_vpn_key_id rk = Some (rdk_key rk) ∧ key_id (rdk_key rk) = rdk_vpn_key_id rk.

Lemma loaded_bundle d did : keyed keys_tbl d → loaded d (bundle_keys d did).
Proof. intros Hk rk Hrk. destruct (bundle_keys_row d did rk Hk Hrk) as (? & ? & _). done. Qed.

Lemma loaded_later flag ds kid l s s' :
  recut flag ds kid s s' → kid ∉ rdk_vpn_key_id <$> l → loaded (db s) l → loaded (db s') l.
Proof.
  intros Hrc Hn Hl rk Hrk. destruct (Hl rk Hrk) as [Hrow Hid]. split; [|done].
  assert (Hne : rdk_vpn_key_id rk ≠ kid) by (intros E; apply Hn; rewrite <-E; by apply list_elem_of_fmap_2).
  by rewrite (proj2 (rc_others _ _ _ _ _ Hrc _ Hne)).
Qed.

Lemma revoke_bundle_run cfg l s :
  access_world s → loaded (db s) l → NoDup (rdk_vpn_key_id <$> l) →
  ∃ changed s', any_changed (revoke_resolved cfg) l s = (Ok changed, s') ∧
    recuts true desired_inactive (rdk_vpn_key_id <$> l) s s'.
Proof.
  revert s. induction l as [|rk l IH]; intros s Hw Hl Hnd; cbn [any_changed].
  { exists false, s. split; [done|constructor]. }
  cbn in Hnd. apply NoDup_cons in Hnd as [Hn Hnd]. destruct (Hl rk ltac:(left)) as [Hrow Hid].
  destruct (recut_assign (sc_command_prefix cfg) true desired_inactive "subscription_device_revoke" (rdk_key rk) s Hw)
    as (s1 & s2 & Ha & Hs & Hrc); [by rewrite Hid|].
  destruct (IH s2) as (changed & s3 & Hrun & Hrcs); [apply Hrc| |done|].
  { rewrite Hid in Hrc. eapply loaded_later; [done|done|]. intros rk' Hrk'. apply Hl. by right. }
  eexists _, s3. split.
  - unfold mbind at 1, M_bind at 1, revoke_resolved at 1. unfold mbind at 1, M_bind at 1. rewrite Ha.
    unfold mbind at 1, M_bind at 1. rewrite <-Hid, Hs. cbn. unfold mbind, M_bind. by rewrite Hrun.
  - cbn. econstructor; [|done]. by rewrite <-Hid.
Qed.

Lemma get_device_run sid did v s :
  keyed devices_tbl (db s) → devices (db s) !! did = Some v → dev_subscription_id v = sid →
  get_device sid did s = (Ok v, s).
Proof.
  intros Hk Hv Hs. unfold get_device, mbind at 1, M_bind at 1, get_by_id_for_subscription.
  destruct (select_unique_run devices_tbl (λ v, (dev_id v =? did) && (dev_subscription_id v =? sid)) s Hk)
    as (o & Hrun & Ho).
  { intros i j p q Hi Hj [Hp%Z.eqb_eq _]%andb_prop [Hq%Z.eqb_eq _]%andb_prop.
    pose proof (Hk i p Hi). pose proof (Hk j q Hj). cbn in *. congruence. }
  rewrite Hrun. destruct o as [v'|].
  - destruct Ho as [Hrow [Hd%Z.eqb_eq _]%andb_prop]. cbn in Hrow. rewrite Hd, Hv in Hrow. by injection Hrow as ->.
  - specialize (Ho did v Hv). pose proof (Hk did v Hv) as Hid. cbn in Hid.
    by rewrite Hid, Hs, !Z.eqb_refl in Ho.
Qed.

Lemma device_check_same d v v' :
  dev_subscription_id v' = dev_subscription_id v → hwid_hash v' = hwid_hash v → t_check devices_tbl d (Some v) v' = None.
Proof.
  intros E1 E2. cbn [t_check devices_tbl]. unfold unique_on, unique. by rewrite E1, E2, Z.eqb_refl, String.eqb_refl.
Qed.

(** A slot taken or given back; nothing else changes. *)
Lemma set_device_active_run v active now s :
  keyed devices_tbl (db s) → devices (db s) !! dev_id v = Some v →
  ∃ v' s1, set_device_active v active now s = (Ok tt, s1) ∧ db s1 = put devices_tbl v' (db s) ∧
    dev_id v' = dev_id v ∧ dev_is_active v' = active ∧ dev_subscription_id v' = dev_subscription_id v ∧
    hwid_hash v' = hwid_hash v ∧ next_uuid s1 = next_uuid s.
Proof.
  intros Hk Hv. unfold set_device_active, mbind, M_bind. rewrite update_run. cbn [t_rows devices_tbl t_touch].
  rewrite Hv. cbv zeta. rewrite device_check_same by done. by eexists _, _.
Qed.

(** [if device.is_active: device.is_active = False]. *)
Lemma release_slot_run did v s :
  access_world s → keyed devices_tbl (db s) → devices (db s) !! did = Some v →
  ∃ s1, when (dev_is_active v) (set_device_active v false (clock s (ticks s))) (tick s) = (Ok tt, s1) ∧
    access_world s1 ∧ (∃ v', devices (db s1) !! did = Some v' ∧ dev_is_active v' = false) ∧
    set_devices ∅ (db s1) = set_devices ∅ (db s).
Proof.
  intros Hw Hkd Hv. pose proof (Hkd did v Hv) as Hid. cbn in Hid. destruct (dev_is_active v) eqn:Ha.
  - destruct (set_device_active_run v false (clock s (ticks s)) (tick s)) as (v' & s1 & Hrun & Hdb & Hid' & Ha' & _ & _ & Hn);
      [done|by rewrite Hid|].
    exists s1. split_and!; [exact Hrun| | |by rewrite Hdb].
    + apply (access_world_same s); [by rewrite Hdb..|by rewrite Hn|done].
    + exists v'. rewrite Hdb. split; [|done]. cbn. rewrite Hid', Hid. apply lookup_insert_eq.
  - exists (tick s). split_and!; [done|by apply access_world_tick|by exists v|done].
Qed.

Lemma bundle_keys_same d d' did :
  device_keys d' = device_keys d → vpn_keys d' = vpn_keys d → bundle_keys d' did = bundle_keys d did.
Proof. intros E1 E2. unfold bundle_keys, keys_of_bindings, bindings_of. by rewrite E1, E2. Qed.

(** The device is off, and what it was given does not work any more: the keys bound to it
    are revoked and their placements switched off, the nodes told. *)
Definition device_cut (did : Z) (d d' : database) : Prop :=
  (∃ v', devices d' !! did = Some v' ∧ dev_is_active v' = false) ∧
  ∀ kid k, bound d did kid → vpn_keys d !! kid = Some k →
    (∃ k', vpn_keys d' !! kid = Some k' ∧ is_revoked k' = true) ∧ switched desired_inactive d' kid.

(** C9: Revoking a device of a subscription always succeeds on a consistent database and
    takes its access away: the device gives its slot back, every key bound to it is
    revoked, each of their active placements on a backend is to be removed and the node
    has been sent that command, the cached payload of the subscription is dropped, and
    keys bound to other devices keep their rows and placements. *)
Theorem device_revocation_cuts_access cfg sid did b v s :
  access_world s → bindings_ok (db s) → keyed devices_tbl (db s) →
  subscriptions (db s) !! sid = Some b → devices (db s) !! did = Some v → dev_subscription_id v = sid →
  ∃ changed s', revoke_device cfg sid did s = (Ok changed, s') ∧ device_cut did (db s) (db s') ∧
    InvalidatePayloadCache (sub_token_hash b) ∈ effects s' ∧
    ∀ kid, ¬ bound (db s) did kid →
      vpn_keys (db s') !! kid = vpn_keys (db s) !! kid ∧
      ∀ i p, pl_key_id p = kid → placements (db s') !! i = Some p → placements (db s) !! i = Some p.
Proof.
  intros Hw Hb Hkd Hsub Hv Hsid. pose proof (Hkd did v Hv) as Hid. cbn in Hid.
  destruct (release_slot_run did v s Hw Hkd Hv) as (s1 & Hs1 & Hw1 & Hoff & Hsame).
  assert (Hdk : device_keys (db s1) = device_keys (db s)) by (change (device_keys (set_devices ∅ (db s1)) = device_keys (db s)); by rewrite Hsame).
  assert (Hvk : vpn_keys (db s1) = vpn_keys (db s)) by (change (vpn_keys (set_devices ∅ (db s1)) = vpn_keys (db s)); by rewrite Hsame).
  assert (Hpl : placements (db s1) = placements (db s)) by (change (placements (set_devices ∅ (db s1)) = placements (db s)); by rewrite Hsame).
  pose proof (bundle_keys_same (db s) (db s1) did Hdk Hvk) as Hbk.
  destruct (revoke_bundle_run cfg (bundle_keys (db s1) did) s1 Hw1) as (changed & s2 & Hrun & Hrcs).
  { apply loaded_bundle, Hw1. } { rewrite Hbk. by apply bundle_keys_NoDup. }
  destruct (recuts_switched _ _ _ _ _ Hw1 Hrcs) as [Hw2 Hrest Hout Hon Hkeys Hoth].
  eexists changed, _. split.
  { unfold revoke_device, get_sub. unfold mbind at 1, M_bind at 1. unfold mbind at 1, M_bind at 1, get_by_id, read, gets.
    cbn [t_rows subs_tbl]. rewrite Hsub. unfold mret, M_ret. unfold mbind at 1, M_bind at 1.
    rewrite (get_device_run sid did v s) by done. unfold mbind at 1, M_bind at 1, utcnow. fold (tick s).
    unfold mbind at 1, M_bind at 1. rewrite Hs1. unfold mbind at 1, M_bind at 1. rewrite load_bundle_run.
    cbn [rdb_keys]. rewrite Hid. unfold mbind at 1, M_bind at 1. rewrite Hrun. reflexivity. }
  cbn [db effects]. split_and!; [split| |].
  - destruct Hoff as (v' & Hv' & Ha'). exists v'. split; [|done].
    assert (devices (db s2) = devices (db s1)) as -> by (apply (rest_field devices); [done|exact Hrest]). done.
  - intros kid k Hbd Hk.
    assert (Hin : kid ∈ rdk_vpn_key_id <$> bundle_keys (db s1) did) by (rewrite Hbk; eapply bundle_keys_bound; [apply Hw|done..]).
    split; [|by apply Hon]. destruct (Hkeys kid k) as (k' & Hk' & _ & _ & Hf); [by rewrite Hvk|].
    exists k'. split; [done|by apply Hf].
  - apply elem_of_app. right. left.
  - intros kid Hn. assert (Hin : kid ∉ rdk_vpn_key_id <$> bundle_keys (db s1) did).
    { rewrite Hbk. intros (rk & -> & Hrk)%list_elem_of_fmap. apply Hn. by apply (bundle_keys_row (db s) did rk); [apply Hw|]. }
    destruct (Hoth kid Hin) as [(_ & _ & HP & _) HK]. rewrite HK, Hvk. split; [done|].
    intros i p Hp Hi. rewrite <-Hpl. by apply HP.
Qed.

(** The keys of a device: a request that is let in leaves the device with a key for every
    transport of its subscription. *)


(** The ids and client ids the supply produces from [n] on are not in use. *)
Record supply_fresh (d : database) (n : Z) : Prop := {
  sf_pos : 0 ≤ n;
  sf_keys : ∀ i, n ≤ i → vpn_keys d !! i = None;
  sf_bindings : ∀ i, n ≤ i → device_keys d !! i = None;
  sf_clients : ∀ i k m, vpn_keys d !! i = Some k → n ≤ m < 2 ^ 128 → client_id k ≠ str_uuid m;
}.

Record bundle_world (s : session) : Prop := {
  bw_keys : keyed keys_tbl (db s);
  bw_bindings : bindings_ok (db s);
  bw_fresh : supply_fresh (db s) (next_uuid s);
}.

Lemma str_uuid_inj u v : 0 ≤ u < 2 ^ 128 → 0 ≤ v < 2 ^ 128 → str_uuid u = str_uuid v → u = v.
Proof. intros Hu Hv E. pose proof (UUID_str u Hu) as E1. rewrite E, UUID_str in E1 by done. congruence. Qed.

(** The device has a key for the transport. *)
Definition has_transport (d : database) (did : Z) (t : string) : Prop :=
  ∃ i r k, device_keys d !! i = Some r ∧ dk_device_id r = did ∧ dk_is_active r = true ∧ dk_transport r = t ∧
    vpn_keys d !! dk_vpn_key_id r = Some k.

Lemma has_transport_mono d d' did t :
  device_keys d ⊆ device_keys d' → vpn_keys d ⊆ vpn_keys d' → has_transport d did t → has_transport d' did t.
Proof.
  intros H1 H2 (i & r & k & Hi & ? & ? & ? & Hk). exists i, r, k.
  split_and!; try done; by eapply lookup_weaken.
Qed.

Lemma bundle_has_transport d did t :
  keyed keys_tbl d → bindings_ok d → has_transport d did t ↔ t ∈ rdk_transport <$> bundle_keys d did.
Proof.
  intros Hkk Hb. unfold bundle_keys. rewrite bundle_order_perm. split.
  - intros (i & r & k & Hi & Hd & Ha & Ht & Hk).
    assert (Hin : r ∈ bindings_of d did) by (apply elem_of_bindings; eauto).
    destruct (find (λ k, key_id k =? dk_vpn_key_id r) (keys_of_bindings d (bindings_of d did))) as [k'|] eqn:Hf.
    + destruct (resolve_bindings_complete (keys_of_bindings d (bindings_of d did)) [] (bindings_of d did) r k')
        as (rk & Hrk & _ & E); [apply bindings_NoDup; [done|by left]| |by intros ? ?%not_elem_of_nil|done|done|].
      { apply Forall_forall. intros r' [[j Hj] _]%elem_of_bindings. by eapply Hb. }
      rewrite <-Ht, <-E. by apply list_elem_of_fmap_2.
    + exfalso. pose proof (find_none _ _ Hf k) as E. cbn in E.
      rewrite (Hkk _ _ Hk : key_id k = dk_vpn_key_id r), Z.eqb_refl in E. discriminate E.
      apply list_elem_of_In, elem_of_keys_of. split; [by eexists|].
      rewrite (Hkk _ _ Hk : key_id k = dk_vpn_key_id r). by apply list_elem_of_fmap_2.
  - intros (rk & -> & Hrk)%list_elem_of_fmap.
    apply resolve_bindings_sound in Hrk as (Hin & Hid & r & Hr & Hrk & Ht).
    apply elem_of_bindings in Hr as ([i Hi] & Hd & Ha). apply elem_of_keys_of in Hin as [[j Hj] _].
    exists i, r, (rdk_key rk). split_and!; [done..| |].
    + rewrite Ht. unfold binding_transport. by rewrite (proj2 (proj2 Hb) i r Hi).
    + rewrite Hrk, <-Hid. by rewrite (Hkk j _ Hj : key_id (rdk_key rk) = j).
Qed.

(** One key per transport. *)
Lemma resolve_bindings_distinct keys l : ∀ seen,
  NoDup (rdk_transport <$> resolve_bindings keys seen l) ∧
  ∀ t, t ∈ seen → t ∉ rdk_transport <$> resolve_bindings keys seen l.
Proof.
  induction l as [|r l IH]; intros seen; cbn; [split; [constructor|intros t _; apply not_elem_of_nil]|].
  destruct (find _ keys) as [k|]; [|apply IH]. destruct (negb _); cbn; [apply IH|].
  case_bool_decide as Hin; [apply IH|]. destruct (IH (binding_transport r k :: seen)) as [Hnd Hs]. split.
  - cbn. apply NoDup_cons. split; [apply Hs; left|done].
  - intros t Ht. cbn. apply not_elem_of_cons. split; [by intros ->|]. apply Hs. by right.
Qed.

Lemma bundle_transports_distinct d did : NoDup (rdk_transport <$> bundle_keys d did).
Proof. unfold bundle_keys. rewrite bundle_order_perm. apply resolve_bindings_distinct. Qed.

(** ** A key and its binding *)

Lemma create_key_run b t until s :
  bundle_world s → next_uuid s + 1 < 2 ^ 128 →
  ∃ k s', _create_vpn_key_for_transport b t until s = (Ok k, s') ∧ key_id k = next_uuid s + 1 ∧
    db s' = put keys_tbl k (db s) ∧ next_uuid s' = next_uuid s + 2 ∧ bundle_world s' ∧
    key_transport k = transport_value t ∧ is_revoked k = false ∧ valid_until k = until ∧
    key_subscription_id k = Some (sub_id b).
Proof.
  intros [Hk Hb [H0 Hfk Hfb Hfc]] Hn. unfold _create_vpn_key_for_transport, mbind at 1, M_bind at 1.
  assert (Hplan : plan_of b s = (Ok (sub_plan_id b ≫= (plans (db s) !!.)), s)) by (unfold plan_of; by destruct (sub_plan_id b)).
  rewrite Hplan. unfold mbind at 1, M_bind at 1, uuid4. fold (issue s). rewrite create_run. cbv zeta.
  cbn [t_rows keys_tbl t_id key_id db issue next_uuid clock ticks]. rewrite (Hfk (next_uuid s + 1)) by lia.
  assert (Hclash : ∀ r, client_id r = str_uuid (next_uuid s) → t_check keys_tbl (db s) None r = None).
  { intros r Hr. cbn [t_check keys_tbl]. unfold unique_on, unique.
    rewrite (proj2 (clashes_false (vpn_keys (db s)) key_id _ r)); [done|]. intros i k' Hi _.
    rewrite Hr. apply String.eqb_neq, (Hfc i k'); [done|lia]. }
  rewrite Hclash by done. eexists _, _. split; [done|]. split_and!; try done; [cbn; lia|]. split.
  - by apply (keyed_put keys_tbl).
  - exact Hb.
  - cbn. split; [lia|..].
    + intros i Hi. cbn in *. rewrite lookup_insert_ne by lia. apply Hfk. lia.
    + intros i Hi. cbn in *. apply Hfb. lia.
    + intros i k' m. cbn. rewrite lookup_insert. case_decide; [|intros ? ?; eapply Hfc; [done|lia]].
      intros [= <-] Hm. cbn. intros E%str_uuid_inj; lia.
Qed.

Lemma bind_key_run did kid t primary s :
  bundle_world s → nonempty t = true →
  (∀ i r, device_keys (db s) !! i = Some r → dk_device_id r = did → dk_transport r ≠ t ∧ dk_vpn_key_id r ≠ kid) →
  ∃ r s', bind_key did kid t primary s = (Ok tt, s') ∧ dk_id r = next_uuid s ∧ db s' = put device_keys_tbl r (db s) ∧
    next_uuid s' = next_uuid s + 1 ∧ bundle_world s' ∧
    dk_device_id r = did ∧ dk_transport r = t ∧ dk_vpn_key_id r = kid ∧ dk_is_active r = true.
Proof.
  intros [Hk (Hkb & Hu & Hne) [H0 Hfk Hfb Hfc]] Ht Hfree. unfold bind_key, mbind, M_bind. rewrite create_run. cbv zeta.
  cbn [t_rows device_keys_tbl t_id dk_id]. rewrite (Hfb (next_uuid s)) by lia. set (r := {| dk_id := next_uuid s |}).
  assert (Hchk : t_check device_keys_tbl (db s) None r = None).
  { cbn [t_check device_keys_tbl]. unfold unique_on, unique.
    rewrite !(proj2 (clashes_false (device_keys (db s)) dk_id _ r)); [done|..]; intros i r' Hi _; cbn;
      destruct (Z.eqb_spec (dk_device_id r') did) as [Hd|Hd]; try done; destruct (Hfree i r' Hi Hd) as [H1 H2].
    - by apply String.eqb_neq.
    - by apply Z.eqb_neq. }
  rewrite Hchk. exists r. eexists. split; [done|]. split_and!; try done. split.
  - exact Hk.
  - split_and!; [by apply (keyed_put device_keys_tbl)| |].
    + intros i j x y. cbn. rewrite !lookup_insert. repeat case_decide; subst; try done.
      * intros [= <-] Hy Hd. cbn in Hd. destruct (Hfree j y Hy ltac:(done)). cbn. intros [?|?]; congruence.
      * intros Hx [= <-] Hd. cbn in Hd. destruct (Hfree i x Hx ltac:(done)). cbn. intros [?|?]; congruence.
      * apply Hu.
    + intros i x. cbn. rewrite lookup_insert. case_decide; [by intros [= <-]|apply Hne].
  - cbn. split; [lia|..].
    + intros i Hi. cbn in *. apply Hfk. lia.
    + intros i Hi. cbn in *. rewrite lookup_insert_ne by lia. apply Hfb. lia.
    + intros i k' m Hi Hm. cbn in *. eapply Hfc; [done|lia].
Qed.

(** ** The missing keys *)

Lemma transport_value_inj t t' : transport_value t = transport_value t' → t = t'.
Proof. by destruct t, t'. Qed.

Lemma transport_value_nonempty t : nonempty (transport_value t) = true.
Proof. by destruct t. Qed.

(** The foreign key of the bindings. *)
Definition bindings_closed (d : database) : Prop :=
  ∀ i r, device_keys d !! i = Some r → is_Some (vpn_keys d !! dk_vpn_key_id r).

Lemma add_missing_run b did until existing no_keys l : ∀ idx s,
  bundle_world s → bindings_closed (db s) → NoDup l → next_uuid s + 3 * Z.of_nat (length l) ≤ 2 ^ 128 →
  (∀ t i r, t ∈ l → transport_value t ∉ existing → device_keys (db s) !! i = Some r → dk_device_id r = did →
     dk_transport r ≠ transport_value t) →
  ∃ s', add_missing_keys b did until existing no_keys idx l s = (Ok tt, s') ∧ bundle_world s' ∧
    device_keys (db s) ⊆ device_keys (db s') ∧ vpn_keys (db s) ⊆ vpn_keys (db s') ∧
    ∀ t, t ∈ l → transport_value t ∈ existing ∨ has_transport (db s') did (transport_value t).
Proof.
  induction l as [|t l IH]; intros idx s Hw Hc Hnd Hn Hfree; cbn [add_missing_keys].
  { exists s. split_and!; try done. by intros t ?%not_elem_of_nil. }
  apply NoDup_cons in Hnd as [Ht Hnd]. cbn [length] in Hn. case_bool_decide as Hex.
  { destruct (IH (S idx) s Hw Hc Hnd) as (s' & Hrun & Hw' & H1 & H2 & Hall); [lia| |].
    { intros t' i r Hin. apply Hfree. by right. }
    exists s'. split_and!; try done. intros t' [->|Hin]%elem_of_cons; [by left|by apply Hall]. }
  destruct (create_key_run b t until s Hw) as (k & s1 & Hk & Hid & Hdb1 & Hn1 & Hw1 & _); [lia|].
  assert (Hdk1 : device_keys (db s1) = device_keys (db s)) by (by rewrite Hdb1).
  destruct (bind_key_run did (key_id k) (transport_value t) ((idx =? 0)%nat && no_keys) s1 Hw1)
    as (r & s2 & Hbind & Hrid & Hdb2 & Hn2 & Hw2 & Hrd & Hrt & Hrk & Hra); [apply transport_value_nonempty| |].
  { intros i r Hi Hd. rewrite Hdk1 in Hi. split; [apply (Hfree t i r); [left|done..]|].
    intros E. destruct (Hc i r Hi) as [k' Hk']. rewrite E, Hid in Hk'.
    rewrite (sf_keys _ _ (bw_fresh _ Hw)) in Hk' by lia. done. }
  assert (Hkeys2 : vpn_keys (db s2) = <[key_id k := k]> (vpn_keys (db s))) by (by rewrite Hdb2, Hdb1).
  assert (Hdk2 : device_keys (db s2) = <[dk_id r := r]> (device_keys (db s))) by (by rewrite Hdb2, Hdb1).
  assert (Hsub1 : device_keys (db s) ⊆ device_keys (db s2)).
  { rewrite Hdk2. apply insert_subseteq, (sf_bindings _ _ (bw_fresh _ Hw)). lia. }
  assert (Hsub2 : vpn_keys (db s) ⊆ vpn_keys (db s2)).
  { rewrite Hkeys2. apply insert_subseteq, (sf_keys _ _ (bw_fresh _ Hw)). lia. }
  destruct (IH (S idx) s2 Hw2) as (s' & Hrun & Hw' & H1 & H2 & Hall); [|done|lia| |].
  { intros i x. rewrite Hdk2, lookup_insert. case_decide as Hi.
    - intros [= <-]. rewrite Hrk, Hkeys2, lookup_insert_eq. by eexists.
    - intros Hx. destruct (Hc i x Hx) as [k' Hk']. exists k'. by eapply lookup_weaken. }
  { intros t' i x Hin Hex'. rewrite Hdk2, lookup_insert. case_decide as Hi; [|apply Hfree; [by right|done]].
    intros [= <-] _. rewrite Hrt. intros E%transport_value_inj. congruence. }
  exists s'. split_and!.
  - unfold mbind at 1, M_bind at 1. unfold mbind at 1, M_bind at 1. rewrite Hk.
    unfold after_failed_flush, catch. by rewrite Hbind.
  - done.
  - by etrans.
  - by etrans.
  - intros t' [->|Hin]%elem_of_cons; [right|by apply Hall]. eapply has_transport_mono; [done|done|].
    exists (dk_id r), r, k. rewrite Hdk2, Hkeys2, Hrk, !lookup_insert_eq. done.
Qed.

Lemma bundle_transports_NoDup cfg b : NoDup (_subscription_bundle_transports cfg b).
Proof.
  unfold _subscription_bundle_transports.
  destruct (_infer_transport_from_profile_key cfg (sub_profile_key b)) as [[]|]; apply (bool_decide_eq_true_1 (NoDup _)); vm_compute; reflexivity.
Qed.

Lemma bundle_transports_length cfg b : (length (_subscription_bundle_transports cfg b) ≤ 4)%nat.
Proof.
  unfold _subscription_bundle_transports.
  destruct (_infer_transport_from_profile_key cfg (sub_profile_key b)) as [[]|]; vm_compute; lia.
Qed.

Lemma bundle_complete_spec cfg b bundle :
  bundle_complete cfg b bundle = true ↔
  ∀ t, t ∈ _subscription_bundle_transports cfg b → transport_value t ∈ rdk_transport <$> rdb_keys bundle.
Proof.
  unfold bundle_complete. rewrite forallb_forall. split.
  - intros H t Ht. apply list_elem_of_In, H in Ht. by apply bool_decide_eq_true in Ht.
  - intros H t Ht. apply bool_decide_eq_true, H. by apply list_elem_of_In.
Qed.

(** C11: A device that is let in gets a key for every transport: on a consistent database,
    with no binding of the device switched off, ensuring the key bundle of a device
    returns a bundle in which each transport of the subscription (the one of its profile
    and the default ones) has exactly one key, bound to the device and stored; keys and
    bindings that were there are kept, and a device that has all keys is given no new
    ones. *)
Theorem device_bundle_complete cfg b v now s :
  bundle_world s → bindings_closed (db s) → next_uuid s + 12 ≤ 2 ^ 128 →
  (∀ i r, device_keys (db s) !! i = Some r → dk_device_id r = dev_id v → dk_is_active r = true) →
  ∃ bundle s', _ensure_device_key_bundle cfg b v now s = (Ok bundle, s') ∧
    NoDup (rdk_transport <$> rdb_keys bundle) ∧
    (∀ t, t ∈ _subscription_bundle_transports cfg b →
       ∃ rk, rk ∈ rdb_keys bundle ∧ rdk_transport rk = transport_value t ∧
         bound (db s') (dev_id v) (rdk_vpn_key_id rk) ∧ vpn_keys (db s') !! rdk_vpn_key_id rk = Some (rdk_key rk)) ∧
    device_keys (db s) ⊆ device_keys (db s') ∧ vpn_keys (db s) ⊆ vpn_keys (db s') ∧
    ((∀ t, t ∈ _subscription_bundle_transports cfg b → has_transport (db s) (dev_id v) (transport_value t)) → s' = s).
Proof.
  intros Hw Hc Hn Hact. unfold _ensure_device_key_bundle, mbind at 1, M_bind at 1. rewrite load_bundle_run.
  set (bundle := {| rdb_device := v |}).
  assert (Hgood : ∀ s', bundle_world s' → (∀ t, t ∈ _subscription_bundle_transports cfg b → has_transport (db s') (dev_id v) (transport_value t)) →
    NoDup (rdk_transport <$> bundle_keys (db s') (dev_id v)) ∧
    ∀ t, t ∈ _subscription_bundle_transports cfg b →
       ∃ rk, rk ∈ bundle_keys (db s') (dev_id v) ∧ rdk_transport rk = transport_value t ∧
         bound (db s') (dev_id v) (rdk_vpn_key_id rk) ∧ vpn_keys (db s') !! rdk_vpn_key_id rk = Some (rdk_key rk)).
  { intros s' [Hk Hb _] Hall. split; [apply bundle_transports_distinct|]. intros t Ht.
    apply Hall, bundle_has_transport in Ht as (rk & E & Hrk)%list_elem_of_fmap; [|done..].
    exists rk. by destruct (bundle_keys_row (db s') (dev_id v) rk Hk Hrk) as (? & ? & ?). }
  assert (Hhas : ∀ t, transport_value t ∈ rdk_transport <$> bundle_keys (db s) (dev_id v) ↔ has_transport (db s) (dev_id v) (transport_value t)).
  { intros t. symmetry. apply bundle_has_transport; apply Hw. }
  destruct (bundle_complete cfg b bundle) eqn:Hcomp.
  { assert (Hcomp' := proj1 (bundle_complete_spec cfg b bundle) Hcomp). exists bundle, s.
    destruct (Hgood s Hw) as [H1 H2]; [intros t Ht; by apply Hhas, Hcomp'|]. by split_and!. }
  destruct (add_missing_run b (dev_id v) (key_term b now) (rdk_transport <$> rdb_keys bundle)
    (match rdb_keys bundle with [] => true | _ => false end) (_subscription_bundle_transports cfg b) 0 s Hw Hc)
    as (s' & Hrun & Hw' & H1 & H2 & Hall).
  { apply bundle_transports_NoDup. } { pose proof (bundle_transports_length cfg b). lia. }
  { intros t i r _ Hex Hi Hd E. apply Hex, Hhas. destruct (Hc i r Hi) as [k Hk]. exists i, r, k. by split_and!; eauto. }
  eexists _, s'. unfold mbind, M_bind. rewrite Hrun, load_bundle_run. split; [done|].
  destruct (Hgood s' Hw') as [G1 G2].
  { intros t Ht. destruct (Hall t Ht) as [Hex|]; [|done]. eapply has_transport_mono; [done|done|]. by apply Hhas. }
  split_and!; try done. intros Hfull. exfalso. apply not_true_iff_false in Hcomp. apply Hcomp, bundle_complete_spec.
  intros t Ht. by apply Hhas, Hfull.
Qed.
