(* ===== verification/DeviceLimit.v ===== *)
(** The device slots of a subscription: no sequence of fetches, restores, revocations and
    switches gives more devices access than the limit allows. *)

From stdpp Require Import base gmap strings list sorting.
From S2P Require Import Prelude Decimal Errors RouteModels BillingModels FleetModels Session Uuid NodeDisplay Tables FleetTables Routing Placements PlacementProps PlacementCommands PlacementWorld Keys Routes Devices DeviceProps Traffic.
Local Open Scope Z_scope.

(** * Counting *)

(** Writing one row changes a count by at most one, and only if the new row counts. *)
Lemma count_insert {R} (P : R → bool) (m : gmap Z R) i r :
  (length (filter (λ r, P r = true) (rows (<[i:=r]> m))) ≤
   length (filter (λ r, P r = true) (rows m)) + (if P r then 1 else 0))%nat.
Proof.
  assert (Hperm : ∀ j x (m' : gmap Z R), m' !! j = None → rows (<[j:=x]> m') ≡ₚ x :: rows m').
  { intros j x m' Hj. unfold rows. by rewrite map_to_list_insert. }
  assert (Hdel : (length (filter (λ r, P r = true) (rows (delete i m))) ≤ length (filter (λ r, P r = true) (rows m)))%nat).
  { destruct (m !! i) as [y|] eqn:Hy; [|by rewrite delete_id].
    rewrite <-(insert_delete_id m i y Hy) at 2. rewrite Hperm by apply lookup_delete_eq.
    rewrite filter_cons. case_decide; cbn; lia. }
  rewrite <-insert_delete_eq, Hperm by apply lookup_delete_eq. rewrite filter_cons.
  destruct (P r); case_decide; cbn; try done; lia.
Qed.

(** A row that counted already adds nothing. *)
Lemma count_insert_same {R} (P : R → bool) (m : gmap Z R) i r o :
  m !! i = Some o → (P r = true → P o = true) →
  (length (filter (λ r, P r = true) (rows (<[i:=r]> m))) ≤ length (filter (λ r, P r = true) (rows m)))%nat.
Proof.
  intros Ho Himp.
  assert (Hperm : ∀ j x (m' : gmap Z R), m' !! j = None → rows (<[j:=x]> m') ≡ₚ x :: rows m').
  { intros j x m' Hj. unfold rows. by rewrite map_to_list_insert. }
  rewrite <-insert_delete_eq, Hperm by apply lookup_delete_eq.
  rewrite <-(insert_delete_id m i o Ho) at 2. rewrite Hperm by apply lookup_delete_eq.
  rewrite !filter_cons. repeat case_decide; cbn; try lia. exfalso. auto.
Qed.

Definition takes_slot (sid : Z) (v : SubscriptionDevice) : bool := (dev_subscription_id v =? sid) && dev_is_active v.

Definition slots_taken (d : database) (sid : Z) : Z :=
  Z.of_nat (length (filter (λ v, takes_slot sid v = true) (rows (devices d)))).

(** [_effective_device_limit]. *)
Definition slot_limit (cfg : SubscriptionConfig) (d : database) (b : Subscription) : Z :=
  let plan_based := match sub_plan_id b ≫= (plans d !!.) with
                    | Some p => included_devices p + paid_device_slots b
                    | None => 0
                    end in
  let best := Z.max (default 0 (sub_max_devices b)) plan_based in
  if best =? 0 then max_devices_default cfg else best.

Lemma check_slot_run cfg b s :
  check_slot cfg b s =
  (if slot_limit cfg (db s) b <=? slots_taken (db s) (sub_id b) then Raise SubscriptionDeviceLimitReached else Ok tt, s).
Proof.
  unfold check_slot, _effective_device_limit, count_active_for_subscription.
  assert (Hplan : plan_of b s = (Ok (sub_plan_id b ≫= (plans (db s) !!.)), s)) by (unfold plan_of; by destruct (sub_plan_id b)).
  unfold mbind at 1, M_bind at 1. unfold mbind at 1, M_bind at 1. rewrite Hplan. cbn [mret M_ret].
  unfold mret at 1, M_ret at 1. unfold mbind, M_bind, select_where, read, gets, mret, M_ret, raise_if.
  fold (slot_limit cfg (db s) b). change (Z.of_nat (length _)) with (slots_taken (db s) (sub_id b)).
  by destruct (_ <=? _).
Qed.

(** * The relation of an operation *)

(** The columns the limit is computed from. *)
Definition same_limit (b b' : Subscription) : Prop :=
  sub_plan_id b' = sub_plan_id b ∧ sub_max_devices b' = sub_max_devices b ∧ paid_device_slots b' = paid_device_slots b.

Section Limit.
Context (cfg : SubscriptionConfig).

(** Slots are taken only up to the limit. *)
Definition slots_rel (d d' : database) : Prop :=
plans d' = plans d ∧
∀ sid b, subscriptions d !! sid = Some b →
  (∃ b', subscriptions d' !! sid = Some b' ∧ same_limit b b') ∧
  slots_taken d' sid ≤ Z.max (slots_taken d sid) (slot_limit cfg d b).

Definition rows_keyed (d : database) : Prop := keyed subs_tbl d ∧ keyed devices_tbl d.

Lemma slot_limit_same d d' b b' : plans d' = plans d → same_limit b b' → slot_limit cfg d' b' = slot_limit cfg d b.
Proof using Type. intros E (E1 & E2 & E3). unfold slot_limit. by rewrite E, E1, E2, E3. Qed.

#[export] Instance slots_rel_preorder : PreOrder slots_rel.
Proof using Type.
split.
- intros d. split; [done|]. intros sid b Hb. split; [by exists b|lia].
- intros d1 d2 d3 [E12 H12] [E23 H23]. split; [congruence|]. intros sid b Hb.
  destruct (H12 sid b Hb) as [(b2 & Hb2 & S2) L2]. destruct (H23 sid b2 Hb2) as [(b3 & Hb3 & S3) L3].
  split; [exists b3; split; [done|]; unfold same_limit in *; intuition congruence|].
  rewrite (slot_limit_same d1 d2 b b2) in L3 by done. lia.
Qed.

Notation keeps_slots m := (keeps (on_db (guarded rows_keyed slots_rel)) m).

(** Operations on other tables. *)
Definition slot_tables (d : database) := (plans d, subscriptions d, devices d).

Lemma slots_same d d' : slot_tables d' = slot_tables d → guarded rows_keyed slots_rel d d'.
Proof using Type.
unfold slot_tables. intros [= Ep Es Ed] [Hs Hd]. split.
- split; intros i r; cbn; [rewrite Es; apply Hs|rewrite Ed; apply Hd].
- split; [done|]. intros sid b Hb. rewrite Es. split; [by exists b|]. unfold slots_taken. rewrite Ed. lia.
Qed.

Lemma keeps_slots_same {A} (m : SM A) : keeps (on_db (same slot_tables)) m → keeps_slots m.
Proof using Type. intros H s. apply slots_same, H. Qed.

(** A subscription written without changing its limit. *)
Lemma keeps_slots_sub sid g :
(∀ b, sub_id (g b) = sub_id b) → (∀ b, same_limit b (g b)) → keeps_slots (update_by_id subs_tbl sid g).
Proof using Type.
intros Hid Hg. apply keeps_update; [apply _|]. intros d now r Hr _ [Hs Hd]. pose proof (Hs _ _ Hr) as Hk. cbn in Hk, Hr.
split; [split; [by apply (keyed_put subs_tbl)|exact Hd]|]. split; [done|]. intros sid' b Hb.
split; [|apply Z.le_max_l].
cbn. rewrite lookup_insert, Hid. cbn. case_decide as E; [|by exists b].
eexists. split; [done|]. assert (b = r) as -> by congruence. apply (Hg (touch_sub now r)).
Qed.

(** A device written that takes no slot it did not have. *)
Lemma keeps_slots_device did g :
(∀ v, dev_id (g v) = dev_id v) → (∀ v sid, takes_slot sid (g v) = true → takes_slot sid v = true) →
keeps_slots (update_by_id devices_tbl did g).
Proof using Type.
intros Hid Hg. apply keeps_update; [apply _|]. intros d now r Hr _ [Hs Hd]. pose proof (Hd _ _ Hr) as Hk. cbn in Hk, Hr.
split; [split; [exact Hs|by apply (keyed_put devices_tbl)]|]. split; [done|]. intros sid b Hb.
split; [by exists b|]. unfold slots_taken. cbn. rewrite Hid. cbn. rewrite Hk.
enough ((length (filter (λ v, takes_slot sid v = true) (rows (<[did := g (touch_device now r)]> (devices d)))) ≤
  length (filter (λ v, takes_slot sid v = true) (rows (devices d))))%nat) by lia.
apply (count_insert_same (takes_slot sid) _ _ _ r Hr). intros H. by apply (Hg (touch_device now r)).
Qed.

(** The same for the rows a condition selects. *)
Lemma keeps_slots_subs_where P g :
(∀ b, sub_id (g b) = sub_id b) → (∀ b, same_limit b (g b)) → keeps_slots (update_where subs_tbl P g).
Proof using Type.
intros Hid Hg. apply keeps_update_where; [apply _|apply _|by intros d [? ?]|done|].
intros d r [Hs Hd] Hr _ _. split; [split; [by apply (keyed_put subs_tbl)|exact Hd]|]. split; [done|].
intros sid b Hb. split; [|apply Z.le_max_l]. cbn in *. rewrite lookup_insert, Hid. case_decide as E; [|by exists b].
eexists. split; [done|]. assert (b = r) as -> by congruence. apply Hg.
Qed.

Lemma keeps_slots_devices_where P g :
(∀ v, dev_id (g v) = dev_id v) → (∀ v sid, takes_slot sid (g v) = true → takes_slot sid v = true) →
keeps_slots (update_where devices_tbl P g).
Proof using Type.
intros Hid Hg. apply keeps_update_where; [apply _|apply _|by intros d [? ?]|done|].
intros d v [Hs Hd] Hv _ _. split; [split; [exact Hs|by apply (keyed_put devices_tbl)]|]. split; [done|].
intros sid b Hb. split; [by exists b|]. unfold slots_taken. cbn in *. rewrite Hid.
enough ((length (filter (λ v, takes_slot sid v = true) (rows (<[dev_id v := g v]> (devices d)))) ≤
  length (filter (λ v, takes_slot sid v = true) (rows (devices d))))%nat) by lia.
apply (count_insert_same (takes_slot sid) _ _ _ v Hv), Hg.
Qed.

(** One device of a subscription with a free slot. *)
Lemma slots_put d v b :
rows_keyed d → subscriptions d !! sub_id b = Some b → dev_subscription_id v = sub_id b →
slots_taken d (sub_id b) < slot_limit cfg d b →
rows_keyed (put devices_tbl v d) ∧ slots_rel d (put devices_tbl v d).
Proof using Type.
intros [Hs Hd] Hb Hv Hfree. split; [split; [exact Hs|by apply (keyed_put devices_tbl)]|].
split; [done|]. intros sid b' Hb'. split; [by exists b'|]. unfold slots_taken. cbn.
pose proof (count_insert (takes_slot sid) (devices d) (dev_id v) v) as Hc.
destruct (takes_slot sid v) eqn:Ht; [|lia]. unfold takes_slot in Ht. apply andb_prop in Ht as [Hsid%Z.eqb_eq _].
assert (sid = sub_id b) as -> by congruence. assert (b' = b) as -> by congruence.
unfold slots_taken in Hfree. lia.
Qed.

(** ** From a given state *)

Definition steps {A} (m : SM A) (s : session) : Prop := guarded rows_keyed slots_rel (db s) (db (m s).2).

Lemma steps_keeps {A} (m : SM A) s : keeps_slots m → steps m s.
Proof using Type. intros H. apply H. Qed.

Lemma steps_bind {A B} (m : SM A) (f : A → SM B) s :
steps m s → (∀ a s', m s = (Ok a, s') → steps (f a) s') → steps (m ≫= f) s.
Proof using Type.
unfold steps, mbind, M_bind. intros Hm Hf. destruct (m s) as [[a|e] s'] eqn:E; [|done].
intros HI. destruct (Hm HI) as [HI' R1]. destruct (Hf a s' eq_refl HI') as [HI2 R2].
split; [done|]. by transitivity (db s').
Qed.

(** A slot of the subscription is free. *)
Definition free (b : Subscription) (d : database) : Prop :=
subscriptions d !! sub_id b = Some b ∧ slots_taken d (sub_id b) < slot_limit cfg d b.

Lemma free_same b d d' : slot_tables d' = slot_tables d → free b d → free b d'.
Proof using Type.
unfold slot_tables. intros [= Ep Es Ed]. unfold free, slots_taken, slot_limit. by rewrite Ep, Es, Ed.
Qed.

(** What runs after the check of the slots runs with a free slot. *)
Lemma steps_check_slot {A} b (m : SM A) s :
subscriptions (db s) !! sub_id b = Some b → (free b (db s) → steps m s) → steps (check_slot cfg b ;; m) s.
Proof using Type.
intros Hb Hm. unfold steps, mbind, M_bind. rewrite check_slot_run.
destruct (Z.leb_spec (slot_limit cfg (db s) b) (slots_taken (db s) (sub_id b))) as [Hle|Hlt].
- cbn. intros HI. split; [done|]. reflexivity.
- by apply Hm.
Qed.

(** A device of the subscription written while a slot is free. *)
Lemma steps_take_slot b did g s :
free b (db s) → (∀ v, dev_id (g v) = dev_id v ∧ dev_subscription_id (g v) = dev_subscription_id v) →
(∀ v, devices (db s) !! did = Some v → dev_subscription_id v = sub_id b) →
steps (update_by_id devices_tbl did g) s.
Proof using Type.
intros [Hb Hfree] Hg Hv. unfold steps. rewrite update_run. cbn [t_rows devices_tbl t_touch].
destruct (devices (db s) !! did) as [v|] eqn:Hrow; [|intros HI; split; [done|reflexivity]]. cbv zeta.
destruct (t_check devices_tbl _ _ _); [intros HI; split; [done|reflexivity]|]. intros HI.
cbn [snd db with_db tick]. apply (slots_put (db s) _ b); [done|done| |done].
rewrite (proj2 (Hg _)). by apply (Hv v).
Qed.

Lemma steps_new_device b mk s :
free b (db s) → (∀ id now, dev_subscription_id (mk id now) = sub_id b) → steps (create devices_tbl mk) s.
Proof using Type.
intros [Hb Hfree] Hmk. unfold steps. rewrite create_run. cbv zeta. cbn [t_rows devices_tbl].
destruct (devices (db s) !! _); [intros HI; split; [done|reflexivity]|].
destruct (t_check devices_tbl _ _ _); intros HI; [split; [done|reflexivity]|].
cbn [snd db with_db tick issue]. by apply (slots_put (db s) _ b).
Qed.

(** * The operations *)

Lemma set_placement_slots pfx kid ds reason : keeps_slots (_set_placement_desired_state pfx kid ds reason).
Proof using Type. apply keeps_slots_same, set_placement_same, _. Qed.

Lemma provision_slots kid region reason : keeps_slots (provision_key cfg kid region reason).
Proof using Type. apply keeps_slots_same, provision_key_same, _. Qed.

Lemma assign_slots flag k : keeps_slots (assign_revoked flag k).
Proof using Type. apply keeps_slots_same. unfold assign_revoked. keeps_tac. Qed.

Lemma load_bundle_slots v : keeps_slots (_load_device_bundle v).
Proof using Type.
apply keeps_slots_same. unfold _load_device_bundle, list_by_device_ids, list_keys_by_ids. keeps_tac.
Qed.
#[local] Hint Resolve set_placement_slots provision_slots assign_slots load_bundle_slots : keeps.

Lemma ensure_bundle_slots b v now : keeps_slots (_ensure_device_key_bundle cfg b v now).
Proof using Type.
assert (Hadd : ∀ did until existing no_keys idx l, keeps_slots (add_missing_keys b did until existing no_keys idx l)).
{ intros did until existing no_keys idx l. apply keeps_slots_same. revert idx. induction l as [|t l IH]; intros idx;
    cbn [add_missing_keys]; [keeps_tac|].
  unfold _create_vpn_key_for_transport, plan_of, after_failed_flush, bind_key. keeps_tac. }
unfold _ensure_device_key_bundle. keeps_tac.
Qed.

Lemma touch_slots did now h : keeps_slots (touch_device_seen did now h).
Proof using Type.
unfold touch_device_seen. keeps_step; [keeps_tac|intros at_]. keeps_step; [|keeps_tac].
by apply keeps_slots_devices_where.
Qed.
#[local] Hint Resolve ensure_bundle_slots touch_slots : keeps.

Lemma reactivate_slots b v now s :
free b (db s) → (∀ v', devices (db s) !! dev_id v = Some v' → dev_subscription_id v' = sub_id b) →
steps (reactivate_device cfg v now) s.
Proof using Type.
intros Hf Hv. unfold reactivate_device. apply steps_bind; [by apply (steps_take_slot b)|intros _ s1 _].
apply steps_keeps. keeps_tac.
Qed.

Lemma register_slots b h hd now s : free b (db s) → steps (register_device cfg b h hd now) s.
Proof using Type.
intros Hf. unfold register_device. destruct (_subscription_bundle_transports cfg b) as [|t l]; [apply steps_keeps; keeps_tac|].
assert (Hkey : keeps (on_db (same slot_tables)) (_create_vpn_key_for_transport b t (key_term b now))).
{ unfold _create_vpn_key_for_transport, plan_of. keeps_tac. }
apply steps_bind; [by apply steps_keeps, keeps_slots_same|]. intros k s1 E1.
assert (Hf1 : free b (db s1)) by (eapply free_same, Hf; specialize (Hkey s); by rewrite E1 in Hkey).
apply steps_bind; [|intros v s2 _; apply steps_keeps, keeps_slots_same; unfold bind_key; keeps_tac].
unfold after_failed_flush, steps, catch.
pose proof (steps_new_device b (new_device b h hd now) s1 Hf1 ltac:(done)) as Hn. unfold steps in Hn.
destruct (create devices_tbl _ s1) as [[v|e] s2]; [done|]. by destruct e.
Qed.

(** A device found by its digest belongs to the subscription. *)
Lemma by_hwid_run (P : SubscriptionDevice → bool) b h s o s' :
keyed devices_tbl (db s) → (∀ v, P v = true → same_hwid (sub_id b) h v = true) →
(l ← select_where devices_tbl P; scalar_one_or_none l) s = (Ok o, s') →
s' = s ∧ ∀ v, o = Some v → devices (db s) !! dev_id v = Some v ∧ dev_subscription_id v = sub_id b.
Proof using Type.
intros Hk HP. unfold mbind, M_bind, select_where, read, gets.
set (l := filter _ _). assert (Hl : ∀ v, v ∈ l → devices (db s) !! dev_id v = Some v ∧ dev_subscription_id v = sub_id b).
{ intros v [Hv [i Hi]%elem_of_rows]%list_elem_of_filter. pose proof (Hk i v Hi) as Hid. cbn in Hid, Hi. subst i.
  split; [done|]. specialize (HP v Hv). apply andb_prop in HP as [E%Z.eqb_eq _]. done. }
destruct l as [|v [|? ?]]; cbn; [intros [= <- <-]|intros [= <- <-]|done]; (split; [done|]).
- done.
- intros v' [= <-]. apply Hl. left.
Qed.

Lemma resolve_slots b hd now s :
subscriptions (db s) !! sub_id b = Some b → steps (_resolve_device_bundle_for_request cfg b hd now) s.
Proof using Type.
intros Hb HI. pose proof (proj2 HI) as Hkd. revert HI. change (steps (_resolve_device_bundle_for_request cfg b hd now) s).
unfold _resolve_device_bundle_for_request. destruct (dh_hwid hd) as [hwid|]; [|apply steps_keeps; keeps_tac].
assert (Hq : ∀ {A B} (m : SM A) (f : A → SM B), (∀ a s', m s = (Ok a, s') → s' = s) → keeps_slots m →
  (∀ a, m s = (Ok a, s) → steps (f a) s) → steps (m ≫= f) s).
{ intros A B m f Hs Hk Hf. apply steps_bind; [by apply steps_keeps|]. intros a s' E. pose proof (Hs a s' E). subst s'. by apply Hf. }
apply Hq; [unfold raise_if; by destruct (negb _); intros a s' [= <- <-]|keeps_tac|intros _ _].
apply Hq; [unfold _hash_hwid; by destruct (nonempty _); intros a s' [= <- <-]|unfold _hash_hwid; keeps_tac|intros h _].
unfold get_active_by_sub_and_hwid_hash, get_by_sub_and_hwid_hash.
assert (Hpa : ∀ v, same_hwid (sub_id b) h v && dev_is_active v = true → same_hwid (sub_id b) h v = true) by (by intros v [? _]%andb_prop).
apply Hq; [intros a s' E; by apply (by_hwid_run _ b h s a s' Hkd Hpa) in E as [-> _]|keeps_tac|intros known _].
destruct known as [v|]; [apply steps_keeps; keeps_tac|].
apply Hq; [intros a s' E; by apply (by_hwid_run _ b h s a s' Hkd ltac:(done)) in E as [-> _]|keeps_tac|intros revoked E].
apply (by_hwid_run _ b h s _ _ Hkd ltac:(done)) in E as [_ Hrev].
destruct (only_revoked revoked) as [v|] eqn:Er.
- assert (revoked = Some v) as -> by (unfold only_revoked in Er; destruct revoked as [v'|]; [destruct (dev_is_active v'); congruence|done]).
  destruct (Hrev v eq_refl) as [Hv Hvs]. apply steps_check_slot; [done|]. intros Hf.
  apply steps_bind; [apply (reactivate_slots b); [done|intros v' Hv'; congruence]|intros _ s1 _].
  apply steps_keeps. keeps_tac.
- apply steps_check_slot; [done|]. intros Hf. apply steps_bind; [by apply register_slots|intros v s1 _].
  apply steps_keeps. keeps_tac.
Qed.

Lemma any_changed_slots f l : (∀ k, keeps_slots (f k)) → keeps_slots (any_changed f l).
Proof using Type. intros Hf. induction l; cbn [any_changed]; keeps_tac. Qed.

(** [patch_device] keeps whose device it is. *)
Lemma set_device_active_slots b v active now s :
(active = true → free b (db s)) → (∀ v', devices (db s) !! dev_id v = Some v' → dev_subscription_id v' = sub_id b) →
steps (set_device_active v active now) s.
Proof using Type.
intros Hf Hv. unfold set_device_active. apply steps_bind; [|intros _ s1 _; apply steps_keeps; keeps_tac].
destruct active; [by apply (steps_take_slot b); [apply Hf|..]|]. apply steps_keeps, keeps_slots_device; [done|].
intros v' sid. unfold takes_slot. cbn. by rewrite andb_false_r.
Qed.

Lemma get_sub_run sid s o s' :
keyed subs_tbl (db s) → get_sub sid s = (Ok o, s') → s' = s ∧ subscriptions (db s) !! sub_id o = Some o ∧ sub_id o = sid.
Proof using Type.
intros Hk. unfold get_sub, mbind, M_bind, get_by_id, read, gets. cbn [t_rows subs_tbl].
destruct (subscriptions (db s) !! sid) as [b|] eqn:Hb; [|done]. intros [= <- <-].
pose proof (Hk sid b Hb) as Hid. cbn in Hid. by rewrite Hid.
Qed.

Lemma get_device_sound sid did s v s' :
keyed devices_tbl (db s) → get_device sid did s = (Ok v, s') →
s' = s ∧ devices (db s) !! dev_id v = Some v ∧ dev_subscription_id v = sid.
Proof using Type.
intros Hk. unfold get_device, mbind at 1, M_bind at 1, get_by_id_for_subscription.
unfold mbind, M_bind, select_where, read, gets. set (l := filter _ _).
assert (Hl : ∀ v, v ∈ l → devices (db s) !! dev_id v = Some v ∧ dev_subscription_id v = sid).
{ intros v' [[_ Hs%Z.eqb_eq]%andb_prop [i Hi]%elem_of_rows]%list_elem_of_filter.
  pose proof (Hk i v' Hi) as Hid. cbn in Hid, Hi. by subst i. }
destruct l as [|v' [|? ?]]; cbn; [done|intros [= <- <-]|done]. split; [done|]. apply Hl. left.
Qed.

(** The part the two device operations share: the row of the subscription, the row of the
    device, a reading of the clock. *)
Lemma device_op_slots {A} sid did (K : Subscription → SubscriptionDevice → Z → SM A) s :
(∀ b v now s', subscriptions (db s') !! sub_id b = Some b → devices (db s') !! dev_id v = Some v →
   dev_subscription_id v = sub_id b → steps (K b v now) s') →
steps (b ← get_sub sid; v ← get_device sid did; now ← utcnow; K b v now) s.
Proof using Type.
intros HK HI. pose proof HI as [Hks Hkd]. revert HI. change (steps (b ← get_sub sid; v ← get_device sid did; now ← utcnow; K b v now) s).
apply steps_bind; [apply steps_keeps; unfold get_sub; keeps_tac|]. intros b s1 E1.
apply get_sub_run in E1 as (-> & Hb & Hid); [|done].
apply steps_bind; [apply steps_keeps; unfold get_device, get_by_id_for_subscription; keeps_tac|]. intros v s2 E2.
apply get_device_sound in E2 as (-> & Hv & Hvs); [|done].
apply steps_bind; [apply steps_keeps; keeps_tac|]. intros now s3 [= <- <-]. apply HK; [done|done|congruence].
Qed.

Lemma restore_slots sid did s : steps (restore_device cfg sid did) s.
Proof using Type.
apply device_op_slots. intros b v now s' Hb Hv Hvs. apply steps_bind.
- destruct (dev_is_active v); cbn [negb when]; [apply steps_keeps; keeps_tac|].
  apply steps_check_slot; [done|]. intros Hf. apply (set_device_active_slots b); [done|]. intros v' Hv'. congruence.
- intros _ s1 _. apply steps_keeps. unfold _invalidate_payload_cache_by_token_hash.
  assert (∀ l, keeps_slots (any_changed (restore_resolved cfg b) l)).
  { intros l. apply any_changed_slots. intros k. unfold restore_resolved. keeps_tac. }
  keeps_tac.
Qed.

Lemma revoke_slots sid did s : steps (revoke_device cfg sid did) s.
Proof using Type.
apply device_op_slots. intros b v now s' Hb Hv Hvs. apply steps_bind.
- destruct (dev_is_active v); cbn [when]; [|apply steps_keeps; keeps_tac].
  apply (set_device_active_slots b); [done|]. intros v' Hv'. congruence.
- intros _ s1 _. apply steps_keeps. unfold _invalidate_payload_cache_by_token_hash.
  assert (∀ l, keeps_slots (any_changed (revoke_resolved cfg) l)).
  { intros l. apply any_changed_slots. intros k. unfold revoke_resolved. keeps_tac. }
  keeps_tac.
Qed.

Lemma patch_sub_slots sid active now :
keeps_slots (update_by_id subs_tbl sid (apply_sub_update (sub_patch (Some active) None None (Some now)))).
Proof using Type. by apply keeps_slots_sub. Qed.
#[local] Hint Resolve patch_sub_slots : keeps.

Lemma deactivate_slots sid : keeps_slots (deactivate cfg sid).
Proof using Type.
assert (∀ keys ids, keeps_slots (deactivate_keys cfg keys ids)).
{ intros keys ids. induction ids; cbn [deactivate_keys]; keeps_tac. }
unfold deactivate, get_sub, list_key_ids_for_subscription, list_keys_by_ids, _invalidate_payload_cache_by_token_hash. keeps_tac.
Qed.

Lemma activate_slots sid : keeps_slots (activate cfg sid).
Proof using Type.
assert (∀ b keys ids, keeps_slots (activate_keys cfg b keys ids)).
{ intros. apply keeps_slots_same, activate_keys_same, _. }
unfold activate, get_sub, list_key_ids_for_subscription, list_keys_by_ids, _invalidate_payload_cache_by_token_hash. keeps_tac.
Qed.

Lemma expire_slots batch : keeps_slots (expire_batch (sc_command_prefix cfg) batch).
Proof using Type.
assert (∀ ids now, keeps_slots (revoke_by_ids ids now)).
{ intros. apply keeps_slots_same. unfold revoke_by_ids. keeps_tac. }
assert (∀ kids ds reason now, keeps_slots (switch_placements (sc_command_prefix cfg) kids ds reason now)).
{ intros. apply keeps_slots_same. unfold switch_placements, bulk_set_desired_state_for_keys.
  pose proof (enqueue_for_placement_ids_same (sc_command_prefix cfg) slot_tables). keeps_tac. }
assert (∀ ids, keeps_slots (bulk_deactivate ids)).
{ intros ids. unfold bulk_deactivate. pose proof keeps_slots_subs_where. destruct ids; [keeps_tac|].
  keeps_step; [keeps_tac|intros now]. keeps_step; [by apply keeps_slots_subs_where|keeps_tac]. }
assert (∀ ids, keeps_slots (bulk_deactivate_by_subscription_ids ids)).
{ intros ids. unfold bulk_deactivate_by_subscription_ids. destruct ids; [keeps_tac|].
  keeps_step; [keeps_tac|intros now]. keeps_step; [|keeps_tac]. apply keeps_slots_devices_where; [done|].
  intros v sid. unfold takes_slot. cbn. by rewrite andb_false_r. }
unfold expire_batch. apply keeps_committing; [apply _|].
unfold list_expired_active, bulk_revoke_by_subscription_ids, invalidate_by_subscription_ids, invalidate_by_token_hashes.
keeps_tac.
Qed.

(** * Every sequence of operations *)

Inductive device_op :=
| OpFetch (sid : Z) (headers : DeviceClientHeaders) (now : Z)
| OpRevokeDevice (sid did : Z)
| OpRestoreDevice (sid did : Z)
| OpDeactivate (sid : Z)
| OpActivate (sid : Z)
| OpExpire (batch_size : Z).

(** A request of a client resolves its subscription, then its device. *)
Definition run_device_op (s : session) (op : device_op) : session :=
match op with
| OpFetch sid hd now => (run_request (b ← get_sub sid; _resolve_device_bundle_for_request cfg b hd now) s).2
| OpRevokeDevice sid did => (run_request (revoke_device cfg sid did) s).2
| OpRestoreDevice sid did => (run_request (restore_device cfg sid did) s).2
| OpDeactivate sid => (run_request (deactivate cfg sid) s).2
| OpActivate sid => (run_request (activate cfg sid) s).2
| OpExpire batch => (expire_batch (sc_command_prefix cfg) batch s).2
end.

Lemma steps_request {A} (m : SM A) s : steps m s → guarded rows_keyed slots_rel (db s) (db (run_request m s).2).
Proof using Type.
unfold steps, run_request. destruct (m s) as [[a|e] s']; cbn; [done|]. intros _ HI. split; [done|reflexivity].
Qed.

Lemma device_op_rel op s : guarded rows_keyed slots_rel (db s) (db (run_device_op s op)).
Proof using Type.
destruct op; cbn [run_device_op]; [|apply steps_request..|apply expire_slots].
- intros HI. pose proof (proj1 HI) as Hks. revert HI. apply steps_request.
  apply steps_bind; [apply steps_keeps; unfold get_sub; keeps_tac|]. intros b s1 E.
  apply get_sub_run in E as (-> & Hb & _); [|done]. by apply resolve_slots.
- apply revoke_slots.
- apply restore_slots.
- apply steps_keeps, deactivate_slots.
- apply steps_keeps, activate_slots.
Qed.

(** C10: The number of devices of a subscription stays within its limit: after any sequence
    of requests of clients for their payload, revocations and restores of devices,
    deactivations, activations and expiry ticks, in any order and with any of them
    failing, the active devices of a subscription are at most its effective limit (the
    larger of the override and the plan's devices with the paid slots, else the default),
    or as many as there were at the start if that was already more. *)
Theorem device_limit_respected ops s sid b :
keyed subs_tbl (db s) → keyed devices_tbl (db s) → subscriptions (db s) !! sid = Some b →
slots_taken (db (foldl run_device_op s ops)) sid ≤ Z.max (slots_taken (db s) sid) (slot_limit cfg (db s) b).
Proof using Type.
intros Hs Hd Hb.
assert (Hall : guarded rows_keyed slots_rel (db s) (db (foldl run_device_op s ops))).
{ clear. revert s. induction ops as [|op ops IH]; intros s; cbn; [intros HI; split; [done|reflexivity]|].
  transitivity (db (run_device_op s op)); [apply device_op_rel|apply IH]. }
destruct (Hall (conj Hs Hd)) as [_ [_ H]]. by apply H.
Qed.
End Limit.
