(* ===== verification/ExpiryProps.v ===== *)
(** The end of subscriptions: a tick of the expiration reconciler takes the access of
    everything that ran out. *)

From stdpp Require Import base gmap strings list sorting.
From S2P Require Import Prelude Decimal Errors RouteModels BillingModels FleetModels Session Uuid NodeDisplay Tables BillingDelivery FleetTables Routing Placements PlacementProps PlacementCommands PlacementWorld Keys Routes Devices DeviceProps Traffic.
Local Open Scope Z_scope.

(** Keys of the subscriptions that still work. *)
Definition live_key_of (sids : list Z) (k : VpnKey) : bool :=
  match key_subscription_id k with Some sid => bool_decide (sid ∈ sids) | None => false end &&
  key_is_active k && negb (is_revoked k).

Lemma bulk_revoke_run sids s :
  access_world s → sids ≠ [] →
  ∃ ids s1, bulk_revoke_by_subscription_ids sids s = (Ok ids, s1) ∧ access_world s1 ∧
    rest (db s1) = rest (db s) ∧ placements (db s1) = placements (db s) ∧ outbox (db s1) = outbox (db s) ∧
    (∀ kid k, vpn_keys (db s) !! kid = Some k → is_Some (vpn_keys (db s1) !! kid) ∧ (kid ∈ ids ↔ live_key_of sids k = true)) ∧
    (∀ kid k, vpn_keys (db s) !! kid = Some k → live_key_of sids k = false → vpn_keys (db s1) !! kid = Some k) ∧
    ∀ kid k', vpn_keys (db s1) !! kid = Some k' → ∃ k, vpn_keys (db s) !! kid = Some k ∧ same_client k k' ∧
      is_revoked k' = (is_revoked k || live_key_of sids k).
Proof.
  intros Hw Hne. set (l := filter (λ k, live_key_of sids k = true) (rows (vpn_keys (db s)))).
  assert (Hids : ∀ kid k, vpn_keys (db s) !! kid = Some k → kid ∈ key_id <$> l ↔ live_key_of sids k = true).
  { intros kid k Hk. pose proof (proj2 Hw kid k Hk) as Hid. cbn in Hid. split.
    - intros (k' & E & [Hl [i Hi]%elem_of_rows]%list_elem_of_filter)%list_elem_of_fmap.
      pose proof (proj2 Hw i k' Hi) as Hi'. cbn in Hi'. assert (k = k') as -> by congruence. done.
    - intros Hl. apply list_elem_of_fmap. exists k. split; [done|]. apply list_elem_of_filter. split; [done|]. apply elem_of_rows. eauto. }
  assert (Hrun : bulk_revoke_by_subscription_ids sids s =
    (match key_id <$> l with [] => mret [] | ids => revoke_by_ids ids (clock s (ticks s)) ;; mret ids end) (tick s)).
  { unfold bulk_revoke_by_subscription_ids. by destruct sids. }
  destruct (key_id <$> l) as [|i ids] eqn:El.
  { exists [], (tick s). split_and!; [done|by apply access_world_tick|done..| | |].
    { intros kid k Hk. split; [by exists k|by apply Hids]. }
    { done. }
    intros kid k' Hk'. exists k'. split_and!; [done|done|]. destruct (live_key_of sids k') eqn:E; [|by rewrite orb_false_r].
    apply (Hids kid k' Hk') in E. by apply not_elem_of_nil in E. }
  destruct (update_keys_run (λ k, bool_decide (key_id k ∈ i :: ids))
    (λ k, write_key (key_used_traffic_bytes k) true (valid_until k) (clock s (ticks s)) k) (tick s)) as (s1 & Hup & Hw1 & H1 & H2 & H3 & _ & _ & H4);
    [by apply access_world_tick|done|].
  exists (i :: ids), s1. split_and!; try done.
  - rewrite Hrun. unfold mbind, M_bind, revoke_by_ids, mbind, M_bind. by rewrite Hup.
  - intros kid k Hk. split; [|by apply Hids]. rewrite H4. cbn. rewrite Hk. by eexists.
  - intros kid k Hk El'. rewrite H4. cbn. rewrite Hk. cbn. rewrite bool_decide_false; [done|].
    pose proof (proj2 Hw kid k Hk) as Hid. cbn in Hid. rewrite Hid, (Hids kid k Hk). congruence.
  - intros kid k'. rewrite H4. intros (k & Hk & ->)%fmap_Some. cbn in Hk. exists k. split; [done|].
    pose proof (proj2 Hw kid k Hk) as Hid. cbn in Hid. case_bool_decide as Hin.
    + split; [done|]. cbn. symmetry. apply orb_true_intro. right. rewrite Hid in Hin. by apply (Hids kid k Hk).
    + split; [done|]. destruct (live_key_of sids k) eqn:E; [|by rewrite orb_false_r].
      exfalso. apply Hin. rewrite Hid. by apply (Hids kid k Hk).
Qed.

(** ** The subscriptions and their devices *)

Lemma bulk_deactivate_run ids s :
  keyed subs_tbl (db s) → ids ≠ [] →
  ∃ s1, bulk_deactivate ids s = (Ok (Z.of_nat (length ids)), s1) ∧ keyed subs_tbl (db s1) ∧ next_uuid s1 = next_uuid s ∧
    set_subscriptions ∅ (db s1) = set_subscriptions ∅ (db s) ∧
    ∀ i, match subscriptions (db s) !! i with
         | Some b => ∃ b', subscriptions (db s1) !! i = Some b' ∧ (sub_id b ∉ ids → b' = b) ∧ sub_id b' = sub_id b ∧
                       (sub_id b ∈ ids → sub_is_active b' = false)
         | None => subscriptions (db s1) !! i = None
         end.
Proof.
  intros Hk Hne.
  destruct (update_where_ok subs_tbl (λ b, bool_decide (sub_id b ∈ ids))
    (λ b, apply_sub_update (sub_patch (Some false) None None None) (touch_sub (clock s (ticks s)) b)) (tick s) Hk)
    as (s1 & Hrun & Hk1 & Hs1 & Hrows); [done|intros d b; by apply subs_check_same_tokens|].
  exists s1. split_and!; [|done|by subst s1| |].
  - unfold bulk_deactivate. destruct ids as [|j l]; [done|]. unfold mbind at 1, M_bind at 1, utcnow. fold (tick s).
    unfold mbind, M_bind. by rewrite Hrun.
  - subst s1. cbn. apply (puts_frame subs_tbl _ (λ d, set_subscriptions ∅ d)).
  - intros i. specialize (Hrows i). cbn in Hrows. destruct (subscriptions (db s) !! i) as [b|]; [|done].
    eexists. split; [exact Hrows|]. by case_bool_decide.
Qed.

Lemma bulk_deactivate_devices_run sids s :
  keyed devices_tbl (db s) → sids ≠ [] →
  ∃ n s1, bulk_deactivate_by_subscription_ids sids s = (Ok n, s1) ∧ next_uuid s1 = next_uuid s ∧
    set_devices ∅ (db s1) = set_devices ∅ (db s) ∧
    (∀ i v, devices (db s) !! i = Some v → dev_subscription_id v ∉ sids → devices (db s1) !! i = Some v) ∧
    ∀ i v', devices (db s1) !! i = Some v' → dev_subscription_id v' ∈ sids → dev_is_active v' = false.
Proof.
  intros Hk Hne. set (f := λ v, patch_device {| dpu_is_active := Some false; dpu_last_seen_at := None; dpu_updated_at := None |}
    (touch_device (clock s (ticks s)) v)).
  destruct (update_where_ok devices_tbl (λ v, bool_decide (dev_subscription_id v ∈ sids) && dev_is_active v) f (tick s) Hk)
    as (s1 & Hrun & _ & Hs1 & Hrows); [done|intros d v; by apply device_check_same|].
  eexists _, s1. split_and!.
  - unfold f in Hrun. unfold bulk_deactivate_by_subscription_ids. destruct sids as [|j l]; [done|]. unfold mbind at 1, M_bind at 1, utcnow. fold (tick s).
    unfold mbind, M_bind. by rewrite Hrun.
  - by subst s1.
  - subst s1. cbn. apply (puts_frame devices_tbl _ (λ d, set_devices ∅ d)).
  - intros i v Hv Hn. specialize (Hrows i). cbn in Hrows. rewrite Hrows, Hv. cbn. by rewrite bool_decide_false.
  - intros i v'. specialize (Hrows i). cbn in Hrows. rewrite Hrows. intros (v & Hv & ->)%fmap_Some.
    destruct (bool_decide _ && _) eqn:E; [done|]. intros Hin. rewrite bool_decide_true in E by done. done.
Qed.

(** * The tick *)

(** The subscription has no access any more: it and its devices are off, its keys are
    revoked, and every placement of a key that worked is to be removed, which the nodes
    of the placements that were wanted have been told. *)
Definition access_ended (d d' : database) (sid : Z) : Prop :=
  (∃ b', subscriptions d' !! sid = Some b' ∧ sub_is_active b' = false) ∧
  (∀ i v, devices d' !! i = Some v → dev_subscription_id v = sid → dev_is_active v = false) ∧
  (∀ kid k, vpn_keys d' !! kid = Some k → key_subscription_id k = Some sid → key_is_active k = true → is_revoked k = true) ∧
  (∀ i p' k, placements d' !! i = Some p' → pl_is_active p' = true →
     vpn_keys d !! pl_key_id p' = Some k → key_subscription_id k = Some sid → key_is_active k = true → is_revoked k = false →
     desired_state p' = desired_inactive ∧
     ∃ p, placements d !! i = Some p ∧
       (desired_state p = desired_inactive ∨ known d' (PlacementCommandId i (op_version p') None))).

(** What belongs to no subscription of [sids]. *)
Definition key_outside (sids : list Z) (k : VpnKey) : Prop :=
  ∀ sid, key_subscription_id k = Some sid → sid ∉ sids.

(** Subscriptions, devices, keys and placements of anyone else are as they were. *)
Definition others_kept (sids : list Z) (d d' : database) : Prop :=
  (∀ i b, subscriptions d !! i = Some b → i ∉ sids → subscriptions d' !! i = Some b) ∧
  (∀ i v, devices d !! i = Some v → dev_subscription_id v ∉ sids → devices d' !! i = Some v) ∧
  (∀ i k, vpn_keys d !! i = Some k → key_outside sids k → vpn_keys d' !! i = Some k) ∧
  (∀ i p k, placements d !! i = Some p → vpn_keys d !! pl_key_id p = Some k → key_outside sids k →
     placements d' !! i = Some p).

Lemma key_outside_live sids k : key_outside sids k → live_key_of sids k = false.
Proof.
  intros H. unfold live_key_of. destruct (key_subscription_id k) as [sid|] eqn:E; [|done].
  by rewrite bool_decide_false by (by apply H).
Qed.

(** The subscriptions a tick takes: those that ran out, the longest first. *)
Definition expired_batch (batch_size : Z) (now : Z) (d : database) : list Subscription :=
  take (Z.to_nat (Z.max 1 batch_size))
    (order_by_asc (λ b, default 0 (sub_expires_at b)) (filter (λ b, expired_active now b = true) (rows (subscriptions d)))).

Lemma expired_batch_sound batch now d b :
  keyed subs_tbl d → b ∈ expired_batch batch now d → subscriptions d !! sub_id b = Some b ∧ expired_active now b = true.
Proof.
  intros Hk Hb. unfold expired_batch in Hb. apply (subseteq_take) in Hb.
  unfold order_by_asc in Hb. rewrite merge_sort_Permutation in Hb.
  apply list_elem_of_filter in Hb as [He [i Hi]%elem_of_rows]. pose proof (Hk i b Hi) as Hid. cbn in Hid. by subst i.
Qed.

Lemma expired_batch_complete batch now d i b :
  (length (filter (λ b, expired_active now b = true) (rows (subscriptions d))) ≤ Z.to_nat (Z.max 1 batch))%nat →
  subscriptions d !! i = Some b → expired_active now b = true → b ∈ expired_batch batch now d.
Proof.
  intros Hlen Hb He. unfold expired_batch. rewrite firstn_all2; [|unfold order_by_asc; by rewrite merge_sort_Permutation].
  unfold order_by_asc. rewrite merge_sort_Permutation. apply list_elem_of_filter. split; [done|]. apply elem_of_rows. by exists i.
Qed.

Lemma invalidate_run sids s : ∃ s', invalidate_by_subscription_ids sids s = (Ok tt, s') ∧ db s' = db s.
Proof.
  unfold invalidate_by_subscription_ids, invalidate_by_token_hashes. destruct sids as [|i sids]; [by exists s|].
  unfold mbind, M_bind, select_where, read, gets.
  generalize (concat ((λ b, sub_token_hash b :: match prev_token_hash b with Some h => [h] | None => [] end) <$>
    filter (λ r, bool_decide (sub_id r ∈ i :: sids) = true) (rows (t_rows subs_tbl (db s))))) as hashes.
  intros hashes. revert s. induction hashes as [|h hashes IH]; intros s; cbn; [by exists s|].
  unfold mbind, M_bind, when. destruct (nonempty h).
  - destruct (IH {| db := db s; clock := clock s; ticks := ticks s; next_uuid := next_uuid s;
      effects := effects s ++ [InvalidatePayloadCache h] |}) as (s' & Hrun & Hdb). by exists s'.
  - destruct (IH s) as (s' & Hrun & Hdb). by exists s'.
Qed.

(** [if revoked_key_ids: ...]: as the switch itself, which does nothing for no keys. *)
Lemma switch_revoked_run pfx kids ds reason now s :
  (match kids with [] => mret [] | _ => switch_placements pfx kids ds reason now end) s = switch_placements pfx kids ds reason now s.
Proof. by destruct kids. Qed.

(** The writes of a tick. *)
Lemma end_access_run {A} pfx now sids s (K : list Z → list Z → SM A) :
  access_world s → keyed subs_tbl (db s) → keyed devices_tbl (db s) → sids ≠ [] →
  ∃ revoked affected s',
    (revoked ← bulk_revoke_by_subscription_ids sids;
     affected ← match revoked with
                | [] => mret []
                | _ => switch_placements pfx revoked desired_inactive "subscription_expired" now
                end;
     bulk_deactivate sids ;;
     bulk_deactivate_by_subscription_ids sids ;;
     invalidate_by_subscription_ids sids ;;
     K revoked affected) s = K revoked affected s' ∧
    (∀ sid b, sid ∈ sids → subscriptions (db s) !! sid = Some b → access_ended (db s) (db s') sid) ∧
    others_kept sids (db s) (db s') ∧
    ∀ i, match subscriptions (db s) !! i with
         | Some b => ∃ b', subscriptions (db s') !! i = Some b' ∧ (sub_id b ∉ sids → b' = b) ∧ sub_id b' = sub_id b ∧
                       (sub_id b ∈ sids → sub_is_active b' = false)
         | None => subscriptions (db s') !! i = None
         end.
Proof.
  intros Hw Hks Hkd Hne.
  destruct (bulk_revoke_run sids s Hw Hne) as (revoked & s1 & Hrun1 & Hw1 & Hr1 & Hp1 & Ho1 & Hids & Hkept & Hkeys).
  destruct (switch_placements_run pfx revoked desired_inactive "subscription_expired" now s1 Hw1)
    as (affected & s2 & Hrun2 & Hw2 & Haw2 & Ho2 & Hpkept & Hrows).
  assert (E1 : subscriptions (db s2) = subscriptions (db s)).
  { rewrite (away_field subscriptions (db s1) (db s2)) by done. by apply (rest_field subscriptions). }
  assert (E2 : devices (db s2) = devices (db s)).
  { rewrite (away_field devices (db s1) (db s2)) by done. by apply (rest_field devices). }
  destruct (bulk_deactivate_run sids s2) as (s3 & Hrun3 & _ & _ & H3 & Hsubs); [intros i b; cbn; rewrite E1; apply Hks|done|].
  assert (E3 : devices (db s3) = devices (db s)) by (rewrite <-E2; change (devices (set_subscriptions ∅ (db s3)) = devices (db s2)); by rewrite H3).
  destruct (bulk_deactivate_devices_run sids s3) as (n & s4 & Hrun4 & _ & H4 & Hdkept & Hdev); [intros i v; cbn; rewrite E3; apply Hkd|done|].
  destruct (invalidate_run sids s4) as (s5 & Hrun5 & H5).
  assert (Hfin : ∀ {B} (f : database → B), (∀ d, f (set_subscriptions ∅ d) = f d) → (∀ d, f (set_devices ∅ d) = f d) → f (db s5) = f (db s2)).
  { intros B f F1 F2. rewrite H5, <-F2, H4, F2, <-F1, H3, F1. done. }
  assert (Hsub5 : subscriptions (db s5) = subscriptions (db s3)) by (rewrite H5; change (subscriptions (set_devices ∅ (db s4)) = subscriptions (db s3)); by rewrite H4).
  exists revoked, affected, s5. split_and!.
  - unfold mbind at 1, M_bind at 1. rewrite Hrun1. unfold mbind at 1, M_bind at 1. rewrite switch_revoked_run, Hrun2.
    unfold mbind at 1, M_bind at 1. rewrite Hrun3. unfold mbind at 1, M_bind at 1. rewrite Hrun4.
    unfold mbind at 1, M_bind at 1. by rewrite Hrun5.
  - intros sid b Hin Hb. pose proof (Hks sid b Hb) as Hid. cbn in Hid. split_and!.
    + specialize (Hsubs sid). rewrite E1, Hb in Hsubs. destruct Hsubs as (b' & Hb' & _ & _ & Hoff). exists b'.
      rewrite Hsub5. split; [done|]. apply Hoff. by rewrite Hid.
    + intros i v. rewrite H5. intros Hv <-. by apply (Hdev i v).
    + intros kid k'. rewrite (Hfin _ vpn_keys) by done. rewrite (away_field vpn_keys (db s1) (db s2)) by done.
      intros (k & Hk & Hsc & ->)%Hkeys Hsid Ha. destruct (is_revoked k) eqn:Er; [done|]. cbn. unfold live_key_of.
      destruct Hsc as (_ & _ & Ea & _ & _ & Es). rewrite <-Es, <-Ea, Hsid, Ha, Er. cbn. by rewrite bool_decide_true.
    + intros i p' k. rewrite (Hfin _ placements) by done. intros Hp' Ha Hk Hsid Hka Hkr.
      destruct (Hrows i p' Hp') as (p & Hp & Ek & Ea & _ & Hsw). rewrite Hp1 in Hp. rewrite Ek in Hk.
      destruct Hsw as [Hoff Htold]; [|congruence|].
      { apply (proj2 (Hids _ k Hk)). unfold live_key_of. rewrite Hsid, Hka, Hkr. cbn. by rewrite bool_decide_true. }
      split; [done|]. exists p. split; [done|].
      destruct (proj1 (Hids _ k Hk)) as [k1 Hk1]. destruct (Hkeys _ k1 Hk1) as (k0 & Hk0 & Hsc & _).
      assert (k0 = k) as -> by congruence.
      destruct (Htold k1 Hk1) as [?|Hkn]; [destruct Hsc as (_ & _ & Ea1 & _); congruence|by left|right].
      destruct Hkn as (j & r & Hj & Hm). exists j, r. rewrite (Hfin _ outbox) by done. done.
  - split_and!.
    + intros i b Hb Hn. specialize (Hsubs i). rewrite E1, Hb in Hsubs. destruct Hsubs as (b' & Hb' & Hsame & _).
      pose proof (Hks i b Hb) as Hid. cbn in Hid. rewrite Hsub5, Hb', Hsame; congruence.
    + intros i v Hv Hn. rewrite H5. apply Hdkept; [by rewrite E3|done].
    + intros i k Hk Hout. rewrite (Hfin _ vpn_keys), (away_field vpn_keys (db s1) (db s2)) by done.
      by apply Hkept, key_outside_live.
    + intros i p k Hp Hk Hout. rewrite (Hfin _ placements) by done. apply Hpkept; [by rewrite Hp1|].
      rewrite (proj2 (Hids _ k Hk)), key_outside_live by done. done.
  - intros i. specialize (Hsubs i). rewrite E1 in Hsubs. rewrite Hsub5. done.
Qed.

(** C13: A subscription that ran out loses its access: a tick of the expiration reconciler
    always succeeds on a consistent database; for each subscription of its batch the
    subscription and its devices are switched off, all its keys are revoked, and every
    placement of a key that worked is to be removed, with the command enqueued for its
    node; the batch is the subscriptions that ran out longest ago, and when they all fit
    into it no active subscription is left that had run out at the time of the tick;
    every other subscription, one that had run out but did not fit into the batch included,
    keeps its row, its devices, its keys and their placements. *)
Theorem expiry_ends_access pfx batch s :
  access_world s → keyed subs_tbl (db s) → keyed devices_tbl (db s) →
  let now := clock s (ticks s) in
  let expired := expired_batch batch now (db s) in
  ∃ r s', expire_batch pfx batch s = (Ok (r, expired), s') ∧
    subscriptions_expired r = Z.of_nat (length expired) ∧
    (∀ b, b ∈ expired → access_ended (db s) (db s') (sub_id b)) ∧
    ((length (filter (λ b, expired_active now b = true) (rows (subscriptions (db s)))) ≤ Z.to_nat (Z.max 1 batch))%nat →
       ∀ i b, subscriptions (db s') !! i = Some b → expired_active now b = false) ∧
    others_kept (sub_id <$> expired) (db s) (db s').
Proof.
  intros Hw Hks Hkd now expired.
  pose proof (λ b, expired_batch_sound batch now (db s) b Hks) as Hexp. fold expired in Hexp.
  unfold expire_batch, run_committing. unfold mbind at 1, M_bind at 1, utcnow. fold (tick s) now.
  unfold mbind at 1, M_bind at 1, list_expired_active at 1. unfold mbind at 1, M_bind at 1, select_where, read, gets.
  unfold mret at 1, M_ret at 1. change (take _ _) with expired.
  destruct expired as [|b0 l] eqn:El.
  - cbn. eexists _, _. split; [done|]. split; [done|]. split; [by intros b ?%not_elem_of_nil|]. split; [|done].
    intros Hlen i b Hb. destruct (expired_active now b) eqn:E; [|done]. exfalso.
    apply (not_elem_of_nil b). rewrite <-El. by eapply expired_batch_complete.
  - rewrite <-El in *. set (sids := sub_id <$> expired).
    destruct (end_access_run pfx now sids (tick s) (λ revoked affected,
      mret ({| subscriptions_expired := Z.of_nat (length sids); keys_revoked := Z.of_nat (length revoked);
               placements_affected := Z.of_nat (length affected) |}, expired, true)))
      as (revoked & affected & s' & Hrun & Hend & Hkept & Hsubs); [by apply access_world_tick|done|done|unfold sids; by rewrite El|].
    rewrite Hrun. cbn. eexists _, s'. split; [done|]. split; [cbn; unfold sids; by rewrite length_fmap|]. split_and!.
    + intros b Hb. destruct (Hexp b Hb) as [Hrow _]. apply (Hend _ b); [by apply list_elem_of_fmap_2|done].
    + intros Hlen i b' Hb'. specialize (Hsubs i). cbn in Hsubs. destruct (subscriptions (db s) !! i) as [b|] eqn:Hb; [|congruence].
      destruct Hsubs as (b2 & Hb2 & Hsame & _ & Hoff). assert (b' = b2) as -> by congruence.
      destruct (decide (sub_id b ∈ sids)) as [Hin|Hin]; [unfold expired_active; by rewrite (Hoff Hin)|].
      rewrite (Hsame Hin). destruct (expired_active now b) eqn:E; [|done]. exfalso. apply Hin. unfold sids.
      apply list_elem_of_fmap_2. by eapply expired_batch_complete.
    + exact Hkept.
Qed.
