(* ===== verification/TrafficProps.v ===== *)
(** Traffic accounting: what a report charges, the limit of a plan, and that a message
    counts once. *)

From stdpp Require Import base gmap strings list sorting.
From S2P Require Import Prelude Decimal Errors RouteModels BillingModels FleetModels Session Uuid NodeDisplay Tables Plans BillingDelivery FleetTables Routing Placements PlacementProps PlacementCommands PlacementWorld Keys Routes Devices DeviceProps Traffic ExpiryProps.
Local Open Scope Z_scope.

(** * The charges of a report *)

(** What an item charges: the key it names and the bytes. *)
Definition charge_of (keys : list VpnKey) (t : UserTrafficIn) : option (Z * Z) :=
  match find (λ k, String.eqb (client_id k) (identifier t)) keys with
  | Some k => if delta_bytes t <=? 0 then None else Some (key_id k, delta_bytes t)
  | None => None
  end.

Definition charges (keys : list VpnKey) (items : list UserTrafficIn) : list (Z * Z) := omap (charge_of keys) items.

(** The bytes charged to the ids that satisfy [P]. *)
Fixpoint charged (P : Z → bool) (l : list (Z * Z)) : Z :=
  match l with
  | [] => 0
  | c :: l => (if P c.1 then c.2 else 0) + charged P l
  end.

Lemma charged_app P l1 l2 : charged P (l1 ++ l2) = charged P l1 + charged P l2.
Proof. induction l1; cbn; [done|]. rewrite IHl1. lia. Qed.

Lemma charges_positive keys items c : c ∈ charges keys items → 0 < c.2.
Proof.
  intros (t & _ & H)%list_elem_of_omap. unfold charge_of in H. destruct (find _ _); [|done].
  destruct (Z.leb_spec (delta_bytes t) 0); [done|]. injection H as <-. cbn. lia.
Qed.

Lemma charged_nonneg P keys items : 0 ≤ charged P (charges keys items).
Proof.
  assert (H : ∀ c, c ∈ charges keys items → 0 < c.2) by apply charges_positive.
  revert H. generalize (charges keys items) as l. induction l as [|c l IH]; intros H; cbn; [lia|].
  pose proof (H c ltac:(left)). specialize (IH ltac:(intros; apply H; by right)). destruct (P c.1); lia.
Qed.

Lemma charged_none P l : (∀ c, c ∈ l → P c.1 = false) → charged P l = 0.
Proof.
  induction l as [|c l IH]; intros H; cbn; [done|]. rewrite (H c) by left. rewrite IH; [done|]. intros; apply H. by right.
Qed.

(** Of which subscription a loaded key is. *)
Definition sub_of (keys : list VpnKey) (kid : Z) : option Z :=
  find (λ k, key_id k =? kid) keys ≫= key_subscription_id.

(** The loaded keys: distinct, and named by one client id each. *)
Record loaded_keys (keys : list VpnKey) : Prop := {
  lk_ids : NoDup (key_id <$> keys);
  lk_clients : ∀ k k', k ∈ keys → k' ∈ keys → client_id k = client_id k' → k = k';
}.

Definition charge_row (now : Z) (l : list (Z * Z)) (k : VpnKey) : VpnKey :=
  if bool_decide (key_id k ∈ l.*1) then charge_key now (charged (Z.eqb (key_id k)) l) k else k.

Lemma find_fmap {A} (f : A → A) (P : A → bool) l : (∀ x, P (f x) = P x) → find P (f <$> l) = f <$> find P l.
Proof. intros H. induction l as [|x l IH]; cbn; [done|]. rewrite H. by destruct (P x). Qed.

Lemma find_key_id (keys : list VpnKey) k : NoDup (key_id <$> keys) → k ∈ keys → find (λ k', key_id k' =? key_id k) keys = Some k.
Proof.
  intros Hnd Hin. destruct (find _ keys) as [k'|] eqn:E.
  - apply find_key_spec in E as [Hk' Hid]. f_equal. apply list_elem_of_lookup in Hin as [i Hi], Hk' as [j Hj].
    assert (i = j) as ->; [|congruence]. eapply NoDup_lookup; [done| |]; rewrite list_lookup_fmap; [by rewrite Hi|rewrite Hj; cbn; congruence].
  - exfalso. apply list_elem_of_In in Hin. pose proof (find_none _ _ E k Hin) as H. cbn in H. by rewrite Z.eqb_refl in H.
Qed.

Section Charge.
Context (now : Z) (keys : list VpnKey).

Lemma charge_row_client l k : client_id (charge_row now l k) = client_id k.
Proof using Type. unfold charge_row. by case_bool_decide. Qed.
Lemma charge_row_id l k : key_id (charge_row now l k) = key_id k.
Proof using Type. unfold charge_row. by case_bool_decide. Qed.
Lemma charge_row_sub l k : key_subscription_id (charge_row now l k) = key_subscription_id k.
Proof using Type. unfold charge_row. by case_bool_decide. Qed.

(** One more charge on a row. *)
Lemma charge_row_snoc l kid delta k :
charge_row now (l ++ [(kid, delta)]) k =
if key_id k =? kid then charge_key now delta (charge_row now l k) else charge_row now l k.
Proof using Type.
unfold charge_row. rewrite fmap_app, charged_app. cbn [fmap list_fmap charged fst snd].
destruct (Z.eqb_spec (key_id k) kid) as [E|E].
- rewrite (bool_decide_true (key_id k ∈ l.*1 ++ [kid])) by set_solver. case_bool_decide as Hin.
  + unfold charge_key, write_key. cbn. f_equal. lia.
  + rewrite charged_none; [unfold charge_key, write_key; cbn; f_equal; lia|].
    intros c Hc. apply Z.eqb_neq. intros Ec. apply Hin. rewrite Ec. by apply list_elem_of_fmap_2.
- repeat case_bool_decide; try set_solver. by rewrite !Z.add_0_r.
Qed.

(** The first loop, as charges. *)
Lemma ingest_fold items :
loaded_keys keys →
let st := foldl (ingest_item now) {| is_keys := keys; is_deltas := ∅; is_history := [] |} items in
let l := charges keys items in
is_keys st = charge_row now l <$> keys ∧ is_history st = l ∧
∀ sid, is_deltas st !! sid =
  if existsb (λ c, bool_decide (sub_of keys c.1 = Some sid)) l
  then Some (charged (λ kid, bool_decide (sub_of keys kid = Some sid)) l) else None.
Proof using Type.
intros Hlk. induction items as [|t items IH] using rev_ind; cbv zeta.
{ cbn. split_and!; [|done|done]. by rewrite <-(list_fmap_id keys) at 1. }
rewrite foldl_snoc. destruct IH as (Hk & Hh & Hd). set (st := foldl _ _ items) in *.
unfold charges. rewrite omap_app. fold (charges keys items). set (l := charges keys items) in *. cbn [omap list_omap].
unfold ingest_item, charge_of.
rewrite Hk, (find_fmap (charge_row now l)) by (intros k; by rewrite charge_row_client).
destruct (find (λ k, String.eqb (client_id k) (identifier t)) keys) as [k|] eqn:Hf; cbn [fmap option_fmap option_map].
2:{ rewrite app_nil_r. by split_and!. }
destruct (delta_bytes t <=? 0); [rewrite app_nil_r; by split_and!|]. cbn [is_keys is_history is_deltas].
apply find_some in Hf as [Hin%list_elem_of_In Hc%String.eqb_eq]. rewrite charge_row_id, charge_row_sub.
split_and!.
- rewrite <-list_fmap_compose. apply list_fmap_ext. intros i k' _. cbn. by rewrite charge_row_snoc, charge_row_id.
- by rewrite Hh.
- intros sid. rewrite existsb_app, charged_app. cbn [existsb charged fst snd]. rewrite orb_false_r, Z.add_0_r.
  assert (Hs : sub_of keys (key_id k) = key_subscription_id k) by (unfold sub_of; by rewrite find_key_id by (done || apply Hlk)).
  rewrite Hs. destruct (key_subscription_id k) as [sid'|].
  + rewrite lookup_insert. case_decide as E.
    * subst sid'. rewrite bool_decide_true, orb_true_r by done. rewrite Hd. f_equal.
      destruct (existsb _ l) eqn:Ex; [done|]. cbn. rewrite charged_none; [done|].
      intros c Hcin. destruct (bool_decide _) eqn:Eb; [|done]. exfalso. apply not_true_iff_false in Ex. apply Ex.
      apply existsb_exists. exists c. split; [by apply list_elem_of_In|done].
    * rewrite bool_decide_false, orb_false_r, Z.add_0_r by congruence. apply Hd.
  + rewrite bool_decide_false, orb_false_r, Z.add_0_r by done. apply Hd.
Qed.
End Charge.

(** ** In terms of the report *)

(** The bytes the items report for a client id. *)
Fixpoint reported (c : string) (items : list UserTrafficIn) : Z :=
  match items with
  | [] => 0
  | t :: items => (if String.eqb (identifier t) c then Z.max 0 (delta_bytes t) else 0) + reported c items
  end.

(** The bytes the items report for the keys. *)
Fixpoint reported_all (keys : list VpnKey) (items : list UserTrafficIn) : Z :=
  match keys with
  | [] => 0
  | k :: keys => reported (client_id k) items + reported_all keys items
  end.

Definition clients_distinct (keys : list VpnKey) : Prop :=
  ∀ k k', k ∈ keys → k' ∈ keys → client_id k = client_id k' → k = k'.

Lemma reported_nil c : reported c [] = 0.
Proof. done. Qed.

Lemma reported_all_nil keys : reported_all keys [] = 0.
Proof. induction keys; cbn; lia. Qed.

(** An item is charged to at most one of some distinct keys. *)
Lemma reported_all_cons keys t items :
  NoDup keys → clients_distinct keys →
  reported_all keys (t :: items) =
  (if existsb (λ k, String.eqb (client_id k) (identifier t)) keys then Z.max 0 (delta_bytes t) else 0) + reported_all keys items.
Proof.
  induction keys as [|k keys IH]; intros Hnd Hu; cbn [reported_all existsb]; [lia|].
  apply NoDup_cons in Hnd as [Hk Hnd]. rewrite IH; [|done|intros ? ? ? ?; apply Hu; by right]. cbn [reported].
  rewrite (String.eqb_sym (identifier t)). destruct (String.eqb_spec (client_id k) (identifier t)) as [E|E]; cbn [orb]; [|lia].
  destruct (existsb _ keys) eqn:Ex; [|lia]. exfalso. apply existsb_exists in Ex as (k' & Hin & Hc%String.eqb_eq).
  apply list_elem_of_In in Hin. apply Hk. by rewrite (Hu k k') by (try left; try (by right); congruence).
Qed.

(** The charges to the keys that satisfy a condition are what was reported for them. *)
Lemma charged_reported keys P items :
  loaded_keys keys →
  charged P (charges keys items) = reported_all (filter (λ k, P (key_id k) = true) keys) items.
Proof.
  intros [Hnd Hu]. pose proof (NoDup_fmap_1 _ _ Hnd) as Hnd'.
  assert (Hd : clients_distinct (filter (λ k, P (key_id k) = true) keys)).
  { intros k k' [_ Hk]%list_elem_of_filter [_ Hk']%list_elem_of_filter. by apply Hu. }
  induction items as [|t items IH]; [by rewrite reported_all_nil|]. rewrite reported_all_cons; [|by apply NoDup_filter|done].
  rewrite <-IH. unfold charges. cbn [omap list_omap]. unfold charge_of at 1.
  destruct (find (λ k, String.eqb (client_id k) (identifier t)) keys) as [k|] eqn:Hf.
  - apply find_some in Hf as [Hin%list_elem_of_In Hc]. pose proof Hc as Hc'%String.eqb_eq.
    assert (Hex : existsb (λ k, String.eqb (client_id k) (identifier t)) (filter (λ k, P (key_id k) = true) keys) = P (key_id k)).
    { destruct (P (key_id k)) eqn:HP.
      - apply existsb_exists. exists k. split; [|done]. apply list_elem_of_In, list_elem_of_filter. done.
      - apply not_true_iff_false. intros (k' & [HP' Hin']%list_elem_of_In%list_elem_of_filter & Hc2%String.eqb_eq)%existsb_exists.
        rewrite (Hu k' k) in HP' by congruence. congruence. }
    rewrite Hex. destruct (Z.leb_spec (delta_bytes t) 0).
    + destruct (P (key_id k)); lia.
    + cbn. destruct (P (key_id k)); lia.
  - assert (Hex : existsb (λ k, String.eqb (client_id k) (identifier t)) (filter (λ k, P (key_id k) = true) keys) = false).
    { apply not_true_iff_false. intros (k' & [_ Hin']%list_elem_of_In%list_elem_of_filter & Hc2)%existsb_exists.
      apply list_elem_of_In in Hin'. pose proof (find_none _ _ Hf k' Hin') as Hn. cbn in Hn. congruence. }
    rewrite Hex. done.
Qed.

(** * Writing the charges *)

(** The flush of the charged keys: each row gets the counter of the loaded object. *)
Lemma flush_run now l : ∀ s,
  access_world s → NoDup (key_id <$> l) → (∀ k, k ∈ l → is_Some (vpn_keys (db s) !! key_id k)) →
  ∃ s', for_each (λ k, update_by_id keys_tbl (key_id k)
                 (λ r, write_key (key_used_traffic_bytes k) (is_revoked r) (valid_until r) now r) ;; mret tt) l s = (Ok tt, s') ∧
    access_world s' ∧ rest (db s') = rest (db s) ∧ placements (db s') = placements (db s) ∧ outbox (db s') = outbox (db s) ∧
    clock s' = clock s ∧ next_uuid s' = next_uuid s ∧ (ticks s ≤ ticks s')%nat ∧
    (∀ i, i ∉ key_id <$> l → vpn_keys (db s') !! i = vpn_keys (db s) !! i) ∧
    (∀ k r, k ∈ l → vpn_keys (db s) !! key_id k = Some r →
       vpn_keys (db s') !! key_id k = Some (write_key (key_used_traffic_bytes k) (is_revoked r) (valid_until r) now r)).
Proof.
  induction l as [|k l IH]; intros s Hw Hnd Hex; cbn [for_each].
  { exists s. split_and!; try done. by intros k r ?%not_elem_of_nil. }
  cbn in Hnd. apply NoDup_cons in Hnd as [Hk Hnd]. destruct (Hex k ltac:(left)) as [r Hr].
  destruct (update_key_run (key_id k) (λ r, write_key (key_used_traffic_bytes k) (is_revoked r) (valid_until r) now r) r s Hw Hr)
    as [Hrun Hw1]; [done|]. set (s1 := with_db _ (tick s)) in *.
  pose proof (proj2 Hw _ _ Hr) as Hid. cbn in Hid.
  assert (Hrows : vpn_keys (db s1) = <[key_id k := write_key (key_used_traffic_bytes k) (is_revoked r) (valid_until r) now r]> (vpn_keys (db s)))
    by (cbn; by rewrite Hid).
  destruct (IH s1 Hw1 Hnd) as (s' & Hrun' & Hw' & H1 & H2 & H3 & H4 & H5 & H6 & Hoth & Hkeys).
  { intros k' Hk'. rewrite Hrows, lookup_insert. case_decide; [by eexists|]. apply Hex. by right. }
  exists s'. split_and!; try done.
  - unfold mbind at 1, M_bind at 1. unfold mbind at 1, M_bind at 1. by rewrite Hrun.
  - cbn in H6. lia.
  - cbn. intros i [Hne Hi]%not_elem_of_cons. rewrite Hoth by done. rewrite Hrows. by apply lookup_insert_ne.
  - intros k' r' [->|Hin]%elem_of_cons Hr'.
    + rewrite Hoth by done. rewrite Hrows, lookup_insert_eq. congruence.
    + apply Hkeys; [done|]. rewrite Hrows, lookup_insert_ne; [done|]. intros E. apply Hk. rewrite E. by apply list_elem_of_fmap_2.
Qed.

(** * The subscriptions *)

(** What a report is charged to a subscription, and whether that reaches its plan's limit. *)
Definition sub_charge (deltas : gmap Z Z) (b : Subscription) : Z := default 0 (deltas !! sub_id b).

Definition exceeds_plan (d : database) (deltas : gmap Z Z) (b : Subscription) : bool :=
  (0 <? sub_charge deltas b) && over_limit (sub_plan_id b ≫= (plans d !!.)) (sub_used_traffic_bytes b + sub_charge deltas b).

Definition charged_sub (now : Z) (deltas : gmap Z Z) (b : Subscription) : Subscription :=
  if 0 <? sub_charge deltas b then charge_sub now (sub_charge deltas b) b else b.

Lemma charge_subs_run now deltas l : ∀ s,
  keyed subs_tbl (db s) → NoDup (sub_id <$> l) → (∀ b, b ∈ l → subscriptions (db s) !! sub_id b = Some b) →
  ∃ s', charge_subs now deltas l s = (Ok (sub_id <$> filter (λ b, exceeds_plan (db s) deltas b = true) l), s') ∧
    keyed subs_tbl (db s') ∧ set_subscriptions ∅ (db s') = set_subscriptions ∅ (db s) ∧ moves_on s s' ∧
    ∀ i, subscriptions (db s') !! i = (λ b, if bool_decide (i ∈ sub_id <$> l) then charged_sub now deltas b else b) <$> subscriptions (db s) !! i.
Proof.
  induction l as [|b l IH]; intros s Hk Hnd Hl; cbn [charge_subs].
  { exists s. split_and!; try done. intros i. by destruct (subscriptions (db s) !! i). }
  cbn in Hnd. apply NoDup_cons in Hnd as [Hb Hnd]. pose proof (Hl b ltac:(left)) as Hrow.
  fold (sub_charge deltas b). rewrite filter_cons.
  assert (Hskip : sub_charge deltas b <= 0 → exceeds_plan (db s) deltas b = false ∧ charged_sub now deltas b = b).
  { intros Hle. unfold exceeds_plan, charged_sub. by rewrite (proj2 (Z.ltb_ge _ _) Hle). }
  assert (Hcase : ∀ i m, subscriptions m !! i = (λ b0, if bool_decide (i = sub_id b) then charged_sub now deltas b0 else b0) <$> subscriptions (db s) !! i →
    (λ b0, if bool_decide (i ∈ sub_id <$> l) then charged_sub now deltas b0 else b0) <$> subscriptions m !! i =
    (λ b0, if bool_decide (i ∈ sub_id <$> b :: l) then charged_sub now deltas b0 else b0) <$> subscriptions (db s) !! i).
  { intros i m ->. rewrite <-option_fmap_compose. destruct (subscriptions (db s) !! i); [|done]. cbn. f_equal.
    destruct (decide (i = sub_id b)) as [->|Hne].
    - rewrite !(bool_decide_true (sub_id b = sub_id b)) by done. rewrite (bool_decide_false (sub_id b ∈ sub_id <$> l)) by done.
      by rewrite bool_decide_true by (cbn; left).
    - rewrite (bool_decide_false (i = sub_id b)) by done. repeat case_bool_decide; set_solver. }
  destruct (Z.leb_spec (sub_charge deltas b) 0) as [Hle|Hlt].
  - destruct (Hskip Hle) as [Hex Hch]. destruct (IH s Hk Hnd) as (s' & Hrun & H1 & H2 & H3 & Hrows); [intros b' Hb'; apply Hl; by right|].
    exists s'. rewrite decide_False by (by rewrite Hex). split_and!; try done. intros i. rewrite Hrows. apply Hcase.
    destruct (subscriptions (db s) !! i) as [b'|] eqn:Hi; [|done]. cbn. f_equal. case_bool_decide as E; [|done].
    subst i. rewrite Hrow in Hi. injection Hi as <-. done.
  - set (s1 := with_db (put subs_tbl (charge_sub now (sub_charge deltas b) b)) (tick s)).
    assert (Hrun1 : update_by_id subs_tbl (sub_id b) (charge_sub now (sub_charge deltas b)) s = (Ok (Some (charge_sub now (sub_charge deltas b) b)), s1)).
    { rewrite update_run. cbn [t_rows subs_tbl t_touch]. rewrite Hrow. cbv zeta.
      change (charge_sub now (sub_charge deltas b) (touch_sub (clock s (ticks s)) b)) with (charge_sub now (sub_charge deltas b) b).
      rewrite subs_check_same_tokens by done. do 2 f_equal. cbn. by rewrite lookup_insert_eq. }
    assert (Hrows1 : subscriptions (db s1) = <[sub_id b := charge_sub now (sub_charge deltas b) b]> (subscriptions (db s))) by done.
    assert (Hplan : plan_of b s1 = (Ok (sub_plan_id b ≫= (plans (db s) !!.)), s1)) by (unfold plan_of; by destruct (sub_plan_id b)).
    destruct (IH s1) as (s' & Hrun & H1 & H2 & H3 & Hrows); [by apply (keyed_put subs_tbl)|done| |].
    { intros b' Hb'. rewrite Hrows1, lookup_insert_ne; [apply Hl; by right|]. intros E. apply Hb. rewrite E. by apply list_elem_of_fmap_2. }
    assert (Hov : exceeds_plan (db s) deltas b = over_limit (sub_plan_id b ≫= (plans (db s) !!.)) (sub_used_traffic_bytes b + sub_charge deltas b))
      by (unfold exceeds_plan; by rewrite (proj2 (Z.ltb_lt _ _) Hlt)).
    exists s'. split_and!.
    + unfold mbind at 1, M_bind at 1. rewrite Hrun1. unfold mbind at 1, M_bind at 1. rewrite Hplan.
      unfold mbind at 1, M_bind at 1. rewrite Hrun. unfold mret, M_ret. f_equal. f_equal.
      rewrite <-Hov. destruct (exceeds_plan (db s) deltas b); [by rewrite decide_True|by rewrite decide_False].
    + done.
    + by rewrite H2.
    + transitivity s1; [|done]. unfold moves_on. cbn. split_and!; [done|lia|lia].
    + intros i. rewrite Hrows. apply Hcase. rewrite Hrows1, lookup_insert. case_decide as E.
      * subst i. rewrite Hrow. cbn. rewrite bool_decide_true by done. unfold charged_sub. by rewrite (proj2 (Z.ltb_lt _ _) Hlt).
      * rewrite bool_decide_false by congruence. by destruct (subscriptions (db s) !! i).
Qed.

(** * Cutting keys off *)

Section CutOff.
Context (pfx : string).

Lemma cut_off_moves kid now : keeps moves_on (cut_off pfx kid now).
Proof using Type.
unfold cut_off, set_desired_state_for_key, enqueue_for_key_state, list_active_ids_for_key, enqueue_for_placement_ids,
  list_transport_rows_by_placement_ids, enqueue_many, enqueue_one.
assert (He : ∀ p k l, keeps moves_on (entry_items pfx p k l)).
{ intros p k l. induction l; cbn [entry_items]; unfold _build_command_payload; keeps_tac. }
assert (∀ r l, keeps moves_on (command_items pfx r l)).
{ intros r l. induction r as [|[p k] r IH]; cbn [command_items]; unfold _build_command_payload; keeps_tac. }
keeps_tac.
Qed.

(** The loaded rows are current. *)
Definition rows_current (d : database) (l : list VpnKey) : Prop := ∀ k, k ∈ l → vpn_keys d !! key_id k = Some k.

Lemma rows_current_later flag ds kid l s s' :
recut flag ds kid s s' → kid ∉ key_id <$> l → rows_current (db s) l → rows_current (db s') l.
Proof using Type.
intros Hrc Hn Hl k Hk. assert (Hne : key_id k ≠ kid) by (intros E; apply Hn; rewrite <-E; by apply list_elem_of_fmap_2).
rewrite (proj2 (rc_others _ _ _ _ _ Hrc _ Hne)). by apply Hl.
Qed.

Lemma revoke_keys_run now l : ∀ s,
access_world s → rows_current (db s) l → NoDup (key_id <$> l) → Forall (λ k, is_revoked k = false) l →
∃ s', revoke_keys pfx now l s = (Ok (Z.of_nat (length l)), s') ∧ recuts true desired_inactive (key_id <$> l) s s' ∧ moves_on s s'.
Proof using Type.
induction l as [|k l IH]; intros s Hw Hl Hnd Hr; cbn [revoke_keys]; [by exists s; split_and!; [|constructor|]|].
cbn in Hnd. apply NoDup_cons in Hnd as [Hk Hnd]. apply Forall_cons in Hr as [Hrk Hr]. rewrite Hrk.
destruct (update_key_written true (key_id k) (λ r, write_key (key_used_traffic_bytes r) true (valid_until r) now r) k s Hw)
  as (o & s1 & Hup & Hwr); [apply Hl; left|done|done|].
destruct (recut_switch pfx true desired_inactive (Some _MIGRATION_REASON) now k s s1) as (s2 & Hsw & Hrc); [apply Hl; left|done|].
destruct (IH s2) as (s' & Hrun & Hrcs & Hmv); [apply Hrc| |done|done|].
{ eapply rows_current_later; [done|done|]. intros k' Hk'. apply Hl. by right. }
exists s'. split_and!.
- unfold mbind at 1, M_bind at 1. rewrite Hup. unfold mbind at 1, M_bind at 1.
  change (cut_off pfx (key_id k) now s1) with ((set_desired_state_for_key (key_id k) desired_inactive (Some _MIGRATION_REASON) now None ;;
    enqueue_for_key_state pfx (key_id k) desired_inactive None) s1). rewrite Hsw.
  unfold mbind, M_bind. rewrite Hrun. unfold mret, M_ret. do 2 f_equal. cbn [length]. lia.
- cbn. by econstructor.
- transitivity s2; [|done]. transitivity s1.
  + pose proof (moves_update keys_tbl (key_id k) (λ r, write_key (key_used_traffic_bytes r) true (valid_until r) now r) s) as M. by rewrite Hup in M.
  + pose proof (cut_off_moves (key_id k) now s1) as M. unfold cut_off in M. by rewrite Hsw in M.
Qed.

(** The key has no access any more, or its term was over at a reading of the clock. *)
Definition key_ended (s0 s : session) (kid : Z) (k : VpnKey) : Prop :=
(∃ n, (ticks s0 ≤ n < ticks s)%nat ∧ valid_until k ≤ clock s0 n) ∨
(is_revoked k = true ∧ ((∃ k0, vpn_keys (db s0) !! kid = Some k0 ∧ is_revoked k0 = true) ∨ switched desired_inactive (db s) kid)).

Definition sub_ended (s0 s : session) (sid : Z) : Prop :=
∀ kid k, vpn_keys (db s) !! kid = Some k → key_subscription_id k = Some sid → key_is_active k = true → key_ended s0 s kid k.

(** Keys that are cut later stay cut, the others keep their rows. *)
Lemma key_ended_later s0 s s' l kid k k' :
access_switched true desired_inactive l s s' → moves_on s s' → same_terms k k' → (kid ∈ l → is_revoked k' = true) →
(kid ∉ l → k' = k) → key_ended s0 s kid k → key_ended s0 s' kid k'.
Proof using Type.
intros Has (Hc & Ht & _) [Hv _] Hin Hout [(n & Hn & Hle)|(Hr & Hor)].
- left. exists n. rewrite Hv. split; [lia|done].
- right. destruct (decide (kid ∈ l)) as [Hi|Hi].
  + split; [by apply Hin|]. right. by apply (as_on _ _ _ _ _ Has).
  + rewrite (Hout Hi). split; [done|]. destruct Hor as [?|Hs]; [by left|right].
    eapply switched_persists; [by apply (as_others _ _ _ _ _ Has)|done].
Qed.

Lemma sub_ended_later s0 s s' l sid :
access_switched true desired_inactive l s s' → moves_on s s' →
(∀ kid, is_Some (vpn_keys (db s') !! kid) → is_Some (vpn_keys (db s) !! kid)) → sub_ended s0 s sid → sub_ended s0 s' sid.
Proof using Type.
intros Has Hmv Hdom Hs kid k' Hk' Hsid Ha. destruct (Hdom kid ltac:(by eexists)) as [k Hk].
destruct (as_keys _ _ _ _ _ Has kid k Hk) as (k2 & Hk2 & Hsc & Hst & Hf). assert (k2 = k') as -> by congruence.
destruct Hsc as (_ & _ & Ea & _ & _ & Es). eapply (key_ended_later s0 s s' l kid k k'); [done|done|done|done| |].
- intros Hn. rewrite (proj2 (as_others _ _ _ _ _ Has kid Hn)) in Hk'. congruence.
- apply Hs; [done|congruence|congruence].
Qed.

(** A revoked key was revoked before, or its placements have been switched off. *)
Definition revocations_explained (s0 s : session) : Prop :=
∀ kid k, vpn_keys (db s) !! kid = Some k → is_revoked k = true →
  (∃ k0, vpn_keys (db s0) !! kid = Some k0 ∧ is_revoked k0 = true) ∨ switched desired_inactive (db s) kid.

Lemma explained_later s0 s s' l :
access_switched true desired_inactive l s s' → revocations_explained s0 s → revocations_explained s0 s'.
Proof using Type.
intros Has He kid k' Hk' Hr. destruct (decide (kid ∈ l)) as [Hin|Hin]; [right; by apply (as_on _ _ _ _ _ Has)|].
destruct (as_others _ _ _ _ _ Has kid Hin) as [Hp Hrow]. rewrite Hrow in Hk'. destruct (He kid k' Hk' Hr) as [?|Hs]; [by left|right].
by eapply switched_persists.
Qed.

Lemma moves_tick s : moves_on s (tick s).
Proof using Type. unfold moves_on. cbn. split_and!; [done|lia|lia]. Qed.

Lemma revoke_subscription_run s0 sid now s :
access_world s → moves_on s0 s → revocations_explained s0 s →
∃ n l s', _revoke_subscription_keys pfx sid now s = (Ok n, s') ∧ access_switched true desired_inactive l s s' ∧ moves_on s s' ∧
  (∀ kid, kid ∈ l → ∃ k, vpn_keys (db s) !! kid = Some k ∧ key_subscription_id k = Some sid) ∧ sub_ended s0 s' sid.
Proof using Type.
intros Hw Hmv He. set (t := clock s (ticks s)).
set (l := filter (λ k, of_subscription sid k && key_live t k = true) (rows (vpn_keys (db s)))).
assert (Hl : ∀ k, k ∈ l ↔ vpn_keys (db s) !! key_id k = Some k ∧ of_subscription sid k = true ∧ key_live t k = true).
{ intros k. unfold l. rewrite list_elem_of_filter, elem_of_rows, andb_true_iff. split; [|naive_solver].
  intros [? [i Hi]]. pose proof (proj2 Hw i k Hi) as Hid. cbn in Hid. subst i. done. }
destruct (revoke_keys_run now l (tick s)) as (s' & Hrun & Hrcs & Hmv').
{ by apply access_world_tick. } { intros k Hk. by apply Hl. }
{ eapply sublist_NoDup; [apply (rows_ids_NoDup keys_tbl (db s)), Hw|]. apply fmap_sublist, sublist_filter. }
{ apply Forall_forall. intros k (_ & _ & Hlive)%Hl. unfold key_live in Hlive. rewrite !andb_true_iff, negb_true_iff in Hlive. tauto. }
assert (Has : access_switched true desired_inactive (key_id <$> l) s s').
{ destruct (recuts_switched _ _ _ _ _ (access_world_tick s Hw) Hrcs) as [? ? ? ? ? ?]. by split. }
eexists _, (key_id <$> l), s'. split_and!; [exact Hrun|done|by transitivity (tick s); [apply moves_tick|]| |].
{ intros kid (k & -> & (Hk & Hs & _)%Hl)%list_elem_of_fmap. exists k. split; [done|]. by apply bool_decide_eq_true in Hs. }
intros kid k' Hk' Hsid Ha. destruct (decide (kid ∈ key_id <$> l)) as [Hin|Hin].
- right. pose proof Hin as (k & E & (Hk & _)%Hl)%list_elem_of_fmap. rewrite <-E in Hk.
  destruct (as_keys _ _ _ _ _ Has kid k Hk) as (k2 & Hk2 & _ & _ & Hf). assert (k2 = k') as -> by congruence.
  split; [by apply Hf|]. right. by apply (as_on _ _ _ _ _ Has).
- destruct (as_others _ _ _ _ _ Has kid Hin) as [Hp Hrow]. rewrite Hrow in Hk'.
  destruct (is_revoked k') eqn:Er.
  + right. split; [done|]. destruct (He kid k' Hk' Er) as [?|Hs]; [by left|right; by eapply switched_persists].
  + left. exists (ticks s). destruct Hmv as (Ec & Et & _). destruct Hmv' as (_ & Et' & _). cbn in Et'. split; [lia|].
    rewrite <-Ec. fold t. destruct (Z.ltb_spec t (valid_until k')) as [Hlt|]; [|done]. exfalso. apply Hin.
    pose proof (proj2 Hw kid k' Hk') as Hid. cbn in Hid. rewrite <-Hid. apply list_elem_of_fmap_2, Hl. rewrite Hid.
    split_and!; [done|by apply bool_decide_eq_true|]. unfold key_live. by rewrite Ha, Er, (proj2 (Z.ltb_lt _ _) Hlt).
Qed.

Lemma access_switched_trans flag ds l1 l2 s1 s2 s3 :
access_switched flag ds l1 s1 s2 → access_switched flag ds l2 s2 s3 → access_switched flag ds (l1 ++ l2) s1 s3.
Proof using Type.
intros [Hw1 Hr1 Ho1 Hon1 Hk1 Hoth1] [Hw2 Hr2 Ho2 Hon2 Hk2 Hoth2]. split; [done|congruence|by etrans| | |].
- intros kid [Hin|Hin]%elem_of_app; [|by apply Hon2]. destruct (decide (kid ∈ l2)) as [Hi|Hi]; [by apply Hon2|].
  eapply switched_persists; [by apply Hoth2|by apply Hon1].
- intros kid k Hk. destruct (Hk1 kid k Hk) as (k1 & Hrow1 & S1 & T1 & F1). destruct (Hk2 kid k1 Hrow1) as (k2 & Hrow2 & S2 & T2 & F2).
  exists k2. split_and!; [done|by eapply same_client_trans|by eapply same_terms_trans|].
  intros Hin. destruct (decide (kid ∈ l2)) as [Hi|Hi]; [by apply F2|].
  rewrite (proj2 (Hoth2 kid Hi)) in Hrow2. assert (k2 = k1) as -> by congruence. apply F1. set_solver.
- intros kid [H1 H2]%not_elem_of_app. destruct (Hoth1 kid H1) as [P1 E1], (Hoth2 kid H2) as [P2 E2]. split; [by etrans|congruence].
Qed.

Lemma access_switched_nil s flag ds : access_world s → access_switched flag ds [] s s.
Proof using Type.
intros Hw. apply recuts_switched; [done|constructor].
Qed.

(** The keys of a switch exist before it as after it. *)
Lemma switched_dom flag ds l s s' :
access_switched flag ds l s s' → (∀ kid, kid ∈ l → is_Some (vpn_keys (db s) !! kid)) →
∀ kid, is_Some (vpn_keys (db s') !! kid) → is_Some (vpn_keys (db s) !! kid).
Proof using Type.
intros Has Hl kid Hk. destruct (decide (kid ∈ l)) as [Hin|Hin]; [by apply Hl|].
by rewrite <-(proj2 (as_others _ _ _ _ _ Has kid Hin)).
Qed.

Lemma revoke_subscriptions_run s0 now sids : ∀ s,
access_world s → moves_on s0 s → revocations_explained s0 s →
∃ n l s', revoke_subscriptions pfx now sids s = (Ok n, s') ∧ access_switched true desired_inactive l s s' ∧ moves_on s s' ∧
  (∀ kid, kid ∈ l → ∃ k sid, vpn_keys (db s) !! kid = Some k ∧ sid ∈ sids ∧ key_subscription_id k = Some sid) ∧
  ∀ sid, sid ∈ sids → sub_ended s0 s' sid.
Proof using Type.
induction sids as [|sid sids IH]; intros s Hw Hmv He; cbn [revoke_subscriptions].
{ exists 0, [], s. split_and!; [done|by apply access_switched_nil|done|by intros ? ?%not_elem_of_nil..]. }
destruct (revoke_subscription_run s0 sid now s Hw Hmv He) as (n1 & l1 & s1 & Hrun1 & Has1 & Hmv1 & Hl1 & Hend1).
assert (Hdom1 : ∀ kid, kid ∈ l1 → is_Some (vpn_keys (db s) !! kid)) by (intros kid (k & ? & _)%Hl1; by exists k).
destruct (IH s1) as (n2 & l2 & s2 & Hrun2 & Has2 & Hmv2 & Hl2 & Hend2); [apply Has1|by transitivity s|by eapply explained_later|].
assert (Hdom2 : ∀ kid, kid ∈ l2 → is_Some (vpn_keys (db s1) !! kid)) by (intros kid (k & ? & ? & _)%Hl2; by exists k).
eexists _, (l1 ++ l2), s2. split_and!.
- unfold mbind at 1, M_bind at 1. rewrite Hrun1. unfold mbind, M_bind. rewrite Hrun2. reflexivity.
- by eapply access_switched_trans.
- by transitivity s1.
- intros kid [Hin|Hin]%elem_of_app.
  + destruct (Hl1 kid Hin) as (k & Hk & Hs). exists k, sid. split_and!; [done|left|done].
  + destruct (Hl2 kid Hin) as (k1 & sid' & Hk1 & Hs' & Hsub).
    destruct (switched_dom _ _ _ _ _ Has1 Hdom1 kid ltac:(by exists k1)) as [k Hk].
    destruct (as_keys _ _ _ _ _ Has1 kid k Hk) as (k2 & Hk2 & (_ & _ & _ & _ & _ & Es) & _).
    exists k, sid'. split_and!; [done|by right|congruence].
- intros sid' [->|Hin]%elem_of_cons; [|by apply Hend2].
  eapply sub_ended_later; [done|done|by eapply switched_dom|done].
Qed.
End CutOff.

(** ** Keys without a subscription *)

Lemma revoke_over_run pfx now l : ∀ s,
  access_world s → NoDup (key_id <$> l) → (∀ k, k ∈ l → key_over_limit k = true → vpn_keys (db s) !! key_id k = Some k) →
  ∃ n s', revoke_over_limit pfx now l s = (Ok n, s') ∧ moves_on s s' ∧
    recuts true desired_inactive (key_id <$> filter (λ k, key_over_limit k = true) l) s s'.
Proof.
  induction l as [|k l IH]; intros s Hw Hnd Hl; cbn [revoke_over_limit]; [by exists 0, s; split_and!; [| |constructor]|].
  cbn in Hnd. apply NoDup_cons in Hnd as [Hk Hnd]. rewrite filter_cons. destruct (key_over_limit k) eqn:Hov.
  2:{ rewrite decide_False by done. apply IH; [done|done|]. intros k' Hk'. apply Hl. by right. }
  rewrite decide_True by done. pose proof (Hl k ltac:(left) Hov) as Hrow.
  destruct (assign_written true k s Hw Hrow) as (s1 & Ha & Hwr).
  destruct (recut_switch pfx true desired_inactive (Some _MIGRATION_REASON) now k s s1 Hrow Hwr) as (s2 & Hsw & Hrc).
  destruct (IH s2) as (n & s' & Hrun & Hmv & Hrcs); [apply Hrc|done| |].
  { intros k' Hk' Hov'. assert (Hne : key_id k' ≠ key_id k) by (intros E; apply Hk; rewrite <-E; by apply list_elem_of_fmap_2).
    rewrite (proj2 (rc_others _ _ _ _ _ Hrc _ Hne)). apply Hl; [by right|done]. }
  exists (n + 1), s'. split_and!.
  - unfold mbind at 1, M_bind at 1. rewrite Ha. unfold mbind at 1, M_bind at 1.
    change (cut_off pfx (key_id k) now s1) with ((set_desired_state_for_key (key_id k) desired_inactive (Some _MIGRATION_REASON) now None ;;
      enqueue_for_key_state pfx (key_id k) desired_inactive None) s1). rewrite Hsw. unfold mbind, M_bind. by rewrite Hrun.
  - transitivity s2; [|done]. transitivity s1.
    + assert (M : keeps moves_on (assign_revoked true k)) by (unfold assign_revoked; keeps_tac). specialize (M s). by rewrite Ha in M.
    + pose proof (cut_off_moves pfx (key_id k) now s1) as M. unfold cut_off in M. by rewrite Hsw in M.
  - cbn. by econstructor.
Qed.

(** ** The history *)

Fixpoint delta_sum (l : list TrafficUsage) : Z := match l with [] => 0 | u :: l => tu_delta_bytes u + delta_sum l end.

(** The bytes the history records for a key. *)
Definition recorded (d : database) (kid : Z) : Z := delta_sum (filter (λ u, tu_key_id u = kid) (rows (traffic_usages d))).

#[export] Instance delta_sum_perm : Proper ((≡ₚ) ==> eq) delta_sum.
Proof. induction 1; cbn; lia. Qed.

Lemma rows_insert {R} (m : gmap Z R) i r : m !! i = None → rows (<[i:=r]> m) ≡ₚ r :: rows m.
Proof. intros Hi. unfold rows. by rewrite map_to_list_insert. Qed.

Lemma bulk_create_run l : ∀ s,
  (∀ i, next_uuid s ≤ i → traffic_usages (db s) !! i = None) →
  ∃ s', bulk_create_usage l s = (Ok tt, s') ∧ set_traffic_usages ∅ (db s') = set_traffic_usages ∅ (db s) ∧ moves_on s s' ∧
    ∀ kid, recorded (db s') kid = recorded (db s) kid + charged (Z.eqb kid) l.
Proof.
  unfold bulk_create_usage. induction l as [|c l IH]; intros s Hf; cbn [for_each].
  { exists s. split_and!; try done. intros kid. cbn. lia. }
  set (u := history_row c (next_uuid s) (clock s (ticks s))).
  set (s1 := with_db (put traffic_usages_tbl u) (tick (issue s))).
  assert (Hrun : create traffic_usages_tbl (history_row c) s = (Ok u, s1)).
  { rewrite create_run. cbv zeta. fold u. cbn [t_rows traffic_usages_tbl t_id]. rewrite (Hf (tu_id u)) by (cbn; lia). done. }
  destruct (IH s1) as (s' & Hrun' & H1 & H2 & H3).
  { intros i Hi. cbn in *. rewrite lookup_insert_ne by lia. apply Hf. lia. }
  exists s'. split_and!.
  - unfold mbind at 1, M_bind at 1. unfold mbind at 1, M_bind at 1. by rewrite Hrun.
  - by rewrite H1.
  - transitivity s1; [|done]. unfold moves_on. cbn. split_and!; [done|lia|lia].
  - intros kid. rewrite H3. cbn [charged]. unfold recorded. cbn. rewrite rows_insert by (apply Hf; cbn; lia).
    rewrite filter_cons. cbn. destruct (Z.eqb_spec kid c.1) as [->|Hne].
    + rewrite decide_True by done. cbn. lia.
    + rewrite decide_False by congruence. lia.
Qed.

(** * A report *)

Section Ingest.
Context (pfx : string) (now : Z) (keys : list VpnKey) (items : list UserTrafficIn).
Notation st := (foldl (ingest_item now) {| is_keys := keys; is_deltas := ∅; is_history := [] |} items).
Notation l := (charges keys items).
Hypothesis keys_loaded : loaded_keys keys.

(** The bytes charged to a subscription. *)
Definition sub_total (sid : Z) : Z := charged (λ kid, bool_decide (sub_of keys kid = Some sid)) l.

Lemma deltas_total sid : default 0 (is_deltas st !! sid) = sub_total sid.
Proof using keys_loaded.
destruct (ingest_fold now keys items keys_loaded) as (_ & _ & Hd). rewrite Hd. unfold sub_total.
destruct (existsb _ _) eqn:Ex; [done|]. cbn. symmetry. apply charged_none. intros c Hc.
destruct (bool_decide _) eqn:Eb; [|done]. apply not_true_iff_false in Ex. exfalso. apply Ex, existsb_exists.
exists c. split; [by apply list_elem_of_In|done].
Qed.

(** The flush of the loaded keys. *)
Lemma flush_charged_run s :
access_world s → rows_current (db s) keys →
∃ s', flush_charged now st s = (Ok tt, s') ∧ access_world s' ∧ rest (db s') = rest (db s) ∧
  placements (db s') = placements (db s) ∧ outbox (db s') = outbox (db s) ∧ moves_on s s' ∧
  (∀ k, k ∈ keys → vpn_keys (db s') !! key_id k = Some (charge_row now l k)) ∧
  (∀ kid, kid ∉ key_id <$> keys → vpn_keys (db s') !! kid = vpn_keys (db s) !! kid).
Proof using keys_loaded.
intros Hw Hcur. destruct (ingest_fold now keys items keys_loaded) as (Hk & Hh & _).
unfold flush_charged. rewrite Hk, Hh. set (f := filter _ _).
assert (Hf : ∀ k', k' ∈ f ↔ ∃ k, k ∈ keys ∧ k' = charge_row now l k ∧ key_id k ∈ l.*1).
{ intros k'. unfold f. rewrite list_elem_of_filter. split.
  - intros [Hin (k & -> & Hk')%list_elem_of_fmap]. rewrite charge_row_id in Hin. eauto.
  - intros (k & Hk' & -> & Hin). rewrite charge_row_id. split; [done|by apply list_elem_of_fmap_2]. }
destruct (flush_run now f s Hw) as (s' & Hrun & Hw' & H1 & H2 & H3 & H4 & H5 & H6 & Hoth & Hrows).
{ eapply sublist_NoDup; [apply (lk_ids _ keys_loaded)|]. unfold f.
  assert (key_id <$> keys = key_id <$> (charge_row now l <$> keys)) as ->.
  { rewrite <-list_fmap_compose. apply list_fmap_ext. intros i k _. cbn. by rewrite charge_row_id. }
  apply fmap_sublist, sublist_filter. }
{ intros k' (k & Hin & -> & _)%Hf. rewrite charge_row_id. exists k. by apply Hcur. }
exists s'. split_and!; try done; [unfold moves_on; split_and!; [done|lia|lia]| |].
- intros k Hin. destruct (decide (key_id k ∈ l.*1)) as [Hc|Hc].
  + pose proof (Hrows (charge_row now l k) k) as E. rewrite charge_row_id in E. rewrite E; [|apply Hf; eauto|by apply Hcur].
    unfold charge_row. rewrite bool_decide_true by done. done.
  + rewrite Hoth; [|intros (k' & E & (k2 & Hk2 & -> & Hc2)%Hf)%list_elem_of_fmap; rewrite charge_row_id in E; congruence].
    unfold charge_row. rewrite bool_decide_false by done. by apply Hcur.
- intros kid Hn. apply Hoth. intros (k' & -> & (k & Hin & -> & _)%Hf)%list_elem_of_fmap. apply Hn. rewrite charge_row_id.
  by apply list_elem_of_fmap_2.
Qed.

(** Phase 2: the counters of the subscriptions, and the ones that reached their limit. *)
Lemma charge_subscriptions_run s0 s :
access_world s → keyed subs_tbl (db s) → moves_on s0 s → revocations_explained s0 s →
∃ n l' s1 s', charge_subscriptions pfx now (is_deltas st) s = (Ok n, s') ∧ moves_on s s' ∧
  set_subscriptions ∅ (db s1) = set_subscriptions ∅ (db s) ∧ access_switched true desired_inactive l' s1 s' ∧
  (∀ kid, kid ∈ l' → ∃ k sid b, vpn_keys (db s) !! kid = Some k ∧ key_subscription_id k = Some sid ∧
     subscriptions (db s) !! sid = Some b ∧ exceeds_plan (db s) (is_deltas st) b = true) ∧
  (∀ i, subscriptions (db s') !! i = charged_sub now (is_deltas st) <$> subscriptions (db s) !! i) ∧
  (∀ sid b, subscriptions (db s) !! sid = Some b → exceeds_plan (db s) (is_deltas st) b = true → sub_ended s0 s' sid).
Proof using keys_loaded.
intros Hw Hks Hmv He. unfold charge_subscriptions.
assert (Hzero : ∀ sid b, subscriptions (db s) !! sid = Some b → is_deltas st !! sid = None →
  charged_sub now (is_deltas st) b = b ∧ exceeds_plan (db s) (is_deltas st) b = false).
{ intros sid b Hb Hd. pose proof (Hks sid b Hb) as Hid. cbn in Hid. unfold charged_sub, exceeds_plan, sub_charge. by rewrite Hid, Hd. }
case_decide as Hemp.
{ exists 0, [], s, s. split_and!; try done.
  - by apply access_switched_nil.
  - by intros kid ?%not_elem_of_nil.
  - intros i. destruct (subscriptions (db s) !! i) as [b|] eqn:Hb; [|done]. cbn. rewrite (proj1 (Hzero i b Hb ltac:(by rewrite Hemp))). done.
  - intros sid b Hb. by rewrite (proj2 (Hzero sid b Hb ltac:(by rewrite Hemp))). }
set (ids := (map_to_list (is_deltas st)).*1).
assert (Hids : ∀ i, i ∈ ids ↔ is_Some (is_deltas st !! i)).
{ intros i. unfold ids. rewrite list_elem_of_fmap. split.
  - intros ([j n] & -> & Hin%elem_of_map_to_list). by exists n.
  - intros [n Hn]. exists (i, n). split; [done|]. by apply elem_of_map_to_list. }
set (subs := filter (λ b, bool_decide (sub_id b ∈ ids) = true) (rows (subscriptions (db s)))).
assert (Hsubs : ∀ b, b ∈ subs ↔ subscriptions (db s) !! sub_id b = Some b ∧ sub_id b ∈ ids).
{ intros b. unfold subs. rewrite list_elem_of_filter, elem_of_rows, bool_decide_eq_true. split; [|naive_solver].
  intros [? [i Hi]]. pose proof (Hks i b Hi) as Hid. cbn in Hid. by subst i. }
assert (Hlist : list_by_ids_with_plan ids s = (Ok subs, s)).
{ unfold list_by_ids_with_plan. destruct ids as [|i ids'] eqn:Ei; [|done]. exfalso. apply Hemp, map_eq. intros i.
  rewrite lookup_empty. apply eq_None_not_Some. intros Hs%Hids. by apply not_elem_of_nil in Hs. }
destruct (charge_subs_run now (is_deltas st) subs s Hks) as (s1 & Hrun1 & Hks1 & Hsame & Hmv1 & Hrows).
{ eapply sublist_NoDup; [apply (rows_ids_NoDup subs_tbl (db s)), Hks|]. apply fmap_sublist, sublist_filter. }
{ intros b Hb. by apply Hsubs. }
set (exceeded := sub_id <$> filter (λ b, exceeds_plan (db s) (is_deltas st) b = true) subs) in *.
destruct (invalidate_run exceeded s1) as (s2 & Hrun2 & Hdb2).
assert (Hmv2 : moves_on s1 s2).
{ assert (M : keeps moves_on (invalidate_by_subscription_ids exceeded)) by (unfold invalidate_by_subscription_ids, invalidate_by_token_hashes; keeps_tac).
  specialize (M s1). by rewrite Hrun2 in M. }
assert (Hfld : ∀ {B} (f : database → B), (∀ d, f (set_subscriptions ∅ d) = f d) → f (db s2) = f (db s)).
{ intros B f Hf. by rewrite Hdb2, <-Hf, Hsame, Hf. }
assert (Hw2 : access_world s2).
{ apply (access_world_same s); [by apply (Hfld _ placements)|by apply (Hfld _ outbox)|by apply (Hfld _ vpn_keys)| |done].
  destruct Hmv1 as (_ & _ & ?), Hmv2 as (_ & _ & ?). lia. }
destruct (revoke_subscriptions_run pfx s0 now exceeded s2) as (n & l' & s' & Hrun3 & Has & Hmv3 & Hl' & Hend).
{ done. } { etrans; [exact Hmv|]. by etrans. }
{ intros kid k. rewrite (Hfld _ vpn_keys) by done. intros Hk Hr. destruct (He kid k Hk Hr) as [?|Hs]; [by left|right].
  eapply switched_persists; [|exact Hs]. split_and!; [by apply (Hfld _ nodes)|by rewrite (Hfld _ outbox)| |].
  - intros i p _. by rewrite (Hfld _ placements).
  - intros k'. rewrite (Hfld _ vpn_keys) by done. eauto. }
exists n, l', s2, s'. split_and!.
- unfold mbind at 1, M_bind at 1. rewrite Hlist. unfold mbind at 1, M_bind at 1. rewrite Hrun1. unfold mbind, M_bind.
  assert ((match exceeded with [] => mret () | _ => invalidate_by_subscription_ids exceeded end) s1 = (Ok tt, s2)) as ->
    by (destruct exceeded; exact Hrun2). exact Hrun3.
- etrans; [exact Hmv1|]. by etrans.
- by rewrite Hdb2.
- done.
- intros kid (k & sid & Hk & (b & -> & [Hx [Hb _]%Hsubs]%list_elem_of_filter)%list_elem_of_fmap & Hs)%Hl'.
  rewrite (Hfld _ vpn_keys) in Hk by done. eauto 10.
- intros i. assert (subscriptions (db s') = subscriptions (db s1)) as ->.
  { rewrite <-Hdb2. apply (rest_field subscriptions); [done|apply Has]. }
  rewrite Hrows. destruct (subscriptions (db s) !! i) as [b|] eqn:Hb; [|done]. cbn. f_equal.
  case_bool_decide as Hin; [done|]. symmetry. apply (Hzero i b Hb). apply eq_None_not_Some. intros Hs%Hids. apply Hin.
  pose proof (Hks i b Hb) as Hid. cbn in Hid. rewrite <-Hid. apply list_elem_of_fmap_2, Hsubs. by rewrite Hid.
- intros sid b Hb Hx. pose proof (Hks sid b Hb) as Hid. cbn in Hid. apply Hend. unfold exceeded. rewrite <-Hid.
  apply list_elem_of_fmap_2, list_elem_of_filter. split; [done|]. apply Hsubs. rewrite Hid. split; [done|]. apply Hids.
  destruct (is_deltas st !! sid) eqn:Hd; [by eexists|]. by rewrite (proj2 (Hzero sid b Hb Hd)) in Hx.
Qed.
End Ingest.
