(* ===== verification/TrafficReport.v ===== *)
(** A traffic report as a whole: every byte is booked once on the key, the subscription and
    the history, and whoever has reached a limit is cut off. *)

From stdpp Require Import base gmap strings list sorting.
From S2P Require Import Prelude Decimal Errors RouteModels BillingModels FleetModels Session Uuid NodeDisplay Tables Plans BillingDelivery FleetTables Routing Placements Keys Routes Devices Traffic PlacementProps PlacementCommands PlacementWorld DeviceProps ExpiryProps TrafficProps.
Local Open Scope Z_scope.


(** * What is reported *)

(** The bytes a report names for a key; keys that do not work at [now] are not charged. *)
Definition key_report (now : Z) (items : list UserTrafficIn) (k : VpnKey) : Z :=
  if key_live now k then reported (client_id k) items else 0.

(** ... and for a subscription: all its working keys. *)
Definition sub_report (now : Z) (items : list UserTrafficIn) (d : database) (sid : Z) : Z :=
  reported_all (filter (λ k, of_subscription sid k && key_live now k = true) (rows (vpn_keys d))) items.

Lemma filter_in_iff {A} (P Q : A → Prop) `{!∀ x, Decision (P x), !∀ x, Decision (Q x)} (l : list A) :
  (∀ x, x ∈ l → P x ↔ Q x) → filter P l = filter Q l.
Proof.
  induction l as [|x l IH]; intros HPQ; [done|]. rewrite !filter_cons, IH by (intros y Hy; apply HPQ; by right).
  pose proof (HPQ x ltac:(left)). repeat case_decide; tauto.
Qed.

Lemma reported_absent c items : c ∉ identifier <$> items → reported c items = 0.
Proof.
  induction items as [|t items IH]; cbn; [done|]. intros [Hne Hin]%not_elem_of_cons. rewrite IH by done.
  destruct (String.eqb_spec (identifier t) c); [congruence|done].
Qed.

(** Keys the report does not name do not count. *)
Lemma reported_all_filter (Q : VpnKey → bool) keys items :
  (∀ k, k ∈ keys → Q k = false → reported (client_id k) items = 0) →
  reported_all (filter (λ k, Q k = true) keys) items = reported_all keys items.
Proof.
  induction keys as [|k keys IH]; intros H; [done|]. rewrite filter_cons.
  destruct (Q k) eqn:E; [rewrite decide_True by done|rewrite decide_False by done]; cbn [reported_all].
  - rewrite IH; [done|]. intros k' Hk'. apply H. by right.
  - rewrite (H k ltac:(left) E), IH; [done|]. intros k' Hk'. apply H. by right.
Qed.

Lemma reported_all_nonneg keys items : 0 ≤ reported_all keys items.
Proof.
  induction keys as [|k keys IH]; cbn; [done|]. assert (0 ≤ reported (client_id k) items); [|lia].
  clear. induction items as [|t items IH]; cbn; [done|]. destruct (String.eqb _ _); lia.
Qed.

(** * The keys that are loaded *)

Section Loaded.
Context (t : Z) (items : list UserTrafficIn) (d : database).

Definition names (k : VpnKey) : bool := bool_decide (client_id k ∈ identifier <$> items).
Definition loaded : list VpnKey := filter (λ k, names k && key_live t k = true) (rows (vpn_keys d)).

Lemma unnamed_reported k : names k = false → reported (client_id k) items = 0.
Proof using Type. intros H%bool_decide_eq_false. by apply reported_absent. Qed.

Hypothesis keys_keyed : keyed keys_tbl d.

Lemma elem_of_loaded k : k ∈ loaded ↔ vpn_keys d !! key_id k = Some k ∧ names k = true ∧ key_live t k = true.
Proof using keys_keyed.
unfold loaded. rewrite list_elem_of_filter, elem_of_rows, andb_true_iff. split; [|naive_solver].
intros [? [i Hi]]. pose proof (keys_keyed i k Hi) as Hid. cbn in Hid. by subst i.
Qed.

Lemma loaded_ok : clients_distinct (rows (vpn_keys d)) → loaded_keys loaded.
Proof using keys_keyed.
intros Hu. split.
- eapply sublist_NoDup; [apply (rows_ids_NoDup keys_tbl d), keys_keyed|]. apply fmap_sublist, sublist_filter.
- intros k k' [_ Hk]%list_elem_of_filter [_ Hk']%list_elem_of_filter. by apply Hu.
Qed.

(** A loaded key is charged what is reported for it. *)
Lemma charged_key k :
loaded_keys loaded → vpn_keys d !! key_id k = Some k →
charged (Z.eqb (key_id k)) (charges loaded items) = key_report t items k.
Proof using keys_keyed.
intros Hlk Hk. rewrite charged_reported by done. unfold key_report.
destruct (names k && key_live t k) eqn:Ex.
- assert (Hin : k ∈ loaded) by (apply elem_of_loaded; apply andb_true_iff in Ex; tauto). apply andb_true_iff in Ex as [_ ->].
  assert (filter (λ k', (key_id k =? key_id k') = true) loaded = [k]) as ->; [|cbn; lia].
  assert (Hnd := lk_ids _ Hlk). revert Hin Hnd. generalize loaded as ks. induction ks as [|k' ks IH]; [by intros ?%not_elem_of_nil|].
  intros [->|Hin]%elem_of_cons; rewrite fmap_cons; intros [Hx Hnd]%NoDup_cons; rewrite filter_cons.
  + rewrite decide_True by apply Z.eqb_refl. f_equal. apply filter_empty. intros k2 Hk2 E%Z.eqb_eq. apply Hx. rewrite E. by apply list_elem_of_fmap_2.
  + rewrite decide_False; [by apply IH|]. intros E%Z.eqb_eq. apply Hx. rewrite <-E. by apply list_elem_of_fmap_2.
- assert (filter (λ k', (key_id k =? key_id k') = true) loaded = []) as ->.
  { apply filter_empty. intros k' Hk' E%Z.eqb_eq. pose proof (proj1 (elem_of_loaded k') Hk') as (Hrow & Hn & Hl).
    rewrite <-E, Hk in Hrow. injection Hrow as ->. by rewrite Hn, Hl in Ex. }
  cbn. destruct (key_live t k) eqn:El; [|done]. rewrite unnamed_reported; [done|]. by rewrite andb_true_r in Ex.
Qed.

Lemma sub_of_loaded k : loaded_keys loaded → k ∈ loaded → sub_of loaded (key_id k) = key_subscription_id k.
Proof using Type. intros Hlk Hk. unfold sub_of. by rewrite find_key_id by (done || apply Hlk). Qed.

(** A subscription is charged what is reported for its keys. *)
Lemma charged_sub_total sid : loaded_keys loaded → sub_total loaded items sid = sub_report t items d sid.
Proof using Type.
intros Hlk. unfold sub_total. rewrite charged_reported by done. unfold sub_report.
assert (filter (λ k, bool_decide (sub_of loaded (key_id k) = Some sid) = true) loaded =
        filter (λ k, names k = true) (filter (λ k, of_subscription sid k && key_live t k = true) (rows (vpn_keys d)))) as ->.
{ rewrite (filter_in_iff _ (λ k, of_subscription sid k = true)).
  2:{ intros k Hk. by rewrite sub_of_loaded by done. }
  unfold loaded. rewrite !list_filter_filter. apply list_filter_iff. intros k. rewrite !andb_true_iff. tauto. }
apply reported_all_filter. intros k _. apply unnamed_reported.
Qed.
End Loaded.

(** * The effect of a report *)

(** The limit of a plan is reached by what is charged. *)
Definition plan_reached (now : Z) (items : list UserTrafficIn) (d : database) (sid : Z) (b : Subscription) : Prop :=
  0 < sub_report now items d sid ∧
  ∃ pid p, sub_plan_id b = Some pid ∧ plans d !! pid = Some p ∧ 0 < traffic_limit_bytes p ∧
    traffic_limit_bytes p ≤ sub_used_traffic_bytes b + sub_report now items d sid.

(** The limit of a key that has no subscription. *)
Definition key_reached (now : Z) (items : list UserTrafficIn) (k : VpnKey) : Prop :=
  key_subscription_id k = None ∧ 0 < traffic_limit_mb k ∧
  traffic_limit_mb k * _MIB ≤ key_used_traffic_bytes k + key_report now items k.

Record ingested (now : Z) (items : list UserTrafficIn) (s s' : session) : Prop := {
  ig_keys : ∀ kid k, vpn_keys (db s) !! kid = Some k →
    ∃ k', vpn_keys (db s') !! kid = Some k' ∧ same_client k k' ∧ valid_until k' = valid_until k ∧
      key_used_traffic_bytes k' = key_used_traffic_bytes k + key_report now items k;
  ig_subs : ∀ sid b, subscriptions (db s) !! sid = Some b →
    ∃ b', subscriptions (db s') !! sid = Some b' ∧
      sub_used_traffic_bytes b' = sub_used_traffic_bytes b + sub_report now items (db s) sid ∧
      lifetime_used_traffic_bytes b' = lifetime_used_traffic_bytes b + sub_report now items (db s) sid;
  ig_history : ∀ kid k, vpn_keys (db s) !! kid = Some k →
    recorded (db s') kid = recorded (db s) kid + key_report now items k;
  ig_plans : ∀ sid b, subscriptions (db s) !! sid = Some b → plan_reached now items (db s) sid b → sub_ended s s' sid;
  ig_limits : ∀ kid k, vpn_keys (db s) !! kid = Some k → key_live now k = true → names items k = true →
    key_reached now items k →
    switched desired_inactive (db s') kid ∧ ∃ k', vpn_keys (db s') !! kid = Some k' ∧ is_revoked k' = true;
  ig_only : ∀ kid k', vpn_keys (db s') !! kid = Some k' → is_revoked k' = true →
    ∃ k, vpn_keys (db s) !! kid = Some k ∧
      (is_revoked k = true ∨ key_reached now items k ∨
       ∃ sid b, key_subscription_id k = Some sid ∧ subscriptions (db s) !! sid = Some b ∧ plan_reached now items (db s) sid b);
}.

Lemma charges_nil items : charges [] items = [].
Proof. by induction items. Qed.

(** A report that names no working key changes nothing. *)
Lemma ingested_nothing now items s s' :
  db s' = db s → keyed keys_tbl (db s) → keyed subs_tbl (db s) → loaded now items (db s) = [] → ingested now items s s'.
Proof.
  intros Hdb Hk Hs Hl. assert (Hlk : loaded_keys (loaded now items (db s))) by (rewrite Hl; split; [constructor|by intros k k' ?%not_elem_of_nil]).
  assert (Hkr : ∀ kid k, vpn_keys (db s) !! kid = Some k → key_report now items k = 0).
  { intros kid k Hrow. pose proof (Hk kid k Hrow) as Hid. cbn in Hid. subst kid. rewrite <-(charged_key now items (db s)) by done. by rewrite Hl, charges_nil. }
  assert (Hsr : ∀ sid, sub_report now items (db s) sid = 0).
  { intros sid. rewrite <-charged_sub_total by done. unfold sub_total. by rewrite Hl, charges_nil. }
  split.
  - intros kid k Hrow. exists k. rewrite Hdb, (Hkr kid) by done. split_and!; try done. lia.
  - intros sid b Hb. exists b. rewrite Hdb, Hsr. split_and!; [done|lia|lia].
  - intros kid k Hrow. rewrite Hdb, (Hkr kid k) by done. lia.
  - intros sid b _ [H _]. rewrite Hsr in H. lia.
  - intros kid k Hrow Hlive Hn _. exfalso. pose proof (Hk kid k Hrow) as Hid. cbn in Hid. subst kid.
    assert (Hin : k ∈ loaded now items (db s)) by (apply elem_of_loaded; done). rewrite Hl in Hin. by apply not_elem_of_nil in Hin.
  - intros kid k'. rewrite Hdb. eauto.
Qed.

(** The keys that are loaded. *)
Lemma list_by_client_ids_run items s :
  Forall (λ t, UserTrafficIn_valid t = true) items → items ≠ [] →
  list_by_client_ids (identifier <$> items) true s = (Ok (loaded (clock s (ticks s)) items (db s)), tick s).
Proof.
  intros Hv Hne. unfold list_by_client_ids.
  assert (filter (λ c, nonempty c = true) (identifier <$> items) = identifier <$> items) as ->.
  { induction Hv as [|t l Ht _ IH]; [done|]. rewrite fmap_cons, filter_cons, decide_True.
    - f_equal. destruct l; [done|]. by apply IH.
    - unfold UserTrafficIn_valid in Ht. by apply andb_true_iff in Ht as [? _]. }
  destruct items as [|t l]; [done|]. cbn [fmap list_fmap]. unfold mbind, M_bind, utcnow. fold (tick s).
  unfold select_where, read, gets. f_equal. f_equal. unfold loaded. apply list_filter_iff. intros k. unfold names, key_live.
  change (identifier t :: list_fmap _ _ identifier l) with (identifier <$> t :: l).
  rewrite !andb_true_iff. cbn. tauto.
Qed.

(** ** The limits *)

Section Limits.
Context (pfx : string) (now : Z) (keys : list VpnKey) (items : list UserTrafficIn).
Notation st := (foldl (ingest_item now) {| is_keys := keys; is_deltas := ∅; is_history := [] |} items).
Hypothesis keys_loaded : loaded_keys keys.

Lemma charged_ids : key_id <$> (is_keys st) = key_id <$> keys.
Proof using keys_loaded.
destruct (ingest_fold now keys items keys_loaded) as (-> & _). rewrite <-list_fmap_compose.
apply list_fmap_ext. intros i k _. cbn. by rewrite charge_row_id.
Qed.

(** After the charges: who is cut off, and that the keys are otherwise as they were. *)
Lemma limits_run s0 s :
access_world s → keyed subs_tbl (db s) → moves_on s0 s → revocations_explained s0 s → rows_current (db s) (is_keys st) →
∃ n m kids s1 s2 s', charge_subscriptions pfx now (is_deltas st) s = (Ok n, s2) ∧ revoke_over_limit pfx now (is_keys st) s2 = (Ok m, s') ∧
  moves_on s s' ∧ set_subscriptions ∅ (db s1) = set_subscriptions ∅ (db s) ∧ access_switched true desired_inactive kids s1 s' ∧
  (∀ kid, kid ∈ kids → ∃ k, vpn_keys (db s) !! kid = Some k ∧ (key_over_limit k = true ∨
     ∃ sid b, key_subscription_id k = Some sid ∧ subscriptions (db s) !! sid = Some b ∧ exceeds_plan (db s) (is_deltas st) b = true)) ∧
  (∀ k, k ∈ is_keys st → key_over_limit k = true → key_id k ∈ kids) ∧
  (∀ i, subscriptions (db s') !! i = charged_sub now (is_deltas st) <$> subscriptions (db s) !! i) ∧
  (∀ sid b, subscriptions (db s) !! sid = Some b → exceeds_plan (db s) (is_deltas st) b = true → sub_ended s0 s' sid).
Proof using keys_loaded.
intros Hw Hks Hmv He Hcur.
destruct (charge_subscriptions_run pfx now keys items keys_loaded s0 s Hw Hks Hmv He)
  as (n & l1 & s1 & s2 & Hrun1 & Hmv1 & Hs1 & Has1 & Hl1 & Hsubs & Hend).
assert (Hv1 : vpn_keys (db s1) = vpn_keys (db s)).
{ change (vpn_keys (set_subscriptions ∅ (db s1)) = vpn_keys (set_subscriptions ∅ (db s))). by rewrite Hs1. }
assert (Hcur2 : ∀ k, k ∈ is_keys st → key_over_limit k = true → vpn_keys (db s2) !! key_id k = Some k).
{ intros k Hk Hov. pose proof (Hcur k Hk) as Hrow. destruct (decide (key_id k ∈ l1)) as [Hin|Hin].
  - destruct (Hl1 _ Hin) as (k2 & sid & b & Hk2 & Hsid & _). assert (k2 = k) as -> by congruence.
    unfold key_over_limit in Hov. by rewrite Hsid in Hov.
  - by rewrite (proj2 (as_others _ _ _ _ _ Has1 _ Hin)), Hv1. }
destruct (revoke_over_run pfx now (is_keys st) s2) as (m & s' & Hrun2 & Hmv2 & Hrcs); [apply Has1| |done|].
{ rewrite charged_ids. apply keys_loaded. }
set (over := filter (λ k, key_over_limit k = true) (is_keys st)) in *.
assert (Has2 : access_switched true desired_inactive (key_id <$> over) s2 s') by (apply recuts_switched; [apply Has1|done]).
assert (Hover : ∀ kid, kid ∈ key_id <$> over → ∃ k, k ∈ is_keys st ∧ key_over_limit k = true ∧ kid = key_id k).
{ intros kid (k & -> & [Hov Hk]%list_elem_of_filter)%list_elem_of_fmap. eauto. }
exists n, m, (l1 ++ (key_id <$> over)), s1, s2, s'. split_and!; try done.
- by transitivity s2.
- by eapply access_switched_trans.
- intros kid [Hin|Hin]%elem_of_app.
  + destruct (Hl1 kid Hin) as (k & sid & b & ? & ? & ? & ?). exists k. eauto 10.
  + destruct (Hover kid Hin) as (k & Hk & Hov & ->). exists k. split; [by apply Hcur|by left].
- intros k Hk Hov. apply elem_of_app. right. apply list_elem_of_fmap_2, list_elem_of_filter. done.
- intros i. rewrite (rest_field subscriptions (db s2) (db s')); [apply Hsubs|done|apply Has2].
- intros sid b Hb Hx. eapply (sub_ended_later s0 s2 s'); [done|done| |by eapply Hend].
  eapply switched_dom; [done|]. intros kid (k & Hk & Hov & ->)%Hover. exists k. by apply Hcur2.
Qed.
End Limits.

(** ** The whole report *)

Lemma charge_row_used now l k :
  key_used_traffic_bytes (charge_row now l k) = key_used_traffic_bytes k + charged (Z.eqb (key_id k)) l.
Proof.
  unfold charge_row. case_bool_decide as Hin; [done|]. rewrite charged_none; [lia|].
  intros c Hc. apply Z.eqb_neq. intros E. apply Hin. rewrite E. by apply list_elem_of_fmap_2.
Qed.

Lemma charge_row_terms now l k :
  same_client k (charge_row now l k) ∧ valid_until (charge_row now l k) = valid_until k ∧
  is_revoked (charge_row now l k) = is_revoked k ∧ traffic_limit_mb (charge_row now l k) = traffic_limit_mb k.
Proof. unfold charge_row. by case_bool_decide. Qed.

Lemma sub_ended_same s0 s s' sid :
  moves_on s s' → vpn_keys (db s') = vpn_keys (db s) → placements (db s') = placements (db s) →
  nodes (db s') = nodes (db s) → outbox (db s') = outbox (db s) → sub_ended s0 s sid → sub_ended s0 s' sid.
Proof.
  intros (_ & Ht & _) Hv Hp Hn Ho Hs kid k Hk Hsid Ha. rewrite Hv in Hk.
  destruct (Hs kid k Hk Hsid Ha) as [(n & Hn' & Hle)|(Hr & Hor)]; [left; exists n; split; [lia|done]|right].
  split; [done|]. destruct Hor as [?|Hsw]; [by left|right]. eapply switched_persists; [|exact Hsw].
  split_and!; [done|by rewrite Ho|intros i p _; by rewrite Hp|intros k'; rewrite Hv; eauto].
Qed.

Section Report.
Context (t : Z) (items : list UserTrafficIn) (now : Z) (s s1 : session).
Notation keys := (loaded t items (db s)).
Notation l := (charges keys items).
Notation st := (foldl (ingest_item now) {| is_keys := keys; is_deltas := ∅; is_history := [] |} items).

(** The loaded keys have been charged and flushed. *)
Record flushed : Prop := {
  fl_distinct : loaded_keys keys;
  fl_keyed : keyed keys_tbl (db s);
  fl_subs : keyed subs_tbl (db s);
  fl_rest : rest (db s1) = rest (db s);
  fl_keys : ∀ k, k ∈ keys → vpn_keys (db s1) !! key_id k = Some (charge_row now l k);
  fl_others : ∀ kid, kid ∉ key_id <$> keys → vpn_keys (db s1) !! kid = vpn_keys (db s) !! kid;
}.

(** Each row is charged what is reported for it. *)
Lemma flushed_row kid k :
flushed → vpn_keys (db s) !! kid = Some k →
∃ k1, vpn_keys (db s1) !! kid = Some k1 ∧ same_client k k1 ∧ valid_until k1 = valid_until k ∧ is_revoked k1 = is_revoked k ∧
  traffic_limit_mb k1 = traffic_limit_mb k ∧
  key_used_traffic_bytes k1 = key_used_traffic_bytes k + key_report t items k ∧ (k ∈ keys → k1 ∈ is_keys st).
Proof using Type.
intros [Hlk Hk Hs Hrest Hkeys Hoth] Hrow. pose proof (Hk kid k Hrow) as Hid. cbn in Hid. subst kid.
destruct (ingest_fold now keys items Hlk) as (Hst & _).
exists (charge_row now l k). pose proof (charge_row_terms now l k) as (H1 & H2 & H3 & H4).
split_and!; try done.
- destruct (decide (key_id k ∈ key_id <$> keys)) as [Hin|Hn].
  + apply Hkeys. apply list_elem_of_fmap in Hin as (k' & E & Hk'). pose proof (proj1 (elem_of_loaded t items (db s) Hk k') Hk') as (Hr & _).
    rewrite <-E, Hrow in Hr. injection Hr as ->. done.
  + rewrite Hoth, Hrow by done. f_equal. unfold charge_row. rewrite bool_decide_false; [done|]. intros Hc. apply Hn.
    apply list_elem_of_fmap in Hc as (c & -> & (x & _ & Hx)%list_elem_of_omap). unfold charge_of in Hx.
    destruct (find _ keys) as [k'|] eqn:Hf; [|done]. destruct (_ <=? _); [done|]. injection Hx as <-. cbn.
    apply find_some in Hf as [Hf%list_elem_of_In _]. by apply list_elem_of_fmap_2.
- rewrite charge_row_used. by rewrite <-(charged_key t items (db s)) by done.
- intros Hin. rewrite Hst. by apply list_elem_of_fmap_2.
Qed.

Lemma flushed_current : flushed → rows_current (db s1) (is_keys st).
Proof using Type.
intros [Hlk Hk Hs Hrest Hkeys Hoth] k'. destruct (ingest_fold now keys items Hlk) as (-> & _).
intros (k & -> & Hin)%list_elem_of_fmap. rewrite charge_row_id. by apply Hkeys.
Qed.

Lemma flushed_plans sid b :
flushed → subscriptions (db s) !! sid = Some b →
(exceeds_plan (db s1) (is_deltas st) b = true ↔ plan_reached t items (db s) sid b) ∧
charged_sub now (is_deltas st) b = (if 0 <? sub_report t items (db s) sid then charge_sub now (sub_report t items (db s) sid) b else b).
Proof using Type.
intros [Hlk Hk Hs Hrest Hkeys Hoth] Hb. pose proof (Hs sid b Hb) as Hid. cbn in Hid.
assert (Hc : sub_charge (is_deltas st) b = sub_report t items (db s) sid).
{ unfold sub_charge. by rewrite Hid, (deltas_total now keys items Hlk), charged_sub_total. }
unfold exceeds_plan, charged_sub. rewrite Hc. split; [|done].
assert (plans (db s1) = plans (db s)) as -> by (by apply (rest_field plans)).
unfold plan_reached, over_limit. rewrite andb_true_iff, Z.ltb_lt. apply and_iff_compat_l.
destruct (sub_plan_id b) as [pid|]; cbn; [|naive_solver]. destruct (plans (db s) !! pid) as [p|] eqn:Hp; [|naive_solver].
rewrite andb_true_iff, Z.ltb_lt, Z.leb_le. naive_solver.
Qed.

Lemma over_reached k k1 :
same_client k k1 → is_revoked k1 = is_revoked k → traffic_limit_mb k1 = traffic_limit_mb k →
key_used_traffic_bytes k1 = key_used_traffic_bytes k + key_report t items k →
key_over_limit k1 = true ↔ key_reached t items k ∧ is_revoked k = false.
Proof using Type.
intros (_ & _ & _ & _ & _ & Es) Er El Eu. unfold key_over_limit, key_reached. rewrite Es, Er, El, Eu.
rewrite !andb_true_iff, negb_true_iff, Z.ltb_lt, Z.leb_le. unfold _MIB.
destruct (key_subscription_id k); [naive_solver|]. split.
- intros [[[_ H] H1] H2]. split_and!; [done|lia|lia|done].
- intros [(_ & H1 & H2) H]. split_and!; [done|done|lia|lia].
Qed.
End Report.

(** What the phases after the flush amount to. *)
Section After.
Context (t : Z) (items : list UserTrafficIn) (now : Z) (kids : list Z) (s s1 s1' s2 s' : session).
Notation st := (foldl (ingest_item now) {| is_keys := loaded t items (db s); is_deltas := ∅; is_history := [] |} items).
Hypothesis Hfl : flushed t items now s s1.
Hypothesis Hsame : set_subscriptions ∅ (db s1') = set_subscriptions ∅ (db s1).
Hypothesis Has : access_switched true desired_inactive kids s1' s2.
Hypothesis Hkids : ∀ kid, kid ∈ kids → ∃ k, vpn_keys (db s1) !! kid = Some k ∧ (key_over_limit k = true ∨
  ∃ sid b, key_subscription_id k = Some sid ∧ subscriptions (db s1) !! sid = Some b ∧ exceeds_plan (db s1) (is_deltas st) b = true).
Hypothesis Hover : ∀ k, k ∈ is_keys st → key_over_limit k = true → key_id k ∈ kids.
Hypothesis Hsubs : ∀ i, subscriptions (db s2) !! i = charged_sub now (is_deltas st) <$> subscriptions (db s1) !! i.
Hypothesis Hend : ∀ sid b, subscriptions (db s1) !! sid = Some b → exceeds_plan (db s1) (is_deltas st) b = true → sub_ended s s2 sid.
Hypothesis Husage : set_traffic_usages ∅ (db s') = set_traffic_usages ∅ (db s2).
Hypothesis Hmv : moves_on s2 s'.
Hypothesis Hrec : ∀ kid, recorded (db s') kid = recorded (db s2) kid + charged (Z.eqb kid) (is_history st).

Lemma after_subs : subscriptions (db s1) = subscriptions (db s).
Proof using Hfl. apply (rest_field subscriptions); [done|apply Hfl]. Qed.

Lemma after_vpn_keys : vpn_keys (db s1') = vpn_keys (db s1) ∧ vpn_keys (db s') = vpn_keys (db s2).
Proof using Hsame Husage. split; [exact (f_equal vpn_keys Hsame)|exact (f_equal vpn_keys Husage)]. Qed.

Lemma after_recorded : recorded (db s2) = recorded (db s).
Proof using Hfl Hsame Has.
unfold recorded. rewrite (rest_field traffic_usages (db s1') (db s2)) by (done || apply Has).
assert (traffic_usages (db s1') = traffic_usages (db s1)) as -> by exact (f_equal traffic_usages Hsame).
by rewrite (rest_field traffic_usages (db s) (db s1)) by (done || apply Hfl).
Qed.

(** The rows of a key: before, charged, at the end. *)
Lemma after_row kid k :
vpn_keys (db s) !! kid = Some k →
∃ k1 k2, vpn_keys (db s1) !! kid = Some k1 ∧ vpn_keys (db s') !! kid = Some k2 ∧ same_client k k1 ∧ same_client k1 k2 ∧
  valid_until k1 = valid_until k ∧ same_terms k1 k2 ∧ (kid ∈ kids → is_revoked k2 = true) ∧ is_revoked k1 = is_revoked k ∧
  key_used_traffic_bytes k1 = key_used_traffic_bytes k + key_report t items k ∧
  (key_over_limit k1 = true ↔ key_reached t items k ∧ is_revoked k = false) ∧ (k ∈ loaded t items (db s) → k1 ∈ is_keys st).
Proof using Hfl Hsame Has Husage.
intros Hk. destruct (flushed_row t items now s s1 kid k Hfl Hk) as (k1 & Hk1 & H1 & H2 & H3 & H4 & H5 & H6).
destruct (as_keys _ _ _ _ _ Has kid k1) as (k2 & Hk2 & Hsc & Hst & Hf); [by rewrite (proj1 after_vpn_keys)|].
exists k1, k2. split_and!; try done; [by rewrite (proj2 after_vpn_keys)|by apply over_reached].
Qed.

Lemma after_dom kid k1 : vpn_keys (db s1) !! kid = Some k1 → is_Some (vpn_keys (db s) !! kid).
Proof using Hfl.
intros Hk1. destruct (decide (kid ∈ key_id <$> loaded t items (db s))) as [Hin|Hn].
- apply list_elem_of_fmap in Hin as (k & -> & Hx). apply elem_of_loaded in Hx as (Hx & _); [by exists k|apply Hfl].
- rewrite (fl_others _ _ _ _ _ Hfl) in Hk1 by done. by exists k1.
Qed.

Lemma after_switched kid : kid ∈ kids → switched desired_inactive (db s') kid.
Proof using Has Husage.
intros Hin. eapply switched_persists; [|by apply (as_on _ _ _ _ _ Has)]. split_and!.
- exact (f_equal nodes Husage).
- assert (outbox (db s') = outbox (db s2)) as -> by exact (f_equal outbox Husage). done.
- intros i p _. assert (placements (db s') = placements (db s2)) as -> by exact (f_equal placements Husage). done.
- intros k. assert (vpn_keys (db s') = vpn_keys (db s2)) as -> by exact (f_equal vpn_keys Husage). eauto.
Qed.

Lemma after_limits kid k :
vpn_keys (db s) !! kid = Some k → key_live t k = true → names items k = true → key_reached t items k → kid ∈ kids.
Proof using Hfl Hsame Has Husage Hover.
intros Hk Hl Hn Hre. destruct (after_row kid k Hk) as (k1 & _ & _ & _ & S1 & _ & _ & _ & _ & _ & _ & Hov & Hin).
pose proof (fl_keyed _ _ _ _ _ Hfl kid k Hk) as Hid. cbn in Hid. rewrite <-Hid, <-(proj1 S1).
apply Hover; [apply Hin, elem_of_loaded; [apply Hfl|by rewrite Hid]|]. apply Hov. split; [done|].
unfold key_live in Hl. rewrite !andb_true_iff, negb_true_iff in Hl. tauto.
Qed.

Lemma after_only kid k' :
vpn_keys (db s') !! kid = Some k' → is_revoked k' = true →
∃ k, vpn_keys (db s) !! kid = Some k ∧ (is_revoked k = true ∨ key_reached t items k ∨
  ∃ sid b, key_subscription_id k = Some sid ∧ subscriptions (db s) !! sid = Some b ∧ plan_reached t items (db s) sid b).
Proof using Hfl Hsame Has Husage Hkids.
intros Hk' Hr. destruct after_vpn_keys as [HV1 HV]. destruct (decide (kid ∈ kids)) as [Hin|Hn].
- destruct (Hkids kid Hin) as (k1 & Hk1 & Hwhy). destruct (after_dom kid k1 Hk1) as [k Hk].
  destruct (after_row kid k Hk) as (k1' & _ & Hk1' & _ & (_ & _ & _ & _ & _ & Es) & _ & _ & _ & _ & _ & _ & Hov & _).
  assert (k1' = k1) as -> by congruence. exists k. split; [done|]. right.
  destruct Hwhy as [Ho|(sid & b & Hs & Hb & Hx)]; [left; by apply Hov|right].
  rewrite after_subs in Hb. exists sid, b. split_and!; [congruence|done|]. by apply (proj1 (flushed_plans t items now s s1 sid b Hfl Hb)).
- rewrite HV, (proj2 (as_others _ _ _ _ _ Has kid Hn)), HV1 in Hk'. destruct (after_dom kid k' Hk') as [k Hk].
  destruct (after_row kid k Hk) as (k1 & _ & Hk1 & _ & _ & _ & _ & _ & _ & Er & _). exists k. split; [done|]. left. congruence.
Qed.

Lemma ingested_after : ingested t items s s'.
Proof using Type*.
split.
- intros kid k Hk. destruct (after_row kid k Hk) as (k1 & k2 & _ & Hk2 & S1 & S2 & V1 & [V2 U2] & _ & _ & U1 & _).
  exists k2. split_and!; [done|by eapply same_client_trans|congruence|congruence].
- intros sid b Hb. destruct (flushed_plans t items now s s1 sid b Hfl Hb) as [_ Hc]. exists (charged_sub now (is_deltas st) b).
  assert (subscriptions (db s') = subscriptions (db s2)) as -> by exact (f_equal subscriptions Husage).
  rewrite Hsubs, after_subs, Hb. split; [done|]. rewrite Hc.
  pose proof (reported_all_nonneg (filter (λ k, of_subscription sid k && key_live t k = true) (rows (vpn_keys (db s)))) items).
  destruct (Z.ltb_spec 0 (sub_report t items (db s) sid)); [done|]. unfold sub_report in *. lia.
- intros kid k Hk. pose proof (fl_keyed _ _ _ _ _ Hfl kid k Hk) as Hid. cbn in Hid. subst kid.
  rewrite Hrec, after_recorded, (proj1 (proj2 (ingest_fold now _ items (fl_distinct _ _ _ _ _ Hfl)))), charged_key; [done|apply Hfl|apply Hfl|done].
- intros sid b Hb Hp. apply (sub_ended_same s s2); [done|apply after_vpn_keys|exact (f_equal placements Husage)|exact (f_equal nodes Husage)|exact (f_equal outbox Husage)|].
  apply (Hend sid b); [by rewrite after_subs|]. by apply (proj1 (flushed_plans t items now s s1 sid b Hfl Hb)).
- intros kid k Hk Hl Hn Hre. pose proof (after_limits kid k Hk Hl Hn Hre) as Hin. split; [by apply after_switched|].
  destruct (after_row kid k Hk) as (k1 & k2 & _ & Hk2 & _ & _ & _ & _ & F & _). eauto.
- apply after_only.
Qed.
End After.

Lemma ingest_run pfx items s :
  access_world s → keyed subs_tbl (db s) → clients_distinct (rows (vpn_keys (db s))) →
  (∀ i, next_uuid s ≤ i → traffic_usages (db s) !! i = None) → Forall (λ t, UserTrafficIn_valid t = true) items →
  ∃ out s', ingest_users_traffic pfx items s = (Ok out, s') ∧ ingested (clock s (ticks s)) items s s'.
Proof.
  intros Hw Hks Hu Hf Hv. set (t := clock s (ticks s)).
  destruct (decide (items = [])) as [->|Hne].
  { eexists _, s. split; [done|]. apply ingested_nothing; [done|apply Hw|done|]. apply filter_empty. intros k _. unfold names. cbn.
    by rewrite bool_decide_false by apply not_elem_of_nil. }
  unfold ingest_users_traffic. destruct items as [|i0 items0] eqn:Ei; [done|]. rewrite <-Ei in *. clear Hne.
  unfold mbind at 1, M_bind at 1. rewrite list_by_client_ids_run by (done || congruence). fold t.
  destruct (loaded t items (db s)) as [|k0 keys0] eqn:Ek.
  { eexists _, (tick s). split; [done|]. apply ingested_nothing; [done|apply Hw|done|exact Ek]. }
  rewrite <-Ek. clear Ek k0 keys0. set (now := clock s (S (ticks s))). set (s0 := tick (tick s)).
  change ((utcnow ≫= _) (tick s)) with ((let st := foldl (ingest_item now) {| is_keys := loaded t items (db s); is_deltas := ∅; is_history := [] |} items in
    flush_charged now st ;; by_plan ← charge_subscriptions pfx now (is_deltas st);
    by_key ← revoke_over_limit pfx now (is_keys st); bulk_create_usage (is_history st) ;;
    mret {| in_processed := Z.of_nat (length (is_history st)); in_revoked := by_plan + by_key |}) s0).
  assert (Hlk : loaded_keys (loaded t items (db s))) by (apply loaded_ok; [apply Hw|done]).
  assert (Hw0 : access_world s0) by (by do 2 apply access_world_tick). cbv zeta. set (st := foldl _ _ items).
  destruct (flush_charged_run now _ items Hlk s0 Hw0) as (s1 & Hrun1 & Hw1 & Hr1 & Hp1 & Ho1 & Hmv1 & Hk1 & Hoth1).
  { intros k Hk. by apply elem_of_loaded in Hk as (? & _); [|apply Hw]. }
  assert (Hfl : flushed t items now s s1) by (split; [done|apply Hw|done..]).
  assert (Hs1 : keyed subs_tbl (db s1)) by (intros i b; cbn; rewrite (after_subs t items now s s1 Hfl); apply Hks).
  assert (Hmv : moves_on s s1) by (do 2 (etrans; [apply moves_tick|]); done).
  destruct (limits_run pfx now _ items Hlk s s1 Hw1 Hs1 Hmv) as (n & m & kids & s1' & s2 & s3 & Hrun2 & Hrun3 & Hmv3 & Hsame & Has & Hkids & Hover & Hsubs & Hend).
  { intros kid k Hk Hr. left. destruct (after_dom t items now s s1 Hfl kid k Hk) as [k2 Hk2]. exists k2. split; [done|].
    destruct (flushed_row t items now s s1 kid k2 Hfl Hk2) as (k3 & Hk3 & _ & _ & Er & _). congruence. }
  { by apply (flushed_current t items now s s1). }
  assert (Hu3 : traffic_usages (db s3) = traffic_usages (db s)).
  { rewrite (rest_field traffic_usages (db s1') (db s3)) by (done || apply Has).
    assert (traffic_usages (db s1') = traffic_usages (db s1)) as -> by exact (f_equal traffic_usages Hsame). by apply (rest_field traffic_usages). }
  destruct (bulk_create_run (is_history st) s3) as (s' & Hrun4 & Husage & Hmv4 & Hrec).
  { intros i Hi. rewrite Hu3. apply Hf. destruct Hmv as (_ & _ & ?), Hmv3 as (_ & _ & ?). lia. }
  eexists _, s'. split; [|by eapply (ingested_after t items now kids s s1 s1' s3 s')].
  fold st in Hrun1, Hrun2, Hrun3.
  unfold mbind at 1, M_bind at 1. rewrite Hrun1. unfold mbind at 1, M_bind at 1. rewrite Hrun2.
  unfold mbind at 1, M_bind at 1. rewrite Hrun3. unfold mbind, M_bind. by rewrite Hrun4.
Qed.

(** ** The theorems *)

(** C14: a valid report is booked exactly once and completely: the ingestion returns, every
    key that works when the report is read gets what the items report for its client id on
    top of its counter (and keeps its identity and term), every other key gets nothing,
    both counters of each subscription grow by what is reported for its working keys, and
    the history grows by the same bytes per key. *)
Theorem traffic_accounted pfx items s :
  access_world s → keyed subs_tbl (db s) → clients_distinct (rows (vpn_keys (db s))) →
  (∀ i, next_uuid s ≤ i → traffic_usages (db s) !! i = None) → Forall (λ t, UserTrafficIn_valid t = true) items →
  let now := clock s (ticks s) in
  ∃ out s', ingest_users_traffic pfx items s = (Ok out, s') ∧
    (∀ kid k, vpn_keys (db s) !! kid = Some k →
       recorded (db s') kid = recorded (db s) kid + key_report now items k ∧
       ∃ k', vpn_keys (db s') !! kid = Some k' ∧ same_client k k' ∧ valid_until k' = valid_until k ∧
         key_used_traffic_bytes k' = key_used_traffic_bytes k + key_report now items k) ∧
    (∀ sid b, subscriptions (db s) !! sid = Some b →
       ∃ b', subscriptions (db s') !! sid = Some b' ∧
         sub_used_traffic_bytes b' = sub_used_traffic_bytes b + sub_report now items (db s) sid ∧
         lifetime_used_traffic_bytes b' = lifetime_used_traffic_bytes b + sub_report now items (db s) sid).
Proof.
  intros Hw Hs Hu Hf Hv now. destruct (ingest_run pfx items s Hw Hs Hu Hf Hv) as (out & s' & Hrun & []).
  exists out, s'. split_and!; eauto.
Qed.

(** C15: a report enforces the limits, and only them: when it brings a subscription to its
    plan's limit, every key of that subscription is revoked with its placements switched
    off and told to the nodes (unless its term had ended or it was revoked before); when it
    brings a key without a subscription to its own limit, that key is; and a key that is
    revoked afterwards was revoked before or has reached one of these limits. *)
Theorem traffic_limit_enforced pfx items s :
  access_world s → keyed subs_tbl (db s) → clients_distinct (rows (vpn_keys (db s))) →
  (∀ i, next_uuid s ≤ i → traffic_usages (db s) !! i = None) → Forall (λ t, UserTrafficIn_valid t = true) items →
  let now := clock s (ticks s) in
  ∃ out s', ingest_users_traffic pfx items s = (Ok out, s') ∧
    (∀ sid b, subscriptions (db s) !! sid = Some b → plan_reached now items (db s) sid b → sub_ended s s' sid) ∧
    (∀ kid k, vpn_keys (db s) !! kid = Some k → key_live now k = true → names items k = true → key_reached now items k →
       switched desired_inactive (db s') kid ∧ ∃ k', vpn_keys (db s') !! kid = Some k' ∧ is_revoked k' = true) ∧
    (∀ kid k', vpn_keys (db s') !! kid = Some k' → is_revoked k' = true →
       ∃ k, vpn_keys (db s) !! kid = Some k ∧
         (is_revoked k = true ∨ key_reached now items k ∨
          ∃ sid b, key_subscription_id k = Some sid ∧ subscriptions (db s) !! sid = Some b ∧ plan_reached now items (db s) sid b)).
Proof.
  intros Hw Hs Hu Hf Hv now. destruct (ingest_run pfx items s Hw Hs Hu Hf Hv) as (out & s' & Hrun & []).
  by exists out, s'.
Qed.

(** Traffic messages and periods: a message counts once however often it is delivered, and the
    period a reset belongs to. *)



(** * Delivery *)

(** The message has been taken. *)
Definition processed (d : database) (subject msg_id : string) : Prop :=
  ∃ i m, processed_msgs d !! i = Some m ∧ npm_subject m = subject ∧ npm_msg_id m = msg_id.

Lemma ingest_same_processed pfx items : keeps (on_db (same processed_msgs)) (ingest_users_traffic pfx items).
Proof.
  assert (Hcut : ∀ kid now, keeps (on_db (same processed_msgs)) (cut_off pfx kid now)).
  { intros kid now. unfold cut_off, set_desired_state_for_key, enqueue_for_key_state, list_active_ids_for_key.
    pose proof (enqueue_for_placement_ids_same pfx processed_msgs). keeps_tac. }
  assert (Hrk : ∀ now l, keeps (on_db (same processed_msgs)) (revoke_keys pfx now l)).
  { intros now l. induction l; cbn [revoke_keys]; keeps_tac. }
  assert (Hrs : ∀ now l, keeps (on_db (same processed_msgs)) (revoke_subscriptions pfx now l)).
  { intros now l. induction l; cbn [revoke_subscriptions]; unfold _revoke_subscription_keys, list_active_by_subscription_id; keeps_tac. }
  assert (Hcs : ∀ now deltas l, keeps (on_db (same processed_msgs)) (charge_subs now deltas l)).
  { intros now deltas l. induction l; cbn [charge_subs]; unfold plan_of; keeps_tac. }
  assert (Hro : ∀ now l, keeps (on_db (same processed_msgs)) (revoke_over_limit pfx now l)).
  { intros now l. induction l; cbn [revoke_over_limit]; unfold assign_revoked; keeps_tac. }
  unfold ingest_users_traffic, list_by_client_ids, flush_charged, charge_subscriptions, list_by_ids_with_plan,
    invalidate_by_subscription_ids, invalidate_by_token_hashes, bulk_create_usage. keeps_tac.
Qed.

Section Delivery.
Context (pfx subject m : string) (loads : string → option json) (model_validate : json → option UserTrafficIn).
Hypothesis msg_id_given : nonempty m = true.
Notation handle := (traffic_handle_message pfx loads model_validate subject (Some m)).

(** The unique constraint stops a second claim. *)
Lemma claim_taken s :
keyed processed_msgs_tbl (db s) → processed (db s) subject m → ∃ s', claim subject m s = (Ok false, s') ∧ db s' = db s.
Proof using msg_id_given.
intros Hk (i & row & Hrow & Hsub & Hm). unfold claim. rewrite msg_id_given. cbn [negb]. unfold catch, mbind, M_bind. rewrite create_run. cbv zeta.
set (r := {| npm_id := _; npm_msg_id := m; npm_subject := subject; npm_created_at := _ |}).
destruct (t_rows processed_msgs_tbl (db s) !! t_id processed_msgs_tbl r) as [r0|] eqn:Hid; [by eexists|].
destruct (t_check processed_msgs_tbl (db s) None r) eqn:Hc; [by eexists|]. exfalso.
cbn [t_check processed_msgs_tbl] in Hc. unfold unique_on, unique in Hc. destruct (clashes _ _ _ r) eqn:Hcl; [done|].
unfold clashes in Hcl. apply not_true_iff_false in Hcl. apply Hcl, existsb_exists. exists row.
split; [apply list_elem_of_In, elem_of_rows; by exists i|]. cbn. rewrite Hsub, Hm, !String.eqb_refl, andb_true_r.
pose proof (Hk i row Hrow) as Hi. cbn in Hi, Hid. apply negb_true_iff, Z.eqb_neq. congruence.
Qed.

Lemma claim_new s :
(∀ i, next_uuid s ≤ i → processed_msgs (db s) !! i = None) →
∃ b s', claim subject m s = (Ok b, s') ∧ (b = true → processed (db s') subject m) ∧
  (b = false → db s' = db s ∧ processed (db s) subject m).
Proof using msg_id_given.
intros Hf. unfold claim. rewrite msg_id_given. cbn [negb]. unfold catch, mbind, M_bind. rewrite create_run. cbv zeta.
set (r := {| npm_id := _; npm_msg_id := m; npm_subject := subject; npm_created_at := _ |}).
cbn [t_rows processed_msgs_tbl t_id]. rewrite (Hf (npm_id r)) by (cbn; lia).
destruct (t_check processed_msgs_tbl (db s) None r) as [name|] eqn:Hc.
- eexists _, _. split; [done|]. split; [done|]. intros _. split; [done|].
  cbn [t_check processed_msgs_tbl] in Hc. unfold unique_on, unique in Hc. destruct (clashes _ _ _ r) eqn:Hcl; [|done].
  apply existsb_exists in Hcl as (row & [i Hi]%list_elem_of_In%elem_of_rows & [_ [E1%String.eqb_eq E2%String.eqb_eq]%andb_true_iff]%andb_true_iff).
  by exists i, row.
- eexists _, _. split; [done|]. split; [|done]. intros _. exists (npm_id r), r. split; [apply lookup_insert_eq|done].
Qed.

(** A message that was taken changes nothing. *)
Lemma redelivered raw s :
keyed processed_msgs_tbl (db s) → processed (db s) subject m → ∃ s', handle raw s = (Ok tt, s') ∧ db s' = db s.
Proof using msg_id_given.
intros Hk Hp. unfold traffic_handle_message. destruct (_parse_payload loads model_validate raw) as [|t l]; [by exists s|].
destruct (claim_taken s Hk Hp) as (s1 & Hrun & Hdb). unfold run_committing. rewrite msg_id_given.
unfold mbind at 1, M_bind at 1. rewrite Hrun. by eexists.
Qed.

(** A traffic message is counted exactly once.  A delivery that is acknowledged leaves
    the message recorded as taken, and every later delivery with the same subject and
    message id, whatever its payload, is acknowledged without changing the database; a
    delivery that raises (and is therefore delivered again) changes nothing at all. *)
Theorem traffic_message_once raw raw' s :
(∀ i, next_uuid s ≤ i → processed_msgs (db s) !! i = None) → _parse_payload loads model_validate raw ≠ [] →
match handle raw s with
| (Ok _, s1) =>
    processed (db s1) subject m ∧
    ∀ s2, keyed processed_msgs_tbl (db s2) → processed_msgs (db s1) ⊆ processed_msgs (db s2) →
      ∃ s3, handle raw' s2 = (Ok tt, s3) ∧ db s3 = db s2
| (Raise _, s1) => db s1 = db s
end.
Proof using msg_id_given.
intros Hf Hne. destruct (handle raw s) as [o s1] eqn:Hrun.
assert (Hgo : match o with Ok _ => processed (db s1) subject m | Raise _ => db s1 = db s end).
{ revert Hrun. unfold traffic_handle_message. destruct (_parse_payload loads model_validate raw) as [|t l]; [done|].
  destruct (claim_new s Hf) as (b & s2 & Hc & Ht & Hfl). unfold run_committing. rewrite msg_id_given.
  unfold mbind at 1, M_bind at 1. rewrite Hc. destruct b; cbn [negb].
  - unfold mbind, M_bind. pose proof (ingest_same_processed pfx (t :: l) s2) as Hsame. unfold on_db, same in Hsame.
    destruct (ingest_users_traffic pfx (t :: l) s2) as [[out|e] s3]; intros [= <- <-]; [|done].
    destruct (Ht eq_refl) as (i & r & Hr & E). exists i, r. split; [|done]. cbn in Hsame. by rewrite Hsame.
  - intros [= <- <-]. by apply Hfl. }
destruct o; [|done]. split; [done|]. intros s2 Hk2 Hsub. apply redelivered; [done|].
destruct Hgo as (i & r & Hr & E). exists i, r. split; [|done]. by eapply lookup_weaken.
Qed.
End Delivery.

(** The periods of the traffic reset (services/traffic/users/reset_policy.py): days, weeks and
    calendar months, by the arithmetic of the datetime module. *)


(** * The calendar *)

Definition days_of_year (leap : bool) : Z := if leap then 366 else 365.

(** Within a year: the first day, and from a day to the next. *)
Definition year_step (leap : bool) (n : Z) : bool :=
  let x := day_in_year leap n in let y := day_in_year leap (n + 1) in
  (1 <=? x) && (x <=? 31) && ((y =? 1) || (y =? x + 1)).

Lemma year_steps leap n : 0 ≤ n < 364 → year_step leap n = true.
Proof.
  intros Hn. assert (H : ∀ leap, forallb (year_step leap) (seqZ 0 364) = true) by (intros []; vm_compute; done).
  specialize (H leap). rewrite forallb_forall in H. apply H, list_elem_of_In, elem_of_seqZ. lia.
Qed.

Lemma year_ends leap : day_in_year leap 0 = 1 ∧ day_in_year leap 364 = 31 - Z.b2z leap.
Proof. by destruct leap. Qed.

Lemma div_mod_next n m :
  0 < m → ((n + 1) mod m = n mod m + 1 ∧ (n + 1) / m = n / m ∧ n mod m < m - 1) ∨ ((n + 1) mod m = 0 ∧ n mod m = m - 1 ∧ (n + 1) / m = n / m + 1).
Proof.
  intros Hm. pose proof (Z.div_mod n m ltac:(lia)) as E. pose proof (Z.mod_pos_bound n m Hm) as B.
  destruct (decide (n mod m = m - 1)) as [H|H]; [right|left].
  - split_and!; [|done|]; symmetry; [apply (Z.mod_unique_pos _ _ (n / m + 1))|apply (Z.div_unique_pos _ _ _ 0)]; lia.
  - split_and!; [| |lia]; symmetry; [apply (Z.mod_unique_pos _ _ (n / m))|apply (Z.div_unique_pos _ _ _ (n mod m + 1))]; lia.
Qed.

(** The day of the month, with the year and the day in it taken apart. *)
Definition in_cycle (n : Z) : Z :=
  let n100 := n / 36524 in
  let n := n mod 36524 in
  let n4 := n / 1461 in
  let n := n mod 1461 in
  let n1 := n / 365 in
  let n := n mod 365 in
  if (n1 =? 4) || (n100 =? 4) then 31
  else day_in_year ((n1 =? 3) && (negb (n4 =? 24) || (n100 =? 3))) n.

Lemma in_cycle_zero : in_cycle 0 = 1.
Proof. done. Qed.

Lemma in_cycle_bounds n : 0 ≤ n < 146097 → 1 ≤ in_cycle n ≤ 31.
Proof.
  intros Hn. unfold in_cycle. set (n100 := n / 36524). set (n4 := (n mod 36524) / 1461). set (n1 := ((n mod 36524) mod 1461) / 365).
  destruct (_ || _) eqn:E; [lia|]. set (leap := _ && _). pose proof (Z.mod_pos_bound ((n mod 36524) mod 1461) 365 ltac:(lia)) as B.
  set (r := _ mod 365) in *. destruct (decide (r = 364)) as [->|Hr]; [rewrite (proj2 (year_ends leap)); destruct leap; cbn; lia|].
  pose proof (year_steps leap r ltac:(lia)) as H. unfold year_step in H. rewrite !andb_true_iff, !Z.leb_le in H. lia.
Qed.

(** The day after is the next one of the month or the first of another. *)
Lemma in_cycle_next n : 0 ≤ n < 146096 → in_cycle (n + 1) = 1 ∨ in_cycle (n + 1) = in_cycle n + 1.
Proof.
  intros Hn. unfold in_cycle.
  pose proof (Z.mod_pos_bound n 36524 ltac:(lia)) as B1. pose proof (Z.mod_pos_bound (n mod 36524) 1461 ltac:(lia)) as B2.
  pose proof (Z.mod_pos_bound ((n mod 36524) mod 1461) 365 ltac:(lia)) as B3.
  pose proof (Z.div_mod n 36524 ltac:(lia)) as D1. pose proof (Z.div_mod (n mod 36524) 1461 ltac:(lia)) as D2.
  pose proof (Z.div_mod ((n mod 36524) mod 1461) 365 ltac:(lia)) as D3.
  destruct (div_mod_next n 36524 ltac:(lia)) as [(-> & -> & L1)|(-> & E1 & ->)].
  2:{ (* a century ends *)
      rewrite E1 in *. assert (n / 36524 = 0 ∨ n / 36524 = 1 ∨ n / 36524 = 2 ∨ n / 36524 = 3) as [->|[->|[->| ->]]] by lia; vm_compute; auto. }
  set (c := n / 36524) in *. set (x := n mod 36524) in *. assert (Hc : (c =? 4) = false) by (apply Z.eqb_neq; lia). rewrite Hc, !orb_false_r.
  destruct (div_mod_next x 1461 ltac:(lia)) as [(-> & -> & L2)|(-> & E2 & ->)].
  2:{ (* four years end *) left. apply (year_ends false). }
  set (q := x / 1461) in *. set (y := x mod 1461) in *.
  destruct (div_mod_next y 365 ltac:(lia)) as [(-> & -> & L3)|(-> & E3 & ->)].
  - (* inside a year *) rewrite (proj2 (Z.eqb_neq (y / 365) 4)) by lia.
    pose proof (year_steps ((y / 365 =? 3) && (negb (q =? 24) || (c =? 3))) (y mod 365) ltac:(lia)) as H. unfold year_step in H.
    rewrite !andb_true_iff, orb_true_iff, !Z.eqb_eq in H. tauto.
  - (* a year of 365 days ends *) destruct (Z.eqb_spec (y / 365 + 1) 4) as [E|E]; [right|left; apply year_ends].
    rewrite E3. rewrite (proj2 (Z.eqb_neq (y / 365) 4)), (proj2 (Z.eqb_eq (y / 365) 3)) by lia.
    assert (negb (q =? 24) || (c =? 3) = true) as ->; [|done]. apply orb_true_iff. rewrite negb_true_iff, Z.eqb_neq, Z.eqb_eq. lia.
Qed.

Lemma day_of_ordinal_cycle o : day_of_ordinal o = in_cycle ((o - 1) mod 146097).
Proof. done. Qed.

(** [datetime.day]. *)
Lemma day_of_ordinal_bounds o : 1 ≤ day_of_ordinal o ≤ 31.
Proof. rewrite day_of_ordinal_cycle. apply in_cycle_bounds, Z.mod_pos_bound. lia. Qed.

Lemma day_of_ordinal_next o : day_of_ordinal (o + 1) = 1 ∨ day_of_ordinal (o + 1) = day_of_ordinal o + 1.
Proof.
  rewrite !day_of_ordinal_cycle. replace (o + 1 - 1) with (o - 1 + 1) by lia.
  pose proof (Z.mod_pos_bound (o - 1) 146097 ltac:(lia)).
  destruct (div_mod_next (o - 1) 146097 ltac:(lia)) as [(-> & _ & ?)|(-> & _ & _)]; [|by left].
  apply in_cycle_next. lia.
Qed.

(** Back to the first of the month, day by day. *)
Lemma day_of_ordinal_back o j : (Z.of_nat j < day_of_ordinal o) → day_of_ordinal (o - Z.of_nat j) = day_of_ordinal o - Z.of_nat j.
Proof.
  induction j as [|j IH]; intros Hj; [cbn; by rewrite !Z.sub_0_r|].
  destruct (day_of_ordinal_next (o - Z.of_nat (S j))) as [E|E]; replace (o - Z.of_nat (S j) + 1) with (o - Z.of_nat j) in E by lia;
    rewrite IH in E by lia; lia.
Qed.

(** * The periods *)

#[export] Instance ResetStrategy_eq_dec : EqDecision ResetStrategy.
Proof. solve_decision. Defined.

(** The days a period lasts at most. *)
Definition period_days (strategy : ResetStrategy) : Z :=
  match strategy with DAY => 1 | WEEK => 7 | _ => 31 end.

(** What day a period begins on. *)
Definition begins (strategy : ResetStrategy) (t : Z) : Prop :=
  match strategy with DAY => True | WEEK => weekday t = 0 | MONTH => day_of_month t = 1 | NO_RESET => False end.

(** The days since the period began. *)
Definition days_in (strategy : ResetStrategy) (e : Z) : Z :=
  match strategy with DAY => 0 | WEEK => (e + 3) mod 7 | _ => day_of_ordinal (e + epoch_ordinal) - 1 end.

Lemma days_in_bounds strategy e : 0 ≤ days_in strategy e < period_days strategy.
Proof.
  pose proof (day_of_ordinal_bounds (e + epoch_ordinal)). pose proof (Z.mod_pos_bound (e + 3) 7 ltac:(lia)). destruct strategy; cbn; lia.
Qed.

(** Earlier in the same period. *)
Lemma days_in_back strategy e j : 0 ≤ j ≤ days_in strategy e → days_in strategy (e - j) = days_in strategy e - j.
Proof.
  assert (Hm : j = Z.of_nat (Z.to_nat j) ∨ j < 0) by lia.
  assert (Hmonth : 0 ≤ j ≤ day_of_ordinal (e + epoch_ordinal) - 1 → day_of_ordinal (e - j + epoch_ordinal) - 1 = day_of_ordinal (e + epoch_ordinal) - 1 - j).
  { intros Hj. replace (e - j + epoch_ordinal) with (e + epoch_ordinal - Z.of_nat (Z.to_nat j)) by lia. rewrite day_of_ordinal_back by lia. lia. }
  destruct strategy; cbn [days_in]; [done|lia| |done]. intros Hj.
  pose proof (Z.div_mod (e + 3) 7 ltac:(lia)). pose proof (Z.mod_pos_bound (e + 3) 7 ltac:(lia)).
  symmetry. apply (Z.mod_unique_pos _ _ ((e + 3) / 7)); lia.
Qed.

Lemma epoch_day_unique t e : e * day ≤ t < e * day + day → epoch_day t = e.
Proof. intros H. unfold epoch_day. symmetry. apply (Z.div_unique_pos _ _ _ (t - e * day)); lia. Qed.

Lemma epoch_day_spec t : epoch_day t * day ≤ t < epoch_day t * day + day.
Proof.
  unfold epoch_day. pose proof (Z.div_mod t day ltac:(done)). pose proof (Z.mod_pos_bound t day ltac:(done)). lia.
Qed.

Lemma epoch_day_back t j : epoch_day (t - j * day) = epoch_day t - j.
Proof. apply epoch_day_unique. pose proof (epoch_day_spec t). lia. Qed.

Lemma reset_cutoff_day strategy now :
  strategy ≠ NO_RESET → reset_cutoff strategy now = Ok ((epoch_day now - days_in strategy (epoch_day now)) * day).
Proof.
  intros H. destruct strategy; try done; cbn [reset_cutoff days_in]; unfold midnight, weekday, day_of_month.
  - by rewrite Z.sub_0_r.
  - by rewrite epoch_day_back.
  - by rewrite epoch_day_back.
Qed.

(** The period a moment belongs to.  For every resettable strategy the cutoff exists, is
    a midnight not after the moment and less than a day, a week or 31 days before it, falls
    on a Monday for weeks and on the first for months, and is the cutoff of every moment in
    between: a subscription that was reset since the cutoff is not reset again in the same
    period.  Only [NO_RESET] has no cutoff. *)
Theorem reset_period strategy now :
  match reset_cutoff strategy now with
  | Ok c => strategy ∈ RESETTABLE_STRATEGIES ∧ midnight c = c ∧ c ≤ now < c + period_days strategy * day ∧ begins strategy c ∧
      (∀ t, c ≤ t ≤ now → reset_cutoff strategy t = Ok c) ∧
      ∀ d b t, last_traffic_reset_at b = Some t → c ≤ t → needs_reset d (reset_value strategy) c b = false
  | Raise _ => strategy = NO_RESET
  end.
Proof.
  destruct (decide (strategy = NO_RESET)) as [->|Hs]; [done|]. rewrite reset_cutoff_day by done.
  set (e := epoch_day now). set (f := e - days_in strategy e).
  pose proof (days_in_bounds strategy e) as B. pose proof (epoch_day_spec now) as Hnow. fold e in Hnow.
  assert (Hday : 0 < day) by done. assert (Hf : epoch_day (f * day) = f) by (apply epoch_day_unique; lia).
  split_and!.
  - unfold RESETTABLE_STRATEGIES. destruct strategy; [done|set_solver..].
  - unfold midnight. by rewrite Hf.
  - unfold f. nia.
  - unfold f. nia.
  - assert (E : days_in strategy f = 0) by (unfold f; rewrite days_in_back; lia).
    destruct strategy; try done; unfold begins, weekday, day_of_month; rewrite Hf; cbn in E; lia.
  - intros t Ht. rewrite reset_cutoff_day by done. pose proof (epoch_day_spec t) as Hte. set (g := epoch_day t) in *.
    assert (f ≤ g ≤ e) by nia. assert (E : days_in strategy g = days_in strategy e - (e - g)).
    { replace g with (e - (e - g)) at 1 by lia. rewrite days_in_back; [done|]. unfold f in *. lia. }
    rewrite E. do 2 f_equal. unfold f. lia.
  - intros d b t Hb Ht. unfold needs_reset. rewrite Hb, (proj2 (Z.ltb_ge _ _) Ht). apply andb_false_r.
Qed.
