(* ===== verification/PayloadProps.v ===== *)
(** What a payload offers: only routes that serve, that the plan includes and that the keys
    of the device fit, as links of those keys, within the size limit. *)

From stdpp Require Import base gmap strings list sorting pretty.
From Stdlib Require Import Ascii.
From S2P Require Import Prelude Decimal Errors Routing RouteModels BillingModels FleetModels Session Uuid NodeDisplay Tables FleetTables Placements Keys Routes VlessUri NodeNames Devices Entry Balancer Payload RouteProps DeviceProps.
Local Open Scope Z_scope.

(** * Tools *)

(** If the computation returns, then with [Q]. *)
Notation gives m Q := (wp m Q (λ _ _, True)).
Notation reads m := (keeps (on_db (same (λ d : database, d))) m).

Lemma gives_bind {A B} (m : SM A) (f : A → SM B) (P : A → session → Prop) Q s :
  gives m P s → (∀ a s', P a s' → gives (f a) Q s') → gives (m ≫= f) Q s.
Proof. intros H1 H2. apply wp_bind. eapply wp_mono; [exact H1|exact H2|done]. Qed.

Lemma gives_run {A} (m : SM A) (Q : A → session → Prop) s : (∀ a s', m s = (Ok a, s') → Q a s') → gives m Q s.
Proof. intros H. unfold wp. destruct (m s) as [[a|e] s'] eqn:E; [by apply H|done]. Qed.

Lemma gives_reads {A} (m : SM A) s : reads m → gives m (λ _ s', db s' = db s) s.
Proof. intros H. apply gives_run. intros a s' E. specialize (H s). rewrite E in H. exact H. Qed.

Lemma run_bind {A B} (m : SM A) (f : A → SM B) s a s' : m s = (Ok a, s') → (m ≫= f) s = f a s'.
Proof. intros H. unfold mbind, M_bind. by rewrite H. Qed.

Lemma gives_and {A} (m : SM A) (P Q : A → session → Prop) s : gives m P s → gives m Q s → gives m (λ a s', P a s' ∧ Q a s') s.
Proof. unfold wp. destruct (m s) as [[a|e] s']; [by split|done]. Qed.

Lemma gives_mono {A} (m : SM A) (P Q : A → session → Prop) s : gives m P s → (∀ a s', P a s' → Q a s') → gives m Q s.
Proof. intros H HPQ. eapply wp_mono; [exact H|exact HPQ|done]. Qed.

(** * The balancer *)

Definition in_service (n : VpnNode) : Prop := node_is_active n = true ∧ is_enabled n = true ∧ is_draining n = false.

Lemma usable_reads entry : reads (_is_entry_usable entry).
Proof. unfold _is_entry_usable. keeps_tac. Qed.

Lemma usable_in_service n s : gives (_is_entry_usable (Some n)) (λ u s', db s' = db s ∧ (u = true → in_service n)) s.
Proof.
  apply gives_and; [apply gives_reads, usable_reads|]. apply gives_run. intros u s' Hrun ->. unfold _is_entry_usable in Hrun.
  destruct (negb (node_is_active n && is_enabled n) || is_draining n) eqn:E; [by injection Hrun|].
  apply orb_false_iff in E as [[? ?]%negb_false_iff%andb_true_iff ?]. done.
Qed.

Lemma usable_of_spec l s : gives (usable_of l) (λ r s', db s' = db s ∧ ∀ n, n ∈ r → n ∈ l ∧ in_service n) s.
Proof.
  revert s. induction l as [|n l IH]; intros s; cbn [usable_of].
  - apply wp_ret. split; [done|]. by intros n ?%not_elem_of_nil.
  - eapply gives_bind; [apply usable_in_service|]. intros u s1 [E1 Hu]. eapply gives_bind; [apply IH|].
    intros r s2 [E2 Hr]. apply wp_ret. split; [congruence|]. intros m Hm.
    destruct u; [apply elem_of_cons in Hm as [->|Hm]; [split; [left|by apply Hu]|]|];
      destruct (Hr m Hm) as [? ?]; (split; [by right|done]).
Qed.

Lemma min_by_elem {A} (key : A → Z * Z) l : ∀ best, min_by key best l ∈ best :: l.
Proof.
  induction l as [|x l IH]; intros best; cbn [min_by]; [left|].
  destruct (key_lt (key x) (key best)); [right; apply IH|]. specialize (IH best).
  apply elem_of_cons in IH as [->|H]; [left|right; by right].
Qed.

(** The entry comes from the zone of the backend or is the one the route has. *)
Lemma select_entry_spec cfg backend cur uid g loads s :
  gives (select_entry_for_backend cfg backend cur uid g loads)
    (λ o s', db s' = db s ∧ ∀ e, o = Some e → (e ∈ entries_of g (zone_of backend) ∨ cur = Some e) ∧ in_service e) s.
Proof.
  unfold select_entry_for_backend. eapply gives_bind; [apply gives_reads, usable_reads|]. intros u s1 E1.
  set (cands := match cur with Some c => if nonempty (node_role c) then _ else _ | None => _ end).
  assert (Hc : ∀ e, e ∈ cands → e ∈ entries_of g (zone_of backend) ∨ cur = Some e).
  { intros e He. unfold cands in He. destruct cur as [c|]; [|by left].
    assert (He' : e ∈ (if u && negb (bool_decide (node_id c ∈ node_id <$> entries_of g (zone_of backend)))
                       then entries_of g (zone_of backend) ++ [c] else entries_of g (zone_of backend))).
    { destruct (nonempty (node_role c)); [by apply list_elem_of_filter in He as [_ He]|done]. }
    destruct (u && _); [|by left]. apply elem_of_app in He' as [?|Hx]; [by left|]. apply list_elem_of_singleton in Hx as ->. by right. }
  eapply gives_bind; [apply usable_of_spec|]. intros r s2 [E2 Hr]. destruct r as [|c l].
  - destruct cur as [c|].
    + eapply gives_bind; [apply usable_in_service|]. intros v s3 [E3 Hv]. apply wp_ret. split; [congruence|].
      intros e. destruct v; [|done]. intros [= <-]. split; [by right|by apply Hv].
    + cbn. apply wp_ret. split; [congruence|done].
  - eapply gives_bind; [apply gives_reads; unfold bucket; keeps_tac|]. intros b s3 E3. apply wp_ret. split; [congruence|].
    intros e [= <-]. pose proof (min_by_elem (λ e, (default 0 (loads !! node_id e), _entry_tiebreak cfg uid (node_id e) b)) l c) as Hin.
    destruct (Hr _ Hin) as [? ?]. split; [by apply Hc|done].
Qed.

(** ** The least loaded *)

Definition usable_at (d : database) (now : Z) (n : VpnNode) : bool :=
  node_is_active n && is_enabled n && negb (is_draining n) &&
  (is_virtual n ||
   match agent_state_of d (node_id n) with
   | Some a => fresh_agent (now - ENTRY_HEARTBEAT_STALE_SEC * second) a
   | None => true
   end).

Lemma usable_run n s :
  ∃ s' now, _is_entry_usable (Some n) s = (Ok (usable_at (db s) now n), s') ∧ db s' = db s ∧ clock s' = clock s ∧
    (ticks s ≤ ticks s')%nat ∧ (∃ i, (ticks s ≤ i)%nat ∧ now = clock s i).
Proof.
  assert (Hnow : ∃ i, (ticks s ≤ i)%nat ∧ clock s (ticks s) = clock s i) by (exists (ticks s); split; [lia|done]).
  unfold _is_entry_usable, usable_at. destruct (node_is_active n), (is_enabled n), (is_draining n); cbn [negb andb orb];
    try (by exists s, (clock s (ticks s)); split_and!).
  destruct (is_virtual n); [by exists s, (clock s (ticks s)); split_and!|]. unfold mbind at 1, M_bind at 1, read, gets.
  destruct (agent_state_of (db s) (node_id n)) as [a|]; [|by exists s, (clock s (ticks s)); split_and!]. unfold fresh_agent. cbn [orb].
  destruct (is_healthy a); [|by exists s, (clock s (ticks s)); split_and!]. cbn [negb andb].
  destruct (last_seen_at a) as [t|]; [|by exists s, (clock s (ticks s)); split_and!].
  exists (tick s), (clock s (ticks s)). split_and!; try done. cbn. lia.
Qed.

(** A node that is usable whenever the clock is read. *)
Definition stays_usable (s : session) (n : VpnNode) : Prop := ∀ i, (ticks s ≤ i)%nat → usable_at (db s) (clock s i) n = true.

Lemma stays_usable_later s s' n :
  db s' = db s → clock s' = clock s → (ticks s ≤ ticks s')%nat → stays_usable s n → stays_usable s' n.
Proof. intros Ed Ec Et H i Hi. rewrite Ed, Ec. apply H. lia. Qed.

Lemma usable_of_keeps l : ∀ s,
  ∃ r s', usable_of l s = (Ok r, s') ∧ db s' = db s ∧ clock s' = clock s ∧ (ticks s ≤ ticks s')%nat ∧
    ∀ n, n ∈ l → stays_usable s n → n ∈ r.
Proof.
  induction l as [|m l IH]; intros s; cbn [usable_of]; [by exists [], s; split_and!; [| | | |intros n ?%not_elem_of_nil]|].
  destruct (usable_run m s) as (s1 & now & Hrun & Ed & Ec & Et & (i & Hi & ->)).
  destruct (IH s1) as (r & s2 & Hrun2 & Ed2 & Ec2 & Et2 & Hr).
  eexists _, s2. split_and!.
  - unfold mbind at 1, M_bind at 1. rewrite Hrun. unfold mbind, M_bind. rewrite Hrun2. reflexivity.
  - congruence. - congruence. - lia.
  - intros n [->|Hn]%elem_of_cons Hu.
    + rewrite (Hu i Hi). left.
    + assert (n ∈ r) by (apply Hr; [done|by eapply stays_usable_later]). destruct (usable_at _ _ m); [by right|done].
Qed.

Lemma key_lt_spec a b : key_lt a b = false → b.1 ≤ a.1.
Proof. unfold key_lt. rewrite orb_false_iff, Z.ltb_ge. tauto. Qed.

Lemma min_by_least {A} (key : A → Z * Z) l : ∀ best x, x ∈ best :: l → (key (min_by key best l)).1 ≤ (key x).1.
Proof.
  induction l as [|y l IH]; intros best x Hx; cbn [min_by]; [apply list_elem_of_singleton in Hx as ->; lia|].
  destruct (key_lt (key y) (key best)) eqn:E.
  - assert ((key y).1 ≤ (key best).1) by (unfold key_lt in E; apply orb_true_iff in E as [?%Z.ltb_lt|[?%Z.eqb_eq _]%andb_true_iff]; lia).
    apply elem_of_cons in Hx as [->|Hx]; [|by apply IH]. pose proof (IH y y ltac:(left)). lia.
  - apply key_lt_spec in E. apply elem_of_cons in Hx as [->|[->|Hx]%elem_of_cons].
    + apply IH. left. + pose proof (IH best best ltac:(left)). lia. + apply IH. by right.
Qed.

(** The role a client's entry must have: the role of the one the route names. *)
Definition role_fits (cur : option VpnNode) (e : VpnNode) : Prop :=
  match cur with Some c => nonempty (node_role c) = true → node_role e = node_role c | None => True end.

Lemma select_entry_run cfg backend cur uid g loads s :
  let candidates := match cur with
    | Some c => if nonempty (node_role c) then filter (λ e, node_role e = node_role c) else id
    | None => id
    end in
  ∃ u s1, _is_entry_usable cur s = (Ok u, s1) ∧ db s1 = db s ∧ clock s1 = clock s ∧ (ticks s ≤ ticks s1)%nat ∧
    (∀ c, cur = Some c → stays_usable s c → u = true) ∧
    select_entry_for_backend cfg backend cur uid g loads s =
      (r ← usable_of (candidates (match cur with
         | Some c => if u && negb (bool_decide (node_id c ∈ node_id <$> entries_of g (zone_of backend)))
                     then entries_of g (zone_of backend) ++ [c] else entries_of g (zone_of backend)
         | None => entries_of g (zone_of backend)
         end));
       match r with
       | [] => v ← _is_entry_usable cur; mret (if v : bool then cur else None)
       | c :: l => b ← bucket cfg;
           mret (Some (min_by (λ e, (default 0 (loads !! node_id e), _entry_tiebreak cfg uid (node_id e) b)) c l))
       end) s1.
Proof.
  intros candidates. unfold select_entry_for_backend, candidates. destruct cur as [c|].
  - destruct (usable_run c s) as (s1 & now & Hrun & Ed & Ec & Et & (i & Hi & ->)). exists (usable_at (db s) (clock s i) c), s1.
    split_and!; try done; [intros c' [= <-] Hs; by apply Hs|]. unfold mbind at 1, M_bind at 1. rewrite Hrun.
    by destruct (nonempty (node_role c)).
  - by exists false, s; split_and!.
Qed.

(** C16: the balancer always answers and changes nothing.  The entry it picks is one of the
    zone of the backend or the one the route names, is in service and has the role of the
    named one; no entry of the zone with that role that is usable throughout has a smaller
    load.  It picks none only when no such entry is left. *)
Theorem balancer_least_loaded cfg backend cur uid g loads s :
  let load e := default 0 (loads !! node_id e) in
  let zone := entries_of g (zone_of backend) in
  ∃ o s', select_entry_for_backend cfg backend cur uid g loads s = (Ok o, s') ∧ db s' = db s ∧
    match o with
    | Some e => (e ∈ zone ∨ cur = Some e) ∧ in_service e ∧ role_fits cur e ∧
        ∀ e', e' ∈ zone → role_fits cur e' → stays_usable s e' → load e ≤ load e'
    | None => (∀ e', e' ∈ zone → role_fits cur e' → ¬ stays_usable s e') ∧ ∀ c, cur = Some c → ¬ stays_usable s c
    end.
Proof.
  intros load zone. pose proof (select_entry_spec cfg backend cur uid g loads s) as Hspec.
  destruct (select_entry_run cfg backend cur uid g loads s) as (u & s1 & _ & Ed & Ec & Et & Hu & Hrun).
  rewrite Hrun. unfold wp in Hspec. rewrite Hrun in Hspec. clear Hrun. set (cands := match cur with Some c => _ | None => id end _) in *.
  assert (Hc : ∀ e, e ∈ zone → role_fits cur e → e ∈ cands).
  { intros e He Hr. unfold cands. destruct cur as [c|]; [|done].
    assert (e ∈ (if u && negb (bool_decide (node_id c ∈ node_id <$> zone)) then zone ++ [c] else zone)) by (destruct (u && _); [apply elem_of_app; by left|done]).
    cbn in Hr. destruct (nonempty (node_role c)); [apply list_elem_of_filter; auto|done]. }
  assert (Hf : ∀ e, e ∈ cands → role_fits cur e).
  { intros e He. unfold cands in He. destruct cur as [c|]; [|done]. cbn. intros Hn. rewrite Hn in He. by apply list_elem_of_filter in He as [? _]. }
  destruct (usable_of_keeps cands s1) as (r & s2 & Hrun & Ed2 & Ec2 & Et2 & Hr). pose proof (usable_of_spec cands s1) as Hin.
  unfold wp in Hin. rewrite Hrun in Hin. destruct Hin as [_ Hin]. rewrite (run_bind _ _ _ _ _ Hrun) in Hspec |- *.
  assert (Hs : ∀ e, e ∈ zone → role_fits cur e → stays_usable s e → e ∈ r)
    by (intros e He Hfit Hst; apply Hr; [by apply Hc|by eapply (stays_usable_later s)]).
  destruct r as [|c l].
  - assert (Hnone : ∀ e, e ∈ zone → role_fits cur e → ¬ stays_usable s e) by (intros e He Hfit Hst; by eapply not_elem_of_nil, Hs).
    destruct cur as [c|]; [|eexists _, _; split; [done|]; split; [cbn; congruence|done]].
    destruct (usable_run c s2) as (s3 & now & Hrun3 & Ed3 & Ec3 & Et3 & (i & Hi & ->)). rewrite (run_bind _ _ _ _ _ Hrun3) in Hspec |- *. eexists _, _. split; [done|]. split; [congruence|].
    destruct (usable_at (db s2) (clock s2 i) c) eqn:Hv; cbn in Hspec.
    + destruct Hspec as [_ Hsp]. destruct (Hsp c eq_refl) as [? ?]. split_and!; [by right|done|by cbn|].
      intros e He Hfit Hst. by destruct (Hnone e He Hfit).
    + split; [done|]. intros c' [= <-] Hst. rewrite Ed2, Ec2, Ed, Ec, (Hst i) in Hv; [done|lia].
  - assert (∃ b s3, bucket cfg s2 = (Ok b, s3) ∧ db s3 = db s2) as (b & s3 & Hb & Ed3) by (unfold bucket; destruct (_ <=? 0); by eexists _, _).
    rewrite (run_bind _ _ _ _ _ Hb) in Hspec |- *. eexists _, s3. split; [done|]. split; [congruence|]. cbn in Hspec. destruct Hspec as [_ Hsp].
    set (key := λ e : VpnNode, (load e, _entry_tiebreak cfg uid (node_id e) b)). fold load in Hsp |- *. change (λ e : VpnNode, (default 0 (loads !! node_id e), _)) with key in Hsp |- *.
    destruct (Hsp _ eq_refl) as [? ?]. split_and!; [done|done| |].
    + apply Hf. apply (Hin (min_by key c l)). apply min_by_elem.
    + intros e He Hfit Hst. apply (min_by_least key l c e). by apply Hs.
Qed.

(** * Rows *)

(** The route, its profile, its node and its agent serve. *)
Definition row_live (x : DetailedRoute) : bool :=
  route_is_active (dr_route x) && servable_status (health_status (dr_route x)) && tp_is_active (dr_profile x) &&
  node_is_active (dr_node x) && is_enabled (dr_node x) && negb (is_draining (dr_node x)) &&
  match dr_agent_state x with Some a => is_healthy a | None => false end.

(** A row of the database. *)
Definition row_of (d : database) (x : DetailedRoute) : Prop :=
  routes d !! route_id (dr_route x) = Some (dr_route x) ∧ detailed d (dr_route x) = Some x ∧ row_live x = true.

Lemma elem_of_detailed d x : keyed routes_tbl d → x ∈ omap (detailed d) (rows (routes d)) →
  routes d !! route_id (dr_route x) = Some (dr_route x) ∧ detailed d (dr_route x) = Some x.
Proof.
  intros Hk (r & Hr & Hx)%list_elem_of_omap. pose proof (detailed_route d r x Hx) as ->. split; [|done].
  apply elem_of_rows in Hr as [i Hi]. pose proof (Hk i r Hi) as Hid. cbn in Hid. by subst i.
Qed.

Lemma elem_of_order_by_asc {R} (key : R → Z) l r : r ∈ order_by_asc key l ↔ r ∈ l.
Proof. unfold order_by_asc. by rewrite merge_sort_Permutation. Qed.

Lemma take_NoDup {A} n (l : list A) : NoDup l → NoDup (take n l).
Proof. intros H. eapply sublist_NoDup; [exact H|apply sublist_take]. Qed.

Lemma detailed_NoDup d (P : DetailedRoute → Prop) `{!∀ x, Decision (P x)} :
  keyed routes_tbl d → NoDup ((λ x, route_id (dr_route x)) <$> filter P (omap (detailed d) (rows (routes d)))).
Proof.
  intros Hk. assert (Hnd : NoDup ((λ x, route_id (dr_route x)) <$> omap (detailed d) (rows (routes d)))).
  { pose proof (rows_ids_NoDup routes_tbl d Hk) as Hids. cbn [t_rows routes_tbl t_id] in Hids.
    induction (rows (routes d)) as [|r l IH]; [constructor|]. rewrite fmap_cons in Hids. apply NoDup_cons in Hids as [Hr Hids].
    cbn [omap list_omap]. destruct (detailed d r) as [x|] eqn:Hx; [|by apply IH]. rewrite fmap_cons. constructor; [|by apply IH].
    rewrite (detailed_route d r x Hx). intros (y & E & (r' & Hr' & Hy)%list_elem_of_omap)%list_elem_of_fmap. apply Hr.
    rewrite (detailed_route d r' y Hy) in E. rewrite E. by apply list_elem_of_fmap_2. }
  eapply sublist_NoDup; [exact Hnd|]. apply fmap_sublist, sublist_filter.
Qed.

(** The rows a query of the routes returns, by a condition that implies [row_live]. *)
Lemma queried_rows (P : DetailedRoute → bool) (order : list DetailedRoute → list DetailedRoute) limit d :
  keyed routes_tbl d → (∀ x, P x = true → row_live x = true) → (∀ l, order l ≡ₚ l) →
  let l := take limit (order (filter (λ x, P x = true) (omap (detailed d) (rows (routes d))))) in
  NoDup ((λ x, route_id (dr_route x)) <$> l) ∧ ∀ x, x ∈ l → row_of d x.
Proof.
  intros Hk HP Ho l. split.
  - unfold l. rewrite fmap_take. apply take_NoDup. rewrite Ho. by apply detailed_NoDup.
  - intros x Hx. unfold l in Hx. apply (subseteq_take limit) in Hx. rewrite Ho in Hx.
    apply list_elem_of_filter in Hx as [HPx Hx]. destruct (elem_of_detailed d x Hk Hx). split_and!; [done|done|by apply HP].
Qed.

Lemma serves_live x : backend_serves x = true → row_live x = true.
Proof. unfold backend_serves, row_live. rewrite !andb_true_iff. tauto. Qed.

Definition query_rows (d : database) (l : list DetailedRoute) : Prop :=
  NoDup ((λ x, route_id (dr_route x)) <$> l) ∧ ∀ x, x ∈ l → row_of d x.

Lemma resolved_rows n r limit ids seen dead s :
  keyed routes_tbl (db s) →
  gives (list_resolved_active n r limit ids seen dead) (λ l s', db s' = db s ∧ query_rows (db s) l) s.
Proof.
  intros Hk.
  assert (Hgo : ∀ Q : DetailedRoute → bool, gives (read (λ d, take limit (resolution_order n r (filter (λ x, (backend_serves x &&
      (dead || entry_alive d (route_entry_node_id (dr_route x))) && Q x && seen_after seen x) = true) (omap (detailed d) (rows (routes d)))))))
    (λ l s', db s' = db s ∧ query_rows (db s) l) s).
  { intros Q. apply wp_gets. split; [done|]. apply queried_rows; [done| |apply resolution_order_perm].
    intros x Hx. rewrite !andb_true_iff in Hx. destruct Hx as [[[Hb _] _] _]. by apply serves_live. }
  unfold list_resolved_active. destruct ids as [[|i ids]|]; [|apply Hgo|apply (Hgo (λ _, true))].
  apply wp_ret. split; [done|]. split; [constructor|by intros x ?%not_elem_of_nil].
Qed.

(** * Links *)

Lemma res_bind_ok {A B} (m : res A) (f : A → res B) b : (m ≫= f) = Ok b → ∃ a, m = Ok a ∧ f a = Ok b.
Proof. destruct m as [a|e]; [by exists a|done]. Qed.

Lemma mk_NodePublic_port domain p remark region desc node : mk_NodePublic domain p remark region desc = Ok node → np_port node = p.
Proof. unfold mk_NodePublic. intros H. repeat (apply res_bind_ok in H as (? & _ & H)). by injection H as <-. Qed.

Lemma build_link client node p uri : build client node p = Ok uri → ∃ u, uri = render u ∧ vu_client_id u = client ∧ vu_port u = np_port node.
Proof. unfold build. intros H. apply res_bind_ok in H as (? & _ & H). injection H as <-. by eexists. Qed.

Section Payload.
Context (cfg : PayloadConfig).

Lemma build_route_uri_link client backend public tp remark desc uri :
_build_route_uri cfg client backend public tp remark desc = Ok (Some uri) →
∃ u, uri = render u ∧ vu_client_id u = client ∧ vu_port u = port tp.
Proof using Type.
unfold _build_route_uri. destruct (negb _); [done|]. destruct (_ && _).
- intros [= <-]. by eexists.
- intros H. apply res_bind_ok in H as (o & _ & H). destruct o as [p|]; [|done].
  apply res_bind_ok in H as (node & Hn%mk_NodePublic_port & H). destruct (build client node p) eqn:E; [|done].
  injection H as <-. apply build_link in E as (u & -> & Hc & Hp). exists u. split_and!; congruence.
Qed.

Lemma before_lacks c s : lacks c (before c s).
Proof using Type.
induction s as [|x s IH]; [done|]. cbn [before]. destruct (Ascii.eqb_spec x c) as [|Hne]; [done|]. apply lacks_cons. split; [congruence|done].
Qed.

Lemma before_app c a b : lacks c a → before c (a +:+ String c b) = a.
Proof using Type.
induction a as [|x a IH]; intros Ha; rewrite ?append_nil_l, ?append_cons; cbn [before]; [by rewrite Ascii.eqb_refl|].
apply lacks_cons in Ha as [Hne Ha]. destruct (Ascii.eqb_spec x c); [congruence|]. by rewrite IH.
Qed.

Lemma before_update_remark uri name : before "#" (_update_uri_remark uri name) = before "#" uri.
Proof using Type. apply (before_app "#"), before_lacks. Qed.

(** * What is offered *)

(** A route a device with the key may be offered: it serves, its link is the key's, and the
    plan includes the entry it is relayed through. *)
Record offered (d : database) (wl relay : bool) (k : ResolvedDeviceKey) (r : ResolvedSubscriptionRoute) : Prop := {
  of_row : rs_route_id r = route_id (dr_route (rs_row r)) ∧ row_of d (rs_row r);
  of_key : rs_key_id r = rdk_vpn_key_id k ∧ rs_transport r = rdk_transport k ∧
    _is_route_compatible_with_key_transport (rdk_transport k) (security (dr_profile (rs_row r))) (network (dr_profile (rs_row r))) = true;
  of_link : ∃ u, before "#" (rs_uri r) = before "#" (render u) ∧ vu_client_id u = rdk_client_id k ∧
    vu_port u = port (dr_profile (rs_row r));
  of_entry : match rs_entry r with
             | None => rs_is_entry r = false ∧ route_entry_node_id (dr_route (rs_row r)) = None
             | Some e => rs_is_entry r = true ∧ ∃ n, nodes d !! e = Some n ∧ in_service n ∧
                 (node_role n = ROLE_WHITELIST_ENTRY → wl = true) ∧ (node_role n = ROLE_ENTRY → relay = true)
             end;
}.

Definition in_db (d : database) (n : VpnNode) : Prop := nodes d !! node_id n = Some n.

(** The entry chosen for a row. *)
Definition entry_ok (d : database) (wl relay : bool) (x : DetailedRoute) (entry : option VpnNode) : Prop :=
match entry with
| None => route_entry_node_id (dr_route x) = None
| Some n => in_db d n ∧ in_service n ∧ (node_role n = ROLE_WHITELIST_ENTRY → wl = true) ∧ (node_role n = ROLE_ENTRY → relay = true)
end.

Lemma allowed_role_spec c n :
allowed_role c n = true →
(node_role n = ROLE_WHITELIST_ENTRY → bc_whitelist c = true) ∧ (node_role n = ROLE_ENTRY → bc_relay c = true).
Proof using Type.
unfold allowed_role. rewrite andb_true_iff, !negb_true_iff, !andb_false_iff, !negb_false_iff, !String.eqb_neq. intuition.
Qed.

Notation offers c d := (offered d (bc_whitelist c) (bc_relay c) (bc_key c)).

Lemma offer_spec c x backend entry penalty l s :
row_of (db s) x → entry_ok (db s) (bc_whitelist c) (bc_relay c) x entry → Forall (offers c (db s)) l →
gives (offer cfg c x backend entry penalty l)
  (λ l' s', db s' = db s ∧ Forall (offers c (db s)) l' ∧ (l' = l ∨ ∃ r, l' = l ++ [r] ∧ rs_route_id r = route_id (dr_route x))) s.
Proof using Type.
intros Hx He Hl. unfold offer. destruct (negb _) eqn:Hcompat; [apply wp_ret; by split_and!; [| |left]|].
apply negb_false_iff in Hcompat. destruct (_country_info_for_region _) as [cc cn] eqn:Hcc.
destruct (bool_decide _); [apply wp_ret; by split_and!; [| |left]|].
apply wp_bind, wp_gets. set (shown := _subscription_display_for_route _ _ _). apply wp_bind.
destruct (_build_route_uri _ _ _ _ _ _ _) as [o|e] eqn:Huri; [|done]. apply wp_ret. destruct o as [uri|]; [|apply wp_ret; by split_and!; [| |left]].
destruct (bool_decide _); apply wp_ret; [by split_and!; [| |left]|]. split_and!; [done| |right; eexists; split; [done|]].
- apply Forall_app. split; [done|]. apply Forall_singleton. unfold resolved_route. rewrite Hcc. split; cbn.
  + done.
  + done.
  + apply build_route_uri_link in Huri as (u & -> & Hc & Hp). by exists u.
  + destruct entry as [n|]; cbn; [|done]. split; [done|]. destruct He as (Hn & Hs & Hr). exists n. split; [exact Hn|]. split; [exact Hs|exact Hr].
- unfold resolved_route. by rewrite Hcc.
Qed.

(** ** Row after row *)

Definition entries_ok (d : database) (m : gmap Z VpnNode) : Prop := ∀ e n, m !! e = Some n → node_id n = e ∧ in_db d n.
Definition zones_ok (d : database) (g : by_zone) : Prop := ∀ z n, n ∈ entries_of g z → in_db d n.

Record build_inv (d : database) (c : BuildContext) (st : BuildState) : Prop := {
  bi_entries : entries_ok d (bs_entries st);
  bi_routes : Forall (offers c d) (bs_routes st);
  bi_ids : NoDup (rs_route_id <$> bs_routes st);
}.

Lemma entries_ok_insert d m n : entries_ok d m → in_db d n → entries_ok d (<[node_id n := n]> m).
Proof using Type. intros Hm Hn e n'. rewrite lookup_insert. case_decide as E; [intros [= <-]; done|apply Hm]. Qed.

(** The routes after an offer. *)
Lemma offer_inv c st x backend entry penalty entries s :
row_of (db s) x → entry_ok (db s) (bc_whitelist c) (bc_relay c) x entry → build_inv (db s) c st → entries_ok (db s) entries →
route_id (dr_route x) ∉ rs_route_id <$> bs_routes st →
gives (r ← offer cfg c x backend entry penalty (bs_routes st); mret {| bs_entries := entries; bs_routes := r |})
  (λ st' s', db s' = db s ∧ build_inv (db s) c st' ∧ ∀ i, i ∈ rs_route_id <$> bs_routes st' → i = route_id (dr_route x) ∨ i ∈ rs_route_id <$> bs_routes st) s.
Proof using Type.
intros Hx He [H1 H2 H3] Hent Hnew. eapply gives_bind; [by apply offer_spec|]. intros l s1 (E & Hl & Hcase). apply wp_ret.
split; [done|]. destruct Hcase as [->|(r & -> & Hr)].
- split; [by split|]. intros i Hi. by right.
- split; [split; cbn [bs_entries bs_routes]; [done|done|]|].
  + rewrite fmap_app. apply NoDup_app. split_and!; [done| |apply NoDup_singleton].
    intros i Hi Hi2%list_elem_of_singleton. subst i. rewrite Hr in Hi. done.
  + intros i. cbn [bs_routes]. rewrite fmap_app, elem_of_app. cbn. rewrite list_elem_of_singleton, Hr. tauto.
Qed.

Lemma entry_of_row_spec c x entries s :
entries_ok (db s) entries → zones_ok (db s) (bc_zones c) →
gives (entry_of_row cfg c x entries)
  (λ o s', db s' = db s ∧ ∀ entry, o = Some entry → match entry with
     | None => route_entry_node_id (dr_route x) = None
     | Some n => in_db (db s) n ∧ in_service n end) s.
Proof using Type.
intros He Hz. unfold entry_of_row. destruct (route_entry_node_id (dr_route x)) as [e|] eqn:Ee.
- eapply gives_bind; [apply select_entry_spec|]. intros o s1 [E Ho]. apply wp_ret. split; [done|].
  intros entry. destruct o as [n|]; [|done]. intros [= <-]. destruct (Ho n eq_refl) as [[Hin|Hcur] Hs]; [|by apply He in Hcur as [_ ?]].
  split; [by eapply Hz|done].
- apply wp_ret. split; [done|]. by intros entry [= <-].
Qed.

Lemma build_row_spec c st x s :
build_inv (db s) c st → zones_ok (db s) (bc_zones c) → row_of (db s) x → route_id (dr_route x) ∉ rs_route_id <$> bs_routes st →
gives (build_row cfg c st x)
  (λ st' s', db s' = db s ∧ build_inv (db s) c st' ∧ ∀ i, i ∈ rs_route_id <$> bs_routes st' → i = route_id (dr_route x) ∨ i ∈ rs_route_id <$> bs_routes st) s.
Proof using Type.
intros Hi Hz Hx Hnew. assert (Hsame : ∀ e, entries_ok (db s) e → build_inv (db s) c {| bs_entries := e; bs_routes := bs_routes st |}).
{ intros e He. destruct Hi as [_ H2 H3]. by split. }
unfold build_row. destruct (_ && _); [apply wp_ret; split_and!; [done|done|by right]|].
eapply gives_bind; [by apply (entry_of_row_spec c x _ s); [apply Hi|]|]. intros o s1 [E Ho].
destruct o as [entry|]; [|apply wp_ret; split_and!; [done|done|by right]]. specialize (Ho entry eq_refl).
assert (Hr : entries_ok (db s) (remember entry (bs_entries st))).
{ destruct entry as [n|]; cbn; [apply entries_ok_insert; [apply Hi|apply Ho]|apply Hi]. }
destruct (negb _) eqn:Hrole; [apply wp_ret; split_and!; [done|by apply Hsame|by right]|]. apply negb_false_iff in Hrole.
rewrite <-E in *. apply offer_inv; try done. destruct entry as [n|]; [|done]. cbn. split_and!; try apply Ho; by apply (allowed_role_spec c n).
Qed.

Lemma build_rows_spec c l : ∀ st s,
build_inv (db s) c st → zones_ok (db s) (bc_zones c) → (∀ x, x ∈ l → row_of (db s) x) →
NoDup ((λ x, route_id (dr_route x)) <$> l) → (∀ x, x ∈ l → route_id (dr_route x) ∉ rs_route_id <$> bs_routes st) →
gives (build_rows cfg c st l) (λ st' s', db s' = db s ∧ build_inv (db s) c st') s.
Proof using Type.
induction l as [|x l IH]; intros st s Hi Hz Hl Hnd Hnew; cbn [build_rows]; [by apply wp_ret|].
rewrite fmap_cons in Hnd. apply NoDup_cons in Hnd as [Hx Hnd]. eapply gives_bind; [apply build_row_spec; [done|done|apply Hl; left|apply Hnew; left]|].
intros st1 s1 (E & Hi1 & Hids). rewrite <-E in *. apply IH; try done; [intros y Hy; apply Hl; by right|].
intros y Hy [Ey|Hy2]%Hids; [|by apply (Hnew y); [right|]]. apply Hx. rewrite <-Ey. by apply (list_elem_of_fmap_2 (λ x, route_id (dr_route x))).
Qed.

(** ** Substitutes *)

Lemma substitute_live d backend entries x : substitute_serves d backend entries x = true → row_live x = true.
Proof using Type. unfold substitute_serves, row_live. rewrite !andb_true_iff. tauto. Qed.

Lemma substitutes_rows backend entries s :
keyed routes_tbl (db s) →
gives (list_substitutes_for_backend backend entries) (λ l s', db s' = db s ∧ ∀ x, x ∈ l → row_of (db s) x) s.
Proof using Type.
intros Hk. unfold list_substitutes_for_backend. destruct entries as [|e entries]; [apply wp_ret; by split; [|intros x ?%not_elem_of_nil]|].
apply wp_gets. split; [done|]. intros x Hx. unfold order_by_desc, order_by_name in Hx. rewrite !merge_sort_Permutation in Hx.
apply list_elem_of_filter in Hx as [Hs Hx]. destruct (elem_of_detailed (db s) x Hk Hx). split_and!; [done|done|by eapply substitute_live].
Qed.

Lemma find_entry_spec entries o s :
keyed nodes_tbl (db s) → entries_ok (db s) entries →
gives (match o with
       | None => mret None
       | Some e => match entries !! e with Some n => mret (Some n) | None => l ← list_nodes_by_ids [e]; mret (head l) end
       end) (λ raw s', db s' = db s ∧ ∀ n, raw = Some n → o = Some (node_id n) ∧ in_db (db s) n) s.
Proof using Type.
intros Hk He. destruct o as [e|]; [|by apply wp_ret]. destruct (entries !! e) as [n|] eqn:En.
- apply wp_ret. split; [done|]. intros n' [= <-]. destruct (He e n En) as [-> ?]. done.
- apply wp_bind. unfold list_nodes_by_ids, select_where, read. apply wp_gets. apply wp_ret. split; [done|]. intros n Hn.
  assert (Hin : n ∈ filter (λ n, bool_decide (node_id n ∈ [e]) = true) (rows (t_rows nodes_tbl (db s)))) by (destruct (filter _ _); [done|]; injection Hn as ->; left).
  apply list_elem_of_filter in Hin as [Hid%bool_decide_eq_true [i Hi]%elem_of_rows]. apply list_elem_of_singleton in Hid.
  pose proof (Hk i n Hi) as Hki. cbn in Hki. subst i. split; [congruence|done].
Qed.

Lemma substitute_row_spec c backend st x s :
keyed nodes_tbl (db s) → build_inv (db s) c st → zones_ok (db s) (bc_zones c) → row_of (db s) x →
gives (substitute_row cfg c backend st x) (λ st' s', db s' = db s ∧ build_inv (db s) c st') s.
Proof using Type.
intros Hk Hi Hz Hx. assert (Hsame : ∀ e, entries_ok (db s) e → build_inv (db s) c {| bs_entries := e; bs_routes := bs_routes st |}).
{ intros e He. destruct Hi as [_ H2 H3]. by split. }
unfold substitute_row. case_bool_decide as Hseen; [by apply wp_ret|].
eapply gives_bind; [apply find_entry_spec; [done|apply Hi]|]. intros raw s1 [E1 Hraw]. rewrite <-E1 in *.
set (entries := match route_entry_node_id _, raw with Some e, Some n => _ | _, _ => _ end).
assert (He : entries_ok (db s1) entries).
{ unfold entries. destruct (route_entry_node_id (dr_route x)) as [e|], raw as [n|]; try apply Hi.
  destruct (Hraw n eq_refl) as [[= ->] Hn]. apply entries_ok_insert; [apply Hi|done]. }
eapply gives_bind; [apply select_entry_spec|]. intros o s2 [E2 Ho]. rewrite <-E2 in *.
destruct o as [n|]; [|apply wp_ret; split; [done|by apply Hsame]]. destruct (Ho n eq_refl) as [Hor Hs].
assert (Hn : in_db (db s2) n) by (destruct Hor as [Hin|Hcur]; [by eapply Hz|by apply Hraw in Hcur as [_ ?]]).
assert (He2 : entries_ok (db s2) (<[node_id n := n]> entries)) by (by apply entries_ok_insert).
destruct (negb _) eqn:Hrole; [apply wp_ret; split; [done|by apply Hsame]|]. apply negb_false_iff, andb_true_iff in Hrole as [Hrole _].
eapply gives_mono; [apply offer_inv; try done; cbn; split_and!; [done|done..|apply (allowed_role_spec c n Hrole)|apply (allowed_role_spec c n Hrole)]|].
by intros st' s' (E & ? & _).
Qed.

Lemma substitute_rows_spec c backend l : ∀ st s,
keyed nodes_tbl (db s) → build_inv (db s) c st → zones_ok (db s) (bc_zones c) → (∀ x, x ∈ l → row_of (db s) x) →
gives (substitute_rows cfg c backend st l) (λ st' s', db s' = db s ∧ build_inv (db s) c st') s.
Proof using Type.
induction l as [|x l IH]; intros st s Hk Hi Hz Hl; cbn [substitute_rows]; [by apply wp_ret|].
eapply gives_bind; [apply substitute_row_spec; [done|done|done|apply Hl; left]|]. intros st1 s1 [E Hi1]. rewrite <-E in *.
apply IH; try done. intros y Hy. apply Hl. by right.
Qed.

Lemma substitute_backends_spec c assignments l : ∀ st s,
keyed routes_tbl (db s) → keyed nodes_tbl (db s) → build_inv (db s) c st → zones_ok (db s) (bc_zones c) →
gives (substitute_backends cfg c assignments st l) (λ st' s', db s' = db s ∧ build_inv (db s) c st') s.
Proof using Type.
induction l as [|b l IH]; intros st s Hkr Hk Hi Hz; cbn [substitute_backends]; [by apply wp_ret|].
eapply gives_bind; [by apply substitutes_rows|]. intros rows_ s1 [E1 Hr]. rewrite <-E1 in *.
eapply gives_bind; [by apply substitute_rows_spec|]. intros st1 s2 [E2 Hi1]. rewrite <-E2 in *. by apply IH.
Qed.

Lemma fill_spec c st s :
keyed routes_tbl (db s) → keyed nodes_tbl (db s) → build_inv (db s) c st → zones_ok (db s) (bc_zones c) →
gives (_fill_entry_failover_substitutes cfg c st)
  (λ l s', db s' = db s ∧ Forall (offers c (db s)) l ∧ NoDup (rs_route_id <$> l)) s.
Proof using Type.
intros Hkr Hk Hi Hz. assert (Hdone : ∀ st, build_inv (db s) c st → db s = db s ∧ Forall (offers c (db s)) (bs_routes st) ∧ NoDup (rs_route_id <$> bs_routes st))
  by (by intros st' []). 
unfold _fill_entry_failover_substitutes. destruct (filter _ _) as [|b missing]; [apply wp_ret; by apply Hdone|].
eapply gives_bind; [apply gives_reads; unfold list_active_for_backends; keeps_tac|]. intros assignments s1 E1. rewrite <-E1 in *.
eapply gives_bind; [by apply substitute_backends_spec|]. intros st1 s2 [E2 Hi2]. rewrite <-E2 in *. apply wp_ret. by apply Hdone.
Qed.
End Payload.
