(* ===== verification/PayloadServed.v ===== *)
(** From the rows of a transport to the payload of a device: what the merge, the numbering
    and the size limit keep. *)

From stdpp Require Import base gmap strings list sorting pretty.
From Stdlib Require Import Ascii.
From S2P Require Import Prelude Decimal Errors Routing RouteModels BillingModels FleetModels Session Uuid NodeDisplay Tables FleetTables Placements PlacementProps Keys Routes VlessUri NodeNames Devices Entry Balancer Payload DeviceProps PayloadProps.
Local Open Scope Z_scope.

(** * The size limit *)

Definition payload_size (l : list ResolvedSubscriptionRoute) : Z := Z.of_nat (String.length (_render_subscription_payload l)).

Lemma string_length_app a b : String.length (a +:+ b) = (String.length a + String.length b)%nat.
Proof. induction a as [|x a IH]; [done|]. rewrite append_cons. cbn. by rewrite IH. Qed.

Lemma join_cons2 sep x y l : join sep (x :: y :: l) = x +:+ sep +:+ join sep (y :: l).
Proof. done. Qed.

Lemma payload_size_snoc l r :
  payload_size (l ++ [r]) = payload_size l + match l with [] => 0 | _ => 1 end + Z.of_nat (String.length (rs_uri r)).
Proof.
  unfold payload_size, _render_subscription_payload. rewrite fmap_app. cbn [fmap list_fmap].
  induction l as [|x l IH]; [cbn; lia|]. destruct l as [|y l].
  - cbn. rewrite !string_length_app. cbn. lia.
  - change ((rs_uri <$> x :: y :: l) ++ [rs_uri r]) with (rs_uri x :: rs_uri y :: ((rs_uri <$> l) ++ [rs_uri r])).
    change (rs_uri <$> x :: y :: l) with (rs_uri x :: rs_uri y :: (rs_uri <$> l)).
    rewrite !join_cons2, !string_length_app. cbn [fmap list_fmap app String.length] in IH |- *. lia.
Qed.

Lemma fit_from_spec limit l : ∀ sel,
  payload_size sel ≤ limit →
  let '(out, fit) := fit_from limit (payload_size sel) sel l in
  ∃ rest, sel ++ l = out ++ rest ∧ sel `prefix_of` out ∧ payload_size out ≤ limit ∧
    match rest with
    | [] => fit = fit_ok
    | r :: _ => limit < payload_size (out ++ [r]) ∧ fit = match out with [] => fit_rejected | _ => fit_trimmed end
    end.
Proof.
  induction l as [|r l IH]; intros sel Hsel; cbn [fit_from]; [by exists []|].
  rewrite <-payload_size_snoc. destruct (Z.ltb_spec limit (payload_size (sel ++ [r]))).
  - destruct sel as [|x sel]; exists (r :: l); split_and!; done.
  - specialize (IH (sel ++ [r]) ltac:(done)). destruct (fit_from _ _ _ l) as [out fit]. destruct IH as (rest & E & Hp & H2).
    exists rest. split_and!; [by rewrite <-E, <-app_assoc| |apply H2..]. etrans; [|exact Hp]. by apply prefix_app_r.
Qed.

(** [_fit_routes_to_payload_limit] keeps the longest prefix of the routes whose rendered
    payload is within the limit: what it keeps fits to the byte, the next route would not,
    and it reports whether anything was cut. *)
Theorem fit_longest l limit :
  let '(out, fit) := _fit_routes_to_payload_limit l limit in
  ∃ rest, l = out ++ rest ∧ payload_size out ≤ Z.max 0 limit ∧
    match rest with
    | [] => limit ≤ 0 ∨ fit = fit_ok
    | r :: _ => limit ≤ 0 ∨ limit < payload_size (out ++ [r])
    end ∧ (fit = fit_trimmed ↔ out ≠ [] ∧ rest ≠ []) ∧ (0 < limit → (fit = fit_rejected ↔ out = [] ∧ l ≠ [])).
Proof.
  unfold _fit_routes_to_payload_limit. destruct (Z.leb_spec limit 0) as [Hle|Hlt].
  - exists l. split; [done|split; [change (payload_size []) with 0; lia|split; [destruct l; by left|split; [split; [done|by intros [? _]]|lia]]]].
  - pose proof (fit_from_spec limit l [] ltac:(change (payload_size []) with 0; lia)) as H. change (payload_size []) with 0 in H.
    destruct (fit_from limit 0 [] l) as [out fit]. destruct H as (rest & E & _ & Hsz & Hrest). cbn in E. exists rest.
    split; [done|split; [lia|split; [|split; [|intros _]]]]; destruct rest as [|r rest]; [by right|right; by apply Hrest| | | |].
    + subst fit. split; [done|by intros [_ ?]].
    + destruct Hrest as [_ ->]. destruct out; split; try done; by intros [].
    + subst fit. rewrite app_nil_r in E. split; [done|]. intros [-> ?]. done.
    + destruct Hrest as [_ ->]. destruct out as [|o out]; [|split; [done|by intros []]]. split; [|done]. intros _. by subst l.
Qed.

(** * Merging keeps what is offered *)

Lemma offered_renamed d wl relay k name r : offered d wl relay k r → offered d wl relay k (renamed name r).
Proof.
  intros [H1 H2 (u & Hu & H3) H4]. split; cbn; [done|done| |done]. exists u. split; [|done].
  by rewrite before_update_remark.
Qed.

Lemma merged_incl l r : r ∈ merged l → r ∈ l.
Proof.
  unfold merged. assert (H : ∀ l acc, r ∈ foldl (λ acc r, if is_new r acc then acc ++ [r] else acc) acc l → r ∈ acc ∨ r ∈ l).
  { clear l. induction l as [|x l IH]; intros acc; cbn; [by left|]. intros [Hacc|Hl]%IH; [|right; by right].
    destruct (is_new x acc); [|by left]. apply elem_of_app in Hacc as [?|Hx]; [by left|].
    apply list_elem_of_singleton in Hx as ->. right; left. }
  intros [?%not_elem_of_nil|?]%H; done.
Qed.

Lemma elem_of_order_by_name {R} (key : R → string) l r : r ∈ order_by_name key l ↔ r ∈ l.
Proof. unfold order_by_name. by rewrite merge_sort_Permutation. Qed.

Lemma elem_of_presentation preferred l r : r ∈ _presentation_sort preferred l ↔ r ∈ l.
Proof. unfold _presentation_sort. by rewrite !elem_of_order_by_asc, elem_of_order_by_name, !elem_of_order_by_asc, elem_of_order_by_name. Qed.

Lemma number_from_Forall (P : ResolvedSubscriptionRoute → Prop) all l : ∀ seen,
  (∀ name r, P r → P (renamed name r)) → Forall P l → Forall P (number_from all seen l).
Proof.
  induction l as [|r l IH]; intros seen HP Hl; cbn [number_from]; [constructor|].
  apply Forall_cons in Hl as [Hr Hl]. constructor; [|by apply IH]. destruct (_ && _); [by apply HP|done].
Qed.

Lemma merge_Forall (P : ResolvedSubscriptionRoute → Prop) b results :
  (∀ name r, P r → P (renamed name r)) → Forall (λ x, Forall P (tb_routes x)) results → Forall P (_merge_transport_routes b results).
Proof.
  intros HP Hl. apply number_from_Forall; [done|]. apply Forall_forall. intros r Hr. apply elem_of_presentation, merged_incl in Hr.
  apply list_elem_of_In, in_concat in Hr as (l & (x & -> & Hx)%list_elem_of_In%list_elem_of_fmap & Hr%list_elem_of_In). rewrite Forall_forall in Hl.
  pose proof (Hl x Hx) as Hx'. rewrite Forall_forall in Hx'. by apply Hx'.
Qed.

Lemma fit_incl l limit r : r ∈ (_fit_routes_to_payload_limit l limit).1 → r ∈ l.
Proof.
  unfold _fit_routes_to_payload_limit. destruct (Z.leb_spec limit 0) as [|Hlt]; [by intros ?%not_elem_of_nil|].
  pose proof (fit_from_spec limit l [] ltac:(change (payload_size []) with 0; lia)) as H. change (payload_size []) with 0 in H.
  destruct (fit_from limit 0 [] l) as [out fit]. destruct H as (rest & E & _). cbn in E |- *. rewrite E. intros ?.
  apply elem_of_app. by left.
Qed.

Lemma fit_size l limit : 0 ≤ limit → payload_size (_fit_routes_to_payload_limit l limit).1 ≤ limit.
Proof.
  intros H0. unfold _fit_routes_to_payload_limit. destruct (Z.leb_spec limit 0) as [|Hlt]; [done|].
  pose proof (fit_from_spec limit l [] ltac:(change (payload_size []) with 0; lia)) as H. change (payload_size []) with 0 in H.
  destruct (fit_from limit 0 [] l) as [out fit]. by destruct H as (rest & _ & _ & ? & _).
Qed.

(** * What a build reads *)

(** The tables the offer depends on. *)
Definition route_tables (d : database) := (routes d, nodes d, transport_profiles d, agent_states d).
Definition build_world (d : database) := (route_tables d, plans d, vpn_keys d, device_keys d).

Lemma world_fleet d d' : build_world d = build_world d' → route_tables d = route_tables d'.
Proof. unfold build_world. congruence. Qed.

Lemma row_of_fleet d d' x : route_tables d = route_tables d' → row_of d x → row_of d' x.
Proof.
  unfold route_tables, row_of, detailed, agent_state_of. intros [= -> -> -> ->]. done.
Qed.

Lemma offered_fleet d d' wl relay k r : route_tables d = route_tables d' → offered d wl relay k r → offered d' wl relay k r.
Proof.
  intros E [[H1 H1'] H2 H3 H4]. split; [split; [done|by eapply row_of_fleet]|done|done|].
  assert (nodes d = nodes d') as <- by (unfold route_tables in E; congruence). done.
Qed.

Lemma keyed_fleet d d' : route_tables d = route_tables d' → keyed routes_tbl d → keyed nodes_tbl d → keyed routes_tbl d' ∧ keyed nodes_tbl d'.
Proof. unfold route_tables. intros [= E1 E2 _ _] H1 H2. split; intros i r; cbn; [rewrite <-E1; apply H1|rewrite <-E2; apply H2]. Qed.

Section Frames.
Context {B : Type} (f : database → B) `{!FrameOn f placements_tbl, !FrameOn f outbox_tbl} (cfg : SubscriptionConfig).

Lemma place_targets_same kid targets m : keeps (on_db (same f)) (place_on_targets kid targets m).
Proof using Type*.
revert m. induction targets as [|n targets IH]; intros m; cbn [place_on_targets]; [keeps_tac|].
unfold upsert_set_pending, upsert_row, get_by_key_and_backend. keeps_tac.
Qed.

Lemma ensure_placements_same kid region n : keeps (on_db (same f)) (_ensure_backend_placements_for_key cfg kid region n).
Proof using Type*.
pose proof place_targets_same. pose proof (enqueue_for_placement_ids_same (sc_command_prefix cfg) f).
unfold _ensure_backend_placements_for_key, list_by_key_id, select_nodes, _load_policy, node_policy, list_available_nodes,
  recent_traffic_bytes_per_backend. keeps_tac.
Qed.
End Frames.

(** * A transport *)

Lemma elem_of_add_to_zone z z' n n' g : n ∈ entries_of (add_to_zone z' n' g) z → n = n' ∨ n ∈ entries_of g z.
Proof.
  unfold entries_of. induction g as [|[y l] g IH]; cbn [add_to_zone find].
  - cbn. destruct (String.eqb z' z); cbn; [intros ->%list_elem_of_singleton; by left|by intros ?%not_elem_of_nil].
  - destruct (String.eqb_spec y z') as [->|Hne]; cbn [find fst]; destruct (String.eqb _ z); cbn.
    + intros [?|Hx]%elem_of_app; [by right|]. apply list_elem_of_singleton in Hx. by left.
    + by right.
    + by right.
    + apply IH.
Qed.

Lemma elem_of_zones l z n : ∀ g, n ∈ entries_of (foldl (λ g n, add_to_zone (zone_of n) n g) g l) z → n ∈ l ∨ n ∈ entries_of g z.
Proof.
  induction l as [|m l IH]; intros g; cbn; [by right|]. intros [?|H]%IH; [left; by right|].
  apply elem_of_add_to_zone in H as [->|?]; [left; left|by right].
Qed.

Lemma elem_of_node_rows d n : keyed nodes_tbl d → n ∈ rows (nodes d) → in_db d n.
Proof. intros Hk [i Hi]%elem_of_rows. unfold in_db. pose proof (Hk i n Hi) as E. cbn in E. by rewrite E. Qed.

Lemma zones_spec s :
  keyed nodes_tbl (db s) → gives list_healthy_entries_by_zone (λ g s', db s' = db s ∧ zones_ok (db s) g) s.
Proof.
  intros Hk. unfold list_healthy_entries_by_zone. eapply gives_bind; [apply gives_reads; keeps_tac|]. intros now s1 E.
  unfold read. apply wp_gets. split; [done|]. intros z n Hn. rewrite E in Hn. apply elem_of_zones in Hn as [Hn|Hn]; [|by apply not_elem_of_nil in Hn].
  rewrite elem_of_order_by_asc in Hn. apply list_elem_of_filter in Hn as [_ Hn]. by apply elem_of_node_rows.
Qed.

Lemma entry_nodes_spec l s :
  keyed nodes_tbl (db s) → gives (_entry_nodes_by_id l) (λ m s', db s' = db s ∧ entries_ok (db s) m) s.
Proof.
  intros Hk. unfold _entry_nodes_by_id. destruct (omap _ l) as [|i ids]; [apply wp_ret; by split|].
  unfold list_nodes_by_ids, select_where, read. apply wp_bind, wp_gets, wp_ret. split; [done|]. intros e n Hn.
  apply elem_of_list_to_map_2, list_elem_of_fmap in Hn as (m & [= -> ->] & Hm). split; [done|].
  apply list_elem_of_filter in Hm as [_ Hm]. by apply elem_of_node_rows.
Qed.

Section Served.
Context (cfg : PayloadConfig).

Lemma rows_of_key_spec selected allowed region n s :
keyed routes_tbl (db s) → gives (rows_of_key cfg selected allowed region n) (λ l s', db s' = db s ∧ query_rows (db s) l) s.
Proof using Type.
intros Hk. unfold rows_of_key. eapply gives_bind; [apply gives_reads; keeps_tac|]. intros now s1 E1. rewrite <-E1 in *.
eapply gives_bind; [by apply resolved_rows|]. intros l s2 [E2 Hl]. rewrite <-E2 in *. destruct (existsb _ l); [by apply wp_ret|].
destruct allowed; [by apply wp_ret|by apply resolved_rows].
Qed.

Lemma whitelist_rows_spec n known s :
keyed routes_tbl (db s) → keyed nodes_tbl (db s) → query_rows (db s) known →
gives (whitelist_rows n known) (λ l s', db s' = db s ∧ query_rows (db s) (known ++ l)) s.
Proof using Type.
intros Hr Hn [Hnd Hknown]. unfold whitelist_rows. eapply gives_bind; [by apply resolved_rows|]. intros l s1 [E1 [Hl1 Hl2]]. rewrite <-E1 in *.
eapply gives_bind; [by apply entry_nodes_spec|]. intros m s2 [E2 _]. apply wp_ret. split; [done|]. split.
- rewrite fmap_app. apply NoDup_app. split_and!; [done| |eapply sublist_NoDup; [exact Hl1|apply fmap_sublist, sublist_filter]].
  intros i Hi (x & -> & [Hx _]%list_elem_of_filter)%list_elem_of_fmap. apply andb_true_iff in Hx as [_ Hx].
  by apply negb_true_iff, bool_decide_eq_false in Hx.
- intros x [?|[_ Hx]%list_elem_of_filter]%elem_of_app; [by apply Hknown|by apply Hl2].
Qed.

#[local] Existing Instance no_random.
#[local] Instance no_random_laws : RandomLaws unit.
Proof using Type. intros n g Hn. exact Hn. Qed.

Lemma select_routes_incl l preferred n r : NoDup (rs_route_id <$> l) → r ∈ select_routes l preferred n → r ∈ l.
Proof using Type.
intros Hnd Hr. destruct (select_spec (G := unit) rs_backend (λ r, (rs_security r, rs_network r)) rs_route_id rs_score rs_entry l preferred n None Hnd) as [Hsub _].
by eapply elem_of_submseteq.
Qed.

(** The plan of the subscription has the flag. *)
Definition plan_flag (flag : Plan → bool) (d : database) (b : Subscription) : bool :=
match sub_plan_id b ≫= (plans d !!.) with Some p => flag p | None => false end.

Lemma plan_of_spec b s : gives (plan_of b) (λ p s', s' = s ∧ p = sub_plan_id b ≫= (plans (db s) !!.)) s.
Proof using Type. apply gives_run. intros p s'. unfold plan_of. destruct (sub_plan_id b) as [i|]; by intros [= <- <-]. Qed.

Notation offers d b := (offered d (plan_flag whitelist_enabled d b) (plan_flag entry_relay_enabled d b)).
Notation kept d s' := (build_world (db s') = build_world d).

Lemma gives_kept {A} (m : SM A) s : keeps (on_db (same build_world)) m → gives m (λ _ s', kept (db s) s') s.
Proof using Type. intros H. apply gives_run. intros a s' E. specialize (H s). rewrite E in H. exact H. Qed.

Lemma placed_kept k region n s :
gives (catch (r ← _ensure_backend_placements_for_key (pc_subs cfg) k region n; mret (inr r))
  (λ e, if is_SubscriptionBuild e then mret (inl (exn_str e)) else raise e)) (λ _ s', kept (db s) s') s.
Proof using Type. apply gives_kept. pose proof (ensure_placements_same build_world (pc_subs cfg)). keeps_tac. Qed.

Lemma transport_spec outside b k n s :
keyed routes_tbl (db s) → keyed nodes_tbl (db s) →
gives (_build_transport_routes cfg outside b k n)
  (λ r s', kept (db s) s' ∧ Forall (offers (db s) b k) (tb_routes r)) s.
Proof using Type.
intros Hr Hn. unfold _build_transport_routes. eapply gives_bind; [apply placed_kept|]. intros placed s0 E0.
destruct (keyed_fleet (db s) (db s0)) as [Hr0 Hn0]; [by apply world_fleet|done|done|].
destruct placed as [message|[[selected placement] allowed]]; [apply wp_ret; cbn; by split|].
assert (Hoff : ∀ r, offers (db s0) b k r → offers (db s) b k r).
{ intros r Ho. assert (Ep : plans (db s) = plans (db s0)) by (unfold build_world in E0; congruence). unfold plan_flag in *.
  rewrite Ep. eapply offered_fleet; [by apply world_fleet|exact Ho]. }
rewrite <-E0. clear Hr Hn.
eapply gives_bind; [by apply rows_of_key_spec|]. intros known s1 [E1 Hknown]. rewrite <-E1 in *.
eapply gives_bind; [by apply zones_spec|]. intros zs s2 [E2 Hz]. rewrite <-E2 in *.
eapply gives_bind; [by apply whitelist_rows_spec|]. intros extra s3 [E3 [Hnd Hrows]]. rewrite <-E3 in *.
eapply gives_bind; [by apply entry_nodes_spec|]. intros entries s4 [E4 He]. rewrite <-E4 in *.
eapply gives_bind; [apply plan_of_spec|]. intros p s5 [-> Hp].
eapply gives_bind; [apply gives_reads; unfold count_desired_active_by_backend_node; keeps_tac|]. intros loads s6 E6. rewrite <-E6 in *.
set (c := {| bc_sub := b; bc_key := k |}).
eapply gives_bind; [apply (build_rows_spec cfg c)|]; try done.
{ split; cbn; [done|constructor|constructor]. }
{ intros x _. apply not_elem_of_nil. }
intros st s7 [E7 Hst]. rewrite <-E7 in *. eapply gives_bind; [by apply fill_spec|]. intros l s8 (E8 & Hl & Hids).
assert (Hsel : Forall (offers (db s) b k) (select_routes l selected n)).
{ apply Forall_forall. intros r Hin%select_routes_incl; [|done]. apply Hoff. rewrite Forall_forall in Hl.
  specialize (Hl r Hin). unfold plan_flag. rewrite <-Hp. exact Hl. }
destruct (select_routes l selected n); apply wp_ret; cbn; (split; [congruence|done]).
Qed.

(** * A device *)

Lemma transports_spec outside b n (keys l : list ResolvedDeviceKey) : ∀ s,
keyed routes_tbl (db s) → keyed nodes_tbl (db s) → (∀ k, k ∈ l → k ∈ keys) →
gives (build_transports cfg outside b n l)
  (λ r s', kept (db s) s' ∧ Forall (λ x, Forall (λ r, ∃ k, k ∈ keys ∧ offers (db s) b k r) (tb_routes x)) r.1) s.
Proof using Type.
induction l as [|k l IH]; intros s Hr Hn Hl; cbn [build_transports]; [apply wp_ret; by split; [|constructor]|].
eapply gives_bind; [by apply transport_spec|]. intros x s1 [E1 Hx].
destruct (keyed_fleet (db s) (db s1)) as [Hr1 Hn1]; [by apply world_fleet|done|done|].
eapply gives_bind; [apply IH; [done|done|intros k' Hk'; apply Hl; by right]|]. intros rest s2 [E2 Hrest].
assert (Hrest' : Forall (λ x, Forall (λ r, ∃ k, k ∈ keys ∧ offers (db s) b k r) (tb_routes x)) rest.1).
{ eapply Forall_impl; [exact Hrest|]. intros y Hy. eapply Forall_impl; [exact Hy|]. intros r (k' & Hk' & Ho). exists k'. split; [done|].
  assert (Ep : plans (db s) = plans (db s1)) by (unfold build_world in E1; congruence). unfold plan_flag in *.
  rewrite Ep. eapply offered_fleet; [by apply world_fleet|exact Ho]. }
destruct (tb_routes x) as [|r rs] eqn:Ex; [destruct (tb_reason x)|]; apply wp_ret; cbn; (split; [congruence|]); try done.
constructor; [|done]. rewrite Ex. eapply Forall_impl; [exact Hx|]. intros r' Hr'. exists k. split; [apply Hl; left|done].
Qed.

Definition catalogue (d : database) := (route_tables d, plans d).

Lemma gives_catalogue {A} (m : SM A) s :
keeps (on_db (same catalogue)) m → gives m (λ _ s', catalogue (db s') = catalogue (db s)) s.
Proof using Type. intros H. apply gives_run. intros a s' E. specialize (H s). rewrite E in H. exact H. Qed.

Lemma load_bundle_gives v s :
gives (_load_device_bundle v) (λ r s', s' = s ∧ rdb_device r = v ∧ rdb_keys r = bundle_keys (db s') (dev_id v)) s.
Proof using Type. apply gives_run. intros r s'. rewrite load_bundle_run. by intros [= <- <-]. Qed.

Lemma add_missing_catalogue b did until existing no_keys idx l :
keeps (on_db (same catalogue)) (add_missing_keys b did until existing no_keys idx l).
Proof using Type.
revert idx. induction l as [|t l IH]; intros idx; cbn [add_missing_keys]; [keeps_tac|].
unfold after_failed_flush, bind_key, _create_vpn_key_for_transport, plan_of. keeps_tac.
Qed.

Lemma ensure_bundle_spec b v now s :
gives (_ensure_device_key_bundle (pc_subs cfg) b v now)
  (λ r s', catalogue (db s') = catalogue (db s) ∧ rdb_device r = v ∧ rdb_keys r = bundle_keys (db s') (dev_id v)) s.
Proof using Type.
unfold _ensure_device_key_bundle. eapply gives_bind; [apply load_bundle_gives|]. intros r s1 (-> & Hv & Hk).
destruct (bundle_complete _ _); [by apply wp_ret|]. eapply gives_bind; [apply gives_catalogue, add_missing_catalogue|].
intros [] s2 E2. eapply gives_mono; [apply load_bundle_gives|]. by intros r' s3 (-> & ? & ?).
Qed.

(** The device is the one of the request. *)
Definition device_of (b : Subscription) (h : string) (v : SubscriptionDevice) : Prop := dev_subscription_id v = sub_id b ∧ hwid_hash v = h.

Lemma found_device (P : SubscriptionDevice → bool) b h s :
(∀ v, P v = true → same_hwid (sub_id b) h v = true) →
gives (l ← select_where devices_tbl P; scalar_one_or_none l) (λ o s', s' = s ∧ ∀ v, o = Some v → device_of b h v) s.
Proof using Type.
intros HP. unfold select_where, read. apply wp_bind, wp_gets.
assert (Hl : ∀ v, v ∈ filter (λ r, P r = true) (rows (t_rows devices_tbl (db s))) → device_of b h v).
{ intros v [Hv%HP _]%list_elem_of_filter. unfold same_hwid in Hv. apply andb_true_iff in Hv as [?%Z.eqb_eq ?%String.eqb_eq]. done. }
destruct (filter _ _) as [|v [|w l]]; [by apply wp_ret|apply wp_ret|done]. split; [done|]. intros v' [= <-]. apply Hl. left.
Qed.

Lemma register_spec b h hd now s :
gives (register_device (pc_subs cfg) b h hd now) (λ v s', catalogue (db s') = catalogue (db s) ∧ device_of b h v) s.
Proof using Type.
unfold register_device. destruct (_subscription_bundle_transports (pc_subs cfg) b) as [|t l]; [done|].
eapply gives_bind; [apply gives_catalogue; unfold _create_vpn_key_for_transport, plan_of; keeps_tac|]. intros key s1 E1.
eapply gives_bind; [apply gives_and; [apply gives_catalogue; unfold after_failed_flush; keeps_tac|apply gives_run]|].
{ intros v s' Hrun. instantiate (1 := λ v _, device_of b h v). cbn. unfold after_failed_flush, catch in Hrun. rewrite create_run in Hrun. cbn in Hrun.
  destruct (devices (db s1) !! _); [done|]. destruct (clashes _ _ _ _); [done|]. by injection Hrun as <- _. }
intros v s2 [E2 Hv]. eapply gives_bind; [apply gives_catalogue; unfold bind_key; keeps_tac|]. intros [] s3 E3. apply wp_ret. split; [congruence|done].
Qed.

Lemma request_spec b hd now s :
gives (_resolve_device_bundle_for_request (pc_subs cfg) b hd now)
  (λ r s', catalogue (db s') = catalogue (db s) ∧ rdb_keys r = bundle_keys (db s') (dev_id (rdb_device r)) ∧
     ∃ hwid, dh_hwid hd = Some hwid ∧ device_of b (sha256 (pc_subs cfg) (py_strip hwid)) (rdb_device r)) s.
Proof using Type.
unfold _resolve_device_bundle_for_request. destruct (dh_hwid hd) as [hwid|]; [|done]. apply wp_bind, wp_raise_if; [done|].
intros _. unfold _hash_hwid. apply wp_bind. destruct (nonempty (py_strip hwid)); [|done]. apply wp_ret.
set (h := sha256 _ _).
assert (Hfin : ∀ v s1, catalogue (db s1) = catalogue (db s) → device_of b h v →
  gives (_ensure_device_key_bundle (pc_subs cfg) b v now) (λ r s', catalogue (db s') = catalogue (db s) ∧
    rdb_keys r = bundle_keys (db s') (dev_id (rdb_device r)) ∧ ∃ hwid', Some hwid = Some hwid' ∧ device_of b (sha256 (pc_subs cfg) (py_strip hwid')) (rdb_device r)) s1).
{ intros v s1 E1 Hv. eapply gives_mono; [apply ensure_bundle_spec|]. intros r s2 (E2 & -> & Hk). split_and!; [congruence|done|]. by exists hwid. }
eapply gives_bind; [apply (found_device _ b h); intros v; rewrite andb_true_iff; tauto|]. intros [v|] s1 [-> Hv].
- eapply gives_bind; [apply gives_catalogue; unfold touch_device_seen; keeps_tac|]. intros [] s2 E2. apply Hfin; [done|by apply Hv].
- eapply gives_bind; [by apply (found_device _ b h)|]. intros o s2 [-> Ho].
  assert (Hslot : keeps (on_db (same catalogue)) (check_slot (pc_subs cfg) b)).
  { unfold check_slot, _effective_device_limit, plan_of, count_active_for_subscription. keeps_tac. }
  destruct (only_revoked o) as [v|] eqn:Er.
  + assert (o = Some v) as -> by (destruct o as [w|]; [|done]; cbn in Er; destruct (dev_is_active w); congruence).
    eapply gives_bind; [by apply gives_catalogue|]. intros [] s3 E3. eapply gives_bind; [apply gives_catalogue|].
    { pose proof (set_placement_same catalogue (sc_command_prefix (pc_subs cfg))).
      unfold reactivate_device, _load_device_bundle, list_by_device_ids, list_keys_by_ids, assign_revoked. keeps_tac. }
    intros [] s4 E4. apply Hfin; [congruence|by apply Ho].
  + eapply gives_bind; [by apply gives_catalogue|]. intros [] s3 E3. eapply gives_bind; [apply register_spec|].
    intros v s4 [E4 Hd]. apply Hfin; [congruence|done].
Qed.

Lemma persist_kept sid did l now : keeps (on_db (same build_world)) (_persist_route_assignments sid did l now).
Proof using Type. unfold _persist_route_assignments, upsert_route_assignment. keeps_tac. Qed.

(** C12: a payload built for a device is one link per line, at least one, within the size
    limit.  Every link is one of the keys the device of the request has in the subscription,
    for a route whose profile, node and agent serve and that fits the key's transport; a
    relayed route goes through an entry in service, and through a whitelist or a relay entry
    only when the plan includes them. *)
Theorem payload_served outside b hd extra s payload etag s' :
keyed routes_tbl (db s) → keyed nodes_tbl (db s) →
build_for_device cfg outside b hd extra s = (Ok (payload, etag), s') →
∃ v l hwid, dh_hwid hd = Some hwid ∧ device_of b (sha256 (pc_subs cfg) (py_strip hwid)) v ∧ l ≠ [] ∧
  payload = join (String newline "") (rs_uri <$> l) ∧
  Z.of_nat (String.length payload) ≤ Z.max 512 (response_max_payload_bytes cfg) ∧
  Forall (λ r, ∃ k, k ∈ bundle_keys (db s') (dev_id v) ∧
    offered (db s) (plan_flag whitelist_enabled (db s) b) (plan_flag entry_relay_enabled (db s) b) k r) l.
Proof using Type.
intros Hr Hn Hrun. assert (H : gives (build_for_device cfg outside b hd extra) (λ r s', ∃ v l hwid, dh_hwid hd = Some hwid ∧
  device_of b (sha256 (pc_subs cfg) (py_strip hwid)) v ∧ l ≠ [] ∧ r.1 = _render_subscription_payload l ∧
  payload_size l ≤ Z.max 512 (response_max_payload_bytes cfg) ∧
  Forall (λ r, ∃ k, k ∈ bundle_keys (db s') (dev_id v) ∧ offers (db s) b k r) l) s).
2:{ unfold wp in H. rewrite Hrun in H. destruct H as (v & l & hwid & ? & ? & ? & E & ? & ?). exists v, l, hwid. cbn in E. subst payload. done. }
clear Hrun. unfold build_for_device. eapply gives_bind; [apply gives_reads; keeps_tac|]. intros now s1 E1. rewrite <-E1 in *.
eapply gives_bind; [apply request_spec|]. intros bundle s2 (E2 & Hkeys & hwid & Hhw & Hdev).
assert (Ef : route_tables (db s2) = route_tables (db s1)) by (unfold catalogue in E2; congruence).
destruct (keyed_fleet (db s1) (db s2)) as [Hr2 Hn2]; [done..|].
eapply gives_bind; [by apply (transports_spec outside b _ (rdb_keys bundle))|]. intros results s3 [E3 Hres].
apply wp_bind, wp_raise_if; [done|]. intros _. apply wp_bind, wp_raise_if; [done|]. intros _.
set (limit := Z.max 512 _). set (sel := (_fit_routes_to_payload_limit _ limit).1).
apply wp_bind, wp_raise_if; [done|]. intros Hsel. apply wp_bind. destruct (route_signatures _ sel) as [sigs|e]; [|done]. apply wp_ret.
apply wp_bind, wp_raise_if; [done|]. intros _. eapply gives_bind; [apply gives_kept, persist_kept|]. intros [] s4 E4. apply wp_ret.
exists (rdb_device bundle), sel, hwid. split_and!; try done.
- by destruct sel.
- apply fit_size. lia.
- apply Forall_forall. intros r Hin%fit_incl. assert (Hm : Forall (λ r, ∃ k, k ∈ rdb_keys bundle ∧ offers (db s2) b k r) (_merge_transport_routes b results.1)).
  { apply merge_Forall; [|done]. intros name r' (k & Hk & Ho). exists k. split; [done|]. by apply offered_renamed. }
  rewrite Forall_forall in Hm. destruct (Hm r Hin) as (k & Hk & Ho). exists k. split.
  + rewrite Hkeys in Hk. unfold bundle_keys, bindings_of, keys_of_bindings in *.
    assert (vpn_keys (db s4) = vpn_keys (db s2) ∧ device_keys (db s4) = device_keys (db s2)) as [-> ->]
      by (unfold build_world in E3, E4; split; congruence). done.
  + assert (Ep : plans (db s1) = plans (db s2)) by (unfold catalogue in E2; congruence). unfold plan_flag in *.
    rewrite Ep. by eapply offered_fleet.
Qed.

(** * The selection without a seed *)

Lemma loop_ignores_weight {K} `{EqDecision K} (key : ResolvedSubscriptionRoute → K) (w w' : ResolvedSubscriptionRoute → rat) limit fuel :
∀ pool selected used,
  diversity_loop (G := unit) rs_route_id w key limit fuel pool selected used None =
    diversity_loop (G := unit) rs_route_id w' key limit fuel pool selected used None ∧
  (diversity_loop (G := unit) rs_route_id w key limit fuel pool selected used None).2 = None.
Proof using Type.
induction fuel as [|fuel IH]; intros pool selected used; cbn [diversity_loop]; [done|].
destruct pool as [|x pool]; [done|]. destruct (limit <=? _)%nat; [done|].
set (bucket := match filter _ _ with [] => _ | _ => _ end). unfold _weighted_pick.
destruct bucket as [|y bucket]; [done|]. apply IH.
Qed.

(** Without a seed the selector takes the first candidate of each bucket: the routes a
    client gets do not depend on [selection_score], so not on the load of entries and
    backends the score is made of. *)
Theorem selection_ignores_load l preferred n (score : ResolvedSubscriptionRoute → rat) :
select_routes l preferred n =
select (G := unit) rs_backend (λ r, (rs_security r, rs_network r)) rs_route_id score rs_entry l preferred n None.
Proof using Type.
unfold select_routes, select. destruct (n <=? 0); [done|]. destruct (n =? 1); [done|]. cbv zeta. f_equal. unfold preselect.
unfold _weighted_entry_diversity_pick, _select_fallback_with_backend_diversity. cbn [fmap option_fmap option_map].
set (primary := filter _ l). set (fallback := filter _ l).
destruct (loop_ignores_weight rs_entry rs_score score (2 `min` ((Z.to_nat n - 1) `min` length primary)) (length primary) primary [] []) as [<- Hnone].
destruct (diversity_loop _ _ rs_entry _ _ _ _ _ _) as [[sel rest] rng]. cbn in Hnone. subst rng.
by rewrite (proj1 (loop_ignores_weight rs_backend rs_score score _ _ fallback [] [])).
Qed.
End Served.
