(* ===== verification/EntryProps.v ===== *)
(** Properties of the relay pool, of its changes and of the draining of entries. *)

From stdpp Require Import base gmap strings list sorting.
From S2P Require Import Prelude Errors RouteModels RouteStateMachine BillingModels FleetModels Session Uuid NodeDisplay Tables FleetTables Routing Placements PlacementProps PlacementCommands Routes RouteProps ProbeRepo AgentDetails Entry.
Local Open Scope Z_scope.

(** * The pool of an entry *)

(** The active assignments of an entry, in the order the pool reads them. *)
Definition pool_assignments (d : database) (entry : Z) : list EntryBackendAssignment :=
  order_by_asc eba_created_at
    (filter (λ e, ((eba_entry_node_id e =? entry) && eba_is_active e) = true) (rows (entry_assignments d))).

Lemma elem_of_pool_assignments d entry a :
  a ∈ pool_assignments d entry ↔
  eba_entry_node_id a = entry ∧ eba_is_active a = true ∧ ∃ i, entry_assignments d !! i = Some a.
Proof.
  unfold pool_assignments, order_by_asc.
  rewrite merge_sort_Permutation, list_elem_of_filter, elem_of_rows, andb_true_iff, Z.eqb_eq. tauto.
Qed.

(** The row of an assignment in the pool, read from the database. *)
Definition pool_row (port : Z) (d : database) (a : EntryBackendAssignment) : option RelayBackendOut :=
  b ← nodes d !! eba_backend_node_id a;
  if node_is_active b then
    address ← _resolve_backend_address b;
    Some {| rb_id := node_id b; rb_address := address; rb_port := port; rb_weight := eba_weight a;
            rb_enabled := eba_enabled a && is_enabled b && negb (is_draining b);
            rb_rank := eba_rank a |}
  else None.

(** The pool of an entry as a function of the database. *)
Definition pool_of (port : Z) (d : database) (entry : Z) : RelayPoolOut :=
  {| rp_entry_id := entry; rp_generation := _generation (pool_assignments d entry);
     rp_ttl_seconds := RELAY_POOL_TTL_SEC;
     rp_backends := pool_order (omap (pool_row port d) (pool_assignments d entry)) |}.

(** An entry that may have a pool. *)
Definition entry_ready (d : database) (entry : Z) : Prop :=
  ∃ n, nodes d !! entry = Some n ∧ node_is_active n = true ∧ is_entry_role (node_role n) = true.

Lemma require_entry_run entry s :
  entry_ready (db s) entry → ∃ n, _require_entry entry s = (Ok n, s) ∧ nodes (db s) !! entry = Some n.
Proof.
  intros (n & Hn & Ha & Hr). exists n. split; [|done].
  unfold _require_entry, mbind at 1, M_bind at 1, get_by_id, read, gets. cbn [t_rows nodes_tbl].
  by rewrite Hn, Ha, Hr.
Qed.

Lemma find_node_by_id d (ids : list Z) i :
  keyed nodes_tbl d → i ∈ ids →
  find (λ b, node_id b =? i) (filter (λ n, bool_decide (node_id n ∈ ids) = true) (rows (nodes d))) =
  nodes d !! i.
Proof.
  intros Hk Hi. destruct (find _ _) as [b|] eqn:Hf.
  - apply find_some in Hf as [Hb%list_elem_of_In He%Z.eqb_eq].
    apply list_elem_of_filter in Hb as [_ [j Hj]%elem_of_rows].
    pose proof (Hk j b Hj) as E. cbn in E. congruence.
  - destruct (nodes d !! i) as [b|] eqn:Hb; [|done]. exfalso. pose proof (Hk i b Hb) as E. cbn in E.
    apply (find_none _ _) with (x := b) in Hf; [by rewrite E, Z.eqb_refl in Hf|].
    apply list_elem_of_In, list_elem_of_filter. rewrite E. split; [by apply bool_decide_eq_true|].
    apply elem_of_rows. eauto.
Qed.

Lemma omap_ext_in {A B} (f g : A → option B) (l : list A) : (∀ x, x ∈ l → f x = g x) → omap f l = omap g l.
Proof.
  induction l as [|x l IH]; intros H; cbn; [done|]. rewrite (H x) by left.
  rewrite IH; [done|]. intros y Hy. apply H. by right.
Qed.

Lemma get_relay_pool_run port entry s :
  keyed nodes_tbl (db s) → entry_ready (db s) entry →
  get_relay_pool port entry s = (Ok (pool_of port (db s) entry), s).
Proof.
  intros Hk Hr. destruct (require_entry_run entry s Hr) as (n & Hrun & _).
  unfold get_relay_pool, mbind at 1, M_bind at 1. rewrite Hrun.
  unfold list_by_entry, mbind, M_bind, select_where, read, gets, mret, M_ret.
  cbn [t_rows assignments_tbl].
  match goal with |- context [order_by_asc eba_created_at ?x] =>
    change (order_by_asc eba_created_at x) with (pool_assignments (db s) entry) end.
  set (l := pool_assignments (db s) entry).
  assert (Hnodes : ∃ bs, list_nodes_by_ids (eba_backend_node_id <$> l) s = (Ok bs, s) ∧
    ∀ a, a ∈ l → find (λ b, node_id b =? eba_backend_node_id a) bs = nodes (db s) !! eba_backend_node_id a).
  { unfold list_nodes_by_ids. destruct (eba_backend_node_id <$> l) as [|i ids] eqn:El.
    - exists []. split; [done|]. intros a Ha. apply (list_elem_of_fmap_2 eba_backend_node_id) in Ha.
      rewrite El in Ha. by apply not_elem_of_nil in Ha.
    - eexists. split; [done|]. intros a Ha. apply find_node_by_id; [done|]. rewrite <-El.
      by apply list_elem_of_fmap_2. }
  destruct Hnodes as (bs & Hbs & Hfind). rewrite Hbs. unfold pool_of.
  do 2 f_equal. f_equal. fold l. f_equal. apply omap_ext_in. intros a Ha.
  unfold relay_backend, pool_row. rewrite (Hfind a Ha).
  destruct (nodes (db s) !! _) as [b|]; [|done]. cbn. by destruct (node_is_active b).
Qed.

(** The relay pool of an entry is exact: it lists one row for each active
    assignment of the entry whose backend node is active and has an address, with the
    assignment's weight and rank and enabled only when the assignment and the node
    are and the node is not draining, the primary tier first; nothing is written. *)
Theorem relay_pool_exact (port entry : Z) (s : session) :
  keyed nodes_tbl (db s) → entry_ready (db s) entry →
  ∃ pool, get_relay_pool port entry s = (Ok pool, s) ∧ rp_entry_id pool = entry ∧
    Sorted (key_le rb_rank) (rp_backends pool) ∧
    ∀ x, x ∈ rp_backends pool ↔
      ∃ i a b address, entry_assignments (db s) !! i = Some a ∧ eba_entry_node_id a = entry ∧
        eba_is_active a = true ∧ nodes (db s) !! eba_backend_node_id a = Some b ∧
        node_is_active b = true ∧ _resolve_backend_address b = Some address ∧
        x = {| rb_id := node_id b; rb_address := address; rb_port := port; rb_weight := eba_weight a;
               rb_enabled := eba_enabled a && is_enabled b && negb (is_draining b);
               rb_rank := eba_rank a |}.
Proof.
  intros Hk Hr. exists (pool_of port (db s) entry). split_and!; [by apply get_relay_pool_run|done| |].
  { apply Sorted_merge_sort, _. }
  intros x. cbn [rp_backends pool_of]. unfold pool_order, order_by_asc, order_by_name.
  rewrite !merge_sort_Permutation, list_elem_of_omap. unfold pool_row. split.
  - intros (a & (He & Ha & i & Hi)%elem_of_pool_assignments & Hx).
    destruct (nodes (db s) !! _) as [b|] eqn:Hb; [|done]. cbn in Hx.
    destruct (node_is_active b) eqn:Hact; [|done].
    destruct (_resolve_backend_address b) as [addr|] eqn:Haddr; [|done]. injection Hx as <-.
    exists i, a, b, addr. by split_and!.
  - intros (i & a & b & addr & Hi & He & Ha & Hb & Hact & Haddr & ->).
    exists a. split; [apply elem_of_pool_assignments; eauto|]. by rewrite Hb; cbn; rewrite Hact, Haddr.
Qed.

(** * The fan-out of a backend's health *)

(** The identifiers the supply has not issued are free in the outbox, as row ids
    and as event ids of pool changes. *)
Definition fan_ready (s : session) : Prop :=
  outbox_fresh s ∧
  ∀ j r e g ev, outbox (db s) !! j = Some r → ob_message_id r = PoolChangedId e g ev → ev < next_uuid s.

(** The database but for the outbox. *)
Definition only_outbox (s s' : session) : Prop :=
  db s' = set_outbox (outbox (db s')) (db s) ∧ outbox (db s) ⊆ outbox (db s').

Lemma only_outbox_refl s : only_outbox s s.
Proof. split; [|done]. by destruct (db s). Qed.

Lemma only_outbox_trans s1 s2 s3 : only_outbox s1 s2 → only_outbox s2 s3 → only_outbox s1 s3.
Proof.
  intros [D1 O1] [D2 O2]. split; [|by etrans]. rewrite D2 at 1. rewrite D1. by destruct (db s1).
Qed.

Lemma only_outbox_same {A} (f : database → A) `{!FrameOn f outbox_tbl} s s' :
  only_outbox s s' → f (db s') = f (db s).
Proof. intros [D _]. rewrite D. apply (frame_on (t := outbox_tbl)). Qed.

(** The pool an entry was told, in a row of the outbox. *)
Definition told (d : database) (entry : Z) (pool : RelayPoolOut) (j : Z) : Prop :=
  ∃ r ev t, outbox d !! j = Some r ∧ ob_node_id r = entry ∧ ob_status r = ob_pending ∧
    ob_payload r = EntryPoolChanged ev entry t pool.

Section FanOut.
Context (command_prefix : string) (port : Z).

Lemma enqueue_snapshot_run entry s :
keyed nodes_tbl (db s) → entry_ready (db s) entry → fan_ready s →
∃ s', _enqueue_pool_snapshot command_prefix port entry s = (Ok tt, s') ∧ fan_ready s' ∧
  only_outbox s s' ∧
  ∃ j, outbox (db s) !! j = None ∧ told (db s') entry (pool_of port (db s) entry) j.
Proof using Type.
intros Hk Hr [Hfresh Hids]. unfold _enqueue_pool_snapshot.
unfold mbind at 1, M_bind at 1. rewrite (get_relay_pool_run port entry s Hk Hr).
unfold mbind at 1, M_bind at 1, uuid4. fold (issue s).
unfold mbind at 1, M_bind at 1, utcnow. fold (tick (issue s)). set (s1 := tick (issue s)).
match goal with |- context [enqueue_many [?x]] => set (it := x) end.
assert (Hrun : enqueue_many [it] s1 =
  (Ok tt, with_db (put outbox_tbl (outbox_row it (next_uuid s + 1) (clock s1 (ticks s1)))) (tick (issue s1)))).
{ unfold enqueue_many. cbn [for_each]. unfold mbind, M_bind.
  destruct (enqueue_one_run it s1) as [[(j & r & Hj & Hr') _]|[_ Hrun]].
  - pose proof (Hids j r _ _ _ Hj Hr'). lia.
  - unfold s1 in Hrun at 1. cbn [db next_uuid tick issue] in Hrun.
    rewrite Hfresh in Hrun by (cbn; lia). by rewrite Hrun. }
rewrite Hrun. eexists. split; [done|]. split_and!.
- split.
  + intros i Hi. cbn in *. rewrite lookup_insert_ne by lia. apply Hfresh. lia.
  + intros j r e g ev. cbn. rewrite lookup_insert. case_decide.
    * intros [= <-]. cbn. intros [= _ _ <-]. lia.
    * intros Hj Hm. pose proof (Hids j r e g ev Hj Hm). lia.
- split; [reflexivity|]. cbn. apply insert_subseteq, Hfresh. lia.
- exists (next_uuid s + 1). split; [apply Hfresh; lia|]. eexists _, _, _. cbn. rewrite lookup_insert_eq.
  by split_and!.
Qed.

Lemma only_outbox_pool s s' entry :
only_outbox s s' → pool_of port (db s') entry = pool_of port (db s) entry.
Proof using Type.
intros H. unfold pool_of, pool_assignments, pool_row.
by rewrite (only_outbox_same entry_assignments _ _ H), (only_outbox_same nodes _ _ H).
Qed.

Lemma only_outbox_ready s s' entry :
only_outbox s s' → entry_ready (db s) entry → entry_ready (db s') entry.
Proof using Type. intros H. unfold entry_ready. by rewrite (only_outbox_same nodes _ _ H). Qed.

Lemma fan_out_run entries s :
keyed nodes_tbl (db s) → (∀ e, e ∈ entries → entry_ready (db s) e) → fan_ready s →
∃ s', for_each (_enqueue_pool_snapshot command_prefix port) entries s = (Ok tt, s') ∧ fan_ready s' ∧
  only_outbox s s' ∧
  ∀ e, e ∈ entries → ∃ j, outbox (db s) !! j = None ∧ told (db s') e (pool_of port (db s) e) j.
Proof using Type.
revert s. induction entries as [|e entries IH]; intros s Hk Hr Hf.
{ exists s. split_and!; [done|done|apply only_outbox_refl|]. by intros e ?%not_elem_of_nil. }
destruct (enqueue_snapshot_run e s) as (s1 & Hrun & Hf1 & Ho1 & j & Hj & Ht); [done|apply Hr; left|done|].
destruct (IH s1) as (s2 & Hrun2 & Hf2 & Ho2 & Htold); [| |done|].
- intros i n. cbn. rewrite (only_outbox_same nodes _ _ Ho1). apply Hk.
- intros e' He'. eapply only_outbox_ready; [done|]. apply Hr. by right.
- exists s2. cbn [for_each]. unfold mbind, M_bind. rewrite Hrun.
  split_and!; [done|done|by eapply only_outbox_trans|].
  intros e' [->|He']%elem_of_cons.
  + exists j. split; [done|]. destruct Ht as (r & ev & t & Hlook & ?). exists r, ev, t.
    split; [|done]. eapply lookup_weaken; [exact Hlook|apply Ho2].
  + destruct (Htold e' He') as (j' & Hj' & Ht'). exists j'. rewrite (only_outbox_pool _ _ _ Ho1) in Ht'.
    split; [|done]. destruct (outbox (db s) !! j') eqn:E; [|done].
    eapply lookup_weaken in E; [|apply Ho1]. congruence.
Qed.

(** The entries an active assignment ties to a backend. *)
Definition entries_of (d : database) (backend : Z) : list Z :=
remove_dups (eba_entry_node_id <$> filter (λ e, ((eba_backend_node_id e =? backend) && eba_is_active e) = true)
  (rows (entry_assignments d))).

Lemma elem_of_entries_of d backend e :
e ∈ entries_of d backend ↔
∃ i a, entry_assignments d !! i = Some a ∧ eba_backend_node_id a = backend ∧
  eba_is_active a = true ∧ eba_entry_node_id a = e.
Proof using Type.
unfold entries_of. rewrite elem_of_remove_dups, list_elem_of_fmap. split.
- intros (a & -> & [[Hb%Z.eqb_eq Ha]%andb_prop [i Hi]%elem_of_rows]%list_elem_of_filter). eauto 7.
- intros (i & a & Hi & Hb & Ha & <-). exists a. split; [done|]. apply list_elem_of_filter.
  rewrite Ha, (proj2 (Z.eqb_eq _ _) Hb). split; [done|]. apply elem_of_rows. eauto.
Qed.

Lemma notify_unfold backend s :
notify_backend_health_changed command_prefix port backend s =
match for_each (_enqueue_pool_snapshot command_prefix port) (entries_of (db s) backend) s with
| (Ok _, s') => (Ok (Z.of_nat (length (entries_of (db s) backend))), s')
| (Raise e, s') => (Raise e, s')
end.
Proof using Type. reflexivity. Qed.
End FanOut.

(** The fan-out of a change of a backend's health: when every entry with an
    active assignment to the backend is an active entry node, each of them gets a new
    pending outbox row with the pool it has now, the number of entries is returned and
    nothing but the outbox changes. *)
Theorem fan_out_tells_every_entry (command_prefix : string) (port backend : Z) (s : session) :
  keyed nodes_tbl (db s) → fan_ready s →
  (∀ e, e ∈ entries_of (db s) backend → entry_ready (db s) e) →
  ∃ s', enqueue_pool_snapshots_for_backend command_prefix port backend s =
        (Ok (Z.of_nat (length (entries_of (db s) backend))), s') ∧
    db s' = set_outbox (outbox (db s')) (db s) ∧
    ∀ e, e ∈ entries_of (db s) backend →
      ∃ j, outbox (db s) !! j = None ∧ told (db s') e (pool_of port (db s) e) j.
Proof.
  intros Hk Hf Hr. unfold enqueue_pool_snapshots_for_backend. rewrite notify_unfold.
  destruct (fan_out_run command_prefix port _ s Hk Hr Hf) as (s' & Hrun & _ & [Hd _] & Htold).
  rewrite Hrun. by exists s'.
Qed.

(** A prefix of the fan-out, and the entry that stops it. *)
Lemma fan_out_stops command_prefix port before e after s :
  keyed nodes_tbl (db s) → (∀ x, x ∈ before → entry_ready (db s) x) → fan_ready s →
  (∀ n, nodes (db s) !! e = Some n → node_is_active n = false) →
  ∃ s', for_each (_enqueue_pool_snapshot command_prefix port) (before ++ e :: after) s =
    (Raise (entry_not_found e), s').
Proof.
  revert s. induction before as [|x before IH]; intros s Hk Hr Hf He; cbn [app for_each].
  - exists s. unfold mbind at 1, M_bind at 1, _enqueue_pool_snapshot, get_relay_pool, _require_entry,
      mbind, M_bind, get_by_id, read, gets. cbn [t_rows nodes_tbl].
    destruct (nodes (db s) !! e) as [n|] eqn:Hn; [|done]. by rewrite (He n eq_refl).
  - destruct (enqueue_snapshot_run command_prefix port x s) as (s1 & Hrun & Hf1 & Ho1 & _);
      [done|apply Hr; left|done|].
    unfold mbind, M_bind. rewrite Hrun. apply IH; [| |done|].
    + intros i n. cbn. rewrite (only_outbox_same nodes _ _ Ho1). apply Hk.
    + intros y Hy. eapply only_outbox_ready; [done|]. apply Hr. by right.
    + intros n. rewrite (only_outbox_same nodes _ _ Ho1). apply He.
Qed.

(** One retired entry stops the fan-out: if a deactivated node still has an
    active assignment to the backend, no change of the backend's health can be
    announced, and the request that made it is rolled back. *)
Theorem retired_entry_blocks_fan_out (command_prefix : string) (port backend : Z) (s : session)
    (before after : list Z) (e : Z) :
  keyed nodes_tbl (db s) → fan_ready s →
  entries_of (db s) backend = before ++ e :: after →
  (∀ x, x ∈ before → entry_ready (db s) x) →
  (∀ n, nodes (db s) !! e = Some n → node_is_active n = false) →
  (run_request (enqueue_pool_snapshots_for_backend command_prefix port backend) s).1 =
    Raise (entry_not_found e) ∧
  db (run_request (enqueue_pool_snapshots_for_backend command_prefix port backend) s).2 = db s.
Proof.
  intros Hk Hf He Hb Hn.
  destruct (fan_out_stops command_prefix port before e after s Hk Hb Hf Hn) as (s' & Hrun).
  unfold run_request, enqueue_pool_snapshots_for_backend. rewrite notify_unfold, He, Hrun. done.
Qed.

(** * A removed assignment *)

(** Assignments are stored under their ids and a pair has at most one. *)
Definition pairs_unique (d : database) : Prop :=
  keyed assignments_tbl d ∧
  ∀ i j a b, entry_assignments d !! i = Some a → entry_assignments d !! j = Some b →
    same_pair a b = true → i = j.

Lemma get_assignment_run d i a s :
  db s = d → pairs_unique d → entry_assignments d !! i = Some a →
  get_by_entry_and_backend (eba_entry_node_id a) (eba_backend_node_id a) s = (Ok (Some a), s) ∧ eba_id a = i.
Proof.
  intros <- [Hk Hu] Hi. split; [|by apply (Hk i a)]. unfold get_by_entry_and_backend.
  set (P := λ e, (eba_entry_node_id e =? eba_entry_node_id a) && (eba_backend_node_id e =? eba_backend_node_id a)).
  assert (HP : P a = true) by (unfold P; by rewrite !Z.eqb_refl).
  destruct (select_unique_run assignments_tbl P s) as (o & Hrun & Ho); [done| |].
  { intros j k p q Hj Hk' Hp Hq. apply (Hu j k p q Hj Hk'). unfold same_pair, P in *.
    rewrite andb_true_iff, !Z.eqb_eq in *. intuition congruence. }
  rewrite Hrun. destruct o as [p|].
  - destruct Ho as [Hp HPp]. do 2 f_equal. f_equal. cbn in Hp.
    enough (i = eba_id p) by congruence. apply (Hu i _ a p Hi Hp).
    unfold same_pair, P in *. rewrite andb_true_iff, !Z.eqb_eq in *. intuition congruence.
  - rewrite (Ho i a Hi) in HP. done.
Qed.

Definition deactivated (now : Z) (a : EntryBackendAssignment) : EntryBackendAssignment :=
  patch_assignment None None None (Some false) (touch_assignment now a).

Lemma remove_update_run i a s :
  eba_id a = i → entry_assignments (db s) !! i = Some a →
  update_by_id assignments_tbl i (patch_assignment None None None (Some false)) s =
  (Ok (Some (deactivated (clock s (ticks s)) a)),
   with_db (put assignments_tbl (deactivated (clock s (ticks s)) a)) (tick s)).
Proof.
  intros Hid Hi. rewrite update_run. cbn [t_rows assignments_tbl]. rewrite Hi. cbv zeta.
  cbn [t_touch t_check assignments_tbl]. unfold unique_on, unique, same_pair at 1. cbn.
  rewrite !Z.eqb_refl. cbn. unfold put. cbn. rewrite Hid. by rewrite lookup_insert_eq.
Qed.

(** Removing an assignment takes the backend out of the relay pool, but not out
    of the transport: when the assignment was enabled, the entry is still among the
    nodes every placement command of the backend is sent to. *)
Theorem removed_assignment_still_commanded (command_prefix : string) (port i : Z)
    (a : EntryBackendAssignment) (s : session) :
  keyed nodes_tbl (db s) → pairs_unique (db s) → fan_ready s →
  entry_assignments (db s) !! i = Some a → eba_is_active a = true → eba_enabled a = true →
  entry_ready (db s) (eba_entry_node_id a) →
  ∃ s', remove_assignment command_prefix port (eba_entry_node_id a) (eba_backend_node_id a) s = (Ok true, s') ∧
    (∀ x, x ∈ rp_backends (pool_of port (db s') (eba_entry_node_id a)) → rb_id x ≠ eba_backend_node_id a) ∧
    eba_entry_node_id a ∈ _load_entries_for_backends (db s') (eba_backend_node_id a).
Proof.
  intros Hk Hu Hf Hi Ha Hen Hr. destruct (get_assignment_run (db s) i a s eq_refl Hu Hi) as [Hget Hid].
  unfold remove_assignment, mbind at 1, M_bind at 1. rewrite Hget, Ha. cbn [negb].
  unfold mbind at 1, M_bind at 1. rewrite (remove_update_run (eba_id a) a) by congruence.
  set (a' := deactivated (clock s (ticks s)) a). set (s1 := with_db _ _).
  destruct (enqueue_snapshot_run command_prefix port (eba_entry_node_id a) s1)
    as (s' & Hrun & _ & Ho & _); [done|done|done|].
  unfold mbind, M_bind. rewrite Hrun. exists s'. split; [done|].
  assert (Hrows : entry_assignments (db s') = <[eba_id a := a']> (entry_assignments (db s)))
    by apply (only_outbox_same entry_assignments s1 s' Ho).
  assert (Hnodes : nodes (db s') = nodes (db s)) by apply (only_outbox_same nodes s1 s' Ho).
  split.
  - intros x. cbn [rp_backends pool_of]. unfold pool_order, order_by_asc, order_by_name.
    rewrite !merge_sort_Permutation, list_elem_of_omap.
    intros (b & (He & Hb & j & Hj)%elem_of_pool_assignments & Hx) Heq.
    unfold pool_row in Hx. rewrite Hnodes in Hx.
    destruct (nodes (db s) !! _) as [n|] eqn:Hn; [|done]. cbn in Hx. destruct (node_is_active n); [|done].
    destruct (_resolve_backend_address n); [|done]. injection Hx as <-. cbn in Heq.
    pose proof (Hk _ n Hn) as E. cbn in E. rewrite Hrows, lookup_insert in Hj. case_decide as Hji.
    + injection Hj as <-. done.
    + apply Hji. rewrite Hid. apply (proj2 Hu i j a b); [done|done|].
      unfold same_pair. rewrite andb_true_iff, !Z.eqb_eq. split; congruence.
  - unfold _load_entries_for_backends. apply list_elem_of_fmap. exists a'. split; [done|].
    apply list_elem_of_filter. cbn. rewrite Hen, Z.eqb_refl. split; [done|]. apply elem_of_rows.
    exists (eba_id a). rewrite Hrows. apply lookup_insert_eq.
Qed.

(** * Warm-ups an assignment starts *)

(** The route an assignment creates does not warm up: it starts with the second
    stage and no start time, so the first tick, whenever it runs, makes it healthy with
    its full weight. *)
Theorem assigned_route_skips_warmup (name : string) (backend entry profile id created now : Z) :
  let r := warming_route name backend entry profile id created in
  is_warming r = true ∧ effective_weight r = 25 ∧
  health_status (tick_row now r) = healthy ∧ effective_weight (tick_row now r) = base_weight r.
Proof. done. Qed.

(** * Unblocking by an entry *)

Lemma unblock_one_run now r s :
  routes (db s) !! route_id r = Some r → 1 ≤ base_weight r →
  update_by_id routes_tbl (route_id r) (unblocked_by_entry now) s =
  (Ok (Some (unblocked_by_entry now (touch_route (clock s (ticks s)) r))),
   with_db (put routes_tbl (unblocked_by_entry now (touch_route (clock s (ticks s)) r))) (tick s)).
Proof.
  intros Hr Hb. rewrite update_run. cbn [t_rows routes_tbl]. rewrite Hr. cbv zeta.
  cbn [t_touch t_check routes_tbl]. rewrite (proj2 (route_check_None _)).
  2: { cbn. Z.div_mod_to_equations. lia. }
  unfold unique_on, unique. cbn. rewrite String.eqb_refl. unfold put. cbn. by rewrite lookup_insert_eq.
Qed.

Lemma unblock_step_run r s :
  routes (db s) !! route_id r = Some r → 1 ≤ base_weight r →
  (now ← utcnow; update_by_id routes_tbl (route_id r) (unblocked_by_entry now) ;; mret tt) s =
  (Ok tt, with_db (put routes_tbl (unblocked_by_entry (clock s (ticks s))
            (touch_route (clock s (S (ticks s))) r))) (tick (tick s))).
Proof.
  intros Hr Hb. unfold mbind, M_bind, utcnow. fold (tick s). by rewrite unblock_one_run.
Qed.

Lemma unblock_rows_run l s :
  NoDup (route_id <$> l) → (∀ r, r ∈ l → routes (db s) !! route_id r = Some r ∧ 1 ≤ base_weight r) →
  ∃ s', for_each (λ r, now ← utcnow; update_by_id routes_tbl (route_id r) (unblocked_by_entry now) ;; mret tt)
          l s = (Ok tt, s') ∧
    (∀ i, i ∉ route_id <$> l → routes (db s') !! i = routes (db s) !! i) ∧
    ∀ r, r ∈ l → ∃ now t, routes (db s') !! route_id r = Some (unblocked_by_entry now (touch_route t r)).
Proof.
  revert s. induction l as [|r l IH]; intros s Hnd Hl.
  { exists s. split_and!; [done|done|]. by intros r ?%not_elem_of_nil. }
  cbn in Hnd. apply NoDup_cons in Hnd as [Hnin Hnd]. destruct (Hl r) as [Hr Hb]; [left|].
  cbn [for_each]. unfold mbind at 1, M_bind at 1. rewrite unblock_step_run by done.
  set (s1 := with_db _ _).
  assert (Hrow : routes (db s1) = <[route_id r := unblocked_by_entry (clock s (ticks s))
    (touch_route (clock s (S (ticks s))) r)]> (routes (db s))) by reflexivity.
  destruct (IH s1) as (s2 & Hrun & Hother & Hin); [done| |].
  { intros r' Hr'. destruct (Hl r') as [Hlook ?]; [by right|]. split; [|done].
    rewrite Hrow, lookup_insert_ne; [done|]. intros E. apply Hnin. rewrite E. by apply list_elem_of_fmap_2. }
  exists s2. split_and!; [exact Hrun| |].
  - intros i [Hi Hil]%not_elem_of_cons. rewrite Hother by done. rewrite Hrow. by apply lookup_insert_ne.
  - intros r' [->|Hr']%elem_of_cons; [|by apply Hin].
    eexists _, _. rewrite Hother by done. rewrite Hrow. apply lookup_insert_eq.
Qed.

(** Recovering an entry lifts every block of its routes: each active blocked
    route of the entry, also one an administrator or a probe blocked with a cooldown
    that still runs, starts to warm up with a positive weight, which
    [update_route_health] refuses with 409 until the cooldown has passed. *)
Theorem entry_recovery_ignores_cooldown (entry : Z) (s : session) :
  routes_wf (db s) →
  (∀ i r, routes (db s) !! i = Some r → entry_route entry true r = true → 1 ≤ base_weight r) →
  ∃ n s', _unblock_routes_for_entry entry s = (Ok n, s') ∧
    (∀ i r, routes (db s) !! i = Some r → entry_route entry true r = true →
       ∃ r', routes (db s') !! i = Some r' ∧ health_status r' = warming_up ∧ 1 ≤ effective_weight r' ∧
         cooldown_until r' = cooldown_until r) ∧
    (∀ i r, routes (db s) !! i = Some r → entry_route entry true r = false →
       routes (db s') !! i = Some r) ∧
    (∀ r now ch, after_now (cooldown_until r) now = true →
       resolve_route_health_action r recover now ch DEFAULT_WARMUP_STAGES =
       Raise (RouteCooldownActiveError "Route is still in cooldown")).
Proof.
  intros [Hk Hwf] Hb. unfold _unblock_routes_for_entry, mbind at 1, M_bind at 1, select_where, read, gets.
  cbn [t_rows routes_tbl]. set (l := filter _ _).
  assert (Hl : ∀ r, r ∈ l ↔ entry_route entry true r = true ∧ routes (db s) !! route_id r = Some r).
  { intros r. unfold l. rewrite list_elem_of_filter, elem_of_rows. split; [|naive_solver].
    intros [He [i Hi]]. pose proof (Hk i r Hi) as E. cbn in E. by rewrite E. }
  destruct (unblock_rows_run l s) as (s' & Hrun & Hother & Hin).
  { eapply sublist_NoDup; [by apply (rows_ids_NoDup routes_tbl (db s))|]. apply fmap_sublist, sublist_filter. }
  { intros r [He Hr]%Hl. eauto. }
  unfold mbind at 1, M_bind at 1. rewrite Hrun. eexists _, s'. split_and!; [done|..].
  - intros i r Hi He. pose proof (Hk i r Hi) as E. cbn in E. subst i.
    destruct (Hin r) as (now & t & Hr'); [by apply Hl|]. eexists. split; [exact Hr'|].
    cbn. split_and!; [done|lia|done].
  - intros i r Hi He. rewrite Hother; [done|]. intros (r' & -> & [He' Hr']%Hl)%list_elem_of_fmap. congruence.
  - intros r now ch Hc. cbn. by rewrite Hc.
Qed.
