(* ===== verification/ProbeProps.v ===== *)
(** What probe reports do to routes: every change is a step of the health machine,
    consecutive failures escalate, a healthy mesh path shields a route, a report that
    comes late is only stored. *)

From stdpp Require Import base gmap strings list sorting pretty.
From S2P Require Import Prelude Decimal Errors RouteModels RouteStateMachine BillingModels FleetModels Session Uuid NodeDisplay WgAllocator Tables FleetTables Routing Placements Routes RouteProps ProbeRepo AgentDetails Entry Nodes PlacementProps PlacementCommands Probe ProbeDrain.
Local Open Scope Z_scope.


Definition probe_policy_of (d : database) : option ProbePolicy :=
  head (order_by_desc pp_id (rows (probe_policies d))).

Lemma probe_policy_run s p : probe_policy_of (db s) = Some p → probe_policy s = (Ok p, s).
Proof.
  unfold probe_policy_of, probe_policy, mbind, M_bind, select_where, read, gets. cbn [t_rows probe_policies_tbl].
  rewrite (filter_unchanged (λ r : ProbePolicy, true = true)) by done.
  destruct (order_by_desc pp_id _); [done|]. by intros [= ->].
Qed.

(** The database but for the routes. *)
Definition routes_only (d d' : database) : Prop := d' = set_routes (routes d') d.

Lemma routes_only_refl d : routes_only d d.
Proof. by destruct d. Qed.

(** * Verdicts *)

(** A state a probe gives a route: a step of the health machine that the table
    accepts. *)
Definition allowed (r : Route) (rs : RouteStateResolution) : Prop :=
  ∀ now, route_step r (apply_resolution r rs now) ∧ route_check (apply_resolution r rs now) = None.

Lemma action_allowed r a rs :
  (∀ now, resolve_route_health_action r a now 0 DEFAULT_WARMUP_STAGES = Ok rs) →
  0 ≤ rs_effective_weight rs ≤ base_weight r → allowed r rs.
Proof.
  intros H Hw now. split; [by eapply (step_action r a now 0)|]. apply route_check_None. cbn. lia.
Qed.

(** A verdict on a route that may carry weight. *)
Lemma verdict_allowed policy r consecutive checked :
  health_status r ≠ blocked → 1 ≤ base_weight r ≤ 100 →
  ∃ o, probe_verdict policy r consecutive checked = Ok o ∧ ∀ rs, o = Some rs → allowed r rs.
Proof.
  intros Hb Hw. unfold probe_verdict.
  assert (Hhalf : ∀ k, 2 ≤ k → 0 ≤ Z.max 1 (base_weight r / k) ≤ base_weight r ∧
    Z.max 1 (base_weight r / k) = Z.max 1 (Z.min (base_weight r) (base_weight r / k))).
  { intros k Hk. pose proof (Z.div_le_upper_bound (base_weight r) k (base_weight r) ltac:(lia) ltac:(nia)).
    pose proof (Z.div_pos (base_weight r) k ltac:(lia) ltac:(lia)). lia. }
  assert (Hmk : ∀ st w, 0 ≤ w ≤ 100 → mk_RouteStateResolution st w None None None =
    Ok {| rs_health_status := st; rs_effective_weight := w; rs_cooldown_until := None; rs_warmup_stage := None;
          rs_warmup_started_at := None |}).
  { intros st w [H1%Z.leb_le H2%Z.leb_le]. unfold mk_RouteStateResolution. by rewrite H1, H2. }
  destruct (_ <=? _); [|destruct (_ <=? _); [|destruct (_ <=? _); [|by eexists]]].
  - eexists. split; [reflexivity|]. intros rs [= <-] now. split.
    + by eapply (step_probe_block r checked (route_block_cooldown_hours policy)).
    + apply route_check_None. cbn. lia.
  - case_bool_decide; [by eexists|]. destruct (Hhalf 2 ltac:(lia)) as [H1 H2]. rewrite Hmk by lia.
    eexists. split; [reflexivity|]. intros rs [= <-]. apply (action_allowed r set_degraded); [|exact H1].
    intros now. cbn. rewrite <-H2. apply Hmk. lia.
  - case_bool_decide; [by eexists|]. destruct (Hhalf 3 ltac:(lia)) as [H1 H2]. rewrite Hmk by lia.
    eexists. split; [reflexivity|]. intros rs [= <-]. apply (action_allowed r set_suspected); [|exact H1].
    intros now. cbn. rewrite <-H2. apply Hmk. lia.
Qed.

Lemma recover_allowed r checked rs :
  1 ≤ base_weight r ≤ 100 → resolve_probe_recover r checked = Ok (Some rs) → allowed r rs.
Proof.
  intros Hw Hr now. split; [by eapply step_probe_recover|]. apply route_inv_check.
  apply probe_recover_warmup_start in Hr as [_ Hr]. apply (warmup_start_inv r checked); [lia|done].
Qed.

Lemma probe_recover_resolves r checked :
  1 ≤ base_weight r ≤ 100 → ∃ o, resolve_probe_recover r checked = Ok o.
Proof.
  intros Hw. unfold resolve_probe_recover. destruct (negb _); [by eexists|]. destruct (after_now _ _); [by eexists|].
  rewrite initial_warmup_weight_stage_0, stage_weight_default by lia. cbn [mbind res_bind].
  pose proof (default_stage_weight_bounds (base_weight r) 0 ltac:(lia)).
  unfold mk_RouteStateResolution. rewrite (proj2 (Z.leb_le 0 _)), (proj2 (Z.leb_le _ 100)) by lia. by eexists.
Qed.

(** * The effect on the routes *)

(** At most the route [rid] changed, by a step of the machine, and nothing else. *)
Definition route_moved (rid : Z) (s s' : session) : Prop :=
  routes_only (db s) (db s') ∧
  (routes (db s') = routes (db s) ∨
   ∃ r r', routes (db s) !! rid = Some r ∧ route_step r r' ∧ routes (db s') = <[rid := r']> (routes (db s))).

Lemma route_moved_refl rid s : route_moved rid s s.
Proof. split; [apply routes_only_refl|by left]. Qed.

Lemma route_moved_db rid s s' s'' : db s'' = db s' → route_moved rid s s' → route_moved rid s s''.
Proof. unfold route_moved. by intros ->. Qed.

(** A state that the table accepts is written. *)
Lemma write_allowed rid r rs now s :
  routes (db s) !! rid = Some r → route_id r = rid → allowed r rs →
  ∃ s', write_state rid rs now s = (Ok (Some (apply_resolution r rs now)), s') ∧ route_moved rid s s' ∧
    routes (db s') = <[rid := apply_resolution r rs now]> (routes (db s)) ∧ effects s' = effects s.
Proof.
  intros Hr Hid Ha. destruct (Ha now) as [Hstep Hc].
  rewrite (write_state_run rid rs now s r Hr Hid), Hc. eexists. split; [reflexivity|].
  assert (E : routes (db (with_db (put routes_tbl (apply_resolution r rs now)) (Session.tick s))) =
    <[rid := apply_resolution r rs now]> (routes (db s))) by (cbn; by rewrite Hid).
  split_and!; [|exact E|done]. split; [by apply only_routes_put|]. right. exists r. eauto.
Qed.

(** The failures the newest synthetic signals of a route end with, counted up to a
    limit. *)
Definition failures_of (d : database) (rid : Z) (limit : nat) : Z :=
  leading_failures (take limit (latest_first (filter (λ p, (route_scope rid p &&
    String.eqb (ps_probe_kind p) "synthetic_vpn") = true) (rows (probe_signals d))))).

Lemma failures_run rid limit s :
  count_consecutive_route_failures rid limit (Some "synthetic_vpn") s = (Ok (failures_of (db s) rid limit), s).
Proof. reflexivity. Qed.

(** The newest signal from an entry about a route to the backend. *)
Definition mesh_of (d : database) (backend : Z) : option ProbeSignal :=
  head (latest_first (filter (λ p, mesh_scope d backend p = true) (rows (probe_signals d)))).

Lemma mesh_run backend s :
  ∃ s', _mesh_path_healthy_for_backend backend s =
    (Ok (mesh_fresh (mesh_of (db s) backend) (clock s (ticks s))), s') ∧ db s' = db s ∧ effects s' = effects s.
Proof.
  unfold _mesh_path_healthy_for_backend, mbind at 1, M_bind at 1, get_latest_mesh_for_backend, read, gets.
  fold (mesh_of (db s) backend). destruct (mesh_of (db s) backend) as [m|]; [|by exists s].
  destruct (is_reachable m) eqn:Hm; cbn [negb]; [|exists s; split; [|done]; cbn; by rewrite Hm].
  unfold mbind, M_bind, utcnow. fold (Session.tick s). by eexists.
Qed.

(** Whether the mesh path to a route's backend is known to work. *)
Definition shielded (d : database) (now : Z) (r : Route) : bool :=
  match route_entry_node_id r with None => false | Some _ => mesh_fresh (mesh_of d (route_node_id r)) now end.

Lemma mesh_route_run r s :
  ∃ s', _mesh_path_healthy_for_route r s = (Ok (shielded (db s) (clock s (ticks s)) r), s') ∧
    db s' = db s ∧ effects s' = effects s.
Proof.
  unfold _mesh_path_healthy_for_route, shielded. destruct (route_entry_node_id r); [apply mesh_run|by exists s].
Qed.

Section Verdicts.
Context (cfg : ProbeConfig).

(** What a failure makes of the row of a route. *)
Definition failed_row (policy : ProbePolicy) (d : database) (r : Route) (checked seen now : Z) : Route :=
if bool_decide (health_status r = blocked) then r
else if shielded d seen r then r
else match probe_verdict policy r (failures_of d (route_id r) (failure_limit policy)) checked with
     | Ok (Some rs) => apply_resolution r rs now
     | _ => r
     end.

Lemma degrade_run policy r checked s :
routes (db s) !! route_id r = Some r → 1 ≤ base_weight r ≤ 100 →
∃ s' now, _degrade_route_after_probe cfg policy r checked s = (Ok tt, s') ∧ route_moved (route_id r) s s' ∧
  routes (db s') = <[route_id r := failed_row policy (db s) r checked (clock s (ticks s)) now]> (routes (db s)).
Proof using Type.
intros Hr Hw. unfold _degrade_route_after_probe, failed_row.
destruct (bool_decide_reflect (health_status r = blocked)) as [Hb|Hb].
{ exists s, 0. split_and!; [done|apply route_moved_refl|by rewrite insert_id]. }
destruct (mesh_route_run r s) as (s1 & Hrun1 & Hd1 & _). unfold mbind at 1, M_bind at 1. rewrite Hrun1.
destruct (shielded (db s) (clock s (ticks s)) r).
{ exists s1, 0. split_and!; [done| |by rewrite Hd1, insert_id]. eapply route_moved_db; [exact Hd1|apply route_moved_refl]. }
unfold mbind at 1, M_bind at 1. rewrite failures_run, Hd1.
set (k := failures_of _ _ _).
destruct (verdict_allowed policy r k checked Hb Hw) as (o & Ho & Hall). rewrite Ho.
unfold mbind at 1, M_bind at 1. cbn [lift]. unfold mret at 1, M_ret at 1.
destruct o as [rs|].
2:{ exists s1, 0. split_and!; [done| |by rewrite Hd1, insert_id]. eapply route_moved_db; [exact Hd1|apply route_moved_refl]. }
unfold mbind at 1, M_bind at 1, utcnow. fold (Session.tick s1). set (now := clock s1 (ticks s1)).
destruct (write_allowed (route_id r) r rs now (Session.tick s1)) as (s2 & Hrun2 & Hm2 & Hr2 & _);
  [cbn; by rewrite Hd1|done|by apply Hall|].
unfold mbind at 1, M_bind at 1. rewrite Hrun2.
assert (Hfin : ∃ s3, when (bool_decide (rs_health_status rs = blocked))
  (_emit_route_blocked_alert r ;;
   when (pc_has_notifications cfg) (emit (PublishRouteBlocked (route_id r) (display_name r) (route_node_id r) k))) s2 =
  (Ok tt, s3) ∧ db s3 = db s2).
{ unfold when. destruct (bool_decide _); [|by eexists]. unfold mbind, M_bind.
  destruct (pc_has_notifications cfg); by eexists. }
destruct Hfin as (s3 & Hrun3 & Hd3). exists s3, now. split; [exact Hrun3|].
cbn [db Session.tick] in Hm2, Hr2. rewrite Hd1 in Hr2. split; [|by rewrite Hd3].
eapply route_moved_db; [exact Hd3|]. unfold route_moved in *. cbn [db Session.tick] in Hm2. by rewrite Hd1 in Hm2.
Qed.

(** An entry that is known and does not serve. *)
Definition entry_down (d : database) (r : Route) : bool :=
match route_entry_node_id r ≫= λ e, nodes d !! e with
| Some n => is_draining n || negb (is_enabled n) || negb (node_is_active n)
| None => false
end.

Lemma entry_unhealthy_run r s : _route_entry_is_unhealthy r s = (Ok (entry_down (db s) r), s).
Proof using Type.
unfold _route_entry_is_unhealthy, entry_down. destruct (route_entry_node_id r) as [e|]; [|done].
unfold mbind, M_bind, get_by_id, read, gets. cbn. by destruct (nodes (db s) !! e).
Qed.

(** What a success makes of the row of a route. *)
Definition recovered_row (d : database) (r : Route) (checked now : Z) : Route :=
let rewrite_ rs := apply_resolution r rs now in
match health_status r with
| suspected | degraded =>
    rewrite_ {| rs_health_status := healthy; rs_effective_weight := base_weight r; rs_cooldown_until := None;
                rs_warmup_stage := None; rs_warmup_started_at := None |}
| blocked => if entry_down d r then r
             else match resolve_probe_recover r checked with Ok (Some rs) => rewrite_ rs | _ => r end
| _ => r
end.

Lemma recover_healthy_run r s :
routes (db s) !! route_id r = Some r → 1 ≤ base_weight r ≤ 100 →
let rs := {| rs_health_status := healthy; rs_effective_weight := base_weight r; rs_cooldown_until := None;
             rs_warmup_stage := None; rs_warmup_started_at := None |} in
∃ s' now, (now ← utcnow;
   next_state ← lift (mk_RouteStateResolution healthy (base_weight r) None None None);
   write_state (route_id r) next_state now ;; mret tt) s = (Ok tt, s') ∧ route_moved (route_id r) s s' ∧
  routes (db s') = <[route_id r := apply_resolution r rs now]> (routes (db s)).
Proof using Type.
intros Hr Hw rs. unfold mbind at 1, M_bind at 1, utcnow. fold (Session.tick s). set (now := clock s (ticks s)).
assert (Hmk : mk_RouteStateResolution healthy (base_weight r) None None None = Ok rs).
{ destruct Hw as [H1 H2]. unfold mk_RouteStateResolution. rewrite (proj2 (Z.leb_le 0 _)) by lia.
  by rewrite (proj2 (Z.leb_le _ 100)). }
rewrite Hmk. unfold mbind at 1, M_bind at 1. cbn [lift]. unfold mret at 1, M_ret at 1.
destruct (write_allowed (route_id r) r rs now (Session.tick s)) as (s2 & Hrun2 & Hm2 & Hr2 & _); [done|done| |].
{ apply (action_allowed r set_healthy); [done|cbn; lia]. }
unfold mbind, M_bind. rewrite Hrun2. by exists s2, now.
Qed.

Lemma recover_run r checked s :
routes (db s) !! route_id r = Some r → 1 ≤ base_weight r ≤ 100 →
∃ s' now, _recover_route_after_probe cfg r checked s = (Ok tt, s') ∧ route_moved (route_id r) s s' ∧
  routes (db s') = <[route_id r := recovered_row (db s) r checked now]> (routes (db s)).
Proof using Type.
intros Hr Hw. unfold _recover_route_after_probe, recovered_row.
destruct (health_status r) eqn:Hh;
  try (exists s, 0; split_and!; [done|apply route_moved_refl|by rewrite insert_id]);
  try (by apply recover_healthy_run).
unfold mbind at 1, M_bind at 1. rewrite entry_unhealthy_run.
destruct (entry_down (db s) r); [exists s, 0; split_and!; [done|apply route_moved_refl|by rewrite insert_id]|].
destruct (probe_recover_resolves r checked Hw) as (o & Ho). rewrite Ho.
unfold mbind at 1, M_bind at 1. cbn [lift]. unfold mret at 1, M_ret at 1.
destruct o as [rs|]; [|exists s, 0; split_and!; [done|apply route_moved_refl|by rewrite insert_id]].
unfold mbind at 1, M_bind at 1, utcnow. fold (Session.tick s). set (now := clock s (ticks s)).
destruct (write_allowed (route_id r) r rs now (Session.tick s)) as (s2 & Hrun2 & Hm2 & Hr2 & _);
  [done|done|by eapply recover_allowed|].
unfold mbind, M_bind. rewrite Hrun2. unfold when.
destruct (pc_has_notifications cfg); (eexists _, now; split_and!; [reflexivity|exact Hm2|exact Hr2]).
Qed.
End Verdicts.

Section Policy.
Context (cfg : ProbeConfig) (signal : ProbeSignal) (policy : ProbePolicy).

(** The route a signal is about, when the policy acts on it. *)
Definition judged (d : database) (r : Route) : Prop :=
auto_route_health_enabled policy = true ∧ ps_probe_kind signal = "synthetic_vpn" ∧
ps_route_id signal = Some (route_id r) ∧ routes d !! route_id r = Some r ∧ route_is_active r = true.

Lemma judged_run r s :
probe_policy_of (db s) = Some policy → judged (db s) r →
_apply_route_health_policy cfg signal s =
(if is_reachable signal then _recover_route_after_probe cfg r (checked_at signal)
 else _degrade_route_after_probe cfg policy r (checked_at signal)) s.
Proof using Type.
intros Hp (He & Hk & Hrid & Hr & Ha). unfold _apply_route_health_policy, mbind at 1, M_bind at 1.
rewrite (probe_policy_run s policy Hp), He, Hk, Hrid. cbn [negb]. rewrite String.eqb_refl. cbn [negb].
unfold mbind at 1, M_bind at 1, get_by_id, read, gets. cbn [t_rows routes_tbl]. rewrite Hr, Ha. cbn [negb].
by destruct (is_reachable signal).
Qed.

(** A signal about no such route changes nothing. *)
Lemma unjudged_run s :
probe_policy_of (db s) = Some policy → keyed routes_tbl (db s) → (∀ r, ¬ judged (db s) r) →
_apply_route_health_policy cfg signal s = (Ok tt, s).
Proof using Type.
intros Hp Hkey Hno. unfold _apply_route_health_policy, mbind at 1, M_bind at 1. rewrite (probe_policy_run s policy Hp).
destruct (auto_route_health_enabled policy) eqn:He; [|done]. cbn [negb].
destruct (String.eqb_spec (ps_probe_kind signal) "synthetic_vpn") as [Hk|]; [|done]. cbn [negb].
destruct (ps_route_id signal) as [rid|] eqn:Hrid; [|done].
unfold mbind at 1, M_bind at 1, get_by_id, read, gets. cbn [t_rows routes_tbl].
destruct (routes (db s) !! rid) as [r|] eqn:Hr; [|done].
destruct (route_is_active r) eqn:Ha; [|done]. destruct (Hno r).
pose proof (Hkey rid r Hr) as E. cbn in E. split_and!; [done|done|by rewrite E|by rewrite E|done].
Qed.
End Policy.

(** C21: probe reports move routes along the health machine: for well formed routes and a
    reported route, if it exists, of base weight at least 1, whatever the report the policy
    returns, changes at most the row of the reported route, and by a step of the
    machine (a block, a recovery after the cooldown, or one of the administrator's
    health actions). *)
Theorem probe_policy_refines (cfg : ProbeConfig) (signal : ProbeSignal) (policy : ProbePolicy) (s : session) :
  probe_policy_of (db s) = Some policy → routes_wf (db s) →
  (∀ rid r, ps_route_id signal = Some rid → routes (db s) !! rid = Some r → 1 ≤ base_weight r) →
  ∃ s', _apply_route_health_policy cfg signal s = (Ok tt, s') ∧ routes_only (db s) (db s') ∧
    ∀ i r, routes (db s) !! i = Some r → ∃ r', routes (db s') !! i = Some r' ∧
      (r' = r ∨ ps_route_id signal = Some i ∧ route_step r r').
Proof.
  intros Hp [Hkey Hwf] Hb.
  assert (Hcase : (∃ r, judged signal policy (db s) r) ∨ ∀ r, ¬ judged signal policy (db s) r).
  { unfold judged. destruct (ps_route_id signal) as [rid|]; [|by right; intros r (_ & _ & ? & _)].
    destruct (routes (db s) !! rid) as [r|] eqn:Hr.
    - pose proof (Hkey rid r Hr) as E. cbn in E. subst rid.
      destruct (decide (auto_route_health_enabled policy = true)); [|by right; intros ? (? & _)].
      destruct (decide (ps_probe_kind signal = "synthetic_vpn")); [|by right; intros ? (_ & ? & _)].
      destruct (decide (route_is_active r = true)); [left; by exists r|].
      right. intros r2 (_ & _ & [= E] & Hr2 & ?). rewrite <-E in Hr2. by simplify_eq.
    - right. intros r (_ & _ & [= ->] & Hr2 & _). by rewrite Hr in Hr2. }
  destruct Hcase as [(r & Hj)|Hno].
  2:{ exists s. split_and!; [by apply (unjudged_run cfg signal policy)|apply routes_only_refl|eauto]. }
  rewrite (judged_run cfg signal policy r s Hp Hj). destruct Hj as (_ & _ & Hrid & Hr & _).
  pose proof (Hb _ r Hrid Hr). destruct (Hwf _ r Hr) as (_ & Hw & _).
  assert (Hm : ∃ s', (if is_reachable signal then _recover_route_after_probe cfg r (checked_at signal)
     else _degrade_route_after_probe cfg policy r (checked_at signal)) s = (Ok tt, s') ∧ route_moved (route_id r) s s').
  { destruct (is_reachable signal).
    - destruct (recover_run cfg r (checked_at signal) s Hr ltac:(lia)) as (s' & now & ? & ? & _). by exists s'.
    - destruct (degrade_run cfg policy r (checked_at signal) s Hr ltac:(lia)) as (s' & now & ? & ? & _). by exists s'. }
  destruct Hm as (s' & Hrun & Honly & Hmove). exists s'. split_and!; [done|done|]. intros i r0 Hi.
  destruct Hmove as [->|(r1 & r' & Hr1 & Hstep & ->)]; [eauto|].
  rewrite lookup_insert. case_decide as E; [subst i|eauto]. simplify_eq. eauto 6.
Qed.

(** Failures escalate at the policy's thresholds: a failing synthetic report on
    an active route that is not blocked and whose mesh path is not known to work leaves
    it blocked with no weight until the cooldown, degraded, suspected or as it was,
    according to how many failures its newest signals end with. *)
Theorem failing_probes_escalate (cfg : ProbeConfig) (signal : ProbeSignal) (policy : ProbePolicy) (r : Route)
    (s : session) :
  probe_policy_of (db s) = Some policy → judged signal policy (db s) r → is_reachable signal = false →
  1 ≤ base_weight r ≤ 100 → health_status r ≠ blocked → shielded (db s) (clock s (ticks s)) r = false →
  let k := failures_of (db s) (route_id r) (failure_limit policy) in
  ∃ s' r', _apply_route_health_policy cfg signal s = (Ok tt, s') ∧ routes_only (db s) (db s') ∧
    routes (db s') = <[route_id r := r']> (routes (db s)) ∧
    (if route_block_after_failures policy <=? k then
       health_status r' = blocked ∧ effective_weight r' = 0 ∧
       cooldown_until r' = cooldown_deadline (checked_at signal) (route_block_cooldown_hours policy)
     else if route_degraded_after_failures policy <=? k then
       health_status r' = degraded ∧ (health_status r ≠ degraded → effective_weight r' = Z.max 1 (base_weight r / 2))
     else if route_suspected_after_failures policy <=? k then
       health_status r' = suspected ∧ (health_status r ≠ suspected → effective_weight r' = Z.max 1 (base_weight r / 3))
     else r' = r).
Proof.
  intros Hp Hj Hbad Hw Hb Hsh k. rewrite (judged_run cfg signal policy r s Hp Hj), Hbad.
  destruct Hj as (_ & _ & _ & Hr & _).
  destruct (degrade_run cfg policy r (checked_at signal) s Hr Hw) as (s' & now & Hrun & [Honly _] & Hr').
  exists s', (failed_row policy (db s) r (checked_at signal) (clock s (ticks s)) now). split_and!; [done..|].
  unfold failed_row. rewrite bool_decide_false, Hsh by done. fold k. unfold probe_verdict.
  assert (Hk : ∀ d, 2 ≤ d → 0 ≤ Z.max 1 (base_weight r / d) ≤ 100).
  { intros d Hd. pose proof (Z.div_le_upper_bound (base_weight r) d (base_weight r) ltac:(lia) ltac:(nia)). lia. }
  destruct (_ <=? k); [done|].
  destruct (_ <=? k).
  { case_bool_decide; [done|]. rewrite mk_RouteStateResolution_ok by (apply Hk; lia). done. }
  destruct (_ <=? k); [|done].
  case_bool_decide; [done|]. rewrite mk_RouteStateResolution_ok by (apply Hk; lia). done.
Qed.

(** While an entry's own probe of a backend succeeded within the last ten
    minutes, failing reports on a route behind an entry change nothing. *)
Theorem healthy_mesh_shields_route (cfg : ProbeConfig) (signal : ProbeSignal) (policy : ProbePolicy) (r : Route)
    (s : session) :
  probe_policy_of (db s) = Some policy → judged signal policy (db s) r → is_reachable signal = false →
  shielded (db s) (clock s (ticks s)) r = true →
  ∃ s', _apply_route_health_policy cfg signal s = (Ok tt, s') ∧ db s' = db s ∧ effects s' = effects s.
Proof.
  intros Hp Hj Hbad Hsh. rewrite (judged_run cfg signal policy r s Hp Hj), Hbad.
  unfold _degrade_route_after_probe. case_bool_decide; [by exists s|].
  destruct (mesh_route_run r s) as (s1 & Hrun1 & Hd1 & He1). unfold mbind at 1, M_bind at 1. rewrite Hrun1, Hsh.
  by exists s1.
Qed.

(** * Reports that come late *)

(** The first row in descending order of a key has the greatest. *)
Lemma order_by_desc_head {R} (key : R → Z) l x y :
  head (order_by_desc key l) = Some x → y ∈ l → key y ≤ key x.
Proof.
  intros Hx Hy. assert (Hs : StronglySorted (key_le (λ r, - key r)) (order_by_desc key l)).
  { apply Sorted_StronglySorted; [apply _|]. apply Sorted_merge_sort, _. }
  unfold order_by_desc in *. rewrite <-(merge_sort_Permutation (key_le (λ r, - key r)) l) in Hy.
  destruct (merge_sort _ l) as [|z m]; [done|]. injection Hx as ->.
  apply elem_of_cons in Hy as [->|Hy]; [done|]. apply StronglySorted_inv in Hs as [_ Hall].
  rewrite Forall_forall in Hall. specialize (Hall y Hy). unfold key_le in Hall. lia.
Qed.

Lemma latest_first_head l x y : head (latest_first l) = Some x → y ∈ l → checked_at y ≤ checked_at x.
Proof.
  intros Hx Hy. eapply order_by_desc_head; [exact Hx|]. unfold order_by_desc. by rewrite merge_sort_Permutation.
Qed.

(** The signals a report is compared with. *)
Definition report_scope (payload : ProbeReportIn) (p : ProbeSignal) : bool :=
  match pri_route_id payload with
  | Some rid => route_scope rid p
  | None => node_scope (pri_node_id payload) p
  end && from_source (Some (pri_source payload)) p.

Lemma previous_run payload s :
  _get_previous_signal payload s =
  (Ok (head (take 1 (latest_first (filter (λ p, report_scope payload p = true) (rows (probe_signals (db s))))))), s).
Proof.
  unfold _get_previous_signal, report_scope. by destruct (pri_route_id payload).
Qed.

(** A report older than one already stored of the same source and route (or
    node) is kept as a signal and has no other effect: no route changes, no placement is
    queued again, nothing is published. *)
Theorem stale_report_only_stored (cfg : ProbeConfig) (payload : ProbeReportIn) (n : VpnNode) (t : Z)
    (tp : option TransportProfile) (target : option ProbeTargetOut) (i : Z) (p : ProbeSignal) (s : session) :
  nodes (db s) !! pri_node_id payload = Some n → pri_checked_at payload = Some t →
  report_target cfg payload s = (Ok (tp, target), s) →
  let row := new_signal payload t tp target (next_uuid s) (clock s (ticks s)) in
  probe_signals (db s) !! next_uuid s = None → t_check probe_signals_tbl (db s) None row = None →
  keyed probe_signals_tbl (db s) →
  probe_signals (db s) !! i = Some p → report_scope payload p = true → t < checked_at p →
  ∃ s', report cfg payload s = (Ok row, s') ∧ effects s' = effects s ∧
    db s' = set_probe_signals (<[ps_id row := row]> (probe_signals (db s))) (db s).
Proof.
  intros Hn Ht Htgt row Hfresh Hc Hkey Hp Hscope Hlate. unfold report.
  unfold mbind at 1, M_bind at 1, get_by_id, read, gets. cbn [t_rows nodes_tbl]. rewrite Hn, Ht.
  unfold mbind at 1, M_bind at 1. unfold mret at 1, M_ret at 1. unfold mbind at 1, M_bind at 1. rewrite Htgt.
  unfold mbind at 1, M_bind at 1. rewrite previous_run.
  unfold mbind at 1, M_bind at 1. rewrite create_run. cbv zeta. fold row.
  change (t_id probe_signals_tbl row) with (next_uuid s). cbn [t_rows probe_signals_tbl]. rewrite Hfresh, Hc.
  set (s1 := with_db _ _). unfold mbind at 1, M_bind at 1. rewrite previous_run.
  assert (Hrows : probe_signals (db s1) = <[next_uuid s := row]> (probe_signals (db s))) by done.
  set (l := filter _ _).
  assert (Hpin : p ∈ l).
  { unfold l. rewrite list_elem_of_filter, elem_of_rows. split; [done|]. exists i.
    rewrite Hrows, lookup_insert_ne; [done|]. congruence. }
  assert (Hnot : match head (take 1 (latest_first l)) with Some x => ps_id x =? ps_id row | None => false end = false).
  { destruct (latest_first l) as [|x m] eqn:El; [done|]. cbn. apply Z.eqb_neq. intros E.
    assert (Hx : checked_at p ≤ checked_at x) by (eapply latest_first_head; [by rewrite El|done]).
    assert (Hxl : x ∈ l).
    { assert (Hin : x ∈ latest_first l) by (rewrite El; left). unfold latest_first, order_by_desc in Hin.
      by rewrite !merge_sort_Permutation in Hin. }
    unfold l in Hxl. rewrite list_elem_of_filter, elem_of_rows in Hxl. destruct Hxl as (_ & j & Hj).
    rewrite Hrows in Hj. destruct (decide (j = next_uuid s)) as [->|Hne].
    - rewrite lookup_insert_eq in Hj. injection Hj as <-. cbn in Hx. lia.
    - rewrite lookup_insert_ne in Hj by done. pose proof (Hkey j x Hj) as Ej. cbn in Ej, E. congruence. }
  rewrite Hnot. exists s1. split_and!; [done|done|]. unfold s1, put. done.
Qed.

(** When a backend is drained on probe failures. *)


(** The signals a backend is judged by, newest first. *)
Definition backend_signals (d : database) (nid : Z) (source : option string) : list ProbeSignal :=
  latest_first (filter (λ p, (backend_scope nid p && from_source source p) = true) (rows (probe_signals d))).

(** What the policy asks of a backend's signals: the newest is a failure of the
    given age, the newest ones are all failures, and the mesh path is not known to
    work. *)
Definition failing_backend (d : database) (nid : Z) (source : option string) (age k t1 t2 : Z) : Prop :=
  (∃ p, head (backend_signals d nid source) = Some p ∧ is_reachable p = false ∧ t1 - checked_at p ≤ age * second) ∧
  Forall (λ p, is_reachable p = false) (take (Z.to_nat k) (backend_signals d nid source)) ∧
  (Z.to_nat k ≤ length (backend_signals d nid source))%nat ∧
  mesh_fresh (mesh_of d nid) t2 = false.

Lemma head_take_1 {A} (l : list A) : head (take 1 l) = head l.
Proof. by destruct l. Qed.

Lemma check_consecutive_ok nid source k s u s1 :
  let l := backend_signals (db s) nid source in
  check_consecutive nid source k s = (Ok u, s1) → 1 < k →
  s1 = s ∧ (Z.to_nat k ≤ length l)%nat ∧ Forall (λ p, is_reachable p = false) (take (Z.to_nat k) l).
Proof.
  intros l H Hk. revert H. unfold check_consecutive, when. rewrite (proj2 (Z.ltb_lt 1 k) Hk).
  unfold list_recent_for_backend_node, list_signals, mbind, M_bind, select_where, read, gets, mret, M_ret.
  cbn [t_rows probe_signals_tbl]. fold (backend_signals (db s) nid source). fold l.
  set (m := Z.to_nat (Z.max 20 (k * 3))).
  destruct (Z.ltb_spec (leading_failures (take m l)) k) as [|Hge]; [done|]. intros [= _ <-].
  destruct (proj1 (leading_failures_ge (take m l) (Z.to_nat k)) ltac:(lia)) as [H1 H2].
  rewrite length_take in H1. rewrite take_take, Nat.min_l in H2 by lia. split_and!; [done|lia|done].
Qed.

Lemma one_failure k (l : list ProbeSignal) p :
  k ≤ 1 → head l = Some p → is_reachable p = false →
  (Z.to_nat k ≤ length l)%nat ∧ Forall (λ p, is_reachable p = false) (take (Z.to_nat k) l).
Proof.
  intros Hk Hp Hr. destruct l as [|p' l]; [done|]. injection Hp as ->.
  assert (Z.to_nat k = 0 ∨ Z.to_nat k = 1)%nat as [->| ->] by lia; cbn; (split; [lia|]); repeat constructor; done.
Qed.

(** The mesh check at the end. *)
Lemma mesh_check_ok (m : option ProbeSignal) (latest o : option ProbeSignal) s s1 :
  match m with
  | Some m =>
      if is_reachable m then
        now ← utcnow;
        raise_if (now - checked_at m <=? MESH_HEALTHY_MAX_AGE_SEC * second)
          (HTTPException 409 "User-path (entry→mesh→backend) probe healthy; skipping drain") ;;
        mret latest
      else mret latest
  | None => mret latest
  end s = (Ok o, s1) →
  db s1 = db s ∧ o = latest ∧ mesh_fresh m (clock s (ticks s)) = false.
Proof.
  destruct m as [m|]; [|by intros [= <- <-]]. cbn [mesh_fresh].
  destruct (is_reachable m); [|by intros [= <- <-]].
  unfold mbind at 1, M_bind at 1, utcnow. fold (Session.tick s). unfold mbind, M_bind.
  destruct (_ <=? _); [done|]. by intros [= <- <-].
Qed.

(** The check of a node's signals, when it lets a drain pass. *)
Lemma validate_ok nid source age k s o s1 :
  _validate_probe_failure_for_node nid source true age k s = (Ok o, s1) →
  db s1 = db s ∧ o = head (backend_signals (db s) nid source) ∧
  failing_backend (db s) nid source age k (clock s (ticks s)) (clock s (S (ticks s))).
Proof.
  unfold _validate_probe_failure_for_node, mbind at 1, M_bind at 1.
  assert (Hl : get_latest_for_backend_node nid source s = (Ok (head (backend_signals (db s) nid source)), s)).
  { unfold get_latest_for_backend_node, list_signals, mbind, M_bind, select_where, read, gets, mret, M_ret.
    by rewrite head_take_1. }
  rewrite Hl. cbn [negb]. unfold failing_backend. set (l := backend_signals (db s) nid source).
  destruct (head l) as [p|] eqn:Hp; [|done].
  unfold mbind at 1, M_bind at 1. destruct (is_reachable p) eqn:Hr; [done|]. cbn [raise_if]. unfold mret at 1, M_ret at 1.
  unfold mbind at 1, M_bind at 1, utcnow at 1. fold (Session.tick s).
  unfold mbind at 1, M_bind at 1. destruct (Z.ltb_spec (age * second) (clock s (ticks s) - checked_at p)) as [|Hage]; [done|].
  cbn [raise_if]. unfold mret at 1, M_ret at 1. unfold mbind at 1, M_bind at 1.
  destruct (check_consecutive nid source k (Session.tick s)) as [[u|e] s2] eqn:Hw; [|done].
  assert (Hk : s2 = Session.tick s ∧ (Z.to_nat k ≤ length l)%nat ∧
    Forall (λ p, is_reachable p = false) (take (Z.to_nat k) l)).
  { destruct (Z.ltb_spec 1 k) as [Hk|Hk]; [by apply (check_consecutive_ok _ _ _ _ _ _ Hw)|].
    split; [|by apply (one_failure k l p)].
    revert Hw. unfold check_consecutive, when. rewrite (proj2 (Z.ltb_ge 1 k)) by lia. by intros [= _ <-]. }
  destruct Hk as (-> & Hlen & Hall).
  unfold mbind at 1, M_bind at 1, get_latest_mesh_for_backend, read, gets. cbn [db Session.tick].
  fold (mesh_of (db s) nid). intros (Hd & -> & Hm)%mesh_check_ok. split_and!; [done|done|by exists p|done..].
Qed.

(** Nothing is written and nothing is published. *)
Definition quiet (s s' : session) : Prop := db s' = db s ∧ effects s' = effects s.
#[export] Instance quiet_preorder : PreOrder quiet.
Proof. unfold quiet. split; [done|]. intros s1 s2 s3 [] []. split; congruence. Qed.

Lemma quiet_utcnow : keeps quiet utcnow.
Proof. intros s. done. Qed.
Lemma quiet_read {A} (f : database → A) : keeps quiet (read f).
Proof. apply keeps_gets, _. Qed.
Lemma quiet_select {R} (t : table R) P : keeps quiet (select_where t P).
Proof. apply keeps_gets, _. Qed.
#[export] Hint Resolve quiet_utcnow quiet_read quiet_select : keeps.

Lemma validate_quiet nid source b age k : keeps quiet (_validate_probe_failure_for_node nid source b age k).
Proof.
  unfold _validate_probe_failure_for_node, get_latest_for_backend_node, check_consecutive,
    list_recent_for_backend_node, list_signals, get_latest_mesh_for_backend, conflict. keeps_tac.
Qed.

Section AutoDrain.
Context (command_prefix : string) (reality_port : Z).

(** An automatic drain is justified: when failures are required, a node for which
    the run reports anything but a skip is active and enabled, its newest signals are
    failures, as many in a row as the policy asks for and the last one recent, and no entry
    saw it healthy within ten minutes. *)
Theorem auto_drain_justified (payload : ProbeAutoDrainMigrateIn) (n : VpnNode)
  (it : ProbeAutoDrainMigrateItemOut) (s s' : session) :
pai_require_recent_failure payload = true →
auto_drain_node command_prefix reality_port payload n s = (Ok it, s') → pao_action it ≠ skipped →
node_is_active n = true ∧ is_enabled n = true ∧
(is_draining n = true → pai_include_already_draining payload = true) ∧
failing_backend (db s) (node_id n) (pai_source payload) (pai_max_probe_age_sec payload)
  (pai_min_consecutive_failures payload) (clock s (ticks s)) (clock s (S (ticks s))).
Proof using Type.
intros Hreq. unfold auto_drain_node. rewrite Hreq.
destruct (node_is_active n); [|by intros [= <- _]]. destruct (is_enabled n); [|by intros [= <- _]]. cbn [negb orb].
destruct (is_draining n && negb (pai_include_already_draining payload)) eqn:Hd; [by intros [= <- _]|].
unfold mbind at 1, M_bind at 1, catch_http at 1, catch at 1. unfold mbind at 1, M_bind at 1.
destruct (_validate_probe_failure_for_node _ _ _ _ _ s) as [[o|e] s1] eqn:Hv.
- intros _ _. apply validate_ok in Hv as (_ & _ & Hf). split_and!; [done|done| |exact Hf].
  intros Hdr. rewrite Hdr in Hd. by destruct (pai_include_already_draining payload).
- destruct e; try done. by intros [= <- _].
Qed.

Lemma dry_node payload n s it s1 :
pai_dry_run payload = true → auto_drain_node command_prefix reality_port payload n s = (Ok it, s1) →
quiet s s1 ∧ is_migrated it = false.
Proof using Type.
intros Hdry. unfold auto_drain_node. rewrite Hdry.
destruct (_ || _); [by intros [= <- <-]|]. destruct (_ && _); [by intros [= <- <-]|].
pose proof (validate_quiet (node_id n) (pai_source payload) (pai_require_recent_failure payload)
  (pai_max_probe_age_sec payload) (pai_min_consecutive_failures payload) s) as Hq.
unfold mbind at 1, M_bind at 1, catch_http at 1, catch at 1. unfold mbind at 1, M_bind at 1.
destruct (_validate_probe_failure_for_node _ _ _ _ _ s) as [[o|e] s2]; cbn [snd] in Hq; [by intros [= <- <-]|].
destruct e; try done. by intros [= <- <-].
Qed.

Lemma dry_nodes payload l s its s1 :
pai_dry_run payload = true → auto_drain_nodes command_prefix reality_port payload l s = (Ok its, s1) →
quiet s s1 ∧ Forall (λ it, is_migrated it = false) its.
Proof using Type.
intros Hdry. revert s its. induction l as [|n l IH]; intros s its; cbn [auto_drain_nodes]; [by intros [= <- <-]|].
unfold mbind, M_bind. destruct (auto_drain_node _ _ _ n s) as [[it|e] s2] eqn:Hn; [|done].
destruct (auto_drain_nodes _ _ _ l s2) as [[its'|e] s3] eqn:Hl; [|done]. intros [= <- <-].
destruct (dry_node payload n s it s2 Hdry Hn) as [Hq Hm]. destruct (IH s2 its' Hl) as [Hq2 Hm2].
split; [by transitivity s2|by constructor].
Qed.

(** A dry run changes nothing, whatever it reports. *)
Theorem dry_run_reads_only (payload : ProbeAutoDrainMigrateIn) (out : ProbeAutoDrainMigrateOut) (s s' : session) :
pai_dry_run payload = true →
auto_drain_and_migrate_backends command_prefix reality_port payload s = (Ok out, s') →
db s' = db s ∧ effects s' = effects s ∧ pad_migrated out = 0.
Proof using Type.
intros Hdry. unfold auto_drain_and_migrate_backends, mbind at 1, M_bind at 1.
assert (Hq0 : keeps quiet (_resolve_auto_nodes payload)).
{ unfold _resolve_auto_nodes, list_all_nodes, list_nodes_by_ids. keeps_tac. }
specialize (Hq0 s). destruct (_resolve_auto_nodes payload s) as [[l|e] s1]; [|done]. cbn [snd] in Hq0.
unfold mbind, M_bind. destruct (auto_drain_nodes _ _ _ _ s1) as [[its|e] s2] eqn:Hl; [|done].
destruct (dry_nodes payload _ s1 its s2 Hdry Hl) as [Hq Hm]. intros [= <- <-].
assert (Hs : quiet s s2) by (by transitivity s1). destruct Hs as [Hd He]. split_and!; [done|done|]. cbn.
assert (filter (λ it, is_migrated it = true) its = []) as ->; [|done].
clear -Hm. induction Hm as [|it its Hi Hm IH]; [done|]. rewrite filter_cons_False by congruence. done.
Qed.

(** A policy the administrator may set stops the reconciler: with more than 200
    nodes per tick or more than 10 failures asked for, which the schema of the policy
    admits, every tick raises before it looks at a node. *)
Theorem oversized_policy_stops_auto_drain (policy : ProbePolicy) (s : session) :
probe_policy_of (db s) = Some policy →
200 < auto_drain_max_nodes policy ∨ 10 < auto_drain_min_consecutive_failures policy →
auto_drain_tick command_prefix reality_port s = (Raise (ValidationError "ProbeAutoDrainMigrateIn"), s).
Proof using Type.
intros Hp Hbad. unfold auto_drain_tick, mbind at 1, M_bind at 1. rewrite (probe_policy_run s policy Hp).
unfold mbind, M_bind, _build_payload. cbv zeta.
assert (E : ∀ p, pai_max_nodes p = Z.min 500 (Z.max 1 (auto_drain_max_nodes policy)) →
  pai_min_consecutive_failures p = Z.max 1 (auto_drain_min_consecutive_failures policy) →
  ProbeAutoDrainMigrateIn_valid p = false).
{ intros p H1 H2. unfold ProbeAutoDrainMigrateIn_valid. apply not_true_iff_false. rewrite !andb_true_iff, !Z.leb_le. lia. }
rewrite E by done. done.
Qed.
End AutoDrain.
