(* ===== verification/NodeProps.v ===== *)
(** Properties of the node service: the draining of a node by its heartbeats as a
    refinement of a counter machine, what an administrator's drain is worth, the
    rotation of agent tokens and the claims of a bootstrap. *)

From stdpp Require Import base gmap strings list sorting.
From S2P Require Import Prelude Decimal Errors RouteModels BillingModels FleetModels Session Uuid NodeDisplay WgAllocator Tables FleetTables Routing Placements Routes RouteProps ProbeRepo AgentDetails Entry Nodes PlacementProps PlacementCommands EntryProps.
Local Open Scope Z_scope.


(** * The counter machine *)

(** What the draining of a node depends on: whether it drains and by whom, the
    counters and the reason of its agent's details. *)
Record hb_state := {
  ha_draining : bool;
  ha_source : option string;
  ha_unhealthy : Z;
  ha_healthy : Z;
  ha_reason : option string;
}.

(** One heartbeat. [drain_at] unhealthy heartbeats in a row drain the node,
    [undrain_at] healthy ones in a row restore it unless an administrator or another
    component drained it. *)
Definition hb_step (drain_at undrain_at : Z) (serving healthy_ : bool) (x : hb_state) : hb_state :=
  let u := if healthy_ then 0 else ha_unhealthy x + 1 in
  let h := if healthy_ then ha_healthy x + 1 else 0 in
  if negb healthy_ && negb (ha_draining x) && (drain_at <=? u) then
    {| ha_draining := true; ha_source := Some "auto_heal"; ha_unhealthy := u; ha_healthy := h;
       ha_reason := Some DRAIN_REASON_UNHEALTHY_HEARTBEAT |}
  else if healthy_ && ha_draining x && serving && negb (sql_eqb (ha_source x) (Some "admin")) &&
          match ha_reason x with
          | None => true
          | Some r => String.eqb r DRAIN_REASON_UNHEALTHY_HEARTBEAT
          end && (undrain_at <=? h) then
    {| ha_draining := false; ha_source := None; ha_unhealthy := u; ha_healthy := h; ha_reason := None |}
  else
    {| ha_draining := ha_draining x; ha_source := ha_source x; ha_unhealthy := u; ha_healthy := h;
       ha_reason := ha_reason x |}.

(** The machine's state of a node and its details. *)
Definition hb_abs (n : VpnNode) (l : list (string * json)) : hb_state :=
  let f := sub_dict HEARTBEAT_DETAILS_KEY l in
  {| ha_draining := is_draining n; ha_source := drain_source n;
     ha_unhealthy := _safe_int (dict_get "consecutive_unhealthy" f);
     ha_healthy := _safe_int (dict_get "consecutive_healthy" f);
     ha_reason := match dict_get "drain_reason" f with
                  | Some (JStr r) => if negb (String.eqb (py_strip r) "") then Some r else None
                  | _ => None
                  end |}.

Lemma safe_int_nonneg v : 0 ≤ _safe_int v.
Proof. destruct v as [[]|]; cbn; try lia. destruct b; cbn; lia. Qed.

(** What the state keeps of a meta is read back. *)
Lemma hb_abs_dump n p m :
  0 ≤ consecutive_unhealthy m → 0 ≤ consecutive_healthy m →
  (∀ r, drain_reason m = Some r → py_strip r ≠ "") →
  hb_abs n (dict_set HEARTBEAT_DETAILS_KEY (JObj (dump_meta m)) (heartbeat_details p)) =
  {| ha_draining := is_draining n; ha_source := drain_source n;
     ha_unhealthy := consecutive_unhealthy m; ha_healthy := consecutive_healthy m;
     ha_reason := drain_reason m |}.
Proof.
  intros Hu Hh Hr. unfold hb_abs, sub_dict. rewrite dict_get_set.
  destruct m as [u h r t]. cbn in Hu, Hh, Hr. unfold dump_meta. cbn.
  rewrite !Z.max_r by done. destruct r as [r|]; [|by destruct t].
  specialize (Hr r eq_refl). cbn. by rewrite (proj2 (String.eqb_neq _ _) Hr).
Qed.

(** A heartbeat keeps no [sync] section. *)
Lemma heartbeat_drops_sync p m :
  sync_section (dict_set HEARTBEAT_DETAILS_KEY m (heartbeat_details p)) = None.
Proof.
  unfold sync_section. rewrite dict_get_set_ne by done. unfold heartbeat_details.
  by destruct (hb_pool_dump p), (hb_upstream_dump p), (hb_mesh_dump p).
Qed.

(** * The run of a heartbeat *)

(** The health the policy makes of a heartbeat. *)
Definition effective_health (policy : NodePolicy) (p : NodeHeartbeatIn) : bool :=
  hb_is_healthy p && runtime_ready p &&
  (negb (entry_apply_fail_unhealthy policy) ||
   (let threshold := Z.max 1 (entry_apply_fail_threshold policy) in
    negb (match pool_apply_failures p with Some n => threshold <=? n | None => false end) &&
    negb (match hb_upstream p with
          | Some u => configured u && (threshold <=? upstream_apply_failures u)
          | None => false
          end))).

Definition policy_of (d : database) : option NodePolicy := head (order_by_desc np_id (rows (node_policies d))).

Lemma node_policy_run s p : policy_of (db s) = Some p → node_policy s = (Ok p, s).
Proof.
  unfold policy_of, node_policy, mbind, M_bind, select_where, read, gets. cbn [t_rows policies_tbl].
  rewrite (filter_unchanged (λ r : NodePolicy, true = true)) by done.
  destruct (order_by_desc np_id _); [done|]. by intros [= ->].
Qed.

Lemma effective_health_run p policy s :
  policy_of (db s) = Some policy → _effective_heartbeat_health p s = (Ok (effective_health policy p), s).
Proof.
  intros Hp. unfold _effective_heartbeat_health, effective_health.
  destruct (hb_is_healthy p && runtime_ready p); [|done]. cbn [negb andb].
  unfold mbind, M_bind. rewrite (node_policy_run s policy Hp).
  destruct (entry_apply_fail_unhealthy policy); [|done]. cbn [negb orb].
  by destruct (match pool_apply_failures p with Some n => _ | None => false end).
Qed.

(** Agent states are stored under their ids and a node has at most one. *)
Definition states_unique (d : database) : Prop :=
  keyed agent_states_tbl d ∧
  ∀ i j a b, agent_states d !! i = Some a → agent_states d !! j = Some b →
    as_node_id a = as_node_id b → i = j.

Lemma get_agent_state_run s i a :
  states_unique (db s) → agent_states (db s) !! i = Some a →
  get_agent_state (as_node_id a) s = (Ok (Some a), s) ∧ as_id a = i.
Proof.
  intros [Hk Hu] Hi. split; [|by apply (Hk i a)]. unfold get_agent_state.
  destruct (select_unique_run agent_states_tbl (λ x, as_node_id x =? as_node_id a) s) as (o & Hrun & Ho);
    [done| |].
  { intros j k p q Hj Hk' Hp%Z.eqb_eq Hq%Z.eqb_eq. apply (Hu j k p q Hj Hk'). congruence. }
  rewrite Hrun. destruct o as [p|].
  - destruct Ho as [Hp E%Z.eqb_eq]. cbn in Hp. do 3 f_equal.
    assert (i = as_id p) as -> by (by eapply (Hu i _ a p)). congruence.
  - specialize (Ho i a Hi). by rewrite Z.eqb_refl in Ho.
Qed.

Definition seen_state (version : string) (healthy_ : bool) (seen : Z) (l : list (string * json))
    (a : NodeAgentState) : NodeAgentState :=
  {| as_id := as_id a; as_node_id := as_node_id a; agent_version := version;
     last_config_version := last_config_version a; last_sync_at := last_sync_at a;
     last_seen_at := Some seen; is_healthy := healthy_; details := l |}.

Lemma upsert_state_run s i a version healthy_ seen sync config l :
  states_unique (db s) → agent_states (db s) !! i = Some a →
  upsert_agent_state (as_node_id a) version healthy_ seen sync config l s =
  (Ok tt, with_db (put agent_states_tbl (seen_state version healthy_ seen l a)) (tick s)).
Proof.
  intros Hu Hi. destruct (get_agent_state_run s i a Hu Hi) as [Hget Hid].
  unfold upsert_agent_state, mbind at 1, M_bind at 1. rewrite Hget.
  unfold mbind, M_bind. rewrite update_run. cbn [t_rows agent_states_tbl]. rewrite Hid, Hi. cbv zeta.
  cbn [t_touch t_check agent_states_tbl]. unfold unique_on, unique. cbn. by rewrite Z.eqb_refl.
Qed.

(** The row of a node whose drain columns were written. *)
Definition drained_row (draining : bool) (source : option string) (now : Z) (n : VpnNode) : VpnNode :=
  patch_node (drain_update draining source) (t_touch nodes_tbl now n).

Lemma drain_update_run s n draining source :
  nodes (db s) !! node_id n = Some n →
  update_by_id nodes_tbl (node_id n) (patch_node (drain_update draining source)) s =
  (Ok (Some (drained_row draining source (clock s (ticks s)) n)),
   with_db (put nodes_tbl (drained_row draining source (clock s (ticks s)) n)) (tick s)).
Proof.
  intros Hn. rewrite update_run. cbn [t_rows nodes_tbl]. rewrite Hn. cbv zeta.
  cbn [t_check nodes_tbl]. unfold unique_on, unique. cbn. rewrite String.eqb_refl.
  rewrite bool_decide_true by done. unfold put. cbn. by rewrite lookup_insert_eq.
Qed.

(** A node row whose identity, activity and role are kept. *)
Definition same_node (n n' : VpnNode) : Prop :=
  node_id n' = node_id n ∧ node_is_active n' = node_is_active n ∧ node_role n' = node_role n.

Lemma same_node_ready n n' d e :
  nodes d !! node_id n = Some n → same_node n n' → entry_ready d e → entry_ready (put nodes_tbl n' d) e.
Proof.
  intros Hn (Ei & Ea & Er) (x & Hx & Ha & Hr). unfold entry_ready, put. cbn. rewrite Ei.
  destruct (decide (e = node_id n)) as [->|Hne].
  - rewrite lookup_insert_eq. eexists. split; [done|]. rewrite Hn in Hx. injection Hx as <-. by rewrite Ea, Er.
  - rewrite lookup_insert_ne by done. eauto.
Qed.

(** ** What a mesh alert leaves alone *)

(** The tables a heartbeat reads. *)
Definition hb_tables (d : database) :=
  (nodes d, agent_states d, node_policies d, entry_assignments d, outbox d).

Lemma mesh_alert_frame n mesh : keeps (on_db (same hb_tables)) (_emit_mesh_alert n mesh).
Proof.
  unfold _emit_mesh_alert, resolve_active, find_active_by_dedup, bump_existing, insert_alert. keeps_tac.
Qed.

Lemma mesh_alert_uuid n mesh : keeps uuid_le (_emit_mesh_alert n mesh).
Proof.
  unfold _emit_mesh_alert, resolve_active, find_active_by_dedup, bump_existing, insert_alert. keeps_tac.
Qed.

Lemma mesh_alert_returns n mesh : returns (_emit_mesh_alert n mesh).
Proof.
  intros s. unfold _emit_mesh_alert. destruct mesh as [m|]; [|by eexists _, _].
  destruct (peers_total m =? 0); [by eexists _, _|]. apply returns_catch. intros e. apply returns_ret.
Qed.

(** ** The node row *)

(** What a heartbeat of node [nid] relies on: rows are stored under their ids, a node
    has one state, identifiers are fresh, and the entries the node is assigned to are
    active entry nodes. *)
Record hb_ready (nid : Z) (s : session) : Prop := {
  hr_nodes : keyed nodes_tbl (db s);
  hr_states : states_unique (db s);
  hr_fan : fan_ready s;
  hr_entries : ∀ e, e ∈ entries_of (db s) nid → entry_ready (db s) e;
}.

Lemma hb_ready_frame nid s s' :
  hb_tables (db s') = hb_tables (db s) → uuid_le s s' → hb_ready nid s → hb_ready nid s'.
Proof.
  intros [=Hn Ha _ He Ho] Hu [Hk Hst [Hf1 Hf2] Hr]. unfold uuid_le in Hu.
  split; unfold keyed, states_unique, fan_ready, outbox_fresh, entries_of, entry_ready, keyed in *;
    cbn [t_rows nodes_tbl agent_states_tbl] in *; rewrite ?Hn, ?Ha, ?He, ?Ho; try done.
  split; [intros; apply Hf1; lia|]. intros. eapply Z.lt_le_trans; [by eapply Hf2|done].
Qed.

Lemma hb_ready_outbox nid s s' :
  only_outbox s s' → fan_ready s' → hb_ready nid s → hb_ready nid s'.
Proof.
  intros Ho Hf [Hk Hst _ Hr].
  split; unfold keyed, states_unique, entries_of, entry_ready, keyed in *;
    cbn [t_rows nodes_tbl agent_states_tbl] in *;
    rewrite ?(only_outbox_same nodes _ _ Ho), ?(only_outbox_same agent_states _ _ Ho),
      ?(only_outbox_same entry_assignments _ _ Ho); done.
Qed.

Lemma hb_ready_put_node nid n n' s :
  nodes (db s) !! node_id n = Some n → same_node n n' → hb_ready nid s →
  hb_ready nid (with_db (put nodes_tbl n') (tick s)).
Proof.
  intros Hn Hs [Hk Hst Hf Hr]. split.
  - apply keyed_put; [apply _|done].
  - exact Hst.
  - exact Hf.
  - intros e He. eapply same_node_ready; [done|done|]. by apply Hr.
Qed.

Lemma hb_ready_put_state nid i version healthy_ seen l a s :
  agent_states (db s) !! i = Some a → hb_ready nid s →
  hb_ready nid (with_db (put agent_states_tbl (seen_state version healthy_ seen l a)) (tick s)).
Proof.
  intros Hi [Hk [Hst Hu] Hf Hr]. split; [done| |done|done].
  assert (as_id a = i) as <- by (by apply (Hst i a)). split; [apply keyed_put; [apply _|done]|].
  intros j k p q Hj Hk' E. cbn in Hj, Hk'. apply lookup_insert_Some in Hj, Hk'.
  destruct Hj as [[<- <-]|[Hj1 Hj]], Hk' as [[<- <-]|[Hk1 Hk']]; [done| | |]; cbn in E.
  - by eapply (Hu _ _ a q).
  - by eapply (Hu _ _ p a).
  - by eapply (Hu _ _ p q).
Qed.

Section Heartbeat.
Context (cfg : NodeConfig).

(** The row of the node is written and what a heartbeat relies on still holds. *)
Definition node_written (s s' : session) (n' : VpnNode) : Prop :=
hb_ready (node_id n') s' ∧ nodes (db s') = <[node_id n' := n']> (nodes (db s)) ∧
agent_states (db s') = agent_states (db s) ∧ node_policies (db s') = node_policies (db s).

Lemma fan_out_ok n s :
hb_ready (node_id n) s →
∃ s', fan_out cfg n s = (Ok tt, s') ∧ only_outbox s s' ∧ hb_ready (node_id n) s'.
Proof using Type.
intros H. unfold fan_out, when. destruct (String.eqb_spec (node_role n) ROLE_BACKEND) as [E|E].
- destruct (fan_out_run (cfg_command_prefix cfg) (cfg_reality_port cfg) (entries_of (db s) (node_id n)) s)
    as (s' & Hrun & Hf & Ho & _); [by apply H..|].
  exists s'. split_and!; [|done|by eapply hb_ready_outbox].
  unfold mbind, M_bind, enqueue_pool_snapshots_for_backend. by rewrite notify_unfold, Hrun.
- exists s. split_and!; [done|apply only_outbox_refl|done].
Qed.

Lemma announce_run n draining source s :
nodes (db s) !! node_id n = Some n → hb_ready (node_id n) s →
∃ s', (update_by_id nodes_tbl (node_id n) (patch_node (drain_update draining source)) ;; fan_out cfg n) s =
      (Ok tt, s') ∧ node_written s s' (drained_row draining source (clock s (ticks s)) n).
Proof using Type.
intros Hn Hr. unfold mbind at 1, M_bind at 1. rewrite drain_update_run by done.
set (n' := drained_row _ _ _ _). set (s1 := with_db _ _).
destruct (fan_out_ok n s1) as (s' & Hrun & Ho & Hr'); [by eapply hb_ready_put_node|].
exists s'. split; [exact Hrun|]. split; [exact Hr'|].
rewrite (only_outbox_same nodes _ _ Ho), (only_outbox_same agent_states _ _ Ho),
  (only_outbox_same node_policies _ _ Ho). done.
Qed.

Lemma drain_by_heartbeat_run n st m now s :
nodes (db s) !! node_id n = Some n → hb_ready (node_id n) s →
∃ s', drain_by_heartbeat cfg n st m now s =
      (Ok (with_drain m (Some DRAIN_REASON_UNHEALTHY_HEARTBEAT) (Some now)), s') ∧
  node_written s s' (drained_row true (Some "auto_heal") (clock s (ticks s)) n).
Proof using Type.
intros Hn Hr. destruct (announce_run n true (Some "auto_heal") s Hn Hr) as (s1 & Hrun & Hw).
unfold mbind at 1, M_bind at 1 in Hrun. unfold drain_by_heartbeat, mbind at 1, M_bind at 1.
rewrite drain_update_run in Hrun |- * by done. unfold mbind at 1, M_bind at 1. rewrite Hrun.
destruct (st ≫= last_seen_at) as [seen|]; [destruct (has_notifications cfg)|];
  (eexists; split; [reflexivity|]; destruct Hw as [[] Hw]; by split).
Qed.

Lemma undrain_by_heartbeat_run n m now s :
nodes (db s) !! node_id n = Some n → hb_ready (node_id n) s →
∃ s', undrain_by_heartbeat cfg n m now s = (Ok (with_drain m None None), s') ∧
  node_written s s' (drained_row false None (clock s (ticks s)) n).
Proof using Type.
intros Hn Hr. destruct (announce_run n false None s Hn Hr) as (s1 & Hrun & Hw).
unfold mbind at 1, M_bind at 1 in Hrun. unfold undrain_by_heartbeat, mbind at 1, M_bind at 1.
rewrite drain_update_run in Hrun |- * by done. unfold mbind at 1, M_bind at 1. rewrite Hrun.
destruct (has_notifications cfg);
  (eexists; split; [reflexivity|]; destruct Hw as [[] Hw]; by split).
Qed.

Definition serving (n : VpnNode) : bool := node_is_active n && is_enabled n.

(** The machine's state of a node and a meta. *)
Definition hb_meta (n : VpnNode) (m : NodeHeartbeatMeta) : hb_state :=
{| ha_draining := is_draining n; ha_source := drain_source n;
   ha_unhealthy := consecutive_unhealthy m; ha_healthy := consecutive_healthy m;
   ha_reason := drain_reason m |}.

(** A meta that is read back as it is written. *)
Definition meta_ok (m : NodeHeartbeatMeta) : Prop :=
0 ≤ consecutive_unhealthy m ∧ 0 ≤ consecutive_healthy m ∧
∀ r, drain_reason m = Some r → py_strip r ≠ "".

Lemma next_meta_ok base healthy_ : meta_ok (_next_heartbeat_meta base healthy_).
Proof using Type.
unfold meta_ok, _next_heartbeat_meta. cbn.
split; [|split].
- destruct healthy_; [lia|]. pose proof (safe_int_nonneg (dict_get "consecutive_unhealthy" (sub_dict HEARTBEAT_DETAILS_KEY base))). lia.
- destruct healthy_; [|lia]. pose proof (safe_int_nonneg (dict_get "consecutive_healthy" (sub_dict HEARTBEAT_DETAILS_KEY base))). lia.
- intros r. destruct (dict_get _ _) as [[]|]; try done.
  destruct (negb _) eqn:E; [|done]. intros [= <-]. apply negb_true_iff, String.eqb_neq in E. done.
Qed.

Definition decide_drain (n : VpnNode) (st : option NodeAgentState) (healthy_ : bool) (now dt ut : Z)
  (m : NodeHeartbeatMeta) : SM NodeHeartbeatMeta :=
m ← (if should_drain n healthy_ m dt then drain_by_heartbeat cfg n st m now else mret m);
if should_undrain n healthy_ m ut then undrain_by_heartbeat cfg n m now else mret m.

Lemma decide_drain_run n st base healthy_ now dt ut s :
nodes (db s) !! node_id n = Some n → hb_ready (node_id n) s →
∃ m n' s', decide_drain n st healthy_ now dt ut (_next_heartbeat_meta base healthy_) s = (Ok m, s') ∧
  node_written s s' n' ∧ node_id n' = node_id n ∧ serving n' = serving n ∧ meta_ok m ∧
  hb_meta n' m = hb_step dt ut (serving n) healthy_ (hb_abs n base).
Proof using Type.
intros Hn Hr. pose proof (next_meta_ok base healthy_) as Hok.
assert (Hskip : node_written s s n) by (split_and!; [done|by rewrite insert_id|done|done]).
unfold decide_drain, mbind, M_bind. unfold should_drain, hb_step.
destruct healthy_.
- cbn [negb andb]. unfold should_undrain, serving. cbn [andb].
  change (consecutive_healthy (_next_heartbeat_meta base true)) with (ha_healthy (hb_abs n base) + 1).
  change (drain_reason (_next_heartbeat_meta base true)) with (ha_reason (hb_abs n base)).
  change (ha_draining (hb_abs n base)) with (is_draining n).
  change (ha_source (hb_abs n base)) with (drain_source n).
  rewrite !(andb_assoc (is_draining n)). cbn [mret M_ret].
  destruct (_ && (ut <=? _)) eqn:E.
  + destruct (undrain_by_heartbeat_run n (_next_heartbeat_meta base true) now s Hn Hr) as (s' & Hrun & Hw).
    rewrite Hrun. eexists _, _, _. split; [reflexivity|]. split; [exact Hw|].
    split_and!; [done|done| |done]. destruct Hok as (?&?&?). by split_and!.
  + by eexists _, n, s.
- cbn [negb andb].
  change (consecutive_unhealthy (_next_heartbeat_meta base false)) with (ha_unhealthy (hb_abs n base) + 1).
  change (ha_draining (hb_abs n base)) with (is_draining n).
  destruct (negb (is_draining n) && _) eqn:E.
  + destruct (drain_by_heartbeat_run n st (_next_heartbeat_meta base false) now s Hn Hr) as (s' & Hrun & Hw).
    rewrite Hrun. unfold should_undrain. cbn [andb].
    eexists _, _, _. split; [reflexivity|]. split; [exact Hw|].
    split_and!; [done|done| |done]. destruct Hok as (?&?&?). split_and!; [done|done|].
    by intros r [= <-].
  + unfold should_undrain. cbn. by eexists _, n, s.
Qed.

(** The end of a heartbeat: the state is written, the mesh alert leaves it. *)
Lemma store_heartbeat_run n p i a m h now s :
hb_ready (node_id n) s → agent_states (db s) !! i = Some a → as_node_id a = node_id n →
let l := dict_set HEARTBEAT_DETAILS_KEY (JObj (dump_meta m)) (heartbeat_details p) in
∃ s', (upsert_agent_state (as_node_id a) (hb_agent_version p) h now None None l ;;
       _emit_mesh_alert n (hb_mesh p)) s = (Ok tt, s') ∧
  hb_ready (node_id n) s' ∧ nodes (db s') = nodes (db s) ∧
  agent_states (db s') = <[i := seen_state (hb_agent_version p) h now l a]> (agent_states (db s)) ∧
  node_policies (db s') = node_policies (db s).
Proof using Type.
intros Hr Hi Ea l. unfold mbind, M_bind.
rewrite (upsert_state_run s i a _ _ _ _ _ _ (hr_states _ _ Hr) Hi). set (s1 := with_db _ _).
destruct (mesh_alert_returns n (hb_mesh p) s1) as ([] & s' & Hrun). exists s'. split; [exact Hrun|].
pose proof (mesh_alert_frame n (hb_mesh p) s1) as Hf. pose proof (mesh_alert_uuid n (hb_mesh p) s1) as Hu.
rewrite Hrun in Hf, Hu. unfold on_db, same in Hf. cbn [snd] in Hf, Hu.
assert (Hr1 : hb_ready (node_id n) s1) by (by eapply hb_ready_put_state).
split; [by eapply hb_ready_frame|]. injection Hf as -> -> -> _ _.
split_and!; [done| |done]. by rewrite <-(proj1 (hr_states _ _ Hr) i a Hi).
Qed.

(** One heartbeat of a node whose agent has a state. *)
Lemma heartbeat_run n p policy i a s :
nodes (db s) !! node_id n = Some n → hb_ready (node_id n) s → policy_of (db s) = Some policy →
agent_states (db s) !! i = Some a → as_node_id a = node_id n →
∃ s' n' a', handle_heartbeat cfg n p s = (Ok tt, s') ∧ hb_ready (node_id n) s' ∧
  node_id n' = node_id n ∧ as_node_id a' = node_id n ∧ serving n' = serving n ∧
  nodes (db s') = <[node_id n := n']> (nodes (db s)) ∧
  agent_states (db s') = <[i := a']> (agent_states (db s)) ∧
  node_policies (db s') = node_policies (db s) ∧ is_healthy a' = effective_health policy p ∧
  sync_section (details a') = None ∧
  hb_abs n' (details a') =
    hb_step (Z.max 1 (heartbeat_unhealthy_drain_threshold policy))
      (Z.max 1 (heartbeat_healthy_undrain_threshold policy)) (serving n)
      (effective_health policy p) (hb_abs n (details a)).
Proof using Type.
intros Hn Hr Hp Hi Ea. unfold handle_heartbeat.
unfold mbind at 1, M_bind at 1, utcnow. fold (tick s). set (now := clock s (ticks s)).
assert (Hr1 : hb_ready (node_id n) (tick s)) by (destruct Hr; by split).
unfold mbind at 1, M_bind at 1. rewrite (effective_health_run p policy (tick s) Hp).
set (h := effective_health policy p).
destruct (get_agent_state_run (tick s) i a (hr_states _ _ Hr1) Hi) as [Hget Hid].
unfold mbind at 1, M_bind at 1. rewrite <-Ea, Hget. rewrite Ea. cbv zeta.
unfold mbind at 1, M_bind at 1. rewrite (node_policy_run (tick s) policy Hp).
set (dt := Z.max 1 (heartbeat_unhealthy_drain_threshold policy)).
set (ut := Z.max 1 (heartbeat_healthy_undrain_threshold policy)).
destruct (decide_drain_run n (Some a) (details a) h now dt ut (tick s) Hn Hr1)
  as (m & n' & s1 & Hrun & (Hr2 & Hn2 & Ha2 & Hp2) & En & Es & Hm & Habs).
rewrite En in Hr2, Hn2. unfold decide_drain, mbind, M_bind in Hrun. unfold mbind at 1, M_bind at 1.
match type of Hrun with context [(if should_drain n h ?m dt then ?x else ?y) (tick s)] =>
  destruct ((if should_drain n h m dt then x else y) (tick s)) as [[m0|e] s0]; [|done] end.
unfold mbind at 1, M_bind at 1. rewrite Hrun.
destruct (store_heartbeat_run n p i a m h now s1) as (s' & Hs & Hr3 & Hn3 & Ha3 & Hp3);
  [done|by rewrite Ha2|done|].
rewrite Ea in Hs. exists s', n', (seen_state (hb_agent_version p) h now
  (dict_set HEARTBEAT_DETAILS_KEY (JObj (dump_meta m)) (heartbeat_details p)) a). split; [exact Hs|]. split_and!; [done|done|exact Ea|done| | | |done| |].
- by rewrite Hn3.
- by rewrite Ha3, Ha2.
- by rewrite Hp3.
- apply heartbeat_drops_sync.
- destruct Hm as (?&?&?). cbn [details seen_state]. rewrite hb_abs_dump by done. exact Habs.
Qed.

End Heartbeat.

(** Agent tokens: what a rotation accepts and refuses (services/nodes/repository.py,
    services/auth/dependencies.py). *)


(** The only identity of an agent instance. *)
Definition sole_identity (d : database) (j : Z) (idn : NodeAgentIdentity) : Prop :=
  agent_identities d !! j = Some idn ∧ ai_id idn = j ∧
  ∀ k b, agent_identities d !! k = Some b → agent_instance_id b = agent_instance_id idn → k = j.

Section Identity.
Context (j : Z) (idn : NodeAgentIdentity) (s : session).
Hypothesis (Hsole : sole_identity (db s) j idn).
Hypothesis (Hkeyed : keyed identities_tbl (db s)).

Lemma find_identity :
get_by_node_and_instance (ai_node_id idn) (agent_instance_id idn) s = (Ok (Some idn), s).
Proof using All.
destruct Hsole as (Hj & Hid & Hone). unfold get_by_node_and_instance.
destruct (select_unique_run identities_tbl
  (λ i, (ai_node_id i =? ai_node_id idn) && (agent_instance_id i =? agent_instance_id idn)) s)
  as (o & Hrun & Ho); [done| |].
{ intros a b p q Ha Hb [_ Ea%Z.eqb_eq]%andb_true_iff [_ Eb%Z.eqb_eq]%andb_true_iff.
  by rewrite (Hone a p Ha Ea), (Hone b q Hb Eb). }
rewrite Hrun. destruct o as [p|].
- destruct Ho as [Hp [_ E%Z.eqb_eq]%andb_true_iff]. cbn in Hp. rewrite (Hone _ _ Hp E) in Hp.
  do 3 f_equal. congruence.
- specialize (Ho j idn Hj). by rewrite !Z.eqb_refl in Ho.
Qed.

(** The lookup by instance and token finds it or nothing. *)
Lemma find_by_token h :
get_by_instance_and_token_hash (agent_instance_id idn) h s =
(Ok (if String.eqb (ai_auth_token_hash idn) h || sql_eqb (prev_auth_token_hash idn) (Some h)
     then Some idn else None), s).
Proof using All.
destruct Hsole as (Hj & Hid & Hone). unfold get_by_instance_and_token_hash, mbind, M_bind, select_where, read, gets.
do 2 f_equal. cbn [t_rows identities_tbl].
set (P := λ i : NodeAgentIdentity, (agent_instance_id i =? agent_instance_id idn) &&
  (String.eqb (ai_auth_token_hash i) h || sql_eqb (prev_auth_token_hash i) (Some h))).
match goal with |- context [filter ?Q ?x] => change (filter Q x) with (filter (λ i, P i = true) x) end.
set (l := filter _ _).
assert (Hl : ∀ p, p ∈ l ↔ p = idn ∧ P idn = true).
{ intros p. unfold l. rewrite list_elem_of_filter, elem_of_rows. split.
  - intros (HP & k & Hk). assert (E : agent_instance_id p = agent_instance_id idn).
    { unfold P in HP. by apply andb_true_iff in HP as [E%Z.eqb_eq _]. }
    assert (p = idn) as -> by (rewrite (Hone k p Hk E) in Hk; congruence). done.
  - intros [-> HP]. eauto. }
assert (Hnd : NoDup l).
{ apply NoDup_filter. eapply NoDup_fmap_1. by apply (rows_ids_NoDup identities_tbl (db s)). }
assert (HP : P idn = (String.eqb (ai_auth_token_hash idn) h || sql_eqb (prev_auth_token_hash idn) (Some h))).
{ unfold P. by rewrite Z.eqb_refl. }
rewrite <-HP. clearbody l. destruct l as [|p [|q l]].
- destruct (P idn) eqn:E; [|done]. by destruct (not_elem_of_nil idn (proj2 (Hl idn) (conj eq_refl eq_refl))).
- destruct (proj1 (Hl p)) as [-> E]; [left|]. by rewrite E.
- destruct (proj1 (Hl p)) as [-> _]; [by left|]. destruct (proj1 (Hl q)) as [-> _]; [by right; left|].
  apply NoDup_cons in Hnd as [[] _]. left.
Qed.
End Identity.

(** What the check of an agent answers when the instance has one identity. *)
Lemma node_auth_answer j idn n h s :
  sole_identity (db s) j idn → keyed identities_tbl (db s) →
  nodes (db s) !! ai_node_id idn = Some n → node_id n = ai_node_id idn →
  (node_auth (Some (ai_node_id idn)) (Some (agent_instance_id idn)) (Some h) s).1 =
  if identity_accepts_token idn h (clock s (ticks s)) then Ok n
  else Raise (HTTPException 401 "Invalid node token").
Proof.
  intros Hs Hk Hn En. unfold node_auth, mbind at 1, M_bind at 1, utcnow. fold (tick s).
  set (now := clock s (ticks s)).
  pose proof (find_identity j idn (tick s) Hs Hk) as Hf. pose proof (find_by_token j idn (tick s) Hs Hk h) as Ht.
  unfold mbind, M_bind, get_by_id, read, gets. cbn [t_rows nodes_tbl]. cbn [db tick]. rewrite Hn. rewrite En, Hf.
  unfold mret, M_ret. destruct (identity_accepts_token idn h now) eqn:Ha; [done|]. rewrite Ht.
  by destruct (_ || _); [rewrite Ha|].
Qed.

(** Rotating the token of an agent accepts the new token and, until the grace
    period ends, the one it replaces; after it, and for every other token at any time,
    the agent is refused with 401. *)
Theorem token_rotation nid instance j idn n h2 until resync s :
  sole_identity (db s) j idn → keyed identities_tbl (db s) →
  ai_node_id idn = nid → agent_instance_id idn = instance →
  nodes (db s) !! nid = Some n → node_id n = nid → nonempty (ai_auth_token_hash idn) = true →
  ∃ s', upsert_token nid instance h2 (Some until) resync s = (Ok tt, s') ∧
    ∀ h s'', db s'' = db s' →
      (node_auth (Some nid) (Some instance) (Some h) s'').1 =
      if decide (h = h2 ∨ h = ai_auth_token_hash idn ∧ clock s'' (ticks s'') ≤ until) then Ok n
      else Raise (HTTPException 401 "Invalid node token").
Proof.
  intros Hs Hk <- <- Hn En Hne. destruct Hs as (Hj & Hid & Hone).
  set (now := clock s (ticks s)).
  set (idn' := rotated h2 (Some until) resync now (t_touch identities_tbl (clock (tick s) (ticks (tick s))) idn)).
  exists (with_db (put identities_tbl idn') (tick (tick s))). split.
  - unfold upsert_token, mbind at 1, M_bind at 1, utcnow. fold (tick s). fold now.
    unfold mbind at 1, M_bind at 1. rewrite (find_identity j idn (tick s)) by done.
    unfold mbind, M_bind. rewrite update_run. cbn [t_rows identities_tbl]. cbn [db tick]. rewrite Hid, Hj. cbv zeta.
    cbn [t_check identities_tbl]. unfold unique_on, unique. cbn. rewrite !Z.eqb_refl. done.
  - intros h s'' Hdb.
    assert (Hs' : sole_identity (db s'') j idn').
    { rewrite Hdb. unfold sole_identity, put. cbn. rewrite Hid. split_and!; [by rewrite lookup_insert_eq|done|].
      intros k b. rewrite lookup_insert_Some. intros [[<- _]|[_ Hb]]; [done|]. by apply Hone. }
    assert (Hk' : keyed identities_tbl (db s'')) by (rewrite Hdb; apply keyed_put; [apply _|done]).
    change (ai_node_id idn) with (ai_node_id idn'). change (agent_instance_id idn) with (agent_instance_id idn').
    rewrite (node_auth_answer j idn' n h s'' Hs' Hk'); [|by rewrite Hdb|done].
    assert (identity_accepts_token idn' h (clock s'' (ticks s'')) =
      bool_decide (h = h2 ∨ h = ai_auth_token_hash idn ∧ clock s'' (ticks s'') ≤ until)) as ->.
    { unfold identity_accepts_token. cbn. rewrite Hne. cbn [andb].
      destruct (String.eqb_spec h2 h) as [->|N2]; [symmetry; apply bool_decide_true; by left|].
      destruct (String.eqb_spec (ai_auth_token_hash idn) h) as [->|N1].
      - destruct (Z.leb_spec (clock s'' (ticks s'')) until).
        + symmetry. apply bool_decide_true. by right.
        + symmetry. apply bool_decide_false. intros [->|[_ ?]]; [done|lia].
      - symmetry. apply bool_decide_false. intros [->|[-> _]]; done. }
    case_bool_decide; case_decide; naive_solver.
Qed.
