(* ===== verification/PlacementRuns.v ===== *)
(** Placements on concrete databases: instances of the theorems, and behaviours
    of the reconcilers worth knowing. *)

From stdpp Require Import base gmap strings list sorting.
From S2P Require Import Prelude Decimal Errors RouteModels BillingModels FleetModels Session Uuid Tables FleetTables Routing Placements PlacementProps PlacementMigrate PlacementCommands PlacementWorld.
Local Open Scope Z_scope.

(** * Repeating an enqueue *)

Lemma enqueue_many_known items s :
  (∀ it, it ∈ items → known (db s) (oei_message_id it)) → enqueue_many items s = (Ok tt, s).
Proof.
  induction items as [|it items IH]; intros Hk; [done|]. cbn [enqueue_many for_each].
  unfold mbind, M_bind.
  destruct (enqueue_one_run it s) as [[_ ->]|[Hn _]]; [|exfalso; apply Hn, Hk; left].
  apply IH. intros it' Hit'. apply Hk. by right.
Qed.

(** Enqueueing the commands of the same placements again, with no new
    version in between, adds nothing to the outbox: the re-enqueue of stale
    pending placements by the error-retry tick resends no command as long as the
    outbox still holds the first one. *)
Theorem reenqueue_noop pfx ids s s1 :
  outbox_fresh s → (∀ i k, vpn_keys (db s) !! i = Some k → key_sendable k = true) →
  enqueue_for_placement_ids pfx ids s = (Ok tt, s1) →
  enqueue_for_placement_ids pfx ids s1 = (Ok tt, s1).
Proof.
  intros Hf Hsend Hrun1. destruct (enqueue_returns pfx ids s Hf Hsend) as (s' & Hrun & _ & Hk).
  rewrite Hrun1 in Hrun. injection Hrun as <-.
  pose proof (enqueue_for_placement_ids_same pfx
    (λ d, (placements d, vpn_keys d, entry_assignments d)) ids s) as Hsame.
  unfold on_db, same in Hsame. rewrite Hrun1 in Hsame. cbn [snd] in Hsame. injection Hsame as Ep Ek Ee.
  assert (Hrows : transport_rows (db s1) ids = transport_rows (db s) ids).
  { unfold transport_rows. rewrite Ep. apply list_omap_ext. apply Forall_Forall2_diag, Forall_forall.
    intros p _. unfold with_key. by rewrite Ek. }
  assert (Hents : ∀ b, _load_entries_for_backends (db s1) b = _load_entries_for_backends (db s) b).
  { intros b. unfold _load_entries_for_backends. by rewrite Ee. }
  rewrite (enqueue_run pfx ids s1). 2:{ intros i k. rewrite Ek. apply Hsend. }
  apply enqueue_many_known. intros it ([p k] & Hit & Hpk)%list_elem_of_bind. cbn [fst snd] in Hit.
  apply list_elem_of_fmap in Hit as (o & -> & Ho). rewrite Hrows in Hpk. rewrite Hents in Ho.
  exact (Hk p k o Hpk Ho).
Qed.

(** * A small fleet

    Backends 1, 2 and 3 (3 is draining), entry 9 in front of backend 2, keys 51
    and 52. *)

Definition sample_node (id : Z) (name role : string) (draining : bool) : VpnNode :=
  {| node_id := id; node_name := name; node_role := role; node_region := "de";
     public_domain := name; reality_ip := None; internal_wg_ip := "10.0.0.1"; node_key := Some name;
     xray_api_port := 10085; auth_token_hash := name; agent_port := 9000; is_enabled := true;
     is_draining := draining; is_virtual := false; drain_source := None; node_capacity := 100;
     node_zone := None; upstream_node_id := None; bootstrap_token_expires_at := None;
     bootstrapped_at := None; wg_public_key := None; wg_listen_port := None;
     node_is_active := true; node_created_at := 0; node_updated_at := 0 |}.

Definition sample_agent (id nid seen : Z) : NodeAgentState :=
  {| as_id := id; as_node_id := nid; agent_version := "1"; last_config_version := 0;
     last_sync_at := None; last_seen_at := Some seen; is_healthy := true; details := [] |}.

Definition sample_key (id : Z) : VpnKey :=
  {| key_id := id; key_user_id := 1; key_protocol := "vless"; key_transport := "reality";
     client_id := str_uuid id; valid_until := 10 * day; traffic_limit_mb := 0;
     key_used_traffic_bytes := 0; is_revoked := false; key_subscription_id := None;
     entry_routing_override_backend_tag := None; key_is_active := true; key_created_at := 0;
     key_updated_at := 0 |}.

Definition sample_placement (id kid bid : Z) (st : PlacementAppliedState) (op applied : Z) : UserPlacement :=
  {| pl_id := id; pl_key_id := kid; backend_node_id := bid; desired_state := desired_active;
     applied_state := st; op_version := op; applied_version := applied; sticky_until := None;
     last_migration_reason := None; pl_is_active := true; pl_created_at := 0; pl_updated_at := 0 |}.

Definition sample_route (id nid : Z) : Route :=
  {| route_id := id; route_name := str_uuid id; route_node_id := nid; route_entry_node_id := Some 9;
     route_transport_profile_id := 1; health_status := healthy; base_weight := 50;
     effective_weight := 50; cooldown_until := None; warmup_stage := None;
     warmup_started_at := None; route_is_active := true; route_created_at := 0; route_updated_at := 0 |}.

Definition sample_policy : NodePolicy :=
  {| np_id := 1; stale_after_sec := 90; heartbeat_unhealthy_drain_threshold := 5;
     heartbeat_healthy_undrain_threshold := 3; auto_heal_enabled := false; auto_heal_tick_sec := 60;
     auto_heal_max_nodes := 20; auto_heal_drain_cooldown_sec := 180; auto_undrain_enabled := false;
     placement_error_retry_enabled := true; placement_error_retry_tick_sec := 120;
     placement_error_retry_after_sec := 120; placement_rebalance_enabled := true;
     placement_rebalance_tick_sec := 120; placement_rebalance_batch_size := 200;
     entry_apply_fail_threshold := 3; entry_apply_fail_unhealthy := true;
     entry_auto_drain_enabled := true; entry_auto_drain_tick_sec := 60;
     entry_auto_drain_probe_failures := 3; entry_auto_drain_max_nodes := 50;
     entry_auto_drain_reason := "entry_auto_drain"; entry_auto_undrain_enabled := true;
     entry_auto_undrain_healthy_ticks := 3 |}.

Definition by_id {R} (id : R → Z) (l : list R) : gmap Z R := list_to_map ((λ r, (id r, r)) <$> l).

Definition fleet_with (agents : list NodeAgentState) (ps : list UserPlacement) : database :=
  set_nodes (by_id node_id [sample_node 1 "b1" "backend" false; sample_node 2 "b2" "backend" false;
                            sample_node 3 "b3" "backend" true; sample_node 9 "e9" "entry" false])
  (set_agent_states (by_id as_id agents)
  (set_vpn_keys (by_id key_id [sample_key 51; sample_key 52])
  (set_placements (by_id pl_id ps)
  (set_routes (by_id route_id [sample_route 61 1; sample_route 62 2])
  (set_entry_assignments (by_id eba_id [{| eba_id := 71; eba_entry_node_id := 9;
       eba_backend_node_id := 2; eba_weight := 100; eba_enabled := true; eba_rank := 0;
       eba_is_active := true; eba_created_at := 0; eba_updated_at := 0 |}])
  (set_node_policies (by_id np_id [sample_policy]) empty_db)))))).

(** Key 51 on backends 1 and 2, key 52 on backend 1. *)
Definition fleet : database :=
  fleet_with [sample_agent 81 1 (hour - second); sample_agent 82 2 (hour - second)]
    [sample_placement 101 51 1 applied_applied 3 3; sample_placement 102 51 2 applied_applied 1 1;
     sample_placement 103 52 1 applied_error 2 2].

Definition fleet_session : session := session_on fleet hour 1000.

(** The invariants, decided. *)
Definition placements_inv_b (d : database) : bool :=
  forallb (λ ip, (pl_id ip.2 =? ip.1) && bool_decide (placement_check ip.2 = None) &&
    forallb (λ jq, negb (same_slot ip.2 jq.2) || (ip.1 =? jq.1)) (map_to_list (placements d)))
    (map_to_list (placements d)).

Lemma placements_inv_by_computation d : placements_inv_b d = true → placements_inv d.
Proof.
  intros H. unfold placements_inv_b in H. rewrite forallb_forall in H.
  assert (Hrow : ∀ i p, placements d !! i = Some p → pl_id p = i ∧ placement_check p = None ∧
    ∀ j q, placements d !! j = Some q → same_slot p q = true → i = j).
  { intros i p Hp. assert (Hin : In (i, p) (map_to_list (placements d))) by
      by apply list_elem_of_In, elem_of_map_to_list.
    apply H in Hin. cbn in Hin. rewrite !andb_true_iff, Z.eqb_eq, bool_decide_eq_true in Hin.
    destruct Hin as [[Hid Hc] Hall]. split_and!; [done..|]. intros j q Hq Hs.
    rewrite forallb_forall in Hall.
    assert (Hjn : In (j, q) (map_to_list (placements d))) by by apply list_elem_of_In, elem_of_map_to_list.
    apply Hall in Hjn. cbn in Hjn. rewrite Hs in Hjn. cbn in Hjn. by apply Z.eqb_eq. }
  split_and!.
  - intros i p Hp. by apply Hrow in Hp as [? _].
  - intros i p Hp. by apply Hrow in Hp as (_ & ? & _).
  - intros i j p q Hp Hq Hs. apply Hrow in Hp as (_ & _ & Hu). eauto.
Qed.

Lemma fleet_inv : placements_inv fleet.
Proof. apply placements_inv_by_computation. vm_compute. reflexivity. Qed.

Lemma fleet_applied : applied_current fleet.
Proof.
  intros i p Hp Hst. assert (Hall : forallb (λ ip, op_version ip.2 =? applied_version ip.2)
    (map_to_list (placements fleet)) = true) by (vm_compute; reflexivity).
  rewrite forallb_forall in Hall. left. symmetry. apply Z.eqb_eq, (Hall (i, p)).
  by apply list_elem_of_In, elem_of_map_to_list.
Qed.

Lemma fleet_commands : commands_inv fleet.
Proof. intros j r Hr. change (outbox fleet) with (∅ : gmap Z NodeTransportOutbox) in Hr. by rewrite lookup_empty in Hr. Qed.

Definition demo_ops : list placement_op :=
  [OpReport 1 101 {| pri_op_version := 2; pri_applied_state := applied_applied |};
   OpErrorRetry;
   OpSetDesired 51 desired_inactive (Some "expired") hour None;
   OpUpsert {| upu_key_id := 52; upu_backend_node_id := 2; upu_desired_state := desired_active;
               upu_sticky_until := None; upu_last_migration_reason := None |};
   OpRebalance].

(** * Witnesses *)

Lemma placement_history_witness :
  placements_inv (db (run_placement_ops "cmd" demo_ops fleet_session)) ∧
  (op_version <$> placements (db (run_placement_ops "cmd" demo_ops fleet_session)) !! 101) = Some 4.
Proof.
  destruct (placement_history "cmd" demo_ops fleet_session fleet_inv fleet_applied) as (HI & _ & _).
  split; [exact HI|]. vm_compute. reflexivity.
Defined.

(** The report for version 3 comes after the key was disabled under version 4. *)
Lemma report_fenced_witness :
  (apply_result 1 101 {| pri_op_version := 3; pri_applied_state := applied_applied |}
    (run_placement_ops "cmd" demo_ops fleet_session)).1 = Ok st_skipped_stale.
Proof.
  destruct (report_fenced "cmd" demo_ops fleet_session 101 (sample_placement 101 51 1 applied_applied 3 3)
    1 {| pri_op_version := 3; pri_applied_state := applied_applied |} fleet_inv ltac:(reflexivity))
    as (p1 & st & s2 & Hp1 & _ & Hrun & Hcase).
  vm_compute in Hp1. injection Hp1 as <-.
  rewrite bool_decide_false in Hcase by (cbn; intros [? _]; lia).
  rewrite Hrun. cbn. by destruct Hcase as [-> _].
Defined.

Lemma fleet_sendable : ∀ i k, vpn_keys fleet !! i = Some k → key_sendable k = true.
Proof.
  intros i k Hk. assert (Hall : forallb (λ ik, key_sendable ik.2) (map_to_list (vpn_keys fleet)) = true)
    by (vm_compute; reflexivity).
  rewrite forallb_forall in Hall. apply (Hall (i, k)). by apply list_elem_of_In, elem_of_map_to_list.
Qed.

Lemma fleet_outbox_fresh : outbox_fresh fleet_session.
Proof. intros i _. apply lookup_empty. Qed.

Definition demo_migration : PlacementMigrateBackendIn :=
  {| pmi_source_backend_id := 1; pmi_target_backend_id := Some 2; pmi_last_migration_reason := "admin_manual" |}.

Lemma fleet_nodes_keyed : keyed nodes_tbl fleet.
Proof.
  intros i n Hn. assert (Hall : forallb (λ ik, node_id ik.2 =? ik.1) (map_to_list (nodes fleet)) = true)
    by (vm_compute; reflexivity).
  rewrite forallb_forall in Hall. apply Z.eqb_eq, (Hall (i, n)). by apply list_elem_of_In, elem_of_map_to_list.
Qed.

(** Both keys of backend 1 move to backend 2: the placement of key 52 is moved, that of key 51
    merged into the one already there. *)
Lemma migration_complete_witness :
  ∃ s', (migrate_backend "cmd" demo_migration fleet_session).2 = s' ∧
    commanded (db s') 51 2 ∧ commanded (db s') 52 2.
Proof.
  destruct (migration_complete "cmd" demo_migration fleet_session (sample_node 1 "b1" "backend" false)
    (sample_node 2 "b2" "backend" false) fleet_session) as (s' & Hrun & _ & Hall & _).
  - split; [exact fleet_inv|exact fleet_commands|exact fleet_outbox_fresh|exact fleet_sendable].
  - exact fleet_nodes_keyed.
  - reflexivity.
  - discriminate.
  - reflexivity.
  - reflexivity.
  - reflexivity.
  - reflexivity.
  - exists s'. split; [by rewrite Hrun|]. split.
    + apply (Hall 101 (sample_placement 101 51 1 applied_applied 3 3)); reflexivity.
    + apply (Hall 103 (sample_placement 103 52 1 applied_error 2 2)); reflexivity.
Defined.

Lemma commands_complete_witness :
  ∃ s' j r c, enqueue_for_placement_ids "cmd" [102] fleet_session = (Ok tt, s') ∧
    outbox (db s') !! j = Some r ∧ ob_node_id r = 9 ∧ ob_payload r = PlacementCommand c ∧
    pc_op_version c = 1.
Proof.
  destruct (commands_complete "cmd" [] fleet_session [102] fleet_inv fleet_commands
    fleet_outbox_fresh fleet_sendable) as (s' & Hrun & _ & Hall).
  destruct (Hall (sample_placement 102 51 2 applied_applied 1 1) (sample_key 51) (Some 9))
    as (j & r & c & Hj & Hn & Hp & _ & Hv & _).
  - apply elem_of_rows. exists 102. reflexivity.
  - apply list_elem_of_In. cbn. auto.
  - reflexivity.
  - reflexivity.
  - reflexivity.
  - apply list_elem_of_In. vm_compute. auto.
  - exists s', j, r, c. split; [exact Hrun|]. split; [exact Hj|]. split; [exact Hn|].
    split; [exact Hp|exact Hv].
Defined.

Lemma reenqueue_noop_witness :
  let s1 := (enqueue_for_placement_ids "cmd" [101; 102] fleet_session).2 in
  enqueue_for_placement_ids "cmd" [101; 102] s1 = (Ok tt, s1).
Proof.
  intros s1. apply (reenqueue_noop "cmd" [101; 102] fleet_session s1 fleet_outbox_fresh fleet_sendable).
  destruct (enqueue_returns "cmd" [101; 102] fleet_session fleet_outbox_fresh fleet_sendable)
    as (s' & Hrun & _). unfold s1. rewrite Hrun. reflexivity.
Defined.

Lemma select_nodes_exact_witness :
  ∃ l s', select_nodes (Some "de") [1] fleet_session = (Ok l, s') ∧ sample_node 2 "b2" "backend" false ∈ l.
Proof.
  destruct (select_nodes_exact (Some "de") [1] fleet_session sample_policy ltac:(reflexivity))
    as (l & s' & traffic & Hrun & _ & Hin & _).
  exists l, s'. split; [exact Hrun|]. apply Hin. exists 2, (sample_agent 82 2 (hour - second)).
  split; [reflexivity|]. split; [reflexivity|]. split; vm_compute; reflexivity.
Defined.

(** * The rebalancer *)

(** Both keys on both healthy backends, and key 51 on the draining backend 3. *)
Definition drained_fleet : database :=
  fleet_with [sample_agent 81 1 (hour - second); sample_agent 82 2 (hour - second)]
    [sample_placement 101 51 1 applied_applied 3 3; sample_placement 102 51 2 applied_applied 1 1;
     sample_placement 103 52 1 applied_applied 2 2; sample_placement 104 52 2 applied_applied 2 2;
     sample_placement 105 51 3 applied_applied 1 1].

(** The rebalancer deactivates the placements of draining backends and then
    returns without committing when two backends are healthy and no placement is
    missing: the placement on the draining backend stays active, tick after
    tick. *)
Theorem rebalance_drain_discarded pfx :
  (_deactivate_placements_on_draining_backends (session_on drained_fleet hour 1000)).1 = Ok [105] ∧
  (rebalance_tick pfx (session_on drained_fleet hour 1000)).1 = Ok 0 ∧
  db (rebalance_tick pfx (session_on drained_fleet hour 1000)).2 = drained_fleet ∧
  (desired_state <$> placements drained_fleet !! 105) = Some desired_active.
Proof. vm_compute. split_and!; reflexivity. Qed.

(** With one healthy backend the tick commits. *)
Definition half_fleet : database :=
  fleet_with [sample_agent 81 1 (hour - second)] [sample_placement 105 51 3 applied_applied 1 1].

(** Draining gives a placement a new version but keeps its reported state,
    so a placement waiting for its node to apply version 2 reads [applied], and
    the error-retry tick, which looks for [error] and [pending], never returns to
    it. *)
Theorem drained_placement_reads_applied pfx :
  let s1 := (rebalance_tick pfx (session_on half_fleet hour 1000)).2 in
  applied_current half_fleet ∧
  ((λ p, (desired_state p, applied_state p, op_version p, applied_version p)) <$> placements (db s1) !! 105)
    = Some (desired_inactive, applied_applied, 2, 1) ∧
  ∀ cutoff p, placements (db s1) !! 105 = Some p →
    stale_in applied_error cutoff p = false ∧ stale_in applied_pending cutoff p = false.
Proof.
  cbv zeta. split_and!.
  - intros i p Hp _. assert (Hall : forallb (λ ip, applied_version ip.2 =? op_version ip.2)
      (map_to_list (placements half_fleet)) = true) by (vm_compute; reflexivity).
    rewrite forallb_forall in Hall. left. apply Z.eqb_eq, (Hall (i, p)).
    by apply list_elem_of_In, elem_of_map_to_list.
  - vm_compute. reflexivity.
  - intros cutoff p Hp. vm_compute in Hp. injection Hp as <-. split; reflexivity.
Qed.
