(* ===== verification/TransportProps.v ===== *)
(** What the agent transport guarantees of what it sends: the outbox publisher
    settles what it claims and drains the outbox, and snapshot epochs grow by one
    per request. *)

From stdpp Require Import base gmap strings list sorting.
From S2P Require Import Prelude Decimal Errors RouteModels BillingModels FleetModels Session Tables FleetTables Routing Placements Uuid AgentTransport.
Local Open Scope Z_scope.

(** * Bulk updates as a map *)

Section UpdateMap.
Context {R : Type} (t : table R) `{!TableLaws t}.
Hypothesis t_set_set : ∀ x y d, t_set t x (t_set t y d) = t_set t x d.

Lemma puts_set f l d : puts t f l d = t_set t (t_rows t (puts t f l d)) d.
Proof using Type*.
revert d. induction l as [|r l IH]; intros d; cbn; [by rewrite t_set_rows|].
rewrite IH at 1. unfold put at 2. by rewrite t_set_set.
Qed.

(** An update that violates no constraint. *)
Lemma update_where_map P f s :
keyed t (db s) → (∀ r, t_id t (f r) = t_id t r) → (∀ d r, t_check t d (Some r) (f r) = None) →
∃ ids, update_where t P f s =
  (Ok ids, with_db (t_set t ((λ r, if P r then f r else r) <$> t_rows t (db s))) s).
Proof using Type*.
intros Hk Hid Hchk. eexists. rewrite update_where_run by auto. f_equal.
unfold with_db. f_equal. rewrite puts_set. f_equal.
apply map_eq. intros i. rewrite lookup_update_where, lookup_fmap by done. done.
Qed.
End UpdateMap.

(** * The state of the transport *)

Record transport_inv (s : session) : Prop := {
  ti_outbox : keyed outbox_tbl (db s);
  ti_states : keyed transport_states_tbl (db s);
  ti_unique : ∀ i j a b, transport_states (db s) !! i = Some a →
    transport_states (db s) !! j = Some b → ts_node_id a = ts_node_id b → i = j;
  ti_fresh : ∀ i, next_uuid s ≤ i → transport_states (db s) !! i = None;
}.

(** The row of a node. *)
Definition state_of (d : database) (nid : Z) (st : NodeTransportState) : Prop :=
  transport_states d !! ts_id st = Some st ∧ ts_node_id st = nid.

(** Only the rows of the nodes [P] holds of changed, and no effect was made. *)
Record states_step (P : Z → Prop) (s s' : session) : Prop := {
  ss_db : db s' = set_transport_states (transport_states (db s')) (db s);
  ss_effects : effects s' = effects s;
  ss_clock : clock s' = clock s;
  ss_ticks : (ticks s ≤ ticks s')%nat;
  ss_uuid : next_uuid s ≤ next_uuid s';
  ss_inv : transport_inv s → transport_inv s';
  ss_others : ∀ nid st, ¬ P nid → state_of (db s) nid st → state_of (db s') nid st;
}.

#[export] Instance states_step_preorder P : PreOrder (states_step P).
Proof.
  split.
  - intros s. split; try done. by destruct s as [[]].
  - intros s1 s2 s3 [D1 E1 C1 T1 U1 I1 O1] [D2 E2 C2 T2 U2 I2 O2]. split; try congruence; try lia; auto.
    rewrite D2, D1. by rewrite D2 at 1.
Qed.

Lemma tick_step P s : states_step P s (tick s).
Proof. split; cbn; try done; [by destruct s as [[]]|lia|]. by intros [H1 H2 H3 H4]. Qed.

Lemma get_state_run nid s :
  transport_inv s → ∃ o, get_state nid s = (Ok o, s) ∧
    match o with
    | Some st => state_of (db s) nid st
    | None => ∀ i st, transport_states (db s) !! i = Some st → ts_node_id st ≠ nid
    end.
Proof.
  intros HI. destruct (select_unique_run transport_states_tbl (λ r, ts_node_id r =? nid) s) as (o & Hrun & Ho).
  - apply HI.
  - intros i j p q Hi Hj Hp%Z.eqb_eq Hq%Z.eqb_eq. eapply (ti_unique _ HI); [exact Hi|exact Hj|congruence].
  - exists o. split; [exact Hrun|]. destruct o as [st|].
    + destruct Ho as [Hst Hn%Z.eqb_eq]. done.
    + intros i st Hi. apply Z.eqb_neq. eapply Ho, Hi.
Qed.

(** A row inserted for a node that has none. *)
Lemma insert_state_step mk s :
  let st := mk (next_uuid s) (clock s (ticks s)) in
  transport_inv s → ts_id st = next_uuid s →
  (∀ i r, transport_states (db s) !! i = Some r → ts_node_id r ≠ ts_node_id st) →
  ∃ s', create transport_states_tbl mk s = (Ok st, s') ∧ states_step (λ n, n = ts_node_id st) s s' ∧
    state_of (db s') (ts_node_id st) st.
Proof.
  intros st HI Hid Hnone. rewrite create_run. cbv zeta. fold st.
  change (t_id transport_states_tbl st) with (ts_id st). rewrite Hid.
  change (t_rows transport_states_tbl (db s)) with (transport_states (db s)).
  rewrite (ti_fresh _ HI) by lia. cbn [t_check transport_states_tbl]. unfold unique_on, unique.
  rewrite (proj2 (clashes_false _ _ _ _)).
  2:{ intros i r Hi _. apply Z.eqb_neq. by eapply Hnone. }
  eexists. split; [done|].
  assert (Hfr : transport_states (db s) !! ts_id st = None) by (rewrite Hid; apply (ti_fresh _ HI); lia).
  split.
  - split; cbn; try done; [lia|lia| |].
    + intros [H1 H2 H3 H4]. split; cbn.
      * done.
      * by apply (keyed_put transport_states_tbl).
      * intros i j a b. rewrite !lookup_insert. repeat case_decide; subst; try done.
        -- intros [= <-] Hj Heq. by destruct (Hnone j b Hj).
        -- intros Hi [= <-] Heq. by destruct (Hnone i a Hi).
        -- apply H3.
      * intros i Hi. rewrite lookup_insert_ne by lia. apply H4. lia.
    + intros nid r Hn [Hr Hnid]. split; [|done]. cbn. rewrite lookup_insert_ne; [done|]. congruence.
  - split; [|done]. cbn. by rewrite lookup_insert_eq.
Qed.

(** The row [get_or_create] inserts. *)
Definition fresh_state (nid id now : Z) : NodeTransportState :=
  {| ts_id := id; ts_node_id := nid; current_epoch := 0; last_snapshot_id := None;
     last_snapshot_request_event_id := None; last_snapshot_requested_at := None;
     last_snapshot_generated_at := None; last_snapshot_reason := None;
     last_command_published_at := None; last_command_message_id := None;
     last_result_received_at := None; last_result_event_id := None;
     last_heartbeat_received_at := None; last_sync_report_received_at := None;
     ts_updated_at := now |}.

Lemma state_of_unique s nid a b :
  transport_inv s → state_of (db s) nid a → state_of (db s) nid b → a = b.
Proof.
  intros HI [Ha Hna] [Hb Hnb].
  assert (ts_id a = ts_id b) as E by (eapply (ti_unique _ HI); [done..|congruence]). congruence.
Qed.

Lemma get_state_found nid st s : transport_inv s → state_of (db s) nid st → get_state nid s = (Ok (Some st), s).
Proof.
  intros HI Hst. destruct (get_state_run nid s HI) as ([st'|] & -> & H).
  - by rewrite (state_of_unique s nid st' st).
  - destruct Hst as [Hst Hn]. by destruct (H _ _ Hst).
Qed.

Lemma get_or_create_run nid s :
  transport_inv s →
  ∃ st s', get_or_create nid s = (Ok st, s') ∧ states_step (λ n, n = nid) s s' ∧ state_of (db s') nid st ∧
    (state_of (db s) nid st ∨ current_epoch st = 0 ∧ last_snapshot_id st = None ∧
       ∀ old, ¬ state_of (db s) nid old).
Proof.
  intros HI. unfold get_or_create, mbind at 1, M_bind at 1.
  destruct (get_state_run nid s HI) as ([st|] & -> & H).
  - exists st, s. split_and!; [done|reflexivity|done|by left].
  - destruct (insert_state_step (fresh_state nid) s HI) as (s' & Hrun & Hstep & Hst); [done|exact H|].
    change (create transport_states_tbl (fresh_state nid) s = (Ok (fresh_state nid (next_uuid s) (clock s (ticks s))), s')) in Hrun.
    unfold fresh_state at 1 in Hrun. unfold mbind, M_bind. rewrite Hrun.
    rewrite (get_state_found nid _ s' (ss_inv _ _ _ Hstep HI) Hst).
    eexists _, s'. split_and!; [done|done|done|right]. split_and!; [done..|].
    intros old [Hold Hn]. by destruct (H _ _ Hold).
Qed.

(** An update of a node's row that keeps its identity. *)
Lemma update_state_run nid f s st :
  transport_inv s → state_of (db s) nid st →
  (∀ r, ts_id (f r) = ts_id r ∧ ts_node_id (f r) = ts_node_id r) →
  ∃ s', update_state nid f s = (Ok tt, s') ∧ states_step (λ n, n = nid) s s' ∧
    state_of (db s') nid (f (touch_transport_state (clock s (ticks s)) st)).
Proof.
  intros HI [Hst Hn] Hf. unfold update_state, mbind at 1, M_bind at 1, utcnow. fold (tick s).
  set (now := clock s (ticks s)).
  destruct (update_where_map transport_states_tbl ltac:(done) (λ r, ts_node_id r =? nid)
    (λ r, f (touch_transport_state now r)) (tick s)) as [ids Hrun].
  { apply HI. }
  { intros r. apply (Hf (touch_transport_state now r)). }
  { intros d r. cbn [t_check transport_states_tbl]. unfold unique_on, unique.
    destruct (Hf (touch_transport_state now r)) as [_ ->]. cbn. by rewrite Z.eqb_refl. }
  unfold mbind, M_bind. rewrite Hrun. eexists. split; [done|]. cbn [t_rows t_set transport_states_tbl].
  set (g := λ r : NodeTransportState, _).
  assert (Hg : ∀ r, ts_id (g r) = ts_id r ∧ ts_node_id (g r) = ts_node_id r).
  { intros r. unfold g. destruct (ts_node_id r =? nid); [apply (Hf (touch_transport_state now r))|done]. }
  split.
  - split; cbn; try done; [lia| |].
    + intros [H1 H2 H3 H4]. split; cbn.
      * done.
      * intros i r. cbn. rewrite lookup_fmap, fmap_Some. intros (r0 & Hr0 & ->). rewrite (proj1 (Hg r0)). by apply H2.
      * intros i j a b. rewrite !lookup_fmap, !fmap_Some. intros (a0 & Ha & ->) (b0 & Hb & ->).
        rewrite !(proj2 (Hg _)). by apply H3.
      * intros i Hi. by rewrite lookup_fmap, H4.
    + intros n r Hne [Hr Hrn]. split; [|done]. cbn. rewrite lookup_fmap, Hr. cbn. unfold g.
      by rewrite (proj2 (Z.eqb_neq _ _)) by congruence.
  - unfold state_of. rewrite (proj1 (Hf _)), (proj2 (Hf _)). cbn. split; [|done].
    rewrite lookup_fmap, Hst. cbn. unfold g. by rewrite Hn, Z.eqb_refl.
Qed.

(** A touch: the row is made if need be, then written. *)
Lemma touch_run nid f s :
  transport_inv s → (∀ r, ts_id (f r) = ts_id r ∧ ts_node_id (f r) = ts_node_id r) →
  ∃ s', (get_or_create nid ;; update_state nid f) s = (Ok tt, s') ∧ states_step (λ n, n = nid) s s'.
Proof.
  intros HI Hf. destruct (get_or_create_run nid s HI) as (st & s1 & Hrun1 & Hstep1 & Hst & _).
  destruct (update_state_run nid f s1 st) as (s2 & Hrun2 & Hstep2 & _); [by apply (ss_inv _ _ _ Hstep1)|done..|].
  exists s2. unfold mbind, M_bind. rewrite Hrun1. split; [done|]. by transitivity s1.
Qed.

Lemma touch_command_run nid m at_ s :
  transport_inv s → ∃ s', touch_command nid m at_ s = (Ok tt, s') ∧ states_step (λ n, n = nid) s s'.
Proof. intros HI. by apply touch_run. Qed.

Lemma touch_result_run nid e at_ s :
  transport_inv s → ∃ s', touch_result nid e at_ s = (Ok tt, s') ∧ states_step (λ n, n = nid) s s'.
Proof. intros HI. by apply touch_run. Qed.

(** * Snapshot epochs *)

(** The snapshot a node's row names. *)
Definition reserved (d : database) (nid : Z) (req sid : string) (epoch : Z) : Prop :=
  ∃ st, state_of d nid st ∧ last_snapshot_request_event_id st = Some req ∧
    last_snapshot_id st = Some sid ∧ current_epoch st = epoch.

Lemma already_reserved_spec req st sid :
  already_reserved req st = Some sid ↔
  last_snapshot_request_event_id st = Some req ∧ last_snapshot_id st = Some sid ∧ nonempty sid = true.
Proof.
  unfold already_reserved. destruct (last_snapshot_id st) as [x|]; [|split; [done|by intros (_ & ? & _)]].
  destruct (bool_decide_reflect (last_snapshot_request_event_id st = Some req)) as [Hr|Hr]; cbn;
    [|split; [done|by intros (? & _)]].
  destruct (nonempty x) eqn:Hx; split; try done.
  - by intros [= <-].
  - by intros (_ & [= <-] & _).
  - intros (_ & [= <-] & ?). congruence.
Qed.

Lemma reserve_again nid req sid epoch sid2 reason rq gen s :
  transport_inv s → reserved (db s) nid req sid epoch → nonempty sid = true →
  reserve_snapshot_epoch nid req sid2 reason rq gen s = (Ok (epoch, sid), s).
Proof.
  intros HI (st & Hst & Hreq & Hsid & <-) Hne.
  unfold reserve_snapshot_epoch, get_or_create, mbind, M_bind.
  rewrite (get_state_found nid st s HI Hst). cbn. rewrite (get_state_found nid st s HI Hst).
  by rewrite (proj2 (already_reserved_spec req st sid)).
Qed.

Lemma reserve_run nid req sid reason rq gen s :
  transport_inv s → nonempty sid = true →
  ∃ epoch sid' s1,
    reserve_snapshot_epoch nid req sid reason rq gen s = (Ok (epoch, sid'), s1) ∧
    states_step (λ n, n = nid) s s1 ∧ reserved (db s1) nid req sid' epoch ∧ nonempty sid' = true ∧
    (reserved (db s) nid req sid' epoch ∨
     sid' = sid ∧ ((∃ old, state_of (db s) nid old ∧ epoch = current_epoch old + 1) ∨
                   (∀ old, ¬ state_of (db s) nid old) ∧ epoch = 1)).
Proof.
  intros HI Hne. destruct (get_or_create_run nid s HI) as (st & s1 & Hrun & Hstep & Hst & Hold).
  pose proof (ss_inv _ _ _ Hstep HI) as HI1.
  assert (Hpre : reserve_snapshot_epoch nid req sid reason rq gen s =
    match already_reserved req st with
    | Some x => (Ok (current_epoch st, x), s1)
    | None => reserve_snapshot_epoch nid req sid reason rq gen s1
    end).
  { unfold reserve_snapshot_epoch at 1, mbind, M_bind. rewrite Hrun, (get_state_found nid st s1 HI1 Hst).
    destruct (already_reserved req st) as [x|] eqn:Hx; [done|].
    unfold reserve_snapshot_epoch, get_or_create, mbind, M_bind.
    rewrite (get_state_found nid st s1 HI1 Hst). cbn. by rewrite (get_state_found nid st s1 HI1 Hst), Hx. }
  rewrite Hpre. destruct (already_reserved req st) as [x|] eqn:Hx.
  - apply already_reserved_spec in Hx as (Hreq & Hsid & Hxne).
    exists (current_epoch st), x, s1. split_and!; [done|done|by exists st|done|left].
    destruct Hold as [Hold|(_ & Hno & _)]; [by exists st|congruence].
  - unfold reserve_snapshot_epoch, get_or_create, mbind, M_bind.
    rewrite (get_state_found nid st s1 HI1 Hst). cbn. rewrite (get_state_found nid st s1 HI1 Hst), Hx.
    set (f := λ r : NodeTransportState, _). destruct (update_state_run nid f s1 st HI1 Hst) as (s2 & Hrun2 & Hstep2 & Hst2); [done|].
    rewrite Hrun2. exists (current_epoch st + 1), sid, s2. split_and!; [done|by transitivity s1| |done|right].
    + by eexists.
    + split; [done|]. destruct Hold as [Hold|(-> & _ & Hno)]; [left; by exists st|by right].
Qed.

(** Reserving a snapshot epoch returns; the node's row then names the
    request, its snapshot and its epoch, the rows of other nodes stay.  The same
    request asked again, with whatever snapshot id, gets the same answer and
    writes nothing; a new request gets its own snapshot id and the node's last
    epoch plus one (one for a node seen first). *)
Theorem snapshot_epoch_spec nid req sid reason rq gen s :
  transport_inv s → nonempty sid = true →
  ∃ epoch sid' s1,
    reserve_snapshot_epoch nid req sid reason rq gen s = (Ok (epoch, sid'), s1) ∧
    transport_inv s1 ∧ reserved (db s1) nid req sid' epoch ∧
    (∀ n st, n ≠ nid → state_of (db s) n st → state_of (db s1) n st) ∧
    (∀ sid2 reason2 rq2 gen2,
       reserve_snapshot_epoch nid req sid2 reason2 rq2 gen2 s1 = (Ok (epoch, sid'), s1)) ∧
    ((∃ sid0 epoch0, reserved (db s) nid req sid0 epoch0 ∧ nonempty sid0 = true) →
       reserved (db s) nid req sid' epoch) ∧
    (∀ old, state_of (db s) nid old → last_snapshot_request_event_id old ≠ Some req →
       sid' = sid ∧ epoch = current_epoch old + 1) ∧
    ((∀ old, ¬ state_of (db s) nid old) → sid' = sid ∧ epoch = 1).
Proof.
  intros HI Hne. destruct (reserve_run nid req sid reason rq gen s HI Hne)
    as (epoch & sid' & s1 & Hrun & Hstep & Hres & Hne' & Hcase).
  pose proof (ss_inv _ _ _ Hstep HI) as HI1.
  exists epoch, sid', s1. split_and!; [done|done|done|apply (ss_others _ _ _ Hstep)| | | |].
  - intros. by apply reserve_again.
  - intros (sid0 & epoch0 & H0 & Hne0). rewrite (reserve_again nid req sid0 epoch0) in Hrun by done.
    by injection Hrun as <- <- _.
  - intros old Hold Hreq. destruct Hcase as [(st & Hst & Hr & _)|(-> & [(o & Ho & ->)|[Hno _]])].
    + by rewrite (state_of_unique s nid old st) in Hreq.
    + by rewrite (state_of_unique s nid old o).
    + by destruct (Hno old).
  - intros Hno. destruct Hcase as [(st & Hst & _)|(-> & [(o & Ho & _)|[_ ->]])]; [|by destruct (Hno o)|done].
    by destruct (Hno st).
Qed.

(** * The outbox publisher *)

Lemma outbox_update P f s :
  transport_inv s → (∀ r, ob_id (f r) = ob_id r ∧ ob_message_id (f r) = ob_message_id r) →
  ∃ ids s', update_where outbox_tbl P f s = (Ok ids, s') ∧
    s' = with_db (set_outbox ((λ r, if P r then f r else r) <$> outbox (db s))) s ∧ transport_inv s'.
Proof.
  intros HI Hf. destruct (update_where_map outbox_tbl ltac:(done) P f s) as [ids Hrun].
  - apply HI.
  - apply Hf.
  - intros d r. cbn [t_check outbox_tbl]. unfold unique_on, unique.
    by rewrite (bool_decide_true _ (eq_sym (proj2 (Hf r)))).
  - exists ids. eexists. split_and!; [exact Hrun|done|]. destruct HI as [H1 H2 H3 H4]. split; [|done..].
    intros i r. cbn. rewrite lookup_fmap, fmap_Some. intros (r0 & Hr0 & ->).
    destruct (P r0); rewrite ?(proj1 (Hf _)); by apply H1.
Qed.

(** A claimed row, and a row after the broker's answer [res] at [t]. *)
Definition claimed (now : Z) (r : NodeTransportOutbox) : NodeTransportOutbox :=
  with_outbox ob_publishing (ob_attempts r + 1) (ob_published_at r) (ob_last_error r)
    (ob_next_retry_at r) now r.

Definition marked (res : outcome exn unit) (t now : Z) (r : NodeTransportOutbox) : NodeTransportOutbox :=
  match res with
  | Ok _ => with_outbox ob_published (ob_attempts r) (Some t) None None now r
  | Raise e => with_outbox ob_failed (ob_attempts r) (ob_published_at r)
                 (Some (String.substring 0 4000 (exn_str e))) (Some (t + 5 * second)) now r
  end.

(** The message ids of the commands sent. *)
Definition sent_ids (l : list effect) : list message_id :=
  omap (λ e, match e with PublishCommand _ id _ _ _ => Some id | _ => None end) l.

Definition is_published (d : database) (i : Z) : bool :=
  match outbox d !! i with Some r => bool_decide (ob_status r = ob_published) | None => false end.

(** [s'] comes after [s], with [new] sent. *)
Record later (s s' : session) (new : list message_id) : Prop := {
  la_inv : transport_inv s → transport_inv s';
  la_clock : clock s' = clock s;
  la_ticks : (ticks s ≤ ticks s')%nat;
  la_sent : sent_ids (effects s') = sent_ids (effects s) ++ new;
}.

Lemma later_trans s1 s2 s3 l1 l2 : later s1 s2 l1 → later s2 s3 l2 → later s1 s3 (l1 ++ l2).
Proof.
  intros [I1 C1 T1 E1] [I2 C2 T2 E2]. split; [auto|congruence|lia|].
  by rewrite E2, E1, (assoc_L (++)).
Qed.

Lemma states_later P s s' : states_step P s s' → later s s' [] ∧ outbox (db s') = outbox (db s).
Proof.
  intros [D E C T _ I _]. split; [split; [done|done|lia|by rewrite E, app_nil_r]|]. by rewrite D.
Qed.

Lemma tick_later s : later s (tick s) [].
Proof. split; cbn; [by intros [? ? ? ?]|done|lia|by rewrite app_nil_r]. Qed.

Lemma mark_run (P : NodeTransportOutbox → bool) f s :
  transport_inv s → (∀ now r, ob_id (f now r) = ob_id r ∧ ob_message_id (f now r) = ob_message_id r) →
  ∃ now s', (t ← utcnow; update_where outbox_tbl P (f t) ;; mret tt) s = (Ok tt, s') ∧ later s s' [] ∧
    outbox (db s') = (λ r, if P r then f now r else r) <$> outbox (db s).
Proof.
  intros HI Hf. unfold mbind, M_bind, utcnow. fold (tick s).
  set (now := clock s (ticks s)).
  destruct (outbox_update P (f now) (tick s)) as (ids & s' & Hrun & -> & HI');
    [by apply (la_inv _ _ _ (tick_later s))|done|].
  exists now. eexists. rewrite Hrun. split; [done|]. split; [|done].
  split; cbn; [done|done|lia|by rewrite app_nil_r].
Qed.

Section PublishRun.
Context (broker : message_id → Z → outcome exn unit).

Definition accepted (m : message_id) (t : Z) : bool :=
match broker m t with Ok _ => true | Raise _ => false end.

(** The transport state looked up for a command. *)
Lemma command_state_run p s :
transport_inv s →
∃ o s', (match p with
         | PlacementCommand c => st ← get_or_create (pc_node_id c); mret (Some st)
         | UpstreamChanged _ _ _ _ _ _ _ | EntryPoolChanged _ _ _ _ => mret None
         end : SM (option NodeTransportState)) s = (Ok o, s') ∧ later s s' [] ∧
  outbox (db s') = outbox (db s).
Proof using Type.
intros HI. destruct p as [c| |].
{ destruct (get_or_create_run (pc_node_id c) s HI) as (st & s' & Hrun & Hstep & _).
  exists (Some st), s'. unfold mbind, M_bind. rewrite Hrun. split; [done|]. by eapply states_later. }
all: exists None, s; (split_and!; [done| |done]); (split; [done|done|lia|by rewrite app_nil_r]).
Qed.

(** The touch after a command was sent. *)
Lemma command_touch_run p m t s :
transport_inv s →
∃ s', (match p with
       | PlacementCommand c => touch_command (pc_node_id c) m t
       | UpstreamChanged _ _ _ _ _ _ _ | EntryPoolChanged _ _ _ _ => mret tt
       end : SM unit) s = (Ok tt, s') ∧ later s s' [] ∧ outbox (db s') = outbox (db s).
Proof using Type.
intros HI. destruct p as [c| |].
{ destruct (touch_command_run (pc_node_id c) m t s HI) as (s' & Hrun & Hstep).
  exists s'. split; [done|]. by eapply states_later. }
all: exists s; (split_and!; [done| |done]); (split; [done|done|lia|by rewrite app_nil_r]).
Qed.

Lemma publish_row_run r s :
transport_inv s →
let t := clock s (ticks s) in let res := broker (ob_message_id r) t in
∃ now s', publish_row broker r s = (Ok (accepted (ob_message_id r) t), s') ∧
  later s s' (if accepted (ob_message_id r) t then [ob_message_id r] else []) ∧
  outbox (db s') = (λ x, if ob_id x =? ob_id r then marked res t now x else x) <$> outbox (db s).
Proof using Type.
intros HI t res. unfold publish_row, mbind at 1, M_bind at 1, utcnow. fold (tick s). fold t.
pose proof (tick_later s) as L0. pose proof (la_inv _ _ _ L0 HI) as HI0.
destruct (command_state_run (ob_payload r) (tick s) HI0) as (o & s1 & Hrun1 & L1 & Ho1).
pose proof (la_inv _ _ _ L1 HI0) as HI1. pose proof (later_trans _ _ _ _ _ L0 L1) as L01. cbn in L01.
unfold mbind at 1, M_bind at 1. rewrite Hrun1. fold res. unfold accepted. fold res.
destruct res as [[]|e] eqn:Hres.
- set (ev := PublishCommand _ _ _ _ _).
  set (s2 := {| db := db s1; clock := clock s1; ticks := ticks s1; next_uuid := next_uuid s1;
                effects := effects s1 ++ [ev] |}).
  assert (L2 : later s1 s2 [ob_message_id r]).
  { split; cbn; [by intros [? ? ? ?]|done|lia|]. unfold sent_ids. by rewrite omap_app. }
  destruct (mark_run (λ x, ob_id x =? ob_id r) (marked (Ok tt) t) s2) as (now & s3 & Hrun3 & L3 & Ho3);
    [by apply (la_inv _ _ _ L2)|done|].
  pose proof (later_trans _ _ _ _ _ (later_trans _ _ _ _ _ L01 L2) L3) as L.
  destruct (command_touch_run (ob_payload r) (ob_message_id r) t s3) as (s4 & Hrun4 & L4 & Ho4);
    [by apply (la_inv _ _ _ L)|].
  change (mark_published (ob_id r) t s2 = (Ok tt, s3)) in Hrun3.
  exists now, s4. unfold mbind at 1, M_bind at 1, emit, modify. fold s2.
  unfold mbind at 1, M_bind at 1. rewrite Hrun3.
  unfold mbind at 1, M_bind at 1. rewrite Hrun4. split; [done|]. split.
  + exact (later_trans _ _ _ _ _ L L4).
  + change (outbox (db s2)) with (outbox (db s1)) in Ho3. by rewrite Ho4, Ho3, Ho1.
- destruct (mark_run (λ x, ob_id x =? ob_id r) (marked (Raise e) t) s1) as (now & s3 & Hrun3 & L3 & Ho3);
    [done|done|].
  change (mark_failed (ob_id r) (exn_str e) (t + 5 * second) s1 = (Ok tt, s3)) in Hrun3.
  exists now, s3. unfold mbind at 1, M_bind at 1. rewrite Hrun3. split; [done|]. split.
  + exact (later_trans _ _ _ _ _ L01 L3).
  + by rewrite Ho3, Ho1.
Qed.

(** The rows of [ids] got the broker's answer at some reading of [clk], the
    others stay. *)
Definition settled (clk : nat → Z) (ids : list Z) (m m' : gmap Z NodeTransportOutbox) : Prop :=
∀ i, match m !! i with
     | None => m' !! i = None
     | Some x =>
         if decide (i ∈ ids)
         then ∃ k now, m' !! i = Some (marked (broker (ob_message_id x) (clk k)) (clk k) now x)
         else m' !! i = Some x
     end.

Lemma settled_cons clk ids r t k now m m1 m2 :
ob_id r ∉ ids → t = clk k →
(∀ i x, m !! i = Some x → ob_id x = i) → (∀ x, m !! ob_id r = Some x → ob_message_id x = ob_message_id r) →
m1 = (λ x, if ob_id x =? ob_id r then marked (broker (ob_message_id r) t) t now x else x) <$> m →
settled clk ids m1 m2 → settled clk (ob_id r :: ids) m m2.
Proof using Type.
intros Hr -> Hk Hmsg -> H i. specialize (H i). rewrite lookup_fmap in H.
destruct (m !! i) as [x|] eqn:Hx; cbn in H; [|done].
rewrite (Hk i x Hx) in H. destruct (decide (i = ob_id r)) as [->|Hi].
- rewrite Z.eqb_refl, decide_False in H by done. rewrite decide_True by (by left).
  exists k, now. by rewrite (Hmsg x Hx).
- rewrite (proj2 (Z.eqb_neq _ _) Hi) in H.
  destruct (decide (i ∈ ids)) as [Hin|Hin].
  + by rewrite decide_True by (by right).
  + rewrite decide_False; [done|]. by apply not_elem_of_cons.
Qed.

Lemma publish_rows_run l s :
transport_inv s → NoDup (ob_id <$> l) →
(∀ r, r ∈ l → ∃ x, outbox (db s) !! ob_id r = Some x ∧ ob_message_id x = ob_message_id r) →
∃ s', let new := ob_message_id <$> filter (λ r, is_published (db s') (ob_id r) = true) l in
  publish_rows broker l s = (Ok (Z.of_nat (length new)), s') ∧ later s s' new ∧
  settled (clock s) (ob_id <$> l) (outbox (db s)) (outbox (db s')).
Proof using Type.
revert s. induction l as [|r l IH]; intros s HI Hnd Hl.
{ exists s. cbn. split_and!; [done|split; [done|done|lia|by rewrite app_nil_r]|].
  intros i. destruct (outbox (db s) !! i) eqn:E; rewrite ?E; [|done].
  by rewrite decide_False by apply not_elem_of_nil. }
cbn [fmap list_fmap] in Hnd. apply NoDup_cons in Hnd as [Hr Hnd].
destruct (publish_row_run r s HI) as (now & s1 & Hrun1 & L1 & Ho1).
destruct (Hl r ltac:(left)) as (x0 & Hx0 & Hm0).
destruct (IH s1) as (s2 & Hrun2 & L2 & Hset); [by apply (la_inv _ _ _ L1)|done| |].
{ intros r' Hr'. destruct (Hl r' ltac:(by right)) as (x & Hx & Hm). rewrite Ho1, lookup_fmap, Hx. cbn.
  eexists. split; [done|]. destruct (ob_id x =? ob_id r); [|done].
  by destruct (broker (ob_message_id r) _). }
rewrite (la_clock _ _ _ L1) in Hset.
assert (Hset' : settled (clock s) (ob_id <$> r :: l) (outbox (db s)) (outbox (db s2))).
{ eapply settled_cons; [done|done| | |exact Ho1|done].
  - apply HI.
  - intros x Hx. congruence. }
exists s2. cbn zeta.
assert (Hpub : is_published (db s2) (ob_id r) = accepted (ob_message_id r) (clock s (ticks s))).
{ specialize (Hset (ob_id r)). rewrite Ho1, lookup_fmap, Hx0 in Hset. cbn in Hset.
  rewrite decide_False in Hset by done. unfold is_published. rewrite Hset.
  rewrite (ti_outbox _ HI _ _ Hx0 : ob_id x0 = ob_id r), Z.eqb_refl. unfold accepted.
  by destruct (broker _ _). }
cbn [publish_rows]. unfold mbind, M_bind. rewrite Hrun1, Hrun2. rewrite filter_cons. rewrite Hpub.
destruct (accepted _ _).
- rewrite decide_True by done. split_and!; [|exact (later_trans _ _ _ _ _ L1 L2)|done].
  cbn. unfold mret, M_ret. do 2 f_equal. lia.
- rewrite decide_False by done. split_and!; [done|exact (later_trans _ _ _ _ _ L1 L2)|done].
Qed.
End PublishRun.

(** The rows a batch claims. *)
Definition to_claim (now : Z) (limit : nat) (d : database) : list NodeTransportOutbox :=
  take limit (outbox_order (filter (λ r, claimable now r = true) (rows (outbox d)))).

Lemma outbox_order_perm l : outbox_order l ≡ₚ l.
Proof. unfold outbox_order, order_by_asc. by rewrite !merge_sort_Permutation. Qed.

Lemma to_claim_spec now limit d r :
  r ∈ to_claim now limit d → claimable now r = true ∧ ∃ i, outbox d !! i = Some r.
Proof.
  unfold to_claim. intros Hr. apply elem_of_take in Hr as (k & Hr%list_elem_of_lookup_2 & _).
  rewrite outbox_order_perm in Hr. apply list_elem_of_filter in Hr as [Hc [i Hi]%elem_of_rows]. eauto.
Qed.

Lemma to_claim_NoDup now limit d : keyed outbox_tbl d → NoDup (ob_id <$> to_claim now limit d).
Proof.
  intros Hk. unfold to_claim. rewrite fmap_take.
  eapply sublist_NoDup; [|apply sublist_take]. rewrite outbox_order_perm.
  eapply sublist_NoDup; [exact (rows_ids_NoDup outbox_tbl d Hk)|]. apply fmap_sublist, sublist_filter.
Qed.

Section Batch.
Context (broker : message_id → Z → outcome exn unit).

Lemma batch_run limit s :
transport_inv s →
let batch := to_claim (clock s (ticks s)) limit (db s) in
∃ s', let new := ob_message_id <$> filter (λ r, is_published (db s') (ob_id r) = true) batch in
  _publish_outbox_batch broker limit s = (Ok (Z.of_nat (length new)), s') ∧ later s s' new ∧
  ∃ now, settled broker (clock s) (ob_id <$> batch)
    ((λ r, if bool_decide (ob_id r ∈ ob_id <$> batch) then claimed now r else r) <$> outbox (db s))
    (outbox (db s')).
Proof using Type.
intros HI batch. set (now := clock s (ticks s)) in *.
pose proof (tick_later s) as L0. pose proof (la_inv _ _ _ L0 HI) as HI0.
assert (Hbody : ∀ (k : list NodeTransportOutbox → SM (Z * bool)),
  (now ← utcnow; batch ← claim_batch now limit; k batch) s =
  match batch with
  | [] => k [] (tick s)
  | _ => (u ← (t ← utcnow; update_where outbox_tbl (λ r, bool_decide (ob_id r ∈ ob_id <$> batch)) (claimed t) ;; mret tt); k batch) (tick s)
  end).
{ intros k. unfold mbind at 1, M_bind at 1, utcnow at 1. fold (tick s). fold now.
  unfold claim_batch, mbind at 1, M_bind at 1, mbind at 1, M_bind at 1, select_where, read, gets.
  change (take limit _) with batch. destruct batch; [done|].
  unfold mbind, M_bind. cbn. by destruct (update_where _ _ _ _) as [[] ?]. }
unfold _publish_outbox_batch, run_committing, publish_outbox_body. rewrite Hbody.
destruct batch as [|b0 bs] eqn:Eb.
- cbn. eexists. split; [done|]. split; [split; cbn; [by intros [? ? ? ?]|done|lia|by rewrite app_nil_r]|].
  exists now. cbn. intros i. rewrite lookup_fmap. destruct (outbox (db s) !! i); [|done]. cbn.
  by rewrite decide_False by apply not_elem_of_nil.
- rewrite <-Eb in *. clear Hbody.
  destruct (mark_run (λ r, bool_decide (ob_id r ∈ ob_id <$> batch)) claimed (tick s) HI0)
    as (nw & s1 & Hrun1 & L1 & Ho1); [done|].
  pose proof (later_trans _ _ _ _ _ L0 L1) as L01. cbn in L01.
  destruct (publish_rows_run broker batch s1) as (s2 & Hrun2 & L2 & Hset).
  + by apply (la_inv _ _ _ L01).
  + apply to_claim_NoDup, HI.
  + intros r (_ & i & Hi)%to_claim_spec. rewrite Ho1, lookup_fmap.
    pose proof (ti_outbox _ HI _ _ Hi) as Hid. cbn in Hid. rewrite Hid. cbn [db tick]. rewrite Hi.
    eexists. split; [done|]. by destruct (bool_decide _).
  + exists s2. cbn zeta in *. unfold mbind at 1, M_bind at 1. rewrite Hrun1.
    unfold mbind, M_bind. rewrite Hrun2. rewrite Eb. cbn [mret M_ret]. rewrite <-Eb.
    split_and!; [done|exact (later_trans _ _ _ _ _ L01 L2)|]. exists nw.
    rewrite (la_clock _ _ _ L01) in Hset. by rewrite Ho1 in Hset.
Qed.

(** A run of the outbox publisher returns, whatever the broker answers.  It
    claims the oldest [limit] rows that are pending or failed with their retry
    time passed; each of them ends, one attempt later, published with its time
    or failed with the error and a retry five seconds later, as the broker
    answered; no other row changes, no row is left in publishing, and the
    commands sent are exactly those of the rows that ended published. *)
Theorem publish_outbox_spec limit s :
transport_inv s →
let batch := to_claim (clock s (ticks s)) limit (db s) in
∃ s', let new := ob_message_id <$> filter (λ r, is_published (db s') (ob_id r) = true) batch in
  _publish_outbox_batch broker limit s = (Ok (Z.of_nat (length new)), s') ∧ transport_inv s' ∧
  sent_ids (effects s') = sent_ids (effects s) ++ new ∧
  ∀ i, match outbox (db s) !! i with
  | None => outbox (db s') !! i = None
  | Some r => ∃ r', outbox (db s') !! i = Some r' ∧
      if decide (i ∈ ob_id <$> batch) then
        ob_message_id r' = ob_message_id r ∧ ob_payload r' = ob_payload r ∧
        ob_attempts r' = ob_attempts r + 1 ∧
        ∃ k, let t := clock s k in
          match broker (ob_message_id r) t with
          | Ok _ => ob_status r' = ob_published ∧ ob_published_at r' = Some t ∧
              ob_next_retry_at r' = None ∧ ob_last_error r' = None
          | Raise e => ob_status r' = ob_failed ∧ ob_next_retry_at r' = Some (t + 5 * second) ∧
              ob_last_error r' = Some (String.substring 0 4000 (exn_str e))
          end
      else r' = r
  end.
Proof using Type.
intros HI batch. destruct (batch_run limit s HI) as (s' & Hrun & L & now & Hset). fold batch in Hrun, L, Hset.
exists s'. cbn zeta. split_and!; [exact Hrun|by apply (la_inv _ _ _ L)|apply L|].
intros i. specialize (Hset i). rewrite lookup_fmap in Hset.
destruct (outbox (db s) !! i) as [r|] eqn:Hr; cbn in Hset; [|done].
pose proof (ti_outbox _ HI _ _ Hr) as Hid. cbn in Hid. rewrite Hid in Hset.
destruct (decide (i ∈ ob_id <$> batch)) as [Hin|Hin].
- rewrite bool_decide_true in Hset by done. destruct Hset as (k & nw & Hr').
  eexists. split; [exact Hr'|]. split_and!; try (by destruct (broker _ _)).
  exists k. cbn. destruct (broker (ob_message_id r) (clock s k)) eqn:E; cbn; [done|]. split_and!; done.
- rewrite bool_decide_false in Hset by done. by exists r.
Qed.
End Batch.

(** ** Draining *)

(** The rows still to be published. *)
Definition unpublished (d : database) : list NodeTransportOutbox :=
  filter (λ r, ob_status r ≠ ob_published) (rows (outbox d)).

(** Every row still to be published may be claimed from now on. *)
Definition ready (s : session) : Prop :=
  ∀ i r, outbox (db s) !! i = Some r → ob_status r ≠ ob_published →
    ∀ k, (ticks s ≤ k)%nat → claimable (clock s k) r = true.

Section Drain.
Context (broker : message_id → Z → outcome exn unit).
Hypothesis broker_accepts : ∀ m t, broker m t = Ok tt.

Lemma claimable_unpublished now r : claimable now r = true → ob_status r ≠ ob_published.
Proof using Type. unfold claimable. by destruct (ob_status r). Qed.

Lemma claims_unpublished limit s :
ready s → to_claim (clock s (ticks s)) limit (db s) = take limit (outbox_order (unpublished (db s))).
Proof using Type.
intros Hready. unfold to_claim, unpublished. do 2 f_equal. apply filter_ext_in.
intros r [i Hi]%elem_of_rows. split; [apply claimable_unpublished|]. intros H. by eapply Hready.
Qed.

Lemma elem_of_unpublished d r :
keyed outbox_tbl d → r ∈ unpublished d ↔ outbox d !! ob_id r = Some r ∧ ob_status r ≠ ob_published.
Proof using Type.
intros Hk. unfold unpublished. rewrite list_elem_of_filter, elem_of_rows. split.
- intros [Hs [i Hi]]. pose proof (Hk i r Hi) as Hid. cbn in Hid. by rewrite Hid.
- intros [Hr Hs]. eauto.
Qed.

Lemma unpublished_NoDup d : keyed outbox_tbl d → NoDup (ob_id <$> unpublished d).
Proof using Type.
intros Hk. eapply sublist_NoDup; [exact (rows_ids_NoDup outbox_tbl d Hk)|].
apply fmap_sublist, sublist_filter.
Qed.

(** What a round leaves of a row. *)
Lemma drain_after limit s :
transport_inv s → ready s →
let ids := ob_id <$> take limit (outbox_order (unpublished (db s))) in
∃ s', let new := ob_message_id <$> filter (λ r, is_published (db s') (ob_id r) = true)
                    (take limit (outbox_order (unpublished (db s)))) in
  _publish_outbox_batch broker limit s = (Ok (Z.of_nat (length new)), s') ∧ later s s' new ∧
  ∀ i, match outbox (db s) !! i with
  | None => outbox (db s') !! i = None
  | Some r =>
      if decide (i ∈ ids)
      then ∃ r', outbox (db s') !! i = Some r' ∧ ob_status r' = ob_published ∧
             ob_message_id r' = ob_message_id r
      else outbox (db s') !! i = Some r
  end.
Proof using All.
intros HI Hready ids. destruct (batch_run broker limit s HI) as (s' & Hrun & L & now & Hset).
rewrite (claims_unpublished limit s Hready) in Hrun, L, Hset. fold ids in Hset.
exists s'. split_and!; [done..|]. intros i. specialize (Hset i). rewrite lookup_fmap in Hset.
destruct (outbox (db s) !! i) as [r|] eqn:Hr; cbn in Hset; [|done].
pose proof (ti_outbox _ HI _ _ Hr) as Hid. cbn in Hid. rewrite Hid in Hset.
destruct (decide (i ∈ ids)) as [Hin|Hin].
- rewrite bool_decide_true in Hset by done. destruct Hset as (k & nw & Hr').
  rewrite broker_accepts in Hr'. by eexists.
- by rewrite bool_decide_false in Hset by done.
Qed.

(** A round takes the first [limit] of them. *)
Lemma drain_step limit s :
transport_inv s → ready s →
let q := outbox_order (unpublished (db s)) in
∃ n s', _publish_outbox_batch broker limit s = (Ok n, s') ∧ ready s' ∧
  later s s' (ob_message_id <$> take limit q) ∧ unpublished (db s') ≡ₚ drop limit q ∧
  ∀ i r, outbox (db s) !! i = Some r →
    ∃ r', outbox (db s') !! i = Some r' ∧ ob_message_id r' = ob_message_id r.
Proof using All.
intros HI Hready q. destruct (drain_after limit s HI Hready) as (s' & Hrun & L & Hafter). fold q in Hrun, L, Hafter.
assert (Hq : ∀ r, r ∈ q ↔ outbox (db s) !! ob_id r = Some r ∧ ob_status r ≠ ob_published).
{ intros r. unfold q. rewrite outbox_order_perm. apply elem_of_unpublished, HI. }
assert (Hnd : NoDup (ob_id <$> q)).
{ unfold q. rewrite outbox_order_perm. apply unpublished_NoDup, HI. }
assert (Hpub : filter (λ r, is_published (db s') (ob_id r) = true) (take limit q) = take limit q).
{ apply filter_unchanged. intros r Hr. specialize (Hafter (ob_id r)).
  destruct (proj1 (Hq r)) as [Hr0 _]; [by apply elem_of_take in Hr as (? & ?%list_elem_of_lookup_2 & _)|].
  rewrite Hr0, decide_True in Hafter by (by apply list_elem_of_fmap_2).
  destruct Hafter as (r' & Hr' & Hs & _). unfold is_published. rewrite Hr'. by rewrite bool_decide_true. }
assert (Hkept : ∀ i r, outbox (db s') !! i = Some r → ob_status r ≠ ob_published →
  outbox (db s) !! i = Some r ∧ i ∉ ob_id <$> take limit q).
{ intros i r Hr Hs. specialize (Hafter i). destruct (outbox (db s) !! i) as [r0|]; [|congruence].
  destruct (decide _) as [|Hin]; [destruct Hafter as (r' & Hr' & Hs' & _); congruence|].
  split; [congruence|done]. }
rewrite Hpub in Hrun, L. eexists _, s'. split_and!; [exact Hrun| |exact L| |].
- intros i r Hr Hs k Hk. rewrite (la_clock _ _ _ L). eapply Hready; [by apply Hkept|done|].
  pose proof (la_ticks _ _ _ L). lia.
- pose proof (la_inv _ _ _ L HI) as HI'. apply NoDup_Permutation.
  + eapply NoDup_fmap_1, unpublished_NoDup, HI'.
  + eapply NoDup_fmap_1. rewrite fmap_drop. eapply sublist_NoDup; [exact Hnd|]. apply sublist_drop.
  + intros r. rewrite elem_of_unpublished by apply HI'.
    rewrite <-(take_drop limit q), fmap_app, NoDup_app in Hnd. destruct Hnd as (_ & Hdisj & _). split.
    * intros [Hr Hs]. destruct (Hkept _ _ Hr Hs) as [Hr0 Hin].
      assert (r ∈ take limit q ++ drop limit q) as Hrq by (rewrite take_drop; by apply Hq).
      apply elem_of_app in Hrq as [Ht|]; [|done]. by destruct Hin; apply list_elem_of_fmap_2.
    * intros Hr. destruct (proj1 (Hq r)) as [Hr0 Hs].
      { rewrite <-(take_drop limit q). apply elem_of_app. by right. }
      specialize (Hafter (ob_id r)). rewrite Hr0, decide_False in Hafter; [done|].
      intros Ht. by eapply Hdisj; [exact Ht|apply list_elem_of_fmap_2].
- intros i r Hr. specialize (Hafter i). rewrite Hr in Hafter. destruct (decide _); [|by exists r].
  destruct Hafter as (r' & Hr' & _ & Hm). by exists r'.
Qed.

Lemma drain_rounds limit n s :
transport_inv s → ready s → (length (unpublished (db s)) ≤ n * limit)%nat →
∃ s' new, _run_outbox_publisher broker limit n s = (Ok tt, s') ∧ transport_inv s' ∧
  unpublished (db s') = [] ∧ sent_ids (effects s') = sent_ids (effects s) ++ new ∧
  new ≡ₚ ob_message_id <$> unpublished (db s) ∧
  ∀ i r, outbox (db s) !! i = Some r →
    ∃ r', outbox (db s') !! i = Some r' ∧ ob_message_id r' = ob_message_id r.
Proof using All.
revert s. induction n as [|n IH]; intros s HI Hready Hlen.
- apply Nat.le_0_r, nil_length_inv in Hlen. exists s, []. split_and!; [done..| | |eauto].
  + by rewrite app_nil_r.
  + by rewrite Hlen.
- destruct (drain_step limit s HI Hready) as (m & s1 & Hrun1 & Hready1 & L & Hperm & Hrows).
  set (q := outbox_order (unpublished (db s))) in *.
  assert (Hq : q ≡ₚ unpublished (db s)) by apply outbox_order_perm.
  destruct (IH s1) as (s2 & new & Hrun2 & HI2 & Hempty & Hsent & Hnew & Hrows2);
    [by apply (la_inv _ _ _ L)|done| |].
  { rewrite Hperm, length_drop, Hq. cbn in Hlen. lia. }
  exists s2, ((ob_message_id <$> take limit q) ++ new).
  split_and!; [|done|done| | |].
  + cbn [_run_outbox_publisher]. unfold mbind, M_bind, catch. by rewrite Hrun1.
  + by rewrite Hsent, (la_sent _ _ _ L), (assoc_L (++)).
  + by rewrite Hnew, Hperm, <-fmap_app, take_drop, Hq.
  + intros i r Hr. destruct (Hrows i r Hr) as (r1 & Hr1 & Hm1).
    destruct (Hrows2 i r1 Hr1) as (r2 & Hr2 & Hm2). exists r2. split; [done|congruence].
Qed.

(** C6: the outbox drains.  While the broker accepts messages, as many rounds of
    the publisher as it takes [limit] rows to cover the unpublished ones leave
    every row published, each unpublished command having been sent exactly once
    and no other. *)
Theorem outbox_drained limit n s :
transport_inv s → ready s → (length (unpublished (db s)) ≤ n * limit)%nat →
∃ s' new, _run_outbox_publisher broker limit n s = (Ok tt, s') ∧ transport_inv s' ∧
  sent_ids (effects s') = sent_ids (effects s) ++ new ∧
  new ≡ₚ ob_message_id <$> unpublished (db s) ∧
  ∀ i r, outbox (db s) !! i = Some r → ∃ r', outbox (db s') !! i = Some r' ∧
    ob_message_id r' = ob_message_id r ∧ ob_status r' = ob_published.
Proof using All.
intros HI Hready Hlen.
destruct (drain_rounds limit n s HI Hready Hlen) as (s' & new & Hrun & HI' & Hempty & Hsent & Hnew & Hrows).
exists s', new. split_and!; [done..|]. intros i r Hr. destruct (Hrows i r Hr) as (r' & Hr' & Hm).
exists r'. split_and!; [done|done|]. destruct (decide (ob_status r' = ob_published)) as [|Hs]; [done|].
destruct (not_elem_of_nil r'). rewrite <-Hempty. apply elem_of_unpublished; [apply HI'|].
pose proof (ti_outbox _ HI' _ _ Hr') as Hid. cbn in Hid. by rewrite Hid.
Qed.
End Drain.
