(* ===== verification/HeartbeatProps.v ===== *)
(** What a stream of heartbeats makes of a node: the consumer refines the counter
    machine, an administrator's drain holds, and what the details lose. *)

From stdpp Require Import base gmap strings list sorting.
From S2P Require Import Prelude Decimal Errors RouteModels BillingModels FleetModels Session Uuid NodeDisplay WgAllocator Tables FleetTables Routing Placements PlacementProps PlacementCommands Routes RouteProps ProbeRepo AgentDetails Entry EntryProps Nodes AgentTransport TransportProps NodeProps.
Local Open Scope Z_scope.

(** * The transport of the node's agent is left alone *)

Definition outbox_keyed (d d' : database) : Prop := keyed outbox_tbl d → keyed outbox_tbl d'.
#[export] Instance outbox_keyed_preorder : PreOrder outbox_keyed.
Proof. unfold outbox_keyed. split; [by intros d|intros d1 d2 d3; auto]. Qed.

Lemma keyed_same {A} (m : SM A) : keeps (on_db (same outbox)) m → keeps (on_db outbox_keyed) m.
Proof. intros H s. specialize (H s). unfold on_db, same, outbox_keyed, keyed in *. cbn. by rewrite H. Qed.

Lemma enqueue_one_keyed it : keeps (on_db outbox_keyed) (enqueue_one it).
Proof.
  unfold enqueue_one. keeps_tac. apply keeps_create; [apply _|]. intros d i now _ _ H.
  by apply keyed_put; [apply _|].
Qed.

#[export] Hint Resolve enqueue_one_keyed : keeps.

Ltac unfold_heartbeat :=
  unfold handle_heartbeat, _effective_heartbeat_health, node_policy, drain_by_heartbeat,
    undrain_by_heartbeat, fan_out, enqueue_pool_snapshots_for_backend, notify_backend_health_changed,
    list_entry_ids_for_backend, _enqueue_pool_snapshot, get_relay_pool, _require_entry, list_by_entry,
    list_nodes_by_ids, enqueue_many, _emit_node_down_alert, emit_alert, find_active_without_window,
    upsert_agent_state, get_agent_state, _emit_mesh_alert, resolve_active, find_active_by_dedup, bump_existing, insert_alert.

Lemma transport_inv_keeps {A} (m : SM A) s :
  keeps (on_db (same transport_states)) m → keeps uuid_le m → keeps (on_db outbox_keyed) m →
  transport_inv s → transport_inv (m s).2.
Proof.
  intros Hf Hu Hk [H1 H2 H3 H4]. specialize (Hf s). specialize (Hu s). specialize (Hk s).
  unfold on_db, same, uuid_le, outbox_keyed in Hf, Hu, Hk.
  split; unfold keyed in *; cbn [t_rows transport_states_tbl] in *; rewrite ?Hf; auto.
  intros j Hj. apply H4. lia.
Qed.

Section Frames.
Context (cfg : NodeConfig) (n : VpnNode) (p : NodeHeartbeatIn).

Lemma heartbeat_states_frame : keeps (on_db (same transport_states)) (handle_heartbeat cfg n p).
Proof using Type. unfold_heartbeat. unfold enqueue_one. keeps_tac. Qed.

Lemma heartbeat_uuid_le : keeps uuid_le (handle_heartbeat cfg n p).
Proof using Type. unfold_heartbeat. unfold enqueue_one. keeps_tac. Qed.

Lemma heartbeat_outbox_keyed : keeps (on_db outbox_keyed) (handle_heartbeat cfg n p).
Proof using Type. unfold_heartbeat. keeps_tac; apply keyed_same; keeps_tac. Qed.

Lemma transport_inv_after s s' :
handle_heartbeat cfg n p s = (Ok tt, s') → transport_inv s → transport_inv s'.
Proof using Type.
intros Hrun H. replace s' with (handle_heartbeat cfg n p s).2 by (by rewrite Hrun).
apply transport_inv_keeps; auto using heartbeat_states_frame, heartbeat_uuid_le, heartbeat_outbox_keyed.
Qed.
End Frames.

(** An endpoint that writes the row of a node. *)
Lemma drain_node_transport cfg nid s s' :
  drain_node cfg nid s = (Ok tt, s') → transport_inv s → transport_inv s'.
Proof.
  intros Hrun H. replace s' with (drain_node cfg nid s).2 by (by rewrite Hrun).
  apply transport_inv_keeps; unfold drain_node, node_missing; unfold_heartbeat; [| | |done].
  - unfold enqueue_one. keeps_tac.
  - unfold enqueue_one. keeps_tac.
  - keeps_tac; apply keyed_same; keeps_tac.
Qed.

(** * One message *)

(** A node, its agent's state and the policy, in a database the consumer can work
    with. *)
Record hb_world (nid i : Z) (policy : NodePolicy) (n : VpnNode) (a : NodeAgentState) (s : session) : Prop := {
  hw_node : nodes (db s) !! nid = Some n;
  hw_node_id : node_id n = nid;
  hw_state : agent_states (db s) !! i = Some a;
  hw_state_node : as_node_id a = nid;
  hw_policy : policy_of (db s) = Some policy;
  hw_ready : hb_ready nid s;
  hw_transport : transport_inv s;
}.

Definition hb_machine (policy : NodePolicy) (n : VpnNode) (x : hb_state) (healthy_ : bool) : hb_state :=
  hb_step (Z.max 1 (heartbeat_unhealthy_drain_threshold policy))
    (Z.max 1 (heartbeat_healthy_undrain_threshold policy)) (serving n) healthy_ x.

Section Stream.
Context (cfg : NodeConfig) {message : Type} (parse_heartbeat : message → option HeartbeatEvent).
Context (nid i : Z) (policy : NodePolicy).

(** A message that carries a heartbeat of the node. *)
Definition heartbeat_of (m : message) (event : HeartbeatEvent) : Prop :=
parse_heartbeat m = Some event ∧ _parse_node_id (he_node_id event) = Some nid.

(** The messages of a stream, one after the other; which were acknowledged. *)
Fixpoint consume (l : list message) : SM (list bool) :=
match l with
| [] => mret []
| m :: l =>
    ack ← _handle_heartbeat_message cfg parse_heartbeat m;
    acks ← consume l;
    mret (ack :: acks)
end.

Lemma heartbeat_message m event n a s :
heartbeat_of m event → hb_world nid i policy n a s →
∃ s' n' a', _handle_heartbeat_message cfg parse_heartbeat m s = (Ok true, s') ∧
  hb_world nid i policy n' a' s' ∧ serving n' = serving n ∧ sync_section (details a') = None ∧
  is_healthy a' = effective_health policy (he_payload event) ∧
  (∀ j, j ≠ nid → nodes (db s') !! j = nodes (db s) !! j) ∧
  hb_abs n' (details a') =
    hb_machine policy n (hb_abs n (details a)) (effective_health policy (he_payload event)).
Proof using Type.
intros [Hp Hnid] [Hn En Ha Ea Hpol Hr Ht]. unfold _handle_heartbeat_message. rewrite Hp, Hnid.
unfold run_committing, heartbeat_body. unfold mbind at 1, M_bind at 1, get_by_id, read, gets.
cbn [t_rows nodes_tbl]. rewrite Hn.
destruct (heartbeat_run cfg n (he_payload event) policy i a s)
  as (s1 & n' & a' & Hrun & Hr1 & En' & Ea' & Es & Hn1 & Ha1 & Hp1 & Hh & Hsync & Habs); [by rewrite ?En..|by rewrite En|].
unfold mbind at 1, M_bind at 1. rewrite Hrun.
destruct (touch_run nid (heard_heartbeat (he_emitted_at event)) s1) as (s2 & Hrun2 & Hstep);
  [by eapply transport_inv_after|done|].
unfold mbind at 1, M_bind at 1, touch_heartbeat. rewrite Hrun2. exists s2, n', a'. split; [done|].
destruct Hstep as [Hd _ _ _ Hu Hinv _].
assert (Hsame : hb_tables (db s2) = hb_tables (db s1)) by (by rewrite Hd).
rewrite En in *. pose proof Hsame as [=Hn2 Ha2 Hp2 _ _].
split_and!; [split|done..| |exact Habs].
- by rewrite Hn2, Hn1, lookup_insert_eq.
- done.
- by rewrite Ha2, Ha1, lookup_insert_eq.
- done.
- unfold policy_of. by rewrite Hp2, Hp1.
- by eapply hb_ready_frame.
- by apply Hinv; eapply transport_inv_after.
- intros j Hj. by rewrite Hn2, Hn1, lookup_insert_ne.
Qed.

Lemma stream_run l events s : ∀ n a,
Forall2 heartbeat_of l events → hb_world nid i policy n a s →
∃ s' n' a', consume l s = (Ok (replicate (length l) true), s') ∧ hb_world nid i policy n' a' s' ∧
  (∀ j, j ≠ nid → nodes (db s') !! j = nodes (db s) !! j) ∧
  hb_abs n' (details a') =
    foldl (hb_machine policy n) (hb_abs n (details a)) (effective_health policy ∘ he_payload <$> events).
Proof using Type.
revert events s. induction l as [|m l IH]; intros events s n a Hl Hw; inversion Hl as [|? e ? es Hm Hms]; subst.
{ by exists s, n, a. }
destruct (heartbeat_message m e n a s Hm Hw) as (s1 & n1 & a1 & Hrun & Hw1 & Hs & _ & _ & Ho1 & Habs).
destruct (IH es s1 n1 a1 Hms Hw1) as (s' & n' & a' & Hrun' & Hw' & Ho & Habs').
exists s', n', a'. cbn [consume length replicate]. unfold mbind, M_bind. rewrite Hrun, Hrun'.
split_and!; [done|exact Hw'| |].
- intros j Hj. by rewrite Ho, Ho1.
- rewrite Habs', Habs. cbn. unfold hb_machine. by rewrite Hs.
Qed.

End Stream.

(** * The counter machine *)

(** A draining that an administrator ordered is not lifted. *)
Lemma machine_admin policy n x l :
  ha_draining x = true → ha_source x = Some "admin" →
  let y := foldl (hb_machine policy n) x l in ha_draining y = true ∧ ha_source y = Some "admin".
Proof.
  revert x. induction l as [|h l IH]; intros x Hd Hs; [done|]. cbn. apply IH; unfold hb_machine, hb_step;
    rewrite Hd, Hs; cbn; by rewrite ?andb_false_r, ?andb_true_r.
Qed.

(** A draining with a reason of its own is left to the component that set it. *)
Lemma machine_other_reason policy n x r l :
  ha_draining x = true → ha_reason x = Some r → r ≠ DRAIN_REASON_UNHEALTHY_HEARTBEAT →
  let y := foldl (hb_machine policy n) x l in ha_draining y = true ∧ ha_reason y = Some r.
Proof.
  intros Hd Hr Hne. assert (E : (r =? DRAIN_REASON_UNHEALTHY_HEARTBEAT)%string = false) by by apply String.eqb_neq.
  revert x Hd Hr. induction l as [|h l IH]; intros x Hd Hr; [done|]. cbn.
  apply IH; unfold hb_machine, hb_step; rewrite Hd, Hr, E; cbn; by rewrite ?andb_false_r, ?andb_true_r.
Qed.

(** Unhealthy heartbeats drain at the threshold, and not before. *)
Lemma machine_unhealthy policy n x (k : nat) :
  let y := foldl (hb_machine policy n) x (replicate (S k) false) in
  ha_draining y = ha_draining x ||
    (Z.max 1 (heartbeat_unhealthy_drain_threshold policy) <=? ha_unhealthy x + Z.of_nat (S k)).
Proof.
  cbv zeta. set (t := Z.max 1 _).
  assert (Hstep : ∀ z, ha_draining (hb_machine policy n z false) = ha_draining z || (t <=? ha_unhealthy z + 1) ∧
    ha_unhealthy (hb_machine policy n z false) = ha_unhealthy z + 1).
  { intros z. unfold hb_machine, hb_step. fold t. cbn. by destruct (ha_draining z), (t <=? _). }
  revert x. induction k as [|k IH]; intros x.
  - cbn. apply Hstep.
  - change (replicate (S (S k)) false) with (false :: replicate (S k) false). cbn [foldl].
    rewrite IH. destruct (Hstep x) as [-> ->].
    destruct (ha_draining x), (Z.leb_spec t (ha_unhealthy x + 1)), (Z.leb_spec t (ha_unhealthy x + 1 + Z.of_nat (S k))),
      (Z.leb_spec t (ha_unhealthy x + Z.of_nat (S (S k)))); cbn; lia.
Qed.

(** Healthy heartbeats restore a serving node that was not drained by someone else,
    at the threshold and not before. *)
Lemma machine_healthy policy n x (k : nat) :
  serving n = true → ha_draining x = true → ha_source x ≠ Some "admin" →
  (∀ r, ha_reason x = Some r → r = DRAIN_REASON_UNHEALTHY_HEARTBEAT) → 0 ≤ ha_healthy x →
  let y := foldl (hb_machine policy n) x (replicate (S k) true) in
  ha_draining y = negb (Z.max 1 (heartbeat_healthy_undrain_threshold policy) <=? ha_healthy x + Z.of_nat (S k)).
Proof.
  intros Hserve. cbv zeta. set (t := Z.max 1 _).
  assert (Hoff : ∀ z k, ha_draining z = false → ha_draining (foldl (hb_machine policy n) z (replicate k true)) = false).
  { intros z j. revert z. induction j as [|j IH]; intros z Hz; [done|]. cbn. apply IH.
    unfold hb_machine, hb_step. by rewrite Hz. }
  assert (Hstep : ∀ z, ha_draining z = true → ha_source z ≠ Some "admin" →
    (∀ r, ha_reason z = Some r → r = DRAIN_REASON_UNHEALTHY_HEARTBEAT) →
    hb_machine policy n z true = if t <=? ha_healthy z + 1
      then {| ha_draining := false; ha_source := None; ha_unhealthy := 0; ha_healthy := ha_healthy z + 1; ha_reason := None |}
      else {| ha_draining := true; ha_source := ha_source z; ha_unhealthy := 0; ha_healthy := ha_healthy z + 1;
              ha_reason := ha_reason z |}).
  { intros z Hd Hs Hr. unfold hb_machine, hb_step. fold t. rewrite Hd, Hserve. cbn [negb andb].
    assert (sql_eqb (ha_source z) (Some "admin") = false) as ->.
    { destruct (ha_source z) as [x0|]; [|done]. cbn. apply bool_decide_eq_false. congruence. }
    destruct (ha_reason z) as [r|]; [rewrite (Hr r eq_refl)|]; cbn; by destruct (t <=? _). }
  revert x. induction k as [|k IH]; intros x Hd Hs Hr Hh.
  - cbn [replicate foldl]. rewrite Hstep by done. replace (Z.of_nat 1) with 1 by done. by destruct (t <=? _).
  - change (replicate (S (S k)) true) with (true :: replicate (S k) true). cbn [foldl]. rewrite Hstep by done.
    destruct (Z.leb_spec t (ha_healthy x + 1)) as [Hle|Hgt].
    + rewrite Hoff by done. symmetry. apply negb_false_iff, Z.leb_le. lia.
    + rewrite IH; cbn; try done; [|lia]. f_equal.
      destruct (Z.leb_spec t (ha_healthy x + 1 + Z.of_nat (S k))), (Z.leb_spec t (ha_healthy x + Z.of_nat (S (S k)))); lia.
Qed.

Lemma fmap_const {A B} (f : A → B) (b : B) l : Forall (λ x, f x = b) l → f <$> l = replicate (length l) b.
Proof. induction 1; cbn; congruence. Qed.

(** * Theorems *)

Section Theorems.
Context (cfg : NodeConfig) {message : Type} (parse_heartbeat : message → option HeartbeatEvent).
Context (nid i : Z) (policy : NodePolicy).

(** C20: on a consistent database with a policy, for a node whose agent has a state row and
    whose actively assigned entries are all active entry nodes, consuming any stream of
    heartbeats of the node acknowledges every message, touches no other node's row and leaves the node's drain columns and its agent's
    counters where the counter machine goes: [heartbeat_unhealthy_drain_threshold]
    unhealthy heartbeats in a row drain it, [heartbeat_healthy_undrain_threshold]
    healthy ones restore it unless it was drained by an administrator or for
    another reason. *)
Theorem heartbeats_refine l events n a s :
Forall2 (heartbeat_of parse_heartbeat nid) l events → hb_world nid i policy n a s →
∃ s' n' a', consume cfg parse_heartbeat l s = (Ok (replicate (length l) true), s') ∧
  nodes (db s') !! nid = Some n' ∧ agent_states (db s') !! i = Some a' ∧
  (∀ j, j ≠ nid → nodes (db s') !! j = nodes (db s) !! j) ∧
  hb_abs n' (details a') =
    foldl (hb_machine policy n) (hb_abs n (details a)) (effective_health policy ∘ he_payload <$> events).
Proof using Type.
intros Hl Hw. destruct (stream_run cfg parse_heartbeat nid i policy l events s n a Hl Hw)
  as (s' & n' & a' & Hrun & [] & Ho & Habs).
by exists s', n', a'.
Qed.

(** A node that stops being healthy is drained exactly at the threshold: after
    [k >= 1] unhealthy heartbeats in a row, coming after [u] of them, a node that was not
    draining drains if and only if [u + k] has reached the policy's threshold. *)
Theorem unhealthy_drains_at_threshold l events n a s :
Forall2 (heartbeat_of parse_heartbeat nid) l events → hb_world nid i policy n a s →
Forall (λ e, effective_health policy (he_payload e) = false) events → events ≠ [] →
is_draining n = false →
∃ s' n', consume cfg parse_heartbeat l s = (Ok (replicate (length l) true), s') ∧
  nodes (db s') !! nid = Some n' ∧
  (is_draining n' = true ↔
   Z.max 1 (heartbeat_unhealthy_drain_threshold policy) ≤
     ha_unhealthy (hb_abs n (details a)) + Z.of_nat (length events)).
Proof using Type.
intros Hl Hw Hbad Hne Hd. destruct (stream_run cfg parse_heartbeat nid i policy l events s n a Hl Hw)
  as (s' & n' & a' & Hrun & [] & Ho & Habs).
exists s', n'. split_and!; [done|done|].
rewrite (fmap_const (effective_health policy ∘ he_payload) false events Hbad) in Habs.
destruct events as [|e events]; [done|]. cbn [length] in *.
apply (f_equal ha_draining) in Habs. rewrite machine_unhealthy in Habs. cbn in Habs. rewrite Habs, Hd.
cbn. apply Z.leb_le.
Qed.

(** The drain endpoint of an administrator. *)
Lemma drain_node_run n a s :
hb_world nid i policy n a s →
∃ s1, drain_node cfg nid s = (Ok tt, s1) ∧
  hb_world nid i policy (drained_row true (Some "admin") (clock s (ticks s)) n) a s1.
Proof using Type.
intros [Hn En Ha Ea Hp Hr Ht]. subst nid.
destruct (announce_run cfg n true (Some "admin") s Hn Hr) as (s1 & Hrun & Hr1 & Hn1 & Ha1 & Hp1).
assert (Hall : drain_node cfg (node_id n) s = (Ok tt, s1)).
{ unfold drain_node, mbind at 1, M_bind at 1, get_by_id, read, gets. cbn [t_rows nodes_tbl]. by rewrite Hn. }
exists s1. split; [done|]. split; [|done| |done| |done|].
- by rewrite Hn1, lookup_insert_eq.
- by rewrite Ha1.
- unfold policy_of. by rewrite Hp1.
- by eapply drain_node_transport.
Qed.

(** The drain of an administrator holds: the drain endpoint returns, and after it
    no stream of heartbeats, however healthy, makes the node serve again. *)
Theorem admin_drain_holds l events n a s :
hb_world nid i policy n a s → Forall2 (heartbeat_of parse_heartbeat nid) l events →
∃ s1 s' n', drain_node cfg nid s = (Ok tt, s1) ∧
  consume cfg parse_heartbeat l s1 = (Ok (replicate (length l) true), s') ∧
  nodes (db s') !! nid = Some n' ∧ is_draining n' = true ∧ drain_source n' = Some "admin".
Proof using Type.
intros Hw Hl. destruct (drain_node_run n a s Hw) as (s1 & Hd & Hw1).
destruct (stream_run cfg parse_heartbeat nid i policy l events s1 _ a Hl Hw1)
  as (s' & n' & a' & Hrun & [] & Ho & Habs).
exists s1, s', n'. split_and!; [done..| |];
  [apply (f_equal ha_draining) in Habs|apply (f_equal ha_source) in Habs];
  cbn in Habs; rewrite Habs; by apply machine_admin.
Qed.

(** A drain ordered through the update endpoint, which takes [is_draining] but
    not [drain_source], does not hold: as many healthy heartbeats as the policy asks for put
    the node back into service. *)
Theorem patched_drain_lost l events n a s :
hb_world nid i policy n a s → serving n = true → drain_source n = None →
ha_reason (hb_abs n (details a)) = None →
Forall2 (heartbeat_of parse_heartbeat nid) l events → events ≠ [] →
Forall (λ e, effective_health policy (he_payload e) = true) events →
Z.max 1 (heartbeat_healthy_undrain_threshold policy) ≤ Z.of_nat (length events) →
∃ r s1 s' n', admin_update_node cfg nid (draining_update true) s = (Ok (Some r), s1) ∧
  is_draining r = true ∧
  consume cfg parse_heartbeat l s1 = (Ok (replicate (length l) true), s') ∧
  nodes (db s') !! nid = Some n' ∧ is_draining n' = false.
Proof using Type.
intros [Hn En Ha Ea Hp Hr Ht] Hserve Hsrc Hreason Hl Hne Hgood Hlong. subst nid.
set (r := patch_node (draining_update true) (t_touch nodes_tbl (clock s (ticks s)) n)).
assert (Hup : admin_update_node cfg (node_id n) (draining_update true) s =
  (Ok (Some r), with_db (put nodes_tbl r) (tick s))).
{ unfold admin_update_node, mbind at 1, M_bind at 1, get_by_id, read, gets. cbn [t_rows nodes_tbl]. rewrite Hn.
  cbv zeta. unfold mbind at 1, M_bind at 1. rewrite update_run. cbn [t_rows nodes_tbl]. rewrite Hn. cbv zeta.
  cbn [t_check nodes_tbl]. unfold unique_on, unique. cbn. rewrite String.eqb_refl, bool_decide_true by done.
  unfold put. cbn. rewrite lookup_insert_eq. by destruct (node_role n =? ROLE_BACKEND)%string. }
assert (Hw : hb_world (node_id n) i policy r a (with_db (put nodes_tbl r) (tick s))).
{ split; [by cbn; rewrite lookup_insert_eq|done..| |]; [by eapply hb_ready_put_node|].
  destruct Ht. by split. }
destruct (stream_run cfg parse_heartbeat (node_id n) i policy l events _ r a Hl Hw)
  as (s' & n' & a' & Hrun & [] & Ho & Habs).
exists r, (with_db (put nodes_tbl r) (tick s)), s', n'. split_and!; [done..|].
rewrite (fmap_const (effective_health policy ∘ he_payload) true events Hgood) in Habs.
destruct events as [|e events]; [done|]. cbn [length] in *. apply (f_equal ha_draining) in Habs.
etransitivity; [exact Habs|]. rewrite (machine_healthy policy r (hb_abs r (details a)) (length events)); [|done|done| | |].
- apply negb_false_iff, Z.leb_le.
  pose proof (safe_int_nonneg (dict_get "consecutive_healthy" (sub_dict HEARTBEAT_DETAILS_KEY (details a)))).
  cbn [hb_abs ha_healthy]. lia.
- cbn. by rewrite Hsrc.
- cbn in Hreason |- *. by rewrite Hreason.
- apply safe_int_nonneg.
Qed.

(** A heartbeat makes the debounce of sync reports void: whatever was stored of
    the last report is gone with the details, and a report repeated right after it is
    processed in full again. *)
Theorem heartbeat_voids_debounce m event n a s report now :
heartbeat_of parse_heartbeat nid m event → hb_world nid i policy n a s →
∃ s' a', _handle_heartbeat_message cfg parse_heartbeat m s = (Ok true, s') ∧
  agent_states (db s') !! i = Some a' ∧ _is_debounced_sync_report cfg (Some a') report now = false.
Proof using Type.
intros Hm Hw. destruct (heartbeat_message cfg parse_heartbeat nid i policy m event n a s Hm Hw)
  as (s' & n' & a' & Hrun & [] & _ & Hsync & _).
exists s', a'. split_and!; [done..|]. unfold _is_debounced_sync_report. rewrite Hsync.
destruct (_ <=? 0); [done|]. destruct (sr_config_version report), (last_sync_at a'); try done.
destruct (negb _); [done|]. by destruct (_ <=? _).
Qed.
End Theorems.
