(* ===== verification/AutoHealProps.v ===== *)
(** Healing of placements: the keys an unavailable node alone serves are spread evenly
    over the healthy ones and told to them, the others stay. *)

From stdpp Require Import base gmap strings list sorting.
From S2P Require Import Prelude Decimal Errors RouteModels BillingModels FleetModels Session Tables FleetTables Routing Placements PlacementProps PlacementMigrate PlacementCommands PlacementWorld AgentDetails Entry Nodes Probe ProbeDrain AutoHeal RouteProps ProbeRepo Routes NodeProps HeartbeatProps.
Local Open Scope Z_scope.

(** * The distribution of orphans *)

(** The placements given to a target. *)
Definition share (t : Z) (groups : list (Z * list Z)) : list Z :=
  default [] (snd <$> find (λ g : Z * list Z, g.1 =? t) groups).

Lemma share_add t u i groups :
  share u (add_to_group t i groups) = if u =? t then share u groups ++ [i] else share u groups.
Proof.
  unfold share. induction groups as [|[t' l] groups IH]; cbn.
  - rewrite (Z.eqb_sym t u). by destruct (Z.eqb_spec u t).
  - destruct (Z.eqb_spec t' t) as [->|Ht]; cbn.
    + rewrite (Z.eqb_sym t u). by destruct (Z.eqb_spec u t).
    + destruct (Z.eqb_spec t' u) as [->|Hu]; [by destruct (Z.eqb_spec u t)|exact IH].
Qed.

Lemma add_to_group_ids t i groups :
  concat (add_to_group t i groups).*2 ≡ₚ i :: concat groups.*2.
Proof.
  induction groups as [|[t' l] groups IH]; cbn; [done|]. destruct (t' =? t); cbn.
  - rewrite <-app_assoc. cbn. by rewrite Permutation_middle.
  - rewrite IH. by rewrite Permutation_middle.
Qed.

Lemma add_to_group_targets t i groups u :
  u ∈ (add_to_group t i groups).*1 ↔ u = t ∨ u ∈ groups.*1.
Proof.
  induction groups as [|[t' l] groups IH]; cbn; [set_solver|].
  destruct (Z.eqb_spec t' t) as [->|]; cbn; set_solver.
Qed.

Lemma add_to_group_nodup t i groups : NoDup groups.*1 → NoDup (add_to_group t i groups).*1.
Proof.
  induction groups as [|[t' l] groups IH]; cbn; [intros; repeat constructor; set_solver|].
  intros [Hn Hd]%NoDup_cons. destruct (Z.eqb_spec t' t) as [->|]; cbn; apply NoDup_cons; [done|].
  split; [|by apply IH]. rewrite add_to_group_targets. set_solver.
Qed.

Lemma least_loaded_spec load c l :
  least_loaded load c l ∈ c :: l ∧
  ∀ c', c' ∈ c :: l → load_of load (least_loaded load c l) ≤ load_of load c'.
Proof.
  revert c. induction l as [|x l IH]; intros c; cbn [least_loaded].
  { split; [left|]. intros c' [->|?%not_elem_of_nil]%elem_of_cons; [lia|done]. }
  set (b := if load_of load x <? load_of load c then x else c). destruct (IH b) as [Hin Hle].
  assert (Hb : b = c ∨ b = x) by (unfold b; destruct (_ <? _); auto).
  assert (Hlb : load_of load b ≤ load_of load c ∧ load_of load b ≤ load_of load x).
  { unfold b. destruct (Z.ltb_spec (load_of load x) (load_of load c)); lia. }
  pose proof (Hle b ltac:(left)) as Hmin. split.
  { apply elem_of_cons in Hin as [->|Hin]; [destruct Hb as [->| ->]; [left|right; left]|by right; right]. }
  intros c' [->|[->|Hc]%elem_of_cons]%elem_of_cons; [lia..|]. apply Hle. by right.
Qed.

Section Distribute.
Context (key_nodes : gmap Z (list Z)) (candidates : list VpnNode).

(** No candidate serves the key of an orphan. *)
Definition unserved (p : UserPlacement) : Prop :=
∀ c, c ∈ candidates → node_id c ∉ default [] (key_nodes !! pl_key_id p).

Lemma pick_unserved load p :
unserved p → candidates ≠ [] →
∃ b, pick_target key_nodes load candidates p = Some b ∧ b ∈ candidates ∧
  ∀ c, c ∈ candidates → load_of load b ≤ load_of load c.
Proof using Type.
intros Hu Hne. unfold pick_target.
assert (filter (λ c, node_id c ∉ default [] (key_nodes !! pl_key_id p)) candidates = candidates) as ->.
{ apply filter_unchanged. intros c. apply Hu. }
destruct candidates as [|c l]; [done|]. eexists. split; [done|]. apply least_loaded_spec.
Qed.

(** The loads are the sizes of the groups, and no two differ by more than one. *)
Definition balanced (load : gmap Z Z) (groups : list (Z * list Z)) : Prop :=
(∀ c, c ∈ candidates → load_of load c = Z.of_nat (length (share (node_id c) groups))) ∧
(∀ c c', c ∈ candidates → c' ∈ candidates → load_of load c ≤ load_of load c' + 1).

Lemma distribute_balanced orphans load groups :
candidates ≠ [] → Forall unserved orphans → balanced load groups →
NoDup groups.*1 → Forall (λ t, t ∈ node_id <$> candidates) groups.*1 →
let out := distribute key_nodes candidates load groups orphans in
concat out.*2 ≡ₚ concat groups.*2 ++ (pl_id <$> orphans) ∧ NoDup out.*1 ∧
Forall (λ t, t ∈ node_id <$> candidates) out.*1 ∧
∃ load', balanced load' out.
Proof using Type.
intros Hne Ho. revert load groups.
induction Ho as [|p orphans Hp Ho IH]; intros load groups [Hl Hb] Hnd Ht; cbn [distribute].
{ split_and!; [by rewrite app_nil_r|done|done|by exists load]. }
destruct (pick_unserved load p Hp Hne) as (b & -> & Hin & Hmin).
assert (Hload : ∀ c, c ∈ candidates → load_of (<[node_id b := load_of load b + 1]> load) c =
  if node_id c =? node_id b then load_of load b + 1 else load_of load c).
{ intros c _. unfold load_of at 1. destruct (Z.eqb_spec (node_id c) (node_id b)) as [->|E];
    [by rewrite lookup_insert_eq|by rewrite lookup_insert_ne]. }
assert (Hsame : ∀ c, c ∈ candidates → node_id c = node_id b → load_of load c = load_of load b).
{ intros c _ E. unfold load_of. by rewrite E. }
destruct (IH (<[node_id b := load_of load b + 1]> load) (add_to_group (node_id b) (pl_id p) groups))
  as (H1 & H2 & H3 & H4).
- split.
  + intros c Hc. rewrite Hload, share_add by done. destruct (Z.eqb_spec (node_id c) (node_id b)) as [E|E].
    * rewrite <-(Hsame c), (Hl c), length_app by done. cbn. lia.
    * by apply Hl.
  + intros c c' Hc Hc'. rewrite !Hload by done. pose proof (Hmin c Hc). pose proof (Hmin c' Hc').
    pose proof (Hb c c' Hc Hc'). pose proof (Hb c b Hc Hin).
    destruct (_ =? _) , (node_id c' =? _); lia.
- by apply add_to_group_nodup.
- apply Forall_forall. intros t [->|Hg]%add_to_group_targets; [by apply list_elem_of_fmap_2|].
  rewrite Forall_forall in Ht. auto.
- split_and!; [|done..]. rewrite H1, add_to_group_ids. cbn. by rewrite Permutation_middle.
Qed.
End Distribute.

(** Orphans are spread evenly: when no candidate serves their keys, each of them
    is given to exactly one candidate, and the numbers two candidates get differ by at
    most one. *)
Theorem orphans_spread_evenly (key_nodes : gmap Z (list Z)) (candidates : list VpnNode) (orphans : list UserPlacement) :
  candidates ≠ [] → Forall (unserved key_nodes candidates) orphans →
  let out := distribute key_nodes candidates ∅ [] orphans in
  concat out.*2 ≡ₚ pl_id <$> orphans ∧ NoDup out.*1 ∧ Forall (λ t, t ∈ node_id <$> candidates) out.*1 ∧
  ∀ c c', c ∈ candidates → c' ∈ candidates →
    (length (share (node_id c) out) ≤ length (share (node_id c') out) + 1)%nat.
Proof.
  intros Hne Ho. destruct (distribute_balanced key_nodes candidates orphans ∅ [] Hne Ho) as (H1 & H2 & H3 & load & Hl & Hb).
  - by split.
  - constructor.
  - constructor.
  - split_and!; [done..|]. intros c c' Hc Hc'. specialize (Hb c c' Hc Hc'). rewrite !Hl in Hb by done. lia.
Qed.

(** * Moving the groups *)

Section Rescue.
Context (hc : HealConfig) (source now : Z).
Notation pfx := (hc_command_prefix hc).

Definition wanted_here (p : UserPlacement) : Prop :=
pl_is_active p = true ∧ backend_node_id p = source ∧ desired_state p = desired_active.

(** One group: its placements are on the target, and rows of other keys stay. *)
Lemma migrate_group_run t ids s :
placement_world s → t ≠ source →
(∀ i, i ∈ ids → ∃ p, placements (db s) !! i = Some p ∧ wanted_here p) →
∃ n tids s1 s2, bulk_migrate_backend ids t (Some "node_auto_heal") now s = (Ok (n, tids), s1) ∧
  match tids with [] => mret tt | y :: l => enqueue_for_placement_ids pfx (y :: l) end s1 = (Ok tt, s2) ∧
  placement_world s2 ∧ vpn_keys (db s2) = vpn_keys (db s) ∧ outbox (db s) ⊆ outbox (db s2) ∧
  (∀ i p, i ∈ ids → placements (db s) !! i = Some p → rescued (db s2) (pl_key_id p) t) ∧
  (∀ i p, placements (db s) !! i = Some p →
     (∀ j q, j ∈ ids → placements (db s) !! j = Some q → pl_key_id q ≠ pl_key_id p) →
     placements (db s2) !! i = Some p).
Proof using Type.
intros [HI HC Hf Hk] Hne Hids.
destruct (chosen_migrated source t (Some "node_auto_heal") now s ids HI (not_eq_sym Hne))
  as (n & tids & s1 & Hrun & (d' & Hs1) & _ & Hthere & Hrest & _).
{ intros p Hp Hi. destruct (Hids _ Hi) as (q & Hq & Hw). rewrite (row_self (db s) HI p Hp) in Hq.
  by injection Hq as ->. }
pose proof (bulk_migrate_commands ids t (Some "node_auto_heal") now s (conj HI HC)) as [[HI1 HC1] _].
pose proof (bulk_migrate_keys now ids t (Some "node_auto_heal") s) as Hk1. unfold on_db, same in Hk1.
pose proof (bulk_migrate_outbox now ids t (Some "node_auto_heal") s) as Ho1. unfold on_db, same in Ho1.
rewrite Hrun in HI1, HC1, Hk1, Ho1. cbn [snd] in *.
assert (Hw1 : placement_world s1).
{ split; [done|done| |by rewrite Hk1]. intros i Hi. rewrite Ho1. apply Hf. by rewrite Hs1 in Hi. }
destruct (enqueue_found pfx tids s1 Hw1) as (s2 & Hrun2 & Hw2 & Hp2 & Hv2 & Hsub & Hkn).
exists n, tids, s1, s2. split_and!; [done..|by rewrite Hv2, Hk1|by rewrite <-Ho1| |].
- intros i p Hi Hp. destruct (Hthere i p Hp Hi) as (j & p' & Hj & Hkey & Hb & Ha & Hd & Hpend & Hin).
  exists j, p'. rewrite Hp2. split_and!; [done..|]. intros k Hkk Hka. apply (Hkn j p' k); [done..| |done].
  by rewrite Hkey, <-Hv2.
- intros i p Hp Hother. rewrite Hp2. apply Hrest; [done| |].
  + intros Hi. by apply (Hother i p Hi Hp).
  + intros _ j q Hq Hj. by apply (Hother j q).
Qed.

(** Rows of one backend are of different keys. *)
Lemma wanted_keys_differ d i j p q :
placements_inv d → placements d !! i = Some p → placements d !! j = Some q → wanted_here p → wanted_here q →
i ≠ j → pl_key_id p ≠ pl_key_id q.
Proof using Type.
intros HI Hp Hq (_ & Hb & _) (_ & Hb' & _) Hij Hk. apply Hij.
pose proof (row_by_id d HI i p Hp) as <-. pose proof (row_by_id d HI j q Hq) as <-. f_equal.
apply (source_key_inj d HI); [apply elem_of_rows; eauto..|congruence|done].
Qed.

Lemma rescued_later d d' kid t :
placements_inv d → (∀ j p, placements d !! j = Some p → pl_key_id p = kid → placements d' !! j = Some p) →
vpn_keys d' = vpn_keys d → outbox d ⊆ outbox d' → rescued d kid t → rescued d' kid t.
Proof using Type.
intros HI Hp Hv Ho (j & p & Hj & Hk & Hb & Ha & Hds & Hpend & Hc). exists j, p.
split_and!; [by apply Hp|done..|]. intros k Hkk Hka. rewrite Hv in Hkk.
destruct (Hc k Hkk Hka) as (o & r & Hor & Hm). exists o, r. split; [|done]. by eapply lookup_weaken.
Qed.

Lemma migrate_groups_run groups s :
placement_world s → Forall (λ t, t ≠ source) groups.*1 → NoDup (concat groups.*2) →
(∀ i, i ∈ concat groups.*2 → ∃ p, placements (db s) !! i = Some p ∧ wanted_here p) →
∃ n s', migrate_groups hc groups now s = (Ok n, s') ∧ placement_world s' ∧
  vpn_keys (db s') = vpn_keys (db s) ∧ outbox (db s) ⊆ outbox (db s') ∧
  (∀ t ids i p, (t, ids) ∈ groups → i ∈ ids → placements (db s) !! i = Some p →
     rescued (db s') (pl_key_id p) t) ∧
  (∀ i p, placements (db s) !! i = Some p →
     (∀ j q, j ∈ concat groups.*2 → placements (db s) !! j = Some q → pl_key_id q ≠ pl_key_id p) →
     placements (db s') !! i = Some p).
Proof using Type.
revert s. induction groups as [|[t ids] groups IH]; intros s Hw Ht Hnd Hids; cbn [migrate_groups].
{ exists 0, s. split_and!; [done..| |done]. by intros t ids i p ?%not_elem_of_nil. }
cbn in Ht, Hnd, Hids. apply Forall_cons in Ht as [Hne Ht]. apply NoDup_app in Hnd as (Hnd1 & Hdisj & Hnd2).
destruct (migrate_group_run t ids s Hw Hne) as (n & tids & s1 & s2 & Hrun & Hrun2 & Hw2 & Hv2 & Ho2 & Hres & Hrest).
{ intros i Hi. apply Hids, elem_of_app. by left. }
assert (Hkeep : ∀ j p, j ∈ concat groups.*2 → placements (db s) !! j = Some p → placements (db s2) !! j = Some p).
{ intros j p Hj Hp. apply Hrest; [done|]. intros i q Hi Hq.
  destruct (Hids i) as (q' & Hq' & Hwq); [apply elem_of_app; by left|]. rewrite Hq in Hq'. injection Hq' as <-.
  destruct (Hids j) as (p' & Hp' & Hwp); [apply elem_of_app; by right|]. rewrite Hp in Hp'. injection Hp' as <-.
  apply (wanted_keys_differ (db s) i j); [apply Hw|done..|]. intros ->. by apply (Hdisj j). }
destruct (IH s2 Hw2 Ht Hnd2) as (m & s3 & Hrun3 & Hw3 & Hv3 & Ho3 & Hres3 & Hrest3).
{ intros i Hi. destruct (Hids i) as (p & Hp & Hwp); [apply elem_of_app; by right|]. exists p. auto. }
exists (n + m), s3. unfold mbind at 1, M_bind at 1. rewrite Hrun. cbn [fst snd].
unfold mbind at 1, M_bind at 1. rewrite Hrun2. unfold mbind, M_bind. rewrite Hrun3.
assert (Hback : ∀ j q, j ∈ concat groups.*2 → placements (db s2) !! j = Some q → placements (db s) !! j = Some q).
{ intros j q Hj Hq. destruct (Hids j) as (q' & Hq' & _); [apply elem_of_app; by right|].
  pose proof (Hkeep j q' Hj Hq') as E. rewrite Hq in E. by injection E as ->. }
split_and!; [done|done|by rewrite Hv3|by etrans| |].
- intros t' ids' i p [[= -> ->]|Hin]%elem_of_cons Hi Hp.
  + apply (rescued_later (db s2)); [apply Hw2| |done|done|by apply (Hres i)].
    intros j q Hq Hkq. apply Hrest3; [done|]. intros j' q' Hj' Hq'. rewrite Hkq.
    pose proof (Hback j' q' Hj' Hq') as Hq0.
    destruct (Hids j') as (x & Hx & Hwx); [apply elem_of_app; by right|]. rewrite Hq0 in Hx. injection Hx as <-.
    destruct (Hids i) as (y & Hy & Hwy); [apply elem_of_app; by left|]. rewrite Hp in Hy. injection Hy as <-.
    apply (wanted_keys_differ (db s) j' i); [apply Hw|done..|]. intros ->. by apply (Hdisj i).
  + apply (Hres3 t' ids' i); [done..|]. apply Hkeep; [|done].
    apply list_elem_of_In, in_concat. exists ids'. rewrite <-!list_elem_of_In. split; [|done].
    apply list_elem_of_fmap. by exists (t', ids').
- intros i p Hp Hother. apply Hrest3.
  + apply Hrest; [done|]. intros j q Hj. apply Hother, elem_of_app. by left.
  + intros j q Hj Hq. apply (Hother j q); [apply elem_of_app; by right|]. by apply Hback.
Qed.

(** ** The keys of the source and where else they are *)

Lemma key_nodes_run kids s :
∃ m, map_active_backend_nodes_by_key kids s = (Ok m, s) ∧
  ∀ kid b, kid ∈ kids → b ∈ default [] (m !! kid) ↔
    ∃ j q, placements (db s) !! j = Some q ∧ pl_is_active q = true ∧ pl_key_id q = kid ∧ backend_node_id q = b.
Proof using Type.
unfold map_active_backend_nodes_by_key. destruct kids as [|k0 kids0].
{ exists ∅. split; [done|]. by intros kid b ?%not_elem_of_nil. }
set (kids := k0 :: kids0). unfold mbind, M_bind, select_where, read, gets. cbn [t_rows placements_tbl].
eexists. split; [done|]. intros kid b Hkid.
assert (H : ∀ l, b ∈ default [] (foldr (λ p m, <[pl_key_id p := backend_node_id p :: default [] (m !! pl_key_id p)]> m)
    (∅ : gmap Z (list Z)) l !! kid) ↔ ∃ q, q ∈ l ∧ pl_key_id q = kid ∧ backend_node_id q = b).
{ induction l as [|p l IH]; cbn [foldr].
  { rewrite lookup_empty. split; [by intros ?%not_elem_of_nil|by intros (q & ?%not_elem_of_nil & _)]. }
  setoid_rewrite elem_of_cons. destruct (decide (pl_key_id p = kid)) as [Hp|Hp].
  - rewrite Hp, lookup_insert_eq. cbn. rewrite elem_of_cons, IH. naive_solver.
  - rewrite lookup_insert_ne, IH by done. naive_solver. }
rewrite H. split.
- intros (q & [Hq Hin]%list_elem_of_filter & Hk & Hb). rewrite andb_true_iff in Hq.
  apply elem_of_rows in Hin as [j Hj]. exists j, q. tauto.
- intros (j & q & Hj & Ha & Hk & Hb). exists q. split_and!; [|done..]. apply list_elem_of_filter.
  split; [|apply elem_of_rows; eauto]. rewrite andb_true_iff, bool_decide_eq_true. split; [|done]. by rewrite Hk.
Qed.

Lemma covered_spec m candidates p :
Forall (λ c, node_id c ≠ source) candidates →
covered m source candidates p = true ↔ ∃ c, c ∈ candidates ∧ node_id c ∈ default [] (m !! pl_key_id p).
Proof using Type.
intros Hc. unfold covered. rewrite existsb_exists. setoid_rewrite bool_decide_eq_true.
setoid_rewrite <-list_elem_of_In. rewrite Forall_forall in Hc. naive_solver.
Qed.
End Rescue.

Lemma distribute_nil key_nodes candidates orphans :
  candidates ≠ [] → Forall (unserved key_nodes candidates) orphans →
  let out := distribute key_nodes candidates ∅ [] orphans in
  concat out.*2 ≡ₚ pl_id <$> orphans ∧ Forall (λ t, t ∈ node_id <$> candidates) out.*1.
Proof.
  intros Hne Ho. destruct (distribute_balanced key_nodes candidates orphans ∅ [] Hne Ho) as (H1 & _ & H3 & _);
    [by split|constructor|constructor|]. done.
Qed.

(** The placements wanted on a backend, newest first, each once. *)
Definition wanted_on (d : database) (source : Z) : list UserPlacement :=
  filter (λ p, desired_state p = desired_active)
    (order_by_desc pl_updated_at (filter (λ p, pl_is_active p && on_backend (Some source) p = true) (rows (placements d)))).

Lemma wanted_on_spec d source p : p ∈ wanted_on d source ↔ p ∈ rows (placements d) ∧ wanted_here source p.
Proof.
  unfold wanted_on. rewrite list_elem_of_filter, elem_of_order_by_desc, list_elem_of_filter.
  cbn [on_backend]. rewrite andb_true_iff, Z.eqb_eq. unfold wanted_here. tauto.
Qed.

Lemma wanted_on_NoDup d source : placements_inv d → NoDup (pl_id <$> wanted_on d source).
Proof.
  intros HI. eapply sublist_NoDup; [|apply fmap_sublist, sublist_filter].
  unfold order_by_desc. rewrite merge_sort_Permutation.
  eapply sublist_NoDup; [|apply fmap_sublist, sublist_filter]. apply (rows_ids_NoDup placements_tbl d), HI.
Qed.

(** An eligible node is not among the excluded ones. *)
Lemma eligible_not_source d source stale now n : eligible d [source] stale now n → node_id n ≠ source.
Proof.
  intros (i & a & _ & _ & Hav & _). unfold available in Hav.
  apply andb_true_iff in Hav as [_ Hav%negb_true_iff%bool_decide_eq_false]. intros E. apply Hav. rewrite E. left.
Qed.

Section Orphans.
Context (hc : HealConfig) (source now : Z) (m : gmap Z (list Z)) (cs : list VpnNode) (active : list UserPlacement).
Context (Hne : cs ≠ []) (Hsrc : Forall (λ c, node_id c ≠ source) cs).
Notation orphans := (filter (λ p, covered m source cs p = false) active).

Lemma orphans_unserved : Forall (unserved m cs) orphans.
Proof using Hsrc.
apply Forall_forall. intros p [Hp _]%list_elem_of_filter c Hc Hin. apply not_true_iff_false in Hp.
apply Hp, covered_spec; [done|]. eauto.
Qed.

Lemma orphans_moved s :
placement_world s → NoDup (pl_id <$> active) →
(∀ p, p ∈ active → placements (db s) !! pl_id p = Some p ∧ wanted_here source p) →
∃ n s', migrate_groups hc (distribute m cs ∅ [] orphans) now s = (Ok n, s') ∧ placement_world s' ∧
  (∀ p, p ∈ active → covered m source cs p = false → ∃ c, c ∈ cs ∧ rescued (db s') (pl_key_id p) (node_id c)) ∧
  (∀ i p, placements (db s) !! i = Some p →
     (∀ q, q ∈ active → covered m source cs q = false → pl_key_id q ≠ pl_key_id p) →
     placements (db s') !! i = Some p).
Proof using Hne Hsrc.
intros Hw Hnd Hact. destruct (distribute_nil m cs orphans Hne orphans_unserved) as [Hids Hts].
set (groups := distribute m cs ∅ [] orphans) in *. rewrite Forall_forall in Hts.
pose proof (proj1 (Forall_forall _ _) Hsrc) as Hs.
assert (Hget : ∀ i, i ∈ concat groups.*2 → ∃ p, p ∈ active ∧ covered m source cs p = false ∧ i = pl_id p).
{ intros i Hi. rewrite Hids in Hi. apply list_elem_of_fmap in Hi as (p & -> & [Hc Hp]%list_elem_of_filter).
  by exists p. }
destruct (migrate_groups_run hc source now groups s Hw) as (n & s' & Hrun & Hw' & _ & _ & Hres & Hrest).
- apply Forall_forall. intros t Ht. apply Hts, list_elem_of_fmap in Ht as (c & -> & Hc). by apply Hs.
- rewrite Hids. eapply sublist_NoDup; [exact Hnd|]. apply fmap_sublist, sublist_filter.
- intros i Hi. destruct (Hget i Hi) as (p & Hp & _ & ->). exists p. by apply Hact.
- exists n, s'. split_and!; [done|done| |].
  + intros p Hp Hc. assert (Hi : pl_id p ∈ concat groups.*2).
    { rewrite Hids. apply list_elem_of_fmap_2, list_elem_of_filter. done. }
    apply list_elem_of_In, in_concat in Hi as (ids & Hin & Hi). rewrite <-!list_elem_of_In in *.
    apply list_elem_of_fmap in Hin as ([t ids'] & -> & Hg).
    assert (t ∈ groups.*1) as Ht by (apply list_elem_of_fmap; by exists (t, ids')).
    apply Hts, list_elem_of_fmap in Ht as (c & -> & Hcc). exists c. split; [done|].
    apply (Hres _ ids' (pl_id p)); [done..|]. by apply Hact.
  + intros i p Hp Ho. apply Hrest; [done|]. intros j q Hj Hq. destruct (Hget j Hj) as (q' & Hq' & Hc & ->).
    rewrite (proj1 (Hact q' Hq')) in Hq. injection Hq as <-. by apply Ho.
Qed.
End Orphans.

(** C19: no key is lost with a node: healing the placements of an unavailable node
    returns, and whenever some other node is eligible, every key wanted on the node either
    has an active placement on an eligible node already, and is left alone, or is placed
    on one, which is sent the command; rows of other keys do not change. *)
Theorem orphans_rescued (hc : HealConfig) (node : option VpnNode) (source now : Z) (policy : NodePolicy) (s : session) :
  placement_world s → head (order_by_desc np_id (rows (node_policies (db s)))) = Some policy →
  let ok := eligible (db s) [source] (Z.max 30 (stale_after_sec policy)) (clock s (S (ticks s))) in
  ∃ n s', _smart_migrate_placements hc node source now s = (Ok n, s') ∧
    (∀ i p, placements (db s) !! i = Some p → wanted_here source p →
       (placements (db s') !! i = Some p ∧
        ((∀ c, ¬ ok c) ∨
         ∃ c j q, ok c ∧ placements (db s) !! j = Some q ∧ pl_is_active q = true ∧
           pl_key_id q = pl_key_id p ∧ backend_node_id q = node_id c)) ∨
       ∃ c, ok c ∧ commanded (db s') (pl_key_id p) (node_id c)) ∧
    (∀ i p, placements (db s) !! i = Some p →
       (∀ j q, placements (db s) !! j = Some q → wanted_here source q → pl_key_id q ≠ pl_key_id p) →
       placements (db s') !! i = Some p).
Proof.
  intros Hw Hpol ok. unfold _smart_migrate_placements.
  assert (Hl : list_active (Some source) None s =
    (Ok (order_by_desc pl_updated_at (filter (λ p, pl_is_active p && on_backend (Some source) p = true)
           (rows (placements (db s))))), s)) by done.
  unfold mbind at 1, M_bind at 1. rewrite Hl. cbv zeta. fold (wanted_on (db s) source).
  set (active := wanted_on (db s) source). pose proof (wanted_on_spec (db s) source) as Hact. fold active in Hact.
  assert (Hrow : ∀ i p, placements (db s) !! i = Some p → wanted_here source p → p ∈ active).
  { intros i p Hp Hwp. apply Hact. split; [apply elem_of_rows; eauto|done]. }
  destruct active as [|p0 active0] eqn:Ea.
  { exists 0, s. split_and!; [done| |done]. intros i p Hp Hwp. by apply (Hrow i p Hp), not_elem_of_nil in Hwp. }
  rewrite <-Ea in *. clear p0 active0 Ea.
  destruct (key_nodes_run (pl_key_id <$> active) s) as (m & Hm & Hmspec).
  unfold mbind at 1, M_bind at 1. rewrite Hm.
  destruct (select_nodes_exact (node_region <$> node) [source] s policy Hpol) as (cs & s1 & _ & Hsel & Hd1 & Hcs & _).
  pose proof (select_nodes_uuid (node_region <$> node) [source] s) as Hu. rewrite Hsel in Hu. cbn [snd] in Hu.
  unfold mbind at 1, M_bind at 1. rewrite Hsel.
  destruct (decide (cs = [])) as [->|Hne].
  { exists 0, s1. rewrite Hd1. split_and!; [done| |done]. intros i p Hp Hwp. left. split; [done|]. left.
    intros c Hc. by apply (not_elem_of_nil c), Hcs. }
  assert (Hsrc : Forall (λ c, node_id c ≠ source) cs).
  { apply Forall_forall. intros c Hc%Hcs. by eapply eligible_not_source. }
  assert (Hw1 : placement_world s1).
  { destruct Hw as [HI HC Hf Hk]. split; rewrite ?Hd1; try done. intros i Hi. rewrite Hd1. apply Hf.
    unfold uuid_le in Hu. lia. }
  destruct (orphans_moved hc source now m cs active Hne Hsrc s1 Hw1) as (n & s' & Hrun & Hw' & Hres & Hrest).
  { apply wanted_on_NoDup, Hw. }
  { intros p [Hp Hwp]%Hact. rewrite Hd1. split; [|done]. by apply (row_self (db s) (hw_placements s Hw)). }
  exists n, s'. split_and!.
  - rewrite <-Hrun. by destruct cs, (filter _ active).
  - intros i p Hp Hwp. pose proof (Hrow i p Hp Hwp) as Hin.
    assert (Hkin : pl_key_id p ∈ pl_key_id <$> active) by by apply list_elem_of_fmap_2.
    destruct (covered m source cs p) eqn:Hc.
    + left. split.
      * apply Hrest; [by rewrite Hd1|]. intros q Hq Hcq Hk. unfold covered in Hc, Hcq. rewrite Hk in Hcq. congruence.
      * right. apply covered_spec in Hc as (c & Hcc & Hmem); [|done].
        apply Hmspec in Hmem as (j & q & ?); [|done]. exists c, j, q. split; [by apply Hcs|done].
    + right. destruct (Hres p Hin Hc) as (c & Hcc & Hr). exists c. split; [by apply Hcs|].
      apply rescued_commanded; [apply Hw'|done].
  - intros i p Hp Ho. apply Hrest; [by rewrite Hd1|]. intros q [Hq Hwq]%Hact _.
    apply elem_of_rows in Hq as [j Hj]. by apply (Ho j q).
Qed.

(** * What a tick leaves alone *)

(** The rows of the nodes stay keyed and the row of one node is not written. *)
Definition spares (i : Z) (d d' : database) : Prop :=
  keyed nodes_tbl d → keyed nodes_tbl d' ∧ nodes d' !! i = nodes d !! i.

#[export] Instance spares_preorder i : PreOrder (spares i).
Proof.
  split; [done|]. intros d1 d2 d3 H1 H2 Hk. destruct (H1 Hk) as [Hk2 E1]. destruct (H2 Hk2) as [Hk3 E2].
  split; [done|]. congruence.
Qed.

Lemma spares_same {A} i (m : SM A) : keeps (on_db (same nodes)) m → keeps (on_db (spares i)) m.
Proof.
  intros H s Hk. specialize (H s). unfold on_db, same in H. unfold keyed in *. cbn [t_rows nodes_tbl] in *. by rewrite H.
Qed.

Lemma spares_other i j f :
  (∀ n, node_id (f n) = node_id n) → j ≠ i → keeps (on_db (spares i)) (update_by_id nodes_tbl j f).
Proof.
  intros Hf Hne s Hk. rewrite update_run. cbn [t_rows nodes_tbl].
  destruct (nodes (db s) !! j) as [n|] eqn:Hj; [|done]. cbv zeta.
  destruct (t_check nodes_tbl _ _ _); [done|]. cbn [snd db with_db tick].
  pose proof (Hk j n Hj) as Hid. cbn in Hid.
  split; [apply keyed_put; [apply _|done]|].
  cbn [put t_set nodes_tbl t_rows nodes set_nodes t_id]. apply lookup_insert_ne. rewrite Hf. cbn. congruence.
Qed.

Section Untouched.
Context (hc : HealConfig).
Notation frame := (on_db (same nodes)).

Ltac unfold_pool :=
  unfold announce_pool, enqueue_pool_snapshots_for_backend, notify_backend_health_changed,
    list_entry_ids_for_backend, _enqueue_pool_snapshot, get_relay_pool, _require_entry, list_by_entry,
    list_nodes_by_ids, enqueue_many, enqueue_one.

Lemma announce_pool_frame n : keeps frame (announce_pool hc n).
Proof using Type. unfold_pool. keeps_tac. Qed.
Lemma store_details_frame j l : keeps frame (store_details j l).
Proof using Type. unfold store_details. keeps_tac. Qed.
#[local] Hint Resolve announce_pool_frame store_details_frame : keeps.

Lemma record_reason_frame j st r now : keeps frame (_record_drain_reason j st r now).
Proof using Type. unfold _record_drain_reason. keeps_tac. Qed.
Lemma clear_reason_frame j st : keeps frame (_clear_drain_reason j st).
Proof using Type. unfold _clear_drain_reason. keeps_tac. Qed.
Lemma tell_down_frame n st k : keeps frame (tell_down hc n st k).
Proof using Type. unfold tell_down. keeps_tac. Qed.
Lemma tell_recovered_frame n m now : keeps frame (tell_recovered hc n m now).
Proof using Type. unfold tell_recovered. keeps_tac. Qed.
#[local] Hint Resolve record_reason_frame clear_reason_frame tell_down_frame tell_recovered_frame : keeps.

Lemma observe_frame now : keeps frame (_observe_node_freshness hc now).
Proof using Type.
unfold _observe_node_freshness, list_active_with_agent_state, observe_node, mark_unhealthy. keeps_tac.
Qed.

Lemma bulk_migrate_nodes ids t r now : keeps frame (bulk_migrate_backend ids t r now).
Proof using Type. bulk_migrate_frame. Qed.
Lemma select_nodes_nodes region excl : keeps frame (select_nodes region excl).
Proof using Type.
unfold select_nodes, _load_policy, node_policy, list_available_nodes, recent_traffic_bytes_per_backend. keeps_tac.
Qed.
Lemma enqueue_nodes ids : keeps frame (enqueue_for_placement_ids (hc_command_prefix hc) ids).
Proof using Type. apply enqueue_for_placement_ids_same, _. Qed.
#[local] Hint Resolve bulk_migrate_nodes select_nodes_nodes enqueue_nodes : keeps.

Lemma migrate_groups_frame groups now : keeps frame (migrate_groups hc groups now).
Proof using Type.
induction groups as [|[t ids] groups IH]; cbn [migrate_groups]; [keeps_tac|].
keeps_step; [keeps_tac|]. intros [k [|x l]]; cbn [fst snd]; keeps_tac.
Qed.

Lemma smart_migrate_frame node source now : keeps frame (_smart_migrate_placements hc node source now).
Proof using Type.
unfold _smart_migrate_placements, list_active, map_active_backend_nodes_by_key.
keeps_step; [keeps_tac|intros l]. destruct (filter _ l) as [|p ps]; [keeps_tac|].
keeps_step; [keeps_tac|intros m]. keeps_step; [keeps_tac|]. intros [|c cs]; [keeps_tac|].
destruct (filter _ (p :: ps)); [keeps_tac|]. apply migrate_groups_frame.
Qed.
#[local] Hint Resolve observe_frame smart_migrate_frame : keeps.

(** ** The two loops *)

Context (i : Z).
Notation R := (on_db (spares i)).
#[local] Hint Extern 3 (keeps (on_db (spares _)) _) => (apply spares_same; solve [keeps_tac]) : keeps.

Lemma drain_other n st k now : node_id n ≠ i → keeps R (drain_unavailable hc n st k now).
Proof using Type.
intros Hne. unfold drain_unavailable. keeps_step; [by apply spares_other|]. intros _. keeps_tac.
Qed.

(** The node is drained already, or nothing is found wrong with it. *)
Definition not_drained (n : VpnNode) (st : option NodeAgentState) (now : Z) : Prop :=
is_draining n = true ∨ ∀ r, _unavailability_reason hc (Some n) st now ≠ Ok (Some r).

Lemma heal_source_spares now n st source count o :
(node_id <$> n) = Some source ∨ n = None →
(∀ n', n = Some n' → source = i → not_drained n' st now) → keeps R (heal_source hc now n st source count o).
Proof using Type.
intros Hid Hnd. unfold heal_source. destruct (count <=? 0); [keeps_tac|].
destruct (_unavailability_reason hc n st now) as [[r|]|e] eqn:Hr;
  [|apply (keeps_ret (on_db (spares i)) o)|intros s; cbn; reflexivity].
apply keeps_bind; [apply _|apply keeps_lift, _|]. intros [r'|]; [|keeps_tac].
keeps_step; [|intros d; keeps_tac]. destruct n as [n|]; [|keeps_tac].
destruct (is_draining n) eqn:Hd; [keeps_tac|]. keeps_step; [|intros _; keeps_tac].
apply drain_other. destruct Hid as [[= Hid]|?]; [|done]. intros E. destruct (Hnd n eq_refl ltac:(congruence)) as [?|Hno];
  [congruence|by apply (Hno r)].
Qed.

Lemma heal_sources_spares now ns sts sources o :
(∀ n, find (λ n, node_id n =? i) ns = Some n → not_drained n (find (λ a, as_node_id a =? i) sts) now) →
keeps R (heal_sources hc now ns sts sources o).
Proof using Type.
intros Hnd. revert o. induction sources as [|[src k] sources IH]; intros o; cbn [heal_sources]; [keeps_tac|].
destruct (_ <=? _); [keeps_tac|]. keeps_step; [|intros o'; apply IH]. apply heal_source_spares.
- destruct (find (λ n, node_id n =? src) ns) as [n|] eqn:Hf; [left|by right].
  apply find_some in Hf as [_ Hid%Z.eqb_eq]. cbn. by rewrite Hid.
- intros n' Hf ->. by apply Hnd.
Qed.

Lemma recover_node_spares now counts row :
(node_id row.1 = i → may_recover hc row.1 row.2 now = false) → keeps R (recover_node hc now counts row).
Proof using Type.
intros Hno. unfold recover_node, reason_allows, _has_recent_probe_recovery, probe_policy,
  get_latest_for_backend_node, list_recent_for_backend_node, list_signals.
destruct (may_recover hc row.1 row.2 now) eqn:Hm; cbn [negb]; [|keeps_tac].
keeps_step; [keeps_tac|intros m]. keeps_step; [keeps_tac|]. intros []; cbn [negb]; [|keeps_tac].
keeps_step; [|keeps_tac]. apply spares_other; [done|]. intros E. specialize (Hno E). congruence.
Qed.

Lemma recover_nodes_spares now counts rows :
(∀ row, row ∈ rows → node_id row.1 = i → may_recover hc row.1 row.2 now = false) →
keeps R (recover_nodes hc now counts rows).
Proof using Type.
induction rows as [|row rows IH]; intros Hno; cbn [recover_nodes]; [keeps_tac|].
keeps_step; [apply recover_node_spares, Hno; left|intros b].
keeps_step; [apply IH; intros r Hr; apply Hno; by right|intros k; keeps_tac].
Qed.
End Untouched.

(** A drained node whose drain is the administrator's. *)
Definition admin_drained (n : VpnNode) : Prop := is_draining n = true ∧ drain_source n = Some "admin".

Lemma find_node_row d (ids : list Z) i n :
  keyed nodes_tbl d → nodes d !! i = Some n → ∀ n',
  find (λ n, node_id n =? i) (filter (λ n, bool_decide (node_id n ∈ ids) = true) (rows (nodes d))) = Some n' → n' = n.
Proof.
  intros Hk Hn n' [Hin Hid%Z.eqb_eq]%find_some. apply list_elem_of_In, list_elem_of_filter in Hin as [_ Hin].
  apply elem_of_rows in Hin as [j Hj]. pose proof (Hk j n' Hj) as E. cbn in E. congruence.
Qed.

(** The rows of the outer join are rows of the table. *)
Lemma joined_row d n st :
  (n, st) ∈ (λ n, (n, find (λ a, as_node_id a =? node_id n) (rows (agent_states d)))) <$>
    order_by_name node_name (filter (λ n, node_is_active n = true) (rows (nodes d))) →
  ∃ j, nodes d !! j = Some n.
Proof.
  intros (n' & [= -> _] & Hin)%list_elem_of_fmap. unfold order_by_name in Hin.
  rewrite merge_sort_Permutation, list_elem_of_filter in Hin. by apply elem_of_rows, Hin.
Qed.

(** The administrator's drain of node [i] is in place. *)
Definition admin_row (i : Z) (n : VpnNode) (s s' : session) : Prop :=
  keyed nodes_tbl (db s) ∧ nodes (db s) !! i = Some n → keyed nodes_tbl (db s') ∧ nodes (db s') !! i = Some n.

#[export] Instance admin_row_preorder i n : PreOrder (admin_row i n).
Proof. split; [by intros s ?|]. intros s1 s2 s3 H1 H2 H. by apply H2, H1. Qed.

Lemma admin_row_spares {A} i n (m : SM A) : keeps (on_db (spares i)) m → keeps (admin_row i n) m.
Proof. intros H s [Hk Hn]. destruct (H s Hk) as [Hk' E]. split; [done|]. congruence. Qed.

Lemma admin_row_same {A} i n (m : SM A) : keeps (on_db (same nodes)) m → keeps (admin_row i n) m.
Proof. intros H. by apply admin_row_spares, spares_same. Qed.

Section Admin.
Context (hc : HealConfig) (i : Z) (n : VpnNode) (Hadm : admin_drained n).

Lemma recover_keeps_admin now counts : keeps (admin_row i n) (_recover_draining_nodes hc now counts).
Proof using Hadm.
intros s [Hk Hn]. destruct Hadm as [Hd Ha]. unfold _recover_draining_nodes, list_active_with_agent_state.
unfold mbind, M_bind, select_where, read, gets, mret, M_ret. cbn [t_rows nodes_tbl agent_states_tbl].
rewrite (filter_unchanged (λ _ : NodeAgentState, true = true)) by done.
apply (admin_row_spares i n); [|done]. apply recover_nodes_spares.
intros [n' st] Hin Hid. destruct (joined_row _ _ _ Hin) as [j Hj].
pose proof (Hk j n' Hj) as E. cbn in E, Hid. assert (n' = n) as -> by congruence.
unfold may_recover. cbn [fst snd]. rewrite Ha. cbn. by rewrite !andb_false_r.
Qed.

Lemma heal_keeps_admin {A} now ids counts o (K : NodeAutoHealTickOut → SM A) :
(∀ o, keeps (admin_row i n) (K o)) →
keeps (admin_row i n)
  (nodes ← list_nodes_by_ids ids; states ← list_states_by_node_ids ids;
   o ← heal_sources hc now nodes states counts o; K o).
Proof using Hadm.
intros HK s.
assert (Hrun : list_nodes_by_ids ids s =
  (Ok (filter (λ n, bool_decide (node_id n ∈ ids) = true) (rows (nodes (db s)))), s)).
{ unfold list_nodes_by_ids. destruct ids as [|x ids]; [|done]. rewrite filter_empty; [done|].
  intros y _. rewrite bool_decide_eq_true. apply not_elem_of_nil. }
unfold mbind at 1, M_bind at 1. rewrite Hrun. intros [Hk Hn].
apply (keeps_bind (admin_row i n)); [| |by split].
- apply admin_row_same. unfold list_states_by_node_ids. destruct ids; keeps_tac.
- intros sts. keeps_step; [|apply HK]. apply admin_row_spares, heal_sources_spares. intros n' Hf. left.
  rewrite (find_node_row (db s) ids i n Hk Hn n' Hf). apply Hadm.
Qed.
End Admin.

(** Healing never overrides an administrator: whatever a tick does, and however it
    ends, the row of a node that an administrator drained is not written. *)
Theorem heal_respects_admin_drain (hc : HealConfig) (i : Z) (n : VpnNode) (s : session) :
  keyed nodes_tbl (db s) → nodes (db s) !! i = Some n → admin_drained n →
  nodes (db (run_once hc s).2) !! i = Some n.
Proof.
  intros Hk Hn Hadm. pose proof (recover_keeps_admin hc i n Hadm) as Hrec.
  assert (H : keeps (admin_row i n) (run_once hc)); [|by apply H].
  unfold run_once. keeps_step; [apply admin_row_same; keeps_tac|intros now].
  keeps_step; [apply admin_row_same, observe_frame|intros _].
  keeps_step; [apply admin_row_same; unfold count_desired_active_by_backend_node; keeps_tac|intros counts].
  assert (Hend : ∀ o m, keeps (admin_row i n)
    (k ← (if hc_auto_undrain_enabled hc then _recover_draining_nodes hc now m else mret 0); mret (add_undrained k o))).
  { intros o m. keeps_step; [destruct (hc_auto_undrain_enabled hc); [apply Hrec|keeps_tac]|intros k; keeps_tac]. }
  destruct (decide _); [apply Hend|]. apply heal_keeps_admin; [done|]. intros o. apply Hend.
Qed.
