(* ===== verification/TransportResults.v ===== *)
(** What the consumer of placement results guarantees: every message of a batch
    it handles is acknowledged, a redelivered batch changes no placement, and a
    malformed placement id makes a batch fail as a whole. *)

From stdpp Require Import base gmap strings list sorting.
From S2P Require Import Prelude Decimal Errors RouteModels BillingModels FleetModels Session Tables FleetTables Routing Placements Uuid AgentTransport TransportProps.
Local Open Scope Z_scope.

(** * The event log *)

(** The event was recorded. *)
Definition recorded (d : database) (eid : string) : Prop :=
  ∃ i e, event_log d !! i = Some e ∧ el_event_id e = eid.

Lemma record_seen d eid :
  existsb (λ e, String.eqb (el_event_id e) eid) (rows (event_log d)) = true ↔ recorded d eid.
Proof.
  rewrite existsb_exists. unfold recorded. split.
  - intros (e & [i Hi]%list_elem_of_In%elem_of_rows & He%String.eqb_eq). eauto.
  - intros (i & e & Hi & He). exists e. rewrite String.eqb_eq. split; [|done].
    apply list_elem_of_In, elem_of_rows. eauto.
Qed.

(** The databases agree but for the event log, which grows. *)
Record log_step (s s' : session) : Prop := {
  ls_db : db s' = set_event_log (event_log (db s')) (db s);
  ls_log : event_log (db s) ⊆ event_log (db s');
}.

#[export] Instance log_step_preorder : PreOrder log_step.
Proof.
  split.
  - intros s. split; [by destruct s as [[]]|done].
  - intros s1 s2 s3 [D1 L1] [D2 L2]. split; [|by etrans]. rewrite D2, D1. by rewrite D2 at 1.
Qed.

Lemma log_step_same s s' : db s' = db s → log_step s s'.
Proof. intros E. split; rewrite E; [by destruct s as [[]]|done]. Qed.

Lemma log_recorded s s' eid : log_step s s' → recorded (db s) eid → recorded (db s') eid.
Proof. intros H (i & e & Hi & He). exists i, e. split; [|done]. by eapply lookup_weaken, ls_log. Qed.

Lemma record_if_new_run nid ty eid t s :
  log_step s (record_if_new nid ty eid t s).2 ∧
  match (record_if_new nid ty eid t s).1 with
  | Ok fresh => recorded (db (record_if_new nid ty eid t s).2) eid ∧ (fresh = true ↔ ¬ recorded (db s) eid) ∧
      (∀ x, recorded (db (record_if_new nid ty eid t s).2) x → recorded (db s) x ∨ x = eid)
  | Raise _ => True
  end.
Proof.
  pose proof (record_seen (db s) eid) as Hseen.
  destruct (record_if_new nid ty eid t s) as [o s'] eqn:E. cbn [fst snd].
  unfold record_if_new, mbind, M_bind, read, gets in E.
  destruct (existsb _ _).
  - injection E as <- <-. split; [reflexivity|].
    split_and!; [by apply Hseen|split; [done|intros H; by destruct H; apply Hseen]|by left].
  - assert (Hno : ¬ recorded (db s) eid) by (intros H%Hseen; done).
    rewrite create_run in E. cbv zeta in E.
    destruct (t_rows event_log_tbl (db s) !! _) eqn:Hfree.
    { injection E as <- <-. by split; [apply log_step_same|]. }
    destruct (t_check event_log_tbl _ _ _).
    { injection E as <- <-. by split; [apply log_step_same|]. }
    injection E as <- <-. split; [split; cbn; [done|by apply insert_subseteq]|].
    split_and!; [|done|].
    + eexists _, _. cbn. rewrite lookup_insert_eq. done.
    + intros x (i & e & Hi & <-). cbn in Hi. rewrite lookup_insert in Hi. case_decide.
      * injection Hi as <-. by right.
      * left. by exists i, e.
Qed.

Lemma bulk_record_run items ty t s :
  log_step s (bulk_record_if_new items ty t s).2 ∧
  match (bulk_record_if_new items ty t s).1 with
  | Ok fresh =>
      (∀ x, x ∈ items → recorded (db (bulk_record_if_new items ty t s).2) x.2) ∧
      (∀ x, x ∈ items → ¬ recorded (db s) x.2 → x.2 ∈ fresh)
  | Raise _ => True
  end.
Proof.
  revert s. induction items as [|[nid eid] items IH]; intros s; cbn [bulk_record_if_new].
  { split; [reflexivity|]. cbn. split_and!; by intros ? ?%not_elem_of_nil. }
  unfold mbind, M_bind. pose proof (record_if_new_run nid ty eid t s) as [L1 H1].
  destruct (record_if_new nid ty eid t s) as [[fresh|e] s1]; cbn [fst snd] in *; [|done].
  destruct H1 as (Hrec & Hfresh & Honly).
  specialize (IH s1) as [L2 H2]. destruct (bulk_record_if_new items ty t s1) as [[l|e] s2]; cbn [fst snd] in *.
  2:{ split; [by etrans|done]. }
  destruct H2 as (Hall & Hnew). split; [by etrans|]. split_and!.
  - intros x [->|Hx]%elem_of_cons; [by eapply log_recorded|by apply Hall].
  - intros x [->|Hx]%elem_of_cons Hno; cbn in *.
    + rewrite (proj2 Hfresh Hno). left.
    + destruct (decide (x.2 = eid)) as [Heq|Hne].
      * rewrite Heq in *. rewrite (proj2 Hfresh Hno). left.
      * enough (x.2 ∈ l) by (destruct fresh; [by right|done]). apply Hnew; [done|].
        by intros [|]%Honly.
Qed.

(** Events all seen before. *)
Lemma bulk_record_seen items ty t s :
  (∀ x, x ∈ items → recorded (db s) x.2) → bulk_record_if_new items ty t s = (Ok [], s).
Proof.
  induction items as [|[nid eid] items IH]; intros Hall; [done|]. cbn [bulk_record_if_new].
  unfold mbind, M_bind, record_if_new at 1, read, gets.
  unfold mbind, M_bind. rewrite (proj2 (record_seen (db s) eid)) by (apply (Hall (nid, eid)); left).
  cbn. rewrite IH; [done|]. intros x Hx. apply Hall. by right.
Qed.

(** ** Acknowledgement flags *)

Lemma ack_all_length l fl : length (ack_all l fl) = length fl.
Proof.
  unfold ack_all. revert fl. induction l as [|x l IH]; intros fl; cbn; [done|].
  by rewrite IH, length_insert.
Qed.

Lemma ack_all_true l fl j :
  (j < length fl)%nat → fl !! j = Some true ∨ (∃ x, x ∈ l ∧ ri_index x = j) → ack_all l fl !! j = Some true.
Proof.
  unfold ack_all. revert fl. induction l as [|x l IH]; intros fl Hj Hor; cbn.
  - destruct Hor as [|(x & []%not_elem_of_nil & _)]. done.
  - apply IH; [by rewrite length_insert|]. destruct (decide (ri_index x = j)) as [<-|Hne].
    + left. by rewrite list_lookup_insert_eq.
    + rewrite list_lookup_insert_ne by done. destruct Hor as [|(y & [->|Hy]%elem_of_cons & Hyj)]; [by left|done|].
      right. eauto.
Qed.

(** Every message is acknowledged or among the items. *)
Definition covered (l : list result_item) (fl : list bool) : Prop :=
  ∀ j, (j < length fl)%nat → fl !! j = Some true ∨ ∃ x, x ∈ l ∧ ri_index x = j.

Lemma ack_covers l l' fl :
  covered l fl → (∀ x, x ∈ l → x ∈ l' ∨ ∃ y, y ∈ l' ∧ ri_index y = ri_index x) →
  ack_all l' fl = replicate (length fl) true.
Proof.
  intros Hcov Hsub. apply list_eq. intros j. destruct (decide (j < length fl)%nat) as [Hj|Hj].
  - rewrite lookup_replicate_2 by done. apply ack_all_true; [done|].
    destruct (Hcov j Hj) as [|(x & Hx & <-)]; [by left|right].
    destruct (Hsub x Hx) as [|(y & ? & ?)]; eauto.
  - rewrite !lookup_ge_None_2; [done|rewrite length_replicate; lia|rewrite ack_all_length; lia].
Qed.

Section ResultRuns.
Context {message : Type} (parse_result : message → option PlacementApplyResultEvent).
Context (ack_broker : string → Z → outcome exn unit).

Lemma parse_messages_covers ms i fl :
length fl = (i + length ms)%nat →
let '(l, fl') := parse_messages parse_result i ms fl in
length fl' = length fl ∧ (∀ j, fl !! j = Some true → fl' !! j = Some true) ∧
∀ j, (i ≤ j < length fl)%nat → fl' !! j = Some true ∨ ∃ x, x ∈ l ∧ ri_index x = j.
Proof using Type.
revert i fl. induction ms as [|m ms IH]; intros i fl Hlen; cbn [parse_messages].
{ cbn in Hlen. split_and!; [done|done|]. intros j Hj. lia. }
cbn in Hlen.
assert (Hskip : ∀ l fl', parse_messages parse_result (S i) ms (<[i:=true]> fl) = (l, fl') →
  length fl' = length fl ∧ (∀ j, fl !! j = Some true → fl' !! j = Some true) ∧
  ∀ j, (i ≤ j < length fl)%nat → fl' !! j = Some true ∨ ∃ x, x ∈ l ∧ ri_index x = j).
{ intros l fl' E. specialize (IH (S i) (<[i:=true]> fl)). rewrite E, length_insert in IH.
  destruct IH as (H1 & H2 & H3); [lia|]. split_and!; [done| |].
  - intros j Hj. apply H2. destruct (decide (i = j)) as [->|]; [|by rewrite list_lookup_insert_ne].
    apply list_lookup_insert_eq. by eapply lookup_lt_Some.
  - intros j Hj. destruct (decide (i = j)) as [->|]; [|apply H3; lia].
    left. apply H2, list_lookup_insert_eq. lia. }
destruct (parse_result m) as [ev|].
2:{ destruct (parse_messages _ _ _ _) eqn:E. by apply Hskip. }
destruct (_parse_node_id (are_node_id ev)) as [nid|].
2:{ destruct (parse_messages _ _ _ _) eqn:E. by apply Hskip. }
specialize (IH (S i) fl). destruct (parse_messages parse_result (S i) ms fl) as [l fl'].
destruct IH as (H1 & H2 & H3); [lia|]. split_and!; [done|done|].
intros j Hj. destruct (decide (i = j)) as [->|].
- right. exists (j, ev, nid). split; [left|done].
- destruct (H3 j ltac:(lia)) as [|(x & ? & ?)]; [by left|right]. exists x. split; [by right|done].
Qed.

Lemma parse_all_covers ms parsed fl :
parse_messages parse_result 0 ms (replicate (length ms) false) = (parsed, fl) →
length fl = length ms ∧ covered parsed fl.
Proof using Type.
intros E. pose proof (parse_messages_covers ms 0 (replicate (length ms) false)) as H.
rewrite E, length_replicate in H. destruct (H eq_refl) as (Hl & _ & Hc).
split; [done|]. intros j Hj. apply Hc. lia.
Qed.

(** ** The transaction *)

(** The items of nodes that exist. *)
Definition known_items (d : database) (parsed : list result_item) : list result_item :=
filter (λ x : result_item, is_Some (nodes d !! ri_node x)) parsed.

(** The part after the events are recorded. *)
Definition apply_new (now : Z) (known : list result_item) (new_event_ids : list string)
  (flags : list bool) (sts : statuses) : SM (list bool * statuses * bool) :=
let dups := filter (λ x : result_item, are_event_id (ri_event x) ∉ new_event_ids) known in
let new_items := filter (λ x : result_item, are_event_id (ri_event x) ∈ new_event_ids) known in
let flags := ack_all dups flags in
let sts := set_statuses (λ _, skipped_idempotent) dups sts in
'(flags, sts) ←
  match new_items with
  | [] => mret (flags, sts)
  | _ =>
      bulk_items ← result_applies now new_items;
      updated ← bulk_apply_backend_report bulk_items;
      mret (ack_all new_items flags, set_statuses (new_status updated) new_items sts)
  end;
for_each (λ e : Z * (string * Z), touch_result e.1 e.2.1 e.2.2) (last_events known) ;;
mret (flags, sts, true).

Lemma result_body_run parsed flags sts s :
result_body parsed flags sts s =
let known := known_items (db s) parsed in
let flags := ack_all (filter (λ x : result_item, ¬ is_Some (nodes (db s) !! ri_node x)) parsed) flags in
match known with
| [] => (Ok (flags, sts, false), s)
| _ =>
    let now := clock s (ticks s) in
    match bulk_record_if_new ((λ x, (ri_node x, are_event_id (ri_event x))) <$> known) "placement_result" now (tick s) with
    | (Ok fresh, s1) => apply_new now known fresh flags sts s1
    | (Raise e, s1) => (Raise e, s1)
    end
end.
Proof using Type.
unfold result_body, mbind at 1, M_bind at 1, read at 1, gets at 1. unfold mbind at 1, M_bind at 1, read, gets.
cbv zeta. fold (known_items (db s) parsed). destruct (known_items (db s) parsed); [done|].
unfold mbind at 1, M_bind at 1, utcnow. fold (tick s). unfold mbind at 1, M_bind at 1.
by destruct (bulk_record_if_new _ _ _ _) as [[] ?].
Qed.

Lemma touch_result_frame {B} (f : database → B) `{!FrameOn f transport_states_tbl} nid eid t :
keeps (on_db (same f)) (touch_result nid eid t).
Proof using Type. unfold touch_result, get_or_create, update_state, get_state. keeps_tac. Qed.

Lemma touches_frame {B} (f : database → B) `{!FrameOn f transport_states_tbl} l :
keeps (on_db (same f)) (for_each (λ e : Z * (string * Z), touch_result e.1 e.2.1 e.2.2) l).
Proof using Type. apply keeps_for_each; [apply _|]. intros. by apply touch_result_frame. Qed.

Lemma result_applies_frame {B} (f : database → B) now l : keeps (on_db (same f)) (result_applies now l).
Proof using Type. induction l as [|x l IH]; cbn [result_applies]; unfold result_apply; keeps_tac. Qed.

Lemma bulk_report_frame {B} (f : database → B) `{!FrameOn f placements_tbl} items :
keeps (on_db (same f)) (bulk_apply_backend_report items).
Proof using Type.
unfold bulk_apply_backend_report. destruct items as [|it items]; [keeps_tac|].
apply keeps_fold_m; [apply _|]. intros acc [st g]. unfold report_group. keeps_tac.
Qed.

Lemma apply_new_frame {B} (f : database → B) `{!FrameOn f placements_tbl} `{!FrameOn f transport_states_tbl}
  now known fresh flags sts : keeps (on_db (same f)) (apply_new now known fresh flags sts).
Proof using Type.
unfold apply_new. keeps_step.
- destruct (filter _ known); [keeps_tac|]. keeps_step; [apply result_applies_frame|intros items].
  keeps_step; [by apply bulk_report_frame|]. keeps_tac.
- intros [fl st]. keeps_step; [by apply touches_frame|keeps_tac].
Qed.

(** Nothing new: no placement changes. *)
Lemma apply_nothing_new now known flags sts : keeps (on_db (same placements)) (apply_new now known [] flags sts).
Proof using Type.
unfold apply_new. rewrite (filter_empty (λ x : result_item, are_event_id (ri_event x) ∈ [])).
2:{ intros x _. apply not_elem_of_nil. }
keeps_step; [keeps_tac|]. intros [fl st]. keeps_step; [apply touches_frame, _|keeps_tac].
Qed.

Lemma body_records parsed flags sts s r s' :
result_body parsed flags sts s = (Ok r, s') →
∀ x, x ∈ parsed → is_Some (nodes (db s) !! ri_node x) → recorded (db s') (are_event_id (ri_event x)).
Proof using Type.
rewrite result_body_run. cbv zeta. intros E x Hx Hn.
assert (Hk : x ∈ known_items (db s) parsed) by by apply list_elem_of_filter.
destruct (known_items (db s) parsed) as [|x0 l0] eqn:El; [by apply not_elem_of_nil in Hk|]. rewrite <-El in *.
match type of E with context [bulk_record_if_new ?i ?ty ?t ?s0] => pose proof (bulk_record_run i ty t s0) as [_ H];
  destruct (bulk_record_if_new i ty t s0) as [[fresh|e] s1] end; cbn in H; [|done].
destruct H as [Hall _].
match type of E with apply_new ?a ?b ?c ?d ?e s1 = _ => pose proof (apply_new_frame event_log a b c d e s1) as Hf end.
rewrite E in Hf. unfold on_db, same in Hf. cbn in Hf.
destruct (Hall (ri_node x, are_event_id (ri_event x))) as (i & ev & Hi & Hev).
- by apply (list_elem_of_fmap_2 (λ x, (ri_node x, are_event_id (ri_event x)))).
- exists i, ev. rewrite Hf. done.
Qed.

Lemma body_replay parsed flags sts s :
(∀ x, x ∈ parsed → is_Some (nodes (db s) !! ri_node x) → recorded (db s) (are_event_id (ri_event x))) →
let s' := (result_body parsed flags sts s).2 in
placements (db s') = placements (db s) ∧ event_log (db s') = event_log (db s).
Proof using Type.
intros Hall. rewrite result_body_run. cbv zeta.
destruct (known_items (db s) parsed) as [|x0 l0] eqn:El; [done|]. rewrite <-El in *.
rewrite bulk_record_seen.
2:{ intros y (x & -> & [Hn Hx]%list_elem_of_filter)%list_elem_of_fmap. by apply Hall. }
split.
- apply (apply_nothing_new _ _ _ _ (tick s)).
- apply (apply_new_frame event_log _ _ _ _ _ (tick s)).
Qed.

(** ** Flags of the transaction *)

Lemma ack_all_app l1 l2 fl : ack_all l2 (ack_all l1 fl) = ack_all (l1 ++ l2) fl.
Proof using Type. unfold ack_all. by rewrite foldl_app. Qed.

(** A computation whose value does not matter. *)
Lemma wp_any_then {A B} (m : SM A) (f : A → SM B) (Q : B → session → Prop) s :
(∀ a s', wp (f a) Q (λ _ _, True) s') → wp (m ≫= f) Q (λ _ _, True) s.
Proof using Type. intros H. apply wp_bind. unfold wp at 1. by destruct (m s) as [[a|e] s']. Qed.

Lemma apply_new_flags now known fresh flags sts s :
wp (apply_new now known fresh flags sts) (λ r _, r.2 = true ∧
  ∃ l, r.1.1 = ack_all l flags ∧ ∀ x, x ∈ known → x ∈ l) (λ _ _, True) s.
Proof using Type.
unfold apply_new. set (dups := filter (λ x : result_item, are_event_id (ri_event x) ∉ fresh) known).
set (new := filter (λ x : result_item, are_event_id (ri_event x) ∈ fresh) known).
assert (Hsplit : ∀ x, x ∈ known → x ∈ dups ++ new).
{ intros x Hx. apply elem_of_app. unfold dups, new. rewrite !list_elem_of_filter.
  destruct (decide (are_event_id (ri_event x) ∈ fresh)); [right|left]; by split. }
apply wp_bind.
assert (Htail : ∀ l (st : statuses) s1, (∀ x, x ∈ known → x ∈ l) →
  wp (for_each (λ e : Z * (string * Z), touch_result e.1 e.2.1 e.2.2) (last_events known) ;;
      mret (ack_all l flags, st, true)) (λ (r : list bool * statuses * bool) _, r.2 = true ∧
    ∃ l, r.1.1 = ack_all l flags ∧ ∀ x, x ∈ known → x ∈ l) (λ _ _, True) s1).
{ intros l st s1 Hl. apply wp_any_then. intros _ s2. apply wp_ret. split; [done|]. by exists l. }
destruct new as [|x0 new'] eqn:En.
- apply wp_ret, Htail. by rewrite app_nil_r in Hsplit.
- rewrite <-En in *. apply wp_any_then. intros items s1. apply wp_any_then. intros upd s2. apply wp_ret.
  rewrite ack_all_app. by apply Htail.
Qed.

Lemma body_flags parsed flags sts s fl st c s' :
covered parsed flags → result_body parsed flags sts s = (Ok (fl, st, c), s') →
fl = replicate (length flags) true ∧ (c = false → s' = s).
Proof using Type.
intros Hcov. rewrite result_body_run. cbv zeta. set (unk := filter _ parsed).
assert (Hall : ∀ l, (∀ x, x ∈ known_items (db s) parsed → x ∈ l) →
  ack_all l (ack_all unk flags) = replicate (length flags) true).
{ intros l Hl. rewrite ack_all_app. apply (ack_covers parsed); [done|]. intros x Hx. left.
  apply elem_of_app. destruct (decide (is_Some (nodes (db s) !! ri_node x))).
  - right. apply Hl. by apply list_elem_of_filter.
  - left. by apply list_elem_of_filter. }
destruct (known_items (db s) parsed) as [|x0 l0] eqn:El.
- intros [= <- <- <- <-]. split; [|done]. apply (Hall []). by intros x ?%not_elem_of_nil.
- rewrite <-El in *. destruct (bulk_record_if_new _ _ _ _) as [[fresh|e] s1]; [|done]. intros E.
  pose proof (wp_ok _ _ _ _ _ _ (apply_new_flags _ _ _ _ _ s1) E) as (Hc & l & Hl & Hin). cbn in *.
  rewrite Hl, Hc. split; [by apply Hall|done].
Qed.

(** ** The handler *)

Definition publish_acks (sts : statuses) (parsed : list result_item) : SM unit :=
for_each (λ x, match sts !! ri_index x with
               | Some (Some st) => _publish_result_ack ack_broker (ri_event x) st
               | _ => mret tt
               end) parsed.

Lemma publish_acks_db sts parsed s : db (publish_acks sts parsed s).2 = db s.
Proof using Type.
assert (H : keeps (on_db (same (λ d, d))) (publish_acks sts parsed)); [|exact (H s)].
apply keeps_for_each; [apply _|]. intros x. unfold _publish_result_ack.
destruct (sts !! ri_index x) as [[]|]; keeps_tac.
Qed.

(** The handler on messages of which [parsed] were understood. *)
Lemma handle_run ms s parsed flags :
parse_messages parse_result 0 ms (replicate (length ms) false) = (parsed, flags) →
_handle_result_batch parse_result ack_broker ms s =
match parsed with
| [] => (Ok flags, s)
| _ => match run_committing (result_body parsed flags (replicate (length ms) None)) s with
       | (Ok (fl, sts), s1) =>
           match publish_acks sts parsed s1 with
           | (Ok _, s2) => (Ok fl, s2)
           | (Raise e, s2) => (Raise e, s2)
           end
       | (Raise e, s1) => (Raise e, s1)
       end
end.
Proof using Type.
intros E. unfold _handle_result_batch. rewrite E. destruct parsed as [|x0 l]; [done|].
unfold mbind at 1, M_bind at 1.
destruct (run_committing _ s) as [[[fl sts]|e] s1]; [|done]. unfold mbind, M_bind.
fold (publish_acks sts (x0 :: l)). by destruct (publish_acks _ _ s1) as [[] ?].
Qed.

Lemma handled_acks ms s parsed flags fl s' :
parse_messages parse_result 0 ms (replicate (length ms) false) = (parsed, flags) →
_handle_result_batch parse_result ack_broker ms s = (Ok fl, s') → fl = replicate (length ms) true.
Proof using Type.
intros E. rewrite (handle_run ms s parsed flags E).
destruct (parse_all_covers _ _ _ E) as [Hlen Hcov]. rewrite <-Hlen.
destruct parsed as [|x0 l] eqn:El.
- intros [= <- _]. change flags with (ack_all [] flags) at 1. apply (ack_covers []); [done|].
  by intros x ?%not_elem_of_nil.
- rewrite <-El in *. unfold run_committing.
  destruct (result_body _ _ _ s) as [[[[f st] c]|e] s0] eqn:Eb; [|done].
  destruct (body_flags _ _ _ _ _ _ _ _ Hcov Eb) as [-> _].
  destruct c; (destruct (publish_acks _ _ _) as [[] ?]; [|done]; by intros [= <- _]).
Qed.

(** A delivery that changed the database recorded the events of known nodes. *)
Lemma handled_records ms s parsed flags :
parse_messages parse_result 0 ms (replicate (length ms) false) = (parsed, flags) →
let s1 := (_handle_result_batch parse_result ack_broker ms s).2 in
db s1 ≠ db s →
∀ x, x ∈ parsed → is_Some (nodes (db s) !! ri_node x) → recorded (db s1) (are_event_id (ri_event x)).
Proof using Type.
intros E. rewrite (handle_run ms s parsed flags E). intros s1 Hne x Hx.
destruct parsed as [|x0 l]; [done|]. set (parsed := x0 :: l) in *.
unfold run_committing in s1. destruct (result_body _ _ _ s) as [[[[fl st] c]|e] s0] eqn:Eb.
2:{ by destruct Hne. }
destruct (body_flags _ _ _ _ _ _ _ _ (proj2 (parse_all_covers _ _ _ E)) Eb) as [_ Hc].
assert (Hs0 : db s1 = db s0 ∨ db s1 = db s).
{ unfold s1. destruct c.
  - left. pose proof (publish_acks_db st parsed s0) as Hdb. by destruct (publish_acks st parsed s0) as [[] ?].
  - right. match goal with |- context [publish_acks st parsed ?z] => pose proof (publish_acks_db st parsed z) as Hdb;
      by destruct (publish_acks st parsed z) as [[] ?] end. }
destruct Hs0 as [->|]; [|done]. by eapply body_records.
Qed.

Lemma handled_replay ms s parsed flags :
parse_messages parse_result 0 ms (replicate (length ms) false) = (parsed, flags) →
(∀ x, x ∈ parsed → is_Some (nodes (db s) !! ri_node x) → recorded (db s) (are_event_id (ri_event x))) →
let s1 := (_handle_result_batch parse_result ack_broker ms s).2 in
placements (db s1) = placements (db s) ∧ event_log (db s1) = event_log (db s).
Proof using Type.
intros E Hall s1. unfold s1. rewrite (handle_run ms s parsed flags E).
destruct parsed as [|x0 l] eqn:El; [done|]. rewrite <-El in *.
pose proof (body_replay parsed flags (replicate (length ms) None) s Hall) as [Hp Hl].
unfold run_committing. destruct (result_body _ _ _ s) as [[[[fl st] c]|e] s0]; cbn in Hp, Hl; [|done].
assert (H : ∀ z, db z = db s0 ∨ db z = db s → let s1 := (publish_acks st parsed z).2 in
  placements (db s1) = placements (db s) ∧ event_log (db s1) = event_log (db s)).
{ intros z Hz. cbv zeta. rewrite publish_acks_db. by destruct Hz as [->| ->]. }
destruct c; (match goal with |- context [publish_acks st parsed ?z] => specialize (H z);
  destruct (publish_acks st parsed z) as [[] ?] end; apply H; cbn; tauto).
Qed.

(** C7: placement results are applied once.  After a delivery of a batch that
    changed the database, redelivering the batch, at once or after any later
    activity that keeps the event log, changes no placement and records no event,
    even though the placements may have moved on; and whenever the handler
    returns it acknowledges every message of the batch. *)
Theorem result_redelivery ms s r1 s1 s2 r s3 :
_handle_result_batch parse_result ack_broker ms s = (r1, s1) → db s1 ≠ db s →
event_log (db s1) ⊆ event_log (db s2) →
(∀ n, is_Some (nodes (db s2) !! n) → is_Some (nodes (db s) !! n)) →
_handle_result_batch parse_result ack_broker ms s2 = (r, s3) →
placements (db s3) = placements (db s2) ∧ event_log (db s3) = event_log (db s2) ∧
∀ fl, r = Ok fl → fl = replicate (length ms) true.
Proof using Type.
destruct (parse_messages parse_result 0 ms (replicate (length ms) false)) as [parsed flags] eqn:E.
intros E1 Hne Hlog Hnodes E3.
pose proof (handled_records ms s parsed flags E) as Hrec. rewrite E1 in Hrec.
pose proof (handled_replay ms s2 parsed flags E) as Hrep. rewrite E3 in Hrep.
destruct Hrep as [Hp Hl].
{ intros x Hx Hn. destruct (Hrec Hne x Hx) as (i & ev & Hi & Hev); [by apply Hnodes|].
  exists i, ev. split; [|done]. by eapply lookup_weaken. }
split_and!; [done|done|]. intros fl ->. by eapply handled_acks.
Qed.

Lemma result_applies_raise now l x s :
x ∈ l → UUID (are_placement_id (ri_event x)) = None → ∃ e s', result_applies now l s = (Raise e, s').
Proof using Type.
intros Hx Hbad. induction l as [|y l IH]; [by apply not_elem_of_nil in Hx|].
cbn [result_applies]. unfold mbind, M_bind, result_apply.
destruct (UUID (are_placement_id (ri_event y))) as [pid|] eqn:Ey; cbn; [|eauto].
apply elem_of_cons in Hx as [->|Hx]; [congruence|]. destruct (IH Hx) as (e & s' & ->). eauto.
Qed.

(** A batch with one new report of a known node whose placement id is not a
    UUID fails as a whole: the handler raises, nothing of the batch is stored and
    no message of it, the good ones included, is acknowledged. *)
Theorem malformed_id_fails_batch ms s parsed flags x :
parse_messages parse_result 0 ms (replicate (length ms) false) = (parsed, flags) →
x ∈ parsed → is_Some (nodes (db s) !! ri_node x) → UUID (are_placement_id (ri_event x)) = None →
~ recorded (db s) (are_event_id (ri_event x)) →
∃ e s', _handle_result_batch parse_result ack_broker ms s = (Raise e, s') ∧ db s' = db s.
Proof using Type.
intros E Hx Hn Hbad Hnew. rewrite (handle_run ms s parsed flags E).
assert (Hk : x ∈ known_items (db s) parsed) by by apply list_elem_of_filter.
enough (∃ e s', result_body parsed flags (replicate (length ms) None) s = (Raise e, s')) as (e & s' & Hb).
{ unfold run_committing. rewrite Hb. destruct parsed; [by apply not_elem_of_nil in Hx|]. eauto. }
rewrite result_body_run. cbv zeta.
destruct (known_items (db s) parsed) as [|x0 l0] eqn:El; [by apply not_elem_of_nil in Hk|]. rewrite <-El in *.
match goal with |- context [bulk_record_if_new ?i ?ty ?t ?s0] => pose proof (bulk_record_run i ty t s0) as [_ H];
  destruct (bulk_record_if_new i ty t s0) as [[fresh|e] s1] end; cbn in H; [|eauto].
destruct H as [_ Hfresh].
specialize (Hfresh (ri_node x, are_event_id (ri_event x))
  ltac:(by apply (list_elem_of_fmap_2 (λ x, (ri_node x, are_event_id (ri_event x))))) Hnew).
cbn in Hfresh. unfold apply_new.
set (new := filter (λ x : result_item, are_event_id (ri_event x) ∈ fresh) (known_items (db s) parsed)).
assert (Hin : x ∈ new) by by apply list_elem_of_filter.
destruct (result_applies_raise (clock s (ticks s)) new x s1 Hin Hbad) as (e & s' & Hr).
destruct new as [|y new']; [by apply not_elem_of_nil in Hin|].
unfold mbind, M_bind. rewrite Hr. eauto.
Qed.
End ResultRuns.
