(* ===== verification/Snapshots.v ===== *)
(** Snapshots (services/nodes/agent/runtime.py): a node asks for its whole state
    and gets the commands of all its placements in chunks. *)

From stdpp Require Import base gmap strings list sorting.
From S2P Require Import Prelude Decimal Errors RouteModels BillingModels FleetModels Session Uuid Tables FleetTables Routing Placements AgentTransport PlacementProps PlacementMigrate PlacementCommands TransportProps TransportResults.
Local Open Scope Z_scope.

(** * The handlers *)

Definition NODE_AGENT_SNAPSHOT_CHUNK_SIZE : nat := 200%nat.

(** An aware [datetime]: its instant and its [isoformat()]. *)
Record datetime := { instant : Z; isoformat : string }.

Inductive SnapshotRequestReason := startup | xray_restart | redelivery_gap | operator_forced.
Definition reason_value (r : SnapshotRequestReason) : string :=
  match r with
  | startup => "startup" | xray_restart => "xray_restart"
  | redelivery_gap => "redelivery_gap" | operator_forced => "operator_forced"
  end.

Record SnapshotRequestEvent := {
  sre_node_id : string;
  sre_requested_at : datetime;
  sre_reason : SnapshotRequestReason;
  sre_known_snapshot_id : option string;
}.

Definition _snapshot_request_event_id (event : SnapshotRequestEvent) : string :=
  "snapshot-request:" +:+ sre_node_id event +:+ ":" +:+ reason_value (sre_reason event) +:+ ":" +:+
  isoformat (sre_requested_at event) +:+ ":" +:+ default "" (sre_known_snapshot_id event).

(** [[items[idx : idx + size] for idx in range(0, len(items), size)]]; the
    number of indices of the range is [len / size] rounded up. *)
Definition _chunk_items {A} (items : list A) (chunk_size : nat) : list (list A) :=
  (λ k, take chunk_size (drop (k * chunk_size) items)) <$>
  seq 0 ((length items + chunk_size - 1) / chunk_size)%nat.

(** [getattr(node, "role", "backend") or "backend"]. *)
Definition role_of (n : VpnNode) : string := if nonempty (node_role n) then node_role n else "backend".

Section Snapshot.
(** What the broker answers when a chunk of a snapshot is published, by its
    snapshot, index and time, and when an upstream of an entry is. *)
Context (chunk_broker : string → Z → Z → outcome exn unit).
Context (upstream_broker : Z → Z → Z → outcome exn unit).
(** [SnapshotRequestEvent.model_validate_json]; [None] when it raises. *)
Context {message : Type} (parse_request : message → option SnapshotRequestEvent).

Definition publish (answer : Z → outcome exn unit) (e : effect) : SM unit :=
emitted_at ← utcnow;
match answer emitted_at with
| Raise exc => raise exc
| Ok _ => emit e
end.

Definition _publish_snapshot_chunk (nid : Z) (snapshot_id : string) (epoch chunk_index : Z)
  (is_last_chunk : bool) (items : list PlacementCommandPayload) : SM unit :=
publish (chunk_broker snapshot_id chunk_index)
  (PublishSnapshotChunk nid snapshot_id epoch chunk_index is_last_chunk items).

(** [for index, chunk in enumerate(chunked)]. *)
Fixpoint publish_chunks (nid : Z) (snapshot_id : string) (epoch : Z) (index : nat)
  (chunked : list (list PlacementCommandPayload)) : SM unit :=
match chunked with
| [] => mret tt
| chunk :: rest =>
    _publish_snapshot_chunk nid snapshot_id epoch (Z.of_nat index)
      (match rest with [] => true | _ => false end) chunk ;;
    publish_chunks nid snapshot_id epoch (S index) rest
end.

Definition publish_snapshot (nid : Z) (snapshot_id : string) (epoch : Z)
  (items : list PlacementCommandPayload) : SM unit :=
match items with
| [] => _publish_snapshot_chunk nid snapshot_id epoch 0 true []
| _ => publish_chunks nid snapshot_id epoch 0 (_chunk_items items NODE_AGENT_SNAPSHOT_CHUNK_SIZE)
end.

(** The enabled backends of an entry, a row per assignment. *)
Definition entry_backends (d : database) (entry : Z) : list VpnNode :=
omap (λ e, if (eba_entry_node_id e =? entry) && eba_enabled e then nodes d !! eba_backend_node_id e
           else None) (rows (entry_assignments d)).

Definition _publish_upstreams_for_entry (entry now : Z) : SM unit :=
backends ← read (λ d, entry_backends d entry);
for_each (λ b,
  uuid4 ;;
  match upstream_broker entry (node_id b) now with
  | Raise exc => raise exc
  | Ok _ => emit (PublishUpstream entry (node_id b) now
      (UpstreamChanged entry (node_id b) (node_name b) (public_domain b)
         (reality_ip b) (internal_wg_ip b) (agent_port b)))
  end) backends.

(** The commands of a node, by its role. *)
Definition snapshot_commands (nid : Z) (role : string) : SM (list PlacementCommandPayload) :=
if is_entry_role role then list_command_payloads_for_entry nid
else list_command_payloads_for_backend nid.

Definition snapshot_request_body (event : SnapshotRequestEvent) (nid : Z) : SM (bool * bool) :=
node ← get_by_id nodes_tbl nid;
match node with
| None => mret (true, false)
| Some n =>
    let request_event_id := _snapshot_request_event_id event in
    let role := role_of n in
    commands ← snapshot_commands nid role;
    let snapshot_id := "snap-" +:+ str_uuid nid +:+ "-" +:+ isoformat (sre_requested_at event) in
    generated_at ← utcnow;
    '(epoch, reserved) ← reserve_snapshot_epoch nid request_event_id snapshot_id
        (reason_value (sre_reason event)) (instant (sre_requested_at event)) generated_at;
    publish_snapshot nid reserved epoch commands ;;
    when (is_entry_role role) (now ← utcnow; _publish_upstreams_for_entry nid now) ;;
    t ← utcnow;
    record_if_new nid "snapshot_request" request_event_id t ;;
    mret (true, true)
end.

(** A message that does not parse raises: the consumer logs it and leaves it
    unacknowledged. *)
Definition _handle_snapshot_request_message (msg : message) : SM bool :=
match parse_request msg with
| None => raise (ValidationError "SnapshotRequestEvent")
| Some event =>
    match _parse_node_id (sre_node_id event) with
    | None => mret true
    | Some nid => run_committing (snapshot_request_body event nid)
    end
end.

(** [trigger_snapshot_for_node]; [iso] renders the time it is triggered at. *)
Definition trigger_body (iso : Z → string) (nid : Z) (reason : string) : SM (unit * bool) :=
node ← get_by_id nodes_tbl nid;
let role := match node with
            | Some n => role_of n
            | None => "backend"
            end in
commands ← snapshot_commands nid role;
now ← utcnow;
let snapshot_id := "snap-" +:+ str_uuid nid +:+ "-admin-" +:+ iso now in
let request_event_id := "admin-snapshot:" +:+ str_uuid nid +:+ ":" +:+ iso now in
'(epoch, reserved) ← reserve_snapshot_epoch nid request_event_id snapshot_id reason now now;
publish_snapshot nid reserved epoch commands ;;
when (is_entry_role role) (_publish_upstreams_for_entry nid now) ;;
mret (tt, true).

Definition trigger_snapshot_for_node (iso : Z → string) (nid : Z) (reason : string) : SM unit :=
run_committing (trigger_body iso nid reason).
End Snapshot.

(** * Chunks *)

Lemma chunk_count (n size : nat) : (0 < size)%nat →
  (n ≤ (n + size - 1) / size * size)%nat ∧ ((n + size - 1) / size * size < n + size)%nat.
Proof.
  intros H. pose proof (Nat.div_mod_eq (n + size - 1) size) as E.
  pose proof (Nat.mod_upper_bound (n + size - 1) size ltac:(lia)). nia.
Qed.

Lemma concat_chunks {A} (l : list A) size n :
  concat ((λ k, take size (drop (k * size) l)) <$> seq 0 n) = take (n * size) l.
Proof.
  induction n as [|n IH]; [done|].
  rewrite seq_S, fmap_app, concat_app, IH. cbn. rewrite app_nil_r.
  rewrite <-(take_drop (n * size) (take (size + n * size) l)), take_take, Nat.min_l by lia.
  by rewrite skipn_firstn_comm, Nat.add_sub.
Qed.

Lemma chunk_items_concat {A} (l : list A) size : (0 < size)%nat → concat (_chunk_items l size) = l.
Proof.
  intros H. unfold _chunk_items. rewrite concat_chunks. apply take_ge.
  by apply chunk_count.
Qed.

Lemma chunk_items_nonempty {A} (l : list A) size c :
  (0 < size)%nat → c ∈ _chunk_items l size → (0 < length c ≤ size)%nat.
Proof.
  intros H. unfold _chunk_items. intros (k & -> & Hk%elem_of_seq)%list_elem_of_fmap.
  rewrite length_take, length_drop. pose proof (chunk_count (length l) size H). nia.
Qed.

(** ** What publishing a snapshot sends *)

(** The chunks of a run of [publish_chunks]. *)
Fixpoint chunk_effects (nid : Z) (sid : string) (epoch : Z) (index : nat)
    (chunked : list (list PlacementCommandPayload)) : list effect :=
  match chunked with
  | [] => []
  | c :: rest =>
      PublishSnapshotChunk nid sid epoch (Z.of_nat index) (match rest with [] => true | _ => false end) c
      :: chunk_effects nid sid epoch (S index) rest
  end.

(** What an agent has after reading the chunks of a snapshot in order: the items
    and whether the last one was announced. *)
Fixpoint assemble (expected : Z) (l : list effect) : option (list PlacementCommandPayload) :=
  match l with
  | [PublishSnapshotChunk _ _ _ i true items] => if i =? expected then Some items else None
  | PublishSnapshotChunk _ _ _ i false items :: rest =>
      if i =? expected then app items <$> assemble (expected + 1) rest else None
  | _ => None
  end.

Lemma assemble_more nid sid epoch e items rest :
  assemble e (PublishSnapshotChunk nid sid epoch e false items :: rest) =
  app items <$> assemble (e + 1) rest.
Proof. destruct rest; cbn; by rewrite Z.eqb_refl. Qed.

Lemma assemble_chunks nid sid epoch index chunked :
  chunked ≠ [] →
  assemble (Z.of_nat index) (chunk_effects nid sid epoch index chunked) = Some (concat chunked).
Proof.
  revert index. induction chunked as [|c rest IH]; intros index Hne; [done|].
  destruct rest as [|c' rest].
  - cbn. by rewrite Z.eqb_refl, app_nil_r.
  - change (chunk_effects nid sid epoch index (c :: c' :: rest)) with
      (PublishSnapshotChunk nid sid epoch (Z.of_nat index) false c
       :: chunk_effects nid sid epoch (S index) (c' :: rest)).
    rewrite assemble_more. replace (Z.of_nat index + 1) with (Z.of_nat (S index)) by lia.
    by rewrite IH.
Qed.

(** * The snapshot of a node *)

(** A payload per row. *)
Lemma build_payloads_run rows o s :
  (∀ r, r ∈ rows → key_sendable r.2 = true) →
  build_payloads rows o s = (Ok ((λ r, payload_of r.1 r.2 o) <$> rows), s).
Proof.
  induction rows as [|[p k] rows IH]; intros H; [done|]. cbn [build_payloads].
  unfold mbind, M_bind. pose proof (build_payload_run p k o s) as Hb.
  pose proof (H (p, k) ltac:(left)) as Hk. cbn in Hk. rewrite Hk in Hb. rewrite Hb, IH; [done|]. intros r Hr. apply H. by right.
Qed.

(** The placements a snapshot is about: those of the backend, or of the enabled
    backends of the entry. *)
Definition snapshot_rows (d : database) (nid : Z) (role : string) : list (UserPlacement * VpnKey) :=
  if is_entry_role role
  then oldest_first (omap (with_key d)
    (p ← rows (placements d);
     (λ _, p) <$> filter (λ e, (eba_entry_node_id e =? nid) && eba_enabled e &&
                               (eba_backend_node_id e =? backend_node_id p) = true)
                    (rows (entry_assignments d))))
  else oldest_first (omap (with_key d) (filter (λ p, backend_node_id p = nid) (rows (placements d)))).

Definition snapshot_target (nid : Z) (role : string) : option Z :=
  if is_entry_role role then Some nid else None.

Lemma oldest_first_perm l : oldest_first l ≡ₚ l.
Proof. unfold oldest_first, order_by_asc. by rewrite ?merge_sort_Permutation. Qed.

Lemma snapshot_rows_key d nid role r :
  r ∈ snapshot_rows d nid role → ∃ i, vpn_keys d !! i = Some r.2.
Proof.
  intros Hr. assert (∃ p, with_key d p = Some r) as [p Hp].
  { unfold snapshot_rows in Hr. destruct (is_entry_role role); rewrite oldest_first_perm in Hr;
      apply list_elem_of_omap in Hr as (p & _ & Hp); by exists p. }
  unfold with_key in Hp. destruct (vpn_keys d !! pl_key_id p) as [k|] eqn:Hk; [|done].
  destruct (pl_is_active p && key_is_active k); [|done]. injection Hp as <-. eauto.
Qed.

Lemma snapshot_commands_run nid role s :
  (∀ i k, vpn_keys (db s) !! i = Some k → key_sendable k = true) →
  snapshot_commands nid role s =
  (Ok ((λ r, payload_of r.1 r.2 (snapshot_target nid role)) <$> snapshot_rows (db s) nid role), s).
Proof.
  intros Hall.
  assert (Hrows : ∀ r, r ∈ snapshot_rows (db s) nid role → key_sendable r.2 = true)
    by (intros r [i Hi]%snapshot_rows_key; eauto).
  unfold snapshot_commands, snapshot_target, snapshot_rows in *.
  destruct (is_entry_role role);
    unfold list_command_payloads_for_entry, list_command_payloads_for_backend, mbind at 1, M_bind at 1,
      list_transport_rows_for_entry, list_transport_rows_for_backend, read, gets;
    by apply build_payloads_run.
Qed.

(** A run that only sends. *)
Record sends (s s' : session) (l : list effect) : Prop := {
  se_db : db s' = db s;
  se_uuid : next_uuid s ≤ next_uuid s';
  se_effects : effects s' = effects s ++ l;
}.

Lemma sends_app s1 s2 s3 l1 l2 : sends s1 s2 l1 → sends s2 s3 l2 → sends s1 s3 (l1 ++ l2).
Proof.
  intros [D1 U1 E1] [D2 U2 E2]. split; [congruence|lia|]. by rewrite E2, E1, (assoc_L (++)).
Qed.

Lemma sends_nil s : sends s s [].
Proof. split; [done|lia|by rewrite app_nil_r]. Qed.

Section SnapshotRun.
Context (chunk_broker : string → Z → Z → outcome exn unit) (upstream_broker : Z → Z → Z → outcome exn unit).
Context {message : Type} (parse_request : message → option SnapshotRequestEvent).
Hypothesis chunk_ok : ∀ sid i t, chunk_broker sid i t = Ok tt.
Hypothesis upstream_ok : ∀ e b t, upstream_broker e b t = Ok tt.

Lemma publish_chunk_run nid sid epoch i last items s :
∃ s', _publish_snapshot_chunk chunk_broker nid sid epoch i last items s = (Ok tt, s') ∧
  sends s s' [PublishSnapshotChunk nid sid epoch i last items].
Proof using chunk_ok.
unfold _publish_snapshot_chunk, publish, mbind, M_bind, utcnow. rewrite chunk_ok.
eexists. split; [done|]. by split.
Qed.

Lemma publish_chunks_run nid sid epoch i chunked s :
∃ s', publish_chunks chunk_broker nid sid epoch i chunked s = (Ok tt, s') ∧
  sends s s' (chunk_effects nid sid epoch i chunked).
Proof using chunk_ok.
revert i s. induction chunked as [|c rest IH]; intros i s; cbn [publish_chunks chunk_effects].
{ exists s. split; [done|apply sends_nil]. }
destruct (publish_chunk_run nid sid epoch (Z.of_nat i) (match rest with [] => true | _ => false end) c s)
  as (s1 & Hrun & H1).
destruct (IH (S i) s1) as (s2 & Hrun2 & H2). exists s2. unfold mbind, M_bind. rewrite Hrun.
split; [done|]. exact (sends_app _ _ _ _ _ H1 H2).
Qed.

(** The chunks of a snapshot, whose items an agent reads back. *)
Definition snapshot_chunks (nid : Z) (sid : string) (epoch : Z) (items : list PlacementCommandPayload)
  (l : list effect) : Prop :=
assemble 0 l = Some items ∧
∀ e, e ∈ l → ∃ i last c, e = PublishSnapshotChunk nid sid epoch i last c ∧
  (length c ≤ NODE_AGENT_SNAPSHOT_CHUNK_SIZE)%nat.

Lemma chunk_effects_elem nid sid epoch i chunked e :
e ∈ chunk_effects nid sid epoch i chunked →
∃ j last c, e = PublishSnapshotChunk nid sid epoch j last c ∧ c ∈ chunked.
Proof using Type.
revert i. induction chunked as [|c rest IH]; intros i; cbn [chunk_effects]; [by intros ?%not_elem_of_nil|].
intros [->|He]%elem_of_cons.
- eexists _, _, c. split; [done|left].
- destruct (IH _ He) as (j & last & c' & -> & Hc'). exists j, last, c'. split; [done|by right].
Qed.

Lemma publish_snapshot_run nid sid epoch items s :
∃ s' l, publish_snapshot chunk_broker nid sid epoch items s = (Ok tt, s') ∧ sends s s' l ∧
  snapshot_chunks nid sid epoch items l.
Proof using chunk_ok.
unfold publish_snapshot. destruct items as [|it items'] eqn:Ei.
- destruct (publish_chunk_run nid sid epoch 0 true [] s) as (s' & Hrun & H). exists s'. eexists.
  split_and!; [exact Hrun|exact H|]. split; [done|].
  intros e [->|?%not_elem_of_nil]%elem_of_cons; [|done]. eexists _, _, _. split; [done|cbn; lia].
- rewrite <-Ei. set (ch := _chunk_items items NODE_AGENT_SNAPSHOT_CHUNK_SIZE).
  assert (Hpos : (0 < NODE_AGENT_SNAPSHOT_CHUNK_SIZE)%nat) by (unfold NODE_AGENT_SNAPSHOT_CHUNK_SIZE; lia).
  assert (Hcat : concat ch = items) by by apply chunk_items_concat.
  destruct (publish_chunks_run nid sid epoch 0 ch s) as (s' & Hrun & H).
  exists s'. eexists. split_and!; [exact Hrun|exact H|]. split.
  + rewrite <-Hcat. apply (assemble_chunks nid sid epoch 0). intros Hnil. by rewrite Hnil, Ei in Hcat.
  + intros e (j & last & c & -> & Hc)%chunk_effects_elem. eexists _, _, _. split; [done|].
    by apply chunk_items_nonempty in Hc as [_ ?].
Qed.

(** The upstream of an entry as it is announced. *)
Definition upstream_effect (entry now : Z) (b : VpnNode) : effect :=
PublishUpstream entry (node_id b) now
  (UpstreamChanged entry (node_id b) (node_name b) (public_domain b) (reality_ip b)
     (internal_wg_ip b) (agent_port b)).

Lemma publish_upstreams_run entry now s :
∃ s', _publish_upstreams_for_entry upstream_broker entry now s = (Ok tt, s') ∧
  sends s s' (upstream_effect entry now <$> entry_backends (db s) entry).
Proof using upstream_ok.
unfold _publish_upstreams_for_entry, mbind at 1, M_bind at 1, read, gets.
generalize (entry_backends (db s) entry) as l. intros l. revert s.
set (f := λ b : VpnNode, _).
induction l as [|b l IH]; intros s; cbn [for_each]; [exists s; split; [done|apply sends_nil]|].
set (s1 := {| db := db s; clock := clock s; ticks := ticks s; next_uuid := next_uuid s + 1;
              effects := effects s ++ [upstream_effect entry now b] |}).
assert (Hb : f b s = (Ok tt, s1)) by (unfold f, mbind, M_bind; cbn; by rewrite upstream_ok).
destruct (IH s1) as (s2 & Hrun & H). exists s2. unfold mbind, M_bind. rewrite Hb. split; [exact Hrun|].
apply (sends_app _ s1 _ [_]); [|done]. split; cbn; [done|lia|done].
Qed.

Lemma maybe_upstreams_run nid role s :
∃ s' l, when (is_entry_role role) (now ← utcnow; _publish_upstreams_for_entry upstream_broker nid now) s
  = (Ok tt, s') ∧ sends s s' l ∧
  ∃ now, l = if is_entry_role role then upstream_effect nid now <$> entry_backends (db s) nid else [].
Proof using upstream_ok.
destruct (is_entry_role role); cbn [when].
- unfold mbind, M_bind, utcnow. fold (tick s).
  destruct (publish_upstreams_run nid (clock s (ticks s)) (tick s)) as (s' & Hrun & [D U E]).
  exists s'. eexists. split_and!; [exact Hrun|by split|]. by eexists.
- exists s, []. split_and!; [done|apply sends_nil|]. by exists 0.
Qed.

(** No event has a key the supply has yet to give out. *)
Definition log_fresh (s : session) : Prop := ∀ i, next_uuid s ≤ i → event_log (db s) !! i = None.

Lemma record_returns nid ty eid t s :
log_fresh s → ∃ b s', record_if_new nid ty eid t s = (Ok b, s') ∧ log_step s s' ∧
  recorded (db s') eid ∧ effects s' = effects s.
Proof using Type.
intros Hf. pose proof (record_if_new_run nid ty eid t s) as [Hstep Hrec].
pose proof (record_seen (db s) eid) as Hseen.
unfold record_if_new, mbind, M_bind, read, gets in *.
destruct (existsb _ _); [eexists _, _; split_and!; [done|done|apply Hrec|done]|].
rewrite create_run in *. cbv zeta in *. cbn [t_rows t_id event_log_tbl el_id] in *. rewrite Hf in * by lia.
destruct (t_check event_log_tbl _ _ _) eqn:Hc.
- exfalso. cbn in Hc. unfold unique_on, unique in Hc.
  rewrite (proj2 (clashes_false _ _ _ _)) in Hc; [done|]. intros i r Hi _. cbn.
  apply String.eqb_neq. intros Heq. enough (false = true) by done. apply Hseen. by exists i, r.
- eexists _, _. split_and!; [done|done|apply Hrec|done].
Qed.

(** C8: a snapshot request of a known node is answered completely.  The handler
    returns true; the chunks it sends carry the reserved snapshot id and epoch,
    at most two hundred items each, and an agent that reads them in order has
    exactly the current commands of the node's placements, whatever their number;
    an entry is also told its enabled backends.  The epoch is reserved, the
    request recorded, and no placement changes. *)
Theorem snapshot_complete msg event nid n s :
parse_request msg = Some event → _parse_node_id (sre_node_id event) = Some nid →
nodes (db s) !! nid = Some n → transport_inv s → log_fresh s →
(∀ i k, vpn_keys (db s) !! i = Some k → key_sendable k = true) →
let role := role_of n in let req := _snapshot_request_event_id event in
let items := (λ r, payload_of r.1 r.2 (snapshot_target nid role)) <$> snapshot_rows (db s) nid role in
∃ s' epoch sid chunks now,
  _handle_snapshot_request_message chunk_broker upstream_broker parse_request msg s = (Ok true, s') ∧
  effects s' = effects s ++ chunks ++
    (if is_entry_role role then upstream_effect nid now <$> entry_backends (db s) nid else []) ∧
  snapshot_chunks nid sid epoch items chunks ∧
  reserved (db s') nid req sid epoch ∧ recorded (db s') req ∧ placements (db s') = placements (db s).
Proof using All.
intros Hparse Hnid Hn HI Hlog Hkeys role req items.
unfold _handle_snapshot_request_message. rewrite Hparse, Hnid. unfold run_committing, snapshot_request_body.
unfold mbind at 1, M_bind at 1, get_by_id, read, gets. cbn [t_rows nodes_tbl]. rewrite Hn.
fold role. fold req. unfold mbind at 1, M_bind at 1. rewrite (snapshot_commands_run nid role s Hkeys). fold items.
unfold mbind at 1, M_bind at 1, utcnow at 1. fold (tick s).
set (sid0 := "snap-" +:+ _).
destruct (reserve_run nid req sid0 (reason_value (sre_reason event)) (instant (sre_requested_at event))
  (clock s (ticks s)) (tick s)) as (epoch & sid & s1 & Hrun1 & Hstep1 & Hres & _);
  [by apply (ss_inv _ _ _ (tick_step (λ _, True) s))|done|].
unfold mbind at 1, M_bind at 1. rewrite Hrun1.
destruct (publish_snapshot_run nid sid epoch items s1) as (s2 & l & Hrun2 & [D2 U2 E2] & Hl).
unfold mbind at 1, M_bind at 1. rewrite Hrun2.
destruct (maybe_upstreams_run nid role s2) as (s3 & l' & Hrun3 & [D3 U3 E3] & now & Hl').
unfold mbind at 1, M_bind at 1. rewrite Hrun3.
unfold mbind at 1, M_bind at 1, utcnow at 1. fold (tick s3).
assert (Hdb : db s3 = set_transport_states (transport_states (db s1)) (db s))
  by (rewrite D3, D2; apply (ss_db _ _ _ Hstep1)).
destruct (record_returns nid "snapshot_request" req (clock s3 (ticks s3)) (tick s3)) as (b & s4 & Hrun4 & [D4 L4] & Hrec & E4).
{ intros i Hi. cbn in *. rewrite Hdb. cbn. apply Hlog. pose proof (ss_uuid _ _ _ Hstep1). cbn in *. lia. }
unfold mbind, M_bind. rewrite Hrun4. exists s4, epoch, sid, l, now.
assert (Hb2 : entry_backends (db s2) nid = entry_backends (db s) nid).
{ rewrite D2, (ss_db _ _ _ Hstep1). done. }
split_and!; [done| |done| |done|].
- rewrite E4. cbn. rewrite E3, E2, (ss_effects _ _ _ Hstep1), Hl', Hb2. cbn. by rewrite (assoc_L (++)).
- destruct Hres as (st & [Hst Hsn] & Hrest). exists st. split; [|done]. split; [|done].
  rewrite D4. cbn. by rewrite D3, D2.
- rewrite D4. cbn. by rewrite Hdb.
Qed.
End SnapshotRun.
