(* ===== verification/TransportRuns.v ===== *)
(** The agent transport on a concrete fleet: instances of its theorems. *)

From stdpp Require Import base gmap strings list sorting.
From S2P Require Import Prelude Decimal Errors RouteModels RouteStateMachine BillingModels FleetModels Session Uuid NodeDisplay WgAllocator Tables FleetTables Routing Placements Routes RouteProps ProbeRepo AgentDetails Entry Nodes AgentTransport PlacementProps PlacementMigrate PlacementCommands EntryProps NodeProps PlacementRuns TransportProps HeartbeatProps TransportResults Snapshots.
Local Open Scope Z_scope.


(** The fleet with the commands of three placements in its outbox. *)
Definition queued : session := (enqueue_for_placement_ids "cmd" [101; 102; 103] fleet_session).2.

Lemma transport_inv_fresh s :
  forallb (λ ir, ob_id ir.2 =? ir.1) (map_to_list (outbox (db s))) = true → transport_states (db s) = ∅ →
  transport_inv s.
Proof.
  intros Ho Hst. split.
  - by apply (keyed_by_computation outbox_tbl).
  - intros i r Hi. cbn in Hi. by rewrite Hst, lookup_empty in Hi.
  - intros i j a b Hi. by rewrite Hst, lookup_empty in Hi.
  - intros i _. by rewrite Hst, lookup_empty.
Qed.

Lemma queued_inv : transport_inv queued.
Proof. apply transport_inv_fresh; vm_compute; reflexivity. Qed.

Lemma ready_by_computation s :
  forallb (λ ir, bool_decide (ob_status ir.2 = ob_pending) && bool_decide (ob_next_retry_at ir.2 = None))
    (map_to_list (outbox (db s))) = true → ready s.
Proof.
  intros Hall i r Hr _ k _. rewrite forallb_forall in Hall.
  assert (Hin : In (i, r) (map_to_list (outbox (db s)))) by by apply list_elem_of_In, elem_of_map_to_list.
  apply Hall in Hin. cbn in Hin. apply andb_true_iff in Hin as [Hs Hn].
  apply bool_decide_eq_true in Hn. unfold claimable. by rewrite Hs, Hn.
Qed.

Lemma queued_ready : ready queued.
Proof. apply ready_by_computation. vm_compute. reflexivity. Qed.

(** A broker that refuses the command of placement 101. *)
Definition flaky (m : message_id) (t : Z) : outcome exn unit :=
  match m with
  | PlacementCommandId 101 _ _ => Raise (RuntimeError "nats: timeout")
  | _ => Ok tt
  end.

Lemma publish_outbox_spec_witness :
  ∃ s', _publish_outbox_batch flaky 10 queued = (Ok 3, s') ∧
    length (sent_ids (effects s')) = 3%nat ∧
    (ob_status <$> rows (outbox (db s'))) ≡ₚ [ob_published; ob_published; ob_published; ob_failed].
Proof.
  destruct (publish_outbox_spec flaky 10 queued queued_inv) as (s' & Hrun & _).
  assert (Hs : s' = (_publish_outbox_batch flaky 10 queued).2) by (by rewrite Hrun).
  exists s'. split; [rewrite Hrun; f_equal; f_equal; rewrite Hs; vm_compute; reflexivity|]. rewrite Hs.
  split; [vm_compute; reflexivity|].
  apply (bool_decide_unpack _). vm_compute. exact I.
Defined.

Lemma outbox_drained_witness :
  ∃ s' new, _run_outbox_publisher (λ _ _, Ok tt) 3 2 queued = (Ok tt, s') ∧
    new ≡ₚ ob_message_id <$> unpublished (db queued).
Proof.
  destruct (outbox_drained (λ _ _, Ok tt) (λ _ _, eq_refl) 3 2 queued queued_inv queued_ready)
    as (s' & new & Hrun & _ & _ & Hnew & _); [vm_compute; lia|].
  exists s', new. split; [exact Hrun|exact Hnew].
Defined.

Lemma snapshot_epoch_spec_witness :
  ∃ s1, reserve_snapshot_epoch 9 "req-1" "snap-9" "startup" 5 6 queued = (Ok (1, "snap-9"), s1) ∧
    reserve_snapshot_epoch 9 "req-1" "snap-9-bis" "startup" 7 8 s1 = (Ok (1, "snap-9"), s1).
Proof.
  destruct (snapshot_epoch_spec 9 "req-1" "snap-9" "startup" 5 6 queued queued_inv eq_refl)
    as (epoch & sid & s1 & Hrun & _ & _ & _ & Hagain & _ & _ & Hnew).
  destruct Hnew as [-> ->].
  { intros old [Hold _]. change (transport_states (db queued)) with (∅ : gmap Z NodeTransportState) in Hold.
    by rewrite lookup_empty in Hold. }
  exists s1. split; [exact Hrun|apply Hagain].
Defined.

(** A report of node 1 for version 3 of placement 101, and a bad one. *)
Definition report (eid pid : string) : PlacementApplyResultEvent :=
  {| are_node_id := str_uuid 1; are_emitted_at := hour; are_event_id := eid; are_placement_id := pid;
     are_op_version := 3; are_applied_state := applied_error |}.

(** The report is delivered, the placement gets a new version, the report is
    delivered again. *)
Definition delivered : session :=
  (_handle_result_batch Some (λ _ _, Ok tt) [report "ev-1" (str_uuid 101)] queued).2.

Lemma result_redelivery_witness :
  (applied_state <$> placements (db delivered) !! 101) = Some applied_error ∧
  let s2 := (upsert_set_pending 51 1 desired_active None None delivered).2 in
  placements (db (_handle_result_batch Some (λ _ _, Ok tt) [report "ev-1" (str_uuid 101)] s2).2) =
  placements (db s2).
Proof.
  split; [vm_compute; reflexivity|]. intros s2.
  destruct (result_redelivery Some (λ _ _, Ok tt) [report "ev-1" (str_uuid 101)] queued
    (_handle_result_batch Some (λ _ _, Ok tt) [report "ev-1" (str_uuid 101)] queued).1 delivered s2
    (_handle_result_batch Some (λ _ _, Ok tt) [report "ev-1" (str_uuid 101)] s2).1
    (_handle_result_batch Some (λ _ _, Ok tt) [report "ev-1" (str_uuid 101)] s2).2) as [H _].
  - apply surjective_pairing.
  - intros Heq. assert (size (event_log (db delivered)) = size (event_log (db queued))) as Hsz by (by rewrite Heq).
    vm_compute in Hsz. discriminate Hsz.
  - assert (event_log (db s2) = event_log (db delivered)) as -> by (vm_compute; reflexivity). done.
  - assert (nodes (db s2) = nodes (db queued)) as -> by (vm_compute; reflexivity). done.
  - apply surjective_pairing.
  - exact H.
Defined.

Lemma malformed_id_fails_batch_witness :
  ∃ e s', _handle_result_batch Some (λ _ _, Ok tt)
    [report "ev-1" (str_uuid 101); report "ev-2" "not-a-uuid"] queued = (Raise e, s') ∧ db s' = db queued.
Proof.
  eapply (malformed_id_fails_batch Some (λ _ _, Ok tt) _ queued _ _ (1%nat, report "ev-2" "not-a-uuid", 1)).
  - vm_compute. reflexivity.
  - right. left.
  - apply (bool_decide_unpack _). vm_compute. exact I.
  - vm_compute. reflexivity.
  - intros (i & e & Hi & _). change (event_log (db queued)) with (∅ : gmap Z NodeTransportEventLog) in Hi.
    by rewrite lookup_empty in Hi.
Defined.

Lemma queued_keys : vpn_keys (db queued) = vpn_keys fleet.
Proof. vm_compute. reflexivity. Qed.

Definition startup_request : SnapshotRequestEvent :=
  {| sre_node_id := str_uuid 9; sre_requested_at := {| instant := hour; isoformat := "2026-01-01T01:00:00+00:00" |};
     sre_reason := startup; sre_known_snapshot_id := None |}.

(** Entry 9 asks for its snapshot: the one placement of its backend. *)
Lemma snapshot_complete_witness :
  ∃ s' epoch sid chunks,
    _handle_snapshot_request_message (λ _ _ _, Ok tt) (λ _ _ _, Ok tt) Some startup_request queued = (Ok true, s') ∧
    snapshot_chunks 9 sid epoch
      [payload_of (sample_placement 102 51 2 applied_applied 1 1) (sample_key 51) (Some 9)] chunks.
Proof.
  destruct (snapshot_complete (λ _ _ _, Ok tt) (λ _ _ _, Ok tt) Some (λ _ _ _, eq_refl) (λ _ _ _, eq_refl)
    startup_request startup_request 9 (sample_node 9 "e9" "entry" false) queued)
    as (s' & epoch & sid & chunks & now & Hrun & _ & Hchunks & _).
  - reflexivity.
  - vm_compute. reflexivity.
  - vm_compute. reflexivity.
  - exact queued_inv.
  - intros i _. change (event_log (db queued)) with (∅ : gmap Z NodeTransportEventLog). apply lookup_empty.
  - rewrite queued_keys. exact fleet_sendable.
  - exists s', epoch, sid, chunks. split; [exact Hrun|exact Hchunks].
Defined.

(** The identifiers survive the trip to an agent and back: the runtime reads
    the node id written by [str] as the node it was written for. *)
Theorem node_id_roundtrip u : 0 ≤ u < 2 ^ 128 → _parse_node_id (str_uuid u) = Some u.
Proof. apply UUID_str. Qed.

Lemma node_id_roundtrip_witness :
  _parse_node_id "deadbeef-0123-4567-89ab-cdef01234567" = Some 0xdeadbeef0123456789abcdef01234567.
Proof. apply (node_id_roundtrip 0xdeadbeef0123456789abcdef01234567). lia. Defined.

(** The theorems on routes, entries and nodes on a concrete fleet: that of [PlacementRuns],
    with a warming-up route and an agent with a token. *)


(** * A fleet with a route in each state *)

(** Route 63 warms up, route 64 is blocked for another hour. *)
Definition warm_route : Route :=
  {| route_id := 63; route_name := "warm"; route_node_id := 2; route_entry_node_id := Some 9;
     route_transport_profile_id := 1; health_status := warming_up; base_weight := 50;
     effective_weight := 10; cooldown_until := None; warmup_stage := Some 0;
     warmup_started_at := Some 0; route_is_active := true; route_created_at := 0; route_updated_at := 0 |}.
Definition blocked_route : Route :=
  {| route_id := 64; route_name := "blocked"; route_node_id := 2; route_entry_node_id := Some 9;
     route_transport_profile_id := 1; health_status := blocked; base_weight := 50;
     effective_weight := 0; cooldown_until := Some (2 * hour); warmup_stage := None;
     warmup_started_at := None; route_is_active := true; route_created_at := 0; route_updated_at := 0 |}.

Definition sample_identity : NodeAgentIdentity :=
  {| ai_id := 91; ai_node_id := 2; agent_instance_id := 7; ai_auth_token_hash := "old";
     prev_auth_token_hash := Some "older"; prev_auth_token_valid_until := Some (3 * hour);
     full_resync_required := false; last_bootstrap_at := None; ai_updated_at := 0 |}.

Definition sample_profile : TransportProfile :=
  {| tp_id := 1; tp_name := "reality"; tp_protocol := "vless"; network := "tcp"; security := "reality";
     flow := None; reality_public_key := None; reality_short_id := None; reality_server_name := None;
     tls_fingerprint := "chrome"; grpc_service_name := None; port := 443; tp_is_active := true; tp_updated_at := 0 |}.

Definition busy_fleet : database :=
  set_transport_profiles (by_id tp_id [sample_profile])
  (set_routes (by_id route_id [sample_route 61 1; sample_route 62 2; warm_route; blocked_route])
  (set_agent_identities (by_id ai_id [sample_identity]) fleet)).
Definition busy_session : session := session_on busy_fleet hour 1000.

(** A property of every row, decided. *)
Lemma rows_decided {R} (f : Z → R → bool) (m : gmap Z R) :
  forallb (λ ir, f ir.1 ir.2) (map_to_list m) = true → ∀ i r, m !! i = Some r → f i r = true.
Proof.
  intros H i r Hr. rewrite forallb_forall in H. apply (H (i, r)).
  by apply list_elem_of_In, elem_of_map_to_list.
Qed.

Lemma busy_routes_wf : routes_wf busy_fleet.
Proof.
  split.
  - intros i r Hr. apply Z.eqb_eq, (rows_decided (λ i r, route_id r =? i) (routes busy_fleet));
      [vm_compute; reflexivity|done].
  - intros i r Hr.
    assert (H : (0 <=? effective_weight r) && (effective_weight r <=? base_weight r) && (base_weight r <=? 100) &&
      match warmup_stage r with Some k => 0 <=? k | None => true end = true).
    { apply (rows_decided (λ _ r, (0 <=? effective_weight r) && (effective_weight r <=? base_weight r) &&
        (base_weight r <=? 100) && match warmup_stage r with Some k => 0 <=? k | None => true end)
        (routes busy_fleet)) with (i := i); [vm_compute; reflexivity|done]. }
    rewrite !andb_true_iff in H. destruct H as [[[H1 H2] H3] H4]. unfold route_wf. split_and!; [lia..|].
    intros k Hk. rewrite Hk in H4. lia.
Qed.

Lemma busy_nodes_keyed : keyed nodes_tbl busy_fleet.
Proof.
  intros i n Hn. apply Z.eqb_eq, (rows_decided (λ i n, node_id n =? i) (nodes busy_fleet));
    [vm_compute; reflexivity|done].
Qed.

Lemma busy_fan_ready : fan_ready busy_session.
Proof.
  split; [intros i _; apply lookup_empty|].
  intros j r e g ev Hr. change (outbox (db busy_session)) with (∅ : gmap Z NodeTransportOutbox) in Hr.
  by rewrite lookup_empty in Hr.
Qed.

Lemma entry9_ready : entry_ready busy_fleet 9.
Proof. exists (sample_node 9 "e9" "entry" false). done. Qed.

Definition assignment71 : EntryBackendAssignment :=
  {| eba_id := 71; eba_entry_node_id := 9; eba_backend_node_id := 2; eba_weight := 100; eba_enabled := true;
     eba_rank := 0; eba_is_active := true; eba_created_at := 0; eba_updated_at := 0 |}.

Lemma busy_entries : entries_of busy_fleet 2 = [9].
Proof. vm_compute. reflexivity. Qed.

Lemma busy_pairs : pairs_unique busy_fleet.
Proof.
  assert (H : ∀ i a, entry_assignments busy_fleet !! i = Some a → i = 71 ∧ a = assignment71).
  { intros i a Ha. change (entry_assignments busy_fleet) with ({[71 := assignment71]} : gmap Z EntryBackendAssignment) in Ha.
    by apply lookup_singleton_Some in Ha as [<- <-]. }
  split.
  - intros i a Ha. by destruct (H i a Ha) as [-> ->].
  - intros i j a b Ha Hb _. destruct (H i a Ha), (H j b Hb). congruence.
Qed.

(** * Routes *)

Lemma advance_warmup_refines_witness :
  ∃ out s', advance_warmup busy_session = (Ok out, s') ∧
    (effective_weight <$> routes (db s') !! 63) = Some 25 ∧ routes (db s') !! 64 = Some blocked_route.
Proof.
  destruct (advance_warmup_refines busy_session busy_routes_wf) as (out & s' & Hrun & Hr & _).
  exists out, s'. split; [exact Hrun|]. rewrite Hr. split; vm_compute; reflexivity.
Defined.

Lemma base_weight_cannot_drop_below_effective_witness :
  (update_route "cmd" 63 (set_base_weight 5) busy_session).1 =
  Raise (IntegrityError "ck_route_effective_weight_lte_base_weight").
Proof.
  destruct (base_weight_cannot_drop_below_effective "cmd" 63 5 warm_route busy_session busy_routes_wf)
    as (_ & s' & Hrun & _); [reflexivity|reflexivity|cbn; lia|cbn; lia|].
  rewrite Hrun. reflexivity.
Defined.

Lemma busy_not_virtual i n : nodes busy_fleet !! i = Some n → is_virtual n = false.
Proof.
  intros Hn. apply negb_true_iff, (rows_decided (λ _ n, negb (is_virtual n)) (nodes busy_fleet)) with (i := i);
    [vm_compute; reflexivity|done].
Qed.

Lemma eligible_iff_resolved_witness :
  ∃ outs s', list_routes None 10 busy_session = (Ok outs, s') ∧
    ∃ out, out ∈ outs ∧ ro_route out = sample_route 62 2 ∧ routing_eligible out = true.
Proof.
  destruct (eligible_iff_resolved 10 sample_policy busy_session (sample_route 62 2))
    as (outs & s' & l & Hrun & _ & Hl & Hiff);
    [vm_compute; reflexivity|apply busy_not_virtual|vm_compute; lia|].
  exists outs, s'. split; [exact Hrun|]. apply Hiff.
  assert (E : match (list_resolved_active None None 10 None
      (Some (clock busy_session (ticks busy_session) - Z.max 30 (stale_after_sec sample_policy) * second)) true busy_session).1
    with Ok l => dr_route <$> l | Raise _ => [] end = [sample_route 62 2; sample_route 61 1; warm_route])
    by (vm_compute; reflexivity).
  rewrite Hl in E. cbn [fst] in E. assert (Hin : sample_route 62 2 ∈ dr_route <$> l) by (rewrite E; left).
  apply list_elem_of_fmap in Hin as (x & Ex & Hx). exists x. split; [exact Hx|symmetry; exact Ex].
Defined.

(** * Entries *)

Lemma relay_pool_exact_witness :
  ∃ pool, get_relay_pool 443 9 busy_session = (Ok pool, busy_session) ∧
    {| rb_id := 2; rb_address := "10.0.0.1"; rb_port := 443; rb_weight := 100; rb_enabled := true;
       rb_rank := 0 |} ∈ rp_backends pool.
Proof.
  destruct (relay_pool_exact 443 9 busy_session busy_nodes_keyed entry9_ready) as (pool & Hrun & _ & _ & Hin).
  exists pool. split; [exact Hrun|]. apply Hin.
  exists 71, assignment71, (sample_node 2 "b2" "backend" false), "10.0.0.1".
  split_and!; vm_compute; reflexivity.
Defined.

Lemma busy_entries_ready e : e ∈ entries_of busy_fleet 2 → entry_ready busy_fleet e.
Proof. rewrite busy_entries, list_elem_of_singleton. intros ->. apply entry9_ready. Qed.

Lemma fan_out_tells_every_entry_witness :
  ∃ s' j, enqueue_pool_snapshots_for_backend "cmd" 443 2 busy_session = (Ok 1, s') ∧
    told (db s') 9 (pool_of 443 busy_fleet 9) j.
Proof.
  destruct (fan_out_tells_every_entry "cmd" 443 2 busy_session busy_nodes_keyed busy_fan_ready busy_entries_ready)
    as (s' & Hrun & _ & Htold).
  destruct (Htold 9) as (j & _ & Hj); [change (9 ∈ entries_of busy_fleet 2); rewrite busy_entries; left|].
  exists s', j. split; [exact Hrun|exact Hj].
Defined.

(** Entry 9 is deactivated, its assignment is not. *)
Definition retired_node : VpnNode :=
  {| node_id := 9; node_name := "e9"; node_role := "entry"; node_region := "de";
     public_domain := "e9"; reality_ip := None; internal_wg_ip := "10.0.0.1"; node_key := Some "e9";
     xray_api_port := 10085; auth_token_hash := "e9"; agent_port := 9000; is_enabled := true;
     is_draining := false; is_virtual := false; drain_source := None; node_capacity := 100;
     node_zone := None; upstream_node_id := None; bootstrap_token_expires_at := None;
     bootstrapped_at := None; wg_public_key := None; wg_listen_port := None;
     node_is_active := false; node_created_at := 0; node_updated_at := 0 |}.
Definition retired_fleet : database := set_nodes (<[9 := retired_node]> (nodes busy_fleet)) busy_fleet.

Lemma retired_entry_blocks_fan_out_witness :
  (run_request (enqueue_pool_snapshots_for_backend "cmd" 443 2) (session_on retired_fleet hour 1000)).1 =
  Raise (entry_not_found 9).
Proof.
  refine (proj1 (retired_entry_blocks_fan_out "cmd" 443 2 (session_on retired_fleet hour 1000) [] [] 9 _ _ _ _ _)).
  - intros i n Hn. apply Z.eqb_eq, (rows_decided (λ i n, node_id n =? i) (nodes retired_fleet));
      [vm_compute; reflexivity|exact Hn].
  - split; [intros i _; apply lookup_empty|]. intros j r e g ev Hr.
    change (outbox (db (session_on retired_fleet hour 1000))) with (∅ : gmap Z NodeTransportOutbox) in Hr.
    rewrite lookup_empty in Hr. discriminate Hr.
  - vm_compute. reflexivity.
  - intros x Hx. destruct (not_elem_of_nil x Hx).
  - intros n. vm_compute. intros [= <-]. reflexivity.
Defined.

Lemma removed_assignment_still_commanded_witness :
  ∃ s', remove_assignment "cmd" 443 9 2 busy_session = (Ok true, s') ∧
    9 ∈ _load_entries_for_backends (db s') 2.
Proof.
  destruct (removed_assignment_still_commanded "cmd" 443 71 assignment71 busy_session busy_nodes_keyed busy_pairs
    busy_fan_ready) as (s' & Hrun & _ & Hin); [reflexivity|reflexivity|reflexivity|apply entry9_ready|].
  exists s'. split; [exact Hrun|exact Hin].
Defined.

Lemma entry_recovery_ignores_cooldown_witness :
  ∃ n s' r', _unblock_routes_for_entry 9 busy_session = (Ok n, s') ∧
    routes (db s') !! 64 = Some r' ∧ health_status r' = warming_up ∧ cooldown_until r' = Some (2 * hour).
Proof.
  destruct (entry_recovery_ignores_cooldown 9 busy_session busy_routes_wf) as (n & s' & Hrun & Hb & _).
  - intros i r Hr _. apply Z.leb_le, (rows_decided (λ _ r, 1 <=? base_weight r) (routes busy_fleet)) with (i := i);
      [vm_compute; reflexivity|exact Hr].
  - destruct (Hb 64 blocked_route) as (r' & Hr' & Hh & _ & Hc); [reflexivity|reflexivity|].
    exists n, s', r'. split; [exact Hrun|]. split; [exact Hr'|]. split; [exact Hh|exact Hc].
Defined.

(** * Nodes *)

Definition node_config : NodeConfig :=
  {| sync_report_debounce_sec := 30; auth_token_rotation_grace_sec := 600; bootstrap_allow_create := false;
     mesh_network := {| ip_address := 10 * 2 ^ 24; prefixlen := 24 |}; bootstrap_token_ttl_sec := 3600;
     public_base_url := ""; has_notifications := true; cfg_command_prefix := "cmd"; cfg_reality_port := 443;
     node_tokens := {| generate := str_uuid; hash := id |} |}.

Definition beat (h : bool) : NodeHeartbeatIn :=
  {| hb_agent_version := "1"; hb_is_healthy := h; runtime_ready := true; pool_apply_failures := None;
     hb_upstream := None; hb_mesh := None; hb_runtime_dump := JNull; hb_stats_dump := JNull;
     hb_pool_dump := None; hb_upstream_dump := None; hb_mesh_dump := None |}.
Definition beat_event (h : bool) : HeartbeatEvent :=
  {| he_event_id := "e"; he_node_id := str_uuid 2; he_emitted_at := hour; he_payload := beat h |}.

(** A message is the health it reports. *)
Definition parse_beat (h : bool) : option HeartbeatEvent := Some (beat_event h).

Lemma busy_world :
  hb_world 2 82 sample_policy (sample_node 2 "b2" "backend" false) (sample_agent 82 2 (hour - second)) busy_session.
Proof.
  split; [reflexivity..| |].
  - split; [apply busy_nodes_keyed| |apply busy_fan_ready|apply busy_entries_ready].
    assert (H : ∀ i a, agent_states busy_fleet !! i = Some a → as_id a = i ∧ i = as_node_id a + 80).
    { intros i a Ha.
      assert (E : (as_id a =? i) && (i =? as_node_id a + 80) = true).
      { apply (rows_decided (λ i a, (as_id a =? i) && (i =? as_node_id a + 80)) (agent_states busy_fleet));
          [vm_compute; reflexivity|done]. }
      apply andb_true_iff in E. lia. }
    split; [intros i a Ha; by apply (H i a)|]. intros i j a b Ha Hb E.
    destruct (H i a Ha), (H j b Hb). lia.
  - split.
    + intros i r Hr. change ((∅ : gmap Z NodeTransportOutbox) !! i = Some r) in Hr. by rewrite lookup_empty in Hr.
    + intros i r Hr. change ((∅ : gmap Z NodeTransportState) !! i = Some r) in Hr. by rewrite lookup_empty in Hr.
    + intros i j a b Ha. change ((∅ : gmap Z NodeTransportState) !! i = Some a) in Ha. by rewrite lookup_empty in Ha.
    + intros i _. apply lookup_empty.
Qed.

Lemma beats_of (l : list bool) : Forall2 (heartbeat_of parse_beat 2) l (beat_event <$> l).
Proof. induction l; cbn; constructor; [split; vm_compute; reflexivity|done]. Qed.

(** Five unhealthy heartbeats drain backend 2, two healthy ones are not enough to restore it. *)
Lemma heartbeats_refine_witness :
  ∃ s' n', consume node_config parse_beat [false; false; false; false; false; true; true] busy_session =
    (Ok (replicate 7 true), s') ∧ nodes (db s') !! 2 = Some n' ∧ is_draining n' = true.
Proof.
  destruct (heartbeats_refine node_config parse_beat 2 82 sample_policy _ _ _ _ busy_session
    (beats_of [false; false; false; false; false; true; true]) busy_world)
    as (s' & n' & a' & Hrun & Hn & _ & _ & Habs).
  exists s', n'. split; [exact Hrun|]. split; [exact Hn|].
  etransitivity; [exact (f_equal ha_draining Habs)|]. vm_compute. reflexivity.
Defined.

Lemma unhealthy_drains_at_threshold_witness :
  ∃ s' n', consume node_config parse_beat [false; false; false; false] busy_session = (Ok (replicate 4 true), s') ∧
    nodes (db s') !! 2 = Some n' ∧ is_draining n' = false.
Proof.
  destruct (unhealthy_drains_at_threshold node_config parse_beat 2 82 sample_policy _ _ _ _ busy_session
    (beats_of [false; false; false; false]) busy_world) as (s' & n' & Hrun & Hn & Hiff).
  - repeat constructor.
  - discriminate.
  - reflexivity.
  - exists s', n'. split; [exact Hrun|]. split; [exact Hn|]. apply not_true_iff_false. rewrite Hiff.
    vm_compute. intros H. apply H. reflexivity.
Defined.

Lemma admin_drain_holds_witness :
  ∃ s1 s' n', drain_node node_config 2 busy_session = (Ok tt, s1) ∧
    consume node_config parse_beat [true; true; true; true] s1 = (Ok (replicate 4 true), s') ∧
    nodes (db s') !! 2 = Some n' ∧ is_draining n' = true.
Proof.
  destruct (admin_drain_holds node_config parse_beat 2 82 sample_policy _ _ _ _ busy_session busy_world
    (beats_of [true; true; true; true])) as (s1 & s' & n' & Hd & Hrun & Hn & Hdr & _).
  exists s1, s', n'. split; [exact Hd|]. split; [exact Hrun|]. split; [exact Hn|exact Hdr].
Defined.

Lemma patched_drain_lost_witness :
  ∃ r s1 s' n', admin_update_node node_config 2 (draining_update true) busy_session = (Ok (Some r), s1) ∧
    is_draining r = true ∧
    consume node_config parse_beat [true; true; true] s1 = (Ok (replicate 3 true), s') ∧
    nodes (db s') !! 2 = Some n' ∧ is_draining n' = false.
Proof.
  apply (patched_drain_lost node_config parse_beat 2 82 sample_policy [true; true; true]
    (beat_event <$> [true; true; true]) (sample_node 2 "b2" "backend" false)
    (sample_agent 82 2 (hour - second)) busy_session busy_world);
    [reflexivity|reflexivity|reflexivity|apply beats_of|discriminate|repeat constructor|vm_compute; discriminate].
Defined.

Lemma heartbeat_voids_debounce_witness :
  ∃ s' a', _handle_heartbeat_message node_config parse_beat true busy_session = (Ok true, s') ∧
    agent_states (db s') !! 82 = Some a' ∧
    _is_debounced_sync_report node_config (Some a')
      {| sr_synced_count := 1; sr_config_version := Some 0; sr_inventory_hash := None;
         sr_inventory_count := None; sr_full_resync_completed := Some false |} hour = false.
Proof.
  apply (heartbeat_voids_debounce node_config parse_beat 2 82 sample_policy true (beat_event true)
    (sample_node 2 "b2" "backend" false) (sample_agent 82 2 (hour - second)) busy_session);
    [split; vm_compute; reflexivity|apply busy_world].
Defined.

Lemma token_rotation_witness :
  ∃ s', upsert_token 2 7 "new" (Some (2 * hour)) true busy_session = (Ok tt, s') ∧
    (node_auth (Some 2) (Some 7) (Some "new") s').1 = Ok (sample_node 2 "b2" "backend" false) ∧
    (node_auth (Some 2) (Some 7) (Some "older") s').1 = Raise (HTTPException 401 "Invalid node token").
Proof.
  destruct (token_rotation 2 7 91 sample_identity (sample_node 2 "b2" "backend" false) "new" (2 * hour) true busy_session)
    as (s' & Hrun & Hauth); [| |reflexivity..|].
  - split; [reflexivity|split; [reflexivity|]]. intros k b Hb _.
    change (agent_identities (db busy_session)) with ({[91 := sample_identity]} : gmap Z NodeAgentIdentity) in Hb.
    apply lookup_singleton_Some in Hb as [<- _]. reflexivity.
  - intros k b Hb.
    change (t_rows identities_tbl (db busy_session)) with ({[91 := sample_identity]} : gmap Z NodeAgentIdentity) in Hb.
    apply lookup_singleton_Some in Hb as [<- <-]. reflexivity.
  - exists s'. split; [exact Hrun|]. rewrite !Hauth by reflexivity. split; vm_compute; reflexivity.
Defined.
