(* ===== verification/ProbeRuns.v ===== *)
(** The theorems on probes on the fleet of [TransportRuns], with a probe policy and
    signals of its routes. *)

From stdpp Require Import base gmap strings list sorting.
From S2P Require Import Prelude Decimal Errors RouteModels RouteStateMachine BillingModels FleetModels Session Uuid NodeDisplay WgAllocator Tables FleetTables Routing Placements PlacementProps PlacementCommands PlacementWorld PlacementRuns AgentTransport TransportRuns Routes RouteProps ProbeRepo AgentDetails Entry Nodes Probe ProbeProps ProbeDrain AutoHeal AutoHealProps.
Local Open Scope Z_scope.


Definition sample_probe_policy : ProbePolicy :=
  {| pp_id := 1; auto_route_health_enabled := true; route_suspected_after_failures := 2;
     route_degraded_after_failures := 3; route_block_after_failures := 4; route_block_cooldown_hours := 6;
     auto_drain_min_consecutive_failures := 2; auto_drain_max_probe_age_sec := 600; auto_drain_max_nodes := 300;
     auto_drain_source := None; auto_drain_require_recent_failure := true;
     auto_drain_include_already_draining := false; auto_drain_target_backend_id := None;
     auto_drain_last_migration_reason := "probe_auto_failure"; pp_auto_undrain_enabled := false;
     auto_undrain_min_consecutive_successes := 2; auto_undrain_max_probe_age_sec := 600;
     auto_undrain_source := None; retention_days := 3; synthetic_key_valid_days := 3650;
     synthetic_key_traffic_limit_mb := 102400 |}.

(** A synthetic report of route 62 by a probe outside, or by entry 9. *)
Definition signal (id nid : Z) (up : bool) (at_ : Z) : ProbeSignal :=
  {| ps_id := id; ps_node_id := nid; ps_route_id := Some 62; ps_transport_profile_id := Some 1;
     ps_transport_kind := Some "reality"; ps_probe_kind := "synthetic_vpn"; ps_target_host := None;
     ps_target_port := None; ps_error_phase := None; ps_source := (if nid =? 9 then "mesh" else "probe");
     is_reachable := up; ps_latency_ms := None; ps_error := None; ps_details := []; checked_at := at_;
     ps_is_active := true; ps_created_at := at_ |}.

Definition probed (l : list ProbeSignal) : session :=
  session_on (set_probe_policies (by_id pp_id [sample_probe_policy])
    (set_probe_signals (by_id ps_id l) busy_fleet)) hour 1000.

Definition failing : session := probed [signal 201 2 false 100; signal 202 2 false 200; signal 203 2 false 300].
Definition with_mesh : session := probed [signal 203 2 false (hour - minute); signal 204 9 true (hour - minute)].

Definition probe_config : ProbeConfig :=
  {| pc_target_port := 443; pc_edge_public_domain := "";
     pc_synthetic_client_ids := {| psc_reality := None; psc_ws := None; psc_xhttp := None |};
     pc_has_notifications := true; pc_command_prefix := "cmd"; pc_reality_port := 443 |}.

Lemma failing_judged : judged (signal 203 2 false 300) sample_probe_policy (db failing) (sample_route 62 2).
Proof. split_and!; reflexivity. Qed.

Lemma probe_policy_refines_witness :
  ∃ s' r', _apply_route_health_policy probe_config (signal 203 2 false 300) failing = (Ok tt, s') ∧
    routes (db s') !! 62 = Some r'.
Proof.
  destruct (probe_policy_refines probe_config (signal 203 2 false 300) sample_probe_policy failing)
    as (s' & Hrun & _ & Hall).
  - reflexivity.
  - apply busy_routes_wf.
  - intros rid r [= <-]. vm_compute. intros [= <-]. discriminate.
  - destruct (Hall 62 (sample_route 62 2) ltac:(reflexivity)) as (r' & Hr' & _).
    exists s', r'. split; [exact Hrun|exact Hr'].
Defined.

(** The third failure in a row degrades the route. *)
Lemma failing_probes_escalate_witness :
  ∃ s' r', _apply_route_health_policy probe_config (signal 203 2 false 300) failing = (Ok tt, s') ∧
    routes (db s') !! 62 = Some r' ∧ health_status r' = degraded ∧ effective_weight r' = 25.
Proof.
  destruct (failing_probes_escalate probe_config (signal 203 2 false 300) sample_probe_policy (sample_route 62 2) failing)
    as (s' & r' & Hrun & _ & Hr & Hcase);
    [reflexivity|apply failing_judged|reflexivity|cbn; lia|discriminate|vm_compute; reflexivity|].
  exists s', r'. split; [exact Hrun|]. split; [rewrite Hr; apply lookup_insert_eq|].
  revert Hcase. replace (failures_of (db failing) (route_id (sample_route 62 2)) (failure_limit sample_probe_policy)) with 3
    by (vm_compute; reflexivity).
  cbn. intros [H1 H2]. split; [exact H1|]. apply H2. discriminate.
Defined.

Lemma healthy_mesh_shields_route_witness :
  ∃ s', _apply_route_health_policy probe_config (signal 203 2 false (hour - minute)) with_mesh = (Ok tt, s') ∧
    db s' = db with_mesh ∧ effects s' = [].
Proof.
  apply (healthy_mesh_shields_route probe_config (signal 203 2 false (hour - minute)) sample_probe_policy
    (sample_route 62 2) with_mesh); [reflexivity|split_and!; reflexivity|reflexivity|vm_compute; reflexivity].
Defined.

(** A late success, reported after newer failures. *)
Definition late_report : ProbeReportIn :=
  {| pri_node_id := 9; pri_route_id := Some 62; pri_transport_profile_id := None; pri_transport_kind := None;
     pri_probe_kind := "synthetic_vpn"; pri_target_host := None; pri_target_port := None;
     pri_error_phase := None; pri_source := "probe"; pri_is_reachable := true; pri_latency_ms := None;
     pri_error := None; pri_checked_at := Some 250; pri_details := [] |}.

Lemma stale_report_only_stored_witness :
  ∃ row s', report probe_config late_report failing = (Ok row, s') ∧ effects s' = [] ∧
    routes (db s') = routes busy_fleet.
Proof.
  destruct (stale_report_only_stored probe_config late_report (PlacementRuns.sample_node 9 "e9" "entry" false) 250
    (Some sample_profile) None 203 (signal 203 2 false 300) failing) as (s' & Hrun & He & Hd).
  - reflexivity.
  - reflexivity.
  - reflexivity.
  - reflexivity.
  - reflexivity.
  - intros i p Hp. apply Z.eqb_eq, (rows_decided (λ i p, ps_id p =? i) (probe_signals (db failing)));
      [vm_compute; reflexivity|exact Hp].
  - reflexivity.
  - reflexivity.
  - reflexivity.
  - eexists _, s'. split; [exact Hrun|]. split; [exact He|]. rewrite Hd. reflexivity.
Defined.

(** * Draining *)

Lemma run_by_value {A B} (x : A * B) (a : A) : x.1 = a → x = (a, x.2).
Proof. destruct x. by intros <-. Qed.

Definition drain_payload (dry : bool) : ProbeAutoDrainMigrateIn :=
  {| pai_backend_node_ids := Some [2]; pai_target_backend_id := Some 1; pai_source := None;
     pai_require_recent_failure := true; pai_max_probe_age_sec := 3600; pai_min_consecutive_failures := 3;
     pai_include_already_draining := false; pai_dry_run := dry; pai_max_nodes := 5;
     pai_last_migration_reason := "probe_auto_failure" |}.

Definition would_drain : ProbeAutoDrainMigrateItemOut :=
  {| pao_source_backend_id := 2; pao_action := would_migrate; pao_detail := Some "Eligible by probe policy";
     pao_target_backend_id := None; pao_migrated_count := 0; pao_probe_report_id := Some 203 |}.

Lemma auto_drain_justified_witness :
  Forall (λ p, is_reachable p = false) (take 3 (backend_signals (db failing) 2 None)).
Proof.
  destruct (auto_drain_justified "cmd" 443 (drain_payload true) (PlacementRuns.sample_node 2 "b2" "backend" false)
    would_drain failing (auto_drain_node "cmd" 443 (drain_payload true) (PlacementRuns.sample_node 2 "b2" "backend" false) failing).2)
    as (_ & _ & _ & Hf); [reflexivity|apply run_by_value; vm_compute; reflexivity|discriminate|].
  destruct Hf as (_ & Hall & _). exact Hall.
Defined.

Lemma dry_run_reads_only_witness :
  db (auto_drain_and_migrate_backends "cmd" 443 (drain_payload true) failing).2 = db failing.
Proof.
  destruct (dry_run_reads_only "cmd" 443 (drain_payload true)
    {| pad_processed := 1; pad_migrated := 0; pad_skipped := 1; pad_dry_run := true; pad_items := [would_drain] |}
    failing (auto_drain_and_migrate_backends "cmd" 443 (drain_payload true) failing).2) as (Hd & _);
    [reflexivity|apply run_by_value; vm_compute; reflexivity|exact Hd].
Defined.

Lemma oversized_policy_stops_auto_drain_witness :
  auto_drain_tick "cmd" 443 failing = (Raise (ValidationError "ProbeAutoDrainMigrateIn"), failing).
Proof.
  apply (oversized_policy_stops_auto_drain "cmd" 443 sample_probe_policy failing);
    [reflexivity|left; cbn; lia].
Defined.

(** The theorems on healing on the fleet of [PlacementRuns], and what healing does to drains
    ordered by others. *)


Definition heal_config : HealConfig := mk_HealConfig 90 20 true 180 true "cmd" 443.

(** The agent of one backend was last heard an hour ago. *)
Definition silent (seen1 seen2 : Z) (extra : list UserPlacement) : session :=
  session_on (fleet_with [sample_agent 81 1 seen1; sample_agent 82 2 seen2]
    (extra ++ [sample_placement 101 51 1 applied_applied 3 3; sample_placement 102 51 2 applied_applied 1 1;
               sample_placement 103 52 1 applied_error 2 2])) hour 1000.
Definition silent1 : session := silent 0 (hour - second) [].

Lemma silent_world : placement_world silent1.
Proof.
  split.
  - apply placements_inv_by_computation. vm_compute. reflexivity.
  - intros j r Hr. change (outbox (db silent1)) with (∅ : gmap Z NodeTransportOutbox) in Hr. by rewrite lookup_empty in Hr.
  - intros i _. apply lookup_empty.
  - apply fleet_sendable.
Qed.

(** Three orphans for two candidates. *)
Definition three_shared : list (Z * list Z) := [(1, [103; 105]); (2, [104])].

Lemma orphans_spread_evenly_witness :
  distribute ∅ [sample_node 1 "b1" "backend" false; sample_node 2 "b2" "backend" false] ∅ []
    [sample_placement 103 52 3 applied_error 2 2; sample_placement 104 53 3 applied_error 2 2;
     sample_placement 105 54 3 applied_error 2 2] = three_shared ∧
  (length (share 1 three_shared) ≤ length (share 2 three_shared) + 1)%nat.
Proof.
  destruct (orphans_spread_evenly ∅ [sample_node 1 "b1" "backend" false; sample_node 2 "b2" "backend" false]
    [sample_placement 103 52 3 applied_error 2 2; sample_placement 104 53 3 applied_error 2 2;
     sample_placement 105 54 3 applied_error 2 2]) as (_ & _ & _ & Hb).
  - discriminate.
  - repeat (constructor; [intros c _; rewrite lookup_empty; apply not_elem_of_nil|]). constructor.
  - split; [vm_compute; reflexivity|].
    exact (Hb (sample_node 1 "b1" "backend" false) (sample_node 2 "b2" "backend" false)
             ltac:(left) ltac:(right; left)).
Defined.

(** Backend 1 is silent: key 52 is placed elsewhere. *)
Lemma orphans_rescued_witness :
  ∃ n s', _smart_migrate_placements heal_config (Some (sample_node 1 "b1" "backend" false)) 1 hour silent1 = (Ok n, s') ∧
    (placements (db s') !! 103 = Some (sample_placement 103 52 1 applied_error 2 2) ∨
     ∃ c, commanded (db s') 52 (node_id c)).
Proof.
  destruct (orphans_rescued heal_config (Some (sample_node 1 "b1" "backend" false)) 1 hour sample_policy silent1
    silent_world ltac:(reflexivity)) as (n & s' & Hrun & Hall & _).
  exists n, s'. split; [exact Hrun|].
  destruct (Hall 103 (sample_placement 103 52 1 applied_error 2 2)) as [[Hsame _]|(c & _ & Hc)];
    [reflexivity|split_and!; reflexivity|left; exact Hsame|right; exists c; exact Hc].
Defined.

Definition admin_node : VpnNode :=
  {| node_id := 3; node_name := "b3"; node_role := "backend"; node_region := "de";
     public_domain := "b3"; reality_ip := None; internal_wg_ip := "10.0.0.1"; node_key := Some "b3";
     xray_api_port := 10085; auth_token_hash := "b3"; agent_port := 9000; is_enabled := true;
     is_draining := true; is_virtual := false; drain_source := Some "admin"; node_capacity := 100;
     node_zone := None; upstream_node_id := None; bootstrap_token_expires_at := None;
     bootstrapped_at := None; wg_public_key := None; wg_listen_port := None;
     node_is_active := true; node_created_at := 0; node_updated_at := 0 |}.
Definition admin_session : session :=
  with_db (λ d, set_nodes (<[3 := admin_node]> (nodes d)) d) silent1.

Lemma heal_respects_admin_drain_witness :
  nodes (db (run_once heal_config admin_session).2) !! 3 = Some admin_node.
Proof.
  apply (heal_respects_admin_drain heal_config 3 admin_node admin_session).
  - intros i n Hn. apply Z.eqb_eq, (rows_decided (λ i n, node_id n =? i) (nodes (db admin_session)));
      [vm_compute; reflexivity|exact Hn].
  - reflexivity.
  - split; reflexivity.
Defined.

(** * What healing undoes *)

Definition node_drain (s : session) (i : Z) : option (bool * option string) :=
  (λ n, (is_draining n, drain_source n)) <$> nodes (db s) !! i.

(** The probe policy asks for two failures; it does not allow automatic returns. *)
Definition strict_probe_policy : ProbePolicy :=
  {| pp_id := 1; auto_route_health_enabled := true; route_suspected_after_failures := 2;
     route_degraded_after_failures := 3; route_block_after_failures := 4; route_block_cooldown_hours := 6;
     auto_drain_min_consecutive_failures := 2; auto_drain_max_probe_age_sec := 600; auto_drain_max_nodes := 20;
     auto_drain_source := None; auto_drain_require_recent_failure := true;
     auto_drain_include_already_draining := false; auto_drain_target_backend_id := None;
     auto_drain_last_migration_reason := "probe_auto_failure"; pp_auto_undrain_enabled := false;
     auto_undrain_min_consecutive_successes := 2; auto_undrain_max_probe_age_sec := 600;
     auto_undrain_source := None; retention_days := 3; synthetic_key_valid_days := 3650;
     synthetic_key_traffic_limit_mb := 102400 |}.
Definition unreachable2 : session :=
  session_on (set_probe_policies (by_id pp_id [strict_probe_policy])
    (set_probe_signals (by_id ps_id [signal 201 2 false (hour - 100 * second); signal 202 2 false (hour - 60 * second)])
      busy_fleet)) hour 1000.

(** A backend drained because probes could not reach it, and whose placements the
    drain moved away, is put back into service by the next healing tick: without
    placements the reason of the drain is not looked at, though the probe policy forbids
    automatic returns and no probe has succeeded. *)
Theorem probe_drain_undone_by_heal :
  let s1 := (auto_drain_tick "cmd" 443 unreachable2).2 in
  let s2 := (run_once heal_config s1).2 in
  node_drain s1 2 = Some (true, Some "auto_heal") ∧ node_drain s2 2 = Some (false, None) ∧
  probe_signals (db s2) = probe_signals (db unreachable2).
Proof. split_and!; vm_compute; reflexivity. Qed.

(** Key 52 was switched off on backend 2. *)
Definition switched_off : UserPlacement :=
  {| pl_id := 104; pl_key_id := 52; backend_node_id := 2; desired_state := desired_inactive;
     applied_state := applied_applied; op_version := 4; applied_version := 4; sticky_until := None;
     last_migration_reason := None; pl_is_active := true; pl_created_at := 0; pl_updated_at := 0 |}.

(** The placements of a key that are wanted, by backend. *)
Definition wanted_backends (s : session) (kid : Z) : list Z :=
  backend_node_id <$> filter (λ p, pl_is_active p && bool_decide (desired_state p = desired_active) &&
    (pl_key_id p =? kid) = true) (rows (placements (db s))).

(** A placement that is switched off counts as service: when the only node serving
    a key goes silent and the key has a row on a healthy node whose desired state is
    inactive, healing leaves the key on the silent node. *)
Theorem switched_off_placement_blocks_rescue :
  wanted_backends (run_once heal_config silent1).2 52 = [2] ∧
  wanted_backends (run_once heal_config (silent 0 (hour - second) [switched_off])).2 52 = [1].
Proof. split; vm_compute; reflexivity. Qed.

(** The drain cooldown of healing, which leaves the placements of a node just
    drained where they are for three minutes, ends with the next heartbeat of the node: the
    heartbeat rewrites the agent's details without the time of the drain. *)
Theorem heartbeat_ends_drain_cooldown :
  let s1 := (run_once heal_config (silent (hour - second) 0 [])).2 in
  let s2 := (_handle_heartbeat_message node_config parse_beat false s1).2 in
  node_drain s1 2 = Some (true, Some "auto_heal") ∧ node_drain s2 2 = Some (true, Some "auto_heal") ∧
  _is_within_drain_cooldown heal_config (agent_state_of (db s1) 2) (hour + minute) = Ok true ∧
  _is_within_drain_cooldown heal_config (agent_state_of (db s2) 2) (hour + minute) = Ok false.
Proof. split_and!; vm_compute; reflexivity. Qed.
