(* ===== verification/DeviceRuns.v ===== *)
(** Subscriptions, devices and traffic on a concrete household: instances of the theorems,
    and how payments and resets bring keys of revoked devices back. *)

From stdpp Require Import base gmap strings list sorting pretty.
From Stdlib Require Import Ascii.
From S2P Require Import Prelude Decimal Errors Routing RouteModels BillingModels FleetModels Session Uuid NodeDisplay Tables Ledger Plans BillingRepo Billing BillingInv BillingProps BillingDelivery BillingRuns FleetTables Placements Keys Routes VlessUri NodeNames Devices Traffic Entry Balancer Payload PlacementProps PlacementCommands PlacementWorld DeviceProps DeviceLimit ExpiryProps TrafficProps TrafficReport PayloadProps PayloadServed PlacementRuns TransportRuns.
Local Open Scope Z_scope.


(** * A household

    Subscription 11 on plan 21 (one device, 1000 bytes a day): phone 31 with key 51 on
    backends 1 and 2, laptop 32 with key 52 on backend 1. *)

Definition home_config : SubscriptionConfig :=
  {| max_devices_default := 1; smart_route_max_count := 1; public_base_url := "https://sub/";
     edge_public_domain := "edge"; profile_registry := [];
     sub_tokens := {| generate := str_uuid; hash := λ t, t |}; sha256 := λ h, h; sc_command_prefix := "cmd" |}.

Definition home_plan : Plan :=
  {| plan_id := 21; plan_name := "Basic"; plan_description := None; traffic_limit_bytes := 1000;
     reset_strategy := "DAY"; plan_max_devices := 1; duration_days := 30; sort_order := 0;
     whitelist_enabled := false; entry_relay_enabled := false; included_devices := 1; price_rub := 100;
     device_price_rub := 50; price_stars := None; device_price_stars := None; periods := [];
     plan_is_active := true; plan_created_at := 0; plan_updated_at := 0 |}.

Definition home_sub (used expires : Z) : Subscription :=
  {| sub_id := 11; sub_user_id := 1; sub_plan_id := Some 21; sub_token := Some "t"; sub_token_hash := "t";
     prev_token_hash := None; prev_token_expires_at := None; sub_expires_at := Some expires;
     sub_profile_key := None; preferred_region := None; root_vpn_key_id := None; hwid_enabled := true;
     sub_max_devices := None; paid_device_slots := 0; sub_period_months := 1; sub_used_traffic_bytes := used;
     lifetime_used_traffic_bytes := used; last_traffic_reset_at := None; first_connected_at := None;
     auto_renew := false; traffic_warning_threshold_pct := 0; sub_is_active := true; sub_created_at := 0;
     sub_updated_at := 0 |}.

Definition home_device (id : Z) (hwid : string) : SubscriptionDevice :=
  {| dev_id := id; dev_subscription_id := 11; hwid_hash := hwid; dev_last_seen_at := None; user_agent := None;
     device_model := None; platform := None; os_version := None; dev_is_active := true; dev_created_at := id;
     dev_updated_at := 0 |}.

Definition home_key (id : Z) : VpnKey :=
  {| key_id := id; key_user_id := 1; key_protocol := "vless"; key_transport := "reality"; client_id := str_uuid id;
     valid_until := 10 * day; traffic_limit_mb := 0; key_used_traffic_bytes := 0; is_revoked := false;
     key_subscription_id := Some 11; entry_routing_override_backend_tag := None; key_is_active := true;
     key_created_at := 0; key_updated_at := 0 |}.

Definition home_binding (id did kid : Z) : SubscriptionDeviceKey :=
  {| dk_id := id; dk_device_id := did; dk_vpn_key_id := kid; dk_transport := "reality"; is_primary := true;
     dk_is_active := true; dk_created_at := 0 |}.

Definition home_with (used expires : Z) (devs : list SubscriptionDevice) : database :=
  set_subscriptions (by_id sub_id [home_sub used expires])
  (set_plans (by_id plan_id [home_plan])
  (set_devices (by_id dev_id devs)
  (set_vpn_keys (by_id key_id [home_key 51; home_key 52])
  (set_device_keys (by_id dk_id [home_binding 41 31 51; home_binding 42 32 52]) fleet)))).

Definition home : session := session_on (home_with 0 (10 * day) [home_device 31 "phone"; home_device 32 "laptop"]) hour 1000.

(** A sixth of an hour after the subscription ran out. *)
Definition home_expired : session :=
  session_on (home_with 0 (50 * minute) [home_device 31 "phone"; home_device 32 "laptop"]) hour 1000.

Lemma home_world_of s :
  placements (db s) = placements fleet → outbox (db s) = ∅ → vpn_keys (db s) = vpn_keys (db home) → access_world s.
Proof.
  intros Hp Ho Hv. split; [split|].
  - destruct fleet_inv as (H1 & H2 & H3). split_and!; [intros i p; cbn; rewrite Hp; apply H1|rewrite Hp; apply H2|rewrite Hp; apply H3].
  - intros j r. rewrite Ho. by rewrite lookup_empty.
  - intros i _. rewrite Ho. apply lookup_empty.
  - rewrite Hv. apply (rows_decided (λ _ k, key_sendable k)). vm_compute. reflexivity.
  - intros i k. cbn. rewrite Hv. intros Hk. apply Z.eqb_eq, (rows_decided (λ i k, key_id k =? i) (vpn_keys (db home))); [vm_compute; reflexivity|done].
Qed.

Lemma home_world : access_world home.
Proof. by apply home_world_of. Qed.
Lemma home_subs : keyed subs_tbl (db home).
Proof. apply keyed_by_computation. vm_compute. reflexivity. Qed.
Lemma home_devices : keyed devices_tbl (db home).
Proof. apply keyed_by_computation. vm_compute. reflexivity. Qed.

(** The bindings, decided. *)
Definition bindings_ok_b (d : database) : bool :=
  forallb (λ ia, (dk_id ia.2 =? ia.1) && nonempty (dk_transport ia.2) &&
    forallb (λ jb, (ia.1 =? jb.1) || negb (dk_device_id ia.2 =? dk_device_id jb.2) ||
      negb (String.eqb (dk_transport ia.2) (dk_transport jb.2) || (dk_vpn_key_id ia.2 =? dk_vpn_key_id jb.2)))
      (map_to_list (device_keys d))) (map_to_list (device_keys d)).

Lemma bindings_ok_by_computation d : bindings_ok_b d = true → bindings_ok d.
Proof.
  intros H. pose proof (rows_decided (λ i a, (dk_id a =? i) && nonempty (dk_transport a) &&
    forallb (λ jb, (i =? jb.1) || negb (dk_device_id a =? dk_device_id jb.2) ||
      negb (String.eqb (dk_transport a) (dk_transport jb.2) || (dk_vpn_key_id a =? dk_vpn_key_id jb.2)))
      (map_to_list (device_keys d))) (device_keys d) H) as Hrow. cbn beta in Hrow. split_and!.
  - intros i a Ha. specialize (Hrow i a Ha). rewrite !andb_true_iff in Hrow. destruct Hrow as [[E _] _]. by apply Z.eqb_eq.
  - intros i j a b Ha Hb Hd Hor. specialize (Hrow i a Ha). rewrite !andb_true_iff in Hrow. destruct Hrow as [_ Hall].
    pose proof (rows_decided (λ j b, (i =? j) || negb (dk_device_id a =? dk_device_id b) ||
      negb (String.eqb (dk_transport a) (dk_transport b) || (dk_vpn_key_id a =? dk_vpn_key_id b))) (device_keys d) Hall j b Hb) as Hx.
    cbn beta in Hx. rewrite Hd, Z.eqb_refl, orb_false_r in Hx. apply orb_true_iff in Hx as [?%Z.eqb_eq|Hx]; [done|].
    apply negb_true_iff, orb_false_iff in Hx as [E1%String.eqb_neq E2%Z.eqb_neq]. tauto.
  - intros i a Ha. specialize (Hrow i a Ha). rewrite !andb_true_iff in Hrow. tauto.
Qed.

Lemma home_bindings : bindings_ok (db home).
Proof. apply bindings_ok_by_computation. vm_compute. reflexivity. Qed.

(** * Instances *)

(** User 1 renews the household's plan for a ruble: the order is pending. *)
Definition renewal_order : PaymentOrder := order_of 70 1 100 STARS PENDING SUBSCRIPTION_RENEWAL (Some 21) (Some 11) 0.
Definition home_paying : session :=
  session_on (set_transactions [credit_tx 1 30000] (set_orders {[70 := renewal_order]}
    (set_users {[1 := sample_user 1 30000]} (db home_expired)))) hour 1000.

Lemma home_paying_inv : billing_inv (db home_paying).
Proof.
  apply billing_inv_no_payments; [|apply keyed_by_computation; vm_compute; reflexivity|done|].
  - intros i u. cbn. by intros [<- <-]%lookup_singleton_Some.
  - intros v u. cbn. intros [<- <-]%lookup_singleton_Some. unfold user_txs. cbn. rewrite decide_True by done. cbn. lia.
Qed.

Lemma home_paying_world : provision_world home_paying.
Proof.
  split; [by apply home_world_of|]. intros i Hi. destruct (placements (db home_paying) !! i) as [p|] eqn:E; [|done].
  pose proof (rows_decided (λ i _, i <? 1000) (placements (db home_paying)) ltac:(vm_compute; reflexivity) i p E) as H.
  cbn in H, Hi. apply Z.ltb_lt in H. lia.
Qed.

Lemma home_paying_fresh : subs_fresh sample_env home_paying.
Proof.
  intros i b. cbn. intros [<- <-]%lookup_singleton_Some. split; [lia|]. intros n _. unfold sample_env. cbn [tokens hash generate].
  destruct (uuid_hex n) as [|a [|c r]]; discriminate.
Qed.

(** The order is paid, and the two keys of the household are provisioned again. *)
Lemma paid_order_delivers_witness :
  wp (_fulfill_order_locked (activate home_config) sample_env renewal_order STARS None None None)
    (λ _ s', BillingDelivery.delivered (db s') 1 21 70 (hour + 30 * day)) (λ _ _, False) home_paying ∧
  (_fulfill_order_locked (activate home_config) sample_env renewal_order STARS None None None home_paying).1 = Ok tt.
Proof.
  split; [|vm_compute; reflexivity].
  eapply wp_mono;
    [apply (paid_order_delivers home_config sample_env renewal_order STARS None None None home_paying
              (sample_user 1 30000) home_plan)| |].
  - exact home_paying_inv.
  - apply keyed_by_computation. reflexivity.
  - split; [apply keyed_by_computation; reflexivity|]. split; intros i; cbn; intros *; rewrite lookup_empty; discriminate.
  - exact home_paying_fresh.
  - exact home_paying_world.
  - reflexivity.
  - reflexivity.
  - reflexivity.
  - reflexivity.
  - reflexivity.
  - cbn. lia.
  - reflexivity.
  - reflexivity.
  - reflexivity.
  - reflexivity.
  - cbn. lia.
  - intros _ s' [H _]. exact H.
  - intros e s' H. exact H.
Defined.

(** The laptop is revoked: its key does not work any more. *)
Lemma device_revocation_cuts_access_witness :
  ∃ changed s', revoke_device home_config 11 32 home = (Ok changed, s') ∧ switched desired_inactive (db s') 52 ∧
    vpn_keys (db s') !! 51 = Some (home_key 51).
Proof.
  destruct (device_revocation_cuts_access home_config 11 32 (home_sub 0 (10 * day)) (home_device 32 "laptop") home
    home_world home_bindings home_devices ltac:(reflexivity) ltac:(reflexivity) ltac:(reflexivity))
    as (changed & s' & Hrun & [_ Hcut] & _ & Hoth).
  exists changed, s'. split; [exact Hrun|]. split.
  - refine (proj2 (Hcut 52 (home_key 52) _ _)); [|reflexivity]. exists 42, (home_binding 42 32 52). split_and!; reflexivity.
  - refine (eq_trans (proj1 (Hoth 51 _)) _); [|reflexivity]. intros (i & r & Hr & Hd & _ & Hk).
    assert (Hno : forallb (λ ir : Z * SubscriptionDeviceKey, negb ((dk_device_id ir.2 =? 32) && (dk_vpn_key_id ir.2 =? 51)))
      (map_to_list (device_keys (db home))) = true) by (vm_compute; reflexivity).
    pose proof (rows_decided (λ _ r, negb ((dk_device_id r =? 32) && (dk_vpn_key_id r =? 51))) _ Hno i r Hr) as Hx.
    cbn beta in Hx. rewrite Hd, Hk in Hx. discriminate.
Defined.

(** One device is allowed: of two requests of new devices after both were revoked, one is let in. *)
Definition new_headers (hwid : string) : DeviceClientHeaders :=
  {| dh_hwid := Some hwid; dh_user_agent := None; dh_device_model := None; dh_platform := None; dh_os_version := None |}.
Definition home_ops : list device_op :=
  [OpRevokeDevice 11 31; OpRevokeDevice 11 32; OpFetch 11 (new_headers "tv") hour; OpFetch 11 (new_headers "tablet") hour].

Lemma device_limit_respected_witness :
  slots_taken (db (foldl (run_device_op home_config) home home_ops)) 11 ≤ 2 ∧
  slots_taken (db (foldl (run_device_op home_config) home home_ops)) 11 = 1.
Proof.
  split; [|vm_compute; reflexivity].
  exact (device_limit_respected home_config home_ops home 11 (home_sub 0 (10 * day)) home_subs home_devices ltac:(reflexivity)).
Defined.

Lemma client_ids_fresh (keys : gmap Z VpnKey) n :
  0 ≤ n → forallb (λ ik : Z * VpnKey, bool_decide (client_id ik.2 = str_uuid ik.1) && (0 <=? ik.1) && (ik.1 <? n)) (map_to_list keys) = true →
  n < 2 ^ 128 → ∀ i k m, keys !! i = Some k → n ≤ m < 2 ^ 128 → client_id k ≠ str_uuid m.
Proof.
  intros Hn H Hb i k m Hk Hm E.
  pose proof (rows_decided (λ i k, bool_decide (client_id k = str_uuid i) && (0 <=? i) && (i <? n)) keys H i k Hk) as Hx.
  cbn beta in Hx. rewrite !andb_true_iff, bool_decide_eq_true, Z.leb_le, Z.ltb_lt in Hx. destruct Hx as [[Ec H0] H1].
  rewrite Ec in E. apply str_uuid_inj in E; lia.
Qed.

Lemma ids_below {R} (m : gmap Z R) n : forallb (λ ir : Z * R, ir.1 <? n) (map_to_list m) = true → ∀ i, n ≤ i → m !! i = None.
Proof.
  intros H i Hi. destruct (m !! i) as [r|] eqn:E; [|done]. pose proof (rows_decided (λ i _, i <? n) m H i r E) as Hx.
  cbn in Hx. apply Z.ltb_lt in Hx. lia.
Qed.

Lemma home_bundle_world : bundle_world home.
Proof.
  split; [apply home_world|apply home_bindings|]. split; [done| | |].
  - apply (ids_below (vpn_keys (db home))). vm_compute. reflexivity.
  - apply (ids_below (device_keys (db home))). vm_compute. reflexivity.
  - apply client_ids_fresh; [done|vm_compute; reflexivity|done].
Qed.

(** The phone has a key for reality; it is given the other two. *)
Lemma device_bundle_complete_witness :
  ∃ bundle s', _ensure_device_key_bundle home_config (home_sub 0 (10 * day)) (home_device 31 "phone") hour home = (Ok bundle, s') ∧
    ∃ rk, rk ∈ rdb_keys bundle ∧ rdk_transport rk = "ws".
Proof.
  destruct (device_bundle_complete home_config (home_sub 0 (10 * day)) (home_device 31 "phone") hour home home_bundle_world)
    as (bundle & s' & Hrun & _ & Hall & _).
  - intros i r Hr. apply (bool_decide_eq_true_1 (is_Some (vpn_keys (db home) !! dk_vpn_key_id r))).
    refine (rows_decided (λ _ r, bool_decide (is_Some (vpn_keys (db home) !! dk_vpn_key_id r))) (device_keys (db home)) _ i r Hr). vm_compute. reflexivity.
  - vm_compute. discriminate.
  - intros i r Hr _. refine (rows_decided (λ _ r, dk_is_active r) (device_keys (db home)) _ i r Hr). vm_compute. reflexivity.
  - exists bundle, s'. split; [exact Hrun|]. destruct (Hall VpnTransport_ws) as (rk & Hin & Ht & _).
    + apply list_elem_of_In. vm_compute. auto.
    + exists rk. split; [exact Hin|exact Ht].
Defined.

(** The subscription ran out ten minutes ago. *)
Lemma expiry_ends_access_witness :
  ∃ r s', expire_batch "cmd" 100 home_expired = (Ok (r, [home_sub 0 (50 * minute)]), s') ∧
    access_ended (db home_expired) (db s') 11.
Proof.
  destruct (expiry_ends_access "cmd" 100 home_expired) as (r & s' & Hrun & _ & Hall & _).
  - by apply home_world_of.
  - apply keyed_by_computation. vm_compute. reflexivity.
  - apply keyed_by_computation. vm_compute. reflexivity.
  - assert (Hb : expired_batch 100 (clock home_expired (ticks home_expired)) (db home_expired) = [home_sub 0 (50 * minute)])
      by (vm_compute; reflexivity).
    rewrite Hb in Hrun, Hall. exists r, s'. split; [exact Hrun|]. apply (Hall (home_sub 0 (50 * minute))). left.
Defined.

(** ** Traffic *)

Lemma home_clients : clients_distinct (rows (vpn_keys (db home))).
Proof.
  intros k k' Hk Hk' E. assert (Hall : forallb (λ k, forallb (λ k', negb (String.eqb (client_id k) (client_id k')) || bool_decide (key_id k = key_id k'))
    (rows (vpn_keys (db home)))) (rows (vpn_keys (db home))) = true) by (vm_compute; reflexivity).
  rewrite forallb_forall in Hall. pose proof Hk as Hk0. apply list_elem_of_In in Hk0. apply Hall in Hk0. rewrite forallb_forall in Hk0.
  pose proof Hk' as Hk1. apply list_elem_of_In, Hk0 in Hk1. rewrite E, String.eqb_refl in Hk1. cbn [negb orb] in Hk1. apply bool_decide_eq_true in Hk1.
  apply elem_of_rows in Hk as [i Hi], Hk' as [j Hj]. destruct home_world as [_ Hkeyed].
  pose proof (Hkeyed i k Hi) as E1. pose proof (Hkeyed j k' Hj) as E2. cbn in E1, E2. congruence.
Qed.

(** The phone moved 600 bytes, the laptop 500. *)
Definition home_items : list UserTrafficIn :=
  [{| identifier := str_uuid 51; delta_bytes := 600 |}; {| identifier := str_uuid 52; delta_bytes := 500 |}].

Lemma home_items_valid : Forall (λ t, UserTrafficIn_valid t = true) home_items.
Proof. repeat constructor. Qed.

Lemma home_report : sub_report hour home_items (db home) 11 = 1100.
Proof. vm_compute. reflexivity. Qed.

Lemma traffic_accounted_witness :
  ∃ out s', ingest_users_traffic "cmd" home_items home = (Ok out, s') ∧
    recorded (db s') 51 = recorded (db home) 51 + 600 ∧
    ∃ b', subscriptions (db s') !! 11 = Some b' ∧ sub_used_traffic_bytes b' = 1100.
Proof.
  destruct (traffic_accounted "cmd" home_items home home_world home_subs home_clients) as (out & s' & Hrun & Hk & Hb).
  - intros i _. apply lookup_empty.
  - exact home_items_valid.
  - exists out, s'. split; [exact Hrun|]. split.
    + destruct (Hk 51 (home_key 51)) as [Hr _]; [reflexivity|]. exact Hr.
    + destruct (Hb 11 (home_sub 0 (10 * day))) as (b' & Hb' & Hu & _); [reflexivity|]. exists b'. split; [exact Hb'|].
      rewrite Hu. exact home_report.
Defined.

(** Together they reach the 1000 bytes of the plan. *)
Lemma traffic_limit_enforced_witness :
  ∃ out s', ingest_users_traffic "cmd" home_items home = (Ok out, s') ∧ sub_ended home s' 11.
Proof.
  destruct (traffic_limit_enforced "cmd" home_items home home_world home_subs home_clients) as (out & s' & Hrun & Hp & _).
  - intros i _. apply lookup_empty.
  - exact home_items_valid.
  - exists out, s'. split; [exact Hrun|]. apply (Hp 11 (home_sub 0 (10 * day))); [reflexivity|].
    split; [vm_compute; reflexivity|]. exists 21, home_plan. split_and!; [reflexivity..|vm_compute; discriminate].
Defined.

(** The consumer, with a parser that reads one report. *)
Definition home_loads (_ : string) : option json := Some (JList [JObj []]).
Definition home_validate (_ : json) : option UserTrafficIn := Some {| identifier := str_uuid 51; delta_bytes := 600 |}.

Lemma traffic_message_once_witness :
  let s1 := (traffic_handle_message "cmd" home_loads home_validate "traffic.1" (Some "m1") "[{}]" home).2 in
  ∃ s2, traffic_handle_message "cmd" home_loads home_validate "traffic.1" (Some "m1") "[{}]" s1 = (Ok tt, s2) ∧ db s2 = db s1.
Proof.
  intros s1. pose proof (traffic_message_once "cmd" "traffic.1" "m1" home_loads home_validate ltac:(reflexivity) "[{}]" "[{}]" home) as H.
  assert (Hok : (traffic_handle_message "cmd" home_loads home_validate "traffic.1" (Some "m1") "[{}]" home).1 = Ok tt) by (vm_compute; reflexivity).
  unfold s1. destruct (traffic_handle_message _ _ _ _ _ _ home) as [o s2] eqn:Hrun. cbn [fst snd] in *. subst o.
  apply H; [intros i _; apply lookup_empty|discriminate| |reflexivity].
  assert (s2 = (traffic_handle_message "cmd" home_loads home_validate "traffic.1" (Some "m1") "[{}]" home).2) as -> by (rewrite Hrun; reflexivity).
  apply keyed_by_computation. vm_compute. reflexivity.
Defined.

(** * Keys of revoked devices come back *)

Definition laptop_revoked : session := (revoke_device home_config 11 32 home).2.

(** Whether the device is active and its key revoked, and whether a node is to serve it. *)
Definition access_of (did kid : Z) (d : database) : option bool * option bool * bool :=
  (dev_is_active <$> devices d !! did, is_revoked <$> vpn_keys d !! kid,
   existsb (λ p, (pl_key_id p =? kid) && pl_is_active p && bool_decide (desired_state p = desired_active)) (rows (placements d))).

Lemma laptop_is_cut : access_of 32 52 (db laptop_revoked) = (Some false, Some true, false).
Proof. vm_compute. reflexivity. Qed.

(** Activating the subscription, as every payment for it does, restores the keys of all its
    devices: the laptop was revoked and stays inactive, takes no slot, and works again. *)
Theorem activation_revives_revoked_device :
  access_of 32 52 (db (activate home_config 11 laptop_revoked).2) = (Some false, Some false, true) ∧
  slots_taken (db (activate home_config 11 laptop_revoked).2) 11 = 1.
Proof. split; vm_compute; reflexivity. Qed.

(** So does the daily reset of the traffic. *)
Theorem reset_revives_revoked_device :
  access_of 32 52 (db (traffic_reset_tick "cmd" laptop_revoked).2) = (Some false, Some false, true) ∧
  slots_taken (db (traffic_reset_tick "cmd" laptop_revoked).2) 11 = 1.
Proof. split; vm_compute; reflexivity. Qed.

(** After the end of a subscription its devices are inactive; the renewal brings the keys
    back and not the devices, so that another device takes the only slot while the keys of
    the first two work. *)
Definition renewed : session :=
  (activate home_config 11 (extend_subscription 11 30 (expire_batch "cmd" 100 home_expired).2).2).2.
Definition renewed_with_tv : session := run_device_op home_config renewed (OpFetch 11 (new_headers "tv") hour).

Theorem renewal_outgrows_limit :
  access_of 31 51 (db renewed_with_tv) = (Some false, Some false, true) ∧
  access_of 32 52 (db renewed_with_tv) = (Some false, Some false, true) ∧
  slots_taken (db renewed_with_tv) 11 = 1.
Proof. split_and!; vm_compute; reflexivity. Qed.

(** Payloads of the household: instances of the theorems, and where the answer differs from
    what the comments and the model of the data say. *)


(** * The household's servers

    Backends 1 and 2 reached directly by routes 61 and 62, and backend 2 through entry 9 by
    route 63. *)

Definition shop_subs : SubscriptionConfig :=
  {| max_devices_default := 1; smart_route_max_count := 3; public_base_url := "https://sub/";
     edge_public_domain := "edge"; profile_registry := [];
     sub_tokens := {| generate := str_uuid; hash := λ t, t |}; sha256 := λ h, h; sc_command_prefix := "cmd" |}.
Definition shop_config : PayloadConfig :=
  {| pc_subs := shop_subs; pc_balancer := {| user_entry_bucket_seconds := 0; digest8 := λ _, 0 |};
     response_max_payload_bytes := 4096; response_cache_ttl_sec := 0; pc_stale_after_sec := 90 |}.
Definition quiet : Outside :=
  {| cached := cache_miss; lock_free := true; awaited := []; request_count := 1; entry_stats := [] |}.

Definition shop_node (id : Z) (name role : string) (ip : option string) : VpnNode :=
  {| node_id := id; node_name := name; node_role := role; node_region := "de";
     public_domain := name; reality_ip := ip; internal_wg_ip := "10.0.0.1"; node_key := Some name;
     xray_api_port := 10085; auth_token_hash := name; agent_port := 9000; is_enabled := true;
     is_draining := false; is_virtual := false; drain_source := None; node_capacity := 100;
     node_zone := Some "de"; upstream_node_id := None; bootstrap_token_expires_at := None;
     bootstrapped_at := None; wg_public_key := None; wg_listen_port := None;
     node_is_active := true; node_created_at := 0; node_updated_at := 0 |}.

Definition shop_profile : TransportProfile :=
  {| tp_id := 1; tp_name := "reality"; tp_protocol := "vless"; network := "tcp"; security := "reality";
     flow := None; reality_public_key := Some "0123456789abcdef0123456789abcdef0123456789a"; reality_short_id := Some "ab"; reality_server_name := Some "site.example";
     tls_fingerprint := "chrome"; grpc_service_name := None; port := 443; tp_is_active := true; tp_updated_at := 0 |}.

Definition shop_route (id nid : Z) (entry : option Z) : Route :=
  {| route_id := id; route_name := str_uuid id; route_node_id := nid; route_entry_node_id := entry;
     route_transport_profile_id := 1; health_status := healthy; base_weight := 50;
     effective_weight := 50; cooldown_until := None; warmup_stage := None;
     warmup_started_at := None; route_is_active := true; route_created_at := 0; route_updated_at := 0 |}.

Definition shop_with (ip : option string) (rs : list Route) (relay : bool) (b : Subscription) : session :=
  session_on
    (set_subscriptions (by_id sub_id [b])
    (set_plans (by_id plan_id [{| plan_id := 21; plan_name := "Basic"; plan_description := None; traffic_limit_bytes := 1000;
       reset_strategy := "DAY"; plan_max_devices := 1; duration_days := 30; sort_order := 0;
       whitelist_enabled := false; entry_relay_enabled := relay; included_devices := 1; price_rub := 100;
       device_price_rub := 50; price_stars := None; device_price_stars := None; periods := [];
       plan_is_active := true; plan_created_at := 0; plan_updated_at := 0 |}])
    (set_nodes (by_id node_id [shop_node 1 "b1" "backend" (Some "6.6.6.6"); shop_node 2 "b2" "backend" ip; shop_node 9 "e9" "entry" None])
    (set_transport_profiles (by_id tp_id [shop_profile])
    (set_routes (by_id route_id rs) (db home)))))) hour 1000.

Definition direct : list Route := [shop_route 61 1 None; shop_route 62 2 None].
Definition shop : session := shop_with (Some "5.5.5.5") (direct ++ [shop_route 63 2 (Some 9)]) false (home_sub 0 (10 * day)).

Definition phone : DeviceClientHeaders :=
  {| dh_hwid := Some "phone"; dh_user_agent := None; dh_device_model := None; dh_platform := None; dh_os_version := None |}.

Definition shop_sub : Subscription := home_sub 0 (10 * day).
Definition answer {A} (m : SM A) (s : session) : res A := (m s).1.

Lemma answer_run {A} (m : SM A) s a : answer m s = Ok a → m s = (Ok a, (m s).2).
Proof. unfold answer. intros H. rewrite <-H. apply surjective_pairing. Qed.

(** * Instances *)

(** The phone is offered two links, of its own key. *)
Lemma payload_served_witness :
  ∃ payload etag s' l, build_for_device shop_config quiet shop_sub phone "" shop = (Ok (payload, etag), s') ∧ length (split_on newline payload) = 2%nat ∧
    payload = join (String newline "") (rs_uri <$> l) ∧ l ≠ [].
Proof.
  destruct (answer (build_for_device shop_config quiet shop_sub phone "") shop) as [[payload etag]|e] eqn:E.
  - pose proof (answer_run _ _ _ E) as Hrun.
    destruct (payload_served shop_config quiet shop_sub phone "" shop payload etag _
      ltac:(apply keyed_by_computation; vm_compute; reflexivity) ltac:(apply keyed_by_computation; vm_compute; reflexivity) Hrun)
      as (v & l & hwid & _ & _ & Hne & Hp & _).
    eexists payload, etag, _, l. split; [exact Hrun|]. split; [|by split].
    assert (Hlen : match answer (build_for_device shop_config quiet shop_sub phone "") shop with
                   | Ok r => length (split_on newline r.1) = 2%nat | Raise _ => False end) by (vm_compute; reflexivity).
    rewrite E in Hlen. exact Hlen.
  - exfalso. assert (Hok : match answer (build_for_device shop_config quiet shop_sub phone "") shop with
                           | Ok _ => true | Raise _ => false end = true) by (vm_compute; reflexivity).
    rewrite E in Hok. discriminate Hok.
Defined.

Definition shop_link : VlessUri :=
  {| vu_client_id := str_uuid 51; vu_host := "5.5.5.5"; vu_port := 443; vu_query := [("type", "tcp"); ("sni", "a b&c")];
     vu_remark := "Германия #1"; vu_description := Some "Резерв, с дополнительной защитой" |}.

(** The description has 32 characters, of which 30 are kept. *)
Lemma link_roundtrip_witness :
  ∃ desc, first_chars 30 "Резерв, с дополнительной защитой" desc ∧
    read_link (render shop_link) =
    Some {| lp_client_id := str_uuid 51; lp_host := "5.5.5.5"; lp_port := "443"; lp_query := [("type", "tcp"); ("sni", "a b&c")];
            lp_remark := "Германия #1"; lp_description := if_any desc |}.
Proof.
  refine (link_roundtrip shop_link _ _ _ _); [vm_compute; reflexivity|vm_compute; reflexivity|cbn; lia|discriminate].
Defined.

(** * What the answers show *)

(** [_route_signature] takes the host of the backend even for a route that is relayed: for
    a reality route whose backend has no [reality_ip] it is [None], the join of the signature
    raises [TypeError], and the payload that was built is not sent. *)
Theorem relayed_route_without_ip_fails :
  answer (build_for_device shop_config quiet shop_sub phone "") (shop_with None [shop_route 63 2 (Some 9)] true shop_sub) = Raise TypeError ∧
  (match answer (build_for_device shop_config quiet shop_sub phone "") (shop_with (Some "5.5.5.5") [shop_route 63 2 (Some 9)] true shop_sub)
   with Ok r => nonempty r.1 = true | Raise _ => False end).
Proof. split; vm_compute; reflexivity. Qed.

(** The subscription after a rotation whose grace period ended an hour ago. *)
Definition rotated_sub : Subscription :=
  {| sub_id := 11; sub_user_id := 1; sub_plan_id := Some 21; sub_token := Some "new"; sub_token_hash := "new";
     prev_token_hash := Some "old"; prev_token_expires_at := Some 0; sub_expires_at := Some (10 * day);
     sub_profile_key := None; preferred_region := None; root_vpn_key_id := None; hwid_enabled := true;
     sub_max_devices := None; paid_device_slots := 0; sub_period_months := 1; sub_used_traffic_bytes := 0;
     lifetime_used_traffic_bytes := 0; last_traffic_reset_at := None; first_connected_at := None;
     auto_renew := false; traffic_warning_threshold_pct := 0; sub_is_active := true; sub_created_at := 0;
     sub_updated_at := 0 |}.
Definition rotated : session := shop_with (Some "5.5.5.5") direct false rotated_sub.

(** [prev_token_expires_at] is written when a token is rotated and read nowhere: the old
    token gets the same links as the new one after the grace period. *)
Theorem old_token_outlives_grace :
  match answer (build_payload shop_config quiet "old" phone None "") rotated, answer (build_payload shop_config quiet "new" phone None "") rotated with
  | Ok old, Ok new => nonempty (po_payload old) = true ∧ po_payload old = po_payload new ∧ po_etag old = po_etag new
  | _, _ => False
  end.
Proof. vm_compute. split_and!; reflexivity. Qed.
