(* ===== verification/Finance.v ===== *)
(** Expenses and their recurring templates (services/finance): the calendar arithmetic, the
    service and the reconciler that books what is due. *)

From stdpp Require Import base gmap strings list sorting.
From S2P Require Import Prelude Decimal Errors RouteModels BillingModels FleetModels SupportModels Session Tables FleetTables SupportTables Routes Traffic TrafficReport.
Local Open Scope Z_scope.

Definition MATERIALIZE_CATCHUP_LIMIT : nat := 60.

Inductive ExpenseKindEnum := INFRASTRUCTURE | GATEWAY_FEE | DOMAIN_CDN | MARKETING | SALARY | REFERRAL_COST | TAX | OTHER.
Definition kind_value (k : ExpenseKindEnum) : string :=
  match k with
  | INFRASTRUCTURE => "infrastructure" | GATEWAY_FEE => "gateway_fee" | DOMAIN_CDN => "domain_cdn" | MARKETING => "marketing"
  | SALARY => "salary" | REFERRAL_COST => "referral" | TAX => "tax" | OTHER => "other"
  end.

(** * Dates *)

(** [calendar.isleap], [calendar.monthrange]. *)
Definition is_leap (y : Z) : bool := (y mod 4 =? 0) && (negb (y mod 100 =? 0) || (y mod 400 =? 0)).
Definition month_days (leap : bool) (m : Z) : Z :=
  nth (Z.to_nat m) [0; 31; 28; 31; 30; 31; 30; 31; 31; 30; 31; 30; 31] 0 + Z.b2z ((m =? 2) && leap).
Definition days_in_month (y m : Z) : Z := month_days (is_leap y) m.

(** [date.toordinal]. *)
Definition days_before_year (y : Z) : Z := let y := y - 1 in y * 365 + y / 4 - y / 100 + y / 400.
Definition ymd2ord (y m d : Z) : Z := days_before_year y + days_before (is_leap y) m + d.

(** The month of day [n] of a year, from 0. *)
Definition month_in_year (leap : bool) (n : Z) : Z :=
  let month := Z.shiftr (n + 50) 5 in
  if n <? days_before leap month then month - 1 else month.

(** [date.fromordinal]: year, month and day. *)
Definition ord2ymd (ordinal : Z) : Z * Z * Z :=
  let n := ordinal - 1 in
  let n400 := n / 146097 in
  let n := n mod 146097 in
  let n100 := n / 36524 in
  let n := n mod 36524 in
  let n4 := n / 1461 in
  let n := n mod 1461 in
  let n1 := n / 365 in
  let n := n mod 365 in
  let year := n400 * 400 + n100 * 100 + n4 * 4 + n1 + 1 in
  if (n1 =? 4) || (n100 =? 4) then (year - 1, 12, 31)
  else
    let leap := (n1 =? 3) && (negb (n4 =? 24) || (n100 =? 3)) in
    (year, month_in_year leap n, day_in_year leap n).

Definition date_of (t : Z) : Z * Z * Z := ord2ymd (epoch_day t + epoch_ordinal).

Definition MAXYEAR : Z := 9999.

(** [dt.replace(year=..., month=..., day=...)]. *)
Definition replace_date (t y m d : Z) : res Z :=
  if (1 <=? y) && (y <=? MAXYEAR) then Ok ((ymd2ord y m d - epoch_ordinal) * day + t mod day)
  else Raise (ValueError "year is out of range").

Definition add_months (t months : Z) : res Z :=
  let '(y, m, d) := date_of t in
  let month_index := m - 1 + months in
  let year := y + month_index / 12 in
  let month := month_index mod 12 + 1 in
  let day := Z.min d (days_in_month year month) in
  replace_date t year month day.

(** [dt + timedelta(weeks=1)]. *)
Definition add_week (t : Z) : res Z :=
  let t := t + 7 * day in
  if epoch_day t + epoch_ordinal <=? ymd2ord MAXYEAR 12 31 then Ok t else Raise (OverflowError "date value out of range").

Definition advance_period (t : Z) (period : RecurringPeriodEnum) : res Z :=
  match period with
  | weekly => add_week t
  | yearly => add_months t 12
  | monthly => add_months t 1
  end.

(** * Amounts *)

Definition is_rub (currency : string) : bool := String.eqb (upper currency) "RUB".

(** [quantize(Decimal("0.01"), ROUND_HALF_UP)] of hundredths times millionths. *)
Definition normalize_to_rub (amount : option Z) (currency : string) (fx_rate : option Z) : res (option Z) :=
  if is_rub currency then Ok amount
  else match fx_rate with
       | Some r => if r <=? 0 then Raise (ValueError "fx_rate is required and must be > 0 for non-RUB currency")
                   else match amount with
                        | Some a => Ok (Some (round_half_up (a * r) 1000000))
                        | None => Raise TypeError
                        end
       | None => Raise (ValueError "fx_rate is required and must be > 0 for non-RUB currency")
       end.

(** * Requests *)

(** [_FxValidatedIn._check_fx] with the bounds of its fields. *)
Definition _check_fx (amount : Z) (currency : string) (fx : option Z) : bool :=
  (0 <? amount) && (String.length currency =? 3)%nat && match fx with Some r => 0 <? r | None => is_rub currency end.

Record ExpenseCreateIn := {
  ec_kind : ExpenseKindEnum;
  ec_amount : Z;
  ec_currency : string;
  ec_fx_rate : option Z;
  ec_incurred_at : Z;
  ec_period_start : option Z;
  ec_period_end : option Z;
  ec_vendor : option string;
  ec_region : option string;
  ec_description : option string;
}.

Definition create_expense (data : ExpenseCreateIn) : SM Expense :=
  raise_if (negb (_check_fx (ec_amount data) (ec_currency data) (ec_fx_rate data))) (ValidationError "fx_rate") ;;
  let currency := upper (ec_currency data) in
  rub ← lift (normalize_to_rub (Some (ec_amount data)) currency (ec_fx_rate data));
  create expenses_tbl (λ id now,
    {| ex_id := id; ex_kind := kind_value (ec_kind data); ex_amount := ec_amount data; ex_currency := currency;
       ex_amount_rub := default 0 rub; ex_fx_rate := ec_fx_rate data; incurred_at := ec_incurred_at data;
       ex_period_start := ec_period_start data; ex_period_end := ec_period_end data; ex_vendor := ec_vendor data;
       ex_region := ec_region data; ex_description := ec_description data; ex_template_id := None;
       ex_created_at := now; ex_updated_at := now |}).

(** Fields of a PATCH: unset, null or a value. *)
Definition patched_col {A} (o : option (option A)) (x : A) : A := match o with Some (Some y) => y | _ => x end.
Definition patched_null {A} (o : option (option A)) (x : option A) : option A := match o with Some y => y | None => x end.
Definition is_null {A} (o : option (option A)) : bool := match o with Some None => true | _ => false end.

Record ExpenseUpdateIn := {
  eu_kind : option (option ExpenseKindEnum);
  eu_amount : option (option Z);
  eu_currency : option (option string);
  eu_fx_rate : option (option Z);
  eu_incurred_at : option (option Z);
  eu_period_start : option (option Z);
  eu_period_end : option (option Z);
  eu_vendor : option (option string);
  eu_region : option (option string);
  eu_description : option (option string);
}.

Definition expense_or_error (eid : Z) : SM Expense :=
  o ← get_by_id expenses_tbl eid;
  match o with Some e => mret e | None => raise (ExpenseNotFound "Expense not found") end.

Definition positive_patch (o : option (option Z)) : bool := match o with Some (Some x) => 0 <? x | _ => true end.
Definition currency_patch (o : option (option string)) : bool := match o with Some (Some c) => (String.length c =? 3)%nat | _ => true end.

Definition patched_expense (data : ExpenseUpdateIn) (rub : Z) (e : Expense) : Expense :=
  {| ex_id := ex_id e; ex_kind := from_option kind_value (ex_kind e) (eu_kind data ≫= id);
     ex_amount := patched_col (eu_amount data) (ex_amount e); ex_currency := from_option upper (ex_currency e) (eu_currency data ≫= id);
     ex_amount_rub := rub; ex_fx_rate := patched_null (eu_fx_rate data) (ex_fx_rate e);
     incurred_at := patched_col (eu_incurred_at data) (incurred_at e);
     ex_period_start := patched_null (eu_period_start data) (ex_period_start e);
     ex_period_end := patched_null (eu_period_end data) (ex_period_end e); ex_vendor := patched_null (eu_vendor data) (ex_vendor e);
     ex_region := patched_null (eu_region data) (ex_region e); ex_description := patched_null (eu_description data) (ex_description e);
     ex_template_id := ex_template_id e; ex_created_at := ex_created_at e; ex_updated_at := ex_updated_at e |}.

Definition update_expense (eid : Z) (data : ExpenseUpdateIn) : SM (option Expense) :=
  raise_if (negb (positive_patch (eu_amount data) && positive_patch (eu_fx_rate data) && currency_patch (eu_currency data)))
    (ValidationError "expense") ;;
  e ← expense_or_error eid;
  raise_if (is_null (eu_currency data)) (AttributeError "'NoneType' object has no attribute 'upper'") ;;
  rub ← lift (normalize_to_rub (patched_null (eu_amount data) (Some (ex_amount e)))
                (from_option upper (ex_currency e) (eu_currency data ≫= id)) (patched_null (eu_fx_rate data) (ex_fx_rate e)));
  match rub with
  | Some rub =>
      raise_if (is_null (eu_kind data) || is_null (eu_amount data) || is_null (eu_incurred_at data)) (IntegrityError "not_null") ;;
      update_by_id expenses_tbl eid (patched_expense data rub)
  | None => raise (IntegrityError "not_null")
  end.

Definition delete_expense (eid : Z) : SM unit := expense_or_error eid ;; delete_by_id expenses_tbl eid ;; mret tt.

Record RecurringTemplateCreateIn := {
  rt_name : string;
  rt_kind : ExpenseKindEnum;
  rt_amount : Z;
  rt_currency : string;
  rt_fx_rate : option Z;
  rt_period : RecurringPeriodEnum;
  rt_next_run_at : Z;
  rt_vendor : option string;
  rt_region : option string;
  rt_description : option string;
}.

Definition create_expense_template (data : RecurringTemplateCreateIn) : SM RecurringExpenseTemplate :=
  raise_if (negb (_check_fx (rt_amount data) (rt_currency data) (rt_fx_rate data))) (ValidationError "fx_rate") ;;
  create expense_templates_tbl (λ id now,
    {| et_id := id; et_name := rt_name data; et_kind := kind_value (rt_kind data); et_amount := rt_amount data;
       et_currency := upper (rt_currency data); et_fx_rate := rt_fx_rate data; et_period := rt_period data;
       et_next_run_at := rt_next_run_at data; et_vendor := rt_vendor data; et_region := rt_region data;
       et_description := rt_description data; et_is_active := true; et_created_at := now; et_updated_at := now |}).

Definition list_expense_templates : SM (list RecurringExpenseTemplate) :=
  l ← select_where expense_templates_tbl (λ _, true); mret (order_by_asc et_next_run_at l).

Record RecurringTemplateUpdateIn := {
  ru_name : option (option string);
  ru_kind : option (option ExpenseKindEnum);
  ru_amount : option (option Z);
  ru_currency : option (option string);
  ru_fx_rate : option (option Z);
  ru_period : option (option RecurringPeriodEnum);
  ru_next_run_at : option (option Z);
  ru_vendor : option (option string);
  ru_region : option (option string);
  ru_description : option (option string);
  ru_is_active : option (option bool);
}.

Definition expense_template_or_error (tid : Z) : SM RecurringExpenseTemplate :=
  o ← get_by_id expense_templates_tbl tid;
  match o with Some t => mret t | None => raise (ExpenseTemplateNotFound "Template not found") end.

Definition patched_template (data : RecurringTemplateUpdateIn) (t : RecurringExpenseTemplate) : RecurringExpenseTemplate :=
  {| et_id := et_id t; et_name := patched_col (ru_name data) (et_name t);
     et_kind := from_option kind_value (et_kind t) (ru_kind data ≫= id); et_amount := patched_col (ru_amount data) (et_amount t);
     et_currency := from_option upper (et_currency t) (ru_currency data ≫= id);
     et_fx_rate := patched_null (ru_fx_rate data) (et_fx_rate t); et_period := patched_col (ru_period data) (et_period t);
     et_next_run_at := patched_col (ru_next_run_at data) (et_next_run_at t); et_vendor := patched_null (ru_vendor data) (et_vendor t);
     et_region := patched_null (ru_region data) (et_region t); et_description := patched_null (ru_description data) (et_description t);
     et_is_active := patched_col (ru_is_active data) (et_is_active t); et_created_at := et_created_at t; et_updated_at := et_updated_at t |}.

Definition update_expense_template (tid : Z) (data : RecurringTemplateUpdateIn) : SM (option RecurringExpenseTemplate) :=
  raise_if (negb (positive_patch (ru_amount data) && positive_patch (ru_fx_rate data) && currency_patch (ru_currency data)))
    (ValidationError "template") ;;
  expense_template_or_error tid ;;
  raise_if (is_null (ru_name data) || is_null (ru_kind data) || is_null (ru_amount data) || is_null (ru_currency data) ||
            is_null (ru_period data) || is_null (ru_next_run_at data) || is_null (ru_is_active data)) (IntegrityError "not_null") ;;
  update_by_id expense_templates_tbl tid (patched_template data).

(** ON DELETE SET NULL. *)
Definition detached (tid : Z) (e : Expense) : Expense :=
  {| ex_id := ex_id e; ex_kind := ex_kind e; ex_amount := ex_amount e; ex_currency := ex_currency e; ex_amount_rub := ex_amount_rub e;
     ex_fx_rate := ex_fx_rate e; incurred_at := incurred_at e; ex_period_start := ex_period_start e; ex_period_end := ex_period_end e;
     ex_vendor := ex_vendor e; ex_region := ex_region e; ex_description := ex_description e;
     ex_template_id := if bool_decide (ex_template_id e = Some tid) then None else ex_template_id e;
     ex_created_at := ex_created_at e; ex_updated_at := ex_updated_at e |}.

Definition delete_expense_template (tid : Z) : SM unit :=
  expense_template_or_error tid ;;
  write (λ d, set_expenses (detached tid <$> expenses d) d) ;;
  delete_by_id expense_templates_tbl tid ;;
  mret tt.

(** * Lists *)

Definition _apply_filters (date_from date_to : option Z) (kind : option string) (e : Expense) : bool :=
  match date_from with Some t => t <=? incurred_at e | None => true end &&
  match date_to with Some t => incurred_at e <? t | None => true end &&
  match kind with Some k => String.eqb (ex_kind e) k | None => true end.

Definition list_expenses (date_from date_to : option Z) (kind : option string) (limit offset : nat) : SM (list Expense * nat) :=
  l ← select_where expenses_tbl (_apply_filters date_from date_to kind);
  mret (take limit (drop offset (order_by_desc incurred_at l)), length l).

Definition sum_rub (l : list Expense) : Z := foldr (λ e n, ex_amount_rub e + n) 0 l.

(** The total and the number of the expenses of a kind. *)
Definition kind_line (l : list Expense) (k : string) : string * Z * nat :=
  (k, sum_rub (filter (λ e, ex_kind e = k) l), length (filter (λ e, ex_kind e = k) l)).

(** GROUP BY kind. *)
Definition summary_by_kind (date_from date_to : option Z) : SM (list (string * Z * nat)) :=
  l ← select_where expenses_tbl (_apply_filters date_from date_to None);
  mret (kind_line l <$> remove_dups (ex_kind <$> l)).

Definition expense_summary (date_from date_to : option Z) : SM (list (string * Z * nat) * Z) :=
  items ← summary_by_kind date_from date_to;
  mret (items, foldr (λ i n, i.1.2 + n) 0 items).

(** * The reconciler *)

Definition template_due (now : Z) (t : RecurringExpenseTemplate) : bool := et_is_active t && (et_next_run_at t <=? now).
Definition list_due_templates (now : Z) : SM (list RecurringExpenseTemplate) := select_where expense_templates_tbl (template_due now).

Definition expense_of (t : RecurringExpenseTemplate) (rub run_at id now : Z) : Expense :=
  {| ex_id := id; ex_kind := et_kind t; ex_amount := et_amount t; ex_currency := et_currency t; ex_amount_rub := rub;
     ex_fx_rate := et_fx_rate t; incurred_at := run_at; ex_period_start := None; ex_period_end := None; ex_vendor := et_vendor t;
     ex_region := et_region t; ex_description := et_description t; ex_template_id := Some (et_id t);
     ex_created_at := now; ex_updated_at := now |}.

(** The [while] loop: the number of expenses booked, and the next date. *)
Fixpoint catch_up (guard : nat) (now : Z) (t : RecurringExpenseTemplate) (run_at : Z) : SM (Z * Z) :=
  match guard with
  | O => mret (0, run_at)
  | S guard =>
      if run_at <=? now then
        rub ← lift (normalize_to_rub (Some (et_amount t)) (et_currency t) (et_fx_rate t));
        create expenses_tbl (expense_of t (default 0 rub) run_at) ;;
        next ← lift (advance_period run_at (et_period t));
        r ← catch_up guard now t next;
        mret (r.1 + 1, r.2)
      else mret (0, run_at)
  end.

Definition set_next_run (run_at : Z) (t : RecurringExpenseTemplate) : RecurringExpenseTemplate :=
  {| et_id := et_id t; et_name := et_name t; et_kind := et_kind t; et_amount := et_amount t; et_currency := et_currency t;
     et_fx_rate := et_fx_rate t; et_period := et_period t; et_next_run_at := run_at; et_vendor := et_vendor t;
     et_region := et_region t; et_description := et_description t; et_is_active := et_is_active t;
     et_created_at := et_created_at t; et_updated_at := et_updated_at t |}.

Definition materialize_template (now : Z) (t : RecurringExpenseTemplate) : SM Z :=
  r ← catch_up MATERIALIZE_CATCHUP_LIMIT now t (et_next_run_at t);
  update_by_id expense_templates_tbl (et_id t) (set_next_run r.2) ;;
  mret r.1.

Definition materialize_due_templates (now : Z) : SM Z :=
  due ← list_due_templates now;
  fold_m (λ n t, k ← materialize_template now t; mret (n + k)) 0 due.

(** [FinanceMaterializeTemplatesReconciler.tick]. *)
Definition materialize_tick : SM Z :=
  run_committing (now ← utcnow; n ← materialize_due_templates now; mret (n, negb (n =? 0))).

(** * The calendar *)

Definition year_ok (leap : bool) (n : Z) : bool :=
  let m := month_in_year leap n in let d := day_in_year leap n in
  (1 <=? m) && (m <=? 12) && (1 <=? d) && (d <=? month_days leap m) && (days_before leap m + d =? n + 1).

Lemma year_all_ok leap n : 0 ≤ n < 365 + Z.b2z leap → year_ok leap n = true.
Proof.
  intros Hn. assert (H : ∀ leap, forallb (year_ok leap) (seqZ 0 (365 + Z.b2z leap)) = true) by (intros []; vm_compute; done).
  specialize (H leap). rewrite forallb_forall in H. apply H, list_elem_of_In, elem_of_seqZ. lia.
Qed.

(** The years before year [400 k + 100 c + 4 q + a + 1], and whether it is a leap year. *)
Lemma days_before_year_parts k c q a :
  0 ≤ c ≤ 3 → 0 ≤ q ≤ 24 → 0 ≤ a ≤ 3 →
  days_before_year (k * 400 + c * 100 + q * 4 + a + 1) = 146097 * k + 36524 * c + 1461 * q + 365 * a.
Proof.
  intros Hc Hq Ha. unfold days_before_year. cbv zeta. replace (k * 400 + c * 100 + q * 4 + a + 1 - 1) with (k * 400 + c * 100 + q * 4 + a) by lia.
  assert ((k * 400 + c * 100 + q * 4 + a) / 4 = 100 * k + 25 * c + q) as -> by (symmetry; apply (Z.div_unique_pos _ _ _ a); lia).
  assert ((k * 400 + c * 100 + q * 4 + a) / 100 = 4 * k + c) as -> by (symmetry; apply (Z.div_unique_pos _ _ _ (q * 4 + a)); lia).
  assert ((k * 400 + c * 100 + q * 4 + a) / 400 = k) as -> by (symmetry; apply (Z.div_unique_pos _ _ _ (c * 100 + q * 4 + a)); lia).
  lia.
Qed.

Lemma is_leap_parts k c q a :
  0 ≤ c ≤ 3 → 0 ≤ q ≤ 24 → 0 ≤ a ≤ 3 →
  is_leap (k * 400 + c * 100 + q * 4 + a + 1) = (a =? 3) && (negb (q =? 24) || (c =? 3)).
Proof.
  intros Hc Hq Ha. unfold is_leap. set (y := _ + 1).
  assert (y mod 4 = if a =? 3 then 0 else a + 1) as ->.
  { destruct (Z.eqb_spec a 3) as [->|]; symmetry; [apply (Z.mod_unique_pos _ _ (k * 100 + c * 25 + q + 1))|apply (Z.mod_unique_pos _ _ (k * 100 + c * 25 + q))]; lia. }
  destruct (Z.eqb_spec a 3) as [->|]; [|by rewrite (proj2 (Z.eqb_neq (a + 1) 0)) by lia]. cbn [andb].
  assert (y mod 100 = if q =? 24 then 0 else q * 4 + 4) as ->.
  { destruct (Z.eqb_spec q 24) as [->|]; symmetry; [apply (Z.mod_unique_pos _ _ (k * 4 + c + 1))|apply (Z.mod_unique_pos _ _ (k * 4 + c))]; lia. }
  destruct (Z.eqb_spec q 24) as [->|]; [|by rewrite (proj2 (Z.eqb_neq (q * 4 + 4) 0)) by lia]. cbn [negb orb].
  assert (y mod 400 = if c =? 3 then 0 else c * 100 + 100) as ->.
  { destruct (Z.eqb_spec c 3) as [->|]; symmetry; [apply (Z.mod_unique_pos _ _ (k + 1))|apply (Z.mod_unique_pos _ _ k)]; lia. }
  destruct (Z.eqb_spec c 3) as [->|]; [done|]. by rewrite (proj2 (Z.eqb_neq (c * 100 + 100) 0)) by lia.
Qed.

(** A day read back. *)
Lemma ord2ymd_spec o y m d : ord2ymd o = (y, m, d) → ymd2ord y m d = o ∧ 1 ≤ m ≤ 12 ∧ 1 ≤ d ≤ days_in_month y m.
Proof.
  unfold ord2ymd. set (n := o - 1). set (k := n / 146097). set (r := n mod 146097). set (c := r / 36524). set (x := r mod 36524).
  set (q := x / 1461). set (z := x mod 1461). set (a := z / 365). set (t := z mod 365). cbv zeta.
  assert (Hr : n = 146097 * k + r ∧ 0 ≤ r < 146097) by (split; [apply Z.div_mod|apply Z.mod_pos_bound]; lia).
  assert (Hx : r = 36524 * c + x ∧ 0 ≤ x < 36524) by (split; [apply Z.div_mod|apply Z.mod_pos_bound]; lia).
  assert (Hz : x = 1461 * q + z ∧ 0 ≤ z < 1461) by (split; [apply Z.div_mod|apply Z.mod_pos_bound]; lia).
  assert (Ht : z = 365 * a + t ∧ 0 ≤ t < 365) by (split; [apply Z.div_mod|apply Z.mod_pos_bound]; lia).
  clearbody k r c x q z a t. subst n.
  assert (Hdec : ∀ k c q, 0 ≤ c ≤ 3 → 0 ≤ q ≤ 24 → ∀ l, l = negb (q =? 24) || (c =? 3) →
    ymd2ord (k * 400 + c * 100 + q * 4 + 3 + 1) 12 31 = 146097 * k + 36524 * c + 1461 * q + 365 * 4 + Z.b2z l ∧
    days_in_month (k * 400 + c * 100 + q * 4 + 3 + 1) 12 = 31).
  { intros k' c' q' Hc' Hq' l ->. unfold ymd2ord, days_in_month. rewrite days_before_year_parts, is_leap_parts by lia.
    cbn [Z.eqb Pos.eqb andb]. split; [|by destruct (_ || _)].
    assert (∀ b, days_before b 12 = 334 + Z.b2z b) as -> by (by intros []). lia. }
  destruct (Z.eqb_spec c 4) as [Ec|Hc4].
  - (* the last day of 400 years *) rewrite orb_true_r. intros [= <- <- <-].
    destruct (Hdec k 3 24 ltac:(lia) ltac:(lia) true eq_refl) as [E1 E2]. assert (q = 0 ∧ a = 0) as [-> ->] by lia. subst c.
    replace (k * 400 + 4 * 100 + 0 * 4 + 0 + 1 - 1) with (k * 400 + 3 * 100 + 24 * 4 + 3 + 1) by lia. rewrite E1, E2. cbn. lia.
  - destruct (Z.eqb_spec a 4) as [Ea|Ha4]; cbn [orb].
    + (* the last day of 4 years *) intros [= <- <- <-]. subst a.
      assert (negb (q =? 24) || (c =? 3) = true) as Hl.
      { apply orb_true_iff. rewrite negb_true_iff, Z.eqb_neq, Z.eqb_eq. lia. }
      destruct (Hdec k c q ltac:(lia) ltac:(lia) true (eq_sym Hl)) as [E1 E2].
      replace (k * 400 + c * 100 + q * 4 + 4 + 1 - 1) with (k * 400 + c * 100 + q * 4 + 3 + 1) by lia. rewrite E1, E2. cbn. lia.
    + set (leap := (a =? 3) && (negb (q =? 24) || (c =? 3))). intros [= <- <- <-].
      assert (is_leap (k * 400 + c * 100 + q * 4 + a + 1) = leap) as El by (apply is_leap_parts; lia).
      unfold ymd2ord, days_in_month. rewrite El, days_before_year_parts by lia.
      assert (H : year_ok leap t = true) by (apply year_all_ok; destruct leap; cbn; lia).
      unfold year_ok in H. rewrite !andb_true_iff, !Z.leb_le, Z.eqb_eq in H. lia.
Qed.

(** ** Months *)

(** The first day of a month, counted from January of year 0. *)
Definition month_start (i : Z) : Z := ymd2ord (i / 12) (i mod 12 + 1) 1.
Definition month_length (i : Z) : Z := days_in_month (i / 12) (i mod 12 + 1).

Lemma quotient_step y m : 0 < m → y / m = (y - 1) / m + (if y mod m =? 0 then 1 else 0).
Proof.
  intros Hm. destruct (div_mod_next (y - 1) m Hm) as [(H & E & _)|(H & _ & E)]; replace (y - 1 + 1) with y in * by lia.
  - rewrite E. pose proof (Z.mod_pos_bound (y - 1) m Hm). rewrite (proj2 (Z.eqb_neq (y mod m) 0)) by lia. lia.
  - by rewrite E, H.
Qed.

Lemma days_before_year_next y : days_before_year (y + 1) = days_before_year y + 365 + Z.b2z (is_leap y).
Proof.
  unfold days_before_year, is_leap. cbv zeta. replace (y + 1 - 1) with y by lia.
  rewrite (quotient_step y 4), (quotient_step y 100), (quotient_step y 400) by lia.
  assert (y mod 100 = 0 → y mod 4 = 0) by (intros H; pose proof (Z.div_mod y 100 ltac:(lia)); symmetry; apply (Z.mod_unique_pos _ _ (25 * (y / 100))); lia).
  assert (y mod 400 = 0 → y mod 100 = 0) by (intros H1; pose proof (Z.div_mod y 400 ltac:(lia)); symmetry; apply (Z.mod_unique_pos _ _ (4 * (y / 400))); lia).
  destruct (Z.eqb_spec (y mod 4) 0), (Z.eqb_spec (y mod 100) 0), (Z.eqb_spec (y mod 400) 0); cbn [andb orb negb Z.b2z]; lia.
Qed.

Lemma month_start_next i : month_start (i + 1) = month_start i + month_length i.
Proof.
  unfold month_start, month_length, ymd2ord, days_in_month. pose proof (Z.mod_pos_bound i 12 ltac:(lia)) as Hi.
  destruct (div_mod_next i 12 ltac:(lia)) as [(-> & -> & Hlt)|(-> & E & ->)].
  - assert (∀ l m, 0 ≤ m < 11 → days_before l (m + 1 + 1) = days_before l (m + 1) + month_days l (m + 1)) as H; [|rewrite H by lia; lia].
    intros l m Hm. assert (m = 0 ∨ m = 1 ∨ m = 2 ∨ m = 3 ∨ m = 4 ∨ m = 5 ∨ m = 6 ∨ m = 7 ∨ m = 8 ∨ m = 9 ∨ m = 10) as Hm' by lia.
    repeat destruct Hm' as [->|Hm']; [..|rewrite Hm']; by destruct l.
  - rewrite E, days_before_year_next. assert (∀ b, days_before b (0 + 1) = 0) as -> by (by intros []).
    assert (∀ b, days_before b (11 + 1) = 334 + Z.b2z b) as -> by (by intros []).
    assert (∀ b, month_days b (11 + 1) = 31) as -> by (by intros []). lia.
Qed.

Lemma month_length_pos i : 28 ≤ month_length i ≤ 31.
Proof.
  unfold month_length, days_in_month. pose proof (Z.mod_pos_bound i 12 ltac:(lia)) as Hi. revert Hi. generalize (i mod 12) as m.
  generalize (is_leap (i / 12)) as l. intros l m Hm.
  assert (m = 0 ∨ m = 1 ∨ m = 2 ∨ m = 3 ∨ m = 4 ∨ m = 5 ∨ m = 6 ∨ m = 7 ∨ m = 8 ∨ m = 9 ∨ m = 10 ∨ m = 11) as Hm' by lia.
  repeat destruct Hm' as [->|Hm']; [..|rewrite Hm']; destruct l; vm_compute; split; discriminate.
Qed.

Lemma month_start_mono i j : i ≤ j → month_start i ≤ month_start j.
Proof.
  intros Hij. replace j with (i + Z.of_nat (Z.to_nat (j - i))) by lia. induction (Z.to_nat (j - i)) as [|n IH]; [by rewrite Z.add_0_r|].
  replace (i + Z.of_nat (S n)) with (i + Z.of_nat n + 1) by lia. rewrite month_start_next. pose proof (month_length_pos (i + Z.of_nat n)). lia.
Qed.

(** A day is in one month only. *)
Lemma month_unique i j o : month_start i ≤ o < month_start (i + 1) → month_start j ≤ o < month_start (j + 1) → i = j.
Proof.
  intros Hi Hj. destruct (Z.lt_trichotomy i j) as [H|[H|H]]; [|done|].
  - pose proof (month_start_mono (i + 1) j ltac:(lia)). lia.
  - pose proof (month_start_mono (j + 1) i ltac:(lia)). lia.
Qed.

(** The month of an instant, and the day in it from 0. *)
Definition month_index (t : Z) : Z := let '(y, m, _) := date_of t in 12 * y + (m - 1).
Definition day_of_month (t : Z) : Z := (date_of t).2.
Definition ordinal_of (t : Z) : Z := epoch_day t + epoch_ordinal.

Lemma index_parts y m : 1 ≤ m ≤ 12 → (12 * y + (m - 1)) / 12 = y ∧ (12 * y + (m - 1)) mod 12 = m - 1.
Proof. intros Hm. split; symmetry; [apply (Z.div_unique_pos _ _ _ (m - 1))|apply (Z.mod_unique_pos _ _ y)]; lia. Qed.

Lemma ymd2ord_start y m d : 1 ≤ m ≤ 12 → ymd2ord y m d = month_start (12 * y + (m - 1)) + (d - 1).
Proof.
  intros Hm. unfold month_start, ymd2ord. destruct (index_parts y m Hm) as [-> ->]. replace (m - 1 + 1) with m by lia. lia.
Qed.

Lemma month_of_instant t y m d : date_of t = (y, m, d) →
  month_index t = 12 * y + (m - 1) ∧ ordinal_of t = month_start (month_index t) + (d - 1) ∧ 1 ≤ d ≤ month_length (month_index t) ∧ 1 ≤ m ≤ 12.
Proof.
  intros H. unfold month_index. rewrite H. unfold date_of in H. apply ord2ymd_spec in H as (Ho & Hm & Hd). fold (ordinal_of t) in Ho.
  split; [done|]. split; [by rewrite <-ymd2ord_start|]. split; [|done]. unfold month_length. destruct (index_parts y m Hm) as [-> ->].
  by replace (m - 1 + 1) with m by lia.
Qed.

(** An instant on day [d] of the month [i] is in that month. *)
Lemma month_index_of t i d : ordinal_of t = month_start i + (d - 1) → 1 ≤ d ≤ month_length i → month_index t = i.
Proof.
  intros Ho Hd. destruct (date_of t) as [[y m] d'] eqn:E. destruct (month_of_instant t y m d' E) as (_ & Ho' & Hd' & _).
  apply (month_unique _ _ (ordinal_of t)); rewrite month_start_next; lia.
Qed.

Lemma add_months_spec t k t' : add_months t k = Ok t' →
  (month_index t' = month_index t + k ∧ day_of_month t' = Z.min (day_of_month t) (month_length (month_index t'))) ∧
  t' mod day = t mod day ∧ (0 < k → t < t').
Proof.
  unfold add_months. destruct (date_of t) as [[y m] d] eqn:E. destruct (month_of_instant t y m d E) as (Hi & Ho & Hd & Hm).
  set (j := m - 1 + k). set (y' := y + j / 12). set (m' := j mod 12 + 1). cbv zeta. unfold replace_date.
  destruct (_ && _); [|done]. intros [= <-]. set (d' := Z.min d (days_in_month y' m')).
  assert (Hj : 1 ≤ m' ≤ 12) by (unfold m'; pose proof (Z.mod_pos_bound j 12); lia).
  assert (Hidx : 12 * y' + (m' - 1) = month_index t + k) by (rewrite Hi; unfold y', m'; pose proof (Z.div_mod j 12 ltac:(lia)); unfold j in *; lia).
  assert (Hlen : days_in_month y' m' = month_length (month_index t + k)).
  { rewrite <-Hidx. unfold month_length. destruct (index_parts y' m' Hj) as [-> ->]. by replace (m' - 1 + 1) with m' by lia. }
  assert (Hday : 0 < day) by done. pose proof (Z.mod_pos_bound t day Hday) as Hmod. set (u := _ * day + t mod day).
  assert (Hu : epoch_day u = ymd2ord y' m' d' - epoch_ordinal) by (unfold epoch_day, u; symmetry; apply (Z.div_unique_pos _ _ _ (t mod day)); lia).
  assert (Hou : ordinal_of u = month_start (month_index t + k) + (d' - 1)).
  { unfold ordinal_of. rewrite Hu, (ymd2ord_start y' m' d' Hj), Hidx. lia. }
  pose proof (month_length_pos (month_index t + k)). assert (1 ≤ d' ≤ month_length (month_index t + k)) as Hd' by lia.
  assert (Hmi : month_index u = month_index t + k) by (by apply (month_index_of u _ d')).
  split. { split; [done|]. unfold day_of_month. rewrite E. destruct (date_of u) as [[yu mu] du] eqn:Eu.
    destruct (month_of_instant u yu mu du Eu) as (_ & Hou2 & _ & _). rewrite Hmi in Hou2 |- *. cbn. lia. }
  split; [symmetry; apply (Z.mod_unique_pos _ _ (ymd2ord y' m' d' - epoch_ordinal)); unfold u; lia|].
  intros Hk. pose proof (month_start_mono (month_index t + 1) (month_index t + k) ltac:(lia)) as Hmono. rewrite month_start_next in Hmono.
  assert (epoch_day t < epoch_day u) as Hlt by (unfold ordinal_of in *; lia). unfold epoch_day in Hlt.
  pose proof (Z.div_mod t day ltac:(lia)). pose proof (Z.div_mod u day ltac:(lia)). pose proof (Z.mod_pos_bound u day Hday). nia.
Qed.

Lemma month_of_ordinal t : month_start (month_index t) ≤ ordinal_of t < month_start (month_index t + 1).
Proof. destruct (date_of t) as [[y m] d] eqn:E. destruct (month_of_instant t y m d E) as (_ & Ho & Hd & _). rewrite month_start_next. lia. Qed.

Lemma month_index_mono t u : ordinal_of t ≤ ordinal_of u → month_index t ≤ month_index u.
Proof.
  intros H. destruct (Z.le_gt_cases (month_index t) (month_index u)) as [|Hgt]; [done|].
  pose proof (month_of_ordinal t). pose proof (month_of_ordinal u). pose proof (month_start_mono (month_index u + 1) (month_index t) ltac:(lia)). lia.
Qed.

Lemma ordinal_mono t u : t ≤ u → ordinal_of t ≤ ordinal_of u.
Proof. intros H. unfold ordinal_of, epoch_day. pose proof (Z.div_le_mono t u day ltac:(done) H). lia. Qed.

(** Instants from year 1 on and before year 9998. *)
Definition in_calendar (t : Z) : Prop := 1 ≤ ordinal_of t < ymd2ord 9998 1 1.

Lemma in_calendar_index t : in_calendar t → 12 ≤ month_index t < 12 * 9998.
Proof.
  intros [Hlo Hhi]. change 1 with (month_start 12) in Hlo at 1. change (ymd2ord 9998 1 1) with (month_start (12 * 9998)) in Hhi.
  pose proof (month_of_ordinal t). split.
  - destruct (Z.le_gt_cases 12 (month_index t)) as [|Hgt]; [done|]. pose proof (month_start_mono (month_index t + 1) 12 ltac:(lia)). lia.
  - destruct (Z.lt_ge_cases (month_index t) (12 * 9998)) as [|Hge]; [done|]. pose proof (month_start_mono (12 * 9998) (month_index t) ltac:(lia)). lia.
Qed.

Lemma add_months_ok t k : in_calendar t → 0 ≤ k ≤ 12 → ∃ t', add_months t k = Ok t'.
Proof.
  intros Ht%in_calendar_index Hk. unfold add_months. destruct (date_of t) as [[y m] d] eqn:E.
  destruct (month_of_instant t y m d E) as (Hi & _ & _ & Hm). unfold replace_date.
  assert ((m - 1 + k) / 12 = 0 ∨ (m - 1 + k) / 12 = 1) as Hq.
  { destruct (Z.lt_ge_cases (m - 1 + k) 12); [left; apply Z.div_small; lia|right; symmetry; apply (Z.div_unique_pos _ _ _ (m - 1 + k - 12)); lia]. }
  rewrite (proj2 (Z.leb_le 1 _)), (proj2 (Z.leb_le _ MAXYEAR)) by (unfold MAXYEAR; lia). eauto.
Qed.

(** A period leads on. *)
Lemma advance_later t p t' : advance_period t p = Ok t' → t < t'.
Proof.
  destruct p; cbn; [|intros (_ & _ & H)%add_months_spec; apply H; lia..].
  unfold add_week. destruct (_ <=? _); [|done]. intros [= <-]. assert (0 < day) by done. lia.
Qed.

Lemma advance_ok t p : in_calendar t → ∃ t', advance_period t p = Ok t'.
Proof.
  intros Ht. destruct p; cbn; [|by apply add_months_ok..]. unfold add_week.
  assert (ordinal_of (t + 7 * day) = ordinal_of t + 7) as E by (unfold ordinal_of, epoch_day; rewrite Z.div_add; [lia|done]).
  fold (ordinal_of (t + 7 * day)). rewrite E, (proj2 (Z.leb_le _ _)); [eauto|]. destruct Ht as [_ Ht].
  assert (ymd2ord 9998 1 1 + 7 ≤ ymd2ord MAXYEAR 12 31) by (vm_compute; discriminate). lia.
Qed.

(** * What is booked *)

(** The dates from [t] to [now], at most [guard] of them, and the date after them. *)
Fixpoint occurrences (guard : nat) (now : Z) (p : RecurringPeriodEnum) (t : Z) : list Z * Z :=
  match guard with
  | O => ([], t)
  | S guard => if t <=? now then match advance_period t p with
                                 | Ok t' => let r := occurrences guard now p t' in (t :: r.1, r.2)
                                 | Raise _ => ([t], t)
                                 end
               else ([], t)
  end.

(** Each date is the previous one advanced. *)
Fixpoint advancing (p : RecurringPeriodEnum) (t : Z) (l : list Z) (next : Z) : Prop :=
  match l with [] => t = next | x :: l => x = t ∧ ∃ t', advance_period t p = Ok t' ∧ t < t' ∧ advancing p t' l next end.

Lemma in_calendar_between t u now : in_calendar t → t ≤ u → u ≤ now → in_calendar now → in_calendar u.
Proof. intros [? _] ?%ordinal_mono ?%ordinal_mono [_ ?]. split; lia. Qed.

Lemma occurrences_spec now p : in_calendar now → ∀ guard t, (t ≤ now → in_calendar t) →
  let '(l, next) := occurrences guard now p t in
  advancing p t l next ∧ Forall (λ x, t ≤ x ≤ now) l ∧ t ≤ next ∧ (now < next ∨ length l = guard).
Proof.
  intros Hnow. induction guard as [|guard IH]; intros t Ht; cbn; [split_and!; [done|constructor|lia|by right]|].
  destruct (Z.leb_spec t now) as [Hle|Hgt]; [|split_and!; [done|constructor|lia|left; lia]].
  destruct (advance_ok t p (Ht Hle)) as [t' Ht']. rewrite Ht'. pose proof (advance_later _ _ _ Ht') as Hlt.
  specialize (IH t'). destruct (occurrences guard now p t') as [l next]. cbn.
  destruct IH as (Ha & Hl & Hn & He); [intros ?; apply (in_calendar_between t t' now); [by apply Ht|lia|done|done]|].
  split_and!; [done|by exists t'| |lia|destruct He as [?|<-]; auto].
  constructor; [lia|]. eapply Forall_impl; [exact Hl|]. cbn. lia.
Qed.

(** The rate is there when it is needed. *)
Definition rate_ok (t : RecurringExpenseTemplate) : bool :=
  is_rub (et_currency t) || match et_fx_rate t with Some r => 0 <? r | None => false end.
Definition roubles (t : RecurringExpenseTemplate) : Z :=
  if is_rub (et_currency t) then et_amount t else round_half_up (et_amount t * default 0 (et_fx_rate t)) 1000000.

Lemma normalize_ok t : rate_ok t = true → normalize_to_rub (Some (et_amount t)) (et_currency t) (et_fx_rate t) = Ok (Some (roubles t)).
Proof.
  unfold rate_ok, normalize_to_rub, roubles. destruct (is_rub (et_currency t)); [done|]. cbn [orb].
  destruct (et_fx_rate t) as [r|]; [|done]. intros Hr%Z.ltb_lt. by rewrite (proj2 (Z.leb_gt r 0)).
Qed.

(** The expenses [es] with ids of the supply were added. *)
Definition keyed_expenses (es : list Expense) : gmap Z Expense := list_to_map ((λ e, (ex_id e, e)) <$> es).

Definition added (s s' : session) (es : list Expense) : Prop :=
  expenses (db s') = keyed_expenses es ∪ expenses (db s) ∧ ex_id <$> es = seqZ (next_uuid s) (Z.of_nat (length es)) ∧
  next_uuid s' = next_uuid s + Z.of_nat (length es) ∧ clock s' = clock s.

(** The ids to come are not taken. *)
Definition expense_ids_fresh (s : session) : Prop := ∀ i, next_uuid s ≤ i → expenses (db s) !! i = None.

Lemma keyed_expenses_app es es' : keyed_expenses (es ++ es') = keyed_expenses es ∪ keyed_expenses es'.
Proof. unfold keyed_expenses. by rewrite fmap_app, list_to_map_app. Qed.

Lemma keyed_expenses_none es i : i ∉ ex_id <$> es → keyed_expenses es !! i = None.
Proof. intros H. apply not_elem_of_list_to_map_1. by rewrite <-list_fmap_compose. Qed.

Lemma added_refl s : added s s [].
Proof. split_and!; [change (keyed_expenses []) with (∅ : gmap Z Expense); by rewrite (left_id_L ∅ (∪))|done|cbn; lia|done]. Qed.

Lemma added_trans s1 s2 s3 es es' : added s1 s2 es → added s2 s3 es' → added s1 s3 (es ++ es').
Proof.
  intros (E1 & I1 & N1 & C1) (E2 & I2 & N2 & C2). split_and!; [|rewrite fmap_app, I1, I2, N1, length_app, Nat2Z.inj_add, seqZ_app by lia; done|rewrite length_app; lia|congruence].
  rewrite E2, E1, keyed_expenses_app, (assoc_L (∪)). f_equal. apply map_union_comm, map_disjoint_spec. intros i x y Hx Hy.
  assert (∀ es i x, keyed_expenses es !! i = Some x → i ∈ ex_id <$> es) as Hin.
  { intros l j z H. destruct (decide (j ∈ ex_id <$> l)) as [|Hn]; [done|]. by rewrite (keyed_expenses_none l j Hn) in H. }
  apply Hin in Hx, Hy. rewrite I2 in Hx. rewrite I1 in Hy. apply elem_of_seqZ in Hx, Hy. lia.
Qed.

Lemma added_fresh s s' es : expense_ids_fresh s → added s s' es → expense_ids_fresh s'.
Proof.
  intros Hf (E & I1 & N & _) i Hi. rewrite E. apply lookup_union_None. split; [|apply Hf; lia].
  apply keyed_expenses_none. rewrite I1, elem_of_seqZ. lia.
Qed.

(** The expenses of the dates [ts] of a template. *)
Definition expenses_of_dates (t : RecurringExpenseTemplate) (ts : list Z) (es : list Expense) : Prop :=
  incurred_at <$> es = ts ∧ Forall (λ e, ∃ id now, e = expense_of t (roubles t) (incurred_at e) id now) es.

Lemma create_expense_run t run_at s : expense_ids_fresh s →
  ∃ e s', create expenses_tbl (expense_of t (roubles t) run_at) s = (Ok e, s') ∧ added s s' [e] ∧ expenses_of_dates t [run_at] [e] ∧
    db s' = set_expenses (expenses (db s')) (db s).
Proof.
  intros Hf. rewrite create_run. cbn [t_check expenses_tbl t_rows t_id expense_of ex_id]. cbv zeta. rewrite (Hf (next_uuid s)) by lia.
  eexists _, _. split; [reflexivity|]. split; [|split; [|reflexivity]].
  - split_and!; [|done|cbn; lia|done]. cbn. unfold keyed_expenses. cbn. by rewrite insert_union_singleton_l.
  - split; [done|]. constructor; [|constructor]. eauto.
Qed.

Lemma catch_up_run now t : in_calendar now → rate_ok t = true → ∀ guard run_at s,
  (run_at ≤ now → in_calendar run_at) → expense_ids_fresh s →
  let o := occurrences guard now (et_period t) run_at in
  ∃ es s', catch_up guard now t run_at s = (Ok (Z.of_nat (length es), o.2), s') ∧ added s s' es ∧ expenses_of_dates t o.1 es ∧
    db s' = set_expenses (expenses (db s')) (db s).
Proof.
  intros Hnow Hrate. induction guard as [|guard IH]; intros run_at s Ht Hf; cbn.
  { exists [], s. split; [done|]. split; [apply added_refl|]. split; [by split; [|constructor]|by destruct (db s)]. }
  destruct (Z.leb_spec run_at now) as [Hle|Hgt].
  2:{ exists [], s. split; [done|]. split; [apply added_refl|]. split; [by split; [|constructor]|by destruct (db s)]. }
  destruct (advance_ok run_at (et_period t) (Ht Hle)) as [t' Ht']. rewrite Ht'. pose proof (advance_later _ _ _ Ht') as Hlt.
  unfold mbind at 1, M_bind at 1. rewrite (normalize_ok t Hrate). cbn [lift mret M_ret]. change (default 0 (Some (roubles t))) with (roubles t).
  destruct (create_expense_run t run_at s Hf) as (e & s1 & Hc & Ha1 & (Hm1 & Hm1') & Hd1). unfold mbind at 1, M_bind at 1. rewrite Hc.
  unfold mbind at 1, M_bind at 1. cbn [lift mret M_ret].
  destruct (IH t' s1) as (es & s2 & Hrun & Ha2 & (Hm2 & Hm2') & Hd2).
  { intros ?. apply (in_calendar_between run_at t' now); [by apply Ht|lia|done|done]. }
  { by eapply added_fresh. }
  unfold mbind, M_bind. rewrite Hrun. cbn [mret M_ret fst snd].
  exists (e :: es), s2. split; [replace (Z.of_nat (length es) + 1) with (Z.of_nat (length (e :: es))) by (cbn [length]; lia); reflexivity|].
  split; [exact (added_trans _ _ _ [e] es Ha1 Ha2)|]. split.
  - split; [cbn; rewrite Hm2; f_equal; by injection Hm1|]. constructor; [by inversion Hm1'|done].
  - rewrite Hd2, Hd1. done.
Qed.

(** The dates a tick books for a template, and the date after them. *)
Definition template_dates (now : Z) (t : RecurringExpenseTemplate) : list Z * Z :=
  occurrences MATERIALIZE_CATCHUP_LIMIT now (et_period t) (et_next_run_at t).

(** The template after its dates were booked. *)
Definition moved_on (now : Z) (stamp : Z) (t : RecurringExpenseTemplate) : RecurringExpenseTemplate :=
  set_next_run (template_dates now t).2 (touch_expense_template stamp t).

Lemma materialize_template_run now t s :
  in_calendar now → rate_ok t = true → (et_next_run_at t ≤ now → in_calendar (et_next_run_at t)) → expense_ids_fresh s →
  expense_templates (db s) !! et_id t = Some t →
  ∃ es s' stamp, materialize_template now t s = (Ok (Z.of_nat (length es)), s') ∧ added s s' es ∧
    expenses_of_dates t (template_dates now t).1 es ∧
    expense_templates (db s') = <[et_id t := moved_on now stamp t]> (expense_templates (db s)) ∧
    db s' = set_expense_templates (expense_templates (db s')) (set_expenses (expenses (db s')) (db s)).
Proof.
  intros Hnow Hrate Ht Hf Hrow. unfold materialize_template, mbind at 1, M_bind at 1.
  assert (∃ es s1, catch_up MATERIALIZE_CATCHUP_LIMIT now t (et_next_run_at t) s = (Ok (Z.of_nat (length es), (template_dates now t).2), s1) ∧
    added s s1 es ∧ expenses_of_dates t (template_dates now t).1 es ∧ db s1 = set_expenses (expenses (db s1)) (db s)) as (es & s1 & Hrun & Ha & Hm & Hd).
  { unfold template_dates. exact (catch_up_run now t Hnow Hrate MATERIALIZE_CATCHUP_LIMIT (et_next_run_at t) s Ht Hf). }
  assert (expense_templates (db s1) = expense_templates (db s)) as Het by (by rewrite Hd).
  unfold moved_on. revert Hrun Hm. generalize (template_dates now t) as o.
  intros o Hrun Hm. rewrite Hrun. unfold mbind at 1, M_bind at 1. rewrite update_run. cbn [t_rows expense_templates_tbl]. rewrite Het, Hrow. cbv zeta.
  cbn [t_check expense_templates_tbl mret M_ret].
  eexists es, _, (clock s1 (ticks s1)). split; [reflexivity|]. split; [|split; [exact Hm|split]].
  - destruct Ha as (E & I1 & N & C). split_and!; [exact E|exact I1|exact N|exact C].
  - cbn [db with_db tick put t_set t_rows t_id expense_templates_tbl set_expense_templates expense_templates t_touch et_id set_next_run touch_expense_template].
    by rewrite Het.
  - cbn [db with_db tick]. unfold put. cbn [t_set t_rows t_id expense_templates_tbl]. rewrite Het. etrans; [rewrite Hd; reflexivity|reflexivity].
Qed.

Lemma template_dates_due now t : template_due now t = true → (template_dates now t).1 ≠ [].
Proof.
  intros [_ Hle]%andb_prop. unfold template_dates, MATERIALIZE_CATCHUP_LIMIT. generalize 59%nat as g. intros g.
  cbn [occurrences]. rewrite Hle. by destruct (advance_period _ _).
Qed.

#[local] Opaque template_dates.

(** A template a tick can book. *)
Definition bookable (now : Z) (t : RecurringExpenseTemplate) : Prop :=
  rate_ok t = true ∧ (et_next_run_at t ≤ now → in_calendar (et_next_run_at t)).

Lemma materialize_all_run now : in_calendar now → ∀ l n s,
  (∀ t, t ∈ l → bookable now t ∧ expense_templates (db s) !! et_id t = Some t) → NoDup (et_id <$> l) → expense_ids_fresh s →
  ∃ ess s', fold_m (λ n t, k ← materialize_template now t; mret (n + k)) n l s = (Ok (n + Z.of_nat (length (concat ess))), s') ∧
    added s s' (concat ess) ∧ Forall2 (λ t es, expenses_of_dates t (template_dates now t).1 es) l ess ∧
    (∀ t, t ∈ l → ∃ stamp, expense_templates (db s') !! et_id t = Some (moved_on now stamp t)) ∧
    (∀ i, i ∉ et_id <$> l → expense_templates (db s') !! i = expense_templates (db s) !! i) ∧
    db s' = set_expense_templates (expense_templates (db s')) (set_expenses (expenses (db s')) (db s)).
Proof.
  intros Hnow. induction l as [|t l IH]; intros n s Hl Hnd Hf.
  { exists [], s. split; [cbn; by rewrite Z.add_0_r|]. split; [apply added_refl|]. split; [constructor|]. split; [by intros t ?%not_elem_of_nil|].
    split; [done|by destruct (db s)]. }
  cbn [fmap list_fmap] in Hnd. apply NoDup_cons in Hnd as [Hnin Hnd]. destruct (Hl t) as [[Hrate Ht] Hrow]; [by left|].
  destruct (materialize_template_run now t s Hnow Hrate Ht Hf Hrow) as (es & s1 & stamp & Hrun & Ha & Hm & Het & Hd).
  destruct (IH (n + Z.of_nat (length es)) s1) as (ess & s2 & Hrun2 & Ha2 & Hm2 & Hin2 & Hout2 & Hd2).
  { intros t' Ht'. destruct (Hl t') as [Hb Hr']; [by right|]. split; [done|]. rewrite Het, lookup_insert_ne; [done|].
    intros E. apply Hnin. rewrite E. apply list_elem_of_fmap. eauto. }
  { done. } { by eapply added_fresh. }
  exists (es :: ess), s2. cbn [fold_m concat]. split.
  { unfold mbind at 1, M_bind at 1. unfold mbind at 1, M_bind at 1. rewrite Hrun. cbn [mret M_ret]. rewrite Hrun2.
    replace (n + Z.of_nat (length es) + Z.of_nat (length (concat ess))) with (n + Z.of_nat (length (es ++ concat ess)))
      by (rewrite length_app; lia). reflexivity. }
  split; [by eapply added_trans|]. split; [by constructor|]. split; [|split].
  - intros t' [->|Ht']%elem_of_cons; [|by apply Hin2]. exists stamp. rewrite Hout2 by done. by rewrite Het, lookup_insert_eq.
  - intros i [Hi1 Hi2]%not_elem_of_cons. rewrite Hout2, Het, lookup_insert_ne by done. done.
  - etrans; [exact Hd2|]. etrans; [rewrite Hd; reflexivity|reflexivity].
Qed.

(** The dates of the expenses that are in [d'] and not in [d], of one template. *)
Definition booked (d d' : database) (tid : Z) : list Z :=
  incurred_at <$> filter (λ e, ex_template_id e = Some tid) (rows (expenses d' ∖ expenses d)).

Lemma rows_keyed_expenses es : NoDup (ex_id <$> es) → rows (keyed_expenses es) ≡ₚ es.
Proof.
  intros Hnd. unfold rows, keyed_expenses. rewrite map_to_list_to_map by (by rewrite <-list_fmap_compose).
  rewrite <-list_fmap_compose. cbn. by rewrite list_fmap_id.
Qed.

Lemma added_new s s' es : expense_ids_fresh s → added s s' es → rows (expenses (db s') ∖ expenses (db s)) ≡ₚ es.
Proof.
  intros Hf (E & I1 & _). rewrite E. assert (keyed_expenses es ##ₘ expenses (db s)) as Hdisj.
  { apply map_disjoint_spec. intros i x y Hx Hy. destruct (decide (i ∈ ex_id <$> es)) as [Hi|Hi]; [|by rewrite keyed_expenses_none in Hx].
    rewrite I1, elem_of_seqZ in Hi. by rewrite Hf in Hy by lia. }
  rewrite map_difference_union_distr_l, map_difference_diag, (right_id_L ∅ (∪)), (map_difference_disjoint _ _ Hdisj).
  apply rows_keyed_expenses. rewrite I1. apply NoDup_seqZ.
Qed.

Lemma dates_of_template t ts es tid : expenses_of_dates t ts es →
  filter (λ e, ex_template_id e = Some tid) es = if decide (et_id t = tid) then es else [].
Proof.
  intros [_ H]. induction H as [|e es (id & now & He) _ IH]; [by case_decide|]. rewrite filter_cons, IH, He. cbn [ex_template_id expense_of].
  repeat case_decide; naive_solver.
Qed.

(** The expenses of a template among those of all. *)
Lemma filter_templates now l ess tid : NoDup (et_id <$> l) →
  Forall2 (λ t es, expenses_of_dates t (template_dates now t).1 es) l ess →
  (∀ t, t ∈ l → et_id t = tid → incurred_at <$> filter (λ e, ex_template_id e = Some tid) (concat ess) = (template_dates now t).1) ∧
  (tid ∉ et_id <$> l → filter (λ e, ex_template_id e = Some tid) (concat ess) = []).
Proof.
  intros Hnd H. induction H as [|t es l ess Hm H IH]; [split; [by intros t ?%not_elem_of_nil|done]|].
  cbn [fmap list_fmap] in Hnd. apply NoDup_cons in Hnd as [Hnin Hnd]. destruct (IH Hnd) as [IH1 IH2]. cbn [concat].
  rewrite filter_app, (dates_of_template _ _ _ tid Hm). split.
  - intros t' [->|Ht']%elem_of_cons E.
    + rewrite decide_True, IH2, app_nil_r by (by subst). by destruct Hm.
    + rewrite decide_False; [by apply IH1|]. intros E'. apply Hnin. rewrite E', <-E. apply list_elem_of_fmap. eauto.
  - cbn [fmap list_fmap]. intros [Hne Hni]%not_elem_of_cons. rewrite decide_False by done. by apply IH2.
Qed.

Lemma expense_made_of now l ess e : Forall2 (λ t es, expenses_of_dates t (template_dates now t).1 es) l ess → e ∈ concat ess →
  ∃ t id stamp, t ∈ l ∧ e = expense_of t (roubles t) (incurred_at e) id stamp.
Proof.
  induction 1 as [|t es l ess [_ Hm] H IH]; cbn; [by intros ?%not_elem_of_nil|]. intros [He|He]%elem_of_app.
  - rewrite Forall_forall in Hm. destruct (Hm e He) as (id & stamp & E). exists t, id, stamp. split; [left|done].
  - destruct (IH He) as (t' & id & stamp & Ht' & E). exists t', id, stamp. split; [by right|done].
Qed.

(** ** The dates of a period *)

(** [y] is a number of calendar months after [x], on the same day of the month or the last one
    there is. *)
Definition months_later (k x y : Z) : Prop :=
  month_index y = month_index x + k ∧ day_of_month y = Z.min (day_of_month x) (month_length (month_index y)).

(** How far apart two dates of a period are. *)
Definition one_period (p : RecurringPeriodEnum) (x y : Z) : Prop :=
  match p with
  | weekly => y = x + 7 * day
  | monthly => months_later 1 x y
  | yearly => months_later 12 x y
  end.

(** The dates [l] of a template up to [now], at most sixty, and the date [next] after them: they
    begin with the date the template waits for, none is missed, and they follow each other by one
    period at the same time of day. *)
Definition consecutive_dates (now : Z) (t : RecurringExpenseTemplate) (l : list Z) (next : Z) : Prop :=
  head l = Some (et_next_run_at t) ∧ Forall (λ x, x ≤ now) l ∧ (length l ≤ 60)%nat ∧ (now < next ∨ length l = 60%nat) ∧
  ∀ j x y, l !! j = Some x → (l ++ [next]) !! S j = Some y → x < y ∧ one_period (et_period t) x y ∧ y mod day = x mod day.

Lemma advance_one_period p t t' : advance_period t p = Ok t' → t < t' ∧ one_period p t t' ∧ t' mod day = t mod day.
Proof.
  intros H. split; [by eapply advance_later|]. destruct p; cbn in H |- *; [|apply add_months_spec in H; unfold months_later; tauto..].
  unfold add_week in H. destruct (_ <=? _); [|done]. injection H as <-. split; [done|]. by rewrite Z.mod_add.
Qed.

Lemma advancing_lookup p l : ∀ t next j x y, advancing p t l next → l !! j = Some x → (l ++ [next]) !! S j = Some y → advance_period x p = Ok y.
Proof.
  induction l as [|a l IH]; intros t next j x y Ha; [done|]. destruct Ha as (-> & t' & Ht' & _ & Ha). destruct j as [|j]; cbn.
  - intros [= <-] Hy. destruct l as [|b l]; cbn in Hy, Ha; [by injection Hy as <-; rewrite <-Ha|].
    injection Hy as <-. by destruct Ha as [-> _].
  - by apply (IH t').
Qed.

Lemma occurrences_length now p guard : ∀ t, (length (occurrences guard now p t).1 ≤ guard)%nat.
Proof.
  induction guard as [|guard IH]; intros t; cbn; [lia|]. destruct (t <=? now); [|cbn; lia].
  destruct (advance_period t p) as [t'|]; [|cbn; lia]. specialize (IH t'). destruct (occurrences guard now p t'). cbn in *. lia.
Qed.

Lemma template_dates_consecutive now t :
  in_calendar now → template_due now t = true → bookable now t →
  consecutive_dates now t (template_dates now t).1 (template_dates now t).2.
Proof.
  intros Hnow Hdue [_ Ht]. pose proof (template_dates_due now t Hdue) as Hne.
  pose proof (occurrences_spec now (et_period t) Hnow MATERIALIZE_CATCHUP_LIMIT (et_next_run_at t) Ht) as H.
  pose proof (occurrences_length now (et_period t) MATERIALIZE_CATCHUP_LIMIT (et_next_run_at t)) as Hlen.
  unfold consecutive_dates. change 60%nat with MATERIALIZE_CATCHUP_LIMIT.
  revert H Hne Hlen. Transparent template_dates. unfold template_dates. generalize MATERIALIZE_CATCHUP_LIMIT as g. intros g.
  destruct (occurrences g now (et_period t) (et_next_run_at t)) as [l next]. cbn [fst snd]. intros (Ha & Hl & _ & He) Hne Hlen.
  split_and!; [| |done|done|].
  - destruct l as [|x l]; [done|]. by destruct Ha as [-> _].
  - eapply Forall_impl; [exact Hl|]. cbn. lia.
  - intros j x y Hx Hy. apply advance_one_period. by eapply advancing_lookup.
Qed.
#[local] Opaque template_dates.

(** What a tick leaves of a template, the dates it books and the row after it. *)
Definition after_tick (now : Z) (t : RecurringExpenseTemplate) (dates : list Z) (o : option RecurringExpenseTemplate) : Prop :=
  if template_due now t then
    ∃ l next stamp, consecutive_dates now t l next ∧ dates ≡ₚ l ∧ o = Some (set_next_run next (touch_expense_template stamp t))
  else dates = [] ∧ o = Some t.

(** C38: a tick of the recurring expenses, with rates where they are needed and within the
    calendar, returns and commits: for each due template it books one expense, at the amount
    converted to roubles, for every date from the one it waits for up to now, but at most sixty
    dates in one tick, and moves the template to the date after them; the dates follow each other
    by a week, a calendar month or a year (on the last day of a month that is too short) at the
    same time of day; nothing else changes. *)
Theorem expenses_booked s :
  keyed expense_templates_tbl (db s) → expense_ids_fresh s →
  let now := clock s (ticks s) in
  in_calendar now → (∀ i t, expense_templates (db s) !! i = Some t → template_due now t = true → bookable now t) →
  ∃ n s', materialize_tick s = (Ok n, s') ∧
    (∀ i t, expense_templates (db s) !! i = Some t → after_tick now t (booked (db s) (db s') i) (expense_templates (db s') !! i)) ∧
    (∀ i e, expenses (db s) !! i = Some e → expenses (db s') !! i = Some e) ∧
    (∀ e, e ∈ rows (expenses (db s') ∖ expenses (db s)) → ∃ i t id stamp,
      expense_templates (db s) !! i = Some t ∧ e = expense_of t (roubles t) (incurred_at e) id stamp) ∧
    n = Z.of_nat (length (rows (expenses (db s') ∖ expenses (db s)))) ∧
    db s' = set_expense_templates (expense_templates (db s')) (set_expenses (expenses (db s')) (db s)).
Proof.
  intros Hk Hf now Hnow Hbook. set (due := filter (λ t, template_due now t = true) (rows (expense_templates (db s)))).
  assert (Hdue : ∀ t, t ∈ due ↔ template_due now t = true ∧ expense_templates (db s) !! et_id t = Some t).
  { intros t. unfold due. rewrite list_elem_of_filter, elem_of_rows. split; [|naive_solver].
    intros [? [i Hi]]. split; [done|]. by rewrite (Hk i t Hi : et_id t = i). }
  assert (Hnd : NoDup (et_id <$> due)).
  { eapply sublist_NoDup; [exact (rows_ids_nodup expense_templates_tbl (db s) Hk)|]. apply fmap_sublist, sublist_filter. }
  destruct (materialize_all_run now Hnow due 0 (tick s)) as (ess & s' & Hrun & Ha & Hm & Hin & Hout & Hd).
  { intros t [Ht Hrow]%Hdue. split; [by eapply Hbook|done]. } { done. } { done. }
  assert (Htick : (now ← utcnow; n ← materialize_due_templates now; mret (n, negb (n =? 0))) s =
    (Ok (Z.of_nat (length (concat ess)), negb (Z.of_nat (length (concat ess)) =? 0)), s')).
  { unfold mbind at 1, M_bind at 1, utcnow. fold (tick s). fold now. unfold mbind at 1, M_bind at 1, materialize_due_templates.
    unfold mbind at 1, M_bind at 1, list_due_templates, select_where, read, gets. cbn [t_rows expense_templates_tbl db tick]. fold due.
    rewrite Hrun. done. }
  assert (Hnew : rows (expenses (db s') ∖ expenses (db s)) ≡ₚ concat ess) by (by apply (added_new (tick s) s')).
  unfold materialize_tick, run_committing. rewrite Htick. destruct (Z.eqb_spec (Z.of_nat (length (concat ess))) 0) as [E0|Hne]; cbn [negb].
  - (* nothing was due *)
    assert (due = []) as Hnil.
    { inversion Hm as [|t es l ess' Hm1 Hm2 E1 E2]; [done|]. exfalso. destruct (template_dates_due now t) as [].
      - by apply Hdue; rewrite <-E1; left.
      - destruct Hm1 as [<- _]. rewrite <-E2 in E0. cbn in E0. rewrite length_app in E0. destruct es; [done|cbn in E0; lia]. }
    eexists _, _. split; [reflexivity|]. cbn [db]. rewrite map_difference_diag. change (rows (∅ : gmap Z Expense)) with (@nil Expense).
    split_and!; [|done|by intros e ?%not_elem_of_nil|by rewrite E0|by destruct (db s)].
    intros i t Ht. unfold after_tick, booked. rewrite map_difference_diag. destruct (template_due now t) eqn:Et; [|done].
    assert (t ∈ due) as Hin' by (apply Hdue; split; [done|by rewrite (Hk i t Ht : et_id t = i)]). rewrite Hnil in Hin'. by apply not_elem_of_nil in Hin'.
  - eexists _, _. split; [reflexivity|]. split_and!.
    + intros i t Ht. pose proof (Hk i t Ht : et_id t = i) as Hid. unfold after_tick.
      assert (booked (db s) (db s') i ≡ₚ incurred_at <$> filter (λ e, ex_template_id e = Some i) (concat ess)) as Hbk by (unfold booked; by rewrite Hnew).
      destruct (filter_templates now due ess i Hnd Hm) as [H1 H2]. destruct (template_due now t) eqn:Et.
      * assert (t ∈ due) as Hin' by (apply Hdue; rewrite Hid; done). destruct (Hin t Hin') as [stamp Hst]. rewrite Hid in Hst.
        exists (template_dates now t).1, (template_dates now t).2, stamp. split; [|split; [by rewrite <-(H1 t Hin' Hid)|exact Hst]].
        apply template_dates_consecutive; [done|done|by eapply Hbook].
      * assert (i ∉ et_id <$> due) as Hni.
        { intros (t' & -> & [Ht' Hrow]%Hdue)%list_elem_of_fmap. congruence. }
        rewrite H2 in Hbk by done. split; [by apply Permutation_nil_r|]. by rewrite Hout.
    + intros i e He. destruct Ha as (-> & I1 & _). rewrite lookup_union_r; [done|]. apply keyed_expenses_none. rewrite I1, elem_of_seqZ.
      intros [Hi _]. by rewrite (Hf i Hi) in He.
    + intros e He. rewrite Hnew in He. destruct (expense_made_of _ _ _ _ Hm He) as (t & id & stamp & [_ Ht]%Hdue & E). eauto 10.
    + by rewrite Hnew.
    + exact Hd.
Qed.

(** * A year of expenses *)

Definition instant (y m d : Z) : Z := (ymd2ord y m d - epoch_ordinal) * day.

Definition hosting (id : Z) (currency : string) (fx : option Z) (run_at : Z) : RecurringExpenseTemplate :=
  {| et_id := id; et_name := "hosting"; et_kind := "infrastructure"; et_amount := 4000; et_currency := currency; et_fx_rate := fx;
     et_period := monthly; et_next_run_at := run_at; et_vendor := None; et_region := None; et_description := None;
     et_is_active := true; et_created_at := 0; et_updated_at := 0 |}.

Definition finance_session (m : gmap Z RecurringExpenseTemplate) (now : Z) : session :=
  session_on (set_expense_templates m empty_db) now 500.

Definition booked_of (s : session) : list (Z * Z * Z * Z) :=
  (λ e, (date_of (incurred_at e), ex_amount_rub e)) <$> rows (expenses (db s)).

(** Forty euros at 99.5 roubles, from January to the middle of March. *)
Example hosting_booked :
  let s := (materialize_tick (finance_session {[1 := hosting 1 "EUR" (Some 99500000) (instant 2026 1 15)]} (instant 2026 3 20))).2 in
  booked_of s ≡ₚ [(2026, 1, 15, 398000); (2026, 2, 15, 398000); (2026, 3, 15, 398000)] ∧
  (λ t, date_of (et_next_run_at t)) <$> rows (expense_templates (db s)) = [(2026, 4, 15)].
Proof. split; [apply (bool_decide_unpack _); vm_compute; exact I|vm_compute; reflexivity]. Qed.

Lemma expenses_booked_witness :
  let s := finance_session {[1 := hosting 1 "EUR" (Some 99500000) (instant 2026 1 15)]} (instant 2026 3 20) in
  ∃ n s', materialize_tick s = (Ok n, s') ∧ after_tick (instant 2026 3 20) (hosting 1 "EUR" (Some 99500000) (instant 2026 1 15))
    (booked (db s) (db s') 1) (expense_templates (db s') !! 1).
Proof.
  destruct (expenses_booked (finance_session {[1 := hosting 1 "EUR" (Some 99500000) (instant 2026 1 15)]} (instant 2026 3 20)))
    as (n & s' & Hrun & Hafter & _).
  - apply keyed_by_computation. vm_compute. reflexivity.
  - intros i _. apply lookup_empty.
  - vm_compute. split; [discriminate|reflexivity].
  - intros i t Ht _. cbn in Ht. apply lookup_singleton_Some in Ht as [<- <-]. split; [reflexivity|]. intros _. vm_compute. split; [discriminate|reflexivity].
  - exists n, s'. split; [exact Hrun|]. replace (instant 2026 3 20) with (clock (finance_session {[1 := hosting 1 "EUR" (Some 99500000) (instant 2026 1 15)]} (instant 2026 3 20)) 0) by (vm_compute; reflexivity).
    apply Hafter. reflexivity.
Defined.

(** The last day of a month is forgotten: after a shorter month the template stays on its day. *)
Theorem month_end_drifts :
  date_of <$> (template_dates (instant 2026 6 30) (hosting 1 "RUB" None (instant 2026 1 31))).1 =
  [(2026, 1, 31); (2026, 2, 28); (2026, 3, 28); (2026, 4, 28); (2026, 5, 28); (2026, 6, 28)].
Proof. vm_compute. reflexivity. Qed.

Definition to_euro : RecurringTemplateUpdateIn :=
  {| ru_name := None; ru_kind := None; ru_amount := None; ru_currency := Some (Some "eur"); ru_fx_rate := None; ru_period := None;
     ru_next_run_at := None; ru_vendor := None; ru_region := None; ru_description := None; ru_is_active := None |}.

(** An update is not checked for the rate: a template moved to another currency without one
    makes every tick raise, and no template is booked any more. *)
Theorem template_without_rate_stops_booking :
  let s := finance_session {[1 := hosting 1 "RUB" None (instant 2026 1 15); 2 := hosting 2 "RUB" None (instant 2026 1 15)]} (instant 2026 3 20) in
  let s1 := (run_request (update_expense_template 1 to_euro) s).2 in
  let r := materialize_tick s1 in
  et_currency <$> expense_templates (db s1) !! 1 = Some "EUR" ∧
  r.1 = Raise (ValueError "fx_rate is required and must be > 0 for non-RUB currency") ∧ expenses (db r.2) = ∅ ∧
  length (rows (expenses (db (materialize_tick s).2))) = 6%nat.
Proof. vm_compute. split_and!; reflexivity. Qed.

(** The summary adds up. *)
Theorem summary_adds_up date_from date_to s items total s' :
  expense_summary date_from date_to s = (Ok (items, total), s') →
  total = sum_rub (filter (λ e, _apply_filters date_from date_to None e = true) (rows (expenses (db s)))).
Proof.
  unfold expense_summary, summary_by_kind, mbind, M_bind, select_where, read, gets. cbn [mret M_ret t_rows expenses_tbl].
  set (l := filter _ (rows (expenses (db s)))). intros [= <- <- <-].
  assert (∀ ks, NoDup ks → foldr (λ i n, i.1.2 + n) 0 (kind_line l <$> ks) = sum_rub (filter (λ e, ex_kind e ∈ ks) l)) as H.
  { induction ks as [|k ks IH]; intros Hnd.
    - rewrite filter_empty; [done|]. intros e _. apply not_elem_of_nil.
    - apply NoDup_cons in Hnd as [Hk Hnd]. rewrite fmap_cons. cbn [foldr]. rewrite IH by done. clear IH. unfold kind_line. cbn [fst snd]. generalize l as l0. induction l0 as [|e l0 IHl]; [done|].
      assert (∀ x r, sum_rub (x :: r) = ex_amount_rub x + sum_rub r) as Hs by done. rewrite !filter_cons.
      destruct (decide (ex_kind e = k)) as [<-|Hne].
      + rewrite (decide_False (P := ex_kind e ∈ ks)), decide_True, !Hs by (done || left). lia.
      + destruct (decide (ex_kind e ∈ ks)) as [Hin|Hni].
        * rewrite decide_True, !Hs by (by right). lia.
        * rewrite decide_False; [exact IHl|]. intros [?|?]%elem_of_cons; done. }
  rewrite H by apply NoDup_remove_dups. f_equal. apply filter_all. apply Forall_forall. intros e He. apply elem_of_remove_dups, list_elem_of_fmap. eauto.
Qed.
