(* ===== verification/BotApi.v ===== *)
(** The API of the Telegram bot (services/bot_api/service.py, utils.py) over the services it
    composes, and the users service (services/users): who may do what, the state and the
    actions a user is shown, orders, devices, links and reminders. *)

From stdpp Require Import base gmap strings list pretty.
From S2P Require Import Prelude Decimal Errors RouteModels BillingModels FleetModels SupportModels Session Uuid NodeDisplay Routing Placements Routes AutoHeal PlacementProps PlacementRuns Tables FleetTables SupportTables Ledger Promo Referral Plans BillingRepo Billing Devices Support Broadcasts BillingInv BillingProps BillingRuns.
Local Open Scope Z_scope.

(** * Users *)

Record UserCreateIn := { uc_telegram_id : Z; uc_username : option string; uc_tag : option string; uc_description : option string }.

Definition create_user (has_notifications : bool) (data : UserCreateIn) (source : string) : SM User :=
  existing ← get_user_by_telegram_id (uc_telegram_id data);
  raise_if (bool_decide (is_Some existing)) 
    (UserAlreadyExists ("User with telegram_id=" +:+ pretty (uc_telegram_id data) +:+ " already exists")) ;;
  u ← create users_tbl (λ id now,
    {| user_id := id; telegram_id := uc_telegram_id data; username := uc_username data; balance := 0; user_tag := uc_tag data;
       user_description := uc_description data; terms_accepted := false; terms_accepted_at := None; referral_code := None;
       suppress_marketing := false; user_is_active := true; user_created_at := now; user_updated_at := now |});
  when has_notifications (emit (PublishUserRegistered (uc_telegram_id data) (uc_username data) source)) ;;
  mret u.

(** [UserUpdateIn]: fields that are unset, null or a value. *)
Record UserUpdateIn := {
  uu_username : option (option string);
  uu_balance : option (option Z);
  uu_is_active : option (option bool);
  uu_tag : option (option string);
  uu_description : option (option string);
  uu_terms_accepted : option (option bool);
  uu_terms_accepted_at : option (option Z);
}.

Definition value_of {A} (o : option (option A)) (x : A) : A := match o with Some (Some y) => y | _ => x end.
Definition nullable_of {A} (o : option (option A)) (x : option A) : option A := match o with Some y => y | None => x end.
Definition set_to_null {A} (o : option (option A)) : bool := match o with Some None => true | _ => false end.
Definition unset {A} (o : option (option A)) : bool := match o with None => true | _ => false end.

Definition patch_user (p : UserUpdateIn) (u : User) : User :=
  {| user_id := user_id u; telegram_id := telegram_id u; username := nullable_of (uu_username p) (username u);
     balance := value_of (uu_balance p) (balance u); user_tag := nullable_of (uu_tag p) (user_tag u);
     user_description := nullable_of (uu_description p) (user_description u);
     terms_accepted := value_of (uu_terms_accepted p) (terms_accepted u);
     terms_accepted_at := nullable_of (uu_terms_accepted_at p) (terms_accepted_at u); referral_code := referral_code u;
     suppress_marketing := suppress_marketing u; user_is_active := value_of (uu_is_active p) (user_is_active u);
     user_created_at := user_created_at u; user_updated_at := user_updated_at u |}.

Definition empty_update (p : UserUpdateIn) : bool :=
  unset (uu_username p) && unset (uu_balance p) && unset (uu_is_active p) && unset (uu_tag p) && unset (uu_description p) &&
  unset (uu_terms_accepted p) && unset (uu_terms_accepted_at p).

Definition user_row_or_error (uid : Z) : SM User :=
  o ← get_by_id users_tbl uid;
  match o with Some u => mret u | None => raise (UserNotFound ("User " +:+ str_uuid uid +:+ " not found")) end.

Definition user_out (o : option User) : SM User :=
  match o with Some u => mret u | None => raise (ValidationError "UserOut") end.

Definition update_user (uid : Z) (p : UserUpdateIn) : SM User :=
  u ← user_row_or_error uid;
  if empty_update p then mret u
  else
    raise_if (set_to_null (uu_balance p) || set_to_null (uu_is_active p) || set_to_null (uu_terms_accepted p)) (IntegrityError "not_null") ;;
    o ← update_by_id users_tbl uid (patch_user p);
    user_out o.

Definition deactivate_user (uid : Z) : SM User :=
  user_row_or_error uid ;;
  o ← update_by_id users_tbl uid (patch_user {| uu_username := None; uu_balance := None; uu_is_active := Some (Some false); uu_tag := None;
    uu_description := None; uu_terms_accepted := None; uu_terms_accepted_at := None |});
  user_out o.

Definition get_user_detail (uid : Z) : SM (User * nat * nat) :=
  u ← user_row_or_error uid;
  read (λ d, (u, length (filter (λ b, sub_user_id b = uid) (rows (subscriptions d))),
                 length (filter (λ k, key_user_id k = uid) (rows (vpn_keys d))))).

(** * The state a user is shown *)

Inductive BotDashboardState := NEW | NO_SUBSCRIPTION | PENDING_PAYMENT | ACTIVE | EXPIRING | EXPIRED_STATE | INACTIVE.
#[export] Instance BotDashboardState_eq_dec : EqDecision BotDashboardState.
Proof. solve_decision. Defined.

Inductive BotAction := CHOOSE_PLAN | OPEN_CONNECT | OPEN_DEVICES | OPEN_PAYMENT | ISSUE_LINK | RENEW | CHECK_PAYMENT | OPEN_HELP
| BUY_DEVICE_SLOTS.
#[export] Instance BotAction_eq_dec : EqDecision BotAction.
Proof. solve_decision. Defined.

Definition state_at (now : Z) (b : Subscription) : BotDashboardState :=
  if negb (sub_is_active b) then INACTIVE
  else match sub_expires_at b with
       | Some e => if e <=? now then EXPIRED_STATE else if e <=? now + 3 * day then EXPIRING else ACTIVE
       | None => ACTIVE
       end.

(** [_classify_subscription] reads the clock. *)
Definition _classify_subscription (b : Subscription) : SM BotDashboardState := now ← utcnow; mret (state_at now b).

Definition state_priority (st : BotDashboardState) : Z :=
  match st with ACTIVE => 4 | EXPIRING => 3 | EXPIRED_STATE => 2 | INACTIVE => 1 | _ => 0 end.

Definition sort_key (b : Subscription) : SM (Z * Z) := st ← _classify_subscription b; mret (state_priority st, sub_updated_at b).

Definition sort_key_lt (a b : Z * Z) : bool := (a.1 <? b.1) || ((a.1 =? b.1) && (a.2 <? b.2)).

(** [max(items, key=sort_key)]: the first of the largest; each key is computed once. *)
Fixpoint max_of (best : Subscription) (key : Z * Z) (l : list Subscription) : SM Subscription :=
  match l with
  | [] => mret best
  | b :: l => k ← sort_key b; if sort_key_lt key k then max_of b k l else max_of best key l
  end.

Definition _pick_current_subscription (l : list Subscription) : SM (option Subscription) :=
  match l with
  | [] => mret None
  | b :: l => k ← sort_key b; r ← max_of b k l; mret (Some r)
  end.

Definition _current_subscription (uid : Z) : SM (option Subscription) := l ← list_by_user_id uid false; _pick_current_subscription l.

Definition live_order (now : Z) (o : PaymentOrder) : bool :=
  bool_decide (order_status o = PENDING) && match order_expires_at o with Some e => negb (e <? now) | None => true end.

Definition _pick_pending_order (l : list PaymentOrder) : SM (option PaymentOrder) := now ← utcnow; mret (find (live_order now) l).

(** [x or y]. *)
Definition or_else {A} (x y : option A) : option A := match x with Some _ => x | None => y end.

Definition _latest_paid_at (l : list PaymentOrder) : option Z :=
  match find (λ o, bool_decide (order_status o = COMPLETED) || bool_decide (order_status o = PAID)) l with
  | Some o => or_else (completed_at o) (or_else (paid_at o) (Some (order_updated_at o)))
  | None => None
  end.

Definition _list_orders (uid : Z) : SM (list PaymentOrder) := r ← list_by_user uid 20 0; mret r.1.

(** The columns that are shown as they are, in [bs_row], and what is computed. *)
Record BotSubscriptionSummaryOut := {
  bs_row : Subscription;
  bs_plan_name : option string;
  bs_status : BotDashboardState;
  bs_device_count : Z;
  bs_device_limit : option Z;
  bs_included_devices : Z;
  bs_max_purchasable_slots : Z;
  bs_device_price_rub : Z;
  bs_device_price_stars : option Z;
  bs_can_renew : bool;
  bs_traffic_limit_bytes : option Z;
  bs_last_payment_at : option Z;
}.

(** [SubscriptionService.list_devices]. *)
Definition list_sub_devices (sid : Z) (active_only : bool) : SM (list SubscriptionDevice) :=
  get_sub sid ;; list_devices_by_subscription sid active_only.

Definition _build_subscription_summary (uid : Z) (orders : list PaymentOrder) : SM (option BotSubscriptionSummaryOut) :=
  o ← _current_subscription uid;
  match o with
  | None => mret None
  | Some b =>
      plan ← get_plan_opt (sub_plan_id b);
      devices ← list_sub_devices (sub_id b) true;
      st ← _classify_subscription b;
      mret (Some
        {| bs_row := b; bs_plan_name := plan_name <$> plan; bs_status := st; bs_device_count := Z.of_nat (length devices);
           bs_device_limit := match plan with Some p => Some (included_devices p + paid_device_slots b) | None => sub_max_devices b end;
           bs_included_devices := from_option included_devices 1 plan;
           bs_max_purchasable_slots := Z.max (from_option (λ p, plan_max_devices p - included_devices p - paid_device_slots b) 0 plan) 0;
           bs_device_price_rub := from_option device_price_rub 0 plan; bs_device_price_stars := plan ≫= device_price_stars;
           bs_can_renew := from_option (λ p, 0 <? price_rub p) false plan; bs_traffic_limit_bytes := traffic_limit_bytes <$> plan;
           bs_last_payment_at := _latest_paid_at orders |})
  end.

Definition _available_actions (st : BotDashboardState) (sub : option BotSubscriptionSummaryOut) (pending : option PaymentOrder)
  : list BotAction :=
  match st with
  | NEW | NO_SUBSCRIPTION => [OPEN_HELP; CHOOSE_PLAN; OPEN_PAYMENT]
  | _ =>
      if bool_decide (is_Some pending) && bool_decide (st = PENDING_PAYMENT) then [OPEN_HELP; CHECK_PAYMENT; OPEN_PAYMENT]
      else match sub with
           | None => [OPEN_HELP]
           | Some b =>
               match st with
               | ACTIVE | EXPIRING => [OPEN_HELP; OPEN_CONNECT; OPEN_DEVICES; ISSUE_LINK; RENEW] ++
                                      (if 0 <? bs_max_purchasable_slots b then [BUY_DEVICE_SLOTS] else [])
               | _ => [OPEN_HELP; RENEW; OPEN_PAYMENT]
               end
           end
  end.

(** ** Stars *)

(** [TOP_UP_STARS_RUB_RATE] is 1.8: 180 kopecks. *)
Definition top_up_amount_stars (amount_rub : Z) : Z :=
  let q := dec28 {| num := amount_rub; den := 180 |} in round_half_up (num q) (den q).

Definition calculate_plan_order_amount_stars (p : Plan) (extra_devices : Z) : option Z :=
  match price_stars p with
  | None => None
  | Some total => Some (match device_price_stars p with
                        | Some d => if (0 <? extra_devices) && negb (d =? 0) then total + d * extra_devices else total
                        | None => total
                        end)
  end.

Definition _resolve_order_amount_stars (o : PaymentOrder) : SM (option Z) :=
  if negb (bool_decide (order_provider o = STARS)) then mret None
  else match order_type o with
       | TOP_UP => mret (Some (top_up_amount_stars (order_amount_rub o)))
       | DEVICE_SLOTS =>
           b ← match order_subscription_id o with Some sid => get_by_id subs_tbl sid | None => mret None end;
           plan ← match b ≫= sub_plan_id with Some pid => get_by_id plans_tbl pid | None => mret None end;
           mret (match plan ≫= device_price_stars with
                 | Some d => if d =? 0 then None else Some (d * Z.max (device_slots_qty o) 1)
                 | None => None
                 end)
       | _ =>
           plan ← get_plan_opt (order_plan_id o);
           mret (plan ≫= λ p, calculate_plan_order_amount_stars p (device_slots_qty o))
       end.

(** [BotOrderOut]: the order and its amount in Stars. *)
Definition BotOrderOut : Type := PaymentOrder * option Z.
Definition _to_bot_order (o : PaymentOrder) : SM BotOrderOut := n ← _resolve_order_amount_stars o; mret (o, n).

(** ** The status of the service *)

(** [AdminStatusService._normalized_node_role] with the default ["backend"]. *)
Definition _normalized_node_role (n : VpnNode) : string :=
  let normalized := lower (py_strip (node_role n)) in
  if nonempty normalized then normalized else "backend".

Definition _is_recent_healthy (stale now : Z) (a : option NodeAgentState) : bool :=
  match a with
  | Some a => is_healthy a && match last_seen_at a with Some t => now - stale * second <=? t | None => false end
  | None => false
  end.

Record AdminReadinessCheckOut := {
  rc_name : string;
  rc_ok : bool;
  rc_detail : string;
}.

(** The backends that count as healthy, and their regions, sorted. *)
Definition healthy_backend (stale now : Z) (x : VpnNode * option NodeAgentState) : bool :=
  String.eqb (_normalized_node_role x.1) "backend" && node_is_active x.1 && is_enabled x.1 && negb (is_draining x.1) &&
  _is_recent_healthy stale now x.2.

Definition region_detail (healthy missing : list string) : string :=
  if bool_decide (healthy ≠ [] ∧ missing = []) then "regions covered: " +:+ String.concat ", " healthy
  else if bool_decide (healthy = []) then "no healthy node regions"
  else "missing route coverage for regions: " +:+ String.concat ", " missing.

(** [AdminStatusService.get_readiness]: whether all checks hold, and the checks. *)
Definition get_readiness : SM (bool * list AdminReadinessCheckOut) :=
  policy ← node_policy;
  let stale := Z.max 30 (stale_after_sec policy) in
  node_rows ← list_active_with_agent_state;
  active_artifact ← get_active_artifact;
  seen ← utcnow;
  let node_seen_after := seen - stale * second in
  resolved_routes ← count_resolved_active (Some node_seen_after);
  by_region ← count_resolved_active_by_region (Some node_seen_after);
  now ← utcnow;
  let healthy := filter (λ x, healthy_backend stale now x = true) node_rows in
  let healthy_regions := order_by_name id (remove_dups ((λ x, node_region x.1) <$> healthy)) in
  let missing_regions := filter (λ r, by_region !! r = None) healthy_regions in
  let checks :=
    [{| rc_name := "active_profiles_artifact"; rc_ok := bool_decide (is_Some active_artifact);
        rc_detail := if active_artifact then "active artifact found" else "no active artifact" |};
     {| rc_name := "healthy_nodes"; rc_ok := (0 <? length healthy)%nat;
        rc_detail := "healthy nodes: " +:+ pretty (Z.of_nat (length healthy)) |};
     {| rc_name := "resolvable_active_routes"; rc_ok := 0 <? resolved_routes;
        rc_detail := "resolved active routes: " +:+ pretty resolved_routes |};
     {| rc_name := "healthy_regions_route_coverage"; rc_ok := bool_decide (healthy_regions ≠ [] ∧ missing_regions = []);
        rc_detail := region_detail healthy_regions missing_regions |}] in
  utcnow ;;
  mret (forallb rc_ok checks, checks).

Inductive BotServiceHealth := SERVICE_OK | SERVICE_DEGRADED.
Record BotServiceStatusOut := { service_health : BotServiceHealth; service_message : string }.

Definition _build_service_status : SM BotServiceStatusOut :=
  readiness ← get_readiness;
  if readiness.1 : bool then mret {| service_health := SERVICE_OK; service_message := "Сервис работает стабильно." |}
  else mret {| service_health := SERVICE_DEGRADED;
               service_message := match filter (λ c, rc_ok c = false) readiness.2 with
                                  | c :: _ => rc_detail c
                                  | [] => "Есть временная деградация сервиса."
                                  end |}.

Record BotSessionOut := {
  so_user : User;
  so_state : BotDashboardState;
  so_is_new_user : bool;
  so_subscription : option BotSubscriptionSummaryOut;
  so_pending_order : option BotOrderOut;
  so_service : BotServiceStatusOut;
  so_available_actions : list BotAction;
}.

Definition dashboard_state (sub : option BotSubscriptionSummaryOut) (pending : option PaymentOrder) (is_new_user : bool) : BotDashboardState :=
  match sub, pending with
  | Some b, _ => bs_status b
  | None, Some _ => PENDING_PAYMENT
  | None, None => if is_new_user then NEW else NO_SUBSCRIPTION
  end.

Definition _build_session (u : User) (is_new_user : bool) (forced_pending : option PaymentOrder) : SM BotSessionOut :=
  orders ← _list_orders (user_id u);
  pending ← match forced_pending with Some o => mret (Some o) | None => _pick_pending_order orders end;
  sub ← _build_subscription_summary (user_id u) orders;
  service ← _build_service_status;
  let st := dashboard_state sub pending is_new_user in
  shown ← match pending with Some o => b ← _to_bot_order o; mret (Some b) | None => mret None end;
  mret {| so_user := u; so_state := st; so_is_new_user := is_new_user; so_subscription := sub; so_pending_order := shown;
          so_service := service;
          so_available_actions := if terms_accepted u then _available_actions st sub pending else [] |}.

Definition _build_order_action (u : User) (o : PaymentOrder) (prefer_pending : bool) : SM (BotOrderOut * BotSessionOut) :=
  session ← _build_session u false (if prefer_pending && bool_decide (order_status o = PENDING) then Some o else None);
  b ← _to_bot_order o;
  mret (b, session).

(** * Who asks *)

Definition _require_user_by_telegram_id (tg : Z) : SM User :=
  o ← get_user_by_telegram_id tg;
  match o with
  | None => raise (HTTPException 404 "User not found")
  | Some u => raise_if (negb (terms_accepted u)) (HTTPException 403 "Terms not accepted") ;; mret u
  end.

Record BotSessionSyncIn := { bsi_telegram_id : Z; bsi_username : option string; bsi_first_name : option string; bsi_last_name : option string }.

(** [payload.first_name or None], and the names that are set, joined. *)
Definition set_text (o : option string) : option string := match o with Some s => if nonempty s then Some s else None | None => None end.
Definition full_name (p : BotSessionSyncIn) : option string :=
  match set_text (bsi_first_name p), set_text (bsi_last_name p) with
  | Some f, Some l => Some (f +:+ " " +:+ l)
  | Some f, None => Some f
  | None, l => l
  end.

Definition changed_col (old new : option string) : option (option string) := if bool_decide (old = new) then None else Some new.

Definition _ensure_user (has_notifications : bool) (p : BotSessionSyncIn) : SM (User * bool) :=
  existing ← get_user_by_telegram_id (bsi_telegram_id p);
  match existing with
  | None =>
      u ← create_user has_notifications {| uc_telegram_id := bsi_telegram_id p; uc_username := bsi_username p;
            uc_tag := set_text (bsi_first_name p); uc_description := full_name p |} "bot";
      mret (u, true)
  | Some u =>
      let patch := {| uu_username := changed_col (username u) (bsi_username p); uu_balance := None; uu_is_active := None;
                      uu_tag := changed_col (user_tag u) (set_text (bsi_first_name p));
                      uu_description := changed_col (user_description u) (full_name p); uu_terms_accepted := None;
                      uu_terms_accepted_at := None |} in
      if empty_update patch then mret (u, false) else u' ← update_user (user_id u) patch; mret (u', false)
  end.

Definition sync_session (has_notifications : bool) (p : BotSessionSyncIn) : SM BotSessionOut :=
  r ← _ensure_user has_notifications p; _build_session r.1 r.2 None.

Definition accept_terms (has_notifications : bool) (p : BotSessionSyncIn) : SM BotSessionOut :=
  r ← _ensure_user has_notifications p;
  u ← (if terms_accepted r.1 then mret r.1
       else now ← utcnow;
            update_user (user_id r.1) {| uu_username := None; uu_balance := None; uu_is_active := None; uu_tag := None;
              uu_description := None; uu_terms_accepted := Some (Some true); uu_terms_accepted_at := Some (Some now) |});
  _build_session u r.2 None.

(** * Requests *)

(** [settings.migration], which gateways are configured, the generator of referral codes. *)
Record BotEnv := {
  migration_enabled : bool;
  gift_plan_name : string;
  gateway_available : PaymentProviderEnum → bool;
  code_of : Z → string;
  fallback_code : Z → string;
}.

(** [except ... raise HTTPException(...)]. *)
Definition rethrow {A} (f : exn → option exn) (m : SM A) : SM A :=
  catch m (λ e, raise (default e (f e))).

Definition map_provider_error_to_http_status (upstream : option Z) : Z :=
  match upstream with Some u => if (400 <=? u) && (u <? 500) then 422 else 502 | None => 502 end.

Definition promo_http (e : exn) : option exn :=
  match e with
  | PromoInvalid m | PromoNotEligible m => Some (HTTPException 422 m)
  | PromoExhausted m => Some (HTTPException 409 m)
  | _ => None
  end.

Definition provider_http (e : exn) : option exn :=
  match e with ProviderError m u => Some (HTTPException (map_provider_error_to_http_status u) m) | _ => None end.

Definition balance_http (e : exn) : option exn := match e with InsufficientBalance m => Some (HTTPException 409 m) | _ => None end.
Definition not_purchasable_http (e : exn) : option exn := match e with PlanNotPurchasable m => Some (HTTPException 422 m) | _ => None end.

Definition trial_http (used unavailable : string) (e : exn) : option exn :=
  match e with
  | TrialAlreadyUsed _ => Some (HTTPException 409 used)
  | TrialUnavailable _ => Some (HTTPException 409 unavailable)
  | _ => None
  end.

Definition create_http (e : exn) : option exn :=
  or_else (promo_http e) (or_else (trial_http "Trial already used" "Trial unavailable" e)
    (or_else (balance_http e) (or_else (not_purchasable_http e) (provider_http e)))).
Definition renew_http (e : exn) : option exn := or_else (promo_http e) (or_else (balance_http e) (provider_http e)).
Definition slots_http (e : exn) : option exn := or_else (balance_http e) (provider_http e).
Definition gift_http (e : exn) : option exn :=
  match e with
  | TrialAlreadyUsed _ => Some (HTTPException 409 "Gift already claimed")
  | TrialUnavailable m => Some (HTTPException 409 m)
  | _ => not_purchasable_http e
  end.

Definition order_request (uid : Z) (pid : option Z) (amount : option rat) (provider : PaymentProviderEnum) (ty : OrderTypeEnum) (qty m : Z)
    (sid method : option Z) (promo : option string) : OrderCreateIn :=
  {| oci_user_id := uid; oci_plan_id := pid; oci_amount_rub := amount; oci_provider := provider; oci_order_type := ty;
     oci_device_slots_qty := qty; oci_period_months := m; oci_subscription_id := sid; oci_payment_method := method; oci_promo_code := promo |}.

Record BotPlanOut := { bp_plan : Plan; bp_is_current : bool }.

Section Requests.
Context {Req : Type} (activate : Z → SM Z) (env : BillingEnv Req) (cfg : SubscriptionConfig) (bot : BotEnv).

(** [OrderCreateIn(...)] validates, then the service is called. *)
Definition place_order (http : exn → option exn) (data : OrderCreateIn) : SM PaymentOrder :=
rethrow http (raise_if (negb (OrderCreateIn_valid data)) (ValidationError "OrderCreateIn") ;; create_order activate env data).

(** The plans a user is offered: a free one is hidden once it was used, and all of them from
    who has a live subscription or has paid. *)
Fixpoint offered (uid : Z) (hide_free : bool) (l : list Plan) : SM (list Plan * list Z) :=
match l with
| [] => mret ([], [])
| p :: l =>
    if price_rub p <=? 0 then
      used ← has_completed_order_for_plan uid (plan_id p);
      r ← offered uid hide_free l;
      mret (if used || hide_free then r.1 else p :: r.1, if used : bool then plan_id p :: r.2 else r.2)
    else r ← offered uid hide_free l; mret (p :: r.1, r.2)
end.

Definition list_bot_plans (tg : option Z) : SM (list BotPlanOut * option Z * list Z) :=
user ← match tg with Some tg => get_user_by_telegram_id tg | None => mret None end;
b ← match user with Some u => _current_subscription (user_id u) | None => mret None end;
live ← match b with
       | Some b => if sub_is_active b then match sub_expires_at b with Some e => now ← utcnow; mret (now <? e) | None => mret true end
                   else mret false
       | None => mret false
       end;
rows ← list_all true;
let hidden := if migration_enabled bot then gift_plan_name bot else "" in
let rows := if nonempty hidden then filter (λ p, plan_name p ≠ hidden) rows.1 else rows.1 in
r ← match user with
    | Some u => hide ← (if live : bool then mret true else has_completed_paid_order (user_id u)); offered (user_id u) hide rows
    | None => mret (rows, [])
    end;
mret ((λ p, {| bp_plan := p; bp_is_current := bool_decide (b ≫= sub_plan_id = Some (plan_id p)) |}) <$> r.1, b ≫= sub_plan_id, r.2).

Record BotOrderCreateIn := {
bo_plan_id : Z;
bo_provider : PaymentProviderEnum;
bo_extra_devices : Z;
bo_period_months : Z;
bo_payment_method : option Z;
bo_promo_code : option string;
}.

(** The fields of the schemas: [ge=0], [ge=1], and the method Platega needs. *)
Definition provider_requirements (p : PaymentProviderEnum) (method : option Z) : bool :=
negb (bool_decide (p = PLATEGA) && bool_decide (method = None)).

Definition create_bot_order (tg : Z) (p : BotOrderCreateIn) : SM (BotOrderOut * BotSessionOut) :=
raise_if (negb ((0 <=? bo_extra_devices p) && (1 <=? bo_period_months p) && provider_requirements (bo_provider p) (bo_payment_method p)))
  (ValidationError "BotOrderCreateIn") ;;
u ← _require_user_by_telegram_id tg;
o ← place_order create_http (order_request (user_id u) (Some (bo_plan_id p)) None (bo_provider p) PLAN_PURCHASE (bo_extra_devices p)
      (bo_period_months p) None (bo_payment_method p) (bo_promo_code p));
_build_order_action u o true.

Definition claim_migration_gift (tg : Z) : SM (BotOrderOut * BotSessionOut) :=
raise_if (negb (migration_enabled bot) || negb (nonempty (gift_plan_name bot))) (HTTPException 404 "Migration gift is unavailable") ;;
u ← _require_user_by_telegram_id tg;
plan ← get_by_name (gift_plan_name bot);
match plan with
| Some p =>
    raise_if (negb (plan_is_active p) || (0 <? price_rub p)) (HTTPException 404 "Migration gift plan not found") ;;
    o ← place_order gift_http (order_request (user_id u) (Some (plan_id p)) None FREE PLAN_PURCHASE 0 1 None None None);
    _build_order_action u o true
| None => raise (HTTPException 404 "Migration gift plan not found")
end.

(** The order of the user who asks. *)
Definition own_order (tg oid : Z) : SM (User * PaymentOrder) :=
u ← _require_user_by_telegram_id tg;
o ← get_order oid;
raise_if (negb (order_user_id o =? user_id u)) (HTTPException 404 "Order not found") ;;
mret (u, o).

Definition get_bot_order (tg oid : Z) : SM (BotOrderOut * BotSessionOut) := r ← own_order tg oid; _build_order_action r.1 r.2 true.

Definition update_bot_order (tg oid : Z) (chat_id message_id_ : option Z) : SM unit :=
raise_if (match message_id_ with Some m => m <? 1 | None => false end) (ValidationError "telegram_message_id") ;;
r ← own_order tg oid;
update_order_metadata (order_id r.2) chat_id message_id_.

Definition confirm_bot_stars (tg oid : Z) (charge_id : string) (total_amount : Z) : SM (BotOrderOut * BotSessionOut) :=
raise_if (total_amount <? 1) (ValidationError "total_amount") ;;
r ← own_order tg oid;
confirm_stars_payment activate env oid charge_id total_amount ;;
o ← get_order oid;
_build_order_action r.1 o false.

(** The current subscription of the user who asks, or 404. *)
Definition own_subscription (tg : Z) (detail : string) : SM (User * Subscription) :=
u ← _require_user_by_telegram_id tg;
b ← _current_subscription (user_id u);
match b with Some b => mret (u, b) | None => raise (HTTPException 404 detail) end.

(** [PAYMENT_PROVIDER_PRIORITY]. *)
Definition build_available_payment_providers (user_balance price : Z) (stars : option Z) : list PaymentProviderEnum :=
filter (λ p, gateway_available bot p = true) [FREEKASSA; PLATEGA; CRYPTO] ++
(if price <=? user_balance then [BALANCE] else []) ++
match stars with Some n => if n =? 0 then [] else [STARS] | None => [] end.

Record BotRenewOfferOut := {
ro_subscription_id : Z;
ro_plan : Plan;
ro_status : BotDashboardState;
ro_current_expires_at : option Z;
ro_renewed_expires_at : Z;
ro_providers : list PaymentProviderEnum;
ro_is_reactivation : bool;
}.

Definition renewable (st : BotDashboardState) : bool :=
match st with ACTIVE | EXPIRING | EXPIRED_STATE | INACTIVE => true | _ => false end.

(** The subscription of a plan that can be renewed, its state and its plan. *)
Definition renew_target (tg : Z) : SM (User * Subscription * BotDashboardState * Plan) :=
r ← own_subscription tg "Subscription not found";
match sub_plan_id r.2 with
| None => raise (HTTPException 404 "Subscription not found")
| Some pid =>
    st ← _classify_subscription r.2;
    raise_if (negb (renewable st)) (HTTPException 409 "Subscription cannot be renewed") ;;
    plan ← get_by_id plans_tbl pid;
    match plan with
    | None => raise (HTTPException 404 "Plan not found")
    | Some p => mret (r.1, r.2, st, p)
    end
end.

Definition get_renew_offer (tg : Z) : SM BotRenewOfferOut :=
r ← renew_target tg;
let '(u, b, st, p) := r in
now ← utcnow;
let base := match sub_expires_at b with Some e => if now <? e then e else now | None => now end in
mret {| ro_subscription_id := sub_id b; ro_plan := p; ro_status := st; ro_current_expires_at := sub_expires_at b;
        ro_renewed_expires_at := base + duration_days p * day;
        ro_providers := build_available_payment_providers (balance u) (price_rub p) (price_stars p);
        ro_is_reactivation := bool_decide (st = EXPIRED_STATE) || bool_decide (st = INACTIVE) |}.

Record BotRenewOrderIn := {
rn_provider : PaymentProviderEnum;
rn_period_months : Z;
rn_payment_method : option Z;
rn_promo_code : option string;
}.

Definition create_renew_order (tg : Z) (p : BotRenewOrderIn) : SM (BotOrderOut * BotSessionOut) :=
raise_if (negb ((1 <=? rn_period_months p) && provider_requirements (rn_provider p) (rn_payment_method p))) (ValidationError "BotRenewOrderIn") ;;
r ← renew_target tg;
let '(u, b, _, plan) := r in
raise_if (bool_decide (rn_provider p = STARS) &&
          match _resolve_period_price_stars plan (rn_period_months p) with Some n => n =? 0 | None => true end)
  (HTTPException 400 "Stars not available for current plan") ;;
o ← place_order renew_http (order_request (user_id u) (sub_plan_id b) None (rn_provider p) SUBSCRIPTION_RENEWAL 0 (rn_period_months p)
      (Some (sub_id b)) (rn_payment_method p) (if bool_decide (rn_provider p = STARS) then None else rn_promo_code p));
_build_order_action u o true.

Definition create_top_up_order (tg : Z) (amount : rat) (provider : PaymentProviderEnum) (method : option Z) : SM (BotOrderOut * BotSessionOut) :=
raise_if (negb (amount_in_range amount && provider_requirements provider method)) (ValidationError "BotTopUpCreateIn") ;;
u ← _require_user_by_telegram_id tg;
o ← place_order provider_http (order_request (user_id u) None (Some amount) provider TOP_UP 0 1 None method None);
_build_order_action u o true.

Definition purchase_device_slots (tg qty : Z) (provider : PaymentProviderEnum) (method : option Z) : SM (BotOrderOut * BotSessionOut) :=
raise_if (negb ((1 <=? qty) && provider_requirements provider method)) (ValidationError "BotDeviceSlotPurchaseIn") ;;
r ← own_subscription tg "Active subscription not found";
o ← place_order slots_http (order_request (user_id r.1) None None provider DEVICE_SLOTS qty 1 (Some (sub_id r.2)) method None);
_build_order_action r.1 o true.

(** The order's amount before it is placed, with the plan it replaces. *)
Definition get_order_preview (tg pid m : Z) : SM (OrderPreviewOut * option string * option Z) :=
u ← _require_user_by_telegram_id tg;
preview ← rethrow not_purchasable_http (preview_order_amount (user_id u) pid m);
b ← _current_subscription (user_id u);
match b with
| Some b => match sub_plan_id b with
            | Some cur => plan ← get_by_id plans_tbl cur; mret (preview, plan_name <$> plan, sub_expires_at b)
            | None => mret (preview, None, None)
            end
| None => mret (preview, None, None)
end.

Definition validate_promo (tg pid m : Z) (code : string) (ty : OrderTypeEnum) : SM PromoQuoteOut :=
u ← _require_user_by_telegram_id tg;
preview ← rethrow not_purchasable_http (preview_order_amount (user_id u) pid m);
rethrow promo_http (validate_and_quote code (user_id u) (Some pid) ty (opo_amount_due preview)).

Definition register_promo_click (tg bid : Z) : SM (option string * bool) :=
u ← _require_user_by_telegram_id tg;
o ← get_by_id broadcasts_tbl bid;
match o with
| None => raise (HTTPException 404 "Broadcast not found")
| Some br =>
    now ← utcnow;
    newly ← register_click bid (user_id u) now;
    when newly (increment_clicks bid) ;;
    promo ← match br_promo_code_id (br_content br) with Some pid => get_by_id promos_tbl pid | None => mret None end;
    mret (promo_code <$> promo, from_option promo_is_active false promo)
end.

(** ** Devices and links *)

Definition list_bot_devices (tg : Z) : SM (BotSessionOut * list SubscriptionDevice) :=
u ← _require_user_by_telegram_id tg;
session ← _build_session u false None;
match so_subscription session with
| None => mret (session, [])
| Some b => l ← list_sub_devices (sub_id (bs_row b)) true; mret (session, l)
end.

Definition revoke_bot_device (tg did : Z) : SM (BotSessionOut * list SubscriptionDevice) :=
r ← own_subscription tg "Subscription not found";
revoke_device cfg (sub_id r.2) did ;;
list_bot_devices tg.

(** [SubscriptionService.rotate_token] with its default grace. *)
Definition issue_subscription_link (tg : Z) : SM (string * BotSessionOut) :=
r ← own_subscription tg "Subscription not found";
st ← _classify_subscription r.2;
raise_if (negb (bool_decide (st = ACTIVE) || bool_decide (st = EXPIRING))) (HTTPException 409 "Subscription is not active") ;;
url ← match set_text (sub_token r.2) with
      | Some t => mret (public_base_url cfg +:+ t)
      | None => x ← rotate_token cfg (sub_id r.2) 3600; mret x.2
      end;
session ← _build_session r.1 false None;
mret (url, session).

(** ** Settings *)

Definition with_flags (renew : bool) (threshold : Z) (b : Subscription) : Subscription :=
{| sub_id := sub_id b; sub_user_id := sub_user_id b; sub_plan_id := sub_plan_id b; sub_token := sub_token b;
   sub_token_hash := sub_token_hash b; prev_token_hash := prev_token_hash b; prev_token_expires_at := prev_token_expires_at b;
   sub_expires_at := sub_expires_at b; sub_profile_key := sub_profile_key b; preferred_region := preferred_region b;
   root_vpn_key_id := root_vpn_key_id b; hwid_enabled := hwid_enabled b; sub_max_devices := sub_max_devices b;
   paid_device_slots := paid_device_slots b; sub_period_months := sub_period_months b;
   sub_used_traffic_bytes := sub_used_traffic_bytes b; lifetime_used_traffic_bytes := lifetime_used_traffic_bytes b;
   last_traffic_reset_at := last_traffic_reset_at b; first_connected_at := first_connected_at b; auto_renew := renew;
   traffic_warning_threshold_pct := threshold; sub_is_active := sub_is_active b; sub_created_at := sub_created_at b;
   sub_updated_at := sub_updated_at b |}.

Definition set_auto_renew (tg : Z) (enabled : bool) : SM (bool * bool) :=
u ← get_user_by_telegram_id tg;
match u with
| None => mret (false, false)
| Some u =>
    b ← _current_subscription (user_id u);
    match b with
    | None => mret (false, false)
    | Some b => update_by_id subs_tbl (sub_id b) (λ b, with_flags enabled (traffic_warning_threshold_pct b) b) ;; mret (true, enabled)
    end
end.

Definition set_suppress (suppress : bool) (u : User) : User :=
{| user_id := user_id u; telegram_id := telegram_id u; username := username u; balance := balance u; user_tag := user_tag u;
   user_description := user_description u; terms_accepted := terms_accepted u; terms_accepted_at := terms_accepted_at u;
   referral_code := referral_code u; suppress_marketing := suppress; user_is_active := user_is_active u;
   user_created_at := user_created_at u; user_updated_at := user_updated_at u |}.

Definition set_marketing (tg : Z) (suppress : bool) : SM (bool * bool) :=
u ← get_user_by_telegram_id tg;
match u with
| None => mret (false, false)
| Some u => update_by_id users_tbl (user_id u) (set_suppress suppress) ;; mret (true, suppress)
end.

Definition mark_traffic_warning (tg sid threshold : Z) : SM unit :=
u ← _require_user_by_telegram_id tg;
b ← get_by_id subs_tbl sid;
match b with
| Some b =>
    raise_if (negb (sub_user_id b =? user_id u)) (HTTPException 404 "Subscription not found") ;;
    when (traffic_warning_threshold_pct b <? threshold)
      (update_by_id subs_tbl sid (λ b, with_flags (auto_renew b) threshold b) ;; mret tt)
| None => raise (HTTPException 404 "Subscription not found")
end.

(** The UPDATE joined with the pairs: the first pair that raises the mark, for each row. *)
Definition raised_mark (pairs : list (Z * Z)) (b : Subscription) : option Z :=
snd <$> find (λ p, (p.1 =? sub_id b) && (traffic_warning_threshold_pct b <? p.2)) pairs.

Definition bulk_mark_traffic_warnings (pairs : list (Z * Z)) : SM Z :=
match pairs with
| [] => mret 0
| _ =>
    l ← select_where subs_tbl (λ b, bool_decide (is_Some (raised_mark pairs b)));
    write (λ d, set_subscriptions ((λ b, match raised_mark pairs b with Some t => with_flags (auto_renew b) t b | None => b end) <$>
                                   subscriptions d) d) ;;
    mret (Z.of_nat (length l))
end.

(** [traffic_check_by_telegram_ids]: for each user the subscription that expires last. *)
Record BotSubscriptionTrafficItem := {
ti_telegram_id : Z;
ti_subscription_id : option Z;
ti_expires_at : option Z;
ti_traffic_limit_bytes : Z;
ti_used_traffic_bytes : Z;
ti_threshold_pct : Z;
}.

Fixpoint traffic_rows (us : list User) : SM (list BotSubscriptionTrafficItem) :=
match us with
| [] => mret []
| u :: us =>
    b ← get_latest_for_user (user_id u);
    plan ← get_plan_opt (b ≫= sub_plan_id);
    l ← traffic_rows us;
    mret ({| ti_telegram_id := telegram_id u; ti_subscription_id := sub_id <$> b; ti_expires_at := b ≫= sub_expires_at;
             ti_traffic_limit_bytes := from_option traffic_limit_bytes 0 plan;
             ti_used_traffic_bytes := from_option sub_used_traffic_bytes 0 b;
             ti_threshold_pct := from_option traffic_warning_threshold_pct 0 b |} :: l)
end.

Definition traffic_check_by_telegram_ids (tids : list Z) : SM (list BotSubscriptionTrafficItem) :=
us ← select_where users_tbl (λ u, bool_decide (telegram_id u ∈ tids));
traffic_rows us.

(** The dictionary keeps the last of equal keys; an id without a row gets zeros. *)
Definition list_subscriptions_traffic (tids : list Z) : SM (list BotSubscriptionTrafficItem) :=
l ← traffic_check_by_telegram_ids tids;
mret ((λ tid, default {| ti_telegram_id := tid; ti_subscription_id := None; ti_expires_at := None; ti_traffic_limit_bytes := 0;
                         ti_used_traffic_bytes := 0; ti_threshold_pct := 0 |}
                (find (λ i, ti_telegram_id i =? tid) (reverse l))) <$> tids).

Definition get_bot_referral_info (tg : Z) : SM BotReferralInfoOut :=
u ← get_user_by_telegram_id tg;
match u with
| None => raise (HTTPException 404 "User not found")
| Some u => get_referral_info (code_of bot) (fallback_code bot) (referral_settings env) u
end.

Definition apply_bot_referral (tg : Z) (code : string) : SM unit :=
u ← get_user_by_telegram_id tg;
match u with
| None => raise (HTTPException 404 "User not found")
| Some u => apply_referral (referral_settings env) u code
end.

Definition list_user_orders (tg : Z) : SM (list (PaymentOrder * option string) * Z) :=
u ← _require_user_by_telegram_id tg;
r ← list_by_user (user_id u) 50 0;
read (λ d, ((λ o, (o, order_plan_id o ≫= λ pid, plan_name <$> plans d !! pid)) <$> r.1, r.2)).

Definition get_subscription_summary (tg : Z) : SM (option BotSubscriptionSummaryOut) :=
u ← _require_user_by_telegram_id tg;
orders ← _list_orders (user_id u);
_build_subscription_summary (user_id u) orders.
End Requests.

(** * Who may change what *)

(** The requests that need a user who has accepted the terms. *)
Inductive GatedRequest :=
| CreateOrder (p : BotOrderCreateIn) | ClaimGift | GetOrder (oid : Z) | UpdateOrder (oid : Z) (chat message : option Z)
| ConfirmStars (oid : Z) (charge : string) (amount : Z) | RenewOffer | RenewOrder (p : BotRenewOrderIn)
| TopUp (amount : rat) (p : PaymentProviderEnum) (method : option Z) | BuySlots (qty : Z) (p : PaymentProviderEnum) (method : option Z)
| Preview (pid m : Z) | ValidatePromo (pid m : Z) (code : string) (ty : OrderTypeEnum) | PromoClick (bid : Z) | Devices | RevokeDevice (did : Z)
| Link | WarnTraffic (sid threshold : Z) | Orders | Summary.

Section Gate.
Context {Req : Type} (activate : Z → SM Z) (env : BillingEnv Req) (cfg : SubscriptionConfig) (bot : BotEnv).

Definition bot_run (tg : Z) (r : GatedRequest) : SM unit :=
match r with
| CreateOrder p => create_bot_order activate env tg p ;; mret tt
| ClaimGift => claim_migration_gift activate env bot tg ;; mret tt
| GetOrder oid => get_bot_order tg oid ;; mret tt
| UpdateOrder oid chat message => update_bot_order tg oid chat message
| ConfirmStars oid charge amount => confirm_bot_stars activate env tg oid charge amount ;; mret tt
| RenewOffer => get_renew_offer bot tg ;; mret tt
| RenewOrder p => create_renew_order activate env tg p ;; mret tt
| TopUp amount p method => create_top_up_order activate env tg amount p method ;; mret tt
| BuySlots qty p method => purchase_device_slots activate env tg qty p method ;; mret tt
| Preview pid m => get_order_preview tg pid m ;; mret tt
| ValidatePromo pid m code ty => validate_promo tg pid m code ty ;; mret tt
| PromoClick bid => register_promo_click tg bid ;; mret tt
| Devices => list_bot_devices tg ;; mret tt
| RevokeDevice did => revoke_bot_device cfg tg did ;; mret tt
| Link => issue_subscription_link cfg tg ;; mret tt
| WarnTraffic sid threshold => mark_traffic_warning tg sid threshold
| Orders => list_user_orders tg ;; mret tt
| Summary => get_subscription_summary tg ;; mret tt
end.

(** What a request names belongs to the user. *)
Definition names_own (d : database) (uid : Z) (r : GatedRequest) : Prop :=
match r with
| GetOrder oid | UpdateOrder oid _ _ | ConfirmStars oid _ _ => ∃ o, orders d !! oid = Some o ∧ order_user_id o = uid
| RevokeDevice did =>
    ∃ v b, v ∈ rows (devices d) ∧ dev_id v = did ∧ b ∈ rows (subscriptions d) ∧ dev_subscription_id v = sub_id b ∧ sub_user_id b = uid
| WarnTraffic sid _ => ∃ b, subscriptions d !! sid = Some b ∧ sub_user_id b = uid
| _ => True
end.

Definition is_user (d : database) (tg : Z) (u : User) : Prop := u ∈ rows (users d) ∧ telegram_id u = tg ∧ terms_accepted u = true.

Lemma get_user_run tg s :
get_user_by_telegram_id tg s =
  (match filter (λ u, (telegram_id u =? tg) = true) (rows (users (db s))) with
   | [] => Ok None | [u] => Ok (Some u) | _ => Raise MultipleResultsFound end, s).
Proof using Type.
unfold get_user_by_telegram_id, mbind, M_bind, select_where, read, gets. cbn [t_rows users_tbl].
by destruct (filter _ _) as [|u [|u2 l]].
Qed.

Lemma require_user_run tg s :
(∃ e, _require_user_by_telegram_id tg s = (Raise e, s)) ∨ ∃ u, _require_user_by_telegram_id tg s = (Ok u, s) ∧ is_user (db s) tg u.
Proof using Type.
assert (_require_user_by_telegram_id tg s = match get_user_by_telegram_id tg s with
  | (Ok (Some u), s) => if terms_accepted u then (Ok u, s) else (Raise (HTTPException 403 "Terms not accepted"), s)
  | (Ok None, s) => (Raise (HTTPException 404 "User not found"), s)
  | (Raise e, s) => (Raise e, s) end) as ->.
{ unfold _require_user_by_telegram_id, mbind at 1, M_bind at 1. destruct (get_user_by_telegram_id tg s) as [[[u|]|e] s1]; [|done..].
  unfold mbind, M_bind. by destruct (terms_accepted u). }
rewrite get_user_run. destruct (filter _ _) as [|u [|u2 l]] eqn:E; [by left; eauto| |by left; eauto].
assert (u ∈ rows (users (db s)) ∧ telegram_id u = tg) as [Hu Htg].
{ assert (u ∈ [u]) as Hin by left. rewrite <-E in Hin. apply list_elem_of_filter in Hin as [H Hin]. split; [done|]. by apply Z.eqb_eq. }
destruct (terms_accepted u) eqn:Ht; [right; exists u; split; [done|by split_and!]|left; eauto].
Qed.

(** The list the subscriptions of a user are picked from does not depend on the clock. *)
Lemma max_of_in l : ∀ best key s r s', max_of best key l s = (Ok r, s') → (r = best ∨ r ∈ l) ∧ db s' = db s.
Proof using Type.
induction l as [|b l IH]; intros best key s r s'; cbn [max_of]; [intros [= <- <-]; by split; [left|]|].
unfold mbind at 1, M_bind at 1, sort_key, _classify_subscription. unfold mbind, M_bind, utcnow. cbn [mret M_ret].
destruct (sort_key_lt _ _); intros [H Hd]%IH; (split; [|exact Hd]); destruct H as [->|H]; [right; left|right; by right|by left|right; by right].
Qed.

Lemma current_subscription_own uid s r s' : _current_subscription uid s = (Ok r, s') →
db s' = db s ∧ match r with Some b => b ∈ rows (subscriptions (db s)) ∧ sub_user_id b = uid | None => True end.
Proof using Type.
unfold _current_subscription, list_by_user_id, mbind at 1, M_bind at 1, select_where, read, gets. cbn [t_rows subs_tbl].
set (l := filter _ (rows (subscriptions (db s)))).
assert (Hl : ∀ b, b ∈ l → b ∈ rows (subscriptions (db s)) ∧ sub_user_id b = uid).
{ intros b [H Hin]%list_elem_of_filter. split; [done|]. apply andb_prop in H as [H _]. by apply Z.eqb_eq. }
destruct l as [|b l]; cbn [_pick_current_subscription]; [intros [= <- <-]; by split|].
unfold mbind at 1, M_bind at 1, sort_key, _classify_subscription. unfold mbind at 1, M_bind at 1. unfold mbind at 1, M_bind at 1, utcnow. cbn [mret M_ret].
unfold mbind, M_bind. destruct (max_of _ _ _ _) as [[r0|e] s0] eqn:E; [|done]. cbn [mret M_ret]. intros [= <- <-].
apply max_of_in in E as [H Hd]. split; [exact Hd|]. apply Hl. destruct H as [->|H]; [left|by right].
Qed.
(** A computation that raises unless [P]. *)
Definition only_if {A} (P : Prop) (m : SM A) (s : session) : Prop := ∀ a s', m s = (Ok a, s') → P.

Lemma only_if_bind {A B} P (m : SM A) (f : A → SM B) s : only_if P m s → only_if P (m ≫= f) s.
Proof using Type. intros H b s'. unfold mbind, M_bind. destruct (m s) as [[a|e] s1] eqn:E; [intros _; by eapply H|done]. Qed.

Lemma only_if_then {A B} P (m : SM A) (f : A → SM B) s :
(∀ a s', m s = (Ok a, s') → only_if P (f a) s') → only_if P (m ≫= f) s.
Proof using Type. intros H b s'. unfold mbind, M_bind. destruct (m s) as [[a|e] s1] eqn:E; [by apply H|done]. Qed.

Lemma only_if_check {A} P c e (m : SM A) s : (c = false → only_if P m s) → only_if P (raise_if c e ;; m) s.
Proof using Type. intros H. apply only_if_then. destruct c; [done|]. intros a s' [= _ <-]. by apply H. Qed.

Lemma only_if_require {B} P tg (f : User → SM B) s :
(∀ u, is_user (db s) tg u → only_if P (f u) s) → only_if P (_require_user_by_telegram_id tg ≫= f) s.
Proof using Type.
intros H. apply only_if_then. intros u s' E. destruct (require_user_run tg s) as [[e He]|(u' & He & Hu)]; rewrite He in E; [done|].
injection E as <- <-. by apply H.
Qed.

(** What the requests that name nothing need. *)
Definition known (tg : Z) (s : session) : Prop := ∃ u, is_user (db s) tg u.

Lemma only_if_known {B} tg (f : User → SM B) s : only_if (known tg s) (_require_user_by_telegram_id tg ≫= f) s.
Proof using Type. apply only_if_require. intros u Hu a s' _. by exists u. Qed.

Lemma own_order_run tg oid s a s' : own_order tg oid s = (Ok a, s') →
is_user (db s) tg a.1 ∧ orders (db s) !! oid = Some a.2 ∧ order_user_id a.2 = user_id a.1.
Proof using Type.
unfold own_order. unfold mbind at 1, M_bind at 1. destruct (require_user_run tg s) as [[e ->]|(u & -> & Hu)]; [done|].
unfold get_order, get_by_id, read, gets, mbind, M_bind. cbn [t_rows orders_tbl].
destruct (orders (db s) !! oid) as [o|] eqn:E; [|done]. cbn [mret M_ret].
destruct (Z.eqb_spec (order_user_id o) (user_id u)); [|done]. intros [= <- <-]. by split_and!.
Qed.

Lemma own_subscription_run tg detail s a s' : own_subscription tg detail s = (Ok a, s') →
is_user (db s) tg a.1 ∧ a.2 ∈ rows (subscriptions (db s)) ∧ sub_user_id a.2 = user_id a.1 ∧ db s' = db s.
Proof using Type.
unfold own_subscription. unfold mbind at 1, M_bind at 1. destruct (require_user_run tg s) as [[e ->]|(u & -> & Hu)]; [done|].
unfold mbind, M_bind. destruct (_current_subscription (user_id u) s) as [[[b|]|e] s1] eqn:E; [|done..].
apply current_subscription_own in E as (Hd & Hin & Hb). intros [= <- <-]. by split_and!.
Qed.

Lemma only_if_own {B} tg detail (f : User * Subscription → SM B) s : only_if (known tg s) (own_subscription tg detail ≫= f) s.
Proof using Type. apply only_if_bind. intros a s' (H & _)%own_subscription_run. by exists a.1. Qed.

Lemma get_device_own sid did s v s' : get_device sid did s = (Ok v, s') →
v ∈ rows (devices (db s)) ∧ dev_id v = did ∧ dev_subscription_id v = sid.
Proof using Type.
unfold get_device, get_by_id_for_subscription, mbind, M_bind, select_where, read, gets. cbn [t_rows devices_tbl].
destruct (filter _ _) as [|w [|w2 l]] eqn:E; [done| |done]. intros [= -> <-].
assert (v ∈ [v]) as Hin by left. rewrite <-E in Hin. apply list_elem_of_filter in Hin as [H Hin].
apply andb_prop in H as [H1%Z.eqb_eq H2%Z.eqb_eq]. by split_and!.
Qed.

Lemma revoke_needs_own tg did s : only_if (∃ u, is_user (db s) tg u ∧ names_own (db s) (user_id u) (RevokeDevice did)) (revoke_bot_device cfg tg did) s.
Proof using Type.
apply only_if_then. intros [u b] s1 (Hu & Hin & Hown & Hd)%own_subscription_run. apply only_if_bind. unfold revoke_device.
apply only_if_then. intros b' s2 Eb. assert (s2 = s1) as ->.
{ unfold get_sub, mbind, M_bind, get_by_id, read, gets in Eb. cbn [t_rows subs_tbl] in Eb. destruct (_ !! _); [by injection Eb|done]. }
apply only_if_then. intros v s3 (Hv & Hid & Hsub)%get_device_own a s' _. rewrite Hd in Hv. exists u. split; [done|].
exists v, b. by split_and!.
Qed.

Lemma warn_needs_own tg sid threshold s :
only_if (∃ u, is_user (db s) tg u ∧ names_own (db s) (user_id u) (WarnTraffic sid threshold)) (mark_traffic_warning tg sid threshold) s.
Proof using Type.
apply only_if_require. intros u Hu. apply only_if_then. intros b s' E. unfold get_by_id, read, gets in E. cbn [t_rows subs_tbl] in E.
injection E as Eb <-. destruct b as [b|]; [|done]. apply only_if_check. intros Hc a s' _. exists u. split; [done|]. exists b.
split; [done|]. by apply Z.eqb_eq, negb_false_iff.
Qed.

Lemma only_if_renew {B} tg (f : _ → SM B) s : only_if (known tg s) (renew_target tg ≫= f) s.
Proof using Type. apply only_if_bind. apply only_if_own. Qed.

(** C35: the bot acts only for a user who is registered under the Telegram account that asks and
    who accepted the terms, and only on what is theirs: a request that changes anything in the
    database was made by such a user, and the order, the device or the subscription it names is
    that user's. *)
Theorem bot_requests_gated tg r s : db (run_request (bot_run tg r) s).2 ≠ db s →
∃ u, is_user (db s) tg u ∧ names_own (db s) (user_id u) r.
Proof using Type.
intros Hne. cut (only_if (∃ u, is_user (db s) tg u ∧ names_own (db s) (user_id u) r) (bot_run tg r) s).
{ intros H. unfold run_request in Hne. destruct (bot_run tg r s) as [[a|e] s'] eqn:E; [by eapply H|done]. }
assert (Hown : ∀ oid B (f : User * PaymentOrder → SM B),
  only_if (∃ u, is_user (db s) tg u ∧ ∃ o, orders (db s) !! oid = Some o ∧ order_user_id o = user_id u) (own_order tg oid ≫= f) s).
{ intros oid B f. apply only_if_bind. intros [u o] s' (Hu & Ho & Hown)%own_order_run. exists u. split; [done|]. by exists o. }
assert (Hk : ∀ A (m : SM A), only_if (known tg s) m s → only_if (∃ u, is_user (db s) tg u ∧ True) m s).
{ intros A m H a s' E. destruct (H a s' E) as [u Hu]. by exists u. }
destruct r; cbn [bot_run]; try apply warn_needs_own; try (cbn [names_own]; apply Hk); try (apply only_if_check; intros _; apply Hown);
  apply only_if_bind;
  first [apply revoke_needs_own|apply only_if_known|apply only_if_own|apply only_if_renew|apply Hown
        |apply only_if_check; intros _; first [apply only_if_known|apply only_if_own|apply only_if_renew|apply Hown]].
Qed.
End Gate.

(** * What a user is shown *)

(** In a session at [now] on [d], [m] returns something with [P] and changes nothing. *)
Definition shows {A} (now : Z) (d : database) (P : A → Prop) (m : SM A) : Prop :=
  ∀ s, db s = d → (∀ n, clock s n = now) → ∃ a s', m s = (Ok a, s') ∧ db s' = d ∧ (∀ n, clock s' n = now) ∧
    next_uuid s' = next_uuid s ∧ P a.

(** A subscription that is switched on and not over. *)
Definition live (now : Z) (b : Subscription) : Prop :=
  sub_is_active b = true ∧ match sub_expires_at b with Some e => now < e | None => True end.

Definition own_live (now : Z) (d : database) (uid : Z) : Prop := ∃ b, b ∈ rows (subscriptions d) ∧ sub_user_id b = uid ∧ live now b.

Definition shown_live (st : BotDashboardState) : Prop := st = ACTIVE ∨ st = EXPIRING.

Section Shown.
Context (now : Z) (d : database).

Lemma shows_ret {A} (P : A → Prop) a : P a → shows now d P (mret a).
Proof using Type. intros H s Hd Hc. by exists a, s. Qed.

Lemma shows_bind {A B} (P : A → Prop) (Q : B → Prop) m (f : A → SM B) :
shows now d P m → (∀ a, P a → shows now d Q (f a)) → shows now d Q (m ≫= f).
Proof using Type.
intros Hm Hf s Hd Hc. destruct (Hm s Hd Hc) as (a & s1 & E & Hd1 & Hc1 & Hn1 & Ha).
destruct (Hf a Ha s1 Hd1 Hc1) as (b & s2 & E2 & Hd2 & Hc2 & Hn2 & H).
exists b, s2. split; [unfold mbind, M_bind; by rewrite E|]. split_and!; [done..|congruence|done].
Qed.

Lemma shows_read {A} (P : A → Prop) (f : database → A) : P (f d) → shows now d P (read f).
Proof using Type. intros H s Hd Hc. exists (f d), s. rewrite <-Hd in H |- *. by split_and!. Qed.

Lemma shows_now : shows now d (λ t, t = now) utcnow.
Proof using Type. intros s Hd Hc. eexists _, _. split; [reflexivity|]. by split_and!. Qed.

Lemma shows_mono {A} (P Q : A → Prop) m : (∀ a, P a → Q a) → shows now d P m → shows now d Q m.
Proof using Type. intros H Hm s Hd Hc. destruct (Hm s Hd Hc) as (a & s' & E & Hd' & Hc' & Hn & Ha). exists a, s'. split_and!; auto. Qed.

Lemma shows_classify b : shows now d (λ st, st = state_at now b) (_classify_subscription b).
Proof using Type. eapply shows_bind; [apply shows_now|]. intros ? ->. by apply shows_ret. Qed.

Lemma live_priority b : live now b ↔ 3 ≤ state_priority (state_at now b).
Proof using Type.
unfold live, state_at. destruct (sub_is_active b); cbn [negb]; [|by split; [intros []|]].
destruct (sub_expires_at b) as [e|]; [|cbn; split; [lia|done]].
destruct (Z.leb_spec e now); [cbn; lia|]. destruct (Z.leb_spec e (now + 3 * day)); cbn; lia.
Qed.

Lemma shown_live_priority b : shown_live (state_at now b) ↔ live now b.
Proof using Type.
rewrite live_priority. unfold shown_live, state_at.
destruct (negb _), (sub_expires_at b) as [e|]; [..|]; repeat case_match; cbn; (split; [intros [?|?]|intros ?]); first [discriminate|lia|by left|by right].
Qed.

(** The subscription that is picked comes before none in the order of states. *)
Definition best_of (l : list Subscription) (r : Subscription) : Prop :=
r ∈ l ∧ ∀ b, b ∈ l → state_priority (state_at now b) ≤ state_priority (state_at now r).

Lemma shows_sort_key b : shows now d (λ k, k = (state_priority (state_at now b), sub_updated_at b)) (sort_key b).
Proof using Type. eapply shows_bind; [apply shows_classify|]. intros ? ->. by apply shows_ret. Qed.

Lemma shows_max_of l : ∀ best,
shows now d (best_of (best :: l)) (max_of best (state_priority (state_at now best), sub_updated_at best) l).
Proof using Type.
induction l as [|b l IH]; intros best; cbn [max_of].
{ apply shows_ret. split; [left|]. intros b ->%list_elem_of_singleton. done. }
eapply shows_bind; [apply shows_sort_key|]. intros ? ->. destruct (sort_key_lt _ _) eqn:K; (eapply shows_mono; [|apply IH]);
  intros r [Hin Hmax].
- assert (state_priority (state_at now best) ≤ state_priority (state_at now b)) as Hle.
  { unfold sort_key_lt in K. cbn in K. lia. }
  split; [by right|]. intros b' [->|H]%elem_of_cons; [|by apply Hmax]. etrans; [exact Hle|]. apply Hmax. left.
- assert (state_priority (state_at now b) ≤ state_priority (state_at now best)) as Hle.
  { unfold sort_key_lt in K. cbn in K. lia. }
  split; [apply elem_of_cons in Hin as [->|H]; [left|right; by right]|].
  intros b' [->|[->|H]%elem_of_cons]%elem_of_cons; [apply Hmax; left| |apply Hmax; by right].
  etrans; [exact Hle|]. apply Hmax. left.
Qed.

Definition own_subs (uid : Z) : list Subscription :=
filter (λ b, ((sub_user_id b =? uid) && (negb false || sub_is_active b)) = true) (rows (subscriptions d)).

Lemma own_subs_spec uid b : b ∈ own_subs uid ↔ b ∈ rows (subscriptions d) ∧ sub_user_id b = uid.
Proof using Type. unfold own_subs. rewrite list_elem_of_filter, andb_true_iff, Z.eqb_eq. cbn. tauto. Qed.

(** The pick, and that it is live exactly when something is. *)
Definition picked (uid : Z) (r : option Subscription) : Prop :=
match r with
| Some b => b ∈ rows (subscriptions d) ∧ sub_user_id b = uid ∧ (live now b ↔ own_live now d uid)
| None => ¬ own_live now d uid
end.

Lemma shows_current uid : shows now d (picked uid) (_current_subscription uid).
Proof using Type.
unfold _current_subscription. eapply shows_bind; [apply (shows_read (λ l, l = own_subs uid)); reflexivity|]. intros ? ->.
destruct (own_subs uid) as [|b l] eqn:E; cbn [_pick_current_subscription].
- apply shows_ret. intros (b & Hin & Hu & _). assert (b ∈ own_subs uid) as H by by apply own_subs_spec. rewrite E in H. by apply not_elem_of_nil in H.
- eapply shows_bind; [apply shows_sort_key|]. intros ? ->. eapply shows_bind; [apply shows_max_of|]. rewrite <-E. intros r [Hin Hmax].
  apply shows_ret. apply own_subs_spec in Hin as [Hin Hu]. split_and!; [done..|]. split; [by exists r|].
  intros (b' & Hb' & Hu' & Hl'). apply live_priority. apply live_priority in Hl'.
  assert (b' ∈ own_subs uid) as H%Hmax by by apply own_subs_spec. lia.
Qed.

(** *** The session *)

Definition anything {A} (_ : A) : Prop := True.

Lemma shows_get {R} (t : table R) (i : Z) : shows now d (λ o, o = t_rows t d !! i) (get_by_id t i).
Proof using Type. by apply shows_read. Qed.

Lemma shows_get_plan o : shows now d anything (get_plan_opt o).
Proof using Type. destruct o; [by apply shows_read|by apply shows_ret]. Qed.

Lemma shows_orders uid : shows now d anything (_list_orders uid).
Proof using Type.
eapply (shows_bind anything); [|by intros; apply shows_ret]. eapply (shows_bind anything); [by apply shows_read|by intros; apply shows_ret].
Qed.

Lemma shows_stars o : shows now d anything (_resolve_order_amount_stars o).
Proof using Type.
unfold _resolve_order_amount_stars. destruct (negb _); [by apply shows_ret|].
destruct (order_type o); [eapply shows_bind; [apply shows_get_plan|by intros; apply shows_ret]..| |by apply shows_ret].
all: eapply (shows_bind anything); [destruct (order_subscription_id o); [by apply shows_read|by apply shows_ret]|].
all: intros b _; eapply (shows_bind anything); [destruct (b ≫= sub_plan_id); [by apply shows_read|by apply shows_ret]|by intros; apply shows_ret].
Qed.

Lemma shows_order o : shows now d (λ b, b.1 = o) (_to_bot_order o).
Proof using Type. eapply shows_bind; [apply shows_stars|]. intros n _. by apply shows_ret. Qed.

Lemma shows_devices b : b ∈ rows (subscriptions d) → keyed subs_tbl d → shows now d anything (list_sub_devices (sub_id b) true).
Proof using Type.
intros Hb Hk. eapply (shows_bind anything);
  [|intros ? _; eapply (shows_bind anything); [by apply shows_read|intros ? _; by apply shows_ret]]. unfold get_sub. eapply shows_bind; [apply shows_get|]. intros ? ->.
apply elem_of_rows in Hb as [i Hi]. rewrite <-(Hk i b Hi) in Hi. cbn [t_rows t_id subs_tbl] in *. rewrite Hi. by apply shows_ret.
Qed.

(** The summary shows the pick in the state it is in. *)
Definition summarised (uid : Z) (o : option BotSubscriptionSummaryOut) : Prop :=
picked uid (bs_row <$> o) ∧ match o with Some b => bs_status b = state_at now (bs_row b) | None => True end.

Lemma shows_summary uid os : keyed subs_tbl d → shows now d (summarised uid) (_build_subscription_summary uid os).
Proof using Type.
intros Hk. eapply shows_bind; [apply shows_current|]. intros [b|] Hp; [|by apply shows_ret].
eapply shows_bind; [apply shows_get_plan|]. intros plan _. eapply shows_bind; [apply shows_devices; [apply Hp|done]|]. intros devs _.
eapply shows_bind; [apply shows_classify|]. intros ? ->. apply shows_ret. by split.
Qed.

(** What the status of the service relies on: a node policy, and no two active artifacts. *)
Definition status_known : Prop :=
rows (node_policies d) ≠ [] ∧ (length (filter (λ a, pa_is_active a = true) (rows (profile_artifacts d))) ≤ 1)%nat.

Lemma shows_status : status_known → shows now d anything _build_service_status.
Proof using Type.
intros [Hp Ha]. unfold _build_service_status. eapply (shows_bind anything); [|intros [[] l] _; by apply shows_ret].
unfold get_readiness. eapply (shows_bind anything).
{ unfold node_policy. eapply (shows_bind (λ l, l ≠ [])).
  - apply shows_read. cbn [t_rows policies_tbl]. by rewrite filter_unchanged.
  - intros l Hl. destruct (order_by_desc np_id l) as [|p l'] eqn:E; [|by apply shows_ret]. exfalso.
    destruct l as [|x l]; [done|]. assert (x ∈ order_by_desc np_id (x :: l)) as H by (apply elem_of_order_by_desc; left).
    rewrite E in H. by apply not_elem_of_nil in H. }
intros policy _. eapply (shows_bind anything).
{ unfold list_active_with_agent_state. eapply (shows_bind anything); [by apply shows_read|]. intros ns _.
  eapply (shows_bind anything); [by apply shows_read|]. intros; by apply shows_ret. }
intros rows_ _. eapply (shows_bind anything).
{ unfold get_active_artifact. eapply (shows_bind (λ l, (length l ≤ 1)%nat)); [by apply shows_read|].
  intros [|a [|a' l]] Hl; [by apply shows_ret|by apply shows_ret|cbn in Hl; lia]. }
intros artifact _. eapply shows_bind; [apply shows_now|]. intros ? ->.
eapply (shows_bind anything); [by apply shows_read|]. intros n _. eapply (shows_bind anything); [by apply shows_read|]. intros m _.
eapply shows_bind; [apply shows_now|]. intros ? ->. eapply shows_bind; [apply shows_now|]. intros ? ->. by apply shows_ret.
Qed.

(** The state in the session says whether there is a subscription to use. *)
Definition truthful (u : User) (so : BotSessionOut) : Prop :=
so_user so = u ∧ (shown_live (so_state so) ↔ own_live now d (user_id u)) ∧
(ISSUE_LINK ∈ so_available_actions so ↔ terms_accepted u = true ∧ own_live now d (user_id u)).

Lemma link_offered st sub pending : (∀ b, sub = Some b → st = bs_status b) → (sub = None → ¬ shown_live st) →
ISSUE_LINK ∈ _available_actions st sub pending ↔ shown_live st.
Proof using Type.
unfold _available_actions, shown_live. intros H1 H2.
destruct st; cbn [bool_decide]; rewrite ?andb_false_r; try (destruct sub as [b|]; [|naive_solver set_solver]);
  repeat case_match; set_solver.
Qed.

Lemma shows_session u new : keyed subs_tbl d → status_known → shows now d (truthful u) (_build_session u new None).
Proof using Type.
intros Hk Hsk. eapply shows_bind; [apply shows_orders|]. intros os _.
eapply (shows_bind anything); [eapply shows_bind; [apply shows_now|]; intros ? ->; by apply shows_ret|]. intros pending _.
eapply shows_bind; [by apply shows_summary|]. intros sub [Hp Hs].
eapply shows_bind; [by apply shows_status|]. intros service _.
eapply (shows_bind anything); [destruct pending; [eapply shows_bind; [apply shows_order|by intros; apply shows_ret]|by apply shows_ret]|].
intros shown _. apply shows_ret. unfold truthful. cbn [so_user so_state so_available_actions].
assert (Hst : shown_live (dashboard_state sub pending new) ↔ own_live now d (user_id u)).
{ destruct sub as [b|]; cbn [dashboard_state].
  - rewrite Hs. rewrite shown_live_priority. apply Hp.
  - split; [|by intros ?%Hp]. unfold shown_live. repeat case_match; intros [?|?]; discriminate. }
split_and!; [done..|]. destruct (terms_accepted u); [|set_solver]. rewrite link_offered; [rewrite Hst; tauto| |].
- intros b ->. done.
- intros -> ?%Hst. by apply Hp.
Qed.
End Shown.

Section Links.
Context (cfg : SubscriptionConfig) (now : Z) (d : database) (tg : Z) (u : User).
Context (Hkeys : keyed subs_tbl d) (Hstatus : status_known d).
Context (Huser : filter (λ u, (telegram_id u =? tg) = true) (rows (users d)) = [u]).

Lemma shows_require : terms_accepted u = true → shows now d (λ v, v = u) (_require_user_by_telegram_id tg).
Proof using Huser.
intros Hterms. unfold _require_user_by_telegram_id. eapply (shows_bind _ _ (λ o, o = Some u)).
- intros s Hd Hc. exists (Some u), s. rewrite get_user_run, Hd, Huser. by split_and!.
- intros ? ->. rewrite Hterms. eapply (shows_bind _ _ anything); [by apply shows_ret|]. intros ? _. by apply shows_ret.
Qed.

(** The subscription whose link is asked for. *)
Definition own_pick (r : User * Subscription) : Prop :=
r.1 = u ∧ r.2 ∈ rows (subscriptions d) ∧ sub_user_id r.2 = user_id u ∧ live now r.2.

Lemma shows_own : terms_accepted u = true → own_live now d (user_id u) →
shows now d own_pick (own_subscription tg "Subscription not found").
Proof using Huser.
intros Hterms Hlive. eapply shows_bind; [by apply shows_require|]. intros ? ->.
eapply shows_bind; [apply shows_current|]. intros [b|] Hp; [|by destruct Hp].
destruct Hp as (Hb & Hu & Hl). apply shows_ret. split_and!; [done..|]. by apply Hl.
Qed.

(** [r] holds the link that is stored, in [d'], for a live subscription of the user. *)
Definition link_of (d' : database) (r : string * BotSessionOut) : Prop :=
∃ b t, b ∈ rows (subscriptions d') ∧ sub_user_id b = user_id u ∧ live now b ∧ sub_token b = Some t ∧ r.1 = public_base_url cfg +:+ t.

(** The token a rotation would make is not in use, nor is the hash it would retire. *)
Definition can_rotate (s : session) (b : Subscription) : Prop :=
let h := hash (sub_tokens cfg) (generate (sub_tokens cfg) (next_uuid s)) in
∀ i a, subscriptions (db s) !! i = Some a → i ≠ sub_id b →
  sub_token_hash a ≠ h ∧ prev_token_hash a ≠ Some (sub_token_hash b).

Lemma rotated_check s b now' :
keyed subs_tbl (db s) → can_rotate s b →
let tok := generate (sub_tokens cfg) (next_uuid s) in
t_check subs_tbl (db s) (Some b) (rotated_sub tok (hash (sub_tokens cfg) tok) (sub_token_hash b) now' now (touch_sub now b)) = None.
Proof using Type.
intros Hk Hr tok. set (b' := rotated_sub _ _ _ _ _ _).
assert (∀ eqb : Subscription → Subscription → bool,
  (∀ i a, subscriptions (db s) !! i = Some a → i ≠ sub_id b → eqb a b' = false) →
  clashes (subscriptions (db s)) sub_id eqb b' = false) as Hcl.
{ intros eqb H. apply clashes_false. intros i a Ha Hne. pose proof (Hk i a Ha) as Hi. cbn in Hi. subst i. by apply (H (sub_id a) a). }
assert (Hh : clashes (subscriptions (db s)) sub_id (λ a b, String.eqb (sub_token_hash a) (sub_token_hash b)) b' = false).
{ apply Hcl. intros i a Ha Hne. apply String.eqb_neq. by apply (Hr i a Ha). }
assert (Hp : clashes (subscriptions (db s)) sub_id (λ a b, sql_eqb (prev_token_hash a) (prev_token_hash b)) b' = false).
{ apply Hcl. intros i a Ha Hne. destruct (Hr i a Ha Hne) as [_ H]. unfold sql_eqb. cbn [b' rotated_sub prev_token_hash].
  destruct (prev_token_hash a) as [h|]; [|done]. apply bool_decide_eq_false. congruence. }
cbn [t_check subs_tbl]. unfold unique_on, unique. rewrite Hh, Hp. by repeat case_match.
Qed.

Lemma rotate_run s b : db s = d → (∀ n, clock s n = now) → subscriptions d !! sub_id b = Some b → can_rotate s b →
∃ tok b' s', rotate_token cfg (sub_id b) 3600 s = (Ok (tok, public_base_url cfg +:+ tok), s') ∧
  db s' = put subs_tbl b' d ∧ (∀ n, clock s' n = now) ∧ sub_id b' = sub_id b ∧ sub_user_id b' = sub_user_id b ∧
  sub_token b' = Some tok ∧ (live now b → live now b').
Proof using Hkeys.
intros Hd Hc Hb Hr. destruct s as [d0 ck tk nu ef]. cbn in Hd, Hc. subst d0. set (tok := generate (sub_tokens cfg) nu).
set (b' := rotated_sub tok (hash (sub_tokens cfg) tok) (sub_token_hash b) (now + 3600 * second) now (touch_sub now b)).
pose proof (rotated_check {| db := d; clock := ck; ticks := tk; next_uuid := nu; effects := ef |} b (now + 3600 * second) Hkeys Hr) as Hck.
cbn [db next_uuid] in Hck. cbv zeta in Hck. fold tok in Hck. fold b' in Hck.
exists tok, b'. unfold rotate_token, get_sub, mbind, M_bind, get_by_id, read, gets, uuid4, utcnow, mret, M_ret. cbn [t_rows subs_tbl db].
rewrite Hb. cbn [next_uuid clock ticks effects]. fold tok. rewrite update_run. cbn [t_rows subs_tbl db t_touch clock ticks]. rewrite Hb. cbv zeta.
rewrite !Hc. fold b'. rewrite Hck. cbn. rewrite lookup_insert_eq. eexists. split; [reflexivity|]. split_and!; try done.
Qed.

(** The rest of the request, once the subscription is known. *)
Lemma link_given s : db s = d → (∀ n, clock s n = now) → terms_accepted u = true → own_live now d (user_id u) →
(∀ b, own_pick (u, b) → set_text (sub_token b) = None → can_rotate s b) →
∃ r s2, issue_subscription_link cfg tg s = (Ok r, s2) ∧ link_of (db s2) r ∧
  ((∀ b, b ∈ rows (subscriptions d) → sub_user_id b = user_id u → live now b → is_Some (set_text (sub_token b))) → db s2 = d).
Proof using Hkeys Hstatus Huser.
intros Hd Hc Hterms Hlive Hrot. unfold issue_subscription_link.
destruct (shows_own Hterms Hlive s Hd Hc) as ([u' b] & s1 & E1 & Hd1 & Hc1 & Hn1 & Hpick).
pose proof Hpick as (Hu' & Hb & Hu & Hl). cbn [fst snd] in *. subst u'.
unfold mbind at 1, M_bind at 1. rewrite E1. cbn [fst snd].
destruct (shows_classify now d b s1 Hd1 Hc1) as (? & s2 & E2 & Hd2 & Hc2 & Hn2 & ->). unfold mbind at 1, M_bind at 1. rewrite E2.
assert (bool_decide (state_at now b = ACTIVE) || bool_decide (state_at now b = EXPIRING) = true) as ->.
{ apply shown_live_priority in Hl as [->| ->]; done. }
unfold mbind at 1, M_bind at 1. cbn [negb raise_if mret M_ret].
destruct (set_text (sub_token b)) as [t|] eqn:Ht.
- unfold mbind at 1, M_bind at 1. cbn [mret M_ret].
  destruct (shows_session now d u false Hkeys Hstatus s2 Hd2 Hc2) as (so & s3 & E3 & Hd3 & _). unfold mbind, M_bind. rewrite E3.
  eexists _, s3. split; [reflexivity|]. split; [|done]. rewrite Hd3. exists b, t. split_and!; [done..| |done].
  destruct (sub_token b) as [t'|]; [|done]. cbn in Ht. destruct (nonempty t'); [by injection Ht as ->|done].
- apply elem_of_rows in Hb as [i Hi]. pose proof (Hkeys i b Hi) as Hid. cbn in Hid. subst i.
  assert (can_rotate s2 b) as Hcan.
  { specialize (Hrot b Hpick Ht). unfold can_rotate in *. rewrite Hd2, Hn2, Hn1. by rewrite Hd in Hrot. }
  destruct (rotate_run s2 b Hd2 Hc2 Hi Hcan) as (tok & b' & s3 & E3 & Hd3 & Hc3 & Hid' & Hu3 & Ht3 & Hl3).
  unfold mbind at 1, M_bind at 1, mbind at 1, M_bind at 1. rewrite E3. cbn [mret M_ret snd].
  destruct (shows_session now (put subs_tbl b' d) u false (keyed_put subs_tbl b' d Hkeys) Hstatus s3 Hd3 Hc3) as (so & s4 & E4 & Hd4 & _).
  unfold mbind, M_bind. rewrite E4. eexists _, s4. split; [reflexivity|]. split.
  + rewrite Hd4. exists b', tok. split_and!; [|congruence|by apply Hl3|done|done].
    apply elem_of_rows. exists (sub_id b'). exact (lookup_insert_eq (subscriptions d) (sub_id b') b').
  + intros Hall. exfalso. destruct (Hall b) as [t Ht']; [apply elem_of_rows; eauto|done|done|]. congruence.
Qed.

(** Nobody else gets one. *)
Lemma no_link s : db s = d → (∀ n, clock s n = now) → ¬ (terms_accepted u = true ∧ own_live now d (user_id u)) →
∃ code detail s', issue_subscription_link cfg tg s = (Raise (HTTPException code detail), s') ∧
  code ∈ [403; 404; 409] ∧ db s' = d.
Proof using Huser.
clear Hkeys Hstatus. intros Hd Hc Hno. unfold issue_subscription_link, own_subscription. destruct (terms_accepted u) eqn:Hterms.
2:{ unfold _require_user_by_telegram_id, mbind, M_bind. rewrite get_user_run, Hd, Huser. cbn. rewrite Hterms. cbn.
    eexists _, _, _. split; [reflexivity|]. split; [set_solver|done]. }
destruct (shows_require Hterms s Hd Hc) as (? & s1 & E1 & Hd1 & Hc1 & _ & ->).
destruct (shows_current now d (user_id u) s1 Hd1 Hc1) as (r & s2 & E2 & Hd2 & Hc2 & _ & Hp).
unfold mbind, M_bind. rewrite E1, E2. destruct r as [b|]; [|by eexists _, _, _; split; [reflexivity|]; split; [set_solver|]].
destruct Hp as (_ & _ & Hl). cbn [mret M_ret snd].
destruct (shows_classify now d b s2 Hd2 Hc2) as (? & s3 & E3 & Hd3 & _ & _ & ->). rewrite E3.
assert (bool_decide (state_at now b = ACTIVE) || bool_decide (state_at now b = EXPIRING) = false) as ->.
{ apply orb_false_iff. split; apply bool_decide_eq_false; intros Hst; apply Hno; (split; [done|]); apply Hl, shown_live_priority; [by left|by right]. }
eexists _, _, _. split; [reflexivity|]. split; [set_solver|done].
Qed.
End Links.

(** C36: what the bot shows is what the user has. At one instant, with a node policy and at most
    one active artifact, the session of a user is built and changes nothing; its state is active
    or expiring exactly when the user has a subscription that is switched on and not over; the
    link is among the actions exactly when, besides, the user accepted the terms. Then the
    request for the link returns the one stored for a live subscription of the user, a new one
    only if there was none (its token and the hash it retires being unused), and changes nothing
    when every live subscription has its token; to everybody else it is refused with 403, 404
    or 409 and nothing changes. *)
Theorem dashboard_truthful cfg tg u new now s : keyed subs_tbl (db s) → (∀ n, clock s n = now) → status_known (db s) →
filter (λ u, (telegram_id u =? tg) = true) (rows (users (db s))) = [u] →
∃ so s1, _build_session u new None s = (Ok so, s1) ∧ db s1 = db s ∧
  (shown_live (so_state so) ↔ own_live now (db s) (user_id u)) ∧
  (ISSUE_LINK ∈ so_available_actions so ↔ terms_accepted u = true ∧ own_live now (db s) (user_id u)) ∧
  if bool_decide (ISSUE_LINK ∈ so_available_actions so) then
    (∀ b, own_pick now (db s) u (u, b) → set_text (sub_token b) = None → can_rotate cfg s b) →
    ∃ r s2, issue_subscription_link cfg tg s = (Ok r, s2) ∧ link_of cfg now u (db s2) r ∧
      ((∀ b, b ∈ rows (subscriptions (db s)) → sub_user_id b = user_id u → live now b → is_Some (set_text (sub_token b))) →
       db s2 = db s)
  else ∃ code detail s2, issue_subscription_link cfg tg s = (Raise (HTTPException code detail), s2) ∧
    code ∈ [403; 404; 409] ∧ db s2 = db s.
Proof.
intros Hk Hc Hsk Huser. destruct (shows_session now (db s) u new Hk Hsk s eq_refl Hc) as (so & s1 & E & Hd & _ & _ & _ & Hst & Hlink).
exists so, s1. split_and!; [done..|]. destruct (bool_decide_reflect (ISSUE_LINK ∈ so_available_actions so)) as [[Ht Hl]%Hlink|Hn].
- intros Hrot. by apply (link_given cfg now (db s) tg u Hk Hsk Huser s eq_refl Hc Ht Hl).
- apply (no_link cfg now (db s) tg u Huser s eq_refl Hc). by intros ?%Hlink.
Qed.

(** * Signing in *)

(** One account for each Telegram account. *)
Definition accounts_ok (d : database) : Prop :=
  keyed users_tbl d ∧ ∀ i j a b, users d !! i = Some a → users d !! j = Some b → telegram_id a = telegram_id b → i = j.

Definition synced (p : BotSessionSyncIn) (d : database) (u : User) : Prop :=
  users d !! user_id u = Some u ∧ telegram_id u = bsi_telegram_id p ∧ username u = bsi_username p ∧
  user_tag u = set_text (bsi_first_name p) ∧ user_description u = full_name p.

Lemma accounts_put u d : accounts_ok d → (∀ i a, users d !! i = Some a → telegram_id a = telegram_id u → i = user_id u) →
  accounts_ok (put users_tbl u d) ∧ users (put users_tbl u d) !! user_id u = Some u.
Proof.
  intros [Hk Hu] Hnew. split; [split; [exact (keyed_put users_tbl u d Hk)|]
    |exact (lookup_insert_eq (users d) (user_id u) u)].
  intros i j a b. change (users (put users_tbl u d)) with (<[user_id u := u]> (users d)). rewrite !lookup_insert.
  destruct (decide (user_id u = i)) as [<-|Hi], (decide (user_id u = j)) as [<-|Hj]; [done| | |exact (Hu i j a b)].
  - intros [= <-] Hb E. symmetry. by apply (Hnew j b Hb).
  - intros Ha [= <-] E. by apply (Hnew i a Ha).
Qed.

Lemma get_user_unique tg s : accounts_ok (db s) → ∃ o, get_user_by_telegram_id tg s = (Ok o, s) ∧
  match o with
  | Some u => users (db s) !! user_id u = Some u ∧ telegram_id u = tg
  | None => ∀ i a, users (db s) !! i = Some a → telegram_id a ≠ tg
  end.
Proof.
  intros [Hk Hu]. destruct (select_unique_run users_tbl (λ u, telegram_id u =? tg) s Hk) as (o & E & Ho).
  { intros i j a b Ha Hb Ea%Z.eqb_eq Eb%Z.eqb_eq. apply (Hu i j a b Ha Hb). congruence. }
  exists o. split; [exact E|]. destruct o as [u|]; [split; [apply Ho|apply Z.eqb_eq, Ho]|]. intros i a Ha. apply Z.eqb_neq. by eapply Ho.
Qed.

(** A user whose columns are those of the payload is left alone. *)
Lemma ensure_synced n p u s : accounts_ok (db s) → synced p (db s) u → _ensure_user n p s = (Ok (u, false), s).
Proof.
  intros Hok (Hin & Htg & Hn & Ht & Hd). unfold _ensure_user. destruct (get_user_unique (bsi_telegram_id p) s Hok) as (o & E & Ho).
  unfold mbind, M_bind. rewrite E. destruct o as [v|]; [|by edestruct Ho]. destruct Ho as [Hv Etg].
  assert (user_id v = user_id u) as Eid by (eapply (proj2 Hok); [exact Hv|exact Hin|congruence]).
  rewrite Eid, Hin in Hv. injection Hv as <-. unfold changed_col. rewrite !bool_decide_true by done. done.
Qed.

(** What the update and the creation leave behind. *)
Lemma update_synced p u s r s1 : accounts_ok (db s) → users (db s) !! user_id u = Some u → telegram_id u = bsi_telegram_id p →
  update_user (user_id u) {| uu_username := changed_col (username u) (bsi_username p); uu_balance := None; uu_is_active := None;
    uu_tag := changed_col (user_tag u) (set_text (bsi_first_name p)); uu_description := changed_col (user_description u) (full_name p);
    uu_terms_accepted := None; uu_terms_accepted_at := None |} s = (Ok r, s1) →
  accounts_ok (db s1) ∧ synced p (db s1) r.
Proof.
  intros Hok Hin Htg. set (q := {| uu_username := _ |}).
  assert (user_row_or_error (user_id u) s = (Ok u, s)) as Eu.
  { unfold user_row_or_error, mbind, M_bind, get_by_id, read, gets. cbn [t_rows users_tbl]. by rewrite Hin. }
  unfold update_user, mbind at 1, M_bind at 1. rewrite Eu. assert (Hcol : ∀ old new : option string, nullable_of (changed_col old new) old = new).
  { intros old new. unfold changed_col. by case_bool_decide. }
  destruct (empty_update q) eqn:Eq.
  - intros [= <- <-]. split; [done|]. unfold empty_update in Eq. subst q. cbn in Eq. rewrite !andb_true_iff in Eq.
    assert (Hun : ∀ old new : option string, unset (changed_col old new) = true → old = new).
    { intros old new. unfold changed_col. by case_bool_decide. }
    split_and!; [done|done|apply Hun; tauto..].
  - change (set_to_null (uu_balance q) || set_to_null (uu_is_active q) || set_to_null (uu_terms_accepted q)) with false.
    unfold raise_if, mbind, M_bind, mret, M_ret. rewrite update_run. cbn [t_rows users_tbl]. rewrite Hin. cbv zeta.
    destruct (t_check _ _ _ _); [done|]. set (r' := patch_user q (t_touch users_tbl (clock s (ticks s)) u)).
    destruct (accounts_put r' (db s) Hok) as [Hok' Hl].
    { intros i a Ha Ea. eapply (proj2 Hok); [exact Ha|exact Hin|exact Ea]. }
    change (user_id r') with (user_id u) in Hl. cbn [db with_db tick t_rows users_tbl]. rewrite Hl. intros [= <- <-].
    split; [done|]. split_and!; [done|done|apply Hcol..].
Qed.

Lemma create_synced n p s r s1 : accounts_ok (db s) → (∀ i a, users (db s) !! i = Some a → telegram_id a ≠ bsi_telegram_id p) →
  create_user n {| uc_telegram_id := bsi_telegram_id p; uc_username := bsi_username p; uc_tag := set_text (bsi_first_name p);
    uc_description := full_name p |} "bot" s = (Ok r, s1) →
  accounts_ok (db s1) ∧ synced p (db s1) r.
Proof.
  intros Hok Hnone. destruct (get_user_unique (bsi_telegram_id p) s Hok) as (o & E & Ho).
  destruct o as [v|]; [by destruct (Hnone _ _ (proj1 Ho)); apply Ho|]. unfold create_user, mbind, M_bind. cbn [uc_telegram_id]. rewrite E.
  rewrite bool_decide_false by (by intros []). cbn [raise_if]. unfold mret, M_ret. rewrite create_run. cbv zeta. set (u := {| user_id := _ |}).
  destruct (t_rows users_tbl (db s) !! t_id users_tbl u); [done|]. destruct (t_check users_tbl (db s) None u); [done|].
  destruct (accounts_put u (db s) Hok) as [Hok' Hl]; [intros i a Ha Ea; by destruct (Hnone i a Ha)|].
  destruct n; cbn; intros [= <- <-]; (split; [exact Hok'|by split_and!]).
Qed.

(** Signing in is idempotent. Where every Telegram account has one user, a sign-in that
    succeeds leaves it so and leaves the user with the names of the payload; the same sign-in again
    finds that user, who is not new, and changes nothing at all: no row, no event. *)
Theorem sign_in_idempotent n p s u new s1 : accounts_ok (db s) → _ensure_user n p s = (Ok (u, new), s1) →
  accounts_ok (db s1) ∧ synced p (db s1) u ∧ _ensure_user n p s1 = (Ok (u, false), s1).
Proof.
  intros Hok E. cut (accounts_ok (db s1) ∧ synced p (db s1) u).
  { intros [H1 H2]. split_and!; [done..|]. by apply ensure_synced. }
  revert E. unfold _ensure_user. destruct (get_user_unique (bsi_telegram_id p) s Hok) as (o & Eo & Ho).
  unfold mbind at 1, M_bind at 1. rewrite Eo. destruct o as [v|].
  - destruct (empty_update _) eqn:Eq.
    + intros [= <- <- <-]. eapply update_synced; [exact Hok|apply Ho..|].
      unfold update_user, user_row_or_error, mbind, M_bind, get_by_id, read, gets. cbn [t_rows users_tbl]. rewrite (proj1 Ho), Eq. done.
    + unfold mbind, M_bind. destruct (update_user _ _ s) as [[r|e] s'] eqn:Er; [|done]. intros [= <- <- <-].
      eapply update_synced; [exact Hok|apply Ho..|exact Er].
  - unfold mbind, M_bind. destruct (create_user _ _ _ s) as [[r|e] s'] eqn:Er; [|done]. intros [= <- <- <-].
    by eapply create_synced.
Qed.

(** * On a small shop *)

Definition bot_cfg : SubscriptionConfig :=
  {| max_devices_default := 1; smart_route_max_count := 1; public_base_url := "https://sub/"; edge_public_domain := "edge";
     profile_registry := []; sub_tokens := tokens sample_env; sha256 := λ h, h; sc_command_prefix := "cmd" |}.

Definition sample_bot : BotEnv :=
  {| migration_enabled := false; gift_plan_name := ""; gateway_available := λ _, true; code_of := str_uuid; fallback_code := str_uuid |}.

(** User 1 notes the message in which order 70 was shown. *)
Lemma bot_requests_gated_witness :
  names_own shop_db 1 (UpdateOrder 70 (Some 1) (Some 5)).
Proof.
  destruct (bot_requests_gated no_keys sample_env bot_cfg sample_bot 1 (UpdateOrder 70 (Some 1) (Some 5)) shop_session)
    as (u & (Hin & Htg & _) & Hown).
  - intros E. apply (f_equal (λ d, provider_meta <$> orders d !! 70)) in E. vm_compute in E. discriminate E.
  - apply elem_of_rows in Hin as [i Hi]. change (({[1 := sample_user 1 30000]} : gmap Z User) !! i = Some u) in Hi.
    apply lookup_singleton_Some in Hi as [<- <-]. exact Hown.
Defined.

(** User 1 has a running subscription whose link is known. *)
Definition linked_sub (b : Subscription) : Subscription := rotated_sub "tok" "tokhash" (sub_token_hash b) 0 0 b.

Definition bot_session : session :=
  {| db := set_node_policies {[1 := sample_policy]} (set_subscriptions {[80 := linked_sub (running_sub true)]} shop_db); clock := λ _, day; ticks := 0; next_uuid := 1000; effects := [] |}.

Lemma dashboard_truthful_witness :
  ∃ so s1, _build_session (sample_user 1 30000) false None bot_session = (Ok so, s1) ∧
    (shown_live (so_state so) ↔ own_live day (db bot_session) 1) ∧
    ∃ r s2, issue_subscription_link bot_cfg 1 bot_session = (Ok r, s2) ∧
      link_of bot_cfg day (sample_user 1 30000) (db s2) r ∧ db s2 = db bot_session.
Proof.
  assert (Hone : ∀ b, b ∈ rows (subscriptions (db bot_session)) → b = linked_sub (running_sub true)).
  { intros b [i Hi]%elem_of_rows. change (({[80 := linked_sub (running_sub true)]} : gmap Z Subscription) !! i = Some b) in Hi.
    by apply lookup_singleton_Some in Hi as [_ <-]. }
  destruct (dashboard_truthful bot_cfg 1 (sample_user 1 30000) false day bot_session) as (so & s1 & E & _ & Hst & _ & Hlink).
  - intros i b. cbn. intros [<- <-]%lookup_singleton_Some. reflexivity.
  - intros n. reflexivity.
  - split; [vm_compute; discriminate|vm_compute; lia].
  - vm_compute. reflexivity.
  - exists so, s1. split; [exact E|]. split; [exact Hst|].
    assert (Ha : match _build_session (sample_user 1 30000) false None bot_session with
                 | (Ok so, _) => so_available_actions so | _ => [] end =
      [OPEN_HELP; OPEN_CONNECT; OPEN_DEVICES; ISSUE_LINK; RENEW; BUY_DEVICE_SLOTS]) by (vm_compute; reflexivity).
    rewrite E in Ha. rewrite bool_decide_true in Hlink by (rewrite Ha; apply list_elem_of_In; cbn; auto 10).
    destruct Hlink as (r & s2 & Er & Hr & Hdb).
    + intros b (_ & Hb & _) Ht. cbn [fst snd] in Hb. rewrite (Hone b Hb) in Ht. discriminate Ht.
    + exists r, s2. split; [exact Er|]. split; [exact Hr|]. apply Hdb. intros b Hb _ _. rewrite (Hone b Hb). eexists. reflexivity.
Defined.

(** A newcomer signs in. *)
Definition newcomer : BotSessionSyncIn :=
  {| bsi_telegram_id := 9; bsi_username := Some "ann"; bsi_first_name := Some "Ann"; bsi_last_name := Some "Lee" |}.

Lemma sign_in_idempotent_witness :
  let r := _ensure_user true newcomer shop_session in
  match r.1 with
  | Ok (u, new) => new = true ∧ user_description u = Some "Ann Lee" ∧ effects r.2 = [PublishUserRegistered 9 (Some "ann") "bot"] ∧
      _ensure_user true newcomer r.2 = (Ok (u, false), r.2)
  | Raise _ => False
  end.
Proof.
  cbv zeta. destruct (_ensure_user true newcomer shop_session) as [[[u new]|e] s1] eqn:E; [|vm_compute in E; discriminate E].
  destruct (sign_in_idempotent true newcomer shop_session u new s1) as (_ & _ & H).
  - split; [apply shop_db_inv|]. intros i j a b Ha Hb _.
    change (({[1 := sample_user 1 30000]} : gmap Z User) !! i = Some a) in Ha. change (({[1 := sample_user 1 30000]} : gmap Z User) !! j = Some b) in Hb.
    apply lookup_singleton_Some in Ha as [<- _]. by apply lookup_singleton_Some in Hb as [<- _].
  - exact E.
  - split_and!; [| | |exact H]; vm_compute in E; by injection E as <- <- <-.
Defined.

(** The plan at 100 Stars a month, 1000 Stars a year. *)
Definition plan_stars : Plan :=
  {| plan_id := 50; plan_name := "Pro"; plan_description := None; traffic_limit_bytes := 0; reset_strategy := "NO_RESET";
     plan_max_devices := 5; duration_days := 30; sort_order := 0; whitelist_enabled := false; entry_relay_enabled := false;
     included_devices := 2; price_rub := 20000; device_price_rub := 5000; price_stars := Some 100; device_price_stars := None;
     periods := [{| months := 12; period_price_rub := 200000; period_price_stars := Some 1000 |}];
     plan_is_active := true; plan_created_at := 0; plan_updated_at := 0 |}.

(** The invoice in Stars is that of one month whatever the period: the year of a plan at
    100 Stars a month, 1000 Stars a year, is invoiced at 100 Stars, and the payment of 100 Stars,
    whose amount nothing compares, delivers the year. *)
Theorem year_for_the_stars_of_a_month :
  let s0 := session_on (set_node_policies {[1 := sample_policy]} (set_plans {[50 := plan_stars]} shop_db)) 0 1000 in
  let r1 := run_request (create_bot_order no_keys sample_env 1
     {| bo_plan_id := 50; bo_provider := STARS; bo_extra_devices := 0; bo_period_months := 12; bo_payment_method := None;
        bo_promo_code := None |}) s0 in
  let r2 := run_request (confirm_bot_stars no_keys sample_env 1 1001 "charge" 100) r1.2 in
  _resolve_period_price_stars plan_stars 12 = Some 1000 ∧
  match r1.1 with Ok a => (order_id a.1.1, a.1.2) = (1001, Some 100) | Raise _ => False end ∧
  match r2.1 with
  | Ok a => order_status a.1.1 = COMPLETED ∧ match so_subscription a.2 with Some b => sub_period_months (bs_row b) = 12 | None => False end
  | Raise _ => False
  end.
Proof. cbv zeta. split_and!; vm_compute; auto. Qed.

(** An administrator's update of a user writes the balance and no transaction: the ledger that
    every other operation keeps no longer adds up. *)
Theorem user_update_breaks_ledger :
  let s := (run_request (update_user 1 {| uu_username := None; uu_balance := Some (Some 99900); uu_is_active := None; uu_tag := None;
              uu_description := None; uu_terms_accepted := None; uu_terms_accepted_at := None |}) shop_session).2 in
  balance <$> users (db s) !! 1 = Some 99900 ∧ (tx_amount <$> transactions (db s)) = [30000] ∧ ¬ billing_inv (db s).
Proof.
  cbv zeta. split_and!; [vm_compute; reflexivity..|]. intros [[_ H] _ _].
  specialize (H 1 _ eq_refl). vm_compute in H. by destruct H.
Qed.
