(* ===== verification/Artifacts.v ===== *)
(** The artifact store (services/artifacts): publishing a registry of profiles, and the bootstrap
    that makes transport profiles and routes from the active one; with the mapper of profiles
    (shared/profiles/artifact_mapper.py). *)

From stdpp Require Import base gmap strings list sorting pretty.
From Stdlib Require Import Ascii.
From S2P Require Import Prelude Errors RouteModels RouteStateMachine BillingModels FleetModels SupportModels Session Uuid NodeDisplay Tables FleetTables Routing Routes VlessUri Payload Probe ProbeProps PlacementRuns.
Local Open Scope Z_scope.

(** * The store *)

Definition set_inactive (now : Z) (a : ProfileArtifact) : ProfileArtifact :=
  {| pa_id := pa_id a; pa_version := pa_version a; pa_checksum := pa_checksum a; pa_artifact := pa_artifact a;
     pa_is_active := false; pa_created_at := pa_created_at a; pa_updated_at := now |}.

Definition deactivate_all : SM unit :=
  now ← utcnow; update_where artifacts_tbl pa_is_active (set_inactive now) ;; mret tt.

Definition get_latest_version : SM Z :=
  l ← select_where artifacts_tbl (λ _, true);
  mret (from_option pa_version 0 (head (order_by_desc pa_version l))).

(** * Profiles of the payload *)

(** The value of a key of an object, as a string or an object. *)
Definition field (k : string) (o : list (string * json)) : option json := snd <$> find (λ kv, String.eqb kv.1 k) o.
Definition as_str (j : json) : option string := match j with JStr s => Some s | JTime t => Some (isoformat t) | _ => None end.
Definition as_obj (j : json) : option (list (string * json)) := match j with JObj o => Some o | _ => None end.

Definition invalid {A} : res A := Raise (ValidationError "profile").
Definition required (k : string) (o : list (string * json)) : res string :=
  match field k o ≫= as_str with Some s => Ok s | None => invalid end.
(** A string with a default, and a string or null. *)
Definition with_default (k dflt : string) (o : list (string * json)) : res string :=
  match field k o with
  | None => Ok dflt
  | Some j => match as_str j with Some s => Ok s | None => invalid end
  end.
Definition nullable (k : string) (o : list (string * json)) : res (option string) :=
  match field k o with
  | None | Some JNull => Ok None
  | Some j => match as_str j with Some s => Ok (Some s) | None => invalid end
  end.

Inductive ProfileIn :=
| WsTlsProfileIn (display_name : string) (client : WsTlsClientConfig)
| RealityTcpProfileIn (display_name : string) (client : RealityTcpClientConfig)
| XHttpProfileIn (display_name : string) (client : XHttpClientConfig).

Definition ws_client (o : list (string * json)) : res WsTlsClientConfig :=
  path ← required "path" o; host ← required "host" o; sni ← required "sni" o; mk_WsTlsClientConfig path host sni.

Definition reality_client (o : list (string * json)) : res RealityTcpClientConfig :=
  sni ← required "sni" o; flow_ ← nullable "flow" o; fingerprint ← required "fingerprint" o; public_key ← required "public_key" o;
  short_id ← required "short_id" o; spider ← nullable "spider_x" o;
  match spider with Some x => check_len 0 128 x | None => Ok tt end ;;
  c ← mk_RealityTcpClientConfig sni flow_ fingerprint public_key short_id;
  Ok {| rt_sni := rt_sni c; rt_flow := rt_flow c; rt_fingerprint := rt_fingerprint c; rt_public_key := rt_public_key c;
        rt_short_id := rt_short_id c; spider_x := spider |}.

Definition xhttp_client (o : list (string * json)) : res XHttpClientConfig :=
  path ← required "path" o; host ← required "host" o; sni ← required "sni" o; mode ← with_default "mode" "packet-up" o;
  fingerprint ← with_default "fingerprint" "chrome" o; alpn ← with_default "alpn" "h2,http/1.1" o;
  extra ← match field "extra" o with
          | None => Ok []
          | Some j => match as_obj j with Some x => Ok x | None => invalid end
          end;
  check_len 1 64 fingerprint ;;
  c ← mk_XHttpClientConfig path host sni mode alpn extra;
  Ok {| xh_path := xh_path c; xh_host := xh_host c; xh_sni := xh_sni c; xh_mode := xh_mode c; xh_fingerprint := fingerprint;
        xh_alpn := xh_alpn c; xh_extra := xh_extra c |}.

(** [ProfileInAdapter.validate_python]: the type decides the model. *)
Definition validate_profile (o : list (string * json)) : res ProfileIn :=
  ty ← required "type" o;
  name ← required "display_name" o;
  match field "client" o ≫= as_obj with
  | None => invalid
  | Some client =>
      if String.eqb ty "ws_tls" then c ← ws_client client; Ok (WsTlsProfileIn name c)
      else if String.eqb ty "reality_tcp" then c ← reality_client client; Ok (RealityTcpProfileIn name c)
      else if String.eqb ty "xhttp" then c ← xhttp_client client; Ok (XHttpProfileIn name c)
      else invalid
  end.

Definition is_ok {A} (r : res A) : bool := match r with Ok _ => true | Raise _ => false end.

(** [ProfileArtifactPublishIn]: not empty, every value a valid profile. *)
Definition validate_artifact (artifact : list (string * json)) : bool :=
  bool_decide (artifact ≠ []) &&
  forallb (λ kv, match as_obj kv.2 with Some o => is_ok (validate_profile o) | None => false end) artifact.

(** ** Names *)

Definition name_char (c : ascii) : bool :=
  is_lower c || is_upper c || ((48 <=? code c) && (code c <=? 57)) || (code c =? 95) || (code c =? 45).

(** [re.sub(r"[^a-zA-Z0-9_-]+", "-", s)]: [skipping] while in a run. *)
Fixpoint dash_others (skipping : bool) (s : string) : string :=
  match s with
  | EmptyString => EmptyString
  | String c s =>
      if name_char c then String c (dash_others false s)
      else if skipping then dash_others true s else String "-" (dash_others true s)
  end.

(** [re.sub(r"-{2,}", "-", s)]. *)
Fixpoint squeeze_dashes (after_dash : bool) (s : string) : string :=
  match s with
  | EmptyString => EmptyString
  | String c s =>
      if code c =? 45 then (if after_dash then squeeze_dashes true s else String c (squeeze_dashes true s)) else String c (squeeze_dashes false s)
  end.

Section Mapper.
(** The hexadecimal SHA-1 of a text. *)
Context (sha1 : string → string).

Definition normalize_name (key : string) (max_len : nat) : string :=
let n := strip (λ c, (code c =? 45) || (code c =? 95)) (squeeze_dashes false (dash_others false (lower (py_strip key)))) in
let n := if nonempty n then n else "bootstrap" in
if (char_len n <=? Z.of_nat max_len) then n
else take_chars (max_len - 9) n +:+ "-" +:+ take_chars 8 (sha1 n).

Record ArtifactProfile := {
ap_artifact_key : string;
ap_name : string;
ap_network : string;
ap_security : string;
ap_flow : option string;
ap_reality_public_key : option string;
ap_reality_short_id : option string;
ap_reality_server_name : option string;
ap_tls_fingerprint : string;
ap_port : Z;
}.

Record MapperConfig := {
include_reality_tcp : bool;
include_ws_tls : bool;
include_xhttp : bool;
default_reality_port : Z;
default_ws_port : Z;
default_xhttp_port : Z;
profile_port_overrides : list (string * Z);
}.

Definition port_for (cfg : MapperConfig) (key : string) (dflt : Z) : Z :=
from_option snd dflt (find (λ kp, String.eqb kp.1 key) (profile_port_overrides cfg)).

(** [ArtifactProfile(...)]: the port is checked, the other columns have the lengths the clients
    are checked for. *)
Definition mk_profile (key name : string) (net sec : string) (client : option RealityTcpClientConfig) (port_ : Z) : res ArtifactProfile :=
if (1 <=? port_) && (port_ <=? 65535) then
  Ok {| ap_artifact_key := key; ap_name := name; ap_network := net; ap_security := sec; ap_flow := client ≫= rt_flow;
        ap_reality_public_key := rt_public_key <$> client; ap_reality_short_id := rt_short_id <$> client;
        ap_reality_server_name := rt_sni <$> client; ap_tls_fingerprint := from_option rt_fingerprint "chrome" client; ap_port := port_ |}
else Raise (ValidationError "port").

(** One item: a profile, or why it is skipped.  The text of a validation error is not kept. *)
Definition map_item (cfg : MapperConfig) (used : gset string) (raw_key : string) (raw : json) : res (ArtifactProfile + string) :=
let key := py_strip raw_key in
if negb (nonempty key) then Ok (inr "<empty-key>: skipped (empty key)")
else match as_obj raw with
     | None => Ok (inr (key +:+ ": skipped (profile value must be an object)"))
     | Some o =>
         let name := normalize_name key 100 in
         if bool_decide (name ∈ used) then Ok (inr (key +:+ ": skipped (normalized transport name collision: " +:+ name +:+ ")"))
         else match validate_profile o with
              | Raise _ => Ok (inr (key +:+ ": skipped (invalid profile payload)"))
              | Ok (RealityTcpProfileIn _ c) =>
                  if include_reality_tcp cfg then
                    p ← mk_profile key name "tcp" "reality" (Some c) (port_for cfg key (default_reality_port cfg)); Ok (inl p)
                  else Ok (inr (key +:+ ": skipped by include_reality_tcp=false"))
              | Ok (WsTlsProfileIn _ _) =>
                  if include_ws_tls cfg then p ← mk_profile key name "ws" "tls" None (port_for cfg key (default_ws_port cfg)); Ok (inl p)
                  else Ok (inr (key +:+ ": skipped by include_ws_tls=false"))
              | Ok (XHttpProfileIn _ _) =>
                  if include_xhttp cfg then p ← mk_profile key name "xhttp" "tls" None (port_for cfg key (default_xhttp_port cfg)); Ok (inl p)
                  else Ok (inr (key +:+ ": skipped by include_xhttp=false"))
              end
     end.

Fixpoint map_items (cfg : MapperConfig) (used : gset string) (l : list (string * json)) : res (list ArtifactProfile * list string) :=
match l with
| [] => Ok ([], [])
| (k, raw) :: l =>
    x ← map_item cfg used k raw;
    match x with
    | inl p => r ← map_items cfg ({[ap_name p]} ∪ used) l; Ok (p :: r.1, r.2)
    | inr why => r ← map_items cfg used l; Ok (r.1, why :: r.2)
    end
end.

(** [ArtifactProfileMapper.map]: the desired profiles, those that are skipped, the total. *)
Definition map_artifact (cfg : MapperConfig) (artifact : list (string * json)) : res (list ArtifactProfile * list string * Z) :=
r ← map_items cfg ∅ (order_by_name fst artifact);
Ok (r.1, r.2, Z.of_nat (length artifact)).
End Mapper.

(** * The service *)

Record ArtifactEnv := {
  (** The SHA-256 of the sorted JSON text of a payload, and the SHA-1 of a name. *)
  checksum_of : list (string * json) → string;
  sha1_hex : string → string;
}.

Record ArtifactRoutesBootstrapIn := {
  bi_backend_node_ids : list Z;
  bi_entry_node_ids : list Z;
  bi_include_reality_tcp : bool;
  bi_include_ws_tls : bool;
  bi_default_reality_port : Z;
  bi_default_ws_port : Z;
  bi_port_overrides : list (string * Z);
  route_base_weight : Z;
  recover_unhealthy_routes : bool;
  expected_backends_selected : option Z;
  expected_profiles_selected : option Z;
  expected_routes_total : option Z;
  dry_run : bool;
}.

Definition port_ok (p : Z) : bool := (1 <=? p) && (p <=? 65535).
Definition at_least (n : Z) (o : option Z) : bool := match o with Some x => n <=? x | None => true end.

Definition bootstrap_valid (p : ArtifactRoutesBootstrapIn) : bool :=
  port_ok (bi_default_reality_port p) && port_ok (bi_default_ws_port p) && (0 <=? route_base_weight p) && (route_base_weight p <=? 100) &&
  at_least 1 (expected_backends_selected p) && at_least 1 (expected_profiles_selected p) && at_least 0 (expected_routes_total p) &&
  forallb (λ kp, nonempty (py_strip kp.1) && port_ok kp.2) (bi_port_overrides p).

(** [normalized[key] = port]: the last of equal keys, as a lookup from the end. *)
Definition normalized_overrides (p : ArtifactRoutesBootstrapIn) : list (string * Z) :=
  (λ kp, (py_strip kp.1, kp.2)) <$> reverse (bi_port_overrides p).

Definition mapper_of (p : ArtifactRoutesBootstrapIn) : MapperConfig :=
  {| include_reality_tcp := bi_include_reality_tcp p; include_ws_tls := bi_include_ws_tls p; include_xhttp := true;
     default_reality_port := bi_default_reality_port p; default_ws_port := bi_default_ws_port p; default_xhttp_port := 443;
     profile_port_overrides := normalized_overrides p |}.

(** ** Nodes *)

Definition found_node (found : list VpnNode) (i : Z) : option VpnNode := find (λ n, node_id n =? i) found.
Definition missing_ids (found : list VpnNode) (ids : list Z) : list Z := filter (λ i, found_node found i = None) ids.

Definition list_target_nodes_by_ids (ids : list Z) : SM (list VpnNode) := select_where nodes_tbl (λ n, bool_decide (node_id n ∈ ids)).

Definition in_service (n : VpnNode) : bool := node_is_active n && is_enabled n && negb (is_draining n).

Definition _resolve_target_backends (ids : list Z) : SM (list VpnNode) :=
  ordered ← match ids with
            | [] => l ← list_public; mret (order_by_name node_name l)
            | _ =>
                l ← list_target_nodes_by_ids ids;
                raise_if (bool_decide (missing_ids l ids ≠ []))
                  (HTTPException 404 ("Backend nodes not found: " +:+ join ", " (str_uuid <$> missing_ids l ids))) ;;
                mret (omap (found_node l) ids)
            end;
  mret (filter (λ n, (in_service n && bool_decide (normalized_node_role n = Some role_backend)) = true) ordered).

Definition _resolve_target_entry_nodes (ids : list Z) : SM (list VpnNode) :=
  match ids with
  | [] => mret []
  | _ =>
      l ← list_target_nodes_by_ids ids;
      raise_if (bool_decide (missing_ids l ids ≠ []))
        (HTTPException 404 ("Entry nodes not found: " +:+ join ", " (str_uuid <$> missing_ids l ids))) ;;
      let ordered := omap (found_node l) ids in
      let wrong := filter (λ n, normalized_node_role n ≠ Some role_whitelist_entry) ordered in
      raise_if (bool_decide (wrong ≠ []))
        (HTTPException 422 ("Entry nodes must have role=whitelist_entry: " +:+ join ", " ((λ n, str_uuid (node_id n)) <$> wrong))) ;;
      mret (filter (λ n, in_service n = true) ordered)
  end.

Definition mismatch (what : string) (expected actual : Z) : exn :=
  HTTPException 409 ("Bootstrap matrix mismatch: expected_" +:+ what +:+ "=" +:+ pretty expected +:+ ", actual_" +:+ what +:+ "=" +:+ pretty actual).
Definition expect (what : string) (expected : option Z) (actual : Z) : SM unit :=
  match expected with Some e => raise_if (negb (e =? actual)) (mismatch what e actual) | None => mret tt end.

Definition _validate_matrix_expectations (p : ArtifactRoutesBootstrapIn) (backends profiles total : Z) : SM unit :=
  expect "backends_selected" (expected_backends_selected p) backends ;;
  expect "profiles_selected" (expected_profiles_selected p) profiles ;;
  expect "routes_total" (expected_routes_total p) total.

(** ** Transport profiles *)

Definition desired_transport (p : ArtifactProfile) (id updated : Z) : TransportProfile :=
  {| tp_id := id; tp_name := ap_name p; tp_protocol := "vless"; network := ap_network p; security := ap_security p; flow := ap_flow p;
     reality_public_key := ap_reality_public_key p; reality_short_id := ap_reality_short_id p;
     reality_server_name := ap_reality_server_name p; tls_fingerprint := ap_tls_fingerprint p; grpc_service_name := None;
     port := ap_port p; tp_is_active := true; tp_updated_at := updated |}.

Definition _transport_needs_update (e : TransportProfile) (p : ArtifactProfile) : bool :=
  negb (bool_decide (tp_name e = ap_name p)) || negb (bool_decide (tp_protocol e = "vless")) ||
  negb (bool_decide (network e = ap_network p)) || negb (bool_decide (security e = ap_security p)) ||
  negb (bool_decide (flow e = ap_flow p)) || negb (bool_decide (reality_public_key e = ap_reality_public_key p)) ||
  negb (bool_decide (reality_short_id e = ap_reality_short_id p)) ||
  negb (bool_decide (reality_server_name e = ap_reality_server_name p)) ||
  negb (bool_decide (tls_fingerprint e = ap_tls_fingerprint p)) || negb (bool_decide (grpc_service_name e = None)) ||
  negb (port e =? ap_port p) || negb (tp_is_active e).

Record Tally := { tl_created : Z; tl_updated : Z; tl_reactivated : Z }.
Definition no_tally : Tally := {| tl_created := 0; tl_updated := 0; tl_reactivated := 0 |}.
Definition count_created (t : Tally) : Tally :=
  {| tl_created := tl_created t + 1; tl_updated := tl_updated t; tl_reactivated := tl_reactivated t |}.
Definition count_updated (was_active : bool) (t : Tally) : Tally :=
  {| tl_created := tl_created t; tl_updated := tl_updated t + 1;
     tl_reactivated := if was_active then tl_reactivated t else tl_reactivated t + 1 |}.

(** The dictionaries [transport_by_name] and [route_by_name] hold rows of the session: a name
    leads to an id, and the row is read where it is used. *)
Definition by_name {R} (name : R → string) (id : R → Z) (l : list R) : gmap string Z := list_to_map ((λ r, (name r, id r)) <$> reverse l).

Fixpoint sync_transports (dry : bool) (names : gmap string Z) (t : Tally) (l : list ArtifactProfile) : SM (gmap string Z * Tally) :=
  match l with
  | [] => mret (names, t)
  | p :: l =>
      e ← match names !! ap_name p with Some i => get_by_id profiles_tbl i | None => mret None end;
      match e with
      | None =>
          if dry then sync_transports dry names (count_created t) l
          else row ← create profiles_tbl (desired_transport p);
               sync_transports dry (<[ap_name p := tp_id row]> names) (count_created t) l
      | Some e =>
          if negb (_transport_needs_update e p) && tp_is_active e then sync_transports dry names t l
          else (if dry then mret tt
                else update_by_id profiles_tbl (tp_id e) (λ r, desired_transport p (tp_id r) (tp_updated_at r)) ;; mret tt) ;;
               sync_transports dry names (count_updated (tp_is_active e) t) l
      end
  end.

(** ** Routes *)

Definition to_recover (st : RouteHealthStatus) : bool := match st with blocked | degraded | suspected => true | _ => false end.

(** What changes of a route: where it leads, or only its weight. *)
Definition structural_change (e : Route) (backend : Z) (entry : option Z) (profile : Z) : bool :=
  negb (route_node_id e =? backend) || negb (bool_decide (route_entry_node_id e = entry)) ||
  negb (route_transport_profile_id e =? profile).

(** The state the route is to have; [now] is read when it is recovered. *)
Definition bootstrap_state (e : Route) (reset : bool) (w : Z) (recover_ : bool) (now : Z) : res RouteStateResolution :=
  let clamped := if negb (base_weight e =? w) && negb reset then Z.min (Z.max 0 (effective_weight e)) w else effective_weight e in
  if reset then
    Ok {| rs_health_status := healthy; rs_effective_weight := w; rs_cooldown_until := None; rs_warmup_stage := None; rs_warmup_started_at := None |}
  else if recover_ && (to_recover (health_status e) || (clamped <=? 0)) then resolve_bootstrap_recovery w now
  else Ok {| rs_health_status := health_status e; rs_effective_weight := clamped; rs_cooldown_until := cooldown_until e;
             rs_warmup_stage := warmup_stage e; rs_warmup_started_at := warmup_started_at e |}.

(** The row with the values of [RouteReactivationUpdate]. *)
Definition reactivated (e : Route) (backend : Z) (entry : option Z) (profile w : Z) (st : RouteStateResolution) : Route :=
  {| route_id := route_id e; route_name := route_name e; route_node_id := backend; route_entry_node_id := entry;
     route_transport_profile_id := profile; health_status := rs_health_status st; base_weight := w;
     effective_weight := Z.max 0 (Z.min w (rs_effective_weight st)); cooldown_until := rs_cooldown_until st;
     warmup_stage := rs_warmup_stage st; warmup_started_at := rs_warmup_started_at st; route_is_active := true;
     route_created_at := route_created_at e; route_updated_at := route_updated_at e |}.

#[export] Instance Route_eq_dec : EqDecision Route.
Proof. solve_decision. Defined.

(** The new row, or nothing when it is the old one; the clock is read when the route is
    recovered. *)
Definition _build_route_update (e : Route) (backend : Z) (entry : option Z) (profile : option Z) (w : Z) (recover_ : bool)
    : SM (option Route) :=
  let target := default (route_transport_profile_id e) profile in
  let reset := structural_change e backend entry target || negb (route_is_active e) in
  let clamped := if negb (base_weight e =? w) && negb reset then Z.min (Z.max 0 (effective_weight e)) w else effective_weight e in
  now ← (if negb reset && recover_ && (to_recover (health_status e) || (clamped <=? 0)) then utcnow else mret 0);
  st ← lift (bootstrap_state e reset w recover_ now);
  let r := reactivated e backend entry target w st in
  mret (if bool_decide (r = e) then None else Some r).

(** The columns of the update, [updated_at] being set by the statement. *)
Definition written_route (r old : Route) : Route :=
  {| route_id := route_id old; route_name := route_name r; route_node_id := route_node_id r; route_entry_node_id := route_entry_node_id r;
     route_transport_profile_id := route_transport_profile_id r; health_status := health_status r; base_weight := base_weight r;
     effective_weight := effective_weight r; cooldown_until := cooldown_until r; warmup_stage := warmup_stage r;
     warmup_started_at := warmup_started_at r; route_is_active := route_is_active r; route_created_at := route_created_at old;
     route_updated_at := route_updated_at old |}.

Section Bootstrap.
Context (env : ArtifactEnv).

Definition publish_artifact (artifact : list (string * json)) : SM ProfileArtifact :=
raise_if (negb (validate_artifact artifact)) (ValidationError "artifact") ;;
latest ← get_latest_version;
deactivate_all ;;
create artifacts_tbl (λ id now,
  {| pa_id := id; pa_version := latest + 1; pa_checksum := checksum_of env artifact; pa_artifact := artifact; pa_is_active := true;
     pa_created_at := now; pa_updated_at := now |}).

Definition get_active_or_error : SM ProfileArtifact :=
o ← get_active_artifact;
match o with Some a => mret a | None => raise (ArtifactStoreError "No active profiles artifact") end.

Definition _build_route_name (backend_name : string) (entry_name : option string) (transport_name : string) : string :=
normalize_name (sha1_hex env) (canonical_route_name entry_name backend_name transport_name) 100.

(** One cell of the matrix: a backend, an entry or none, and the name of a transport. *)
Definition cell : Type := VpnNode * option VpnNode * string.
Definition cell_name (c : cell) : string := _build_route_name (node_name c.1.1) (node_name <$> c.1.2) c.2.

Definition cells (backends : list VpnNode) (variants : list (option VpnNode)) (names : list string) : list cell :=
b ← backends; e ← variants; n ← names; [(b, e, n)].

Definition new_route (p : ArtifactRoutesBootstrapIn) (c : cell) (profile id now : Z) : Route :=
{| route_id := id; route_name := cell_name c; route_node_id := node_id c.1.1; route_entry_node_id := node_id <$> c.1.2;
   route_transport_profile_id := profile; health_status := healthy; base_weight := route_base_weight p;
   effective_weight := route_base_weight p; cooldown_until := None; warmup_stage := None; warmup_started_at := None;
   route_is_active := true; route_created_at := now; route_updated_at := now |}.

Definition lookup_route (known : gmap string Z) (name : string) : SM (option Route) :=
match known !! name with Some i => get_by_id routes_tbl i | None => mret None end.

Fixpoint sync_routes (p : ArtifactRoutesBootstrapIn) (transports known : gmap string Z) (t : Tally) (l : list cell) : SM Tally :=
match l with
| [] => mret t
| c :: l =>
    e ← lookup_route known (cell_name c);
    match e with
    | None =>
        match dry_run p, transports !! c.2 with
        | false, Some profile =>
            r ← create routes_tbl (new_route p c profile);
            sync_routes p transports (<[cell_name c := route_id r]> known) (count_created t) l
        | _, _ => sync_routes p transports known (count_created t) l
        end
    | Some e =>
        u ← _build_route_update e (node_id c.1.1) (node_id <$> c.1.2) (transports !! c.2) (route_base_weight p) (recover_unhealthy_routes p);
        match u with
        | None => sync_routes p transports known t l
        | Some r =>
            (if dry_run p then mret tt
             else update_by_id routes_tbl (route_id e) (written_route r) ;; mret tt) ;;
            sync_routes p transports known (count_updated (route_is_active e) t) l
        end
    end
end.

Record ArtifactRoutesBootstrapOut := {
bt_artifact_version : Z;
bt_dry_run : bool;
bt_backends_selected : Z;
bt_profiles_total : Z;
bt_profiles_selected : Z;
bt_routes_total : Z;
bt_transports : Tally;
bt_routes : Tally;
bt_skipped_profiles : list string;
}.

Definition list_profiles_by_names (names : list string) : SM (list TransportProfile) :=
select_where profiles_tbl (λ r, bool_decide (tp_name r ∈ names)).
Definition list_routes_by_names (names : list string) : SM (list Route) :=
select_where routes_tbl (λ r, bool_decide (route_name r ∈ names)).

Definition variants_of (entries : list VpnNode) : list (option VpnNode) := match entries with [] => [None] | _ => Some <$> entries end.

(** The first half: what is to be made of what, with every check. *)
Record BootstrapPlan := {
bp_version : Z;
bp_desired : list ArtifactProfile;
bp_skipped : list string;
bp_total : Z;
bp_backends : list VpnNode;
bp_entries : list VpnNode;
}.

Definition plan_size (q : BootstrapPlan) : Z := Z.of_nat (length (bp_desired q) * length (bp_backends q) * length (variants_of (bp_entries q))).

Definition prepare_bootstrap (p : ArtifactRoutesBootstrapIn) : SM BootstrapPlan :=
raise_if (negb (bootstrap_valid p)) (ValidationError "ArtifactRoutesBootstrapIn") ;;
a ← get_active_or_error;
projected ← lift (map_artifact (sha1_hex env) (mapper_of p) (pa_artifact a));
let '(desired, skipped, total) := projected in
raise_if (bool_decide (length desired = 0%nat)) (HTTPException 422 "No eligible profiles in active artifact for bootstrap policy") ;;
backends ← _resolve_target_backends (bi_backend_node_ids p);
raise_if (bool_decide (length backends = 0%nat)) (HTTPException 409 "No eligible backend nodes for routes bootstrap") ;;
entries ← _resolve_target_entry_nodes (bi_entry_node_ids p);
let q := {| bp_version := pa_version a; bp_desired := desired; bp_skipped := skipped; bp_total := total; bp_backends := backends;
            bp_entries := entries |} in
_validate_matrix_expectations p (Z.of_nat (length backends)) (Z.of_nat (length desired)) (plan_size q) ;;
mret q.

Definition plan_names (q : BootstrapPlan) : list string := ap_name <$> bp_desired q.
Definition plan_cells (q : BootstrapPlan) : list cell := cells (bp_backends q) (variants_of (bp_entries q)) (plan_names q).

(** The second half: transports, then routes. *)
Definition carry_out (p : ArtifactRoutesBootstrapIn) (q : BootstrapPlan) : SM ArtifactRoutesBootstrapOut :=
known_transports ← list_profiles_by_names (plan_names q);
ts ← sync_transports (dry_run p) (by_name tp_name tp_id known_transports) no_tally (bp_desired q);
known_routes ← list_routes_by_names (cell_name <$> plan_cells q);
rt ← sync_routes p ts.1 (by_name route_name route_id known_routes) no_tally (plan_cells q);
mret {| bt_artifact_version := bp_version q; bt_dry_run := dry_run p; bt_backends_selected := Z.of_nat (length (bp_backends q));
        bt_profiles_total := bp_total q; bt_profiles_selected := Z.of_nat (length (bp_desired q)); bt_routes_total := plan_size q;
        bt_transports := ts.2; bt_routes := rt; bt_skipped_profiles := bp_skipped q |}.

Definition bootstrap_routes_from_active_artifact (p : ArtifactRoutesBootstrapIn) : SM ArtifactRoutesBootstrapOut :=
q ← prepare_bootstrap p; carry_out p q.
End Bootstrap.

(** * Tables whose rows have names *)

(** What the bootstrap relies on: a well formed row is accepted when its name is free or is the
    name it had. *)
Class NamedTable {R} (t : table R) (name : R → string) (ok : R → Prop) := {
  named_new d r : ok r → (∀ i r', t_rows t d !! i = Some r' → name r' ≠ name r) → t_check t d None r = None;
  named_same d old r : ok r → name r = name old → t_check t d (Some old) r = None;
  named_set_set m m' d : t_set t m (t_set t m' d) = t_set t m d;
}.

Lemma unique_name_new {R} c (m : gmap Z R) id (name : R → string) r :
  (∀ i r', m !! i = Some r' → name r' ≠ name r) → unique_on c m id (λ a b, String.eqb (name a) (name b)) None r = None.
Proof.
  intros H. unfold unique_on, unique. rewrite (proj2 (clashes_false m id _ r)); [done|]. intros i r' Hi _. by apply String.eqb_neq, (H i).
Qed.

Lemma unique_name_same {R} c (m : gmap Z R) id (name : R → string) old r :
  name r = name old → unique_on c m id (λ a b, String.eqb (name a) (name b)) (Some old) r = None.
Proof. intros H. unfold unique_on, unique. by rewrite H, String.eqb_refl. Qed.

#[export] Instance profiles_named : NamedTable profiles_tbl tp_name (λ p, 1 ≤ port p ≤ 65535).
Proof.
  split; [| |done].
  - intros d r Hok H. cbn [t_check profiles_tbl]. rewrite (proj2 (Z.leb_le 1 (port r))), (proj2 (Z.leb_le (port r) 65535)) by lia.
    by apply unique_name_new.
  - intros d old r Hok H. cbn [t_check profiles_tbl]. rewrite (proj2 (Z.leb_le 1 (port r))), (proj2 (Z.leb_le (port r) 65535)) by lia.
    by apply unique_name_same.
Qed.

#[export] Instance routes_named : NamedTable routes_tbl route_name (λ r, 0 ≤ effective_weight r ≤ base_weight r).
Proof.
  split; [| |done].
  - intros d r Hok H. cbn [t_check routes_tbl]. rewrite (proj2 (route_check_None r) Hok). by apply unique_name_new.
  - intros d old r Hok H. cbn [t_check routes_tbl]. rewrite (proj2 (route_check_None r) Hok). by apply unique_name_same.
Qed.

Section Named.
Context {R : Type} (t : table R) (name : R → string) (ok : R → Prop) `{!TableLaws t, !NamedTable t name ok}.

(** Rows are under their ids, names are unique, and the ids to come are free. *)
Definition tidy (s : session) : Prop :=
keyed t (db s) ∧ (∀ i j a b, t_rows t (db s) !! i = Some a → t_rows t (db s) !! j = Some b → name a = name b → i = j) ∧
(∀ i, next_uuid s ≤ i → t_rows t (db s) !! i = None).

(** The dictionary leads from a name to the row of that name. *)
Definition knows (d : database) (known : gmap string Z) (n : string) : Prop :=
match known !! n with
| Some i => ∃ r, t_rows t d !! i = Some r ∧ name r = n
| None => ∀ i r, t_rows t d !! i = Some r → name r ≠ n
end.

Lemma by_name_knows d (names : list string) n : keyed t d → n ∈ names →
knows d (by_name name (t_id t) (filter (λ r, bool_decide (name r ∈ names) = true) (rows (t_rows t d)))) n.
Proof using Type.
intros Hk Hn. unfold knows, by_name. destruct (_ !! n) as [i|] eqn:E.
- apply elem_of_list_to_map_2, list_elem_of_fmap in E as (r & [= -> ->] & Hr).
  apply elem_of_reverse, list_elem_of_filter in Hr as [_ [j Hj]%elem_of_rows]. exists r. by rewrite (Hk j r Hj).
- apply not_elem_of_list_to_map_2 in E. intros i r Hi Hname. apply E. rewrite <-list_fmap_compose. apply list_elem_of_fmap.
  exists r. split; [by rewrite <-Hname|]. apply elem_of_reverse, list_elem_of_filter.
  split; [apply bool_decide_eq_true; congruence|]. apply elem_of_rows. by exists i.
Qed.

(** The rows of other names are as they were and there are no others. *)
Definition same_others (ns : list string) (d d' : database) : Prop :=
∀ i r, name r ∉ ns → t_rows t d' !! i = Some r ↔ t_rows t d !! i = Some r.

(** From [s] to [s'] only rows with names among [ns] were written. *)
Record advanced (ns : list string) (s s' : session) : Prop := {
adv_tidy : tidy s';
adv_only : db s' = t_set t (t_rows t (db s')) (db s);
adv_clock : clock s' = clock s;
adv_effects : effects s' = effects s;
adv_uuid : next_uuid s ≤ next_uuid s';
adv_others : same_others ns (db s) (db s');
}.

(** One row was written. *)
Definition wrote (s s' : session) (r : R) : Prop := advanced [name r] s s' ∧ t_rows t (db s') !! t_id t r = Some r.

Lemma advanced_refl s : tidy s → advanced [] s s.
Proof using Type*. intros H. split; [done|by rewrite t_set_rows|done|done|lia|done]. Qed.

Lemma advanced_tick s : tidy s → advanced [] s (tick s).
Proof using Type*. intros H. split; [exact H|by rewrite t_set_rows|done|done|cbn; lia|done]. Qed.

Lemma advanced_trans ns ms s1 s2 s3 : advanced ns s1 s2 → advanced ms s2 s3 → advanced (ns ++ ms) s1 s3.
Proof using Type*.
intros H1 H2. split; [apply H2| |by rewrite (adv_clock _ _ _ H2), (adv_clock _ _ _ H1)|by rewrite (adv_effects _ _ _ H2), (adv_effects _ _ _ H1)| |].
- etrans; [apply H2|]. rewrite (adv_only _ _ _ H1). apply named_set_set.
- etrans; [apply H1|apply H2].
- intros i r [Hn Hm]%not_elem_of_app. etrans; [by apply (adv_others _ _ _ H2)|by apply (adv_others _ _ _ H1)].
Qed.

Lemma advanced_row ns s s' i r : advanced ns s s' → name r ∉ ns → t_rows t (db s) !! i = Some r → t_rows t (db s') !! i = Some r.
Proof using Type. intros H Hn. by apply (adv_others _ _ _ H). Qed.

Lemma advanced_knows ns s s' known known' n : advanced ns s s' → n ∉ ns → known' !! n = known !! n →
knows (db s) known n → knows (db s') known' n.
Proof using Type.
intros H Hn E. unfold knows. rewrite E. destruct (known !! n) as [i|].
- intros (r & Hr & <-). exists r. split; [|done]. by eapply advanced_row.
- intros Hno i r Hr <-. apply (adv_others _ _ _ H) in Hr; [|done]. by eapply Hno.
Qed.

(** Writing [r] over a row of the same name, or under a free id. *)
Lemma put_wrote s s' r : tidy s' → db s' = put t r (db s) → clock s' = clock s → effects s' = effects s → next_uuid s ≤ next_uuid s' →
(∀ e, t_rows t (db s) !! t_id t r = Some e → name e = name r) → wrote s s' r.
Proof using Type*.
intros Ht Hd Hc He Hn Hold. split; [|by rewrite Hd; apply (lookup_put t)]. split; [done| |done..|].
- rewrite Hd. unfold put. by rewrite t_rows_set.
- intros i r0 Hne%not_elem_of_cons. destruct Hne as [Hne _]. rewrite Hd. unfold put. rewrite t_rows_set, lookup_insert.
  case_decide as Hi; [|done]. subst i. split; [by intros [= <-]|]. intros E. by apply Hold in E.
Qed.

Lemma create_named mk s : tidy s →
(∀ i now, t_id t (mk i now) = i) → (∀ i now, ok (mk i now)) →
(∀ i now j r, t_rows t (db s) !! j = Some r → name r ≠ name (mk i now)) →
∃ r s', create t mk s = (Ok r, s') ∧ r = mk (next_uuid s) (clock s (ticks s)) ∧ wrote s s' r.
Proof using Type*.
intros (Hk & Hu & Hf) Hid Hok Hfree. rewrite create_run. cbv zeta. set (r := mk _ _).
assert (t_id t r = next_uuid s) as Er by apply Hid. rewrite Er, Hf by lia.
rewrite (named_new (ok := ok) (name := name)) by (apply Hok || apply Hfree).
exists r, (with_db (put t r) (tick (issue s))). split_and!; [done|done|].
apply put_wrote; [|done|done|done|cbn; lia|intros e He; rewrite Er, Hf in He; [done|lia]]. split_and!; cbn [db with_db tick issue next_uuid].
- by apply keyed_put.
- intros i j a b. unfold put. rewrite !t_rows_set, !lookup_insert. destruct (decide _) as [<-|Hi], (decide _) as [<-|Hj]; [done| | |apply Hu].
  + intros [= <-] Hb E. by destruct (Hfree (next_uuid s) (clock s (ticks s)) j b Hb).
  + intros Ha [= <-] E. by destruct (Hfree (next_uuid s) (clock s (ticks s)) i a Ha).
- intros i Hi. rewrite (lookup_put_ne t) by lia. apply Hf. lia.
Qed.

Lemma update_named f i e s : tidy s → t_rows t (db s) !! i = Some e →
(∀ r, t_id t (f r) = t_id t r) → (∀ now, ok (f (t_touch t now e))) → (∀ now, name (f (t_touch t now e)) = name e) →
∃ now s', update_by_id t i f s = (Ok (Some (f (t_touch t now e))), s') ∧ wrote s s' (f (t_touch t now e)).
Proof using Type*.
intros (Hk & Hu & Hf) He Hid Hok Hname. rewrite update_run, He. cbv zeta. exists (clock s (ticks s)). set (r := f _).
rewrite (named_same (ok := ok) (name := name)) by (apply Hok || apply Hname).
assert (t_id t r = i) as Er by (unfold r; rewrite Hid, t_id_touch; by apply Hk).
exists (with_db (put t r) (tick s)). cbn [db with_db tick]. rewrite <-Er at 1. rewrite (lookup_put t r (db s)). split; [done|].
apply put_wrote; [|done|done|done|cbn; lia|intros e'; rewrite Er, He; intros [= <-]; symmetry; apply Hname].
split_and!; cbn [db with_db tick next_uuid].
- by apply keyed_put.
- intros j k a b. unfold put. rewrite !t_rows_set, !lookup_insert, Er.
  destruct (decide _) as [<-|Hj], (decide _) as [<-|Hj']; [done| | |apply Hu].
  + intros [= <-] Hb E. unfold r in E. rewrite Hname in E. by apply (Hu i k e b).
  + intros Ha [= <-] E. unfold r in E. rewrite Hname in E. by apply (Hu j i a e).
- intros j Hj. rewrite (lookup_put_ne t); [by apply Hf|]. rewrite Er. intros ->. rewrite Hf in He; [done|lia].
Qed.
End Named.

(** * The bootstrap converges *)

(** ** Transport profiles *)

Definition transport_settled (d : database) (names : gmap string Z) (p : ArtifactProfile) : Prop :=
  ∃ i r, names !! ap_name p = Some i ∧ transport_profiles d !! i = Some r ∧ _transport_needs_update r p = false.

Lemma needs_update_false r p : _transport_needs_update r p = false ↔ r = desired_transport p (tp_id r) (tp_updated_at r).
Proof.
  unfold _transport_needs_update. rewrite !orb_false_iff, !negb_false_iff, !bool_decide_eq_true, Z.eqb_eq.
  split; [|intros ->; cbn; tauto]. destruct r; cbn. intros; destruct_and!; subst. done.
Qed.

Notation transports_advanced := (advanced profiles_tbl tp_name).

(** What one profile does: it is settled afterwards, under its name. *)
Lemma sync_transport_step names t p l s : tidy profiles_tbl tp_name s → knows profiles_tbl tp_name (db s) names (ap_name p) →
  1 ≤ ap_port p ≤ 65535 →
  ∃ names' t' s', sync_transports false names t (p :: l) s = sync_transports false names' t' l s' ∧
    transports_advanced [ap_name p] s s' ∧ transport_settled (db s') names' p ∧ (∀ n, n ≠ ap_name p → names' !! n = names !! n).
Proof.
  intros Ht Hk Hp. cbn [sync_transports]. unfold knows in Hk. unfold mbind at 1, M_bind at 1.
  destruct (names !! ap_name p) as [i|] eqn:En.
  - destruct Hk as (e & He & Hname). unfold get_by_id at 1, read, gets. rewrite He.
    destruct (_transport_needs_update e p) eqn:Eu; cbn [negb andb].
    + destruct (update_named profiles_tbl tp_name _ (λ r, desired_transport p (tp_id r) (tp_updated_at r)) i e s Ht He)
        as (now & s' & E & Hw); [done|done|done|].
      assert (tp_id e = i) as Hid by (by apply Ht).
      eexists names, _, s'. split; [unfold mbind, M_bind; rewrite Hid, E; reflexivity|].
      destruct Hw as [Hadv Hrow]. split_and!; [exact Hadv| |done]. exists i. eexists. split_and!; [done|rewrite <-Hid; exact Hrow|].
      by apply needs_update_false.
    + assert (tp_is_active e = true) as -> by (apply needs_update_false in Eu; by rewrite Eu).
      exists names, t, s. split_and!; [done| | |done]; [|by exists i, e].
      pose proof (advanced_refl profiles_tbl tp_name _ s Ht) as []. by split.
  - destruct (create_named profiles_tbl tp_name _ (desired_transport p) s Ht) as (r & s' & E & -> & Hadv & Hrow); [done|done| |].
    { intros i now j r Hr. cbn. by eapply Hk. }
    cbn [mret M_ret]. eexists _, _, s'. split; [unfold mbind, M_bind; rewrite E; reflexivity|].
    split_and!; [exact Hadv| |intros n Hn; by apply lookup_insert_ne].
    eexists _, _. split_and!; [apply lookup_insert_eq|exact Hrow|by apply needs_update_false].
Qed.

Lemma settled_kept ns s s' names names' p : transports_advanced ns s s' → ap_name p ∉ ns → names' !! ap_name p = names !! ap_name p →
  transport_settled (db s) names p → transport_settled (db s') names' p.
Proof.
  intros Ha Hn En (i & r & Hi & Hr & Hu). exists i, r. split_and!; [by rewrite En| |done].
  eapply (advanced_row profiles_tbl tp_name _ s s' i r Ha); [|exact Hr]. apply needs_update_false in Hu. by rewrite Hu.
Qed.

Lemma sync_transports_run l : ∀ names t s, tidy profiles_tbl tp_name s →
  (∀ p, p ∈ l → knows profiles_tbl tp_name (db s) names (ap_name p) ∧ 1 ≤ ap_port p ≤ 65535) → NoDup (ap_name <$> l) →
  ∃ names' t' s', sync_transports false names t l s = (Ok (names', t'), s') ∧ transports_advanced (ap_name <$> l) s s' ∧
    (∀ p, p ∈ l → transport_settled (db s') names' p) ∧ (∀ n, n ∉ ap_name <$> l → names' !! n = names !! n).
Proof.
  induction l as [|p l IH]; intros names t s Ht Hl Hnd.
  { exists names, t, s. split_and!; [done|apply (advanced_refl profiles_tbl tp_name _ s Ht)| |done]. by intros p ?%not_elem_of_nil. }
  cbn [fmap list_fmap] in Hnd |- *. apply NoDup_cons in Hnd as [Hp Hnd]. destruct (Hl p ltac:(left)) as [Hk Hport].
  destruct (sync_transport_step names t p l s Ht Hk Hport) as (names1 & t1 & s1 & -> & Ha & Hs & Hn).
  destruct (IH names1 t1 s1) as (names2 & t2 & s2 & E & Ha2 & Hs2 & Hn2); [apply Ha| |done|].
  { intros q Hq. destruct (Hl q ltac:(by right)) as [Hkq Hpq]. split; [|done].
    assert (ap_name q ≠ ap_name p) by (intros Eq; apply Hp; rewrite <-Eq; by apply list_elem_of_fmap_2).
    eapply (advanced_knows profiles_tbl tp_name); [exact Ha|by rewrite list_elem_of_singleton|by apply Hn|done]. }
  exists names2, t2, s2. split_and!; [exact E| | |].
  - apply (advanced_trans profiles_tbl tp_name _ [_] _ s s1 s2 Ha Ha2).
  - intros q [->|Hq]%elem_of_cons; [|by apply Hs2]. eapply settled_kept; [exact Ha2|done|by apply Hn2|done].
  - intros n [Hne Hnl]%not_elem_of_cons. by rewrite Hn2, Hn.
Qed.

(** A second time nothing is done. *)
Lemma sync_transports_idle dry names t l s : (∀ p, p ∈ l → transport_settled (db s) names p) →
  sync_transports dry names t l s = (Ok (names, t), s).
Proof.
  revert t. induction l as [|p l IH]; intros t Hl; [done|]. destruct (Hl p ltac:(left)) as (i & r & Hi & Hr & Hu).
  cbn [sync_transports]. rewrite Hi. unfold mbind at 1, M_bind at 1, get_by_id, read, gets. cbn [t_rows profiles_tbl]. rewrite Hr, Hu.
  assert (tp_is_active r = true) as -> by (apply needs_update_false in Hu; by rewrite Hu).
  cbn [negb andb]. apply IH. intros q Hq. apply Hl. by right.
Qed.

(** ** Routes *)

(** A route that leads where it should, with the weight, and that needs no recovery. *)
Record at_rest (w : Z) (recover_ : bool) (backend : Z) (entry : option Z) (profile : Z) (r : Route) : Prop := {
  ar_node : route_node_id r = backend;
  ar_entry : route_entry_node_id r = entry;
  ar_profile : route_transport_profile_id r = profile;
  ar_active : route_is_active r = true;
  ar_base : base_weight r = w;
  ar_weight : 0 ≤ effective_weight r ≤ w;
  ar_healthy : recover_ = true → to_recover (health_status r) = false ∧ 0 < effective_weight r;
}.

Lemma at_rest_idle w rec backend entry profile r s : at_rest w rec backend entry profile r →
  _build_route_update r backend entry (Some profile) w rec s = (Ok None, s).
Proof.
  intros [H1 H2 H3 H4 H5 H6 H7]. unfold _build_route_update. change (default (route_transport_profile_id r) (Some profile)) with profile.
  assert (structural_change r backend entry profile = false) as Es.
  { unfold structural_change. by rewrite H1, H2, H3, !Z.eqb_refl, bool_decide_true. }
  rewrite Es, H4, H5, Z.eqb_refl. cbn [negb orb andb].
  assert (rec && (to_recover (health_status r) || (effective_weight r <=? 0)) = false) as Er.
  { destruct rec; [|done]. destruct H7 as [-> Hw]; [done|]. by apply Z.leb_gt in Hw as ->. }
  rewrite Er. unfold bootstrap_state. rewrite H5, Z.eqb_refl. cbn [negb andb]. rewrite Er.
  unfold lift, mbind, M_bind, mret, M_ret. rewrite bool_decide_true; [done|].
  unfold reactivated. cbn. rewrite Z.min_r, Z.max_r by lia. destruct r; cbn in *. by subst.
Qed.

Lemma written_at_rest w rec backend entry profile r old : at_rest w rec backend entry profile r → at_rest w rec backend entry profile (written_route r old).
Proof. intros []. by split. Qed.

Lemma recovery_run w now : 0 < w ≤ 100 → resolve_bootstrap_recovery w now =
  Ok {| rs_health_status := warming_up; rs_effective_weight := Z.min w 10; rs_cooldown_until := None; rs_warmup_stage := Some 0;
        rs_warmup_started_at := Some now |}.
Proof.
  intros Hw. unfold resolve_bootstrap_recovery, initial_warmup_weight. rewrite (proj2 (Z.leb_gt w 0)) by lia.
  change (mk_RouteStateResolution warming_up (Z.min w 10) None (Some 0) (Some now) = Ok {| rs_health_status := warming_up;
    rs_effective_weight := Z.min w 10; rs_cooldown_until := None; rs_warmup_stage := Some 0; rs_warmup_started_at := Some now |}).
  apply mk_RouteStateResolution_ok. lia.
Qed.

(** The state is one that stays. *)
Lemma bootstrap_state_rests e reset w rec now backend entry profile : 0 ≤ w ≤ 100 → (rec = true → 0 < w) →
  ∃ st, bootstrap_state e reset w rec now = Ok st ∧ at_rest w rec backend entry profile (reactivated e backend entry profile w st).
Proof.
  intros Hw Hrec. unfold bootstrap_state. cbv zeta. set (clamped := if negb (base_weight e =? w) && negb reset then _ else effective_weight e). destruct reset.
  - eexists. split; [reflexivity|]. split; [done..|cbn; lia|cbn; intros ?%Hrec; split; [done|lia]].
  - destruct (rec && _) eqn:E.
    + apply andb_prop in E as [-> _]. rewrite recovery_run by (specialize (Hrec eq_refl); lia). eexists. split; [reflexivity|].
      specialize (Hrec eq_refl). split; [done..|cbn; lia|cbn; intros _; split; [done|lia]].
    + eexists. split; [reflexivity|]. split; [done..|cbn; lia|cbn; intros ->]. cbn in E. apply orb_false_iff in E as [-> Hc%Z.leb_gt].
      specialize (Hrec eq_refl). split; [done|lia].
Qed.

Lemma route_update_rests e backend entry profile w rec s : 0 ≤ w ≤ 100 → (rec = true → 0 < w) →
  ∃ u s', _build_route_update e backend entry (Some profile) w rec s = (Ok u, s') ∧ (s' = s ∨ s' = tick s) ∧
    at_rest w rec backend entry profile (default e u) ∧ route_name (default e u) = route_name e.
Proof.
  intros Hw Hrec. unfold _build_route_update. change (default (route_transport_profile_id e) (Some profile)) with profile. cbv zeta.
  unfold mbind at 1, M_bind at 1. set (reset := structural_change _ _ _ _ || _). destruct (negb reset && _ && _).
  - destruct (bootstrap_state_rests e reset w rec (clock s (ticks s)) backend entry profile Hw Hrec) as (st & E & Hr).
    unfold utcnow, mbind, M_bind. rewrite E. cbn [lift mret M_ret]. eexists _, _. split; [reflexivity|]. split; [by right|].
    case_bool_decide as Heq; cbn [default from_option id]; [rewrite Heq in Hr; by split|by split].
  - destruct (bootstrap_state_rests e reset w rec 0 backend entry profile Hw Hrec) as (st & E & Hr).
    cbn [mret M_ret]. unfold mbind, M_bind. rewrite E. cbn [lift mret M_ret]. eexists _, _. split; [reflexivity|]. split; [by left|].
    case_bool_decide as Heq; cbn [default from_option id]; [rewrite Heq in Hr; by split|by split].
Qed.

Notation routes_advanced := (advanced routes_tbl route_name).

Section Matrix.
Context (env : ArtifactEnv) (p : ArtifactRoutesBootstrapIn) (transports : gmap string Z) (all : list cell).
Hypothesis weight_valid : 0 ≤ route_base_weight p ≤ 100.
Hypothesis weight_recovers : recover_unhealthy_routes p = true → 0 < route_base_weight p.
(** Different cells have different route names. *)
Hypothesis names_differ : ∀ c c', c ∈ all → c' ∈ all → cell_name env c = cell_name env c' → c = c'.
Hypothesis transports_known : ∀ c, c ∈ all → is_Some (transports !! c.2).

(** The cell has its route. *)
Definition rested (d : database) (c : cell) : Prop :=
∃ i r profile, transports !! c.2 = Some profile ∧ routes d !! i = Some r ∧ route_name r = cell_name env c ∧
  at_rest (route_base_weight p) (recover_unhealthy_routes p) (node_id c.1.1) (node_id <$> c.1.2) profile r.

Lemma rested_kept ns s s' c : routes_advanced ns s s' → cell_name env c ∉ ns → rested (db s) c → rested (db s') c.
Proof using Type.
intros Ha Hn (i & r & pr & Hp & Hr & Hname & Hrest). exists i, r, pr. split_and!; [done| |done|done].
eapply (advanced_row routes_tbl route_name _ s s' i r Ha); [by rewrite Hname|exact Hr].
Qed.

Lemma sync_route_step known t c l s : dry_run p = false → c ∈ all → tidy routes_tbl route_name s →
knows routes_tbl route_name (db s) known (cell_name env c) →
∃ known' t' s', sync_routes env p transports known t (c :: l) s = sync_routes env p transports known' t' l s' ∧
  routes_advanced [cell_name env c] s s' ∧ rested (db s') c ∧ knows routes_tbl route_name (db s') known' (cell_name env c) ∧
  (∀ n, n ≠ cell_name env c → known' !! n = known !! n).
Proof using transports_known weight_recovers weight_valid.
intros Hdry Hc Ht Hk. destruct (transports_known c Hc) as [pr Hpr]. cbn [sync_routes]. unfold lookup_route at 1, mbind at 1, M_bind at 1.
unfold knows in Hk. destruct (known !! cell_name env c) as [i|] eqn:En.
- destruct Hk as (e & He & Hname). unfold get_by_id at 1, read, gets. rewrite He, Hpr, Hdry. unfold mbind at 1, M_bind at 1.
  destruct (route_update_rests e (node_id c.1.1) (node_id <$> c.1.2) pr _ _ s weight_valid weight_recovers) as (u & s1 & E & Hs1 & Hr & Hrn).
  rewrite E. assert (Ht1 : tidy routes_tbl route_name s1) by (destruct Hs1 as [->| ->]; exact Ht).
  assert (He1 : routes (db s1) !! i = Some e) by (destruct Hs1 as [->| ->]; exact He).
  assert (Ha1 : routes_advanced [] s s1).
  { destruct Hs1 as [->| ->]; [by apply (advanced_refl routes_tbl route_name _)|by apply (advanced_tick routes_tbl route_name _)]. }
  assert (route_id e = i) as Hid by (by apply Ht). destruct u as [r|]; cbn [default from_option id] in Hr, Hrn.
  + destruct (update_named routes_tbl route_name _ (written_route r) i e s1 Ht1 He1) as (now & s2 & E2 & Ha2 & Hrow2);
      [done|intros now; cbn; rewrite (ar_base _ _ _ _ _ _ Hr); apply Hr|intros now; exact Hrn|].
    eexists known, _, s2. split; [unfold mbind, M_bind; rewrite Hid, E2; reflexivity|].
    change (t_id routes_tbl (written_route r (t_touch routes_tbl now e))) with (route_id e) in Hrow2. rewrite Hid in Hrow2.
    assert (route_name (written_route r (t_touch routes_tbl now e)) = cell_name env c) as Hn2 by (by cbn; rewrite Hrn).
    split_and!; [| | |done].
    * rewrite Hn2 in Ha2. exact (advanced_trans routes_tbl route_name _ [] _ s s1 s2 Ha1 Ha2).
    * eexists i, _, pr. split_and!; [done|exact Hrow2|exact Hn2|by apply written_at_rest].
    * unfold knows. rewrite En. eexists. split; [exact Hrow2|exact Hn2].
  + exists known, t, s1. split_and!; [done| | |unfold knows; rewrite En; by exists e|done].
    * destruct Ha1. split; [done..|]. intros j x _. by apply adv_others0, not_elem_of_nil.
    * exists i, e, pr. by split_and!.
- cbn [mret M_ret]. rewrite Hdry, Hpr.
  destruct (create_named routes_tbl route_name _ (new_route env p c pr) s Ht) as (r & s' & E & -> & Ha & Hrow);
    [done|intros; cbn; lia|intros i now j r Hr; cbn; by eapply Hk|].
  eexists _, _, s'. split; [unfold mbind, M_bind; rewrite E; reflexivity|]. split_and!.
  + exact Ha.
  + eexists _, _, pr. split_and!; [done|exact Hrow|done|]. split; [done..|cbn; lia|cbn]. intros ?%weight_recovers. by split.
  + unfold knows. rewrite lookup_insert_eq. eexists. split; [exact Hrow|done].
  + intros n Hn. by apply lookup_insert_ne.
Qed.

Lemma sync_routes_run l : ∀ known t s, dry_run p = false → (∀ c, c ∈ l → c ∈ all) → tidy routes_tbl route_name s →
(∀ c, c ∈ all → knows routes_tbl route_name (db s) known (cell_name env c)) →
∃ t' s', sync_routes env p transports known t l s = (Ok t', s') ∧ routes_advanced (cell_name env <$> l) s s' ∧ ∀ c, c ∈ l → rested (db s') c.
Proof using All.
induction l as [|c l IH]; intros known t s Hdry Hl Ht Hk.
{ exists t, s. split_and!; [done|apply (advanced_refl routes_tbl route_name _ s Ht)|]. by intros c ?%not_elem_of_nil. }
assert (Hc : c ∈ all) by (apply Hl; left).
destruct (sync_route_step known t c l s Hdry Hc Ht (Hk c Hc)) as (known1 & t1 & s1 & -> & Ha & Hr & Hk1 & Hn).
destruct (IH known1 t1 s1 Hdry) as (t2 & s2 & E & Ha2 & Hr2); [intros c' Hc'; apply Hl; by right|apply Ha| |].
{ intros c' Hc'. destruct (decide (cell_name env c' = cell_name env c)) as [->|Hne]; [done|].
  eapply (advanced_knows routes_tbl route_name); [exact Ha|by rewrite list_elem_of_singleton|by apply Hn|by apply Hk]. }
exists t2, s2. split_and!; [exact E|exact (advanced_trans routes_tbl route_name _ [_] _ s s1 s2 Ha Ha2)|].
intros c' [->|Hc']%elem_of_cons; [|by apply Hr2].
destruct (decide (cell_name env c ∈ cell_name env <$> l)) as [(c' & En & Hc')%list_elem_of_fmap|Hni].
- rewrite (names_differ c c' Hc (Hl c' ltac:(by right)) En). by apply Hr2.
- by eapply rested_kept.
Qed.

(** A second time nothing is done. *)
Lemma sync_routes_idle known t l s : tidy routes_tbl route_name s → (∀ c, c ∈ l → rested (db s) c) →
(∀ c, c ∈ l → knows routes_tbl route_name (db s) known (cell_name env c)) →
sync_routes env p transports known t l s = (Ok t, s).
Proof using Type.
intros Ht. revert t. induction l as [|c l IH]; intros t Hl Hk; [done|]. destruct (Hl c ltac:(left)) as (i & r & pr & Hpr & Hr & Hname & Hrest).
cbn [sync_routes]. specialize (Hk c ltac:(left)) as Hkc. unfold knows in Hkc. unfold lookup_route at 1, mbind at 1, M_bind at 1.
destruct (known !! cell_name env c) as [j|]; [|by destruct (Hkc i r Hr)].
destruct Hkc as (r' & Hr' & Hname'). assert (i = j) as <- by (eapply (proj1 (proj2 Ht)); [exact Hr|exact Hr'|congruence]).
unfold get_by_id, read, gets. cbn [t_rows routes_tbl]. rewrite Hr, Hpr. unfold mbind at 1, M_bind at 1. rewrite (at_rest_idle _ _ _ _ _ _ s Hrest).
apply IH; intros c' Hc'; [apply Hl|apply Hk]; by right.
Qed.
End Matrix.

(** ** Both halves *)

Lemma elem_of_cells b v n backends variants names : (b, v, n) ∈ cells backends variants names ↔ b ∈ backends ∧ v ∈ variants ∧ n ∈ names.
Proof.
  unfold cells. rewrite list_elem_of_bind. split.
  - intros (b' & (v' & (n' & Hx & Hn)%list_elem_of_bind & Hv)%list_elem_of_bind & Hb). apply list_elem_of_singleton in Hx as [= -> -> ->]. done.
  - intros (Hb & Hv & Hn). exists b. split; [|done]. apply list_elem_of_bind. exists v. split; [|done]. apply list_elem_of_bind.
    exists n. split; [by apply list_elem_of_singleton|done].
Qed.

(** The dictionary of a session leads where another did. *)
Lemma settled_known names known p s : tidy profiles_tbl tp_name s → knows profiles_tbl tp_name (db s) known (ap_name p) →
  transport_settled (db s) names p → known !! ap_name p = names !! ap_name p.
Proof.
  intros Ht Hk (i & r & Hi & Hr & Hu). apply needs_update_false in Hu as Hr'. unfold knows in Hk. rewrite Hi.
  assert (tp_name r = ap_name p) as Hn by (by rewrite Hr'). destruct (known !! ap_name p) as [j|]; [|by destruct (Hk i r Hr)].
  destruct Hk as (r2 & Hr2 & Hn2). f_equal. eapply (proj1 (proj2 Ht)); [exact Hr2|exact Hr|congruence].
Qed.

Section CarryOut.
Context (env : ArtifactEnv) (p : ArtifactRoutesBootstrapIn) (q : BootstrapPlan).
Hypothesis weight_valid : 0 ≤ route_base_weight p ≤ 100.
Hypothesis weight_recovers : recover_unhealthy_routes p = true → 0 < route_base_weight p.
Hypothesis names_differ : ∀ c c', c ∈ plan_cells q → c' ∈ plan_cells q → cell_name env c = cell_name env c' → c = c'.
Hypothesis plan_nodup : NoDup (plan_names q).
Hypothesis plan_ports : ∀ a, a ∈ bp_desired q → 1 ≤ ap_port a ≤ 65535.

(** Everything asked for is there: transports as desired, a route for every cell. *)
Definition carried (d : database) : Prop :=
∃ names, (∀ a, a ∈ bp_desired q → transport_settled d names a) ∧ ∀ c, c ∈ plan_cells q → rested env p names d c.

Definition both_tidy (s : session) : Prop := tidy profiles_tbl tp_name s ∧ tidy routes_tbl route_name s.

Lemma both_after_transports ns s s' : both_tidy s → transports_advanced ns s s' → both_tidy s' ∧ routes (db s') = routes (db s).
Proof using Type.
intros [_ (Hk & Hu & Hf)] Ha. assert (routes (db s') = routes (db s)) as E by (by rewrite (adv_only _ _ _ _ _ Ha)).
split; [|done]. split; [apply Ha|]. split_and!.
- intros i r. cbn [t_rows routes_tbl]. rewrite E. apply Hk.
- intros i j a b. cbn [t_rows routes_tbl]. rewrite E. apply Hu.
- intros i Hi. cbn [t_rows routes_tbl]. rewrite E. apply Hf. pose proof (adv_uuid _ _ _ _ _ Ha). lia.
Qed.

Lemma both_after_routes ns s s' : both_tidy s → routes_advanced ns s s' → both_tidy s' ∧ transport_profiles (db s') = transport_profiles (db s).
Proof using Type.
intros [(Hk & Hu & Hf) _] Ha. assert (transport_profiles (db s') = transport_profiles (db s)) as E by (by rewrite (adv_only _ _ _ _ _ Ha)).
split; [|done]. split; [|apply Ha]. split_and!.
- intros i r. cbn [t_rows profiles_tbl]. rewrite E. apply Hk.
- intros i j a b. cbn [t_rows profiles_tbl]. rewrite E. apply Hu.
- intros i Hi. cbn [t_rows profiles_tbl]. rewrite E. apply Hf. pose proof (adv_uuid _ _ _ _ _ Ha). lia.
Qed.

Lemma known_profiles s a : both_tidy s → a ∈ bp_desired q →
knows profiles_tbl tp_name (db s) (by_name tp_name tp_id (filter (λ r, bool_decide (tp_name r ∈ plan_names q) = true) (rows (transport_profiles (db s))))) (ap_name a).
Proof using Type. intros [(Hk & _) _] Ha. apply (by_name_knows profiles_tbl tp_name (db s) _ _ Hk). by apply list_elem_of_fmap_2. Qed.

Lemma known_routes s c : both_tidy s → c ∈ plan_cells q →
knows routes_tbl route_name (db s) (by_name route_name route_id (filter (λ r, bool_decide (route_name r ∈ cell_name env <$> plan_cells q) = true) (rows (routes (db s))))) (cell_name env c).
Proof using Type. intros [_ (Hk & _)] Hc. apply (by_name_knows routes_tbl route_name (db s) _ _ Hk). by apply list_elem_of_fmap_2. Qed.

Lemma cell_transport c : c ∈ plan_cells q → ∃ a, a ∈ bp_desired q ∧ c.2 = ap_name a.
Proof using Type.
destruct c as [[b v] n]. intros (_ & _ & Hn)%elem_of_cells. apply list_elem_of_fmap in Hn as (a & -> & Ha). by exists a.
Qed.

Lemma carry_out_run s : dry_run p = false → both_tidy s →
∃ out s1 s2, carry_out env p q s = (Ok out, s2) ∧ transports_advanced (plan_names q) s s1 ∧
  routes_advanced (cell_name env <$> plan_cells q) s1 s2 ∧ both_tidy s2 ∧ carried (db s2).
Proof using All.
intros Hdry Ht. unfold carry_out, list_profiles_by_names, select_where, read, gets. unfold mbind at 1, M_bind at 1. cbn [t_rows profiles_tbl].
rewrite Hdry. destruct (sync_transports_run (bp_desired q) (by_name tp_name tp_id (filter (λ r, bool_decide (tp_name r ∈ plan_names q) = true)
  (rows (transport_profiles (db s))))) no_tally s) as (names & t1 & s1 & E1 & Ha1 & Hs1 & _); [apply Ht| |done|].
{ intros a Ha. split; [by apply known_profiles|by apply plan_ports]. }
unfold mbind at 1, M_bind at 1. rewrite E1. destruct (both_after_transports _ _ _ Ht Ha1) as [Ht1 Hr1].
unfold list_routes_by_names, select_where, read, gets. unfold mbind at 1, M_bind at 1. cbn [t_rows routes_tbl fst].
destruct (sync_routes_run env p names (plan_cells q) weight_valid weight_recovers names_differ) with (l := plan_cells q) (s := s1) (t := no_tally)
  (known := by_name route_name route_id (filter (λ r, bool_decide (route_name r ∈ cell_name env <$> plan_cells q) = true) (rows (routes (db s1)))))
  as (t2 & s2 & E2 & Ha2 & Hs2); [|done|done|apply Ht1|intros c Hc; by apply known_routes|].
{ intros c Hc. destruct (cell_transport c Hc) as (a & Ha & ->). destruct (Hs1 a Ha) as (i & r & Hi & _). by exists i. }
unfold mbind at 1, M_bind at 1. rewrite E2. cbn [mret M_ret]. destruct (both_after_routes _ _ _ Ht1 Ha2) as [Ht2 Hp2].
eexists _, s1, s2. split_and!; [reflexivity|exact Ha1|exact Ha2|done|]. exists names. split; [|done].
intros a Ha. destruct (Hs1 a Ha) as (i & r & Hi & Hr & Hu). exists i, r. by rewrite Hp2.
Qed.

(** What was carried out is not done again, nor counted. *)
Lemma carry_out_idle s : both_tidy s → carried (db s) →
∃ out, carry_out env p q s = (Ok out, s) ∧ bt_transports out = no_tally ∧ bt_routes out = no_tally.
Proof using Type.
intros Ht (names & Hs & Hr). unfold carry_out, list_profiles_by_names, select_where, read, gets. unfold mbind at 1, M_bind at 1.
cbn [t_rows profiles_tbl]. set (known := by_name tp_name tp_id _).
assert (Hknown : ∀ a, a ∈ bp_desired q → known !! ap_name a = names !! ap_name a).
{ intros a Ha. eapply settled_known; [apply Ht|by apply known_profiles|by apply Hs]. }
unfold mbind at 1, M_bind at 1. rewrite sync_transports_idle.
2: { intros a Ha. destruct (Hs a Ha) as (i & r & Hi & Hrow). exists i, r. by rewrite Hknown. }
unfold list_routes_by_names, select_where, read, gets. unfold mbind at 1, M_bind at 1. cbn [t_rows routes_tbl fst].
unfold mbind at 1, M_bind at 1. rewrite (sync_routes_idle env p known); [|apply Ht| |].
- eexists. split; [reflexivity|done].
- intros c Hc. destruct (Hr c Hc) as (i & r & pr & Hpr & H). exists i, r, pr. split; [|done].
  destruct (cell_transport c Hc) as (a & Ha & En). by rewrite En, Hknown, <-En.
- intros c Hc. by apply known_routes.
Qed.
End CarryOut.

(** ** What the first half depends on *)

(** Nothing is changed, and only nodes and artifacts are read. *)
Definition surveys {A} (m : SM A) (s : session) : Prop :=
  ∃ o, ∀ s', nodes (db s') = nodes (db s) → profile_artifacts (db s') = profile_artifacts (db s) → m s' = (o, s').

Lemma surveys_bind {A B} (m : SM A) (f : A → SM B) s : surveys m s → (∀ a, surveys (f a) s) → surveys (m ≫= f) s.
Proof.
  intros [o Ho] Hf. destruct o as [a|e].
  - destruct (Hf a) as [o2 Ho2]. exists o2. intros s' H1 H2. unfold mbind, M_bind. rewrite (Ho s' H1 H2). by apply Ho2.
  - exists (Raise e). intros s' H1 H2. unfold mbind, M_bind. by rewrite (Ho s' H1 H2).
Qed.

Lemma surveys_ret {A} (a : A) s : surveys (mret a) s.
Proof. by exists (Ok a). Qed.
Lemma surveys_raise {A} e s : surveys (raise e : SM A) s.
Proof. by exists (Raise e). Qed.
Lemma surveys_raise_if c e s : surveys (raise_if c e : SM unit) s.
Proof. destruct c; [apply surveys_raise|apply surveys_ret]. Qed.
Lemma surveys_lift {A} (r : res A) s : surveys (lift r) s.
Proof. destruct r; [apply surveys_ret|apply surveys_raise]. Qed.
Lemma surveys_nodes P s : surveys (select_where nodes_tbl P) s.
Proof. eexists. intros s' H _. unfold select_where, read, gets. cbn [t_rows nodes_tbl]. by rewrite H. Qed.
Lemma surveys_artifacts P s : surveys (select_where artifacts_tbl P) s.
Proof. eexists. intros s' _ H. unfold select_where, read, gets. cbn [t_rows artifacts_tbl]. by rewrite H. Qed.

Lemma surveys_scalar {A} (l : list A) s : surveys (scalar_one_or_none l) s.
Proof. destruct l as [|a [|b l]]; [apply surveys_ret|apply surveys_ret|apply surveys_raise]. Qed.

Create HintDb surveys.
#[local] Hint Resolve surveys_ret surveys_raise surveys_raise_if surveys_lift surveys_nodes surveys_artifacts surveys_scalar : surveys.
Ltac surveys_tac := repeat first [apply surveys_bind; [|intros] | progress eauto with surveys | case_match].

Lemma surveys_backends ids s : surveys (_resolve_target_backends ids) s.
Proof. unfold _resolve_target_backends, list_public, list_target_nodes_by_ids. surveys_tac. Qed.
Lemma surveys_entries ids s : surveys (_resolve_target_entry_nodes ids) s.
Proof. unfold _resolve_target_entry_nodes, list_target_nodes_by_ids. surveys_tac. Qed.
Lemma surveys_active s : surveys get_active_or_error s.
Proof. unfold get_active_or_error, get_active_artifact. surveys_tac. Qed.
#[local] Hint Resolve surveys_backends surveys_entries surveys_active : surveys.

Lemma surveys_prepare env p s : surveys (prepare_bootstrap env p) s.
Proof. unfold prepare_bootstrap, _validate_matrix_expectations, expect. surveys_tac. Qed.

(** ** The plan *)

Lemma mk_profile_port key name net sec c n a : mk_profile key name net sec c n = Ok a → ap_name a = name ∧ 1 ≤ ap_port a ≤ 65535.
Proof. unfold mk_profile. destruct (_ && _) eqn:E; [|done]. intros [= <-]. split; [done|]. cbn. lia. Qed.

Lemma map_item_profile sha1 cfg used k raw a : map_item sha1 cfg used k raw = Ok (inl a) → ap_name a ∉ used ∧ 1 ≤ ap_port a ≤ 65535.
Proof.
  unfold map_item. destruct (negb _); [done|]. destruct (as_obj raw) as [o|]; [|done]. case_bool_decide as Hu; [done|].
  assert (Hmk : ∀ net sec c n, (x ← mk_profile (py_strip k) (normalize_name sha1 (py_strip k) 100) net sec c n; Ok (inl x : ArtifactProfile + string)) = Ok (inl a) →
    ap_name a ∉ used ∧ 1 ≤ ap_port a ≤ 65535).
  { intros net sec c n. unfold mbind, res_bind. destruct (mk_profile _ _ _ _ _ _) as [x|e] eqn:E; [|done]. intros [= ->].
    apply mk_profile_port in E as [-> Hp]. done. }
  destruct (validate_profile o) as [[| |]|]; [destruct (include_ws_tls cfg)|destruct (include_reality_tcp cfg)|destruct (include_xhttp cfg)|];
    (apply Hmk || done).
Qed.

Lemma map_items_names sha1 cfg l : ∀ used ds sk, map_items sha1 cfg used l = Ok (ds, sk) →
  NoDup (ap_name <$> ds) ∧ ∀ a, a ∈ ds → ap_name a ∉ used ∧ 1 ≤ ap_port a ≤ 65535.
Proof.
  induction l as [|[k raw] l IH]; intros used ds sk; cbn [map_items].
  { intros [= <- <-]. split; [apply NoDup_nil_2|]. by intros a ?%not_elem_of_nil. }
  unfold mbind at 1, res_bind at 1. destruct (map_item sha1 cfg used k raw) as [[a|why]|e] eqn:E; [| |done]; unfold mbind, res_bind.
  - destruct (map_items sha1 cfg _ l) as [[ds' sk']|e'] eqn:E'; [|done]. intros [= <- <-]. destruct (IH _ _ _ E') as [Hnd Hl].
    apply map_item_profile in E as [Hu Hp]. split.
    + cbn. apply NoDup_cons. split; [|done]. intros (b & Eb & Hb)%list_elem_of_fmap. destruct (Hl b Hb) as [Hnb _]. set_solver.
    + intros b [->|Hb]%elem_of_cons; [done|]. destruct (Hl b Hb). split; [set_solver|done].
  - destruct (map_items sha1 cfg used l) as [[ds' sk']|e'] eqn:E'; [|done]. intros [= <- <-]. by apply (IH _ _ _ E').
Qed.

Definition eligible_backend (n : VpnNode) : Prop := in_service n = true ∧ normalized_node_role n = Some role_backend.

Lemma target_backends_eligible ids s l s' : _resolve_target_backends ids s = (Ok l, s') → ∀ n, n ∈ l → eligible_backend n.
Proof.
  unfold _resolve_target_backends. unfold mbind at 1, M_bind at 1. destruct (_ s) as [[l0|e] s0]; [|done]. intros [= <- <-] n Hn.
  apply list_elem_of_filter in Hn as [[H1 H2]%andb_prop _]. split; [done|]. by apply bool_decide_eq_true in H2.
Qed.

(** What a plan guarantees. *)
Record plan_ok (p : ArtifactRoutesBootstrapIn) (q : BootstrapPlan) : Prop := {
  po_weight : 0 ≤ route_base_weight p ≤ 100;
  po_names : NoDup (plan_names q);
  po_ports : ∀ a, a ∈ bp_desired q → 1 ≤ ap_port a ≤ 65535;
  po_backends : ∀ n, n ∈ bp_backends q → eligible_backend n;
  po_profiles : bp_desired q ≠ [];
  po_some : bp_backends q ≠ [];
}.

Lemma bind_ok {A B} (m : SM A) (f : A → SM B) s b s' : (m ≫= f) s = (Ok b, s') → ∃ a s1, m s = (Ok a, s1) ∧ f a s1 = (Ok b, s').
Proof. unfold mbind, M_bind. destruct (m s) as [[a|e] s1]; [|done]. by exists a, s1. Qed.

Lemma raise_if_ok {A} c e (m : SM A) s b s' : (raise_if c e ;; m) s = (Ok b, s') → c = false ∧ m s = (Ok b, s').
Proof. unfold mbind, M_bind. by destruct c. Qed.

Lemma prepare_plan env p s q s' : prepare_bootstrap env p s = (Ok q, s') → plan_ok p q.
Proof.
  unfold prepare_bootstrap. intros [Hv H]%raise_if_ok. apply bind_ok in H as (a & s1 & _ & H). apply bind_ok in H as ([[ds sk] total] & s2 & Em & H).
  apply raise_if_ok in H as [Hd H]. apply bind_ok in H as (bs & s3 & Eb & H). apply raise_if_ok in H as [Hb H].
  apply bind_ok in H as (es & s4 & _ & H). apply bind_ok in H as ([] & s5 & _ & H). injection H as <- _.
  apply negb_false_iff in Hv. unfold bootstrap_valid in Hv. rewrite !andb_true_iff in Hv. apply bool_decide_eq_false in Hd, Hb.
  assert (map_items (sha1_hex env) (mapper_of p) ∅ (order_by_name fst (pa_artifact a)) = Ok (ds, sk)) as Hmap.
  { unfold map_artifact, mbind, res_bind in Em. destruct (map_items _ _ _ _) as [[x y]|e]; [|done]. cbn in Em. by injection Em as <- <- _ _. }
  apply map_items_names in Hmap as [Hnd Hl]. split; cbn.
  - lia.
  - exact Hnd.
  - intros x Hx. by apply Hl.
  - by eapply target_backends_eligible.
  - intros ->. done.
  - intros ->. done.
Qed.

Definition with_dry (b : bool) (p : ArtifactRoutesBootstrapIn) : ArtifactRoutesBootstrapIn :=
  {| bi_backend_node_ids := bi_backend_node_ids p; bi_entry_node_ids := bi_entry_node_ids p; bi_include_reality_tcp := bi_include_reality_tcp p;
     bi_include_ws_tls := bi_include_ws_tls p; bi_default_reality_port := bi_default_reality_port p; bi_default_ws_port := bi_default_ws_port p;
     bi_port_overrides := bi_port_overrides p; route_base_weight := route_base_weight p; recover_unhealthy_routes := recover_unhealthy_routes p;
     expected_backends_selected := expected_backends_selected p; expected_profiles_selected := expected_profiles_selected p;
     expected_routes_total := expected_routes_total p; dry_run := b |}.

(** What a run that was not refused leaves behind. *)
Record bootstrapped (env : ArtifactEnv) (p : ArtifactRoutesBootstrapIn) (q : BootstrapPlan) (d d' : database) : Prop := {
  bs_carried : carried env p q d';
  bs_only : d' = set_routes (routes d') (set_transport_profiles (transport_profiles d') d);
  bs_transports : same_others profiles_tbl tp_name (plan_names q) d d';
  bs_routes : same_others routes_tbl route_name (cell_name env <$> plan_cells q) d d';
}.

(** C26: the bootstrap converges. Take a run that is not dry, asks for a positive weight if it
    is to recover routes, and plans no two routes of one name, on consistent tables. It either
    refuses and changes nothing, or it returns and every
    backend of the plan has, directly or through each entry, an active route for every profile
    of the artifact, with the weight asked for and the transport as the artifact describes it;
    transports and routes of other names and all other tables are as they were. The same request again,
    dry or not, changes nothing and counts nothing. *)
Theorem bootstrap_converges env p s : dry_run p = false → (recover_unhealthy_routes p = true → 0 < route_base_weight p) → both_tidy s →
  (∀ q, prepare_bootstrap env p s = (Ok q, s) →
     ∀ c c', c ∈ plan_cells q → c' ∈ plan_cells q → cell_name env c = cell_name env c' → c = c') →
  (∃ e, bootstrap_routes_from_active_artifact env p s = (Raise e, s)) ∨
  ∃ q out s', prepare_bootstrap env p s = (Ok q, s) ∧ plan_ok p q ∧ bootstrap_routes_from_active_artifact env p s = (Ok out, s') ∧
    bootstrapped env p q (db s) (db s') ∧
    ∀ b, ∃ again, bootstrap_routes_from_active_artifact env (with_dry b p) s' = (Ok again, s') ∧
      bt_transports again = no_tally ∧ bt_routes again = no_tally.
Proof.
  intros Hdry Hrec Ht Hnames. destruct (surveys_prepare env p s) as [[q|e] Hprep].
  2: { left. exists e. unfold bootstrap_routes_from_active_artifact, mbind, M_bind. by rewrite Hprep. }
  pose proof (Hprep s eq_refl eq_refl) as Eq. pose proof (prepare_plan env p s q s Eq) as Hq. right.
  destruct (carry_out_run env p q (po_weight _ _ Hq) Hrec (Hnames q Eq) (po_names _ _ Hq) (po_ports _ _ Hq) s Hdry Ht)
    as (out & s1 & s2 & E & Ha1 & Ha2 & Ht2 & Hc).
  destruct (both_after_transports _ _ _ Ht Ha1) as [Ht1 Hr1]. destruct (both_after_routes _ _ _ Ht1 Ha2) as [_ Hp2].
  assert (Honly : db s2 = set_routes (routes (db s2)) (set_transport_profiles (transport_profiles (db s2)) (db s))).
  { rewrite Hp2. etrans; [apply Ha2|]. f_equal. exact (adv_only _ _ _ _ _ Ha1). }
  exists q, out, s2. split_and!; [done|done|unfold bootstrap_routes_from_active_artifact, mbind, M_bind; by rewrite Eq, E| |].
  - split; [done|exact Honly| |].
    + intros i r Hn. cbn [t_rows profiles_tbl]. rewrite Hp2. by apply (adv_others _ _ _ _ _ Ha1).
    + intros i r Hn. cbn [t_rows routes_tbl]. rewrite <-Hr1. by apply (adv_others _ _ _ _ _ Ha2).
  - intros b. destruct (carry_out_idle env (with_dry b p) q s2 Ht2 Hc) as (again & E2 & Hz). exists again. split; [|exact Hz].
    unfold bootstrap_routes_from_active_artifact, mbind, M_bind. change (prepare_bootstrap env (with_dry b p)) with (prepare_bootstrap env p).
    rewrite Hprep; [exact E2|by rewrite Honly..].
Qed.

(** * Publishing *)

Lemma latest_version_run s : ∃ v, get_latest_version s = (Ok v, s) ∧ ∀ i a, profile_artifacts (db s) !! i = Some a → pa_version a ≤ v.
Proof.
  unfold get_latest_version, mbind, M_bind, select_where, read, gets. cbn [t_rows artifacts_tbl]. set (l := filter _ _).
  eexists. split; [reflexivity|]. intros i a Ha.
  assert (a ∈ l) as Hin by (apply list_elem_of_filter; split; [done|]; apply elem_of_rows; by exists i).
  destruct (head (order_by_desc pa_version l)) as [b|] eqn:E; [exact (order_by_desc_head pa_version l b a E Hin)|].
  apply (elem_of_order_by_desc pa_version) in Hin. by destruct (order_by_desc pa_version l); [apply not_elem_of_nil in Hin|].
Qed.

(** C25: publishing a valid registry returns; the new artifact holds it, is the one that is
    active and carries the version after the latest, above those of all the others, which are
    kept with their versions, contents and checksums and are inactive. *)
Theorem publish_activates env artifact s : keyed artifacts_tbl (db s) → (∀ i, next_uuid s ≤ i → profile_artifacts (db s) !! i = None) →
  validate_artifact artifact = true →
  ∃ a s', publish_artifact env artifact s = (Ok a, s') ∧ pa_artifact a = artifact ∧
    get_latest_version s = (Ok (pa_version a - 1), s) ∧ get_active_artifact s' = (Ok (Some a), s') ∧
    ∀ i old, profile_artifacts (db s) !! i = Some old → pa_version old < pa_version a ∧
      ∃ kept, profile_artifacts (db s') !! i = Some kept ∧ pa_version kept = pa_version old ∧ pa_artifact kept = pa_artifact old ∧
        pa_checksum kept = pa_checksum old ∧ pa_is_active kept = false.
Proof.
  intros Hk Hf Hv. unfold publish_artifact. rewrite Hv. cbn [negb raise_if]. unfold mbind at 1, M_bind at 1. cbn [mret M_ret].
  destruct (latest_version_run s) as (v & Ev & Hmax). unfold mbind at 1, M_bind at 1. rewrite Ev.
  unfold deactivate_all, utcnow. fold (tick s). unfold mbind at 1, M_bind at 1. unfold mbind at 1, M_bind at 1.
  destruct (update_where_ok artifacts_tbl pa_is_active (set_inactive (clock s (ticks s))) (tick s)) as (s1 & E1 & Hk1 & Hs1 & Hr1); [done..|].
  unfold mbind at 1, M_bind at 1. fold (tick s). rewrite E1. cbn [mret M_ret]. rewrite create_run. cbv zeta. set (a := {| pa_id := next_uuid s1 |}).
  assert (next_uuid s1 = next_uuid s) as Eu by (by rewrite Hs1).
  assert (Hfree : t_rows artifacts_tbl (db s1) !! next_uuid s1 = None) by (rewrite Hr1, Eu; cbn; by rewrite Hf by lia).
  change (t_id artifacts_tbl a) with (next_uuid s1). rewrite Hfree. cbn [t_check artifacts_tbl].
  eexists a, _. split; [reflexivity|]. split; [done|]. split; [cbn; by replace (v + 1 - 1) with v by lia|]. set (s2 := with_db _ _).
  assert (Hrows : ∀ i, profile_artifacts (db s2) !! i = if decide (next_uuid s1 = i) then Some a else profile_artifacts (db s1) !! i).
  { intros i. exact (lookup_insert (profile_artifacts (db s1)) (next_uuid s1) i a). }
  assert (Hoff : ∀ i b, profile_artifacts (db s1) !! i = Some b → pa_is_active b = false).
  { intros i b. change (profile_artifacts (db s1)) with (t_rows artifacts_tbl (db s1)). rewrite Hr1. intros (o & _ & ->)%fmap_Some.
    by destruct (pa_is_active o) eqn:Eo. }
  split.
  - destruct (select_unique_run artifacts_tbl pa_is_active s2) as (o & Eo & Ho).
    + apply keyed_put; [apply _|exact Hk1].
    + intros i j x y. cbn [t_rows artifacts_tbl]. rewrite !Hrows. repeat case_decide; [congruence|..]; intros Hx Hy Ax Ay;
        [apply Hoff in Hy|apply Hoff in Hx|apply Hoff in Hx]; congruence.
    + unfold get_active_artifact. rewrite Eo. destruct o as [b|].
      * destruct Ho as [Hb Hact]. cbn [t_rows artifacts_tbl] in Hb. rewrite Hrows in Hb. case_decide; [by injection Hb as <-|].
        apply Hoff in Hb. congruence.
      * specialize (Ho (next_uuid s1) a). cbn [t_rows artifacts_tbl] in Ho. rewrite Hrows, decide_True in Ho by done. by specialize (Ho eq_refl).
  - intros i old Hold. split; [specialize (Hmax i old Hold); cbn; lia|].
    assert (i ≠ next_uuid s1) by (intros ->; rewrite Hf in Hold; [done|lia]).
    rewrite Hrows, decide_False by done. change (profile_artifacts (db s1)) with (t_rows artifacts_tbl (db s1)). rewrite Hr1. cbn.
    rewrite Hold. eexists. split; [reflexivity|]. by destruct (pa_is_active old) eqn:Eo.
Qed.

(** * On a small fleet *)

Definition store_env : ArtifactEnv := {| checksum_of := λ _, "sum"; sha1_hex := λ n, n |}.

Definition registry : list (string * json) :=
  [("Reality TCP", JObj [("type", JStr "reality_tcp"); ("display_name", JStr "Reality");
     ("client", JObj [("sni", JStr "example.org"); ("fingerprint", JStr "chrome"); ("public_key", JStr "0123456789abcdef"); ("short_id", JStr "ab")])]);
   ("cdn", JObj [("type", JStr "xhttp"); ("display_name", JStr "CDN");
     ("client", JObj [("path", JStr "x"); ("host", JStr "cdn.example.org"); ("sni", JStr "cdn.example.org")])])].

Definition stored (v : Z) (active : bool) : ProfileArtifact :=
  {| pa_id := v; pa_version := v; pa_checksum := "old"; pa_artifact := registry; pa_is_active := active; pa_created_at := 0; pa_updated_at := 0 |}.

Definition request (entries : list Z) (w : Z) (dry : bool) : ArtifactRoutesBootstrapIn :=
  {| bi_backend_node_ids := []; bi_entry_node_ids := entries; bi_include_reality_tcp := true; bi_include_ws_tls := false;
     bi_default_reality_port := 443; bi_default_ws_port := 443; bi_port_overrides := [(" cdn ", 8443)]; route_base_weight := w;
     recover_unhealthy_routes := true; expected_backends_selected := Some 2; expected_profiles_selected := None;
     expected_routes_total := None; dry_run := dry |}.

(** Two backends, an entry in service and one that is draining. *)
Definition small_fleet : database :=
  set_profile_artifacts {[3 := stored 3 true]} (set_nodes (by_id node_id [sample_node 1 "de-1" "backend" false; sample_node 2 "nl-1" "backend" false;
    sample_node 3 "ru-1" "whitelist_entry" false; sample_node 4 "ru-2" "whitelist_entry" true]) empty_db).
Definition small_session : session := session_on small_fleet 0 1000.

Lemma publish_activates_witness :
  ∃ a s', publish_artifact store_env registry small_session = (Ok a, s') ∧ pa_version a = 4 ∧ get_active_artifact s' = (Ok (Some a), s').
Proof.
  destruct (publish_activates store_env registry small_session) as (a & s' & E & _ & _ & Hact & _).
  - intros i b. cbn. intros [<- <-]%lookup_singleton_Some. reflexivity.
  - intros i Hi. cbn in *. apply lookup_singleton_ne. lia.
  - vm_compute. reflexivity.
  - exists a, s'. split; [exact E|]. split; [|exact Hact]. vm_compute in E. by injection E as <- _.
Defined.

Lemma nodup_fmap_inj {A B} (f : A → B) l x y : NoDup (f <$> l) → x ∈ l → y ∈ l → f x = f y → x = y.
Proof.
  intros Hnd [i Hi]%list_elem_of_lookup [j Hj]%list_elem_of_lookup E. assert (i = j) as ->; [|congruence].
  eapply (NoDup_lookup _ i j (f x) Hnd); rewrite list_lookup_fmap; [by rewrite Hi|by rewrite Hj, E].
Qed.

Lemma small_tidy : both_tidy small_session.
Proof. split; (split_and!; [intros i r; done|intros i j a b; done|done]). Qed.

Lemma bootstrap_converges_witness :
  let r := bootstrap_routes_from_active_artifact store_env (request [3] 50 false) small_session in
  match r.1 with
  | Ok out => tl_created (bt_transports out) = 2 ∧ tl_created (bt_routes out) = 4 ∧
      ∃ again, bootstrap_routes_from_active_artifact store_env (request [3] 50 true) r.2 = (Ok again, r.2) ∧ bt_routes again = no_tally
  | Raise _ => False
  end.
Proof.
  cbv zeta. destruct (bootstrap_routes_from_active_artifact store_env (request [3] 50 false) small_session) as [[out|e] s'] eqn:E;
    [|vm_compute in E; discriminate E].
  destruct (bootstrap_converges store_env (request [3] 50 false) small_session) as [[e He]|(q & out' & s'' & _ & _ & E' & _ & Hagain)].
  - reflexivity.
  - intros _. reflexivity.
  - exact small_tidy.
  - intros q Hq c c'. apply nodup_fmap_inj. apply (bool_decide_unpack _). vm_compute in Hq. injection Hq as <-. vm_compute. reflexivity.
  - rewrite E in He. discriminate He.
  - rewrite E in E'. injection E' as <- <-. destruct (Hagain true) as (again & Ea & _ & Hr). split; [|split].
    + vm_compute in E. by injection E as <- _.
    + vm_compute in E. by injection E as <- _.
    + exists again. split; [exact Ea|exact Hr].
Defined.

(** The bootstrap names its routes in lower case with hyphens, the entries name theirs with an
    arrow: next to the route of an entry it makes a second one for the same backend, entry and
    transport. *)
Definition auto_named : Route :=
  {| route_id := 9; route_name := canonical_route_name (Some "ru-1") "de-1" "reality-tcp"; route_node_id := 1; route_entry_node_id := Some 3;
     route_transport_profile_id := 7; health_status := healthy; base_weight := 50; effective_weight := 50; cooldown_until := None;
     warmup_stage := None; warmup_started_at := None; route_is_active := true; route_created_at := 0; route_updated_at := 0 |}.
Definition known_transport : TransportProfile :=
  {| tp_id := 7; tp_name := "reality-tcp"; tp_protocol := "vless"; network := "tcp"; security := "reality"; flow := None;
     reality_public_key := Some "0123456789abcdef"; reality_short_id := Some "ab"; reality_server_name := Some "example.org";
     tls_fingerprint := "chrome"; grpc_service_name := None; port := 443; tp_is_active := true; tp_updated_at := 0 |}.

Definition same_triple (r : Route) : bool :=
  (route_node_id r =? 1) && bool_decide (route_entry_node_id r = Some 3) && (route_transport_profile_id r =? 7) && route_is_active r.

Theorem bootstrap_doubles_entry_routes :
  let s := session_on (set_transport_profiles {[7 := known_transport]} (set_routes {[9 := auto_named]} small_fleet)) 0 1000 in
  let s' := (bootstrap_routes_from_active_artifact store_env (request [3] 50 false) s).2 in
  length (filter (λ r, same_triple r = true) (rows (routes (db s)))) = 1%nat ∧
  length (filter (λ r, same_triple r = true) (rows (routes (db s')))) = 2%nat.
Proof. cbv zeta. split; vm_compute; reflexivity. Qed.

(** Asked for routes through an entry that is draining, the bootstrap makes direct ones. *)
Theorem draining_entries_bootstrap_direct :
  let s' := (bootstrap_routes_from_active_artifact store_env (request [4] 50 false) small_session).2 in
  (route_entry_node_id <$> rows (routes (db s'))) = [None; None; None; None].
Proof. vm_compute. reflexivity. Qed.

(** With a weight of zero the recovery starts over at every run. *)
Theorem zero_weight_never_settles :
  let run := bootstrap_routes_from_active_artifact store_env (request [] 0 false) in
  let r1 := run small_session in
  let r2 := run r1.2 in
  let r3 := run r2.2 in
  match r3.1 with Ok out => tl_updated (bt_routes out) = 4 | Raise _ => False end ∧ db r3.2 ≠ db r2.2.
Proof.
  cbv zeta. split; [vm_compute; reflexivity|]. intros E. apply (f_equal (λ d, warmup_started_at <$> rows (routes d))) in E.
  vm_compute in E. discriminate E.
Qed.
